(* ===== verification/_CoqProject ===== *)
-Q . S2P
Prelude.v
Font.v
Heap.v
HeapList.v
HeapInv.v
HeapCoalesce.v
HeapProofs.v
HeapSpec.v
HeapTheorems.v
Allocator.v
MemUtils.v
MemApps.v
Vram.v
MemCtx.v
Vfs.v
VfsPaths.v
VfsProofs.v
VfsTree.v
VfsTheorems.v
ProcTable.v
Elf.v
ElfProofs.v
ElfLoad.v
Proc.v
ProcTheorems.v
ProcInit.v
Fat32.v
Fat32Proofs.v
Fat32Files.v
Framebuffer.v
FramebufferProofs.v
VgaDraw.v
VgaDrawProofs.v
Bootmode.v
Digits.v
Machine.v
Serial.v
Console.v
ConsoleRing.v
ConsoleProofs.v
DebugLog.v
Script.v
ErrorText.v
Idt.v
Kernel.v
Syscall.v
SyscallTheorems.v
Trap.v
Launchd.v
LaunchdTheorems.v
Panic.v
Bootlogo.v
BootlogoTheorems.v
Modules.v
Keyboard.v
Linkdep.v
AtaProofs.v
MpObj.v
Natives.v
Mouse.v
NativesProofs.v
Userland.v
Shelld.v
UserProofs.v
Terminal.v
ShellProofs.v
PanicReport.v
PanicTheorems.v
SelfTest.v
SelfTestTheorems.v
Runtime.v
RuntimeTheorems.v
Main.v
MainTheorems.v
RunDir.v
Hosted.v
HostTests.v
