(* ===== verification/Prelude.v ===== *)
(** * ExoCore kernel: verification library

    ** The program

    A freestanding x86-64 kernel in C, src/kernel and src/include.  It runs
    identity mapped in one address space and has no preemption: a routine runs
    to its end unless it panics.  The layers, from the bottom:
    - mem.c allocates blocks from a heap that grows up to 8 MiB and from a 64 KiB
      swap area, keeps accounts of applications and locks the video memory;
    - memctx.c groups allocations in contexts with quotas;
    - vfs.c is a file system in memory, fs.c a FAT32 volume;
    - proc.c has processes, elf.c loads their executables, launchd.c starts the
      first one from a boot module or from embedded files;
    - serial.c, console.c, framebuffer.c, vga_draw.c, bootmode.c and debuglog.c
      drive the devices, bootlogo.c and exoimg.c draw the boot picture;
    - idt.c dispatches interrupts, syscall.c serves user programs on vector 0x80,
      panic.c reports what went wrong;
    - script.c, modexec.c and mpy_loader.c run scripts and modules, micropython.c
      keeps the embedded interpreter, whose programs call the native modules of
      src/mpymod, and the library src/linkdep serves modules;
    - main.c puts the parts together at boot and backend_test.c tests them;
    - src/run/userland has the programs of processes: launchd starts daemons,
      shelld is the shell.  They reach the kernel by system calls only.

    ** How it is modelled

    C functions are Rocq functions on explicit states with the names of the
    source.  Integers are in Z with their wrap written out ([u32], [u64], [s32]).
    A routine that may panic, follow a bad pointer or run out of fuel returns an
    [outcome]; error codes are plain results.  Bytes live in a finite map from
    addresses ([rd], [wr]).  Static variables and the headers of heap blocks are
    kept in records beside the byte memory, so that a store through a wild
    pointer does not change them: the theorems say where each routine stores.
    Messages of the allocator and of the volume are a trace ([con_ev]) instead of
    being drawn.

    Code outside the repository's C files is a parameter: the port hardware and
    the time stamp counter (classes [Hardware] and [Uart] of Machine, [Ps2] of
    Keyboard, [Aux] of Mouse, [WordPorts] of Linkdep and [AtaDisk] of AtaProofs:
    each states what the device is documented to do, and has an instance),
    linker addresses (class [Layout]), the page tables and the entry into user
    mode, which are assembly, the programs processes run ([run]), the interpreter
    ([mp_exec], class [Interpreter] of Runtime), the disk driver, generated data.

    Routines that end in [panic] within a larger run (main.c, micropython.c) give
    the state at the panic and its message, from which panic.c goes on.  User
    programs are written against a class of system calls ([Os]); the kernel's
    model is an instance, over which their theorems hold too (Terminal).

    ** Files

    Prelude    machine integers, outcomes, byte memory, counting loops, the
               tactics [mlia], [inv_bind], [case_test], [prop_bools], the hint
               database [machine].
    Heap, HeapList, HeapInv, HeapCoalesce, HeapProofs, HeapSpec, HeapTheorems
               the block allocator of mem.c: operations; the free list as a list;
               the invariant (headers in use and free tile the regions); merging
               ends and is maximal; allocation and release; the contract.
    Allocator  the interface of an allocator (class [Allocator], laws
               [AllocatorLaws]) that the clients are proved against, and mem.c's
               instance.
    MemUtils   memory and string routines (memutils.c), with lists as reference.
    MemApps, Vram
               application accounts and video memory locks (mem.c).
    MemCtx     memory contexts (memctx.c) over the interface.
    Vfs, VfsPaths, VfsProofs, VfsTree, VfsTheorems
               vfs.c: operations; the invariant and path resolution; the
               routines on contents; the parent links; runs and theorems.
    ProcTable, Elf, ElfProofs, ElfLoad, Proc, ProcTheorems, ProcInit
               proc.c and elf.c: the table, the loader and what it accepts, the
               placement of an image, the calls, and the invariant under every
               sequence of calls ([proc_call] is the abstract system); process 1
               stays.
    Fat32, Fat32Proofs, Fat32Files
               fs.c: geometry, chains, directory, descriptors; confinement;
               files as lists of linked clusters.
    Font, Framebuffer, FramebufferProofs, VgaDraw, VgaDrawProofs
               pixels, images, text grids, lines and rectangles.
    Bootmode, Digits, Machine, Serial, Console, ConsoleRing, ConsoleProofs, DebugLog
               boot options, numerals, the devices' shared state, the serial
               port, the console; its ring of lines refines a scrollback list.
    Script     the boot script interpreter against a stack language.
    ErrorText, Idt, Panic
               bounded text buffers, interrupt gates and dispatch, panic codes.
    Kernel     the composed state: processes, file system and contexts over one
               allocator, beside it devices, volume and interrupt tables.
    Syscall, SyscallTheorems
               the dispatch of all 57 calls over that state, the trap handler.
    Trap       the interrupt stubs of src/arch/x86/idt.S: the registers a program
               has before and after [int 0x80].
    Launchd, LaunchdTheorems, Bootlogo, BootlogoTheorems, Modules
               booting the first process, the boot picture, loadable modules.
    Keyboard   what typing delivers to a reader of the console (console.c).
    Linkdep, AtaProofs
               the module library; its disk driver against the ATA protocol.
    MpObj, Natives, Mouse, NativesProofs
               arguments and results of native functions, the modules of mpymod,
               the mouse as a decoder of its byte stream, what images may read.
    Userland, Shelld, UserProofs
               the system as programs see it, launchd, the shell; its words,
               numbers and history.
    Terminal, ShellProofs
               what a program writes is sent and typed into the scrollback, what
               is typed it reads (class [Tty]); the line editor over any terminal.
    PanicReport, PanicTheorems
               the whole report of a panic.
    SelfTest, SelfTestTheorems
               backend_test.c, run on the model.
    Runtime, RuntimeTheorems, Main, MainTheorems, RunDir
               the interpreter's life and its exceptions; the boot; its branch
               that runs a directory of modules ([FEATURE_RUN_DIR]).
    Hosted     the JSON files that debuglog.c and panic.c write in a hosted build.
    HostTests  the programs of src/tests on the model.

    ** What is proved

    Memory: an allocation returns a fresh block or fails only when nothing can
    serve it; a release removes exactly that block; every run keeps the heap
    well formed and coalesced, payloads disjoint, the counters exact; a double
    free panics. Contexts keep their books and release exactly their blocks.
    Files: every run of calls keeps the node table well formed, and the nodes a
    tree unless a directory is moved below itself; name-based calls return,
    written bytes are read back, an installed file holds its data; the volume's
    routines store inside the volume whatever it contains, its clusters lie
    inside it, freeing a cyclic chain ends; a file on the volume grows by fresh
    clusters, gives back what was written and leaves other files alone.
    Processes: identifiers are unique and exactly the current process runs,
    after every sequence of calls; spawning, booting and every system call a
    program makes are such sequences, and a program that stores only into its
    own stack and executable keeps the table sound; exit and wait do what they
    promise; the loader accepts exactly well-formed executables and places them
    over zeros.
    Devices: drawing stays on the screen; the console refines a scrollback and
    shows its end; numbers print as numerals; lines and dumps end.
    Control: gates lead to their stubs; dispatch handles, resumes or panics; bad
    pointers and unknown calls are refused without effect; a system call leaves
    a program its stack and its registers but for the answer; a panic has a
    code.
    Programs: the script interpreter implements its language; generated
    MicroPython programs fit their buffer and carry the module's source; an
    exception nobody catches reaches the panic report with its story; images of
    Python programs are drawn from their buffer alone.
    Input: a read ends when its characters have been typed and returns them; the
    mouse's packets are decoded in order, over as many polls as they take;
    sectors written to a disk that answers when it is ready are read back.
    User programs: launchd starts what its configuration lists; quoted arguments
    arrive as typed; the shell runs the line that was edited, sends its echo,
    and the console shows it while it fits one row.
    Boot: the first module named as init is run, as a program with its bytes and
    name; the tests pass on a small machine; a boot that panics by itself has
    one of seven messages; the first process does not come back with success; a
    panic is reported and halts; a directory of modules panics only by an
    uncaught exception of a program.
    Hosted builds: the saved log is JSON that reads back as the log's events.
    Theorems on behaviour that looks unintended stand at the ends of the files.

    ** Fuel

    Loops over lists recurse on the list.  The others: walks of the free list
    take one more than the number of headers, [coalesce_block] the square of
    that, a full walk for every merge; the doubling of a file's capacity takes
    64 rounds, enough below 2^63; paths take one more than their length; cluster
    chains take the number of clusters, chains of a descriptor the bytes asked
    for; polling loops take [hw_polls] rounds, within which the hardware classes
    promise an answer; installing a file takes its size, each write storing a byte or
    failing; scans of texts by the user programs recurse on the text, or take its
    length; the loops whose end the outside decides (keys of a line, ends of files and
    directories) take a bound as an argument, and the theorems say how much is
    enough; so does the loop over a directory of modules, which may change their
    number, and its theorem holds for every bound; strings in memory take one
    more than the number of bytes memory holds, so that a terminator is found.  A
    loop that exhausts its fuel returns [Timeout], and the theorems exclude it.

    ** Not modelled

    The vendored interpreter under src/micropython, but for the conversions the
    native modules call; the Python code of src/mpymod; generated data
    (embedded_userland.c), assembly but for the interrupt stubs, linker scripts; the writing of files by
    the C library of a build host, of which the model has the texts. *)

From Stdlib Require Import ZArith Lia.
From stdpp Require Import base numbers gmap strings fin_maps option list.

Local Open Scope Z_scope.

(** ** Machine integers

    C integers are values of [Z] kept in range by an explicit wrap.  [size_t],
    [uintptr_t] and [uint64_t] are 64 bits wide, [unsigned] and [uint32_t] 32. *)

Definition u8 (z : Z) : Z := z mod 256.
Definition u16 (z : Z) : Z := z mod 65536.
Definition u32 (z : Z) : Z := z mod 4294967296.
Definition u64 (z : Z) : Z := z mod 18446744073709551616.
(** Two's complement reading of the low 32 (64) bits: conversion to [int] ([long]). *)
Definition s32 (z : Z) : Z := (z + 2147483648) mod 4294967296 - 2147483648.
Definition s64 (z : Z) : Z :=
  (z + 9223372036854775808) mod 18446744073709551616 - 9223372036854775808.

(** [mlia]: linear arithmetic that also sees through the wrap functions and
    through division and remainder by constants. *)
Ltac mlia :=
  unfold u8, u16, u32, u64, s32, s64 in *; Z.to_euclidean_division_equations; lia.

Lemma u8_range z : 0 <= u8 z < 256.
Proof. mlia. Qed.
Lemma u16_range z : 0 <= u16 z < 65536.
Proof. mlia. Qed.
Lemma u32_range z : 0 <= u32 z < 4294967296.
Proof. mlia. Qed.
Lemma u64_range z : 0 <= u64 z < 18446744073709551616.
Proof. mlia. Qed.
Lemma u8_small z : 0 <= z < 256 -> u8 z = z.
Proof. apply Z.mod_small. Qed.
Lemma u16_small z : 0 <= z < 65536 -> u16 z = z.
Proof. apply Z.mod_small. Qed.
Lemma u32_small z : 0 <= z < 4294967296 -> u32 z = z.
Proof. apply Z.mod_small. Qed.
Lemma u64_small z : 0 <= z < 18446744073709551616 -> u64 z = z.
Proof. apply Z.mod_small. Qed.
Lemma s32_small z : -2147483648 <= z < 2147483648 -> s32 z = z.
Proof. mlia. Qed.
Lemma s64_small z :
  -9223372036854775808 <= z < 9223372036854775808 -> s64 z = z.
Proof. mlia. Qed.

(** Hints for the side conditions of machine arithmetic: [auto with machine]. *)
Create HintDb machine.
#[export] Hint Resolve u8_range u16_range u32_range u64_range : machine.
Lemma u32_nonneg z : 0 <= u32 z.
Proof. apply u32_range. Qed.
Lemma u64_nonneg z : 0 <= u64 z.
Proof. apply u64_range. Qed.
#[export] Hint Resolve u32_nonneg u64_nonneg : machine.

(** Fields joined by [|] add up. *)
Lemma lor_shiftl_add a b n : 0 <= n -> 0 <= a < 2 ^ n -> Z.lor a (Z.shiftl b n) = a + b * 2 ^ n.
Proof.
  intros Hn Ha. assert (Z.land a (Z.shiftl b n) = 0) as Hd.
  { apply Z.bits_inj'. intros i Hi. rewrite Z.land_spec, Z.bits_0. destruct (decide (i < n)) as [Hlt|Hge].
    - rewrite Z.shiftl_spec_low by done. apply andb_false_r.
    - rewrite <- (Z.mod_small a (2 ^ n)) by done. rewrite Z.mod_pow2_bits_high by lia. done. }
  rewrite <- Z.lxor_lor, <- Z.add_nocarry_lxor, Z.shiftl_mul_pow2 by done. done.
Qed.

(** [(x + 7) & ~7]: round up to a multiple of eight, in [size_t] arithmetic.
    The mask is [~7] converted to 64 bits. *)
Definition mask8 (z : Z) : Z := Z.land z (u64 (Z.lnot 7)).

(** Clearing the low [k] bits with a complemented 64-bit mask. *)
Lemma land_lnot_low z k :
  0 <= z < 18446744073709551616 -> 0 <= k <= 64 ->
  Z.land z (u64 (Z.lnot (Z.ones k))) = z - z mod 2 ^ k.
Proof.
  intros Hz Hk. unfold u64. change 18446744073709551616 with (2 ^ 64) in *.
  rewrite <- (Z.land_ones (Z.lnot _)) by lia. rewrite (Z.land_comm (Z.lnot _)), Z.land_assoc.
  rewrite Z.land_ones, (Z.mod_small z), <- Z.ldiff_land, Z.ldiff_ones_r by lia.
  rewrite Z.shiftl_mul_pow2, Z.shiftr_div_pow2 by lia.
  pose proof (Z.div_mod z (2 ^ k)). lia.
Qed.

Lemma mask8_spec z : 0 <= z < 18446744073709551616 -> mask8 z = z - z mod 8.
Proof. intros Hz. apply (land_lnot_low z 3); lia. Qed.

(** ** Outcomes

    A kernel routine returns a value, panics ([panic] never returns), follows
    an invalid pointer ([Fault]) or exhausts the fuel of a loop ([Timeout]). *)
Inductive outcome (A : Type) : Type :=
| Ret (a : A)
| Panic (msg : string)
| Fault
| Timeout.
Arguments Ret {A} a.
Arguments Panic {A} msg.
Arguments Fault {A}.
Arguments Timeout {A}.

#[export] Instance outcome_ret : MRet outcome := @Ret.
#[export] Instance outcome_bind : MBind outcome := fun A B f c =>
  match c with
  | Ret a => f a
  | Panic msg => Panic msg
  | Fault => Fault
  | Timeout => Timeout
  end.

Lemma bind_Ret {A B} (a : A) (f : A -> outcome B) : (Ret a ≫= f) = f a.
Proof. reflexivity. Qed.

Lemma bind_Ret_inv {A B} (c : outcome A) (f : A -> outcome B) b :
  (c ≫= f) = Ret b -> exists a, c = Ret a /\ f a = Ret b.
Proof. destruct c; cbn; intros H; try discriminate; eauto. Qed.

(** [inv_bind H]: decompose a successful run into the runs of its parts. *)
Ltac inv_bind H :=
  let a := fresh "r" in let E := fresh "E" in
  apply bind_Ret_inv in H; destruct H as (a & E & H).

(** Case analysis on the first boolean test of the goal (of a hypothesis). *)
Ltac case_test :=
  match goal with
  | |- context [if ?b then _ else _] =>
      lazymatch b with
      | context [if _ then _ else _] => fail
      | _ => let E := fresh "Htest" in destruct b eqn:E
      end
  end.
Ltac case_test_in H :=
  match type of H with
  | context [if ?b then _ else _] =>
      lazymatch b with
      | context [if _ then _ else _] => fail
      | _ => let E := fresh "Htest" in destruct b eqn:E
      end
  end.

(** Turn boolean comparisons of [Z] in the hypotheses into propositions. *)
Ltac prop_bools :=
  repeat match goal with
  | H : (_ && _)%bool = true |- _ => apply andb_true_iff in H; destruct H
  | H : (_ || _)%bool = false |- _ => apply orb_false_iff in H; destruct H
  | H : negb _ = true |- _ => apply negb_true_iff in H
  | H : negb _ = false |- _ => apply negb_false_iff in H
  | H : (_ =? _) = true |- _ => apply Z.eqb_eq in H
  | H : (_ =? _) = false |- _ => apply Z.eqb_neq in H
  | H : (_ <=? _) = true |- _ => apply Z.leb_le in H
  | H : (_ <=? _) = false |- _ => apply Z.leb_gt in H
  | H : (_ <? _) = true |- _ => apply Z.ltb_lt in H
  | H : (_ <? _) = false |- _ => apply Z.ltb_ge in H
  end.

(** ** Byte memory

    The kernel runs identity mapped in one address space: a byte memory is a
    finite map from addresses to bytes, an absent address reads as zero.
    Whatever the map holds, a read gives a byte. *)

Definition rd (m : gmap Z Z) (a : Z) : Z := u8 (default 0 (m !! a)).
Definition wr (m : gmap Z Z) (a v : Z) : gmap Z Z := <[a := u8 v]> m.

Lemma rd_wr_eq m a v : rd (wr m a v) a = u8 v.
Proof. unfold rd, wr. rewrite lookup_insert_eq. apply (u8_small (u8 v)), u8_range. Qed.
Lemma rd_wr_ne m a b v : a <> b -> rd (wr m a v) b = rd m b.
Proof. intros H. unfold rd, wr. by rewrite lookup_insert_ne. Qed.

Lemma rd_range m a : 0 <= rd m a < 256.
Proof. apply u8_range. Qed.
Lemma u8_rd m a : u8 (rd m a) = rd m a.
Proof. apply u8_small, rd_range. Qed.

(** The [n] bytes at address [a]. *)
Definition bytes_at (m : gmap Z Z) (a : Z) (n : nat) : list Z := rd m <$> seqZ a (Z.of_nat n).

Lemma length_bytes_at m a n : length (bytes_at m a n) = n.
Proof. unfold bytes_at. rewrite length_fmap, length_seqZ. lia. Qed.
Lemma bytes_at_0 m a : bytes_at m a 0 = [].
Proof. reflexivity. Qed.
Lemma bytes_at_S m a n : bytes_at m a (S n) = rd m a :: bytes_at m (a + 1) n.
Proof.
  unfold bytes_at. rewrite seqZ_cons by lia. cbn [fmap list_fmap]. do 3 f_equal; lia.
Qed.
Lemma bytes_at_app m a n k :
  bytes_at m a (n + k) = bytes_at m a n ++ bytes_at m (a + Z.of_nat n) k.
Proof.
  revert a; induction n as [|n IH]; intros a; cbn [Nat.add].
  - rewrite bytes_at_0. cbn. f_equal; lia.
  - rewrite !bytes_at_S, IH. cbn. do 3 f_equal; lia.
Qed.
Lemma lookup_bytes_at m a n i :
  (i < n)%nat -> bytes_at m a n !! i = Some (rd m (a + Z.of_nat i)).
Proof.
  intros H. unfold bytes_at. rewrite list_lookup_fmap, lookup_seqZ_lt by lia. done.
Qed.
Lemma bytes_at_ext m1 m2 a n :
  (forall b, a <= b < a + Z.of_nat n -> rd m1 b = rd m2 b) -> bytes_at m1 a n = bytes_at m2 a n.
Proof.
  revert a; induction n as [|n IH]; intros a H; [done|].
  rewrite !bytes_at_S, (H a) by lia. f_equal. apply IH. intros b Hb. apply H. lia.
Qed.

Lemma bytes_at_slice m a n o k :
  (o + k <= n)%nat -> take k (drop o (bytes_at m a n)) = bytes_at m (a + Z.of_nat o) k.
Proof.
  intros Hk. replace n with (o + (k + (n - o - k)))%nat by lia. rewrite bytes_at_app.
  rewrite drop_app_length' by (by rewrite length_bytes_at). rewrite bytes_at_app.
  by rewrite take_app_length' by (by rewrite length_bytes_at).
Qed.

(** Storing a list of bytes at an address: what [memcpy] from a disjoint
    source amounts to. *)
Fixpoint store_bytes (m : gmap Z Z) (a : Z) (bs : list Z) : gmap Z Z :=
  match bs with
  | [] => m
  | b :: bs => store_bytes (wr m a b) (a + 1) bs
  end.

Lemma store_bytes_app (m : gmap Z Z) a l1 l2 : store_bytes m a (l1 ++ l2) = store_bytes (store_bytes m a l1) (a + Z.of_nat (length l1)) l2.
Proof.
  revert m a. induction l1 as [|x l1 IH]; intros m a; cbn [app store_bytes length]; [by rewrite Z.add_0_r|].
  rewrite IH. f_equal. lia.
Qed.
Lemma rd_store_bytes_out m a bs b :
  b < a \/ a + Z.of_nat (length bs) <= b -> rd (store_bytes m a bs) b = rd m b.
Proof.
  revert m a; induction bs as [|x bs IH]; intros m a H; [done|]. cbn [length] in H.
  cbn. rewrite IH by lia. apply rd_wr_ne. lia.
Qed.
Lemma bytes_at_store_bytes m a bs :
  Forall (fun b => 0 <= b < 256) bs ->
  bytes_at (store_bytes m a bs) a (length bs) = bs.
Proof.
  revert m a; induction bs as [|x bs IH]; intros m a H; [done|].
  apply Forall_cons in H as [Hx H]. cbn [length store_bytes]. rewrite bytes_at_S. f_equal.
  - rewrite rd_store_bytes_out by lia. rewrite rd_wr_eq. by apply u8_small.
  - by apply IH.
Qed.
Lemma bytes_at_bytes m a n : Forall (fun b => 0 <= b < 256) (bytes_at m a n).
Proof.
  unfold bytes_at. rewrite Forall_fmap. apply Forall_true. intros b. apply rd_range.
Qed.

(** ** Little-endian encodings *)

Definition le_bytes (n : nat) (v : Z) : list Z :=
  (fun i => u8 (Z.shiftr v (8 * i))) <$> seqZ 0 (Z.of_nat n).

(** The little-endian number of [n] bytes at [a]. *)
Fixpoint rd_le (n : nat) (m : gmap Z Z) (a : Z) : Z :=
  match n with O => 0 | S n => rd m a + 256 * rd_le n m (a + 1) end.

Lemma rd_le_range n m a : 0 <= rd_le n m a < 256 ^ Z.of_nat n.
Proof.
  revert a. induction n as [|n IH]; intros a; cbn [rd_le]; [done|].
  pose proof (rd_range m a). pose proof (IH (a + 1)).
  replace (Z.of_nat (S n)) with (Z.of_nat n + 1) by lia. rewrite Z.pow_add_r by lia. lia.
Qed.
Lemma rd_le_ext n m1 m2 a :
  (forall x, a <= x < a + Z.of_nat n -> rd m1 x = rd m2 x) -> rd_le n m1 a = rd_le n m2 a.
Proof.
  revert a. induction n as [|n IH]; intros a H; cbn [rd_le]; [done|].
  rewrite (H a), (IH (a + 1)) by (intros; try apply H; lia). done.
Qed.

Lemma length_le_bytes n v : length (le_bytes n v) = n.
Proof. unfold le_bytes. rewrite length_fmap, length_seqZ. lia. Qed.
Lemma le_bytes_S n v : le_bytes (S n) v = u8 v :: le_bytes n (Z.shiftr v 8).
Proof.
  unfold le_bytes. rewrite seqZ_cons by lia. cbn [fmap list_fmap]. f_equal.
  replace (Z.pred (Z.of_nat (S n))) with (Z.of_nat n) by lia.
  change (Z.succ 0) with (1 + 0). rewrite <- (fmap_add_seqZ 1 0). rewrite <- list_fmap_compose.
  apply list_fmap_ext. intros i x [-> _]%lookup_seqZ. unfold compose. rewrite Z.shiftr_shiftr by lia. do 2 f_equal. lia.
Qed.
Lemma rd_le_store n m a v : rd_le n (store_bytes m a (le_bytes n v)) a = v mod 256 ^ Z.of_nat n.
Proof.
  revert m a v. induction n as [|n IH]; intros m a v; cbn [rd_le]; [by rewrite Z.mod_1_r|].
  rewrite le_bytes_S. cbn [store_bytes]. rewrite IH, rd_store_bytes_out, rd_wr_eq by lia.
  rewrite u8_small by apply u8_range. rewrite Z.shiftr_div_pow2 by lia. change (2 ^ 8) with 256. unfold u8.
  replace (Z.of_nat (S n)) with (1 + Z.of_nat n) by lia. rewrite Z.pow_add_r by lia. change (256 ^ 1) with 256.
  rewrite Z.rem_mul_r by lia. done.
Qed.

(** ** Console output

    Console calls do not influence the callers modelled here; they are
    recorded, in order, as a trace of events. *)
Inductive con_ev :=
| Puts (s : string)
| Putc (c : Z)
| Udec (v : Z)
| Uhex (v : Z).

(** ** Counting loops

    [for (i = lo; i < lo + n; ++i) a = f(i, a)]. *)
Fixpoint for_loop {A} (n : nat) (lo : Z) (f : Z -> A -> A) (a : A) : A :=
  match n with O => a | S n => for_loop n (lo + 1) f (f lo a) end.
(** From 0 below [n]. *)
Definition for_range {A} (n : Z) (f : Z -> A -> A) (a : A) : A := for_loop (Z.to_nat n) 0 f a.

Lemma for_loop_ind {A} (P : A -> Prop) n lo f a :
  P a -> (forall i a, lo <= i < lo + Z.of_nat n -> P a -> P (f i a)) -> P (for_loop n lo f a).
Proof.
  revert lo a. induction n as [|n IH]; intros lo a Ha Hf; cbn [for_loop]; [done|].
  apply IH; [apply Hf; [lia|done]|]. intros i b Hi. apply Hf. lia.
Qed.
Lemma for_range_ind {A} (P : A -> Prop) n f a :
  P a -> (forall i a, 0 <= i < n -> P a -> P (f i a)) -> P (for_range n f a).
Proof.
  intros Ha Hf. unfold for_range. apply for_loop_ind; [done|]. intros i b Hi. apply Hf. lia.
Qed.
(** With an invariant that depends on the counter. *)
Lemma for_loop_inv {A} (P : Z -> A -> Prop) n lo f a :
  P lo a -> (forall i a, lo <= i < lo + Z.of_nat n -> P i a -> P (i + 1) (f i a)) ->
  P (lo + Z.of_nat n) (for_loop n lo f a).
Proof.
  revert lo a. induction n as [|n IH]; intros lo a Ha Hf; cbn [for_loop]; [by rewrite Z.add_0_r|].
  replace (lo + Z.of_nat (S n)) with (lo + 1 + Z.of_nat n) by lia.
  apply IH; [apply Hf; [lia|done]|]. intros i b Hi. apply Hf. lia.
Qed.
Lemma for_range_inv {A} (P : Z -> A -> Prop) n f a :
  0 <= n -> P 0 a -> (forall i a, 0 <= i < n -> P i a -> P (i + 1) (f i a)) -> P n (for_range n f a).
Proof.
  intros Hn Ha Hf. unfold for_range. replace n with (0 + Z.of_nat (Z.to_nat n)) at 1 by lia.
  apply for_loop_inv; [done|]. intros i b Hi. apply Hf. lia.
Qed.

(** The same for steps that may fail. *)
Fixpoint for_loop_m {A} (n : nat) (lo : Z) (f : Z -> A -> outcome A) (a : A) : outcome A :=
  match n with O => Ret a | S n => a ← f lo a; for_loop_m n (lo + 1) f a end.
Definition for_range_m {A} (n : Z) (f : Z -> A -> outcome A) (a : A) : outcome A := for_loop_m (Z.to_nat n) 0 f a.

(** What every round keeps, a loop that returns has kept. *)
Lemma for_loop_m_keeps {A} (P : A -> Prop) f : (forall i a a', P a -> f i a = Ret a' -> P a') ->
  forall n lo a a', P a -> for_loop_m n lo f a = Ret a' -> P a'.
Proof.
  intros Hf n. induction n as [|n IH]; intros lo a a' Ha E; cbn [for_loop_m] in E; [by injection E as <-|].
  inv_bind E. eapply IH; [by eapply Hf|exact E].
Qed.

Lemma for_loop_m_inv {A} (P : Z -> A -> Prop) n lo f a :
  P lo a -> (forall i a, lo <= i < lo + Z.of_nat n -> P i a -> exists a', f i a = Ret a' /\ P (i + 1) a') ->
  exists a', for_loop_m n lo f a = Ret a' /\ P (lo + Z.of_nat n) a'.
Proof.
  revert lo a. induction n as [|n IH]; intros lo a Ha Hf; cbn [for_loop_m]; [exists a; by rewrite Z.add_0_r|].
  destruct (Hf lo a ltac:(lia) Ha) as (b & -> & Hb). cbn [mbind outcome_bind].
  replace (lo + Z.of_nat (S n)) with (lo + 1 + Z.of_nat n) by lia.
  apply IH; [done|]. intros i c Hi. apply Hf. lia.
Qed.
Lemma for_range_m_inv {A} (P : Z -> A -> Prop) n f a :
  0 <= n -> P 0 a -> (forall i a, 0 <= i < n -> P i a -> exists a', f i a = Ret a' /\ P (i + 1) a') ->
  exists a', for_range_m n f a = Ret a' /\ P n a'.
Proof.
  intros Hn Ha Hf. pose proof (for_loop_m_inv P (Z.to_nat n) 0 f a Ha) as Hl. rewrite Z.add_0_l, Z2Nat.id in Hl by done.
  by apply Hl.
Qed.

(** ** Addresses the linker fixes *)
Class Layout := {
  swap_space : Z;   (** [static uint8_t swap_space[64 * 1024]] of mem.c *)
  kernel_end : Z;   (** the linker symbol [end] *)
}.

(** Arrays with a C index: a total read with a default element, and the
    first index whose element satisfies a test (a [for] loop that stops). *)
Fixpoint find_index {A} (f : A -> bool) (l : list A) (i : nat) : option nat :=
  match l with
  | [] => None
  | x :: l => if f x then Some i else find_index f l (S i)
  end.

Lemma find_index_Some {A} (f : A -> bool) (l : list A) i k :
  find_index f l i = Some k ->
  exists x, (i <= k)%nat /\ l !! (k - i)%nat = Some x /\ f x = true /\
    forall j y, (j < k - i)%nat -> l !! j = Some y -> f y = false.
Proof.
  revert i; induction l as [|x l IH]; intros i H; [done|]. cbn in H.
  destruct (f x) eqn:Hf.
  - injection H as ->. exists x. rewrite Nat.sub_diag. split_and!; try done; lia.
  - apply IH in H as (y & Hle & Hy & Hfy & Hpre).
    exists y. split_and!; [lia| |done|].
    + replace (k - i)%nat with (S (k - S i)) by lia. done.
    + intros [|j] z Hj Hz; [by injection Hz as ->|]. apply (Hpre j z); [lia|done].
Qed.
Lemma find_index_None {A} (f : A -> bool) (l : list A) i :
  find_index f l i = None -> forall j y, l !! j = Some y -> f y = false.
Proof.
  revert i; induction l as [|x l IH]; intros i H j y Hj; [done|]. cbn in H.
  destruct (f x) eqn:Hf; [done|]. destruct j as [|j]; [by injection Hj as ->|].
  by eapply IH.
Qed.

Lemma find_index_insert_same {A} (f : A -> bool) l i (a x : A) k :
  l !! i = Some a -> f x = f a -> find_index f (<[i := x]> l) k = find_index f l k.
Proof.
  revert i k. induction l as [|y l IH]; intros [|i] k Ha Hf; try done.
  - injection Ha as ->. cbn. by rewrite Hf.
  - change (<[S i := x]> (y :: l)) with (y :: <[i := x]> l). cbn [find_index]. by rewrite (IH i (S k)).
Qed.
Lemma find_index_insert_hit {A} (f : A -> bool) l i (x : A) k :
  (i < length l)%nat -> find_index f l k = None -> f x = true -> find_index f (<[i := x]> l) k = Some (k + i)%nat.
Proof.
  revert i k. induction l as [|y l IH]; intros [|i] k Hi Hn Hf; cbn [length find_index] in *; try lia.
  - cbn. rewrite Hf. f_equal. lia.
  - change (<[S i := x]> (y :: l)) with (y :: <[i := x]> l). cbn [find_index]. destruct (f y); [done|]. rewrite (IH i (S k)) by (done || lia). f_equal. lia.
Qed.
Lemma find_index_alter {A} (f : A -> bool) (g : A -> A) l i k :
  (forall x, f (g x) = f x) -> find_index f (alter g i l) k = find_index f l k.
Proof.
  intros Hg. revert i k. induction l as [|x l IH]; intros i k; [done|].
  destruct i as [|i]; [cbn; by rewrite Hg|].
  change (alter g (S i) (x :: l)) with (x :: alter g i l). cbn [find_index]. by rewrite IH.
Qed.

(** ** Lists *)

Lemma filter_all {A} (P : A -> Prop) {dec : forall x, Decision (P x)} (l : list A) :
  (forall x, x ∈ l -> P x) -> filter P l = l.
Proof.
  induction l as [|x l IH]; intros H; [done|].
  rewrite filter_cons_True by (apply H; by left). f_equal. apply IH. intros y Hy. apply H. by right.
Qed.

Lemma list_alter_twice {A} (f g : A -> A) i (l : list A) :
  alter f i (alter g i l) = alter (fun x => f (g x)) i l.
Proof.
  revert i. induction l as [|x l IH]; intros [|i]; try done.
  change (x :: alter f i (alter g i l) = x :: alter (fun x => f (g x)) i l). by rewrite IH.
Qed.

Lemma list_alter_is_insert {A} (f : A -> A) i (l : list A) x :
  l !! i = Some x -> alter f i l = <[i := f x]> l.
Proof.
  revert i. induction l as [|y l IH]; intros [|i] H; try done; [by injection H as ->|].
  change (y :: alter f i l = y :: <[i := f x]> l). by rewrite (IH i).
Qed.

(** Sums over lists of integers and over maps. *)
Definition sumz {A} (f : A -> Z) (l : list A) : Z := foldr (fun x a => f x + a) 0 l.

Lemma sumz_app {A} (f : A -> Z) l1 l2 : sumz f (l1 ++ l2) = sumz f l1 + sumz f l2.
Proof. induction l1 as [|x l1 IH]; cbn; [done|]. fold (sumz f). unfold sumz in *. lia. Qed.
Lemma sumz_Permutation {A} (f : A -> Z) l1 l2 : l1 ≡ₚ l2 -> sumz f l1 = sumz f l2.
Proof. induction 1; cbn in *; unfold sumz in *; lia. Qed.
Lemma sumz_ext {A} (f g : A -> Z) l : (forall x, x ∈ l -> f x = g x) -> sumz f l = sumz g l.
Proof.
  induction l as [|x l IH]; intros H; [done|]. cbn. rewrite (H x) by (by left).
  f_equal. apply IH. intros y Hy. apply H. by right.
Qed.
Lemma sumz_nonneg {A} (f : A -> Z) l : (forall x, x ∈ l -> 0 <= f x) -> 0 <= sumz f l.
Proof.
  induction l as [|x l IH]; intros H; cbn; [lia|].
  pose proof (H x (list_elem_of_here _ _)). assert (0 <= sumz f l); [|unfold sumz in *; lia].
  apply IH. intros y Hy. apply H. by right.
Qed.
Lemma sumz_fmap {A B} (f : B -> Z) (g : A -> B) l : sumz f (g <$> l) = sumz (fun x => f (g x)) l.
Proof. induction l as [|x l IH]; [done|]. cbn. f_equal. apply IH. Qed.

Lemma sumz_insert {A} (f : A -> Z) l i a x :
  l !! i = Some a -> sumz f (<[i := x]> l) = sumz f l - f a + f x.
Proof.
  revert i. induction l as [|y l IH]; intros [|i] H; try done.
  - injection H as ->. cbn. fold (sumz f l). lia.
  - change (<[S i := x]> (y :: l)) with (y :: <[i := x]> l). cbn.
    change (f y + sumz f (<[i := x]> l) = f y + sumz f l - f a + f x). rewrite (IH i H). lia.
Qed.
Lemma sumz_le {A} (f : A -> Z) l c : (forall x, x ∈ l -> f x <= c) -> sumz f l <= c * Z.of_nat (length l).
Proof.
  induction l as [|x l IH]; intros H; cbn; [lia|]. change (f x + sumz f l <= c * Z.of_nat (S (length l))).
  pose proof (H x (list_elem_of_here _ _)). assert (sumz f l <= c * Z.of_nat (length l)); [|lia].
  apply IH. intros y Hy. apply H. by right.
Qed.

Definition map_sumz {A} (f : A -> Z) (m : gmap Z A) : Z := sumz (fun kv => f kv.2) (map_to_list m).

Lemma map_sumz_empty {A} (f : A -> Z) : map_sumz f ∅ = 0.
Proof. unfold map_sumz. by rewrite map_to_list_empty. Qed.
Lemma map_sumz_insert {A} (f : A -> Z) m k x :
  m !! k = None -> map_sumz f (<[k := x]> m) = f x + map_sumz f m.
Proof.
  intros H. unfold map_sumz.
  by rewrite (sumz_Permutation _ _ ((k, x) :: map_to_list m)) by (by apply map_to_list_insert).
Qed.
Lemma map_sumz_delete {A} (f : A -> Z) m k x :
  m !! k = Some x -> map_sumz f m = f x + map_sumz f (delete k m).
Proof.
  intros H. rewrite <- (map_sumz_insert f (delete k m) k x) by apply lookup_delete_eq.
  by rewrite insert_delete_id.
Qed.
Lemma map_sumz_mono {A} (f g : A -> Z) (m : gmap Z A) :
  (forall k x, m !! k = Some x -> f x <= g x) -> map_sumz f m <= map_sumz g m.
Proof.
  induction m as [|k x m Hk IH] using map_ind; intros H; [rewrite !map_sumz_empty; lia|].
  rewrite !map_sumz_insert by done. pose proof (H k x (lookup_insert_eq _ _ _)).
  assert (map_sumz f m <= map_sumz g m); [|lia]. apply IH. intros j y Hj. apply (H j).
  rewrite lookup_insert_ne; [done|]. intros ->. by rewrite Hk in Hj.
Qed.
Lemma map_sumz_nonneg {A} (f : A -> Z) (m : gmap Z A) :
  (forall k x, m !! k = Some x -> 0 <= f x) -> 0 <= map_sumz f m.
Proof.
  intros H. apply sumz_nonneg. intros [k x] Hx. apply elem_of_map_to_list in Hx. by eapply H.
Qed.
