(* ===== verification/Font.v ===== *)
(** * include/font_petme128_8x8.h: the console font

    Eight bytes per character, from the space on; each byte is a column, its
    low bit on top. *)

From Stdlib Require Import ZArith List.

Import ListNotations.
Local Open Scope Z_scope.

Definition font_petme128_8x8 : list Z := [
  0; 0; 0; 0; 0; 0; 0; 0;
  0; 0; 0; 79; 79; 0; 0; 0;
  0; 7; 7; 0; 0; 7; 7; 0;
  20; 127; 127; 20; 20; 127; 127; 20;
  0; 36; 46; 107; 107; 58; 18; 0;
  0; 99; 51; 24; 12; 102; 99; 0;
  0; 50; 127; 77; 77; 119; 114; 80;
  0; 0; 0; 4; 6; 3; 1; 0;
  0; 0; 28; 62; 99; 65; 0; 0;
  0; 0; 65; 99; 62; 28; 0; 0;
  8; 42; 62; 28; 28; 62; 42; 8;
  0; 8; 8; 62; 62; 8; 8; 0;
  0; 0; 128; 224; 96; 0; 0; 0;
  0; 8; 8; 8; 8; 8; 8; 0;
  0; 0; 0; 96; 96; 0; 0; 0;
  0; 64; 96; 48; 24; 12; 6; 2;
  0; 62; 127; 73; 69; 127; 62; 0;
  0; 64; 68; 127; 127; 64; 64; 0;
  0; 98; 115; 81; 73; 79; 70; 0;
  0; 34; 99; 73; 73; 127; 54; 0;
  0; 24; 24; 20; 22; 127; 127; 16;
  0; 39; 103; 69; 69; 125; 57; 0;
  0; 62; 127; 73; 73; 123; 50; 0;
  0; 3; 3; 121; 125; 7; 3; 0;
  0; 54; 127; 73; 73; 127; 54; 0;
  0; 38; 111; 73; 73; 127; 62; 0;
  0; 0; 0; 36; 36; 0; 0; 0;
  0; 0; 128; 228; 100; 0; 0; 0;
  0; 8; 28; 54; 99; 65; 65; 0;
  0; 20; 20; 20; 20; 20; 20; 0;
  0; 65; 65; 99; 54; 28; 8; 0;
  0; 2; 3; 81; 89; 15; 6; 0;
  0; 62; 127; 65; 77; 79; 46; 0;
  0; 124; 126; 11; 11; 126; 124; 0;
  0; 127; 127; 73; 73; 127; 54; 0;
  0; 62; 127; 65; 65; 99; 34; 0;
  0; 127; 127; 65; 99; 62; 28; 0;
  0; 127; 127; 73; 73; 65; 65; 0;
  0; 127; 127; 9; 9; 1; 1; 0;
  0; 62; 127; 65; 73; 123; 58; 0;
  0; 127; 127; 8; 8; 127; 127; 0;
  0; 0; 65; 127; 127; 65; 0; 0;
  0; 32; 96; 65; 127; 63; 1; 0;
  0; 127; 127; 28; 54; 99; 65; 0;
  0; 127; 127; 64; 64; 64; 64; 0;
  0; 127; 127; 6; 12; 6; 127; 127;
  0; 127; 127; 14; 28; 127; 127; 0;
  0; 62; 127; 65; 65; 127; 62; 0;
  0; 127; 127; 9; 9; 15; 6; 0;
  0; 30; 63; 33; 97; 127; 94; 0;
  0; 127; 127; 25; 57; 111; 70; 0;
  0; 38; 111; 73; 73; 123; 50; 0;
  0; 1; 1; 127; 127; 1; 1; 0;
  0; 63; 127; 64; 64; 127; 63; 0;
  0; 31; 63; 96; 96; 63; 31; 0;
  0; 127; 127; 48; 24; 48; 127; 127;
  0; 99; 119; 28; 28; 119; 99; 0;
  0; 7; 15; 120; 120; 15; 7; 0;
  0; 97; 113; 89; 77; 71; 67; 0;
  0; 0; 127; 127; 65; 65; 0; 0;
  0; 2; 6; 12; 24; 48; 96; 64;
  0; 0; 65; 65; 127; 127; 0; 0;
  0; 8; 12; 6; 6; 12; 8; 0;
  192; 192; 192; 192; 192; 192; 192; 192;
  0; 0; 1; 3; 6; 4; 0; 0;
  0; 32; 116; 84; 84; 124; 120; 0;
  0; 127; 127; 68; 68; 124; 56; 0;
  0; 56; 124; 68; 68; 108; 40; 0;
  0; 56; 124; 68; 68; 127; 127; 0;
  0; 56; 124; 84; 84; 92; 88; 0;
  0; 8; 126; 127; 9; 3; 2; 0;
  0; 152; 188; 164; 164; 252; 124; 0;
  0; 127; 127; 4; 4; 124; 120; 0;
  0; 0; 0; 125; 125; 0; 0; 0;
  0; 64; 192; 128; 128; 253; 125; 0;
  0; 127; 127; 48; 56; 108; 68; 0;
  0; 0; 65; 127; 127; 64; 0; 0;
  0; 124; 124; 24; 48; 24; 124; 124;
  0; 124; 124; 4; 4; 124; 120; 0;
  0; 56; 124; 68; 68; 124; 56; 0;
  0; 252; 252; 36; 36; 60; 24; 0;
  0; 24; 60; 36; 36; 252; 252; 0;
  0; 124; 124; 4; 4; 12; 8; 0;
  0; 72; 92; 84; 84; 116; 32; 0;
  4; 4; 63; 127; 68; 100; 32; 0;
  0; 60; 124; 64; 64; 124; 60; 0;
  0; 28; 60; 96; 96; 60; 28; 0;
  0; 28; 124; 48; 24; 48; 124; 28;
  0; 68; 108; 56; 56; 108; 68; 0;
  0; 156; 188; 160; 160; 252; 124; 0;
  0; 68; 100; 116; 92; 76; 68; 0;
  0; 8; 8; 62; 119; 65; 65; 0;
  0; 0; 0; 255; 255; 0; 0; 0;
  0; 65; 65; 119; 62; 8; 8; 0;
  0; 2; 3; 1; 3; 2; 3; 1;
  170; 85; 170; 85; 170; 85; 170; 85
].
