(* ===== verification/Heap.v ===== *)
(** * kernel/mem.c: the block allocator

    The intrusive block headers are kept in a typed store, a finite map from
    the address of a header to its fields; payload bytes live in the byte
    memory.  This file has the data and the operations; [HeapProofs] has the
    invariant and the correctness theorems. *)

From Stdlib Require Import ZArith Lia.
From stdpp Require Import base numbers gmap strings fin_maps option list.
From S2P Require Import Prelude.

Local Open Scope Z_scope.

(** ** Data *)

(** [mem_block_t]. *)
Record mem_block := MkBlock {
  total_size : Z;   (** bytes including header *)
  user_size : Z;    (** bytes available to caller *)
  guard : Z;
  next : Z;         (** address of the next header, 0 for NULL *)
  from_swap : Z
}.

(** [sizeof(mem_block_t)] on x86-64: 8 + 8 + 4 (+4) + 8 + 4 (+4). *)
Definition SIZEOF_MEM_BLOCK : Z := 40.
Definition MEM_GUARD_ACTIVE : Z := 0xC0DEFACE.
Definition MEM_GUARD_FREED : Z := 0xDEADFA11.
Definition SWAP_SIZE : Z := 64 * 1024.
Definition EXOCORE_KERNEL_HEAP_SIZE : Z := 512 * 1024.
Definition EXOCORE_KERNEL_HEAP_MAX_SIZE : Z := 8 * 1024 * 1024.

#[export] Instance mem_block_eq_dec : EqDecision mem_block.
Proof. solve_decision. Defined.

(** The header store with the head of the free list. *)
Record pool := Pool { hdrs : gmap Z mem_block; free_list : Z }.

(** The static variables of mem.c that the block allocator uses, with the
    byte memory, the [debug_mode] flag and the console trace. *)
Record kmem := KMem {
  heap_start : Z;
  heap_ptr : Z;
  heap_committed_end : Z;
  heap_max_end : Z;
  heap_used_bytes : Z;
  heap_grow_count : Z;
  heap_alloc_fail_count : Z;
  swap_ptr : Z;
  blocks : pool;
  ram : gmap Z Z;
  debug_mode : bool;
  out : list con_ev
}.

Definition set_heap_ptr (s : kmem) (v : Z) : kmem :=
  KMem (heap_start s) v (heap_committed_end s) (heap_max_end s) (heap_used_bytes s)
    (heap_grow_count s) (heap_alloc_fail_count s) (swap_ptr s) (blocks s) (ram s) (debug_mode s) (out s).
Definition set_committed (s : kmem) (e g : Z) : kmem :=
  KMem (heap_start s) (heap_ptr s) e (heap_max_end s) (heap_used_bytes s)
    g (heap_alloc_fail_count s) (swap_ptr s) (blocks s) (ram s) (debug_mode s) (out s).
Definition set_used (s : kmem) (v : Z) : kmem :=
  KMem (heap_start s) (heap_ptr s) (heap_committed_end s) (heap_max_end s) v
    (heap_grow_count s) (heap_alloc_fail_count s) (swap_ptr s) (blocks s) (ram s) (debug_mode s) (out s).
Definition set_fail_count (s : kmem) (v : Z) : kmem :=
  KMem (heap_start s) (heap_ptr s) (heap_committed_end s) (heap_max_end s) (heap_used_bytes s)
    (heap_grow_count s) v (swap_ptr s) (blocks s) (ram s) (debug_mode s) (out s).
Definition set_swap_ptr (s : kmem) (v : Z) : kmem :=
  KMem (heap_start s) (heap_ptr s) (heap_committed_end s) (heap_max_end s) (heap_used_bytes s)
    (heap_grow_count s) (heap_alloc_fail_count s) v (blocks s) (ram s) (debug_mode s) (out s).
Definition set_blocks (s : kmem) (p : pool) : kmem :=
  KMem (heap_start s) (heap_ptr s) (heap_committed_end s) (heap_max_end s) (heap_used_bytes s)
    (heap_grow_count s) (heap_alloc_fail_count s) (swap_ptr s) p (ram s) (debug_mode s) (out s).
Definition set_ram (s : kmem) (m : gmap Z Z) : kmem :=
  KMem (heap_start s) (heap_ptr s) (heap_committed_end s) (heap_max_end s) (heap_used_bytes s)
    (heap_grow_count s) (heap_alloc_fail_count s) (swap_ptr s) (blocks s) m (debug_mode s) (out s).
Definition emit (s : kmem) (evs : list con_ev) : kmem :=
  KMem (heap_start s) (heap_ptr s) (heap_committed_end s) (heap_max_end s) (heap_used_bytes s)
    (heap_grow_count s) (heap_alloc_fail_count s) (swap_ptr s) (blocks s) (ram s) (debug_mode s) (out s ++ evs).

(** ** Access to headers and links *)

(** Dereferencing a header pointer. *)
Definition hdr (p : pool) (a : Z) : outcome mem_block :=
  match hdrs p !! a with Some b => Ret b | None => Fault end.
Definition put (p : pool) (a : Z) (b : mem_block) : pool := Pool (<[a := b]> (hdrs p)) (free_list p).

(** A value of type [mem_block_t **]: the head variable or the [next] field
    of a block. *)
Inductive link := LHead | LNext (b : Z).

Definition read_link (p : pool) (l : link) : outcome Z :=
  match l with
  | LHead => Ret (free_list p)
  | LNext a => b ← hdr p a; Ret (next b)
  end.
Definition set_next (b : mem_block) (v : Z) : mem_block :=
  MkBlock (total_size b) (user_size b) (guard b) v (from_swap b).
Definition write_link (p : pool) (l : link) (v : Z) : outcome pool :=
  match l with
  | LHead => Ret (Pool (hdrs p) v)
  | LNext a => b ← hdr p a; Ret (put p a (set_next b v))
  end.

(** ** The free list *)

Definition split_block (p : pool) (blk total_needed : Z) (prev : link) : outcome (pool * Z) :=
  b ← hdr p blk;
  let available := total_size b in
  p ← (if u64 (u64 (total_needed + SIZEOF_MEM_BLOCK) + 8) <=? available then
         let remainder := u64 (blk + total_needed) in
         let rest := u64 (available - total_needed) in
         let p := put p remainder
           (MkBlock rest (u64 (rest - SIZEOF_MEM_BLOCK)) MEM_GUARD_FREED (next b) (from_swap b)) in
         let p := put p blk
           (MkBlock total_needed (u64 (total_needed - SIZEOF_MEM_BLOCK)) (guard b) 0 (from_swap b)) in
         write_link p prev remainder
       else write_link p prev (next b));
  b ← hdr p blk;
  Ret (put p blk (MkBlock (total_size b) (user_size b) MEM_GUARD_ACTIVE 0 (from_swap b)), blk).

Definition same_backing_region (a b : mem_block) : bool := from_swap a =? from_swap b.

Definition blocks_adjacent (left : Z) (l : mem_block) (right : Z) : bool :=
  u64 (left + total_size l) =? right.

(** The [while (it)] loop of [coalesce_block]; a merge restarts the scan. *)
Fixpoint coalesce_loop (fuel : nat) (p : pool) (blk it : Z) : outcome pool :=
  if it =? 0 then Ret p else
  match fuel with
  | O => Timeout
  | S fuel =>
      i ← hdr p it;
      b ← hdr p blk;
      if negb (it =? blk) && same_backing_region i b then
        if blocks_adjacent it i blk then
          let t := u64 (total_size i + total_size b) in
          let p := put p it (MkBlock t (u64 (t - SIZEOF_MEM_BLOCK)) (guard i) (next i) (from_swap i)) in
          let p := put p blk (MkBlock 0 (user_size b) (guard b) (next b) (from_swap b)) in
          coalesce_loop fuel p it (free_list p)
        else if blocks_adjacent blk b it then
          let t := u64 (total_size b + total_size i) in
          let p := put p blk (MkBlock t (u64 (t - SIZEOF_MEM_BLOCK)) (guard b) (next b) (from_swap b)) in
          let p := put p it (MkBlock 0 (user_size i) (guard i) (next i) (from_swap i)) in
          coalesce_loop fuel p blk (free_list p)
        else coalesce_loop fuel p blk (next i)
      else coalesce_loop fuel p blk (next i)
  end.

(** Every pass visits each block of the list at most once and every merge
    removes one block: this fuel always suffices on a well-formed list. *)
Definition coalesce_fuel (p : pool) : nat := S (size (hdrs p)) * S (size (hdrs p)).
Definition coalesce_block (p : pool) (blk : Z) : outcome pool :=
  coalesce_loop (coalesce_fuel p) p blk (free_list p).

Fixpoint compact_loop (fuel : nat) (p : pool) (l : link) : outcome pool :=
  cur ← read_link p l;
  if cur =? 0 then Ret p else
  match fuel with
  | O => Timeout
  | S fuel =>
      b ← hdr p cur;
      if total_size b =? 0 then
        p ← write_link p l (next b); compact_loop fuel p l
      else compact_loop fuel p (LNext cur)
  end.
Definition compact_free_list (p : pool) : outcome pool := compact_loop (S (size (hdrs p))) p LHead.

(** The best-fit scan: [best] is the pair [(best_prev, best_blk)]. *)
Fixpoint best_fit (fuel : nat) (p : pool) (total : Z) (prev : link) (blk : Z)
    (best : option (link * Z)) : outcome (option (link * Z)) :=
  if blk =? 0 then Ret best else
  match fuel with
  | O => Timeout
  | S fuel =>
      b ← hdr p blk;
      if total <=? total_size b then
        better ← match best with
                 | None => Ret true
                 | Some (_, bb) => c ← hdr p bb; Ret (total_size b <? total_size c)
                 end;
        if better : bool then
          if total_size b =? total then Ret (Some (prev, blk))
          else best_fit fuel p total (LNext blk) (next b) (Some (prev, blk))
        else best_fit fuel p total (LNext blk) (next b) best
      else best_fit fuel p total (LNext blk) (next b) best
  end.

(** Returns the new pool and the block acquired, 0 for NULL. *)
Definition acquire_from_free_list (p : pool) (total : Z) : outcome (pool * Z) :=
  best ← best_fit (S (size (hdrs p))) p total LHead (free_list p) None;
  match best with
  | Some (prev, blk) => split_block p blk total prev
  | None => Ret (p, 0)
  end.

Section Allocator.
Context {L : Layout}.

Definition swap_end : Z := u64 (swap_space + SWAP_SIZE).

(** Returns the new pool, the new cursor and the block, 0 for NULL. *)
Definition fresh_block (p : pool) (cursor limit total : Z) : pool * Z * Z :=
  if limit <? u64 (cursor + total) then (p, cursor, 0)
  else
    let blk := cursor in
    let b := MkBlock total (u64 (total - SIZEOF_MEM_BLOCK)) MEM_GUARD_ACTIVE 0
               (if limit =? swap_end then 1 else 0) in
    (put p blk b, u64 (cursor + total), blk).

Definition ptr_in_region (ptr start stop : Z) : bool := (start <=? ptr) && (ptr <? stop).

(** ** Entry points *)

(** The part of [mem_init] that concerns the block allocator. *)
Definition heap_init (m : gmap Z Z) (debug : bool) (o : list con_ev) (heap_start_addr heap_size : Z) : kmem :=
  let committed := u64 (heap_start_addr + heap_size) in
  let max := u64 (heap_start_addr + EXOCORE_KERNEL_HEAP_MAX_SIZE) in
  let max := if max <? committed then committed else max in
  KMem heap_start_addr heap_start_addr committed max 0 0 0 swap_space (Pool ∅ 0) m debug
    (o ++ [Puts "mem_init heap_start=0x"; Uhex heap_start_addr; Puts " size="; Udec (u32 heap_size); Putc 10]).

(** The growth step of [mem_alloc]: commit whole pages up to the maximum. *)
Definition grow_heap (s : kmem) (total : Z) : kmem :=
  if heap_committed_end s <? u64 (heap_ptr s + total) then
    let old := u64 (heap_committed_end s - heap_start s) in
    let need := u64 (u64 (heap_ptr s + total) - heap_committed_end s) in
    let grow := Z.land (u64 (need + 4095)) (u64 (Z.lnot 4095)) in
    if u64 (heap_committed_end s + grow) <=? heap_max_end s then
      let s := set_committed s (u64 (heap_committed_end s + grow)) (u64 (heap_grow_count s + 1)) in
      emit s [Puts "mem: grew heap from "; Udec (u32 old); Puts " to ";
              Udec (u32 (heap_committed_end s - heap_start s)); Puts " bytes"; Putc 10]
    else s
  else s.

Definition request_total (size : Z) : Z :=
  mask8 (u64 (u64 (SIZEOF_MEM_BLOCK + size) + 7)).

(** [mem_alloc]: returns the payload pointer, 0 for NULL. *)
Definition mem_alloc (s : kmem) (size : Z) : outcome (kmem * Z) :=
  let size := mask8 (u64 (size + 7)) in
  let total := request_total size in
  let s := emit s [Puts "mem_alloc size="; Udec (u32 size); Puts " heap_ptr=0x"; Uhex (heap_ptr s); Putc 10] in
  '(p, blk) ← acquire_from_free_list (blocks s) total;
  let s := set_blocks s p in
  let '(s, blk) :=
    if blk =? 0 then
      let s := grow_heap s total in
      let '(p, cur, blk) := fresh_block (blocks s) (heap_ptr s) (heap_committed_end s) total in
      (set_heap_ptr (set_blocks s p) cur, blk)
    else (s, blk) in
  let '(s, blk) :=
    if blk =? 0 then
      let '(p, cur, blk) := fresh_block (blocks s) (swap_ptr s) swap_end total in
      (set_swap_ptr (set_blocks s p) cur, blk)
    else (s, blk) in
  if blk =? 0 then Ret (set_fail_count s (u64 (heap_alloc_fail_count s + 1)), 0)
  else
    b ← hdr (blocks s) blk;
    let s := emit s [Puts (if from_swap b =? 0 then " alloc addr=0x" else " swap alloc addr=0x");
                     Uhex (u64 (blk + SIZEOF_MEM_BLOCK)); Putc 10] in
    Ret (set_used s (u64 (heap_used_bytes s + user_size b)), u64 (blk + SIZEOF_MEM_BLOCK)).

Definition mem_alloc_or_panic (s : kmem) (size : Z) : outcome (kmem * Z) :=
  '(s, ptr) ← mem_alloc s size;
  if ptr =? 0 then Panic "mem: out of memory" else Ret (s, ptr).

(** The poison pattern of [mem_free] in debug mode: whole words first, then
    the tail bytes. *)
Fixpoint poison_words (n : nat) (m : gmap Z Z) (a : Z) : gmap Z Z :=
  match n with
  | O => m
  | S n => poison_words n (store_bytes m a (le_bytes 8 0xDEADBEEFDEADBEEF)) (a + 8)
  end.
Fixpoint poison_tail (n : nat) (m : gmap Z Z) (a : Z) : gmap Z Z :=
  match n with O => m | S n => poison_tail n (wr m a 0xEF) (a + 1) end.
Definition poison (m : gmap Z Z) (addr user : Z) : gmap Z Z :=
  let n := user / 8 in
  let off := n * 8 in
  poison_tail (Z.to_nat (user - off)) (poison_words (Z.to_nat n) m addr) (addr + off).

Definition mem_free (s : kmem) (addr size : Z) : outcome kmem :=
  if addr =? 0 then Ret s else
  let blk := u64 (addr - SIZEOF_MEM_BLOCK) in
  if negb (ptr_in_region blk (heap_start s) (heap_max_end s)) &&
     negb (ptr_in_region blk swap_space swap_end)
  then Panic "mem: free outside managed region" else
  b ← hdr (blocks s) blk;
  if negb (guard b =? MEM_GUARD_ACTIVE) then Panic "mem: use-after-free or corrupt block" else
  if negb (size =? 0) && (user_size b <? size) then Panic "mem: free size larger than allocation" else
  let s := if debug_mode s then set_ram s (poison (ram s) addr (user_size b)) else s in
  let s := if user_size b <=? heap_used_bytes s
           then set_used s (heap_used_bytes s - user_size b) else s in
  let p := blocks s in
  let p := put p blk (MkBlock (total_size b) (user_size b) MEM_GUARD_FREED (free_list p) (from_swap b)) in
  let p := Pool (hdrs p) blk in
  p ← coalesce_block p blk;
  p ← compact_free_list p;
  Ret (set_blocks s p).

(** [mem_heap_free] walks the free list. *)
Fixpoint free_list_bytes (fuel : nat) (p : pool) (blk acc : Z) : outcome Z :=
  if blk =? 0 then Ret acc else
  match fuel with
  | O => Timeout
  | S fuel => b ← hdr p blk; free_list_bytes fuel p (next b) (u64 (acc + total_size b))
  end.
Definition mem_heap_free (s : kmem) : outcome Z :=
  let free_bytes := u64 (heap_committed_end s - heap_ptr s) in
  let free_bytes := u64 (free_bytes + u64 (SWAP_SIZE - (swap_ptr s - swap_space))) in
  free_list_bytes (S (size (hdrs (blocks s)))) (blocks s) (free_list (blocks s)) free_bytes.

(** [mem_info_t] and [mem_get_info]. *)
Record mem_info_t := MemInfo {
  mi_heap_used : Z; mi_heap_free : Z; mi_heap_committed : Z; mi_heap_max : Z;
  mi_grow_count : Z; mi_alloc_fail_count : Z
}.
Definition mem_get_info (s : kmem) : outcome mem_info_t :=
  free ← mem_heap_free s;
  Ret (MemInfo (heap_used_bytes s) free (u64 (heap_committed_end s - heap_start s))
         (u64 (heap_max_end s - heap_start s)) (heap_grow_count s) (heap_alloc_fail_count s)).

End Allocator.
