(* ===== verification/HeapList.v ===== *)
(** * The free list of kernel/mem.c as a list

    The intrusive list is related to a plain list of addresses: [seg] follows
    the [next] fields, [pool_repr] adds the headers without their [next]
    field.  The pointer routines of [Heap] are then specified by what they do
    to the list and to the headers. *)

From Stdlib Require Import ZArith Lia.
From stdpp Require Import base numbers gmap strings fin_maps option list.
From S2P Require Import Prelude Heap.

Local Open Scope Z_scope.

(** [seg h a l v]: following [next] from [a] visits [l] and arrives at [v]. *)
Fixpoint seg (h : gmap Z mem_block) (a : Z) (l : list Z) (v : Z) : Prop :=
  match l with
  | [] => a = v
  | x :: l => a = x /\ x <> 0 /\ exists b, h !! x = Some b /\ seg h (next b) l v
  end.

Lemma seg_app h a l1 l2 v :
  seg h a (l1 ++ l2) v <-> exists w, seg h a l1 w /\ seg h w l2 v.
Proof.
  revert a; induction l1 as [|x l1 IH]; intros a; cbn.
  - naive_solver.
  - setoid_rewrite IH. naive_solver.
Qed.

Lemma seg_lookup h a l v x : seg h a l v -> x ∈ l -> x <> 0 /\ is_Some (h !! x).
Proof.
  revert a; induction l as [|y l IH]; intros a H Hx; cbn in H; [by apply not_elem_of_nil in Hx|].
  destruct H as (-> & Hy & b & Hb & H). apply elem_of_cons in Hx as [->|Hx]; eauto.
Qed.

(** Two chains that end at NULL from the same start are equal. *)
Lemma seg_det h a l1 l2 : seg h a l1 0 -> seg h a l2 0 -> l1 = l2.
Proof.
  revert a l2; induction l1 as [|x l1 IH]; intros a [|y l2] H1 H2; cbn in *; [done|naive_solver|naive_solver|].
  destruct H1 as (-> & Hx & b & Hb & H1), H2 as (-> & _ & b' & Hb' & H2).
  rewrite Hb in Hb'. injection Hb' as <-. f_equal. eauto.
Qed.

Lemma seg_NoDup h a l : seg h a l 0 -> NoDup l.
Proof.
  revert a; induction l as [|x l IH]; intros a H; [constructor|].
  pose proof H as (Ha & Hx & b & Hb & Hl). subst a.
  constructor; [|eauto]. intros Hin. apply list_elem_of_split in Hin as (m1 & m2 & ->).
  apply seg_app in Hl as (w & _ & Hw). pose proof Hw as (-> & _).
  pose proof (seg_det _ _ _ _ H Hw) as Heq. apply (f_equal length) in Heq.
  cbn in Heq. rewrite length_app in Heq. cbn in Heq. lia.
Qed.

Lemma seg_length h a l : seg h a l 0 -> (length l <= size h)%nat.
Proof.
  intros H. pose proof (seg_NoDup _ _ _ H) as Hnd.
  rewrite <- (size_list_to_set (C := gset Z) l Hnd), <- (size_dom (D := gset Z) h).
  apply subseteq_size. intros x. rewrite elem_of_list_to_set. intros Hx.
  apply elem_of_dom. by eapply seg_lookup in H as [_ ?].
Qed.

(** The list only depends on the [next] fields of its members. *)
Lemma seg_frame h h' a l v :
  (forall x, x ∈ l -> next <$> h !! x = next <$> h' !! x) -> seg h a l v -> seg h' a l v.
Proof.
  revert a; induction l as [|x l IH]; intros a Hf H; [done|].
  destruct H as (-> & Hx & b & Hb & H). cbn. split_and!; [done|done|].
  specialize (Hf x (list_elem_of_here _ _)) as Hfx. rewrite Hb in Hfx. cbn in Hfx.
  destruct (h' !! x) as [b'|]; [|done]. injection Hfx as Hfx.
  exists b'. split; [done|]. rewrite <- Hfx. apply IH; [|done].
  intros y Hy. apply Hf. by right.
Qed.

Lemma seg_insert_notin h a l v x b : x ∉ l -> seg h a l v -> seg (<[x:=b]> h) a l v.
Proof.
  intros Hx. apply seg_frame. intros y Hy. rewrite lookup_insert_ne; [done|]. intros ->. done.
Qed.

Lemma seg_insert_same_next h a l v x b b' :
  h !! x = Some b -> next b' = next b -> seg h a l v -> seg (<[x:=b']> h) a l v.
Proof.
  intros Hb Hn. apply seg_frame. intros y Hy. destruct (decide (x = y)) as [->|Hne].
  - rewrite lookup_insert_eq, Hb. cbn. by rewrite Hn.
  - by rewrite lookup_insert_ne.
Qed.

(** A header without its link. *)
Definition core (b : mem_block) : mem_block := set_next b 0.
Definition cores (p : pool) : gmap Z mem_block := core <$> hdrs p.

Definition pool_repr (p : pool) (c : gmap Z mem_block) (fl : list Z) : Prop :=
  cores p = c /\ seg (hdrs p) (free_list p) fl 0.

Lemma repr_lookup p c fl a b :
  pool_repr p c fl -> c !! a = Some b -> exists b', hdr p a = Ret b' /\ core b' = b.
Proof.
  intros [<- _] H. unfold cores in H. rewrite lookup_fmap in H. unfold hdr.
  destruct (hdrs p !! a) as [b'|]; [|done]. injection H as <-. eauto.
Qed.
Lemma repr_hdr p c fl a b : pool_repr p c fl -> hdr p a = Ret b -> c !! a = Some (core b).
Proof.
  intros [<- _]. unfold hdr, cores. rewrite lookup_fmap. destruct (hdrs p !! a); [|done].
  by intros [= ->].
Qed.
Lemma hdr_Ret p a b : hdr p a = Ret b <-> hdrs p !! a = Some b.
Proof. unfold hdr. destruct (hdrs p !! a); naive_solver. Qed.
Lemma repr_mem p c fl x : pool_repr p c fl -> x ∈ fl -> x <> 0 /\ exists b, hdr p x = Ret b.
Proof.
  intros [_ H] Hx. destruct (seg_lookup _ _ _ _ _ H Hx) as [H0 [b Hb]].
  split; [done|]. exists b. by apply hdr_Ret.
Qed.
Lemma repr_NoDup p c fl : pool_repr p c fl -> NoDup fl.
Proof. intros [_ H]. by eapply seg_NoDup. Qed.

(** Rewriting a header of the store. *)
Lemma repr_put p c fl a b b' :
  pool_repr p c fl -> hdr p a = Ret b -> next b' = next b ->
  pool_repr (put p a b') (<[a := core b']> c) fl.
Proof.
  intros [<- H] Hb Hn. apply hdr_Ret in Hb. split.
  - unfold cores, put. cbn. by rewrite fmap_insert.
  - cbn. by eapply seg_insert_same_next.
Qed.
Lemma repr_put_fresh p c fl a b :
  pool_repr p c fl -> a ∉ fl -> pool_repr (put p a b) (<[a := core b]> c) fl.
Proof.
  intros [<- H] Ha. split.
  - unfold cores, put. cbn. by rewrite fmap_insert.
  - cbn. by apply seg_insert_notin.
Qed.

(** The link that points at the position after [l1]. *)
Definition lnk (l1 : list Z) : link :=
  match last l1 with None => LHead | Some x => LNext x end.

Lemma lnk_snoc l x : lnk (l ++ [x]) = LNext x.
Proof. unfold lnk. by rewrite last_snoc. Qed.

Lemma read_lnk p c l1 l2 :
  pool_repr p c (l1 ++ l2) -> exists v, read_link p (lnk l1) = Ret v /\ seg (hdrs p) v l2 0.
Proof.
  intros [_ H]. apply seg_app in H as (w & H1 & H2). exists w. split; [|done].
  destruct l1 as [|x l1 _] using rev_ind; cbn in *; [by subst|].
  rewrite lnk_snoc. cbn. apply seg_app in H1 as (u & _ & -> & _ & b & Hb & Hw).
  apply hdr_Ret in Hb. rewrite Hb. cbn in *. by subst.
Qed.

Lemma core_set_next b v : core (set_next b v) = core b.
Proof. reflexivity. Qed.

(** Writing the link after [l1]: the list continues with [l3]. *)
Lemma write_lnk_gen p l1 l3 w v :
  seg (hdrs p) (free_list p) l1 w -> NoDup l1 -> seg (hdrs p) v l3 0 -> (forall x, x ∈ l1 -> x ∉ l3) ->
  exists p', write_link p (lnk l1) v = Ret p' /\ pool_repr p' (cores p) (l1 ++ l3).
Proof.
  intros H1 Hnd H3 Hdisj. destruct l1 as [|x l1 _] using rev_ind; cbn in *.
  - exists (Pool (hdrs p) v). done.
  - rewrite lnk_snoc. cbn. apply seg_app in H1 as (u & H1 & -> & Hx & b & Hb & _).
    rewrite (proj2 (hdr_Ret _ _ _) Hb). cbn. eexists. split; [done|].
    assert (x ∉ l1) as Hxl1.
    { apply NoDup_app in Hnd as (_ & Hnd & _). intros Hx1. apply (Hnd x Hx1). by left. }
    assert (x ∉ l3) as Hxl3 by (apply Hdisj, elem_of_app; right; by left).
    split.
    + unfold cores, put. cbn. rewrite fmap_insert, core_set_next, <- fmap_insert.
      by rewrite insert_id.
    + cbn. apply seg_app. exists v. split; [apply seg_app; exists x; split|].
      * by apply seg_insert_notin.
      * cbn. split_and!; [done|done|]. eexists. by rewrite lookup_insert_eq.
      * by apply seg_insert_notin.
Qed.

Lemma write_lnk p c l1 l2 l3 v :
  pool_repr p c (l1 ++ l2) -> seg (hdrs p) v l3 0 -> (forall x, x ∈ l1 -> x ∉ l3) ->
  exists p', write_link p (lnk l1) v = Ret p' /\ pool_repr p' c (l1 ++ l3).
Proof.
  intros Hrepr H3 Hdisj. pose proof (repr_NoDup _ _ _ Hrepr) as Hnd. apply NoDup_app in Hnd as (Hnd & _).
  destruct Hrepr as [<- H]. apply seg_app in H as (w & H1 & _). by eapply write_lnk_gen.
Qed.

(** The header found through the list. *)
Lemma repr_cursor p c l1 x l2 :
  pool_repr p c (l1 ++ x :: l2) ->
  x <> 0 /\ exists b, hdr p x = Ret b /\ seg (hdrs p) (next b) l2 0.
Proof.
  intros [_ H]. apply seg_app in H as (w & _ & -> & Hx & b & Hb & H2).
  split; [done|]. exists b. split; [by apply hdr_Ret|done].
Qed.

(** Total size of the header at [a], 0 without a header. *)
Definition tot (c : gmap Z mem_block) (a : Z) : Z :=
  match c !! a with Some b => total_size b | None => 0 end.
Lemma repr_tot p c fl a b : pool_repr p c fl -> hdr p a = Ret b -> tot c a = total_size b.
Proof. intros H Hb. unfold tot. by rewrite (repr_hdr _ _ _ _ _ H Hb). Qed.

(** ** [best_fit] *)

(** The state of the scan after the prefix [l1]. *)
Definition best_of (c : gmap Z mem_block) (total : Z) (l1 : list Z) (best : option (link * Z)) : Prop :=
  match best with
  | None => forall y, y ∈ l1 -> tot c y < total
  | Some (prev, x) => exists m1 m2, l1 = m1 ++ x :: m2 /\ prev = lnk m1 /\ total <= tot c x /\
      forall y, y ∈ l1 -> total <= tot c y -> tot c x <= tot c y
  end.

Lemma best_of_skip c total l1 best x :
  best_of c total l1 best ->
  (tot c x < total \/ exists prev y, best = Some (prev, y) /\ tot c y <= tot c x) ->
  best_of c total (l1 ++ [x]) best.
Proof.
  intros Hb Hx. destruct best as [[prev y]|]; cbn in *.
  - destruct Hb as (m1 & m2 & -> & -> & Hle & Hmin).
    exists m1, (m2 ++ [x]). split_and!; [by rewrite <- app_assoc|done|done|].
    intros z Hz Htz. apply elem_of_app in Hz as [Hz|Hz]; [by apply Hmin|].
    apply list_elem_of_singleton in Hz as ->. destruct Hx as [Hx|(? & ? & [= <- <-] & Hx)]; lia.
  - intros z Hz. apply elem_of_app in Hz as [Hz|Hz]; [by apply Hb|].
    apply list_elem_of_singleton in Hz as ->. destruct Hx as [Hx|(? & ? & [=] & _)]. done.
Qed.

Lemma best_of_take c total l1 best x :
  best_of c total l1 best -> total <= tot c x ->
  (forall prev y, best = Some (prev, y) -> tot c x <= tot c y) ->
  best_of c total (l1 ++ [x]) (Some (lnk l1, x)).
Proof.
  intros Hb Hle Hlt. exists l1, []. split_and!; try done.
  intros y Hy Hty. apply elem_of_app in Hy as [Hy|Hy].
  - destruct best as [[prev z]|]; cbn in Hb.
    + destruct Hb as (? & ? & _ & _ & _ & Hmin). etrans; [by eapply Hlt|by apply Hmin].
    + specialize (Hb y Hy). lia.
  - apply list_elem_of_singleton in Hy as ->. lia.
Qed.

Lemma best_of_exact c total l1 l2 x :
  tot c x = total -> best_of c total (l1 ++ x :: l2) (Some (lnk l1, x)).
Proof.
  intros Hx. exists l1, l2. split_and!; try done; [lia|]. intros y _ Hy. lia.
Qed.

Lemma best_fit_spec fuel p c l1 l2 total blk best :
  pool_repr p c (l1 ++ l2) -> seg (hdrs p) blk l2 0 -> (length l2 <= fuel)%nat ->
  best_of c total l1 best ->
  exists best', best_fit fuel p total (lnk l1) blk best = Ret best' /\
    best_of c total (l1 ++ l2) best'.
Proof.
  revert fuel l1 blk best. induction l2 as [|x l2 IH]; intros fuel l1 blk best Hrepr Hseg Hfuel Hbest.
  - cbn in Hseg. subst blk. exists best. rewrite app_nil_r. destruct fuel; done.
  - pose proof Hseg as (-> & Hx & b & Hb & Hl2).
    destruct fuel as [|fuel]; [cbn in Hfuel; lia|]. cbn [best_fit].
    rewrite (proj2 (Z.eqb_neq x 0) Hx), (proj2 (hdr_Ret _ _ _) Hb). cbn [mbind outcome_bind].
    pose proof (repr_tot _ _ _ _ _ Hrepr (proj2 (hdr_Ret _ _ _) Hb)) as Htot.
    assert (forall bst, best_of c total (l1 ++ [x]) bst -> exists best',
      best_fit fuel p total (LNext x) (next b) bst = Ret best' /\ best_of c total (l1 ++ x :: l2) best')
      as Hnext.
    { intros bst Hbst. rewrite <- (lnk_snoc l1 x). replace (l1 ++ x :: l2) with ((l1 ++ [x]) ++ l2)
        by (by rewrite <- app_assoc). apply IH; [by rewrite <- app_assoc|done|cbn in Hfuel; lia|done]. }
    destruct (Z.leb_spec total (total_size b)) as [Hle|Hgt].
    + destruct best as [[prev y]|].
      * destruct Hbest as (m1 & m2 & -> & -> & Hley & Hmin).
        assert (y ∈ (m1 ++ y :: m2) ++ x :: l2) as Hy by set_solver.
        destruct (repr_mem _ _ _ _ Hrepr Hy) as [_ [by' Hby]]. rewrite Hby. cbn.
        pose proof (repr_tot _ _ _ _ _ Hrepr Hby) as Hty.
        assert (best_of c total (m1 ++ y :: m2) (Some (lnk m1, y))) as Hbest by (exists m1, m2; done).
        destruct (Z.ltb_spec (total_size b) (total_size by')) as [Hlt|Hge].
        -- destruct (Z.eqb_spec (total_size b) total) as [Heq|Hne].
           ++ eexists. split; [done|]. apply best_of_exact. lia.
           ++ apply Hnext. eapply best_of_take; [done|lia|]. intros ?? [= <- <-]. lia.
        -- apply Hnext, best_of_skip; [done|]. right. eexists _, y. split; [done|]. lia.
      * cbn. destruct (Z.eqb_spec (total_size b) total) as [Heq|Hne].
        -- eexists. split; [done|]. apply best_of_exact. lia.
        -- apply Hnext. eapply best_of_take; [done|lia|]. intros ?? [=].
    + apply Hnext, best_of_skip; [done|]. left. lia.
Qed.

(** ** [compact_free_list] *)

Lemma compact_loop_spec fuel p c l1 l2 :
  pool_repr p c (l1 ++ l2) -> (length l2 <= fuel)%nat ->
  exists p', compact_loop fuel p (lnk l1) = Ret p' /\
    pool_repr p' c (l1 ++ filter (fun x => tot c x <> 0) l2).
Proof.
  revert fuel p l1. induction l2 as [|x l2 IH]; intros fuel p l1 Hrepr Hfuel.
  - destruct (read_lnk _ _ _ _ Hrepr) as (v & Hv & Hseg). cbn in Hseg. subst v.
    exists p. split; [|done]. destruct fuel; cbn; by rewrite Hv.
  - destruct (read_lnk _ _ _ _ Hrepr) as (v & Hv & Hseg). pose proof Hseg as (-> & Hx & b & Hb & Hl2).
    destruct fuel as [|fuel]; [cbn in Hfuel; lia|]. cbn [compact_loop]. rewrite Hv. cbn [mbind outcome_bind].
    rewrite (proj2 (Z.eqb_neq x 0) Hx), (proj2 (hdr_Ret _ _ _) Hb). cbn [mbind outcome_bind].
    pose proof (repr_tot _ _ _ _ _ Hrepr (proj2 (hdr_Ret _ _ _) Hb)) as Htot.
    cbn in Hfuel. destruct (Z.eqb_spec (total_size b) 0) as [Heq|Hne].
    + rewrite filter_cons_False by lia.
      pose proof (repr_NoDup _ _ _ Hrepr) as Hnd. apply NoDup_app in Hnd as (_ & Hnd & _).
      destruct (write_lnk p c l1 (x :: l2) l2 (next b) Hrepr Hl2) as (p' & Hp' & Hrepr').
      { intros y Hy Hy2. apply (Hnd y Hy). by right. }
      rewrite Hp'. cbn. apply IH; [done|lia].
    + rewrite filter_cons_True by lia. rewrite <- (lnk_snoc l1 x).
      destruct (IH fuel p (l1 ++ [x])) as (p' & Hp' & Hrepr'); [by rewrite <- app_assoc|lia|].
      exists p'. split; [done|]. by rewrite <- app_assoc in Hrepr'.
Qed.

Lemma compact_free_list_spec p c fl :
  pool_repr p c fl ->
  exists p', compact_free_list p = Ret p' /\ pool_repr p' c (filter (fun x => tot c x <> 0) fl).
Proof.
  intros H. apply (compact_loop_spec (S (size (hdrs p))) p c [] fl H).
  pose proof (seg_length _ _ _ (proj2 H)). lia.
Qed.
