(* ===== verification/HeapInv.v ===== *)
(** * The invariant of the block allocator of kernel/mem.c

    Each backing region (the heap, the swap array) is tiled by blocks: the
    blocks in use and the blocks of the free list cover it without gaps and
    without overlap.  The steps of the allocator (carving a fresh block,
    splitting, releasing, merging) are shown to keep the tiling. *)

From Stdlib Require Import ZArith Lia.
From stdpp Require Import base numbers gmap strings fin_maps option list.
From S2P Require Import Prelude Heap HeapList.

Local Open Scope Z_scope.

(** ** Tilings *)

(** [tiles c a bl s]: the blocks [bl] of the header map [c] follow each other
    from address [a] up to address [s]. *)
Fixpoint tiles (c : gmap Z mem_block) (a : Z) (bl : list Z) (s : Z) : Prop :=
  match bl with
  | [] => a = s
  | x :: bl => a = x /\ 0 < tot c x /\ tiles c (x + tot c x) bl s
  end.

Lemma tiles_app c a l1 l2 s :
  tiles c a (l1 ++ l2) s <-> exists m, tiles c a l1 m /\ tiles c m l2 s.
Proof.
  revert a; induction l1 as [|x l1 IH]; intros a; cbn.
  - naive_solver.
  - setoid_rewrite IH. naive_solver.
Qed.

Lemma tiles_le c a bl s : tiles c a bl s -> a <= s.
Proof.
  revert a; induction bl as [|x bl IH]; intros a H; cbn in H; [lia|].
  destruct H as (-> & ? & H). apply IH in H. lia.
Qed.

Lemma tiles_range c a bl s x :
  tiles c a bl s -> x ∈ bl -> a <= x /\ 0 < tot c x /\ x + tot c x <= s.
Proof.
  intros H Hx. apply list_elem_of_split in Hx as (l1 & l2 & ->).
  apply tiles_app in H as (m & H1 & -> & ? & H2). apply tiles_le in H1, H2. lia.
Qed.

Lemma tiles_NoDup c a bl s : tiles c a bl s -> NoDup bl.
Proof.
  revert a; induction bl as [|x bl IH]; intros a H; [constructor|].
  destruct H as (-> & ? & H). constructor; [|by eapply IH].
  intros Hx. eapply tiles_range in H; [|done]. lia.
Qed.

Lemma tiles_frame c c' a bl s :
  (forall x, x ∈ bl -> tot c' x = tot c x) -> tiles c a bl s -> tiles c' a bl s.
Proof.
  revert a; induction bl as [|x bl IH]; intros a Hf H; [done|].
  destruct H as (-> & ? & H). cbn. rewrite (Hf x) by (by left).
  split_and!; [done|done|]. apply IH; [|done]. intros y Hy. apply Hf. by right.
Qed.

Lemma tiles_disjoint c a bl s x y :
  tiles c a bl s -> x ∈ bl -> y ∈ bl -> x <> y -> x + tot c x <= y \/ y + tot c y <= x.
Proof.
  intros H Hx Hy Hne. apply list_elem_of_split in Hx as (l1 & l2 & ->).
  apply tiles_app in H as (m & H1 & -> & Hpos & H2).
  apply elem_of_app in Hy as [Hy|Hy]; [eapply tiles_range in H1; [|done]; lia|].
  apply elem_of_cons in Hy as [->|Hy]; [done|]. eapply tiles_range in H2; [|done]. lia.
Qed.

(** Adjacent blocks of a tiling are neighbours in the list. *)
Lemma tiles_adjacent c a bl s x y :
  tiles c a bl s -> x ∈ bl -> y ∈ bl -> x + tot c x = y ->
  exists l1 l2, bl = l1 ++ x :: y :: l2.
Proof.
  intros H Hx Hy Hadj. apply list_elem_of_split in Hx as (l1 & l2 & ->).
  apply tiles_app in H as (m & H1 & -> & Hpos & H2). exists l1.
  apply elem_of_app in Hy as [Hy|Hy]; [eapply tiles_range in H1; [|done]; lia|].
  apply elem_of_cons in Hy as [->|Hy]; [lia|].
  destruct l2 as [|z l2]; [by apply not_elem_of_nil in Hy|].
  destruct H2 as (Hz & Hzpos & H2). exists l2. assert (z = y) as -> by congruence. done.
Qed.

Lemma tiles_snoc c a bl s x :
  tiles c a bl s -> x = s -> 0 < tot c x -> tiles c a (bl ++ [x]) (s + tot c x).
Proof. intros H -> Hpos. apply tiles_app. exists s. split; [done|]. cbn. done. Qed.

Lemma tiles_merge c c' a l1 l2 s x y :
  tiles c a (l1 ++ x :: y :: l2) s -> tot c' x = tot c x + tot c y ->
  (forall z, z <> x -> z <> y -> tot c' z = tot c z) ->
  tiles c' a (l1 ++ x :: l2) s.
Proof.
  intros H Hx Hz. pose proof (tiles_NoDup _ _ _ _ H) as Hnd.
  apply tiles_app in H as (m & H1 & -> & Hpx & Hy & Hpy & H2).
  apply NoDup_app in Hnd as (_ & Hn1 & Hn2).
  apply NoDup_cons in Hn2 as (Hxl2 & Hn2). apply NoDup_cons in Hn2 as (Hyl2 & _).
  apply tiles_app. exists x. split.
  - eapply tiles_frame; [|done]. intros z Hzin. specialize (Hn1 z Hzin).
    apply Hz; intros ->; apply Hn1; [left|right; left].
  - cbn. rewrite Hx. split_and!; [done|lia|]. rewrite Z.add_assoc, Hy.
    eapply tiles_frame; [|done]. intros z Hzin. apply Hz; intros ->; [|done].
    apply Hxl2. by right.
Qed.

Lemma tiles_split c c' a l1 l2 s x n :
  tiles c a (l1 ++ x :: l2) s -> 0 < n < tot c x ->
  tot c' x = n -> tot c' (x + n) = tot c x - n ->
  (forall z, z <> x -> z <> x + n -> tot c' z = tot c z) ->
  tiles c' a (l1 ++ x :: (x + n) :: l2) s.
Proof.
  intros H Hn Hx Hr Hz. apply tiles_app in H as (m & H1 & -> & Hpx & H2).
  apply tiles_app. exists x. split.
  - eapply tiles_frame; [|done]. intros z Hzin. eapply tiles_range in H1; [|done]. apply Hz; lia.
  - cbn. rewrite Hx, Hr. split_and!; [done|lia|done|lia|].
    replace (x + n + (tot c x - n)) with (x + tot c x) by lia.
    eapply tiles_frame; [|done]. intros z Hzin. eapply tiles_range in H2; [|done]. apply Hz; lia.
Qed.

Lemma tiles_sum c a bl s : tiles c a bl s -> sumz (tot c) bl = s - a.
Proof.
  revert a; induction bl as [|x bl IH]; intros a H; cbn in *; [lia|].
  destruct H as (-> & ? & H). apply IH in H. unfold sumz in *. lia.
Qed.

(** ** The invariant *)

(** The two backing regions: 0 is the heap, 1 the swap array, as in the
    [from_swap] field. *)
Definition region (k : Z) : Prop := k = 0 \/ k = 1.

Definition block_ok (b : mem_block) : Prop :=
  SIZEOF_MEM_BLOCK <= total_size b /\ total_size b mod 8 = 0 /\
  user_size b = total_size b - SIZEOF_MEM_BLOCK.

(** The extent of a region in use, and the address it may not pass. *)
Record bounds := Bounds { lo : Z -> Z; hi : Z -> Z; cap : Z -> Z }.

Definition bounds_ok (r : bounds) : Prop :=
  (forall k, region k -> 0 < lo r k /\ hi r k <= cap r k /\ cap r k < 4611686018427387904) /\
  (cap r 1 <= lo r 0 \/ cap r 0 <= lo r 1).

Definition free_or_used (F : list Z) (x : Z) (b : mem_block) : Prop :=
  (guard b = MEM_GUARD_ACTIVE /\ x ∉ F) \/ (guard b = MEM_GUARD_FREED /\ x ∈ F).

(** [F] are the free blocks, [B k] the blocks of region [k] in address order. *)
Record heap_inv (c : gmap Z mem_block) (F : list Z) (B : Z -> list Z) (r : bounds) : Prop := HeapInv {
  inv_tiles : forall k, region k -> tiles c (lo r k) (B k) (hi r k);
  inv_block : forall k x, region k -> x ∈ B k ->
    exists b, c !! x = Some b /\ from_swap b = k /\ block_ok b /\ free_or_used F x b;
  inv_free : forall x, x ∈ F -> exists k, region k /\ x ∈ B k;
  inv_active : forall x b, c !! x = Some b -> guard b = MEM_GUARD_ACTIVE -> exists k, region k /\ x ∈ B k;
  inv_bounds : bounds_ok r
}.

(** No two free blocks of a region touch. *)
Definition coalesced (c : gmap Z mem_block) (F : list Z) : Prop :=
  forall x y b b', x ∈ F -> y ∈ F -> c !! x = Some b -> c !! y = Some b' ->
    from_swap b = from_swap b' -> x + total_size b <> y.

Lemma tot_Some c x b : c !! x = Some b -> tot c x = total_size b.
Proof. intros H. unfold tot. by rewrite H. Qed.

Lemma tot_insert_eq c x b : tot (<[x:=b]> c) x = total_size b.
Proof. unfold tot. by rewrite lookup_insert_eq. Qed.
Lemma tot_insert_ne c x y b : x <> y -> tot (<[x:=b]> c) y = tot c y.
Proof. intros H. unfold tot. by rewrite lookup_insert_ne. Qed.

Section Invariant.
Context (c : gmap Z mem_block) (F : list Z) (B : Z -> list Z) (r : bounds).
Hypothesis Hinv : heap_inv c F B r.

(** A block belongs to one region, the one of its [from_swap] field. *)
Lemma inv_region_unique k j x : region k -> region j -> x ∈ B k -> x ∈ B j -> k = j.
Proof.
  intros Hk Hj Hxk Hxj.
  destruct (inv_block _ _ _ _ Hinv k x Hk Hxk) as (b & Hb & <- & _).
  destruct (inv_block _ _ _ _ Hinv j x Hj Hxj) as (b' & Hb' & <- & _). congruence.
Qed.

Lemma inv_range k x : region k -> x ∈ B k ->
  lo r k <= x /\ 40 <= tot c x /\ x + tot c x <= hi r k.
Proof.
  intros Hk Hx. destruct (inv_block _ _ _ _ Hinv k x Hk Hx) as (b & Hb & _ & Hok & _).
  pose proof (tiles_range _ _ _ _ _ (inv_tiles _ _ _ _ Hinv k Hk) Hx) as (? & _ & ?).
  destruct Hok as (Hok & _). rewrite (tot_Some _ _ _ Hb) in *. unfold SIZEOF_MEM_BLOCK in Hok. lia.
Qed.

Lemma inv_free_block x : x ∈ F -> exists k b, region k /\ x ∈ B k /\ c !! x = Some b /\
  from_swap b = k /\ block_ok b /\ guard b = MEM_GUARD_FREED.
Proof.
  intros Hx. destruct (inv_free _ _ _ _ Hinv x Hx) as (k & Hk & HxB).
  destruct (inv_block _ _ _ _ Hinv k x Hk HxB) as (b & Hb & Hs & Hok & [[_ Hn]|[Hg _]]); [done|].
  exists k, b. done.
Qed.

Lemma inv_active_block x b : c !! x = Some b -> guard b = MEM_GUARD_ACTIVE ->
  region (from_swap b) /\ x ∈ B (from_swap b) /\ block_ok b /\ x ∉ F.
Proof.
  intros Hb Hg. destruct (inv_active _ _ _ _ Hinv x b Hb Hg) as (k & Hk & HxB).
  destruct (inv_block _ _ _ _ Hinv k x Hk HxB) as (b' & Hb' & Hs & Hok & Hfu).
  rewrite Hb in Hb'. injection Hb' as <-. subst k. split_and!; try done.
  destruct Hfu as [[_ Hn]|[Hg' _]]; [done|]. rewrite Hg in Hg'. done.
Qed.

(** Distinct blocks do not overlap, across the regions too. *)
Lemma inv_disjoint k j x y : region k -> region j -> x ∈ B k -> y ∈ B j -> x <> y ->
  x + tot c x <= y \/ y + tot c y <= x.
Proof.
  intros Hk Hj Hx Hy Hne. destruct (decide (k = j)) as [->|Hkj].
  - eapply tiles_disjoint; [by apply (inv_tiles _ _ _ _ Hinv)|done|done|done].
  - pose proof (inv_range k x Hk Hx). pose proof (inv_range j y Hj Hy).
    destruct (inv_bounds _ _ _ _ Hinv) as (Hb & Hd).
    pose proof (Hb k Hk). pose proof (Hb j Hj).
    destruct Hk as [->| ->], Hj as [->| ->], Hd; try done; lia.
Qed.
End Invariant.

(** Replacing the list of one region. *)
Definition upd {A} (f : Z -> A) (k : Z) (v : A) : Z -> A := fun j => if j =? k then v else f j.
Lemma upd_eq {A} (f : Z -> A) k v : upd f k v k = v.
Proof. unfold upd. by rewrite Z.eqb_refl. Qed.
Lemma upd_ne {A} (f : Z -> A) k j v : j <> k -> upd f k v j = f j.
Proof. intros H. unfold upd. by rewrite (proj2 (Z.eqb_neq j k) H). Qed.

(** ** Steps *)

Section Steps.
Context (c : gmap Z mem_block) (F : list Z) (B : Z -> list Z) (r : bounds).
Hypothesis Hinv : heap_inv c F B r.

(** Carving a block at the end of region [k]. *)
Lemma inv_fresh k a b :
  region k -> a = hi r k -> block_ok b -> from_swap b = k -> guard b = MEM_GUARD_ACTIVE ->
  a + total_size b <= cap r k ->
  heap_inv (<[a := b]> c) F (upd B k (B k ++ [a]))
    (Bounds (lo r) (upd (hi r) k (a + total_size b)) (cap r)).
Proof.
  intros Hk -> Hok Hsw Hg Hcap.
  assert (forall j x, region j -> x ∈ B j -> x <> hi r k) as Hnew.
  { intros j x Hj Hx ->. pose proof (inv_range _ _ _ _ Hinv j _ Hj Hx) as (? & ? & ?).
    destruct (inv_bounds _ _ _ _ Hinv) as (Hb & Hd). pose proof (Hb k Hk). pose proof (Hb j Hj).
    destruct Hok as (Hok & _). unfold SIZEOF_MEM_BLOCK in Hok.
    destruct Hk as [->| ->], Hj as [->| ->], Hd; try lia.
    - pose proof (tiles_le _ _ _ _ (inv_tiles _ _ _ _ Hinv 0 (or_introl eq_refl))). lia.
    - pose proof (tiles_le _ _ _ _ (inv_tiles _ _ _ _ Hinv 1 (or_intror eq_refl))). lia. }
  assert (forall j x, region j -> x ∈ B j -> tot (<[hi r k := b]> c) x = tot c x) as Htot.
  { intros j x Hj Hx. apply tot_insert_ne. specialize (Hnew j x Hj Hx). done. }
  split; cbn.
  - intros j Hj. destruct (decide (j = k)) as [->|Hjk].
    + rewrite !upd_eq. pose proof (tot_insert_eq c (hi r k) b) as Ht. rewrite <- Ht.
      apply tiles_snoc; [|done|].
      * eapply tiles_frame; [|by apply (inv_tiles _ _ _ _ Hinv)]. intros x Hx. by eapply Htot.
      * rewrite Ht. destruct Hok as (? & _). unfold SIZEOF_MEM_BLOCK in *. lia.
    + rewrite !upd_ne by done.
      eapply tiles_frame; [|by apply (inv_tiles _ _ _ _ Hinv)]. intros x Hx. by eapply Htot.
  - intros j x Hj Hx. assert (x ∈ B j \/ (j = k /\ x = hi r k)) as [Hx'|[-> ->]].
    { destruct (decide (j = k)) as [->|Hjk]; [|rewrite upd_ne in Hx by done; by left].
      rewrite upd_eq in Hx. apply elem_of_app in Hx as [Hx|Hx]; [by left|].
      apply list_elem_of_singleton in Hx. by right. }
    + rewrite lookup_insert_ne by (intros Heq; by apply (Hnew j x Hj Hx')).
      by apply (inv_block _ _ _ _ Hinv).
    + exists b. rewrite lookup_insert_eq. split_and!; try done. left. split; [done|].
      intros HF. destruct (inv_free _ _ _ _ Hinv _ HF) as (j & Hj' & Hxj). by apply (Hnew j _ Hj' Hxj).
  - intros x Hx. destruct (inv_free _ _ _ _ Hinv x Hx) as (j & Hj & Hxj). exists j. split; [done|].
    unfold upd. case_match eqn:E; [|done]. apply Z.eqb_eq in E as ->. apply elem_of_app. by left.
  - intros x b' Hb' Hg'. destruct (decide (x = hi r k)) as [->|Hne].
    + exists k. split; [done|]. rewrite upd_eq. apply elem_of_app. right. by left.
    + rewrite lookup_insert_ne in Hb' by done.
      destruct (inv_active _ _ _ _ Hinv x b' Hb' Hg') as (j & Hj & Hxj). exists j. split; [done|].
      unfold upd. case_match eqn:E; [|done]. apply Z.eqb_eq in E as ->. apply elem_of_app. by left.
  - destruct (inv_bounds _ _ _ _ Hinv) as (Hb & Hd). split; [|done]. intros j Hj.
    pose proof (Hb j Hj). cbn. unfold upd. case_match eqn:E; [|done]. apply Z.eqb_eq in E as ->. lia.
Qed.

(** Changing the header of a block without touching its extent. *)
Lemma inv_reguard x b g F' :
  c !! x = Some b -> (exists k, region k /\ x ∈ B k) ->
  (forall y, y <> x -> (y ∈ F' <-> y ∈ F)) ->
  free_or_used F' x (MkBlock (total_size b) (user_size b) g 0 (from_swap b)) ->
  heap_inv (<[x := MkBlock (total_size b) (user_size b) g 0 (from_swap b)]> c) F' B r.
Proof.
  intros Hb (k & Hk & Hx) HF Hfu. set (b' := MkBlock _ _ g 0 _) in *.
  assert (forall y, tot (<[x := b']> c) y = tot c y) as Htot.
  { intros y. destruct (decide (x = y)) as [<-|Hne]; [|by apply tot_insert_ne].
    rewrite tot_insert_eq, (tot_Some _ _ _ Hb). done. }
  split.
  - intros j Hj. eapply tiles_frame; [|by apply (inv_tiles _ _ _ _ Hinv)]. intros y _. apply Htot.
  - intros j y Hj Hy. destruct (inv_block _ _ _ _ Hinv j y Hj Hy) as (b0 & Hb0 & Hs & Hok & Hfu0).
    destruct (decide (x = y)) as [<-|Hne].
    + rewrite Hb in Hb0. injection Hb0 as <-. exists b'. rewrite lookup_insert_eq. done.
    + exists b0. rewrite lookup_insert_ne by done. split_and!; try done.
      unfold free_or_used in *. rewrite (HF y) by done. done.
  - intros y Hy. destruct (decide (y = x)) as [->|Hne]; [eauto|].
    apply (inv_free _ _ _ _ Hinv), HF; done.
  - intros y b0 Hb0 Hg. destruct (decide (x = y)) as [<-|Hne]; [eauto|].
    rewrite lookup_insert_ne in Hb0 by done. by eapply (inv_active _ _ _ _ Hinv).
  - apply (inv_bounds _ _ _ _ Hinv).
Qed.

(** Splitting a free block: the front goes into use, the rest stays free. *)
Lemma inv_split x b n F' :
  x ∈ F -> c !! x = Some b -> SIZEOF_MEM_BLOCK <= n -> n mod 8 = 0 ->
  n + SIZEOF_MEM_BLOCK <= total_size b ->
  (forall y, y ∈ F' <-> y = x + n \/ (y ∈ F /\ y <> x)) ->
  exists B', heap_inv
    (<[x := MkBlock n (n - SIZEOF_MEM_BLOCK) MEM_GUARD_ACTIVE 0 (from_swap b)]>
      (<[x + n := MkBlock (total_size b - n) (total_size b - n - SIZEOF_MEM_BLOCK)
           MEM_GUARD_FREED 0 (from_swap b)]> c)) F' B' r.
Proof.
  intros HxF Hb Hn40 Hn8 Hle HF'. unfold SIZEOF_MEM_BLOCK in *.
  destruct (inv_free_block _ _ _ _ Hinv x HxF) as (k & b0 & Hk & HxB & Hb0 & Hs & Hok & _).
  rewrite Hb in Hb0. injection Hb0 as <-.
  set (bx := MkBlock n _ _ _ _). set (br := MkBlock (total_size b - n) _ _ _ _).
  set (c' := <[x := bx]> (<[x + n := br]> c)).
  pose proof (tot_Some _ _ _ Hb) as Htb.
  pose proof (inv_tiles _ _ _ _ Hinv k Hk) as Htiles.
  apply list_elem_of_split in HxB as (l1 & l2 & HB).
  assert (x ∈ B k) as HxB by (rewrite HB; set_solver).
  assert (c' !! x = Some bx) as Hcx by (unfold c'; by rewrite lookup_insert_eq).
  assert (c' !! (x + n) = Some br) as Hcr
    by (unfold c'; rewrite lookup_insert_ne by lia; by rewrite lookup_insert_eq).
  assert (forall z, z <> x -> z <> x + n -> c' !! z = c !! z) as Hcz
    by (intros z ??; unfold c'; by rewrite !lookup_insert_ne by done).
  assert (forall z, z <> x -> z <> x + n -> tot c' z = tot c z) as Htz
    by (intros z ??; unfold tot; by rewrite Hcz).
  assert (forall j y, region j -> y ∈ B j -> y <> x + n) as Hrn.
  { intros j y Hj Hy ->. destruct (inv_disjoint _ _ _ _ Hinv k j x (x + n) Hk Hj HxB Hy); [lia|lia|].
    pose proof (inv_range _ _ _ _ Hinv j _ Hj Hy). lia. }
  exists (upd B k (l1 ++ x :: (x + n) :: l2)).
  assert (forall j y, y ∈ upd B k (l1 ++ x :: (x + n) :: l2) j <-> y ∈ B j \/ (j = k /\ y = x + n)) as HBmem.
  { intros j y. destruct (decide (j = k)) as [->|Hjk]; [|rewrite upd_ne by done; naive_solver].
    rewrite upd_eq, HB, !elem_of_app, !elem_of_cons. naive_solver. }
  split.
  - intros j Hj. destruct (decide (j = k)) as [->|Hjk].
    + rewrite upd_eq. rewrite HB in Htiles. eapply tiles_split; [done|lia| | |done].
      * by rewrite (tot_Some _ _ _ Hcx).
      * rewrite (tot_Some _ _ _ Hcr), Htb. done.
    + rewrite upd_ne by done. eapply tiles_frame; [|by apply (inv_tiles _ _ _ _ Hinv)].
      intros y Hy. apply Htz; [|by eapply Hrn]. intros ->.
      by pose proof (inv_region_unique _ _ _ _ Hinv j k x Hj Hk Hy HxB).
  - intros j y Hj Hy. apply HBmem in Hy as [Hy|[-> ->]].
    + destruct (decide (y = x)) as [->|Hyx].
      * exists bx. split_and!; [done| |split_and!; cbn; unfold SIZEOF_MEM_BLOCK; lia|].
        -- cbn. rewrite Hs. by apply (inv_region_unique _ _ _ _ Hinv k j x).
        -- left. split; [done|]. rewrite HF'. intros [?|[_ ?]]; [lia|done].
      * specialize (Hrn j y Hj Hy).
        destruct (inv_block _ _ _ _ Hinv j y Hj Hy) as (b0 & Hb0 & Hs0 & Hok0 & Hfu0).
        exists b0. rewrite Hcz by done. split_and!; try done.
        unfold free_or_used in *. rewrite HF'. naive_solver.
    + destruct Hok as (? & ? & _). exists br. split_and!; [done|done| |].
      * split_and!; cbn; unfold SIZEOF_MEM_BLOCK in *; [lia| |lia]. mlia.
      * right. split; [done|]. apply HF'. by left.
  - intros y Hy. apply HF' in Hy as [->|[Hy Hne]]; [exists k|].
    + split; [done|]. apply HBmem. by right.
    + destruct (inv_free _ _ _ _ Hinv y Hy) as (j & Hj & HyB). exists j. split; [done|]. apply HBmem. by left.
  - intros y b0 Hb0 Hg. destruct (decide (y = x)) as [->|Hyx].
    + exists k. split; [done|]. apply HBmem. by left.
    + destruct (decide (y = x + n)) as [->|Hyr].
      * rewrite Hcr in Hb0. injection Hb0 as <-. done.
      * rewrite Hcz in Hb0 by done. destruct (inv_active _ _ _ _ Hinv y b0 Hb0 Hg) as (j & Hj & HyB).
        exists j. split; [done|]. apply HBmem. by left.
  - apply (inv_bounds _ _ _ _ Hinv).
Qed.

(** Merging two adjacent free blocks of a region: the left one takes over
    the extent of the right one, whose header is left behind with size 0. *)
Lemma inv_merge x y b b' mx my F' :
  x ∈ F -> y ∈ F -> x <> y -> c !! x = Some b -> c !! y = Some b' ->
  from_swap b = from_swap b' -> x + total_size b = y ->
  total_size mx = total_size b + total_size b' ->
  user_size mx = total_size mx - SIZEOF_MEM_BLOCK ->
  guard mx = guard b -> from_swap mx = from_swap b ->
  total_size my = 0 -> guard my = guard b' ->
  (forall z, z ∈ F' <-> z ∈ F /\ z <> y) ->
  exists B', heap_inv (<[x := mx]> (<[y := my]> c)) F' B' r /\
    (forall j z, z ∈ B' j <-> z ∈ B j /\ z <> y).
Proof.
  intros HxF HyF Hne Hb Hb' Hss Hadj Htm Hum Hgm Hsm Hty Hgy HF'.
  destruct (inv_free_block _ _ _ _ Hinv x HxF) as (k & b0 & Hk & HxB & Hb0 & Hs & Hok & Hg).
  rewrite Hb in Hb0. injection Hb0 as <-.
  destruct (inv_free_block _ _ _ _ Hinv y HyF) as (k' & b0 & Hk' & HyB & Hb0 & Hs' & Hok' & Hg').
  rewrite Hb' in Hb0. injection Hb0 as <-.
  assert (k' = k) as -> by congruence.
  set (c' := <[x := mx]> (<[y := my]> c)).
  pose proof (inv_tiles _ _ _ _ Hinv k Hk) as Htiles.
  destruct (tiles_adjacent _ _ _ _ x y Htiles HxB HyB) as (l1 & l2 & HB);
    [by rewrite (tot_Some _ _ _ Hb)|].
  assert (c' !! x = Some mx) as Hcx by (unfold c'; by rewrite lookup_insert_eq).
  assert (c' !! y = Some my) as Hcy
    by (unfold c'; rewrite lookup_insert_ne by done; by rewrite lookup_insert_eq).
  assert (forall z, z <> x -> z <> y -> c' !! z = c !! z) as Hcz
    by (intros z ??; unfold c'; by rewrite !lookup_insert_ne by done).
  pose proof (tiles_NoDup _ _ _ _ Htiles) as Hnd. rewrite HB in Hnd.
  exists (fun j => filter (fun z => z <> y) (B j)).
  assert (filter (fun z => z <> y) (B k) = l1 ++ x :: l2) as HBk.
  { rewrite HB, filter_app, !filter_cons. rewrite decide_True, decide_False by naive_solver.
    apply NoDup_app in Hnd as (_ & Hn1 & Hn2). apply NoDup_cons in Hn2 as (Hn3 & Hn2).
    apply NoDup_cons in Hn2 as (Hn4 & _). f_equal; [|f_equal]; apply filter_all.
    - intros z Hz ->. apply (Hn1 y Hz). right; left.
    - intros z Hz ->. done. }
  assert (forall j, region j -> j <> k -> filter (fun z => z <> y) (B j) = B j) as HBj.
  { intros j Hj Hjk. apply filter_all. intros z Hz ->.
    by pose proof (inv_region_unique _ _ _ _ Hinv j k y Hj Hk Hz HyB). }
  split; [|intros j z; rewrite list_elem_of_filter; naive_solver].
  split.
  - intros j Hj. destruct (decide (j = k)) as [->|Hjk].
    + rewrite HBk. rewrite HB in Htiles. eapply tiles_merge; [done| |].
      * rewrite (tot_Some _ _ _ Hcx), (tot_Some _ _ _ Hb), (tot_Some _ _ _ Hb'). done.
      * intros z ??. unfold tot. by rewrite Hcz.
    + rewrite HBj by done. eapply tiles_frame; [|by apply (inv_tiles _ _ _ _ Hinv)].
      intros z Hz. unfold tot. rewrite Hcz; [done| |].
      * intros ->. by pose proof (inv_region_unique _ _ _ _ Hinv j k x Hj Hk Hz HxB).
      * intros ->. by pose proof (inv_region_unique _ _ _ _ Hinv j k y Hj Hk Hz HyB).
  - intros j z Hj Hz. apply list_elem_of_filter in Hz as [Hzy Hz].
    destruct (decide (z = x)) as [->|Hzx].
    + exists mx. split_and!; [done| |split_and!|].
      * rewrite Hsm, Hs. by apply (inv_region_unique _ _ _ _ Hinv k j x).
      * destruct Hok as (? & _), Hok' as (? & _). unfold SIZEOF_MEM_BLOCK in *. lia.
      * destruct Hok as (_ & ? & _), Hok' as (_ & ? & _). rewrite Htm. mlia.
      * done.
      * right. rewrite Hgm. split; [done|]. apply HF'. done.
    + destruct (inv_block _ _ _ _ Hinv j z Hj Hz) as (b0 & Hb0 & Hs0 & Hok0 & Hfu0).
      exists b0. rewrite Hcz by done. split_and!; try done.
      unfold free_or_used in *. rewrite HF'. naive_solver.
  - intros z Hz. apply HF' in Hz as [Hz Hzy].
    destruct (inv_free _ _ _ _ Hinv z Hz) as (j & Hj & HzB). exists j. split; [done|].
    apply list_elem_of_filter. done.
  - intros z b0 Hb0 Hg0. destruct (decide (z = y)) as [->|Hzy].
    + rewrite Hcy in Hb0. injection Hb0 as <-. rewrite Hgy, Hg' in Hg0. done.
    + destruct (decide (z = x)) as [->|Hzx].
      * rewrite Hcx in Hb0. injection Hb0 as <-. rewrite Hgm, Hg in Hg0. done.
      * rewrite Hcz in Hb0 by done. destruct (inv_active _ _ _ _ Hinv z b0 Hb0 Hg0) as (j & Hj & HzB).
        exists j. split; [done|]. apply list_elem_of_filter. done.
  - apply (inv_bounds _ _ _ _ Hinv).
Qed.
End Steps.
