(* ===== verification/HeapCoalesce.v ===== *)
(** * [coalesce_block]: termination and maximal merging

    The restart loop of [coalesce_block] is followed with the invariant of
    [HeapInv]; it ends with no two free blocks of a region touching. *)

From Stdlib Require Import ZArith Lia.
From stdpp Require Import base numbers gmap strings fin_maps option list.
From S2P Require Import Prelude Heap HeapList HeapInv.

Local Open Scope Z_scope.

(** The blocks of the chain that still have an extent. *)
Definition live (c : gmap Z mem_block) (fl : list Z) : list Z := filter (fun x => tot c x <> 0) fl.

Lemma elem_of_live c fl x : x ∈ live c fl <-> x ∈ fl /\ tot c x <> 0.
Proof. unfold live. rewrite list_elem_of_filter. tauto. Qed.

(** [x] and [y] are neighbours in the same region. *)
Definition touch (c : gmap Z mem_block) (x y : Z) : Prop :=
  exists b b', c !! x = Some b /\ c !! y = Some b' /\ from_swap b = from_swap b' /\ x + total_size b = y.

Lemma touch_inv c x y b b' :
  touch c x y -> c !! x = Some b -> c !! y = Some b' -> from_swap b = from_swap b' /\ x + total_size b = y.
Proof.
  intros (b1 & b2 & H1 & H2 & Hs & Ha) Hb Hb'. rewrite Hb in H1. rewrite Hb' in H2.
  injection H1 as <-. injection H2 as <-. done.
Qed.

(** All touching pairs of free blocks involve [blk]. *)
Definition almost (c : gmap Z mem_block) (F : list Z) (blk : Z) : Prop :=
  forall x y, x ∈ F -> y ∈ F -> x <> blk -> y <> blk -> ~ touch c x y.

(** Absorbed headers lie strictly inside a block. *)
Definition absorbed_inside (c : gmap Z mem_block) (fl : list Z) (B : Z -> list Z) : Prop :=
  forall z, z ∈ fl -> tot c z = 0 -> exists k x, region k /\ x ∈ B k /\ x < z < x + tot c x.

Record loop_inv (p : pool) (c : gmap Z mem_block) (fl : list Z) (B : Z -> list Z) (r : bounds) (blk : Z) : Prop := LoopInv {
  loop_repr : pool_repr p c fl;
  loop_heap : heap_inv c (live c fl) B r;
  loop_blk : blk ∈ live c fl;
  loop_almost : almost c (live c fl) blk;
  loop_inside : absorbed_inside c fl B
}.

(** The blocks in use are the same in both maps, and no header disappears. *)
Definition same_active (c c' : gmap Z mem_block) : Prop :=
  (forall x b, guard b = MEM_GUARD_ACTIVE -> (c' !! x = Some b <-> c !! x = Some b)) /\
  (forall x, is_Some (c !! x) -> is_Some (c' !! x)).

Lemma same_active_refl c : same_active c c.
Proof. done. Qed.
Lemma same_active_trans c1 c2 c3 : same_active c1 c2 -> same_active c2 c3 -> same_active c1 c3.
Proof.
  intros [H1 D1] [H2 D2]. split; [|by eauto].
  intros x b Hg. rewrite (H2 x b Hg). by apply H1.
Qed.

Section Merge.
Context (p : pool) (c : gmap Z mem_block) (fl : list Z) (B : Z -> list Z) (r : bounds) (blk : Z).
Hypothesis Hloop : loop_inv p c fl B r blk.

(** What the code knows of two headers it is about to compare. *)
Lemma live_block x : x ∈ live c fl -> exists b k, hdr p x = Ret b /\ c !! x = Some (core b) /\
  region k /\ x ∈ B k /\ from_swap b = k /\ block_ok b /\ guard b = MEM_GUARD_FREED /\
  0 < x /\ 40 <= total_size b /\ x + total_size b < 4611686018427387904.
Proof.
  intros Hx. pose proof (loop_heap _ _ _ _ _ _ Hloop) as Hinv.
  destruct (inv_free_block _ _ _ _ Hinv x Hx) as (k & b & Hk & HxB & Hb & Hs & Hok & Hg).
  destruct (repr_lookup _ _ _ _ _ (loop_repr _ _ _ _ _ _ Hloop) Hb) as (b' & Hb' & <-).
  exists b', k. pose proof (inv_range _ _ _ _ Hinv k x Hk HxB) as (? & Ht & ?).
  rewrite (tot_Some _ _ _ Hb) in *. cbn in *.
  destruct (proj1 (inv_bounds _ _ _ _ Hinv) k Hk) as (? & ? & ?). split_and!; try done; lia.
Qed.

(** The live blocks after one of them was absorbed. *)
Lemma live_decreases c' y : (forall z, z ∈ live c' fl <-> z ∈ live c fl /\ z <> y) -> y ∈ live c fl ->
  (length (live c' fl) < length (live c fl))%nat.
Proof.
  intros Hlive Hy. assert (live c' fl ⊆+ live c fl) as Hsub.
  { apply NoDup_submseteq; [apply NoDup_filter, (repr_NoDup _ _ _ (loop_repr _ _ _ _ _ _ Hloop))|].
    intros z Hz. by apply Hlive in Hz as [? _]. }
  assert (~ (length (live c fl) <= length (live c' fl))%nat) as Hlen; [|lia].
  intros Hlen. pose proof (submseteq_length_Permutation _ _ Hsub Hlen) as Hp.
  rewrite <- Hp in Hy. by apply Hlive in Hy as [_ ?].
Qed.
(** Free headers may be rewritten. *)
Lemma rewrite_free x y bx by' mx my : x <> y -> c !! x = Some bx -> c !! y = Some by' ->
  guard bx = MEM_GUARD_FREED -> guard by' = MEM_GUARD_FREED -> guard mx = guard bx -> guard my = guard by' ->
  same_active c (<[x := mx]> (<[y := my]> c)).
Proof.
  intros Hne Hcx Hcy Hg1 Hg2 Hmx Hmy.
  split; [|intros z Hz; apply lookup_insert_is_Some'; right; apply lookup_insert_is_Some'; by right].
  intros z b Hg. destruct (decide (z = x)) as [->|Hzx].
  - rewrite lookup_insert_eq, Hcx. split; intros [= <-]; rewrite ?Hmx, Hg1 in Hg; done.
  - rewrite lookup_insert_ne by done. destruct (decide (z = y)) as [->|Hzy]; [|by rewrite lookup_insert_ne].
    rewrite lookup_insert_eq, Hcy. split; intros [= <-]; rewrite ?Hmy, Hg2 in Hg; done.
Qed.

(** One merge: the pair [(x, y)] with [x] on the left, [blk] one of them. *)
Lemma loop_merge x y bx by' :
  x ∈ live c fl -> y ∈ live c fl -> x <> y -> (blk = x \/ blk = y) ->
  hdr p x = Ret bx -> hdr p y = Ret by' -> from_swap bx = from_swap by' ->
  x + total_size bx = y ->
  let t := total_size bx + total_size by' in
  let mx := MkBlock t (t - SIZEOF_MEM_BLOCK) (guard bx) (next bx) (from_swap bx) in
  let my := MkBlock 0 (user_size by') (guard by') (next by') (from_swap by') in
  forall p', hdrs p' = <[x := mx]> (<[y := my]> (hdrs p)) -> free_list p' = free_list p ->
  exists c' B', loop_inv p' c' fl B' r x /\ same_active c c' /\
    (length (live c' fl) < length (live c fl))%nat.
Proof.
  intros Hx Hy Hne Hblk Hbx Hby Hsw Hadj t mx my p' Hp' Hfl'.
  pose proof (loop_repr _ _ _ _ _ _ Hloop) as Hrepr. pose proof (loop_heap _ _ _ _ _ _ Hloop) as Hinv.
  pose proof (repr_hdr _ _ _ _ _ Hrepr Hbx) as Hcx. pose proof (repr_hdr _ _ _ _ _ Hrepr Hby) as Hcy.
  set (c' := <[x := core mx]> (<[y := core my]> c)).
  destruct (live_block x Hx) as (b1 & k & Hb1 & _ & Hk & HxB & Hs1 & Hok1 & Hg1 & ? & ? & ?).
  rewrite Hbx in Hb1. injection Hb1 as <-.
  destruct (live_block y Hy) as (b2 & k2 & Hb2 & _ & Hk2 & HyB & Hs2 & Hok2 & Hg2 & ? & ? & ?).
  rewrite Hby in Hb2. injection Hb2 as <-.
  assert (forall z, z <> x -> z <> y -> c' !! z = c !! z) as Hcz
    by (intros z ??; unfold c'; by rewrite !lookup_insert_ne by done).
  assert (tot c' x = t) as Htx by (unfold c'; by rewrite tot_insert_eq).
  assert (tot c' y = 0) as Hty
    by (unfold c'; rewrite tot_insert_ne by done; by rewrite tot_insert_eq).
  assert (forall z, z ∈ live c' fl <-> z ∈ live c fl /\ z <> y) as Hlive.
  { intros z. rewrite !elem_of_live. destruct (decide (z = y)) as [->|Hzy]; [rewrite Hty; naive_solver|].
    destruct (decide (z = x)) as [->|Hzx]; [|unfold tot; rewrite Hcz by done; naive_solver].
    rewrite Htx. apply elem_of_live in Hx as [? _]. pose proof (tot_Some _ _ _ Hcx).
    cbn in *. unfold t. intuition lia. }
  destruct (inv_merge c (live c fl) B r Hinv x y (core bx) (core by') (core mx) (core my) (live c' fl))
    as (B' & Hinv' & HB'); try done.
  exists c', B'. split; [split|split].
  - destruct Hrepr as [<- Hseg]. split.
    + unfold cores, c'. rewrite Hp', !fmap_insert. done.
    + rewrite Hp', Hfl'. apply hdr_Ret in Hbx, Hby.
      eapply seg_insert_same_next; [by rewrite lookup_insert_ne by done|done|].
      by eapply seg_insert_same_next.
  - done.
  - apply Hlive. done.
  - intros u v Hu Hv Hux Hvx (bu & bv & Hbu & Hbv & Hs & Ha).
    apply Hlive in Hu as [Hu Huy], Hv as [Hv Hvy]. rewrite Hcz in Hbu, Hbv by done.
    apply (loop_almost _ _ _ _ _ _ Hloop u v); try done; [naive_solver|naive_solver|]. exists bu, bv. done.
  - intros z Hz Htz. destruct (decide (z = y)) as [->|Hzy].
    + exists k, x. split_and!; [done|by apply HB'|lia|rewrite Htx; unfold t; lia].
    + destruct (decide (z = x)) as [->|Hzx]; [rewrite Htx in Htz; unfold t in Htz; lia|].
      assert (tot c z = 0) as Hz0 by (rewrite <- Htz; unfold tot; by rewrite Hcz).
      destruct (loop_inside _ _ _ _ _ _ Hloop z Hz Hz0) as (j & w & Hj & Hw & Hin).
      pose proof (tot_Some _ _ _ Hcx) as Hox. pose proof (tot_Some _ _ _ Hcy) as Hoy. cbn in Hox, Hoy.
      destruct (decide (w = y)) as [->|Hwy].
      * exists k, x. split_and!; [done|by apply HB'|lia|rewrite Htx; unfold t; lia].
      * destruct (decide (w = x)) as [->|Hwx].
        -- exists k, x. split_and!; [done|by apply HB'|lia|rewrite Htx; unfold t; lia].
        -- exists j, w. split_and!; [done|by apply HB'|lia|]. unfold tot. rewrite Hcz by done. apply Hin.
  - by apply (rewrite_free x y (core bx) (core by')).
  - by apply (live_decreases c' y).
Qed.

(** The same with the arithmetic of the code. *)
Lemma merge_code x y bx by' :
  x ∈ live c fl -> y ∈ live c fl -> x <> y -> (blk = x \/ blk = y) ->
  hdr p x = Ret bx -> hdr p y = Ret by' -> from_swap bx = from_swap by' -> blocks_adjacent x bx y = true ->
  let t := u64 (total_size bx + total_size by') in
  exists c' B', same_active c c' /\ (length (live c' fl) < length (live c fl))%nat /\
    loop_inv (put (put p x (MkBlock t (u64 (t - SIZEOF_MEM_BLOCK)) (guard bx) (next bx) (from_swap bx)))
                y (MkBlock 0 (user_size by') (guard by') (next by') (from_swap by'))) c' fl B' r x.
Proof.
  intros Hx Hy Hne Hblk Hbx Hby Hsw Hadj t.
  destruct (live_block x Hx) as (b1 & k & Hb1 & _ & _ & _ & _ & _ & _ & ? & ? & ?). rewrite Hbx in Hb1. injection Hb1 as <-.
  destruct (live_block y Hy) as (b2 & k2 & Hb2 & _ & _ & _ & _ & _ & _ & ? & ? & ?). rewrite Hby in Hb2. injection Hb2 as <-.
  unfold blocks_adjacent in Hadj. rewrite u64_small in Hadj by lia. apply Z.eqb_eq in Hadj.
  unfold t. rewrite !u64_small by (unfold SIZEOF_MEM_BLOCK; lia).
  edestruct (loop_merge x y bx by') as (c2 & B2 & Hloop2 & Hsame & Hlt); [done..| | |by exists c2, B2].
  - cbn. by rewrite insert_insert_ne.
  - done.
Qed.

(** Blocks the code does not find adjacent do not touch. *)
Lemma not_adjacent_apart x bx b : x ∈ live c fl -> hdr p x = Ret bx -> hdr p blk = Ret b ->
  (from_swap bx = from_swap b -> blocks_adjacent x bx blk = false /\ blocks_adjacent blk b x = false) ->
  ~ touch c x blk /\ ~ touch c blk x.
Proof.
  intros Hx Hbx Hb Hadj. pose proof (loop_repr _ _ _ _ _ _ Hloop) as Hrepr.
  pose proof (repr_hdr _ _ _ _ _ Hrepr Hbx) as Hcx. pose proof (repr_hdr _ _ _ _ _ Hrepr Hb) as Hcb.
  destruct (live_block x Hx) as (b1 & k & Hb1 & _ & _ & _ & _ & _ & _ & ? & ? & ?). rewrite Hbx in Hb1. injection Hb1 as <-.
  destruct (live_block blk (loop_blk _ _ _ _ _ _ Hloop)) as (b2 & k2 & Hb2 & _ & _ & _ & _ & _ & _ & ? & ? & ?).
  rewrite Hb in Hb2. injection Hb2 as <-. unfold blocks_adjacent in Hadj. rewrite !u64_small, !Z.eqb_neq in Hadj by lia.
  split; intros Ht; [destruct (touch_inv _ _ _ _ _ Ht Hcx Hcb) as [Hs Ha]|destruct (touch_inv _ _ _ _ _ Ht Hcb Hcx) as [Hs Ha]];
    cbn in Hs, Ha; destruct Hadj; congruence.
Qed.

(** A header already absorbed never passes the adjacency tests. *)
Lemma absorbed_not_adjacent z b bz :
  z ∈ fl -> tot c z = 0 -> hdr p blk = Ret b -> hdr p z = Ret bz -> z <> blk ->
  blocks_adjacent z bz blk = false /\ blocks_adjacent blk b z = false.
Proof.
  intros Hz Hz0 Hb Hbz Hne. pose proof (loop_repr _ _ _ _ _ _ Hloop) as Hrepr.
  pose proof (loop_heap _ _ _ _ _ _ Hloop) as Hinv.
  destruct (live_block blk (loop_blk _ _ _ _ _ _ Hloop)) as (b1 & k & Hb1 & _ & Hk & HblkB & _ & _ & _ & ? & ? & ?).
  rewrite Hb in Hb1. injection Hb1 as <-.
  destruct (loop_inside _ _ _ _ _ _ Hloop z Hz Hz0) as (j & w & Hj & Hw & Hin).
  pose proof (inv_range _ _ _ _ Hinv j w Hj Hw) as (? & ? & ?).
  destruct (proj1 (inv_bounds _ _ _ _ Hinv) j Hj) as (? & ? & ?).
  pose proof (repr_tot _ _ _ _ _ Hrepr Hbz). pose proof (repr_tot _ _ _ _ _ Hrepr Hb).
  unfold blocks_adjacent. rewrite !u64_small by lia. split; apply Z.eqb_neq; [lia|].
  destruct (decide (w = blk)) as [->|Hwb]; [lia|].
  destruct (inv_disjoint _ _ _ _ Hinv j k w blk Hj Hk Hw HblkB Hwb); lia.
Qed.
End Merge.

(** No block of the visited prefix touches [blk]. *)
Definition visited (c : gmap Z mem_block) (blk : Z) (l : list Z) : Prop :=
  forall z, z ∈ l -> tot c z <> 0 -> z <> blk -> ~ touch c z blk /\ ~ touch c blk z.

Lemma almost_coalesced p c fl B r blk :
  loop_inv p c fl B r blk -> visited c blk fl -> coalesced c (live c fl).
Proof.
  intros Hloop Hvis x y b b' Hx Hy Hb Hb' Hs Hadj.
  assert (touch c x y) as Ht by (exists b, b'; done).
  assert (x <> y) as Hne.
  { intros ->. destruct (live_block _ _ _ _ _ _ Hloop _ Hx) as (b0 & k & _ & Hc & _ & _ & _ & _ & _ & _ & ? & _).
    rewrite Hb in Hc. injection Hc as ->. cbn in *. lia. }
  pose proof Hx as Hxl. pose proof Hy as Hyl. apply elem_of_live in Hx as [Hx Hx0], Hy as [Hy Hy0].
  destruct (decide (x = blk)) as [->|Hxb]; [by destruct (Hvis y Hy Hy0 (not_eq_sym Hne))|].
  destruct (decide (y = blk)) as [->|Hyb]; [by destruct (Hvis x Hx Hx0 Hne)|].
  by apply (loop_almost _ _ _ _ _ _ Hloop x y).
Qed.

Lemma visited_snoc c blk l x : visited c blk l ->
  (x <> blk -> tot c x <> 0 -> ~ touch c x blk /\ ~ touch c blk x) -> visited c blk (l ++ [x]).
Proof.
  intros Hvis Hx z Hz Hz0 Hzb. apply elem_of_app in Hz as [Hz|Hz]; [by apply Hvis|].
  apply list_elem_of_singleton in Hz as ->. by apply Hx.
Qed.

(** What the loop ends with. *)
Definition merged (o : outcome pool) (c : gmap Z mem_block) (fl : list Z) (r : bounds) : Prop :=
  exists p' c' B' blk', o = Ret p' /\ loop_inv p' c' fl B' r blk' /\ coalesced c' (live c' fl) /\ same_active c c'.

Lemma merged_trans o c c2 fl r : same_active c c2 -> merged o c2 fl r -> merged o c fl r.
Proof.
  intros Hs (p' & c' & B' & blk' & ? & ? & ? & ?). exists p', c', B', blk'. split_and!; try done. by eapply same_active_trans.
Qed.
Lemma merged_end p c fl B r blk fuel : loop_inv p c fl B r blk -> visited c blk fl -> merged (coalesce_loop fuel p blk 0) c fl r.
Proof.
  intros Hloop Hvis. exists p, c, B, blk. split; [by destruct fuel|]. split; [done|].
  split; [by eapply almost_coalesced|apply same_active_refl].
Qed.

Lemma coalesce_loop_spec fuel p c fl B r blk l1 l2 it :
  loop_inv p c fl B r blk -> fl = l1 ++ l2 -> seg (hdrs p) it l2 0 -> visited c blk l1 ->
  (length l2 + length (live c fl) * S (length fl) <= fuel)%nat ->
  merged (coalesce_loop fuel p blk it) c fl r.
Proof.
  revert p c B blk l1 l2 it. induction fuel as [|fuel IH];
    intros p c B blk l1 l2 it Hloop Hfl Hseg Hvis Hfuel;
    (destruct l2 as [|x l2]; [cbn in Hseg; subst it; rewrite app_nil_r in Hfl; subst l1; by eapply merged_end|]); [cbn in Hfuel; lia|].
  pose proof Hseg as (-> & Hx0 & i & Hi & Hl2). cbn [coalesce_loop].
  rewrite (proj2 (Z.eqb_neq x 0) Hx0), (proj2 (hdr_Ret _ _ _) Hi). apply hdr_Ret in Hi. cbn [mbind outcome_bind].
  destruct (live_block _ _ _ _ _ _ Hloop _ (loop_blk _ _ _ _ _ _ Hloop)) as (b & k & Hb & _).
  rewrite Hb. cbn [mbind outcome_bind]. cbn [length] in Hfuel.
  (* moving on to the next block *)
  assert ((x <> blk -> tot c x <> 0 -> ~ touch c x blk /\ ~ touch c blk x) -> merged (coalesce_loop fuel p blk (next i)) c fl r) as Hskip.
  { intros Hx. eapply (IH p c B blk (l1 ++ [x]) l2); [done|by rewrite <- app_assoc|done|by apply visited_snoc|lia]. }
  (* restarting after a merge *)
  assert (forall p2 c2 B2 y, same_active c c2 -> (length (live c2 fl) < length (live c fl))%nat -> loop_inv p2 c2 fl B2 r y ->
    merged (coalesce_loop fuel p2 y (free_list p2)) c fl r) as Hrestart.
  { intros p2 c2 B2 y Hsame Hlt Hloop2. apply (merged_trans _ c c2); [done|].
    apply (IH p2 c2 B2 y [] fl); [done|done|apply (loop_repr _ _ _ _ _ _ Hloop2)|intros z Hz; by apply not_elem_of_nil in Hz|nia]. }
  destruct (Z.eqb_spec x blk) as [->|Hxb]; cbn [negb andb]; [by apply Hskip|].
  assert (x ∈ fl) as Hxfl by (rewrite Hfl; set_solver). unfold same_backing_region.
  destruct (decide (tot c x = 0)) as [Hz|Hnz].
  { destruct (absorbed_not_adjacent _ _ _ _ _ _ Hloop x b i) as [-> ->]; try done. case_test; by apply Hskip. }
  assert (x ∈ live c fl) as Hxl by (by apply elem_of_live). pose proof (loop_blk _ _ _ _ _ _ Hloop) as Hbl.
  pose proof (not_adjacent_apart _ _ _ _ _ _ Hloop x i b Hxl Hi Hb) as Hapart.
  destruct (Z.eqb_spec (from_swap i) (from_swap b)) as [Hsw|Hsw]; [|by apply Hskip; intros _ _; apply Hapart].
  destruct (blocks_adjacent x i blk) eqn:Hadj.
  { destruct (merge_code _ _ _ _ _ _ Hloop x blk i b) as (c2 & B2 & Hsame & Hlt & Hloop2); try done; [by right|].
    by eapply (Hrestart _ c2 B2). }
  destruct (blocks_adjacent blk b x) eqn:Hadj'; [|by apply Hskip; intros _ _; apply Hapart].
  destruct (merge_code _ _ _ _ _ _ Hloop blk x b i) as (c2 & B2 & Hsame & Hlt & Hloop2); try done; [by left|].
  by eapply (Hrestart _ c2 B2).
Qed.
