(* ===== verification/HeapProofs.v ===== *)
(** * Correctness of the block allocator of kernel/mem.c

    The abstract state of the allocator is the map of the headers in use.
    [mem_alloc] adds a header for a fresh extent, [mem_free] removes one, and
    neither disturbs the others. *)

From Stdlib Require Import ZArith Lia.
From stdpp Require Import base numbers gmap strings fin_maps option list.
From S2P Require Import Prelude Heap HeapList HeapInv HeapCoalesce.

Local Open Scope Z_scope.

(** ** The blocks in use *)

Definition active (c : gmap Z mem_block) : gmap Z mem_block :=
  filter (fun kv => guard kv.2 = MEM_GUARD_ACTIVE) c.

Lemma lookup_active c x b : active c !! x = Some b <-> c !! x = Some b /\ guard b = MEM_GUARD_ACTIVE.
Proof. unfold active. by rewrite map_lookup_filter_Some. Qed.

Lemma active_insert_used c x b :
  guard b = MEM_GUARD_ACTIVE -> active (<[x := b]> c) = <[x := b]> (active c).
Proof. intros H. unfold active. by rewrite map_filter_insert_True. Qed.
Lemma active_insert_free c x b :
  guard b <> MEM_GUARD_ACTIVE -> active (<[x := b]> c) = delete x (active c).
Proof. intros H. unfold active. rewrite map_filter_insert_False by done. by rewrite map_filter_delete. Qed.

Lemma same_active_eq c c' : same_active c c' -> active c' = active c.
Proof.
  intros [H _]. apply map_eq. intros x. apply option_eq. intros b. rewrite !lookup_active.
  split; intros [? ?]; (split; [by apply H|done]).
Qed.

(** ** Acquiring a block *)

Section Acquire.
Context (p : pool) (c : gmap Z mem_block) (F : list Z) (B : Z -> list Z) (r : bounds).
Hypotheses (Hrepr : pool_repr p c F) (Hinv : heap_inv c F B r) (Hco : coalesced c F).

Lemma free_hdr x : x ∈ F -> exists b k, hdr p x = Ret b /\ c !! x = Some (core b) /\ region k /\ x ∈ B k /\
  from_swap b = k /\ block_ok b /\ guard b = MEM_GUARD_FREED /\
  0 < x /\ 40 <= total_size b /\ x + total_size b < 4611686018427387904.
Proof.
  intros Hx. destruct (inv_free_block _ _ _ _ Hinv x Hx) as (k & b & Hk & HxB & Hb & Hs & Hok & Hg).
  destruct (repr_lookup _ _ _ _ _ Hrepr Hb) as (b' & Hb' & <-).
  exists b', k. pose proof (inv_range _ _ _ _ Hinv k x Hk HxB) as (? & Ht & ?).
  rewrite (tot_Some _ _ _ Hb) in *. cbn in *.
  destruct (proj1 (inv_bounds _ _ _ _ Hinv) k Hk) as (? & ? & ?). split_and!; try done; lia.
Qed.

Lemma free_not_active x : x ∈ F -> active c !! x = None.
Proof.
  intros Hx. destruct (free_hdr x Hx) as (b & k & _ & Hb & _ & _ & _ & _ & Hg & _).
  apply eq_None_not_Some. intros [b' Hb']. apply lookup_active in Hb' as [Hb' Hg'].
  rewrite Hb in Hb'. injection Hb' as <-. cbn in Hg'. by rewrite Hg in Hg'.
Qed.

(** What a successful acquisition of [blk] leaves behind. *)
Definition acquired (total blk : Z) (p' : pool) : Prop :=
  exists c' F' B' b, pool_repr p' c' F' /\ heap_inv c' F' B' r /\ coalesced c' F' /\
    hdr p' blk = Ret b /\ core b = b /\ block_ok b /\ guard b = MEM_GUARD_ACTIVE /\
    total <= total_size b < total + 48 /\ active c' = <[blk := b]> (active c).

(** The block is handed out whole. *)
Lemma split_whole l1 x l2 b total :
  F = l1 ++ x :: l2 -> hdr p x = Ret b -> seg (hdrs p) (next b) l2 0 ->
  total <= total_size b < total + 48 ->
  exists p1, write_link p (lnk l1) (next b) = Ret p1 /\
    exists b1, hdr p1 x = Ret b1 /\ total_size b1 = total_size b /\
    acquired total x (put p1 x (MkBlock (total_size b1) (user_size b1) MEM_GUARD_ACTIVE 0 (from_swap b1))).
Proof.
  intros HF Hb Hl2 Hle.
  assert (x ∈ F) as HxF by (rewrite HF; set_solver).
  destruct (free_hdr x HxF) as (b0 & k & Hb0 & Hc & Hk & HxB & Hs & Hok & Hg & ? & ? & ?).
  rewrite Hb in Hb0. injection Hb0 as <-.
  pose proof (repr_NoDup _ _ _ Hrepr) as Hnd. rewrite HF in Hnd.
  apply NoDup_app in Hnd as (Hn1 & Hn2 & Hn3). apply NoDup_cons in Hn3 as (Hn3 & Hn4).
  assert (x ∉ l1 ++ l2) as Hxn.
  { rewrite elem_of_app. intros [Hx|Hx]; [|done]. apply (Hn2 x Hx). by left. }
  assert (pool_repr p c (l1 ++ x :: l2)) as Hrepr' by (by rewrite <- HF).
  destruct (write_lnk p c l1 (x :: l2) l2 (next b) Hrepr' Hl2) as (p1 & Hp1 & Hrepr1).
  { intros y Hy Hy2. apply (Hn2 y Hy). by right. }
  exists p1. split; [done|].
  destruct (repr_lookup _ _ _ _ _ Hrepr1 Hc) as (b1 & Hb1 & Hcore).
  exists b1. injection Hcore as Ht Hu Hgu Hsw. split_and!; [done|done|].
  set (nb := MkBlock _ _ _ _ _).
  assert (forall y, y <> x -> (y ∈ l1 ++ l2 <-> y ∈ F)) as Hmem by (rewrite HF; set_solver).
  exists (<[x := nb]> c), (l1 ++ l2), B, nb. split_and!.
  - by apply (repr_put_fresh p1 c (l1 ++ l2) x nb).
  - unfold nb. rewrite Ht, Hu, Hsw.
    apply (inv_reguard c F B r Hinv x (core b) MEM_GUARD_ACTIVE (l1 ++ l2) Hc); [eauto|done|]. by left.
  - intros u v bu bv Hu' Hv' Hbu Hbv. rewrite lookup_insert_ne in Hbu, Hbv by (intros ->; done).
    apply Hco; [| |done|done]; (apply Hmem; [by intros ->|done]).
  - apply hdr_Ret. cbn. by rewrite lookup_insert_eq.
  - done.
  - unfold nb. destruct Hok as (? & ? & ?). split_and!; cbn; rewrite ?Ht, ?Hu; done.
  - done.
  - cbn. lia.
  - cbn. lia.
  - by apply active_insert_used.
Qed.

(** Coalescing survives the split: the rest keeps the right end of [x]. *)
Lemma coalesced_split x b n F' bx br :
  x ∈ F -> c !! x = Some b -> 0 < n < total_size b ->
  (forall y, y ∈ F' <-> y = x + n \/ (y ∈ F /\ y <> x)) ->
  total_size br = total_size b - n -> from_swap br = from_swap b ->
  coalesced (<[x := bx]> (<[x + n := br]> c)) F'.
Proof.
  intros HxF Hb Hn HF' Htr Hsr u v bu bv Hu Hv Hbu Hbv Hs Hadj.
  assert (forall y, y ∈ F' -> y = x + n \/ (y ∈ F /\ y <> x /\ y <> x + n)) as Hcase.
  { intros y Hy. apply HF' in Hy as [->|[Hy Hyx]]; [by left|]. destruct (decide (y = x + n)); [by left|].
    right. done. }
  assert (forall y by', y <> x + n -> y <> x -> <[x := bx]> (<[x + n := br]> c) !! y = Some by' ->
    c !! y = Some by') as Hold.
  { intros y by' ?? Hy. by rewrite !lookup_insert_ne in Hy by done. }
  assert (forall by', <[x := bx]> (<[x + n := br]> c) !! (x + n) = Some by' -> by' = br) as Hnew.
  { intros by' Hy. rewrite lookup_insert_ne, lookup_insert_eq in Hy by lia. by injection Hy. }
  destruct (Hcase u Hu) as [->|(HuF & Hux & Hur)], (Hcase v Hv) as [->|(HvF & Hvx & Hvr)].
  - apply Hnew in Hbu as ->. lia.
  - apply Hnew in Hbu as ->. apply Hold in Hbv; [|done|done].
    apply (Hco x v b bv); try done; [congruence|lia].
  - apply Hnew in Hbv as ->. apply Hold in Hbu; [|done|done].
    destruct (inv_free _ _ _ _ Hinv u HuF) as (k & Hk & HuB), (inv_free _ _ _ _ Hinv x HxF) as (j & Hj & HxB).
    pose proof (inv_disjoint _ _ _ _ Hinv k j u x Hk Hj HuB HxB Hux) as Hd.
    rewrite (tot_Some _ _ _ Hbu), (tot_Some _ _ _ Hb) in Hd.
    pose proof (inv_range _ _ _ _ Hinv k u Hk HuB) as (_ & ? & _). rewrite (tot_Some _ _ _ Hbu) in *. lia.
  - apply Hold in Hbu, Hbv; try done. by apply (Hco u v bu bv).
Qed.

(** The block is cut and its tail takes its place in the list. *)
Lemma split_cut l1 x l2 b total :
  F = l1 ++ x :: l2 -> hdr p x = Ret b -> seg (hdrs p) (next b) l2 0 ->
  SIZEOF_MEM_BLOCK <= total -> total mod 8 = 0 -> total + 48 <= total_size b ->
  let rest := total_size b - total in
  let p2 := put (put p (x + total) (MkBlock rest (rest - SIZEOF_MEM_BLOCK) MEM_GUARD_FREED (next b) (from_swap b)))
              x (MkBlock total (total - SIZEOF_MEM_BLOCK) (guard b) 0 (from_swap b)) in
  exists p3, write_link p2 (lnk l1) (x + total) = Ret p3 /\
    exists b1, hdr p3 x = Ret b1 /\
    acquired total x (put p3 x (MkBlock (total_size b1) (user_size b1) MEM_GUARD_ACTIVE 0 (from_swap b1))).
Proof.
  intros HF Hb Hl2 H40 H8 Hle rest p2. unfold SIZEOF_MEM_BLOCK in *.
  assert (x ∈ F) as HxF by (rewrite HF; set_solver).
  destruct (free_hdr x HxF) as (b0 & k & Hb0 & Hc & Hk & HxB & Hs & Hok & Hg & ? & ? & ?).
  rewrite Hb in Hb0. injection Hb0 as <-.
  pose proof (repr_NoDup _ _ _ Hrepr) as Hnd. rewrite HF in Hnd.
  apply NoDup_app in Hnd as (Hn1 & Hn2 & Hn3). apply NoDup_cons in Hn3 as (Hn3 & Hn4).
  assert (x ∉ l1) as Hxl1 by (intros Hx; apply (Hn2 x Hx); by left).
  assert ((x + total) ∉ F) as HrF.
  { intros Hr. destruct (inv_free _ _ _ _ Hinv _ Hr) as (j & Hj & HrB).
    pose proof (inv_disjoint _ _ _ _ Hinv k j x (x + total) Hk Hj HxB HrB) as Hd.
    pose proof (inv_range _ _ _ _ Hinv j _ Hj HrB). rewrite (tot_Some _ _ _ Hc) in Hd. cbn in Hd. lia. }
  assert (((x + total) ∉ l1) /\ ((x + total) ∉ l2)) as [Hrl1 Hrl2] by (rewrite HF in HrF; set_solver).
  destruct Hrepr as [Hcores Hseg]. rewrite HF in Hseg. apply seg_app in Hseg as (w & Hseg1 & Hseg2).
  destruct (write_lnk_gen p2 l1 ((x + total) :: l2) w (x + total)) as (p3 & Hp3 & Hrepr3).
  { unfold p2, put. cbn. apply seg_insert_notin; [done|]. by apply seg_insert_notin. }
  { done. }
  { split_and!; [done|lia|]. eexists. split.
    - unfold p2. cbn. rewrite lookup_insert_ne, lookup_insert_eq by lia. done.
    - unfold p2. cbn. apply seg_insert_notin; [done|]. by apply seg_insert_notin. }
  { intros y Hy. rewrite not_elem_of_cons. split; [by intros ->|]. intros Hy2. apply (Hn2 y Hy). by right. }
  exists p3. split; [done|].
  assert (cores p2 = <[x := MkBlock total (total - 40) (guard b) 0 (from_swap b)]>
    (<[x + total := MkBlock rest (rest - 40) MEM_GUARD_FREED 0 (from_swap b)]> c)) as Hc2.
  { unfold p2, cores, put. cbn. by rewrite !fmap_insert, <- Hcores. }
  rewrite Hc2 in Hrepr3.
  destruct (repr_lookup _ _ _ x _ Hrepr3 (lookup_insert_eq _ _ _)) as (b1 & Hb1 & Hcore).
  injection Hcore as Ht1 Hu1 _ Hs1. exists b1. split; [done|]. rewrite Ht1, Hu1, Hs1.
  set (nb := MkBlock _ _ MEM_GUARD_ACTIVE _ _).
  assert (forall y, y ∈ l1 ++ (x + total) :: l2 <-> y = x + total \/ (y ∈ F /\ y <> x)) as Hmem.
  { intros y. rewrite HF, !elem_of_app, !elem_of_cons.
    assert (y ∈ l1 -> y <> x) by (by intros ? ->). assert (y ∈ l2 -> y <> x) by (by intros ? ->). naive_solver. }
  destruct (inv_split c F B r Hinv x (core b) total (l1 ++ (x + total) :: l2)) as (B' & Hinv');
    try done; [unfold SIZEOF_MEM_BLOCK; cbn; lia|].
  eexists (<[x := nb]> (<[x + total := MkBlock rest (rest - 40) MEM_GUARD_FREED 0 (from_swap b)]> c)),
    (l1 ++ (x + total) :: l2), B', nb.
  split_and!; try done; [| | |cbn; lia|].
  - rewrite <- (insert_insert_eq _ x nb (MkBlock total (total - 40) (guard b) 0 (from_swap b))).
    apply (repr_put_fresh p3 _ _ x nb Hrepr3). rewrite Hmem. intros [?|[_ ?]]; [lia|done].
  - eapply coalesced_split; [done|done|cbn; lia|done|done|done].
  - apply hdr_Ret. cbn. by rewrite lookup_insert_eq.
  - rewrite active_insert_used, active_insert_free by done. f_equal. apply delete_id.
    apply eq_None_not_Some. intros [b' Hb']. apply lookup_active in Hb' as [Hb' Hg'].
    destruct (inv_active _ _ _ _ Hinv _ _ Hb' Hg') as (j & Hj & HrB).
    pose proof (inv_disjoint _ _ _ _ Hinv k j x (x + total) Hk Hj HxB HrB) as Hd.
    pose proof (inv_range _ _ _ _ Hinv j _ Hj HrB). rewrite (tot_Some _ _ _ Hc) in Hd. cbn in Hd. lia.
Qed.

(** [acquire_from_free_list] either finds no block large enough, or hands
    out a smallest one that is. *)
Lemma acquire_spec total :
  SIZEOF_MEM_BLOCK <= total < 4611686018427387904 -> total mod 8 = 0 ->
  exists p' blk, acquire_from_free_list p total = Ret (p', blk) /\
    ((blk = 0 /\ p' = p /\ forall y, y ∈ F -> tot c y < total) \/
     (0 < blk /\ blk ∈ F /\ total <= tot c blk /\
      (forall y, y ∈ F -> total <= tot c y -> tot c blk <= tot c y) /\ acquired total blk p')).
Proof.
  intros H40 H8. unfold SIZEOF_MEM_BLOCK in H40. unfold acquire_from_free_list.
  destruct (best_fit_spec (S (size (hdrs p))) p c [] F total (free_list p) None) as (best & Hbest & Hres);
    [done|apply Hrepr|pose proof (seg_length _ _ _ (proj2 Hrepr)); lia|by intros y Hy%not_elem_of_nil|].
  change (lnk []) with LHead in Hbest. rewrite Hbest. cbn [mbind outcome_bind]. cbn [app] in Hres.
  destruct best as [[prev x]|]; [|by exists p, 0; split; [|left]].
  destruct Hres as (l1 & l2 & HF & -> & Hle & Hmin).
  assert (x ∈ F) as HxF by (rewrite HF; set_solver).
  assert (pool_repr p c (l1 ++ x :: l2)) as Hrepr' by (by rewrite <- HF).
  destruct (repr_cursor _ _ _ _ _ Hrepr') as (Hx0 & b & Hb & Hl2).
  destruct (free_hdr x HxF) as (b0 & k & Hb0 & Hc & _ & _ & _ & Hok & _ & ? & ? & ?).
  rewrite Hb in Hb0. injection Hb0 as <-. rewrite (tot_Some _ _ _ Hc) in Hle. cbn in Hle.
  unfold split_block. rewrite Hb. cbn [mbind outcome_bind]. unfold SIZEOF_MEM_BLOCK at 1.
  rewrite (u64_small (total + 40)), (u64_small (total + 40 + 8)) by lia.
  destruct (Z.leb_spec (total + 40 + 8) (total_size b)) as [Hcut|Hcut].
  - destruct (split_cut l1 x l2 b total) as (p3 & Hp3 & b1 & Hb1 & Hacq);
      [done|done|done|unfold SIZEOF_MEM_BLOCK; lia|done|lia|].
    unfold SIZEOF_MEM_BLOCK in *. rewrite (u64_small (x + total)), (u64_small (total_size b - total)) by lia.
    rewrite (u64_small (total_size b - total - 40)), (u64_small (total - 40)) by lia.
    rewrite Hp3. cbn [mbind outcome_bind]. rewrite Hb1. cbn [mbind outcome_bind].
    eexists _, x. split; [done|]. right. split_and!; try done. rewrite (tot_Some _ _ _ Hc). done.
  - destruct (split_whole l1 x l2 b total) as (p1 & Hp1 & b1 & Hb1 & _ & Hacq);
      [done|done|done|lia|].
    rewrite Hp1. cbn [mbind outcome_bind]. rewrite Hb1. cbn [mbind outcome_bind].
    eexists _, x. split; [done|]. right. split_and!; try done. rewrite (tot_Some _ _ _ Hc). done.
Qed.
End Acquire.
