(* ===== verification/HeapSpec.v ===== *)
(** * The contract of the block allocator

    [kinv] is the invariant of the allocator state; the blocks in use,
    [live_blocks], are its abstract state. *)

From Stdlib Require Import ZArith Lia.
From stdpp Require Import base numbers gmap strings fin_maps option list.
From S2P Require Import Prelude Heap HeapList HeapInv HeapCoalesce HeapProofs.

Local Open Scope Z_scope.

Lemma heap_inv_bounds c F B r r' :
  (forall k, region k -> lo r' k = lo r k /\ hi r' k = hi r k /\ cap r' k = cap r k) ->
  heap_inv c F B r -> heap_inv c F B r'.
Proof.
  intros Heq [Ht Hb Hf Ha [Hr Hd]]. split; try done.
  - intros k Hk. destruct (Heq k Hk) as (-> & -> & _). by apply Ht.
  - split; [intros k Hk; destruct (Heq k Hk) as (-> & -> & ->); by apply Hr|].
    destruct (Heq 0 (or_introl eq_refl)) as (-> & _ & ->), (Heq 1 (or_intror eq_refl)) as (-> & _ & ->). done.
Qed.

Section Spec.
Context {L : Layout}.

Definition kbounds (s : kmem) : bounds :=
  Bounds (fun k => if k =? 0 then heap_start s else swap_space)
         (fun k => if k =? 0 then heap_ptr s else swap_ptr s)
         (fun k => if k =? 0 then heap_max_end s else swap_end).

(** The blocks in use: the abstract state of the allocator. *)
Definition live_blocks (s : kmem) : gmap Z mem_block := active (cores (blocks s)).

Record kinv (s : kmem) (F : list Z) (B : Z -> list Z) : Prop := KInv {
  k_list : seg (hdrs (blocks s)) (free_list (blocks s)) F 0;
  k_heap : heap_inv (cores (blocks s)) F B (kbounds s);
  k_coalesced : coalesced (cores (blocks s)) F;
  k_commit : heap_start s < heap_committed_end s /\ heap_ptr s <= heap_committed_end s <= heap_max_end s;
  k_used : heap_used_bytes s = map_sumz user_size (live_blocks s)
}.
Definition heap_ok (s : kmem) : Prop := exists F B, kinv s F B.

Lemma k_repr s F B : kinv s F B -> pool_repr (blocks s) (cores (blocks s)) F.
Proof. intros H. split; [done|apply (k_list _ _ _ H)]. Qed.

(** The blocks in use and the free blocks are the tiles of the two regions. *)
Lemma tiles_partition c F B r :
  heap_inv c F B r -> NoDup F -> F ++ (map_to_list (active c)).*1 ≡ₚ B 0 ++ B 1.
Proof.
  intros Hinv HF. apply NoDup_Permutation.
  - apply NoDup_app. split_and!; [done| |apply NoDup_fst_map_to_list].
    intros x Hx Hx'. apply list_elem_of_fmap in Hx' as ([y b] & -> & Hy). apply elem_of_map_to_list, lookup_active in Hy as [Hb Hg].
    by destruct (inv_active_block _ _ _ _ Hinv _ _ Hb Hg) as (_ & _ & _ & Hn).
  - apply NoDup_app. split_and!; [| |].
    + eapply tiles_NoDup, (inv_tiles _ _ _ _ Hinv). by left.
    + intros x H0 H1. by pose proof (inv_region_unique _ _ _ _ Hinv 0 1 x (or_introl eq_refl) (or_intror eq_refl) H0 H1).
    + eapply tiles_NoDup, (inv_tiles _ _ _ _ Hinv). by right.
  - intros x. rewrite !elem_of_app. split.
    + intros [Hx|Hx].
      * destruct (inv_free _ _ _ _ Hinv x Hx) as (k & [->| ->] & ?); tauto.
      * apply list_elem_of_fmap in Hx as ([y b] & -> & Hy). apply elem_of_map_to_list, lookup_active in Hy as [Hb Hg].
        destruct (inv_active _ _ _ _ Hinv _ _ Hb Hg) as (k & [->| ->] & ?); tauto.
    + intros Hx. assert (exists k, region k /\ x ∈ B k) as (k & Hk & HxB)
        by (destruct Hx; [exists 0|exists 1]; unfold region; tauto).
      destruct (inv_block _ _ _ _ Hinv k x Hk HxB) as (b & Hb & _ & _ & [[Hg _]|[_ Hx']]); [right|by left].
      apply list_elem_of_fmap. exists (x, b). split; [done|]. by apply elem_of_map_to_list, lookup_active.
Qed.

Lemma tiles_conservation c F B r :
  heap_inv c F B r -> NoDup F ->
  sumz (tot c) F + map_sumz total_size (active c) = (hi r 0 - lo r 0) + (hi r 1 - lo r 1).
Proof.
  intros Hinv HF. pose proof (sumz_Permutation (tot c) _ _ (tiles_partition _ _ _ _ Hinv HF)) as Hs.
  rewrite !sumz_app in Hs.
  rewrite !(tiles_sum _ _ _ _ (inv_tiles _ _ _ _ Hinv _ (or_introl eq_refl))) in Hs.
  rewrite !(tiles_sum _ _ _ _ (inv_tiles _ _ _ _ Hinv _ (or_intror eq_refl))) in Hs.
  rewrite sumz_fmap in Hs. rewrite <- Hs. f_equal. apply sumz_ext. intros [x b] Hx.
  apply elem_of_map_to_list, lookup_active in Hx as [Hb _]. cbn. by rewrite (tot_Some _ _ _ Hb).
Qed.

(** The bounds in arithmetic form. *)
Lemma kinv_bounds s F B : kinv s F B ->
  0 < heap_start s /\ heap_start s <= heap_ptr s /\ heap_ptr s <= heap_committed_end s /\
  heap_committed_end s <= heap_max_end s /\ heap_max_end s < 4611686018427387904 /\
  0 < swap_space /\ swap_space <= swap_ptr s /\ swap_ptr s <= swap_end /\ swap_end < 4611686018427387904 /\
  heap_committed_end s <> swap_end.
Proof.
  intros Hk. destruct (inv_bounds _ _ _ _ (k_heap _ _ _ Hk)) as [Hr Hd].
  pose proof (Hr 0 (or_introl eq_refl)) as H0. pose proof (Hr 1 (or_intror eq_refl)) as H1.
  pose proof (tiles_le _ _ _ _ (inv_tiles _ _ _ _ (k_heap _ _ _ Hk) 0 (or_introl eq_refl))) as T0.
  pose proof (tiles_le _ _ _ _ (inv_tiles _ _ _ _ (k_heap _ _ _ Hk) 1 (or_intror eq_refl))) as T1.
  pose proof (k_commit _ _ _ Hk). assert (swap_end = u64 (swap_space + SWAP_SIZE)) as He by done.
  cbn in *. unfold SWAP_SIZE in He. assert (swap_space < swap_end) by (revert He H1 T1; clear; intros; mlia). lia.
Qed.

Lemma kinv_used_range s F B : kinv s F B ->
  0 <= heap_used_bytes s <= (heap_ptr s - heap_start s) + (swap_ptr s - swap_space).
Proof.
  intros Hk. rewrite (k_used _ _ _ Hk).
  pose proof (tiles_conservation _ _ _ _ (k_heap _ _ _ Hk) (repr_NoDup _ _ _ (k_repr _ _ _ Hk))) as Hc. cbn in Hc.
  assert (0 <= sumz (tot (cores (blocks s))) F).
  { apply sumz_nonneg. intros x Hx. destruct (inv_free _ _ _ _ (k_heap _ _ _ Hk) x Hx) as (k & Hr & HxB).
    pose proof (inv_range _ _ _ _ (k_heap _ _ _ Hk) k x Hr HxB). lia. }
  assert (forall x b, live_blocks s !! x = Some b -> 0 <= user_size b <= total_size b) as Hlb.
  { intros x b [Hb Hg]%lookup_active.
    destruct (inv_active_block _ _ _ _ (k_heap _ _ _ Hk) _ _ Hb Hg) as (_ & _ & (? & _ & ->) & _).
    unfold SIZEOF_MEM_BLOCK in *. lia. }
  pose proof (map_sumz_nonneg user_size (live_blocks s) (fun x b H => proj1 (Hlb x b H))).
  pose proof (map_sumz_mono user_size total_size (live_blocks s) (fun x b H => proj2 (Hlb x b H))).
  unfold live_blocks in *. lia.
Qed.

(** ** Growing and carving *)

Definition page_round (n : Z) : Z := (n + 4095) / 4096 * 4096.

Lemma grow_heap_spec s F B total :
  kinv s F B -> 0 <= total < 4611686018427387904 ->
  exists e g o, grow_heap s total = emit (set_committed s e g) o /\ kinv (grow_heap s total) F B /\
    (heap_ptr s + total <= e \/
     heap_max_end s < heap_committed_end s + page_round (heap_ptr s + total - heap_committed_end s)).
Proof.
  intros Hk Ht. pose proof (kinv_bounds _ _ _ Hk). unfold grow_heap.
  assert (kinv s F B -> exists e g o, s = emit (set_committed s e g) o /\ e = heap_committed_end s) as Hself.
  { intros _. exists (heap_committed_end s), (heap_grow_count s), []. destruct s; unfold emit; cbn.
    by rewrite app_nil_r. }
  rewrite (u64_small (heap_ptr s + total)) by lia.
  destruct (Z.ltb_spec (heap_committed_end s) (heap_ptr s + total)) as [Hlt|Hge].
  2: { destruct (Hself Hk) as (e & g & o & Hs & ->). eexists _, g, o. split_and!; [done|done|]. by left. }
  set (need := heap_ptr s + total - heap_committed_end s).
  assert (Z.land (u64 (u64 need + 4095)) (u64 (Z.lnot 4095)) = page_round need) as Hgrow.
  { rewrite (u64_small need), u64_small by lia. rewrite (land_lnot_low _ 12) by lia.
    unfold page_round. change (2 ^ 12) with 4096. mlia. }
  rewrite Hgrow. assert (need <= page_round need < need + 4096) by (unfold page_round; mlia).
  rewrite (u64_small (heap_committed_end s + page_round need)) by lia.
  destruct (Z.leb_spec (heap_committed_end s + page_round need) (heap_max_end s)) as [Hfit|Hno].
  - eexists _, _, _. split_and!; [done| |left; lia].
    destruct Hk as [Hl Hh Hc (? & ? & ?) Hu]. split; try done. cbn. lia.
  - destruct (Hself Hk) as (e & g & o & Hs & _). eexists e, g, o. split_and!; [done|done|]. by right.
Qed.

Definition fresh_hdr (total k : Z) : mem_block :=
  MkBlock total (total - SIZEOF_MEM_BLOCK) MEM_GUARD_ACTIVE 0 k.

Lemma fresh_block_spec p cursor limit total :
  0 < cursor < 4611686018427387904 -> SIZEOF_MEM_BLOCK <= total < 4611686018427387904 ->
  fresh_block p cursor limit total =
    if limit <? cursor + total then (p, cursor, 0)
    else (put p cursor (fresh_hdr total (if limit =? swap_end then 1 else 0)), cursor + total, cursor).
Proof.
  unfold SIZEOF_MEM_BLOCK. intros Hc Ht. unfold fresh_block, fresh_hdr, SIZEOF_MEM_BLOCK.
  by rewrite (u64_small (cursor + total)), (u64_small (total - 40)) by lia.
Qed.

(** Moving the end of region [k] over a fresh block. *)
Definition advance (s : kmem) (k v : Z) : kmem := if k =? 0 then set_heap_ptr s v else set_swap_ptr s v.

Lemma live_None s F B x b : kinv s F B -> live_blocks s !! x = Some b ->
  exists k, region k /\ x ∈ B k /\ from_swap b = k /\ block_ok b /\ tot (cores (blocks s)) x = total_size b.
Proof.
  intros Hk [Hb Hg]%lookup_active.
  destruct (inv_active_block _ _ _ _ (k_heap _ _ _ Hk) _ _ Hb Hg) as (? & ? & ? & _).
  exists (from_swap b). split_and!; try done. by apply tot_Some.
Qed.

Lemma hi_not_block s F B k j x :
  kinv s F B -> region k -> region j -> hi (kbounds s) k < cap (kbounds s) k -> x ∈ B j -> x <> hi (kbounds s) k.
Proof.
  intros Hk Hr Hj Hlt Hx ->. pose proof (inv_range _ _ _ _ (k_heap _ _ _ Hk) j _ Hj Hx) as (? & ? & ?).
  destruct (inv_bounds _ _ _ _ (k_heap _ _ _ Hk)) as (_ & Hd).
  pose proof (kinv_bounds _ _ _ Hk). destruct Hr as [->| ->], Hj as [->| ->]; cbn in *; lia.
Qed.

Lemma kinv_carve s F B k total :
  kinv s F B -> region k -> SIZEOF_MEM_BLOCK <= total -> total mod 8 = 0 ->
  hi (kbounds s) k + total <= (if k =? 0 then heap_committed_end s else swap_end) ->
  let a := hi (kbounds s) k in
  let s1 := advance (set_blocks s (put (blocks s) a (fresh_hdr total k))) k (a + total) in
  live_blocks s !! a = None /\ live_blocks s1 = <[a := fresh_hdr total k]> (live_blocks s) /\
  exists B', kinv (set_used s1 (u64 (heap_used_bytes s1 + (total - SIZEOF_MEM_BLOCK)))) F B'.
Proof.
  intros Hk Hr Ht H8 Hfit a s1. pose proof (kinv_bounds _ _ _ Hk) as Hbd. pose proof (kinv_used_range _ _ _ Hk) as Hur.
  assert (a + total <= cap (kbounds s) k) as Hcap by (destruct Hr as [->| ->]; cbn in *; lia).
  assert (a < cap (kbounds s) k) as Hlt by (unfold SIZEOF_MEM_BLOCK in Ht; lia).
  assert (forall j x, region j -> x ∈ B j -> x <> a) as Hnew by (intros j x Hj; by eapply hi_not_block).
  assert (live_blocks s !! a = None) as Hnone.
  { apply eq_None_not_Some. intros [b Hb]. destruct (live_None _ _ _ _ _ Hk Hb) as (j & Hj & HaB & _).
    by apply (Hnew j a). }
  assert (a ∉ F) as HaF.
  { intros HF. destruct (inv_free _ _ _ _ (k_heap _ _ _ Hk) _ HF) as (j & Hj & HaB). by apply (Hnew j a). }
  assert (cores (put (blocks s) a (fresh_hdr total k)) = <[a := fresh_hdr total k]> (cores (blocks s))) as Hcores.
  { unfold cores, put. cbn. by rewrite fmap_insert. }
  assert (blocks s1 = put (blocks s) a (fresh_hdr total k)) as Hblk by (unfold s1, advance; by case_match).
  assert (live_blocks s1 = <[a := fresh_hdr total k]> (live_blocks s)) as Hlive.
  { unfold live_blocks. rewrite Hblk, Hcores. by apply active_insert_used. }
  split_and!; [done|done|]. exists (upd B k (B k ++ [a])).
  assert (block_ok (fresh_hdr total k)) as Hok by done.
  pose proof (inv_fresh _ _ _ _ (k_heap _ _ _ Hk) k a (fresh_hdr total k) Hr eq_refl Hok eq_refl eq_refl Hcap) as Hinv.
  assert (heap_used_bytes s1 = heap_used_bytes s) as Hus by (unfold s1, advance; by case_match).
  set (v := u64 _). split.
  - change (blocks (set_used s1 v)) with (blocks s1). rewrite Hblk. by apply seg_insert_notin, Hk.
  - change (blocks (set_used s1 v)) with (blocks s1). rewrite Hblk, Hcores.
    eapply heap_inv_bounds; [|exact Hinv]. intros j Hj. unfold s1. destruct Hr as [->| ->], Hj as [->| ->]; done.
  - change (blocks (set_used s1 v)) with (blocks s1). rewrite Hblk, Hcores.
    intros x y b b' Hx Hy Hb Hb'. rewrite lookup_insert_ne in Hb, Hb' by (intros ->; done).
    by apply (k_coalesced _ _ _ Hk).
  - pose proof (k_commit _ _ _ Hk). unfold s1. destruct Hr as [->| ->]; cbn in *; lia.
  - change (live_blocks (set_used s1 v)) with (live_blocks s1).
    rewrite Hlive, map_sumz_insert, <- (k_used _ _ _ Hk) by done. unfold v. rewrite Hus.
    cbn [user_size fresh_hdr]. unfold SIZEOF_MEM_BLOCK in *.
    destruct Hr as [->| ->]; cbn in *; rewrite u64_small; lia.
Qed.

(** ** [mem_alloc] *)

Definition round8 (n : Z) : Z := (n + 7) / 8 * 8.

Lemma request_total_spec size :
  0 <= size < 2305843009213693952 ->
  mask8 (u64 (size + 7)) = round8 size /\
  request_total (round8 size) = SIZEOF_MEM_BLOCK + round8 size /\
  size <= round8 size < size + 8 /\ round8 size mod 8 = 0.
Proof.
  intros Hs. assert (size <= round8 size < size + 8 /\ round8 size mod 8 = 0) as [Hr H8]
    by (unfold round8; mlia).
  split_and!; [| |lia|lia|done].
  - rewrite u64_small, mask8_spec by lia. unfold round8. mlia.
  - unfold request_total, SIZEOF_MEM_BLOCK. rewrite !u64_small by (rewrite ?u64_small; lia).
    rewrite mask8_spec by lia. mlia.
Qed.

(** Neither the free list nor the two regions can serve [total] bytes. *)
Definition no_room (s : kmem) (F : list Z) (total : Z) : Prop :=
  (forall y, y ∈ F -> tot (cores (blocks s)) y < total) /\
  heap_max_end s < heap_committed_end s + page_round (heap_ptr s + total - heap_committed_end s) /\
  swap_end < swap_ptr s + total.

(** The free blocks offer nothing better than [blk]. *)
Definition best_choice (s : kmem) (F : list Z) (total blk : Z) : Prop :=
  let size := tot (cores (blocks s)) in
  (blk ∈ F /\ total <= size blk /\ forall y, y ∈ F -> total <= size y -> size blk <= size y) \/
  (forall y, y ∈ F -> size y < total).

(** A fresh extent has been added to the blocks in use. *)
Definition handed_out (s s' : kmem) (F : list Z) (total p : Z) : Prop :=
  exists blk b, p = blk + SIZEOF_MEM_BLOCK /\ 0 < blk /\ live_blocks s !! blk = None /\
    live_blocks s' = <[blk := b]> (live_blocks s) /\ block_ok b /\
    total <= total_size b < total + 48 /\ best_choice s F total blk.

Definition alloc_result (s s' : kmem) (F : list Z) (total p : Z) : Prop :=
  heap_ok s' /\ ram s' = ram s /\ debug_mode s' = debug_mode s /\ heap_start s' = heap_start s /\
  heap_max_end s' = heap_max_end s /\
  ((p = 0 /\ blocks s' = blocks s /\ no_room s F total) \/ handed_out s s' F total p).

(** The end of [mem_alloc], once a block has been found. *)
Definition finish (s : kmem) (blk : Z) : outcome (kmem * Z) :=
  b ← hdr (blocks s) blk;
  let s := emit s [Puts (if from_swap b =? 0 then " alloc addr=0x" else " swap alloc addr=0x");
                   Uhex (u64 (blk + SIZEOF_MEM_BLOCK)); Putc 10] in
  Ret (set_used s (u64 (heap_used_bytes s + user_size b)), u64 (blk + SIZEOF_MEM_BLOCK)).

Lemma kinv_emit s F B o : kinv s F B -> kinv (emit s o) F B.
Proof. intros [? ? ? ? ?]. by split. Qed.

Lemma finish_carved s1 s F B k total :
  kinv s1 F B -> region k -> SIZEOF_MEM_BLOCK <= total < 4611686018427387904 -> total mod 8 = 0 ->
  let a := hi (kbounds s1) k in
  a + total <= (if k =? 0 then heap_committed_end s1 else swap_end) ->
  blocks s1 = blocks s -> ram s1 = ram s -> debug_mode s1 = debug_mode s ->
  heap_start s1 = heap_start s -> heap_max_end s1 = heap_max_end s ->
  (forall y, y ∈ F -> tot (cores (blocks s)) y < total) ->
  exists s' p, finish (advance (set_blocks s1 (put (blocks s1) a (fresh_hdr total k))) k (a + total)) a = Ret (s', p) /\
    alloc_result s s' F total p.
Proof.
  intros Hk Hr Ht H8 a Hfit Hb Hram Hdbg Hst Hmx Hnone. pose proof (kinv_bounds _ _ _ Hk) as Hbd.
  destruct (kinv_carve s1 F B k total Hk Hr (proj1 Ht) H8 Hfit) as (Hno & Hlive & B' & Hk'). fold a in Hno, Hlive, Hk'.
  assert (0 < a < 4611686018427387904) as Ha by (unfold a; destruct Hr as [->| ->]; cbn in *; lia).
  set (s2 := advance _ k (a + total)) in *.
  assert (hdr (blocks s2) a = Ret (fresh_hdr total k)) as Hhdr.
  { apply hdr_Ret. unfold s2, advance. case_match; cbn; by rewrite lookup_insert_eq. }
  unfold finish. rewrite Hhdr. cbn [mbind outcome_bind]. eexists _, _. split; [done|]. rewrite u64_small by (unfold SIZEOF_MEM_BLOCK; lia).
  split_and!; try by (unfold s2, advance; case_match; cbn; done).
  - exists F, B'. exact (kinv_emit _ _ _ [_; _; _] Hk').
  - right. exists a, (fresh_hdr total k). unfold live_blocks in Hno. rewrite Hb in Hno.
    assert (block_ok (fresh_hdr total k)) as Hok by (split_and!; [apply Ht|done|done]).
    split_and!; [done|lia|done| |done|cbn; lia|cbn; lia|by right].
    change (live_blocks (set_used _ _)) with (live_blocks s2). rewrite Hlive. unfold live_blocks. by rewrite Hb.
Qed.

(** The block comes from the free list. *)
Lemma finish_acquired s F B total blk p' o :
  kinv s F B -> SIZEOF_MEM_BLOCK <= total -> 0 < blk -> blk ∈ F -> total <= tot (cores (blocks s)) blk ->
  (forall y, y ∈ F -> total <= tot (cores (blocks s)) y -> tot (cores (blocks s)) blk <= tot (cores (blocks s)) y) ->
  acquired (cores (blocks s)) (kbounds s) total blk p' ->
  exists s' p, finish (set_blocks (emit s o) p') blk = Ret (s', p) /\ alloc_result s s' F total p.
Proof.
  intros Hk Ht Hpos HF Hle Hmin (c' & F' & B' & b & Hrepr & Hinv & Hco & Hhdr & Hcore & Hok & Hg & Htot & Hact).
  pose proof (kinv_bounds _ _ _ Hk) as Hbd. pose proof (kinv_used_range _ _ _ Hk) as Hur.
  pose proof (free_not_active _ _ _ _ _ (k_repr _ _ _ Hk) (k_heap _ _ _ Hk) blk HF) as Hnone.
  destruct (free_hdr _ _ _ _ _ (k_repr _ _ _ Hk) (k_heap _ _ _ Hk) blk HF)
    as (b0 & k & _ & Hc0 & _ & _ & _ & _ & _ & _ & _ & Hend).
  rewrite (tot_Some _ _ _ Hc0) in Hle. cbn in Hle. unfold SIZEOF_MEM_BLOCK in Ht.
  unfold finish. cbn [blocks set_blocks]. rewrite Hhdr. cbn [mbind outcome_bind].
  rewrite (u64_small (blk + SIZEOF_MEM_BLOCK)) by (unfold SIZEOF_MEM_BLOCK; lia).
  eexists _, _. split; [done|]. destruct Hrepr as [<- Hseg].
  assert (heap_used_bytes s + user_size b < 18446744073709551616 /\ 0 <= user_size b) as [? ?].
  { destruct Hok as (? & _ & ->). unfold SIZEOF_MEM_BLOCK in *.
    assert (total_size b < total + 48) by lia. lia. }
  split_and!; try done.
  - exists F', B'. split; try done.
    + apply (k_commit _ _ _ Hk).
    + cbn [heap_used_bytes set_used emit set_blocks]. unfold live_blocks. cbn [blocks set_used emit set_blocks].
      rewrite Hact, map_sumz_insert by done. rewrite u64_small by lia.
      rewrite (k_used _ _ _ Hk). unfold live_blocks. lia.
  - right. exists blk, b. split_and!; try done; try lia. left. split_and!; try done.
    by rewrite (tot_Some _ _ _ Hc0).
Qed.

Lemma mem_alloc_correct s F B size :
  kinv s F B -> 0 <= size < 2305843009213693952 ->
  exists s' p, mem_alloc s size = Ret (s', p) /\ alloc_result s s' F (SIZEOF_MEM_BLOCK + round8 size) p.
Proof.
  intros Hk Hs. destruct (request_total_spec size Hs) as (Hsz & Htot & Hr & H8).
  pose proof (kinv_bounds _ _ _ Hk) as Hbd. set (total := SIZEOF_MEM_BLOCK + round8 size) in *.
  assert (SIZEOF_MEM_BLOCK <= total < 4611686018427387904 /\ total mod 8 = 0) as [Ht Ht8].
  { unfold total, SIZEOF_MEM_BLOCK. split; [lia|]. mlia. }
  unfold mem_alloc. rewrite Hsz, Htot. set (o := [Puts "mem_alloc size="; _; _; _; _]).
  destruct (acquire_spec _ _ _ _ _ (k_repr _ _ _ Hk) (k_heap _ _ _ Hk) (k_coalesced _ _ _ Hk) total Ht Ht8)
    as (p' & blk & Hacq & Hcase).
  cbn [blocks emit]. rewrite Hacq. cbn [mbind outcome_bind].
  destruct Hcase as [(-> & -> & Hnone)|(Hpos & HF & Hle & Hmin & Hacqd)].
  2: { rewrite !(proj2 (Z.eqb_neq blk 0)) by lia. apply (finish_acquired s F B total blk p' o); try done. apply Ht. }
  cbn [Z.eqb]. set (s0 := set_blocks (emit s o) (blocks s)).
  assert (kinv s0 F B) as Hk0 by (destruct Hk; by split).
  destruct (grow_heap_spec s0 F B total Hk0) as (e & g & o' & Hg & Hk1 & Hroom); [unfold SIZEOF_MEM_BLOCK in Ht; lia|].
  pose proof (kinv_bounds _ _ _ Hk1) as Hbd1.
  assert (blocks (grow_heap s0 total) = blocks s /\ heap_ptr (grow_heap s0 total) = heap_ptr s /\
    heap_committed_end (grow_heap s0 total) = e /\ swap_ptr (grow_heap s0 total) = swap_ptr s /\
    heap_start (grow_heap s0 total) = heap_start s /\ heap_max_end (grow_heap s0 total) = heap_max_end s /\
    ram (grow_heap s0 total) = ram s /\ debug_mode (grow_heap s0 total) = debug_mode s)
    as (Eb & Ep & Ec & Es & Est & Em & Er & Ed) by (rewrite Hg; done).
  set (s1 := grow_heap s0 total) in *.
  rewrite fresh_block_spec by (done || lia). rewrite (proj2 (Z.eqb_neq _ swap_end)) by lia.
  destruct (Z.ltb_spec (heap_committed_end s1) (heap_ptr s1 + total)) as [Hno|Hyes].
  2: { rewrite !(proj2 (Z.eqb_neq (heap_ptr s1) 0)) by lia.
       apply (finish_carved s1 s F B 0 total); try done. by left. }
  cbn [Z.eqb].
  assert (set_heap_ptr (set_blocks s1 (blocks s1)) (heap_ptr s1) = s1) as Hs1 by (destruct s1; done).
  rewrite Hs1, fresh_block_spec by (done || lia). rewrite Z.eqb_refl.
  destruct (Z.ltb_spec swap_end (swap_ptr s1 + total)) as [Hno2|Hyes2].
  2: { rewrite !(proj2 (Z.eqb_neq (swap_ptr s1) 0)) by lia.
       apply (finish_carved s1 s F B 1 total); try done. by right. }
  cbn [Z.eqb]. eexists _, _. split; [done|].
  assert (set_swap_ptr (set_blocks s1 (blocks s1)) (swap_ptr s1) = s1) as Hs2 by (destruct s1; done).
  rewrite Hs2. split_and!; try done; [exists F, B; by destruct Hk1|left].
  split_and!; [done|done|]. split_and!; [done| |lia].
  destruct Hroom as [Hroom|Hroom]; [|done]. exfalso. change (heap_ptr s0) with (heap_ptr s) in Hroom. lia.
Qed.

(** ** [mem_free] *)

(** A block in use, as the checks of [mem_free] see it. *)
Lemma live_checks s F B blk b :
  kinv s F B -> live_blocks s !! blk = Some b ->
  (exists b', hdr (blocks s) blk = Ret b' /\ core b' = b) /\ guard b = MEM_GUARD_ACTIVE /\ block_ok b /\
  ptr_in_region blk (heap_start s) (heap_max_end s) || ptr_in_region blk swap_space swap_end = true /\
  0 < blk /\ blk + total_size b < 4611686018427387904.
Proof.
  intros Hk Hlive. pose proof Hlive as [Hb Hg]%lookup_active.
  destruct (live_None _ _ _ _ _ Hk Hlive) as (k & Hr & HxB & _ & Hok & Ht).
  pose proof (inv_range _ _ _ _ (k_heap _ _ _ Hk) k blk Hr HxB) as (H1 & H2 & H3). rewrite Ht in *.
  pose proof (kinv_bounds _ _ _ Hk). split_and!; try done.
  - by apply (repr_lookup _ _ _ _ _ (k_repr _ _ _ Hk)).
  - unfold ptr_in_region. apply orb_true_iff. destruct Hr as [->| ->]; [left|right]; cbn in H1, H3;
      apply andb_true_iff; rewrite Z.leb_le, Z.ltb_lt; lia.
  - destruct Hr as [->| ->]; cbn in H1; lia.
  - destruct Hr as [->| ->]; cbn in H3; lia.
Qed.

(** Pushing a released block on the free list. *)
Definition push_free (p : pool) (blk : Z) (b : mem_block) : pool :=
  Pool (hdrs (put p blk (MkBlock (total_size b) (user_size b) MEM_GUARD_FREED (free_list p) (from_swap b)))) blk.

Lemma push_free_loop s F B blk b b' :
  kinv s F B -> live_blocks s !! blk = Some b -> hdr (blocks s) blk = Ret b' -> core b' = b ->
  let p1 := push_free (blocks s) blk b' in
  loop_inv p1 (cores p1) (blk :: F) B (kbounds s) blk /\ active (cores p1) = delete blk (live_blocks s).
Proof.
  intros Hk Hlive Hhdr Hcore p1. pose proof Hlive as [Hb Hg]%lookup_active.
  destruct (inv_active_block _ _ _ _ (k_heap _ _ _ Hk) _ _ Hb Hg) as (Hr & HxB & Hok & HnF).
  destruct (live_checks _ _ _ _ _ Hk Hlive) as (_ & _ & _ & _ & Hpos & _).
  set (fb := MkBlock (total_size b) (user_size b) MEM_GUARD_FREED 0 (from_swap b)).
  assert (cores p1 = <[blk := fb]> (cores (blocks s))) as Hc1.
  { unfold p1, push_free, cores, put, fb. cbn. rewrite fmap_insert. subst b. done. }
  assert (heap_inv (cores p1) (blk :: F) B (kbounds s)) as Hinv1.
  { rewrite Hc1. apply (inv_reguard _ _ _ _ (k_heap _ _ _ Hk)); [done|by eexists| |].
    - intros y Hy. rewrite elem_of_cons. naive_solver.
    - right. split; [done|]. by left. }
  assert (forall x, x ∈ blk :: F -> tot (cores p1) x <> 0) as Hlv.
  { intros x Hx. destruct (inv_free _ _ _ _ Hinv1 x Hx) as (k & Hk1 & HB).
    pose proof (inv_range _ _ _ _ Hinv1 k x Hk1 HB). lia. }
  assert (live (cores p1) (blk :: F) = blk :: F) as Hlive1 by (by apply filter_all).
  split; [split|]; rewrite ?Hlive1.
  - split; [done|]. cbn. split_and!; [done|lia|]. eexists. rewrite lookup_insert_eq. split; [done|]. cbn.
    apply seg_insert_notin; [done|]. apply (k_list _ _ _ Hk).
  - done.
  - by left.
  - intros x y Hx Hy Hxb Hyb (bx & by' & Hbx & Hby & Hs & Hadj).
    rewrite Hc1, lookup_insert_ne in Hbx, Hby by done.
    apply (k_coalesced _ _ _ Hk x y bx by'); try done; set_solver.
  - intros z Hz Hz0. by apply Hlv in Hz.
  - rewrite Hc1. by apply active_insert_free.
Qed.

(** Merging and compacting after a release. *)
Lemma release_spec p c fl B r blk :
  loop_inv p c fl B r blk -> exists p1 p2 F' B', coalesce_block p blk = Ret p1 /\ compact_free_list p1 = Ret p2 /\
    pool_repr p2 (cores p2) F' /\ heap_inv (cores p2) F' B' r /\ coalesced (cores p2) F' /\
    same_active c (cores p2).
Proof.
  intros Hloop. pose proof (loop_repr _ _ _ _ _ _ Hloop) as Hrepr.
  pose proof (seg_length _ _ _ (proj2 Hrepr)) as Hlen.
  destruct (coalesce_loop_spec (coalesce_fuel p) p c fl B r blk [] fl (free_list p))
    as (p1 & c1 & B1 & blk1 & Hp1 & Hloop1 & Hco & Hsame);
    [done|done|apply Hrepr|intros z Hz; by apply not_elem_of_nil in Hz| |].
  { assert (length (live c fl) <= length fl)%nat by (unfold live; apply length_filter).
    unfold coalesce_fuel. nia. }
  destruct (compact_free_list_spec p1 c1 fl) as (p2 & Hp2 & Hrepr2); [apply (loop_repr _ _ _ _ _ _ Hloop1)|].
  exists p1, p2, (live c1 fl), B1. pose proof (proj1 Hrepr2) as ->. split_and!; try done.
  apply (loop_heap _ _ _ _ _ _ Hloop1).
Qed.

Lemma mem_free_correct s F B addr size b :
  kinv s F B -> live_blocks s !! (addr - SIZEOF_MEM_BLOCK) = Some b -> 0 <= size <= user_size b ->
  exists s', mem_free s addr size = Ret s' /\ heap_ok s' /\
    live_blocks s' = delete (addr - SIZEOF_MEM_BLOCK) (live_blocks s) /\
    is_Some (hdrs (blocks s') !! (addr - SIZEOF_MEM_BLOCK)) /\
    ram s' = (if debug_mode s then poison (ram s) addr (user_size b) else ram s) /\
    debug_mode s' = debug_mode s /\ heap_start s' = heap_start s /\ heap_max_end s' = heap_max_end s.
Proof.
  intros Hk Hlive Hsz.
  destruct (live_checks _ _ _ _ _ Hk Hlive) as ((b' & Hhdr & Hcore) & Hg & Hok & Hreg & Hpos & Hend).
  assert (total_size b' = total_size b /\ user_size b' = user_size b /\ guard b' = guard b) as (Et & Eu & Eg)
    by (subst b; done).
  assert (0 < addr < 18446744073709551616) by (destruct Hok; unfold SIZEOF_MEM_BLOCK in *; lia).
  unfold mem_free. rewrite (proj2 (Z.eqb_neq addr 0)) by lia.
  rewrite (u64_small (addr - SIZEOF_MEM_BLOCK)) by (unfold SIZEOF_MEM_BLOCK in *; lia).
  rewrite <- negb_orb, Hreg. cbn [negb]. rewrite Hhdr. cbn [mbind outcome_bind].
  rewrite Eg, Hg, Z.eqb_refl. cbn [negb].
  rewrite Eu, (proj2 (Z.ltb_ge (user_size b) size)), andb_false_r by lia.
  set (s1 := if debug_mode s then _ else s).
  assert (user_size b <= heap_used_bytes s) as Hused.
  { rewrite (k_used _ _ _ Hk), (map_sumz_delete _ _ _ _ Hlive).
    assert (0 <= map_sumz user_size (delete (addr - SIZEOF_MEM_BLOCK) (live_blocks s))); [|lia].
    apply map_sumz_nonneg. intros x bx [_ Hx]%lookup_delete_Some.
    destruct (live_checks _ _ _ _ _ Hk Hx) as (_ & _ & (? & _ & ->) & _). unfold SIZEOF_MEM_BLOCK in *. lia. }
  assert (heap_used_bytes s1 = heap_used_bytes s /\ blocks s1 = blocks s) as [Hu1 Hb1] by (unfold s1; by case_match).
  rewrite Hu1, (proj2 (Z.leb_le _ _) Hused).
  destruct (push_free_loop _ _ _ _ _ _ Hk Hlive Hhdr Hcore) as (Hloop & Hact).
  destruct (release_spec _ _ _ _ _ _ Hloop) as (p1 & p2 & F' & B' & Hp1 & Hp2 & Hrepr & Hinv & Hco & Hsame).
  cbn [blocks set_used]. rewrite Hb1. unfold push_free in Hp1. cbn [free_list put] in Hp1 |- *. rewrite Eu in Hp1.
  rewrite Hp1. cbn [mbind outcome_bind]. rewrite Hp2. cbn [mbind outcome_bind].
  eexists. split; [done|].
  assert (live_blocks (set_blocks (set_used s1 (heap_used_bytes s - user_size b)) p2) =
    delete (addr - SIZEOF_MEM_BLOCK) (live_blocks s)) as Hl2.
  { unfold live_blocks at 1. cbn [blocks set_blocks]. by rewrite (same_active_eq _ _ Hsame). }
  split_and!; try (unfold s1; by destruct (debug_mode s) eqn:Hdbg).
  - exists F', B'. split; try done; [apply Hrepr| | |].
    + eapply heap_inv_bounds; [|exact Hinv]. intros j _. unfold s1. by destruct (debug_mode s).
    + pose proof (k_commit _ _ _ Hk). unfold s1. by destruct (debug_mode s).
    + rewrite Hl2. cbn. rewrite (k_used _ _ _ Hk), (map_sumz_delete _ _ _ _ Hlive). lia.
  - cbn [blocks set_blocks]. assert (is_Some (cores p2 !! (addr - SIZEOF_MEM_BLOCK))) as Hsome.
    { apply Hsame. unfold push_free, cores, put. cbn. rewrite fmap_insert, lookup_insert_eq. done. }
    unfold cores in Hsome. rewrite lookup_fmap in Hsome. by destruct (hdrs p2 !! _); [|by destruct Hsome].
Qed.
End Spec.
