(* ===== verification/HeapTheorems.v ===== *)
(** * Theorems on the block allocator of kernel/mem.c

    The properties a client of [mem_alloc] and [mem_free] relies on, stated
    over any state the allocator can reach. *)

From Stdlib Require Import ZArith Lia.
From stdpp Require Import base numbers gmap strings fin_maps option list relations.
From S2P Require Import Prelude Heap HeapList HeapInv HeapCoalesce HeapProofs HeapSpec.

Local Open Scope Z_scope.

(** ** Poisoning stays inside the payload *)

Lemma poison_words_out n m a x : x < a \/ a + 8 * Z.of_nat n <= x -> rd (poison_words n m a) x = rd m x.
Proof.
  revert m a; induction n as [|n IH]; intros m a H; [done|]. cbn [poison_words].
  rewrite IH by lia. apply rd_store_bytes_out. change (length _) with 8%nat. lia.
Qed.
Lemma poison_tail_out n m a x : x < a \/ a + Z.of_nat n <= x -> rd (poison_tail n m a) x = rd m x.
Proof.
  revert m a; induction n as [|n IH]; intros m a H; [done|]. cbn [poison_tail].
  rewrite IH by lia. apply rd_wr_ne. lia.
Qed.
Lemma poison_out m a u x : 0 <= u -> x < a \/ a + u <= x -> rd (poison m a u) x = rd m x.
Proof.
  intros Hu H. unfold poison. assert (0 <= u / 8 /\ u / 8 * 8 <= u) by mlia.
  rewrite poison_tail_out by lia. apply poison_words_out. lia.
Qed.

Section Theorems.
Context {L : Layout}.

(** The addresses of a block in use that belong to the client. *)
Definition payload (blk : Z) (b : mem_block) (x : Z) : Prop :=
  blk + SIZEOF_MEM_BLOCK <= x < blk + SIZEOF_MEM_BLOCK + user_size b.

(** ** Initialisation *)

Definition layout_ok (start size : Z) : Prop :=
  0 < start /\ 0 < size /\ start + EXOCORE_KERNEL_HEAP_MAX_SIZE < 4611686018427387904 /\
  start + size < 4611686018427387904 /\ 0 < swap_space /\ swap_space + SWAP_SIZE < 4611686018427387904 /\
  (swap_space + SWAP_SIZE <= start \/
   (start + EXOCORE_KERNEL_HEAP_MAX_SIZE <= swap_space /\ start + size <= swap_space)).

Lemma heap_init_kinv m d o start size :
  layout_ok start size -> kinv (heap_init m d o start size) [] (fun _ => []).
Proof.
  unfold layout_ok, EXOCORE_KERNEL_HEAP_MAX_SIZE, SWAP_SIZE. intros H.
  assert (swap_end = swap_space + 65536) as Hse by (unfold swap_end, SWAP_SIZE; apply u64_small; lia).
  assert (u64 (start + size) = start + size) as Hc by (apply u64_small; lia).
  assert (u64 (start + 8388608) = start + 8388608) as Hm by (apply u64_small; lia).
  unfold heap_init, EXOCORE_KERNEL_HEAP_MAX_SIZE. change (8 * 1024 * 1024) with 8388608.
  rewrite Hc, Hm. split; cbn.
  - done.
  - split; cbn.
    + intros k [->| ->]; done.
    + intros k x _ Hx. by apply not_elem_of_nil in Hx.
    + intros x Hx. by apply not_elem_of_nil in Hx.
    + intros x b Hb. unfold cores in Hb. cbn in Hb. by rewrite fmap_empty in Hb.
    + split; cbn; rewrite ?Hse.
      * intros k [->| ->]; cbn; [|lia]. case_match; lia.
      * case_match; lia.
  - intros x y b b' Hx. by apply not_elem_of_nil in Hx.
  - case_match eqn:E; [apply Z.ltb_lt in E|apply Z.ltb_ge in E]; lia.
  - done.
Qed.

(** ** Disjointness *)

Lemma live_disjoint s x y b b' :
  heap_ok s -> live_blocks s !! x = Some b -> live_blocks s !! y = Some b' -> x <> y ->
  x + total_size b <= y \/ y + total_size b' <= x.
Proof.
  intros (F & B & Hk) Hx Hy Hne. destruct (live_None _ _ _ _ _ Hk Hx) as (k & Hr & HxB & _ & _ & <-).
  destruct (live_None _ _ _ _ _ Hk Hy) as (j & Hj & HyB & _ & _ & <-).
  by apply (inv_disjoint _ _ _ _ (k_heap _ _ _ Hk) k j).
Qed.

Lemma live_sizes s x b :
  heap_ok s -> live_blocks s !! x = Some b -> 0 <= user_size b /\ total_size b = SIZEOF_MEM_BLOCK + user_size b.
Proof.
  intros (F & B & Hk) Hx. destruct (live_None _ _ _ _ _ Hk Hx) as (_ & _ & _ & _ & (? & _ & ->) & _).
  unfold SIZEOF_MEM_BLOCK in *. lia.
Qed.

(** ** Free space *)

Lemma free_list_bytes_spec fuel p a l acc :
  seg (hdrs p) a l 0 -> (length l <= fuel)%nat ->
  (forall x, x ∈ l -> 0 <= tot (cores p) x) ->
  0 <= acc -> acc + sumz (tot (cores p)) l < 18446744073709551616 ->
  free_list_bytes fuel p a acc = Ret (acc + sumz (tot (cores p)) l).
Proof.
  revert fuel a acc; induction l as [|x l IH]; intros fuel a acc Hseg Hfuel Hpos Hacc Hsum.
  - cbn in Hseg. subst a. destruct fuel; cbn; f_equal; lia.
  - destruct Hseg as (-> & Hx0 & b & Hb & Hl). destruct fuel as [|fuel]; [cbn in Hfuel; lia|].
    cbn [free_list_bytes]. rewrite (proj2 (Z.eqb_neq x 0) Hx0), (proj2 (hdr_Ret _ _ _) Hb). cbn [mbind outcome_bind].
    assert (tot (cores p) x = total_size b) as Ht by (unfold tot, cores; by rewrite lookup_fmap, Hb).
    cbn [sumz foldr] in Hsum. fold (sumz (tot (cores p)) l) in Hsum.
    pose proof (Hpos x (list_elem_of_here _ _)).
    assert (0 <= sumz (tot (cores p)) l) by (apply sumz_nonneg; intros y Hy; apply Hpos; by right).
    rewrite u64_small by lia. rewrite IH; [|done|cbn in Hfuel; lia|intros y Hy; apply Hpos; by right|lia|lia].
    f_equal. cbn. fold (sumz (tot (cores p)) l). unfold sumz in *. lia.
Qed.

Lemma mem_heap_free_correct s F B :
  kinv s F B -> mem_heap_free s =
    Ret (heap_committed_end s - heap_start s + SWAP_SIZE - map_sumz total_size (live_blocks s)).
Proof.
  intros Hk. pose proof (kinv_bounds _ _ _ Hk) as Hbd.
  pose proof (tiles_conservation _ _ _ _ (k_heap _ _ _ Hk) (repr_NoDup _ _ _ (k_repr _ _ _ Hk))) as Hc. cbn in Hc.
  assert (swap_end = swap_space + SWAP_SIZE) as Hse
    by (assert (swap_end = u64 (swap_space + SWAP_SIZE)) by done; unfold SWAP_SIZE in *; mlia).
  assert (forall x, x ∈ F -> 0 <= tot (cores (blocks s)) x) as Hpos.
  { intros x Hx. destruct (inv_free _ _ _ _ (k_heap _ _ _ Hk) x Hx) as (k & Hr & HB).
    pose proof (inv_range _ _ _ _ (k_heap _ _ _ Hk) k x Hr HB). lia. }
  assert (0 <= map_sumz total_size (live_blocks s)) as Hnn.
  { apply map_sumz_nonneg. intros x b Hb. destruct (live_sizes s x b) as [? ->]; [by exists F, B|done|].
    unfold SIZEOF_MEM_BLOCK. lia. }
  pose proof (sumz_nonneg _ _ Hpos). unfold live_blocks in *.
  unfold mem_heap_free. rewrite (u64_small (heap_committed_end s - heap_ptr s)) by lia.
  rewrite (u64_small (SWAP_SIZE - _)) by (unfold SWAP_SIZE in *; lia). rewrite u64_small by (unfold SWAP_SIZE in *; lia).
  rewrite (free_list_bytes_spec _ _ _ F).
  - f_equal. lia.
  - apply (k_list _ _ _ Hk).
  - pose proof (seg_length _ _ _ (k_list _ _ _ Hk)). lia.
  - done.
  - unfold SWAP_SIZE in *. lia.
  - unfold SWAP_SIZE in *. lia.
Qed.

(** ** The contract *)

(** C1: [mem_alloc] returns on every request below 2^61 bytes and keeps the
    allocator well formed.  It gives back NULL only when no free block is large
    enough and neither the heap (grown by whole pages) nor the swap array has
    room; then the blocks are as before.  Otherwise a block that was not in use
    is added to the blocks in use, its payload has at least the requested size,
    the others are untouched, and no byte of memory changes. *)
Theorem mem_alloc_spec s size :
  heap_ok s -> 0 <= size < 2305843009213693952 ->
  exists s' p, mem_alloc s size = Ret (s', p) /\ heap_ok s' /\ ram s' = ram s /\
    ((p = 0 /\ blocks s' = blocks s /\
      exists F, seg (hdrs (blocks s)) (free_list (blocks s)) F 0 /\
        no_room s F (SIZEOF_MEM_BLOCK + round8 size)) \/
     (exists b, live_blocks s !! (p - SIZEOF_MEM_BLOCK) = None /\
        live_blocks s' = <[p - SIZEOF_MEM_BLOCK := b]> (live_blocks s) /\
        size <= user_size b < size + 56)).
Proof.
  intros (F & B & Hk) Hs. destruct (request_total_spec size Hs) as (_ & _ & Hr & _).
  destruct (mem_alloc_correct s F B size Hk Hs) as (s' & p & Hrun & Hok & Hram & _ & _ & _ & Hres).
  exists s', p. split_and!; try done.
  destruct Hres as [(-> & Hb & Hno)|(blk & b & -> & _ & Hnone & Hlive & Hokb & Htot & _)]; [left|right].
  - split_and!; try done. exists F. split; [apply (k_list _ _ _ Hk)|done].
  - exists b. replace (blk + SIZEOF_MEM_BLOCK - SIZEOF_MEM_BLOCK) with blk by lia.
    destruct Hokb as (_ & _ & ->). unfold SIZEOF_MEM_BLOCK in *. split_and!; try done; lia.
Qed.

(** C2: Releasing a block in use, with size 0 or a size it can hold, succeeds:
    exactly that block leaves the blocks in use, the allocator stays well
    formed, and memory outside the payload released is unchanged. *)
Theorem mem_free_spec s addr size b :
  heap_ok s -> live_blocks s !! (addr - SIZEOF_MEM_BLOCK) = Some b -> 0 <= size <= user_size b ->
  exists s', mem_free s addr size = Ret s' /\ heap_ok s' /\
    live_blocks s' = delete (addr - SIZEOF_MEM_BLOCK) (live_blocks s) /\
    forall x, ~ payload (addr - SIZEOF_MEM_BLOCK) b x -> rd (ram s') x = rd (ram s) x.
Proof.
  intros Hok Hlive Hs. pose proof (live_sizes _ _ _ Hok Hlive) as [Hu _]. destruct Hok as (F & B & Hk).
  destruct (mem_free_correct s F B addr size b Hk Hlive Hs) as (s' & Hrun & Hok' & Hl & _ & Hram & _).
  exists s'. split_and!; try done. intros x Hx. rewrite Hram. unfold payload in Hx.
  destruct (debug_mode s); [|done]. apply poison_out; lia.
Qed.

(** C27: The payloads of two blocks in use never share an address, and no
    payload contains an address of another block's header. *)
Theorem live_payloads_disjoint s x y b b' a :
  heap_ok s -> live_blocks s !! x = Some b -> live_blocks s !! y = Some b' -> x <> y ->
  payload x b a -> ~ (y <= a < y + total_size b').
Proof.
  intros Hok Hx Hy Hne Ha Hin. destruct (live_disjoint _ _ _ _ _ Hok Hx Hy Hne) as [H|H];
    pose proof (live_sizes _ _ _ Hok Hx) as [_ Hs]; unfold payload, SIZEOF_MEM_BLOCK in *; lia.
Qed.

(** [mem_heap_free] accounts for every byte: what it reports is the
    committed heap and the swap array less the blocks in use, headers
    included.  Splitting and merging lose nothing. *)
Theorem mem_heap_free_conservation s :
  heap_ok s -> mem_heap_free s =
    Ret (heap_committed_end s - heap_start s + SWAP_SIZE - map_sumz total_size (live_blocks s)).
Proof. intros (F & B & Hk). by eapply mem_heap_free_correct. Qed.

(** C20: A second [mem_free] of a block panics, whatever merging has done to
    its header. *)
Theorem mem_double_free_panics s addr size b :
  heap_ok s -> live_blocks s !! (addr - SIZEOF_MEM_BLOCK) = Some b -> 0 <= size <= user_size b ->
  exists s', mem_free s addr size = Ret s' /\
    mem_free s' addr size = Panic "mem: use-after-free or corrupt block".
Proof.
  intros (F & B & Hk) Hlive Hs.
  destruct (mem_free_correct s F B addr size b Hk Hlive Hs) as (s' & Hrun & _ & Hl & [h Hh] & _ & _ & Hst & Hmx).
  exists s'. split; [done|].
  destruct (live_checks _ _ _ _ _ Hk Hlive) as (_ & _ & Hok & Hreg & Hpos & Hend).
  assert (u64 (addr - SIZEOF_MEM_BLOCK) = addr - SIZEOF_MEM_BLOCK) as Hu
    by (destruct Hok; unfold SIZEOF_MEM_BLOCK in *; apply u64_small; lia).
  unfold mem_free. rewrite (proj2 (Z.eqb_neq addr 0)) by (unfold SIZEOF_MEM_BLOCK in *; lia).
  rewrite Hu, Hst, Hmx, <- negb_orb, Hreg, (proj2 (hdr_Ret _ _ _) Hh). cbn [negb mbind outcome_bind].
  destruct (Z.eqb_spec (guard h) MEM_GUARD_ACTIVE) as [Hg|Hg]; [|done]. exfalso.
  assert (live_blocks s' !! (addr - SIZEOF_MEM_BLOCK) = Some (core h)) as Hcontra.
  { apply lookup_active. split; [|done]. unfold cores. by rewrite lookup_fmap, Hh. }
  by rewrite Hl, lookup_delete_eq in Hcontra.
Qed.

(** ** Runs *)

(** What clients do: allocate, release what they hold, write to what they hold. *)
Inductive heap_step (s : kmem) : kmem -> Prop :=
| step_alloc size s' p : 0 <= size < 2305843009213693952 -> mem_alloc s size = Ret (s', p) -> heap_step s s'
| step_free addr size b s' : live_blocks s !! (addr - SIZEOF_MEM_BLOCK) = Some b -> 0 <= size <= user_size b ->
    mem_free s addr size = Ret s' -> heap_step s s'
| step_write blk b x v : live_blocks s !! blk = Some b -> payload blk b x -> heap_step s (set_ram s (wr (ram s) x v)).

Lemma heap_step_ok s s' : heap_ok s -> heap_step s s' -> heap_ok s'.
Proof.
  intros (F & B & Hk) Hstep. destruct Hstep as [size s' p Hs Hrun|addr size b s' Hl Hs Hrun|blk b x v _ _].
  - destruct (mem_alloc_correct s F B size Hk Hs) as (? & ? & Hr & Hok & _). rewrite Hr in Hrun.
    by injection Hrun as <- <-.
  - destruct (mem_free_correct s F B addr size b Hk Hl Hs) as (? & Hr & Hok & _). rewrite Hr in Hrun.
    by injection Hrun as <-.
  - exists F, B. by destruct Hk.
Qed.

(** C3: From [mem_init] on, whatever sequence of requests clients make, the
    heap stays well formed, no two free blocks touch, and the counter
    [heap_used_bytes] is the sum of the payload sizes in use. *)
Theorem heap_runs_safe m d o start size s :
  layout_ok start size -> rtc heap_step (heap_init m d o start size) s ->
  heap_ok s /\ heap_used_bytes s = map_sumz user_size (live_blocks s) /\
  exists F, seg (hdrs (blocks s)) (free_list (blocks s)) F 0 /\ NoDup F /\ coalesced (cores (blocks s)) F.
Proof.
  intros Hl Hrun. assert (heap_ok (heap_init m d o start size)) as Hinit
    by (eexists _, _; by apply heap_init_kinv).
  assert (heap_ok s) as (F & B & Hk).
  { clear Hl. induction Hrun as [|s1 s2 s3 H _ IH]; [done|]. apply IH. by eapply heap_step_ok. }
  split_and!; [by exists F, B|apply (k_used _ _ _ Hk)|]. exists F.
  split_and!; [apply (k_list _ _ _ Hk)|apply (repr_NoDup _ _ _ (k_repr _ _ _ Hk))|apply (k_coalesced _ _ _ Hk)].
Qed.

(** Allocating and releasing at once gives the space back: the bytes
    reported free differ only by the pages the heap was grown with. *)
Theorem alloc_free_restores s size s1 p s2 f :
  heap_ok s -> 0 <= size < 2305843009213693952 -> mem_alloc s size = Ret (s1, p) -> p <> 0 ->
  mem_free s1 p size = Ret s2 -> mem_heap_free s = Ret f ->
  mem_heap_free s2 = Ret (f + heap_committed_end s2 - heap_committed_end s).
Proof.
  intros (F & B & Hk) Hs Ha Hp Hf Hf0. rewrite (mem_heap_free_correct _ _ _ Hk) in Hf0. injection Hf0 as <-.
  destruct (request_total_spec size Hs) as (_ & _ & Hr & _).
  destruct (mem_alloc_correct s F B size Hk Hs) as (s' & p' & Hrun & (F1 & B1 & Hk1) & _ & _ & Hst & _ & Hres).
  rewrite Ha in Hrun. injection Hrun as <- <-.
  destruct Hres as [(-> & _)|(blk & b & -> & _ & Hnone & Hlive & Hokb & Htot & _)]; [done|].
  assert (live_blocks s1 !! (blk + SIZEOF_MEM_BLOCK - SIZEOF_MEM_BLOCK) = Some b) as Hl1
    by (rewrite Hlive; replace (_ + _ - _) with blk by lia; by rewrite lookup_insert_eq).
  destruct (mem_free_correct s1 F1 B1 (blk + SIZEOF_MEM_BLOCK) size b Hk1 Hl1)
    as (s' & Hrun & (F2 & B2 & Hk2) & Hl2 & _ & _ & _ & Hst2 & _).
  { destruct Hokb as (_ & _ & ->). unfold SIZEOF_MEM_BLOCK in *. lia. }
  rewrite Hf in Hrun. injection Hrun as <-. rewrite (mem_heap_free_correct _ _ _ Hk2), Hl2, Hlive, Hst2, Hst.
  replace (blk + SIZEOF_MEM_BLOCK - SIZEOF_MEM_BLOCK) with blk by lia.
  rewrite delete_insert_id by done. f_equal. lia.
Qed.

(** When a free block can serve the request, [mem_alloc] takes one of the
    smallest such blocks: the heap is not grown and the swap array not used. *)
Theorem mem_alloc_best_fit s size F x :
  heap_ok s -> 0 <= size < 2305843009213693952 ->
  seg (hdrs (blocks s)) (free_list (blocks s)) F 0 ->
  x ∈ F -> SIZEOF_MEM_BLOCK + round8 size <= tot (cores (blocks s)) x ->
  exists s' p, mem_alloc s size = Ret (s', p) /\ (p - SIZEOF_MEM_BLOCK) ∈ F /\
    forall y, y ∈ F -> SIZEOF_MEM_BLOCK + round8 size <= tot (cores (blocks s)) y ->
      tot (cores (blocks s)) (p - SIZEOF_MEM_BLOCK) <= tot (cores (blocks s)) y.
Proof.
  intros (F' & B & Hk) Hs Hseg Hx Hfit.
  assert (F' = F) as -> by (eapply seg_det; [apply (k_list _ _ _ Hk)|done]).
  destruct (mem_alloc_correct s F B size Hk Hs) as (s' & p & Hrun & _ & _ & _ & _ & _ & Hres).
  exists s', p. split; [done|].
  destruct Hres as [(_ & _ & Hno & _)|(blk & b & -> & _ & _ & _ & _ & _ & [(Hin & _ & Hmin)|Hno])];
    [specialize (Hno x Hx); lia| |specialize (Hno x Hx); lia].
  by replace (blk + SIZEOF_MEM_BLOCK - SIZEOF_MEM_BLOCK) with blk by lia.
Qed.

(** What [mem_free] refuses: NULL is ignored; an address outside both
    regions, a header that is not in use, or a size larger than the payload
    panics, each with its own message. *)
Theorem mem_free_rejects s addr size :
  (addr = 0 -> mem_free s addr size = Ret s) /\
  (forall b, let blk := u64 (addr - SIZEOF_MEM_BLOCK) in
   addr <> 0 -> hdr (blocks s) blk = Ret b ->
   let inside := ptr_in_region blk (heap_start s) (heap_max_end s) || ptr_in_region blk swap_space swap_end in
   (inside = false -> mem_free s addr size = Panic "mem: free outside managed region") /\
   (inside = true -> guard b <> MEM_GUARD_ACTIVE ->
      mem_free s addr size = Panic "mem: use-after-free or corrupt block") /\
   (inside = true -> guard b = MEM_GUARD_ACTIVE -> user_size b < size -> 0 <= user_size b ->
      mem_free s addr size = Panic "mem: free size larger than allocation")).
Proof.
  split; [by intros ->|]. intros b blk Hne Hb inside. unfold mem_free.
  rewrite (proj2 (Z.eqb_neq addr 0) Hne). fold blk. rewrite <- negb_orb. fold inside. rewrite Hb.
  split_and!.
  - by intros ->.
  - intros -> Hg. cbn. by rewrite (proj2 (Z.eqb_neq _ _) Hg).
  - intros -> Hg Hsz Hu. cbn. rewrite Hg. cbn. rewrite (proj2 (Z.eqb_neq size 0)), (proj2 (Z.ltb_lt _ _) Hsz) by lia. done.
Qed.
End Theorems.

(** ** A concrete machine *)

Definition demo_layout : Layout := {| swap_space := 0x110000; kernel_end := 0x200000 |}.
#[local] Existing Instance demo_layout.

Definition result {A} (dflt : A) (o : outcome A) : A := match o with Ret a => a | _ => dflt end.

Definition demo0 : kmem := heap_init ∅ true [] 0x200000 EXOCORE_KERNEL_HEAP_SIZE.
Definition demo1 : kmem := (result (demo0, 0) (mem_alloc demo0 100)).1.
Definition demo2 : kmem := (result (demo1, 0) (mem_alloc demo1 20)).1.
(** The 100-byte block is free again, the 20-byte block behind it in use. *)
Definition demo3 : kmem := result demo2 (mem_free demo2 0x200028 100).

Definition demo_blk : mem_block := MkBlock 144 104 MEM_GUARD_ACTIVE 0 0.
Definition demo_blk2 : mem_block := MkBlock 64 24 MEM_GUARD_ACTIVE 0 0.

Lemma demo_layout_ok : layout_ok 0x200000 EXOCORE_KERNEL_HEAP_SIZE.
Proof.
  unfold layout_ok, EXOCORE_KERNEL_HEAP_SIZE, EXOCORE_KERNEL_HEAP_MAX_SIZE, SWAP_SIZE. cbn. lia.
Qed.
Lemma demo0_ok : heap_ok demo0.
Proof. eexists _, _. apply heap_init_kinv, demo_layout_ok. Qed.
Lemma demo1_ok : heap_ok demo1.
Proof. eapply heap_step_ok; [exact demo0_ok|]. eapply (step_alloc _ 100); [lia|by vm_compute]. Qed.
Lemma demo2_ok : heap_ok demo2.
Proof. eapply heap_step_ok; [exact demo1_ok|]. eapply (step_alloc _ 20); [lia|by vm_compute]. Qed.
Lemma demo2_live : live_blocks demo2 !! (0x200028 - SIZEOF_MEM_BLOCK) = Some demo_blk.
Proof. by vm_compute. Qed.
Lemma demo2_live2 : live_blocks demo2 !! 0x200090 = Some demo_blk2.
Proof. by vm_compute. Qed.
Lemma demo3_ok : heap_ok demo3.
Proof.
  eapply heap_step_ok; [exact demo2_ok|].
  eapply (step_free _ 0x200028 100); [exact demo2_live|cbn; lia|by vm_compute].
Qed.

Lemma mem_alloc_spec_witness : exists s' p, mem_alloc demo0 100 = Ret (s', p).
Proof.
  destruct (mem_alloc_spec demo0 100 demo0_ok) as (s' & p & H & _); [lia|]. exists s', p. exact H.
Defined.
Lemma mem_free_spec_witness : exists s', mem_free demo2 0x200028 100 = Ret s' /\ heap_ok s'.
Proof.
  destruct (mem_free_spec demo2 0x200028 100 demo_blk demo2_ok demo2_live) as (s' & H & Hok & _); [cbn; lia|].
  exists s'. exact (conj H Hok).
Defined.
Lemma live_payloads_disjoint_witness :
  payload 0x200000 demo_blk 0x200030 /\ ~ (0x200090 <= 0x200030 < 0x200090 + total_size demo_blk2).
Proof.
  split; [unfold payload, SIZEOF_MEM_BLOCK; cbn; lia|].
  apply (live_payloads_disjoint demo2 0x200000 0x200090 demo_blk demo_blk2 0x200030 demo2_ok demo2_live demo2_live2);
    [done|]. unfold payload, SIZEOF_MEM_BLOCK. cbn. lia.
Defined.
Lemma mem_heap_free_conservation_witness : mem_heap_free demo2 = Ret (524288 + 65536 - 208).
Proof. rewrite (mem_heap_free_conservation demo2 demo2_ok). by vm_compute. Defined.
Lemma mem_double_free_panics_witness :
  exists s', mem_free demo2 0x200028 0 = Ret s' /\ mem_free s' 0x200028 0 = Panic "mem: use-after-free or corrupt block".
Proof. apply (mem_double_free_panics demo2 0x200028 0 demo_blk demo2_ok demo2_live). cbn. lia. Defined.
Lemma heap_runs_safe_witness : heap_ok demo1.
Proof.
  apply (heap_runs_safe ∅ true [] 0x200000 EXOCORE_KERNEL_HEAP_SIZE demo1 demo_layout_ok).
  eapply rtc_once, (step_alloc _ 100); [lia|by vm_compute].
Defined.
Lemma alloc_free_restores_witness : mem_heap_free demo0 = Ret 589824.
Proof.
  pose proof (alloc_free_restores demo0 100 demo1 0x200028
    (result demo1 (mem_free demo1 0x200028 100)) 589824 demo0_ok ltac:(lia)
    ltac:(by vm_compute) ltac:(done) ltac:(by vm_compute) ltac:(by vm_compute)) as H. by vm_compute.
Defined.
Lemma mem_alloc_best_fit_witness : exists s' p, mem_alloc demo3 50 = Ret (s', p).
Proof.
  destruct (mem_alloc_best_fit demo3 50 [0x200000] 0x200000 demo3_ok) as (s' & p & H & _);
    [lia| |by left|by vm_compute|exists s', p; exact H].
  split; [by vm_compute|]. split; [done|]. eexists. by vm_compute.
Defined.
Lemma mem_free_rejects_witness : mem_free demo3 0x200028 100 = Panic "mem: use-after-free or corrupt block".
Proof.
  destruct (mem_free_rejects demo3 0x200028 100) as [_ H].
  edestruct H as (_ & Hu & _); [done|by vm_compute|]. apply Hu; by vm_compute.
Defined.

(** ** A request that overflows *)

(** [mem_alloc] does not check its size computation for overflow.  With one
    block in use at the start of the heap, a request of 2^64 - 184 bytes
    succeeds: the cursor [heap_ptr] wraps back onto the header of the block in
    use, and the next request is given the very address the first block still
    holds. *)
Theorem mem_alloc_size_overflow :
  exists s2 p2 s3 p3,
    mem_alloc demo1 18446744073709551432 = Ret (s2, p2) /\ p2 <> 0 /\
    heap_ptr s2 = 0x200000 /\
    mem_alloc s2 100 = Ret (s3, p3) /\ p3 = 0x200028 /\
    live_blocks s2 !! 0x200000 = Some demo_blk.
Proof. eexists _, _, _, _. split; [by vm_compute|]. by vm_compute. Qed.
