(* ===== verification/Allocator.v ===== *)
(** * The allocator interface

    What the rest of the kernel relies on when it calls [mem_alloc] and
    [mem_free].  Clients are verified against this interface; the block
    allocator of kernel/mem.c is shown to implement it. *)

From Stdlib Require Import ZArith Lia.
From stdpp Require Import base numbers gmap strings fin_maps option list.
From S2P Require Import Prelude Heap HeapList HeapInv HeapCoalesce HeapProofs HeapSpec HeapTheorems.

Local Open Scope Z_scope.

(** Requests below this size are served or refused, never miscomputed. *)
Definition ALLOC_LIMIT : Z := 2305843009213693952.

Class Allocator (St : Type) := {
  al_alloc : St -> Z -> outcome (St * Z);
  al_free : St -> Z -> Z -> outcome St;
  al_ram : St -> gmap Z Z;
  al_set_ram : St -> gmap Z Z -> St;
  (** console output *)
  al_emit : St -> list con_ev -> St;
  (** the state is well formed *)
  al_ok : St -> Prop;
  (** the allocations outstanding: payload address to usable size *)
  al_owns : St -> gmap Z Z;
  (** the addresses the allocator manages *)
  al_managed : St -> Z -> Prop
}.

Definition in_block (p u x : Z) : Prop := p <= x < p + u.

(** [m] may differ from the memory of [s] only where clients may write. *)
Definition client_write {St} `{Allocator St} (s : St) (m : gmap Z Z) : Prop :=
  forall x, al_managed s x -> rd m x <> rd (al_ram s) x ->
    exists p u, al_owns s !! p = Some u /\ in_block p u x.

Class AllocatorLaws (St : Type) `{Allocator St} := {
  al_alloc_law s n : al_ok s -> 0 <= n < ALLOC_LIMIT ->
    exists s' p, al_alloc s n = Ret (s', p) /\ al_ok s' /\ al_ram s' = al_ram s /\
      (forall x, al_managed s' x <-> al_managed s x) /\
      ((p = 0 /\ al_owns s' = al_owns s) \/
       (exists u, al_owns s !! p = None /\ al_owns s' = <[p := u]> (al_owns s) /\ n <= u));
  al_free_law s p n u : al_ok s -> al_owns s !! p = Some u -> 0 <= n <= u ->
    exists s', al_free s p n = Ret s' /\ al_ok s' /\ al_owns s' = delete p (al_owns s) /\
      (forall x, al_managed s' x <-> al_managed s x) /\
      forall x, ~ in_block p u x -> rd (al_ram s') x = rd (al_ram s) x;
  al_disjoint_law s p u q v : al_ok s -> al_owns s !! p = Some u -> al_owns s !! q = Some v -> p <> q ->
    p + u <= q \/ q + v <= p;
  al_range_law s p u : al_ok s -> al_owns s !! p = Some u -> 
    0 < p /\ 0 <= u /\ p + u < 4611686018427387904 /\ forall x, in_block p u x -> al_managed s x;
  al_set_ram_law s m : al_ok s -> client_write s m ->
    al_ok (al_set_ram s m) /\ al_owns (al_set_ram s m) = al_owns s /\ al_ram (al_set_ram s m) = m /\
    forall x, al_managed (al_set_ram s m) x <-> al_managed s x;
  al_emit_law s o : al_ok s -> al_ok (al_emit s o) /\ al_owns (al_emit s o) = al_owns s /\
    al_ram (al_emit s o) = al_ram s /\ forall x, al_managed (al_emit s o) x <-> al_managed s x
}.

(** ** Consequences clients share *)

Section Client.
Context {St : Type} `{AllocatorLaws St}.

(** A successful allocation, as clients see it. *)
Lemma al_alloc_ok s n s' p :
  al_ok s -> 0 <= n < ALLOC_LIMIT -> al_alloc s n = Ret (s', p) -> p <> 0 ->
  al_ok s' /\ al_ram s' = al_ram s /\ (forall x, al_managed s' x <-> al_managed s x) /\
    exists u, al_owns s !! p = None /\
    al_owns s' = <[p := u]> (al_owns s) /\ n <= u.
Proof.
  intros Hok Hn Hrun Hp. destruct (al_alloc_law s n Hok Hn) as (s1 & p1 & Hrun1 & Hok1 & Hram & Hman & Hcase).
  rewrite Hrun in Hrun1. injection Hrun1 as <- <-. destruct Hcase as [[? _]|Hcase]; done.
Qed.

(** An allocation still held keeps its extent when another one is made. *)
Lemma al_owns_alloc s n s' p q v :
  al_ok s -> 0 <= n < ALLOC_LIMIT -> al_alloc s n = Ret (s', p) ->
  al_owns s !! q = Some v -> al_owns s' !! q = Some v.
Proof.
  intros Hok Hn Hrun Hq. destruct (al_alloc_law s n Hok Hn) as (s1 & p1 & Hrun1 & _ & _ & _ & Hcase).
  rewrite Hrun in Hrun1. injection Hrun1 as <- <-.
  destruct Hcase as [[_ ->]|(u & Hnone & -> & _)]; [done|]. rewrite lookup_insert_ne; [done|].
  intros ->. congruence.
Qed.

(** Storing bytes inside one allocation is a client write. *)
Lemma client_write_store s p u a bs :
  al_owns s !! p = Some u -> p <= a -> a + Z.of_nat (length bs) <= p + u ->
  client_write s (store_bytes (al_ram s) a bs).
Proof.
  intros Hp Ha Hb x _ Hx. exists p, u. split; [done|]. unfold in_block.
  destruct (decide (a <= x < a + Z.of_nat (length bs))) as [|Hout]; [lia|].
  by rewrite rd_store_bytes_out in Hx by lia.
Qed.

(** Releasing an allocation leaves the contents of the others alone. *)
Lemma al_free_frame s p n u s' q v :
  al_ok s -> al_owns s !! p = Some u -> 0 <= n <= u -> al_free s p n = Ret s' ->
  al_owns s !! q = Some v -> p <> q ->
  al_owns s' !! q = Some v /\ forall k, (Z.of_nat k <= v) -> bytes_at (al_ram s') q k = bytes_at (al_ram s) q k.
Proof.
  intros Hok Hp Hn Hrun Hq Hne. destruct (al_free_law s p n u Hok Hp Hn) as (s1 & Hrun1 & _ & Ho & _ & Hram).
  rewrite Hrun in Hrun1. injection Hrun1 as <-. rewrite Ho, lookup_delete_ne by done. split; [done|].
  intros k Hk. apply bytes_at_ext. intros b Hb. apply Hram. unfold in_block.
  pose proof (al_disjoint_law s p u q v Hok Hp Hq Hne). lia.
Qed.
End Client.

(** ** kernel/mem.c implements the interface *)

Section Instance.
Context {L : Layout}.

Definition payload_addr (blk : Z) : Z := blk + SIZEOF_MEM_BLOCK.
#[export] Instance payload_addr_inj : Inj (=) (=) payload_addr.
Proof. unfold payload_addr. intros x y H. lia. Qed.

Definition kmem_owns (s : kmem) : gmap Z Z := kmap payload_addr (user_size <$> live_blocks s).
Definition kmem_managed (s : kmem) (x : Z) : Prop :=
  ptr_in_region x (heap_start s) (heap_max_end s) || ptr_in_region x swap_space swap_end = true.

#[export] Instance kmem_allocator : Allocator kmem := {|
  al_alloc := mem_alloc; al_free := mem_free; al_ram := ram; al_set_ram := set_ram; al_emit := emit;
  al_ok := heap_ok; al_owns := kmem_owns; al_managed := kmem_managed |}.

Lemma lookup_owns s p u :
  kmem_owns s !! p = Some u <->
  exists b, live_blocks s !! (p - SIZEOF_MEM_BLOCK) = Some b /\ user_size b = u.
Proof.
  unfold kmem_owns. rewrite lookup_kmap_Some by apply _. split.
  - intros (blk & -> & Hb). rewrite lookup_fmap in Hb. apply fmap_Some in Hb as (b & Hb & ->).
    exists b. unfold payload_addr. by replace (blk + SIZEOF_MEM_BLOCK - SIZEOF_MEM_BLOCK) with blk by lia.
  - intros (b & Hb & <-). exists (p - SIZEOF_MEM_BLOCK). unfold payload_addr. split; [lia|].
    by rewrite lookup_fmap, Hb.
Qed.

Lemma owns_live_eq s s' : live_blocks s' = live_blocks s -> kmem_owns s' = kmem_owns s.
Proof. unfold kmem_owns. by intros ->. Qed.

Lemma kmem_managed_eq s s' x :
  heap_start s' = heap_start s -> heap_max_end s' = heap_max_end s -> kmem_managed s' x <-> kmem_managed s x.
Proof. unfold kmem_managed. by intros -> ->. Qed.

Lemma kmem_alloc_law s n : heap_ok s -> 0 <= n < ALLOC_LIMIT ->
  exists s' p, mem_alloc s n = Ret (s', p) /\ heap_ok s' /\ ram s' = ram s /\
    (forall x, kmem_managed s' x <-> kmem_managed s x) /\
    ((p = 0 /\ kmem_owns s' = kmem_owns s) \/
     (exists u, kmem_owns s !! p = None /\ kmem_owns s' = <[p := u]> (kmem_owns s) /\ n <= u)).
Proof.
  intros (F & B & Hk) Hn. destruct (request_total_spec n Hn) as (_ & _ & Hr & _).
  destruct (mem_alloc_correct s F B n Hk Hn) as (s' & p & Hrun & Hok & Hram & _ & Hst & Hmx & Hres).
  exists s', p. split_and!; try done; [by intros x; apply kmem_managed_eq|].
  destruct Hres as [(-> & Hb & _)|(blk & b & -> & Hpos & Hnone & Hlive & Hokb & Htot & _)]; [left|right].
  - split; [done|]. apply owns_live_eq. unfold live_blocks. by rewrite Hb.
  - exists (user_size b). unfold kmem_owns. rewrite Hlive, fmap_insert, kmap_insert by apply _.
    change (blk + SIZEOF_MEM_BLOCK) with (payload_addr blk). rewrite lookup_kmap by apply _.
    rewrite lookup_fmap, Hnone. split_and!; try done.
    destruct Hokb as (_ & _ & ->). unfold SIZEOF_MEM_BLOCK in *. lia.
Qed.

Lemma kmem_free_law s p n u : heap_ok s -> kmem_owns s !! p = Some u -> 0 <= n <= u ->
  exists s', mem_free s p n = Ret s' /\ heap_ok s' /\ kmem_owns s' = delete p (kmem_owns s) /\
    (forall x, kmem_managed s' x <-> kmem_managed s x) /\
    forall x, ~ in_block p u x -> rd (ram s') x = rd (ram s) x.
Proof.
  intros Hok (b & Hb & <-)%lookup_owns Hn.
  pose proof (live_sizes _ _ _ Hok Hb) as [Hu _]. destruct Hok as (F & B & Hk).
  destruct (mem_free_correct s F B p n b Hk Hb Hn) as (s' & Hrun & Hok' & Hl & _ & Hram & _ & Hst & Hmx).
  exists s'. split_and!; try done; [|by intros x; apply kmem_managed_eq|].
  - unfold kmem_owns. rewrite Hl, fmap_delete, kmap_delete by apply _. f_equal. unfold payload_addr. lia.
  - intros x Hx. rewrite Hram. unfold in_block in Hx. destruct (debug_mode s); [|done]. apply poison_out; lia.
Qed.

#[export] Instance kmem_laws : AllocatorLaws kmem.
Proof.
  split; cbn.
  - apply kmem_alloc_law.
  - apply kmem_free_law.
  - intros s p u q v Hok (b & Hb & <-)%lookup_owns (b' & Hb' & <-)%lookup_owns Hne.
    destruct (live_sizes _ _ _ Hok Hb) as [_ Hs], (live_sizes _ _ _ Hok Hb') as [_ Hs'].
    destruct (live_disjoint s _ _ _ _ Hok Hb Hb'); unfold SIZEOF_MEM_BLOCK in *; lia.
  - intros s p u Hok (b & Hb & <-)%lookup_owns. destruct (live_sizes _ _ _ Hok Hb) as [? Hs].
    destruct Hok as (F & B & Hk). destruct (live_checks _ _ _ _ _ Hk Hb) as (_ & _ & _ & _ & ? & ?).
    destruct (live_None _ _ _ _ _ Hk Hb) as (k & Hr & HxB & _ & _ & Ht).
    pose proof (inv_range _ _ _ _ (k_heap _ _ _ Hk) k _ Hr HxB) as (HA & _ & HC). rewrite Ht in HC.
    pose proof (kinv_bounds _ _ _ Hk). unfold SIZEOF_MEM_BLOCK in *. split_and!; [lia..|].
    intros x Hx. unfold kmem_managed, ptr_in_region, in_block in *. apply orb_true_iff.
    destruct Hr as [->| ->]; [left|right]; cbn in HA, HC; apply andb_true_iff; rewrite Z.leb_le, Z.ltb_lt; lia.
  - intros s m (F & B & Hk) _. split_and!; try done. exists F, B. by destruct Hk.
  - intros s o (F & B & Hk). split_and!; try done. exists F, B. by destruct Hk.
Qed.
End Instance.
