(* ===== verification/MemUtils.v ===== *)
(** * kernel/memutils.c: memory and string primitives

    Each routine is the loop of the source over the byte memory.  The loops
    of the string routines are bounded by fuel; on a terminated string the
    length of the string is enough.  A C string is related to the list of its
    bytes by [cstr]; the other components work with the list versions. *)

From Stdlib Require Import ZArith Lia.
From stdpp Require Import base numbers gmap strings fin_maps option list.
From S2P Require Import Prelude.

Local Open Scope Z_scope.

(** ** Blocks of memory *)

Fixpoint copy_up (k : nat) (m : gmap Z Z) (d s i : Z) : gmap Z Z :=
  match k with
  | O => m
  | S k => copy_up k (wr m (d + i) (rd m (s + i))) d s (i + 1)
  end.
Definition memcpy (m : gmap Z Z) (dst src n : Z) : gmap Z Z := copy_up (Z.to_nat n) m dst src 0.

Fixpoint set_up (k : nat) (m : gmap Z Z) (d v i : Z) : gmap Z Z :=
  match k with
  | O => m
  | S k => set_up k (wr m (d + i) v) d v (i + 1)
  end.
Definition memset (m : gmap Z Z) (dst val n : Z) : gmap Z Z := set_up (Z.to_nat n) m dst val 0.

Fixpoint copy_down (k : nat) (m : gmap Z Z) (d s : Z) : gmap Z Z :=
  match k with
  | O => m
  | S k => copy_down k (wr m (d + Z.of_nat k) (rd m (s + Z.of_nat k))) d s
  end.
Definition memmove (m : gmap Z Z) (dst src n : Z) : gmap Z Z :=
  if dst <? src then copy_up (Z.to_nat n) m dst src 0
  else if src <? dst then copy_down (Z.to_nat n) m dst src
  else m.

Fixpoint memcmp_loop (k : nat) (m : gmap Z Z) (a b i : Z) : Z :=
  match k with
  | O => 0
  | S k => if rd m (a + i) =? rd m (b + i) then memcmp_loop k m a b (i + 1)
           else rd m (a + i) - rd m (b + i)
  end.
Definition memcmp (m : gmap Z Z) (s1 s2 n : Z) : Z := memcmp_loop (Z.to_nat n) m s1 s2 0.

(** ** Strings in memory *)

Fixpoint strlen (fuel : nat) (m : gmap Z Z) (s len : Z) : outcome Z :=
  match fuel with
  | O => Timeout
  | S fuel => if rd m (s + len) =? 0 then Ret len else strlen fuel m s (len + 1)
  end.

Fixpoint strcmp (fuel : nat) (m : gmap Z Z) (s1 s2 : Z) : outcome Z :=
  match fuel with
  | O => Timeout
  | S fuel =>
      if negb (rd m s1 =? 0) && (rd m s1 =? rd m s2) then strcmp fuel m (s1 + 1) (s2 + 1)
      else Ret (rd m s1 - rd m s2)
  end.

Fixpoint strncmp_loop (k : nat) (m : gmap Z Z) (s1 s2 i : Z) : Z :=
  match k with
  | O => 0
  | S k =>
      let c1 := rd m (s1 + i) in
      let c2 := rd m (s2 + i) in
      if negb (c1 =? c2) then c1 - c2
      else if c1 =? 0 then 0 else strncmp_loop k m s1 s2 (i + 1)
  end.
Definition strncmp (m : gmap Z Z) (s1 s2 n : Z) : Z := strncmp_loop (Z.to_nat n) m s1 s2 0.

(** Returns the address found, 0 for NULL. *)
Fixpoint strchr (fuel : nat) (m : gmap Z Z) (s c : Z) : outcome Z :=
  match fuel with
  | O => Timeout
  | S fuel =>
      if rd m s =? 0 then Ret 0
      else if rd m s =? u8 c then Ret s else strchr fuel m (s + 1) c
  end.

(** The inner loop of [strstr]: the final value of [n]. *)
Fixpoint match_len (fuel : nat) (m : gmap Z Z) (h n : Z) : outcome Z :=
  match fuel with
  | O => Timeout
  | S fuel =>
      if negb (rd m h =? 0) && negb (rd m n =? 0) && (rd m h =? rd m n)
      then match_len fuel m (h + 1) (n + 1) else Ret n
  end.
Fixpoint strstr_loop (fuel inner : nat) (m : gmap Z Z) (h needle : Z) : outcome Z :=
  match fuel with
  | O => Timeout
  | S fuel =>
      if rd m h =? 0 then Ret 0
      else
        n ← match_len inner m h needle;
        if rd m n =? 0 then Ret h else strstr_loop fuel inner m (h + 1) needle
  end.
Definition strstr (fuel : nat) (m : gmap Z Z) (haystack needle : Z) : outcome Z :=
  if rd m needle =? 0 then Ret haystack else strstr_loop fuel fuel m haystack needle.

(** [__memcpy_chk] ignores the size of the destination. *)
Definition memcpy_chk (m : gmap Z Z) (dest src n destlen : Z) : gmap Z Z := memcpy m dest src n.

(** ** Strings as lists *)

(** A string is the list of its bytes without the terminator. *)
Definition str_ok (s : list Z) : Prop := Forall (fun c => 0 < c < 256) s.

Fixpoint cstr (m : gmap Z Z) (a : Z) (s : list Z) : Prop :=
  match s with
  | [] => rd m a = 0
  | c :: s => rd m a = c /\ c <> 0 /\ cstr m (a + 1) s
  end.

Fixpoint lstrcmp (s1 s2 : list Z) : Z :=
  match s1, s2 with
  | [], [] => 0
  | [], d :: _ => - d
  | c :: _, [] => c
  | c :: s1, d :: s2 => if c =? d then lstrcmp s1 s2 else c - d
  end.

Fixpoint lstrncmp (n : nat) (s1 s2 : list Z) : Z :=
  match n with
  | O => 0
  | S n =>
      match s1, s2 with
      | [], [] => 0
      | [], d :: _ => - d
      | c :: _, [] => c
      | c :: s1, d :: s2 => if c =? d then lstrncmp n s1 s2 else c - d
      end
  end.

(** Bytes of a literal. *)
Definition str (s : string) : list Z := Z.of_N ∘ Ascii.N_of_ascii <$> String.list_ascii_of_string s.

Lemma lstrcmp_eq s1 s2 : str_ok s1 -> str_ok s2 -> (lstrcmp s1 s2 = 0 <-> s1 = s2).
Proof.
  revert s2; induction s1 as [|c s1 IH]; intros [|d s2] H1 H2; cbn.
  - done.
  - apply Forall_cons in H2 as [? _]. split; [lia|done].
  - apply Forall_cons in H1 as [? _]. split; [lia|done].
  - apply Forall_cons in H1 as [? H1], H2 as [? H2]. destruct (Z.eqb_spec c d) as [->|Hne].
    + rewrite (IH s2 H1 H2). split; congruence.
    + split; [lia|congruence].
Qed.

Lemma lstrncmp_prefix s1 s2 n :
  str_ok s1 -> str_ok s2 -> (lstrncmp n s1 s2 = 0 <-> take n s1 = take n s2).
Proof.
  revert s1 s2; induction n as [|n IH]; intros [|c s1] [|d s2] H1 H2; cbn; try done.
  - apply Forall_cons in H2 as [? _]. split; [lia|done].
  - apply Forall_cons in H1 as [? _]. split; [lia|done].
  - apply Forall_cons in H1 as [? H1], H2 as [? H2]. destruct (Z.eqb_spec c d) as [->|Hne].
    + rewrite (IH s1 s2 H1 H2). split; congruence.
    + split; [lia|congruence].
Qed.

(** ** The block routines *)

Lemma rd_copy_up k m d s i x :
  d <= s \/ s + Z.of_nat k <= d ->
  rd (copy_up k m d s i) x =
    if decide (d + i <= x < d + i + Z.of_nat k) then u8 (rd m (x - d + s)) else rd m x.
Proof.
  intros Hds. revert m i. induction k as [|k IH]; intros m i; cbn [copy_up].
  - rewrite decide_False by lia. done.
  - rewrite IH by lia.
    destruct (decide (x = d + i)) as [->|Hx].
    + rewrite decide_False, decide_True by lia. rewrite rd_wr_eq. do 2 f_equal. lia.
    + destruct (decide (d + (i + 1) <= x < d + (i + 1) + Z.of_nat k)) as [Hin|Hout].
      * rewrite decide_True by lia. f_equal. apply rd_wr_ne. lia.
      * rewrite decide_False by lia. apply rd_wr_ne. done.
Qed.

(** A copy writes nothing but its destination. *)
Lemma rd_memcpy_out m d s n x : x < d \/ d + n <= x -> rd (memcpy m d s n) x = rd m x.
Proof.
  unfold memcpy. assert (forall k m i, x < d + i \/ d + i + Z.of_nat k <= x -> rd (copy_up k m d s i) x = rd m x) as Hout.
  { induction k as [|k IH]; intros m' i Hx; cbn [copy_up]; [done|]. rewrite IH by lia. apply rd_wr_ne. lia. }
  intros Hx. apply Hout. lia.
Qed.

Lemma rd_copy_down k m d s x :
  s <= d ->
  rd (copy_down k m d s) x =
    if decide (d <= x < d + Z.of_nat k) then u8 (rd m (x - d + s)) else rd m x.
Proof.
  intros Hds. revert m. induction k as [|k IH]; intros m; cbn [copy_down].
  - by rewrite decide_False by lia.
  - rewrite IH. destruct (decide (x = d + Z.of_nat k)) as [->|Hx].
    + rewrite decide_False, decide_True by lia. rewrite rd_wr_eq. do 2 f_equal. lia.
    + destruct (decide (d <= x < d + Z.of_nat k)) as [Hin|Hout].
      * rewrite decide_True by lia. f_equal. apply rd_wr_ne. lia.
      * rewrite decide_False by lia. apply rd_wr_ne. done.
Qed.

Lemma rd_store_bytes m a bs x :
  rd (store_bytes m a bs) x =
    if decide (a <= x < a + Z.of_nat (length bs)) then u8 (bs !!! Z.to_nat (x - a)) else rd m x.
Proof.
  revert m a; induction bs as [|b bs IH]; intros m a; cbn [store_bytes length].
  - by rewrite decide_False by lia.
  - rewrite IH. destruct (decide (x = a)) as [->|Hx].
    + rewrite decide_False, decide_True by lia. rewrite rd_wr_eq. by rewrite Z.sub_diag.
    + destruct (decide (a + 1 <= x < a + 1 + Z.of_nat (length bs))) as [Hin|Hout].
      * rewrite decide_True by lia. f_equal. replace (Z.to_nat (x - a)) with (S (Z.to_nat (x - (a + 1)))) by lia. done.
      * rewrite decide_False by lia. by apply rd_wr_ne.
Qed.

Lemma bytes_at_total m a n i : (i < n)%nat -> bytes_at m a n !!! i = rd m (a + Z.of_nat i).
Proof. intros H. apply list_lookup_total_correct. by apply lookup_bytes_at. Qed.

(** Copying is storing the bytes read beforehand. *)
Lemma rd_store_at m d s n x :
  rd (store_bytes m d (bytes_at m s n)) x =
    if decide (d <= x < d + Z.of_nat n) then u8 (rd m (x - d + s)) else rd m x.
Proof.
  rewrite rd_store_bytes, length_bytes_at. destruct (decide _) as [Hin|]; [|done].
  rewrite bytes_at_total by lia. do 2 f_equal. lia.
Qed.

Lemma rd_memcpy m d s n x :
  0 <= n -> d <= s \/ s + n <= d ->
  rd (memcpy m d s n) x = rd (store_bytes m d (bytes_at m s (Z.to_nat n))) x.
Proof.
  intros Hn Hds. unfold memcpy. rewrite rd_copy_up, rd_store_at by lia. by rewrite Z.add_0_r.
Qed.

Lemma rd_memset m d v n x :
  rd (memset m d v n) x = if decide (d <= x < d + n) then u8 v else rd m x.
Proof.
  unfold memset. assert (forall k m i, rd (set_up k m d v i) x =
    if decide (d + i <= x < d + i + Z.of_nat k) then u8 v else rd m x) as H.
  { induction k as [|k IH]; intros m' i; cbn [set_up]; [by rewrite decide_False by lia|].
    rewrite IH. destruct (decide (x = d + i)) as [->|Hx].
    - rewrite decide_False, decide_True by lia. apply rd_wr_eq.
    - destruct (decide (d + (i + 1) <= x < d + (i + 1) + Z.of_nat k)).
      + by rewrite decide_True by lia.
      + rewrite decide_False by lia. by apply rd_wr_ne. }
  rewrite H, Z.add_0_r. destruct (decide (d <= x < d + n)), (decide (d <= x < d + Z.of_nat (Z.to_nat n))); lia || done.
Qed.

(** [memmove] copies correctly for every placement of source and
    destination: the destination receives the bytes the source held before
    the call, overlapping or not, and nothing else changes. *)
Theorem memmove_overlap_correct m d s n x :
  0 <= n ->
  rd (memmove m d s n) x = if decide (d <= x < d + n) then rd m (s + (x - d)) else rd m x.
Proof.
  intros Hn. unfold memmove. pose proof (u8_rd m) as Hu.
  destruct (Z.ltb_spec d s) as [Hlt|Hge]; [|destruct (Z.ltb_spec s d) as [Hlt|Hge']].
  - rewrite rd_copy_up, Z.add_0_r, Z2Nat.id, Hu by lia. by replace (x - d + s) with (s + (x - d)) by lia.
  - rewrite rd_copy_down, Z2Nat.id, Hu by lia. by replace (x - d + s) with (s + (x - d)) by lia.
  - assert (s = d) as -> by lia. replace (d + (x - d)) with x by lia. by destruct (decide _).
Qed.

(** ** Comparison *)

Lemma memcmp_loop_zero k m a b i :
  memcmp_loop k m a b i = 0 <-> bytes_at m (a + i) k = bytes_at m (b + i) k.
Proof.
  revert i; induction k as [|k IH]; intros i; [done|]. cbn [memcmp_loop]. rewrite !bytes_at_S.
  destruct (Z.eqb_spec (rd m (a + i)) (rd m (b + i))) as [->|Hne].
  - rewrite IH, !Z.add_assoc. split; [congruence|]. by intros [=].
  - split; [lia|congruence].
Qed.

(** [memcmp] is zero exactly when the two blocks hold the same bytes, and
    otherwise the difference of the first bytes that differ. *)
Theorem memcmp_correct m a b n :
  0 <= n ->
  (memcmp m a b n = 0 <-> bytes_at m a (Z.to_nat n) = bytes_at m b (Z.to_nat n)) /\
  (memcmp m a b n <> 0 -> exists i, 0 <= i < n /\ bytes_at m a (Z.to_nat i) = bytes_at m b (Z.to_nat i) /\
     memcmp m a b n = rd m (a + i) - rd m (b + i)).
Proof.
  intros Hn. split; [unfold memcmp; by rewrite memcmp_loop_zero, !Z.add_0_r|].
  unfold memcmp. assert (forall k j, memcmp_loop k m a b j <> 0 -> exists i, (i < k)%nat /\
    bytes_at m (a + j) i = bytes_at m (b + j) i /\
    memcmp_loop k m a b j = rd m (a + j + Z.of_nat i) - rd m (b + j + Z.of_nat i)) as H.
  { induction k as [|k IH]; intros j Hne; [done|]. cbn [memcmp_loop] in *.
    destruct (Z.eqb_spec (rd m (a + j)) (rd m (b + j))) as [He|He].
    - destruct (IH (j + 1) Hne) as (i & Hi & Hb & Hr). exists (S i). split_and!; [lia| |].
      + rewrite !bytes_at_S, He, <- !Z.add_assoc, Hb. done.
      + rewrite Hr. by replace (a + (j + 1) + Z.of_nat i) with (a + j + Z.of_nat (S i)) by lia;
          replace (b + (j + 1) + Z.of_nat i) with (b + j + Z.of_nat (S i)) by lia.
    - exists 0%nat. split_and!; [lia|done|]. by rewrite !Z.add_0_r. }
  intros Hne. destruct (H _ _ Hne) as (i & Hi & Hb & Hr). exists (Z.of_nat i).
  rewrite !Z.add_0_r in Hb, Hr. rewrite Nat2Z.id. split_and!; [lia|lia|done|done].
Qed.

(** ** Strings: the memory routines agree with the list versions *)

Lemma strlen_cstr m a s fuel len :
  cstr m (a + len) s -> (length s < fuel)%nat -> strlen fuel m a len = Ret (len + Z.of_nat (length s)).
Proof.
  revert len fuel; induction s as [|c s IH]; intros len [|fuel] Hs Hf; cbn in *; try lia.
  - rewrite Hs. cbn. by rewrite Z.add_0_r.
  - destruct Hs as (-> & Hc & Hs). rewrite (proj2 (Z.eqb_neq _ _) Hc). rewrite IH; [f_equal; lia| |lia].
    by replace (a + (len + 1)) with (a + len + 1) by lia.
Qed.

Lemma strcmp_cstr m a b s t fuel :
  cstr m a s -> cstr m b t -> (length s < fuel)%nat -> strcmp fuel m a b = Ret (lstrcmp s t).
Proof.
  revert a b t fuel; induction s as [|c s IH]; intros a b [|d t] [|fuel] Hs Ht Hf; cbn in *; try lia.
  - rewrite Hs, Ht. done.
  - destruct Ht as (-> & _). rewrite Hs. cbn. f_equal.
  - destruct Hs as (-> & Hc & _). rewrite Ht, (proj2 (Z.eqb_neq _ _) Hc). cbn. by rewrite Z.sub_0_r.
  - destruct Hs as (-> & Hc & Hs), Ht as (-> & Hd & Ht). rewrite (proj2 (Z.eqb_neq _ _) Hc). cbn.
    destruct (Z.eqb_spec c d) as [->|Hne]; [|done]. apply IH; [done|done|lia].
Qed.

Lemma strncmp_cstr m a b s t n i :
  cstr m (a + i) s -> cstr m (b + i) t -> strncmp_loop n m a b i = lstrncmp n s t.
Proof.
  revert s t i; induction n as [|n IH]; intros s t i Hs Ht; [done|]. cbn [strncmp_loop].
  destruct s as [|c s], t as [|d t]; cbn in *.
  - rewrite Hs, Ht. done.
  - destruct Ht as (-> & Hd & _). rewrite Hs. destruct (Z.eqb_spec 0 d); [by subst|]. cbn. lia.
  - destruct Hs as (-> & Hc & _). rewrite Ht, (proj2 (Z.eqb_neq _ _) Hc). cbn. lia.
  - destruct Hs as (-> & Hc & Hs), Ht as (-> & Hd & Ht).
    destruct (Z.eqb_spec c d) as [->|Hne]; [|done]. cbn. rewrite (proj2 (Z.eqb_neq _ _) Hc).
    apply IH; [by replace (a + (i + 1)) with (a + i + 1) by lia|by replace (b + (i + 1)) with (b + i + 1) by lia].
Qed.

(** [s] occurs in memory at the position [i] of [h]. *)
Definition occurs_at (h s : list Z) (i : nat) : Prop := s `prefix_of` drop i h.

Lemma match_len_cstr m a b h s fuel :
  cstr m a h -> cstr m b s -> (length s < fuel)%nat ->
  exists n, match_len fuel m a b = Ret n /\ (rd m n = 0 <-> s `prefix_of` h).
Proof.
  revert a b h fuel; induction s as [|c s IH]; intros a b h [|fuel] Hh Hs Hf; cbn in *; try lia.
  - exists b. rewrite Hs. cbn. rewrite andb_false_r. split; [done|]. split; [|done]. intros _. apply prefix_nil.
  - destruct Hs as (Hb & Hc & Hs). destruct h as [|d h]; cbn in Hh.
    + exists b. rewrite Hh. cbn. split; [done|]. rewrite Hb. split; [done|]. intros H. by apply prefix_nil_not in H.
    + destruct Hh as (Ha & Hd & Hh). rewrite Ha, Hb, (proj2 (Z.eqb_neq _ _) Hc), (proj2 (Z.eqb_neq _ _) Hd). cbn.
      destruct (Z.eqb_spec d c) as [->|Hne].
      * destruct (IH (a + 1) (b + 1) h fuel Hh Hs) as (n & Hn & Hiff); [lia|]. exists n. split; [done|].
        rewrite Hiff. split; [apply prefix_cons|apply prefix_cons_inv_2].
      * exists b. split; [done|]. rewrite Hb. split; [done|]. intros H. by apply prefix_cons_inv_1 in H.
Qed.

Lemma strstr_loop_cstr m b s inner fuel a h :
  cstr m b s -> s <> [] -> (length s < inner)%nat -> cstr m a h -> (length h < fuel)%nat -> 0 < a ->
  exists r, strstr_loop fuel inner m a b = Ret r /\
    ((exists i, r = a + Z.of_nat i /\ occurs_at h s i /\ forall j, (j < i)%nat -> ~ occurs_at h s j) \/
     (r = 0 /\ forall i, ~ occurs_at h s i)).
Proof.
  intros Hs Hne Hi. revert a h. induction fuel as [|fuel IH]; intros a h Hh Hf Ha; [lia|]. cbn [strstr_loop].
  destruct h as [|d h]; cbn in Hh.
  - rewrite Hh. exists 0. split; [done|]. right. split; [done|]. intros i. unfold occurs_at. rewrite drop_nil.
    destruct s; [done|]. apply prefix_nil_not.
  - pose proof Hh as (Ha0 & Hd & Hh'). rewrite Ha0, (proj2 (Z.eqb_neq _ _) Hd).
    destruct (match_len_cstr m a b (d :: h) s inner) as (n & -> & Hiff); [done|done|done|]. cbn [mbind outcome_bind].
    destruct (Z.eqb_spec (rd m n) 0) as [Hz|Hz].
    + exists a. split; [done|]. left. exists 0%nat. split_and!; [lia|by apply Hiff|lia].
    + assert (~ occurs_at (d :: h) s 0) as Hn0 by (intros H; by apply Hz, Hiff).
      destruct (IH (a + 1) h Hh') as (r & Hr & Hcase); [cbn in Hf; lia|lia|]. exists r. split; [done|].
      destruct Hcase as [(i & -> & Hocc & Hfirst)|(-> & Hno)]; [left|right].
      * exists (S i). split_and!; [lia|done|]. intros [|j] Hj; [done|]. apply (Hfirst j). lia.
      * split; [done|]. intros [|i]; [done|]. apply Hno.
Qed.

(** [strstr] terminates on terminated strings and returns the first
    position of the needle in the haystack, or NULL exactly when there is no
    occurrence. *)
Theorem strstr_first_occurrence m a b h s fuel :
  cstr m a h -> cstr m b s -> (length h < fuel)%nat -> (length s < fuel)%nat -> 0 < a ->
  exists r, strstr fuel m a b = Ret r /\
    ((exists i, r = a + Z.of_nat i /\ occurs_at h s i /\ forall j, (j < i)%nat -> ~ occurs_at h s j) \/
     (r = 0 /\ forall i, ~ occurs_at h s i)).
Proof.
  intros Hh Hs Hfh Hfs Ha. unfold strstr. destruct s as [|c s].
  { cbn in Hs. rewrite Hs. exists a. split; [done|]. left. exists 0%nat. split_and!; [lia|apply prefix_nil|lia]. }
  pose proof Hs as (Hc & Hc0 & _). rewrite Hc, (proj2 (Z.eqb_neq _ _) Hc0).
  by apply strstr_loop_cstr.
Qed.

(** [strlen], [strcmp] and [strncmp] terminate on terminated strings and
    compute length and order of the strings; [strcmp] is zero exactly on equal
    strings. *)
Theorem string_routines_correct m a b s t fuel n :
  cstr m a s -> cstr m b t -> str_ok s -> str_ok t -> (length s < fuel)%nat -> 0 <= n ->
  strlen fuel m a 0 = Ret (Z.of_nat (length s)) /\
  (exists c, strcmp fuel m a b = Ret c /\ (c = 0 <-> s = t)) /\
  (strncmp m a b n = 0 <-> take (Z.to_nat n) s = take (Z.to_nat n) t).
Proof.
  intros Hs Ht Hos Hot Hf Hn. split_and!.
  - rewrite (strlen_cstr m a s) by (by rewrite ?Z.add_0_r). done.
  - exists (lstrcmp s t). split; [by apply strcmp_cstr|by apply lstrcmp_eq].
  - unfold strncmp. rewrite (strncmp_cstr m a b s t) by (by rewrite Z.add_0_r). by apply lstrncmp_prefix.
Qed.

(** ** Concrete inputs *)

Definition demo_ram : gmap Z Z := store_bytes (store_bytes ∅ 100 (str "abcabd")) 200 (str "abd").

Lemma memmove_overlap_correct_witness : rd (memmove demo_ram 102 100 4) 105 = 97.
Proof. rewrite (memmove_overlap_correct demo_ram 102 100 4 105); [done|lia]. Defined.
Lemma memcmp_correct_witness : memcmp demo_ram 100 200 2 = 0.
Proof. apply (memcmp_correct demo_ram 100 200 2); [lia|]. by vm_compute. Defined.
Lemma strstr_first_occurrence_witness : exists r, strstr 10 demo_ram 100 200 = Ret r.
Proof.
  destruct (strstr_first_occurrence demo_ram 100 200 (str "abcabd") (str "abd") 10) as (r & H & _);
    [by vm_compute|by vm_compute|cbn; lia|cbn; lia|lia|by exists r].
Defined.
Lemma string_routines_correct_witness : strlen 10 demo_ram 100 0 = Ret 6.
Proof.
  apply (string_routines_correct demo_ram 100 200 (str "abcabd") (str "abd") 10 3);
    [by vm_compute|by vm_compute|repeat constructor; lia|repeat constructor; lia|cbn; lia|lia].
Defined.
