(* ===== verification/MemApps.v ===== *)
(** * kernel/mem.c: per-application memory

    The registry of applications that keeps data blocks for them, over the
    allocator interface. *)

From Stdlib Require Import ZArith Lia.
From stdpp Require Import base numbers gmap strings fin_maps option list.
From S2P Require Import Prelude MemUtils Heap HeapSpec HeapTheorems Allocator.

Local Open Scope Z_scope.

Definition MAX_APPS : nat := 16.

(** [app_mem_t]; a block is the pair of its address and its size. *)
Record app_mem_t := AppMem {
  app_id : Z;
  priority : Z;
  base : Z;
  used : Z;
  app_blocks : list (Z * Z);
  block_count : Z
}.

Definition app_reset (id prio : Z) : app_mem_t := AppMem id prio 0 0 (replicate 16 (0, 0)) 0.

Section Apps.
Context {St : Type} `{Allocator St}.

(** The registry with the allocator it draws from. *)
Record app_state := AppState { mem : St; apps : list app_mem_t; next_id : Z }.

(** The part of [mem_init] that concerns the registry. *)
Definition apps_init (s : St) (next : Z) : app_state := AppState s (replicate MAX_APPS (app_reset 0 0)) next.

Definition say (s : app_state) (o : list con_ev) : app_state := AppState (al_emit (mem s) o) (apps s) (next_id s).

(** The loop [for (i = 0; i < MAX_APPS; i++) if (apps[i].id == id)]. *)
Definition find_app (s : app_state) (id : Z) : option nat := find_index (fun a => app_id a =? id) (apps s) 0.

Definition mem_register_app (s : app_state) (prio : Z) : app_state * Z :=
  match find_app s 0 with
  | Some i =>
      let id := next_id s in
      let s := AppState (mem s) (<[i := app_reset id prio]> (apps s)) (s32 (next_id s + 1)) in
      (say s [Puts "mem_register_app id="; Udec (u32 id); Putc 10], id)
  | None => (s, -1)
  end.

Definition charge (a : app_mem_t) (addr size : Z) : app_mem_t :=
  AppMem (app_id a) (priority a) (if base a =? 0 then addr else base a) (u32 (used a + size))
    (app_blocks a) (block_count a).

Definition mem_alloc_app (s : app_state) (id size : Z) : outcome (app_state * Z) :=
  let size := mask8 (u64 (size + 7)) in
  let s := say s [Puts "mem_alloc_app id="; Udec (u32 id); Puts " size="; Udec (u32 size); Putc 10] in
  '(m, addr) ← al_alloc (mem s) size;
  let s := AppState m (apps s) (next_id s) in
  if addr =? 0 then Ret (s, 0) else
  match find_app s id with
  | Some i =>
      let s := AppState (mem s) (alter (fun a => charge a addr size) i (apps s)) (next_id s) in
      Ret (say s [Puts " app alloc addr=0x"; Uhex addr; Putc 10], addr)
  | None =>
      m ← al_free (mem s) addr size;
      Ret (AppState m (apps s) (next_id s), 0)
  end.

Definition mem_app_used (s : app_state) (id : Z) : Z :=
  match find_app s id with
  | Some i => match apps s !! i with Some a => used a | None => 0 end
  | None => 0
  end.

Definition add_block (a : app_mem_t) (dst size : Z) : app_mem_t :=
  AppMem (app_id a) (priority a) (base a) (used a)
    (<[Z.to_nat (block_count a) := (dst, size)]> (app_blocks a)) (block_count a + 1).

Definition mem_save_app (s : app_state) (id data size : Z) : outcome (app_state * Z) :=
  match find_app s id with
  | None => Ret (s, -1)
  | Some i =>
      match apps s !! i with
      | None => Fault
      | Some a =>
          if 16 <=? block_count a then Ret (s, -1) else
          '(s, dst) ← mem_alloc_app s id size;
          if dst =? 0 then Ret (s, -1) else
          let s := AppState (al_set_ram (mem s) (memcpy (al_ram (mem s)) dst data size)) (apps s) (next_id s) in
          let idx := block_count a in
          let s := AppState (mem s) (alter (fun a => add_block a dst size) i (apps s)) (next_id s) in
          Ret (say s [Puts "mem_save_app id="; Udec (u32 id); Puts " handle="; Udec (u32 idx);
                      Puts " size="; Udec (u32 size); Putc 10], idx)
      end
  end.

(** Returns the address, 0 for NULL, and the size stored through the pointer. *)
Definition mem_retrieve_app (s : app_state) (id handle : Z) : app_state * Z * option Z :=
  match find_app s id with
  | None => (s, 0, None)
  | Some i =>
      match apps s !! i with
      | None => (s, 0, None)
      | Some a =>
          if (handle <? 0) || (block_count a <=? handle) then (s, 0, None)
          else
            let '(addr, size) := app_blocks a !!! Z.to_nat handle in
            (say s [Puts "mem_retrieve_app id="; Udec (u32 id); Puts " handle="; Udec (u32 handle); Putc 10],
             addr, Some size)
      end
  end.

(** ** Well-formedness *)

(** The saved blocks of an application are allocations it still holds. *)
Definition app_ok (s : St) (a : app_mem_t) : Prop :=
  length (app_blocks a) = 16%nat /\ 0 <= block_count a <= 16 /\
  forall h addr size, Z.of_nat h < block_count a -> app_blocks a !! h = Some (addr, size) ->
    exists u, al_owns s !! addr = Some u /\ 0 <= size <= u.

Definition apps_ok (s : app_state) : Prop :=
  al_ok (mem s) /\ length (apps s) = MAX_APPS /\ Forall (app_ok (mem s)) (apps s).

(** The address of the block behind a handle. *)
Definition saved (s : app_state) (id handle : Z) : option (Z * Z) :=
  i ← find_app s id; a ← apps s !! i;
  if (handle <? 0) || (block_count a <=? handle) then None else app_blocks a !! Z.to_nat handle.

Context `{!AllocatorLaws St}.

(** The source of a save is memory the allocator will not hand out: another
    allocation, or memory it does not manage. *)
Definition source_ok (s : St) (data size : Z) : Prop :=
  (forall x, data <= x < data + size -> ~ al_managed s x) \/
  (exists q v, al_owns s !! q = Some v /\ q <= data /\ data + size <= q + v).

Lemma app_ok_mono s s' a :
  (forall p u, al_owns s !! p = Some u -> al_owns s' !! p = Some u) -> app_ok s a -> app_ok s' a.
Proof.
  intros Hm (Hl & Hc & Hb). split_and!; try done; [lia..|]. intros h addr size Hh Ha.
  destruct (Hb h addr size Hh Ha) as (u & Hu & Hs). exists u. split; [by apply Hm|done].
Qed.

Lemma app_ok_charge s a addr size : app_ok s a -> app_ok s (charge a addr size).
Proof. done. Qed.

Lemma find_app_Some s id i :
  find_app s id = Some i -> exists a, apps s !! i = Some a /\ app_id a = id.
Proof.
  intros Hf. apply find_index_Some in Hf as (a & _ & Ha & Hid & _). rewrite Nat.sub_0_r in Ha.
  exists a. split; [done|]. by apply Z.eqb_eq in Hid.
Qed.

(** Memory clients can rely on: owned allocations and unmanaged memory. *)
Definition stable (s : St) (x : Z) : Prop :=
  ~ al_managed s x \/ exists q v, al_owns s !! q = Some v /\ in_block q v x.

(** The allocator state may have changed, but no outstanding allocation and
    no byte clients rely on. *)
Definition extends (s s' : St) : Prop :=
  al_ok s' /\ (forall q v, al_owns s !! q = Some v -> al_owns s' !! q = Some v) /\
  (forall x, al_managed s' x <-> al_managed s x) /\
  forall x, stable s x -> rd (al_ram s') x = rd (al_ram s) x.

Lemma extends_refl s : al_ok s -> extends s s.
Proof. done. Qed.
Lemma extends_trans s1 s2 s3 : extends s1 s2 -> extends s2 s3 -> extends s1 s3.
Proof.
  intros (_ & Ho1 & Hm1 & Hr1) (Hok & Ho2 & Hm2 & Hr2). split_and!; [done|by eauto| |].
  - intros x. by rewrite Hm2.
  - intros x Hx. rewrite Hr2; [by apply Hr1|]. destruct Hx as [Hx|(q & v & Hq & Hx)]; [left|right].
    + by rewrite Hm1.
    + exists q, v. split; [by apply Ho1|done].
Qed.
Lemma extends_emit s o : al_ok s -> extends s (al_emit s o).
Proof.
  intros Hok. destruct (al_emit_law s o Hok) as (? & Ho & Hr & Hm). split_and!; try done.
  - by rewrite Ho.
  - by rewrite Hr.
Qed.
Lemma extends_alloc s n s' p : al_ok s -> 0 <= n < ALLOC_LIMIT -> al_alloc s n = Ret (s', p) -> extends s s'.
Proof.
  intros Hok Hn Hrun. destruct (al_alloc_law s n Hok Hn) as (s1 & p1 & Hrun1 & Hok1 & Hram & Hm & _).
  pose proof (fun q v => al_owns_alloc s n s' p q v Hok Hn Hrun) as Ho.
  rewrite Hrun in Hrun1. injection Hrun1 as <- <-. split_and!; try done. by rewrite Hram.
Qed.

(** Giving back an allocation that was not there before. *)
Lemma extends_alloc_free s n s1 p :
  al_ok s -> 0 <= n < ALLOC_LIMIT -> al_alloc s n = Ret (s1, p) -> p <> 0 ->
  exists s2, al_free s1 p n = Ret s2 /\ extends s s2.
Proof.
  intros Hok Hn Hrun Hp.
  destruct (al_alloc_ok s n s1 p Hok Hn Hrun Hp) as (Hok1 & Hram & Hman & u & Hnone & Hins & Hu).
  assert (al_owns s1 !! p = Some u) as Hp1 by (by rewrite Hins, lookup_insert_eq).
  destruct (al_free_law s1 p n u Hok1 Hp1) as (s2 & Hf & Hok2 & Ho2 & Hm2 & Hr2); [lia|].
  exists s2. split; [done|]. split_and!; [done| | |].
  - intros q v Hq. rewrite Ho2, Hins, delete_insert_id by done. done.
  - intros x. by rewrite Hm2.
  - intros x Hx. rewrite Hr2, Hram; [done|]. intros Hin. destruct Hx as [Hx|(q & v & Hq & Hin')].
    + apply Hx. rewrite <- Hman. by apply (al_range_law s1 p u Hok1 Hp1).
    + assert (al_owns s1 !! q = Some v) as Hq1 by (rewrite Hins, lookup_insert_ne; [done|congruence]).
      pose proof (al_disjoint_law s1 p u q v Hok1 Hp1 Hq1 ltac:(congruence)). unfold in_block in *. lia.
Qed.

Lemma mem_alloc_app_spec s id size :
  apps_ok s -> 0 <= size < 2305843009213693944 ->
  exists s' p, mem_alloc_app s id size = Ret (s', p) /\ apps_ok s' /\ extends (mem s) (mem s') /\
    ((p = 0 /\ apps s' = apps s) \/
     (p <> 0 /\ exists i u, find_app s id = Some i /\ al_owns (mem s) !! p = None /\
        apps s' = alter (fun a => charge a p (round8 size)) i (apps s) /\
        al_owns (mem s') !! p = Some u /\ size <= u)).
Proof.
  intros (Hok & Hlen & Happs) Hs. destruct (request_total_spec size ltac:(lia)) as (Hsz & _ & Hr & _).
  assert (0 <= round8 size < ALLOC_LIMIT) as Hlim by (unfold ALLOC_LIMIT, round8 in *; mlia).
  unfold mem_alloc_app. rewrite Hsz. set (o := [Puts "mem_alloc_app id="; _; _; _; _]).
  destruct (al_emit_law (mem s) o Hok) as (Hok0 & Ho0 & Hr0 & Hm0).
  destruct (al_alloc_law (al_emit (mem s) o) (round8 size) Hok0 Hlim) as (m1 & p & Hrun & Hok1 & _).
  cbn [mem say]. rewrite Hrun. cbn [mbind outcome_bind mem apps next_id say].
  assert (extends (mem s) m1) as Hext.
  { eapply extends_trans; [by apply extends_emit|by eapply extends_alloc]. }
  assert (forall m', extends (mem s) m' -> Forall (app_ok m') (apps s)) as Hmono.
  { intros m' He. eapply Forall_impl; [done|]. intros a. apply app_ok_mono, He. }
  destruct (Z.eqb_spec p 0) as [->|Hp].
  { eexists _, 0. split; [done|]. split; [split_and!|split]; try done; [by apply Hmono|by left]. }
  destruct (al_alloc_ok _ _ _ _ Hok0 Hlim Hrun Hp) as (_ & _ & _ & u & Hnone & Hins & Hu).
  change (find_app (AppState m1 (apps s) (next_id s)) id) with (find_app s id).
  destruct (find_app s id) as [i|] eqn:Hfind.
  - eexists _, p. split; [done|]. cbn [mem say apps].
    assert (extends (mem s) (al_emit m1 [Puts " app alloc addr=0x"; Uhex p; Putc 10])) as Hext2
      by (eapply extends_trans; [done|by apply extends_emit]).
    split; [split_and!|split]; cbn [mem apps say]; [apply Hext2|by rewrite length_alter| |done|].
    + apply Forall_alter; [by apply Hmono|]. intros a _ Ha. by apply app_ok_charge.
    + right. split; [done|]. exists i, u. rewrite Ho0 in Hnone.
      destruct (al_emit_law m1 [Puts " app alloc addr=0x"; Uhex p; Putc 10] Hok1) as (_ & -> & _).
      rewrite Hins, lookup_insert_eq. split_and!; try done. lia.
  - destruct (extends_alloc_free _ _ _ _ Hok0 Hlim Hrun Hp) as (m2 & Hf & He2). cbn [mem].
    rewrite Hf. cbn [mbind outcome_bind].
    assert (extends (mem s) m2) as Hext2 by (eapply extends_trans; [by apply extends_emit|done]).
    eexists _, 0. split; [done|]. split; [split_and!|split]; cbn [mem apps say]; try done;
      [apply He2|by apply Hmono|by left].
Qed.

(** The copy into a fresh allocation of [size] bytes. *)
Lemma copy_into s s1 p u data size :
  al_ok s1 -> extends s s1 -> al_owns s !! p = None -> al_owns s1 !! p = Some u -> 0 <= size <= u ->
  source_ok s data size ->
  let m := memcpy (al_ram s1) p data size in
  client_write s1 m /\
  bytes_at m p (Z.to_nat size) = bytes_at (al_ram s) data (Z.to_nat size) /\
  (forall x, stable s x -> rd m x = rd (al_ram s) x).
Proof.
  intros Hok He Hnone Hp Hs Hsrc m. pose proof He as (_ & Ho & Hman & Hram).
  pose proof (al_range_law s1 p u Hok Hp) as (? & ? & ? & Hin).
  assert (forall x, stable s x -> ~ in_block p u x) as Hstable.
  { intros x [Hx|(q & v & Hq & Hx)] Hx'; [by apply Hx, Hman, Hin|].
    pose proof (al_disjoint_law s1 p u q v Hok Hp (Ho q v Hq) ltac:(congruence)). unfold in_block in *. lia. }
  assert (forall x, data <= x < data + size -> stable s x) as Hsrcs.
  { intros x Hx. destruct Hsrc as [Hn|(q & v & Hq & ? & ?)]; [by left; apply Hn|].
    right. exists q, v. split; [done|]. unfold in_block. lia. }
  assert (size = 0 \/ p <= data \/ data + size <= p) as Hov.
  { destruct (decide (size = 0)); [by left|]. right.
    destruct (decide (p <= data)); [by left|]. right.
    destruct (decide (data + size <= p)) as [|Hno]; [done|]. exfalso.
    apply (Hstable p); [apply Hsrcs|unfold in_block]; lia. }
  assert (forall x, rd m x = if decide (p <= x < p + size) then u8 (rd (al_ram s1) (x - p + data)) else rd (al_ram s1) x) as Hrd.
  { intros x. unfold m. destruct Hov as [->|Hov].
    - unfold memcpy. cbn. by rewrite decide_False by lia.
    - rewrite rd_memcpy, rd_store_at, Z2Nat.id by lia. done. }
  split_and!.
  - intros x _ Hx. exists p, u. split; [done|]. unfold in_block. rewrite Hrd in Hx.
    destruct (decide (p <= x < p + size)); [lia|done].
  - unfold bytes_at. rewrite Z2Nat.id by lia. apply list_eq. intros i. rewrite !list_lookup_fmap.
    destruct (decide (Z.of_nat i < size)).
    + rewrite !lookup_seqZ_lt by lia. cbn. f_equal. rewrite Hrd, decide_True by lia.
      replace (p + Z.of_nat i - p + data) with (data + Z.of_nat i) by lia.
      rewrite Hram by (apply Hsrcs; lia). apply u8_rd.
    + by rewrite !lookup_seqZ_ge by lia.
  - intros x Hx. rewrite Hrd, decide_False; [by apply Hram|]. intros Hc. apply (Hstable x Hx). unfold in_block. lia.
Qed.

Lemma saved_lookup s id h i a :
  find_app s id = Some i -> apps s !! i = Some a -> 0 <= h < block_count a ->
  saved s id h = app_blocks a !! Z.to_nat h.
Proof.
  intros Hf Ha Hh. unfold saved. rewrite Hf. cbn. rewrite Ha. cbn.
  by rewrite (proj2 (Z.ltb_ge h 0)), (proj2 (Z.leb_gt (block_count a) h)) by lia.
Qed.

Lemma mem_retrieve_app_saved s id h addr size :
  saved s id h = Some (addr, size) -> exists s', mem_retrieve_app s id h = (s', addr, Some size) /\ apps s' = apps s.
Proof.
  unfold saved, mem_retrieve_app. destruct (find_app s id) as [i|]; [|done]. cbn.
  destruct (apps s !! i) as [a|]; [|done]. cbn. case_match; [done|]. intros Hb.
  rewrite (list_lookup_total_correct _ _ _ Hb). eexists. done.
Qed.

Lemma find_app_keep s s' id i g :
  apps s' = alter g i (apps s) -> (forall a, app_id (g a) = app_id a) -> find_app s' id = find_app s id.
Proof. intros E Hg. unfold find_app. rewrite E. apply find_index_alter. intros a. by rewrite Hg. Qed.

(** A save that stores its data, in terms of the registry. *)
Lemma mem_save_app_spec s id data size :
  apps_ok s -> 0 <= size < 2305843009213693944 -> source_ok (mem s) data size ->
  exists s' h, mem_save_app s id data size = Ret (s', h) /\ apps_ok s' /\ extends (mem s) (mem s') /\
    (h <> -1 -> exists i a addr, find_app s id = Some i /\ apps s !! i = Some a /\ h = block_count a /\ 0 <= h < 16 /\
      apps s' = alter (fun a => add_block (charge a addr (round8 size)) addr size) i (apps s) /\
      bytes_at (al_ram (mem s')) addr (Z.to_nat size) = bytes_at (al_ram (mem s)) data (Z.to_nat size)).
Proof.
  intros Hok Hs Hsrc. unfold mem_save_app. pose proof Hok as (Hal & Hlen & Happs).
  destruct (find_app s id) as [i|] eqn:Hf; [|by exists s, (-1)].
  destruct (find_app_Some _ _ _ Hf) as (a & Ha & Hid). rewrite Ha.
  pose proof (Forall_lookup_1 _ _ _ _ Happs Ha) as (Hl16 & Hcnt & Hblk).
  destruct (Z.leb_spec 16 (block_count a)) as [Hfull|Hroom]; [by exists s, (-1)|].
  destruct (mem_alloc_app_spec s id size Hok Hs) as (s1 & p & -> & Hok1 & He1 & Hcase). cbn [mbind outcome_bind].
  destruct Hcase as [[-> _]|(Hp & i' & u & Hf' & Hnone & Happs1 & Hown & Hu)]; [by exists s1, (-1)|].
  rewrite (proj2 (Z.eqb_neq p 0) Hp). rewrite Hf in Hf'. injection Hf' as <-. cbn [mem apps next_id say].
  destruct Hok1 as (Hal1 & Hlen1 & _).
  destruct (copy_into (mem s) (mem s1) p u data size Hal1 He1 Hnone Hown ltac:(lia) Hsrc) as (Hcw & Hbytes & Hst).
  destruct (al_set_ram_law _ _ Hal1 Hcw) as (Hal2 & Ho2 & Hr2 & Hm2).
  set (m2 := al_set_ram (mem s1) _) in *.
  set (o := [Puts "mem_save_app id="; _; _; _; _; _; _]).
  destruct (al_emit_law m2 o Hal2) as (Hal3 & Ho3 & Hr3 & Hm3).
  eexists _, (block_count a). split; [done|]. split; [split_and!|split]; cbn [mem apps say].
  - done.
  - by rewrite length_alter.
  - rewrite Happs1, list_alter_twice. apply Forall_alter.
    + eapply Forall_impl; [done|]. intros a'. apply app_ok_mono. intros q v Hq. rewrite Ho3, Ho2. by apply He1.
    + intros a' Ha' _. rewrite Ha in Ha'. injection Ha' as <-. split_and!; cbn; [by rewrite length_insert|lia|lia|].
      intros h addr sz Hh Hlk. apply list_lookup_insert_Some in Hlk as [(<- & [= <- <-] & _)|(Hne & Hlk)].
      * exists u. rewrite Ho3, Ho2. split; [done|lia].
      * destruct (Hblk h addr sz) as (v & Hv & Hsv); [lia|done|]. exists v. rewrite Ho3, Ho2.
        split; [by apply He1|done].
  - split_and!; [done| | |].
    + intros q v Hq. rewrite Ho3, Ho2. by apply He1.
    + intros x. rewrite Hm3, Hm2. apply He1.
    + intros x Hx. rewrite Hr3, Hr2. by apply Hst.
  - intros _. exists i, a, p. rewrite Happs1, list_alter_twice, Hr3, Hr2. split_and!; try done; lia.
Qed.

(** C33: Data an application saves is retrieved: [mem_save_app] always returns;
    when it returns a handle, [mem_retrieve_app] with that handle gives an
    address that holds the saved bytes and their size, every handle of the
    application handed out before still leads to the same block, and no byte
    of memory clients hold has changed. *)
Theorem save_then_retrieve s id data size :
  apps_ok s -> 0 <= size < 2305843009213693944 -> source_ok (mem s) data size ->
  exists s' h, mem_save_app s id data size = Ret (s', h) /\ apps_ok s' /\
    (forall x, stable (mem s) x -> rd (al_ram (mem s')) x = rd (al_ram (mem s)) x) /\
    (h <> -1 ->
      (exists s'' addr, mem_retrieve_app s' id h = (s'', addr, Some size) /\
        bytes_at (al_ram (mem s')) addr (Z.to_nat size) = bytes_at (al_ram (mem s)) data (Z.to_nat size)) /\
      (forall h' r, saved s id h' = Some r -> saved s' id h' = Some r)).
Proof.
  intros Hok Hs Hsrc. destruct (mem_save_app_spec s id data size Hok Hs Hsrc)
    as (s' & h & Hrun & Hok' & (_ & _ & _ & Hst) & Hres).
  exists s', h. split_and!; try done. intros Hh.
  destruct (Hres Hh) as (i & a & addr & Hf & Ha & -> & Hr & Happs & Hbytes).
  assert (find_app s' id = Some i) as Hf'
    by (rewrite <- Hf; by eapply find_app_keep).
  set (a' := add_block (charge a addr (round8 size)) addr size).
  assert (apps s' !! i = Some a') as Ha' by (by rewrite Happs, list_lookup_alter_eq, Ha).
  pose proof (Forall_lookup_1 _ _ _ _ (proj2 (proj2 Hok)) Ha) as (Hl16 & Hcnt & _).
  split.
  - assert (saved s' id (block_count a) = Some (addr, size)) as Hsv.
    { rewrite (saved_lookup s' id _ i a' Hf' Ha') by (cbn; lia). cbn. apply list_lookup_insert_eq. lia. }
    destruct (mem_retrieve_app_saved _ _ _ _ _ Hsv) as (s'' & Hget & _). by exists s'', addr.
  - intros h' r Hr'. unfold saved in Hr'. rewrite Hf in Hr'. cbn in Hr'. rewrite Ha in Hr'. cbn in Hr'.
    case_match eqn:E; [done|]. apply orb_false_iff in E as [?%Z.ltb_ge ?%Z.leb_gt].
    rewrite (saved_lookup s' id _ i a' Hf' Ha') by (cbn; lia). cbn. rewrite list_lookup_insert_ne by lia. done.
Qed.

Lemma app_ok_reset s id prio : app_ok s (app_reset id prio).
Proof. split_and!; cbn; [done|lia|lia|]. intros h addr size Hh. lia. Qed.

Lemma apps_init_ok s next : al_ok s -> apps_ok (apps_init s next).
Proof.
  intros Hok. split_and!; cbn; [done|done|]. change (Forall (app_ok s) (replicate MAX_APPS (app_reset 0 0))). apply Forall_replicate, app_ok_reset.
Qed.

Lemma register_app_ok s prio : apps_ok s -> apps_ok (mem_register_app s prio).1.
Proof.
  intros Hok. unfold mem_register_app. destruct (find_app s 0) as [i|] eqn:Hf; [|done].
  destruct Hok as (Hal & Hlen & Happs).
  destruct (al_emit_law (mem s) [Puts "mem_register_app id="; Udec (u32 (next_id s)); Putc 10] Hal) as (Hal' & Ho & _ & _).
  split_and!; cbn; [done|by rewrite length_insert|]. apply Forall_insert; [|apply app_ok_reset].
  eapply Forall_impl; [done|]. intros b. apply app_ok_mono. by rewrite Ho.
Qed.

(** [mem_register_app] hands out the identifier [next_id] while a slot is
    free; afterwards the application is found under it, with nothing charged,
    and the registrations of other identifiers are unchanged. *)
Theorem register_app_fresh s prio s' id :
  apps_ok s -> 0 < next_id s < 2147483647 -> find_app s (next_id s) = None ->
  mem_register_app s prio = (s', id) ->
  apps_ok s' /\
  ((id = -1 /\ s' = s /\ find_app s 0 = None) \/
   (id = next_id s /\ next_id s' = next_id s + 1 /\ mem_app_used s' id = 0 /\ is_Some (find_app s' id) /\
    forall j, j <> id -> j <> 0 -> mem_app_used s' j = mem_app_used s j)).
Proof.
  intros Hok Hid Hfresh Hrun. pose proof (register_app_ok s prio Hok) as Hok'. rewrite Hrun in Hok'.
  split; [done|]. unfold mem_register_app in Hrun.
  destruct (find_app s 0) as [i|] eqn:Hf; [|injection Hrun as <- <-; by left].
  injection Hrun as <- <-. destruct (find_app_Some _ _ _ Hf) as (a & Ha & Ha0).
  set (o := [Puts "mem_register_app id="; _; _]).
  right. cbn [next_id say]. rewrite s32_small by lia.
  assert (find_app (say (AppState (mem s) (<[i := app_reset (next_id s) prio]> (apps s)) (next_id s + 1)) o) (next_id s)
    = Some i) as Hfi.
  { unfold find_app. cbn [apps say]. apply find_index_insert_hit; [by eapply lookup_lt_Some|done|apply Z.eqb_refl]. }
  unfold mem_app_used at 1. rewrite Hfi. cbn [apps say].
  rewrite list_lookup_insert_eq by (by eapply lookup_lt_Some). split_and!; try done. intros j Hj Hj0.
  assert (find_app (say (AppState (mem s) (<[i := app_reset (next_id s) prio]> (apps s)) (next_id s + 1)) o) j
    = find_app s j) as Hfj.
  { unfold find_app. cbn [apps say]. eapply find_index_insert_same; [done|]. cbn.
    rewrite Ha0. transitivity false; [|symmetry]; apply Z.eqb_neq; done. }
  unfold mem_app_used. rewrite Hfj. destruct (find_app s j) as [n|] eqn:Hn; [|done].
  destruct (find_app_Some _ _ _ Hn) as (b & Hb & Hbid). cbn [apps say].
  rewrite list_lookup_insert_ne; [done|]. intros <-. congruence.
Qed.
End Apps.
Arguments app_state St : clear implicits.

(** ** Concrete inputs *)

#[local] Existing Instance demo_layout.

(** A kernel heap over a memory with a string at address 100, and one
    application registered. *)
Definition demo_heap : kmem := heap_init demo_ram false [] 0x200000 EXOCORE_KERNEL_HEAP_SIZE.
Definition demo_apps : app_state kmem := apps_init demo_heap 1.
Definition demo_apps1 : app_state kmem := (mem_register_app demo_apps 5).1.

Lemma demo_heap_ok : al_ok demo_heap.
Proof. eexists _, _. apply heap_init_kinv, demo_layout_ok. Qed.
Lemma demo_source : source_ok demo_heap 100 6.
Proof. left. intros x Hx. cbn. unfold kmem_managed, ptr_in_region, swap_end. cbn.
  rewrite (proj2 (Z.leb_gt 2097152 x)), (proj2 (Z.leb_gt 1114112 x)) by lia. done. Qed.

Lemma save_then_retrieve_witness : exists s' h, mem_save_app demo_apps1 1 100 6 = Ret (s', h).
Proof.
  destruct (save_then_retrieve demo_apps1 1 100 6) as (s' & h & Hrun & _).
  - apply register_app_ok, apps_init_ok, demo_heap_ok.
  - lia.
  - apply demo_source.
  - exists s', h. exact Hrun.
Defined.
Lemma register_app_fresh_witness : apps_ok (mem_register_app demo_apps 5).1.
Proof.
  apply (register_app_fresh demo_apps 5 (mem_register_app demo_apps 5).1 (mem_register_app demo_apps 5).2).
  - apply apps_init_ok, demo_heap_ok.
  - cbn. lia.
  - by vm_compute.
  - by destruct (mem_register_app demo_apps 5).
Defined.

(** Unused slots of the registry have identifier 0, so a request for
    application 0 is served although no application is registered. *)
Theorem app_zero_is_served :
  exists s' p, mem_alloc_app demo_apps 0 64 = Ret (s', p) /\ p = 0x200028 /\ mem_app_used s' 0 = 64.
Proof. eexists _, _. split; by vm_compute. Qed.
