(* ===== verification/Vram.v ===== *)
(** * kernel/mem.c: locks on the text-mode video memory

    Four slots record which owners hold the video memory and how often.  An
    owner is identified by its tag, compared with [strcmp]. *)

From Stdlib Require Import ZArith Lia.
From stdpp Require Import base numbers gmap strings fin_maps option list.
From S2P Require Import Prelude MemUtils.

Local Open Scope Z_scope.

Definition VGA_DRAW_COLS : Z := 80.
Definition VGA_DRAW_ROWS : Z := 25.

(** [vram_lock_t]: the tag, NULL or a string, and the number of locks held. *)
Record vram_lock_t := VramLock { owner : option (list Z); locks : Z }.

Record vram := Vram { vram_base : Z; vram_size : Z; vram_locks : list vram_lock_t }.

Definition mem_vram_init : vram :=
  Vram 0xB8000 (VGA_DRAW_COLS * VGA_DRAW_ROWS * 2) (replicate 4 (VramLock None 0)).

Definition same_owner (o : list Z) (l : vram_lock_t) : bool :=
  match owner l with Some o' => lstrcmp o' o =? 0 | None => false end.

Definition find_vram_slot (s : vram) (o : list Z) : option nat := find_index (same_owner o) (vram_locks s) 0.

Definition tag_of (o : option (list Z)) : list Z := default (str "unknown") o.

Definition set_locks (s : vram) (l : list vram_lock_t) : vram := Vram (vram_base s) (vram_size s) l.

Definition slot_free (l : vram_lock_t) : bool :=
  match owner l with None => true | Some _ => locks l =? 0 end.

(** Returns [vram_base]. *)
Definition mem_vram_lock (s : vram) (o : option (list Z)) : outcome (vram * Z) :=
  let tag := tag_of o in
  match find_vram_slot s tag with
  | Some i =>
      Ret (set_locks s (alter (fun l => VramLock (owner l) (u32 (locks l + 1))) i (vram_locks s)), vram_base s)
  | None =>
      match find_index slot_free (vram_locks s) 0 with
      | Some i => Ret (set_locks s (<[i := VramLock (Some tag) 1]> (vram_locks s)), vram_base s)
      | None => Panic "mem: no VRAM locks available"
      end
  end.

Definition release (l : vram_lock_t) : vram_lock_t :=
  let n := locks l - 1 in VramLock (if n =? 0 then None else owner l) n.

Definition mem_vram_unlock (s : vram) (o : option (list Z)) : outcome vram :=
  match find_vram_slot s (tag_of o) with
  | None => Panic "mem: unlocking unowned VRAM"
  | Some i =>
      match vram_locks s !! i with
      | None => Fault
      | Some l =>
          if locks l =? 0 then Panic "mem: VRAM lock underflow"
          else Ret (set_locks s (alter release i (vram_locks s)))
      end
  end.

Definition mem_vram_window (s : vram) (o : option (list Z)) (offset length : Z) : outcome (vram * Z) :=
  if vram_size s <? u64 (offset + length) then Panic "mem: VRAM window exceeds bounds"
  else '(s, _) ← mem_vram_lock s o; Ret (s, vram_base s + offset).

(** ** Invariant *)

Definition lock_ok (l : vram_lock_t) : Prop :=
  match owner l with
  | None => locks l = 0
  | Some o => str_ok o /\ 0 < locks l < 4294967296
  end.

(** A slot is occupied exactly while its owner holds locks, and no owner
    occupies two slots. *)
Definition vram_ok (s : vram) : Prop :=
  length (vram_locks s) = 4%nat /\ Forall lock_ok (vram_locks s) /\
  forall i j l l' o, vram_locks s !! i = Some l -> vram_locks s !! j = Some l' ->
    owner l = Some o -> owner l' = Some o -> i = j.

(** How many locks an owner holds. *)
Definition held (s : vram) (o : list Z) : Z :=
  match find_vram_slot s o with
  | Some i => match vram_locks s !! i with Some l => locks l | None => 0 end
  | None => 0
  end.

Lemma same_owner_spec o l : lock_ok l -> str_ok o -> same_owner o l = true <-> owner l = Some o.
Proof.
  unfold lock_ok, same_owner. destruct (owner l) as [o'|]; [|done]. intros [Ho' _] Ho.
  rewrite Z.eqb_eq, lstrcmp_eq by done. split; congruence.
Qed.

Lemma find_vram_slot_Some s o i :
  vram_ok s -> str_ok o ->
  find_vram_slot s o = Some i <-> exists l, vram_locks s !! i = Some l /\ owner l = Some o.
Proof.
  intros (_ & Hok & Huniq) Ho. split.
  - intros H. apply find_index_Some in H as (l & _ & Hl & Hs & _). rewrite Nat.sub_0_r in Hl.
    exists l. split; [done|]. apply same_owner_spec; [|done|done]. by eapply Forall_lookup_1.
  - intros (l & Hl & Hown). unfold find_vram_slot.
    assert (same_owner o l = true) as Hs by (apply same_owner_spec; [by eapply Forall_lookup_1|done|done]).
    destruct (find_index (same_owner o) (vram_locks s) 0) as [j|] eqn:Hj.
    + apply find_index_Some in Hj as (l' & _ & Hl' & Hs' & _). rewrite Nat.sub_0_r in Hl'. f_equal.
      apply same_owner_spec in Hs'; [|by eapply Forall_lookup_1|done]. by eapply Huniq.
    + by rewrite (find_index_None _ _ _ Hj _ _ Hl) in Hs.
Qed.

Lemma held_lookup s o i l :
  vram_ok s -> str_ok o -> vram_locks s !! i = Some l -> owner l = Some o -> held s o = locks l.
Proof.
  intros Hok Ho Hl Hown. unfold held.
  rewrite (proj2 (find_vram_slot_Some s o i Hok Ho)) by eauto. by rewrite Hl.
Qed.
Lemma held_none s o :
  vram_ok s -> str_ok o -> (forall i l, vram_locks s !! i = Some l -> owner l <> Some o) -> held s o = 0.
Proof.
  intros Hok Ho Hn. unfold held. destruct (find_vram_slot s o) as [i|] eqn:Hf; [|done].
  apply find_vram_slot_Some in Hf as (l & Hl & Hown); [|done|done]. by apply Hn in Hl.
Qed.

(** Changing one slot: what the other owners hold is unaffected. *)
Lemma held_update s i l l' o :
  vram_ok s -> vram_ok (set_locks s (<[i := l']> (vram_locks s))) -> vram_locks s !! i = Some l ->
  str_ok o -> owner l <> Some o -> owner l' <> Some o ->
  held (set_locks s (<[i := l']> (vram_locks s))) o = held s o.
Proof.
  intros Hok Hok' Hl Ho Hn Hn'. destruct (find_vram_slot s o) as [j|] eqn:Hf.
  - apply find_vram_slot_Some in Hf as (k & Hk & Hown); [|done|done].
    rewrite (held_lookup s o j k) by done. apply (held_lookup _ o j k); try done. cbn.
    rewrite list_lookup_insert_ne; [done|]. intros <-. congruence.
  - assert (held s o = 0) as -> by (unfold held; by rewrite Hf). apply held_none; [done|done|].
    intros j k Hk. cbn in Hk. apply list_lookup_insert_Some in Hk as [(<- & <- & _)|(Hne & Hk)]; [done|].
    intros Hown. by rewrite (proj2 (find_vram_slot_Some s o j Hok Ho)) in Hf by eauto.
Qed.

Lemma vram_ok_update s i l l' :
  vram_ok s -> vram_locks s !! i = Some l -> lock_ok l' ->
  (forall j k o, owner l' = Some o -> vram_locks s !! j = Some k -> owner k = Some o -> j = i) ->
  vram_ok (set_locks s (<[i := l']> (vram_locks s))).
Proof.
  intros (Hlen & Hok & Huniq) Hl Hl' Hnew. split_and!; cbn.
  - by rewrite length_insert.
  - by apply Forall_insert.
  - intros a b la lb o Ha Hb Hoa Hob.
    apply list_lookup_insert_Some in Ha as [(<- & <- & _)|(Hna & Ha)];
      apply list_lookup_insert_Some in Hb as [(<- & <- & _)|(Hnb & Hb)].
    + done.
    + symmetry. by eapply Hnew.
    + by eapply Hnew.
    + by eapply Huniq.
Qed.

(** ** Theorems *)

Lemma str_unknown_ok : str_ok (str "unknown").
Proof. repeat constructor; lia. Qed.

(** [mem_vram_lock] always returns the base of the video memory and adds
    exactly one lock for its owner, leaving what the others hold; it panics
    only when the owner holds nothing and four other owners hold locks. *)
Lemma vram_lock_spec s o :
  vram_ok s -> str_ok (tag_of o) -> held s (tag_of o) < 4294967295 ->
  (exists s', mem_vram_lock s o = Ret (s', vram_base s) /\ vram_ok s' /\
     held s' (tag_of o) = held s (tag_of o) + 1 /\
     forall t, str_ok t -> t <> tag_of o -> held s' t = held s t) \/
  (mem_vram_lock s o = Panic "mem: no VRAM locks available" /\ held s (tag_of o) = 0 /\
   forall i l, vram_locks s !! i = Some l -> 0 < locks l).
Proof.
  intros Hok Ho Hlim. set (tag := tag_of o) in *. unfold mem_vram_lock. fold tag.
  destruct (find_vram_slot s tag) as [i|] eqn:Hf.
  - left. apply find_vram_slot_Some in Hf as (l & Hl & Hown); [|done|done].
    pose proof (held_lookup s tag i l Hok Ho Hl Hown) as Hh. rewrite Hh in Hlim |- *.
    pose proof (Forall_lookup_1 _ _ _ _ (proj1 (proj2 Hok)) Hl) as Hlok. unfold lock_ok in Hlok.
    rewrite Hown in Hlok. destruct Hlok as [_ Hlk].
    rewrite (list_alter_is_insert _ _ _ l Hl), u32_small by lia.
    set (l' := VramLock _ _).
    assert (vram_ok (set_locks s (<[i := l']> (vram_locks s)))) as Hok'.
    { apply (vram_ok_update s i l l'); [done|done| |].
      - unfold lock_ok. cbn. rewrite Hown. split; [done|lia].
      - intros j k t Ht Hk Hkt. cbn in Ht. rewrite Hown in Ht. injection Ht as <-.
        by eapply (proj2 (proj2 Hok)). }
    eexists. split_and!; [done|done| |].
    + apply (held_lookup _ tag i l'); try done. cbn. apply list_lookup_insert_eq. by eapply lookup_lt_Some.
    + intros t Ht Hne. apply (held_update s i l l'); try done; cbn; rewrite Hown; congruence.
  - assert (forall j k, vram_locks s !! j = Some k -> owner k <> Some tag) as Hnone.
    { intros j k Hk Hown. by rewrite (proj2 (find_vram_slot_Some s tag j Hok Ho)) in Hf by eauto. }
    rewrite (held_none s tag) by done.
    destruct (find_index slot_free (vram_locks s) 0) as [i|] eqn:Hi; [left|right].
    + apply find_index_Some in Hi as (l & _ & Hl & Hfree & _). rewrite Nat.sub_0_r in Hl.
      set (l' := VramLock (Some tag) 1).
      assert (vram_ok (set_locks s (<[i := l']> (vram_locks s)))) as Hok'.
      { apply (vram_ok_update s i l l'); [done|done|done|].
        intros j k t Ht Hk Hkt. cbn in Ht. injection Ht as <-. by apply Hnone in Hk. }
      eexists. split_and!; [done|done| |].
      * apply (held_lookup _ tag i l'); try done. cbn. apply list_lookup_insert_eq. by eapply lookup_lt_Some.
      * intros t Ht Hne. apply (held_update s i l l'); try done; [|cbn; congruence].
        pose proof (Forall_lookup_1 _ _ _ _ (proj1 (proj2 Hok)) Hl) as Hlok. unfold lock_ok, slot_free in *.
        intros Hown. rewrite Hown in *. apply Z.eqb_eq in Hfree. lia.
    + split_and!; [done|done|]. intros j k Hk. pose proof (find_index_None _ _ _ Hi _ _ Hk) as Hbusy.
      pose proof (Forall_lookup_1 _ _ _ _ (proj1 (proj2 Hok)) Hk) as Hlok. unfold lock_ok, slot_free in *.
      destruct (owner k); [lia|done].
Qed.

(** What [mem_vram_unlock] does. *)
Lemma vram_unlock_spec s o :
  vram_ok s -> str_ok (tag_of o) ->
  (held s (tag_of o) = 0 /\ mem_vram_unlock s o = Panic "mem: unlocking unowned VRAM") \/
  (exists s', 0 < held s (tag_of o) /\ mem_vram_unlock s o = Ret s' /\ vram_ok s' /\
     held s' (tag_of o) = held s (tag_of o) - 1 /\ forall t, str_ok t -> t <> tag_of o -> held s' t = held s t).
Proof.
  intros Hok Ho. set (tag := tag_of o) in *. unfold mem_vram_unlock. fold tag.
  destruct (find_vram_slot s tag) as [i|] eqn:Hf; [right|left; split; [unfold held; by rewrite Hf|done]].
  apply find_vram_slot_Some in Hf as (l & Hl & Hown); [|done|done]. rewrite Hl.
  rewrite (held_lookup s tag i l Hok Ho Hl Hown).
  pose proof (Forall_lookup_1 _ _ _ _ (proj1 (proj2 Hok)) Hl) as Hlok. unfold lock_ok in Hlok.
  rewrite Hown in Hlok. destruct Hlok as [_ Hlk]. rewrite (proj2 (Z.eqb_neq _ _)) by lia.
  rewrite (list_alter_is_insert _ _ _ l Hl).
  assert (forall t, owner (release l) = Some t -> t = tag) as Hrel
    by (intros t; cbn; case_match; congruence).
  assert (vram_ok (set_locks s (<[i := release l]> (vram_locks s)))) as Hok'.
  { apply (vram_ok_update s i l _); [done|done| |].
    - unfold lock_ok. cbn. destruct (Z.eqb_spec (locks l - 1) 0); [done|]. rewrite Hown. split; [done|lia].
    - intros j k t Ht Hk Hkt. apply Hrel in Ht as ->. by eapply (proj2 (proj2 Hok)). }
  eexists. split_and!; [lia|done|done| |].
  - destruct (decide (locks l = 1)) as [H1|H1].
    + rewrite H1. cbn. apply held_none; [done|done|]. intros j k Hk Hkt. cbn in Hk.
      apply list_lookup_insert_Some in Hk as [(<- & <- & _)|(Hne & Hk)].
      * unfold release in Hkt. rewrite H1 in Hkt. done.
      * apply Hne. by eapply (proj2 (proj2 Hok)).
    + apply (held_lookup _ tag i (release l)); try done.
      * cbn. apply list_lookup_insert_eq. by eapply lookup_lt_Some.
      * cbn. by rewrite (proj2 (Z.eqb_neq _ _)) by lia.
  - intros t Ht Hne. apply (held_update s i l _); try done; [congruence|]. intros Hc. by apply Hrel in Hc.
Qed.

(** Locks nest.  [mem_vram_lock] gives its owner one more lock and leaves
    what the others hold, or panics because four other owners hold locks.  The
    matching [mem_vram_unlock] succeeds, after which everybody holds what they
    held before. *)
Theorem vram_lock_unlock s o :
  vram_ok s -> str_ok (tag_of o) -> held s (tag_of o) < 4294967295 ->
  (mem_vram_lock s o = Panic "mem: no VRAM locks available" /\ held s (tag_of o) = 0 /\
   forall i l, vram_locks s !! i = Some l -> 0 < locks l) \/
  (exists s1 s2, mem_vram_lock s o = Ret (s1, vram_base s) /\ held s1 (tag_of o) = held s (tag_of o) + 1 /\
   (forall t, str_ok t -> t <> tag_of o -> held s1 t = held s t) /\
   mem_vram_unlock s1 o = Ret s2 /\ vram_ok s2 /\ forall t, str_ok t -> held s2 t = held s t).
Proof.
  intros Hok Ho Hlim. destruct (vram_lock_spec s o Hok Ho Hlim) as [(s' & Hl & Hok1 & Hh & Hoth)|Hp];
    [right|by left].
  assert (0 <= held s (tag_of o)) as Hnn.
  { unfold held. destruct (find_vram_slot s _) as [i|]; [|done]. destruct (vram_locks s !! i) as [l|] eqn:El; [|done].
    pose proof (Forall_lookup_1 _ _ _ _ (proj1 (proj2 Hok)) El) as H. unfold lock_ok in H. destruct (owner l); lia. }
  destruct (vram_unlock_spec s' o Hok1 Ho) as [[Hz _]|(s2 & _ & Hu & Hok2 & Hh2 & Hoth2)]; [lia|].
  exists s', s2. split_and!; try done. intros t Ht. destruct (decide (t = tag_of o)) as [->|Hne]; [lia|].
  by rewrite Hoth2, Hoth by done.
Qed.

(** A window that [mem_vram_window] grants lies in the video memory, as long
    as offset and length do not overflow together. *)
Lemma vram_window_bounds s o off len s' p :
  0 <= off -> 0 <= len -> off + len < 18446744073709551616 ->
  mem_vram_window s o off len = Ret (s', p) -> vram_base s' <= p /\ p + len <= vram_base s' + vram_size s'.
Proof.
  intros Ho Hl Hsum Hrun. unfold mem_vram_window in Hrun. rewrite u64_small in Hrun by lia.
  destruct (Z.ltb_spec (vram_size s) (off + len)); [done|]. inv_bind Hrun. destruct r as [s1 b]. injection Hrun as <- <-.
  assert (vram_size s1 = vram_size s /\ vram_base s1 = vram_base s) as [-> ->]; [|lia].
  unfold mem_vram_lock in E. repeat case_match; try done; injection E as <- _; done.
Qed.

(** ** Concrete inputs *)

Lemma vram_init_ok : vram_ok mem_vram_init.
Proof.
  split_and!; [done|by repeat constructor|].
  intros i j l l' o Hi Hj Hl. apply lookup_replicate in Hi as [-> _]. done.
Qed.

Lemma vram_lock_unlock_witness : exists s1 s2, mem_vram_lock mem_vram_init None = Ret (s1, 0xB8000) /\
  mem_vram_unlock s1 None = Ret s2.
Proof.
  destruct (vram_lock_unlock mem_vram_init None vram_init_ok str_unknown_ok) as [(H & _)|(s1 & s2 & H1 & _ & _ & H2 & _)].
  - by vm_compute.
  - exfalso. by vm_compute in H.
  - exists s1, s2. exact (conj H1 H2).
Defined.

(** The bound check adds offset and length modulo 2^64: an offset of 2^64 - 1
    passes it, and the window begins one byte before the video memory. *)
Theorem vram_window_overflow :
  exists s' p, mem_vram_window mem_vram_init None 18446744073709551615 2 = Ret (s', p) /\
    u64 p = vram_base s' - 1.
Proof. eexists _, _. split; [by vm_compute|by vm_compute]. Qed.
