(* ===== verification/MemCtx.v ===== *)
(** * kernel/memctx.c: memory contexts

    A context groups allocations of one process under a quota.  The module is
    modelled and verified over the allocator interface. *)

From Stdlib Require Import ZArith Lia.
From stdpp Require Import base numbers gmap strings fin_maps option list relations.
From S2P Require Import Prelude Heap HeapTheorems Allocator.

Local Open Scope Z_scope.

Definition MEMCTX_MAX_CONTEXTS : nat := 32.
Definition MEMCTX_MAX_BLOCKS : nat := 128.

(** [memctx_stats_t]. *)
Record memctx_stats_t := Stats { quota : Z; used : Z; peak : Z; allocations : Z }.
(** [memctx_block_t]. *)
Record memctx_block_t := CtxBlock { ptr : Z; bsize : Z; ctx_id : Z }.
(** [memctx_t]. *)
Record memctx_t := MemCtx { active : bool; id : Z; owner_pid : Z; stats : memctx_stats_t }.

Definition zero_block : memctx_block_t := CtxBlock 0 0 0.
Definition zero_ctx : memctx_t := MemCtx false 0 0 (Stats 0 0 0 0).

Section MemCtx.
Context {St : Type} `{Allocator St}.

Record ctx_state := CtxState {
  mem : St;
  contexts : list memctx_t;
  blocks : list memctx_block_t;
  next_ctx_id : Z
}.

Definition memctx_init (m : St) : ctx_state :=
  CtxState m (replicate MEMCTX_MAX_CONTEXTS zero_ctx) (replicate MEMCTX_MAX_BLOCKS zero_block) 1.

Definition is_ctx (c : Z) (x : memctx_t) : bool := active x && (id x =? c).
Definition find_ctx (s : ctx_state) (c : Z) : option nat := find_index (is_ctx c) (contexts s) 0.
Definition is_block (c p : Z) (b : memctx_block_t) : bool := (ptr b =? p) && (ctx_id b =? c).
Definition find_block (s : ctx_state) (c p : Z) : option nat := find_index (is_block c p) (blocks s) 0.

Definition memctx_create (s : ctx_state) (pid q : Z) : ctx_state * Z :=
  match find_index (fun x => negb (active x)) (contexts s) 0 with
  | Some i =>
      let c := next_ctx_id s in
      (CtxState (mem s) (<[i := MemCtx true c pid (Stats q 0 0 0)]> (contexts s)) (blocks s) (s32 (c + 1)), c)
  | None => (s, -1)
  end.

Definition charge (x : memctx_t) (size : Z) : memctx_t :=
  let t := stats x in
  let u := u64 (used t + size) in
  MemCtx (active x) (id x) (owner_pid x)
    (Stats (quota t) u (if peak t <? u then u else peak t) (u32 (allocations t + 1))).

(** Returns the pointer, 0 for NULL. *)
Definition memctx_alloc (s : ctx_state) (c size : Z) : outcome (ctx_state * Z) :=
  if size =? 0 then Ret (s, 0) else
  match find_ctx s c with
  | None => Ret (s, 0)
  | Some i =>
      match contexts s !! i with
      | None => Fault
      | Some x =>
          if negb (quota (stats x) =? 0) && (quota (stats x) <? u64 (used (stats x) + size)) then Ret (s, 0) else
          match find_index (fun b => ptr b =? 0) (blocks s) 0 with
          | None => Ret (s, 0)
          | Some slot =>
              '(m, p) ← al_alloc (mem s) size;
              if p =? 0 then Ret (CtxState m (contexts s) (blocks s) (next_ctx_id s), 0)
              else Ret (CtxState m (<[i := charge x size]> (contexts s))
                          (<[slot := CtxBlock p size c]> (blocks s)) (next_ctx_id s), p)
          end
      end
  end.

Definition uncharge (x : memctx_t) (size : Z) : memctx_t :=
  let t := stats x in
  MemCtx (active x) (id x) (owner_pid x)
    (Stats (quota t) (if size <=? used t then used t - size else used t) (peak t)
       (if allocations t =? 0 then 0 else allocations t - 1)).

Definition memctx_free (s : ctx_state) (c p : Z) : outcome (ctx_state * Z) :=
  if p =? 0 then Ret (s, -1) else
  match find_ctx s c, find_block s c p with
  | Some i, Some j =>
      match contexts s !! i, blocks s !! j with
      | Some x, Some b =>
          m ← al_free (mem s) p (bsize b);
          Ret (CtxState m (<[i := uncharge x (bsize b)]> (contexts s))
                 (<[j := zero_block]> (blocks s)) (next_ctx_id s), 0)
      | _, _ => Fault
      end
  | _, _ => Ret (s, -1)
  end.

Definition memctx_stats (s : ctx_state) (c : Z) : option memctx_stats_t :=
  i ← find_ctx s c; x ← contexts s !! i; Some (stats x).

(** The loop of [memctx_destroy] over the block table. *)
Definition of_ctx (c : Z) (b : memctx_block_t) : bool := negb (ptr b =? 0) && (ctx_id b =? c).
Fixpoint destroy_blocks (c : Z) (m : St) (bl : list memctx_block_t) : outcome (St * list memctx_block_t) :=
  match bl with
  | [] => Ret (m, [])
  | b :: bl =>
      if of_ctx c b then
        m ← al_free m (ptr b) (bsize b);
        '(m, bl) ← destroy_blocks c m bl;
        Ret (m, zero_block :: bl)
      else
        '(m, bl) ← destroy_blocks c m bl;
        Ret (m, b :: bl)
  end.

Definition memctx_destroy (s : ctx_state) (c : Z) : outcome (ctx_state * Z) :=
  match find_ctx s c with
  | None => Ret (s, -1)
  | Some i =>
      '(m, bl) ← destroy_blocks c (mem s) (blocks s);
      Ret (CtxState m (<[i := zero_ctx]> (contexts s)) bl (next_ctx_id s), 0)
  end.

(** ** Invariant *)

(** Requests above this size are outside what the accounting is claimed for. *)
Definition REQUEST_LIMIT : Z := 72057594037927936.

Definition ctx_sum (c : Z) (bl : list memctx_block_t) : Z := sumz (fun b => if of_ctx c b then bsize b else 0) bl.
Definition ctx_count (c : Z) (bl : list memctx_block_t) : Z := sumz (fun b => if of_ctx c b then 1 else 0) bl.

Definition block_ok (s : ctx_state) (b : memctx_block_t) : Prop :=
  ptr b <> 0 -> (exists u, al_owns (mem s) !! ptr b = Some u /\ bsize b <= u) /\ 0 < bsize b < REQUEST_LIMIT.

(** The books of a context agree with the block table. *)
Definition ctx_ok (bl : list memctx_block_t) (x : memctx_t) : Prop :=
  let t := stats x in
  used t = ctx_sum (id x) bl /\ allocations t = ctx_count (id x) bl /\ used t <= peak t /\
  (quota t <> 0 -> used t <= quota t).

Record ctx_inv (s : ctx_state) : Prop := CtxInv {
  ci_mem : al_ok (mem s);
  ci_ctxs : length (contexts s) = MEMCTX_MAX_CONTEXTS;
  ci_blks : length (blocks s) = MEMCTX_MAX_BLOCKS;
  ci_block : forall j b, blocks s !! j = Some b -> block_ok s b;
  ci_distinct : forall i j b b', blocks s !! i = Some b -> blocks s !! j = Some b' ->
    ptr b <> 0 -> ptr b = ptr b' -> i = j;
  ci_ctx : forall i x, contexts s !! i = Some x -> active x = true ->
    ctx_ok (blocks s) x /\ 0 < id x < next_ctx_id s;
  ci_unique : forall i j x y, contexts s !! i = Some x -> contexts s !! j = Some y ->
    active x = true -> active y = true -> id x = id y -> i = j;
  ci_orphan : forall c, (c <= 0 \/ next_ctx_id s <= c) -> ctx_sum c (blocks s) = 0 /\ ctx_count c (blocks s) = 0
}.

(** ** Accounting *)

Lemma ctx_sum_insert c bl j b b' : bl !! j = Some b ->
  ctx_sum c (<[j := b']> bl) = ctx_sum c bl - (if of_ctx c b then bsize b else 0) + (if of_ctx c b' then bsize b' else 0).
Proof. apply (sumz_insert (fun b => if of_ctx c b then bsize b else 0)). Qed.
Lemma ctx_count_insert c bl j b b' : bl !! j = Some b ->
  ctx_count c (<[j := b']> bl) = ctx_count c bl - (if of_ctx c b then 1 else 0) + (if of_ctx c b' then 1 else 0).
Proof. apply (sumz_insert (fun b => if of_ctx c b then 1 else 0)). Qed.

Lemma of_ctx_spec c b : of_ctx c b = true <-> ptr b <> 0 /\ ctx_id b = c.
Proof. unfold of_ctx. rewrite andb_true_iff, negb_true_iff, Z.eqb_neq, Z.eqb_eq. done. Qed.
Lemma of_ctx_empty c b : ptr b = 0 -> of_ctx c b = false.
Proof. intros Hb. unfold of_ctx. by rewrite Hb. Qed.

Lemma ctx_sum_bounds s c : ctx_inv s ->
  0 <= ctx_sum c (blocks s) <= 9223372036854775808 /\ 0 <= ctx_count c (blocks s) <= 128.
Proof.
  intros Hi. assert (forall b, b ∈ blocks s -> of_ctx c b = true -> 0 < bsize b < REQUEST_LIMIT) as Hb.
  { intros b [j Hj]%list_elem_of_lookup [Hp _]%of_ctx_spec. by apply (ci_block s Hi j b Hj). }
  pose proof (ci_blks s Hi) as Hl. unfold MEMCTX_MAX_BLOCKS, REQUEST_LIMIT in *. unfold ctx_sum, ctx_count. split; split.
  - apply sumz_nonneg. intros b Hin. case_match eqn:E; [|done]. pose proof (Hb b Hin E). lia.
  - etrans; [apply (sumz_le _ _ 72057594037927936)|rewrite Hl; done].
    intros b Hin. case_match eqn:E; [|done]. pose proof (Hb b Hin E). lia.
  - apply sumz_nonneg. intros b Hin. by case_match.
  - etrans; [apply (sumz_le _ _ 1)|rewrite Hl; done]. intros b Hin. by case_match.
Qed.

Lemma find_ctx_Some s c i : find_ctx s c = Some i ->
  exists x, contexts s !! i = Some x /\ active x = true /\ id x = c.
Proof.
  intros Hf. apply find_index_Some in Hf as (x & _ & Hx & Hc & _). rewrite Nat.sub_0_r in Hx.
  unfold is_ctx in Hc. apply andb_true_iff in Hc as [Ha Hid%Z.eqb_eq]. by exists x.
Qed.
Lemma find_block_Some s c p j : find_block s c p = Some j ->
  exists b, blocks s !! j = Some b /\ ptr b = p /\ ctx_id b = c.
Proof.
  intros Hf. apply find_index_Some in Hf as (b & _ & Hb & Hc & _). rewrite Nat.sub_0_r in Hb.
  unfold is_block in Hc. apply andb_true_iff in Hc as [Hp%Z.eqb_eq Hid%Z.eqb_eq]. by exists b.
Qed.

Context `{!AllocatorLaws St}.

(** Changing the allocator without losing an allocation of the table. *)
Lemma ctx_inv_mem s m : ctx_inv s -> al_ok m ->
  (forall p u, al_owns (mem s) !! p = Some u -> al_owns m !! p = Some u) ->
  ctx_inv (CtxState m (contexts s) (blocks s) (next_ctx_id s)).
Proof.
  intros Hi Hm Ho. destruct Hi as [? ? ? Hb ? ? ? ?]. split; try done.
  intros j b Hj Hp. destruct (Hb j b Hj Hp) as [(u & Hu & Hs) Hsz]. split; [|done]. exists u. split; [by apply Ho|done].
Qed.

(** Replacing one block and the books of one context. *)
Lemma ctx_inv_update s m i x x' j b b' :
  ctx_inv s -> al_ok m -> contexts s !! i = Some x -> active x = true -> blocks s !! j = Some b ->
  active x' = true -> id x' = id x -> ctx_ok (<[j := b']> (blocks s)) x' ->
  (forall c, c <> id x -> of_ctx c b = false /\ of_ctx c b' = false) ->
  (forall k a, k <> j -> blocks s !! k = Some a -> ptr a <> 0 -> exists u, al_owns m !! ptr a = Some u /\ bsize a <= u) ->
  block_ok (CtxState m [] [] 0) b' ->
  (ptr b' <> 0 -> forall k a, blocks s !! k = Some a -> ptr a <> ptr b') ->
  ctx_inv (CtxState m (<[i := x']> (contexts s)) (<[j := b']> (blocks s)) (next_ctx_id s)).
Proof.
  intros Hi Hm Hx Hact Hb Hact' Hid Hbooks Hother Hown Hnew Hfresh.
  pose proof (ci_ctx s Hi i x Hx Hact) as [_ Hrange].
  assert (forall c, c <> id x -> ctx_sum c (<[j := b']> (blocks s)) = ctx_sum c (blocks s) /\
    ctx_count c (<[j := b']> (blocks s)) = ctx_count c (blocks s)) as Hsame.
  { intros c Hc. destruct (Hother c Hc) as [E E'].
    rewrite (ctx_sum_insert c _ _ _ _ Hb), (ctx_count_insert c _ _ _ _ Hb), E, E'. lia. }
  split; cbn [mem contexts blocks next_ctx_id].
  - done.
  - rewrite length_insert. apply (ci_ctxs s Hi).
  - rewrite length_insert. apply (ci_blks s Hi).
  - intros k a Hk. apply list_lookup_insert_Some in Hk as [(<- & <- & _)|(Hne & Hk)]; [exact Hnew|].
    intros Hp. split; [by eapply Hown|]. by apply (ci_block s Hi k a Hk).
  - intros k l a a' Hk Hl Hp Heq. apply list_lookup_insert_Some in Hk as [(<- & <- & _)|(Hne & Hk)];
      apply list_lookup_insert_Some in Hl as [(<- & <- & _)|(Hne' & Hl)].
    + done.
    + by apply Hfresh in Hl.
    + rewrite Heq in Hp. by apply Hfresh in Hk.
    + by eapply (ci_distinct s Hi).
  - intros k y Hk Hy. apply list_lookup_insert_Some in Hk as [(<- & <- & _)|(Hne & Hk)].
    + split; [done|]. by rewrite Hid.
    + destruct (ci_ctx s Hi k y Hk Hy) as [Hyok Hyr]. split; [|done].
      assert (id y <> id x) as Hn by (intros E; apply Hne; by eapply (ci_unique s Hi)).
      destruct (Hsame (id y) Hn) as [E1 E2]. unfold ctx_ok. by rewrite E1, E2.
  - intros k l y z Hk Hl Hy Hz E. apply list_lookup_insert_Some in Hk as [(<- & <- & _)|(Hne & Hk)];
      apply list_lookup_insert_Some in Hl as [(<- & <- & _)|(Hne' & Hl)]; try done.
    + rewrite Hid in E. by eapply (ci_unique s Hi).
    + rewrite Hid in E. by eapply (ci_unique s Hi).
    + by eapply (ci_unique s Hi).
  - intros c Hc. destruct (Hsame c) as [-> ->]; [lia|]. by apply (ci_orphan s Hi).
Qed.

(** ** Operations keep the invariant *)

Lemma memctx_init_inv m : al_ok m -> ctx_inv (memctx_init m).
Proof.
  intros Hm. assert (forall c, ctx_sum c (replicate MEMCTX_MAX_BLOCKS zero_block) = 0 /\
    ctx_count c (replicate MEMCTX_MAX_BLOCKS zero_block) = 0) as Hz by done.
  split; cbn [mem contexts blocks next_ctx_id memctx_init]; try done.
  - intros j b [-> _]%lookup_replicate. by intros [].
  - intros i j b b' [-> _]%lookup_replicate _. by intros [].
  - intros i x [-> _]%lookup_replicate. done.
  - intros i j x y [-> _]%lookup_replicate _. done.
Qed.

Lemma memctx_create_inv s pid q :
  ctx_inv s -> 0 <= q -> 0 < next_ctx_id s < 2147483647 -> ctx_inv (memctx_create s pid q).1.
Proof.
  intros Hi Hq Hn. unfold memctx_create. destruct (find_index _ (contexts s) 0) as [i|] eqn:Hf; [|done].
  rewrite s32_small by lia. destruct Hi as [Hm Hl1 Hl2 Hb Hd Hc Hu Ho].
  split; cbn [mem contexts blocks next_ctx_id fst]; try done.
  - by rewrite length_insert.
  - intros k x Hk Hx. apply list_lookup_insert_Some in Hk as [(<- & <- & _)|(Hne & Hk)].
    + destruct (Ho (next_ctx_id s)) as [E1 E2]; [lia|]. split; [|cbn; lia].
      split_and!; cbn; [by rewrite E1|by rewrite E2|done|lia].
    + destruct (Hc k x Hk Hx). split; [done|lia].
  - intros k l y z Hk Hl Hy Hz E. apply list_lookup_insert_Some in Hk as [(<- & <- & _)|(Hne & Hk)];
      apply list_lookup_insert_Some in Hl as [(<- & <- & _)|(Hne' & Hl)]; try done.
    + destruct (Hc l z Hl Hz). cbn in E. lia.
    + destruct (Hc k y Hk Hy). cbn in E. lia.
    + by eapply Hu.
  - intros c Hcc. apply Ho. lia.
Qed.

(** A block recorded in the table, its context and its allocation. *)
Lemma memctx_alloc_spec s c size :
  ctx_inv s -> 0 <= size < REQUEST_LIMIT ->
  exists s' p, memctx_alloc s c size = Ret (s', p) /\ ctx_inv s' /\ next_ctx_id s' = next_ctx_id s /\
    ((p = 0 /\ contexts s' = contexts s /\ blocks s' = blocks s /\ al_owns (mem s') = al_owns (mem s)) \/
     (exists i x j u, p <> 0 /\ size <> 0 /\ contexts s !! i = Some x /\ find_ctx s c = Some i /\
        contexts s' = <[i := charge x size]> (contexts s) /\
        blocks s' = <[j := CtxBlock p size c]> (blocks s) /\ (j < MEMCTX_MAX_BLOCKS)%nat /\
        used (stats (charge x size)) = used (stats x) + size /\
        (quota (stats x) <> 0 -> used (stats x) + size <= quota (stats x)) /\
        al_owns (mem s) !! p = None /\ al_owns (mem s') = <[p := u]> (al_owns (mem s)) /\ size <= u)).
Proof.
  intros Hi Hs. pose proof (ci_mem s Hi) as Hm. unfold memctx_alloc.
  assert (exists s' p, Ret (s, 0) = Ret (s', p) /\ ctx_inv s' /\ next_ctx_id s' = next_ctx_id s /\
    ((p = 0 /\ contexts s' = contexts s /\ blocks s' = blocks s /\ al_owns (mem s') = al_owns (mem s)) \/ False)) as Hnull
    by (exists s, 0; split_and!; try done; by left).
  assert (forall Q, exists s' p, Ret (s, 0) = Ret (s', p) /\ ctx_inv s' /\ next_ctx_id s' = next_ctx_id s /\
    ((p = 0 /\ contexts s' = contexts s /\ blocks s' = blocks s /\ al_owns (mem s') = al_owns (mem s)) \/ Q s' p)) as Hno
    by (intros Q; exists s, 0; split_and!; try done; by left).
  destruct (Z.eqb_spec size 0) as [|Hsz]; [apply Hno|].
  destruct (find_ctx s c) as [i|] eqn:Hfind; [|apply Hno].
  destruct (find_ctx_Some _ _ _ Hfind) as (x & Hx & Hact & Hid). rewrite Hx.
  destruct (ci_ctx s Hi i x Hx Hact) as [(Hu & Ha & Hpk & Hq) _]. rewrite Hid in Hu, Ha.
  destruct (ctx_sum_bounds s c Hi) as [Hsum Hcnt]. unfold REQUEST_LIMIT in Hs.
  rewrite (u64_small (used (stats x) + size)) by lia.
  destruct (negb (quota (stats x) =? 0) && (quota (stats x) <? used (stats x) + size)) eqn:Hquota; [apply Hno|].
  assert (quota (stats x) <> 0 -> used (stats x) + size <= quota (stats x)) as Hquota'.
  { intros Hne. apply Z.eqb_neq in Hne. rewrite Hne in Hquota. by apply Z.ltb_ge in Hquota. }
  destruct (find_index (fun b => ptr b =? 0) (blocks s) 0) as [j|] eqn:Hslot; [|apply Hno].
  apply find_index_Some in Hslot as (b & _ & Hb & Hb0 & _). rewrite Nat.sub_0_r in Hb. apply Z.eqb_eq in Hb0.
  assert (0 <= size < ALLOC_LIMIT) as Hlim by (unfold ALLOC_LIMIT; lia).
  destruct (al_alloc_law (mem s) size Hm Hlim) as (m & p & Hrun & Hm' & _ & _ & Hcase).
  rewrite Hrun. cbn [mbind outcome_bind].
  pose proof (fun q v => al_owns_alloc (mem s) size m p q v Hm Hlim Hrun) as Hkeep.
  destruct (Z.eqb_spec p 0) as [->|Hp].
  { eexists _, 0. split; [done|]. split; [by apply ctx_inv_mem|]. split; [done|]. left. split_and!; try done.
    destruct Hcase as [[_ Ho]|(u & Hn & Ho & _)]; [done|]. exfalso.
    assert (al_owns m !! 0 = Some u) as Hz by (by rewrite Ho, lookup_insert_eq).
    pose proof (al_range_law m 0 u Hm' Hz). lia. }
  destruct Hcase as [[? _]|(u & Hn & Ho & Hul)]; [done|].
  assert (ctx_id (CtxBlock p size c) = c) as Hcc by done.
  eexists _, p. split; [done|]. split.
  - apply (ctx_inv_update s m i x _ j b (CtxBlock p size c)); try done.
    + unfold ctx_ok. cbn [charge stats used allocations peak quota id]. rewrite Hid.
      rewrite (ctx_sum_insert c _ _ _ _ Hb), (ctx_count_insert c _ _ _ _ Hb), (of_ctx_empty c b Hb0).
      rewrite (proj2 (of_ctx_spec c (CtxBlock p size c))) by done. cbn [bsize].
      rewrite u64_small, u32_small by lia.
      split_and!; [lia|lia|case_match eqn:E; [lia|]; apply Z.ltb_ge in E; lia|done].
    + intros d Hd. rewrite Hid in Hd. split; [by apply of_ctx_empty|].
      unfold of_ctx. cbn. apply andb_false_iff. right. apply Z.eqb_neq. done.
    + intros k a _ Hk Hpa. destruct (proj1 (ci_block s Hi k a Hk Hpa)) as (v & Hv & Hle). exists v.
      split; [by apply Hkeep|done].
    + intros _. cbn. split; [|unfold REQUEST_LIMIT; lia]. exists u. by rewrite Ho, lookup_insert_eq.
    + intros _ k a Hk Heq. cbn in Heq. destruct (proj1 (ci_block s Hi k a Hk ltac:(congruence))) as (v & Hv & _).
      congruence.
  - split; [done|]. right. exists i, x, j, u. cbn [mem contexts blocks].
    assert (j < MEMCTX_MAX_BLOCKS)%nat by (rewrite <- (ci_blks s Hi); by eapply lookup_lt_Some).
    split_and!; try done. cbn [charge stats used]. rewrite u64_small by lia. done.
Qed.

Lemma ctx_sum_member s c j b :
  ctx_inv s -> blocks s !! j = Some b -> of_ctx c b = true ->
  bsize b <= ctx_sum c (blocks s) /\ 1 <= ctx_count c (blocks s).
Proof.
  intros Hi Hb Hof. pose proof (ctx_sum_insert c _ _ _ zero_block Hb) as E1.
  pose proof (ctx_count_insert c _ _ _ zero_block Hb) as E2. rewrite Hof in E1, E2. cbn in E1, E2.
  assert (0 <= ctx_sum c (<[j := zero_block]> (blocks s))).
  { apply sumz_nonneg. intros a Hin. case_match eqn:E; [|done].
    apply list_elem_of_lookup in Hin as [k Hk]. apply of_ctx_spec in E as [Hp _].
    apply list_lookup_insert_Some in Hk as [(<- & <- & _)|(Hne & Hk)]; [done|].
    pose proof (proj2 (ci_block s Hi k a Hk Hp)). lia. }
  assert (0 <= ctx_count c (<[j := zero_block]> (blocks s))).
  { apply sumz_nonneg. intros a Hin. by case_match. }
  lia.
Qed.

Lemma memctx_free_spec s c p :
  ctx_inv s ->
  exists s' r, memctx_free s c p = Ret (s', r) /\ ctx_inv s' /\ next_ctx_id s' = next_ctx_id s /\
    ((r = -1 /\ s' = s) \/
     (exists i x j b, r = 0 /\ p <> 0 /\ find_ctx s c = Some i /\ contexts s !! i = Some x /\ blocks s !! j = Some b /\
        ptr b = p /\ ctx_id b = c /\ contexts s' = <[i := uncharge x (bsize b)]> (contexts s) /\
        used (stats (uncharge x (bsize b))) = used (stats x) - bsize b /\
        blocks s' = <[j := zero_block]> (blocks s) /\ al_owns (mem s') = delete p (al_owns (mem s)))).
Proof.
  intros Hi. unfold memctx_free.
  destruct (Z.eqb_spec p 0) as [|Hp]; [exists s, (-1); split_and!; try done; by left|].
  destruct (find_ctx s c) as [i|] eqn:Hfc; [|exists s, (-1); split_and!; try done; by left].
  destruct (find_block s c p) as [j|] eqn:Hfb; [|exists s, (-1); split_and!; try done; by left].
  destruct (find_ctx_Some _ _ _ Hfc) as (x & Hx & Hact & Hid).
  destruct (find_block_Some _ _ _ _ Hfb) as (b & Hb & Hbp & Hbc). rewrite Hx, Hb.
  destruct (ci_block s Hi j b Hb ltac:(congruence)) as [(u & Hu & Hle) Hsz]. rewrite Hbp in Hu.
  destruct (al_free_law (mem s) p (bsize b) u (ci_mem s Hi) Hu) as (m & Hrun & Hm & Ho & _); [lia|].
  rewrite Hrun. cbn [mbind outcome_bind].
  destruct (ci_ctx s Hi i x Hx Hact) as [(Hus & Ha & Hpk & Hq) _]. rewrite Hid in Hus, Ha.
  assert (of_ctx c b = true) as Hof by (apply of_ctx_spec; split; congruence).
  destruct (ctx_sum_member s c j b Hi Hb Hof) as [Hm1 Hm2].
  eexists _, 0. split; [done|]. split.
  - apply (ctx_inv_update s m i x _ j b zero_block); try done.
    + unfold ctx_ok. cbn [uncharge stats used allocations peak quota id]. rewrite Hid.
      rewrite (ctx_sum_insert c _ _ _ _ Hb), (ctx_count_insert c _ _ _ _ Hb), Hof.
      rewrite (proj2 (Z.leb_le _ _)), (proj2 (Z.eqb_neq (allocations _) 0)) by lia. cbn [of_ctx zero_block ptr Z.eqb negb andb].
      split_and!; [lia|lia|lia|]. intros Hq0. specialize (Hq Hq0). lia.
    + intros d Hd. split; [|done]. unfold of_ctx. apply andb_false_iff. right. apply Z.eqb_neq. congruence.
    + intros k a Hk Ha' Hpa. destruct (proj1 (ci_block s Hi k a Ha' Hpa)) as (v & Hv & Hlv). exists v.
      split; [|done]. rewrite Ho, lookup_delete_ne; [done|]. intros E. apply Hk.
      apply (ci_distinct s Hi k j a b Ha' Hb); [done|congruence].
  - split; [done|]. right. exists i, x, j, b. cbn [mem contexts blocks]. split_and!; try done.
    cbn [uncharge stats used]. by rewrite (proj2 (Z.leb_le _ _)) by lia.
Qed.

(** ** Destroying a context *)

Lemma destroy_blocks_spec c m bl :
  al_ok m -> (forall j b, bl !! j = Some b -> ptr b <> 0 -> exists u, al_owns m !! ptr b = Some u /\ 0 <= bsize b <= u) ->
  (forall i j b b', bl !! i = Some b -> bl !! j = Some b' -> ptr b <> 0 -> ptr b = ptr b' -> i = j) ->
  exists m', destroy_blocks c m bl = Ret (m', (fun b => if of_ctx c b then zero_block else b) <$> bl) /\ al_ok m' /\
    forall q, al_owns m' !! q =
      if existsb (fun b => of_ctx c b && (ptr b =? q)) bl then None else al_owns m !! q.
Proof.
  revert m. induction bl as [|b bl IH]; intros m Hm Hown Hdist.
  { by exists m. }
  assert (forall i j b b', bl !! i = Some b -> bl !! j = Some b' -> ptr b <> 0 -> ptr b = ptr b' -> i = j) as Hdist'.
  { intros i j x y Hx Hy Hp E. pose proof (Hdist (S i) (S j) x y Hx Hy Hp E). lia. }
  cbn [destroy_blocks fmap list_fmap]. destruct (of_ctx c b) eqn:Hof.
  - pose proof Hof as [Hp Hc]%of_ctx_spec. destruct (Hown 0%nat b eq_refl Hp) as (u & Hu & Hsz).
    destruct (al_free_law m (ptr b) (bsize b) u Hm Hu Hsz) as (m1 & -> & Hm1 & Ho1 & _). cbn [mbind outcome_bind].
    destruct (IH m1 Hm1) as (m2 & -> & Hm2 & Ho2).
    { intros j a Ha Hpa. destruct (Hown (S j) a Ha Hpa) as (v & Hv & Hs). exists v. split; [|done].
      rewrite Ho1, lookup_delete_ne; [done|]. intros E. by pose proof (Hdist 0%nat (S j) b a eq_refl Ha Hp E). }
    { done. }
    cbn [mbind outcome_bind]. exists m2. split_and!; [done|done|]. intros q. rewrite Ho2, Ho1.
    cbn [existsb]. rewrite Hof. cbn [andb]. destruct (Z.eqb_spec (ptr b) q) as [<-|Hq]; cbn [orb].
    + rewrite lookup_delete_eq. by case_match.
    + by rewrite lookup_delete_ne by done.
  - destruct (IH m Hm) as (m2 & -> & Hm2 & Ho2).
    { intros j a Ha. by apply (Hown (S j) a). }
    { done. }
    cbn [mbind outcome_bind]. exists m2. split_and!; [done|done|]. intros q. rewrite Ho2.
    cbn [existsb]. by rewrite Hof.
Qed.

Definition clear (c : Z) (b : memctx_block_t) : memctx_block_t := if of_ctx c b then zero_block else b.

Lemma of_ctx_clear c d b : of_ctx d (clear c b) = if d =? c then false else of_ctx d b.
Proof.
  unfold clear. destruct (of_ctx c b) eqn:E; destruct (Z.eqb_spec d c) as [->|Hne]; try done.
  apply of_ctx_spec in E as [_ E]. symmetry. unfold of_ctx. apply andb_false_iff. right. apply Z.eqb_neq. congruence.
Qed.

Lemma ctx_sum_clear c d bl :
  ctx_sum d (clear c <$> bl) = (if d =? c then 0 else ctx_sum d bl) /\
  ctx_count d (clear c <$> bl) = (if d =? c then 0 else ctx_count d bl).
Proof.
  unfold ctx_sum, ctx_count. rewrite !sumz_fmap. induction bl as [|b bl [IH1 IH2]]; [by case_match|].
  cbn [sumz foldr]. fold (sumz (fun x => if of_ctx d (clear c x) then bsize (clear c x) else 0) bl).
  fold (sumz (fun x => if of_ctx d (clear c x) then 1 else 0) bl).
  fold (sumz (fun x => if of_ctx d x then bsize x else 0) bl). fold (sumz (fun x => if of_ctx d x then 1 else 0) bl).
  rewrite IH1, IH2, of_ctx_clear. destruct (d =? c) eqn:Edc; [done|]. split; [|done]. f_equal.
  destruct (of_ctx d b) eqn:E; [|done]. unfold clear. destruct (of_ctx c b) eqn:E'; [|done].
  apply of_ctx_spec in E as [_ E], E' as [_ E']. apply Z.eqb_neq in Edc. congruence.
Qed.

Lemma memctx_destroy_spec s c :
  ctx_inv s ->
  (find_ctx s c = None /\ memctx_destroy s c = Ret (s, -1)) \/
  (exists i m, find_ctx s c = Some i /\
     memctx_destroy s c = Ret (CtxState m (<[i := zero_ctx]> (contexts s)) (clear c <$> blocks s) (next_ctx_id s), 0) /\
     ctx_inv (CtxState m (<[i := zero_ctx]> (contexts s)) (clear c <$> blocks s) (next_ctx_id s)) /\
     forall q, al_owns m !! q =
       if existsb (fun b => of_ctx c b && (ptr b =? q)) (blocks s) then None else al_owns (mem s) !! q).
Proof.
  intros Hi. unfold memctx_destroy. destruct (find_ctx s c) as [i|] eqn:Hfc; [right|by left].
  destruct (find_ctx_Some _ _ _ Hfc) as (x & Hx & Hact & Hid).
  destruct (destroy_blocks_spec c (mem s) (blocks s) (ci_mem s Hi)) as (m & -> & Hm & Ho).
  { intros j b Hj Hp. destruct (ci_block s Hi j b Hj Hp) as [(u & Hu & Hs) Hr]. exists u. split; [done|lia]. }
  { apply (ci_distinct s Hi). }
  cbn [mbind outcome_bind]. exists i, m. split_and!; [done|done| |done].
  assert (forall j b, (clear c <$> blocks s) !! j = Some b -> ptr b <> 0 ->
    blocks s !! j = Some b /\ of_ctx c b = false) as Hold.
  { intros j b Hj Hp. rewrite list_lookup_fmap in Hj. destruct (blocks s !! j) as [a|]; [|done].
    injection Hj as <-. unfold clear in *. destruct (of_ctx c a) eqn:E; done. }
  split; cbn [mem contexts blocks next_ctx_id].
  - done.
  - rewrite length_insert. apply (ci_ctxs s Hi).
  - rewrite length_fmap. apply (ci_blks s Hi).
  - intros j b Hj Hp. destruct (Hold j b Hj Hp) as [Hb Hof].
    destruct (ci_block s Hi j b Hb Hp) as [(u & Hu & Hs) Hr]. split; [|done]. exists u. split; [|done].
    cbn [mem]. rewrite Ho. case_match eqn:E; [|done]. exfalso.
    apply existsb_exists in E as (a & Ha & [Hofa Hpa%Z.eqb_eq]%andb_true_iff).
    apply list_elem_of_In, list_elem_of_lookup in Ha as [k Hk].
    assert (k = j) as -> by (apply (ci_distinct s Hi k j a b); congruence). congruence.
  - intros k l b b' Hk Hl Hp E. destruct (Hold k b Hk Hp) as [Hb _], (Hold l b' Hl ltac:(congruence)) as [Hb' _].
    by eapply (ci_distinct s Hi).
  - intros k y Hk Hy. apply list_lookup_insert_Some in Hk as [(<- & <- & _)|(Hne & Hk)]; [done|].
    destruct (ci_ctx s Hi k y Hk Hy) as [Hok Hr]. split; [|done].
    assert (id y <> c) as Hn by (intros E; apply Hne; by eapply (ci_unique s Hi i k x y); congruence).
    unfold ctx_ok. destruct (ctx_sum_clear c (id y) (blocks s)) as [-> ->]. by rewrite (proj2 (Z.eqb_neq _ _) Hn).
  - intros k l y z Hk Hl Hy Hz E. apply list_lookup_insert_Some in Hk as [(<- & <- & _)|(Hne & Hk)];
      apply list_lookup_insert_Some in Hl as [(<- & <- & _)|(Hne' & Hl)]; try done. by eapply (ci_unique s Hi).
  - intros d Hd. destruct (ctx_sum_clear c d (blocks s)) as [-> ->]. case_match; [done|]. by apply (ci_orphan s Hi).
Qed.

(** ** Theorems *)

(** The calls of the module, in any order. *)
Inductive ctx_step (s : ctx_state) : ctx_state -> Prop :=
| step_create pid q : 0 <= q -> 0 < next_ctx_id s < 2147483647 -> ctx_step s (memctx_create s pid q).1
| step_alloc c size s' p : 0 <= size < REQUEST_LIMIT -> memctx_alloc s c size = Ret (s', p) -> ctx_step s s'
| step_free c p s' r : memctx_free s c p = Ret (s', r) -> ctx_step s s'
| step_destroy c s' r : memctx_destroy s c = Ret (s', r) -> ctx_step s s'.

Lemma ctx_step_inv s s' : ctx_inv s -> ctx_step s s' -> ctx_inv s'.
Proof.
  intros Hi Hstep. destruct Hstep as [pid q Hq Hn|c size s' p Hs Hrun|c p s' r Hrun|c s' r Hrun].
  - by apply memctx_create_inv.
  - destruct (memctx_alloc_spec s c size Hi Hs) as (s1 & p1 & H1 & Hi' & _). by rewrite Hrun in H1; injection H1 as <- <-.
  - destruct (memctx_free_spec s c p Hi) as (s1 & r1 & H1 & Hi' & _). by rewrite Hrun in H1; injection H1 as <- <-.
  - destruct (memctx_destroy_spec s c Hi) as [[_ H1]|(i & m & _ & H1 & Hi' & _)]; rewrite Hrun in H1; by injection H1 as -> ->.
Qed.

(** C13: In every state the module can reach, the books are right: a live
    context's [used] is the sum of the sizes of its blocks, [allocations] their
    number, [used] is at most the peak and at most the quota when there is one,
    and every block of the table is a distinct outstanding allocation large
    enough for it. *)
Theorem memctx_books_balance m s :
  al_ok m -> rtc ctx_step (memctx_init m) s ->
  (forall i x, contexts s !! i = Some x -> active x = true -> ctx_ok (blocks s) x) /\
  (forall j b, blocks s !! j = Some b -> ptr b <> 0 ->
     exists u, al_owns (mem s) !! ptr b = Some u /\ bsize b <= u) /\
  (forall i j b b', blocks s !! i = Some b -> blocks s !! j = Some b' -> ptr b <> 0 -> ptr b = ptr b' -> i = j).
Proof.
  intros Hm Hrun. assert (ctx_inv s) as Hi.
  { pose proof (memctx_init_inv m Hm) as Hinit. induction Hrun as [|s1 s2 s3 Hs _ IH]; [done|].
    apply IH. by eapply ctx_step_inv. }
  split_and!.
  - intros i x Hx Ha. by apply (ci_ctx s Hi i x).
  - intros j b Hj Hp. by apply (ci_block s Hi j b).
  - apply (ci_distinct s Hi).
Qed.

(** Destroying a context gives back every allocation recorded for it and
    nothing else; the context is gone, and the other contexts keep their
    statistics. *)
Theorem memctx_destroy_releases s c i :
  ctx_inv s -> find_ctx s c = Some i ->
  exists s', memctx_destroy s c = Ret (s', 0) /\ ctx_inv s' /\ find_ctx s' c = None /\
    (forall q, al_owns (mem s') !! q =
       if existsb (fun b => of_ctx c b && (ptr b =? q)) (blocks s) then None else al_owns (mem s) !! q) /\
    (forall d, d <> c -> memctx_stats s' d = memctx_stats s d).
Proof.
  intros Hi Hf. destruct (memctx_destroy_spec s c Hi) as [[Hn _]|(j & m & Hj & Hrun & Hi' & Ho)]; [congruence|].
  rewrite Hf in Hj. injection Hj as <-. eexists. split_and!; [done|done| |done|].
  - match goal with |- find_ctx ?t c = None => destruct (find_ctx t c) as [k|] eqn:Hk end; [|done]. exfalso.
    destruct (find_ctx_Some _ _ _ Hk) as (y & Hy & Hya & Hyid). cbn in Hy.
    destruct (find_ctx_Some _ _ _ Hf) as (x & Hx & Hxa & Hxid).
    apply list_lookup_insert_Some in Hy as [(<- & <- & _)|(Hne & Hy)]; [done|].
    apply Hne. apply (ci_unique s Hi i k x y); congruence.
  - intros d Hd. unfold memctx_stats, find_ctx. cbn [contexts].
    destruct (find_ctx_Some _ _ _ Hf) as (x & Hx & Hxa & Hxid).
    rewrite (find_index_insert_same _ _ i x) by (try done; unfold is_ctx; rewrite Hxa; cbn; symmetry; apply Z.eqb_neq; congruence).
    destruct (find_index (is_ctx d) (contexts s) 0) as [k|] eqn:Hk; [|done]. cbn.
    destruct (find_ctx_Some s d k Hk) as (y & Hy & _ & Hyid). rewrite list_lookup_insert_ne; [done|].
    intros <-. congruence.
Qed.

(** [memctx_alloc] returns on every request, and refuses (returning NULL
    and changing no book) exactly by its own limits or when the allocator is
    exhausted; a block it hands out can be released with [memctx_free], which
    restores the allocations outstanding and the bytes the context uses. *)
Theorem memctx_alloc_then_free s c size :
  ctx_inv s -> 0 <= size < REQUEST_LIMIT ->
  exists s1 p, memctx_alloc s c size = Ret (s1, p) /\ ctx_inv s1 /\
    (p = 0 -> contexts s1 = contexts s /\ blocks s1 = blocks s /\ al_owns (mem s1) = al_owns (mem s)) /\
    (p <> 0 -> al_owns (mem s) !! p = None /\ is_Some (al_owns (mem s1) !! p) /\
      exists s2, memctx_free s1 c p = Ret (s2, 0) /\ ctx_inv s2 /\ al_owns (mem s2) = al_owns (mem s) /\
        used <$> memctx_stats s2 c = used <$> memctx_stats s c).
Proof.
  intros Hi Hs. destruct (memctx_alloc_spec s c size Hi Hs) as (s1 & p & Hrun & Hi1 & _ & Hcase).
  exists s1, p. split_and!; [done|done| |].
  { intros ->. destruct Hcase as [(_ & ? & ? & ?)|(? & ? & ? & ? & ? & _)]; done. }
  intros Hp. destruct Hcase as [(? & _)|(i & x & j & u & _ & Hsz & Hx & Hfc & Hc & Hb & Hj & Hus & _ & Hn & Ho & Hu)]; [done|].
  split_and!; [done|by rewrite Ho, lookup_insert_eq|].
  assert (find_ctx s1 c = Some i) as Hfc1.
  { unfold find_ctx in *. rewrite Hc. by rewrite (find_index_insert_same _ _ i x). }
  assert (contexts s1 !! i = Some (charge x size)) as Hx1
    by (rewrite Hc; apply list_lookup_insert_eq; by eapply lookup_lt_Some).
  assert (blocks s1 !! j = Some (CtxBlock p size c)) as Hj1
    by (rewrite Hb; apply list_lookup_insert_eq; by rewrite (ci_blks s Hi)).
  destruct (memctx_free_spec s1 c p Hi1) as (s2 & r & Hrun2 & Hi2 & _ & Hcase2).
  assert (find_block s1 c p <> None) as Hfb.
  { intros Hnone. pose proof (find_index_None _ _ _ Hnone j _ Hj1) as Hno.
    unfold is_block in Hno. cbn in Hno. by rewrite !Z.eqb_refl in Hno. }
  destruct Hcase2 as [(-> & _)|(i' & y & j' & b & -> & _ & Hfc' & Hy & Hb' & Hbp & Hbc & Hc2 & Hus2 & Hbl & Ho2)].
  { exfalso. unfold memctx_free in Hrun2. rewrite (proj2 (Z.eqb_neq _ _) Hp), Hfc1 in Hrun2.
    destruct (find_block s1 c p) as [k|] eqn:Hk; [|done]. destruct (find_block_Some _ _ _ _ Hk) as (a & Ha & _).
    rewrite Hx1, Ha in Hrun2. inv_bind Hrun2. congruence. }
  exists s2. split_and!; [done|done| |].
  - rewrite Ho2, Ho. by apply delete_insert_id.
  - rewrite Hfc1 in Hfc'. injection Hfc' as <-. rewrite Hx1 in Hy. injection Hy as <-.
    assert (j' = j) as -> by (apply (ci_distinct s1 Hi1 j' j b (CtxBlock p size c)); try done; congruence).
    rewrite Hj1 in Hb'. injection Hb' as <-. cbn [bsize] in *.
    unfold memctx_stats. rewrite Hfc. unfold find_ctx in *. rewrite Hc2.
    rewrite (find_index_insert_same _ _ i (charge x size)) by done. rewrite Hfc1. cbn [mbind option_bind].
    rewrite Hx, list_lookup_insert_eq by (by eapply lookup_lt_Some). cbn [mbind option_bind fmap option_fmap option_map].
    f_equal. lia.
Qed.
End MemCtx.
Arguments ctx_state St : clear implicits.

(** ** Concrete inputs *)

#[local] Existing Instance demo_layout.

Definition demo_ctx0 : ctx_state kmem := memctx_init demo0.
Definition demo_ctx : ctx_state kmem := (memctx_create demo_ctx0 7 1000).1.

Lemma demo0_al_ok : al_ok demo0.
Proof. exact demo0_ok. Qed.
Lemma demo_ctx_inv : ctx_inv demo_ctx.
Proof.
  apply memctx_create_inv; [apply memctx_init_inv; exact demo0_al_ok|lia|].
  change (next_ctx_id demo_ctx0) with 1. lia.
Qed.

Lemma memctx_books_balance_witness : rtc ctx_step demo_ctx0 demo_ctx /\
  ctx_ok (blocks demo_ctx) (MemCtx true 1 7 (Stats 1000 0 0 0)).
Proof.
  assert (rtc ctx_step demo_ctx0 demo_ctx) as Hrun; [|split; [exact Hrun|];
    apply (proj1 (memctx_books_balance demo0 demo_ctx demo0_al_ok Hrun) 0%nat); reflexivity].
  apply rtc_once, (step_create _ 7 1000); [lia|]. change (next_ctx_id demo_ctx0) with 1. lia.
Defined.
Lemma memctx_destroy_releases_witness : exists s', memctx_destroy demo_ctx 1 = Ret (s', 0).
Proof.
  destruct (memctx_destroy_releases demo_ctx 1 0 demo_ctx_inv) as (s' & Hrun & _); [by vm_compute|].
  exists s'. exact Hrun.
Defined.
Lemma memctx_alloc_then_free_witness : exists s' p, memctx_alloc demo_ctx 1 200 = Ret (s', p).
Proof.
  destruct (memctx_alloc_then_free demo_ctx 1 200 demo_ctx_inv) as (s' & p & Hrun & _).
  - unfold REQUEST_LIMIT. lia.
  - exists s', p. exact Hrun.
Defined.

(** A request above the quota of 1000 bytes is refused, one below is served. *)
Example quota_refuses : exists s', memctx_alloc demo_ctx 1 1001 = Ret (s', 0).
Proof. eexists. by vm_compute. Qed.
