(* ===== verification/Vfs.v ===== *)
(** * kernel/vfs.c: the in-memory file system

    A table of 64 nodes linked by parent indices and a table of 32 open files.
    File contents live in memory obtained from the allocator.  A path is the
    list of its bytes, a pointer into it the remaining suffix. *)

From Stdlib Require Import ZArith Lia.
From stdpp Require Import base numbers gmap strings fin_maps option list.
From S2P Require Import Prelude MemUtils Allocator.

Local Open Scope Z_scope.

Definition VFS_MAX_NODES : nat := 64.
Definition VFS_MAX_OPEN : nat := 32.
Definition VFS_MAX_NAME : nat := 31.
Definition VFS_MAX_PATH : Z := 128.
Definition VFS_O_RDONLY : Z := 0x01.
Definition VFS_O_WRONLY : Z := 0x02.
Definition VFS_O_RDWR : Z := 0x03.
Definition VFS_O_CREAT : Z := 0x10.
Definition VFS_O_TRUNC : Z := 0x20.
Definition VFS_O_APPEND : Z := 0x40.
Definition VFS_SEEK_SET : Z := 0.
Definition VFS_SEEK_CUR : Z := 1.
Definition VFS_SEEK_END : Z := 2.
Definition VFS_TYPE_FILE : Z := 1.
Definition VFS_TYPE_DIR : Z := 2.

(** [vfs_node_t]; [data] is an address, 0 for NULL. *)
Record vfs_node_t := Node {
  used : bool; inode : Z; type : Z; parent : Z; name : list Z;
  data : Z; size : Z; capacity : Z
}.
(** [vfs_open_t]. *)
Record vfs_open_t := Open { fused : bool; fnode : Z; offset : Z; flags : Z }.
(** [vfs_stat_t] and [vfs_dirent_t]. *)
Record vfs_stat_t := Stat { st_type : Z; st_size : Z; st_inode : Z; st_children : Z }.
Record vfs_dirent_t := Dirent { d_type : Z; d_inode : Z; d_size : Z; d_name : list Z }.

Definition zero_node : vfs_node_t := Node false 0 0 0 [] 0 0 0.
Definition zero_open : vfs_open_t := Open false 0 0 0.

(** Character [i] of a string: 0 at its end. *)
Definition chr (s : list Z) (i : nat) : Z := default 0 (s !! i).

(** [copy_name]: at most [len] characters and at most [VFS_MAX_NAME]. *)
Definition copy_name (src : list Z) (len : nat) : list Z := take (Nat.min len VFS_MAX_NAME) src.

(** The loop of [name_eq] from index [i], with [k] steps to go before [len]. *)
Fixpoint name_eq_loop (k : nat) (nm seg : list Z) (i : nat) : bool :=
  match k with
  | O => chr nm i =? 0
  | S k => if negb (chr nm i =? 0) && (chr nm i =? chr seg i) then name_eq_loop k nm seg (S i) else false
  end.
Definition name_eq (nm seg : list Z) (len : nat) : bool := name_eq_loop len nm seg 0.

Fixpoint skip_slashes (p : list Z) : list Z :=
  match p with
  | c :: p' => if c =? 47 then skip_slashes p' else p
  | [] => []
  end.
(** The segment at [p]: how long it is and where it ends. *)
Fixpoint seg_end (p : list Z) : list Z * nat :=
  match p with
  | c :: p' => if c =? 47 then (p, O) else let '(q, n) := seg_end p' in (q, S n)
  | [] => ([], O)
  end.
(** Returns the position after the segment, the segment and its length. *)
Definition next_segment (p : list Z) : list Z * list Z * nat :=
  let seg := skip_slashes p in
  let '(q, len) := seg_end seg in (q, seg, len).

Definition is_dot (seg : list Z) (len : nat) : bool := (len =? 1)%nat && (chr seg 0 =? 46).
Definition is_dotdot (seg : list Z) (len : nat) : bool :=
  (len =? 2)%nat && (chr seg 0 =? 46) && (chr seg 1 =? 46).

Section Vfs.
Context {St : Type} `{Allocator St}.

Record vfs := Vfs {
  mem : St;
  nodes : list vfs_node_t;
  open_files : list vfs_open_t;
  next_inode : Z;
  cwd_node : Z;
  ready : bool
}.

Definition set_mem (s : vfs) (m : St) : vfs := Vfs m (nodes s) (open_files s) (next_inode s) (cwd_node s) (ready s).
Definition set_node (s : vfs) (i : Z) (n : vfs_node_t) : vfs :=
  Vfs (mem s) (<[Z.to_nat i := n]> (nodes s)) (open_files s) (next_inode s) (cwd_node s) (ready s).
Definition set_open (s : vfs) (fd : Z) (f : vfs_open_t) : vfs :=
  Vfs (mem s) (nodes s) (<[Z.to_nat fd := f]> (open_files s)) (next_inode s) (cwd_node s) (ready s).
Definition set_cwd (s : vfs) (c : Z) : vfs := Vfs (mem s) (nodes s) (open_files s) (next_inode s) c (ready s).

(** [nodes[i]], a fault outside the table. *)
Definition node_at (s : vfs) (i : Z) : outcome vfs_node_t :=
  if i <? 0 then Fault else match nodes s !! Z.to_nat i with Some n => Ret n | None => Fault end.

(** The node in use with index [i], as the checks of the code test it. *)
Definition used_node (s : vfs) (i : Z) : option vfs_node_t :=
  if i <? 0 then None else n ← nodes s !! Z.to_nat i; if used n then Some n else None.

Definition alloc_node (s : vfs) (ty par : Z) (nm : list Z) (len : nat) : vfs * Z :=
  match find_index (fun n => negb (used n)) (nodes s) 0 with
  | Some i =>
      (Vfs (mem s) (<[i := Node true (next_inode s) ty par (copy_name nm len) 0 0 0]> (nodes s))
         (open_files s) (u32 (next_inode s + 1)) (cwd_node s) (ready s), Z.of_nat i)
  | None => (s, -1)
  end.

Definition is_dir (n : vfs_node_t) : bool := type n =? VFS_TYPE_DIR.

Definition find_child (s : vfs) (par : Z) (seg : list Z) (len : nat) : Z :=
  match used_node s par with
  | Some d =>
      if is_dir d then
        match find_index (fun n => used n && (parent n =? par) && name_eq (name n) seg len) (nodes s) 0 with
        | Some i => Z.of_nat i
        | None => -1
        end
      else -1
  | None => -1
  end.

(** Nodes with their indices. *)
Definition indexed (s : vfs) : list (Z * vfs_node_t) := imap (fun i n => (Z.of_nat i, n)) (nodes s).
Definition is_child (par : Z) (e : Z * vfs_node_t) : bool :=
  negb (e.1 =? par) && used e.2 && (parent e.2 =? par).
Definition child_count (s : vfs) (par : Z) : Z :=
  sumz (fun e => if is_child par e then 1 else 0) (indexed s).

(** [..] from [node]. *)
Definition up (s : vfs) (node : Z) : outcome Z :=
  if node =? 0 then Ret 0 else n ← node_at s node; Ret (parent n).

Fixpoint resolve_loop (fuel : nat) (s : vfs) (node : Z) (p : list Z) : outcome Z :=
  match fuel with
  | O => Timeout
  | S fuel =>
      let '(p, seg, len) := next_segment p in
      match p with
      | [] =>
          if (len =? 0)%nat then Ret node
          else if is_dot seg len then Ret node
          else if is_dotdot seg len then up s node
          else Ret (find_child s node seg len)
      | _ :: _ =>
          if (len =? 0)%nat then resolve_loop fuel s node p
          else if is_dot seg len then resolve_loop fuel s node p
          else if is_dotdot seg len then node ← up s node; resolve_loop fuel s node p
          else
            let node := find_child s node seg len in
            if node <? 0 then Ret (-1) else resolve_loop fuel s node p
      end
  end.

Definition start_node (s : vfs) (path : list Z) : Z := if chr path 0 =? 47 then 0 else cwd_node s.

Definition resolve_path (s : vfs) (path : option (list Z)) : outcome Z :=
  match path with
  | None => Ret (-1)
  | Some path =>
      if negb (ready s) || (chr path 0 =? 0) then Ret (-1)
      else resolve_loop (S (length path)) s (start_node s path) path
  end.

(** Entering the component [last], if there is one; [None] for the error. *)
Definition enter (s : vfs) (node : Z) (last : option (list Z * nat)) : outcome (option Z) :=
  match last with
  | None => Ret (Some node)
  | Some (seg, len) =>
      if is_dotdot seg len then node ← up s node; Ret (Some node)
      else
        let node := find_child s node seg len in
        if node <? 0 then Ret None
        else n ← node_at s node; if is_dir n then Ret (Some node) else Ret None
  end.

Fixpoint parent_loop (fuel : nat) (s : vfs) (node : Z) (last : option (list Z * nat)) (p : list Z)
    : outcome (option (Z * list Z * nat)) :=
  match fuel with
  | O => Timeout
  | S fuel =>
      let '(p, seg, len) := next_segment p in
      let finish node last :=
        match last with
        | None => Ret None
        | Some (seg, len) =>
            if (len =? 0)%nat || is_dot seg len || is_dotdot seg len then Ret None
            else Ret (Some (node, seg, len))
        end in
      match p with
      | [] =>
          if (len =? 0)%nat then finish node last
          else
            node ← enter s node last;
            match node with None => Ret None | Some node => finish node (Some (seg, len)) end
      | _ :: _ =>
          if (len =? 0)%nat || is_dot seg len then parent_loop fuel s node last p
          else
            node ← enter s node last;
            match node with None => Ret None | Some node => parent_loop fuel s node (Some (seg, len)) p end
      end
  end.

(** Returns parent, leaf and its length, [None] for the error. *)
Definition resolve_parent (s : vfs) (path : option (list Z)) : outcome (option (Z * list Z * nat)) :=
  match path with
  | None => Ret None
  | Some path =>
      if chr path 0 =? 0 then Ret None
      else parent_loop (S (length path)) s (start_node s path) None path
  end.

(** [while (cap < need) cap *= 2]. *)
Fixpoint double_cap (fuel : nat) (cap need : Z) : outcome Z :=
  if need <=? cap then Ret cap
  else match fuel with O => Timeout | S fuel => double_cap fuel (u64 (cap * 2)) need end.

(** [ensure_capacity] on node [i]: the new state and whether it succeeded. *)
Definition ensure_capacity (s : vfs) (i need : Z) : outcome (vfs * bool) :=
  n ← node_at s i;
  if need <=? capacity n then Ret (s, true) else
  cap ← double_cap 64 (if capacity n =? 0 then 64 else capacity n) need;
  '(m, p) ← al_alloc (mem s) cap;
  let s := set_mem s m in
  if p =? 0 then Ret (s, false) else
  let s := if negb (data n =? 0) && negb (size n =? 0)
           then set_mem s (al_set_ram (mem s) (memcpy (al_ram (mem s)) p (data n) (size n))) else s in
  m ← (if data n =? 0 then Ret (mem s) else al_free (mem s) (data n) (capacity n));
  let s := set_mem s m in
  Ret (set_node s i (Node (used n) (inode n) (type n) (parent n) (name n) p (size n) cap), true).

Definition fill_stat (s : vfs) (i : Z) : option vfs_stat_t :=
  n ← used_node s i;
  Some (Stat (type n) (size n) (inode n) (if is_dir n then u32 (child_count s i) else 0)).

Definition vfs_init (m : St) : vfs * Z :=
  let s := Vfs m (replicate VFS_MAX_NODES zero_node) (replicate VFS_MAX_OPEN zero_open) 1 0 true in
  let '(s, root) := alloc_node s VFS_TYPE_DIR 0 [] 0 in
  (s, if root =? 0 then 0 else -1).

Definition vfs_is_ready (s : vfs) : bool := ready s.

Definition vfs_mkdir (s : vfs) (path : option (list Z)) : outcome (vfs * Z) :=
  r ← resolve_parent s path;
  match r with
  | None => Ret (s, -1)
  | Some (par, leaf, len) =>
      if 0 <=? find_child s par leaf len then Ret (s, -1)
      else let '(s, i) := alloc_node s VFS_TYPE_DIR par leaf len in Ret (s, if 0 <=? i then 0 else -1)
  end.

(** Clearing node [i], its memory returned first. *)
Definition drop_node (s : vfs) (i : Z) (n : vfs_node_t) : outcome vfs :=
  m ← (if data n =? 0 then Ret (mem s) else al_free (mem s) (data n) (capacity n));
  Ret (set_node (set_mem s m) i zero_node).

Definition vfs_unlink (s : vfs) (path : option (list Z)) : outcome (vfs * Z) :=
  i ← resolve_path s path;
  if i <=? 0 then Ret (s, -1) else
  n ← node_at s i;
  if is_dir n || negb (child_count s i =? 0) then Ret (s, -1)
  else s ← drop_node s i n; Ret (s, 0).

Definition vfs_rename (s : vfs) (old_path new_path : option (list Z)) : outcome (vfs * Z) :=
  i ← resolve_path s old_path;
  if i <=? 0 then Ret (s, -1) else
  r ← resolve_parent s new_path;
  match r with
  | None => Ret (s, -1)
  | Some (par, leaf, len) =>
      if 0 <=? find_child s par leaf len then Ret (s, -1)
      else
        n ← node_at s i;
        Ret (set_node s i (Node (used n) (inode n) (type n) par (copy_name leaf len) (data n) (size n) (capacity n)), 0)
  end.

Definition vfs_chdir (s : vfs) (path : option (list Z)) : outcome (vfs * Z) :=
  i ← resolve_path s path;
  if i <? 0 then Ret (s, -1) else
  n ← node_at s i;
  if is_dir n then Ret (set_cwd s i, 0) else Ret (s, -1).

(** The loop of [build_path]: [tmp] is the path built so far. *)
Fixpoint build_loop (fuel : nat) (s : vfs) (cur : Z) (tmp : list Z) : outcome (option (list Z)) :=
  if cur =? 0 then Ret (Some tmp) else
  match fuel with
  | O => Timeout
  | S fuel =>
      n ← node_at s cur;
      if VFS_MAX_PATH <=? Z.of_nat (length (name n)) + Z.of_nat (length tmp) + 2 then Ret None
      else build_loop fuel s (parent n) (47 :: name n ++ tmp)
  end.

(** The string stored in the buffer of [len] bytes, [None] for the error. *)
Definition build_path (s : vfs) (node len : Z) : outcome (option (list Z)) :=
  if len =? 0 then Ret None else
  if node =? 0 then Ret (if len <? 2 then None else Some [47]) else
  tmp ← build_loop 128 s node [];
  match tmp with
  | None => Ret None
  | Some tmp => Ret (if len <? Z.of_nat (length tmp) + 1 then None else Some tmp)
  end.
Definition vfs_getcwd (s : vfs) (len : Z) : outcome (option (list Z)) := build_path s (cwd_node s) len.

Definition has (fl bit : Z) : bool := negb (Z.land fl bit =? 0).

Definition vfs_open (s : vfs) (path : option (list Z)) (fl : Z) : outcome (vfs * Z) :=
  i ← resolve_path s path;
  r ← (if (i <? 0) && has fl VFS_O_CREAT then
         r ← resolve_parent s path;
         Ret (match r with
              | None => (s, -1)
              | Some (par, leaf, len) => alloc_node s VFS_TYPE_FILE par leaf len
              end)
       else Ret (s, i));
  let '(s, i) := r : vfs * Z in
  if i <? 0 then Ret (s, -1) else
  n ← node_at s i;
  if is_dir n && has fl (Z.lor (Z.lor VFS_O_WRONLY VFS_O_CREAT) (Z.lor VFS_O_TRUNC VFS_O_APPEND)) then Ret (s, -1) else
  s ← (if has fl VFS_O_TRUNC && (type n =? VFS_TYPE_FILE) then
         '(s, ok) ← ensure_capacity s i 0;
         n ← node_at s i;
         Ret (if ok : bool then set_node s i (Node (used n) (inode n) (type n) (parent n) (name n) (data n) 0 (capacity n))
              else s)
       else Ret s);
  match find_index (fun f => negb (fused f)) (open_files s) 0 with
  | None => Ret (s, -1)
  | Some fd =>
      n ← node_at s i;
      Ret (set_open s (Z.of_nat fd) (Open true i (if has fl VFS_O_APPEND then size n else 0) fl), Z.of_nat fd)
  end.

(** The open file behind a descriptor, as every operation checks it. *)
Definition open_at (s : vfs) (fd : Z) : option vfs_open_t :=
  if (fd <? 0) || (Z.of_nat VFS_MAX_OPEN <=? fd) then None
  else f ← open_files s !! Z.to_nat fd; if fused f then Some f else None.

Definition vfs_read (s : vfs) (fd buf len : Z) : outcome (vfs * Z) :=
  match open_at s fd with
  | None => Ret (s, -1)
  | Some f =>
      if buf =? 0 then Ret (s, -1) else
      n ← node_at s (fnode f);
      if negb (type n =? VFS_TYPE_FILE) then Ret (s, -1) else
      if size n <=? offset f then Ret (s, 0) else
      let len := if size n <? u64 (offset f + len) then size n - offset f else len in
      let s := set_mem s (al_set_ram (mem s) (memcpy (al_ram (mem s)) buf (data n + offset f) len)) in
      Ret (set_open s fd (Open true (fnode f) (u64 (offset f + len)) (flags f)), s64 len)
  end.

Definition vfs_write (s : vfs) (fd buf len : Z) : outcome (vfs * Z) :=
  match open_at s fd with
  | None => Ret (s, -1)
  | Some f =>
      if buf =? 0 then Ret (s, -1) else
      n ← node_at s (fnode f);
      if negb (type n =? VFS_TYPE_FILE) then Ret (s, -1) else
      let off := if has (flags f) VFS_O_APPEND then size n else offset f in
      let s := set_open s fd (Open true (fnode f) off (flags f)) in
      let stop := u64 (off + len) in
      '(s, ok) ← ensure_capacity s (fnode f) stop;
      if negb ok then Ret (s, -1) else
      n ← node_at s (fnode f);
      let s := set_mem s (al_set_ram (mem s) (memcpy (al_ram (mem s)) (data n + off) buf len)) in
      let s := set_open s fd (Open true (fnode f) stop (flags f)) in
      let s := if size n <? stop
               then set_node s (fnode f) (Node (used n) (inode n) (type n) (parent n) (name n) (data n) stop (capacity n))
               else s in
      Ret (s, s64 len)
  end.

Definition vfs_lseek (s : vfs) (fd off whence : Z) : outcome (vfs * Z) :=
  match open_at s fd with
  | None => Ret (s, -1)
  | Some f =>
      n ← node_at s (fnode f);
      let base := if whence =? VFS_SEEK_SET then Some 0
                  else if whence =? VFS_SEEK_CUR then Some (s64 (offset f))
                  else if whence =? VFS_SEEK_END then Some (s64 (size n)) else None in
      match base with
      | None => Ret (s, -1)
      | Some base =>
          let next := s64 (base + off) in
          if next <? 0 then Ret (s, -1)
          else Ret (set_open s fd (Open true (fnode f) (u64 next) (flags f)), next)
      end
  end.

Definition vfs_close (s : vfs) (fd : Z) : vfs * Z :=
  match open_at s fd with
  | None => (s, -1)
  | Some _ => (set_open s fd zero_open, 0)
  end.

Definition vfs_stat (s : vfs) (path : option (list Z)) : outcome (option vfs_stat_t) :=
  i ← resolve_path s path; Ret (fill_stat s i).
Definition vfs_fstat (s : vfs) (fd : Z) : option vfs_stat_t :=
  f ← open_at s fd; fill_stat s (fnode f).

(** The loop of [vfs_getdents] over the node table: [index] children seen,
    [emitted] entries written. *)
Fixpoint dents_loop (dir off max : Z) (es : list (Z * vfs_node_t)) (index emitted : Z) : list vfs_dirent_t :=
  match es with
  | [] => []
  | e :: es =>
      if emitted <? max then
        if negb (is_child dir e) then dents_loop dir off max es index emitted
        else if index <? off then dents_loop dir off max es (index + 1) emitted
        else Dirent (type e.2) (inode e.2) (size e.2) (copy_name (name e.2) (length (name e.2)))
               :: dents_loop dir off max es (index + 1) (emitted + 1)
      else []
  end.

(** The entries written to the caller's array. *)
Definition vfs_getdents (s : vfs) (fd max_ents : Z) : outcome (vfs * Z * list vfs_dirent_t) :=
  match open_at s fd with
  | None => Ret (s, -1, [])
  | Some f =>
      n ← node_at s (fnode f);
      if negb (is_dir n) then Ret (s, -1, []) else
      let es := dents_loop (fnode f) (offset f) max_ents (indexed s) 0 0 in
      let emitted := Z.of_nat (length es) in
      Ret (set_open s fd (Open true (fnode f) (u64 (offset f + emitted)) (flags f)), emitted, es)
  end.

Definition vfs_rmdir (s : vfs) (path : option (list Z)) : outcome (vfs * Z) :=
  i ← resolve_path s path;
  if i <=? 0 then Ret (s, -1) else
  n ← node_at s i;
  if negb (is_dir n) || negb (child_count s i =? 0) then Ret (s, -1)
  else
    let s := if cwd_node s =? i then set_cwd s 0 else s in
    s ← drop_node s i n; Ret (s, 0).

Definition vfs_access (s : vfs) (path : option (list Z)) : outcome Z :=
  i ← resolve_path s path; Ret (if 0 <=? i then 0 else -1).
End Vfs.
Arguments vfs St : clear implicits.
