(* ===== verification/VfsPaths.v ===== *)
(** * kernel/vfs.c: the well-formed file system and path resolution

    The invariant of the node and open-file tables, and that the two path
    walkers terminate and only ever reach nodes in use. *)

From Stdlib Require Import ZArith Lia.
From stdpp Require Import base numbers gmap strings fin_maps option list.
From S2P Require Import Prelude MemUtils Allocator Vfs.

Local Open Scope Z_scope.

(** Offsets and sizes up to this bound are covered by the theorems. *)
Definition FILE_LIMIT : Z := 576460752303423488.

Section VfsInv.
Context {St : Type} `{Allocator St}.
Implicit Types s : vfs St.

Definition dir_at (s : vfs St) (i : Z) : Prop := exists d, used_node s i = Some d /\ type d = VFS_TYPE_DIR.

(** The memory of a node. *)
Definition data_ok (m : St) (n : vfs_node_t) : Prop :=
  (data n = 0 /\ capacity n = 0 /\ size n = 0) \/
  (data n <> 0 /\ 64 <= capacity n <= 2 * FILE_LIMIT /\ 0 <= size n <= capacity n /\
   exists u, al_owns m !! data n = Some u /\ capacity n <= u).

Record vfs_ok (s : vfs St) : Prop := VfsOk {
  vo_mem : al_ok (mem s);
  vo_nodes : length (nodes s) = VFS_MAX_NODES;
  vo_opens : length (open_files s) = VFS_MAX_OPEN;
  vo_root : dir_at s 0 /\ parent <$> nodes s !! 0%nat = Some 0;
  vo_parent : forall i n, nodes s !! i = Some n -> used n = true -> dir_at s (parent n) /\ (length (name n) <= VFS_MAX_NAME)%nat;
  vo_cwd : dir_at s (cwd_node s);
  vo_data : forall i n, nodes s !! i = Some n -> data_ok (mem s) n;
  vo_distinct : forall i j n n', nodes s !! i = Some n -> nodes s !! j = Some n' ->
    data n <> 0 -> data n = data n' -> i = j;
  vo_open : forall fd f, open_files s !! fd = Some f -> 0 <= fnode f < Z.of_nat VFS_MAX_NODES /\ 0 <= offset f
}.

(** ** Nodes *)

Lemma used_node_Some s i n :
  used_node s i = Some n <-> 0 <= i /\ nodes s !! Z.to_nat i = Some n /\ used n = true.
Proof.
  unfold used_node. destruct (Z.ltb_spec i 0) as [Hi|Hi]; [split; [done|lia]|].
  destruct (nodes s !! Z.to_nat i) as [n'|]; cbn; [|split; [done|by intros (_ & ? & _)]].
  destruct (used n') eqn:E; (split; [try done; by intros [= <-]|]); intros (_ & [= <-] & ?); [done|congruence].
Qed.
Lemma node_at_used s i n : used_node s i = Some n -> node_at s i = Ret n.
Proof.
  intros (Hi & Hn & _)%used_node_Some. unfold node_at. rewrite (proj2 (Z.ltb_ge i 0)), Hn by lia. done.
Qed.
Lemma node_at_range s i : vfs_ok s -> 0 <= i < Z.of_nat VFS_MAX_NODES -> exists n, node_at s i = Ret n /\ nodes s !! Z.to_nat i = Some n.
Proof.
  intros Hok Hi. destruct (lookup_lt_is_Some_2 (nodes s) (Z.to_nat i)) as [n Hn].
  { rewrite (vo_nodes s Hok). lia. }
  exists n. unfold node_at. by rewrite (proj2 (Z.ltb_ge i 0)), Hn by lia.
Qed.
Lemma used_node_range s i n : vfs_ok s -> used_node s i = Some n -> 0 <= i < Z.of_nat VFS_MAX_NODES.
Proof.
  intros Hok (Hi & Hn & _)%used_node_Some. apply lookup_lt_Some in Hn. rewrite (vo_nodes s Hok) in Hn. lia.
Qed.

Lemma find_child_spec s par seg len :
  find_child s par seg len = -1 \/
  exists n, used_node s (find_child s par seg len) = Some n /\ parent n = par /\ name_eq (name n) seg len = true /\
    dir_at s par.
Proof.
  unfold find_child. destruct (used_node s par) as [d|] eqn:Hd; [|by left].
  unfold is_dir. destruct (Z.eqb_spec (type d) VFS_TYPE_DIR) as [Ht|]; [|by left].
  destruct (find_index _ (nodes s) 0) as [i|] eqn:Hf; [|by left]. right.
  apply find_index_Some in Hf as (n & _ & Hn & Ht' & _). rewrite Nat.sub_0_r in Hn.
  apply andb_true_iff in Ht' as [[Hu Hp%Z.eqb_eq]%andb_true_iff Hname]. exists n.
  split_and!; [|done|done|by exists d]. apply used_node_Some. rewrite Nat2Z.id. split_and!; [lia|done|done].
Qed.

Lemma find_child_none s par seg len i n :
  find_child s par seg len < 0 -> dir_at s par -> nodes s !! i = Some n -> used n = true -> parent n = par ->
  name_eq (name n) seg len = false.
Proof.
  intros Hf (d & Hd & Ht) Hn Hu Hp. unfold find_child in Hf. rewrite Hd in Hf. unfold is_dir in Hf.
  rewrite Ht in Hf. cbn in Hf. destruct (find_index _ (nodes s) 0) as [k|] eqn:E; [lia|].
  pose proof (find_index_None _ _ _ E i n Hn) as Hno. cbn in Hno. rewrite Hu, Hp, Z.eqb_refl in Hno. done.
Qed.

Lemma up_spec s i n : vfs_ok s -> used_node s i = Some n -> exists j, up s i = Ret j /\ dir_at s j.
Proof.
  intros Hok Hn. unfold up. destruct (Z.eqb_spec i 0) as [->|Hi].
  - exists 0. split; [done|]. apply (vo_root s Hok).
  - rewrite (node_at_used _ _ _ Hn). cbn. eexists. split; [done|].
    apply used_node_Some in Hn as (_ & Hn & Hu). by apply (vo_parent s Hok _ _ Hn Hu).
Qed.

(** ** Segments *)

Lemma length_skip_slashes p : (length (skip_slashes p) <= length p)%nat.
Proof. induction p as [|c p IH]; cbn; [lia|]. case_match; cbn; lia. Qed.
Lemma seg_end_spec p q n : seg_end p = (q, n) -> (length p = length q + n)%nat /\ (n = O -> p = q).
Proof.
  revert q n. induction p as [|c p IH]; intros q n E; cbn in E; [by injection E as <- <-|].
  destruct (c =? 47); [injection E as <- <-; split; [cbn; lia|done]|].
  destruct (seg_end p) as [q' k] eqn:E'. injection E as <- <-. destruct (IH _ _ eq_refl). split; [cbn; lia|done].
Qed.
Lemma skip_slashes_head p c q : skip_slashes p = c :: q -> c <> 47.
Proof.
  induction p as [|d p IH]; cbn; [done|]. destruct (Z.eqb_spec d 47); [done|]. by intros [= -> _].
Qed.
Lemma seg_end_zero p q : seg_end p = (q, O) -> p = [] \/ exists r, p = 47 :: r.
Proof.
  destruct p as [|c p]; [by left|]. cbn. destruct (Z.eqb_spec c 47) as [->|]; [by right; eexists|].
  by destruct (seg_end p).
Qed.

(** A walk that is not at the end has consumed part of the path. *)
Lemma next_segment_shrinks p q seg len :
  next_segment p = (q, seg, len) -> q <> [] -> (length q < length p)%nat /\ len <> O.
Proof.
  unfold next_segment. destruct (seg_end (skip_slashes p)) as [q' n] eqn:E. intros [= <- <- <-] Hq.
  destruct (seg_end_spec _ _ _ E) as [Hl Hz]. pose proof (length_skip_slashes p).
  assert (n <> O) as Hn; [|lia]. intros ->. destruct (seg_end_zero _ _ E) as [E0|(r & E0)].
  - rewrite E0 in E. cbn in E. by injection E as <-.
  - by apply (skip_slashes_head p 47 r) in E0.
Qed.

(** ** Resolution *)

(** Path resolution terminates on every path and never follows an invalid
    index: the result is -1 or the index of a node in use. *)
Lemma resolve_loop_spec fuel s i n p :
  vfs_ok s -> used_node s i = Some n -> (length p < fuel)%nat ->
  exists r, resolve_loop fuel s i p = Ret r /\ (r = -1 \/ is_Some (used_node s r)).
Proof.
  intros Hok. revert i n p. induction fuel as [|fuel IH]; intros i n p Hi Hf; [lia|]. cbn [resolve_loop].
  destruct (next_segment p) as [[q seg] len] eqn:E.
  destruct (up_spec s i n Hok Hi) as (j & Hup & (d & Hd & _)).
  assert (find_child s i seg len = -1 \/ is_Some (used_node s (find_child s i seg len))) as Hfc.
  { destruct (find_child_spec s i seg len) as [->|(m & -> & _)]; [by left|right; by eexists]. }
  destruct q as [|c q].
  - destruct (len =? 0)%nat; [exists i; split; [done|right; by eexists]|].
    destruct (is_dot seg len); [exists i; split; [done|right; by eexists]|].
    destruct (is_dotdot seg len); [exists j; split; [done|right; by eexists]|].
    by eexists.
  - destruct (next_segment_shrinks _ _ _ _ E) as [Hsh _]; [done|]. cbn [length] in Hsh.
    destruct (len =? 0)%nat; [by eapply IH; [|cbn; lia]|].
    destruct (is_dot seg len); [by eapply IH; [|cbn; lia]|].
    destruct (is_dotdot seg len); [rewrite Hup; cbn [mbind outcome_bind]; by eapply IH; [|cbn; lia]|].
    destruct Hfc as [E1|[m Hm]]; [rewrite E1; cbn; exists (-1); by split; [|left]|].
    pose proof (used_node_range _ _ _ Hok Hm). rewrite (proj2 (Z.ltb_ge _ 0)) by lia.
    by eapply IH; [|cbn; lia].
Qed.

Lemma start_node_dir s path : vfs_ok s -> dir_at s (start_node s path).
Proof. intros Hok. unfold start_node. case_match; [apply (vo_root s Hok)|apply (vo_cwd s Hok)]. Qed.

Lemma resolve_path_spec s path :
  vfs_ok s -> exists r, resolve_path s path = Ret r /\ (r = -1 \/ is_Some (used_node s r)).
Proof.
  intros Hok. unfold resolve_path. destruct path as [path|]; [|exists (-1); by split; [|left]].
  case_match; [exists (-1); by split; [|left]|].
  destruct (start_node_dir s path Hok) as (d & Hd & _). eapply resolve_loop_spec; [done|done|lia].
Qed.

Lemma enter_spec s i last :
  vfs_ok s -> dir_at s i -> exists r, enter s i last = Ret r /\ (forall j, r = Some j -> dir_at s j).
Proof.
  intros Hok (d & Hd & Ht). unfold enter. destruct last as [[seg len]|].
  - destruct (is_dotdot seg len).
    + destruct (up_spec s i d Hok Hd) as (j & -> & Hj). cbn. eexists. split; [done|]. by intros ? [= <-].
    + destruct (find_child_spec s i seg len) as [->|(n & Hn & _)]; [cbn; eexists; split; [done|]; done|].
      pose proof (used_node_range _ _ _ Hok Hn). rewrite (proj2 (Z.ltb_ge _ 0)) by lia.
      rewrite (node_at_used _ _ _ Hn). cbn [mbind outcome_bind].
      unfold is_dir. destruct (Z.eqb_spec (type n) VFS_TYPE_DIR) as [Hdir|].
      * eexists. split; [done|]. intros j [= <-]. by exists n.
      * by eexists.
  - eexists. split; [done|]. intros j [= <-]. by exists d.
Qed.

Lemma parent_loop_spec fuel s i last p :
  vfs_ok s -> dir_at s i -> (length p < fuel)%nat ->
  exists r, parent_loop fuel s i last p = Ret r /\
    (forall par leaf len, r = Some (par, leaf, len) -> dir_at s par /\ len <> O).
Proof.
  intros Hok. revert i last p. induction fuel as [|fuel IH]; intros i last p Hi Hf; [lia|]. cbn [parent_loop].
  destruct (next_segment p) as [[q seg] len] eqn:E.
  assert (forall j last, dir_at s j -> exists r,
    match last with
    | None => Ret None
    | Some (seg, len) => if (len =? 0)%nat || is_dot seg len || is_dotdot seg len then Ret None
                         else Ret (Some (j, seg, len))
    end = Ret r /\ (forall par leaf len, r = Some (par, leaf, len) -> dir_at s par /\ len <> O)) as Hfin.
  { intros j [[sg ln]|] Hj; [|by eexists]. destruct (Nat.eqb_spec ln 0) as [|Hne]; cbn; [by eexists|].
    case_match; [by eexists|]. eexists. split; [done|]. by intros ??? [= <- <- <-]. }
  destruct (enter_spec s i last Hok Hi) as (r & Hen & Hr).
  destruct q as [|c q].
  - destruct (len =? 0)%nat eqn:El; [by apply Hfin|]. rewrite Hen. cbn [mbind outcome_bind].
    destruct r as [j|]; [|by eexists]. pose proof (Hfin j (Some (seg, len)) (Hr j eq_refl)) as Hj.
    cbn beta iota in Hj. by rewrite El in Hj.
  - destruct (next_segment_shrinks _ _ _ _ E) as [Hsh _]; [done|]. cbn [length] in Hsh.
    destruct ((len =? 0)%nat || is_dot seg len); [apply IH; [done|cbn; lia]|].
    rewrite Hen. cbn [mbind outcome_bind]. destruct r as [j|]; [|by eexists].
    apply IH; [by apply Hr|cbn; lia].
Qed.

Lemma resolve_parent_spec s path :
  vfs_ok s -> exists r, resolve_parent s path = Ret r /\
    (forall par leaf len, r = Some (par, leaf, len) -> dir_at s par /\ len <> O).
Proof.
  intros Hok. unfold resolve_parent. destruct path as [path|]; [|by eexists].
  case_match; [by eexists|]. apply parent_loop_spec; [done|by apply start_node_dir|lia].
Qed.

(** ** The current directory *)

(** Each step of [build_path] lengthens the path, so that the size check ends
    the walk even when the parent links form a cycle. *)
Lemma build_loop_total fuel s cur tmp :
  vfs_ok s -> is_Some (used_node s cur) -> (127 <= fuel + length tmp)%nat -> (length tmp < 127)%nat ->
  exists r, build_loop fuel s cur tmp = Ret r /\ (forall q, r = Some q -> (length q < 127)%nat).
Proof.
  intros Hok. revert cur tmp. induction fuel as [|fuel IH]; intros cur tmp [n Hn] Hf Hl; [lia|]. cbn [build_loop].
  destruct (cur =? 0); [eexists; split; [done|]; by intros q [= <-]|].
  rewrite (node_at_used _ _ _ Hn). cbn [mbind outcome_bind]. unfold VFS_MAX_PATH.
  destruct (Z.leb_spec 128 (Z.of_nat (length (name n)) + Z.of_nat (length tmp) + 2)); [by eexists|].
  apply used_node_Some in Hn as (_ & Hn & Hu). destruct (vo_parent s Hok _ _ Hn Hu) as [(d & Hd & _) _].
  apply IH; [by eexists|cbn; rewrite length_app; lia|cbn; rewrite length_app; lia].
Qed.

Lemma vfs_getcwd_total s len :
  vfs_ok s -> exists r, vfs_getcwd s len = Ret r /\ (forall q, r = Some q -> Z.of_nat (length q) < len).
Proof.
  intros Hok. unfold vfs_getcwd, build_path. destruct (Z.eqb_spec len 0); [by eexists|].
  destruct (cwd_node s =? 0).
  { eexists. split; [done|]. destruct (Z.ltb_spec len 2); [done|]. intros q [= <-]. cbn. lia. }
  destruct (vo_cwd s Hok) as (d & Hd & _).
  destruct (build_loop_total 128 s (cwd_node s) [] Hok) as (r & -> & _); [by eexists|cbn; lia|cbn; lia|].
  cbn [mbind outcome_bind]. destruct r as [tmp|]; [|by eexists]. eexists. split; [done|].
  destruct (Z.ltb_spec len (Z.of_nat (length tmp) + 1)); [done|]. intros q [= <-]. lia.
Qed.
End VfsInv.
