(* ===== verification/VfsProofs.v ===== *)
(** * kernel/vfs.c: correctness of the operations

    Every operation keeps the file system well formed; reads and writes are
    specified by the contents of the files. *)

From Stdlib Require Import ZArith Lia.
From stdpp Require Import base numbers gmap strings fin_maps option list.
From S2P Require Import Prelude MemUtils Allocator MemApps Vfs VfsPaths.

Local Open Scope Z_scope.

Section VfsProofs.
Context {St : Type} `{AllocatorLaws St}.
Implicit Types s : vfs St.

(** ** Changing the tables *)

Lemma lookup_set_node s i n' j :
  nodes (set_node s (Z.of_nat i) n') !! j = if decide (i = j) then (fun _ => n') <$> nodes s !! j else nodes s !! j.
Proof.
  cbn. rewrite Nat2Z.id. destruct (decide (i = j)) as [->|Hne]; [|by rewrite list_lookup_insert_ne].
  destruct (nodes s !! j) as [n|] eqn:E.
  - rewrite list_lookup_insert_eq by (by eapply lookup_lt_Some). done.
  - rewrite list_insert_ge by (by apply lookup_ge_None). by rewrite E.
Qed.

Definition all_data_ok (s : vfs St) (m : St) (i : nat) : Prop :=
  forall j n, j <> i -> nodes s !! j = Some n -> data_ok m n.

Lemma all_data_keep s m i :
  vfs_ok s -> (forall j n u, j <> i -> nodes s !! j = Some n -> data n <> 0 ->
    al_owns (mem s) !! data n = Some u -> al_owns m !! data n = Some u) -> all_data_ok s m i.
Proof.
  intros Hok Hk j n Hj Hn. destruct (vo_data s Hok j n Hn) as [?|(? & ? & ? & u & Hu & ?)]; [by left|right].
  split_and!; try done; try lia. exists u. split; [by eapply Hk|done].
Qed.

(** One node changes, the tree below it stays attached. *)
Lemma ok_change s m i n n' :
  vfs_ok s -> al_ok m -> nodes s !! i = Some n ->
  (used n = true -> used n' = true /\ type n' = type n) ->
  (used n' = true -> dir_at s (parent n') /\ (length (name n') <= VFS_MAX_NAME)%nat) ->
  (i = O -> parent n' = 0) ->
  data_ok m n' -> all_data_ok s m i ->
  (forall j a, j <> i -> nodes s !! j = Some a -> data n' <> 0 -> data a <> data n') ->
  vfs_ok (set_node (set_mem s m) (Z.of_nat i) n').
Proof.
  intros Hok Hm Hn Hkeep Hpar Hroot Hdata Hall Hdist.
  set (s' := set_node (set_mem s m) (Z.of_nat i) n').
  assert (forall j, nodes s' !! j = if decide (i = j) then Some n' else nodes s !! j) as Hlook.
  { intros j. unfold s'. rewrite lookup_set_node. cbn [nodes set_mem]. destruct (decide (i = j)) as [<-|]; [|done]. by rewrite Hn. }
  assert (forall j, dir_at s j -> dir_at s' j) as Hdir.
  { intros j (d & (Hj & Hd & Hu)%used_node_Some & Ht). destruct (decide (i = Z.to_nat j)) as [->|Hne].
    - rewrite Hn in Hd. injection Hd as ->. destruct (Hkeep Hu) as [Hu' Ht']. exists n'. rewrite Ht'.
      split; [|done]. apply used_node_Some. by rewrite Hlook, decide_True.
    - exists d. split; [|done]. apply used_node_Some. by rewrite Hlook, decide_False. }
  split.
  - done.
  - unfold s'. cbn. rewrite length_insert. apply (vo_nodes s Hok).
  - apply (vo_opens s Hok).
  - split; [apply Hdir, (vo_root s Hok)|]. rewrite Hlook. destruct (decide (i = O)) as [->|]; [cbn; by rewrite Hroot|].
    apply (vo_root s Hok).
  - intros j a Hj Hu. rewrite Hlook in Hj. destruct (decide (i = j)).
    + injection Hj as <-. destruct (Hpar Hu). split; [by apply Hdir|done].
    + destruct (vo_parent s Hok j a Hj Hu). split; [by apply Hdir|done].
  - apply Hdir, (vo_cwd s Hok).
  - intros j a Hj. rewrite Hlook in Hj. destruct (decide (i = j)) as [|Hne]; [by injection Hj as <-|].
    by eapply (Hall j); [congruence|].
  - intros j k a b Hj Hk Ha E. rewrite Hlook in Hj, Hk.
    destruct (decide (i = j)) as [<-|Hj'], (decide (i = k)) as [<-|Hk']; try done.
    + injection Hj as <-. exfalso. by apply (Hdist k b); [congruence|done|congruence|congruence].
    + injection Hk as <-. exfalso. apply (Hdist j a); [congruence|done|congruence|congruence].
    + by eapply (vo_distinct s Hok).
  - apply (vo_open s Hok).
Qed.

Lemma ok_set_open s fd f :
  vfs_ok s -> 0 <= fnode f < Z.of_nat VFS_MAX_NODES -> 0 <= offset f -> vfs_ok (set_open s fd f).
Proof.
  intros Hok Hf Ho. destruct Hok as [? ? Hl ? ? ? ? ? Hop]. split; try done.
  - cbn. by rewrite length_insert.
  - intros k g Hk. cbn in Hk. apply list_lookup_insert_Some in Hk as [(<- & <- & _)|(_ & Hk)]; [done|by eapply Hop].
Qed.

Lemma ok_set_mem s m :
  vfs_ok s -> al_ok m -> (forall p u, al_owns (mem s) !! p = Some u -> al_owns m !! p = Some u) -> vfs_ok (set_mem s m).
Proof.
  intros Hok Hm Ho. destruct Hok as [? ? ? ? ? ? Hd ? ?]. split; try done.
  intros i n Hn. destruct (Hd i n Hn) as [?|(? & ? & ? & u & Hu & ?)]; [by left|right].
  split_and!; try done; try lia. exists u. split; [by apply Ho|done].
Qed.

(** ** Files *)

(** The contents of a node. *)
Definition content (s : vfs St) (i : nat) : option (list Z) :=
  n ← nodes s !! i; Some (bytes_at (al_ram (mem s)) (data n) (Z.to_nat (size n))).

(** Memory that is not the file system's: unmanaged, or an allocation that no
    node points to. *)
Definition outside (s : vfs St) (x : Z) : Prop :=
  ~ al_managed (mem s) x \/
  exists q v, al_owns (mem s) !! q = Some v /\ in_block q v x /\
    forall i n, nodes s !! i = Some n -> data n <> q.

Lemma data_extent s i n :
  vfs_ok s -> nodes s !! i = Some n -> data n <> 0 -> exists u, al_owns (mem s) !! data n = Some u /\
    0 <= size n <= capacity n /\ capacity n <= u /\ 64 <= capacity n <= 2 * FILE_LIMIT.
Proof.
  intros Hok Hn Hd. destruct (vo_data s Hok i n Hn) as [(? & _)|(_ & ? & ? & u & Hu & ?)]; [done|]. exists u.
  split_and!; try done; lia.
Qed.

(** Bytes of one file are not outside, nor bytes of another. *)
Lemma outside_not_data s i n x u :
  vfs_ok s -> nodes s !! i = Some n -> data n <> 0 -> al_owns (mem s) !! data n = Some u ->
  in_block (data n) u x -> ~ outside s x.
Proof.
  intros Hok Hn Hd Hu Hin [Hx|(q & v & Hq & Hin' & Hno)].
  - by apply Hx, (al_range_law (mem s) _ _ (vo_mem s Hok) Hu).
  - pose proof (al_disjoint_law (mem s) _ _ _ _ (vo_mem s Hok) Hu Hq (Hno i n Hn)). unfold in_block in *. lia.
Qed.

(** A memory that differs only outside the files leaves their contents. *)
Lemma content_frame s s' i :
  vfs_ok s -> nodes s' = nodes s ->
  (forall x, ~ outside s x -> rd (al_ram (mem s')) x = rd (al_ram (mem s)) x) -> content s' i = content s i.
Proof.
  intros Hok Hn Hr. unfold content. rewrite Hn. destruct (nodes s !! i) as [n|] eqn:E; [|done]. cbn. f_equal.
  destruct (decide (data n = 0)) as [Hd|Hd].
  - destruct (vo_data s Hok i n E) as [(_ & _ & ->)|(? & _)]; done.
  - destruct (data_extent s i n Hok E Hd) as (u & Hu & ? & ? & ?). apply bytes_at_ext. intros b Hb. apply Hr.
    eapply outside_not_data; [done|done|done|done|]. unfold in_block. lia.
Qed.

Lemma double_cap_spec fuel cap need :
  0 < cap -> need <= cap * 2 ^ Z.of_nat fuel -> 2 * need < 18446744073709551616 ->
  exists r, double_cap fuel cap need = Ret r /\ need <= r /\ cap <= r /\ (r = cap \/ r < 2 * need).
Proof.
  revert cap. induction fuel as [|fuel IH]; intros cap Hc Hn Hb; cbn [double_cap].
  - rewrite (proj2 (Z.leb_le _ _)) by (cbn in Hn; lia). eexists. split_and!; [done|cbn in Hn; lia|lia|by left].
  - destruct (Z.leb_spec need cap) as [Hle|Hgt]; [eexists; split_and!; [done|done|lia|by left]|].
    rewrite u64_small by lia. destruct (IH (cap * 2)) as (r & -> & ? & ? & Hr); [lia| |lia|].
    + rewrite Nat2Z.inj_succ, Z.pow_succ_r in Hn by lia. lia.
    + eexists. split_and!; [done|lia|lia|right]. destruct Hr; lia.
Qed.

Lemma outside_stable s x : outside s x -> stable (mem s) x.
Proof. intros [?|(q & v & ? & ? & _)]; [by left|right; by exists q, v]. Qed.

(** The new buffer receives the contents. *)
Lemma grow_copy s i n m1 p u :
  vfs_ok s -> nodes s !! i = Some n -> data n <> 0 -> al_ok m1 -> extends (mem s) m1 ->
  al_owns (mem s) !! p = None -> al_owns m1 = <[p := u]> (al_owns (mem s)) -> size n <= u ->
  let m2 := if negb (data n =? 0) && negb (size n =? 0)
            then al_set_ram m1 (memcpy (al_ram m1) p (data n) (size n)) else m1 in
  al_ok m2 /\ al_owns m2 = al_owns m1 /\ (forall x, al_managed m2 x <-> al_managed m1 x) /\
  (forall x, stable (mem s) x -> rd (al_ram m2) x = rd (al_ram (mem s)) x) /\
  bytes_at (al_ram m2) p (Z.to_nat (size n)) = bytes_at (al_ram (mem s)) (data n) (Z.to_nat (size n)).
Proof.
  intros Hok Hn Hd Hm1 Hext Hnone Hins Hu m2. destruct (data_extent s i n Hok Hn Hd) as (v & Hv & Hs & Hc & _).
  unfold m2. rewrite (proj2 (Z.eqb_neq _ _) Hd). cbn [negb andb].
  destruct (Z.eqb_spec (size n) 0) as [Hz|Hz]; cbn [negb].
  - rewrite Hz. split_and!; try done. apply Hext.
  - assert (al_owns m1 !! p = Some u) as Hp by (by rewrite Hins, lookup_insert_eq).
    destruct (copy_into (mem s) m1 p u (data n) (size n) Hm1 Hext Hnone Hp) as (Hcw & Hb & Hst); [lia| |].
    { right. exists (data n), v. split_and!; [done|lia|lia]. }
    destruct (al_set_ram_law m1 _ Hm1 Hcw) as (? & ? & Hr & ?). split_and!; try done; by rewrite Hr.
Qed.

(** What [ensure_capacity] leaves alone. *)
Definition same_files (s s' : vfs St) : Prop :=
  (forall j, content s' j = content s j) /\
  (forall x, outside s x -> rd (al_ram (mem s')) x = rd (al_ram (mem s)) x /\ outside s' x) /\
  open_files s' = open_files s /\ cwd_node s' = cwd_node s /\ ready s' = ready s.

Definition same_but_memory (n n' : vfs_node_t) : Prop :=
  used n' = used n /\ inode n' = inode n /\ type n' = type n /\ parent n' = parent n /\ name n' = name n /\ size n' = size n.

Lemma same_but_memory_refl n : same_but_memory n n.
Proof. done. Qed.

Lemma node_at_nat s i n : nodes s !! i = Some n -> node_at s (Z.of_nat i) = Ret n.
Proof. intros Hn. unfold node_at. rewrite (proj2 (Z.ltb_ge _ 0)), Nat2Z.id, Hn by lia. done. Qed.

Lemma ok_keep_parent s i n n' :
  vfs_ok s -> nodes s !! i = Some n -> used n' = used n -> parent n' = parent n -> name n' = name n ->
  (used n' = true -> dir_at s (parent n') /\ (length (name n') <= VFS_MAX_NAME)%nat) /\ (i = O -> parent n' = 0).
Proof.
  intros Hok Hn -> -> ->. split; [by apply (vo_parent s Hok i n Hn)|].
  intros ->. pose proof (proj2 (vo_root s Hok)) as Hr. rewrite Hn in Hr. by injection Hr.
Qed.

(** The contents when node [i] moves to a new buffer. *)
Lemma moved_content s m i n n' j :
  vfs_ok s -> nodes s !! i = Some n -> size n' = size n ->
  bytes_at (al_ram m) (data n') (Z.to_nat (size n)) = bytes_at (al_ram (mem s)) (data n) (Z.to_nat (size n)) ->
  (forall k a x u, k <> i -> nodes s !! k = Some a -> data a <> 0 -> al_owns (mem s) !! data a = Some u ->
     in_block (data a) u x -> rd (al_ram m) x = rd (al_ram (mem s)) x) ->
  content (set_node (set_mem s m) (Z.of_nat i) n') j = content s j.
Proof.
  intros Hok Hn Hsz Hb Hoth. unfold content. rewrite lookup_set_node. cbn [nodes set_mem].
  destruct (decide (i = j)) as [<-|Hne].
  - rewrite Hn. cbn. by rewrite Hsz, Hb.
  - destruct (nodes s !! j) as [a|] eqn:Ha; [|done]. cbn. f_equal.
    destruct (decide (data a = 0)) as [Hd|Hd].
    + destruct (vo_data s Hok j a Ha) as [(_ & _ & ->)|(? & _)]; done.
    + destruct (data_extent s j a Hok Ha Hd) as (u & Hu & ? & ? & ?). apply bytes_at_ext. intros x Hx.
      eapply (Hoth j a x u); [congruence|done|done|done|]. unfold in_block. lia.
Qed.

(** Node [i] gets the buffer [p] of a memory [m] that keeps every other
    allocation: its contents were copied, its old buffer may be gone. *)
Lemma new_buffer s i n m p u cap :
  vfs_ok s -> nodes s !! i = Some n -> al_ok m ->
  al_owns (mem s) !! p = None -> al_owns m !! p = Some u -> p <> 0 ->
  size n <= cap -> 64 <= cap <= 2 * FILE_LIMIT -> cap <= u ->
  (forall x, al_managed m x <-> al_managed (mem s) x) ->
  (forall q v, q <> data n -> al_owns (mem s) !! q = Some v -> al_owns m !! q = Some v) ->
  (forall x, ~ al_managed (mem s) x -> rd (al_ram m) x = rd (al_ram (mem s)) x) ->
  (forall q v x, q <> data n -> al_owns (mem s) !! q = Some v -> in_block q v x -> rd (al_ram m) x = rd (al_ram (mem s)) x) ->
  bytes_at (al_ram m) p (Z.to_nat (size n)) = bytes_at (al_ram (mem s)) (data n) (Z.to_nat (size n)) ->
  let s' := set_node (set_mem s m) (Z.of_nat i) (Node (used n) (inode n) (type n) (parent n) (name n) p (size n) cap) in
  vfs_ok s' /\ same_files s s'.
Proof.
  intros Hok Hn Hm Hnone Hp Hp0 Hsz Hcap Hu Hman Hown Hout Hin Hb s'. subst s'. set (n' := Node _ _ _ _ _ _ _ _).
  assert (0 <= size n) as Hsz0 by (destruct (vo_data s Hok i n Hn) as [(_ & _ & ->)|(_ & _ & ? & _)]; lia).
  assert (forall j a, j <> i -> nodes s !! j = Some a -> data a <> 0 -> data a <> data n) as Hdist
    by (intros j a Hj Ha Hda E; by apply Hj, (vo_distinct s Hok j i a n)).
  destruct (ok_keep_parent s i n n' Hok Hn eq_refl eq_refl eq_refl) as [Hpar Hroot]. split.
  - apply (ok_change s m i n n'); try done.
    + right. cbn. split_and!; try done; try lia. exists u. by split.
    + apply all_data_keep; [done|]. intros j a v Hj Ha Hda Hv. apply Hown; [|done]. by apply (Hdist j).
    + intros j a Hj Ha _ E. cbn in E. destruct (data_extent s j a Hok Ha) as (v & Hv & _); [congruence|].
      rewrite E in Hv. congruence.
  - split_and!; try done.
    + intros j. apply (moved_content s m i n n'); try done. intros k a x v Hk Ha Hda Hv Hx.
      apply (Hin (data a) v); [by apply (Hdist k)|done|done].
    + intros x Hx. cbn [mem set_node set_mem]. destruct Hx as [Hx|(q & v & Hq & Hx & Hno)].
      * split; [by apply Hout|left]. cbn. by rewrite Hman.
      * assert (q <> data n) as Hqn by (intros ->; by apply (Hno i n Hn)). split; [by apply (Hin q v)|right].
        exists q, v. split_and!; [by apply Hown|done|]. intros k a Ha. rewrite lookup_set_node in Ha.
        cbn [nodes set_mem] in Ha. destruct (decide (i = k)) as [<-|]; [|by apply Hno in Ha].
        rewrite Hn in Ha. injection Ha as <-. cbn. intros ->. congruence.
Qed.

(** The capacity the doubling settles on. *)
Lemma capacity_chosen s i n need :
  vfs_ok s -> nodes s !! i = Some n -> capacity n < need <= FILE_LIMIT ->
  exists cap, double_cap 64 (if capacity n =? 0 then 64 else capacity n) need = Ret cap /\
    need <= cap /\ 64 <= cap <= 2 * FILE_LIMIT.
Proof.
  intros Hok Hn Hneed. unfold FILE_LIMIT in *. set (c0 := if capacity n =? 0 then 64 else capacity n).
  assert (64 <= c0) as Hc0.
  { unfold c0. destruct (Z.eqb_spec (capacity n) 0); [lia|].
    destruct (vo_data s Hok i n Hn) as [(_ & ? & _)|(_ & ? & _)]; lia. }
  destruct (double_cap_spec 64 c0 need) as (cap & -> & H1 & H2 & H3);
    [lia|change (2 ^ Z.of_nat 64) with 18446744073709551616; lia|lia|].
  exists cap. split_and!; [done|done|lia|]. destruct H3 as [->|?]; [|lia]. unfold c0 in *. destruct (capacity n =? 0); lia.
Qed.

(** A failed allocation changes nothing a file can see. *)
Lemma no_memory s m : vfs_ok s -> al_ok m -> extends (mem s) m -> al_ram m = al_ram (mem s) ->
  (forall x, al_managed m x <-> al_managed (mem s) x) -> vfs_ok (set_mem s m) /\ same_files s (set_mem s m).
Proof.
  intros Hok Hm Hext Hram Hman. split; [apply ok_set_mem; [done|done|apply Hext]|]. split_and!; try done.
  - intros j. apply content_frame; [done|done|]. intros x _. cbn. by rewrite Hram.
  - intros x Hx. cbn. rewrite Hram. split; [done|]. destruct Hx as [Hx|(q & v & Hq & Hx)]; [left|right].
    + cbn. by rewrite Hman.
    + exists q, v. split; [by apply Hext|done].
Qed.

(** The old buffer is copied and released: what is left for [new_buffer]. *)
Lemma replace_buffer s i n m1 p u :
  vfs_ok s -> nodes s !! i = Some n -> data n <> 0 -> al_ok m1 -> extends (mem s) m1 ->
  (forall x, al_managed m1 x <-> al_managed (mem s) x) ->
  al_owns (mem s) !! p = None -> al_owns m1 = <[p := u]> (al_owns (mem s)) -> size n <= u ->
  let m2 := if negb (data n =? 0) && negb (size n =? 0)
            then al_set_ram m1 (memcpy (al_ram m1) p (data n) (size n)) else m1 in
  exists m3, al_free m2 (data n) (capacity n) = Ret m3 /\ al_ok m3 /\ al_owns m3 !! p = Some u /\
    (forall x, al_managed m3 x <-> al_managed (mem s) x) /\
    (forall q v, q <> data n -> al_owns (mem s) !! q = Some v -> al_owns m3 !! q = Some v) /\
    (forall x, ~ al_managed (mem s) x -> rd (al_ram m3) x = rd (al_ram (mem s)) x) /\
    (forall q v x, q <> data n -> al_owns (mem s) !! q = Some v -> in_block q v x -> rd (al_ram m3) x = rd (al_ram (mem s)) x) /\
    bytes_at (al_ram m3) p (Z.to_nat (size n)) = bytes_at (al_ram (mem s)) (data n) (Z.to_nat (size n)).
Proof.
  intros Hok Hn Hd Hm1 Hext Hman1 Hnone Hins Hu. pose proof (vo_mem s Hok) as Hm.
  destruct (data_extent s i n Hok Hn Hd) as (w & Hw & Hs & Hcw & _).
  destruct (grow_copy s i n m1 p u Hok Hn Hd Hm1 Hext Hnone Hins Hu) as (Hm2 & Ho2 & Hman2 & Hst2 & Hb2).
  set (m2 := if negb (data n =? 0) && negb (size n =? 0) then _ else m1) in *. cbn zeta.
  assert (data n <> p) as Hdp by congruence.
  assert (al_owns m2 !! data n = Some w) as Hw2 by (by rewrite Ho2, Hins, lookup_insert_ne).
  assert (al_owns m2 !! p = Some u) as Hp2 by (by rewrite Ho2, Hins, lookup_insert_eq).
  destruct (al_free_law m2 (data n) (capacity n) w Hm2 Hw2) as (m3 & -> & Hm3 & Ho3 & Hman3 & Hr3); [lia|].
  exists m3. split; [done|]. split; [done|]. split; [by rewrite Ho3, lookup_delete_ne|].
  split; [intros x; by rewrite Hman3, Hman2, Hman1|]. split; [|split; [|split]].
  - intros q v Hq Hv. rewrite Ho3, lookup_delete_ne, Ho2 by done. by apply Hext.
  - intros x Hx. rewrite Hr3; [apply Hst2; by left|]. intros Hc. apply Hx. by apply (al_range_law (mem s) _ _ Hm Hw).
  - intros q v x Hq Hv Hx. rewrite Hr3; [apply Hst2; right; by exists q, v|].
    pose proof (al_disjoint_law (mem s) _ _ _ _ Hm Hw Hv (not_eq_sym Hq)). unfold in_block in *. lia.
  - rewrite <- Hb2. apply bytes_at_ext. intros x Hx. apply Hr3. cbn in Hx.
    pose proof (al_disjoint_law m2 _ _ _ _ Hm2 Hw2 Hp2 Hdp). unfold in_block. lia.
Qed.

Lemma ensure_capacity_spec s i n need :
  vfs_ok s -> nodes s !! i = Some n -> 0 <= need <= FILE_LIMIT ->
  exists s' ok n', ensure_capacity s (Z.of_nat i) need = Ret (s', ok) /\ vfs_ok s' /\ same_files s s' /\
    nodes s' = <[i := n']> (nodes s) /\ same_but_memory n n' /\ (ok = true -> need <= capacity n').
Proof.
  intros Hok Hn Hneed. unfold ensure_capacity. rewrite (node_at_nat _ _ _ Hn). cbn [mbind outcome_bind].
  destruct (Z.leb_spec need (capacity n)) as [Hfit|Hgrow].
  { exists s, true, n. rewrite list_insert_id by done. split_and!; try done. }
  pose proof (vo_mem s Hok) as Hm. destruct (capacity_chosen s i n need Hok Hn) as (cap & -> & Hcap1 & Hcap); [lia|].
  cbn [mbind outcome_bind]. assert (0 <= cap < ALLOC_LIMIT) as Hlim by (unfold ALLOC_LIMIT, FILE_LIMIT in *; lia).
  destruct (al_alloc_law (mem s) cap Hm Hlim) as (m1 & p & Hrun & Hm1 & Hram1 & Hman1 & Hcase).
  rewrite Hrun. cbn [mbind outcome_bind]. pose proof (extends_alloc _ _ _ _ Hm Hlim Hrun) as Hext.
  destruct (Z.eqb_spec p 0) as [->|Hp].
  { exists (set_mem s m1), false, n. rewrite list_insert_id by done. destruct (no_memory s m1); [done..|]. by split_and!. }
  destruct (al_alloc_ok _ _ _ _ Hm Hlim Hrun Hp) as (_ & _ & _ & u & Hnone & Hins & Hu). cbn [mem set_mem].
  set (n' := Node (used n) (inode n) (type n) (parent n) (name n) p (size n) cap).
  assert (size n <= cap) as Hsz.
  { destruct (vo_data s Hok i n Hn) as [(_ & _ & ->)|(_ & _ & ? & _)]; lia. }
  destruct (decide (data n = 0)) as [Hd|Hd].
  - rewrite Hd. cbn [Z.eqb negb andb mbind outcome_bind].
    assert (size n = 0) as Hz by (destruct (vo_data s Hok i n Hn) as [(_ & _ & ?)|(? & _)]; done).
    destruct (new_buffer s i n m1 p u cap) as [Hok' Hsame]; try done; rewrite ?Hram1; try done.
    { by rewrite Hins, lookup_insert_eq. }
    { intros q v _ Hv. by apply Hext. }
    { by rewrite Hz. }
    eexists _, true, n'. split; [done|]. split; [done|]. split; [done|]. split_and!; try done. by cbn; rewrite Nat2Z.id.
  - destruct (replace_buffer s i n m1 p u) as (m3 & Hf & Hm3 & Hp3 & Hman3 & Hown3 & Hun3 & Hin3 & Hb3); try done; [lia|].
    set (m2 := if negb (data n =? 0) && negb (size n =? 0) then _ else m1) in Hf.
    replace (if negb (data n =? 0) && negb (size n =? 0)
      then set_mem (set_mem s m1) (al_set_ram m1 (memcpy (al_ram m1) p (data n) (size n))) else set_mem s m1) with (set_mem s m2)
      by (unfold m2; by case_match).
    cbn [mem set_mem]. rewrite (proj2 (Z.eqb_neq _ _) Hd), Hf. cbn [mbind outcome_bind].
    destruct (new_buffer s i n m3 p u cap) as [Hok' Hsame]; try done.
    eexists _, true, n'. split; [done|]. split; [done|]. split; [done|]. split_and!; try done. by cbn; rewrite Nat2Z.id.
Qed.

(** ** Reading and writing *)

(** The region [[a, a + n)] is memory of the caller. *)
Definition caller_buffer (s : vfs St) (a n : Z) : Prop := forall x, a <= x < a + n -> outside s x.

Lemma open_at_Some s fd f :
  open_at s fd = Some f <-> 0 <= fd < Z.of_nat VFS_MAX_OPEN /\ open_files s !! Z.to_nat fd = Some f /\ fused f = true.
Proof.
  unfold open_at. destruct (Z.ltb_spec fd 0); cbn [orb]; [split; [done|lia]|].
  destruct (Z.leb_spec (Z.of_nat VFS_MAX_OPEN) fd); [split; [done|lia]|].
  destruct (open_files s !! Z.to_nat fd) as [g|]; cbn; [|split; [done|by intros (_ & ? & _)]].
  destruct (fused g) eqn:E; (split; [try done; by intros [= <-]|]); intros (_ & [= <-] & ?); [done|congruence].
Qed.

Lemma open_node s fd f :
  vfs_ok s -> open_at s fd = Some f ->
  exists i n, fnode f = Z.of_nat i /\ nodes s !! i = Some n /\ node_at s (fnode f) = Ret n /\ 0 <= offset f.
Proof.
  intros Hok (_ & Hf & _)%open_at_Some. destruct (vo_open s Hok _ _ Hf) as [Hr Ho].
  destruct (node_at_range s (fnode f) Hok Hr) as (n & Hn & Hl). exists (Z.to_nat (fnode f)), n.
  split_and!; try done. lia.
Qed.

Lemma open_at_set s fd f g :
  vfs_ok s -> open_at s fd = Some f -> fused g = true -> open_at (set_open s fd g) fd = Some g.
Proof.
  intros Hok (Hr & Hf & _)%open_at_Some Hg. apply open_at_Some. split_and!; try done; [lia..|].
  cbn. apply list_lookup_insert_eq. by eapply lookup_lt_Some.
Qed.

(** A file's bytes in memory. *)
Lemma file_block s i n :
  vfs_ok s -> nodes s !! i = Some n -> 0 < size n ->
  forall x, data n <= x < data n + capacity n -> ~ outside s x.
Proof.
  intros Hok Hn Hs x Hx. destruct (vo_data s Hok i n Hn) as [(_ & _ & ?)|(Hd & _)]; [lia|].
  destruct (data_extent s i n Hok Hn Hd) as (u & Hu & ? & ? & ?).
  eapply outside_not_data; [done|done|done|done|]. unfold in_block. lia.
Qed.

(** Copying out of a file into a caller's buffer. *)
Lemma copy_out s i n buf off len :
  vfs_ok s -> nodes s !! i = Some n -> 0 <= off -> 0 <= len -> off + len <= size n -> caller_buffer s buf len ->
  let m := memcpy (al_ram (mem s)) buf (data n + off) len in
  client_write (mem s) m /\
  bytes_at m buf (Z.to_nat len) = bytes_at (al_ram (mem s)) (data n + off) (Z.to_nat len) /\
  (forall x, ~ (buf <= x < buf + len) -> rd m x = rd (al_ram (mem s)) x).
Proof.
  intros Hok Hn Ho Hl Hsz Hbuf m.
  assert (size n <= capacity n) as Hcap by (destruct (vo_data s Hok i n Hn) as [(_ & -> & ->)|(_ & _ & ? & _)]; lia).
  assert (len = 0 \/ buf <= data n + off \/ data n + off + len <= buf) as Hov.
  { destruct (decide (len = 0)); [by left|]. right. destruct (decide (buf <= data n + off)); [by left|]. right.
    destruct (decide (data n + off + len <= buf)); [done|]. exfalso.
    apply (file_block s i n Hok Hn ltac:(lia) buf); [lia|]. apply Hbuf. lia. }
  assert (forall x, rd m x = if decide (buf <= x < buf + len) then rd (al_ram (mem s)) (x - buf + (data n + off))
    else rd (al_ram (mem s)) x) as Hrd.
  { intros x. unfold m. destruct Hov as [->|Hov]; [unfold memcpy; cbn; by rewrite decide_False by lia|].
    rewrite rd_memcpy, rd_store_at, Z2Nat.id by lia. by rewrite u8_rd. }
  split_and!.
  - intros x Hman Hx. rewrite Hrd in Hx. destruct (decide (buf <= x < buf + len)) as [Hin|]; [|done].
    destruct (Hbuf x Hin) as [?|(q & v & Hq & Hx' & _)]; [done|]. by exists q, v.
  - apply list_eq. intros k. destruct (decide (k < Z.to_nat len)%nat).
    + rewrite !lookup_bytes_at by done. rewrite Hrd, decide_True by lia. do 2 f_equal. lia.
    + by rewrite !lookup_ge_None_2 by (rewrite length_bytes_at; lia).
  - intros x Hx. by rewrite Hrd, decide_False.
Qed.

Lemma vfs_read_spec s fd f i n c buf len :
  vfs_ok s -> open_at s fd = Some f -> fnode f = Z.of_nat i -> nodes s !! i = Some n -> type n = VFS_TYPE_FILE ->
  content s i = Some c -> buf <> 0 -> 0 <= len -> offset f + len < 18446744073709551616 -> caller_buffer s buf len ->
  exists s', let r := Z.max 0 (Z.min len (size n - offset f)) in
    vfs_read s fd buf len = Ret (s', r) /\ vfs_ok s' /\ (forall j, content s' j = content s j) /\
    nodes s' = nodes s /\ (0 < r -> open_at s' fd = Some (Open true (fnode f) (offset f + r) (flags f))) /\
    bytes_at (al_ram (mem s')) buf (Z.to_nat r) = take (Z.to_nat r) (drop (Z.to_nat (offset f)) c).
Proof.
  intros Hok Hf Hi Hn Hty Hc Hbuf0 Hlen Hov Hbuf. unfold vfs_read. rewrite Hf.
  rewrite (proj2 (Z.eqb_neq _ _) Hbuf0), Hi, (node_at_nat _ _ _ Hn). cbn [mbind outcome_bind].
  rewrite Hty. cbn [Z.eqb negb VFS_TYPE_FILE Pos.eqb].
  destruct (open_node s fd f Hok Hf) as (_ & _ & _ & _ & _ & Hoff).
  assert (size n <= 2 * FILE_LIMIT) as Hsz
    by (destruct (vo_data s Hok i n Hn) as [(_ & _ & ->)|(_ & ? & ? & _)]; unfold FILE_LIMIT in *; lia).
  destruct (Z.leb_spec (size n) (offset f)) as [Heof|Hin].
  { exists s. cbn zeta. rewrite Z.max_l by lia. split_and!; try done; lia. }
  set (k := if size n <? u64 (offset f + len) then size n - offset f else len).
  assert (k = Z.max 0 (Z.min len (size n - offset f))) as Hk.
  { unfold k. rewrite u64_small by lia. destruct (Z.ltb_spec (size n) (offset f + len)); lia. }
  assert (0 <= k <= len) as Hkr by lia.
  destruct (copy_out s i n buf (offset f) k Hok Hn Hoff) as (Hcw & Hb & Hfr); [lia|lia|intros x Hx; apply Hbuf; lia|].
  destruct (al_set_ram_law (mem s) _ (vo_mem s Hok) Hcw) as (Hm & Ho & Hr & _).
  exists (set_open (set_mem s (al_set_ram (mem s) (memcpy (al_ram (mem s)) buf (data n + offset f) k))) fd
           (Open true (fnode f) (u64 (offset f + k)) (flags f))).
  cbn zeta. rewrite <- Hk. rewrite <- Hi. rewrite s64_small by (unfold FILE_LIMIT in *; lia). rewrite u64_small by lia.
  split_and!; [done| | |done| |].
  - apply ok_set_open; [|apply (vo_open s Hok (Z.to_nat fd) f); by apply open_at_Some in Hf as (_ & ? & _)|cbn; lia].
    apply ok_set_mem; [done|done|]. cbn. by rewrite Ho.
  - intros j. apply content_frame; [done|done|]. intros x Hx. cbn. rewrite Hr. apply Hfr. intros Hc'. apply Hx, Hbuf. lia.
  - intros _. apply (open_at_set (set_mem s _) fd f); [|done|done].
    apply ok_set_mem; [done|done|]. by rewrite Ho.
  - cbn. rewrite Hr, Hb. unfold content in Hc. rewrite Hn in Hc. injection Hc as <-.
    rewrite bytes_at_slice by lia. by rewrite Z2Nat.id by lia.
Qed.

Lemma set_node_id s i n : nodes s !! i = Some n -> set_node s (Z.of_nat i) n = s.
Proof. intros Hn. destruct s. unfold set_node. cbn in *. by rewrite Nat2Z.id, list_insert_id. Qed.

(** Copying a caller's buffer into the buffer of a file. *)
Lemma copy_in s i n buf off len :
  vfs_ok s -> nodes s !! i = Some n -> 0 <= off -> 0 <= len -> off + len <= capacity n -> caller_buffer s buf len ->
  let m := memcpy (al_ram (mem s)) (data n + off) buf len in
  client_write (mem s) m /\
  (forall x, rd m x = if decide (data n + off <= x < data n + off + len)
     then rd (al_ram (mem s)) (x - (data n + off) + buf) else rd (al_ram (mem s)) x) /\
  (forall x, outside s x -> rd m x = rd (al_ram (mem s)) x) /\
  (forall j a u x, j <> i -> nodes s !! j = Some a -> data a <> 0 -> al_owns (mem s) !! data a = Some u ->
     in_block (data a) u x -> rd m x = rd (al_ram (mem s)) x).
Proof.
  intros Hok Hn Ho Hl Hcap Hbuf m.
  assert (len = 0 \/ (data n <> 0 /\ exists u, al_owns (mem s) !! data n = Some u /\ capacity n <= u)) as Hblk.
  { destruct (vo_data s Hok i n Hn) as [(_ & ? & _)|(? & _ & _ & Hu)]; [left; lia|by right]. }
  assert (len <> 0 -> forall x, data n + off <= x < data n + off + len -> ~ outside s x) as Hnot.
  { intros Hl0 x Hx. destruct Hblk as [|(Hd & u & Hu & Hcu)]; [done|].
    eapply outside_not_data; [done|done|done|done|]. unfold in_block. lia. }
  assert (len = 0 \/ data n + off <= buf \/ buf + len <= data n + off) as Hov.
  { destruct (decide (len = 0)); [by left|]. right. destruct (decide (data n + off <= buf)); [by left|]. right.
    destruct (decide (buf + len <= data n + off)); [done|]. exfalso.
    apply (Hnot ltac:(done) (data n + off)); [lia|]. apply Hbuf. lia. }
  assert (forall x, rd m x = if decide (data n + off <= x < data n + off + len)
    then rd (al_ram (mem s)) (x - (data n + off) + buf) else rd (al_ram (mem s)) x) as Hrd.
  { intros x. unfold m. destruct Hov as [->|Hov]; [unfold memcpy; cbn; by rewrite decide_False by lia|].
    rewrite rd_memcpy, rd_store_at, Z2Nat.id by lia. by rewrite u8_rd. }
  split_and!; [|done| |].
  - intros x _ Hx. rewrite Hrd in Hx. destruct (decide _) as [Hin|]; [|done].
    destruct Hblk as [|(Hd & u & Hu & Hcu)]; [lia|]. exists (data n), u. split; [done|]. unfold in_block. lia.
  - intros x Hx. rewrite Hrd. destruct (decide _) as [Hin|]; [|done]. exfalso. apply (Hnot ltac:(lia) x Hin Hx).
  - intros j a u x Hj Ha Hda Hu Hx. rewrite Hrd. destruct (decide _) as [Hin|]; [|done]. exfalso.
    destruct Hblk as [|(Hd & w & Hw & Hcw)]; [lia|].
    assert (data a <> data n) as Hne by (intros E; by apply Hj, (vo_distinct s Hok j i a n)).
    pose proof (al_disjoint_law (mem s) _ _ _ _ (vo_mem s Hok) Hu Hw Hne). unfold in_block in *. lia.
Qed.

(** Where a write goes: to the end in append mode. *)
Definition write_offset (f : vfs_open_t) (n : vfs_node_t) : Z :=
  if has (flags f) VFS_O_APPEND then size n else offset f.

(** The contents after [bs] was written at [off]: the old bytes around it stay. *)
Definition written (c c' bs : list Z) (off : Z) : Prop :=
  Z.of_nat (length c') = Z.max (Z.of_nat (length c)) (off + Z.of_nat (length bs)) /\
  take (length bs) (drop (Z.to_nat off) c') = bs /\
  (forall k, (k < length c)%nat -> Z.of_nat k < off \/ off + Z.of_nat (length bs) <= Z.of_nat k -> c' !! k = c !! k).

Lemma finish_write s i n fd g buf off len :
  vfs_ok s -> nodes s !! i = Some n -> 0 <= off -> 0 <= len -> off + len <= capacity n -> caller_buffer s buf len ->
  open_at s fd = Some g -> 0 <= fnode g < Z.of_nat VFS_MAX_NODES ->
  let stop := off + len in
  let m := al_set_ram (mem s) (memcpy (al_ram (mem s)) (data n + off) buf len) in
  let s1 := set_open (set_mem s m) fd (Open true (fnode g) stop (flags g)) in
  let n' := Node (used n) (inode n) (type n) (parent n) (name n) (data n) stop (capacity n) in
  let s' := if size n <? stop then set_node s1 (Z.of_nat i) n' else s1 in
  vfs_ok s' /\ (forall j, j <> i -> content s' j = content s j) /\
  open_at s' fd = Some (Open true (fnode g) stop (flags g)) /\ type <$> nodes s' !! i = Some (type n) /\
  exists c', content s' i = Some c' /\
    written (bytes_at (al_ram (mem s)) (data n) (Z.to_nat (size n))) c' (bytes_at (al_ram (mem s)) buf (Z.to_nat len)) off.
Proof.
  intros Hok Hn Ho Hl Hcap Hbuf Hg Hgn stop m s1 n' s'.
  destruct (copy_in s i n buf off len Hok Hn Ho Hl Hcap Hbuf) as (Hcw & Hrd & Hout & Hoth).
  destruct (al_set_ram_law (mem s) _ (vo_mem s Hok) Hcw) as (Hm & Hown & Hram & _). fold m in Hm, Hown, Hram.
  assert (0 <= size n <= capacity n) as Hsz
    by (destruct (vo_data s Hok i n Hn) as [(_ & -> & ->)|(_ & _ & ? & _)]; lia).
  set (n3 := if size n <? stop then n' else n).
  assert (s' = set_open (set_node (set_mem s m) (Z.of_nat i) n3) fd (Open true (fnode g) stop (flags g))) as Es'.
  { unfold s', n3, s1. destruct (size n <? stop); [done|]. rewrite set_node_id; [done|done]. }
  assert (size n3 = Z.max (size n) stop /\ data n3 = data n /\ capacity n3 = capacity n /\ used n3 = used n /\
    type n3 = type n /\ parent n3 = parent n /\ name n3 = name n) as (Esz & Ed & Ec & Eu & Et & Ep & Enm).
  { unfold n3. destruct (Z.ltb_spec (size n) stop); cbn; split_and!; try done; lia. }
  assert (vfs_ok (set_node (set_mem s m) (Z.of_nat i) n3)) as Hok3.
  { destruct (ok_keep_parent s i n n3 Hok Hn Eu Ep Enm) as [Hpar Hroot].
    apply (ok_change s m i n n3); try done; [by rewrite Eu| | |].
    - destruct (vo_data s Hok i n Hn) as [(Hd & Hc0 & Hz)|(Hd & Hc0 & Hz & u & Hu & Hcu)]; [left|right]; rewrite ?Ed, ?Ec, ?Esz.
      + split_and!; [done|done|lia].
      + split_and!; try done; try lia. exists u. by rewrite Hown.
    - apply all_data_keep; [done|]. intros j a u _ _ _. by rewrite Hown.
    - intros j a Hj Ha Hd E. rewrite Ed in *. apply Hj. apply (vo_distinct s Hok j i a n); congruence. }
  rewrite Es'. split_and!.
  - apply ok_set_open; [done|done|cbn; lia].
  - intros j Hj. unfold content. cbn [nodes set_open mem]. rewrite lookup_set_node, decide_False by congruence.
    cbn [nodes set_mem mem set_node]. destruct (nodes s !! j) as [a|] eqn:Ha; [|done]. cbn. f_equal. rewrite Hram.
    destruct (decide (data a = 0)) as [Hd|Hd].
    + destruct (vo_data s Hok j a Ha) as [(_ & _ & ->)|(? & _)]; done.
    + destruct (data_extent s j a Hok Ha Hd) as (u & Hu & ? & ? & ?). apply bytes_at_ext. intros x Hx.
      eapply (Hoth j a u); try done. unfold in_block. lia.
  - by apply (open_at_set (set_node (set_mem s m) (Z.of_nat i) n3) fd g).
  - cbn [nodes set_open]. rewrite lookup_set_node, decide_True by done. cbn [nodes set_mem]. rewrite Hn. cbn. by rewrite Et.
  - eexists. split.
    { unfold content. cbn [nodes set_open mem]. rewrite lookup_set_node, decide_True by done.
      cbn [nodes set_mem mem set_node]. rewrite Hn. cbn. rewrite Hram, Ed, Esz. done. }
    unfold written. rewrite !length_bytes_at. split_and!; [unfold stop; lia| |].
    + rewrite bytes_at_slice by (unfold stop; lia). apply list_eq. intros k.
      destruct (decide (k < Z.to_nat len)%nat); [|by rewrite !lookup_ge_None_2 by (rewrite length_bytes_at; lia)].
      rewrite !lookup_bytes_at by done. rewrite Hrd, decide_True by lia. do 2 f_equal. lia.
    + intros k Hk Hout'. rewrite !lookup_bytes_at by lia. by rewrite Hrd, decide_False by lia.
Qed.

Lemma vfs_write_spec s fd f i n c buf len :
  vfs_ok s -> open_at s fd = Some f -> fnode f = Z.of_nat i -> nodes s !! i = Some n -> type n = VFS_TYPE_FILE ->
  content s i = Some c -> buf <> 0 -> 0 <= len -> write_offset f n + len <= FILE_LIMIT -> caller_buffer s buf len ->
  exists s' r, vfs_write s fd buf len = Ret (s', r) /\ vfs_ok s' /\ (forall j, j <> i -> content s' j = content s j) /\
    ((r = -1 /\ content s' i = Some c) \/
     (r = len /\ open_at s' fd = Some (Open true (fnode f) (write_offset f n + len) (flags f)) /\
      type <$> nodes s' !! i = Some VFS_TYPE_FILE /\
      exists c', content s' i = Some c' /\ written c c' (bytes_at (al_ram (mem s)) buf (Z.to_nat len)) (write_offset f n))).
Proof.
  intros Hok Hf Hi Hn Hty Hc Hbuf0 Hlen Hlim Hbuf. unfold vfs_write. rewrite Hf.
  rewrite (proj2 (Z.eqb_neq _ _) Hbuf0), Hi, (node_at_nat _ _ _ Hn). cbn [mbind outcome_bind].
  rewrite Hty. cbn [Z.eqb negb VFS_TYPE_FILE Pos.eqb]. fold (write_offset f n). set (off := write_offset f n) in *.
  destruct (open_node s fd f Hok Hf) as (_ & _ & _ & _ & _ & Hoff).
  assert (0 <= off) as Hoff0.
  { unfold off, write_offset. case_match; [|done].
    destruct (vo_data s Hok i n Hn) as [(_ & _ & ->)|(_ & _ & ? & _)]; lia. }
  assert (0 <= fnode f < Z.of_nat VFS_MAX_NODES) as Hfr
    by (apply (vo_open s Hok (Z.to_nat fd) f); by apply open_at_Some in Hf as (_ & ? & _)).
  set (g := Open true (Z.of_nat i) off (flags f)). set (s0 := set_open s fd g).
  assert (vfs_ok s0) as Hok0 by (apply ok_set_open; [done|cbn; lia|done]).
  assert (open_at s0 fd = Some g) as Hg0 by (by eapply open_at_set).
  rewrite u64_small by (unfold FILE_LIMIT in *; lia).
  destruct (ensure_capacity_spec s0 i n (off + len) Hok0 Hn) as (s1 & ok & n1 & -> & Hok1 & Hsame & Hnodes & Hkeep & Hcap); [lia|].
  destruct Hsame as (Hcont & Hout & Hopen & _). cbn [mbind outcome_bind].
  assert (forall j, content s1 j = content s j) as Hcont1 by (intros j; by rewrite Hcont).
  destruct ok; cbn [negb].
  2: { exists s1, (-1). split_and!; try done. left. split; [done|]. by rewrite Hcont1. }
  assert (nodes s1 !! i = Some n1) as Hn1.
  { rewrite Hnodes. apply list_lookup_insert_eq. by eapply lookup_lt_Some. }
  rewrite (node_at_nat _ _ _ Hn1). cbn [mbind outcome_bind].
  assert (open_at s1 fd = Some g) as Hg1 by (unfold open_at in *; by rewrite Hopen).
  assert (caller_buffer s1 buf len) as Hbuf1 by (intros x Hx; apply Hout, Hbuf, Hx).
  destruct (finish_write s1 i n1 fd g buf off len Hok1 Hn1 Hoff0 Hlen (Hcap eq_refl) Hbuf1 Hg1) as (Hok2 & Hc2 & Hg2 & Ht2 & c' & Hc' & Hw).
  { cbn. lia. }
  eexists _, _. split; [done|]. split; [exact Hok2|]. split.
  { intros j Hj. rewrite Hc2 by done. apply Hcont1. }
  right. split_and!; [rewrite s64_small; [done|unfold FILE_LIMIT in *; lia]|done| |].
  { etrans; [exact Ht2|]. destruct Hkeep as (_ & _ & -> & _). by rewrite Hty. }
  exists c'. split; [exact Hc'|]. pose proof (Hcont1 i) as Hci. rewrite Hc in Hci. unfold content in Hci.
  rewrite Hn1 in Hci. injection Hci as <-.
  replace (bytes_at (al_ram (mem s)) buf (Z.to_nat len)) with (bytes_at (al_ram (mem s1)) buf (Z.to_nat len)); [done|].
  apply bytes_at_ext. intros x Hx. apply Hout, Hbuf. lia.
Qed.
End VfsProofs.
