(* ===== verification/VfsTree.v ===== *)
(** * kernel/vfs.c: the tree

    The parent links of the nodes.  Every call but one keeps all nodes below the
    root; moving a directory with [vfs_rename] does when the place it is moved to
    is not inside it, which the code does not check. *)

From Stdlib Require Import ZArith Lia.
From stdpp Require Import base numbers gmap strings fin_maps option list.
From S2P Require Import Prelude MemUtils Allocator Vfs VfsPaths VfsProofs.

Local Open Scope Z_scope.

Section Tree.
Context {St : Type} `{AllocatorLaws St}.
Implicit Types s : vfs St.

(** A node from which the parent links lead to the root. *)
Inductive rooted s : Z -> Prop :=
| rooted_root : rooted s 0
| rooted_up i n : used_node s i = Some n -> rooted s (parent n) -> rooted s i.
Definition is_tree s : Prop := forall i n, used_node s i = Some n -> rooted s i.
(** [j] is the node [i] or lies below it. *)
Inductive below s (i : Z) : Z -> Prop :=
| below_self : below s i i
| below_up j n : used_node s j = Some n -> below s i (parent n) -> below s i j.

(** ** What calls do to the links *)

(** Nodes in use had their parents before. *)
Definition keeps_links s s' : Prop :=
  forall i n', used_node s' i = Some n' -> exists n, used_node s i = Some n /\ parent n' = parent n.
(** Or they are new, below a node that was in use. *)
Definition grows s s' : Prop :=
  forall i n', used_node s' i = Some n' ->
    (exists n, used_node s i = Some n /\ parent n' = parent n) \/ (used_node s i = None /\ is_Some (used_node s (parent n'))).

Lemma same_nodes_links s s' : nodes s' = nodes s -> keeps_links s s'.
Proof. intros E i n. unfold used_node. rewrite E. intros Hn. by exists n. Qed.
Lemma links_refl s : keeps_links s s.
Proof. by apply same_nodes_links. Qed.
Lemma links_trans s1 s2 s3 : keeps_links s1 s2 -> keeps_links s2 s3 -> keeps_links s1 s3.
Proof. intros H1 H2 i n3 (n2 & Hn2 & ->)%H2. by apply H1. Qed.
Lemma links_grow s s' : keeps_links s s' -> grows s s'.
Proof. intros Hk i n' Hn. left. by apply Hk. Qed.
Lemma grows_links s1 s2 s3 : grows s1 s2 -> keeps_links s2 s3 -> grows s1 s3.
Proof. intros Hg Hk i n3 (n2 & Hn2 & ->)%Hk. by apply Hg. Qed.

Lemma node_at_lookup s i n : node_at s i = Ret n <-> 0 <= i /\ nodes s !! Z.to_nat i = Some n.
Proof.
  unfold node_at. destruct (Z.ltb_spec i 0); [split; [done|lia]|]. destruct (nodes s !! Z.to_nat i); [|split; [done|by intros [_ ?]]].
  split; [by intros [= <-]|by intros [_ [= <-]]].
Qed.
Lemma used_set_node s i n n' j : node_at s i = Ret n ->
  used_node (set_node s i n') j = if decide (j = i) then (if used n' then Some n' else None) else used_node s j.
Proof.
  intros [Hi Hn]%node_at_lookup. pose proof (lookup_lt_Some _ _ _ Hn) as Hl. unfold used_node. cbn [nodes set_node].
  destruct (Z.ltb_spec j 0) as [Hj|Hj]; [by destruct (decide (j = i)); [lia|]|]. destruct (decide (j = i)) as [->|Hne].
  - by rewrite list_lookup_insert_eq.
  - by rewrite list_lookup_insert_ne by lia.
Qed.
Lemma links_set_node s i n n' : node_at s i = Ret n -> (used n' = true -> used n = true /\ parent n' = parent n) -> keeps_links s (set_node s i n').
Proof.
  intros Hn Hu j m. rewrite (used_set_node s i n n' j Hn). destruct (decide (j = i)) as [->|]; [|by exists m].
  destruct (used n') eqn:E; [|done]. intros [= <-]. destruct (Hu eq_refl) as [Hun Hp]. exists n. split; [|done].
  apply used_node_Some. apply node_at_lookup in Hn as [? ?]. done.
Qed.
Lemma links_set_mem s m : keeps_links s (set_mem s m).
Proof. by apply same_nodes_links. Qed.
Lemma links_set_open s fd f : keeps_links s (set_open s fd f).
Proof. by apply same_nodes_links. Qed.

Lemma drop_links s i n s' : node_at s i = Ret n -> drop_node s i n = Ret s' -> keeps_links s s'.
Proof.
  intros Hn E. unfold drop_node in E. inv_bind E. injection E as <-. eapply links_trans; [apply (links_set_mem s r)|].
  by apply (links_set_node _ i n).
Qed.
Lemma ensure_links s i need s' ok : ensure_capacity s i need = Ret (s', ok) -> keeps_links s s'.
Proof.
  unfold ensure_capacity. intros E. inv_bind E. rename r into n. case_test_in E; [injection E as <- <-; apply links_refl|].
  inv_bind E. inv_bind E. destruct r0 as [m p]. cbv zeta in E. destruct (p =? 0); [injection E as <- <-; apply links_set_mem|].
  set (s1 := if negb (data n =? 0) && _ then _ else _) in E. assert (nodes s1 = nodes s) as En by (unfold s1; by destruct (negb (data n =? 0) && negb (size n =? 0))).
  inv_bind E. injection E as <- <-. eapply links_trans; [by apply (same_nodes_links s (set_mem s1 r0))|].
  apply (links_set_node _ i n); [|done]. apply node_at_lookup. cbn [nodes set_mem]. rewrite En. by apply node_at_lookup.
Qed.
Lemma alloc_grows s ty par nm len : is_Some (used_node s par) -> grows s (alloc_node s ty par nm len).1.
Proof.
  intros Hp. unfold alloc_node. destruct (find_index _ (nodes s) 0) as [j|] eqn:E; [|apply links_grow, links_refl].
  apply find_index_Some in E as (n & _ & Hn & Hu & _). rewrite Nat.sub_0_r in Hn. apply negb_true_iff in Hu. intros i n'. cbn [fst].
  unfold used_node at 1. cbn [nodes]. destruct (Z.ltb_spec i 0); [done|]. destruct (decide (Z.to_nat i = j)) as [Ej|Hne].
  - rewrite Ej, list_lookup_insert_eq by (by eapply lookup_lt_Some). intros [= <-]. right. split; [|done].
    unfold used_node. rewrite (proj2 (Z.ltb_ge i 0)), Ej, Hn by lia. cbn. by rewrite Hu.
  - rewrite list_lookup_insert_ne by done. intros Hi. left. exists n'. split; [|done]. unfold used_node. by rewrite (proj2 (Z.ltb_ge i 0)) by lia.
Qed.

(** ** The calls *)

Lemma mkdir_grows s path s' r : vfs_ok s -> vfs_mkdir s path = Ret (s', r) -> grows s s'.
Proof.
  intros Hok. unfold vfs_mkdir. destruct (resolve_parent_spec s path Hok) as (p & -> & Hp). cbn [mbind outcome_bind].
  destruct p as [[[par leaf] len]|]; [|intros [= <- <-]; apply links_grow, links_refl].
  case_match; [intros [= <- <-]; apply links_grow, links_refl|]. destruct (Hp _ _ _ eq_refl) as [(d & Hd & _) _].
  pose proof (alloc_grows s VFS_TYPE_DIR par leaf len ltac:(by eexists)) as Hg. destruct (alloc_node _ _ _ _ _). by intros [= <- <-].
Qed.
Lemma unlink_links s path s' r : vfs_unlink s path = Ret (s', r) -> keeps_links s s'.
Proof.
  unfold vfs_unlink. intros E. inv_bind E. case_test_in E; [injection E as <- <-; apply links_refl|]. inv_bind E.
  case_test_in E; [injection E as <- <-; apply links_refl|]. inv_bind E. injection E as <- <-. by eapply drop_links.
Qed.
Lemma rmdir_links s path s' r : vfs_rmdir s path = Ret (s', r) -> keeps_links s s'.
Proof.
  unfold vfs_rmdir. intros E. inv_bind E. case_test_in E; [injection E as <- <-; apply links_refl|]. inv_bind E.
  case_test_in E; [injection E as <- <-; apply links_refl|]. inv_bind E. injection E as <- <-.
  set (s0 := if cwd_node s =? r0 then set_cwd s 0 else s) in *. assert (nodes s0 = nodes s) as En by (unfold s0; by case_match).
  eapply links_trans; [by apply (same_nodes_links s s0)|]. eapply drop_links; [|eassumption].
  apply node_at_lookup. rewrite En. by apply node_at_lookup.
Qed.
Lemma chdir_links s path s' r : vfs_chdir s path = Ret (s', r) -> keeps_links s s'.
Proof.
  unfold vfs_chdir. intros E. inv_bind E. case_test_in E; [injection E as <- <-; apply links_refl|]. inv_bind E.
  case_test_in E; injection E as <- <-; by apply same_nodes_links.
Qed.
Lemma open_grows s path fl s' r : vfs_ok s -> vfs_open s path fl = Ret (s', r) -> grows s s'.
Proof.
  intros Hok. unfold vfs_open. intros E. inv_bind E. rename r0 into i0. inv_bind E. destruct r0 as [s1 i1].
  assert (grows s s1) as Hg.
  { case_test_in E1; [|injection E1 as <- <-; apply links_grow, links_refl]. destruct (resolve_parent_spec s path Hok) as (p & Ep & Hp).
    rewrite Ep in E1. cbn [mbind outcome_bind] in E1. destruct p as [[[par leaf] len]|]; [|injection E1 as <- <-; apply links_grow, links_refl].
    destruct (Hp _ _ _ eq_refl) as [(d & Hd & _) _]. pose proof (alloc_grows s VFS_TYPE_FILE par leaf len ltac:(by eexists)) as Hg.
    destruct (alloc_node _ _ _ _ _). by injection E1 as <- <-. }
  case_test_in E; [by injection E as <- <-|]. inv_bind E. rename r0 into n. case_test_in E; [by injection E as <- <-|].
  inv_bind E. rename r0 into s2. assert (keeps_links s1 s2) as Hk.
  { case_test_in E3; [|injection E3 as <-; apply links_refl]. inv_bind E3. destruct r0 as [s3 ok]. inv_bind E3. injection E3 as <-.
    eapply links_trans; [by eapply ensure_links|]. destruct ok; [|apply links_refl]. by eapply links_set_node. }
  eapply grows_links; [exact Hg|]. eapply links_trans; [exact Hk|]. case_match; [|injection E as <- <-; apply links_refl].
  inv_bind E. injection E as <- <-. apply links_set_open.
Qed.
Lemma lseek_links s fd off wh s' r : vfs_lseek s fd off wh = Ret (s', r) -> keeps_links s s'.
Proof.
  unfold vfs_lseek. destruct (open_at s fd); [|intros [= <- <-]; apply links_refl]. intros E. inv_bind E.
  case_match; [|injection E as <- <-; apply links_refl]. case_test_in E; injection E as <- <-; [apply links_refl|apply links_set_open].
Qed.
Lemma close_links s fd : keeps_links s (vfs_close s fd).1.
Proof. unfold vfs_close. destruct (open_at s fd); [apply links_set_open|apply links_refl]. Qed.
Lemma getdents_links s fd max s' r es : vfs_getdents s fd max = Ret (s', r, es) -> keeps_links s s'.
Proof.
  unfold vfs_getdents. destruct (open_at s fd); [|intros [= <- <- <-]; apply links_refl]. intros E. inv_bind E.
  case_test_in E; injection E as <- <- <-; [apply links_refl|apply links_set_open].
Qed.
Lemma read_links s fd buf len s' r : vfs_read s fd buf len = Ret (s', r) -> keeps_links s s'.
Proof.
  unfold vfs_read. destruct (open_at s fd); [|intros [= <- <-]; apply links_refl]. intros E.
  case_test_in E; [injection E as <- <-; apply links_refl|]. inv_bind E.
  do 2 (case_test_in E; [injection E as <- <-; apply links_refl|]). injection E as <- <-. by apply same_nodes_links.
Qed.
Lemma write_links s fd buf len s' r : vfs_write s fd buf len = Ret (s', r) -> keeps_links s s'.
Proof.
  unfold vfs_write. destruct (open_at s fd) as [f|]; [|intros [= <- <-]; apply links_refl]. intros E.
  case_test_in E; [injection E as <- <-; apply links_refl|]. inv_bind E.
  case_test_in E; [injection E as <- <-; apply links_refl|]. inv_bind E. destruct r1 as [s1 ok]. apply ensure_links in E1.
  destruct ok; cbn [negb] in E; [|by injection E as <- <-]. inv_bind E. rename r1 into n. injection E as <- <-.
  eapply links_trans; [exact E1|]. destruct (size n <? _); [|by apply same_nodes_links].
  set (s2 := set_open _ _ _). eapply links_trans; [by apply (same_nodes_links s1 s2)|]. by apply (links_set_node s2 (fnode f) n).
Qed.

(** ** The tree stays one *)

Lemma rooted_grows s s' : vfs_ok s -> vfs_ok s' -> is_tree s -> grows s s' -> is_tree s'.
Proof.
  intros Hok Hok' Ht Hg.
  assert (forall i, rooted s i -> forall n, used_node s i = Some n -> forall n', used_node s' i = Some n' -> rooted s' i) as Hold.
  { assert (forall i n', used_node s' i = Some n' -> is_Some (used_node s' (parent n'))) as Hup.
    { intros i n' (_ & Hn & Hu)%used_node_Some. destruct (vo_parent s' Hok' _ _ Hn Hu) as [(d & Hd & _) _]. by exists d. }
    induction 1 as [|i n Hn Hr IH]; intros m Hm n' Hn'; [apply rooted_root|]. rewrite Hn in Hm. injection Hm as <-.
    destruct (Hg i n' Hn') as [(n1 & Hn1 & Ep)|[Hno _]]; [|congruence]. rewrite Hn in Hn1. injection Hn1 as <-.
    apply (rooted_up s' i n' Hn'). rewrite Ep. destruct (Hup i n' Hn') as [d' Hd']. rewrite Ep in Hd'.
    apply used_node_Some in Hn as (_ & Hl & Hu). destruct (vo_parent s Hok _ _ Hl Hu) as [(d & Hd & _) _]. by eapply IH. }
  intros i n' Hn'. destruct (Hg i n' Hn') as [(n & Hn & _)|[_ [d Hd]]]; [by eapply Hold; [eapply Ht|..]|].
  apply (rooted_up s' i n' Hn'). apply used_node_Some in Hn' as (_ & Hl & Hu). destruct (vo_parent s' Hok' _ _ Hl Hu) as [(d' & Hd' & _) _].
  by eapply Hold; [eapply Ht|..].
Qed.

(** A move out of the tree below the node. *)
Definition outward_move s (old new : option (list Z)) : Prop :=
  forall i par leaf len, resolve_path s old = Ret i -> resolve_parent s new = Ret (Some (par, leaf, len)) -> ~ below s i par.
Lemma rooted_rename s old new s' r : vfs_ok s -> is_tree s -> outward_move s old new -> vfs_rename s old new = Ret (s', r) -> is_tree s'.
Proof.
  intros Hok Ht Hmove E. unfold vfs_rename in E. inv_bind E. rename r0 into i. case_test_in E; [by injection E as <- <-|].
  destruct (resolve_parent_spec s new Hok) as (p & Ep & Hp). rewrite Ep in E. cbn [mbind outcome_bind] in E.
  destruct p as [[[par leaf] len]|]; [|by injection E as <- <-]. case_test_in E; [by injection E as <- <-|]. inv_bind E. rename r0 into n.
  destruct (Hp _ _ _ eq_refl) as [(d & Hd & _) _]. specialize (Hmove _ _ _ _ E0 Ep).
  injection E as <- <-. set (n' := Node _ _ _ _ _ _ _ _). set (s' := set_node s i n').
  assert (forall j, rooted s j -> ~ below s i j -> rooted s' j) as Hout.
  { induction 1 as [|j m Hm Hr IH]; intros Hb; [apply rooted_root|]. apply (rooted_up s' j m).
    - unfold s'. rewrite (used_set_node s i n n' j E1), decide_False; [done|]. intros ->. apply Hb, below_self.
    - apply IH. intros Hb'. apply Hb. by eapply below_up. }
  assert (rooted s' par) as Hpar by (apply Hout; [by eapply Ht|done]).
  assert (forall j, rooted s j -> rooted s' j) as Hall.
  { induction 1 as [|j m Hm Hr IH]; [apply rooted_root|]. destruct (decide (j = i)) as [->|Hne].
    - apply (rooted_up s' i n'); [|exact Hpar]. unfold s'. rewrite (used_set_node s i n n' i E1), decide_True by done.
      apply used_node_Some in Hm as (_ & Hl & Hu). apply node_at_lookup in E1 as [_ E1]. rewrite Hl in E1. injection E1 as ->. cbn. by rewrite Hu.
    - apply (rooted_up s' j m); [|done]. unfold s'. by rewrite (used_set_node s i n n' j E1), decide_False. }
  intros j m Hm. unfold s' in Hm. rewrite (used_set_node s i n n' j E1) in Hm. destruct (decide (j = i)) as [->|]; [|by apply Hall; eapply Ht].
  cbn in Hm. destruct (used n) eqn:Hu; [|done]. apply Hall. eapply Ht. apply used_node_Some. by apply node_at_lookup in E1 as [? ?].
Qed.
End Tree.
