(* ===== verification/VfsTheorems.v ===== *)
(** * kernel/vfs.c: theorems

    All operations are total and keep the file system well formed, whatever
    sequence of calls is made; what is written is read back; and a few
    behaviours of the code that its callers would not expect. *)

From Stdlib Require Import ZArith Lia.
From stdpp Require Import base numbers gmap strings fin_maps option list relations.
From S2P Require Import Prelude MemUtils Heap HeapTheorems Allocator MemApps Vfs VfsPaths VfsProofs VfsTree.

Local Open Scope Z_scope.

Section VfsTheorems.
Context {St : Type} `{AllocatorLaws St}.
Implicit Types s : vfs St.

(** ** The tree operations *)

Lemma used_node_nat s i n : used_node s (Z.of_nat i) = Some n <-> nodes s !! i = Some n /\ used n = true.
Proof. rewrite used_node_Some, Nat2Z.id. split; [naive_solver|]. intros [? ?]. split_and!; [lia|done|done]. Qed.

Lemma ok_inode s k : vfs_ok s -> vfs_ok (Vfs (mem s) (nodes s) (open_files s) k (cwd_node s) (ready s)).
Proof. intros Hok. destruct Hok. by split. Qed.
Lemma ok_set_cwd s c : vfs_ok s -> dir_at s c -> vfs_ok (set_cwd s c).
Proof. intros Hok Hd. destruct Hok. by split. Qed.

Lemma length_copy_name nm len : (length (copy_name nm len) <= VFS_MAX_NAME)%nat.
Proof. unfold copy_name. rewrite length_take. lia. Qed.

Lemma alloc_node_spec s ty par nm len :
  vfs_ok s -> dir_at s par ->
  exists s' r, alloc_node s ty par nm len = (s', r) /\ vfs_ok s' /\ mem s' = mem s /\ open_files s' = open_files s /\
    ((r = -1 /\ s' = s) \/
     (exists i n, r = Z.of_nat i /\ nodes s !! i = Some n /\ used n = false /\
        nodes s' = <[i := Node true (next_inode s) ty par (copy_name nm len) 0 0 0]> (nodes s))).
Proof.
  intros Hok Hpar. unfold alloc_node. destruct (find_index _ (nodes s) 0) as [i|] eqn:Hf.
  2: { exists s, (-1). split_and!; try done. by left. }
  apply find_index_Some in Hf as (n & _ & Hn & Hu & _). rewrite Nat.sub_0_r in Hn. apply negb_true_iff in Hu.
  set (n' := Node true (next_inode s) ty par (copy_name nm len) 0 0 0).
  assert (vfs_ok (set_node (set_mem s (mem s)) (Z.of_nat i) n')) as Hok'.
  { apply (ok_change s (mem s) i n n'); try done.
    - apply (vo_mem s Hok).
    - congruence.
    - intros _. split; [done|]. apply length_copy_name.
    - intros ->. destruct (vo_root s Hok) as [(d & (_ & Hd & Hud)%used_node_Some & _) _]. change (Z.to_nat 0) with O in Hd.
      rewrite Hn in Hd. injection Hd as <-. congruence.
    - by left.
    - intros j a _ Ha. by apply (vo_data s Hok j). }
  eexists _, _. split; [done|]. split_and!; [|done|done|].
  - pose proof (ok_inode _ (u32 (next_inode s + 1)) Hok') as Ho. cbn in Ho. by rewrite Nat2Z.id in Ho.
  - right. by exists i, n.
Qed.

Lemma no_children s i : child_count s i = 0 ->
  forall j a, nodes s !! j = Some a -> Z.of_nat j <> i -> used a = true -> parent a <> i.
Proof.
  intros Hc j a Ha Hj Hu Hp. unfold child_count in Hc.
  assert ((Z.of_nat j, a) ∈ indexed s) as Hin
    by (unfold indexed; by apply (elem_of_lookup_imap_2 (fun i n => (Z.of_nat i, n)) _ a j)).
  assert (forall l : list (Z * vfs_node_t), (Z.of_nat j, a) ∈ l -> 0 < sumz (fun e => if is_child i e then 1 else 0) l) as Hpos.
  { assert (forall l : list (Z * vfs_node_t), 0 <= sumz (fun e => if is_child i e then 1 else 0) l) as Hnn.
    { intros l. apply sumz_nonneg. intros e _. by case_match. }
    intros l Hl. apply list_elem_of_split in Hl as (l1 & l2 & ->). rewrite sumz_app. cbn.
    fold (sumz (fun e => if is_child i e then 1 else 0) l2).
    assert (is_child i (Z.of_nat j, a) = true) as ->.
    { unfold is_child. cbn. rewrite Hu, Hp, Z.eqb_refl, (proj2 (Z.eqb_neq _ _) Hj). done. }
    pose proof (Hnn l1). pose proof (Hnn l2). unfold sumz in *. lia. }
  specialize (Hpos _ Hin). lia.
Qed.

Lemma drop_node_spec s i n :
  vfs_ok s -> nodes s !! i = Some n -> i <> O -> child_count s (Z.of_nat i) = 0 -> cwd_node s <> Z.of_nat i ->
  exists s', drop_node s (Z.of_nat i) n = Ret s' /\ vfs_ok s' /\ nodes s' = <[i := zero_node]> (nodes s) /\
    open_files s' = open_files s /\ (forall j, j <> i -> content s' j = content s j).
Proof.
  intros Hok Hn Hi Hch Hcwd. unfold drop_node.
  assert (exists m, (if data n =? 0 then Ret (mem s) else al_free (mem s) (data n) (capacity n)) = Ret m /\ al_ok m /\
    all_data_ok s m i /\ (forall j a x u, j <> i -> nodes s !! j = Some a -> data a <> 0 ->
      al_owns (mem s) !! data a = Some u -> in_block (data a) u x -> rd (al_ram m) x = rd (al_ram (mem s)) x)) as (m & -> & Hm & Hall & Hram).
  { destruct (Z.eqb_spec (data n) 0) as [Hd|Hd].
    - exists (mem s). split_and!; try done; [apply (vo_mem s Hok)|]. intros j a _ Ha. by apply (vo_data s Hok j).
    - destruct (data_extent s i n Hok Hn Hd) as (u & Hu & Hs & Hc & _).
      destruct (al_free_law (mem s) (data n) (capacity n) u (vo_mem s Hok) Hu) as (m & -> & Hm & Ho & _ & Hr); [lia|].
      exists m. split_and!; try done.
      + apply all_data_keep; [done|]. intros j a v Hj Ha Hda Hv. rewrite Ho, lookup_delete_ne; [done|].
        intros E. by apply Hj, (vo_distinct s Hok j i a n).
      + intros j a x v Hj Ha Hda Hv Hx. apply Hr.
        assert (data n <> data a) as Hne by (intros E; by apply Hj, (vo_distinct s Hok j i a n)).
        pose proof (al_disjoint_law (mem s) _ _ _ _ (vo_mem s Hok) Hu Hv Hne). unfold in_block in *. lia. }
  cbn [mbind outcome_bind]. set (s' := set_node (set_mem s m) (Z.of_nat i) zero_node).
  assert (forall j, nodes s' !! j = if decide (i = j) then Some zero_node else nodes s !! j) as Hlook.
  { intros j. unfold s'. rewrite lookup_set_node. cbn [nodes set_mem]. destruct (decide (i = j)) as [<-|]; [|done]. by rewrite Hn. }
  assert (forall j, j <> Z.of_nat i -> dir_at s j -> dir_at s' j) as Hdir.
  { intros j Hj (d & (Hj0 & Hd & Hu)%used_node_Some & Ht). exists d. split; [|done]. apply used_node_Some.
    rewrite Hlook, decide_False by lia. done. }
  exists s'. split; [done|]. split; [split|].
  - done.
  - unfold s'. cbn. rewrite length_insert. apply (vo_nodes s Hok).
  - apply (vo_opens s Hok).
  - split; [apply Hdir; [lia|apply (vo_root s Hok)]|]. rewrite Hlook, decide_False by done. apply (vo_root s Hok).
  - intros j a Hj Hu. rewrite Hlook in Hj. destruct (decide (i = j)) as [|Hne]; [by injection Hj as <-|].
    destruct (vo_parent s Hok j a Hj Hu). split; [|done]. apply Hdir; [|done].
    eapply no_children; [done|done|lia|done].
  - by apply Hdir, (vo_cwd s Hok).
  - intros j a Hj. rewrite Hlook in Hj. destruct (decide (i = j)) as [|Hne]; [injection Hj as <-; by left|].
    by eapply (Hall j); [congruence|].
  - intros j k a b Hj Hk Ha E. rewrite Hlook in Hj, Hk.
    destruct (decide (i = j)); [by injection Hj as <-|]. destruct (decide (i = k)); [injection Hk as <-; by rewrite E in Ha|].
    by eapply (vo_distinct s Hok).
  - apply (vo_open s Hok).
  - split_and!; [unfold s'; cbn; by rewrite Nat2Z.id|done|]. intros j Hj. unfold content. rewrite Hlook, decide_False by done.
    destruct (nodes s !! j) as [a|] eqn:Ha; [|done]. cbn. f_equal.
    destruct (decide (data a = 0)) as [Hd|Hd].
    + destruct (vo_data s Hok j a Ha) as [(_ & _ & ->)|(? & _)]; done.
    + destruct (data_extent s j a Hok Ha Hd) as (u & Hu & ? & ? & ?). apply bytes_at_ext. intros x Hx.
      eapply (Hram j a x u); try done. unfold in_block. lia.
Qed.

(** A resolved index. *)
Lemma resolved s path : vfs_ok s -> exists r, resolve_path s path = Ret r /\
  (r = -1 \/ exists i n, r = Z.of_nat i /\ nodes s !! i = Some n /\ used n = true).
Proof.
  intros Hok. destruct (resolve_path_spec s path Hok) as (r & Hr & [->|[n Hn]]); [by exists (-1); split; [|left]|].
  exists r. split; [done|]. right. apply used_node_Some in Hn as (? & ? & ?). exists (Z.to_nat r), n.
  rewrite Z2Nat.id by lia. done.
Qed.

Lemma vfs_mkdir_ok s path : vfs_ok s -> exists s' r, vfs_mkdir s path = Ret (s', r) /\ vfs_ok s'.
Proof.
  intros Hok. unfold vfs_mkdir. destruct (resolve_parent_spec s path Hok) as (r & -> & Hr). cbn [mbind outcome_bind].
  destruct r as [[[par leaf] len]|]; [|by eexists _, _]. case_match; [by eexists _, _|].
  destruct (Hr par leaf len eq_refl) as [Hp _].
  destruct (alloc_node_spec s VFS_TYPE_DIR par leaf len Hok Hp) as (s' & i & -> & Hok' & _). by eexists _, _.
Qed.

Lemma vfs_unlink_ok s path : vfs_ok s -> exists s' r, vfs_unlink s path = Ret (s', r) /\ vfs_ok s'.
Proof.
  intros Hok. unfold vfs_unlink. destruct (resolved s path Hok) as (r & -> & Hr). cbn [mbind outcome_bind].
  destruct (Z.leb_spec r 0) as [|Hpos]; [by eexists _, _|].
  destruct Hr as [->|(i & n & -> & Hn & Hu)]; [lia|]. rewrite (node_at_nat _ _ _ Hn). cbn [mbind outcome_bind].
  destruct (is_dir n) eqn:Hd; cbn [orb]; [by eexists _, _|].
  destruct (Z.eqb_spec (child_count s (Z.of_nat i)) 0) as [Hc|]; cbn [negb]; [|by eexists _, _].
  destruct (drop_node_spec s i n Hok Hn ltac:(lia) Hc) as (s' & -> & Hok' & _); [|by eexists _, _].
  intros E. destruct (vo_cwd s Hok) as (d & Hdd & Ht). rewrite E in Hdd. apply used_node_nat in Hdd as [Hdd _].
  rewrite Hn in Hdd. injection Hdd as <-. unfold is_dir in Hd. by rewrite Ht in Hd.
Qed.

Lemma vfs_rmdir_ok s path : vfs_ok s -> exists s' r, vfs_rmdir s path = Ret (s', r) /\ vfs_ok s'.
Proof.
  intros Hok. unfold vfs_rmdir. destruct (resolved s path Hok) as (r & -> & Hr). cbn [mbind outcome_bind].
  destruct (Z.leb_spec r 0) as [|Hpos]; [by eexists _, _|].
  destruct Hr as [->|(i & n & -> & Hn & Hu)]; [lia|]. rewrite (node_at_nat _ _ _ Hn). cbn [mbind outcome_bind].
  destruct (is_dir n) eqn:Hd; cbn [orb negb]; [|by eexists _, _].
  destruct (Z.eqb_spec (child_count s (Z.of_nat i)) 0) as [Hc|]; cbn [negb]; [|by eexists _, _].
  set (s0 := if cwd_node s =? Z.of_nat i then set_cwd s 0 else s).
  assert (vfs_ok s0) as Hok0 by (unfold s0; case_match; [apply ok_set_cwd; [done|apply (vo_root s Hok)]|done]).
  assert (nodes s0 = nodes s) as En by (unfold s0; by case_match).
  destruct (drop_node_spec s0 i n Hok0) as (s' & -> & Hok' & _); [by rewrite En|lia| | |by eexists _, _].
  - unfold child_count, indexed in *. by rewrite En.
  - unfold s0. destruct (Z.eqb_spec (cwd_node s) (Z.of_nat i)); cbn; lia.
Qed.

Lemma vfs_rename_ok s old new : vfs_ok s -> exists s' r, vfs_rename s old new = Ret (s', r) /\ vfs_ok s'.
Proof.
  intros Hok. unfold vfs_rename. destruct (resolved s old Hok) as (r & -> & Hr). cbn [mbind outcome_bind].
  destruct (Z.leb_spec r 0) as [|Hpos]; [by eexists _, _|].
  destruct Hr as [->|(i & n & -> & Hn & Hu)]; [lia|].
  destruct (resolve_parent_spec s new Hok) as (p & -> & Hp). cbn [mbind outcome_bind].
  destruct p as [[[par leaf] len]|]; [|by eexists _, _]. case_match; [by eexists _, _|].
  rewrite (node_at_nat _ _ _ Hn). cbn [mbind outcome_bind]. eexists _, _. split; [done|].
  destruct (Hp par leaf len eq_refl) as [Hpar _].
  pose proof (ok_change s (mem s) i n (Node (used n) (inode n) (type n) par (copy_name leaf len) (data n) (size n) (capacity n))) as Hch.
  replace (set_mem s (mem s)) with s in Hch by (by destruct s). apply Hch; try done.
  - apply (vo_mem s Hok).
  - intros _. split; [done|apply length_copy_name].
  - lia.
  - apply (vo_data s Hok i n Hn).
  - intros j a _ Ha. by apply (vo_data s Hok j).
  - intros j a Hj Ha Hd E. cbn in *. apply Hj. apply (vo_distinct s Hok j i a n); congruence.
Qed.

Lemma vfs_chdir_ok s path : vfs_ok s -> exists s' r, vfs_chdir s path = Ret (s', r) /\ vfs_ok s'.
Proof.
  intros Hok. unfold vfs_chdir. destruct (resolved s path Hok) as (r & -> & Hr). cbn [mbind outcome_bind].
  destruct (Z.ltb_spec r 0) as [|Hpos]; [by eexists _, _|].
  destruct Hr as [->|(i & n & -> & Hn & Hu)]; [lia|]. rewrite (node_at_nat _ _ _ Hn). cbn [mbind outcome_bind].
  unfold is_dir. destruct (Z.eqb_spec (type n) VFS_TYPE_DIR); [|by eexists _, _]. eexists _, _. split; [done|].
  apply ok_set_cwd; [done|]. exists n. split; [|done]. by apply used_node_nat.
Qed.

(** Truncation: the size goes to zero, the buffer stays. *)
Lemma truncate_ok s i n :
  vfs_ok s -> nodes s !! i = Some n ->
  vfs_ok (set_node s (Z.of_nat i) (Node (used n) (inode n) (type n) (parent n) (name n) (data n) 0 (capacity n))).
Proof.
  intros Hok Hn. set (n' := Node _ _ _ _ _ _ 0 _).
  destruct (ok_keep_parent s i n n' Hok Hn eq_refl eq_refl eq_refl) as [Hpar Hroot].
  pose proof (ok_change s (mem s) i n n') as Hch. replace (set_mem s (mem s)) with s in Hch by (by destruct s).
  apply Hch; try done.
  - apply (vo_mem s Hok).
  - destruct (vo_data s Hok i n Hn) as [(? & ? & _)|(? & ? & ? & ?)]; [by left|right]. cbn. split_and!; try done; lia.
  - intros j a _ Ha. by apply (vo_data s Hok j).
  - intros j a Hj Ha Hd E. cbn in *. apply Hj. apply (vo_distinct s Hok j i a n); congruence.
Qed.

(** Memory of others, as a call leaves it. *)
Definition keeps_outside (s s' : vfs St) : Prop :=
  forall x, outside s x -> rd (al_ram (mem s')) x = rd (al_ram (mem s)) x /\ outside s' x.
Lemma keeps_refl s : keeps_outside s s.
Proof. by intros x Hx. Qed.
Lemma keeps_trans s1 s2 s3 : keeps_outside s1 s2 -> keeps_outside s2 s3 -> keeps_outside s1 s3.
Proof. intros H1 H2 x Hx. destruct (H1 x Hx) as [E1 Hx2]. destruct (H2 x Hx2) as [E2 Hx3]. split; [congruence|done]. Qed.
Lemma keeps_caller s s' a n : keeps_outside s s' -> caller_buffer s a n ->
  caller_buffer s' a n /\ bytes_at (al_ram (mem s')) a (Z.to_nat n) = bytes_at (al_ram (mem s)) a (Z.to_nat n).
Proof.
  intros Hk Hb. split; [intros x Hx; by apply Hk, Hb|]. apply bytes_at_ext. intros x Hx. apply Hk, Hb. lia.
Qed.
(** The nodes may change as long as no buffer is taken over. *)
Lemma keeps_nodes s s' : vfs_ok s -> mem s' = mem s ->
  (forall i n, nodes s' !! i = Some n -> data n = 0 \/ exists j m, nodes s !! j = Some m /\ data m = data n) -> keeps_outside s s'.
Proof.
  intros Hok Hm Hn x Hx. rewrite Hm. split; [done|]. unfold outside in *. rewrite Hm.
  destruct Hx as [Hx|(q & v & Hq & Hin & Hno)]; [by left|right]. exists q, v. split_and!; try done.
  intros i n Hi. destruct (Hn i n Hi) as [->|(j & m & Hj & <-)]; [|by eapply Hno].
  destruct (al_range_law (mem s) q v (vo_mem s Hok) Hq). lia.
Qed.

(** The first half of [vfs_open]: the node of the path, created if asked for. *)
Lemma open_locate s path fl r : vfs_ok s ->
  (r = -1 \/ exists i n, r = Z.of_nat i /\ nodes s !! i = Some n /\ used n = true) ->
  exists s1 i1, (if (r <? 0) && has fl VFS_O_CREAT then
      r0 ← resolve_parent s path;
      Ret (match r0 with None => (s, -1) | Some (par, leaf, len) => alloc_node s VFS_TYPE_FILE par leaf len end)
    else Ret (s, r)) = Ret (s1, i1) /\ vfs_ok s1 /\ keeps_outside s s1 /\ open_files s1 = open_files s /\
    (i1 = -1 \/ exists i n, i1 = Z.of_nat i /\ nodes s1 !! i = Some n /\
       (r = Z.of_nat i \/ r = -1 /\ type n = VFS_TYPE_FILE /\ exists m, nodes s !! i = Some m /\ used m = false)).
Proof.
  intros Hok Hr. destruct ((r <? 0) && has fl VFS_O_CREAT)%bool eqn:Ht.
  - apply andb_true_iff in Ht as [Hneg _]. apply Z.ltb_lt in Hneg.
    destruct Hr as [->|(i & n & -> & _)]; [|lia].
    destruct (resolve_parent_spec s path Hok) as (p & -> & Hp). cbn [mbind outcome_bind].
    destruct p as [[[par leaf] len]|]; [|by eexists _, _; split_and!; [done|done|apply keeps_refl|done|left]].
    destruct (Hp par leaf len eq_refl) as [Hpar _].
    destruct (alloc_node_spec s VFS_TYPE_FILE par leaf len Hok Hpar) as (s' & i & -> & Hok' & Hm & Ho & Hc).
    eexists _, _. split; [done|]. destruct Hc as [[-> ->]|(j & n & -> & Hn & Hu & En)];
      [by split_and!; [done|apply keeps_refl|done|left]|].
    assert (j < length (nodes s))%nat as Hj by (by eapply lookup_lt_Some). split_and!; [done| |done|].
    + apply keeps_nodes; [done|done|]. intros l m. rewrite En. intros [(<- & <- & _)|(_ & Hl)]%list_lookup_insert_Some; [by left|].
      right. by exists l, m.
    + right. eexists j, _. split; [done|]. rewrite En, list_lookup_insert_eq by done. split; [done|]. right.
      split; [done|]. split; [done|]. by exists n.
  - eexists _, _. split_and!; [done|done|apply keeps_refl|done|]. destruct Hr as [->|(i & n & -> & Hn & _)]; [by left|right].
    exists i, n. split; [done|]. split; [done|by left].
Qed.
(** The second half: truncation. *)
Lemma open_truncate s i n fl : vfs_ok s -> nodes s !! i = Some n ->
  exists s2 n2, (if has fl VFS_O_TRUNC && (type n =? VFS_TYPE_FILE) then
      '(s, ok) ← ensure_capacity s (Z.of_nat i) 0; n0 ← node_at s (Z.of_nat i);
      Ret (if ok : bool then set_node s (Z.of_nat i) (Node (used n0) (inode n0) (type n0) (parent n0) (name n0) (data n0) 0 (capacity n0)) else s)
    else Ret s) = Ret s2 /\ vfs_ok s2 /\ keeps_outside s s2 /\ open_files s2 = open_files s /\
    nodes s2 !! i = Some n2 /\ type n2 = type n /\
    (has fl VFS_O_TRUNC = true -> type n = VFS_TYPE_FILE -> size n2 = 0).
Proof.
  intros Hok Hn. destruct (has fl VFS_O_TRUNC && (type n =? VFS_TYPE_FILE))%bool eqn:Ht.
  2: { exists s, n. split_and!; try done. intros Hf Hty. rewrite Hf, Hty in Ht. done. }
  unfold ensure_capacity. rewrite (node_at_nat _ _ _ Hn). cbn [mbind outcome_bind].
  assert (0 <= capacity n) as Hcap by (destruct (vo_data s Hok i n Hn) as [(_ & -> & _)|(_ & ? & _)]; lia).
  rewrite (proj2 (Z.leb_le 0 (capacity n))) by done. cbn [mbind outcome_bind]. rewrite (node_at_nat _ _ _ Hn). cbn [mbind outcome_bind].
  assert (i < length (nodes s))%nat as Hi by (by eapply lookup_lt_Some).
  eexists _, _. split; [done|]. split_and!; [by apply truncate_ok| |done| | |].
  - apply keeps_nodes; [done|done|]. intros l m. cbn. rewrite Nat2Z.id.
    intros [(<- & <- & _)|(_ & Hl)]%list_lookup_insert_Some; right; [by exists i, n|by exists l, m].
  - cbn. rewrite Nat2Z.id. by apply list_lookup_insert_eq.
  - done.
  - done.
Qed.

Lemma vfs_open_spec s path fl : vfs_ok s -> exists s' r, vfs_open s path fl = Ret (s', r) /\ vfs_ok s' /\ keeps_outside s s' /\
  (r = -1 \/ 0 <= r /\ exists i n, open_at s' r = Some (Open true (Z.of_nat i) (if has fl VFS_O_APPEND then size n else 0) fl) /\
     nodes s' !! i = Some n /\ (has fl VFS_O_TRUNC = true -> type n = VFS_TYPE_FILE -> size n = 0) /\
     (resolve_path s path = Ret (Z.of_nat i) \/
      resolve_path s path = Ret (-1) /\ type n = VFS_TYPE_FILE /\ exists m, nodes s !! i = Some m /\ used m = false)).
Proof.
  intros Hok. unfold vfs_open. destruct (resolved s path Hok) as (r & Er & Hr). rewrite Er. cbn [mbind outcome_bind].
  destruct (open_locate s path fl r Hok Hr) as (s1 & i1 & -> & Hok1 & Hk1 & Ho1 & Hi1).
  cbn [mbind outcome_bind]. destruct (Z.ltb_spec i1 0) as [|Hpos]; [eexists _, _; split_and!; [done..|by left]|].
  destruct Hi1 as [->|(i & n & -> & Hn & Hnew)]; [lia|]. rewrite (node_at_nat _ _ _ Hn). cbn [mbind outcome_bind].
  destruct (is_dir n && _)%bool; [eexists _, _; split_and!; [done..|by left]|].
  destruct (open_truncate s1 i n fl Hok1 Hn) as (s2 & n2 & -> & Hok2 & Hk2 & Ho2 & Hn2 & Hty & Hsz).
  cbn [mbind outcome_bind]. pose proof (keeps_trans _ _ _ Hk1 Hk2) as Hk.
  destruct (find_index _ (open_files s2) 0) as [fd|] eqn:Hfd; [|eexists _, _; split_and!; [done..|by left]].
  rewrite (node_at_nat _ _ _ Hn2). cbn [mbind outcome_bind]. eexists _, _. split; [done|].
  assert (i < VFS_MAX_NODES)%nat as Hi by (apply lookup_lt_Some in Hn2; by rewrite (vo_nodes s2 Hok2) in Hn2).
  apply find_index_Some in Hfd as (f & _ & Hf & _). rewrite Nat.sub_0_r in Hf.
  assert (fd < VFS_MAX_OPEN)%nat as Hlt by (apply lookup_lt_Some in Hf; by rewrite (vo_opens s2 Hok2) in Hf).
  split_and!.
  - apply ok_set_open; [done|cbn; lia|]. cbn. case_match; [|lia].
    destruct (vo_data s2 Hok2 i n2 Hn2) as [(_ & _ & ->)|(_ & _ & ? & _)]; lia.
  - exact Hk.
  - right. split; [lia|]. exists i, n2. split_and!.
    + apply open_at_Some. split_and!; [lia..| |done]. cbn. rewrite Nat2Z.id. apply list_lookup_insert_eq. by eapply lookup_lt_Some.
    + done.
    + intros Ht He. apply Hsz; congruence.
    + destruct Hnew as [->|(-> & He & Hm)]; [by left|right]. split_and!; [done|congruence|done].
Qed.
Lemma vfs_open_ok s path fl : vfs_ok s -> exists s' r, vfs_open s path fl = Ret (s', r) /\ vfs_ok s'.
Proof. intros Hok. destruct (vfs_open_spec s path fl Hok) as (s' & r & Hr & Hok' & _). by exists s', r. Qed.

Lemma vfs_lseek_ok s fd off wh : vfs_ok s -> exists s' r, vfs_lseek s fd off wh = Ret (s', r) /\ vfs_ok s'.
Proof.
  intros Hok. unfold vfs_lseek. destruct (open_at s fd) as [f|] eqn:Hf; [|by eexists _, _].
  destruct (open_node s fd f Hok Hf) as (i & n & Hi & Hn & Hat & _). rewrite Hat. cbn [mbind outcome_bind].
  assert (0 <= fnode f < Z.of_nat VFS_MAX_NODES) as Hr
    by (rewrite Hi; apply lookup_lt_Some in Hn; rewrite (vo_nodes s Hok) in Hn; lia).
  set (base := if wh =? VFS_SEEK_SET then _ else _). destruct base as [b|]; [|by eexists _, _].
  case_match; [by eexists _, _|]. eexists _, _. split; [done|].
  apply ok_set_open; [done|done|]. cbn. apply u64_range.
Qed.

Lemma vfs_close_ok s fd : vfs_ok s -> vfs_ok (vfs_close s fd).1.
Proof.
  intros Hok. unfold vfs_close. destruct (open_at s fd); [|done]. apply ok_set_open; [done|cbn; unfold VFS_MAX_NODES; lia|done].
Qed.

Lemma vfs_getdents_ok s fd max : vfs_ok s -> exists s' r es, vfs_getdents s fd max = Ret (s', r, es) /\ vfs_ok s'.
Proof.
  intros Hok. unfold vfs_getdents. destruct (open_at s fd) as [f|] eqn:Hf; [|by eexists _, _, _].
  destruct (open_node s fd f Hok Hf) as (i & n & Hi & Hn & Hat & _). rewrite Hat. cbn [mbind outcome_bind].
  case_match; [by eexists _, _, _|]. eexists _, _, _. split; [done|]. apply ok_set_open; [done| |cbn; apply u64_range].
  cbn. rewrite Hi. apply lookup_lt_Some in Hn. rewrite (vo_nodes s Hok) in Hn. lia.
Qed.

Lemma vfs_init_ok m : al_ok m -> vfs_ok (vfs_init m).1.
Proof.
  intros Hm. assert (forall i n, nodes (vfs_init m).1 !! i = Some n ->
    (i = O /\ n = Node true 1 VFS_TYPE_DIR 0 [] 0 0 0) \/ n = zero_node) as Hn.
  { intros i n Hi. change (nodes (vfs_init m).1) with (Node true 1 VFS_TYPE_DIR 0 [] 0 0 0 :: replicate 63 zero_node) in Hi.
    destruct i as [|i]; [left; by injection Hi|right]. cbn [lookup list_lookup] in Hi. by apply lookup_replicate in Hi as [-> _]. }
  assert (dir_at (vfs_init m).1 0) as Hroot by (eexists; by split).
  split; try done.
  - intros i n Hi Hu. destruct (Hn i n Hi) as [[-> ->]| ->]; [split; [done|cbn; lia]|done].
  - intros i n Hi. left. by destruct (Hn i n Hi) as [[-> ->]| ->].
  - intros i j n n' Hi _ Hd. by destruct (Hn i n Hi) as [[-> ->]| ->].
  - intros fd f Hf. change (open_files (vfs_init m).1) with (replicate 32 zero_open) in Hf.
    apply lookup_replicate in Hf as [-> _]. cbn. unfold VFS_MAX_NODES. lia.
Qed.

(** ** Runs *)

(** A call that returns keeps the invariant; transfers to and from callers use
    the callers' own memory and stay below the offset bound; [moves] are the
    renamings admitted. *)
Inductive vfs_step (moves : vfs St -> option (list Z) -> option (list Z) -> Prop) (s : vfs St) : vfs St -> Prop :=
| step_mkdir path s' r : vfs_mkdir s path = Ret (s', r) -> vfs_step moves s s'
| step_unlink path s' r : vfs_unlink s path = Ret (s', r) -> vfs_step moves s s'
| step_rmdir path s' r : vfs_rmdir s path = Ret (s', r) -> vfs_step moves s s'
| step_rename old new s' r : moves s old new -> vfs_rename s old new = Ret (s', r) -> vfs_step moves s s'
| step_chdir path s' r : vfs_chdir s path = Ret (s', r) -> vfs_step moves s s'
| step_open path fl s' r : vfs_open s path fl = Ret (s', r) -> vfs_step moves s s'
| step_lseek fd off wh s' r : vfs_lseek s fd off wh = Ret (s', r) -> vfs_step moves s s'
| step_close fd : vfs_step moves s (vfs_close s fd).1
| step_getdents fd max s' r es : vfs_getdents s fd max = Ret (s', r, es) -> vfs_step moves s s'
| step_read fd f buf len s' r : open_at s fd = Some f -> 0 <= len -> offset f + len < 18446744073709551616 ->
    caller_buffer s buf len -> vfs_read s fd buf len = Ret (s', r) -> vfs_step moves s s'
| step_write fd f n buf len s' r : open_at s fd = Some f -> node_at s (fnode f) = Ret n -> 0 <= len ->
    write_offset f n + len <= FILE_LIMIT -> caller_buffer s buf len ->
    vfs_write s fd buf len = Ret (s', r) -> vfs_step moves s s'.

Definition any_move (s : vfs St) (old new : option (list Z)) : Prop := True.
(** The reply of a call, given that it returns a good state. *)
Lemma step_reply {A} (c : outcome (vfs St * A)) s' r :
  (exists s1 r1, c = Ret (s1, r1) /\ vfs_ok s1) -> c = Ret (s', r) -> vfs_ok s'.
Proof. intros (s1 & r1 & E & Hok) E'. rewrite E in E'. by injection E' as <- <-. Qed.

Lemma vfs_read_ok s fd f buf len :
  vfs_ok s -> open_at s fd = Some f -> 0 <= len -> offset f + len < 18446744073709551616 -> caller_buffer s buf len ->
  exists s' r, vfs_read s fd buf len = Ret (s', r) /\ vfs_ok s'.
Proof.
  intros Hok Hf Hl Ho Hb. destruct (open_node s fd f Hok Hf) as (i & n & Hi & Hn & Hat & _).
  destruct (decide (buf = 0)) as [->|Hb0]; [unfold vfs_read; rewrite Hf; by eexists _, _|].
  destruct (decide (type n = VFS_TYPE_FILE)) as [Ht|Ht].
  - assert (exists c, content s i = Some c) as [c Hc] by (unfold content; rewrite Hn; by eexists).
    destruct (vfs_read_spec s fd f i n c buf len) as (s' & Hrun & Hok' & _); try done. by eexists _, _.
  - unfold vfs_read. rewrite Hf, (proj2 (Z.eqb_neq _ _) Hb0), Hat. cbn [mbind outcome_bind].
    rewrite (proj2 (Z.eqb_neq _ _) Ht). by eexists _, _.
Qed.
Lemma vfs_write_ok s fd f n buf len :
  vfs_ok s -> open_at s fd = Some f -> node_at s (fnode f) = Ret n -> 0 <= len ->
  write_offset f n + len <= FILE_LIMIT -> caller_buffer s buf len ->
  exists s' r, vfs_write s fd buf len = Ret (s', r) /\ vfs_ok s'.
Proof.
  intros Hok Hf Hat' Hl Ho Hb. destruct (open_node s fd f Hok Hf) as (i & n' & Hi & Hn & Hat & _).
  rewrite Hat in Hat'. injection Hat' as ->.
  destruct (decide (buf = 0)) as [->|Hb0]; [unfold vfs_write; rewrite Hf; by eexists _, _|].
  destruct (decide (type n = VFS_TYPE_FILE)) as [Ht|Ht].
  - assert (exists c, content s i = Some c) as [c Hc] by (unfold content; rewrite Hn; by eexists).
    destruct (vfs_write_spec s fd f i n c buf len) as (s' & r & Hrun & Hok' & _); try done. by eexists _, _.
  - unfold vfs_write. rewrite Hf, (proj2 (Z.eqb_neq _ _) Hb0), Hat. cbn [mbind outcome_bind].
    rewrite (proj2 (Z.eqb_neq _ _) Ht). by eexists _, _.
Qed.

Lemma vfs_step_ok moves s s' : vfs_ok s -> vfs_step moves s s' -> vfs_ok s'.
Proof.
  intros Hok Hs. destruct Hs as [? ? ? E|? ? ? E|? ? ? E|? ? ? ? ? E|? ? ? E|? ? ? ? E|? ? ? ? ? E| |? ? ? ? ? E|? ? ? ? ? ? ? ? ? ? E|? ? ? ? ? ? ? ? ? ? ? ? E].
  - eapply step_reply; [by apply vfs_mkdir_ok|exact E].
  - eapply step_reply; [by apply vfs_unlink_ok|exact E].
  - eapply step_reply; [by apply vfs_rmdir_ok|exact E].
  - eapply step_reply; [by apply vfs_rename_ok|exact E].
  - eapply step_reply; [by apply vfs_chdir_ok|exact E].
  - eapply step_reply; [by apply vfs_open_ok|exact E].
  - eapply step_reply; [by apply vfs_lseek_ok|exact E].
  - by apply vfs_close_ok.
  - destruct (vfs_getdents_ok s fd max Hok) as (s1 & r1 & es1 & E1 & Hok1). rewrite E in E1. by injection E1 as <- <- <-.
  - eapply step_reply; [by eapply vfs_read_ok|exact E].
  - eapply step_reply; [by eapply vfs_write_ok|exact E].
Qed.
Lemma vfs_step_tree s s' : vfs_ok s -> is_tree s -> vfs_step outward_move s s' -> is_tree s'.
Proof.
  intros Hok Ht Hs. pose proof (vfs_step_ok _ _ _ Hok Hs) as Hok'. assert (grows s s' -> is_tree s') as Hg by (by apply rooted_grows).
  destruct Hs as [? ? ? E|? ? ? E|? ? ? E|? ? ? ? Hm E|? ? ? E|? ? ? ? E|? ? ? ? ? E| |? ? ? ? ? E|? ? ? ? ? ? ? ? ? ? E|? ? ? ? ? ? ? ? ? ? ? ? E].
  - by eapply Hg, mkdir_grows.
  - by eapply Hg, links_grow, unlink_links.
  - by eapply Hg, links_grow, rmdir_links.
  - exact (rooted_rename s _ _ _ _ Hok Ht Hm E).
  - by eapply Hg, links_grow, chdir_links.
  - by eapply Hg, open_grows.
  - by eapply Hg, links_grow, lseek_links.
  - apply Hg, links_grow, close_links.
  - by eapply Hg, links_grow, getdents_links.
  - by eapply Hg, links_grow, read_links.
  - by eapply Hg, links_grow, write_links.
Qed.
Lemma vfs_init_tree (m : St) : is_tree (vfs_init m).1.
Proof.
  intros i n (Hi & Hn & Hu)%used_node_Some. change (nodes (vfs_init m).1) with (Node true 1 VFS_TYPE_DIR 0 [] 0 0 0 :: replicate 63 zero_node) in Hn.
  destruct (Z.to_nat i) as [|j] eqn:E; [|change (replicate 63 zero_node !! j = Some n) in Hn; apply lookup_replicate in Hn as [-> _]; done].
  assert (i = 0) as -> by lia. apply rooted_root.
Qed.

(** C10: From [vfs_init] on, whatever calls are made, the node table stays well
    formed: the parent of every node in use is a directory in use, the current
    directory is one, file buffers are distinct live allocations at least as
    large as their capacity, and no size exceeds its capacity.  In such a state
    every name-based call returns: path resolution neither loops nor leaves the
    node table.  As long as no directory is moved below itself, which the code
    does not refuse ([vfs_rename_below_itself]), the nodes are a tree: the parent
    links of every node in use lead to the root. *)
Theorem vfs_runs_safe m s :
  al_ok m -> rtc (vfs_step any_move) (vfs_init m).1 s ->
  vfs_ok s /\
  (forall path, exists r, resolve_path s path = Ret r /\ (r = -1 \/ is_Some (used_node s r))) /\
  (forall path, exists s' r, vfs_mkdir s path = Ret (s', r)) /\ (forall path, exists s' r, vfs_unlink s path = Ret (s', r)) /\
  (forall path, exists s' r, vfs_rmdir s path = Ret (s', r)) /\
  (forall old new, exists s' r, vfs_rename s old new = Ret (s', r)) /\
  (forall path fl, exists s' r, vfs_open s path fl = Ret (s', r)) /\
  (rtc (vfs_step outward_move) (vfs_init m).1 s -> forall i n, used_node s i = Some n -> rooted s i).
Proof.
  intros Hm Hrun. pose proof (vfs_init_ok m Hm) as Hinit. assert (vfs_ok s) as Hok.
  { clear Hm. induction Hrun as [|s1 s2 s3 Hs _ IH]; [done|]. apply IH. by eapply vfs_step_ok. }
  split; [done|]. split; [intros path; by apply resolve_path_spec|].
  split_and!; [intros path|intros path|intros path|intros old new|intros path fl|intros Hr].
  - destruct (vfs_mkdir_ok s path Hok) as (? & ? & ? & _). by eexists _, _.
  - destruct (vfs_unlink_ok s path Hok) as (? & ? & ? & _). by eexists _, _.
  - destruct (vfs_rmdir_ok s path Hok) as (? & ? & ? & _). by eexists _, _.
  - destruct (vfs_rename_ok s old new Hok) as (? & ? & ? & _). by eexists _, _.
  - destruct (vfs_open_ok s path fl Hok) as (? & ? & ? & _). by eexists _, _.
  - pose proof (vfs_init_tree m) as Ht. change (is_tree s). clear Hrun Hok. induction Hr as [|s1 s2 s3 Hs _ IH]; [done|].
    apply IH; [by eapply vfs_step_ok|by eapply vfs_step_tree].
Qed.

(** [vfs_getcwd] returns for every well-formed state, even one whose parent
    links form a cycle, and the path with its terminator fits the buffer. *)
Theorem vfs_getcwd_terminates s len :
  vfs_ok s -> exists r, vfs_getcwd s len = Ret r /\ (forall q, r = Some q -> Z.of_nat (length q) + 1 <= len).
Proof.
  intros Hok. destruct (vfs_getcwd_total s len Hok) as (r & Hr & Hq). exists r. split; [done|].
  intros q E. specialize (Hq q E). lia.
Qed.

(** [vfs_write] to a regular file stores the caller's bytes at the file
    offset (at the end in append mode), keeps the bytes before and behind them,
    and touches no other file; or it fails and changes no file's contents. *)
Theorem vfs_write_stores s fd f i n c buf len :
  vfs_ok s -> open_at s fd = Some f -> fnode f = Z.of_nat i -> nodes s !! i = Some n -> type n = VFS_TYPE_FILE ->
  content s i = Some c -> buf <> 0 -> 0 <= len -> write_offset f n + len <= FILE_LIMIT -> caller_buffer s buf len ->
  exists s' r, vfs_write s fd buf len = Ret (s', r) /\ (forall j, j <> i -> content s' j = content s j) /\
    ((r = -1 /\ content s' i = Some c) \/
     (r = len /\ exists c', content s' i = Some c' /\
        written c c' (bytes_at (al_ram (mem s)) buf (Z.to_nat len)) (write_offset f n))).
Proof.
  intros. destruct (vfs_write_spec s fd f i n c buf len) as (s' & r & Hrun & _ & Ho & Hc); try done.
  exists s', r. split_and!; try done. destruct Hc as [?|(-> & _ & _ & ?)]; [by left|by right].
Qed.

(** C12: What was written is read back: after a successful [vfs_write] of [len]
    bytes at offset [off], seeking to [off] and reading [len] bytes into another
    buffer delivers the bytes the source buffer held. *)
Theorem vfs_write_read s fd f i n c buf buf' len s1 s2 r2 :
  vfs_ok s -> open_at s fd = Some f -> fnode f = Z.of_nat i -> nodes s !! i = Some n -> type n = VFS_TYPE_FILE ->
  content s i = Some c -> buf <> 0 -> buf' <> 0 -> 0 < len -> write_offset f n + len <= FILE_LIMIT ->
  caller_buffer s buf len -> vfs_write s fd buf len = Ret (s1, len) ->
  vfs_lseek s1 fd (write_offset f n) VFS_SEEK_SET = Ret (s2, r2) -> caller_buffer s2 buf' len ->
  exists s3, vfs_read s2 fd buf' len = Ret (s3, len) /\
    bytes_at (al_ram (mem s3)) buf' (Z.to_nat len) = bytes_at (al_ram (mem s)) buf (Z.to_nat len).
Proof.
  intros Hok Hf Hi Hn Ht Hc Hb0 Hb0' Hlen Hlim Hb Hw Hs Hb'.
  destruct (vfs_write_spec s fd f i n c buf len) as (s1' & r & Hw' & Hok1 & _ & Hcase); try done; [lia|].
  rewrite Hw in Hw'. injection Hw' as <- <-. destruct Hcase as [[? _]|(_ & Hf1 & Ht1 & c' & Hc' & Hwr)]; [lia|].
  assert (0 <= write_offset f n) as Hoff.
  { unfold write_offset. case_match; [|by destruct (open_node s fd f Hok Hf) as (_ & _ & _ & _ & _ & ?)].
    destruct (vo_data s Hok i n Hn) as [(_ & _ & ->)|(_ & _ & ? & _)]; lia. }
  set (off := write_offset f n) in *. set (bs := bytes_at (al_ram (mem s)) buf (Z.to_nat len)) in *.
  assert (Z.of_nat (length bs) = len) as Hbs by (unfold bs; rewrite length_bytes_at; lia).
  assert (s2 = set_open s1 fd (Open true (fnode f) off (flags f)) /\ vfs_ok s2) as [-> Hok2].
  { unfold vfs_lseek in Hs. rewrite Hf1 in Hs. destruct (open_node s1 fd _ Hok1 Hf1) as (i1 & n1 & _ & _ & Hat & _).
    rewrite Hat in Hs. cbn [mbind outcome_bind] in Hs. rewrite Z.eqb_refl in Hs.
    rewrite Z.add_0_l, s64_small, (proj2 (Z.ltb_ge off 0)), u64_small in Hs by (unfold FILE_LIMIT in *; lia).
    cbn [fnode flags] in Hs. injection Hs as <- _. split; [done|]. apply ok_set_open; [done| |done].
    apply (vo_open s Hok (Z.to_nat fd) f). by apply open_at_Some in Hf as (_ & ? & _). }
  set (s2 := set_open _ _ _) in *.
  pose proof (open_at_set s1 fd _ (Open true (fnode f) off (flags f)) Hok1 Hf1 eq_refl) as Hf2. fold s2 in Hf2.
  assert (content s2 i = Some c') as Hc2 by done.
  destruct (nodes s2 !! i) as [n2|] eqn:Hn2; [|unfold content in Hc2; by rewrite Hn2 in Hc2].
  assert (Z.of_nat (length c') = size n2) as Hsz.
  { unfold content in Hc2. rewrite Hn2 in Hc2. injection Hc2 as <-. rewrite length_bytes_at.
    destruct (vo_data s2 Hok2 i n2 Hn2) as [(_ & _ & ->)|(_ & _ & ? & _)]; lia. }
  assert (off + len <= size n2) as Hfit by (destruct Hwr as (E & _); lia).
  assert (type n2 = VFS_TYPE_FILE) as Ht2.
  { change (nodes s1) with (nodes s2) in Ht1. rewrite Hn2 in Ht1. by injection Ht1. }
  destruct (vfs_read_spec s2 fd _ i n2 c' buf' len Hok2 Hf2 Hi Hn2 Ht2 Hc2 Hb0') as (s3 & Hrun & _ & _ & _ & _ & Hbytes);
    [lia|cbn; unfold FILE_LIMIT in *; lia|done|].
  cbn [offset] in Hrun, Hbytes. rewrite Z.max_r, Z.min_l in Hrun, Hbytes by lia.
  exists s3. split; [done|]. rewrite Hbytes. destruct Hwr as (_ & E & _). by rewrite <- Hbs, Nat2Z.id.
Qed.
End VfsTheorems.

(** ** Concrete inputs *)

#[local] Existing Instance demo_layout.

(** Callers' memory holds a text at address 1000. *)
Definition demo_mem : kmem :=
  heap_init (store_bytes ∅ 1000 (str "hello world")) false [] 0x200000 EXOCORE_KERNEL_HEAP_SIZE.
Definition demo_vfs : vfs kmem := (vfs_init demo_mem).1.
Definition path (p : string) : option (list Z) := Some (str p).
Definition after {A} (s : vfs kmem) (o : outcome (vfs kmem * A)) : vfs kmem := match o with Ret (s, _) => s | _ => s end.
Definition demo_vfs1 : vfs kmem := after demo_vfs (vfs_open demo_vfs (path "/f") (Z.lor VFS_O_RDWR VFS_O_CREAT)).
Definition demo_vfs2 : vfs kmem := after demo_vfs1 (vfs_write demo_vfs1 0 1000 11).
Definition demo_vfs3 : vfs kmem := after demo_vfs2 (vfs_lseek demo_vfs2 0 0 VFS_SEEK_SET).

Lemma demo_mem_ok : al_ok demo_mem.
Proof. eexists _, _. apply heap_init_kinv, demo_layout_ok. Qed.
Lemma demo_vfs1_ok : vfs_ok demo_vfs1.
Proof.
  eapply (vfs_step_ok any_move); [apply (vfs_init_ok demo_mem demo_mem_ok)|].
  apply (step_open _ _ (path "/f") (Z.lor VFS_O_RDWR VFS_O_CREAT) _ 0). by vm_compute.
Qed.
Lemma low_buffer (s : vfs kmem) a n :
  heap_start (mem s) = 0x200000 -> 0 <= a -> a + n <= 0x110000 -> caller_buffer s a n.
Proof.
  intros Hs Ha Hn x Hx. left. cbn. unfold kmem_managed, ptr_in_region. rewrite Hs.
  change swap_space with 0x110000. rewrite (proj2 (Z.leb_gt 0x200000 x)), (proj2 (Z.leb_gt 0x110000 x)) by lia. done.
Qed.

Definition demo_file : vfs_open_t := Open true 1 0 (Z.lor VFS_O_RDWR VFS_O_CREAT).
Definition demo_node : vfs_node_t := Node true 2 VFS_TYPE_FILE 0 (str "f") 0 0 0.

Lemma vfs_runs_safe_witness : vfs_ok demo_vfs1 /\ rooted demo_vfs1 1.
Proof.
  assert (forall moves, rtc (vfs_step moves) (vfs_init demo_mem).1 demo_vfs1) as Hrun.
  { intros moves. apply rtc_once, (step_open _ _ (path "/f") (Z.lor VFS_O_RDWR VFS_O_CREAT) _ 0). by vm_compute. }
  pose proof (vfs_runs_safe demo_mem demo_vfs1 demo_mem_ok (Hrun any_move)) as (H1 & _ & _ & _ & _ & _ & _ & H2).
  split; [exact H1|]. apply (H2 (Hrun outward_move) 1 demo_node). by vm_compute.
Defined.
Lemma vfs_getcwd_terminates_witness : exists r, vfs_getcwd demo_vfs1 10 = Ret r.
Proof.
  destruct (vfs_getcwd_terminates demo_vfs1 10 demo_vfs1_ok) as (r & E & _). exists r. exact E.
Defined.
Lemma vfs_write_stores_witness : exists s' r, vfs_write demo_vfs1 0 1000 11 = Ret (s', r).
Proof.
  destruct (vfs_write_stores demo_vfs1 0 demo_file 1 demo_node [] 1000 11 demo_vfs1_ok) as (s' & r & E & _);
    [by vm_compute|done|by vm_compute|done|by vm_compute|done|lia|by vm_compute|by apply low_buffer|].
  exists s', r. exact E.
Defined.
Lemma vfs_write_read_witness : exists s3, vfs_read demo_vfs3 0 2000 11 = Ret (s3, 11) /\
  bytes_at (al_ram (mem s3)) 2000 11 = bytes_at (al_ram (mem demo_vfs1)) 1000 11.
Proof.
  apply (vfs_write_read demo_vfs1 0 demo_file 1 demo_node [] 1000 2000 11 demo_vfs2 demo_vfs3 0 demo_vfs1_ok);
    [by vm_compute|done|by vm_compute|done|by vm_compute|done|done|lia|by vm_compute
    |by apply low_buffer|by vm_compute|by vm_compute|by apply low_buffer].
Defined.

(** ** Unexpected behaviours *)

(** Renaming a directory below itself succeeds and detaches it from the tree:
    afterwards neither name resolves. *)
Theorem vfs_rename_below_itself :
  let s1 := after demo_vfs (vfs_mkdir demo_vfs (path "/a")) in
  let s2 := after s1 (vfs_mkdir s1 (path "/a/b")) in
  exists s3, vfs_rename s2 (path "/a") (path "/a/b/c") = Ret (s3, 0) /\
    vfs_access s3 (path "/a") = Ret (-1) /\ vfs_access s3 (path "/a/b/c") = Ret (-1) /\
    parent <$> nodes s3 !! 1%nat = Some 2 /\ parent <$> nodes s3 !! 2%nat = Some 1.
Proof. eexists. split; [by vm_compute|]. by vm_compute. Qed.

(** A name of more than 31 characters is cut when stored and never found again:
    opening it twice for creation makes two files. *)
Theorem vfs_long_name_duplicates :
  let p := path "/0123456789012345678901234567890X" in
  let fl := Z.lor VFS_O_RDWR VFS_O_CREAT in
  exists s1 s2, vfs_open demo_vfs p fl = Ret (s1, 0) /\ vfs_open s1 p fl = Ret (s2, 1) /\
    name <$> nodes s2 !! 1%nat = name <$> nodes s2 !! 2%nat /\ vfs_access s2 p = Ret (-1).
Proof. eexists _, _. split; [by vm_compute|]. split; [by vm_compute|]. by vm_compute. Qed.

(** The access mode of a descriptor is not checked: a file opened read-only
    can be written. *)
Theorem vfs_write_ignores_mode :
  let s1 := after demo_vfs (vfs_open demo_vfs (path "/f") (Z.lor VFS_O_RDONLY VFS_O_CREAT)) in
  exists s2, vfs_write s1 0 1000 11 = Ret (s2, 11).
Proof. eexists. by vm_compute. Qed.

(** [vfs_unlink] does not look at open descriptors: a descriptor of a removed
    file reads the file created in its node afterwards. *)
Theorem vfs_unlink_stale_descriptor :
  let fl := Z.lor VFS_O_RDWR VFS_O_CREAT in
  let s1 := after demo_vfs1 (vfs_unlink demo_vfs1 (path "/f")) in
  let s2 := after s1 (vfs_open s1 (path "/g") fl) in
  let s3 := after s2 (vfs_write s2 1 1000 5) in
  exists s4, vfs_read s3 0 2000 5 = Ret (s4, 5) /\ bytes_at (al_ram (mem s4)) 2000 5 = str "hello".
Proof. eexists. split; [by vm_compute|]. by vm_compute. Qed.
