(* ===== verification/ProcTable.v ===== *)
(** * kernel/proc.c: the process table and the memory of a process

    A table of sixteen entries.  The state of the process layer contains the
    state of the layers it calls: the file system, which carries the
    allocator and the memory, and the tables of the memory contexts.  The two
    share one memory, so the contexts are viewed and put back around a call. *)

From Stdlib Require Import ZArith Lia.
From stdpp Require Import base numbers gmap strings fin_maps option list.
From S2P Require Import Prelude MemUtils Heap HeapTheorems Allocator MemCtx Vfs.

Local Open Scope Z_scope.

Definition PROC_MAX : nat := 16.
Definition PROC_STACK_SIZE : Z := 4096.
Definition PROC_NAME_MAX : nat := 31.
Definition PROC_MAX_FDS : nat := 16.
Definition PROC_EXEC_PATH_MAX : nat := 128.

Definition PROC_STATE_UNUSED : Z := 0.
Definition PROC_STATE_READY : Z := 1.
Definition PROC_STATE_RUNNING : Z := 2.
Definition PROC_STATE_EXITED : Z := 3.
Definition PROC_STATE_ZOMBIE : Z := 4.
Definition PROC_STATE_DEAD : Z := 5.

Definition PROC_ERR_NOT_FOUND : Z := -3.
Definition PROC_ERR_PROTECTED : Z := -13.
Definition PROC_ERR_NOMEM : Z := -12.
Definition PROC_ERR_INVALID_STATE : Z := -22.

(** [proc_info_t]; the texts are the character arrays, in full length. *)
Record proc_info_t := ProcInfo {
  pid : Z; parent_pid : Z; state : Z; exit_status : Z; memctx : Z;
  pname : list Z; cwd : list Z; exe_path : list Z;
  entry_point : Z; image_base : Z; image_size : Z;
  requested_base : Z; requested_end : Z; stack_pointer : Z
}.
(** [proc_entry_t]. *)
Record proc_entry_t := ProcEntry { info : proc_info_t; pused : bool; fds : list Z }.

Definition zero_info : proc_info_t :=
  ProcInfo 0 0 0 0 0 (replicate (S PROC_NAME_MAX) 0) (replicate 128 0) (replicate PROC_EXEC_PATH_MAX 0) 0 0 0 0 0 0.
(** An entry after [memset]. *)
Definition zero_entry : proc_entry_t := ProcEntry zero_info false (replicate PROC_MAX_FDS 0).

(** [elf_image_t] of elf.h. *)
Record elf_image_t := ElfImage { req_base : Z; req_end : Z; load_base : Z; load_size : Z; entry : Z }.

Definition set_state (p : proc_info_t) (v : Z) : proc_info_t :=
  ProcInfo (pid p) (parent_pid p) v (exit_status p) (memctx p) (pname p) (cwd p) (exe_path p)
    (entry_point p) (image_base p) (image_size p) (requested_base p) (requested_end p) (stack_pointer p).
Definition set_parent (p : proc_info_t) (v : Z) : proc_info_t :=
  ProcInfo (pid p) v (state p) (exit_status p) (memctx p) (pname p) (cwd p) (exe_path p)
    (entry_point p) (image_base p) (image_size p) (requested_base p) (requested_end p) (stack_pointer p).
Definition set_exit (p : proc_info_t) (status : Z) : proc_info_t :=
  ProcInfo (pid p) (parent_pid p) PROC_STATE_EXITED status (memctx p) (pname p) (cwd p) (exe_path p)
    (entry_point p) (image_base p) (image_size p) (requested_base p) (requested_end p) (stack_pointer p).
Definition set_stack (p : proc_info_t) (sp : Z) : proc_info_t :=
  ProcInfo (pid p) (parent_pid p) (state p) (exit_status p) (memctx p) (pname p) (cwd p) (exe_path p)
    (entry_point p) (image_base p) (image_size p) (requested_base p) (requested_end p) sp.

Definition on_info (f : proc_info_t -> proc_info_t) (e : proc_entry_t) : proc_entry_t :=
  ProcEntry (f (info e)) (pused e) (fds e).
Definition set_fds (e : proc_entry_t) (l : list Z) : proc_entry_t := ProcEntry (info e) (pused e) l.

(** [proc_is_terminal_state]. *)
Definition proc_is_terminal_state (st : Z) : bool :=
  (st =? PROC_STATE_EXITED) || (st =? PROC_STATE_ZOMBIE) || (st =? PROC_STATE_DEAD).

(** [copy_text] into the array [dst]: as much of the text as fits before the
    terminator; the bytes behind it stay. *)
Definition copy_text (dst : list Z) (src : option (list Z)) : list Z :=
  match dst with
  | [] => []
  | _ =>
      let t := take (length dst - 1) (default [] src) in
      t ++ 0 :: drop (S (length t)) dst
  end.

(** [basename_from_path]: the text after the last slash, the whole path when
    that is empty. *)
Fixpoint basename_loop (p base : list Z) : list Z :=
  match p with
  | [] => base
  | c :: p => basename_loop p (if c =? 47 then p else base)
  end.
Definition basename_from_path (path : option (list Z)) : option (list Z) :=
  let p := default [] path in
  match basename_loop p p with [] => path | b => Some b end.

Section ProcTable.
Context {St : Type} `{Allocator St}.

Record proc_state := ProcState {
  files : vfs St;
  contexts : list memctx_t;
  ctx_blocks : list memctx_block_t;
  next_ctx : Z;
  procs : list proc_entry_t;
  next_pid : Z;
  current_pid : Z
}.
Implicit Types s : proc_state.

(** The memory and its contexts as the routines of memctx.c see them. *)
Definition ctx_view s : ctx_state St := CtxState (Vfs.mem (files s)) (contexts s) (ctx_blocks s) (next_ctx s).
Definition put_ctx s (c : ctx_state St) : proc_state :=
  ProcState (Vfs.set_mem (files s) (MemCtx.mem c)) (MemCtx.contexts c) (MemCtx.blocks c) (next_ctx_id c)
    (procs s) (next_pid s) (current_pid s).
Definition put_files s (v : vfs St) : proc_state :=
  ProcState v (contexts s) (ctx_blocks s) (next_ctx s) (procs s) (next_pid s) (current_pid s).
Definition put_procs s (l : list proc_entry_t) : proc_state :=
  ProcState (files s) (contexts s) (ctx_blocks s) (next_ctx s) l (next_pid s) (current_pid s).
Definition put_current s (p : Z) : proc_state :=
  ProcState (files s) (contexts s) (ctx_blocks s) (next_ctx s) (procs s) (next_pid s) p.

Definition ram s : gmap Z Z := al_ram (Vfs.mem (files s)).
Definition set_ram s (m : gmap Z Z) : proc_state := put_files s (Vfs.set_mem (files s) (al_set_ram (Vfs.mem (files s)) m)).

Definition is_proc (p : Z) (e : proc_entry_t) : bool := pused e && (pid (info e) =? p).
Definition find_proc s (p : Z) : option nat := find_index (is_proc p) (procs s) 0.
(** The entry behind the pointer [find_proc] returns. *)
Definition proc_at s (p : Z) : option proc_entry_t := i ← find_proc s p; procs s !! i.
(** Writing through that pointer. *)
Definition update s (p : Z) (f : proc_entry_t -> proc_entry_t) : proc_state :=
  match find_proc s p with Some i => put_procs s (alter f i (procs s)) | None => s end.

Definition proc_init s : proc_state :=
  put_ctx (ProcState (files s) (contexts s) (ctx_blocks s) (next_ctx s) (replicate PROC_MAX zero_entry) 1 0)
    (memctx_init (Vfs.mem (files s))).

Definition new_info (p parent ctx : Z) (nm : option (list Z)) : proc_info_t :=
  ProcInfo p parent PROC_STATE_READY 0 ctx (copy_text (pname zero_info) nm) (copy_text (cwd zero_info) (Some [47]))
    (exe_path zero_info) 0 0 0 0 0 0.

Definition proc_create s (nm : option (list Z)) (parent : Z) : proc_state * Z :=
  if negb (parent =? 0) && negb (bool_decide (is_Some (find_proc s parent))) then (s, -1) else
  if (parent =? 0) && negb (next_pid s =? 1) then (s, -1) else
  match find_index (fun e => negb (pused e)) (procs s) 0 with
  | None => (s, PROC_ERR_NOMEM)
  | Some i =>
      let p := next_pid s in
      let '(c, ctx) := memctx_create (ctx_view s) p 0 in
      let s := put_ctx (ProcState (files s) (contexts s) (ctx_blocks s) (next_ctx s) (procs s)
                          (s32 (next_pid s + 1)) (current_pid s)) c in
      if ctx <? 0 then (put_procs s (<[i := zero_entry]> (procs s)), PROC_ERR_NOMEM)
      else (put_procs s (<[i := ProcEntry (new_info p parent ctx nm) true (replicate PROC_MAX_FDS (-1))]> (procs s)), p)
  end.

Definition proc_alloc s (p size : Z) : outcome (proc_state * Z) :=
  match proc_at s p with
  | None => Ret (s, 0)
  | Some e =>
      '(c, a) ← memctx_alloc (ctx_view s) (memctx (info e)) size;
      Ret (put_ctx s c, a)
  end.

Definition proc_free s (p ptr : Z) : outcome (proc_state * Z) :=
  match proc_at s p with
  | None => Ret (s, -1)
  | Some e =>
      '(c, r) ← memctx_free (ctx_view s) (memctx (info e)) ptr;
      Ret (put_ctx s c, r)
  end.

Definition proc_current_pid s : Z := current_pid s.
Definition proc_current_valid s : bool :=
  match proc_at s (current_pid s) with
  | Some e => (0 <? current_pid s) && (state (info e) =? PROC_STATE_RUNNING)
  | None => false
  end.

(** [*info = proc->info]: the record copied out. *)
Definition proc_info s (p : Z) : option proc_info_t := info <$> proc_at s p.

(** The records stored in the caller's array and the number of processes. *)
Definition proc_list s (max_infos : Z) : list proc_info_t * Z :=
  let l := info <$> filter (fun e => pused e = true) (procs s) in
  (take (Z.to_nat max_infos) l, Z.of_nat (length l)).
End ProcTable.
Arguments proc_state St : clear implicits.
