(* ===== verification/Elf.v ===== *)
(** * kernel/elf.c: checking and loading executables

    The file is a range of the byte memory; headers are read from it where the
    code reads them.  An image pointer is the image it points to, [None] for
    NULL. *)

From Stdlib Require Import ZArith Lia.
From stdpp Require Import base numbers gmap strings fin_maps option list.
From S2P Require Import Prelude MemUtils Heap HeapTheorems Allocator MemCtx Vfs ProcTable.

Local Open Scope Z_scope.

Definition ELF_MAX_LOAD_SIZE : Z := 16 * 1024 * 1024.
Definition ELF_MAGIC : Z := 0x464C457F.
Definition ELF_CLASS_64 : Z := 2.
Definition ELF_DATA_LSB : Z := 1.
Definition ELF_VERSION_CURRENT : Z := 1.
Definition ELF_TYPE_EXEC : Z := 2.
Definition ELF_MACHINE_X86_64 : Z := 62.
Definition ELF_PT_LOAD : Z := 1.
Definition ELF_PF_X : Z := 1.
Definition ELF_PF_W : Z := 2.
Definition ELF_PF_R : Z := 4.

(** [elf_header_t] and [elf_phdr_t], packed, with their sizes. *)
Record elf_header_t := ElfHeader {
  e_magic : Z; e_class : Z; e_data : Z; e_version : Z; e_type : Z; e_machine : Z; e_version2 : Z;
  e_entry : Z; e_phoff : Z; e_ehsize : Z; e_phentsize : Z; e_phnum : Z
}.
Definition SIZEOF_ELF_HEADER : Z := 64.
Record elf_phdr_t := ElfPhdr {
  p_type : Z; p_flags : Z; p_offset : Z; p_vaddr : Z; p_filesz : Z; p_memsz : Z; p_align : Z
}.
Definition SIZEOF_ELF_PHDR : Z := 56.

(** The header and a program header in memory. *)
Definition read_header (m : gmap Z Z) (f : Z) : elf_header_t :=
  ElfHeader (rd_le 4 m f) (rd m (f + 4)) (rd m (f + 5)) (rd m (f + 6)) (rd_le 2 m (f + 16)) (rd_le 2 m (f + 18))
    (rd_le 4 m (f + 20)) (rd_le 8 m (f + 24)) (rd_le 8 m (f + 32)) (rd_le 2 m (f + 52)) (rd_le 2 m (f + 54))
    (rd_le 2 m (f + 56)).
Definition read_phdr (m : gmap Z Z) (ph i : Z) : elf_phdr_t :=
  let a := ph + SIZEOF_ELF_PHDR * i in
  ElfPhdr (rd_le 4 m a) (rd_le 4 m (a + 4)) (rd_le 8 m (a + 8)) (rd_le 8 m (a + 16)) (rd_le 8 m (a + 32))
    (rd_le 8 m (a + 40)) (rd_le 8 m (a + 48)).

(** The sum and whether it wrapped. *)
Definition add_overflow_u64 (a b : Z) : Z * bool := let out := u64 (a + b) in (out, out <? a).

Definition range_inside (off len total : Z) : bool :=
  let '(stop, ov) := add_overflow_u64 off len in
  if ov then false else (off <=? total) && (stop <=? total).

Definition valid_flags (fl : Z) : bool :=
  Z.land fl (u32 (Z.lnot (Z.lor (Z.lor ELF_PF_R ELF_PF_W) ELF_PF_X))) =? 0.

(** One loadable header: its end in memory, [None] when it is refused. *)
Definition inspect_segment (p : elf_phdr_t) (file_size : Z) : option Z :=
  if negb (valid_flags (p_flags p)) || (p_memsz p =? 0) || (p_memsz p <? p_filesz p) then None else
  let '(file_end, ov) := add_overflow_u64 (p_offset p) (p_filesz p) in
  if ov || (file_size <? file_end) then None else
  let '(mem_end, ov) := add_overflow_u64 (p_vaddr p) (p_memsz p) in
  if ov then None else
  if negb (p_align p =? 0) && negb (Z.land (p_align p) (u64 (p_align p - 1)) =? 0) then None else
  if (1 <? p_align p) && negb (Z.land (u64 (p_vaddr p - p_offset p)) (u64 (p_align p - 1)) =? 0) then None else
  Some mem_end.

(** The loop over the headers, [k] to go: lowest and highest address, number
    of loadable segments. *)
Fixpoint inspect_loop (k : nat) (m : gmap Z Z) (ph file_size i mn mx loads : Z) : option (Z * Z * Z) :=
  match k with
  | O => Some (mn, mx, loads)
  | S k =>
      let p := read_phdr m ph i in
      if negb (p_type p =? ELF_PT_LOAD) then inspect_loop k m ph file_size (i + 1) mn mx loads
      else
        match inspect_segment p file_size with
        | None => None
        | Some mem_end =>
            inspect_loop k m ph file_size (i + 1) (if p_vaddr p <? mn then p_vaddr p else mn)
              (if mx <? mem_end then mem_end else mx) (loads + 1)
        end
  end.

Definition inspect_load_range (m : gmap Z Z) (eh : elf_header_t) (ph file_size : Z) : option (Z * Z * Z) :=
  match inspect_loop (Z.to_nat (e_phnum eh)) m ph file_size 0 18446744073709551615 0 0 with
  | None => None
  | Some (mn, mx, loads) =>
      if (loads =? 0) || (e_entry eh <? mn) || (mx <=? e_entry eh) then None
      else if (mx <=? mn) || (ELF_MAX_LOAD_SIZE <? mx - mn) then None
      else Some (mn, mx, loads)
  end.

(** The tests on the header alone. *)
Definition header_ok (eh : elf_header_t) (file_size : Z) : bool :=
  negb (negb (e_magic eh =? ELF_MAGIC) || negb (e_class eh =? ELF_CLASS_64) || negb (e_data eh =? ELF_DATA_LSB)) &&
  negb (negb (e_version eh =? ELF_VERSION_CURRENT) || negb (e_version2 eh =? ELF_VERSION_CURRENT)) &&
  negb (negb (e_type eh =? ELF_TYPE_EXEC) || negb (e_machine eh =? ELF_MACHINE_X86_64)) &&
  negb (negb (e_ehsize eh =? SIZEOF_ELF_HEADER) || negb (e_phentsize eh =? SIZEOF_ELF_PHDR) || (e_phnum eh =? 0)) &&
  range_inside (e_phoff eh) (u64 (e_phentsize eh * e_phnum eh)) file_size.

Definition elf_validate (m : gmap Z Z) (file file_size : Z) : Z :=
  if (file =? 0) || (file_size <? SIZEOF_ELF_HEADER) then -1 else
  let eh := read_header m file in
  if negb (header_ok eh file_size) then -1 else
  match inspect_load_range m eh (file + e_phoff eh) file_size with Some _ => 0 | None => -1 end.

Section Elf.
Context {St : Type} `{Allocator St}.

(** The copying loop; [false] when it gave up. *)
Fixpoint load_loop (fuel : nat) (s : proc_state St) (pid file ph mn base load_size i : Z) : outcome (proc_state St * bool) :=
  if i <? e_phnum (read_header (ram s) file) then
    match fuel with
    | O => Timeout
    | S fuel =>
        let p := read_phdr (ram s) ph i in
        if negb (p_type p =? ELF_PT_LOAD) then load_loop fuel s pid file ph mn base load_size (u16 (i + 1))
        else
          let dest_off := u64 (p_vaddr p - mn) in
          if (load_size <? dest_off) || (load_size - dest_off <? p_memsz p) then
            '(s, _) ← proc_free s pid base; Ret (s, false)
          else
            load_loop fuel (set_ram s (memcpy (ram s) (base + dest_off) (file + p_offset p) (p_filesz p)))
              pid file ph mn base load_size (u16 (i + 1))
    end
  else Ret (s, true).

(** The counter is 16 bits wide, so 65536 rounds are enough. *)
Definition elf_load_process_image (s : proc_state St) (pid file file_size : Z) (out : option elf_image_t)
    : outcome (proc_state St * option elf_image_t * Z) :=
  if negb (bool_decide (is_Some out)) || negb (elf_validate (ram s) file file_size =? 0) then Ret (s, out, -1) else
  let eh := read_header (ram s) file in
  let ph := file + e_phoff eh in
  match inspect_load_range (ram s) eh ph file_size with
  | None => Ret (s, out, -1)
  | Some (mn, mx, _) =>
      let load_size := mx - mn in
      '(s, base) ← proc_alloc s pid load_size;
      if base =? 0 then Ret (s, out, -1) else
      let s := set_ram s (memset (ram s) base 0 load_size) in
      '(s, ok) ← load_loop (Z.to_nat 65536) s pid file ph mn base load_size 0;
      if negb ok then Ret (s, out, -1) else
      Ret (s, Some (ElfImage mn mx base load_size (base + u64 (e_entry (read_header (ram s) file) - mn))), 0)
  end.

Definition zero_image : elf_image_t := ElfImage 0 0 0 0 0.
Definition elf_free_process_image (s : proc_state St) (pid : Z) (image : option elf_image_t)
    : outcome (proc_state St * option elf_image_t) :=
  match image with
  | None => Ret (s, None)
  | Some im =>
      if load_base im =? 0 then Ret (s, image)
      else '(s, _) ← proc_free s pid (load_base im); Ret (s, Some zero_image)
  end.
End Elf.
