(* ===== verification/ElfProofs.v ===== *)
(** * What [elf_validate] accepts, and what loading does *)

From Stdlib Require Import ZArith Lia.
From stdpp Require Import base numbers gmap strings fin_maps option list.
From S2P Require Import Prelude MemUtils Heap HeapTheorems Allocator MemApps MemCtx Vfs ProcTable Elf.

Local Open Scope Z_scope.

(** ** The format in plain terms *)

Definition aligned (al a b : Z) : Prop := al = 0 \/ exists k, 0 <= k /\ al = 2 ^ k /\ (a - b) mod al = 0.

(** A loadable segment: only known flags, its bytes in the file, its memory in
    the address space, and address and offset congruent modulo the alignment. *)
Definition seg_ok (file_size : Z) (p : elf_phdr_t) : Prop :=
  p_flags p < 8 /\ 0 < p_memsz p /\ p_filesz p <= p_memsz p /\ p_offset p + p_filesz p <= file_size /\
  p_vaddr p + p_memsz p < 18446744073709551616 /\ aligned (p_align p) (p_vaddr p) (p_offset p).

Definition phdrs (m : gmap Z Z) (ph n : Z) : list elf_phdr_t := read_phdr m ph <$> seqZ 0 n.
Definition loadable (m : gmap Z Z) (ph n : Z) : list elf_phdr_t :=
  filter (fun p => p_type p = ELF_PT_LOAD) (phdrs m ph n).
(** The end of a segment. *)
Definition seg_end_of (p : elf_phdr_t) : Z := p_vaddr p + p_memsz p.

(** [mn] and [mx] are the tight bounds of the segments. *)
Definition extent (l : list elf_phdr_t) (mn mx : Z) : Prop :=
  (forall p, p ∈ l -> mn <= p_vaddr p /\ seg_end_of p <= mx) /\
  (exists p, p ∈ l /\ p_vaddr p = mn) /\ (exists p, p ∈ l /\ seg_end_of p = mx).

Record image_ok (m : gmap Z Z) (file file_size : Z) (mn mx : Z) : Prop := ImageOk {
  io_file : file <> 0 /\ SIZEOF_ELF_HEADER <= file_size;
  io_magic : let h := read_header m file in
    e_magic h = ELF_MAGIC /\ e_class h = ELF_CLASS_64 /\ e_data h = ELF_DATA_LSB /\
    e_version h = ELF_VERSION_CURRENT /\ e_version2 h = ELF_VERSION_CURRENT /\
    e_type h = ELF_TYPE_EXEC /\ e_machine h = ELF_MACHINE_X86_64 /\
    e_ehsize h = SIZEOF_ELF_HEADER /\ e_phentsize h = SIZEOF_ELF_PHDR;
  io_table : let h := read_header m file in
    0 < e_phnum h /\ e_phoff h + SIZEOF_ELF_PHDR * e_phnum h <= file_size;
  io_segs : let h := read_header m file in
    Forall (seg_ok file_size) (loadable m (file + e_phoff h) (e_phnum h)) /\
    extent (loadable m (file + e_phoff h) (e_phnum h)) mn mx;
  io_entry : mn <= e_entry (read_header m file) < mx /\ mx - mn <= ELF_MAX_LOAD_SIZE
}.

(** ** The bit tests *)

Lemma valid_flags_spec fl : 0 <= fl < 4294967296 -> valid_flags fl = true <-> fl < 8.
Proof.
  intros Hf. unfold valid_flags. rewrite Z.eqb_eq.
  change (u32 (Z.lnot (Z.lor (Z.lor ELF_PF_R ELF_PF_W) ELF_PF_X))) with (Z.land (Z.lnot (Z.ones 3)) (Z.ones 32)).
  rewrite (Z.land_comm (Z.lnot _)), Z.land_assoc, Z.land_ones, (Z.mod_small fl), <- Z.ldiff_land, Z.ldiff_ones_r by lia.
  rewrite Z.shiftl_mul_pow2, Z.shiftr_div_pow2 by lia. change (2 ^ 3) with 8. mlia.
Qed.

Lemma pow2_test x : 0 < x -> Z.land x (x - 1) = 0 <-> exists k, 0 <= k /\ x = 2 ^ k.
Proof.
  intros Hx. split.
  - intros Hl. exists (Z.log2 x). pose proof (Z.log2_nonneg x). split; [done|].
    destruct (Z.log2_spec x Hx) as [Hlo Hhi]. destruct (Z.eq_dec x (2 ^ Z.log2 x)) as [|Hne]; [done|]. exfalso.
    assert (Z.testbit (Z.land x (x - 1)) (Z.log2 x) = true) as Hb; [|by rewrite Hl, Z.bits_0 in Hb].
    rewrite Z.land_spec, Z.bit_log2 by done. cbn. rewrite Z.pow_succ_r in Hhi by done.
    replace (Z.log2 x) with (Z.log2 (x - 1)) at 1; [apply Z.bit_log2; lia|].
    apply Z.log2_unique; [done|]. rewrite Z.pow_succ_r by done. lia.
  - intros (k & Hk & ->). rewrite Z.sub_1_r, <- Z.ones_equiv.
    rewrite Z.land_ones by done. apply Z.mod_same. pose proof (Z.pow_pos_nonneg 2 k). lia.
Qed.

Lemma pow2_divide k n : 0 <= k <= n -> (2 ^ k | 2 ^ n).
Proof. intros Hk. exists (2 ^ (n - k)). rewrite <- Z.pow_add_r by lia. f_equal. lia. Qed.

Lemma align_test al a b :
  0 <= al < 18446744073709551616 -> 0 <= a < 18446744073709551616 -> 0 <= b < 18446744073709551616 ->
  (negb (al =? 0) && negb (Z.land al (u64 (al - 1)) =? 0) = false /\
   (1 <? al) && negb (Z.land (u64 (a - b)) (u64 (al - 1)) =? 0) = false) <-> aligned al a b.
Proof.
  intros Hal Ha Hb. unfold aligned. destruct (Z.eqb_spec al 0) as [->|Hne].
  { cbn. split; [by left|done]. }
  rewrite u64_small by lia. cbn [negb andb]. rewrite negb_false_iff, Z.eqb_eq, pow2_test by lia. split.
  - intros [(k & Hk & ->) H]. right. exists k. split_and!; try done.
    destruct (Z.ltb_spec 1 (2 ^ k)); cbn in H;
      [|replace (2 ^ k) with 1 by lia; apply Z.mod_1_r].
    apply negb_false_iff, Z.eqb_eq in H. rewrite Z.sub_1_r, <- Z.ones_equiv, Z.land_ones in H by done.
    assert (k <= 64) as Hk64 by (apply (Z.pow_le_mono_r_iff 2); lia).
    unfold u64 in H. change 18446744073709551616 with (2 ^ 64) in H.
    by rewrite Z.mod_mod_divide in H by (by apply pow2_divide).
  - intros [|(k & Hk & -> & Hm)]; [done|]. split; [by exists k|].
    apply andb_false_iff. right. apply negb_false_iff, Z.eqb_eq.
    rewrite Z.sub_1_r, <- Z.ones_equiv, Z.land_ones by done.
    assert (k <= 64) as Hk64 by (apply (Z.pow_le_mono_r_iff 2); lia).
    unfold u64. change 18446744073709551616 with (2 ^ 64).
    by rewrite Z.mod_mod_divide by (by apply pow2_divide).
Qed.

(** ** One segment *)

Lemma phdr_range m ph i : let p := read_phdr m ph i in
  0 <= p_flags p < 4294967296 /\ 0 <= p_offset p < 18446744073709551616 /\ 0 <= p_vaddr p < 18446744073709551616 /\
  0 <= p_filesz p < 18446744073709551616 /\ 0 <= p_memsz p < 18446744073709551616 /\ 0 <= p_align p < 18446744073709551616.
Proof. cbn. split_and!; apply (rd_le_range 4) || apply (rd_le_range 8). Qed.

Lemma inspect_segment_spec m ph i fs e :
  0 <= fs < 18446744073709551616 ->
  inspect_segment (read_phdr m ph i) fs = Some e <->
  seg_ok fs (read_phdr m ph i) /\ e = seg_end_of (read_phdr m ph i).
Proof.
  intros Hfs. destruct (phdr_range m ph i) as (Hf & Ho & Hv & Hfz & Hm & Ha). set (p := read_phdr m ph i) in *. clearbody p.
  unfold inspect_segment, seg_ok, seg_end_of, add_overflow_u64. pose proof (valid_flags_spec _ Hf) as Hfl.
  pose proof (align_test _ _ _ Ha Hv Ho) as Hal. split.
  - intros H. case_test_in H; [done|]. case_test_in H; [done|]. case_test_in H; [done|].
    do 2 (case_test_in H; [done|]). injection H as <-.
    repeat match goal with E : (_ || _)%bool = false |- _ => apply orb_false_iff in E as [E ?] end.
    assert (valid_flags (p_flags p) = true) as Hv' by (by apply negb_false_iff).
    apply Hfl in Hv'. prop_bools. split; [split_and!; try lia|]; try mlia. by apply Hal.
  - intros [(Hfl' & Hmp & Hfm & Hfo & Hvm & Hali) ->]. apply Hal in Hali as [-> ->]. apply Hfl in Hfl' as ->.
    rewrite (proj2 (Z.eqb_neq (p_memsz p) 0)), (proj2 (Z.ltb_ge (p_memsz p) (p_filesz p))) by lia. cbn [negb orb].
    rewrite !u64_small by lia. rewrite (proj2 (Z.ltb_ge (_ + _) (p_offset p))), (proj2 (Z.ltb_ge fs _)) by lia.
    by rewrite (proj2 (Z.ltb_ge (_ + _) (p_vaddr p))) by lia.
Qed.

(** ** All segments *)

Definition seg_min (mn : Z) (l : list elf_phdr_t) : Z := foldl (fun a p => Z.min a (p_vaddr p)) mn l.
Definition seg_max (mx : Z) (l : list elf_phdr_t) : Z := foldl (fun a p => Z.max a (seg_end_of p)) mx l.

Lemma inspect_loop_spec k m ph fs i mn mx ld r :
  0 <= fs < 18446744073709551616 ->
  let l := filter (fun p => p_type p = ELF_PT_LOAD) (read_phdr m ph <$> seqZ i (Z.of_nat k)) in
  inspect_loop k m ph fs i mn mx ld = Some r <->
  Forall (seg_ok fs) l /\ r = (seg_min mn l, seg_max mx l, ld + Z.of_nat (length l)).
Proof.
  intros Hfs. revert i mn mx ld. induction k as [|k IH]; intros i mn mx ld; cbn [inspect_loop].
  { rewrite seqZ_nil by done. cbn. split; [intros [= <-]; split; [constructor|f_equal; lia]|intros [_ ->]; do 2 f_equal; lia]. }
  rewrite (seqZ_cons i (Z.of_nat (S k))) by lia. cbn [fmap list_fmap].
  replace (Z.pred (Z.of_nat (S k))) with (Z.of_nat k) by lia. replace (Z.succ i) with (i + 1) by lia.
  set (p := read_phdr m ph i). cbn zeta. destruct (Z.eqb_spec (p_type p) ELF_PT_LOAD) as [Ht|Ht]; cbn [negb].
  - rewrite filter_cons_True by done. set (l := filter _ _). rewrite Forall_cons.
    destruct (inspect_segment p fs) as [e|] eqn:He.
    + apply inspect_segment_spec in He as [Hok ->]; [|done]. specialize (IH (i + 1)). cbn zeta in IH. rewrite IH.
      fold l p. unfold seg_min, seg_max. cbn [foldl length].
      replace (if p_vaddr p <? mn then p_vaddr p else mn) with (Z.min mn (p_vaddr p)) by (case_match eqn:E; lia).
      replace (if mx <? seg_end_of p then seg_end_of p else mx) with (Z.max mx (seg_end_of p)) by (case_match eqn:E; lia).
      replace (ld + 1 + Z.of_nat (length l)) with (ld + Z.of_nat (S (length l))) by lia.
      split; [intros [? ->]|intros [[_ ?] ->]]; done.
    + split; [done|]. intros [[Hok _] _]. exfalso.
      assert (inspect_segment p fs = Some (seg_end_of p)) by (by apply inspect_segment_spec). congruence.
  - rewrite filter_cons_False by done. apply (IH (i + 1)).
Qed.

Lemma seg_min_spec l mn : seg_min mn l <= mn /\ (forall p, p ∈ l -> seg_min mn l <= p_vaddr p) /\
  (seg_min mn l = mn \/ exists p, p ∈ l /\ p_vaddr p = seg_min mn l).
Proof.
  revert mn. induction l as [|q l IH]; intros mn; cbn.
  - split_and!; [done|by intros p ?%not_elem_of_nil|by left].
  - fold (seg_min (Z.min mn (p_vaddr q)) l). destruct (IH (Z.min mn (p_vaddr q))) as (H1 & H2 & H3). split_and!; [lia| |].
    + intros p [->|Hp]%elem_of_cons; [lia|by apply H2].
    + destruct H3 as [H3|(p & Hp & E)]; [|right; exists p; split; [by right|done]].
      destruct (Z.min_spec mn (p_vaddr q)) as [[_ E]|[_ E]]; [left; congruence|right; exists q; split; [by left|congruence]].
Qed.
Lemma seg_max_spec l mx : mx <= seg_max mx l /\ (forall p, p ∈ l -> seg_end_of p <= seg_max mx l) /\
  (seg_max mx l = mx \/ exists p, p ∈ l /\ seg_end_of p = seg_max mx l).
Proof.
  revert mx. induction l as [|q l IH]; intros mx; cbn.
  - split_and!; [done|by intros p ?%not_elem_of_nil|by left].
  - fold (seg_max (Z.max mx (seg_end_of q)) l). destruct (IH (Z.max mx (seg_end_of q))) as (H1 & H2 & H3). split_and!; [lia| |].
    + intros p [->|Hp]%elem_of_cons; [lia|by apply H2].
    + destruct H3 as [H3|(p & Hp & E)]; [|right; exists p; split; [by right|done]].
      destruct (Z.max_spec mx (seg_end_of q)) as [[_ E]|[_ E]]; [right; exists q; split; [by left|congruence]|left; congruence].
Qed.

(** The folds that start at the extreme values give the extent. *)
Lemma extent_folds fs l mn mx :
  l <> [] -> Forall (seg_ok fs) l -> (forall p, p ∈ l -> 0 <= p_vaddr p) ->
  extent l mn mx <-> mn = seg_min 18446744073709551615 l /\ mx = seg_max 0 l.
Proof.
  intros Hne Hall Hpos. pose proof (fun p Hp => proj1 (Forall_forall _ _) Hall p Hp) as Hseg.
  destruct (seg_min_spec l 18446744073709551615) as (_ & Hm1 & Hm2), (seg_max_spec l 0) as (_ & Hx1 & Hx2).
  assert (exists p, p ∈ l /\ p_vaddr p = seg_min 18446744073709551615 l) as (p & Hp & Ep).
  { destruct Hm2 as [E|]; [|done]. exfalso. destruct l as [|q l]; [done|].
    pose proof (Hm1 q (list_elem_of_here _ _)). destruct (Hseg q (list_elem_of_here _ _)) as (_ & ? & _ & _ & ? & _). lia. }
  assert (exists q, q ∈ l /\ seg_end_of q = seg_max 0 l) as (q & Hq & Eq).
  { destruct Hx2 as [E|]; [|done]. exfalso. destruct l as [|q l]; [done|]. unfold seg_end_of in *.
    pose proof (Hx1 q (list_elem_of_here _ _)). pose proof (Hpos q (list_elem_of_here _ _)).
    destruct (Hseg q (list_elem_of_here _ _)) as (_ & ? & _). lia. }
  split.
  - intros (Hb & (a & Ha & Ea) & (b & Hbb & Eb)). destruct (Hb p Hp), (Hb q Hq).
    pose proof (Hm1 a Ha). pose proof (Hx1 b Hbb). lia.
  - intros [-> ->]. split_and!; [|by exists p|by exists q]. intros r Hr. split; [by apply Hm1|by apply Hx1].
Qed.

Lemma range_inside_spec off len total :
  0 <= off < 18446744073709551616 -> 0 <= len < 18446744073709551616 -> 0 <= total < 18446744073709551616 ->
  range_inside off len total = true <-> off + len <= total.
Proof.
  intros Ho Hl Ht. unfold range_inside, add_overflow_u64. split.
  - case_test; [done|]. intros [? ?]%andb_true_iff. prop_bools. mlia.
  - intros H. rewrite u64_small by lia. rewrite (proj2 (Z.ltb_ge _ _)) by lia.
    rewrite !(proj2 (Z.leb_le _ _)) by lia. done.
Qed.

Lemma header_range m f : let h := read_header m f in
  0 <= e_entry h < 18446744073709551616 /\ 0 <= e_phoff h < 18446744073709551616 /\ 0 <= e_phnum h < 65536 /\
  0 <= e_phentsize h < 65536.
Proof. cbn. split_and!; first [apply (rd_le_range 8)|apply (rd_le_range 2)]. Qed.

Lemma header_ok_spec m f fs : 0 <= fs < 18446744073709551616 -> let h := read_header m f in
  header_ok h fs = true <->
  (e_magic h = ELF_MAGIC /\ e_class h = ELF_CLASS_64 /\ e_data h = ELF_DATA_LSB /\
    e_version h = ELF_VERSION_CURRENT /\ e_version2 h = ELF_VERSION_CURRENT /\
    e_type h = ELF_TYPE_EXEC /\ e_machine h = ELF_MACHINE_X86_64 /\
    e_ehsize h = SIZEOF_ELF_HEADER /\ e_phentsize h = SIZEOF_ELF_PHDR) /\
  (0 < e_phnum h /\ e_phoff h + SIZEOF_ELF_PHDR * e_phnum h <= fs).
Proof.
  intros Hfs h. destruct (header_range m f) as (He & Ho & Hn & Hz). fold h in He, Ho, Hn, Hz. clearbody h. unfold header_ok.
  rewrite !andb_true_iff, !negb_true_iff, !orb_false_iff, !negb_false_iff, !Z.eqb_eq, Z.eqb_neq. unfold SIZEOF_ELF_PHDR.
  rewrite u64_small by nia. rewrite range_inside_spec by nia. split.
  - intros [[[[[[? ?] ?] [? ?]] [? ?]] [[? Hp] ?]] Hr]. rewrite Hp in Hr. split_and!; try done. lia.
  - intros [(? & ? & ? & ? & ? & ? & ? & ? & Hp) [? ?]]. rewrite Hp. split_and!; try done. lia.
Qed.

Lemma inspect_load_range_spec m eh ph fs mn mx ld :
  0 <= fs < 18446744073709551616 -> 0 <= e_phnum eh ->
  inspect_load_range m eh ph fs = Some (mn, mx, ld) <->
  Forall (seg_ok fs) (loadable m ph (e_phnum eh)) /\ extent (loadable m ph (e_phnum eh)) mn mx /\
  mn <= e_entry eh < mx /\ mx - mn <= ELF_MAX_LOAD_SIZE /\ ld = Z.of_nat (length (loadable m ph (e_phnum eh))).
Proof.
  intros Hfs Hn. unfold inspect_load_range.
  pose proof (inspect_loop_spec (Z.to_nat (e_phnum eh)) m ph fs 0 18446744073709551615 0 0) as Hloop.
  rewrite Z2Nat.id in Hloop by done. fold (phdrs m ph (e_phnum eh)) in Hloop. cbn zeta in Hloop.
  fold (loadable m ph (e_phnum eh)) in Hloop. set (l := loadable m ph (e_phnum eh)) in *.
  assert (forall p, p ∈ l -> 0 <= p_vaddr p) as Hpos.
  { intros p [_ (i & -> & _)%list_elem_of_fmap]%list_elem_of_filter. by apply phdr_range. }
  destruct (inspect_loop _ _ _ _ _ _ _ _) as [r|].
  - destruct (proj1 (Hloop r Hfs) eq_refl) as [Hall ->]. destruct (decide (l = [])) as [Hl|Hl].
    { rewrite Hl. cbn. split; [done|]. intros (_ & (_ & (p & Hp%not_elem_of_nil & _) & _) & _). done. }
    rewrite (extent_folds fs l mn mx Hl Hall Hpos).
    assert (0 < length l)%nat by (destruct l; [done|cbn; lia]). split.
    + intros Hr. case_test_in Hr; [done|]. case_test_in Hr; [done|]. prop_bools. injection Hr as <- <- <-.
      split_and!; done || lia.
    + intros (_ & [-> ->] & ? & ? & ->). rewrite (proj2 (Z.eqb_neq _ _)), (proj2 (Z.ltb_ge _ _)), !(proj2 (Z.leb_gt _ _)) by lia.
      cbn [orb]. by rewrite (proj2 (Z.ltb_ge _ _)) by lia.
  - split; [done|]. intros (Hall & _). exfalso.
    assert (None = Some (seg_min 18446744073709551615 l, seg_max 0 l, 0 + Z.of_nat (length l))); [|done].
    by apply Hloop.
Qed.

Lemma elf_validate_ok m file fs :
  0 <= file -> 0 <= fs < 18446744073709551616 ->
  elf_validate m file fs = 0 <-> exists mn mx, image_ok m file fs mn mx.
Proof.
  intros Hf Hfs. unfold elf_validate. split.
  - intros H. case_test_in H; [done|]. case_test_in H; [done|]. apply negb_false_iff, header_ok_spec in Htest0 as [? ?]; [|done].
    prop_bools.
    destruct (inspect_load_range m (read_header m file) (file + e_phoff (read_header m file)) fs) as [[[mn mx] ld]|] eqn:E; [|done].
    apply inspect_load_range_spec in E as (? & ? & ? & ? & _); [|done|apply header_range]. by exists mn, mx.
  - intros (mn & mx & [[H1 H2] Hmagic Htab [Hs1 Hs2] [He1 He2]]).
    rewrite (proj2 (Z.eqb_neq file 0)), (proj2 (Z.ltb_ge fs _)) by lia. cbn [orb].
    rewrite (proj2 (header_ok_spec m file fs Hfs)) by done. cbn [negb].
    pose proof (proj2 (inspect_load_range_spec m (read_header m file) (file + e_phoff (read_header m file)) fs mn mx _ Hfs
      (proj1 (proj1 (proj2 (proj2 (header_range m file)))))) (conj Hs1 (conj Hs2 (conj He1 (conj He2 eq_refl))))) as ->. done.
Qed.
