(* ===== verification/ElfLoad.v ===== *)
(** * kernel/elf.c: loading an image into a process

    The image is placed in a fresh block of the process; its contents are the
    bytes of the loadable segments, in table order, over zeros. *)

From Stdlib Require Import ZArith Lia.
From stdpp Require Import base numbers gmap strings fin_maps option list.
From S2P Require Import Prelude MemUtils Heap HeapTheorems Allocator MemApps MemCtx Vfs ProcTable Elf ElfProofs.

Local Open Scope Z_scope.

(** The byte of the image at virtual address [v], [acc] where no segment of
    the list has one: a later segment overrides an earlier one. *)
Definition seg_byte (m : gmap Z Z) (file : Z) (l : list elf_phdr_t) (v acc : Z) : Z :=
  foldl (fun acc p => if decide (p_vaddr p <= v < p_vaddr p + p_filesz p)
                      then rd m (file + p_offset p + (v - p_vaddr p)) else acc) acc l.

Section Load.
Context {St : Type} `{AllocatorLaws St}.
Implicit Types s : proc_state St.

(** ** Writing inside one block *)

(** The state changed in memory contents only. *)
Definition same_but_ram s s' : Prop :=
  files s' = Vfs.set_mem (files s) (Vfs.mem (files s')) /\ contexts s' = contexts s /\ ctx_blocks s' = ctx_blocks s /\
  next_ctx s' = next_ctx s /\ procs s' = procs s /\ next_pid s' = next_pid s /\ current_pid s' = current_pid s /\
  al_ok (Vfs.mem (files s')) /\ al_owns (Vfs.mem (files s')) = al_owns (Vfs.mem (files s)) /\
  forall x, al_managed (Vfs.mem (files s')) x <-> al_managed (Vfs.mem (files s)) x.

Lemma same_but_ram_refl s : al_ok (Vfs.mem (files s)) -> same_but_ram s s.
Proof. intros Hok. unfold same_but_ram. split_and!; try done. by destruct (files s). Qed.
Lemma same_but_ram_trans s1 s2 s3 : same_but_ram s1 s2 -> same_but_ram s2 s3 -> same_but_ram s1 s3.
Proof.
  intros (F1 & ? & ? & ? & ? & ? & ? & _ & O1 & M1) (F2 & ? & ? & ? & ? & ? & ? & K & O2 & M2).
  unfold same_but_ram. split_and!; try congruence; [|by intros x; rewrite M2].
  rewrite F2. rewrite F1 at 1. done.
Qed.
Lemma same_but_ram_ctx s s' : ctx_inv (ctx_view s) -> same_but_ram s s' -> ctx_inv (ctx_view s').
Proof.
  intros Hi (_ & E1 & E2 & E3 & _ & _ & _ & K & O & _). unfold ctx_view. rewrite E1, E2, E3.
  apply (ctx_inv_mem (ctx_view s) _ Hi K). intros p u. by rewrite O.
Qed.

Lemma set_ram_block s m p u a n :
  al_ok (Vfs.mem (files s)) -> al_owns (Vfs.mem (files s)) !! p = Some u -> p <= a -> a + n <= p + u ->
  (forall x, ~ (a <= x < a + n) -> rd m x = rd (ram s) x) ->
  ram (set_ram s m) = m /\ same_but_ram s (set_ram s m).
Proof.
  intros Hok Hp Ha Hn Hm. destruct (al_set_ram_law (Vfs.mem (files s)) m Hok) as (K & O & R & M).
  - intros x _ Hx. exists p, u. split; [done|]. unfold in_block.
    destruct (decide (a <= x < a + n)) as [|Hout]; [lia|]. by rewrite Hm in Hx.
  - done.
Qed.

(** ** The block for the image *)

Lemma memctx_alloc_ram (c : ctx_state St) k size c' p :
  ctx_inv c -> 0 <= size < REQUEST_LIMIT -> memctx_alloc c k size = Ret (c', p) ->
  al_ram (MemCtx.mem c') = al_ram (MemCtx.mem c) /\
  forall x, al_managed (MemCtx.mem c') x <-> al_managed (MemCtx.mem c) x.
Proof.
  intros Hi Hs Hrun. unfold memctx_alloc in Hrun. case_test_in Hrun; [by injection Hrun as <- <-|].
  destruct (find_ctx c k) as [i|]; [|by injection Hrun as <- <-].
  destruct (MemCtx.contexts c !! i) as [x|]; [|done]. case_test_in Hrun; [by injection Hrun as <- <-|].
  destruct (find_index _ _ _) as [j|]; [|by injection Hrun as <- <-].
  assert (0 <= size < ALLOC_LIMIT) as Hl by (unfold ALLOC_LIMIT, REQUEST_LIMIT in *; lia).
  destruct (al_alloc_law (MemCtx.mem c) size (ci_mem c Hi) Hl) as (m & q & E & _ & Hr & Hm & _).
  rewrite E in Hrun. cbn [mbind outcome_bind] in Hrun. case_test_in Hrun; by injection Hrun as <- <-.
Qed.

(** Everything but the memory and its contexts is as before. *)
Definition same_procs s s' : Prop :=
  files s' = Vfs.set_mem (files s) (Vfs.mem (files s')) /\ procs s' = procs s /\ next_pid s' = next_pid s /\
  current_pid s' = current_pid s.

Lemma proc_alloc_spec s p size e :
  ctx_inv (ctx_view s) -> proc_at s p = Some e -> 0 <= size < REQUEST_LIMIT ->
  exists s' a, proc_alloc s p size = Ret (s', a) /\ ctx_inv (ctx_view s') /\ same_procs s s' /\ ram s' = ram s /\
    (forall x, al_managed (Vfs.mem (files s')) x <-> al_managed (Vfs.mem (files s)) x) /\
    ((a = 0 /\ al_owns (Vfs.mem (files s')) = al_owns (Vfs.mem (files s))) \/
     (exists u, a <> 0 /\ al_owns (Vfs.mem (files s)) !! a = None /\ size <= u /\
        al_owns (Vfs.mem (files s')) = <[a := u]> (al_owns (Vfs.mem (files s))))).
Proof.
  intros Hi He Hs. unfold proc_alloc. rewrite He.
  destruct (memctx_alloc_spec (ctx_view s) (memctx (info e)) size Hi Hs) as (c & a & Hrun & Hic & _ & Hcase).
  rewrite Hrun. cbn [mbind outcome_bind]. destruct (memctx_alloc_ram _ _ _ _ _ Hi Hs Hrun) as [Hr Hm].
  exists (put_ctx s c), a. split_and!; try done.
  - by destruct c.
  - destruct Hcase as [(-> & _ & _ & Ho)|(_ & _ & _ & u & Ha & _ & _ & _ & _ & _ & _ & _ & _ & Hn & Ho & Hu)]; [by left|].
    right. by exists u.
Qed.

(** Memory a client could rely on before an allocation is not in the new block. *)
Lemma stable_not_fresh (m m' : St) a u x :
  al_ok m' -> al_owns m !! a = None -> al_owns m' = <[a := u]> (al_owns m) ->
  (forall y, al_managed m' y <-> al_managed m y) -> stable m x -> ~ in_block a u x.
Proof.
  intros Hok Hn Ho Hm Hst Hin. assert (al_owns m' !! a = Some u) as Ha by (by rewrite Ho, lookup_insert_eq).
  destruct Hst as [Hst|(q & v & Hq & Hx)].
  - apply Hst. rewrite <- Hm. by apply (al_range_law m' a u Hok Ha).
  - assert (al_owns m' !! q = Some v) as Hq' by (rewrite Ho, lookup_insert_ne; [done|congruence]).
    pose proof (al_disjoint_law m' a u q v Hok Ha Hq' ltac:(congruence)). unfold in_block in *. lia.
Qed.

(** A range of such memory lies on one side of the block. *)
Lemma stable_range_beside (m m' : St) a u f n :
  al_ok m' -> al_owns m !! a = None -> al_owns m' = <[a := u]> (al_owns m) ->
  (forall y, al_managed m' y <-> al_managed m y) -> (forall x, f <= x < f + n -> stable m x) ->
  0 < u -> 0 < n -> a + u <= f \/ f + n <= a.
Proof.
  intros Hok Hn Ho Hm Hst Hu Hpos. destruct (decide (a + u <= f)); [by left|]. destruct (decide (f + n <= a)); [by right|].
  exfalso. apply (stable_not_fresh m m' a u (Z.max a f) Hok Hn Ho Hm); [apply Hst; lia|unfold in_block; lia].
Qed.

(** ** The copying loop *)

(** Every loadable segment of the rest of the table fits the image. *)
Definition segs_fit (fs mn mx : Z) (l : list elf_phdr_t) : Prop :=
  Forall (fun p => seg_ok fs p /\ mn <= p_vaddr p /\ seg_end_of p <= mx) l.

(** The state keeps the file the loader works from. *)
Definition file_kept (m : gmap Z Z) (file fs : Z) s : Prop :=
  forall x, file <= x < file + fs -> rd (ram s) x = rd m x.

Lemma read_header_kept m file fs s : file_kept m file fs s -> SIZEOF_ELF_HEADER <= fs ->
  read_header (ram s) file = read_header m file.
Proof.
  unfold SIZEOF_ELF_HEADER. intros Hk Hf. unfold read_header.
  f_equal; first [apply Hk; lia|apply rd_le_ext; intros x Hx; apply Hk; lia].
Qed.
Lemma read_phdr_kept m file fs s off i : file_kept m file fs s -> 0 <= off -> 0 <= i ->
  off + SIZEOF_ELF_PHDR * (i + 1) <= fs -> read_phdr (ram s) (file + off) i = read_phdr m (file + off) i.
Proof.
  unfold SIZEOF_ELF_PHDR. intros Hk Ho Hi Hf. unfold read_phdr, SIZEOF_ELF_PHDR. cbn zeta.
  f_equal; apply rd_le_ext; intros x Hx; apply Hk; lia.
Qed.

(** One segment copied. *)
Lemma copy_segment s m file fs mn mx base u p :
  al_ok (Vfs.mem (files s)) -> al_owns (Vfs.mem (files s)) !! base = Some u -> mx - mn <= u ->
  0 <= mn -> mx < 18446744073709551616 -> base + (mx - mn) <= file \/ file + fs <= base ->
  file_kept m file fs s -> seg_ok fs p -> mn <= p_vaddr p -> seg_end_of p <= mx -> 0 <= p_offset p -> 0 <= p_filesz p ->
  let s' := set_ram s (memcpy (ram s) (base + (p_vaddr p - mn)) (file + p_offset p) (p_filesz p)) in
  same_but_ram s s' /\ file_kept m file fs s' /\
  (forall x, ~ (base <= x < base + (mx - mn)) -> rd (ram s') x = rd (ram s) x) /\
  (forall v, mn <= v < mx -> rd (ram s') (base + (v - mn)) = seg_byte m file [p] v (rd (ram s) (base + (v - mn)))).
Proof.
  intros Hok Hown Hu Hmn Hmx Hdis Hk (_ & Hm0 & Hfm & Hof & _) Hlo Hhi Hop Hfz s'. unfold seg_end_of in Hhi.
  assert (forall x, rd (memcpy (ram s) (base + (p_vaddr p - mn)) (file + p_offset p) (p_filesz p)) x =
    if decide (base + (p_vaddr p - mn) <= x < base + (p_vaddr p - mn) + p_filesz p)
    then rd m (file + p_offset p + (x - (base + (p_vaddr p - mn)))) else rd (ram s) x) as Hcp.
  { intros x. rewrite rd_memcpy, rd_store_at, Z2Nat.id by lia. case_match; [|done].
    rewrite u8_rd, <- Hk by lia. f_equal. lia. }
  destruct (set_ram_block s (memcpy (ram s) (base + (p_vaddr p - mn)) (file + p_offset p) (p_filesz p)) base u
    (base + (p_vaddr p - mn)) (p_filesz p) Hok Hown) as [Hr Hs];
    [lia|lia|intros x Hx; rewrite Hcp; by rewrite decide_False|].
  fold s' in Hr, Hs. split_and!; [done| | |].
  - intros x Hx. rewrite Hr, Hcp, decide_False by lia. by apply Hk.
  - intros x Hx. rewrite Hr, Hcp, decide_False by lia. done.
  - intros v Hv. rewrite Hr, Hcp. cbn. case_decide; case_decide; try lia. f_equal. lia.
Qed.

Lemma load_loop_spec fuel s m pid file fs off n mn mx base u i :
  al_ok (Vfs.mem (files s)) -> al_owns (Vfs.mem (files s)) !! base = Some u -> mx - mn <= u ->
  0 <= mn -> mx < 18446744073709551616 -> base + (mx - mn) <= file \/ file + fs <= base ->
  file_kept m file fs s -> SIZEOF_ELF_HEADER <= fs -> n = e_phnum (read_header m file) ->
  0 <= off -> off + SIZEOF_ELF_PHDR * n <= fs -> 0 <= i <= n -> (Z.to_nat (n - i) <= fuel)%nat ->
  let l := filter (fun p => p_type p = ELF_PT_LOAD) (read_phdr m (file + off) <$> seqZ i (n - i)) in
  segs_fit fs mn mx l ->
  exists s', load_loop fuel s pid file (file + off) mn base (mx - mn) i = Ret (s', true) /\ same_but_ram s s' /\
    file_kept m file fs s' /\
    (forall x, ~ (base <= x < base + (mx - mn)) -> rd (ram s') x = rd (ram s) x) /\
    (forall v, mn <= v < mx -> rd (ram s') (base + (v - mn)) = seg_byte m file l v (rd (ram s) (base + (v - mn)))).
Proof.
  intros Hok Hown Hu Hmn Hmx Hdis Hk Hfs En Hoff Htab Hi Hfuel. revert s i Hok Hown Hk Hi Hfuel.
  assert (n < 65536) as Hn16 by (rewrite En; apply header_range).
  induction fuel as [|fuel IH]; intros s i Hok Hown Hk Hi Hfuel l Hfit; cbn [load_loop];
    rewrite (read_header_kept m file fs s Hk Hfs), <- En.
  { rewrite (proj2 (Z.ltb_ge i n)) by lia. exists s. unfold l. rewrite seqZ_nil by lia.
    split_and!; try done. by apply same_but_ram_refl. }
  destruct (Z.ltb_spec i n) as [Hin|Hin].
  2: { exists s. unfold l. rewrite seqZ_nil by lia. split_and!; try done. by apply same_but_ram_refl. }
  rewrite (read_phdr_kept m file fs s off i Hk Hoff) by (unfold SIZEOF_ELF_PHDR in *; lia).
  unfold u16. rewrite (Z.mod_small (i + 1)) by lia.
  unfold l in *. clear l. rewrite (seqZ_cons i (n - i)) in * by lia. cbn [fmap list_fmap] in *.
  replace (Z.pred (n - i)) with (n - (i + 1)) in * by lia. replace (Z.succ i) with (i + 1) in * by lia.
  destruct (phdr_range m (file + off) i) as (_ & Hpo & Hpv & Hpf & Hpm & _).
  set (p := read_phdr m (file + off) i) in *. destruct (Z.eqb_spec (p_type p) ELF_PT_LOAD) as [Ht|Ht]; cbn [negb].
  - rewrite filter_cons_True in * by done. apply Forall_cons in Hfit as [(Hseg & Hlo & Hhi) Hfit].
    unfold seg_end_of in Hhi. rewrite u64_small by lia.
    rewrite (proj2 (Z.ltb_ge (mx - mn) _)), (proj2 (Z.ltb_ge _ (p_memsz p))) by lia. cbn [orb].
    destruct (copy_segment s m file fs mn mx base u p) as (Hs1 & Hk1 & Hout1 & Hin1); try done; [lia..|].
    set (s1 := set_ram s _) in *. pose proof Hs1 as (_ & _ & _ & _ & _ & _ & _ & K1 & O1 & _).
    destruct (IH s1 (i + 1)) as (s' & -> & Hs' & Hk' & Hout' & Hin'); try done; [by rewrite O1|lia|lia|].
    exists s'. split_and!; [done|by eapply same_but_ram_trans|done| |].
    + intros x Hx. by rewrite Hout', Hout1.
    + intros v Hv. rewrite Hin', Hin1 by done. done.
  - rewrite filter_cons_False in * by done. apply IH; done || lia.
Qed.

(** ** The whole image *)

Lemma image_fits m file fs mn mx : image_ok m file fs mn mx ->
  segs_fit fs mn mx (loadable m (file + e_phoff (read_header m file)) (e_phnum (read_header m file))) /\
  0 <= mn /\ mx < 18446744073709551616 /\ 0 < mx - mn <= ELF_MAX_LOAD_SIZE.
Proof.
  intros [_ _ _ [Hs (Hb & (p & Hp & <-) & (q & Hq & <-))] [He Hsz]]. split_and!; [| | |lia|done].
  - apply Forall_forall. intros r Hr. destruct (Hb r Hr). split_and!; try done. by eapply Forall_forall in Hs.
  - apply list_elem_of_filter in Hp as [_ (i & -> & _)%list_elem_of_fmap]. apply phdr_range.
  - eapply Forall_forall in Hs as (_ & _ & _ & _ & Hend & _); [|done]. done.
Qed.

(** The image is in a fresh block of the process: the segments over zeros. *)
Definition loaded s s' (file fs mn mx : Z) (im : elf_image_t) : Prop :=
  let eh := read_header (ram s) file in
  exists u, al_owns (Vfs.mem (files s)) !! load_base im = None /\ mx - mn <= u /\
    al_owns (Vfs.mem (files s')) = <[load_base im := u]> (al_owns (Vfs.mem (files s))) /\
    im = ElfImage mn mx (load_base im) (mx - mn) (load_base im + (e_entry eh - mn)) /\
    (forall x, ~ (load_base im <= x < load_base im + (mx - mn)) -> rd (ram s') x = rd (ram s) x) /\
    forall v, mn <= v < mx -> rd (ram s') (load_base im + (v - mn)) =
      seg_byte (ram s) file (loadable (ram s) (file + e_phoff eh) (e_phnum eh)) v 0.

Lemma elf_load_ok s pid e file fs o mn mx :
  ctx_inv (ctx_view s) -> proc_at s pid = Some e -> 0 <= file -> 0 <= fs < 18446744073709551616 ->
  image_ok (ram s) file fs mn mx -> (forall x, file <= x < file + fs -> stable (Vfs.mem (files s)) x) ->
  exists s' out r, elf_load_process_image s pid file fs (Some o) = Ret (s', out, r) /\ ctx_inv (ctx_view s') /\
    same_procs s s' /\
    ((r = -1 /\ ram s' = ram s /\ al_owns (Vfs.mem (files s')) = al_owns (Vfs.mem (files s))) \/
     (r = 0 /\ exists im, out = Some im /\ loaded s s' file fs mn mx im)).
Proof.
  intros Hi He Hf Hfs Him Hst. destruct (image_fits _ _ _ _ _ Him) as (Hfit & Hmn & Hmx & Hsz).
  unfold elf_load_process_image. rewrite bool_decide_eq_true_2 by done.
  rewrite (proj2 (elf_validate_ok (ram s) file fs Hf Hfs)) by (by exists mn, mx). cbn [negb orb Z.eqb].
  set (eh := read_header (ram s) file) in *. pose proof (header_range (ram s) file) as (Hent & Hoff & Hnum & _). fold eh in Hent, Hoff, Hnum.
  destruct Him as [[_ Hhead] _ [Hn Htab] [Hs1 Hs2] [He1 He2]]. fold eh in Hn, Htab, Hs1, Hs2, He1.
  rewrite (proj2 (inspect_load_range_spec (ram s) eh (file + e_phoff eh) fs mn mx _ Hfs (proj1 Hnum))
    (conj Hs1 (conj Hs2 (conj He1 (conj He2 eq_refl))))).
  destruct (proc_alloc_spec s pid (mx - mn) e Hi He) as (s1 & a & -> & Hi1 & Hsp & Hram & Hman & Hcase);
    [unfold ELF_MAX_LOAD_SIZE, REQUEST_LIMIT in *; lia|]. cbn [mbind outcome_bind].
  destruct Hcase as [[-> Ho]|(u & Ha & Hnone & Hu & Ho)]; [exists s1, (Some o), (-1); split_and!; try done; by left|].
  rewrite (proj2 (Z.eqb_neq a 0)) by done.
  pose proof (ci_mem _ Hi1) as K1. cbn in K1.
  assert (al_owns (Vfs.mem (files s1)) !! a = Some u) as Hown by (by rewrite Ho, lookup_insert_eq).
  assert (a + u <= file \/ file + fs <= a) as Hdis
    by (apply (stable_range_beside _ _ a u file fs K1 Hnone Ho Hman Hst); unfold SIZEOF_ELF_HEADER in *; lia).
  destruct (set_ram_block s1 (memset (ram s1) a 0 (mx - mn)) a u a (mx - mn) K1 Hown) as [Hr2 Hs2'];
    [lia|lia|intros x Hx; by rewrite rd_memset, decide_False|].
  set (s2 := set_ram s1 _) in *. pose proof Hs2' as (_ & _ & _ & _ & _ & _ & _ & K2 & O2 & _).
  assert (file_kept (ram s) file fs s2) as Hk2
    by (intros x Hx; rewrite Hr2, rd_memset, decide_False, Hram by lia; done).
  destruct (load_loop_spec (Z.to_nat 65536) s2 (ram s) pid file fs (e_phoff eh) (e_phnum eh) mn mx a u 0)
    as (s3 & Hrun3 & Hs3 & Hk3 & Hout3 & Hin3); try done; try lia; [by rewrite O2|by rewrite Z.sub_0_r|].
  rewrite Hrun3. cbn [mbind outcome_bind negb].
  rewrite (read_header_kept (ram s) file fs s3 Hk3 Hhead). fold eh. rewrite u64_small by lia.
  pose proof (same_but_ram_trans _ _ _ Hs2' Hs3) as Hs13.
  eexists s3, _, 0. split; [done|]. split; [by apply (same_but_ram_ctx s1)|]. split.
  { destruct Hsp as (F1 & ? & ? & ?), Hs13 as (F3 & _ & _ & _ & ? & ? & ? & _).
    unfold same_procs. split_and!; try congruence. rewrite F3. rewrite F1 at 1. done. }
  right. split; [done|]. eexists. split; [done|]. exists u. cbn [load_base]. split_and!; try done.
  - destruct Hs13 as (_ & _ & _ & _ & _ & _ & _ & _ & -> & _). done.
  - intros x Hx. rewrite Hout3 by done. by rewrite Hr2, rd_memset, decide_False, Hram.
  - intros v Hv. rewrite Hin3 by done. rewrite Z.sub_0_r. fold (phdrs (ram s) (file + e_phoff eh) (e_phnum eh)).
    f_equal. by rewrite Hr2, rd_memset, decide_True by lia.
Qed.
End Load.

(** ** Theorems *)

(** C9: [elf_validate] accepts a file exactly when it is a well-formed x86-64
    executable: the header names the format, the program headers lie in the
    file, every loadable segment has its bytes in the file, does not wrap
    around the address space and is aligned, and the entry point lies between
    the lowest and the highest address, at most 16 MiB apart. *)
Theorem elf_validate_exact m file file_size :
  0 <= file -> 0 <= file_size < 18446744073709551616 ->
  elf_validate m file file_size = 0 <-> exists mn mx, image_ok m file file_size mn mx.
Proof. apply elf_validate_ok. Qed.

(** C6: Loading an accepted file returns, and either fails with nothing in
    memory changed or places the image in a fresh block: the segments' bytes in
    order over zeros, nothing written outside the block, and the entry point
    translated into it. *)
Theorem elf_load_places_image `{AllocatorLaws St} (s : proc_state St) pid e file file_size o mn mx :
  ctx_inv (ctx_view s) -> proc_at s pid = Some e -> 0 <= file -> 0 <= file_size < 18446744073709551616 ->
  image_ok (ram s) file file_size mn mx ->
  (forall x, file <= x < file + file_size -> stable (Vfs.mem (files s)) x) ->
  exists s' out r, elf_load_process_image s pid file file_size (Some o) = Ret (s', out, r) /\
    ((r = -1 /\ ram s' = ram s /\ al_owns (Vfs.mem (files s')) = al_owns (Vfs.mem (files s))) \/
     (r = 0 /\ exists im, out = Some im /\ loaded s s' file file_size mn mx im /\
        load_base im <= entry im < load_base im + load_size im)).
Proof.
  intros Hi He Hf Hfs Him Hst.
  destruct (elf_load_ok s pid e file file_size o mn mx Hi He Hf Hfs Him Hst) as (s' & out & r & Hrun & _ & _ & Hcase).
  exists s', out, r. split; [done|]. destruct Hcase as [?|(-> & im & -> & Hl)]; [by left|]. right. split; [done|].
  exists im. pose proof Hl as (u & _ & _ & _ & E & _). pose proof (f_equal entry E) as Ee.
  pose proof (f_equal load_size E) as El. cbn [entry load_size] in Ee, El. destruct Him as [_ _ _ _ [? ?]]. split_and!; [done|done|lia|lia].
Qed.

(** ** Concrete inputs *)

#[local] Existing Instance demo_layout.

(** An executable of 124 bytes at address 0x1000: one segment with four bytes
    in the file and eight in memory, entered at its third byte. *)
Definition le (n : nat) (v : Z) : list Z := le_bytes n v.
Definition demo_elf : list Z :=
  [127; 69; 76; 70; 2; 1; 1; 0; 0; 0; 0; 0; 0; 0; 0; 0] ++ le 2 2 ++ le 2 62 ++ le 4 1 ++ le 8 0x400002 ++ le 8 64 ++
  le 8 0 ++ le 4 0 ++ le 2 64 ++ le 2 56 ++ le 2 1 ++ le 2 0 ++ le 2 0 ++ le 2 0 ++
  le 4 1 ++ le 4 5 ++ le 8 120 ++ le 8 0x400000 ++ le 8 0 ++ le 8 4 ++ le 8 8 ++ le 8 8 ++ [10; 20; 30; 40].
Definition demo_elf_mem : kmem := heap_init (store_bytes ∅ 0x1000 demo_elf) false [] 0x200000 EXOCORE_KERNEL_HEAP_SIZE.
Definition demo_procs : proc_state kmem :=
  let v := (vfs_init demo_elf_mem).1 in
  (proc_create (proc_init (ProcState v [] [] 0 [] 0 0)) (Some [105]) 0).1.

Lemma demo_procs_inv : ctx_inv (ctx_view demo_procs).
Proof.
  assert (ctx_view demo_procs = (memctx_create (memctx_init demo_elf_mem) 1 0).1) as -> by by vm_compute.
  apply memctx_create_inv; [apply memctx_init_inv; eexists _, _; apply heap_init_kinv, demo_layout_ok|lia|].
  change (next_ctx_id (memctx_init demo_elf_mem)) with 1. lia.
Qed.
Lemma demo_elf_stable x : 0x1000 <= x < 0x1000 + 124 -> stable (Vfs.mem (files demo_procs)) x.
Proof.
  intros Hx. left. cbn. unfold kmem_managed, ptr_in_region. change (heap_start _) with 0x200000.
  change swap_space with 0x110000. rewrite (proj2 (Z.leb_gt 0x200000 x)), (proj2 (Z.leb_gt 0x110000 x)) by lia. done.
Qed.

Lemma elf_validate_exact_witness : exists mn mx, image_ok (ram demo_procs) 0x1000 124 mn mx.
Proof. apply (elf_validate_exact (ram demo_procs) 0x1000 124); [lia|lia|by vm_compute]. Defined.
Lemma demo_entry : exists e, proc_at demo_procs 1 = Some e.
Proof. eexists. by vm_compute. Qed.
Lemma elf_load_places_image_witness : exists s' out r,
  elf_load_process_image demo_procs 1 0x1000 124 (Some zero_image) = Ret (s', out, r).
Proof.
  destruct (proj1 (elf_validate_ok (ram demo_procs) 0x1000 124 ltac:(lia) ltac:(lia))) as (mn & mx & Him); [by vm_compute|].
  destruct demo_entry as [e He].
  destruct (elf_load_places_image demo_procs 1 e 0x1000 124 zero_image mn mx demo_procs_inv He) as (s' & out & r & Hrun & _);
    [lia|lia|exact Him|exact demo_elf_stable|]. exists s', out, r. exact Hrun.
Defined.

(** On that file loading succeeds and the image reads 10 20 30 40 0 0 0 0. *)
Example demo_elf_loads : exists s' im, elf_load_process_image demo_procs 1 0x1000 124 (Some zero_image) = Ret (s', Some im, 0) /\
  bytes_at (ram s') (load_base im) 8 = [10; 20; 30; 40; 0; 0; 0; 0] /\ entry im = load_base im + 2.
Proof. eexists _, _. split; [by vm_compute|]. by vm_compute. Qed.
