(* ===== verification/Proc.v ===== *)
(** * kernel/proc.c: operations on processes

    Creation, execution, exit, waiting and descriptors, over the table of
    ProcTable.  A program is code the kernel does not contain: the section is
    parametrised by what running one does, from its entry point on a given
    stack, to the state. *)

From Stdlib Require Import ZArith Lia.
From stdpp Require Import base numbers gmap strings fin_maps option list.
From S2P Require Import Prelude MemUtils Heap HeapTheorems Allocator MemCtx Vfs ProcTable Elf.

Local Open Scope Z_scope.

Section Proc.
Context {St : Type} `{Allocator St}.
Variable run : Z -> Z -> proc_state St -> outcome (proc_state St).
Implicit Types s : proc_state St.

Definition attach (im : elf_image_t) (path : option (list Z)) (p : proc_info_t) : proc_info_t :=
  ProcInfo (pid p) (parent_pid p) (state p) (exit_status p) (memctx p) (pname p) (cwd p) (copy_text (exe_path p) path)
    (entry im) (load_base im) (load_size im) (req_base im) (req_end im) (stack_pointer p).

Definition proc_attach_image s (p : Z) (path : option (list Z)) (image : option elf_image_t) : outcome (proc_state St * Z) :=
  match find_proc s p, image with
  | Some _, Some im =>
      if (load_base im =? 0) || (entry im =? 0) then Ret (s, -1) else
      let s := update s p (on_info (attach im path)) in
      '(s, stack) ← proc_alloc s p PROC_STACK_SIZE;
      if stack =? 0 then Ret (s, -1)
      else Ret (update s p (on_info (fun i => set_stack i (stack + PROC_STACK_SIZE))), 0)
  | _, _ => Ret (s, -1)
  end.

(** The process that was current gives up RUNNING. *)
Definition demote_current s : proc_state St :=
  if current_pid s =? 0 then s else
  match proc_at s (current_pid s) with
  | Some old => if state (info old) =? PROC_STATE_RUNNING
                then update s (current_pid s) (on_info (fun i => set_state i PROC_STATE_READY)) else s
  | None => s
  end.

Definition proc_set_current s (p : Z) : proc_state St * Z :=
  match proc_at s p with
  | None => (s, -1)
  | Some e =>
      if proc_is_terminal_state (state (info e)) then (s, -1)
      else (update (put_current (demote_current s) p) p (on_info (fun i => set_state i PROC_STATE_RUNNING)), 0)
  end.

(** The loop over the descriptors: the file system afterwards. *)
Fixpoint close_all (v : vfs St) (l : list Z) : vfs St :=
  match l with
  | [] => v
  | fd :: l => close_all (if 0 <=? fd then (vfs_close v fd).1 else v) l
  end.
Definition closed (fd : Z) : Z := if 0 <=? fd then -1 else fd.

(** Children of the process go to init. *)
Definition orphan (p : Z) (e : proc_entry_t) : proc_entry_t :=
  if pused e && (parent_pid (info e) =? p) then on_info (fun i => set_parent i 1) e else e.

Definition proc_exit_locked s (p status : Z) : outcome (proc_state St * Z) :=
  match proc_at s p with
  | None => Ret (s, PROC_ERR_NOT_FOUND)
  | Some e =>
      if proc_is_terminal_state (state (info e)) then Ret (s, PROC_ERR_INVALID_STATE) else
      if p =? 1 then Panic "init process exited" else
      let s := put_files s (close_all (files s) (fds e)) in
      let s := update s p (fun e => set_fds e (closed <$> fds e)) in
      let s := if negb (p =? 1) then put_procs s (orphan p <$> procs s) else s in
      let s := update s p (on_info (fun i => set_exit i status)) in
      Ret (if current_pid s =? p then put_current s 0 else s, 0)
  end.
Definition proc_exit s (p status : Z) : outcome (proc_state St * Z) := proc_exit_locked s p status.

(** What [proc_start_flat] does before the program runs: the state it starts
    in, the entry point and the stack, [None] when it is refused; and what it
    does afterwards. *)
Definition start_enter s (p : Z) : proc_state St * option (Z * Z) :=
  match proc_at s p with
  | None => (s, None)
  | Some e =>
      if (entry_point (info e) =? 0) || proc_is_terminal_state (state (info e)) then (s, None) else
      let '(s, r) := proc_set_current s p in
      if negb (r =? 0) then (s, None)
      else (s, Some (entry_point (info e), Z.land (stack_pointer (info e)) (u64 (Z.lnot 0xF))))
  end.
Definition start_leave s (p previous : Z) : outcome (proc_state St) :=
  s ← (match proc_at s p with
       | Some e => if proc_is_terminal_state (state (info e)) then Ret s
                   else '(s, _) ← proc_exit_locked s p 0; Ret s
       | None => Ret s
       end);
  Ret (if negb (previous =? 0) && negb (previous =? p) && bool_decide (is_Some (find_proc s previous))
       then (proc_set_current s previous).1
       else if current_pid s =? p then put_current s 0 else s).

Definition proc_start_flat s (p : Z) : outcome (proc_state St * Z) :=
  let previous := current_pid s in
  let '(s, go) := start_enter s p in
  match go with
  | None => Ret (s, -1)
  | Some (entry, stack_top) =>
      s ← run entry stack_top s;
      s ← start_leave s p previous;
      Ret (s, 0)
  end.

(** The entry cleared and its context destroyed. *)
Definition discard s (p : Z) : outcome (proc_state St) :=
  match find_proc s p, proc_at s p with
  | Some i, Some e =>
      '(c, _) ← memctx_destroy (ctx_view s) (memctx (info e));
      let s := put_ctx s c in
      Ret (put_procs s (<[i := zero_entry]> (procs s)))
  | _, _ => Fault
  end.

(** The exit status is stored through the pointer [status] unless it is NULL. *)
Definition proc_wait s (parent child status : Z) : outcome (proc_state St * Z) :=
  match proc_at s child with
  | None => Ret (s, -1)
  | Some e =>
      if negb (parent_pid (info e) =? parent) || negb (state (info e) =? PROC_STATE_EXITED) then Ret (s, -1) else
      let s := if status =? 0 then s else set_ram s (store_bytes (ram s) status (le_bytes 4 (exit_status (info e)))) in
      s ← discard s child;
      Ret (s, child)
  end.

Definition proc_kill s (p status : Z) : outcome (proc_state St * Z) :=
  if p <=? 0 then Ret (s, PROC_ERR_NOT_FOUND) else
  if p =? 1 then Ret (s, PROC_ERR_PROTECTED) else
  match proc_at s p with
  | None => Ret (s, PROC_ERR_NOT_FOUND)
  | Some e => if proc_is_terminal_state (state (info e)) then Ret (s, PROC_ERR_INVALID_STATE)
              else proc_exit_locked s p status
  end.

Definition read_vfs_file s (path : option (list Z)) (buf size : Z) : outcome (proc_state St * Z) :=
  '(v, fd) ← vfs_open (files s) path VFS_O_RDONLY;
  if fd <? 0 then Ret (put_files s v, -1) else
  '(v, got) ← vfs_read v fd buf size;
  let v := (vfs_close v fd).1 in
  Ret (put_files s v, if got =? s64 size then 0 else -1).

Definition proc_spawn_exec s (parent : Z) (path : option (list Z)) : outcome (proc_state St * Z) :=
  if negb (bool_decide (is_Some path)) || negb (bool_decide (is_Some (find_proc s parent))) then Ret (s, -1) else
  st ← vfs_stat (files s) path;
  match st with
  | None => Ret (s, -1)
  | Some st =>
      if negb (st_type st =? VFS_TYPE_FILE) || (st_size st =? 0) then Ret (s, -1) else
      let '(s, p) := proc_create s (basename_from_path path) parent in
      if p <? 0 then Ret (s, p) else
      '(s, file) ← proc_alloc s p (st_size st);
      if file =? 0 then s ← discard s p; Ret (s, PROC_ERR_NOMEM) else
      '(s, r) ← read_vfs_file s path file (st_size st);
      if negb (r =? 0) then s ← discard s p; Ret (s, -1) else
      '(s, image, r) ← elf_load_process_image s p file (st_size st) (Some zero_image);
      if negb (r =? 0) then s ← discard s p; Ret (s, PROC_ERR_NOMEM) else
      '(s, r) ← proc_attach_image s p path image;
      if negb (r =? 0) then
        '(s, _) ← elf_free_process_image s p image;
        s ← discard s p; Ret (s, PROC_ERR_NOMEM)
      else
        '(s, start) ← proc_start_flat s p;
        Ret (s, if start =? 0 then p else -1)
  end.

(** ** Descriptors *)

(** [real_fd]: the open file behind descriptor [fd] of the process found. *)
Definition real_fd (e : option proc_entry_t) (fd : Z) : Z :=
  match e with
  | None => -1
  | Some e => if (fd <? 0) || (Z.of_nat PROC_MAX_FDS <=? fd) then -1 else default (-1) (fds e !! Z.to_nat fd)
  end.

Definition free_fd (e : proc_entry_t) : option nat := find_index (fun b => b <? 0) (fds e) 0.
Definition put_fd s (p fd backing : Z) : proc_state St :=
  update s p (fun e => set_fds e (<[Z.to_nat fd := backing]> (fds e))).

Definition proc_open s (p : Z) (path : option (list Z)) (fl : Z) : outcome (proc_state St * Z) :=
  match proc_at s p with
  | None => Ret (s, -1)
  | Some e =>
      if proc_is_terminal_state (state (info e)) then Ret (s, -1) else
      '(v, backing) ← vfs_open (files s) path fl;
      let s := put_files s v in
      if backing <? 0 then Ret (s, -1) else
      match free_fd e with
      | Some fd => Ret (put_fd s p (Z.of_nat fd) backing, Z.of_nat fd)
      | None => Ret (put_files s (vfs_close (files s) backing).1, -1)
      end
  end.

Definition proc_read s (p fd buf len : Z) : outcome (proc_state St * Z) :=
  '(v, r) ← vfs_read (files s) (real_fd (proc_at s p) fd) buf len; Ret (put_files s v, r).
Definition proc_write s (p fd buf len : Z) : outcome (proc_state St * Z) :=
  '(v, r) ← vfs_write (files s) (real_fd (proc_at s p) fd) buf len; Ret (put_files s v, r).
Definition proc_lseek s (p fd offset whence : Z) : outcome (proc_state St * Z) :=
  '(v, r) ← vfs_lseek (files s) (real_fd (proc_at s p) fd) offset whence; Ret (put_files s v, r).

Definition proc_close s (p fd : Z) : proc_state St * Z :=
  let backing := real_fd (proc_at s p) fd in
  if backing <? 0 then (s, -1) else
  let s := put_fd s p fd (-1) in
  let '(v, r) := vfs_close (files s) backing in (put_files s v, r).

Definition proc_dup s (p oldfd : Z) : proc_state St * Z :=
  let backing := real_fd (proc_at s p) oldfd in
  if backing <? 0 then (s, -1) else
  match proc_at s p with
  | None => (s, -1)
  | Some e => match free_fd e with
              | Some fd => (put_fd s p (Z.of_nat fd) backing, Z.of_nat fd)
              | None => (s, -1)
              end
  end.

Definition proc_dup2 s (p oldfd newfd : Z) : proc_state St * Z :=
  let backing := real_fd (proc_at s p) oldfd in
  match proc_at s p with
  | None => (s, -1)
  | Some e =>
      if (backing <? 0) || (newfd <? 0) || (Z.of_nat PROC_MAX_FDS <=? newfd) then (s, -1) else
      let old := real_fd (Some e) newfd in
      let s := if (0 <=? old) && negb (old =? backing) then put_files s (vfs_close (files s) old).1 else s in
      (put_fd s p newfd backing, newfd)
  end.
End Proc.
