(* ===== verification/ProcTheorems.v ===== *)
(** * Theorems on the process table *)

From Stdlib Require Import ZArith Lia.
From stdpp Require Import base numbers gmap strings fin_maps option list relations.
From S2P Require Import Prelude MemUtils Heap HeapTheorems Allocator MemApps MemCtx Vfs ProcTable Elf ElfLoad Proc.

Local Open Scope Z_scope.

(** ** Invariant *)

Definition live_state (st : Z) : Prop :=
  st = PROC_STATE_READY \/ st = PROC_STATE_RUNNING \/ st = PROC_STATE_EXITED.

Section Table.
Context {St : Type} `{Allocator St}.
Implicit Types s : proc_state St.

(** An entry in use is sound with respect to the next identifier and to the
    current process. *)
Record entry_ok (np cur : Z) (e : proc_entry_t) : Prop := EntryOk {
  en_pid : 0 < pid (info e) < np;
  en_fds : length (fds e) = PROC_MAX_FDS;
  en_state : live_state (state (info e));
  en_running : state (info e) = PROC_STATE_RUNNING <-> pid (info e) = cur;
  en_init : pid (info e) = 1 -> state (info e) <> PROC_STATE_EXITED
}.

Record table_ok s : Prop := TableOk {
  to_len : length (procs s) = PROC_MAX;
  to_next : 0 < next_pid s < 2147483648;
  to_entry : forall i e, procs s !! i = Some e -> pused e = true -> entry_ok (next_pid s) (current_pid s) e;
  to_unique : forall i j e e', procs s !! i = Some e -> procs s !! j = Some e' ->
    pused e = true -> pused e' = true -> pid (info e) = pid (info e') -> i = j;
  to_current : current_pid s = 0 \/
    exists i e, procs s !! i = Some e /\ pused e = true /\ pid (info e) = current_pid s
}.

Lemma table_ok_same s s' :
  procs s' = procs s -> next_pid s' = next_pid s -> current_pid s' = current_pid s -> table_ok s -> table_ok s'.
Proof. intros E1 E2 E3 []. split; rewrite ?E1, ?E2, ?E3; done. Qed.

Lemma find_proc_spec s p i : find_proc s p = Some i ->
  exists e, procs s !! i = Some e /\ pused e = true /\ pid (info e) = p.
Proof.
  intros Hf. apply find_index_Some in Hf as (e & _ & He & Hp & _). rewrite Nat.sub_0_r in He.
  apply andb_true_iff in Hp as [Hu Hp%Z.eqb_eq]. by exists e.
Qed.
Lemma find_proc_at s i e :
  table_ok s -> procs s !! i = Some e -> pused e = true -> find_proc s (pid (info e)) = Some i.
Proof.
  intros Hok He Hu. destruct (find_proc s (pid (info e))) as [j|] eqn:Hf.
  - apply find_proc_spec in Hf as (e' & He' & Hu' & Hp). f_equal. by eapply (to_unique s Hok).
  - pose proof (find_index_None _ _ _ Hf i e He) as Hn. unfold is_proc in Hn. by rewrite Hu, Z.eqb_refl in Hn.
Qed.
Lemma proc_at_spec s p e : table_ok s ->
  proc_at s p = Some e <-> exists i, find_proc s p = Some i /\ procs s !! i = Some e /\ pused e = true /\ pid (info e) = p.
Proof.
  intros Hok. unfold proc_at. split.
  - destruct (find_proc s p) as [i|] eqn:Hf; [|done]. cbn. intros He.
    destruct (find_proc_spec s p i Hf) as (e' & He' & ? & ?). exists i. rewrite He in He'. injection He' as <-. done.
  - intros (i & -> & He & _). done.
Qed.
Lemma proc_at_entry s p e : table_ok s -> proc_at s p = Some e -> entry_ok (next_pid s) (current_pid s) e /\ pid (info e) = p.
Proof.
  intros Hok He. apply proc_at_spec in He as (i & _ & He & Hu & Hp); [|done]. split; [|done]. by apply (to_entry s Hok i).
Qed.

(** ** One entry changed, with the current process *)

Lemma update_put_current s c p f : update (put_current s c) p f = put_current (update s p f) c.
Proof. unfold update. change (find_proc (put_current s c) p) with (find_proc s p). by destruct (find_proc s p). Qed.

Lemma update_lookup s p f i :
  find_proc s p = Some i -> procs (update s p f) = alter f i (procs s).
Proof. intros Hf. unfold update. by rewrite Hf. Qed.

Lemma table_ok_update s p f e c :
  table_ok s -> proc_at s p = Some e -> pused (f e) = true -> pid (info (f e)) = p ->
  length (fds (f e)) = PROC_MAX_FDS -> live_state (state (info (f e))) ->
  (state (info (f e)) = PROC_STATE_RUNNING <-> p = c) -> (p = 1 -> state (info (f e)) <> PROC_STATE_EXITED) ->
  (c = current_pid s \/ (c = 0 \/ c = p) /\ (current_pid s = 0 \/ current_pid s = p)) ->
  table_ok (put_current (update s p f) c).
Proof.
  intros Hok He Hu Hp Hl Hst Hrun Hinit Hc. apply proc_at_spec in He as (i & Hf & He & Hue & Hpe); [|done].
  assert (procs (put_current (update s p f) c) = <[i := f e]> (procs s)) as Hpr.
  { cbn. rewrite (update_lookup s p f i Hf). by apply list_alter_is_insert. }
  assert (next_pid (put_current (update s p f) c) = next_pid s) as Hn by (cbn; unfold update; by rewrite Hf).
  pose proof (to_entry s Hok i e He Hue) as Hent.
  split; rewrite ?Hpr, ?Hn; cbn [current_pid put_current].
  - rewrite length_insert. apply Hok.
  - apply Hok.
  - intros j a Ha Hua. apply list_lookup_insert_Some in Ha as [(<- & <- & _)|(Hne & Ha)].
    + split; try done; [rewrite Hp, <- Hpe; apply Hent|by rewrite Hp|by rewrite Hp].
    + destruct (to_entry s Hok j a Ha Hua) as [H1 H2 H3 H4 H5]. split; try done. rewrite H4.
      assert (pid (info a) <> p) as Hnp by (intros E; apply Hne; by apply (to_unique s Hok i j e a); congruence).
      destruct Hc as [->|[Hc Hcur]]; [done|]. lia.
  - intros j k a b Ha Hb Hua Hub E.
    apply list_lookup_insert_Some in Ha as [(<- & <- & _)|(Hne & Ha)];
      apply list_lookup_insert_Some in Hb as [(<- & <- & _)|(Hne' & Hb)]; try done.
    + apply (to_unique s Hok i k e b); congruence.
    + apply (to_unique s Hok j i a e); congruence.
    + by apply (to_unique s Hok j k a b).
  - pose proof (lookup_lt_Some _ _ _ He) as Hlt. destruct (decide (c = 0)) as [|Hc0]; [by left|]. right.
    destruct (decide (c = p)) as [->|Hcp].
    + exists i, (f e). by rewrite list_lookup_insert_eq.
    + destruct Hc as [->|[[?|?] _]]; [|done..]. destruct (to_current s Hok) as [?|(k & a & Ha & Hua & Ea)]; [done|].
      exists k, a. rewrite list_lookup_insert_ne by congruence. done.
Qed.
Lemma put_current_same s : put_current s (current_pid s) = s.
Proof. by destruct s. Qed.
Lemma current_update s p f : current_pid (update s p f) = current_pid s.
Proof. unfold update. by destruct (find_proc s p). Qed.
Lemma next_update s p f : next_pid (update s p f) = next_pid s.
Proof. unfold update. by destruct (find_proc s p). Qed.
Lemma files_update s p f : files (update s p f) = files s.
Proof. unfold update. by destruct (find_proc s p). Qed.

(** ** Calls that leave the table alone *)

Definition same_table s s' : Prop :=
  procs s' = procs s /\ next_pid s' = next_pid s /\ current_pid s' = current_pid s.

Lemma table_ok_same_table s s' : same_table s s' -> table_ok s -> table_ok s'.
Proof. intros (? & ? & ?). by apply table_ok_same. Qed.
Lemma same_table_trans s1 s2 s3 : same_table s1 s2 -> same_table s2 s3 -> same_table s1 s3.
Proof. unfold same_table. intros (? & ? & ?) (? & ? & ?). split_and!; congruence. Qed.
Lemma same_table_at s s' p : same_table s s' -> proc_at s' p = proc_at s p.
Proof. intros (E & _). unfold proc_at, find_proc. by rewrite E. Qed.

Lemma proc_alloc_table s p n s' a : proc_alloc s p n = Ret (s', a) -> same_table s s'.
Proof.
  unfold proc_alloc. destruct (proc_at s p); [|by intros [= <- _]]. intros Hr. inv_bind Hr. destruct r as [c q].
  by injection Hr as <- _.
Qed.
Lemma proc_free_table s p a s' r : proc_free s p a = Ret (s', r) -> same_table s s'.
Proof.
  unfold proc_free. destruct (proc_at s p); [|by intros [= <- _]]. intros Hr. inv_bind Hr. destruct r0 as [c q].
  by injection Hr as <- _.
Qed.
Lemma load_loop_table fuel s p f ph mn b n i s' ok : load_loop fuel s p f ph mn b n i = Ret (s', ok) -> same_table s s'.
Proof.
  revert s i. induction fuel as [|fuel IH]; intros s i; cbn [load_loop]; (case_test; [|by intros [= <- _]]); [done|].
  case_test; [apply IH|]. case_test; [|intros Hr; by apply IH in Hr].
  intros Hr. inv_bind Hr. destruct r as [s1 r]. injection Hr as <- _. by eapply proc_free_table.
Qed.
Lemma elf_load_table s p f n out s' out' r : elf_load_process_image s p f n out = Ret (s', out', r) -> same_table s s'.
Proof.
  unfold elf_load_process_image. case_test; [by intros [= <- _ _]|].
  destruct (inspect_load_range _ _ _ _) as [[[mn mx] ld]|]; [|by intros [= <- _ _]].
  intros Hr. inv_bind Hr. destruct r0 as [s1 b]. apply proc_alloc_table in E. case_test_in Hr; [by injection Hr as <- _ _|].
  inv_bind Hr. destruct r0 as [s2 ok]. apply load_loop_table in E0.
  assert (same_table s s2) by (by eapply same_table_trans). case_test_in Hr; by injection Hr as <- _ _.
Qed.
Lemma elf_free_table s p im s' im' : elf_free_process_image s p im = Ret (s', im') -> same_table s s'.
Proof.
  unfold elf_free_process_image. destruct im as [im|]; [|by intros [= <- _]]. case_test; [by intros [= <- _]|].
  intros Hr. inv_bind Hr. destruct r as [s1 r]. injection Hr as <- _. by eapply proc_free_table.
Qed.
Lemma read_vfs_file_table s path b n s' r : read_vfs_file s path b n = Ret (s', r) -> same_table s s'.
Proof.
  unfold read_vfs_file. intros Hr. inv_bind Hr. destruct r0 as [v fd]. case_test_in Hr; [by injection Hr as <- _|].
  inv_bind Hr. destruct r0 as [v' got]. by injection Hr as <- _.
Qed.

(** ** Descriptors *)

Lemma table_ok_fds s p g e :
  table_ok s -> proc_at s p = Some e -> length (g (fds e)) = PROC_MAX_FDS ->
  table_ok (update s p (fun e => set_fds e (g (fds e)))).
Proof.
  intros Hok He Hl. destruct (proc_at_entry s p e Hok He) as [[H1 H2 H3 H4 H5] Hp].
  rewrite <- (put_current_same (update s p _)), current_update.
  apply (table_ok_update s p _ e); try done; try (by rewrite <- Hp); [|by left].
  apply proc_at_spec in He as (i & _ & _ & Hu & _); done.
Qed.
Lemma put_fd_ok s p fd b : table_ok s -> table_ok (put_fd s p fd b).
Proof.
  intros Hok. unfold put_fd. destruct (proc_at s p) as [e|] eqn:He.
  - apply (table_ok_fds s p (fun l => <[Z.to_nat fd := b]> l) e Hok He). rewrite length_insert. by apply (proc_at_entry s p e).
  - unfold update. destruct (find_proc s p) as [i|] eqn:Hf; [|done]. exfalso.
    apply find_proc_spec in Hf as Hs. destruct Hs as (e & Hi & _). unfold proc_at in He. by rewrite Hf in He; cbn in He; rewrite Hi in He.
Qed.
Lemma put_files_ok s v : table_ok s -> table_ok (put_files s v).
Proof. by apply table_ok_same. Qed.

(** ** Creation *)

Lemma s32_next s : table_ok s -> next_pid s < 2147483647 -> s32 (next_pid s + 1) = next_pid s + 1.
Proof. intros Hok Hn. pose proof (to_next s Hok). apply s32_small. lia. Qed.

Lemma proc_create_ok s nm parent : table_ok s -> next_pid s < 2147483647 ->
  table_ok (proc_create s nm parent).1 /\
  (0 <= (proc_create s nm parent).2 -> (proc_create s nm parent).2 = next_pid s /\
     current_pid (proc_create s nm parent).1 = current_pid s).
Proof.
  intros Hok Hn. pose proof (to_next s Hok) as Hnp. unfold proc_create. case_test; [done|]. case_test; [done|].
  destruct (find_index _ (procs s) 0) as [i|] eqn:Hf; [|done].
  apply find_index_Some in Hf as (e & _ & He & Hfree & _). rewrite Nat.sub_0_r in He. apply negb_true_iff in Hfree.
  destruct (memctx_create (ctx_view s) (next_pid s) 0) as [c ctx]. rewrite (s32_next s Hok Hn).
  assert (forall a np, entry_ok (next_pid s) (current_pid s) a -> np = next_pid s + 1 -> entry_ok np (current_pid s) a) as Hmono
    by (intros a np [] ->; split; done || lia).
  assert (forall x, (pused x = true -> entry_ok (next_pid s + 1) (current_pid s) x /\ pid (info x) = next_pid s) ->
    table_ok (put_procs (put_ctx (ProcState (files s) (contexts s) (ctx_blocks s) (next_ctx s) (procs s)
      (next_pid s + 1) (current_pid s)) c) (<[i := x]> (procs s)))) as Hput.
  { intros x Hx. split; cbn.
    - rewrite length_insert. apply Hok.
    - lia.
    - intros j a Ha Hua. apply list_lookup_insert_Some in Ha as [(<- & <- & _)|(Hne & Ha)]; [by apply Hx|].
      apply Hmono; [|done]. by apply (to_entry s Hok j).
    - intros j k a b Ha Hb Hua Hub E.
      apply list_lookup_insert_Some in Ha as [(<- & <- & _)|(Hne & Ha)];
        apply list_lookup_insert_Some in Hb as [(<- & <- & _)|(Hne' & Hb)]; try done.
      + exfalso. destruct (Hx Hua), (to_entry s Hok k b Hb Hub). lia.
      + exfalso. destruct (Hx Hub), (to_entry s Hok j a Ha Hua). lia.
      + by apply (to_unique s Hok j k a b).
    - destruct (to_current s Hok) as [?|(k & a & Ha & Hua & Ea)]; [by left|]. right. exists k, a.
      rewrite list_lookup_insert_ne; [done|]. intros <-. congruence. }
  destruct (ctx <? 0) eqn:Hc.
  - split; [by apply Hput|]. cbn. unfold PROC_ERR_NOMEM. lia.
  - split; [|done]. apply Hput. intros _. split; [|done]. split; cbn; try done; [lia|by left|].
    split; [done|]. intros E. destruct (to_current s Hok) as [?|(k & a & Ha & Hua & Ea)]; [lia|].
    pose proof (to_entry s Hok k a Ha Hua) as []. lia.
Qed.

(** ** The current process *)

Lemma demote_ok s : table_ok s -> table_ok (put_current (demote_current s) 0) /\
  forall p e, proc_at s p = Some e -> exists e', proc_at (demote_current s) p = Some e' /\
    pused e' = pused e /\ pid (info e') = pid (info e) /\ fds e' = fds e /\
    (proc_is_terminal_state (state (info e)) = false -> proc_is_terminal_state (state (info e')) = false).
Proof.
  intros Hok. unfold demote_current. destruct (Z.eqb_spec (current_pid s) 0) as [E|E].
  { rewrite <- E, put_current_same. split; [done|]. intros p e He. by exists e. }
  destruct (to_current s Hok) as [|(i & a & Ha & Hua & Ea)]; [done|].
  pose proof (find_proc_at s i a Hok Ha Hua) as Hfi. rewrite Ea in Hfi.
  assert (proc_at s (current_pid s) = Some a) as Hat by (unfold proc_at; by rewrite Hfi).
  rewrite Hat. destruct (to_entry s Hok i a Ha Hua) as [H1 H2 H3 H4 H5].
  rewrite (proj2 (Z.eqb_eq _ _)) by (by apply H4). set (f := on_info _). split.
  - apply (table_ok_update s (current_pid s) f a 0 Hok Hat); try done.
    + by left.
    + right. split; [by left|by right].
  - intros p e He. unfold update. rewrite Hfi. unfold proc_at, find_proc in *. cbn.
    rewrite (find_index_alter _ f) by done.
    destruct (find_index (is_proc p) (procs s) 0) as [j|] eqn:Hj; [|done]. cbn in He |- *.
    destruct (decide (j = i)) as [->|Hne].
    + rewrite list_lookup_alter_eq, He. by exists (f e).
    + rewrite list_lookup_alter_ne by done. by exists e.
Qed.

Lemma proc_set_current_ok s p : table_ok s -> table_ok (proc_set_current s p).1.
Proof.
  intros Hok. unfold proc_set_current. destruct (proc_at s p) as [e|] eqn:He; [|done].
  case_test; [done|]. cbn [fst]. destruct (demote_ok s Hok) as [Hd Hat]. destruct (Hat p e He) as (e' & He' & Hu' & Hp' & Hf' & _).
  destruct (proc_at_entry s p e Hok He) as [[H1 H2 H3 H4 H5] Hp]. apply proc_at_spec in He as (i & _ & _ & Hu & _); [|done].
  rewrite update_put_current.
  change (put_current (update (demote_current s) p (on_info (fun i => set_state i PROC_STATE_RUNNING))) p)
    with (put_current (put_current (update (demote_current s) p (on_info (fun i => set_state i PROC_STATE_RUNNING))) 0) p).
  rewrite <- update_put_current. set (f := on_info _).
  apply (table_ok_update (put_current (demote_current s) 0) p f e' p Hd); try done; cbn.
  - congruence.
  - congruence.
  - congruence.
  - right. by left.
  - right. split; [by right|by left].
Qed.

Lemma set_current_current s p : (proc_set_current s p).2 = 0 -> current_pid (proc_set_current s p).1 = p.
Proof.
  unfold proc_set_current. destruct (proc_at s p); [|done]. case_test; [done|]. intros _. cbn. by rewrite current_update.
Qed.

(** ** Exit *)

Lemma orphan_at s p q : find_proc (put_procs s (orphan p <$> procs s)) q = find_proc s q.
Proof.
  unfold find_proc. cbn. generalize 0%nat. induction (procs s) as [|e l IH]; intros k; [done|].
  cbn [fmap list_fmap find_index]. assert (is_proc q (orphan p e) = is_proc q e) as ->.
  { unfold orphan. by destruct (pused e && _)%bool. }
  by rewrite IH.
Qed.
Lemma table_ok_orphan s p : table_ok s -> table_ok (put_procs s (orphan p <$> procs s)).
Proof.
  intros Hok. assert (forall i e, (orphan p <$> procs s) !! i = Some e -> exists a, procs s !! i = Some a /\
    pused e = pused a /\ pid (info e) = pid (info a) /\ state (info e) = state (info a) /\ fds e = fds a) as Hl.
  { intros i e He. rewrite list_lookup_fmap in He. destruct (procs s !! i) as [a|]; [|done]. injection He as <-.
    exists a. split; [done|]. unfold orphan. by case_match. }
  split; cbn.
  - rewrite length_fmap. apply Hok.
  - apply Hok.
  - intros i e He Hu. destruct (Hl i e He) as (a & Ha & E1 & E2 & E3 & E4).
    destruct (to_entry s Hok i a Ha) as [H1 H2 H3 H4 H5]; [congruence|]. split; rewrite ?E2, ?E3, ?E4; done.
  - intros i j e e' He He' Hu Hu' E. destruct (Hl i e He) as (a & Ha & ? & ? & _), (Hl j e' He') as (b & Hb & ? & ? & _).
    apply (to_unique s Hok i j a b); congruence.
  - destruct (to_current s Hok) as [|(i & a & Ha & Hua & Ea)]; [by left|]. right. exists i, (orphan p a).
    rewrite list_lookup_fmap, Ha. split; [done|]. unfold orphan. by case_match.
Qed.

(** The entry of [q] after [p] has exited. *)
Definition exited (p status q : Z) (e : proc_entry_t) : proc_entry_t :=
  let e := if q =? p then set_fds e (closed <$> fds e) else e in
  let e := orphan p e in
  if q =? p then on_info (fun i => set_exit i status) e else e.

Lemma update_at s p f q : (forall e, pused (f e) = pused e /\ pid (info (f e)) = pid (info e)) -> table_ok s ->
  proc_at (update s p f) q = (if q =? p then f <$> proc_at s q else proc_at s q).
Proof.
  intros Hf Hok. unfold update. destruct (find_proc s p) as [i|] eqn:Hfi.
  - unfold proc_at, find_proc in *. cbn.
    assert (forall e, is_proc q (f e) = is_proc q e) as Hq by (intros e; unfold is_proc; by destruct (Hf e) as [-> ->]).
    rewrite (find_index_alter _ f) by done. destruct (Z.eqb_spec q p) as [->|Hne].
    + rewrite Hfi. cbn. by rewrite list_lookup_alter_eq.
    + destruct (find_index (is_proc q) (procs s) 0) as [j|] eqn:Hj; [|done]. cbn. apply list_lookup_alter_ne. intros ->.
      apply (find_proc_spec s p) in Hfi as (a & Ha & _ & E). apply (find_proc_spec s q) in Hj as (b & Hb & _ & E'). congruence.
  - destruct (Z.eqb_spec q p) as [->|]; [|done]. unfold proc_at. by rewrite Hfi.
Qed.

Lemma proc_exit_run s p status e :
  table_ok s -> proc_at s p = Some e -> proc_is_terminal_state (state (info e)) = false -> p <> 1 ->
  exists s', proc_exit_locked s p status = Ret (s', 0) /\ table_ok s' /\
    files s' = close_all (files s) (fds e) /\ next_pid s' = next_pid s /\
    current_pid s' = (if current_pid s =? p then 0 else current_pid s) /\
    (forall q, proc_at s' q = exited p status q <$> proc_at s q).
Proof.
  intros Hok He Hterm Hp1. unfold proc_exit_locked. rewrite He, Hterm, (proj2 (Z.eqb_neq p 1)) by done. cbn [negb].
  set (s1 := put_files s _). assert (table_ok s1) as Hok1 by (by apply put_files_ok).
  assert (proc_at s1 p = Some e) as He1 by done. destruct (proc_at_entry s p e Hok He) as [[H1 H2 H3 H4 H5] Hp].
  set (s2 := update s1 p _).
  assert (table_ok s2) as Hok2.
  { apply (table_ok_fds s1 p (fun l => closed <$> l) e Hok1 He1). by rewrite length_fmap. }
  assert (forall q, proc_at s2 q = (if q =? p then (fun e => set_fds e (closed <$> fds e)) <$> proc_at s q else proc_at s q)) as Hat2
    by (intros q; by apply (update_at s1)).
  set (s3 := put_procs s2 _). assert (table_ok s3) as Hok3 by (by apply table_ok_orphan).
  assert (forall q, proc_at s3 q = orphan p <$> proc_at s2 q) as Hat3.
  { intros q. unfold proc_at at 1. unfold s3. rewrite orphan_at. unfold proc_at. destruct (find_proc s2 q); [|done]. cbn.
    apply list_lookup_fmap. }
  set (f := on_info (fun i => set_exit i status)).
  assert (forall q, proc_at (update s3 p f) q = exited p status q <$> proc_at s q) as Hat4.
  { intros q. rewrite update_at, Hat3, Hat2 by done. unfold exited. destruct (q =? p), (proc_at s q); done. }
  assert (current_pid s3 = current_pid s) as Hcur by (unfold s3, s2; cbn; by rewrite current_update).
  assert (next_pid (update s3 p f) = next_pid s) as Hnext by (rewrite next_update; apply (next_update s1)).
  assert (files (update s3 p f) = close_all (files s) (fds e)) as Hfiles by (rewrite files_update; apply (files_update s1)).
  destruct (proc_at s3 p) as [e3|] eqn:He3; [|by rewrite Hat3, Hat2, Z.eqb_refl, He in He3].
  destruct (proc_at_entry s3 p e3 Hok3 He3) as [[K1 K2 K3 K4 K5] Kp].
  assert (table_ok (put_current (update s3 p f) (if current_pid s =? p then 0 else current_pid s))) as Hfin.
  { apply (table_ok_update s3 p f e3 _ Hok3 He3); try done.
    - apply proc_at_spec in He3 as (i & _ & _ & ? & _); done.
    - cbn. right. by right.
    - cbn. split; [done|]. case_match eqn:E; prop_bools; lia.
    - rewrite Hcur. case_match eqn:E; prop_bools; [right; split; [by left|by right]|by left]. }
  rewrite current_update, Hcur. eexists. split; [done|].
  destruct (current_pid s =? p) eqn:Ec; [by split_and!|].
  split_and!; try done.
  - rewrite <- (put_current_same (update s3 p f)), current_update, Hcur. done.
  - by rewrite current_update.
Qed.

Lemma proc_exit_ok s p status s' r : table_ok s -> proc_exit_locked s p status = Ret (s', r) -> table_ok s'.
Proof.
  intros Hok Hr. destruct (proc_at s p) as [e|] eqn:He; [|unfold proc_exit_locked in Hr; rewrite He in Hr; by injection Hr as <- _].
  destruct (proc_is_terminal_state (state (info e))) eqn:Ht;
    [unfold proc_exit_locked in Hr; rewrite He, Ht in Hr; by injection Hr as <- _|].
  destruct (decide (p = 1)) as [->|Hp]; [unfold proc_exit_locked in Hr; by rewrite He, Ht in Hr|].
  destruct (proc_exit_run s p status e Hok He Ht Hp) as (s1 & E & Hok' & _). rewrite Hr in E. by injection E as <- _.
Qed.
Lemma proc_kill_ok s p status s' r : table_ok s -> proc_kill s p status = Ret (s', r) -> table_ok s'.
Proof.
  intros Hok Hr. unfold proc_kill in Hr. case_test_in Hr; [by injection Hr as <- _|]. case_test_in Hr; [by injection Hr as <- _|].
  destruct (proc_at s p) as [e|]; [|by injection Hr as <- _]. case_test_in Hr; [by injection Hr as <- _|].
  by eapply proc_exit_ok.
Qed.

(** ** Starting a program *)

Lemma start_enter_ok s p : table_ok s -> table_ok (start_enter s p).1.
Proof.
  intros Hok. unfold start_enter. destruct (proc_at s p) as [e|]; [|done]. case_test; [done|].
  pose proof (proc_set_current_ok s p Hok) as H1. destruct (proc_set_current s p) as [s' r]. by case_test.
Qed.
Lemma stop_current s p : table_ok s -> current_pid s = p ->
  (forall e, proc_at s p = Some e -> proc_is_terminal_state (state (info e)) = true) -> p = 0.
Proof.
  intros Hok Hc Ht. destruct (to_current s Hok) as [|(i & e & He & Hu & Hp)]; [congruence|].
  pose proof (find_proc_at s i e Hok He Hu) as Hf. rewrite Hp, Hc in Hf.
  assert (proc_at s p = Some e) as Hat by (unfold proc_at; by rewrite Hf).
  destruct (to_entry s Hok i e He Hu) as [_ _ _ H4 _]. specialize (Ht e Hat). by rewrite (proj2 H4) in Ht by congruence.
Qed.
Lemma start_leave_ok s p prev s' : table_ok s -> start_leave s p prev = Ret s' -> table_ok s'.
Proof.
  intros Hok Hr. unfold start_leave in Hr. inv_bind Hr. injection Hr as <-. rename r into s1.
  assert (table_ok s1 /\ forall e, proc_at s1 p = Some e -> proc_is_terminal_state (state (info e)) = true) as [Hok1 Ht].
  { destruct (proc_at s p) as [e|] eqn:He; [|injection E as <-; split; [done|intros e; by rewrite He]].
    destruct (proc_is_terminal_state (state (info e))) eqn:Ht.
    { injection E as <-. split; [done|]. intros a. rewrite He. by intros [= <-]. }
    inv_bind E. destruct r as [s2 r]. injection E as <-. split; [by eapply proc_exit_ok|].
    destruct (decide (p = 1)) as [->|Hp]; [unfold proc_exit_locked in E0; by rewrite He, Ht in E0|].
    destruct (proc_exit_run s p 0 e Hok He Ht Hp) as (s3 & E3 & _ & _ & _ & _ & Hat). rewrite E0 in E3. injection E3 as <- _.
    intros a. rewrite Hat, He. cbn. unfold exited. rewrite Z.eqb_refl. by intros [= <-]. }
  case_test; [by apply proc_set_current_ok|]. case_test; [|done]. prop_bools.
  pose proof (stop_current s1 p Hok1 Htest0 Ht) as ->. by rewrite <- Htest0, put_current_same.
Qed.

(** ** Images *)

Lemma update_info_ok s p g : table_ok s ->
  (forall i, pid (g i) = pid i /\ state (g i) = state i) -> table_ok (update s p (on_info g)).
Proof.
  intros Hok Hg. destruct (proc_at s p) as [e|] eqn:He.
  - destruct (proc_at_entry s p e Hok He) as [[H1 H2 H3 H4 H5] Hp]. destruct (Hg (info e)) as [E1 E2].
    rewrite <- (put_current_same (update s p _)), current_update.
    apply (table_ok_update s p _ e); cbn; rewrite ?E1, ?E2; try done; [|by rewrite <- Hp|by rewrite <- Hp|by left].
    apply proc_at_spec in He as (i & _ & _ & Hu & _); done.
  - unfold update. destruct (find_proc s p) as [i|] eqn:Hf; [|done]. exfalso.
    destruct (find_proc_spec s p i Hf) as (e & Hi & _). unfold proc_at in He. rewrite Hf in He. cbn in He. congruence.
Qed.
Lemma update_info_current s p g : current_pid (update s p (on_info g)) = current_pid s.
Proof. apply current_update. Qed.

Lemma proc_attach_ok s p path im s' r : table_ok s -> proc_attach_image s p path im = Ret (s', r) ->
  table_ok s' /\ current_pid s' = current_pid s /\ next_pid s' = next_pid s.
Proof.
  intros Hok Hr. unfold proc_attach_image in Hr. destruct (find_proc s p) as [i|]; [|by injection Hr as <- _].
  destruct im as [im|]; [|by injection Hr as <- _]. case_test_in Hr; [by injection Hr as <- _|].
  assert (table_ok (update s p (on_info (attach im path)))) as Hok1 by (by apply update_info_ok).
  inv_bind Hr. destruct r0 as [s1 a]. apply proc_alloc_table in E.
  pose proof (table_ok_same_table _ _ E Hok1) as Hok2. destruct E as (_ & En & Ec). rewrite current_update in Ec. rewrite next_update in En.
  case_test_in Hr; injection Hr as <- _; [done|]. rewrite current_update, next_update. split; [|done]. by apply update_info_ok.
Qed.

(** ** Removing an entry *)

Lemma discard_ok s p s' : table_ok s -> current_pid s <> p -> discard s p = Ret s' ->
  table_ok s' /\ proc_at s' p = None /\ (forall q, q <> p -> proc_at s' q = proc_at s q) /\ current_pid s' = current_pid s.
Proof.
  intros Hok Hc Hr. unfold discard in Hr. destruct (find_proc s p) as [i|] eqn:Hf; [|done].
  destruct (proc_at s p) as [e|] eqn:He; [|done]. inv_bind Hr. destruct r as [c r]. injection Hr as <-.
  destruct (find_proc_spec s p i Hf) as (a & Ha & Hua & Hpa).
  assert (forall j b, <[i := zero_entry]> (procs s) !! j = Some b -> pused b = true -> j <> i /\ procs s !! j = Some b) as Hold.
  { intros j b Hb Hub. apply list_lookup_insert_Some in Hb as [(<- & <- & _)|(? & ?)]; [done|by split]. }
  assert (table_ok (put_procs (put_ctx s c) (<[i := zero_entry]> (procs s)))) as Hok'.
  { split; cbn.
    - rewrite length_insert. apply Hok.
    - apply Hok.
    - intros j b Hb Hub. destruct (Hold j b Hb Hub) as [_ Hj]. by apply (to_entry s Hok j).
    - intros j k b b' Hb Hb' Hub Hub'. destruct (Hold j b Hb Hub), (Hold k b' Hb' Hub'). by apply (to_unique s Hok).
    - destruct (to_current s Hok) as [|(k & b & Hb & Hub & Eb)]; [by left|]. right. exists k, b.
      rewrite list_lookup_insert_ne; [done|]. intros <-. congruence. }
  split_and!; [done| | |done].
  - destruct (proc_at (put_procs _ _) p) as [b|] eqn:Hb; [|done]. exfalso.
    apply proc_at_spec in Hb as (j & _ & Hb & Hub & Hpb); [|done]. destruct (Hold j b Hb Hub) as [Hne Hj].
    apply Hne. apply (to_unique s Hok j i b a); congruence.
  - intros q Hq. destruct (proc_at s q) as [b|] eqn:Hb.
    + apply proc_at_spec in Hb as (j & _ & Hb & Hub & Hpb); [|done]. apply proc_at_spec; [done|]. exists j.
      assert (<[i := zero_entry]> (procs s) !! j = Some b) as Hj by (rewrite list_lookup_insert_ne; [done|intros <-; congruence]).
      split_and!; try done. rewrite <- Hpb. by apply find_proc_at.
    + destruct (proc_at (put_procs _ _) q) as [b|] eqn:Hb'; [|done]. exfalso.
      apply proc_at_spec in Hb' as (j & _ & Hb' & Hub & Hpb); [|done]. destruct (Hold j b Hb' Hub) as [_ Hj].
      assert (proc_at s q = Some b); [|congruence]. apply proc_at_spec; [done|]. exists j. split_and!; try done.
      rewrite <- Hpb. by apply find_proc_at.
Qed.

Lemma proc_wait_ok s parent child st s' r : table_ok s -> proc_wait s parent child st = Ret (s', r) -> table_ok s'.
Proof.
  intros Hok Hr. unfold proc_wait in Hr. destruct (proc_at s child) as [e|] eqn:He; [|by injection Hr as <- _].
  case_test_in Hr; [by injection Hr as <- _|]. apply orb_false_iff in Htest as [_ Hst%negb_false_iff%Z.eqb_eq].
  inv_bind Hr. injection Hr as <- _. set (s1 := if _ =? 0 then s else _) in *.
  assert (same_table s s1) as Hs by (unfold s1; destruct (st =? 0); by split_and!).
  eapply discard_ok; [by eapply table_ok_same_table| |done]. destruct Hs as (_ & _ & ->). intros Hcur.
  destruct (proc_at_entry s child e Hok He) as [[_ _ _ H4 _] Hp]. rewrite (proj2 H4) in Hst; [done|congruence].
Qed.

(** ** Descriptors of a process *)

Lemma proc_open_ok s p path fl s' r : table_ok s -> proc_open s p path fl = Ret (s', r) -> table_ok s'.
Proof.
  intros Hok Hr. unfold proc_open in Hr. destruct (proc_at s p) as [e|]; [|by injection Hr as <- _].
  case_test_in Hr; [by injection Hr as <- _|]. inv_bind Hr. destruct r0 as [v b].
  pose proof (put_files_ok s v Hok) as Hok1. case_test_in Hr; [by injection Hr as <- _|].
  destruct (free_fd e) as [fd|]; injection Hr as <- _; [by apply put_fd_ok|by apply put_files_ok].
Qed.
Lemma proc_close_ok s p fd : table_ok s -> table_ok (proc_close s p fd).1.
Proof.
  intros Hok. unfold proc_close. case_test; [done|]. destruct (vfs_close _ _) as [v r]. by apply put_files_ok, put_fd_ok.
Qed.
Lemma proc_dup_ok s p fd : table_ok s -> table_ok (proc_dup s p fd).1.
Proof.
  intros Hok. unfold proc_dup. case_test; [done|]. destruct (proc_at s p) as [e|]; [|done].
  destruct (free_fd e); [by apply put_fd_ok|done].
Qed.
Lemma proc_dup2_ok s p o n : table_ok s -> table_ok (proc_dup2 s p o n).1.
Proof.
  intros Hok. unfold proc_dup2. destruct (proc_at s p) as [e|]; [|done]. case_test; [done|]. cbn [fst].
  apply put_fd_ok. case_match; [by apply put_files_ok|done].
Qed.
End Table.

(** ** The calls of the process layer *)

Section Calls.
Context {St : Type} `{Allocator St}.
Implicit Types s : proc_state St.

(** One call that involves the table; [call_other] is any work on memory, its
    contexts and the file system, by the kernel or by a program. *)
Inductive proc_call s : proc_state St -> Prop :=
| call_other s' : same_table s s' -> proc_call s s'
| call_create nm parent : next_pid s < 2147483647 -> proc_call s (proc_create s nm parent).1
| call_attach p path im s' r : proc_attach_image s p path im = Ret (s', r) -> proc_call s s'
| call_current p : proc_call s (proc_set_current s p).1
| call_enter p : proc_call s (start_enter s p).1
| call_leave p previous s' : start_leave s p previous = Ret s' -> proc_call s s'
| call_exit p status s' r : proc_exit s p status = Ret (s', r) -> proc_call s s'
| call_kill p status s' r : proc_kill s p status = Ret (s', r) -> proc_call s s'
| call_wait parent child status s' r : proc_wait s parent child status = Ret (s', r) -> proc_call s s'
| call_abandon p s' : current_pid s <> p -> p <> 1 -> discard s p = Ret s' -> proc_call s s'
| call_open p path fl s' r : proc_open s p path fl = Ret (s', r) -> proc_call s s'
| call_close p fd : proc_call s (proc_close s p fd).1
| call_dup p fd : proc_call s (proc_dup s p fd).1
| call_dup2 p old new : proc_call s (proc_dup2 s p old new).1.

Lemma proc_call_ok s s' : table_ok s -> proc_call s s' -> table_ok s'.
Proof.
  intros Hok Hc. destruct Hc.
  - by eapply table_ok_same_table.
  - by apply proc_create_ok.
  - by eapply proc_attach_ok.
  - by apply proc_set_current_ok.
  - by apply start_enter_ok.
  - by eapply start_leave_ok.
  - by eapply proc_exit_ok.
  - by eapply proc_kill_ok.
  - by eapply proc_wait_ok.
  - by eapply discard_ok.
  - by eapply proc_open_ok.
  - by apply proc_close_ok.
  - by apply proc_dup_ok.
  - by apply proc_dup2_ok.
Qed.
Lemma proc_calls_ok s s' : table_ok s -> rtc proc_call s s' -> table_ok s'.
Proof. intros Hok Hr. induction Hr as [|s1 s2 s3 H1 _ IH]; [done|]. apply IH. by eapply proc_call_ok. Qed.

Lemma proc_init_ok s : table_ok (proc_init s).
Proof.
  split; cbn [procs next_pid current_pid proc_init put_ctx]; try done.
  - intros i e [-> _]%lookup_replicate. done.
  - intros i j e e' [-> _]%lookup_replicate. done.
  - by left.
Qed.

(** ** Spawning *)

Variable run : Z -> Z -> proc_state St -> outcome (proc_state St).
(** A program affects the kernel through calls only. *)
Hypothesis run_calls : forall entry sp s s', table_ok s -> run entry sp s = Ret s' -> rtc proc_call s s'.

Lemma start_flat_calls s p s' r : table_ok s -> proc_start_flat run s p = Ret (s', r) -> rtc proc_call s s'.
Proof.
  intros Hok Hr. unfold proc_start_flat in Hr. destruct (start_enter s p) as [s1 go] eqn:He.
  assert (proc_call s s1) as H1 by (pose proof (call_enter s p) as Hc; by rewrite He in Hc).
  destruct go as [[e sp]|]; [|injection Hr as <- _; by apply rtc_once].
  inv_bind Hr. inv_bind Hr. injection Hr as <- _. eapply rtc_l; [done|]. etrans; [eapply run_calls; [by eapply proc_call_ok|done]|].
  by eapply rtc_once, call_leave.
Qed.

(** Giving up on a process that never ran. *)
Lemma abandon_calls s p s' : current_pid s <> p -> p <> 1 -> discard s p = Ret s' -> rtc proc_call s s'.
Proof. intros Hc Hp Hr. by apply rtc_once, (call_abandon s p s'). Qed.

Lemma spawn_calls s parent path s' r :
  table_ok s -> next_pid s < 2147483647 -> proc_spawn_exec run s parent path = Ret (s', r) -> rtc proc_call s s'.
Proof.
  intros Hok Hn Hr. unfold proc_spawn_exec in Hr. case_test_in Hr; [by injection Hr as <- _|].
  inv_bind Hr. destruct r0 as [st|]; [|by injection Hr as <- _]. case_test_in Hr; [by injection Hr as <- _|].
  pose proof (proc_create_ok s (basename_from_path path) parent Hok Hn) as [_ Hcreate].
  pose proof (call_create s (basename_from_path path) parent Hn) as Hc1.
  destruct (proc_create s (basename_from_path path) parent) as [s1 p]. cbn [fst snd] in Hcreate, Hc1.
  apply rtc_once in Hc1. case_test_in Hr; [by injection Hr as <- _|]. apply Z.ltb_ge in Htest1.
  destruct (Hcreate Htest1) as [-> Hcur1]. set (p := next_pid s) in *.
  assert (current_pid s <> p) as Hcur0.
  { pose proof (to_next s Hok). destruct (to_current s Hok) as [|(i & e & He & Hu & Hp)]; [unfold p; lia|].
    destruct (to_entry s Hok i e He Hu). unfold p. lia. }
  assert (p <> 1) as Hp1.
  { apply orb_false_iff in Htest as [_ [i Hi]%negb_false_iff%bool_decide_eq_true].
    destruct (find_proc_spec s parent i Hi) as (e & He & Hu & _). destruct (to_entry s Hok i e He Hu). unfold p. lia. }
  assert (forall s2, same_table s1 s2 -> rtc proc_call s s2 /\ current_pid s2 <> p) as Hsame
    by (intros s2 H2; split; [eapply rtc_r; [exact Hc1|by apply call_other]|destruct H2 as (_ & _ & ->); congruence]).
  inv_bind Hr. destruct r0 as [s2 file]. apply proc_alloc_table in E0.
  case_test_in Hr.
  { inv_bind Hr. injection Hr as <- _. destruct (Hsame s2 E0). etrans; [done|by eapply abandon_calls]. }
  inv_bind Hr. destruct r0 as [s3 r3]. apply read_vfs_file_table in E1.
  assert (same_table s1 s3) as H13 by (by eapply same_table_trans). case_test_in Hr.
  { inv_bind Hr. injection Hr as <- _. destruct (Hsame s3 H13). etrans; [done|by eapply abandon_calls]. }
  inv_bind Hr. destruct r0 as [[s4 im] r4]. apply elf_load_table in E2.
  assert (same_table s1 s4) as H14 by (by eapply same_table_trans). destruct (Hsame s4 H14) as [Hc4 Hcur4]. case_test_in Hr.
  { inv_bind Hr. injection Hr as <- _. etrans; [done|by eapply abandon_calls]. }
  inv_bind Hr. destruct r0 as [s5 r5]. pose proof (proc_calls_ok _ _ Hok Hc4) as Hok4.
  destruct (proc_attach_ok s4 p path im s5 r5 Hok4 E3) as (_ & Hcur5 & _).
  assert (rtc proc_call s s5) as Hc5 by (eapply rtc_r; [done|by eapply call_attach]). case_test_in Hr.
  { inv_bind Hr. destruct r0 as [s6 im6]. apply elf_free_table in E4. inv_bind Hr. injection Hr as <- _.
    etrans; [eapply rtc_r; [done|by apply (call_other s5 s6)]|]. eapply abandon_calls; [|done|done].
    destruct E4 as (_ & _ & ->). congruence. }
  inv_bind Hr. destruct r0 as [s6 r6]. injection Hr as <- _. etrans; [done|]. eapply start_flat_calls; [exact (proc_calls_ok s s5 Hok Hc5)|exact E4].
Qed.
End Calls.

(** ** Exit and wait *)

Section Reap.
Context {St : Type} `{AllocatorLaws St}.
Implicit Types s : proc_state St.

Lemma vfs_close_open (v : vfs St) fd : open_at (vfs_close v fd).1 fd = None.
Proof.
  unfold vfs_close. destruct (open_at v fd) as [f|] eqn:E; [|done]. unfold open_at in *. cbn.
  case_test; [done|]. destruct (open_files v !! Z.to_nat fd) eqn:El; [|done].
  by rewrite list_lookup_insert_eq by (by eapply lookup_lt_Some).
Qed.
Lemma vfs_close_keeps (v : vfs St) fd g : open_at v fd = None -> open_at (vfs_close v g).1 fd = None.
Proof.
  intros Hn. unfold vfs_close. destruct (open_at v g) as [f|] eqn:E; [|done]. unfold open_at in *. cbn.
  case_test; [done|]. destruct (decide (Z.to_nat fd = Z.to_nat g)) as [Eq|Hne].
  - rewrite Eq. destruct (open_files v !! Z.to_nat g) eqn:El;
      [|by rewrite list_insert_ge, El by (by apply lookup_ge_None)].
    by rewrite list_lookup_insert_eq by (by eapply lookup_lt_Some).
  - by rewrite list_lookup_insert_ne.
Qed.
Lemma close_all_closed (v : vfs St) l fd : 0 <= fd -> fd ∈ l \/ open_at v fd = None -> open_at (close_all v l) fd = None.
Proof.
  intros Hfd. revert v. induction l as [|g l IH]; intros v Hin; cbn [close_all].
  - destruct Hin as [[]%not_elem_of_nil|]; done.
  - apply IH. destruct Hin as [[->|Hin]%elem_of_cons|Hn]; [right|by left|right].
    + rewrite (proj2 (Z.leb_le 0 g)) by done. apply vfs_close_open.
    + case_test; [by apply vfs_close_keeps|done].
Qed.

(** Destroying a context leaves the contents of other memory alone. *)
Lemma destroy_blocks_frame c m bl m' bl' x :
  al_ok m -> (forall j b, bl !! j = Some b -> ptr b <> 0 -> exists u, al_owns m !! ptr b = Some u /\ 0 <= bsize b <= u) ->
  (forall i j b b', bl !! i = Some b -> bl !! j = Some b' -> ptr b <> 0 -> ptr b = ptr b' -> i = j) ->
  destroy_blocks c m bl = Ret (m', bl') ->
  (forall b u, b ∈ bl -> of_ctx c b = true -> al_owns m !! ptr b = Some u -> ~ in_block (ptr b) u x) ->
  rd (al_ram m') x = rd (al_ram m) x.
Proof.
  revert m m' bl'. induction bl as [|b bl IH]; intros m m' bl' Hm Hown Hdist Hr Hx; [by injection Hr as <- _|].
  assert (forall i j b b', bl !! i = Some b -> bl !! j = Some b' -> ptr b <> 0 -> ptr b = ptr b' -> i = j) as Hdist'.
  { intros i j y z Hy Hz Hp E. pose proof (Hdist (S i) (S j) y z Hy Hz Hp E). lia. }
  cbn [destroy_blocks] in Hr. destruct (of_ctx c b) eqn:Hof.
  - pose proof Hof as [Hp Hc]%of_ctx_spec. destruct (Hown 0%nat b eq_refl Hp) as (u & Hu & Hsz).
    destruct (al_free_law m (ptr b) (bsize b) u Hm Hu Hsz) as (m1 & E1 & Hm1 & Ho1 & _ & Hr1). rewrite E1 in Hr.
    cbn [mbind outcome_bind] in Hr. inv_bind Hr. destruct r as [m2 l2]. injection Hr as <- _.
    rewrite (IH m1 m2 l2 Hm1); [by apply Hr1, (Hx b); [by left|..]| |done|done|].
    + intros j a Ha Hpa. destruct (Hown (S j) a Ha Hpa) as (v & Hv & Hs). exists v. split; [|done].
      rewrite Ho1, lookup_delete_ne; [done|]. intros Eq. by pose proof (Hdist 0%nat (S j) b a eq_refl Ha Hp Eq).
    + intros a v Ha Hoa Hv. apply (Hx a); [by right|done|]. rewrite Ho1 in Hv. by apply lookup_delete_Some in Hv as [_ ?].
  - inv_bind Hr. destruct r as [m2 l2]. injection Hr as <- _. apply (IH m m2 l2 Hm); try done.
    + intros j a Ha. by apply (Hown (S j) a).
    + intros a v Ha. apply Hx. by right.
Qed.

(** Where [proc_wait] may store the status: memory the allocator does not
    manage, or an allocation that is not one of the child's. *)
Definition status_ok s (ctx status : Z) : Prop :=
  forall x, status <= x < status + 4 -> ~ al_managed (Vfs.mem (files s)) x \/
    exists q v, al_owns (Vfs.mem (files s)) !! q = Some v /\ in_block q v x /\
      forall b, b ∈ ctx_blocks s -> of_ctx ctx b = true -> ptr b <> q.

Lemma store_status s ctx status e :
  ctx_inv (ctx_view s) -> status_ok s ctx status ->
  let s1 := set_ram s (store_bytes (ram s) status (le_bytes 4 e)) in
  ctx_inv (ctx_view s1) /\ ctx_view s1 = CtxState (Vfs.mem (files s1)) (contexts s) (ctx_blocks s) (next_ctx s) /\
  bytes_at (ram s1) status 4 = le_bytes 4 e /\ al_owns (Vfs.mem (files s1)) = al_owns (Vfs.mem (files s)).
Proof.
  intros Hi Hst s1. pose proof (ci_mem _ Hi) as Hok. cbn in Hok.
  assert (length (le_bytes 4 e) = 4%nat) as Hl by done.
  destruct (al_set_ram_law (Vfs.mem (files s)) (store_bytes (ram s) status (le_bytes 4 e)) Hok) as (K & O & R & M).
  { intros x Hm Hx. destruct (decide (status <= x < status + 4)) as [Hin|Hout].
    - destruct (Hst x Hin) as [|(q & v & Hq & Hb & _)]; [done|]. by exists q, v.
    - by rewrite rd_store_bytes_out in Hx by (rewrite Hl; lia). }
  split_and!; [|done| |done].
  - apply (ctx_inv_mem (ctx_view s) _ Hi K). cbn. intros p u. by rewrite O.
  - change (ram s1) with (al_ram (al_set_ram (Vfs.mem (files s)) (store_bytes (ram s) status (le_bytes 4 e)))).
    rewrite R. apply (bytes_at_store_bytes _ _ (le_bytes 4 e)).
    unfold le_bytes. rewrite Forall_fmap. apply Forall_true. intros i. apply u8_range.
Qed.

Lemma destroy_frame (c : ctx_state St) k i x c' r :
  ctx_inv c -> find_ctx c k = Some i -> memctx_destroy c k = Ret (c', r) ->
  (forall b u, b ∈ MemCtx.blocks c -> of_ctx k b = true -> al_owns (MemCtx.mem c) !! ptr b = Some u -> ~ in_block (ptr b) u x) ->
  rd (al_ram (MemCtx.mem c')) x = rd (al_ram (MemCtx.mem c)) x.
Proof.
  intros Hi Hf Hr Hx. unfold memctx_destroy in Hr. rewrite Hf in Hr. inv_bind Hr. destruct r0 as [m bl]. injection Hr as <- _.
  apply (destroy_blocks_frame k (MemCtx.mem c) (MemCtx.blocks c) m bl x (ci_mem c Hi)); try done.
  - intros j b Hj Hp. destruct (ci_block c Hi j b Hj Hp) as [(u & Hu & Hs) Hsz]. exists u. split; [done|lia].
  - apply (ci_distinct c Hi).
Qed.
End Reap.

(** ** Theorems *)

Section Theorems.
Context {St : Type} `{AllocatorLaws St}.
Implicit Types s : proc_state St.

(** C4: In every state the calls of the process layer can reach, identifiers in
    use are positive, below [next_pid] and belong to one entry; a process is
    RUNNING exactly when it is the current one, the current process (if any) is
    in the table, and init has not exited. *)
Theorem proc_table_safe s0 s :
  rtc proc_call (proc_init s0) s -> table_ok s.
Proof. apply proc_calls_ok, proc_init_ok. Qed.

(** C5: Whatever a spawned program does through kernel calls, [proc_spawn_exec]
    is itself a sequence of such calls, its failures included: the process
    table is sound when it returns. *)
Theorem proc_spawn_refines run s parent path s' r :
  (forall entry sp t t', table_ok t -> run entry sp t = Ret t' -> rtc proc_call t t') ->
  table_ok s -> next_pid s < 2147483647 -> proc_spawn_exec run s parent path = Ret (s', r) ->
  rtc proc_call s s' /\ table_ok s'.
Proof.
  intros Hrun Hok Hn Hr. pose proof (spawn_calls run Hrun s parent path s' r Hok Hn Hr) as Hc.
  split; [done|]. by eapply proc_calls_ok.
Qed.

(** C31: [proc_exit] of a live process other than init returns, records the
    status, closes every file the process had open, hands its children to
    init, and clears the current process if it was it; other processes keep
    their entries.  Exit of init panics, exit of a process that is gone or has
    exited is refused. *)
Theorem proc_exit_effect s p status :
  table_ok s ->
  match proc_at s p with
  | None => proc_exit s p status = Ret (s, PROC_ERR_NOT_FOUND)
  | Some e =>
      if proc_is_terminal_state (state (info e)) then proc_exit s p status = Ret (s, PROC_ERR_INVALID_STATE)
      else if p =? 1 then proc_exit s p status = Panic "init process exited"
      else exists s', proc_exit s p status = Ret (s', 0) /\ table_ok s' /\
        (exists e', proc_at s' p = Some e' /\ state (info e') = PROC_STATE_EXITED /\ exit_status (info e') = status /\
           Forall (fun fd => fd < 0) (fds e')) /\
        (forall fd, fd ∈ fds e -> 0 <= fd -> open_at (files s') fd = None) /\
        current_pid s' = (if current_pid s =? p then 0 else current_pid s) /\
        forall q, q <> p -> proc_at s' q = orphan p <$> proc_at s q
  end.
Proof.
  intros Hok. destruct (proc_at s p) as [e|] eqn:He; [|unfold proc_exit, proc_exit_locked; by rewrite He].
  destruct (proc_is_terminal_state (state (info e))) eqn:Ht; [unfold proc_exit, proc_exit_locked; by rewrite He, Ht|].
  destruct (Z.eqb_spec p 1) as [->|Hp]; [unfold proc_exit, proc_exit_locked; by rewrite He, Ht|].
  destruct (proc_exit_run s p status e Hok He Ht Hp) as (s' & Hr & Hok' & Hf & _ & Hc & Hat).
  exists s'. split_and!; try done.
  - exists (exited p status p e). rewrite Hat, He. unfold exited. rewrite Z.eqb_refl. split_and!; try done.
    assert (forall a, fds (orphan p a) = fds a) as E by (intros a; unfold orphan; by destruct (pused a && _)%bool).
    cbn. rewrite E. cbn. apply Forall_fmap, Forall_true. intros fd. unfold closed, compose. destruct (Z.leb_spec 0 fd); lia.
  - intros fd Hin Hfd. rewrite Hf. apply close_all_closed; [done|by left].
  - intros q Hq. rewrite Hat. unfold exited. by rewrite (proj2 (Z.eqb_neq q p)).
Qed.

(** C32: [proc_wait] by the parent of an exited child returns the child's
    identifier, stores its exit status where the caller asked, removes the
    child from the table and releases every block of its memory context; any
    other caller gets -1 and changes nothing. *)
Theorem proc_wait_reaps s parent child status e i :
  table_ok s -> ctx_inv (ctx_view s) -> proc_at s child = Some e -> find_ctx (ctx_view s) (memctx (info e)) = Some i ->
  (status <> 0 -> status_ok s (memctx (info e)) status) ->
  if decide (parent_pid (info e) = parent /\ state (info e) = PROC_STATE_EXITED) then
    exists s', proc_wait s parent child status = Ret (s', child) /\ table_ok s' /\ ctx_inv (ctx_view s') /\
      proc_at s' child = None /\ (forall q, q <> child -> proc_at s' q = proc_at s q) /\
      (status <> 0 -> bytes_at (ram s') status 4 = le_bytes 4 (exit_status (info e))) /\
      forall q, al_owns (Vfs.mem (files s')) !! q =
        if existsb (fun b => of_ctx (memctx (info e)) b && (ptr b =? q)) (ctx_blocks s) then None
        else al_owns (Vfs.mem (files s)) !! q
  else proc_wait s parent child status = Ret (s, -1).
Proof.
  intros Hok Hi He Hf Hst. destruct (decide _) as [[Hpar Hex]|Hno].
  2: { unfold proc_wait. rewrite He. case_test; [done|]. apply orb_false_iff in Htest as [?%negb_false_iff%Z.eqb_eq ?%negb_false_iff%Z.eqb_eq].
       by destruct Hno. }
  set (ctx := memctx (info e)) in *.
  set (s1 := if status =? 0 then s else set_ram s (store_bytes (ram s) status (le_bytes 4 (exit_status (info e))))).
  assert (ctx_inv (ctx_view s1) /\ find_ctx (ctx_view s1) ctx = Some i /\ ctx_blocks s1 = ctx_blocks s /\
    (status <> 0 -> bytes_at (ram s1) status 4 = le_bytes 4 (exit_status (info e))) /\
    al_owns (Vfs.mem (files s1)) = al_owns (Vfs.mem (files s)) /\ table_ok s1 /\ current_pid s1 = current_pid s /\
    (forall q, proc_at s1 q = proc_at s q) /\ find_proc s1 child = find_proc s child) as (Hi1 & Hf1 & Hb1 & Hs1 & Ho1 & Hok1 & Hc1 & Hat1 & Hfp1).
  { unfold s1. destruct (Z.eqb_spec status 0) as [->|Hs0]; [by split_and!|].
    destruct (store_status s ctx status (exit_status (info e)) Hi (Hst Hs0)) as (? & _ & ? & ?).
    split_and!; try done. by apply (table_ok_same s). }
  assert (current_pid s1 <> child) as Hcur.
  { rewrite Hc1. intros E. destruct (proc_at_entry s child e Hok He) as [[_ _ _ H4 _] Hp]. rewrite (proj2 H4) in Hex; [done|congruence]. }
  destruct (memctx_destroy_spec (ctx_view s1) ctx Hi1) as [[Hn _]|(j & m & Hj & Hd & Hi2 & Ho2)]; [congruence|].
  assert (exists s', discard s1 child = Ret s' /\ ctx_view s' = CtxState m (<[j:=zero_ctx]> (contexts s1)) (clear ctx <$> ctx_blocks s1) (next_ctx s1))
    as (s' & Hdis & Hview).
  { unfold discard. rewrite Hat1, He. unfold proc_at in He. rewrite Hfp1. destruct (find_proc s child) as [k|]; [|done].
    fold ctx. rewrite Hd. eexists. split; done. }
  exists s'. destruct (discard_ok s1 child s' Hok1 Hcur Hdis) as (Hok' & Hgone & Hothers & _).
  assert (Vfs.mem (files s') = m) as Hm by (change (MemCtx.mem (ctx_view s') = m); by rewrite Hview).
  split_and!; [|done|by rewrite Hview|done|by intros q Hq; rewrite Hothers, Hat1| |].
  - unfold proc_wait. rewrite He, Hpar, Hex, !Z.eqb_refl. cbn [negb orb]. fold s1. by rewrite Hdis.
  - intros Hs0. rewrite <- (Hs1 Hs0). apply bytes_at_ext. intros x Hx. unfold ram. rewrite Hm.
    apply (destroy_frame (ctx_view s1) ctx i x _ _ Hi1 Hf1 Hd). intros b u Hb Hof Hu Hin. cbn in Hb, Hu.
    rewrite Hb1 in Hb. rewrite Ho1 in Hu. destruct (Hst Hs0 x) as [Hnm|(q & v & Hq & Hqx & Hnot)]; [lia| |].
    + apply Hnm. by apply (al_range_law _ (ptr b) u (ci_mem _ Hi) Hu).
    + pose proof (al_disjoint_law _ (ptr b) u q v (ci_mem _ Hi) Hu Hq (Hnot b Hb Hof)). unfold in_block in *. lia.
  - intros q. rewrite Hm, (Ho2 q). cbn. by rewrite Hb1, Ho1.
Qed.
End Theorems.

(** ** Concrete inputs *)

#[local] Existing Instance demo_layout.

Definition demo_child : proc_state kmem := (proc_create demo_procs (Some [99]) 1).1.
Definition after {A} (s : proc_state kmem) (o : outcome (proc_state kmem * A)) : proc_state kmem :=
  match o with Ret (s, _) => s | _ => s end.
Definition demo_exited : proc_state kmem := after demo_child (proc_exit demo_child 2 7).

(** The executable of ElfLoad stored as the file /e, and a program that
    returns at once. *)
Definition demo_path : option (list Z) := Some [47; 101].
Definition demo_installed : proc_state kmem :=
  let v := match vfs_open (files demo_procs) demo_path (Z.lor VFS_O_CREAT VFS_O_RDWR) with
           | Ret (v, fd) => match vfs_write v fd 0x1000 124 with Ret (v, _) => (vfs_close v fd).1 | _ => v end
           | _ => files demo_procs end in
  put_files demo_procs v.
Definition idle (entry sp : Z) (s : proc_state kmem) : outcome (proc_state kmem) := Ret s.

Lemma demo_procs_call : rtc proc_call (proc_init (ProcState (vfs_init demo_elf_mem).1 [] [] 0 [] 0 0)) demo_procs.
Proof. apply rtc_once. apply call_create. cbn. lia. Qed.
Lemma demo_procs_ok : table_ok demo_procs.
Proof. eapply proc_calls_ok; [apply proc_init_ok|exact demo_procs_call]. Qed.
Lemma demo_child_ok : table_ok demo_child.
Proof. apply proc_create_ok; [exact demo_procs_ok|by vm_compute]. Qed.
Lemma demo_exited_ok : table_ok demo_exited.
Proof. apply (proc_exit_ok demo_child 2 7 demo_exited 0 demo_child_ok). by vm_compute. Qed.
Lemma demo_exited_inv : ctx_inv (ctx_view demo_exited).
Proof.
  assert (ctx_view demo_exited = (memctx_create (memctx_create (memctx_init demo_elf_mem) 1 0).1 2 0).1) as -> by by vm_compute.
  apply memctx_create_inv; [apply memctx_create_inv; [apply memctx_init_inv; eexists _, _; apply heap_init_kinv, demo_layout_ok|..]|..];
    by vm_compute.
Qed.

Lemma proc_table_safe_witness : table_ok demo_procs.
Proof. apply (proc_table_safe _ _ demo_procs_call). Defined.
Lemma proc_spawn_refines_witness : exists s', proc_spawn_exec idle demo_installed 1 demo_path = Ret (s', 2) /\ table_ok s'.
Proof.
  assert (exists s', proc_spawn_exec idle demo_installed 1 demo_path = Ret (s', 2)) as [s' Hr] by (eexists; by vm_compute).
  exists s'. split; [exact Hr|].
  apply (proc_spawn_refines idle demo_installed 1 demo_path s' 2); [|by apply put_files_ok, demo_procs_ok|by vm_compute|exact Hr].
  intros entry sp t t' _ [= <-]. apply rtc_refl.
Defined.
Lemma proc_exit_effect_witness : exists s', proc_exit demo_child 2 7 = Ret (s', 0) /\ table_ok s'.
Proof.
  pose proof (proc_exit_effect demo_child 2 7 demo_child_ok) as Hx.
  assert (exists e, proc_at demo_child 2 = Some e /\ proc_is_terminal_state (state (info e)) = false) as (e & He & Ht)
    by (eexists; split; by vm_compute).
  rewrite He, Ht in Hx. destruct Hx as (s' & Hr & Hok & _). exists s'. exact (conj Hr Hok).
Defined.
Lemma proc_wait_reaps_witness : exists s', proc_wait demo_exited 1 2 0 = Ret (s', 2) /\ proc_at s' 2 = None.
Proof.
  assert (exists e, proc_at demo_exited 2 = Some e /\ parent_pid (info e) = 1 /\ state (info e) = PROC_STATE_EXITED /\
    memctx (info e) = 2) as (e & He & Hp & Hs & Hc) by (eexists; split_and!; by vm_compute).
  pose proof (proc_wait_reaps demo_exited 1 2 0 e 1 demo_exited_ok demo_exited_inv He) as Hw.
  rewrite Hc in Hw. rewrite decide_True in Hw by (split; assumption).
  destruct Hw as (s' & Hr & _ & _ & Hn & _); [by vm_compute|done|]. exists s'. exact (conj Hr Hn).
Defined.

(** ** Duplicated descriptors share one open file without counting

    After [proc_dup], closing either descriptor closes the file for both: the
    one that is left open cannot be read any more, and once another open reuses
    the slot it refers to that file instead. *)
Definition demo_dup : proc_state kmem :=
  let s := after demo_installed (proc_open demo_installed 1 demo_path VFS_O_RDONLY) in
  let s := (proc_dup s 1 0).1 in
  (proc_close s 1 0).1.
Theorem proc_dup_not_counted :
  real_fd (proc_at demo_dup 1) 1 = 0 /\ open_at (files demo_dup) 0 = None /\
  (exists s, proc_read demo_dup 1 1 0x9000 4 = Ret (s, -1)) /\
  exists s f, proc_open demo_dup 1 (Some [47; 102]) (Z.lor VFS_O_CREAT VFS_O_RDWR) = Ret (s, 0) /\
    real_fd (proc_at s 1) 1 = real_fd (proc_at s 1) 0 /\ open_at (files s) (real_fd (proc_at s 1) 1) = Some f /\ fnode f = 2.
Proof. split_and!; [by vm_compute|by vm_compute|eexists; by vm_compute|]. eexists _, _. split_and!; by vm_compute. Qed.
