(* ===== verification/ProcInit.v ===== *)
(** * kernel/proc.c: the init process stays

    Process 1 cannot be killed, reaped or given up: once it is in the table, no
    sequence of calls takes it out, and the kernel does not come back from
    starting it. *)

From Stdlib Require Import ZArith Lia.
From stdpp Require Import base numbers gmap strings fin_maps option list relations.
From S2P Require Import Prelude MemUtils Heap HeapTheorems Allocator MemCtx Vfs ProcTable Elf Proc ProcTheorems.

Local Open Scope Z_scope.

Section Init.
Context {St : Type} `{Allocator St}.
Implicit Types s : proc_state St.

Definition present s (p : Z) : Prop := is_Some (find_proc s p).

(** ** Calls that leave every process where it is *)

Definition same_pids s s' : Prop := forall p, find_proc s' p = find_proc s p.

Lemma same_pids_refl s : same_pids s s.
Proof. done. Qed.
Lemma same_pids_trans s1 s2 s3 : same_pids s1 s2 -> same_pids s2 s3 -> same_pids s1 s3.
Proof. intros H1 H2 p. by rewrite H2, H1. Qed.
Lemma same_pids_table s s' : same_table s s' -> same_pids s s'.
Proof. intros (E & _) p. unfold find_proc. by rewrite E. Qed.
Lemma same_pids_update s p f : (forall e, pused (f e) = pused e /\ pid (info (f e)) = pid (info e)) -> same_pids s (update s p f).
Proof.
  intros Hf q. unfold update. destruct (find_proc s p) as [i|]; [|done]. unfold find_proc. cbn. apply find_index_alter.
  intros e. unfold is_proc. by destruct (Hf e) as [-> ->].
Qed.
Lemma same_pids_demote s : same_pids s (demote_current s).
Proof.
  unfold demote_current. case_match; [apply same_pids_refl|]. case_match; [|apply same_pids_refl].
  case_match; [by apply same_pids_update|apply same_pids_refl].
Qed.
Lemma same_pids_current s p : same_pids s (proc_set_current s p).1.
Proof.
  unfold proc_set_current. case_match; [|apply same_pids_refl]. case_match; [apply same_pids_refl|]. cbn [fst].
  eapply same_pids_trans; [apply same_pids_demote|]. rewrite update_put_current. by apply same_pids_update.
Qed.
Lemma same_pids_enter s p : same_pids s (start_enter s p).1.
Proof.
  unfold start_enter. case_match; [|apply same_pids_refl]. case_match; [apply same_pids_refl|].
  pose proof (same_pids_current s p) as Hc. destruct (proc_set_current s p) as [s1 r]. by case_match.
Qed.
Lemma same_pids_exit s p status s' r : proc_exit_locked s p status = Ret (s', r) -> same_pids s s'.
Proof.
  unfold proc_exit_locked. case_match; [|intros [= <- _]; apply same_pids_refl]. case_match; [intros [= <- _]; apply same_pids_refl|].
  destruct (p =? 1) eqn:Hp; [done|]. cbn [negb]. intros [= <- _]. set (s1 := update (put_files s _) p _).
  assert (same_pids s s1) as Hsame1 by (eapply (same_pids_trans _ (put_files s _)); [by apply same_pids_table|by apply same_pids_update]).
  assert (same_pids s (update (put_procs s1 (orphan p <$> procs s1)) p (on_info (fun i => set_exit i status)))) as Hsame2.
  { eapply same_pids_trans; [exact Hsame1|]. eapply same_pids_trans; [intros q; apply orphan_at|by apply same_pids_update]. }
  by case_match.
Qed.
Lemma same_pids_leave s p previous s' : start_leave s p previous = Ret s' -> same_pids s s'.
Proof.
  unfold start_leave. intros Hr. inv_bind Hr. injection Hr as <-.
  assert (same_pids s r) as Hsame1.
  { case_match; [|injection E as <-; apply same_pids_refl]. case_match; [injection E as <-; apply same_pids_refl|].
    inv_bind E. destruct r0 as [s1 x]. injection E as <-. by eapply same_pids_exit. }
  eapply same_pids_trans; [exact Hsame1|]. case_test; [apply same_pids_current|]. by case_test.
Qed.
Lemma same_pids_kill s p status s' r : proc_kill s p status = Ret (s', r) -> same_pids s s'.
Proof.
  unfold proc_kill. intros Hr. repeat (case_match; [by injection Hr as <- _|]).
  case_match; [|by injection Hr as <- _]. case_match; [by injection Hr as <- _|]. by eapply same_pids_exit.
Qed.
Lemma same_pids_attach s p path im s' r : proc_attach_image s p path im = Ret (s', r) -> same_pids s s'.
Proof.
  unfold proc_attach_image. intros Hr. case_match; [|by injection Hr as <- _]. case_match; [|by injection Hr as <- _].
  case_match; [by injection Hr as <- _|]. inv_bind Hr. destruct r0 as [s1 a]. apply proc_alloc_table, same_pids_table in E.
  assert (same_pids s s1) as Hsame1 by (eapply same_pids_trans; [|exact E]; by apply same_pids_update).
  case_match; injection Hr as <- _; [done|]. eapply same_pids_trans; [exact Hsame1|]. by apply same_pids_update.
Qed.
Lemma same_pids_fd s v p fd b : same_pids s (put_fd (put_files s v) p fd b).
Proof. eapply (same_pids_trans _ (put_files s v)); [by apply same_pids_table|by apply same_pids_update]. Qed.
Lemma same_pids_files s s' v : same_pids s s' -> same_pids s (put_files s' v).
Proof. intros H1. eapply same_pids_trans; [exact H1|by apply same_pids_table]. Qed.

(** ** Calls that add or remove a process *)

Lemma present_spec s p : present s p <-> exists i e, procs s !! i = Some e /\ pused e = true /\ pid (info e) = p.
Proof.
  split; [intros [i Hi]; exists i; by apply find_proc_spec|].
  intros (i & e & He & Hu & Hp). unfold present. destruct (find_proc s p) as [j|] eqn:Hf; [by exists j|].
  pose proof (find_index_None _ _ _ Hf i e He) as Hn. unfold is_proc in Hn. by rewrite Hu, (proj2 (Z.eqb_eq _ _) Hp) in Hn.
Qed.
Lemma present_insert s s' i e p : procs s' = <[i := e]> (procs s) ->
  (forall a, procs s !! i = Some a -> pused a = true -> pid (info a) <> p) -> present s p -> present s' p.
Proof.
  rewrite !present_spec. intros E Hi (j & a & Ha & Hu & Hp). exists j, a. rewrite E, list_lookup_insert_ne; [done|].
  intros ->. by apply (Hi a).
Qed.
Lemma present_create s nm parent p : present s p -> present (proc_create s nm parent).1 p.
Proof.
  intros Hp. unfold proc_create. case_match; [done|]. case_match; [done|]. case_match eqn:Hf; [|done]. rename n into i.
  apply find_index_Some in Hf as (e & _ & He & Hfree%negb_true_iff & _). rewrite Nat.sub_0_r in He.
  destruct (memctx_create _ _ _) as [c ctx]. case_match; cbn [fst];
    (eapply (present_insert s _ i); [done| |done]; intros a Ha Hu; congruence).
Qed.
Lemma present_discard s q s' p : p <> q -> discard s q = Ret s' -> present s p -> present s' p.
Proof.
  intros Hne Hd Hp. unfold discard in Hd. destruct (find_proc s q) as [i|] eqn:Hf; [|done]. case_match; [|done].
  inv_bind Hd. destruct r as [c r]. injection Hd as <-. eapply (present_insert s _ i); [done| |done].
  destruct (find_proc_spec s q i Hf) as (a & Ha & _ & Hq). intros b Hb _. congruence.
Qed.
Lemma present_wait s parent child status s' r : table_ok s -> proc_wait s parent child status = Ret (s', r) ->
  present s 1 -> present s' 1.
Proof.
  intros Hok Hr Hp. unfold proc_wait in Hr. case_match eqn:He; [|by injection Hr as <- _].
  case_match eqn:Hc; [by injection Hr as <- _|]. apply orb_false_iff in Hc as [_ Hst%negb_false_iff%Z.eqb_eq].
  inv_bind Hr. injection Hr as <- _. eapply present_discard; [|exact E|].
  - intros <-. destruct (proc_at_entry s 1 _ Hok He) as [[_ _ _ _ H5] H1]. by apply H5.
  - destruct (status =? 0); [done|]. unfold present. by rewrite (same_pids_table s (set_ram s _)).
Qed.

Lemma present_call s s' : table_ok s -> proc_call s s' -> present s 1 -> present s' 1.
Proof.
  intros Hok Hc Hp. destruct Hc as [s' Ht| |? ? ? ? ? Hr|p|p|? ? ? Hr|? ? ? ? Hr|? ? ? ? Hr|? ? ? ? ? Hr|? ? ? Hne Hr|? ? ? ? ? Hr|p fd|p fd|p o n].
  2: by apply present_create.
  8: by eapply present_wait.
  8: eapply present_discard; [|exact Hr|done]; congruence.
  all: unfold present; match goal with |- is_Some (find_proc ?t 1) => assert (same_pids s t) as ->; [|done] end.
  - by apply same_pids_table.
  - by eapply same_pids_attach.
  - apply same_pids_current.
  - apply same_pids_enter.
  - by eapply same_pids_leave.
  - by eapply same_pids_exit.
  - by eapply same_pids_kill.
  - unfold proc_open in Hr. case_match; [|by injection Hr as <- _]. case_match; [by injection Hr as <- _|].
    inv_bind Hr. destruct r0 as [v b]. case_match; [injection Hr as <- _; by apply same_pids_table|].
    case_match; injection Hr as <- _; [apply same_pids_fd|by apply same_pids_table].
  - unfold proc_close. case_match; [apply same_pids_refl|]. destruct (vfs_close _ _) as [v r]. cbn [fst].
    by apply same_pids_files, same_pids_update.
  - unfold proc_dup. case_match; [apply same_pids_refl|]. case_match; [|apply same_pids_refl].
    case_match; [by apply same_pids_update|apply same_pids_refl].
  - unfold proc_dup2. case_match; [|apply same_pids_refl]. case_match; [apply same_pids_refl|]. cbn [fst].
    case_match; [apply same_pids_fd|by apply same_pids_update].
Qed.
Lemma present_calls s s' : table_ok s -> rtc proc_call s s' -> present s 1 -> present s' 1.
Proof.
  intros Hok Hc. induction Hc as [|s1 s2 s3 H1 _ IH]; [done|]. intros Hp. apply IH; [by eapply proc_call_ok|by eapply present_call].
Qed.

(** ** Init in a sound table *)

Lemma init_alive s : table_ok s -> present s 1 -> exists e, proc_at s 1 = Some e /\ proc_is_terminal_state (state (info e)) = false.
Proof.
  intros Hok [i Hi]. destruct (find_proc_spec s 1 i Hi) as (e & He & Hu & Hp). exists e. split; [unfold proc_at; by rewrite Hi|].
  destruct (to_entry s Hok i e He Hu) as [_ _ Hs _ H5]. specialize (H5 Hp). unfold proc_is_terminal_state.
  destruct Hs as [->|[->|Hx]]; done.
Qed.

(** What the kernel gets when it starts init: a refusal, before anything ran. *)
Lemma start_init_refused run s s' r :
  (forall entry sp t t', table_ok t -> run entry sp t = Ret t' -> rtc proc_call t t') ->
  table_ok s -> present s 1 -> proc_start_flat run s 1 = Ret (s', r) -> r = -1.
Proof.
  intros Hrun Hok Hp Hr. unfold proc_start_flat in Hr. pose proof (same_pids_enter s 1) as Hs. pose proof (start_enter_ok s 1 Hok) as Hok1.
  destruct (start_enter s 1) as [s1 [[e sp]|]]; [|by injection Hr as _ <-]. exfalso. cbn [fst] in *.
  inv_bind Hr. rename r0 into s2. pose proof (Hrun _ _ _ _ Hok1 E) as Hc. pose proof (proc_calls_ok _ _ Hok1 Hc) as Hok2.
  assert (present s2 1) as Hp2 by (eapply present_calls; [exact Hok1|exact Hc|]; unfold present; by rewrite Hs).
  destruct (init_alive s2 Hok2 Hp2) as (a & Ha & Ht). inv_bind Hr. unfold start_leave in E0. rewrite Ha, Ht in E0.
  inv_bind E0. inv_bind E1. unfold proc_exit_locked in E2. by rewrite Ha, Ht in E2.
Qed.
End Init.
