(* ===== verification/Fat32.v ===== *)
(** * kernel/fs.c: the FAT32 volume

    The volume is a range of the byte memory.  The file system keeps the
    geometry it found in the boot sector and a table of open files; directory
    entries and the allocation table are read and written in place. *)

From Stdlib Require Import ZArith Lia.
From stdpp Require Import base numbers gmap strings fin_maps option list.
From S2P Require Import Prelude MemUtils.

Local Open Scope Z_scope.

Definition FS_MODE_NONE : Z := 0.
Definition FS_MODE_RAW : Z := 1.
Definition FS_MODE_FAT32 : Z := 2.
Definition FS_O_RDONLY : Z := 0x01.
Definition FS_O_WRONLY : Z := 0x02.
Definition FS_O_RDWR : Z := 0x03.
Definition FS_O_CREAT : Z := 0x10.
Definition FS_O_TRUNC : Z := 0x20.
Definition FS_O_APPEND : Z := 0x40.
Definition FS_SEEK_SET : Z := 0.
Definition FS_SEEK_CUR : Z := 1.
Definition FS_SEEK_END : Z := 2.
Definition FAT32_EOC : Z := 0x0FFFFFF8.
Definition FAT32_EOC_MARK : Z := 0x0FFFFFFF.
Definition FAT32_ATTR_DIRECTORY : Z := 0x10.
Definition FAT32_ATTR_ARCHIVE : Z := 0x20.
Definition FS_MAX_OPEN : nat := 16.

(** [fat32_info_t]. *)
Record fat32_info_t := FatInfo {
  bytes_per_sector : Z; sectors_per_cluster : Z; reserved_sectors : Z; fat_count : Z;
  sectors_per_fat : Z; total_sectors : Z; root_cluster : Z; first_data_sector : Z; total_clusters : Z
}.
Definition zero_fat : fat32_info_t := FatInfo 0 0 0 0 0 0 0 0 0.

(** [fs_open_t]. *)
Record fs_open_t := FsOpen {
  used : bool; dir_entry_offset : Z; first_cluster : Z; fsize : Z; pos : Z; flags : Z
}.
Definition zero_open : fs_open_t := FsOpen false 0 0 0 0 0.

Record fs := Fs {
  ram : gmap Z Z;
  fs_data : Z;
  fs_size : Z;
  fs_mode : Z;
  fat : fat32_info_t;
  open_files : list fs_open_t;
  out : list con_ev
}.

Definition set_ram (s : fs) (m : gmap Z Z) : fs :=
  Fs m (fs_data s) (fs_size s) (fs_mode s) (fat s) (open_files s) (out s).
Definition set_open (s : fs) (fd : Z) (f : fs_open_t) : fs :=
  Fs (ram s) (fs_data s) (fs_size s) (fs_mode s) (fat s) (<[Z.to_nat fd := f]> (open_files s)) (out s).

(** ** Little-endian fields *)

Definition rd16 (m : gmap Z Z) (p : Z) : Z := Z.lor (rd m p) (Z.shiftl (rd m (p + 1)) 8).
Definition rd32 (m : gmap Z Z) (p : Z) : Z :=
  Z.lor (Z.lor (Z.lor (rd m p) (Z.shiftl (rd m (p + 1)) 8)) (Z.shiftl (rd m (p + 2)) 16)) (Z.shiftl (rd m (p + 3)) 24).
Definition wr16 (m : gmap Z Z) (p v : Z) : gmap Z Z := wr (wr m p v) (p + 1) (Z.shiftr v 8).
Definition wr32 (m : gmap Z Z) (p v : Z) : gmap Z Z :=
  wr (wr (wr (wr m p v) (p + 1) (Z.shiftr v 8)) (p + 2) (Z.shiftr v 16)) (p + 3) (Z.shiftr v 24).

Definition range_ok (s : fs) (off len : Z) : bool :=
  negb (fs_data s =? 0) && (off <=? fs_size s) && (len <=? fs_size s - off).

(** ** The boot sector *)

(** The geometry when the volume is accepted. *)
Definition fat32_parse (s : fs) : option fat32_info_t :=
  if negb (range_ok s 0 512) then None else
  let m := ram s in
  let b := fs_data s in
  if negb (rd m (b + 510) =? 0x55) || negb (rd m (b + 511) =? 0xAA) then None else
  let bps := rd16 m (b + 11) in
  let spc := rd m (b + 13) in
  let reserved := rd16 m (b + 14) in
  let fats := rd m (b + 16) in
  let root_entries := rd16 m (b + 17) in
  let total16 := rd16 m (b + 19) in
  let fat16 := rd16 m (b + 22) in
  let total32 := rd32 m (b + 32) in
  let fat32 := rd32 m (b + 36) in
  let root := rd32 m (b + 44) in
  if (bps =? 0) || negb (Z.land bps (bps - 1) =? 0) || (bps <? 512) || (spc =? 0) ||
     (reserved =? 0) || (fats =? 0) || negb (root_entries =? 0) || negb (total16 =? 0) ||
     negb (fat16 =? 0) || (fat32 =? 0) || (root <? 2) then None else
  let total := total32 in
  let first_data := u32 (reserved + u32 (fats * fat32)) in
  if total <=? first_data then None else
  if fs_size s <? u64 (total * bps) then None else
  let clusters := (total - first_data) / spc in
  if (clusters =? 0) || negb (rd m (b + 82) =? 70) || negb (rd m (b + 83) =? 65) ||
     negb (rd m (b + 84) =? 84) || negb (rd m (b + 85) =? 51) || negb (rd m (b + 86) =? 50) then None else
  Some (FatInfo bps spc reserved fats fat32 total root first_data clusters).

(** ** Clusters and the allocation table *)

Definition cluster_limit (s : fs) : Z := u32 (total_clusters (fat s) + 2).

Definition cluster_offset (s : fs) (c : Z) : Z :=
  if (c <? 2) || (cluster_limit s <=? c) then fs_size s
  else
    let sector := u32 (first_data_sector (fat s) + u32 ((c - 2) * sectors_per_cluster (fat s))) in
    u64 (sector * bytes_per_sector (fat s)).

Definition cluster_size (s : fs) : Z := bytes_per_sector (fat s) * sectors_per_cluster (fat s).

Definition fat_entry_offset (s : fs) (c fat_index : Z) : Z :=
  u64 (u64 (u64 (reserved_sectors (fat s) + u64 (fat_index * sectors_per_fat (fat s))) * bytes_per_sector (fat s)) +
       u64 (c * 4)).

Definition fat_get (s : fs) (c : Z) : Z :=
  let off := fat_entry_offset s c 0 in
  if negb (range_ok s off 4) then FAT32_EOC_MARK
  else Z.land (rd32 (ram s) (fs_data s + off)) 0x0FFFFFFF.

(** The loop of [fat_set] over the copies [i], [n] of them to go; the result
    is 0 or -1. *)
Fixpoint fat_set_loop (n : nat) (s : fs) (c value i : Z) : fs * Z :=
  match n with
  | O => (s, 0)
  | S n =>
      let off := fat_entry_offset s c i in
      if negb (range_ok s off 4) then (s, -1)
      else fat_set_loop n (set_ram s (wr32 (ram s) (fs_data s + off) (Z.land value 0x0FFFFFFF))) c value (i + 1)
  end.
Definition fat_set (s : fs) (c value : Z) : fs * Z := fat_set_loop (Z.to_nat (fat_count (fat s))) s c value 0.

Definition is_eoc (v : Z) : bool := FAT32_EOC <=? v.

(** The scan of [alloc_cluster] from cluster [c]; 0 when there is none. *)
Fixpoint alloc_scan (n : nat) (s : fs) (c : Z) : fs * Z :=
  match n with
  | O => (s, 0)
  | S n =>
      if fat_get s c =? 0 then
        let '(s, r) := fat_set s c FAT32_EOC_MARK in
        if negb (r =? 0) then (s, 0) else
        let off := cluster_offset s c in
        if negb (range_ok s off (cluster_size s)) then (s, 0)
        else (set_ram s (memset (ram s) (fs_data s + off) 0 (cluster_size s)), c)
      else alloc_scan n s (c + 1)
  end.
Definition alloc_cluster (s : fs) : fs * Z := alloc_scan (Z.to_nat (cluster_limit s - 2)) s 2.

(** The loop of [chain_cluster] with [k] steps to go; 0 for failure. *)
Fixpoint chain_loop (k : nat) (s : fs) (cur : Z) (grow : bool) : fs * Z :=
  match k with
  | O => (s, cur)
  | S k =>
      let next := fat_get s cur in
      let '(s, next, ok) :=
        if is_eoc next then
          if negb grow then (s, 0, false)
          else
            let '(s, next) := alloc_cluster s in
            if next =? 0 then (s, 0, false)
            else let '(s, r) := fat_set s cur next in (s, next, r =? 0)
        else (s, next, true) in
      if negb ok then (s, 0)
      else if (next <? 2) || (cluster_limit s <=? next) then (s, 0)
      else chain_loop k s next grow
  end.
Definition chain_cluster (s : fs) (first index : Z) (grow : bool) : fs * Z :=
  if first <? 2 then (s, 0) else chain_loop (Z.to_nat index) s first grow.

Fixpoint free_loop (fuel : nat) (s : fs) (cur : Z) : outcome fs :=
  if (2 <=? cur) && (cur <? cluster_limit s) then
    match fuel with
    | O => Timeout
    | S fuel =>
        let next := fat_get s cur in
        let s := (fat_set s cur 0).1 in
        if is_eoc next then Ret s else free_loop fuel s next
    end
  else Ret s.
Definition free_chain (s : fs) (first : Z) : outcome fs := free_loop (Z.to_nat (cluster_limit s)) s first.

(** ** Names *)

Definition upper_char (c : Z) : Z := if (97 <=? c) && (c <=? 122) then c - 32 else c.

(** Characters that an 8.3 name may not contain. *)
Definition bad_char (ch : Z) : bool :=
  (ch <=? 32) || existsb (Z.eqb ch) [34; 42; 43; 44; 58; 59; 60; 61; 62; 63; 91; 92; 93; 124].

Fixpoint short_name_loop (p : list Z) (o : list Z) (name_len ext_len : nat) (in_ext : bool) : option (list Z) :=
  match p with
  | [] => if (0 <? name_len)%nat then Some o else None
  | ch :: p =>
      if ch =? 47 then None
      else if ch =? 46 then if in_ext then None else short_name_loop p o name_len ext_len true
      else if bad_char ch then None
      else if negb in_ext then
        if (8 <=? name_len)%nat then None
        else short_name_loop p (<[name_len := u8 (upper_char ch)]> o) (S name_len) ext_len in_ext
      else
        if (3 <=? ext_len)%nat then None
        else short_name_loop p (<[(8 + ext_len)%nat := u8 (upper_char ch)]> o) name_len (S ext_len) in_ext
  end.

Fixpoint skip_slash (p : list Z) : list Z :=
  match p with c :: p' => if c =? 47 then skip_slash p' else p | [] => [] end.

Definition make_short_name (path : option (list Z)) : option (list Z) :=
  match path with
  | None => None
  | Some path =>
      match skip_slash path with
      | [] => None
      | p => short_name_loop p (replicate 11 32) 0 0 false
      end
  end.

Definition short_name_eq (m : gmap Z Z) (e : Z) (nm : list Z) : bool :=
  forallb (fun i => rd m (e + Z.of_nat i) =? nm !!! i) (seq 0 11).

(** ** The root directory *)

(** The result of the scan: [Found] with the offset of the entry, or [Missing];
    both with the offset of the first free entry, 0 for none. *)
Inductive dir_result := Found (entry_off free_off : Z) | Missing (free_off : Z).

Definition note_free (free_off at_ : Z) : Z := if free_off =? 0 then u32 at_ else free_off.

(** The entries of one cluster, [n] to go from address [off + pos]: [inl] ends
    the search, [inr] carries the free offset on. *)
Fixpoint scan_cluster (n : nat) (s : fs) (nm : list Z) (at_ free_off : Z) : dir_result + Z :=
  match n with
  | O => inr free_off
  | S n =>
      let e := fs_data s + at_ in
      let m := ram s in
      if rd m e =? 0 then inl (Missing (note_free free_off at_))
      else if rd m e =? 0xE5 then scan_cluster n s nm (at_ + 32) (note_free free_off at_)
      else if Z.land (rd m (e + 11)) 0x0F =? 0x0F then scan_cluster n s nm (at_ + 32) free_off
      else if negb (Z.land (rd m (e + 11)) FAT32_ATTR_DIRECTORY =? 0) then scan_cluster n s nm (at_ + 32) free_off
      else if short_name_eq m e nm then inl (Found (u32 at_) free_off)
      else scan_cluster n s nm (at_ + 32) free_off
  end.

Fixpoint find_loop (fuel : nat) (s : fs) (nm : list Z) (c free_off : Z) : outcome dir_result :=
  if (2 <=? c) && (c <? cluster_limit s) then
    match fuel with
    | O => Timeout
    | S fuel =>
        let off := cluster_offset s c in
        if negb (range_ok s off (cluster_size s)) then Ret (Missing free_off) else
        match scan_cluster (Z.to_nat (cluster_size s / 32)) s nm off free_off with
        | inl r => Ret r
        | inr free_off =>
            let next := fat_get s c in
            if is_eoc next then Ret (Missing free_off) else find_loop fuel s nm next free_off
        end
    end
  else Ret (Missing free_off).
(** A chain without a cycle has at most [total_clusters] clusters. *)
Definition find_dir_entry (s : fs) (nm : list Z) : outcome dir_result :=
  find_loop (Z.to_nat (cluster_limit s)) s nm (root_cluster (fat s)) 0.

Definition entry_first_cluster (m : gmap Z Z) (e : Z) : Z := Z.lor (Z.shiftl (rd16 m (e + 20)) 16) (rd16 m (e + 26)).
Definition entry_set_first_cluster (m : gmap Z Z) (e c : Z) : gmap Z Z :=
  wr16 (wr16 m (e + 20) (u16 (Z.shiftr c 16))) (e + 26) (u16 c).

(** ** Entry points *)

Definition fs_mount (s : fs) (storage size : Z) : fs :=
  let s := Fs (ram s) storage size (if storage =? 0 then FS_MODE_NONE else FS_MODE_RAW) zero_fat
             (replicate FS_MAX_OPEN zero_open) (out s) in
  match (if storage =? 0 then None else fat32_parse s) with
  | Some info =>
      Fs (ram s) storage size FS_MODE_FAT32 info (open_files s)
        (out s ++ [Puts "fs_mount FAT32 bytes="; Udec (u32 size); Putc 10])
  | None =>
      Fs (ram s) storage size (fs_mode s) (fat s) (open_files s)
        (out s ++ [Puts "fs_mount raw bytes="; Udec (u32 size); Putc 10])
  end.

Definition fs_read (s : fs) (offset buf len : Z) : fs * Z :=
  if (buf =? 0) || negb (range_ok s offset 0) then (s, 0) else
  let len := if fs_size s <? u64 (offset + len) then fs_size s - offset else len in
  (set_ram s (memcpy (ram s) buf (fs_data s + offset) len), len).
Definition fs_write (s : fs) (offset data len : Z) : fs * Z :=
  if (data =? 0) || negb (range_ok s offset 0) then (s, 0) else
  let len := if fs_size s <? u64 (offset + len) then fs_size s - offset else len in
  (set_ram s (memcpy (ram s) (fs_data s + offset) data len), len).

Definition fs_is_mounted (s : fs) : bool := negb (fs_mode s =? FS_MODE_NONE).
Definition fs_is_fat32 (s : fs) : bool := fs_mode s =? FS_MODE_FAT32.
Definition fs_capacity (s : fs) : Z := fs_size s.

Definition has (fl bit : Z) : bool := negb (Z.land fl bit =? 0).

Fixpoint store_name (m : gmap Z Z) (e : Z) (nm : list Z) : gmap Z Z :=
  match nm with [] => m | c :: nm => store_name (wr m e c) (e + 1) nm end.

(** A fresh directory entry. *)
Definition new_entry (m : gmap Z Z) (e : Z) (nm : list Z) : gmap Z Z :=
  let m := memset m e 0 32 in
  let m := store_name m e nm in
  let m := wr m (e + 11) FAT32_ATTR_ARCHIVE in
  let m := wr32 m (e + 28) 0 in
  entry_set_first_cluster m e 0.

Definition fs_open (s : fs) (path : option (list Z)) (fl : Z) : outcome (fs * Z) :=
  if negb (fs_mode s =? FS_MODE_FAT32) then Ret (s, -1) else
  match make_short_name path with
  | None => Ret (s, -1)
  | Some nm =>
      r ← find_dir_entry s nm;
      r ← match r with
          | Missing free_off =>
              if negb (has fl FS_O_CREAT) || (free_off =? 0) then Ret None
              else Ret (Some (set_ram s (new_entry (ram s) (fs_data s + free_off) nm), free_off))
          | Found entry_off _ =>
              if has fl FS_O_TRUNC then
                let e := fs_data s + entry_off in
                let first := entry_first_cluster (ram s) e in
                s ← (if first =? 0 then Ret s else free_chain s first);
                Ret (Some (set_ram s (wr32 (entry_set_first_cluster (ram s) e 0) (e + 28) 0), entry_off))
              else Ret (Some (s, entry_off))
          end;
      match r with
      | None => Ret (s, -1)
      | Some (s, entry_off) =>
          match find_index (fun f => negb (used f)) (open_files s) 0 with
          | None => Ret (s, -1)
          | Some fd =>
              let e := fs_data s + entry_off in
              let size := rd32 (ram s) (e + 28) in
              Ret (set_open s (Z.of_nat fd)
                     (FsOpen true entry_off (entry_first_cluster (ram s) e) size
                        (if has fl FS_O_APPEND then size else 0) fl), Z.of_nat fd)
          end
      end
  end.

Definition open_at (s : fs) (fd : Z) : option fs_open_t :=
  if (fd <? 0) || (Z.of_nat FS_MAX_OPEN <=? fd) then None
  else f ← open_files s !! Z.to_nat fd; if used f then Some f else None.

Definition set_pos (f : fs_open_t) (p : Z) : fs_open_t :=
  FsOpen (used f) (dir_entry_offset f) (first_cluster f) (fsize f) p (flags f).

(** The copy loop of [fs_read_fd]: new memory, position and bytes done. *)
Fixpoint read_loop (fuel : nat) (s : fs) (f : fs_open_t) (buf len done : Z) : outcome (fs * fs_open_t * Z) :=
  if len <=? done then Ret (s, f, done) else
  match fuel with
  | O => Timeout
  | S fuel =>
      let csz := cluster_size s in
      let cluster_index := u32 (pos f / csz) in
      let cluster_pos := u32 (pos f mod csz) in
      let c := (chain_cluster s (first_cluster f) cluster_index false).2 in
      if c =? 0 then Ret (s, f, done) else
      let off := cluster_offset s c + cluster_pos in
      let chunk := if len - done <? csz - cluster_pos then len - done else csz - cluster_pos in
      if negb (range_ok s off chunk) then Ret (s, f, done) else
      let s := set_ram s (memcpy (ram s) (buf + done) (fs_data s + off) chunk) in
      read_loop fuel s (set_pos f (u32 (pos f + chunk))) buf len (done + chunk)
  end.

Definition fs_read_fd (s : fs) (fd buf len : Z) : outcome (fs * Z) :=
  if negb (fs_mode s =? FS_MODE_FAT32) then Ret (s, -1) else
  match open_at s fd with
  | None => Ret (s, -1)
  | Some f =>
      if buf =? 0 then Ret (s, -1) else
      if (fsize f <=? pos f) || (len =? 0) then Ret (s, 0) else
      let len := if fsize f - pos f <? len then fsize f - pos f else len in
      '(s, f, done) ← read_loop (Z.to_nat len) s f buf len 0;
      Ret (set_open s fd f, s64 done)
  end.

(** The copy loop of [fs_write_fd]. *)
Fixpoint write_loop (fuel : nat) (s : fs) (f : fs_open_t) (buf len done : Z) : outcome (fs * fs_open_t * Z) :=
  if len <=? done then Ret (s, f, done) else
  match fuel with
  | O => Timeout
  | S fuel =>
      let csz := cluster_size s in
      let cluster_index := u32 (pos f / csz) in
      let cluster_pos := u32 (pos f mod csz) in
      let '(s, c) := chain_cluster s (first_cluster f) cluster_index true in
      if c =? 0 then Ret (s, f, done) else
      let off := cluster_offset s c + cluster_pos in
      let chunk := if len - done <? csz - cluster_pos then len - done else csz - cluster_pos in
      if negb (range_ok s off chunk) then Ret (s, f, done) else
      let s := set_ram s (memcpy (ram s) (fs_data s + off) (buf + done) chunk) in
      let p := u32 (pos f + chunk) in
      let f := FsOpen (used f) (dir_entry_offset f) (first_cluster f) (if fsize f <? p then p else fsize f) p (flags f) in
      write_loop fuel s f buf len (done + chunk)
  end.

Definition fs_write_fd (s : fs) (fd buf len : Z) : outcome (fs * Z) :=
  if negb (fs_mode s =? FS_MODE_FAT32) then Ret (s, -1) else
  match open_at s fd with
  | None => Ret (s, -1)
  | Some f =>
      if buf =? 0 then Ret (s, -1) else
      if (Z.land (flags f) FS_O_WRONLY =? 0) && negb (Z.land (flags f) FS_O_RDWR =? FS_O_RDWR) then Ret (s, -1) else
      let '(s, first) := if first_cluster f =? 0 then alloc_cluster s else (s, first_cluster f) in
      let f := FsOpen (used f) (dir_entry_offset f) first (fsize f) (pos f) (flags f) in
      if first =? 0 then Ret (set_open s fd f, -1) else
      '(s, f, done) ← write_loop (Z.to_nat len) s f buf len 0;
      let e := fs_data s + dir_entry_offset f in
      let m := wr32 (entry_set_first_cluster (ram s) e (first_cluster f)) (e + 28) (fsize f) in
      Ret (set_open (set_ram s m) fd f, s64 done)
  end.

Definition fs_lseek_fd (s : fs) (fd offset whence : Z) : fs * Z :=
  if negb (fs_mode s =? FS_MODE_FAT32) then (s, -1) else
  match open_at s fd with
  | None => (s, -1)
  | Some f =>
      let base := if whence =? FS_SEEK_SET then Some 0
                  else if whence =? FS_SEEK_CUR then Some (pos f)
                  else if whence =? FS_SEEK_END then Some (fsize f) else None in
      match base with
      | None => (s, -1)
      | Some base =>
          let next := s64 (base + offset) in
          if next <? 0 then (s, -1) else (set_open s fd (set_pos f (u32 next)), next)
      end
  end.

Definition fs_close (s : fs) (fd : Z) : fs * Z :=
  match open_at s fd with None => (s, -1) | Some _ => (set_open s fd zero_open, 0) end.

Definition fs_file_size (s : fs) (fd : Z) : Z :=
  if negb (fs_mode s =? FS_MODE_FAT32) then -1
  else match open_at s fd with None => -1 | Some f => fsize f end.
