(* ===== verification/Fat32Proofs.v ===== *)
(** * kernel/fs.c: theorems

    The volume geometry accepted at mount keeps every cluster inside the
    volume; every operation confines its writes to the volume; the walks over
    the allocation table end; the table entries written are read back. *)

From Stdlib Require Import ZArith Lia.
From stdpp Require Import base numbers gmap strings fin_maps option list.
From S2P Require Import Prelude MemUtils Fat32.

Local Open Scope Z_scope.

(** ** Little-endian fields *)

Lemma rd16_sum m p : rd16 m p = rd m p + 256 * rd m (p + 1).
Proof.
  unfold rd16. rewrite lor_shiftl_add by (pose proof (rd_range m p); lia). lia.
Qed.
Lemma rd32_sum m p :
  rd32 m p = rd m p + 256 * rd m (p + 1) + 65536 * rd m (p + 2) + 16777216 * rd m (p + 3).
Proof.
  unfold rd32. pose proof (rd_range m p). pose proof (rd_range m (p + 1)). pose proof (rd_range m (p + 2)).
  rewrite (lor_shiftl_add _ _ 8) by lia. rewrite (lor_shiftl_add _ _ 16) by lia.
  rewrite (lor_shiftl_add _ _ 24) by lia. lia.
Qed.
Lemma rd16_range m p : 0 <= rd16 m p < 65536.
Proof. rewrite rd16_sum. pose proof (rd_range m p). pose proof (rd_range m (p + 1)). lia. Qed.
Lemma rd32_range m p : 0 <= rd32 m p < 4294967296.
Proof.
  rewrite rd32_sum. pose proof (rd_range m p). pose proof (rd_range m (p + 1)).
  pose proof (rd_range m (p + 2)). pose proof (rd_range m (p + 3)). lia.
Qed.

Lemma rd_wr32 m p v x :
  rd (wr32 m p v) x = if decide (p <= x < p + 4) then u8 (Z.shiftr v (8 * (x - p))) else rd m x.
Proof.
  unfold wr32. destruct (decide (p <= x < p + 4)) as [Hin|Hout].
  - assert (x = p \/ x = p + 1 \/ x = p + 2 \/ x = p + 3) as [->|[->|[->| ->]]] by lia;
      repeat (rewrite rd_wr_ne by lia); rewrite rd_wr_eq; f_equal.
    + by rewrite Z.sub_diag, Z.shiftr_0_r.
    + by replace (8 * (p + 1 - p)) with 8 by lia.
    + by replace (8 * (p + 2 - p)) with 16 by lia.
    + by replace (8 * (p + 3 - p)) with 24 by lia.
  - repeat (rewrite rd_wr_ne by lia). done.
Qed.
Lemma rd_wr16_out m p v x : x < p \/ p + 2 <= x -> rd (wr16 m p v) x = rd m x.
Proof. intros Hx. unfold wr16. by repeat (rewrite rd_wr_ne by lia). Qed.

Lemma rd32_wr32 m p v : rd32 (wr32 m p v) p = u32 v.
Proof.
  rewrite rd32_sum, !rd_wr32, !decide_True by lia.
  replace (8 * (p - p)) with 0 by lia. replace (8 * (p + 1 - p)) with 8 by lia.
  replace (8 * (p + 2 - p)) with 16 by lia. replace (8 * (p + 3 - p)) with 24 by lia.
  rewrite !Z.shiftr_div_pow2 by lia. change (2 ^ 0) with 1. change (2 ^ 8) with 256.
  change (2 ^ 16) with 65536. change (2 ^ 24) with 16777216. mlia.
Qed.
Lemma rd32_wr32_ne m p q v : q + 4 <= p \/ p + 4 <= q -> rd32 (wr32 m p v) q = rd32 m q.
Proof. intros H. rewrite !rd32_sum, !rd_wr32, !decide_False by lia. done. Qed.

(** ** Geometry *)

Definition geometry_ok (s : fs) : Prop :=
  let g := fat s in
  512 <= bytes_per_sector g < 65536 /\ 1 <= sectors_per_cluster g < 256 /\ 0 < reserved_sectors g < 65536 /\
  1 <= fat_count g < 256 /\ 0 < sectors_per_fat g < 4294967296 /\
  0 <= first_data_sector g /\ 0 < total_clusters g /\
  first_data_sector g + total_clusters g * sectors_per_cluster g <= total_sectors g < 4294967296 /\
  total_sectors g * bytes_per_sector g <= fs_size s /\ fs_data s <> 0 /\ 2 <= root_cluster g < 4294967296.

Lemma fat32_parse_geometry s info :
  fat32_parse s = Some info -> 0 <= fs_size s < 18446744073709551616 ->
  geometry_ok (Fs (ram s) (fs_data s) (fs_size s) FS_MODE_FAT32 info (open_files s) (out s)).
Proof.
  intros Hp Hsz. unfold fat32_parse in Hp. set (b := fs_data s) in *. set (m := ram s) in *.
  destruct (negb (range_ok s 0 512)) eqn:Hr; [done|].
  apply negb_false_iff in Hr. unfold range_ok in Hr. apply andb_true_iff in Hr as [[Hd _]%andb_true_iff _].
  apply negb_true_iff, Z.eqb_neq in Hd.
  case_test_in Hp; [done|]. clear Htest.
  case_test_in Hp; [done|]. repeat (apply orb_false_iff in Htest as [Htest ?]).
  prop_bools. case_test_in Hp; [done|]. case_test_in Hp; [done|]. case_test_in Hp; [done|].
  repeat match goal with H : (_ || _)%bool = false |- _ => apply orb_false_iff in H as [H ?] end.
  prop_bools. injection Hp as <-.
  pose proof (rd16_range m (b + 11)). pose proof (rd_range m (b + 13)). pose proof (rd16_range m (b + 14)).
  pose proof (rd_range m (b + 16)). pose proof (rd32_range m (b + 32)). pose proof (rd32_range m (b + 36)).
  pose proof (rd32_range m (b + 44)). pose proof (u32_range (rd16 m (b + 14) + u32 (rd m (b + 16) * rd32 m (b + 36)))).
  rewrite u64_small in * by nia.
  set (first := u32 (rd16 m (b + 14) + _)) in *. set (spc := rd m (b + 13)) in *. set (total := rd32 m (b + 32)) in *.
  assert (0 <= (total - first) / spc /\ (total - first) / spc * spc <= total - first) as [Hq1 Hq2].
  { split; [apply Z.div_pos; lia|]. rewrite Z.mul_comm. apply Z.mul_div_le. lia. }
  unfold geometry_ok. cbn. split_and!; try lia; done.
Qed.

Lemma fs_mount_geometry s storage size :
  0 <= size < 18446744073709551616 ->
  fs_mode (fs_mount s storage size) = FS_MODE_FAT32 -> geometry_ok (fs_mount s storage size).
Proof.
  intros Hs. unfold fs_mount. destruct (storage =? 0) eqn:E0; [done|].
  set (s0 := Fs (ram s) storage size _ zero_fat _ _). destruct (fat32_parse s0) as [info|] eqn:Hp; [|done].
  intros _. apply fat32_parse_geometry in Hp; [|done]. done.
Qed.

Definition valid_cluster (s : fs) (c : Z) : Prop := 2 <= c < cluster_limit s.

Lemma cluster_size_range s : geometry_ok s -> 512 <= cluster_size s < 16777216.
Proof. intros (? & ? & _). unfold cluster_size. nia. Qed.

Lemma cluster_offset_spec s c :
  geometry_ok s -> fs_size s < 18446744073709551616 -> valid_cluster s c ->
  cluster_offset s c = (first_data_sector (fat s) + (c - 2) * sectors_per_cluster (fat s)) * bytes_per_sector (fat s) /\
  0 <= cluster_offset s c /\ cluster_offset s c + cluster_size s <= fs_size s.
Proof.
  intros (Hbps & Hspc & _ & _ & _ & Hfd & Hc & Hdata & Hvol & _) Hsz [Hc2 Hcl]. unfold cluster_offset.
  rewrite (proj2 (Z.ltb_ge c 2)), (proj2 (Z.leb_gt (cluster_limit s) c)) by lia. cbn [orb].
  assert (c - 2 + 1 <= total_clusters (fat s)) as Hb.
  { assert (cluster_limit s <= total_clusters (fat s) + 2) by (unfold cluster_limit; mlia). lia. }
  set (g := fat s) in *. set (spc := sectors_per_cluster g) in *. set (bps := bytes_per_sector g) in *.
  assert ((c - 2 + 1) * spc <= total_clusters g * spc) as Hmul by nia.
  assert (first_data_sector g + (c - 2) * spc + spc <= total_sectors g) as Hend by nia.
  rewrite (u32_small ((c - 2) * spc)) by nia. rewrite (u32_small (first_data_sector g + _)) by nia.
  assert ((first_data_sector g + (c - 2) * spc + spc) * bps <= total_sectors g * bps) by nia.
  rewrite u64_small by nia. unfold cluster_size. fold g spc bps. split_and!; [done|nia|nia].
Qed.

Lemma range_ok_true s off len :
  range_ok s off len = true <-> fs_data s <> 0 /\ off <= fs_size s /\ off + len <= fs_size s.
Proof.
  unfold range_ok. rewrite !andb_true_iff, negb_true_iff, Z.eqb_neq, !Z.leb_le. lia.
Qed.

Lemma cluster_range_ok s c :
  geometry_ok s -> fs_size s < 18446744073709551616 -> valid_cluster s c ->
  range_ok s (cluster_offset s c) (cluster_size s) = true.
Proof.
  intros Hg Hsz Hc. destruct (cluster_offset_spec s c Hg Hsz Hc) as (_ & ? & ?).
  pose proof (cluster_size_range s Hg). apply range_ok_true. destruct Hg as (_ & _ & _ & _ & _ & _ & _ & _ & _ & ? & _). lia.
Qed.

(** ** Confinement

    [confined s s']: the step from [s] to [s'] wrote only inside the volume
    and changed nothing but memory. *)

Definition in_volume (s : fs) (x : Z) : Prop := fs_data s <= x < fs_data s + fs_size s.

Definition confined (s s' : fs) : Prop :=
  fs_data s' = fs_data s /\ fs_size s' = fs_size s /\ fs_mode s' = fs_mode s /\ fat s' = fat s /\
  open_files s' = open_files s /\ forall x, ~ in_volume s x -> rd (ram s') x = rd (ram s) x.

Lemma confined_refl s : confined s s.
Proof. done. Qed.
Lemma confined_trans s1 s2 s3 : confined s1 s2 -> confined s2 s3 -> confined s1 s3.
Proof.
  intros (D1 & S1 & M1 & F1 & O1 & R1) (D2 & S2 & M2 & F2 & O2 & R2). split_and!; try congruence.
  intros x Hx. rewrite R2; [by apply R1|]. unfold in_volume in *. by rewrite D1, S1.
Qed.
Lemma confined_ram s m :
  (forall x, ~ in_volume s x -> rd m x = rd (ram s) x) -> confined s (set_ram s m).
Proof. done. Qed.
Lemma confined_geometry s s' : confined s s' -> geometry_ok s -> geometry_ok s'.
Proof. intros (D & S & _ & F & _). unfold geometry_ok. by rewrite D, S, F. Qed.
Lemma confined_limit s s' : confined s s' -> cluster_limit s' = cluster_limit s /\ cluster_size s' = cluster_size s /\
  (forall c, cluster_offset s' c = cluster_offset s c) /\ (forall c i, fat_entry_offset s' c i = fat_entry_offset s c i) /\
  (forall off len, range_ok s' off len = range_ok s off len).
Proof.
  intros (D & S & _ & F & _). unfold cluster_limit, cluster_size, cluster_offset, fat_entry_offset, range_ok, cluster_limit.
  by rewrite D, S, F.
Qed.

Lemma confined_wr32 s off v :
  0 <= off -> range_ok s off 4 = true -> confined s (set_ram s (wr32 (ram s) (fs_data s + off) v)).
Proof.
  intros Ho (_ & _ & Hr)%range_ok_true. apply confined_ram. intros x Hx. rewrite rd_wr32, decide_False; [done|].
  unfold in_volume in Hx. lia.
Qed.

Lemma fat_entry_nonneg s c i : 0 <= fat_entry_offset s c i.
Proof. unfold fat_entry_offset. apply u64_range. Qed.

Lemma fat_set_loop_confined n s c v i : confined s (fat_set_loop n s c v i).1.
Proof.
  revert s i. induction n as [|n IH]; intros s i; cbn [fat_set_loop]; [done|].
  destruct (range_ok s (fat_entry_offset s c i) 4) eqn:Hr; cbn [negb]; [|done].
  eapply confined_trans; [|apply IH]. apply confined_wr32; [apply fat_entry_nonneg|done].
Qed.
Lemma fat_set_confined s c v : confined s (fat_set s c v).1.
Proof. apply fat_set_loop_confined. Qed.

Lemma cluster_offset_nonneg s c : 0 <= fs_size s -> 0 <= cluster_offset s c.
Proof. intros Hs. unfold cluster_offset. case_match; [done|]. apply u64_range. Qed.

Lemma alloc_scan_confined n s c : 0 <= fs_size s -> confined s (alloc_scan n s c).1.
Proof.
  intros Hs. revert c. induction n as [|n IH]; intros c; cbn [alloc_scan]; [done|].
  destruct (fat_get s c =? 0); [|apply IH].
  pose proof (fat_set_confined s c FAT32_EOC_MARK) as Hf. destruct (fat_set s c FAT32_EOC_MARK) as [s1 r]. cbn in Hf.
  destruct (negb (r =? 0)); [done|]. destruct (range_ok s1 (cluster_offset s1 c) (cluster_size s1)) eqn:Hr; cbn [negb]; [|done].
  eapply confined_trans; [exact Hf|]. apply confined_ram. intros x Hx. rewrite rd_memset, decide_False; [done|].
  apply range_ok_true in Hr as (_ & _ & Hr). unfold in_volume in Hx.
  assert (0 <= cluster_offset s1 c) by (apply cluster_offset_nonneg; by rewrite (proj1 (proj2 Hf))). lia.
Qed.
Lemma alloc_cluster_confined s : 0 <= fs_size s -> confined s (alloc_cluster s).1.
Proof. intros Hs. by apply alloc_scan_confined. Qed.

Lemma chain_loop_confined k s cur grow : 0 <= fs_size s -> confined s (chain_loop k s cur grow).1.
Proof.
  revert s cur. induction k as [|k IH]; intros s cur Hs; cbn [chain_loop]; [done|].
  destruct (is_eoc (fat_get s cur)); [destruct grow; cbn [negb]; [|done]|].
  - pose proof (alloc_cluster_confined s Hs) as Ha. destruct (alloc_cluster s) as [s1 next]. cbn in Ha.
    destruct (next =? 0); [done|].
    pose proof (fat_set_confined s1 cur next) as Hf. destruct (fat_set s1 cur next) as [s2 r]. cbn in Hf.
    assert (confined s s2) as H2 by (by eapply confined_trans).
    destruct (r =? 0); cbn [negb]; [|done]. case_match; [done|].
    eapply confined_trans; [exact H2|]. apply IH. by rewrite (proj1 (proj2 H2)).
  - cbn [negb]. case_match; [done|]. by apply IH.
Qed.
Lemma chain_cluster_confined s first index grow : 0 <= fs_size s -> confined s (chain_cluster s first index grow).1.
Proof. intros Hs. unfold chain_cluster. case_match; [done|]. by apply chain_loop_confined. Qed.

(** ** Freeing a chain ends *)

Lemma fat_get_range s c : 0 <= fat_get s c < 268435456.
Proof.
  unfold fat_get. case_match; [unfold FAT32_EOC_MARK; lia|].
  change 0x0FFFFFFF with (Z.ones 28). rewrite Z.land_ones by lia. apply Z.mod_pos_bound. lia.
Qed.
Lemma land_entry v : Z.land v 0x0FFFFFFF = v mod 268435456.
Proof. change 0x0FFFFFFF with (Z.ones 28). by rewrite Z.land_ones by lia. Qed.

(** [zeroed m m']: bytes of [m] may have become zero in [m']. *)
Definition zeroed (m m' : gmap Z Z) : Prop := forall x, rd m' x = rd m x \/ rd m' x = 0.

Lemma zeroed_entry m m' p : zeroed m m' -> rd32 m p mod 268435456 = 0 -> rd32 m' p mod 268435456 = 0.
Proof.
  intros Hz. rewrite !rd32_sum.
  pose proof (rd_range m p). pose proof (rd_range m (p + 1)). pose proof (rd_range m (p + 2)). pose proof (rd_range m (p + 3)).
  intros Hmod. assert (rd m p = 0 /\ rd m (p + 1) = 0 /\ rd m (p + 2) = 0 /\ rd m (p + 3) mod 16 = 0) as (E0 & E1 & E2 & E3) by mlia.
  destruct (Hz p), (Hz (p + 1)), (Hz (p + 2)), (Hz (p + 3)); mlia.
Qed.

Lemma fat_set_loop_zeroed n s c i : zeroed (ram s) (ram (fat_set_loop n s c 0 i).1).
Proof.
  revert s i. induction n as [|n IH]; intros s i; cbn [fat_set_loop]; [intros x; by left|].
  case_match; [intros x; by left|]. intros x. destruct (IH (set_ram s (wr32 (ram s) (fs_data s + fat_entry_offset s c i) (Z.land 0 0x0FFFFFFF))) (i + 1) x) as [->|]; [|by right].
  cbn [ram set_ram]. rewrite rd_wr32. destruct (decide _); [right|by left]. rewrite Z.land_0_l, Z.shiftr_0_l. done.
Qed.

Lemma fat_get_keeps_zero s s' c : confined s s' -> zeroed (ram s) (ram s') -> fat_get s c = 0 -> fat_get s' c = 0.
Proof.
  intros Hc Hz. unfold fat_get. destruct (confined_limit s s' Hc) as (_ & _ & _ & -> & ->). rewrite (proj1 Hc).
  case_match; [done|]. rewrite !land_entry. by apply zeroed_entry.
Qed.

Lemma fat_set_zero s c : 1 <= fat_count (fat s) -> is_eoc (fat_get s c) = false -> fat_get (fat_set s c 0).1 c = 0.
Proof.
  intros Hn He. unfold fat_set. destruct (Z.to_nat (fat_count (fat s))) as [|n] eqn:En; [lia|]. cbn [fat_set_loop].
  unfold fat_get in He. destruct (range_ok s (fat_entry_offset s c 0) 4) eqn:Hr; cbn [negb] in *; [|by vm_compute in He].
  set (s1 := set_ram s _).
  assert (confined s s1) as H1 by (apply confined_wr32; [apply fat_entry_nonneg|done]).
  apply (fat_get_keeps_zero s1); [apply fat_set_loop_confined|apply fat_set_loop_zeroed|].
  unfold fat_get. destruct (confined_limit s s1 H1) as (_ & _ & _ & -> & ->). rewrite Hr. cbn [negb].
  unfold s1. cbn [ram fs_data set_ram]. rewrite rd32_wr32, Z.land_0_l. done.
Qed.

(** The clusters of the volume in use. *)
Definition busy (s : fs) : list Z := filter (fun c => fat_get s c <> 0) (seqZ 2 (cluster_limit s - 2)).

Lemma length_filter_lt {A} (P Q : A -> Prop) `{!forall x, Decision (P x), !forall x, Decision (Q x)} (l : list A) x :
  (forall y, Q y -> P y) -> x ∈ l -> P x -> ~ Q x -> (length (filter Q l) < length (filter P l))%nat.
Proof.
  intros Hsub Hx HP HQ. apply list_elem_of_split in Hx as (l1 & l2 & ->). rewrite !filter_app, !length_app.
  rewrite (filter_cons_True P), (filter_cons_False Q) by done. cbn.
  assert (forall l, (length (filter Q l) <= length (filter P l))%nat) as Hle.
  { intros l. induction l as [|y l IH]; [done|]. rewrite !filter_cons. destruct (decide (Q y)), (decide (P y)); cbn; try lia.
    exfalso. auto. }
  pose proof (Hle l1). pose proof (Hle l2). lia.
Qed.

Lemma free_loop_spec fuel s cur :
  1 <= fat_count (fat s) -> (length (busy s) < fuel)%nat ->
  exists s', free_loop fuel s cur = Ret s' /\ confined s s' /\ zeroed (ram s) (ram s') /\
    (valid_cluster s cur -> is_eoc (fat_get s cur) = false -> fat_get s' cur = 0).
Proof.
  revert s cur. induction fuel as [|fuel IH]; intros s cur Hn Hf; [lia|]. cbn [free_loop].
  destruct ((2 <=? cur) && (cur <? cluster_limit s)) eqn:Hv.
  2: { exists s. split_and!; try done; [intros x; by left|]. intros [H1 H2] _.
       rewrite (proj2 (Z.leb_le _ _) H1), (proj2 (Z.ltb_lt _ _) H2) in Hv. done. }
  apply andb_true_iff in Hv as [Hv1%Z.leb_le Hv2%Z.ltb_lt].
  pose proof (fat_set_confined s cur 0) as Hc. pose proof (fat_set_loop_zeroed (Z.to_nat (fat_count (fat s))) s cur 0) as Hz.
  fold (fat_set s cur 0) in Hz. destruct (is_eoc (fat_get s cur)) eqn:He.
  { eexists. split_and!; try done. }
  pose proof (fat_set_zero s cur Hn He) as H0. set (s1 := (fat_set s cur 0).1) in *.
  destruct (decide (fat_get s cur = 0)) as [Hz0|Hnz].
  { (* the walk has come back to a cluster already freed *)
    rewrite Hz0. assert (free_loop fuel s1 0 = Ret s1) as -> by (by destruct fuel).
    exists s1. by split_and!. }
  destruct (IH s1 (fat_get s cur)) as (s' & Hrun & Hc' & Hz' & _).
  { by rewrite (proj1 (proj2 (proj2 (proj2 Hc)))). }
  { assert (length (busy s1) < length (busy s))%nat; [|lia]. unfold busy.
    rewrite (proj1 (confined_limit s s1 Hc)). apply (length_filter_lt _ _ _ cur).
    - intros y Hy Hs. apply Hy. by apply (fat_get_keeps_zero s).
    - apply elem_of_seqZ. lia.
    - done.
    - intros Hne. done. }
  exists s'. split_and!; [done| | |].
  - by eapply confined_trans.
  - intros x. destruct (Hz' x) as [->|]; [apply Hz|by right].
  - intros _ _. by apply (fat_get_keeps_zero s1).
Qed.

Lemma busy_length s : 2 <= cluster_limit s -> (length (busy s) < Z.to_nat (cluster_limit s))%nat.
Proof. intros Hl. unfold busy. pose proof (length_filter (fun c => fat_get s c <> 0) (seqZ 2 (cluster_limit s - 2))) as H.
  rewrite length_seqZ in H. lia. Qed.

Lemma free_chain_ok s first :
  1 <= fat_count (fat s) -> 0 <= first ->
  exists s', free_chain s first = Ret s' /\ confined s s' /\
    (valid_cluster s first -> is_eoc (fat_get s first) = false -> fat_get s' first = 0).
Proof.
  intros Hn Hf. unfold free_chain. destruct (decide (2 <= cluster_limit s)) as [Hl|Hl].
  - destruct (free_loop_spec _ s first Hn (busy_length s Hl)) as (s' & ? & ? & _ & ?). by exists s'.
  - assert ((2 <=? first) && (first <? cluster_limit s) = false) as Hv.
    { apply andb_false_iff. destruct (Z.leb_spec 2 first); [right|by left]. apply Z.ltb_ge. lia. }
    exists s. split_and!; [|done|unfold valid_cluster; lia]. destruct (Z.to_nat (cluster_limit s)); cbn; by rewrite Hv.
Qed.

(** ** Writing through a descriptor *)

Definition open_ok (s : fs) (f : fs_open_t) : Prop :=
  0 <= dir_entry_offset f /\ dir_entry_offset f + 32 <= fs_size s /\ 0 <= pos f.

Record fs_ok (s : fs) : Prop := FsOk {
  fo_geometry : geometry_ok s;
  fo_mode : fs_mode s = FS_MODE_FAT32;
  fo_size : 0 <= fs_size s <= 4294967296;
  fo_opens : length (open_files s) = FS_MAX_OPEN;
  fo_open : forall fd f, open_files s !! fd = Some f -> used f = true -> open_ok s f
}.

Lemma confined_ok s s' : confined s s' -> fs_ok s -> fs_ok s'.
Proof.
  intros Hc [Hg Hm Hs Hl Ho]. pose proof (confined_geometry _ _ Hc Hg). destruct Hc as (D & S & M & F & O & _).
  split; [done|congruence|by rewrite S|by rewrite O|]. intros fd f Hf Hu. rewrite O in Hf.
  destruct (Ho fd f Hf Hu) as (? & ? & ?). unfold open_ok. rewrite S. done.
Qed.

Lemma chunk_positive s f len done :
  geometry_ok s -> 0 <= pos f -> done < len ->
  let csz := cluster_size s in
  let chunk := if len - done <? csz - u32 (pos f mod csz) then len - done else csz - u32 (pos f mod csz) in
  0 < chunk <= len - done.
Proof.
  intros Hg Hp Hd csz chunk. pose proof (cluster_size_range s Hg) as Hc. fold csz in Hc.
  pose proof (Z.mod_pos_bound (pos f) csz ltac:(lia)). unfold chunk. rewrite u32_small by lia.
  destruct (Z.ltb_spec (len - done) (csz - pos f mod csz)); lia.
Qed.

Lemma write_loop_spec fuel s f buf len done :
  geometry_ok s -> 0 <= fs_size s < 18446744073709551616 -> 0 <= pos f -> 0 <= done -> (Z.to_nat (len - done) <= fuel)%nat ->
  exists s' f' d, write_loop fuel s f buf len done = Ret (s', f', d) /\ confined s s' /\
    dir_entry_offset f' = dir_entry_offset f /\ used f' = used f /\ 0 <= pos f' /\ done <= d <= Z.max done len.
Proof.
  revert s f done. induction fuel as [|fuel IH]; intros s f done Hg Hs Hp Hd Hf; cbn [write_loop].
  { rewrite (proj2 (Z.leb_le _ _)) by lia. exists s, f, done. split_and!; try done; lia. }
  destruct (Z.leb_spec len done) as [Hle|Hlt]; [exists s, f, done; split_and!; try done; lia|].
  pose proof (chain_cluster_confined s (first_cluster f) (u32 (pos f / cluster_size s)) true ltac:(lia)) as Hc.
  destruct (chain_cluster s (first_cluster f) (u32 (pos f / cluster_size s)) true) as [s1 c]. cbn in Hc.
  destruct (c =? 0); [exists s1, f, done; split_and!; try done; lia|].
  pose proof (chunk_positive s f len done Hg Hp Hlt) as Hch. cbn zeta in Hch.
  set (chunk := if _ <? _ then _ else _) in *.
  destruct (range_ok s1 (cluster_offset s1 c + u32 (pos f mod cluster_size s)) chunk) eqn:Hr; cbn [negb];
    [|exists s1, f, done; split_and!; try done; lia].
  apply range_ok_true in Hr as (_ & _ & Hr).
  assert (0 <= cluster_offset s1 c) by (apply cluster_offset_nonneg; rewrite (proj1 (proj2 Hc)); lia).
  pose proof (u32_range (pos f mod cluster_size s)).
  set (s2 := set_ram s1 _). assert (confined s s2) as Hc2.
  { eapply confined_trans; [exact Hc|]. apply confined_ram. intros x Hx. apply rd_memcpy_out. unfold in_volume in Hx. lia. }
  set (f2 := FsOpen _ _ _ _ _ _).
  destruct (IH s2 f2 (done + chunk)) as (s' & f' & d & -> & Hc' & He & Hu & Hp' & Hd').
  - by apply (confined_geometry _ _ Hc2).
  - by rewrite (proj1 (proj2 Hc2)).
  - cbn. apply u32_range.
  - lia.
  - lia.
  - exists s', f', d. split_and!; try done; [by eapply confined_trans|lia|lia].
Qed.

Lemma fs_open_at_Some s fd f :
  open_at s fd = Some f <-> 0 <= fd < Z.of_nat FS_MAX_OPEN /\ open_files s !! Z.to_nat fd = Some f /\ used f = true.
Proof.
  unfold open_at. destruct (Z.ltb_spec fd 0); cbn [orb]; [split; [done|lia]|].
  destruct (Z.leb_spec (Z.of_nat FS_MAX_OPEN) fd); [split; [done|lia]|].
  destruct (open_files s !! Z.to_nat fd) as [g|]; cbn; [|split; [done|by intros (_ & ? & _)]].
  destruct (used g) eqn:E; (split; [try done; by intros [= <-]|]); intros (_ & [= <-] & ?); [done|congruence].
Qed.

(** Only memory of the volume and the open-file table change. *)
Definition volume_step (s s' : fs) : Prop :=
  fs_data s' = fs_data s /\ fs_size s' = fs_size s /\ fat s' = fat s /\
  forall x, ~ in_volume s x -> rd (ram s') x = rd (ram s) x.

Lemma fs_set_open_ok s fd f : fs_ok s -> open_ok s f -> fs_ok (set_open s fd f).
Proof.
  intros [? ? ? ? Ho] Hf. split; try done.
  - cbn. by rewrite length_insert.
  - intros k g Hk Hu. cbn in Hk. apply list_lookup_insert_Some in Hk as [(<- & <- & _)|(_ & Hk)]; [done|by eapply Ho].
Qed.
Lemma volume_step_open s s' fd f : confined s s' -> volume_step s (set_open s' fd f).
Proof. intros (D & S & _ & F & _ & R). done. Qed.

Lemma confined_entry s off c v :
  0 <= off -> off + 32 <= fs_size s ->
  confined s (set_ram s (wr32 (entry_set_first_cluster (ram s) (fs_data s + off) c) (fs_data s + off + 28) v)).
Proof.
  intros Ho Hs. apply confined_ram. intros x Hx. unfold in_volume in Hx. rewrite rd_wr32, decide_False by lia.
  unfold entry_set_first_cluster. rewrite !rd_wr16_out by lia. done.
Qed.

Lemma fs_write_fd_ok s fd buf len :
  fs_ok s -> 0 <= len < 9223372036854775808 ->
  exists s' r, fs_write_fd s fd buf len = Ret (s', r) /\ fs_ok s' /\ volume_step s s' /\ -1 <= r <= len.
Proof.
  intros Hok Hlen. unfold fs_write_fd. rewrite (fo_mode s Hok). cbn [Z.eqb negb FS_MODE_FAT32 Pos.eqb].
  destruct (open_at s fd) as [f|] eqn:Hf; [|exists s, (-1); split_and!; try done; lia].
  destruct (buf =? 0); [exists s, (-1); split_and!; try done; lia|].
  case_match; [exists s, (-1); split_and!; try done; lia|].
  apply fs_open_at_Some in Hf as (Hr & Hf & Hu). pose proof (fo_open s Hok _ _ Hf Hu) as (He0 & He & Hp).
  pose proof (fo_size s Hok) as Hsz.
  assert (exists s1 first, (if first_cluster f =? 0 then alloc_cluster s else (s, first_cluster f)) = (s1, first) /\ confined s s1)
    as (s1 & first & -> & Hc1).
  { case_match; [|by eexists _, _]. pose proof (alloc_cluster_confined s ltac:(lia)) as Hc. destruct (alloc_cluster s) as [s1 c].
    by eexists _, _. }
  set (f1 := FsOpen (used f) (dir_entry_offset f) first (fsize f) (pos f) (flags f)).
  pose proof (confined_ok _ _ Hc1 Hok) as Hok1. pose proof (proj1 (proj2 Hc1)) as Es1.
  destruct (first =? 0).
  { eexists _, _. split; [done|]. split; [apply fs_set_open_ok; [done|]; unfold open_ok; rewrite Es1; done|].
    split; [by apply volume_step_open|lia]. }
  destruct (write_loop_spec (Z.to_nat len) s1 f1 buf len 0) as (s2 & f2 & d & -> & Hc2 & Hde & Hus & Hp2 & Hd);
    [apply Hok1|rewrite Es1; lia|done|lia|lia|]. cbn [mbind outcome_bind]. cbn [dir_entry_offset f1] in Hde. rewrite Hde.
  assert (confined s s2) as Hc12 by (by eapply confined_trans). pose proof (proj1 (proj2 Hc12)) as Es2.
  set (s3 := set_ram s2 _). assert (confined s s3) as Hc3.
  { eapply confined_trans; [exact Hc12|]. apply confined_entry; [done|by rewrite Es2]. }
  eexists _, _. split; [done|]. split; [|split].
  - apply fs_set_open_ok; [by apply (confined_ok s)|]. unfold open_ok. rewrite Hde, (proj1 (proj2 Hc3)). done.
  - by apply volume_step_open.
  - rewrite s64_small; lia.
Qed.

(** ** The root directory *)

(** An offset of a directory entry inside the volume, or 0 for none. *)
Definition entry_off (s : fs) (o : Z) : Prop := 0 <= o /\ o + 32 <= fs_size s.

Definition dir_result_ok (s : fs) (r : dir_result) : Prop :=
  match r with
  | Found e fr => entry_off s e /\ (fr = 0 \/ entry_off s fr)
  | Missing fr => fr = 0 \/ entry_off s fr
  end.

Lemma scan_cluster_ok n s nm at_ fr :
  fs_size s <= 4294967296 -> 0 <= at_ -> at_ + 32 * Z.of_nat n <= fs_size s -> fr = 0 \/ entry_off s fr ->
  match scan_cluster n s nm at_ fr with
  | inl r => dir_result_ok s r
  | inr fr' => fr' = 0 \/ entry_off s fr'
  end.
Proof.
  intros Hs. revert at_ fr. induction n as [|n IH]; intros at_ fr Ha Hn Hfr; cbn [scan_cluster]; [done|].
  assert (u32 at_ = at_) as Hu by (apply u32_small; lia).
  assert (entry_off s at_) as Hat by (unfold entry_off; lia).
  assert (note_free fr at_ = 0 \/ entry_off s (note_free fr at_)) as Hnote
    by (unfold note_free; rewrite Hu; case_match; [by right|done]).
  case_test; [exact Hnote|]. case_test; [apply IH; [lia|lia|done]|]. case_test; [apply IH; [lia|lia|done]|].
  case_test; [apply IH; [lia|lia|done]|]. case_test; [cbn; by rewrite Hu|apply IH; [lia|lia|done]].
Qed.

Lemma find_loop_ok fuel s nm c fr r :
  geometry_ok s -> fs_size s <= 4294967296 -> 0 <= fs_size s -> fr = 0 \/ entry_off s fr ->
  find_loop fuel s nm c fr = Ret r -> dir_result_ok s r.
Proof.
  intros Hg Hs Hs0. revert c fr. induction fuel as [|fuel IH]; intros c fr Hfr Hrun; cbn [find_loop] in Hrun.
  { case_match; [done|]. by injection Hrun as <-. }
  case_match eqn:Hv; [|by injection Hrun as <-].
  destruct (range_ok s (cluster_offset s c) (cluster_size s)) eqn:Hr; cbn [negb] in Hrun; [|by injection Hrun as <-].
  apply range_ok_true in Hr as (_ & _ & Hr). pose proof (cluster_size_range s Hg).
  pose proof (scan_cluster_ok (Z.to_nat (cluster_size s / 32)) s nm (cluster_offset s c) fr Hs (cluster_offset_nonneg s c Hs0)) as Hscan.
  rewrite Z2Nat.id in Hscan by (apply Z.div_pos; lia).
  specialize (Hscan ltac:(pose proof (Z.mul_div_le (cluster_size s) 32 ltac:(lia)); lia) Hfr).
  destruct (scan_cluster _ s nm (cluster_offset s c) fr) as [r'|fr']; [by injection Hrun as <-|].
  case_match; [by injection Hrun as <-|]. by apply (IH _ _ Hscan) in Hrun.
Qed.

(** The chain [l] from cluster [c]: it follows the table, its clusters are
    valid, and it ends. *)
Fixpoint chain_from (s : fs) (c : Z) (l : list Z) : Prop :=
  match l with
  | [] => ~ valid_cluster s c
  | x :: l => x = c /\ valid_cluster s c /\
      (if is_eoc (fat_get s c) then l = [] else chain_from s (fat_get s c) l)
  end.

Lemma chain_valid s c l x : chain_from s c l -> x ∈ l -> valid_cluster s x.
Proof.
  revert c. induction l as [|y l IH]; intros c Hc Hx; [by apply not_elem_of_nil in Hx|].
  destruct Hc as (-> & Hv & Hc). apply elem_of_cons in Hx as [->|Hx]; [done|].
  destruct (is_eoc (fat_get s c)); [subst l; by apply not_elem_of_nil in Hx|by eapply IH].
Qed.

Lemma chain_length s c l : NoDup l -> chain_from s c l -> (length l <= Z.to_nat (cluster_limit s - 2))%nat.
Proof.
  intros Hnd Hc. rewrite <- (length_seqZ 2 (cluster_limit s - 2)). apply submseteq_length, NoDup_submseteq; [done|].
  intros x Hx. apply elem_of_seqZ. destruct (chain_valid s c l x Hc Hx). lia.
Qed.

Lemma find_loop_total fuel s nm c fr l :
  chain_from s c l -> (length l <= fuel)%nat -> exists r, find_loop fuel s nm c fr = Ret r.
Proof.
  revert c fr l. induction fuel as [|fuel IH]; intros c fr l Hc Hl; cbn [find_loop];
    destruct ((2 <=? c) && (c <? cluster_limit s)) eqn:Hv; try by eexists.
  - apply andb_true_iff in Hv as [?%Z.leb_le ?%Z.ltb_lt]. destruct l as [|x l]; [exfalso; by apply Hc|cbn in Hl; lia].
  - case_match; [by eexists|]. case_match; [by eexists|]. destruct l as [|x l].
    { exfalso. apply Hc. apply andb_true_iff in Hv as [?%Z.leb_le ?%Z.ltb_lt]. done. }
    destruct Hc as (-> & _ & Hc). destruct (is_eoc (fat_get s c)); [by eexists|]. apply (IH _ _ l); [done|cbn in Hl; lia].
Qed.

Lemma find_dir_entry_ok s nm l :
  fs_ok s -> NoDup l -> chain_from s (root_cluster (fat s)) l ->
  exists r, find_dir_entry s nm = Ret r /\ dir_result_ok s r.
Proof.
  intros Hok Hnd Hc. pose proof (fo_size s Hok). pose proof (chain_length s _ l Hnd Hc).
  destruct (find_loop_total (Z.to_nat (cluster_limit s)) s nm _ 0 l Hc) as (r & Hr); [lia|].
  exists r. split; [done|]. eapply find_loop_ok; [apply Hok|lia|lia| |exact Hr]. by left.
Qed.

(** ** Opening *)

Lemma rd_store_name m e nm x : x < e \/ e + Z.of_nat (length nm) <= x -> rd (store_name m e nm) x = rd m x.
Proof.
  revert m e. induction nm as [|c nm IH]; intros m e Hx; [done|]. cbn [store_name length] in *.
  rewrite IH by lia. apply rd_wr_ne. lia.
Qed.

Lemma length_short_name p o a b e nm : short_name_loop p o a b e = Some nm -> length nm = length o.
Proof.
  revert o a b e. induction p as [|c p IH]; intros o a b e Hn; cbn [short_name_loop] in Hn.
  { case_match; [|done]. by injection Hn as <-. }
  repeat (case_match; try done); apply IH in Hn; by rewrite ?length_insert in Hn.
Qed.
Lemma length_make_short_name path nm : make_short_name path = Some nm -> length nm = 11%nat.
Proof.
  unfold make_short_name. destruct path as [p|]; [|done]. destruct (skip_slash p); [done|].
  intros Hn. apply length_short_name in Hn. by rewrite length_replicate in Hn.
Qed.

Lemma confined_new_entry s off nm :
  entry_off s off -> length nm = 11%nat -> confined s (set_ram s (new_entry (ram s) (fs_data s + off) nm)).
Proof.
  intros [Ho Hs] Hl. apply confined_ram. intros x Hx. unfold in_volume in Hx. unfold new_entry, entry_set_first_cluster.
  rewrite !rd_wr16_out by lia. rewrite rd_wr32, decide_False by lia. rewrite rd_wr_ne by lia.
  rewrite rd_store_name by lia. by rewrite rd_memset, decide_False by lia.
Qed.

Lemma entry_cluster_nonneg m e : 0 <= entry_first_cluster m e.
Proof.
  unfold entry_first_cluster. pose proof (rd16_range m (e + 20)). pose proof (rd16_range m (e + 26)).
  apply Z.lor_nonneg. split; [apply Z.shiftl_nonneg; lia|lia].
Qed.

Lemma fs_open_ok s path fl l :
  fs_ok s -> NoDup l -> chain_from s (root_cluster (fat s)) l ->
  exists s' r, fs_open s path fl = Ret (s', r) /\ fs_ok s' /\ volume_step s s'.
Proof.
  intros Hok Hnd Hch. unfold fs_open. rewrite (fo_mode s Hok). cbn [Z.eqb negb FS_MODE_FAT32 Pos.eqb].
  destruct (make_short_name path) as [nm|] eqn:Hnm; [|exists s, (-1); by split_and!].
  apply length_make_short_name in Hnm.
  destruct (find_dir_entry_ok s nm l Hok Hnd Hch) as (r & -> & Hr). cbn [mbind outcome_bind].
  pose proof (fo_size s Hok).
  assert (forall s1 o, confined s s1 -> entry_off s o ->
    exists s' r, match find_index (fun f => negb (used f)) (open_files s1) 0 with
    | None => Ret (s1, -1)
    | Some fd => Ret (set_open s1 (Z.of_nat fd) (FsOpen true o (entry_first_cluster (ram s1) (fs_data s1 + o))
        (rd32 (ram s1) (fs_data s1 + o + 28)) (if has fl FS_O_APPEND then rd32 (ram s1) (fs_data s1 + o + 28) else 0) fl), Z.of_nat fd)
    end = Ret (s', r) /\ fs_ok s' /\ volume_step s s') as Hfin.
  { intros s1 o Hc [Ho1 Ho2]. pose proof (confined_ok _ _ Hc Hok) as Hok1. destruct (find_index _ (open_files s1) 0) as [fd|].
    - eexists _, _. split; [done|]. split; [|by apply volume_step_open]. apply fs_set_open_ok; [done|].
      unfold open_ok. cbn. rewrite (proj1 (proj2 Hc)). split_and!; [done|done|]. case_match; [apply rd32_range|lia].
    - eexists _, _. split; [done|]. split; [done|]. destruct Hc as (D & S & _ & F & _ & R). done. }
  destruct r as [e fr|fr].
  - destruct Hr as [He _]. destruct (has fl FS_O_TRUNC); cbn [mbind outcome_bind]; [|by apply Hfin].
    assert (exists s1, (if entry_first_cluster (ram s) (fs_data s + e) =? 0 then Ret s
      else free_chain s (entry_first_cluster (ram s) (fs_data s + e))) = Ret s1 /\ confined s s1) as (s1 & -> & Hc1).
    { case_test; [exists s; split; [done|apply confined_refl]|].
      destruct (free_chain_ok s (entry_first_cluster (ram s) (fs_data s + e))) as (s1 & ? & ? & _);
        [apply (fo_geometry s Hok)|apply entry_cluster_nonneg|by exists s1]. }
    cbn [mbind outcome_bind]. apply Hfin; [|done]. eapply confined_trans; [exact Hc1|].
    rewrite <- (proj1 Hc1). destruct He. apply confined_entry; [done|]. by rewrite (proj1 (proj2 Hc1)).
  - destruct (negb (has fl FS_O_CREAT) || (fr =? 0)) eqn:Ec; cbn [mbind outcome_bind]; [exists s, (-1); by split_and!|].
    apply orb_false_iff in Ec as [_ Ec%Z.eqb_neq]. destruct Hr as [|Hr]; [done|].
    apply Hfin; [|done]. by apply confined_new_entry.
Qed.

(** ** Reading through a descriptor *)

Lemma read_loop_spec fuel s f buf len done :
  geometry_ok s -> 0 <= pos f -> 0 <= done -> (Z.to_nat (len - done) <= fuel)%nat ->
  exists s' f' d, read_loop fuel s f buf len done = Ret (s', f', d) /\
    s' = set_ram s (ram s') /\ dir_entry_offset f' = dir_entry_offset f /\ 0 <= pos f' /\ done <= d <= Z.max done len /\
    forall x, ~ (buf + done <= x < buf + len) -> rd (ram s') x = rd (ram s) x.
Proof.
  revert s f done. induction fuel as [|fuel IH]; intros s f done Hg Hp Hd Hf; cbn [read_loop].
  { rewrite (proj2 (Z.leb_le _ _)) by lia. exists s, f, done. split_and!; try done; try lia; by destruct s. }
  assert (exists s' f' d, Ret (s, f, done) = Ret (s', f', d) /\ s' = set_ram s (ram s') /\
    dir_entry_offset f' = dir_entry_offset f /\ 0 <= pos f' /\ done <= d <= Z.max done len /\
    forall x, ~ (buf + done <= x < buf + len) -> rd (ram s') x = rd (ram s) x) as Hstop
    by (exists s, f, done; split_and!; try done; try lia; by destruct s).
  destruct (Z.leb_spec len done) as [Hle|Hlt]; [done|].
  case_test; [done|]. pose proof (chunk_positive s f len done Hg Hp Hlt) as Hch. cbn zeta in Hch.
  set (chunk := if _ <? _ then _ else _) in *. case_test; [done|]. set (s1 := set_ram s _).
  destruct (IH s1 (set_pos f (u32 (pos f + chunk))) (done + chunk)) as (s' & f' & d & -> & Hs' & He & Hp' & Hd' & Hr).
  - done.
  - cbn. apply u32_range.
  - lia.
  - lia.
  - exists s', f', d. split_and!; try done; [lia|lia|]. intros x Hx. rewrite Hr by lia. unfold s1. cbn [ram set_ram].
    apply rd_memcpy_out. lia.
Qed.

(** ** Table entries *)

(** The copies of the allocation table lie in the volume, and cluster [c] has
    its entry in each of them. *)
Definition has_entry (s : fs) (c : Z) : Prop :=
  0 <= c /\ c * 4 + 4 <= sectors_per_fat (fat s) * bytes_per_sector (fat s).
Definition tables_ok (s : fs) : Prop :=
  (reserved_sectors (fat s) + fat_count (fat s) * sectors_per_fat (fat s)) * bytes_per_sector (fat s) <= fs_size s /\
  0 <= fs_size s < 18446744073709551616.

Lemma entry_place s c i :
  geometry_ok s -> tables_ok s -> has_entry s c -> 0 <= i < fat_count (fat s) ->
  fat_entry_offset s c i = (reserved_sectors (fat s) + i * sectors_per_fat (fat s)) * bytes_per_sector (fat s) + c * 4 /\
  fat_entry_offset s c i + 4 <= fs_size s.
Proof.
  intros (Hb & _ & Hrs & Hn & Hspf & _) (Ht & Hsz) (Hc & Hce) Hi. unfold fat_entry_offset.
  set (bps := bytes_per_sector (fat s)) in *. set (spf := sectors_per_fat (fat s)) in *.
  set (res := reserved_sectors (fat s)) in *. set (n := fat_count (fat s)) in *.
  assert ((i + 1) * spf <= n * spf) by nia.
  assert ((res + i * spf) * bps + spf * bps <= fs_size s) as Hfit.
  { assert ((res + (i + 1) * spf) * bps <= (res + n * spf) * bps) by nia. lia. }
  assert (0 <= i * spf /\ i * spf <= i * spf * bps) by nia.
  assert (0 <= res * bps) by nia.
  rewrite (u64_small (i * spf)) by nia. rewrite (u64_small (res + i * spf)) by nia.
  rewrite (u64_small ((res + i * spf) * bps)) by nia. rewrite (u64_small (c * 4)) by nia.
  rewrite u64_small by nia. split; [done|lia].
Qed.

Lemma fat_set_loop_keeps n s c v i c' :
  geometry_ok s -> tables_ok s -> has_entry s c -> has_entry s c' -> 1 <= i -> i + Z.of_nat n <= fat_count (fat s) ->
  (fat_set_loop n s c v i).2 = 0 /\ fat_get (fat_set_loop n s c v i).1 c' = fat_get s c'.
Proof.
  revert s i. induction n as [|n IH]; intros s i Hg Ht Hc Hc' Hi Hn; cbn [fat_set_loop]; [done|].
  destruct (entry_place s c i Hg Ht Hc ltac:(lia)) as [Ei Hfit].
  destruct (entry_place s c' 0 Hg Ht Hc' ltac:(lia)) as [E0 _].
  assert (range_ok s (fat_entry_offset s c i) 4 = true) as Hr.
  { apply range_ok_true. destruct Hg as (_ & _ & _ & _ & _ & _ & _ & _ & _ & ? & _). lia. }
  rewrite Hr. cbn [negb]. set (s1 := set_ram s _).
  destruct (IH s1 (i + 1)) as [-> ->]; [done|done|done|done|lia|cbn; lia|]. split; [done|].
  unfold fat_get. change (fat_entry_offset s1 c' 0) with (fat_entry_offset s c' 0).
  change (range_ok s1 (fat_entry_offset s c' 0) 4) with (range_ok s (fat_entry_offset s c' 0) 4).
  case_test; [done|]. unfold s1. cbn [ram fs_data set_ram]. rewrite rd32_wr32_ne; [done|]. left.
  rewrite Ei, E0. destruct Hg as (? & _ & ? & _ & ? & _), Hc', Hc.
  assert (1 * (sectors_per_fat (fat s) * bytes_per_sector (fat s)) <= i * (sectors_per_fat (fat s) * bytes_per_sector (fat s))) by nia.
  rewrite !Z.mul_add_distr_r, <- (Z.mul_assoc i). lia.
Qed.

Lemma fat_set_get s c v c' :
  geometry_ok s -> tables_ok s -> has_entry s c -> has_entry s c' -> 0 <= v ->
  (fat_set s c v).2 = 0 /\ fat_get (fat_set s c v).1 c' = if decide (c' = c) then v mod 268435456 else fat_get s c'.
Proof.
  intros Hg Ht Hc Hc' Hv. unfold fat_set. pose proof Hg as (_ & _ & _ & Hn & _).
  destruct (Z.to_nat (fat_count (fat s))) as [|n] eqn:En; [lia|]. cbn [fat_set_loop].
  destruct (entry_place s c 0 Hg Ht Hc ltac:(lia)) as [Ec Hfit].
  destruct (entry_place s c' 0 Hg Ht Hc' ltac:(lia)) as [Ec' Hfit'].
  assert (forall o, o + 4 <= fs_size s -> range_ok s o 4 = true) as Hr.
  { intros o Ho. apply range_ok_true. destruct Hg as (_ & _ & _ & _ & _ & _ & _ & _ & _ & ? & _). lia. }
  rewrite Hr by done. cbn [negb]. set (s1 := set_ram s _).
  destruct (fat_set_loop_keeps n s1 c v (0 + 1) c') as [-> ->]; [done|done|done|done|lia|cbn; lia|]. split; [done|].
  unfold fat_get. change (fat_entry_offset s1 c' 0) with (fat_entry_offset s c' 0).
  change (range_ok s1 (fat_entry_offset s c' 0) 4) with (range_ok s (fat_entry_offset s c' 0) 4).
  rewrite Hr by done. cbn [negb]. unfold s1. cbn [ram fs_data set_ram]. destruct (decide (c' = c)) as [->|Hne].
  - rewrite rd32_wr32, !land_entry. mlia.
  - rewrite rd32_wr32_ne; [done|]. rewrite Ec, Ec'. lia.
Qed.

(** ** Theorems *)

(** C29: A volume that [fs_mount] accepts as FAT32 has a geometry in which every
    valid cluster lies, with all its bytes, inside the volume: no cluster offset
    computed later can leave the storage. *)
Theorem fat32_clusters_in_volume s storage size c :
  0 <= size < 18446744073709551616 -> fs_mode (fs_mount s storage size) = FS_MODE_FAT32 ->
  2 <= c < cluster_limit (fs_mount s storage size) ->
  let s' := fs_mount s storage size in
  512 <= cluster_size s' /\ 0 <= cluster_offset s' c /\ cluster_offset s' c + cluster_size s' <= size /\
  (forall d, 2 <= d < cluster_limit s' -> c < d -> cluster_offset s' c + cluster_size s' <= cluster_offset s' d).
Proof.
  intros Hs Hm Hc s'. pose proof (fs_mount_geometry s storage size Hs Hm) as Hg. fold s' in Hg, Hc.
  assert (fs_size s' = size) as Es by (unfold s', fs_mount; by case_match).
  destruct (cluster_offset_spec s' c Hg ltac:(lia) Hc) as (Eo & ? & ?). pose proof (cluster_size_range s' Hg).
  split_and!; try lia. intros d Hd Hcd. destruct (cluster_offset_spec s' d Hg ltac:(lia) Hd) as (Ed & _ & _).
  rewrite Eo, Ed. unfold cluster_size. destruct Hg as (? & ? & _).
  assert ((c - 2) * sectors_per_cluster (fat s') + sectors_per_cluster (fat s') <= (d - 2) * sectors_per_cluster (fat s')) by nia.
  nia.
Qed.

(** C28: [fs_write_fd] returns for every descriptor and length and writes only
    inside the mounted volume, whatever the allocation table and the directory
    entry contain; it reports at most the bytes asked for and keeps the
    descriptor table well formed. *)
Theorem fs_write_confined s fd buf len :
  fs_ok s -> 0 <= len < 9223372036854775808 ->
  exists s' r, fs_write_fd s fd buf len = Ret (s', r) /\ fs_ok s' /\ -1 <= r <= len /\
    forall x, ~ in_volume s x -> rd (ram s') x = rd (ram s) x.
Proof.
  intros Hok Hl. destruct (fs_write_fd_ok s fd buf len Hok Hl) as (s' & r & Hrun & Hok' & (_ & _ & _ & Hr) & Hb).
  by exists s', r.
Qed.

(** When the chain of the root directory ends, [fs_open] returns, creates
    or truncates only inside the volume, and the descriptor it hands out refers
    to a directory entry inside the volume. *)
Theorem fs_open_confined s path fl l :
  fs_ok s -> NoDup l -> chain_from s (root_cluster (fat s)) l ->
  exists s' r, fs_open s path fl = Ret (s', r) /\ fs_ok s' /\
    forall x, ~ in_volume s x -> rd (ram s') x = rd (ram s) x.
Proof.
  intros Hok Hnd Hc. destruct (fs_open_ok s path fl l Hok Hnd Hc) as (s' & r & Hrun & Hok' & _ & _ & _ & Hr). by exists s', r.
Qed.

(** [fs_read_fd] returns for every descriptor, writes only the caller's
    buffer, and delivers at most the bytes asked for. *)
Theorem fs_read_confined s fd buf len :
  fs_ok s -> 0 <= len < 9223372036854775808 ->
  exists s' r, fs_read_fd s fd buf len = Ret (s', r) /\ -1 <= r <= len /\
    forall x, ~ (buf <= x < buf + len) -> rd (ram s') x = rd (ram s) x.
Proof.
  intros Hok Hl. unfold fs_read_fd. rewrite (fo_mode s Hok). cbn [Z.eqb negb FS_MODE_FAT32 Pos.eqb].
  destruct (open_at s fd) as [f|] eqn:Hf; [|exists s, (-1); split_and!; try done; lia].
  case_test; [exists s, (-1); split_and!; try done; lia|]. case_test; [exists s, 0; split_and!; try done; lia|].
  apply orb_false_iff in Htest0 as [Hpos%Z.leb_gt _].
  apply fs_open_at_Some in Hf as (_ & Hf & Hu). destruct (fo_open s Hok _ _ Hf Hu) as (_ & _ & Hp).
  set (k := if _ <? len then _ else len). assert (0 <= k <= len) as Hk by (unfold k; case_match eqn:E; [apply Z.ltb_lt in E|]; lia).
  destruct (read_loop_spec (Z.to_nat k) s f buf k 0) as (s1 & f1 & d & -> & _ & _ & _ & Hd & Hr); [apply Hok|done|lia|lia|].
  cbn [mbind outcome_bind]. eexists _, _. split; [done|]. rewrite s64_small by lia. split; [lia|].
  intros x Hx. cbn [ram set_open]. apply Hr. lia.
Qed.

(** C30: [free_chain] ends on every allocation table, cyclic ones included: each
    step frees a cluster that was in use.  The first cluster is free
    afterwards, and only the volume has been written. *)
Theorem free_chain_terminates s first :
  1 <= fat_count (fat s) -> 0 <= first ->
  exists s', free_chain s first = Ret s' /\ (forall x, ~ in_volume s x -> rd (ram s') x = rd (ram s) x) /\
    (2 <= first < cluster_limit s -> is_eoc (fat_get s first) = false -> fat_get s' first = 0).
Proof.
  intros Hn Hf. destruct (free_chain_ok s first Hn Hf) as (s' & ? & Hc & ?). exists s'. split_and!; try done. apply Hc.
Qed.

(** A table entry written with [fat_set] is read back by [fat_get], in the
    28 bits the table keeps, and the entries of all other clusters are
    unchanged, when the table is as large as the volume needs. *)
Theorem fat_entry_roundtrip s c v c' :
  geometry_ok s -> tables_ok s -> has_entry s c -> has_entry s c' -> 0 <= v ->
  (fat_set s c v).2 = 0 /\
  fat_get (fat_set s c v).1 c' = if decide (c' = c) then v mod 268435456 else fat_get s c'.
Proof. apply fat_set_get. Qed.


(** ** A small volume

    Twenty sectors of 512 bytes: one reserved, two tables of one sector, one
    sector per cluster; the root directory is cluster 2. *)

Definition put (m : gmap Z Z) (p : Z) (l : list Z) : gmap Z Z := store_name m p l.
Definition BASE : Z := 0x10000.
Definition demo_image : gmap Z Z :=
  let m := put ∅ (BASE + 11) [0; 2; 1; 1; 0; 2] in
  let m := put m (BASE + 32) [20; 0; 0; 0; 1; 0; 0; 0] in
  let m := put m (BASE + 44) [2; 0; 0; 0] in
  let m := put m (BASE + 82) [70; 65; 84; 51; 50] in
  let m := put m (BASE + 510) [0x55; 0xAA] in
  let m := wr32 m (BASE + 512 + 8) 0x0FFFFFFF in
  wr32 m (BASE + 1024 + 8) 0x0FFFFFFF.
Definition blank : fs := Fs demo_image 0 0 0 zero_fat [] [].
Definition demo_fs : fs := fs_mount blank BASE 10240.
Definition demo_open : fs :=
  match fs_open demo_fs (Some [97; 46; 98]) (Z.lor FS_O_RDWR FS_O_CREAT) with Ret (s, _) => s | _ => demo_fs end.

Lemma demo_fs_ok : fs_ok demo_fs.
Proof.
  split; [by apply fs_mount_geometry|by vm_compute|by vm_compute|by vm_compute|].
  intros fd f Hf Hu. assert (used <$> open_files demo_fs = replicate FS_MAX_OPEN false) as He by by vm_compute.
  assert (replicate FS_MAX_OPEN false !! fd = Some true) as Hr by (by rewrite <- He, list_lookup_fmap, Hf; cbn; rewrite Hu).
  by apply lookup_replicate in Hr as [? _].
Qed.
Lemma demo_chain : chain_from demo_fs (root_cluster (fat demo_fs)) [2].
Proof. by vm_compute. Qed.
Lemma demo_open_ok : fs_ok demo_open.
Proof.
  destruct (fs_open_ok demo_fs (Some [97; 46; 98]) (Z.lor FS_O_RDWR FS_O_CREAT) [2] demo_fs_ok
    ltac:(apply NoDup_singleton) demo_chain) as (s' & r & Hr & Hok & _).
  unfold demo_open. by rewrite Hr.
Qed.

Lemma fat32_clusters_in_volume_witness :
  cluster_offset demo_fs 18 + cluster_size demo_fs <= 10240 /\ cluster_limit demo_fs = 19.
Proof.
  split; [|by vm_compute].
  apply (fat32_clusters_in_volume blank BASE 10240 18); by vm_compute.
Defined.
Lemma fs_write_confined_witness : exists s' r, fs_write_fd demo_open 0 1000 600 = Ret (s', r) /\ fs_ok s'.
Proof.
  destruct (fs_write_confined demo_open 0 1000 600 demo_open_ok) as (s' & r & Hr & Hok & _); [lia|].
  exists s', r. exact (conj Hr Hok).
Defined.
Lemma fs_open_confined_witness : exists s' r, fs_open demo_fs (Some [97; 46; 98]) FS_O_CREAT = Ret (s', r) /\ fs_ok s'.
Proof.
  destruct (fs_open_confined demo_fs (Some [97; 46; 98]) FS_O_CREAT [2] demo_fs_ok) as (s' & r & Hr & Hok & _);
    [apply NoDup_singleton|exact demo_chain|]. exists s', r. exact (conj Hr Hok).
Defined.
Lemma fs_read_confined_witness : exists s' r, fs_read_fd demo_open 0 1000 600 = Ret (s', r) /\ -1 <= r <= 600.
Proof.
  destruct (fs_read_confined demo_open 0 1000 600 demo_open_ok) as (s' & r & Hr & Hb & _); [lia|].
  exists s', r. exact (conj Hr Hb).
Defined.

(** Clusters 3 and 4 of the small volume as a chain that runs in a circle. *)
Definition demo_cycle : fs := (fat_set (fat_set demo_fs 3 4).1 4 3).1.
Lemma free_chain_terminates_witness : exists s', free_chain demo_cycle 3 = Ret s' /\ fat_get s' 3 = 0.
Proof.
  destruct (free_chain_terminates demo_cycle 3) as (s' & Hr & _ & H0'); [by vm_compute|lia|].
  exists s'. split; [exact Hr|]. clear Hr. apply H0'; [by vm_compute|by vm_compute].
Defined.
Lemma fat_entry_roundtrip_witness : fat_get (fat_set demo_fs 5 6).1 5 = 6 /\ fat_get (fat_set demo_fs 5 6).1 2 = fat_get demo_fs 2.
Proof.
  split; [apply (fat_entry_roundtrip demo_fs 5 6 5)|apply (fat_entry_roundtrip demo_fs 5 6 2)];
    try apply demo_fs_ok; by vm_compute.
Defined.

(** ** What the code does not check *)

(** The bound of [fs_read] is on [offset + len] in 64 bits: a length near 2^64
    wraps and is used as it is, although only [fs_size - offset] bytes exist. *)
Theorem fs_read_length_wraps s offset buf len :
  buf <> 0 -> fs_data s <> 0 -> 0 < offset <= fs_size s -> fs_size s < 18446744073709551616 - offset ->
  18446744073709551616 - offset <= len < 18446744073709551616 ->
  (fs_read s offset buf len).2 = len /\ fs_size s - offset < len.
Proof.
  intros Hb Hd Ho Hs Hl. split; [|lia]. unfold fs_read. rewrite (proj2 (Z.eqb_neq buf 0)) by done.
  assert (range_ok s offset 0 = true) as -> by (apply range_ok_true; lia). cbn [orb negb].
  rewrite (proj2 (Z.ltb_ge _ _)); [done|]. mlia.
Qed.

(** A root directory whose only cluster is its own successor and holds no
    unused tail: deleted entries, from the first to the last. *)
Fixpoint deleted (n : nat) (m : gmap Z Z) (p : Z) : gmap Z Z :=
  match n with O => m | S n => deleted n (wr m p 0xE5) (p + 32) end.
Definition demo_root_cycle : fs :=
  let s := (fat_set demo_fs 2 2).1 in set_ram s (deleted 16 (ram s) (BASE + cluster_offset s 2)).

(** [find_dir_entry] does not bound the number of clusters it visits: on that
    volume the search for a name never ends, whatever the fuel. *)
Theorem find_dir_entry_loops fuel fr :
  fr = 0 \/ fr = 1536 -> find_loop fuel demo_root_cycle (replicate 11 65) 2 fr = Timeout.
Proof.
  revert fr. induction fuel as [|fuel IH]; intros fr Hfr; [by destruct Hfr; subst|].
  transitivity (find_loop fuel demo_root_cycle (replicate 11 65) 2 1536); [|by apply IH; right].
  cbn [find_loop].
  assert ((2 <=? 2) && (2 <? cluster_limit demo_root_cycle) = true) as -> by by vm_compute.
  assert (negb (range_ok demo_root_cycle (cluster_offset demo_root_cycle 2) (cluster_size demo_root_cycle)) = false)
    as -> by by vm_compute.
  assert (scan_cluster (Z.to_nat (cluster_size demo_root_cycle / 32)) demo_root_cycle (replicate 11 65)
    (cluster_offset demo_root_cycle 2) fr = inr 1536) as -> by (destruct Hfr; subst; by vm_compute).
  assert (fat_get demo_root_cycle 2 = 2) as -> by by vm_compute. done.
Qed.
