(* ===== verification/Fat32Files.v ===== *)
(** * kernel/fs.c: files as chains of clusters

    The contents of a file: the list of its clusters, linked by the allocation
    table, and the bytes at each position.  Writing grows the list at its end
    and changes nothing else; reading follows it. *)

From Stdlib Require Import ZArith Lia.
From stdpp Require Import base numbers gmap fin_maps option list.
From S2P Require Import Prelude MemUtils Fat32 Fat32Proofs.

Local Open Scope Z_scope.

(** ** The volume *)

(** The table has an entry for every cluster, its copies end where the data
    begin, and no cluster number is taken for the end mark. *)
Record table_fits (s : fs) : Prop := TableFits {
  tf_geometry : geometry_ok s;
  tf_size : 0 <= fs_size s <= 4294967296;
  tf_before : reserved_sectors (fat s) + fat_count (fat s) * sectors_per_fat (fat s) <= first_data_sector (fat s);
  tf_entries : cluster_limit s * 4 <= sectors_per_fat (fat s) * bytes_per_sector (fat s);
  tf_numbers : cluster_limit s <= FAT32_EOC
}.

Definition cluster_start (s : fs) (c : Z) : Z := fs_data s + cluster_offset s c.
Definition cluster_bytes (s : fs) (c : Z) : list Z := bytes_at (ram s) (cluster_start s c) (Z.to_nat (cluster_size s)).
(** Where the data of the volume begin. *)
Definition data_start (s : fs) : Z := fs_data s + first_data_sector (fat s) * bytes_per_sector (fat s).

Lemma confined_fits s s' : confined s s' -> table_fits s -> table_fits s'.
Proof.
  intros Hc [Hg Hs Hb He Hn]. pose proof (confined_geometry _ _ Hc Hg). destruct (confined_limit _ _ Hc) as (El & _).
  destruct Hc as (D & S & _ & F & _). split; rewrite ?El, ?S, ?F; done.
Qed.
Lemma confined_start s s' c : confined s s' -> cluster_start s' c = cluster_start s c /\ data_start s' = data_start s /\
  cluster_size s' = cluster_size s /\ (valid_cluster s' c <-> valid_cluster s c).
Proof.
  intros Hc. destruct (confined_limit _ _ Hc) as (El & Es & Eo & _). destruct Hc as (D & _ & _ & F & _).
  unfold cluster_start, data_start, valid_cluster. by rewrite Eo, El, D, F.
Qed.

Lemma fits_tables s : table_fits s -> tables_ok s.
Proof.
  intros [(? & ? & ? & ? & ? & ? & ? & Hd & Hv & _) Hs Hb _ _]. split; [|lia].
  assert (0 <= total_clusters (fat s) * sectors_per_cluster (fat s)) by nia. nia.
Qed.
Lemma fits_entry s c : table_fits s -> valid_cluster s c -> has_entry s c.
Proof. intros [_ _ _ He _] [? ?]. split; lia. Qed.

Lemma cluster_place s c : table_fits s -> valid_cluster s c ->
  data_start s <= cluster_start s c /\ cluster_start s c + cluster_size s <= fs_data s + fs_size s.
Proof.
  intros [Hg Hs _ _ _] Hc. destruct (cluster_offset_spec s c Hg ltac:(lia) Hc) as (E & _ & ?).
  unfold data_start, cluster_start. split; [|lia]. rewrite E. destruct Hg as (? & ? & _ & _ & _ & ? & _), Hc. nia.
Qed.
Lemma data_start_low s : table_fits s -> fs_data s <= data_start s.
Proof. intros [(? & _ & _ & _ & _ & ? & _) _ _ _ _]. unfold data_start. nia. Qed.
Lemma clusters_apart s c d : table_fits s -> valid_cluster s c -> valid_cluster s d -> c <> d ->
  cluster_start s c + cluster_size s <= cluster_start s d \/ cluster_start s d + cluster_size s <= cluster_start s c.
Proof.
  intros [Hg Hs _ _ _] Hc Hd Hne. destruct (cluster_offset_spec s c Hg ltac:(lia) Hc) as (Ec & _), (cluster_offset_spec s d Hg ltac:(lia) Hd) as (Ed & _).
  unfold cluster_start. rewrite Ec, Ed. unfold cluster_size. set (spc := sectors_per_cluster (fat s)) in *.
  destruct Hg as (? & ? & _). fold spc in H0. set (bps := bytes_per_sector (fat s)) in *.
  destruct (Z.lt_total c d) as [Hl|[?|Hl]]; [left|done|right].
  - assert ((c - 2) * spc + spc <= (d - 2) * spc) by nia. nia.
  - assert ((d - 2) * spc + spc <= (c - 2) * spc) by nia. nia.
Qed.

(** ** Table entries *)

Lemma fat_set_low s c v x : table_fits s -> valid_cluster s c -> data_start s <= x -> rd (ram (fat_set s c v).1) x = rd (ram s) x.
Proof.
  intros Hf Hc Hx. pose proof (tf_geometry s Hf) as (Hb & _ & _ & Hn & Hspf & _). pose proof (tf_before s Hf) as Hbef.
  pose proof (fits_tables s Hf) as Ht. pose proof (fits_entry s c Hf Hc) as He.
  assert (forall n s' i, confined s s' -> 0 <= i -> i + Z.of_nat n <= fat_count (fat s) ->
    rd (ram (fat_set_loop n s' c v i).1) x = rd (ram s') x) as Hl.
  { induction n as [|n IH]; intros s' i Hs Hi Hin; cbn [fat_set_loop]; [done|]. case_test; [done|]. apply negb_false_iff in Htest.
    rewrite IH; [|eapply confined_trans; [exact Hs|by apply confined_wr32, Htest; apply fat_entry_nonneg]|lia|lia].
    cbn [ram set_ram]. rewrite rd_wr32, decide_False; [done|].
    destruct (confined_limit _ _ Hs) as (_ & _ & _ & -> & _). destruct (entry_place s c i (tf_geometry s Hf) Ht He ltac:(lia)) as [-> _].
    rewrite (proj1 Hs). unfold data_start in Hx. destruct He as [_ He].
    assert ((i + 1) * sectors_per_fat (fat s) <= fat_count (fat s) * sectors_per_fat (fat s)) by nia.
    set (bps := bytes_per_sector (fat s)) in *. set (spf := sectors_per_fat (fat s)) in *. set (res := reserved_sectors (fat s)) in *.
    assert ((res + (i + 1) * spf) * bps <= first_data_sector (fat s) * bps) by nia. nia. }
  apply Hl; [apply confined_refl|lia|lia].
Qed.

(** The table lies below the data. *)
Lemma fat_get_data s s' c : table_fits s -> valid_cluster s c -> confined s s' ->
  (forall x, x < data_start s -> rd (ram s') x = rd (ram s) x) -> fat_get s' c = fat_get s c.
Proof.
  intros Hf Hc Hcf Hx. unfold fat_get. destruct (confined_limit _ _ Hcf) as (_ & _ & _ & -> & ->). rewrite (proj1 Hcf).
  case_test; [done|]. pose proof (tf_geometry s Hf) as (Hb & _ & Hr & Hn & Hspf & _).
  destruct (entry_place s c 0 (tf_geometry s Hf) (fits_tables s Hf) (fits_entry s c Hf Hc) ltac:(lia)) as [E _].
  destruct (fits_entry s c Hf Hc) as [_ He]. pose proof (tf_before s Hf).
  assert (fs_data s + fat_entry_offset s c 0 + 4 <= data_start s).
  { unfold data_start. rewrite E. set (bps := bytes_per_sector (fat s)) in *. set (spf := sectors_per_fat (fat s)) in *.
    assert ((reserved_sectors (fat s) + spf) * bps <= first_data_sector (fat s) * bps) by nia. nia. }
  by rewrite !rd32_sum, !Hx by lia.
Qed.

(** A change of the entry of [c] alone. *)
Lemma fat_set_entry s c v : table_fits s -> valid_cluster s c -> 0 <= v < 268435456 ->
  exists s', fat_set s c v = (s', 0) /\ confined s s' /\ fat_get s' c = v /\
    (forall d, valid_cluster s d -> d <> c -> fat_get s' d = fat_get s d) /\
    forall x, data_start s <= x -> rd (ram s') x = rd (ram s) x.
Proof.
  intros Hf Hc Hv. pose proof (fat_set_confined s c v) as Hcf. pose proof (fun x => fat_set_low s c v x Hf Hc) as Hlow.
  pose proof (fun d Hd => fat_set_get s c v d (tf_geometry s Hf) (fits_tables s Hf) (fits_entry s c Hf Hc) (fits_entry s d Hf Hd) (proj1 Hv)) as Hget.
  destruct (fat_set s c v) as [s' r]. cbn [fst snd] in *. exists s'. destruct (Hget c Hc) as [-> E]. rewrite decide_True, Z.mod_small in E by done.
  split_and!; [done|done|done| |done]. intros d Hd Hne. destruct (Hget d Hd) as [_ ->]. by rewrite decide_False.
Qed.

(** ** Chains *)

(** Each cluster of the list leads to the next, the last one to the end mark. *)
Fixpoint links (s : fs) (l : list Z) : Prop :=
  match l with
  | [] => True
  | c :: l' => match l' with [] => is_eoc (fat_get s c) = true | d :: _ => fat_get s c = d end /\ links s l'
  end.
Record chain (s : fs) (l : list Z) : Prop := Chain {
  ch_nodup : NoDup l;
  ch_valid : Forall (valid_cluster s) l;
  ch_links : links s l
}.
(** The free clusters. *)
Definition vacant (s : fs) : list Z := filter (fun c => fat_get s c = 0) (seqZ 2 (cluster_limit s - 2)).

Lemma links_entry s l c : links s l -> Forall (valid_cluster s) l -> c ∈ l -> fat_get s c <> 0.
Proof.
  intros Hl Hv Hc. induction l as [|d l IH]; [by apply not_elem_of_nil in Hc|].
  apply Forall_cons in Hv as [_ Hv]. destruct Hl as [Hd Hl]. apply elem_of_cons in Hc as [->|Hc]; [|by apply IH].
  destruct l as [|e l]; [by intros E; rewrite E in Hd|]. apply Forall_cons in Hv as [[He _] _]. lia.
Qed.
Lemma links_snoc s s' l c d : (forall x, x ∈ l -> fat_get s' x = fat_get s x) -> links s (l ++ [c]) ->
  fat_get s' c = d -> is_eoc (fat_get s' d) = true -> links s' (l ++ [c; d]).
Proof.
  intros Hs Hl Hc Hd. induction l as [|x l IH]; [done|]. cbn [app links] in *. destruct Hl as [Hx Hl]. split.
  - rewrite Hs by apply list_elem_of_here. by destruct l.
  - apply IH; [|done]. intros y Hy. apply Hs. by apply list_elem_of_further.
Qed.
Lemma links_same s s' l : (forall x, x ∈ l -> fat_get s' x = fat_get s x) -> links s l -> links s' l.
Proof.
  intros Hs. induction l as [|x l IH]; [done|]. cbn [links]. rewrite Hs by apply list_elem_of_here.
  intros [? ?]. split; [done|]. apply IH; [|done]. intros y Hy. apply Hs. by apply list_elem_of_further.
Qed.
Lemma links_next s l0 c l : links s (l0 ++ c :: l) -> match l with [] => is_eoc (fat_get s c) = true | d :: _ => fat_get s c = d end.
Proof. induction l0 as [|x l0 IH]; cbn [app links]; intros [? ?]; [done|by apply IH]. Qed.

(** ** Allocation *)

(** [grows s s' l new]: the file with the clusters [l] got [new] at its end;
    all other entries are as they were. *)
Record grows (s s' : fs) (l new : list Z) : Prop := Grows {
  ex_confined : confined s s';
  ex_chain : chain s' (l ++ new);
  ex_new : Forall (fun c => fat_get s c = 0) new;
  ex_others : forall c, valid_cluster s c -> c ∉ l ++ new -> fat_get s' c = fat_get s c;
  ex_vacant : length (vacant s) = (length new + length (vacant s'))%nat
}.
(** The bytes of all clusters but those of [cs] are as they were. *)
Definition data_kept (s s' : fs) (cs : list Z) : Prop :=
  forall c i, valid_cluster s c -> c ∉ cs -> 0 <= i < cluster_size s -> rd (ram s') (cluster_start s c + i) = rd (ram s) (cluster_start s c + i).

Lemma length_filter_same {A} (P Q : A -> Prop) `{!forall x, Decision (P x), !forall x, Decision (Q x)} (l : list A) :
  (forall y, y ∈ l -> P y <-> Q y) -> length (filter P l) = length (filter Q l).
Proof.
  induction l as [|y l IH]; intros Hs; [done|]. rewrite !filter_cons.
  pose proof (Hs y (list_elem_of_here y l)). specialize (IH (fun z Hz => Hs z (list_elem_of_further z y l Hz))).
  destruct (decide (P y)), (decide (Q y)); cbn; try lia; tauto.
Qed.
Lemma length_filter_one {A} (P Q : A -> Prop) `{!forall x, Decision (P x), !forall x, Decision (Q x)} (l : list A) x :
  NoDup l -> x ∈ l -> P x -> ~ Q x -> (forall y, y ∈ l -> y <> x -> P y <-> Q y) -> length (filter P l) = S (length (filter Q l)).
Proof.
  intros Hnd Hx HP HQ Hsame. apply list_elem_of_split in Hx as (l1 & l2 & ->). apply NoDup_app in Hnd as (_ & H1 & H2).
  apply NoDup_cons in H2 as [H2 _]. rewrite !filter_app, !length_app, (filter_cons_True P), (filter_cons_False Q) by done. cbn.
  rewrite (length_filter_same P Q l1), (length_filter_same P Q l2); [lia|..]; intros y Hy; apply Hsame; try set_solver.
Qed.

Lemma fits_marks c : 2 <= c < FAT32_EOC -> is_eoc c = false.
Proof. intros Hc. unfold is_eoc. apply Z.leb_gt. lia. Qed.
Lemma cluster_eoc s c : table_fits s -> valid_cluster s c -> is_eoc c = false.
Proof. intros Hf [? ?]. apply fits_marks. pose proof (tf_numbers s Hf). lia. Qed.

(** Allocation takes a free cluster and fills it with zeros, or there is none. *)
Lemma alloc_cluster_spec s : table_fits s ->
  (vacant s = [] /\ alloc_cluster s = (s, 0)) \/
  exists s' c, alloc_cluster s = (s', c) /\ valid_cluster s c /\ fat_get s c = 0 /\ confined s s' /\ fat_get s' c = FAT32_EOC_MARK /\
    (forall d, valid_cluster s d -> d <> c -> fat_get s' d = fat_get s d) /\ data_kept s s' [c] /\
    (forall i, 0 <= i < cluster_size s -> rd (ram s') (cluster_start s c + i) = 0) /\
    length (vacant s) = S (length (vacant s')).
Proof.
  intros Hf. unfold alloc_cluster, vacant. destruct (decide (2 <= cluster_limit s)) as [Hl|Hl].
  2: { left. rewrite seqZ_nil by lia. by replace (Z.to_nat (cluster_limit s - 2)) with O by lia. }
  assert (forall n c, (exists i, c = 2 + i /\ 0 <= i /\ c + Z.of_nat n = cluster_limit s) ->
    (filter (fun c => fat_get s c = 0) (seqZ c (Z.of_nat n)) = [] /\ alloc_scan n s c = (s, 0)) \/
    exists s' c', alloc_scan n s c = (s', c') /\ valid_cluster s c' /\ fat_get s c' = 0 /\ confined s s' /\ fat_get s' c' = FAT32_EOC_MARK /\
    (forall d, valid_cluster s d -> d <> c' -> fat_get s' d = fat_get s d) /\ data_kept s s' [c'] /\
    (forall i, 0 <= i < cluster_size s -> rd (ram s') (cluster_start s c' + i) = 0)) as Hscan.
  { induction n as [|n IH]; intros c Hc; [by left|]. destruct Hc as (i & -> & Hi & Hn). rewrite seqZ_cons by lia. rewrite filter_cons.
    replace (Z.pred (Z.of_nat (S n))) with (Z.of_nat n) by lia. cbn [alloc_scan]. assert (valid_cluster s (2 + i)) as Hv by (split; lia).
    destruct (Z.eqb_spec (fat_get s (2 + i)) 0) as [E|E]; [right|rewrite decide_False by done; apply IH; exists (i + 1); lia].
    destruct (fat_set_entry s (2 + i) FAT32_EOC_MARK Hf Hv ltac:(unfold FAT32_EOC_MARK; lia)) as (s1 & -> & Hc1 & E1 & Ho & Hd).
    cbn [Z.eqb negb]. destruct (confined_start _ _ (2 + i) Hc1) as (Es & Eds & Ez & Ev). pose proof (confined_fits _ _ Hc1 Hf) as Hf1.
    rewrite (cluster_range_ok s1 (2 + i)); [|apply Hf1|destruct (tf_size s1 Hf1); lia|by apply Ev]. cbn [negb].
    destruct (cluster_place s (2 + i) Hf Hv) as [Hp1 Hp2]. fold (cluster_start s1 (2 + i)). rewrite Es, Ez.
    set (m2 := memset _ _ _ _). set (s2 := set_ram s1 m2).
    assert (confined s1 s2) as Hc2.
    { apply confined_ram. intros x Hx. unfold m2. rewrite rd_memset, decide_False; [done|]. unfold in_volume in Hx.
      destruct Hc1 as (D & S & _). rewrite D, S in Hx. pose proof (proj1 (tf_size s Hf)).
      pose proof (data_start_low s Hf). lia. }
    assert (forall d, valid_cluster s d -> fat_get s2 d = fat_get s1 d) as Hg.
    { intros d Hvd. apply (fat_get_data s1 s2 d Hf1 (proj2 (proj2 (proj2 (proj2 (confined_start s s1 d Hc1)))) Hvd) Hc2).
      intros x Hx. unfold s2, m2. cbn [ram set_ram]. rewrite rd_memset, decide_False by (rewrite Eds in Hx; lia). done. }
    exists s2, (2 + i). split_and!; [done|done|done|by eapply confined_trans|by rewrite Hg|intros; rewrite Hg by done; auto| |].
    - intros d j Hvd Hne Hj. unfold s2, m2. cbn [ram set_ram]. rewrite rd_memset, decide_False.
      + apply Hd. destruct (cluster_place s d Hf Hvd). lia.
      + destruct (clusters_apart s (2 + i) d Hf Hv Hvd ltac:(set_solver)); lia.
    - intros j Hj. unfold s2, m2. cbn [ram set_ram]. by rewrite rd_memset, decide_True by lia. }
  destruct (Hscan (Z.to_nat (cluster_limit s - 2)) 2) as [[E1 E2]|(s' & c & E & Hv & E0 & Hc & E1 & Ho & Hd & Hz)]; [exists 0; lia|left; by rewrite Z2Nat.id in E1 by lia|].
  right. exists s', c. split_and!; try done. rewrite (proj1 (confined_limit _ _ Hc)). apply (length_filter_one _ _ _ c).
  - apply NoDup_seqZ.
  - apply elem_of_seqZ. destruct Hv. lia.
  - done.
  - rewrite E1. unfold FAT32_EOC_MARK. lia.
  - intros d Hin Hne. apply elem_of_seqZ in Hin. rewrite Ho; [done|split; lia|done].
Qed.

Lemma grows_refl s l : chain s l -> grows s s l [].
Proof. intros Hc. split; rewrite ?app_nil_r; [apply confined_refl|done|done|done|done]. Qed.
Lemma confined_valid s s' c : confined s s' -> valid_cluster s' c <-> valid_cluster s c.
Proof. intros Hc. apply (confined_start s s' c Hc). Qed.
Lemma grows_trans s1 s2 s3 l n1 n2 : grows s1 s2 l n1 -> grows s2 s3 (l ++ n1) n2 -> grows s1 s3 l (n1 ++ n2).
Proof.
  intros [C1 H1 N1 O1 V1] [C2 H2 N2 O2 V2]. split.
  - by eapply confined_trans.
  - by rewrite app_assoc.
  - apply Forall_app. split; [done|]. apply list.Forall_forall. intros c Hc. rewrite <- O1.
    + by eapply list.Forall_forall in N2.
    + apply (confined_valid s1 s2 c C1), (confined_valid s2 s3 c C2). eapply list.Forall_forall; [apply (ch_valid _ _ H2)|].
      apply elem_of_app. by right.
    + intros Hin. apply (ch_nodup _ _) in H2. apply NoDup_app in H2 as (_ & H2 & _). by apply (H2 c).
  - intros c Hv Hc. rewrite app_assoc in Hc. rewrite O2; [apply O1; [done|set_solver]|by apply (confined_valid s1 s2 c C1)|done].
  - rewrite length_app. lia.
Qed.

(** Byte [i] of a file; zero behind its last cluster. *)
Definition file_byte (s : fs) (l : list Z) (i : Z) : Z :=
  match l !! Z.to_nat (i / cluster_size s) with Some c => rd (ram s) (cluster_start s c + i mod cluster_size s) | None => 0 end.

Lemma file_byte_kept s s' l new i : table_fits s -> chain s l -> confined s s' -> data_kept s s' new -> 0 <= i ->
  (forall c, c ∈ l -> c ∉ new) -> (forall c j, c ∈ new -> 0 <= j < cluster_size s -> rd (ram s') (cluster_start s c + j) = 0) ->
  file_byte s' (l ++ new) i = file_byte s l i.
Proof.
  intros Hf Hch Hc Hk Hi Hdis Hz. unfold file_byte. destruct (confined_start _ _ 0 Hc) as (_ & _ & -> & _).
  pose proof (cluster_size_range s (tf_geometry s Hf)). pose proof (Z.mod_pos_bound i (cluster_size s) ltac:(lia)).
  assert (forall c, cluster_start s' c = cluster_start s c) as Es by (intros c; apply (confined_start s s' c Hc)).
  destruct (l !! _) as [c|] eqn:E.
  - rewrite (lookup_app_l_Some _ _ _ _ E), Es. pose proof (list_elem_of_lookup_2 _ _ _ E) as Hin. apply Hk; [|by apply Hdis|done].
    eapply list.Forall_forall; [apply Hch|done].
  - apply lookup_ge_None in E. rewrite lookup_app_r by done. destruct (new !! _) as [c|] eqn:En; [|done].
    rewrite Es. apply Hz; [by eapply list_elem_of_lookup_2|done].
Qed.

(** One more cluster for the file that ends with [c]. *)
Lemma grow_step s l c : table_fits s -> chain s (l ++ [c]) ->
  (vacant s = [] /\ alloc_cluster s = (s, 0)) \/
  exists s1 s2 n, alloc_cluster s = (s1, n) /\ fat_set s1 c n = (s2, 0) /\ valid_cluster s n /\ grows s s2 (l ++ [c]) [n] /\
    data_kept s s2 [n] /\ forall i, 0 <= i -> file_byte s2 (l ++ [c; n]) i = file_byte s (l ++ [c]) i.
Proof.
  intros Hf Hch. destruct (alloc_cluster_spec s Hf) as [?|(s1 & n & E & Hv & E0 & Hc & E1 & Ho & Hd & Hz & Hn)]; [by left|right].
  assert (n ∉ l ++ [c]) as Hnl by (intros Hin; exact (links_entry _ _ _ (ch_links _ _ Hch) (ch_valid _ _ Hch) Hin E0)).
  assert (valid_cluster s c) as Hvc by (apply (proj1 (list.Forall_forall _ _) (ch_valid _ _ Hch)), elem_of_app; right; apply list_elem_of_here).
  assert (n <> c) as Hne by (intros ->; apply Hnl, elem_of_app; right; apply list_elem_of_here).
  assert (forall d, valid_cluster s d -> valid_cluster s1 d) as Hv1 by (intros d; apply (confined_valid s s1 d Hc)).
  pose proof (confined_fits _ _ Hc Hf) as Hf1. pose proof (tf_numbers s Hf) as Hnum. unfold FAT32_EOC in Hnum.
  destruct (fat_set_entry s1 c n Hf1 (Hv1 c Hvc) ltac:(destruct Hv; lia)) as (s2 & E2 & Hc2 & Ec & Ho2 & Hlow).
  assert (confined s s2) as Hcc by (by eapply confined_trans).
  assert (forall x, data_start s <= x -> rd (ram s2) x = rd (ram s1) x) as Hlow'
    by (intros x Hx; apply Hlow; by rewrite (proj1 (proj2 (confined_start s s1 0 Hc)))).
  assert (forall d, valid_cluster s d -> d ∉ l ++ [c; n] -> fat_get s2 d = fat_get s d) as Hoth.
  { intros d Hvd Hd'. rewrite Ho2, Ho; [done|done|set_solver|by apply Hv1|set_solver]. }
  assert (data_kept s s2 [n]) as Hk.
  { intros d i Hvd Hdn Hi. rewrite Hlow'; [by apply Hd|]. destruct (cluster_place s d Hf Hvd). lia. }
  assert (NoDup (l ++ [c; n])) as Hnd.
  { change [c; n] with ([c] ++ [n]). rewrite app_assoc. apply NoDup_app. split; [apply Hch|]. split; [set_solver|apply NoDup_singleton]. }
  assert (chain s2 (l ++ [c; n])) as Hch2.
  { split; [done| |].
    - change [c; n] with ([c] ++ [n]). rewrite app_assoc. apply Forall_app. split.
      + eapply Forall_impl; [apply Hch|]. intros d. apply (confined_valid s s2 d Hcc).
      + constructor; [|done]. by apply (confined_valid s s2 n Hcc).
    - apply (links_snoc s); [|apply Hch|done|].
      + intros x Hx. apply NoDup_app in Hnd as (_ & Hnd & _). specialize (Hnd x Hx).
        assert (valid_cluster s x) by (eapply list.Forall_forall; [apply (ch_valid _ _ Hch)|set_solver]).
        rewrite Ho2, Ho; [done|done|set_solver|by apply Hv1|set_solver].
      + rewrite Ho2, E1; [done|by apply Hv1|done]. }
  exists s1, s2, n. split_and!; try done.
  - split; [done|by rewrite <- app_assoc|by repeat constructor|intros; apply Hoth; [done|by rewrite <- app_assoc in *]|].
    cbn [length]. rewrite Hn. f_equal. unfold vacant. rewrite (proj1 (confined_limit _ _ Hc2)). apply length_filter_same.
    intros d Hin%elem_of_seqZ. assert (valid_cluster s1 d) as Hvd by (split; lia). destruct (decide (d = c)) as [->|Hdc]; [|by rewrite Ho2].
    rewrite Ec. pose proof (links_entry _ _ c (ch_links _ _ Hch) (ch_valid _ _ Hch) ltac:(set_solver)). rewrite Ho by done. destruct Hv. lia.
  - intros i Hi. change [c; n] with ([c] ++ [n]). rewrite app_assoc. apply file_byte_kept; try done.
    + set_solver.
    + intros d j ->%list_elem_of_singleton Hj. rewrite Hlow'; [by apply Hz|]. destruct (cluster_place s n Hf Hv). lia.
Qed.

(** ** Walking a chain *)

(** From the cluster [c] of a chain, [k] steps without growing. *)
Lemma chain_loop_find k s l0 c l : table_fits s -> chain s (l0 ++ c :: l) -> chain_loop k s c false = (s, default 0 ((c :: l) !! k)).
Proof.
  intros Hf. revert l0 c l. induction k as [|k IH]; intros l0 c l Hch; cbn [chain_loop]; [done|].
  pose proof (links_next _ _ _ _ (ch_links _ _ Hch)) as Hn. destruct l as [|d l]; [by rewrite Hn|]. rewrite Hn.
  assert (valid_cluster s d) as Hv by (eapply list.Forall_forall; [apply (ch_valid _ _ Hch)|set_solver]).
  rewrite (cluster_eoc s d Hf Hv). cbn [negb]. destruct Hv as [H1 H2].
  rewrite (proj2 (Z.ltb_ge d 2)), (proj2 (Z.leb_gt _ _)) by lia. cbn [orb]. apply (IH (l0 ++ [c])). by rewrite <- app_assoc.
Qed.

(** The same with growing: the file gets the clusters that are missing, zeroed,
    unless the volume is full. *)
Lemma chain_loop_grows k s l0 c l : table_fits s -> chain s (l0 ++ c :: l) ->
  exists s' new r, chain_loop k s c true = (s', r) /\ grows s s' (l0 ++ c :: l) new /\ data_kept s s' new /\
    (forall i, 0 <= i -> file_byte s' (l0 ++ c :: l ++ new) i = file_byte s (l0 ++ c :: l) i) /\
    (r = 0 /\ vacant s' = [] \/ (c :: l ++ new) !! k = Some r).
Proof.
  revert s l0 c l. induction k as [|k IH]; intros s l0 c l Hf Hch.
  { exists s, [], c. rewrite app_nil_r. split_and!; try done; [by apply grows_refl|by right]. }
  assert (forall d l, chain s (l0 ++ c :: d :: l) -> fat_get s c = d /\ is_eoc d = false /\ (d <? 2) || (cluster_limit s <=? d) = false) as Hnext.
  { intros d l' Hc. pose proof (links_next _ _ _ _ (ch_links _ _ Hc)) as Hn.
    assert (valid_cluster s d) as Hv by (eapply list.Forall_forall; [apply (ch_valid _ _ Hc)|set_solver]).
    split_and!; [done|by eapply cluster_eoc|]. destruct Hv. by rewrite (proj2 (Z.ltb_ge d 2)), (proj2 (Z.leb_gt _ _)) by lia. }
  cbn [chain_loop]. destruct l as [|d l].
  - rewrite (links_next _ _ _ _ (ch_links _ _ Hch)). cbn [negb]. destruct (grow_step s l0 c Hf Hch) as [[Ev ->]|(s1 & s2 & n & -> & E2 & Hv & Hex & Hk & Hb)].
    { exists s, [], 0. rewrite app_nil_r. split_and!; try done; [by apply grows_refl|by left]. }
    destruct (Z.eqb_spec n 0) as [->|_]; [by destruct Hv|]. rewrite E2. cbn [Z.eqb negb].
    destruct (confined_limit _ _ (ex_confined _ _ _ _ Hex)) as (El & _). destruct Hv as [H1 H2].
    rewrite El, (proj2 (Z.ltb_ge n 2)), (proj2 (Z.leb_gt _ _)) by lia. cbn [orb].
    destruct (IH s2 (l0 ++ [c]) n []) as (s' & new & r & -> & Hex' & Hk' & Hb' & Hr).
    { by eapply confined_fits; [apply Hex|]. }
    { exact (ex_chain _ _ _ _ Hex). }
    exists s', (n :: new), r. split; [done|]. rewrite <- !app_assoc in *. cbn [app] in *. split_and!.
    + apply (grows_trans s s2 s' (l0 ++ [c]) [n] new); [done|]. by rewrite <- app_assoc.
    + intros e i He Hne Hi. pose proof (ex_confined _ _ _ _ Hex) as Hc. destruct (confined_start _ _ e Hc) as (Es & _ & Ez & Hve).
      rewrite <- Es, Hk', Es, Hk; [done|done|set_solver|done|by apply Hve|set_solver|by rewrite Ez].
    + intros i Hi. rewrite Hb', Hb by done. done.
    + by destruct Hr as [?|?]; [left|right].
  - destruct (Hnext d l Hch) as (-> & -> & ->). cbn [negb].
    destruct (IH s (l0 ++ [c]) d l Hf) as (s' & new & r & -> & Hex' & Hk' & Hb' & Hr); [by rewrite <- app_assoc|].
    exists s', new, r. rewrite <- !app_assoc in *. cbn [app] in *. split_and!; try done.
Qed.

(** ** Writing *)

(** Bytes from outside the volume to inside it, or the other way round. *)
Lemma apart_volume s a b n : (forall i, 0 <= i < n -> ~ in_volume s (a + i)) -> fs_data s <= b -> b + n <= fs_data s + fs_size s -> 0 < n ->
  a + n <= b \/ b + n <= a.
Proof.
  intros Ha Hb1 Hb2 Hn. unfold in_volume in Ha. destruct (Z.le_gt_cases (a + n) b) as [?|H1]; [by left|right].
  destruct (Z.le_gt_cases (b + n) a) as [?|H2]; [done|]. exfalso.
  destruct (Z.le_gt_cases a b); [apply (Ha (b - a))|apply (Ha 0)]; lia.
Qed.
Lemma rd_memcpy_in m d a n x : d + n <= a \/ a + n <= d -> d <= x < d + n -> rd (memcpy m d a n) x = rd m (a + (x - d)).
Proof.
  intros Hds Hx. rewrite rd_memcpy by lia. rewrite rd_store_at, decide_True, u8_rd by lia. f_equal. lia.
Qed.

(** A piece of a file is stored in the cluster that holds its position. *)
Definition put_chunk (s : fs) (c off buf n : Z) : fs := set_ram s (memcpy (ram s) (cluster_start s c + off) buf n).
Lemma put_chunk_spec s l c p buf n : table_fits s -> chain s l -> l !! Z.to_nat (p / cluster_size s) = Some c -> 0 <= p ->
  0 < n <= cluster_size s - p mod cluster_size s -> (forall i, 0 <= i < n -> ~ in_volume s (buf + i)) ->
  let s' := put_chunk s c (p mod cluster_size s) buf n in
  confined s s' /\ (forall d, valid_cluster s d -> fat_get s' d = fat_get s d) /\ data_kept s s' l /\
  forall i, 0 <= i -> file_byte s' l i = if decide (p <= i < p + n) then rd (ram s) (buf + (i - p)) else file_byte s l i.
Proof.
  intros Hf Hch Hc Hp Hn Hbuf. pose proof (cluster_size_range s (tf_geometry s Hf)) as Hcsz.
  set (csz := cluster_size s) in *. set (cp := p mod csz) in *. pose proof (Z.mod_pos_bound p csz ltac:(lia)) as Hcp. fold cp in Hcp.
  assert (valid_cluster s c) as Hv by (eapply list.Forall_forall; [apply Hch|by eapply list_elem_of_lookup_2]).
  destruct (cluster_place s c Hf Hv) as [Hp1 Hp2]. pose proof (data_start_low s Hf). cbn zeta. set (s' := put_chunk s c cp buf n).
  assert (cluster_start s c + cp + n <= buf \/ buf + n <= cluster_start s c + cp) as Hap
    by (destruct (apart_volume s buf (cluster_start s c + cp) n Hbuf); lia).
  assert (confined s s') as Hcf.
  { apply confined_ram. intros x Hx. apply rd_memcpy_out. unfold in_volume in Hx. lia. }
  split; [done|]. split.
  { intros d Hvd. apply fat_get_data; [done|done|done|]. intros x Hx. apply rd_memcpy_out. lia. }
  split.
  { intros d i Hvd Hd Hi. apply rd_memcpy_out. destruct (clusters_apart s c d Hf Hv Hvd); [|lia..].
    intros ->. apply Hd. by eapply list_elem_of_lookup_2. }
  intros i Hi. unfold file_byte. change (cluster_size s') with csz. change (cluster_size s) with csz.
  pose proof (Z.mod_pos_bound i csz ltac:(lia)) as Him.
  pose proof (Z.div_mod i csz ltac:(lia)) as Ei. pose proof (Z.div_mod p csz ltac:(lia)) as Ep. fold cp in Ep.
  destruct (decide (i / csz = p / csz)) as [E|E].
  - rewrite E, Hc. change (cluster_start s' c) with (cluster_start s c). rewrite E in Ei. destruct (decide _) as [Hin|Hout].
    + unfold s', put_chunk. cbn [ram set_ram]. rewrite rd_memcpy_in by lia. f_equal. lia.
    + apply rd_memcpy_out. lia.
  - rewrite decide_False.
    + destruct (l !! Z.to_nat (i / csz)) as [d|] eqn:Ed; [|done]. change (cluster_start s' d) with (cluster_start s d).
      assert (valid_cluster s d) as Hvd by (eapply list.Forall_forall; [apply Hch|by eapply list_elem_of_lookup_2]).
      apply rd_memcpy_out. destruct (clusters_apart s c d Hf Hv Hvd); [|lia..]. intros ->.
      pose proof (NoDup_lookup _ _ _ _ (ch_nodup _ _ Hch) Hc Ed) as En. apply E.
      assert (0 <= i / csz /\ 0 <= p / csz) as [] by (split; apply Z.div_pos; lia). lia.
    + intros Hin. apply E. symmetry. apply (Z.div_unique i csz (p / csz) (i - csz * (p / csz))); lia.
Qed.

Lemma grows_same s s1 s2 l new : grows s s1 l new -> confined s1 s2 -> (forall d, valid_cluster s1 d -> fat_get s2 d = fat_get s1 d) ->
  grows s s2 l new.
Proof.
  intros [C1 [Hnd Hv Hl] N1 O1 V1] C2 Hs. split.
  - by eapply confined_trans.
  - split; [done|eapply Forall_impl; [exact Hv|]; intros d; apply (confined_valid s1 s2 d C2)|]. apply (links_same s1); [|done].
    intros d Hd. apply Hs. by eapply list.Forall_forall in Hv.
  - done.
  - intros d Hvd Hd. rewrite Hs by by apply (confined_valid s s1 d C1). by apply O1.
  - rewrite V1. f_equal. unfold vacant. rewrite (proj1 (confined_limit _ _ C2)). apply length_filter_same.
    intros d Hd%elem_of_seqZ. rewrite Hs; [done|split; lia].
Qed.
Lemma data_kept_trans s1 s2 s3 a b : confined s1 s2 -> data_kept s1 s2 a -> data_kept s2 s3 b -> data_kept s1 s3 (a ++ b).
Proof.
  intros Hc H1 H2 c i Hv Hn Hi. apply not_elem_of_app in Hn as [Ha Hb]. destruct (confined_start _ _ c Hc) as (Es & _ & Ez & Hvc).
  rewrite <- Es, H2, Es, H1; try done; [by apply Hvc|by rewrite Ez].
Qed.
Lemma data_kept_mono s s' a b : (forall c, c ∈ a -> c ∈ b) -> data_kept s s' a -> data_kept s s' b.
Proof. intros Hs Ha c i Hv Hn Hi. apply Ha; [done| |done]. intros Hc. by apply Hn, Hs. Qed.

(** [stored s s' l new p buf n]: a file got the clusters [new] behind [l], and
    its [n] bytes from position [p] are those at [buf]; nothing else changed. *)
Record stored (s s' : fs) (l new : list Z) (p buf n : Z) : Prop := Stored {
  st_grows : grows s s' l new;
  st_kept : data_kept s s' (l ++ new);
  st_inside : 0 < n -> p + n <= cluster_size s * Z.of_nat (length (l ++ new));
  st_bytes i : 0 <= i -> file_byte s' (l ++ new) i = if decide (p <= i < p + n) then rd (ram s) (buf + (i - p)) else file_byte s l i
}.
Lemma stored_chain s s' l new p buf n : table_fits s -> stored s s' l new p buf n -> table_fits s' /\ chain s' (l ++ new).
Proof. intros Hf [[Hc Hch _ _ _] _ _ _]. split; [by eapply confined_fits|done]. Qed.
Lemma stored_trans s s1 s2 l n1 n2 p buf n m : table_fits s -> stored s s1 l n1 p buf n -> stored s1 s2 (l ++ n1) n2 (p + n) (buf + n) m ->
  0 <= n -> 0 <= m -> (forall i, n <= i < n + m -> ~ in_volume s (buf + i)) -> stored s s2 l (n1 ++ n2) p buf (n + m).
Proof.
  intros Hf [G1 K1 I1 B1] [G2 K2 I2 B2] Hn Hm Hbuf. pose proof (ex_confined _ _ _ _ G1) as Hc. split.
  - by eapply grows_trans.
  - rewrite app_assoc. eapply (data_kept_mono _ _ ((l ++ n1) ++ ((l ++ n1) ++ n2))); [set_solver|]. by eapply data_kept_trans.
  - rewrite app_assoc, length_app. rewrite (proj1 (proj2 (confined_limit _ _ Hc))), length_app in I2.
    pose proof (cluster_size_range s (tf_geometry s Hf)). assert (0 <= cluster_size s * Z.of_nat (length n2)) by nia.
    rewrite Nat2Z.inj_add, Z.mul_add_distr_l in *. intros Hnm. destruct (decide (m = 0)); lia.
  - intros i Hi. rewrite app_assoc, B2, B1 by done.
    destruct (decide (p + n <= i < p + n + m)), (decide (p <= i < p + n)), (decide (p <= i < p + (n + m))); try lia; try done.
    replace (buf + n + (i - (p + n))) with (buf + (i - p)) by lia. apply Hc, Hbuf. lia.
Qed.
Lemma stored_none s s' l new p buf : grows s s' l new -> data_kept s s' new -> (forall i, 0 <= i -> file_byte s' (l ++ new) i = file_byte s l i) ->
  stored s s' l new p buf 0.
Proof. intros Hg Hk Hb. split; [done|eapply data_kept_mono; [|done]; set_solver|lia|]. intros i Hi. rewrite decide_False by lia. by apply Hb. Qed.

(** The cluster that holds position [p]. *)
Lemma chain_cluster_grows s c l p buf : table_fits s -> chain s (c :: l) -> 0 <= p < 4294967296 ->
  exists s' new r, chain_cluster s c (u32 (p / cluster_size s)) true = (s', r) /\ stored s s' (c :: l) new p buf 0 /\
    (r = 0 /\ vacant s' = [] \/ r <> 0 /\ valid_cluster s' r /\ (c :: l ++ new) !! Z.to_nat (p / cluster_size s') = Some r).
Proof.
  intros Hf Hch Hp. pose proof (cluster_size_range s (tf_geometry s Hf)) as Hcsz.
  assert (0 <= p / cluster_size s <= p) by (split; [apply Z.div_pos; lia|apply Z.div_le_upper_bound; nia]).
  rewrite u32_small by lia. unfold chain_cluster. pose proof (ch_valid _ _ Hch) as Hv. apply Forall_cons in Hv as [[Hc2 _] _].
  rewrite (proj2 (Z.ltb_ge c 2)) by lia.
  destruct (chain_loop_grows (Z.to_nat (p / cluster_size s)) s [] c l Hf Hch) as (s1 & new & r & -> & Hg & Hk & Hb & Hr). cbn [app] in *.
  exists s1, new, r. split; [done|]. split; [by apply stored_none|]. destruct Hr as [?|Hr]; [by left|right].
  assert (valid_cluster s1 r) as Hv1 by (eapply list.Forall_forall; [apply (ch_valid _ _ (ex_chain _ _ _ _ Hg))|by eapply list_elem_of_lookup_2]).
  rewrite (proj1 (proj2 (confined_limit _ _ (ex_confined _ _ _ _ Hg)))). split; [intros ->; by destruct Hv1|done].
Qed.
Lemma put_chunk_stored s l c p buf n : table_fits s -> chain s l -> l !! Z.to_nat (p / cluster_size s) = Some c -> 0 <= p ->
  0 < n <= cluster_size s - p mod cluster_size s -> (forall i, 0 <= i < n -> ~ in_volume s (buf + i)) ->
  stored s (put_chunk s c (p mod cluster_size s) buf n) l [] p buf n.
Proof.
  intros Hf Hch Hc Hp Hn Hbuf. destruct (put_chunk_spec s l c p buf n Hf Hch Hc Hp Hn Hbuf) as (Hcf & Hget & Hk & Hb).
  split; rewrite ?app_nil_r; [by apply (grows_same s s); [apply grows_refl| |]|done| |done].
  pose proof (cluster_size_range s (tf_geometry s Hf)). apply lookup_lt_Some in Hc. pose proof (Z.div_mod p (cluster_size s) ltac:(lia)).
  assert (0 <= p / cluster_size s) by (apply Z.div_pos; lia). intros _.
  assert (cluster_size s * (p / cluster_size s + 1) <= cluster_size s * Z.of_nat (length l)) by nia. lia.
Qed.

(** The loop of [fs_write_fd] on a file with the clusters [c :: l]: it stores
    the bytes that fit, and stops early only when the volume is full. *)
Definition written_open (f : fs_open_t) (n : Z) : fs_open_t :=
  FsOpen (used f) (dir_entry_offset f) (first_cluster f) (if n =? 0 then fsize f else Z.max (fsize f) (pos f + n)) (pos f + n) (flags f).
Lemma write_loop_stores fuel s f buf len done c l : table_fits s -> chain s (c :: l) -> first_cluster f = c ->
  (forall i, 0 <= i < len - done -> ~ in_volume s (buf + done + i)) -> 0 <= pos f -> pos f + (len - done) < 4294967296 ->
  0 <= done <= len -> (Z.to_nat (len - done) <= fuel)%nat ->
  exists s' new n, write_loop fuel s f buf len done = Ret (s', written_open f n, done + n) /\ 0 <= n <= len - done /\
    stored s s' (c :: l) new (pos f) (buf + done) n /\ (n = len - done \/ vacant s' = []).
Proof.
  revert s f done l. induction fuel as [|fuel IH]; intros s f done l Hf Hch Hfc Hbuf Hp Hlim Hd Hfuel; cbn [write_loop].
  all: assert (forall s' : fs, Ret (s', f, done) = Ret (s', written_open f 0, done + 0)) as Hstop
    by (intros s'; unfold written_open; cbn [Z.eqb]; rewrite !Z.add_0_r; by destruct f).
  all: pose proof (stored_none s s (c :: l) [] (pos f) (buf + done) (grows_refl _ _ Hch) ltac:(done) ltac:(by rewrite app_nil_r)) as Hnone.
  { rewrite (proj2 (Z.leb_le len done)), Hstop by lia. exists s, [], 0. split_and!; [done|lia|lia|done|left; lia]. }
  destruct (Z.leb_spec len done) as [Hle|Hlt]; [rewrite Hstop; exists s, [], 0; split_and!; [done|lia|lia|done|left; lia]|].
  pose proof (cluster_size_range s (tf_geometry s Hf)) as Hcsz.
  pose proof (Z.mod_pos_bound (pos f) (cluster_size s) ltac:(lia)) as Hcp. rewrite (u32_small (pos f mod cluster_size s)) by lia. rewrite Hfc.
  destruct (chain_cluster_grows s c l (pos f) (buf + done) Hf Hch ltac:(lia)) as (s1 & new & r & -> & Hst & [[-> Hv]|(Hr & Hvr & Hlk)]).
  { rewrite Hstop. exists s1, new, 0. split_and!; [done|lia|lia|done|by right]. }
  rewrite (proj2 (Z.eqb_neq r 0) Hr). pose proof (ex_confined _ _ _ _ (st_grows _ _ _ _ _ _ _ Hst)) as Hcf.
  destruct (stored_chain _ _ _ _ _ _ _ Hf Hst) as [Hf1 Hch1]. cbn [app] in Hch1. destruct (confined_start _ _ r Hcf) as (_ & _ & Ez & _).
  set (chunk := if _ <? _ then _ else _).
  assert (0 < chunk <= cluster_size s1 - pos f mod cluster_size s1 /\ chunk <= len - done) as [Hn1 Hn2]
    by (rewrite Ez; unfold chunk; destruct (Z.ltb_spec (len - done) (cluster_size s - pos f mod cluster_size s)); lia).
  destruct (cluster_place s1 r Hf1 Hvr) as [_ Hp2]. unfold cluster_start in Hp2.
  rewrite (proj2 (range_ok_true s1 _ _)); [cbn [negb]|rewrite Ez in Hn1, Hp2; destruct (tf_geometry s1 Hf1) as (_ & _ & _ & _ & _ & _ & _ & _ & _ & ? & _); lia].
  rewrite Z.add_assoc. fold (cluster_start s1 r). rewrite <- Ez. fold (put_chunk s1 r (pos f mod cluster_size s1) (buf + done) chunk).
  assert (forall i, 0 <= i < len - done -> ~ in_volume s1 (buf + done + i)) as Hbuf1
    by (intros i Hi; unfold in_volume in *; rewrite (proj1 Hcf), (proj1 (proj2 Hcf)); by apply Hbuf).
  pose proof (put_chunk_stored s1 _ r (pos f) (buf + done) chunk Hf1 Hch1 Hlk Hp Hn1 ltac:(intros i Hi; apply Hbuf1; lia)) as Hput.
  set (s2 := put_chunk _ _ _ _ _) in *.
  assert (stored s s2 (c :: l) new (pos f) (buf + done) chunk) as Hst2.
  { rewrite <- (app_nil_r new). apply (stored_trans s s1 s2 (c :: l) new [] (pos f) (buf + done) 0 chunk); [done|done|by rewrite !Z.add_0_r|lia|lia|].
    intros i Hi. apply Hbuf. lia. }
  destruct (stored_chain _ _ _ _ _ _ _ Hf Hst2) as [Hf2 Hch2]. pose proof (ex_confined _ _ _ _ (st_grows _ _ _ _ _ _ _ Hst2)) as Hcf2.
  rewrite (u32_small (pos f + chunk)) by lia.
  replace (FsOpen _ _ _ _ _ _) with (written_open f chunk); [|unfold written_open; rewrite Hfc, (proj2 (Z.eqb_neq chunk 0)) by lia; f_equal;
    destruct (Z.ltb_spec (fsize f) (pos f + chunk)); lia].
  destruct (IH s2 (written_open f chunk) (done + chunk) (l ++ new)) as (s' & new' & n & -> & Hn & Hst3 & Hfull);
    [done|done|done| |cbn; lia|cbn; lia|lia|lia|].
  { intros i Hi. unfold in_volume in *. rewrite (proj1 Hcf2), (proj1 (proj2 Hcf2)), Z.add_assoc, <- Z.add_assoc. apply Hbuf. lia. }
  exists s', (new ++ new'), (chunk + n). split_and!; [|lia|lia| |destruct Hfull; [left; lia|by right]].
  - rewrite Z.add_assoc. do 3 f_equal. unfold written_open. cbn [used dir_entry_offset first_cluster fsize pos flags].
    rewrite (proj2 (Z.eqb_neq chunk 0)), (proj2 (Z.eqb_neq (chunk + n) 0)) by lia. f_equal; [|lia]. destruct (Z.eqb_spec n 0); lia.
  - apply (stored_trans s s2 s'); [done|done| |lia|lia|intros i Hi; apply Hbuf; lia]. rewrite <- Z.add_assoc. exact Hst3.
Qed.

(** ** The directory entry *)

Definition save_entry (s : fs) (off c size : Z) : fs :=
  set_ram s (wr32 (entry_set_first_cluster (ram s) (fs_data s + off) c) (fs_data s + off + 28) size).
(** The entry lies in the cluster [q]. *)
Definition entry_in (s : fs) (q off : Z) : Prop :=
  valid_cluster s q /\ cluster_offset s q <= off /\ off + 32 <= cluster_offset s q + cluster_size s.

Lemma rd16_wr16 m p v : rd16 (wr16 m p v) p = u16 v.
Proof.
  rewrite rd16_sum. unfold wr16. rewrite rd_wr_ne, !rd_wr_eq by lia. rewrite Z.shiftr_div_pow2 by lia. change (2 ^ 8) with 256. mlia.
Qed.
Lemma rd16_ext m m' p : rd m' p = rd m p -> rd m' (p + 1) = rd m (p + 1) -> rd16 m' p = rd16 m p.
Proof. intros E1 E2. unfold rd16. by rewrite E1, E2. Qed.
Lemma saved_cluster m e c size : 0 <= c < 4294967296 -> entry_first_cluster (wr32 (entry_set_first_cluster m e c) (e + 28) size) e = c.
Proof.
  intros Hc. unfold entry_first_cluster.
  rewrite (rd16_ext (entry_set_first_cluster m e c) _ (e + 20)) by (rewrite rd_wr32, decide_False by lia; done).
  rewrite (rd16_ext (entry_set_first_cluster m e c) _ (e + 26)) by (rewrite rd_wr32, decide_False by lia; done).
  unfold entry_set_first_cluster. rewrite rd16_wr16.
  rewrite (rd16_ext (wr16 m (e + 20) (u16 (Z.shiftr c 16))) _ (e + 20)) by (apply rd_wr16_out; lia). rewrite rd16_wr16.
  rewrite Z.lor_comm, lor_shiftl_add by (pose proof (u16_range (u16 c)); lia). rewrite Z.shiftr_div_pow2 by lia. change (2 ^ 16) with 65536. mlia.
Qed.

Lemma save_entry_spec s q off c size : table_fits s -> entry_in s q off -> 0 <= c < 4294967296 -> 0 <= size < 4294967296 ->
  let s' := save_entry s off c size in
  confined s s' /\ (forall d, valid_cluster s d -> fat_get s' d = fat_get s d) /\ data_kept s s' [q] /\
  entry_first_cluster (ram s') (fs_data s + off) = c /\ rd32 (ram s') (fs_data s + off + 28) = size.
Proof.
  intros Hf (Hq & Ho1 & Ho2) Hc Hsz s'. destruct (cluster_place s q Hf Hq) as [Hp1 Hp2]. pose proof (data_start_low s Hf).
  unfold cluster_start in *.
  assert (forall x, ~ (fs_data s + off <= x < fs_data s + off + 32) -> rd (ram s') x = rd (ram s) x) as Hx.
  { intros x Hx. unfold s', save_entry, entry_set_first_cluster. cbn [ram set_ram]. rewrite rd_wr32, decide_False by lia. by rewrite !rd_wr16_out by lia. }
  assert (confined s s') as Hcf by (apply confined_ram; intros x Hnx; apply Hx; unfold in_volume in Hnx; lia).
  split_and!; [done| | | |].
  - intros d Hd. apply fat_get_data; [done..|]. intros x Hlt. apply Hx. lia.
  - intros d i Hd Hne Hi. apply Hx. destruct (clusters_apart s q d Hf Hq Hd ltac:(set_solver)); unfold cluster_start in *; lia.
  - by apply saved_cluster.
  - unfold s', save_entry. cbn [ram set_ram]. by rewrite rd32_wr32, u32_small.
Qed.

(** ** Writing through a descriptor *)

(** The clusters of the open file [f]. *)
Definition file_of (s : fs) (f : fs_open_t) (l : list Z) : Prop := chain s l /\ first_cluster f = default 0 (head l).
Definition writable (f : fs_open_t) : Prop := has (flags f) FS_O_WRONLY = true \/ Z.land (flags f) FS_O_RDWR = FS_O_RDWR.

(** The first cluster, allocated when the file has none. *)
Lemma first_cluster_stored s f l p buf : table_fits s -> file_of s f l ->
  exists s1 new first, (if first_cluster f =? 0 then alloc_cluster s else (s, first_cluster f)) = (s1, first) /\ stored s s1 l new p buf 0 /\
    (first = 0 /\ s1 = s /\ vacant s = [] \/ first <> 0 /\ exists l', l ++ new = first :: l').
Proof.
  intros Hf [Hch Hfirst]. destruct l as [|c l]; cbn in Hfirst; rewrite Hfirst.
  - cbn [Z.eqb]. destruct (alloc_cluster_spec s Hf) as [[Ev ->]|(s1 & c & -> & Hv & E0 & Hc & E1 & Ho & Hd & Hz & Hn)].
    { exists s, [], 0. split_and!; [done|by apply stored_none; [apply grows_refl| |]|by left]. }
    exists s1, [c], c. split; [done|]. split; [|right; split; [intros ->; by destruct Hv|by exists []]]. apply stored_none.
    + split; [done| |by repeat constructor|intros d Hvd Hnd; apply Ho; [done|set_solver]|cbn; lia].
      split; [apply NoDup_singleton|constructor; [by apply (confined_valid s s1)|done]|]. cbn. by rewrite E1.
    + done.
    + intros i Hi. apply file_byte_kept; try done; [set_solver|]. intros d j ->%list_elem_of_singleton Hj. by apply Hz.
  - pose proof (ch_valid _ _ Hch) as Hv. apply Forall_cons in Hv as [[Hc2 _] _]. rewrite (proj2 (Z.eqb_neq c 0)) by lia.
    exists s, [], c. split; [done|]. split; [by apply stored_none; [apply grows_refl| |rewrite app_nil_r]|]. right. split; [lia|]. exists l. by rewrite app_nil_r.
Qed.

Lemma fs_write_fd_stores s fd f l q buf len : fs_ok s -> table_fits s -> open_at s fd = Some f -> writable f -> file_of s f l ->
  entry_in s q (dir_entry_offset f) -> fat_get s q <> 0 -> q ∉ l -> buf <> 0 -> 0 <= fsize f < 4294967296 ->
  0 <= len -> pos f + len < 4294967296 -> (forall i, 0 <= i < len -> ~ in_volume s (buf + i)) ->
  (exists f1, fs_write_fd s fd buf len = Ret (set_open s fd f1, -1) /\ vacant s = []) \/
  exists s1 new c l' n, l ++ new = c :: l' /\
    let f1 := written_open (FsOpen true (dir_entry_offset f) c (fsize f) (pos f) (flags f)) n in
    fs_write_fd s fd buf len = Ret (set_open s1 fd f1, n) /\ 0 <= n <= len /\ grows s s1 l new /\ data_kept s s1 (q :: l ++ new) /\
    (n = len \/ vacant s1 = []) /\ (0 < n -> pos f + n <= cluster_size s * Z.of_nat (length (l ++ new))) /\
    (forall i, 0 <= i -> file_byte s1 (l ++ new) i = if decide (pos f <= i < pos f + n) then rd (ram s) (buf + (i - pos f)) else file_byte s l i) /\
    entry_first_cluster (ram s1) (fs_data s + dir_entry_offset f) = c /\ rd32 (ram s1) (fs_data s + dir_entry_offset f + 28) = fsize f1.
Proof.
  intros Hok Hf Hfd Hwr Hfile Hq Hqb Hql Hbuf Hsz Hlen Hlim Hout. unfold fs_write_fd. rewrite (fo_mode s Hok). cbn [Z.eqb negb FS_MODE_FAT32 Pos.eqb].
  rewrite Hfd, (proj2 (Z.eqb_neq buf 0)) by done. apply fs_open_at_Some in Hfd as (Hr & Hfd & Hu).
  pose proof (fo_open s Hok _ _ Hfd Hu) as (He0 & He & Hp).
  assert ((Z.land (flags f) FS_O_WRONLY =? 0) && negb (Z.land (flags f) FS_O_RDWR =? FS_O_RDWR) = false) as ->.
  { apply andb_false_iff. destruct Hwr as [H|H]; [left; by apply negb_true_iff in H|right; by rewrite H]. }
  destruct (first_cluster_stored s f l (pos f) buf Hf Hfile) as (s1 & new & first & -> & Hst & [(-> & -> & Hv)|(Hne & l' & El)]).
  { left. eexists. split; [done|exact Hv]. }
  right. rewrite (proj2 (Z.eqb_neq first 0) Hne). rewrite Hu. set (f0 := FsOpen true (dir_entry_offset f) first (fsize f) (pos f) (flags f)).
  destruct (stored_chain _ _ _ _ _ _ _ Hf Hst) as [Hf1 Hch1]. rewrite El in Hch1. pose proof (ex_confined _ _ _ _ (st_grows _ _ _ _ _ _ _ Hst)) as Hcf1.
  destruct (write_loop_stores (Z.to_nat len) s1 f0 buf len 0 first l' Hf1 Hch1 eq_refl) as (s2 & new2 & n & -> & Hn & Hst2 & Hfull);
    [|done|cbn; lia|lia|lia|].
  { intros i Hi. unfold in_volume in *. rewrite (proj1 Hcf1), (proj1 (proj2 Hcf1)), Z.add_0_r. apply Hout. lia. }
  rewrite Z.add_0_r, Z.sub_0_r in *. rewrite <- El in Hst2.
  assert (stored s s2 l (new ++ new2) (pos f) buf n) as Hst02.
  { apply (stored_trans s s1 s2 l new new2 (pos f) buf 0 n); [done|done|by rewrite !Z.add_0_r|lia|lia|intros i Hi; apply Hout; lia]. }
  clear Hst Hst2. destruct (stored_chain _ _ _ _ _ _ _ Hf Hst02) as [Hf2 Hch2]. destruct Hst02 as [Hg Hk Hin Hb].
  pose proof (ex_confined _ _ _ _ Hg) as Hcf2. set (f1 := written_open f0 n). destruct (confined_limit _ _ Hcf2) as (El2 & Ez2 & Eo2 & _).
  assert (valid_cluster s2 first) as [Hfv1 Hfv2] by (eapply list.Forall_forall; [apply Hch2|]; rewrite app_assoc, El; apply list_elem_of_here).
  assert (entry_in s2 q (dir_entry_offset f)) as Hq2.
  { destruct Hq as (Hvq & ?). unfold entry_in. rewrite Ez2, Eo2. split; [by apply (confined_valid s s2 q Hcf2)|done]. }
  assert (0 <= fsize f1 < 4294967296) as Hsz1 by (unfold f1, written_open; cbn [fsize f0]; destruct (n =? 0); [done|cbn; lia]).
  pose proof (tf_numbers s2 Hf2) as Hnum. unfold FAT32_EOC in Hnum.
  destruct (save_entry_spec s2 q (dir_entry_offset f) first (fsize f1) Hf2 Hq2 ltac:(lia) Hsz1) as (Hcf3 & Hget & Hk3 & Ec & Es).
  cbn [mbind outcome_bind]. change (dir_entry_offset f1) with (dir_entry_offset f) in *. change (first_cluster f1) with first.
  fold (save_entry s2 (dir_entry_offset f) first (fsize f1)). set (s3 := save_entry _ _ _ _) in *.
  pose proof (grows_same _ _ _ _ _ Hg Hcf3 Hget) as Hg3. rewrite (proj1 Hcf2) in Ec, Es.
  assert (forall c, c ∈ l ++ new ++ new2 -> c <> q) as Hnq.
  { intros c Hc ->. apply elem_of_app in Hc as [?|Hc]; [done|]. apply Hqb.
    by apply (proj1 (list.Forall_forall _ _) (ex_new _ _ _ _ Hg)). }
  exists s3, (new ++ new2), first, (l' ++ new2), n. split; [by rewrite app_assoc, El|]. cbn zeta. fold f0 f1. split_and!; try done; [|lia|lia| | |].
  - rewrite s64_small by lia. done.
  - eapply (data_kept_mono _ _ ((l ++ new ++ new2) ++ [q])); [set_solver|]. by eapply (data_kept_trans _ s2).
  - destruct Hfull as [?|Hv]; [left; lia|right]. apply length_zero_iff_nil. pose proof (ex_vacant _ _ _ _ Hg). pose proof (ex_vacant _ _ _ _ Hg3).
    apply (f_equal length) in Hv. cbn in Hv. lia.
  - intros i Hi. rewrite <- Hb by done. unfold file_byte. destruct (confined_start _ _ 0 Hcf3) as (_ & _ & -> & _).
    destruct ((l ++ new ++ new2) !! _) as [c|] eqn:Elk; [|done]. apply list_elem_of_lookup_2 in Elk. rewrite (proj1 (confined_start _ _ c Hcf3)).
    pose proof (cluster_size_range s2 (tf_geometry s2 Hf2)). apply Hk3; [eapply list.Forall_forall; [apply Hch2|done]| |apply Z.mod_pos_bound; lia].
    intros ->%list_elem_of_singleton. by apply (Hnq q).
Qed.

(** ** Reading *)

(** [s'] differs from [s] in memory outside the volume. *)
Definition same_volume (s s' : fs) : Prop := s' = set_ram s (ram s') /\ forall x, in_volume s x -> rd (ram s') x = rd (ram s) x.

Lemma same_volume_get s s' c : same_volume s s' -> fat_get s' c = fat_get s c.
Proof.
  intros [-> Hx]. unfold fat_get. change (fat_entry_offset (set_ram s (ram s')) c 0) with (fat_entry_offset s c 0).
  change (range_ok (set_ram s (ram s')) (fat_entry_offset s c 0) 4) with (range_ok s (fat_entry_offset s c 0) 4).
  destruct (range_ok s (fat_entry_offset s c 0) 4) eqn:E; cbn [negb]; [|done]. apply range_ok_true in E as (_ & _ & E).
  pose proof (fat_entry_nonneg s c 0). cbn [ram fs_data set_ram]. rewrite !rd32_sum, !Hx by (unfold in_volume; lia). done.
Qed.
Lemma same_volume_file s s' l i : table_fits s -> chain s l -> same_volume s s' ->
  table_fits s' /\ chain s' l /\ (0 <= i -> file_byte s' l i = file_byte s l i).
Proof.
  intros Hf [Hnd Hv Hl] Hs. pose proof (fun c => same_volume_get s s' c Hs) as Hg. destruct Hs as [Es Hx].
  generalize dependent (ram s'). intros m -> Hx. split; [by destruct Hf|]. split; [split; [done|done|by apply (links_same s)]|]. intros Hi. unfold file_byte.
  change (cluster_size (set_ram s m)) with (cluster_size s). destruct (l !! _) as [c|] eqn:E; [|done].
  change (cluster_start (set_ram s m) c) with (cluster_start s c).
  assert (valid_cluster s c) as Hvc by (eapply list.Forall_forall; [exact Hv|by eapply list_elem_of_lookup_2]).
  destruct (cluster_place s c Hf Hvc). pose proof (data_start_low s Hf). pose proof (cluster_size_range s (tf_geometry s Hf)).
  pose proof (Z.mod_pos_bound i (cluster_size s) ltac:(lia)). apply Hx. unfold in_volume. lia.
Qed.

(** The loop of [fs_read_fd] within the clusters of the file. *)
Lemma read_loop_file fuel s f dst len done c l : table_fits s -> chain s (c :: l) -> first_cluster f = c -> 0 <= pos f ->
  pos f + (len - done) < 4294967296 -> pos f + (len - done) <= cluster_size s * Z.of_nat (length (c :: l)) ->
  (forall i, done <= i < len -> ~ in_volume s (dst + i)) -> done <= len -> (Z.to_nat (len - done) <= fuel)%nat ->
  exists s', read_loop fuel s f dst len done = Ret (s', set_pos f (pos f + (len - done)), len) /\ same_volume s s' /\
    (forall i, 0 <= i < len - done -> rd (ram s') (dst + done + i) = file_byte s (c :: l) (pos f + i)) /\
    forall x, x < dst + done \/ dst + len <= x -> rd (ram s') x = rd (ram s) x.
Proof.
  revert s f done. induction fuel as [|fuel IH]; intros s f done Hf Hch Hfc Hp Hlim Hfit Hout Hd Hfuel; cbn [read_loop].
  all: assert (done = len -> exists s', Ret (s, f, done) = Ret (s', set_pos f (pos f + (len - done)), len) /\ same_volume s s' /\
    (forall i, 0 <= i < len - done -> rd (ram s') (dst + done + i) = file_byte s (c :: l) (pos f + i)) /\
    forall x, x < dst + done \/ dst + len <= x -> rd (ram s') x = rd (ram s) x) as Hstop
    by (intros <-; exists s; rewrite Z.sub_diag, Z.add_0_r; split_and!; [by destruct f|by destruct s|lia|done]).
  { rewrite (proj2 (Z.leb_le len done)) by lia. apply Hstop. lia. }
  destruct (Z.leb_spec len done) as [Hle|Hlt]; [apply Hstop; lia|]. clear Hstop.
  pose proof (cluster_size_range s (tf_geometry s Hf)) as Hcsz. pose proof (Z.mod_pos_bound (pos f) (cluster_size s) ltac:(lia)) as Hcp.
  pose proof (Z.div_mod (pos f) (cluster_size s) ltac:(lia)) as Ep.
  assert (0 <= pos f / cluster_size s <= pos f) as Hq by (split; [apply Z.div_pos; lia|apply Z.div_le_upper_bound; nia]).
  rewrite (u32_small (pos f / _)), (u32_small (pos f mod _)) by lia.
  unfold chain_cluster. pose proof (ch_valid _ _ Hch) as Hv. pose proof Hv as Hv'.
  apply Forall_cons in Hv' as [[Hc2 _] _]. rewrite Hfc, (proj2 (Z.ltb_ge c 2)) by lia.
  rewrite (chain_loop_find _ s [] c l Hf Hch). cbn [snd].
  destruct ((c :: l) !! Z.to_nat (pos f / cluster_size s)) as [r|] eqn:Er; [|apply lookup_ge_None in Er; nia]. cbn [default from_option id].
  assert (valid_cluster s r) as Hvr by (eapply list.Forall_forall; [exact Hv|by eapply list_elem_of_lookup_2]).
  destruct (Z.eqb_spec r 0) as [->|_]; [by destruct Hvr|]. set (chunk := if _ <? _ then _ else _).
  assert (0 < chunk <= cluster_size s - pos f mod cluster_size s /\ chunk <= len - done) as [Hn1 Hn2]
    by (unfold chunk; destruct (Z.ltb_spec (len - done) (cluster_size s - pos f mod cluster_size s)); lia).
  destruct (cluster_place s r Hf Hvr) as [Hp1 Hp2]. pose proof (data_start_low s Hf). unfold cluster_start in Hp1, Hp2.
  rewrite (proj2 (range_ok_true s _ _)); [cbn [negb]|destruct (tf_geometry s Hf) as (_ & _ & _ & _ & _ & _ & _ & _ & _ & ? & _); lia].
  rewrite (u32_small (pos f + chunk)) by lia. set (s1 := set_ram s _).
  assert (dst + done + chunk <= fs_data s + cluster_offset s r + pos f mod cluster_size s \/
    fs_data s + cluster_offset s r + pos f mod cluster_size s + chunk <= dst + done) as Hap.
  { apply (apart_volume s); [|lia..]. intros i Hi. rewrite <- Z.add_assoc. apply Hout. lia. }
  assert (same_volume s s1) as Hs1.
  { split; [done|]. intros x Hx. apply rd_memcpy_out. destruct (decide (dst + done <= x < dst + done + chunk)) as [Hin|]; [|lia].
    exfalso. apply (Hout (x - dst)); [lia|]. by replace (dst + (x - dst)) with x by lia. }
  destruct (same_volume_file s s1 (c :: l) 0 Hf Hch Hs1) as (Hf1 & Hch1 & _).
  destruct (IH s1 (set_pos f (pos f + chunk)) (done + chunk) Hf1 Hch1 Hfc) as (s' & -> & [Es' Hs'] & Hb & Hx);
    [cbn; lia|cbn; lia|cbn [pos set_pos]; change (cluster_size s1) with (cluster_size s); lia|intros i Hi; apply Hout; lia|lia|lia|].
  cbn [set_pos pos used dir_entry_offset first_cluster fsize flags] in *. exists s'. split_and!.
  - unfold set_pos. cbn [used dir_entry_offset first_cluster fsize flags]. do 4 f_equal. lia.
  - split; [by rewrite Es'|]. intros x Hin. rewrite Hs' by exact Hin. by apply Hs1.
  - intros i Hi. destruct (decide (chunk <= i)) as [Hge|Hless].
    + replace (dst + done + i) with (dst + (done + chunk) + (i - chunk)) by lia. rewrite Hb by lia.
      replace (pos f + chunk + (i - chunk)) with (pos f + i) by lia. apply (same_volume_file s s1 (c :: l) (pos f + i) Hf Hch Hs1). lia.
    + rewrite Hx by lia. unfold s1. cbn [ram set_ram]. rewrite rd_memcpy_in by lia. unfold file_byte.
      replace ((pos f + i) / cluster_size s) with (pos f / cluster_size s) by (apply (Z.div_unique_pos _ _ _ (pos f mod cluster_size s + i)); lia).
      rewrite Er. unfold cluster_start. f_equal.
      replace ((pos f + i) mod cluster_size s) with (pos f mod cluster_size s + i)
        by (apply (Z.mod_unique_pos _ _ (pos f / cluster_size s)); lia). lia.
  - intros x Hx2. rewrite Hx by lia. apply rd_memcpy_out. lia.
Qed.

(** ** Files keep what is written *)

(** The file [f] with the clusters [l] is open for writing on [fd]; its entry is
    in the cluster [q] of the directory. *)
Record open_file (s : fs) (fd : Z) (f : fs_open_t) (l : list Z) (q : Z) : Prop := OpenFile {
  of_ok : fs_ok s;
  of_table : table_fits s;
  of_open : open_at s fd = Some f;
  of_writable : writable f;
  of_file : file_of s f l;
  of_size : 0 <= fsize f < 4294967296;
  of_entry : entry_in s q (dir_entry_offset f);
  of_directory : fat_get s q <> 0 /\ q ∉ l
}.
Definition outside (s : fs) (a n : Z) : Prop := a <> 0 /\ forall i, 0 <= i < n -> ~ in_volume s (a + i).

Lemma fs_open_at_set s fd f g : fs_ok s -> open_at s fd = Some f -> used g = true -> open_files (set_open s fd g) !! Z.to_nat fd = Some g /\ open_at (set_open s fd g) fd = Some g.
Proof.
  intros Hok (Hr & Hf & Hu)%fs_open_at_Some Hg. assert (open_files (set_open s fd g) !! Z.to_nat fd = Some g) as E.
  { cbn. apply list_lookup_insert_eq. apply lookup_lt_Some in Hf. done. }
  split; [done|]. by apply fs_open_at_Some.
Qed.

Lemma fs_read_fd_file s fd f dst n c l : fs_mode s = FS_MODE_FAT32 -> table_fits s -> open_at s fd = Some f -> chain s (c :: l) -> first_cluster f = c ->
  0 <= pos f -> 0 <= n -> outside s dst n ->
  (0 < n -> pos f + n <= fsize f < 4294967296 /\ pos f + n <= cluster_size s * Z.of_nat (length (c :: l))) ->
  exists s', fs_read_fd s fd dst n = Ret (s', n) /\ forall i, 0 <= i < n -> rd (ram s') (dst + i) = file_byte s (c :: l) (pos f + i).
Proof.
  intros Hm Hf Ho Hch Hfc Hp Hn [Hd Hout] Hfit. unfold fs_read_fd. rewrite Hm, Ho. cbn [negb Z.eqb FS_MODE_FAT32 Pos.eqb].
  rewrite (proj2 (Z.eqb_neq dst 0)) by done. destruct (Z.eqb_spec n 0) as [->|Hn0].
  { rewrite orb_true_r. exists s. split; [done|lia]. }
  destruct Hfit as [Hsz Hfit]; [lia|].
  rewrite (proj2 (Z.leb_gt (fsize f) (pos f))), (proj2 (Z.ltb_ge (fsize f - pos f) n)) by lia. cbn [orb].
  destruct (read_loop_file (Z.to_nat n) s f dst n 0 c l Hf Hch Hfc Hp) as (s' & -> & _ & Hb & _); [lia|lia|done|lia|lia|].
  cbn [mbind outcome_bind]. eexists. split; [by rewrite s64_small by lia|]. intros i Hi. cbn [ram set_open].
  rewrite Z.add_0_r, Z.sub_0_r in Hb. by apply Hb.
Qed.

Lemma lseek_back s fd f p : fs_mode s = FS_MODE_FAT32 -> open_at s fd = Some f -> 0 <= p < 4294967296 ->
  fs_lseek_fd s fd p FS_SEEK_SET = (set_open s fd (set_pos f p), p).
Proof.
  intros Hm Ho Hp. unfold fs_lseek_fd. rewrite Hm, Ho. cbn [negb Z.eqb FS_MODE_FAT32 FS_SEEK_SET Pos.eqb].
  rewrite Z.add_0_l, s64_small, (proj2 (Z.ltb_ge p 0)), u32_small by lia. done.
Qed.
Lemma cluster_bytes_kept s s' cs c : confined s s' -> data_kept s s' cs -> valid_cluster s c -> c ∉ cs -> cluster_bytes s' c = cluster_bytes s c.
Proof.
  intros Hc Hk Hv Hn. unfold cluster_bytes. destruct (confined_start _ _ c Hc) as (-> & _ & -> & _).
  apply bytes_at_ext. intros x Hx. replace x with (cluster_start s c + (x - cluster_start s c)) by lia. apply Hk; [done|done|lia].
Qed.

Lemma set_open_file s fd g l : table_fits s -> chain s l -> table_fits (set_open s fd g) /\ chain (set_open s fd g) l.
Proof. intros [H1 H2 H3 H4 H5] [H6 H7 H8]. split; split; try assumption. exact (links_same s (set_open s fd g) l (fun _ _ => eq_refl) H8). Qed.

(** C11: a file on the volume gives back what was written to it.  Writing at any
    position of an open file stores all the bytes unless the volume is full;
    sought back and read into any buffer, the bytes that were counted are the
    ones that were written, although the file grew cluster by cluster; the
    clusters of all other files keep their links and their contents. *)
Theorem fs_file_roundtrip s fd f l q buf dst len :
  open_file s fd f l q -> 0 <= len -> pos f + len < 4294967296 -> outside s buf len -> outside s dst len ->
  exists s1 n, fs_write_fd s fd buf len = Ret (s1, n) /\ (n = len \/ -1 <= n < len /\ vacant s1 = []) /\
    (forall c, valid_cluster s c -> fat_get s c <> 0 -> c ∉ q :: l -> fat_get s1 c = fat_get s c /\ cluster_bytes s1 c = cluster_bytes s c) /\
    (0 <= n -> exists s2 s3, fs_lseek_fd s1 fd (pos f) FS_SEEK_SET = (s2, pos f) /\ fs_read_fd s2 fd dst n = Ret (s3, n) /\
       bytes_at (ram s3) dst (Z.to_nat n) = bytes_at (ram s) buf (Z.to_nat n)).
Proof.
  intros [Hok Hf Ho Hw Hfile Hsz Hq [Hqb Hql]] Hlen Hlim [Hb0 Hbuf] [Hd0 Hdst].
  pose proof Ho as (_ & Hof & Hu)%fs_open_at_Some. destruct (fo_open s Hok _ _ Hof Hu) as (_ & _ & Hp).
  destruct (fs_write_fd_stores s fd f l q buf len Hok Hf Ho Hw Hfile Hq Hqb Hql Hb0 Hsz Hlen Hlim Hbuf)
    as [(f1 & E & Hv)|(s1 & new & c & l' & n & El & E & Hn & Hg & Hk & Hfull & Hin & Hbytes & _)].
  { eexists _, (-1). split; [exact E|]. split; [right; split; [lia|exact Hv]|]. split; [|lia]. done. }
  set (f1 := written_open _ n) in *. pose proof (ex_confined _ _ _ _ Hg) as Hc. exists (set_open s1 fd f1), n. split; [done|].
  split; [destruct Hfull; [by left|destruct (decide (n = len)); [by left|right; split; [lia|done]]]|]. split.
  { intros d Hvd Hdb Hdl. assert (d ∉ l ++ new) as Hdn.
    { intros [?|Hin']%elem_of_app; [set_solver|]. apply Hdb. by apply (proj1 (list.Forall_forall _ _) (ex_new _ _ _ _ Hg)). }
    split; [by apply (ex_others _ _ _ _ Hg)|]. change (cluster_bytes s1 d = cluster_bytes s d). eapply cluster_bytes_kept; [done..|set_solver]. }
  intros Hn0. pose proof (confined_ok _ _ Hc Hok) as Hok1. assert (open_at s1 fd = Some f) as Ho1 by (unfold open_at; by destruct Hc as (_ & _ & _ & _ & -> & _)).
  destruct (fs_open_at_set s1 fd f f1 Hok1 Ho1 eq_refl) as [Elk Ho2]. assert (fs_ok (set_open s1 fd f1)) as Hok2.
  { apply fs_set_open_ok; [done|]. destruct (fo_open s1 Hok1 (Z.to_nat fd) f) as (? & ? & ?); [by destruct Hc as (_ & _ & _ & _ & -> & _)|done|]. split_and!; [done..|cbn; lia]. }
  set (f2 := set_pos f1 (pos f)). destruct (fs_open_at_set _ fd f1 f2 Hok2 Ho2 eq_refl) as [_ Ho3].
  exists (set_open (set_open s1 fd f1) fd f2).
  destruct (set_open_file s1 fd f1 (c :: l') (confined_fits _ _ Hc Hf)) as [Ht1 Hch1]; [rewrite <- El; apply Hg|].
  destruct (set_open_file _ fd f2 _ Ht1 Hch1) as [Ht2 Hch2].
  destruct (fs_read_fd_file (set_open (set_open s1 fd f1) fd f2) fd f2 dst n c l') as (s3 & Er & Hread); try done.
  - apply Hok1.
  - split; [done|]. intros i Hi. unfold in_volume. cbn [fs_data fs_size set_open]. rewrite (proj1 Hc), (proj1 (proj2 Hc)). apply Hdst. lia.
  - intros Hpos. split; [unfold f2, f1, set_pos, written_open; cbn [pos fsize]; destruct (Z.eqb_spec n 0); lia|].
    change (cluster_size (set_open _ _ _)) with (cluster_size s1). rewrite (proj1 (proj2 (confined_limit _ _ Hc))), <- El. by apply Hin.
  - exists s3. split; [apply lseek_back; [apply Hok1|exact Ho2|lia]|]. split; [done|].
    apply (list_eq_same_length _ _ (Z.to_nat n)); [by rewrite length_bytes_at..|]. intros i x y Hi Hx Hy.
    rewrite lookup_bytes_at in Hx, Hy by done. injection Hx as <-. injection Hy as <-. rewrite Hread by lia.
    change (file_byte (set_open _ _ _) (c :: l')) with (file_byte s1 (c :: l')). change (pos f2) with (pos f).
    rewrite <- El, Hbytes, decide_True by lia. f_equal. lia.
Qed.

(** ** A new file of the small volume *)

Definition demo_fat_file : fs_open_t := FsOpen true 1536 0 0 0 0x13.
Lemma demo_open_file : open_file demo_open 0 demo_fat_file [] 2.
Proof.
  split.
  - exact demo_open_ok.
  - split; [apply demo_open_ok| | | |]; vm_compute; try done; by split.
  - by vm_compute.
  - by left.
  - split; [|done]. by split; [apply NoDup_nil_2|constructor|].
  - cbn. lia.
  - split_and!; [split; vm_compute; congruence|vm_compute; congruence|vm_compute; congruence].
  - split; [by vm_compute|apply not_elem_of_nil].
Qed.
(** 600 bytes, in two clusters. *)
Lemma fs_file_roundtrip_witness : exists s1 n s2 s3, fs_write_fd demo_open 0 1000 600 = Ret (s1, n) /\ n = 600 /\
  fs_lseek_fd s1 0 0 FS_SEEK_SET = (s2, 0) /\ fs_read_fd s2 0 2000 n = Ret (s3, n) /\
  bytes_at (ram s3) 2000 (Z.to_nat n) = bytes_at (ram demo_open) 1000 (Z.to_nat n).
Proof.
  assert (forall a, 0 <= a < 10000 -> a <> 0 -> outside demo_open a 600) as Hout.
  { intros a Ha Hne. split; [done|]. intros i Hi. unfold in_volume. replace (fs_data demo_open) with 65536 by by vm_compute. lia. }
  destruct (fs_file_roundtrip demo_open 0 demo_fat_file [] 2 1000 2000 600 demo_open_file) as (s1 & n & Hw & Hn & _ & Hr);
    [lia|cbn; lia|apply Hout; lia|apply Hout; lia|].
  assert (match fs_write_fd demo_open 0 1000 600 with Ret (_, r) => r =? 600 | _ => false end = true) as E by by vm_compute.
  rewrite Hw in E. apply Z.eqb_eq in E. destruct Hr as (s2 & s3 & Hl & Hrd & Hb); [lia|].
  exists s1, n, s2, s3. exact (conj Hw (conj E (conj Hl (conj Hrd Hb)))).
Defined.
