(* ===== verification/Framebuffer.v ===== *)
(** * kernel/framebuffer.c: the linear framebuffer

    The state of the driver is the record; the pixels are bytes of memory.
    Every routine maps the memory before to the memory after. *)

From Stdlib Require Import ZArith Lia.
From stdpp Require Import base numbers gmap strings fin_maps option list.
From S2P Require Import Prelude Font.

Local Open Scope Z_scope.

Definition VGA_BLACK : Z := 0.
Definition VGA_WHITE : Z := 15.

(** [framebuffer_state_t]. *)
Record framebuffer_state_t := Fb {
  base : Z; width : Z; height : Z; pitch : Z; bpp : Z; bytes_per_pixel : Z;
  red_position : Z; red_size : Z; green_position : Z; green_size : Z;
  blue_position : Z; blue_size : Z; reserved_position : Z; reserved_size : Z;
  palette : list Z;
  logical_width : Z; logical_height : Z;
  rotate_90_cw : bool; available : bool; enabled : bool
}.
Definition fb_zero : framebuffer_state_t :=
  Fb 0 0 0 0 0 0 0 0 0 0 0 0 0 0 (replicate 16 0) 0 0 false false false.

Definition vga_palette : list (Z * Z * Z) := [
  (0x00, 0x00, 0x00); (0x00, 0x00, 0xAA); (0x00, 0xAA, 0x00); (0x00, 0xAA, 0xAA);
  (0xAA, 0x00, 0x00); (0xAA, 0x00, 0xAA); (0xAA, 0x55, 0x00); (0xAA, 0xAA, 0xAA);
  (0x55, 0x55, 0x55); (0x55, 0x55, 0xFF); (0x55, 0xFF, 0x55); (0x55, 0xFF, 0xFF);
  (0xFF, 0x55, 0x55); (0xFF, 0x55, 0xFF); (0xFF, 0xFF, 0x55); (0xFF, 0xFF, 0xFF)].

(** ** Colours *)

Definition scale_component (value size : Z) : Z :=
  if size =? 0 then 0
  else if 8 <=? size then value
  else let max := 2 ^ size - 1 in u32 (value * max + 127) / 255.

Definition pack_color (fb : framebuffer_state_t) (r g b : Z) : Z :=
  let color := u32 (Z.shiftl (scale_component r (red_size fb)) (red_position fb)) in
  let color := Z.lor color (u32 (Z.shiftl (scale_component g (green_size fb)) (green_position fb))) in
  let color := Z.lor color (u32 (Z.shiftl (scale_component b (blue_size fb)) (blue_position fb))) in
  if 0 <? reserved_size fb
  then Z.lor color (u32 (Z.shiftl (scale_component 0xFF (reserved_size fb)) (reserved_position fb)))
  else color.

Definition refresh_palette (fb : framebuffer_state_t) : list Z :=
  (fun c => let '(r, g, b) := c in pack_color fb r g b) <$> vga_palette.

Definition unpack_component (color pos size : Z) : Z :=
  if size =? 0 then 0 else
  let max := u32 (2 ^ size - 1) in
  let v := Z.land (Z.shiftr color pos) max in
  u8 (u32 (v * 255 + max / 2) / max).

(** ** Configuration *)

(** [framebuffer_configure]; the arguments come from the boot loader. *)
Definition framebuffer_configure (fb : framebuffer_state_t) (addr p w h depth type
    rp rs gp gs bp bs xp xs : Z) : framebuffer_state_t :=
  if (addr =? 0) || (w =? 0) || (h =? 0) || (depth =? 0) then
    Fb (base fb) (width fb) (height fb) (pitch fb) (bpp fb) (bytes_per_pixel fb) (red_position fb) (red_size fb)
      (green_position fb) (green_size fb) (blue_position fb) (blue_size fb) (reserved_position fb) (reserved_size fb)
      (palette fb) (logical_width fb) (logical_height fb) (rotate_90_cw fb) false false
  else
    let bytes := u8 ((depth + 7) / 8) in
    let avail := (type =? 1) && (2 <=? bytes) in
    if avail then
      let stride_pixels := if bytes =? 0 then 0 else p / bytes in
      let rot := (stride_pixels =? h) && negb (w =? h) in
      let fb' := Fb addr w h p depth bytes rp rs gp gs bp bs xp xs (palette fb)
                   (if rot then h else w) (if rot then w else h) rot true (enabled fb) in
      Fb addr w h p depth bytes rp rs gp gs bp bs xp xs (refresh_palette fb')
        (logical_width fb') (logical_height fb') rot true (enabled fb)
    else
      Fb addr w h p depth bytes rp rs gp gs bp bs xp xs (palette fb) 0 0 false false false.

Definition framebuffer_enable (fb : framebuffer_state_t) (on : bool) : framebuffer_state_t :=
  Fb (base fb) (width fb) (height fb) (pitch fb) (bpp fb) (bytes_per_pixel fb) (red_position fb) (red_size fb)
    (green_position fb) (green_size fb) (blue_position fb) (blue_size fb) (reserved_position fb) (reserved_size fb)
    (palette fb) (logical_width fb) (logical_height fb) (rotate_90_cw fb) (available fb) (on && available fb).

Definition framebuffer_enabled (fb : framebuffer_state_t) : bool := enabled fb.
Definition framebuffer_width (fb : framebuffer_state_t) : Z := logical_width fb.
Definition framebuffer_height (fb : framebuffer_state_t) : Z := logical_height fb.
Definition framebuffer_pitch (fb : framebuffer_state_t) : Z := pitch fb.
Definition framebuffer_bpp (fb : framebuffer_state_t) : Z := bpp fb.
Definition framebuffer_text_rows (fb : framebuffer_state_t) : Z :=
  let rows := logical_height fb / 10 in if rows =? 0 then 1 else rows.

(** ** Pixels *)

(** The physical position of a logical pixel, [None] when it is not shown. *)
Definition locate (fb : framebuffer_state_t) (x y : Z) : option (Z * Z) :=
  if negb (enabled fb) then None
  else if (logical_width fb <=? x) || (logical_height fb <=? y) then None
  else
    let px := if rotate_90_cw fb then y else x in
    let py := if rotate_90_cw fb then u32 (width fb - 1 - x) else y in
    if (width fb <=? px) || (height fb <=? py) then None else Some (px, py).

Definition pixel_address (fb : framebuffer_state_t) (px py : Z) : Z :=
  base fb + u32 (py * pitch fb) + u32 (px * bytes_per_pixel fb).

(** The bytes of a colour, low byte first. *)
Definition write_pixel (fb : framebuffer_state_t) (x y color : Z) (m : gmap Z Z) : gmap Z Z :=
  match locate fb x y with
  | None => m
  | Some (px, py) => store_bytes m (pixel_address fb px py) (le_bytes (Z.to_nat (bytes_per_pixel fb)) color)
  end.

Definition read_pixel (fb : framebuffer_state_t) (x y : Z) (m : gmap Z Z) : Z :=
  match locate fb x y with
  | None => 0
  | Some (px, py) => rd_le (Z.to_nat (Z.min (bytes_per_pixel fb) 4)) m (pixel_address fb px py)
  end.

Definition framebuffer_draw_pixel_rgb (fb : framebuffer_state_t) (x y r g b : Z) (m : gmap Z Z) : gmap Z Z * Z :=
  if negb (enabled fb) then (m, 0) else (write_pixel fb x y (pack_color fb r g b) m, 1).

Definition framebuffer_clear_rgb (fb : framebuffer_state_t) (r g b : Z) (m : gmap Z Z) : gmap Z Z :=
  if negb (enabled fb) then m else
  let color := pack_color fb r g b in
  for_range (logical_height fb) (fun y => for_range (logical_width fb) (fun x => write_pixel fb x y color)) m.

(** ** Images *)

(** The size that is left of an extent [n] at position [x] below [limit]. *)
Definition clip (n x limit : Z) : Z := if limit - x <? n then limit - x else n.

(** One source pixel of the RGBA blit, blended by its alpha. *)
Definition blend_pixel (fb : framebuffer_state_t) (x y p : Z) (m : gmap Z Z) : gmap Z Z :=
  let a := rd m (p + 3) in
  if a =? 0 then m
  else if a =? 255 then write_pixel fb x y (pack_color fb (rd m p) (rd m (p + 1)) (rd m (p + 2))) m
  else
    let dst := read_pixel fb x y m in
    let dr := unpack_component dst (red_position fb) (red_size fb) in
    let dg := unpack_component dst (green_position fb) (green_size fb) in
    let db := unpack_component dst (blue_position fb) (blue_size fb) in
    let mix s d := u8 (u32 (s * a + d * (255 - a)) / 255) in
    write_pixel fb x y (pack_color fb (mix (rd m p) dr) (mix (rd m (p + 1)) dg) (mix (rd m (p + 2)) db)) m.

Definition framebuffer_blit_rgba8888 (fb : framebuffer_state_t) (x y w h rgba stride : Z) (m : gmap Z Z) : gmap Z Z * Z :=
  if negb (enabled fb) || (rgba =? 0) || (w =? 0) || (h =? 0) || negb (bpp fb =? 32) then (m, 0) else
  if (logical_width fb <=? x) || (logical_height fb <=? y) then (m, 0) else
  let stride := if stride =? 0 then u32 (w * 4) else stride in
  if stride <? u32 (w * 4) then (m, 0) else
  let w := clip w x (logical_width fb) in
  let h := clip h y (logical_height fb) in
  (for_range h (fun row => for_range w (fun col =>
     blend_pixel fb (u32 (x + col)) (u32 (y + row)) (rgba + u32 (row * stride) + u32 (col * 4)))) m, 1).

(** One source pixel of the RGB blits. *)
Definition copy_pixel (fb : framebuffer_state_t) (x y p : Z) (m : gmap Z Z) : gmap Z Z :=
  write_pixel fb x y (pack_color fb (rd m p) (rd m (p + 1)) (rd m (p + 2))) m.

Definition framebuffer_blit_rgb24 (fb : framebuffer_state_t) (x y w h rgb24 stride : Z) (m : gmap Z Z) : gmap Z Z * Z :=
  if negb (enabled fb) || (rgb24 =? 0) || (w =? 0) || (h =? 0) then (m, 0) else
  if (logical_width fb <=? x) || (logical_height fb <=? y) then (m, 0) else
  let w := clip w x (logical_width fb) in
  let h := clip h y (logical_height fb) in
  let stride := if stride =? 0 then u32 (w * 3) else stride in
  if stride <? u32 (w * 3) then (m, 0) else
  (for_range h (fun row => for_range w (fun col =>
     copy_pixel fb (u32 (x + col)) (u32 (y + row)) (rgb24 + u32 (row * stride) + u32 (col * 3)))) m, 1).

Definition framebuffer_blit_rgb24_scaled (fb : framebuffer_state_t) (x y w h rgb24 src_w src_h stride : Z) (m : gmap Z Z)
    : gmap Z Z * Z :=
  if negb (enabled fb) || (rgb24 =? 0) || (w =? 0) || (h =? 0) || (src_w =? 0) || (src_h =? 0) then (m, 0) else
  if (logical_width fb <=? x) || (logical_height fb <=? y) then (m, 0) else
  let w := clip w x (logical_width fb) in
  let h := clip h y (logical_height fb) in
  let stride := if stride =? 0 then u32 (src_w * 3) else stride in
  if stride <? u32 (src_w * 3) then (m, 0) else
  (for_range h (fun row => for_range w (fun col =>
     copy_pixel fb (u32 (x + col)) (u32 (y + row))
       (rgb24 + u32 (u32 (row * src_h) / h * stride) + u32 (u32 (col * src_w) / w * 3)))) m, 1).

(** ** Text *)

(** The eight bytes of a character's glyph; characters without one are shown
    as a question mark. *)
Definition glyph_of (cell : Z) : list Z :=
  let ch := Z.land cell 0xFF in
  let ch := if (ch <? 32) || (127 <? ch) then 63 else ch in
  take 8 (drop (Z.to_nat ((ch - 32) * 8)) font_petme128_8x8).
Definition fg_of (fb : framebuffer_state_t) (cell : Z) : Z :=
  palette fb !!! Z.to_nat (Z.land (Z.land (Z.shiftr cell 8) 0xFF) 0x0F).
Definition bg_of (fb : framebuffer_state_t) (cell : Z) : Z :=
  palette fb !!! Z.to_nat (Z.land (Z.shiftr (Z.land (Z.shiftr cell 8) 0xFF) 4) 0x0F).

Definition glyph_pixel_on (glyph : list Z) (x y : Z) : bool :=
  negb (Z.land (glyph !!! Z.to_nat x) (u8 (Z.shiftl 1 y)) =? 0).

Definition framebuffer_draw_cell (fb : framebuffer_state_t) (col row cell : Z) (m : gmap Z Z) : gmap Z Z :=
  if negb (enabled fb) then m else
  let glyph := glyph_of cell in
  let base_x := u32 (col * 8) in
  let base_y := u32 (row * 10) in
  let m := for_range 8 (fun y => for_range 8 (fun x =>
             write_pixel fb (u32 (base_x + x)) (u32 (base_y + y))
               (if glyph_pixel_on glyph x y then fg_of fb cell else bg_of fb cell))) m in
  for_range 2 (fun y => for_range 8 (fun x =>
    write_pixel fb (u32 (base_x + x)) (u32 (base_y + (8 + y))) (bg_of fb cell))) m.

(** How a grid of cells is placed: columns and rows shown, scale and origin. *)
Record grid_t := Grid { g_cols : Z; g_rows : Z; g_scale : Z; g_x : Z; g_y : Z }.
Definition grid_layout (fb : framebuffer_state_t) (cols rows : Z) : grid_t :=
  let cols := if logical_width fb <? u32 (cols * 8) then logical_width fb / 8 else cols in
  let rows := if logical_height fb <? u32 (rows * 8) then logical_height fb / 8 else rows in
  let src_width := u32 (cols * 8) in
  let src_height := u32 (rows * 8) in
  let scale_x := if 0 <? src_width then logical_width fb / src_width else 1 in
  let scale_y := if 0 <? src_height then logical_height fb / src_height else 1 in
  let scale := if scale_x <? scale_y then scale_x else scale_y in
  let scale := if scale =? 0 then 1 else scale in
  Grid cols rows scale (u32 (logical_width fb - u32 (src_width * scale)) / 2)
    (u32 (logical_height fb - u32 (src_height * scale)) / 2).

(** One cell of the grid: a scaled glyph. *)
Definition grid_cell (fb : framebuffer_state_t) (g : grid_t) (col row cell : Z) (m : gmap Z Z) : gmap Z Z :=
  let glyph := glyph_of cell in
  let base_x := u32 (g_x g + u32 (u32 (col * 8) * g_scale g)) in
  let base_y := u32 (g_y g + u32 (u32 (row * 8) * g_scale g)) in
  for_range 8 (fun gy => for_range 8 (fun gx =>
    let color := if negb (Z.land (glyph !!! Z.to_nat gy) (Z.shiftl 1 (7 - gx)) =? 0)
                 then fg_of fb cell else bg_of fb cell in
    let px0 := u32 (base_x + u32 (gx * g_scale g)) in
    let py0 := u32 (base_y + u32 (gy * g_scale g)) in
    for_range (g_scale g) (fun sy => for_range (g_scale g) (fun sx =>
      write_pixel fb (u32 (px0 + sx)) (u32 (py0 + sy)) color)))) m.

(** The cells are an array; [None] stands for NULL. *)
Definition framebuffer_present_text_grid (fb : framebuffer_state_t) (cells : option (list Z)) (cols rows : Z)
    (m : gmap Z Z) : gmap Z Z :=
  match cells with
  | None => m
  | Some cells =>
      if negb (enabled fb) || (cols =? 0) || (rows =? 0) then m else
      let g := grid_layout fb cols rows in
      for_range (g_rows g) (fun row => for_range (g_cols g) (fun col =>
        grid_cell fb g col row (cells !!! Z.to_nat (u32 (row * g_cols g + col))))) m
  end.

Definition framebuffer_present_text_grid_dirty (fb : framebuffer_state_t) (curr prev : option (list Z)) (cols rows : Z)
    (m : gmap Z Z) : gmap Z Z :=
  match curr, prev with
  | Some curr, Some prev =>
      if negb (enabled fb) || (cols =? 0) || (rows =? 0) then m else
      let g := grid_layout fb cols rows in
      for_range (g_rows g) (fun row => for_range (g_cols g) (fun col m =>
        let idx := Z.to_nat (u32 (row * g_cols g + col)) in
        if curr !!! idx =? prev !!! idx then m else grid_cell fb g col row (curr !!! idx) m)) m
  | _, _ => m
  end.
