(* ===== verification/FramebufferProofs.v ===== *)
(** * The framebuffer routines stay on the screen *)

From Stdlib Require Import ZArith Lia.
From stdpp Require Import base numbers gmap strings fin_maps option list.
From S2P Require Import Prelude Framebuffer.

Local Open Scope Z_scope.

(** A mode whose rows fit their pitch, in 32-bit arithmetic. *)
Record fb_ok (fb : framebuffer_state_t) : Prop := FbOk {
  fk_width : 0 < width fb < 4294967296;
  fk_height : 0 < height fb < 4294967296;
  fk_bytes : 2 <= bytes_per_pixel fb < 256;
  fk_pitch : width fb * bytes_per_pixel fb <= pitch fb;
  fk_size : height fb * pitch fb < 4294967296;
  fk_logical : logical_width fb = (if rotate_90_cw fb then height fb else width fb) /\
               logical_height fb = (if rotate_90_cw fb then width fb else height fb)
}.

(** The bytes of the screen. *)
Definition screen (fb : framebuffer_state_t) (a : Z) : Prop := base fb <= a < base fb + height fb * pitch fb.

(** Only the screen has changed. *)
Definition drawn (fb : framebuffer_state_t) (m m' : gmap Z Z) : Prop := forall a, ~ screen fb a -> rd m' a = rd m a.

Lemma drawn_refl fb m : drawn fb m m.
Proof. done. Qed.
Lemma drawn_trans fb m1 m2 m3 : drawn fb m1 m2 -> drawn fb m2 m3 -> drawn fb m1 m3.
Proof. intros H1 H2 a Ha. by rewrite H2, H1. Qed.
#[export] Instance drawn_preorder fb : PreOrder (drawn fb).
Proof. split; [intros m; apply drawn_refl|intros m1 m2 m3; apply drawn_trans]. Qed.

Lemma configure_ok fb addr p w h depth rp rs gp gs bp bs xp xs :
  0 < w < 4294967296 -> 0 < h < 4294967296 -> 0 < depth < 256 -> 1 < (depth + 7) / 8 ->
  w * ((depth + 7) / 8) <= p -> h * p < 4294967296 -> addr <> 0 ->
  fb_ok (framebuffer_configure fb addr p w h depth 1 rp rs gp gs bp bs xp xs).
Proof.
  intros Hw Hh Hd Hb Hp Hs Ha. unfold framebuffer_configure.
  rewrite (proj2 (Z.eqb_neq addr 0)), (proj2 (Z.eqb_neq w 0)), (proj2 (Z.eqb_neq h 0)), (proj2 (Z.eqb_neq depth 0)) by lia.
  cbn [orb]. assert (u8 ((depth + 7) / 8) = (depth + 7) / 8) as -> by (apply u8_small; mlia).
  rewrite (proj2 (Z.leb_le 2 _)) by lia. cbn [Z.eqb Pos.eqb andb].
  split; cbn; first [lia|mlia|done].
Qed.

(** ** Pixels *)

Lemma locate_spec fb x y px py : fb_ok fb -> 0 <= x < 4294967296 -> 0 <= y -> locate fb x y = Some (px, py) ->
  0 <= px < width fb /\ 0 <= py < height fb /\ x < logical_width fb /\ y < logical_height fb.
Proof.
  intros Hf Hx Hy H. unfold locate in H. destruct (rotate_90_cw fb); do 3 (case_test_in H; [done|]);
  injection H as <- <-; apply orb_false_iff in Htest0 as [? ?], Htest1 as [? ?]; prop_bools;
  split_and!; try lia; apply u32_range.
Qed.

Lemma pixel_address_spec fb px py : fb_ok fb -> 0 <= px < width fb -> 0 <= py < height fb ->
  pixel_address fb px py = base fb + py * pitch fb + px * bytes_per_pixel fb /\
  base fb <= pixel_address fb px py /\
  pixel_address fb px py + bytes_per_pixel fb <= base fb + py * pitch fb + pitch fb /\
  py * pitch fb + pitch fb <= height fb * pitch fb.
Proof.
  intros [Hw Hh Hb Hp Hs _] Hpx Hpy. unfold pixel_address.
  assert (py * pitch fb + pitch fb <= height fb * pitch fb) by nia.
  assert (px * bytes_per_pixel fb + bytes_per_pixel fb <= width fb * bytes_per_pixel fb) by nia.
  assert (0 <= py * pitch fb /\ 0 <= px * bytes_per_pixel fb) by nia.
  rewrite !u32_small by lia. split_and!; lia.
Qed.

Lemma write_pixel_drawn fb x y c m : fb_ok fb -> 0 <= x < 4294967296 -> 0 <= y -> drawn fb m (write_pixel fb x y c m).
Proof.
  intros Hf Hx Hy a Ha. unfold write_pixel. destruct (locate fb x y) as [[px py]|] eqn:E; [|done].
  apply locate_spec in E as (Hpx & Hpy & _); [|done..]. destruct (pixel_address_spec fb px py Hf Hpx Hpy) as (_ & Hlo & Hhi & Hsz).
  apply rd_store_bytes_out. rewrite length_le_bytes, Z2Nat.id by (destruct Hf; lia). unfold screen in Ha. lia.
Qed.

Lemma u32_write_drawn fb x y c m : fb_ok fb -> drawn fb m (write_pixel fb (u32 x) (u32 y) c m).
Proof. intros Hf. apply write_pixel_drawn; auto with machine. Qed.

(** Loops of drawing steps draw. *)
Lemma for_range_drawn fb n f m : (forall i m, 0 <= i < n -> drawn fb m (f i m)) -> drawn fb m (for_range n f m).
Proof. intros Hf. apply (for_range_ind (drawn fb m)); [done|]. intros i m' Hi Hm. etrans; [done|by apply Hf]. Qed.

(** ** Every routine *)

(** The drawing calls with their arguments. *)
Inductive fb_op :=
| OpPixel (x y r g b : Z)
| OpClear (r g b : Z)
| OpRgba (x y w h rgba stride : Z)
| OpRgb (x y w h rgb24 stride : Z)
| OpScaled (x y w h rgb24 src_w src_h stride : Z)
| OpCell (col row cell : Z)
| OpGrid (cells : option (list Z)) (cols rows : Z)
| OpDirty (curr prev : option (list Z)) (cols rows : Z).

Definition run_op (fb : framebuffer_state_t) (m : gmap Z Z) (op : fb_op) : gmap Z Z :=
  match op with
  | OpPixel x y r g b => (framebuffer_draw_pixel_rgb fb (u32 x) (u32 y) r g b m).1
  | OpClear r g b => framebuffer_clear_rgb fb r g b m
  | OpRgba x y w h p stride => (framebuffer_blit_rgba8888 fb x y w h p stride m).1
  | OpRgb x y w h p stride => (framebuffer_blit_rgb24 fb x y w h p stride m).1
  | OpScaled x y w h p sw sh stride => (framebuffer_blit_rgb24_scaled fb x y w h p sw sh stride m).1
  | OpCell col row cell => framebuffer_draw_cell fb col row cell m
  | OpGrid cells cols rows => framebuffer_present_text_grid fb cells cols rows m
  | OpDirty curr prev cols rows => framebuffer_present_text_grid_dirty fb curr prev cols rows m
  end.

Lemma blend_pixel_drawn fb x y p m : fb_ok fb -> drawn fb m (blend_pixel fb (u32 x) (u32 y) p m).
Proof. intros Hf. unfold blend_pixel. do 2 (case_test; [try done; by apply u32_write_drawn|]). by apply u32_write_drawn. Qed.

Lemma grid_cell_drawn fb g col row cell m : fb_ok fb -> drawn fb m (grid_cell fb g col row cell m).
Proof.
  intros Hf. unfold grid_cell. do 4 (apply for_range_drawn; intros ? ? _). by apply u32_write_drawn.
Qed.

Lemma run_op_drawn fb m op : fb_ok fb -> drawn fb m (run_op fb m op).
Proof.
  intros Hf. destruct op; cbn [run_op].
  - unfold framebuffer_draw_pixel_rgb. case_test; [done|]. by apply u32_write_drawn.
  - unfold framebuffer_clear_rgb. case_test; [done|].
    apply for_range_drawn; intros y m1 Hy. apply for_range_drawn; intros x m2 Hx.
    apply write_pixel_drawn; [done| |lia]. destruct Hf as [? ? _ _ _ [E _]]. rewrite E in Hx. destruct (rotate_90_cw fb); lia.
  - unfold framebuffer_blit_rgba8888. do 2 (case_test; [done|]). destruct (stride =? 0); (case_test; [done|]); cbn [fst];
    do 2 (apply for_range_drawn; intros ? ? _); by apply blend_pixel_drawn.
  - unfold framebuffer_blit_rgb24. do 2 (case_test; [done|]). destruct (stride =? 0); (case_test; [done|]); cbn [fst];
    do 2 (apply for_range_drawn; intros ? ? _); by apply u32_write_drawn.
  - unfold framebuffer_blit_rgb24_scaled. do 2 (case_test; [done|]). destruct (stride =? 0); (case_test; [done|]); cbn [fst];
    do 2 (apply for_range_drawn; intros ? ? _); by apply u32_write_drawn.
  - unfold framebuffer_draw_cell. case_test; [done|].
    etrans; do 2 (apply for_range_drawn; intros ? ? _); by apply u32_write_drawn.
  - unfold framebuffer_present_text_grid. destruct cells; [|done]. case_test; [done|].
    do 2 (apply for_range_drawn; intros ? ? _). by apply grid_cell_drawn.
  - unfold framebuffer_present_text_grid_dirty. destruct curr, prev; try done. case_test; [done|].
    do 2 (apply for_range_drawn; intros ? ? _). case_test; [done|]. by apply grid_cell_drawn.
Qed.

(** ** Reading back *)

Lemma mul_gap a b k : a < b -> 0 <= k -> a * k + k <= b * k.
Proof. nia. Qed.

Lemma locate_inj fb x y x' y' q : fb_ok fb -> 0 <= x < 4294967296 -> 0 <= x' < 4294967296 -> 0 <= y -> 0 <= y' ->
  locate fb x y = Some q -> locate fb x' y' = Some q -> x = x' /\ y = y'.
Proof.
  intros Hf Hx Hx' Hy Hy' Hq Hq'. unfold locate in Hq, Hq'. destruct (negb (enabled fb)); [done|].
  destruct (rotate_90_cw fb); do 2 (case_test_in Hq; [done|]); do 2 (case_test_in Hq'; [done|]);
    injection Hq as <-; injection Hq' as E1 E2; [|done]. destruct Hf. split; [mlia|done].
Qed.

Lemma write_read_pixel fb x y x' y' c m q q' :
  fb_ok fb -> bytes_per_pixel fb <= 4 -> 0 <= x < 4294967296 -> 0 <= y -> 0 <= x' < 4294967296 -> 0 <= y' ->
  locate fb x y = Some q -> locate fb x' y' = Some q' ->
  read_pixel fb x' y' (write_pixel fb x y c m) =
    if decide (x' = x /\ y' = y) then c mod 256 ^ bytes_per_pixel fb else read_pixel fb x' y' m.
Proof.
  intros Hf Hb Hx Hy Hx' Hy' Hq Hq'. destruct q as [px py], q' as [px' py'].
  destruct (locate_spec fb x y px py Hf Hx Hy Hq) as (Hpx & Hpy & _).
  destruct (locate_spec fb x' y' px' py' Hf Hx' Hy' Hq') as (Hpx' & Hpy' & _).
  unfold read_pixel, write_pixel. rewrite Hq, Hq'. rewrite Z.min_l by done. pose proof (fk_bytes fb Hf).
  destruct (decide (x' = x /\ y' = y)) as [[-> ->]|Hne].
  - rewrite Hq in Hq'. injection Hq' as <- <-. rewrite rd_le_store. by rewrite Z2Nat.id by lia.
  - apply rd_le_ext. intros a Ha. apply rd_store_bytes_out. rewrite length_le_bytes. rewrite Z2Nat.id in * by lia.
    destruct (pixel_address_spec fb px py Hf Hpx Hpy) as (E & _ & Hhi & _), (pixel_address_spec fb px' py' Hf Hpx' Hpy') as (E' & _ & Hhi' & _).
    assert (px <> px' \/ py <> py') as Hd.
    { destruct (decide (px = px')) as [->|]; [|by left]. destruct (decide (py = py')) as [->|]; [|by right].
      exfalso. apply Hne. apply (locate_inj fb x' y' x y (px', py')); done. }
    destruct (Z.lt_trichotomy py py') as [Hlt|[->|Hlt]].
    + assert (py * pitch fb + pitch fb <= py' * pitch fb) by (apply mul_gap; [lia|destruct Hf; nia]).
      assert (0 <= px' * bytes_per_pixel fb) by nia. lia.
    + destruct Hd as [Hd|]; [|done].
      destruct (Z.lt_total px px') as [Hl|[|Hl]]; [|done|]; pose proof (mul_gap _ _ (bytes_per_pixel fb) Hl ltac:(lia)); lia.
    + assert (py' * pitch fb + pitch fb <= py * pitch fb) by (apply mul_gap; [lia|destruct Hf; nia]).
      assert (0 <= px * bytes_per_pixel fb) by nia. lia.
Qed.

(** ** Theorems *)

(** Whatever is drawn, with whatever coordinates, sizes and source images,
    only bytes of the screen change: each routine clips. *)
Theorem framebuffer_draws_inside fb m ops a :
  fb_ok fb -> ~ screen fb a -> rd (foldl (run_op fb) m ops) a = rd m a.
Proof.
  intros Hf Ha. revert m. induction ops as [|op ops IH]; intros m; [done|]. cbn. rewrite IH. by apply run_op_drawn.
Qed.

(** A pixel that is shown reads back as the colour written, cut to the
    bytes a pixel has, and no other pixel changes. *)
Theorem pixel_roundtrip fb x y x' y' c m q q' :
  fb_ok fb -> bytes_per_pixel fb <= 4 -> 0 <= x < 4294967296 -> 0 <= y -> 0 <= x' < 4294967296 -> 0 <= y' ->
  locate fb x y = Some q -> locate fb x' y' = Some q' ->
  read_pixel fb x' y' (write_pixel fb x y c m) =
    if decide (x' = x /\ y' = y) then c mod 256 ^ bytes_per_pixel fb else read_pixel fb x' y' m.
Proof. apply write_read_pixel. Qed.

(** ** Concrete inputs *)

Definition demo_fb : framebuffer_state_t :=
  framebuffer_enable (framebuffer_configure fb_zero 0xFD000000 2560 640 480 32 1 16 8 8 8 0 8 24 0) true.
Lemma demo_fb_ok : fb_ok demo_fb.
Proof. split; by vm_compute. Qed.

Lemma framebuffer_draws_inside_witness :
  rd (foldl (run_op demo_fb) ∅ [OpPixel 5 6 255 0 0; OpCell 3 2 0x0741]) 0xFCFFFFFF = 0.
Proof.
  rewrite (framebuffer_draws_inside demo_fb ∅ [OpPixel 5 6 255 0 0; OpCell 3 2 0x0741] 0xFCFFFFFF demo_fb_ok); [done|].
  unfold screen. change (base demo_fb) with 0xFD000000. lia.
Defined.
Lemma pixel_roundtrip_witness : read_pixel demo_fb 5 6 (write_pixel demo_fb 5 6 0xFF8000 ∅) = 0xFF8000.
Proof.
  rewrite (pixel_roundtrip demo_fb 5 6 5 6 0xFF8000 ∅ (5, 6) (5, 6) demo_fb_ok); by vm_compute.
Defined.

(** ** Deviations *)

(** A framebuffer whose rows hold as many pixels as it is high is taken to be
    turned by a quarter.  The row of a pixel is then computed from the width
    instead of the height, so a band of the picture is never shown although
    [framebuffer_draw_pixel_rgb] reports success: here the pixels left of
    column 160 on a logical screen of 480 by 640. *)
Definition demo_rotated : framebuffer_state_t :=
  framebuffer_enable (framebuffer_configure fb_zero 0xFD000000 1920 640 480 32 1 16 8 8 8 0 8 24 0) true.
Theorem rotated_pixels_lost x y m :
  0 <= x < 160 -> 0 <= y -> framebuffer_width demo_rotated = 480 /\ framebuffer_height demo_rotated = 640 /\
  framebuffer_draw_pixel_rgb demo_rotated x y 255 255 255 m = (m, 1).
Proof.
  intros Hx Hy. split_and!; [done|done|]. unfold framebuffer_draw_pixel_rgb, write_pixel, locate.
  change (enabled demo_rotated) with true. change (rotate_90_cw demo_rotated) with true.
  change (logical_width demo_rotated) with 480. change (logical_height demo_rotated) with 640.
  change (width demo_rotated) with 640. change (height demo_rotated) with 480. cbn [negb].
  case_test; [done|]. rewrite u32_small by lia. rewrite (proj2 (Z.leb_le 480 _)) by lia. by rewrite orb_true_r.
Qed.

(** [framebuffer_draw_cell] reads a glyph byte as a column with its low bit on
    top, the text grid reads it as a row with its high bit on the left: the
    same character comes out transposed.  For an exclamation mark the first
    sets pixel (3, 0), the second does not. *)
Theorem grid_glyphs_transposed :
  let white := 0x0F21 in
  read_pixel demo_fb 3 0 (framebuffer_draw_cell demo_fb 0 0 white ∅) = 0xFFFFFF /\
  grid_layout demo_fb 80 60 = Grid 80 60 1 0 0 /\
  read_pixel demo_fb 3 0 (grid_cell demo_fb (Grid 80 60 1 0 0) 0 0 white ∅) = 0.
Proof. split_and!; by vm_compute. Qed.
