(* ===== verification/VgaDraw.v ===== *)
(** * kernel/vga_draw.c: drawing on the text screen

    A back buffer of 80 by 25 cells, presented on the framebuffer or in the
    video memory.  A store outside a buffer is a fault of the model. *)

From Stdlib Require Import ZArith Lia.
From stdpp Require Import base numbers gmap strings fin_maps option list.
From S2P Require Import Prelude MemUtils Vram Framebuffer.

Local Open Scope Z_scope.

Definition CELLS : Z := VGA_DRAW_ROWS * VGA_DRAW_COLS.

(** The static variables; [front_buffer] is an address. *)
Record vga := Vga {
  back_buffer : list Z; prev_buffer : list Z;
  active : bool; initialised : bool; prev_valid : bool;
  prev_cols : Z; prev_rows : Z; front_buffer : Z
}.
Definition vga_zero : vga := Vga (replicate 2000 0) (replicate 2000 0) false false false 0 0 0.
Definition set_back (v : vga) (b : list Z) : vga :=
  Vga b (prev_buffer v) (active v) (initialised v) (prev_valid v) (prev_cols v) (prev_rows v) (front_buffer v).
Definition set_active (v : vga) (a : bool) : vga :=
  Vga (back_buffer v) (prev_buffer v) a (initialised v) (prev_valid v) (prev_cols v) (prev_rows v) (front_buffer v).

Definition VGA_ATTR (fg bg : Z) : Z := Z.lor (Z.shiftl bg 4) (Z.land fg 0x0F).
Definition pack_cell (ch attr : Z) : Z := Z.lor (Z.shiftl attr 8) (u8 ch).

(** ** Filling *)

Definition put (b : list Z) (i c : Z) : outcome (list Z) :=
  if (0 <=? i) && (i <? Z.of_nat (length b)) then Ret (<[Z.to_nat i := c]> b) else Fault.

(** A 64-bit store: four cells, low half first. *)
Definition put4 (b : list Z) (i pattern : Z) : outcome (list Z) :=
  for_range_m 4 (fun j b => put b (i + j) (u16 (Z.shiftr pattern (16 * j)))) b.

(** [fill_cells(&b[dst], count, cell)]. *)
Definition fill_cells (b : list Z) (dst count cell : Z) : outcome (list Z) :=
  if count =? 0 then Ret b else
  let pattern := cell in
  let pattern := Z.lor pattern (u64 (Z.shiftl pattern 16)) in
  let pattern := Z.lor pattern (u64 (Z.shiftl pattern 32)) in
  let blocks := count / 4 in
  let tail := count mod 4 in
  b ← for_range_m blocks (fun i b => put4 b (dst + i * 4) pattern) b;
  for_range_m tail (fun i b => put b (dst + blocks * 4 + i) cell) b.

(** ** Entry points *)

Definition vga_draw_init (v : vga) (fb : framebuffer_state_t) (vr : vram) : outcome (vga * vram) :=
  let clear_cell := pack_cell 32 (VGA_ATTR VGA_WHITE VGA_BLACK) in
  b ← fill_cells (back_buffer v) 0 CELLS clear_cell;
  p ← fill_cells (prev_buffer v) 0 CELLS clear_cell;
  if framebuffer_enabled fb then Ret (Vga b p false true false 0 0 (front_buffer v), vr)
  else '(vr, _) ← mem_vram_lock vr (Some (str "vga_draw"));
       Ret (Vga b p false true false 0 0 (vram_base vr), vr).

Definition vga_draw_begin (v : vga) (fb : framebuffer_state_t) (vr : vram) : outcome (vga * vram) :=
  '(v, vr) ← (if initialised v then Ret (v, vr) else vga_draw_init v fb vr);
  Ret (set_active v true, vr).
Definition vga_draw_end (v : vga) : vga := set_active v false.
Definition vga_draw_is_active (v : vga) : bool := active v.

Definition vga_draw_clear (v : vga) (ch attr : Z) : outcome vga :=
  if negb (active v) then Ret v else
  b ← fill_cells (back_buffer v) 0 CELLS (pack_cell ch attr); Ret (set_back v b).

(** Coordinates on the screen. *)
Definition visible (x y : Z) : bool := negb ((x <? 0) || (VGA_DRAW_COLS <=? x) || (y <? 0) || (VGA_DRAW_ROWS <=? y)).

Definition vga_draw_set_cell (v : vga) (x y ch attr : Z) : outcome vga :=
  if negb (active v) then Ret v else
  if negb (visible x y) then Ret v else
  b ← put (back_buffer v) (y * VGA_DRAW_COLS + x) (pack_cell ch attr); Ret (set_back v b).

(** The loop of [vga_draw_line]: [fuel] steps. *)
Fixpoint line_loop (fuel : nat) (b : list Z) (x0 y0 x1 y1 dx sx dy sy err cell : Z) : outcome (list Z) :=
  b ← (if visible x0 y0 then put b (y0 * VGA_DRAW_COLS + x0) cell else Ret b);
  if (x0 =? x1) && (y0 =? y1) then Ret b else
  match fuel with
  | O => Timeout
  | S fuel =>
      let e2 := s32 (err * 2) in
      let '(err, x0) := if - dy <? e2 then (s32 (err - dy), s32 (x0 + sx)) else (err, x0) in
      let '(err, y0) := if e2 <? dx then (s32 (err + dx), s32 (y0 + sy)) else (err, y0) in
      line_loop fuel b x0 y0 x1 y1 dx sx dy sy err cell
  end.

(** Every round moves towards the end in one of the directions. *)
Definition vga_draw_line (v : vga) (x0 y0 x1 y1 ch attr : Z) : outcome vga :=
  if negb (active v) then Ret v else
  let dx := if x0 <? x1 then s32 (x1 - x0) else s32 (x0 - x1) in
  let sx := if x0 <? x1 then 1 else -1 in
  let dy := if y0 <? y1 then s32 (y1 - y0) else s32 (y0 - y1) in
  let sy := if y0 <? y1 then 1 else -1 in
  let err := s32 (dx - dy) in
  b ← line_loop (Z.to_nat (dx + dy)) (back_buffer v) x0 y0 x1 y1 dx sx dy sy err (pack_cell ch attr);
  Ret (set_back v b).

(** The part of a rectangle on the screen: origin and size, [None] when there
    is none. *)
Definition clip_rect (x y w h : Z) : option (Z * Z * Z * Z) :=
  if (w <=? 0) || (h <=? 0) then None else
  if (VGA_DRAW_COLS <=? x) || (VGA_DRAW_ROWS <=? y) then None else
  let '(w, x) := if x <? 0 then (s32 (w + x), 0) else (w, x) in
  let '(h, y) := if y <? 0 then (s32 (h + y), 0) else (h, y) in
  if (w <=? 0) || (h <=? 0) then None else
  let w := if VGA_DRAW_COLS <? s32 (x + w) then VGA_DRAW_COLS - x else w in
  let h := if VGA_DRAW_ROWS <? s32 (y + h) then VGA_DRAW_ROWS - y else h in
  Some (x, y, w, h).

Definition vga_draw_rect (v : vga) (x y w h ch attr : Z) (fill : bool) : outcome vga :=
  if negb (active v) then Ret v else
  match clip_rect x y w h with
  | None => Ret v
  | Some (x, y, w, h) =>
      let cell := pack_cell ch attr in
      let at_ row := u32 row * VGA_DRAW_COLS + u32 x in
      b ← (if fill then
             for_range_m h (fun row b => fill_cells b (at_ (y + row)) w cell) (back_buffer v)
           else
             b ← fill_cells (back_buffer v) (at_ y) w cell;
             if h <=? 1 then Ret b else
             b ← fill_cells b (at_ (y + h - 1)) w cell;
             for_range_m (h - 2) (fun i b =>
               let row := y + 1 + i in
               b ← put b (at_ row) cell;
               if 1 <? w then put b (at_ row + (w - 1)) cell else Ret b) b);
      Ret (set_back v b)
  end.

(** The 64-bit copy loops move four cells at a time. *)
Definition copy_cells (dst src : list Z) : list Z :=
  for_range (CELLS / 4) (fun i d =>
    for_range 4 (fun j d => <[Z.to_nat (i * 4 + j) := src !!! Z.to_nat (i * 4 + j)]> d) d) dst.
Definition copy_to_vram (m : gmap Z Z) (dest : Z) (src : list Z) : gmap Z Z :=
  for_range (CELLS / 4) (fun i m =>
    for_range 4 (fun j m => store_bytes m (dest + i * 8 + j * 2) (le_bytes 2 (src !!! Z.to_nat (i * 4 + j)))) m) m.

Definition vga_draw_present (v : vga) (fb : framebuffer_state_t) (m : gmap Z Z) : vga * gmap Z Z :=
  if negb (initialised v) then (v, m) else
  if framebuffer_enabled fb then
    let m := if negb (prev_valid v) || negb (prev_cols v =? VGA_DRAW_COLS) || negb (prev_rows v =? VGA_DRAW_ROWS)
             then framebuffer_present_text_grid fb (Some (back_buffer v)) VGA_DRAW_COLS VGA_DRAW_ROWS m
             else framebuffer_present_text_grid_dirty fb (Some (back_buffer v)) (Some (prev_buffer v))
                    VGA_DRAW_COLS VGA_DRAW_ROWS m in
    (Vga (back_buffer v) (copy_cells (prev_buffer v) (back_buffer v)) (active v) (initialised v) true
       VGA_DRAW_COLS VGA_DRAW_ROWS (front_buffer v), m)
  else (v, copy_to_vram m (front_buffer v) (back_buffer v)).
