(* ===== verification/VgaDrawProofs.v ===== *)
(** * Drawing on the text screen stays in the buffer *)

From Stdlib Require Import ZArith Lia.
From stdpp Require Import base numbers gmap strings fin_maps option list.
From S2P Require Import Prelude MemUtils Vram Framebuffer VgaDraw.

Local Open Scope Z_scope.

(** ** Filling *)

(** [b'] is [b] with [count] cells from [dst] on replaced by [c]. *)
Definition filled (b b' : list Z) (dst count c : Z) : Prop :=
  length b' = length b /\
  forall i, 0 <= i < Z.of_nat (length b) ->
    b' !! Z.to_nat i = if decide (dst <= i < dst + count) then Some c else b !! Z.to_nat i.

Lemma filled_0 b dst c : filled b b dst 0 c.
Proof. split; [done|]. intros i Hi. by rewrite decide_False by lia. Qed.

Lemma put_filled b i c : 0 <= i < Z.of_nat (length b) -> exists b', put b i c = Ret b' /\ filled b b' i 1 c.
Proof.
  intros Hi. unfold put. rewrite (proj2 (Z.leb_le 0 i)), (proj2 (Z.ltb_lt i _)) by lia. cbn [andb].
  eexists. split; [done|]. split; [by rewrite length_insert|]. intros j Hj. destruct (decide (i <= j < i + 1)).
  - replace j with i by lia. by rewrite list_lookup_insert_eq by lia.
  - by rewrite list_lookup_insert_ne by lia.
Qed.

(** A range filled piece by piece. *)
Lemma filled_step b b1 b2 dst n k c : 0 <= n -> 0 <= k ->
  filled b b1 dst n c -> filled b1 b2 (dst + n) k c -> filled b b2 dst (n + k) c.
Proof.
  intros Hn Hk [L1 H1] [L2 H2]. split; [congruence|]. intros i Hi. rewrite H2 by lia.
  destruct (decide (dst + n <= i < dst + n + k)); [by rewrite decide_True by lia|]. rewrite H1 by done.
  destruct (decide (dst <= i < dst + n)), (decide (dst <= i < dst + (n + k))); try lia; done.
Qed.

(** The 64-bit pattern is the cell four times. *)
Definition quad (c : Z) : Z := c + c * 65536 + (c + c * 65536) * 4294967296.
Lemma quad_half c j : 0 <= c < 65536 -> 0 <= j < 4 -> u16 (Z.shiftr (quad c) (16 * j)) = c.
Proof.
  intros Hc Hj. unfold quad. rewrite Z.shiftr_div_pow2 by lia.
  assert (j = 0 \/ j = 1 \/ j = 2 \/ j = 3) as [->|[->|[->| ->]]] by lia;
    [change (2 ^ (16 * 0)) with 1|change (2 ^ (16 * 1)) with 65536|change (2 ^ (16 * 2)) with 4294967296
    |change (2 ^ (16 * 3)) with 281474976710656]; mlia.
Qed.
Lemma pattern_quad c : 0 <= c < 65536 ->
  let p := Z.lor c (u64 (Z.shiftl c 16)) in Z.lor p (u64 (Z.shiftl p 32)) = quad c.
Proof.
  intros Hc p. unfold p.
  assert (u64 (Z.shiftl c 16) = Z.shiftl c 16) as -> by (apply u64_small; rewrite Z.shiftl_mul_pow2 by lia; lia).
  rewrite lor_shiftl_add by lia. change (2 ^ 16) with 65536.
  assert (u64 (Z.shiftl (c + c * 65536) 32) = Z.shiftl (c + c * 65536) 32) as ->
    by (apply u64_small; rewrite Z.shiftl_mul_pow2 by lia; lia).
  rewrite lor_shiftl_add by lia. done.
Qed.

Lemma put4_filled b i c : 0 <= c < 65536 -> 0 <= i -> i + 4 <= Z.of_nat (length b) ->
  exists b', put4 b i (quad c) = Ret b' /\ filled b b' i 4 c.
Proof.
  intros Hc Hi Hl. unfold put4.
  apply (for_range_m_inv (fun j b' => filled b b' i j c)); [lia|apply filled_0|].
  intros j b1 Hj H1. rewrite quad_half by lia. pose proof (proj1 H1) as Hl1.
  destruct (put_filled b1 (i + j) c) as (b2 & -> & H2); [lia|]. exists b2. split; [done|].
  by apply (filled_step b b1); [lia..| |].
Qed.

Lemma fill_cells_filled b dst count c : 0 <= c < 65536 -> 0 <= dst -> 0 <= count -> dst + count <= Z.of_nat (length b) ->
  exists b', fill_cells b dst count c = Ret b' /\ filled b b' dst count c.
Proof.
  intros Hc Hd Hn Hl. unfold fill_cells. destruct (Z.eqb_spec count 0) as [->|Hn0]; [exists b; split; [done|apply filled_0]|].
  rewrite (pattern_quad c Hc). pose proof (Z.div_mod count 4) as Hdm. pose proof (Z.mod_pos_bound count 4).
  destruct (for_range_m_inv (fun i b' => filled b b' dst (i * 4) c) (count / 4)
    (fun i b => put4 b (dst + i * 4) (quad c)) b) as (b1 & -> & H1); [lia|apply filled_0| |].
  { intros i b1 Hi H1. pose proof (proj1 H1) as Hl1.
    destruct (put4_filled b1 (dst + i * 4) c) as (b2 & -> & H2); [done|lia|lia|]. exists b2. split; [done|].
    replace ((i + 1) * 4) with (i * 4 + 4) by lia. by apply (filled_step b b1); [lia..| |]. }
  cbn [mbind outcome_bind]. pose proof (proj1 H1) as Hl1.
  destruct (for_range_m_inv (fun i b' => filled b b' dst (count / 4 * 4 + i) c) (count mod 4)
    (fun i b => put b (dst + count / 4 * 4 + i) c) b1) as (b2 & -> & H2); [lia|by rewrite Z.add_0_r| |].
  { intros i b2 Hi H2. pose proof (proj1 H2) as Hl2.
    destruct (put_filled b2 (dst + count / 4 * 4 + i) c) as (b3 & -> & H3); [lia|]. exists b3. split; [done|].
    rewrite Z.add_assoc. apply (filled_step b b2); [lia..|done|]. by rewrite Z.add_assoc. }
  exists b2. split; [done|]. by replace count with (count / 4 * 4 + count mod 4) by lia.
Qed.

(** ** Sound buffers *)

Definition vga_ok (v : vga) : Prop :=
  Z.of_nat (length (back_buffer v)) = CELLS /\ Z.of_nat (length (prev_buffer v)) = CELLS.

Lemma pack_cell_range ch attr : 0 <= attr < 256 -> 0 <= pack_cell ch attr < 65536.
Proof.
  intros Ha. unfold pack_cell. pose proof (u8_range ch). rewrite Z.lor_comm, lor_shiftl_add by lia. lia.
Qed.

Lemma visible_spec x y : visible x y = true <-> 0 <= x < VGA_DRAW_COLS /\ 0 <= y < VGA_DRAW_ROWS.
Proof.
  unfold visible. rewrite negb_true_iff, !orb_false_iff, !Z.ltb_ge, !Z.leb_gt. unfold VGA_DRAW_COLS, VGA_DRAW_ROWS. lia.
Qed.
Lemma cell_in_buffer x y : 0 <= x < VGA_DRAW_COLS -> 0 <= y < VGA_DRAW_ROWS -> 0 <= y * VGA_DRAW_COLS + x < CELLS.
Proof. unfold CELLS, VGA_DRAW_COLS, VGA_DRAW_ROWS. lia. Qed.

(** ** Lines *)

(** One round of the line, as a function of the steps still to go: [a] in x and
    [c] in y, with the error term [e]. *)
Definition line_inv (dx dy a c e : Z) : Prop :=
  0 <= a <= dx /\ 0 <= c <= dy /\ e = dx - dy - (dx - a) * dy + (dy - c) * dx /\ - 2 * dy <= e <= 2 * dx.

Lemma line_step dx dy a c e :
  line_inv dx dy a c e -> ~ (a = 0 /\ c = 0) ->
  let a' := if - dy <? e * 2 then a - 1 else a in
  let c' := if e * 2 <? dx then c - 1 else c in
  let e1 := if - dy <? e * 2 then e - dy else e in
  let e2 := if e * 2 <? dx then e1 + dx else e1 in
  line_inv dx dy a' c' e2 /\ a' + c' < a + c.
Proof.
  intros (Ha & Hc & He & Hb) Hne.
  assert (a = 0 -> 2 * e <= - dy) as Hx.
  { intros ->. assert (e = dx * (1 - c) - dy) as -> by (rewrite He; ring). assert (1 <= c) by lia. nia. }
  assert (c = 0 -> dx <= 2 * e) as Hy.
  { intros ->. assert (e = dx + dy * (a - 1)) as -> by (rewrite He; ring). assert (1 <= a) by lia. nia. }
  assert (- dy < 2 * e \/ 2 * e < dx) as Hone.
  { destruct (decide (dx = 0 /\ dy = 0)) as [[-> ->]|]; [exfalso; apply Hne; lia|lia]. }
  unfold line_inv. destruct (Z.ltb_spec (- dy) (e * 2)), (Z.ltb_spec (e * 2) dx); cbn zeta; try lia;
    (split; [split_and!; try lia; rewrite He; ring|lia]).
Qed.

(** Coordinates and distances for which 32-bit arithmetic is exact. *)
Definition LINE_LIMIT : Z := 268435456.

(** The cell at the current point is drawn when it is visible. *)
Lemma plot_spec b x y cell : Z.of_nat (length b) = CELLS ->
  exists b1, (if visible x y then put b (y * VGA_DRAW_COLS + x) cell else Ret b) = Ret b1 /\ Z.of_nat (length b1) = CELLS /\ (visible x y = true -> b1 !! Z.to_nat (y * VGA_DRAW_COLS + x) = Some cell).
Proof.
  intros Hl. destruct (visible x y) eqn:Hv; [|by exists b]. apply visible_spec in Hv as [Hx Hy].
  pose proof (cell_in_buffer x y Hx Hy).
  destruct (put_filled b (y * VGA_DRAW_COLS + x) cell) as (b1 & -> & [L1 H1]); [lia|]. exists b1.
  split_and!; [done|lia|]. intros _. rewrite H1, decide_True by lia. done.
Qed.

Lemma line_loop_spec fuel b x0 y0 x1 y1 dx dy sx sy e cell a c :
  Z.of_nat (length b) = CELLS ->
  line_inv dx dy a c e -> (Z.to_nat (a + c) <= fuel)%nat -> (sx = 1 \/ sx = -1) -> (sy = 1 \/ sy = -1) ->
  x1 = x0 + sx * a -> y1 = y0 + sy * c -> dx <= LINE_LIMIT -> dy <= LINE_LIMIT ->
  - LINE_LIMIT <= x1 <= LINE_LIMIT -> - LINE_LIMIT <= y1 <= LINE_LIMIT ->
  exists b', line_loop fuel b x0 y0 x1 y1 dx sx dy sy e cell = Ret b' /\ Z.of_nat (length b') = CELLS /\ (visible x1 y1 = true -> b' !! Z.to_nat (y1 * VGA_DRAW_COLS + x1) = Some cell).
Proof.
  unfold LINE_LIMIT. revert b x0 y0 e a c.
  induction fuel as [|fuel IH]; intros b x0 y0 e a c Hl Hinv Hfuel Hsx Hsy Hx1 Hy1 Hdx Hdy Bx By; cbn [line_loop];
    destruct (plot_spec b x0 y0 cell Hl) as (b1 & -> & L1 & H1); cbn [mbind outcome_bind];
    pose proof Hinv as (Ha & Hc & _ & He).
  - assert (a = 0 /\ c = 0) as [-> ->] by lia. assert (x0 = x1 /\ y0 = y1) as [-> ->] by lia.
    rewrite !Z.eqb_refl. by exists b1.
  - destruct (decide (a = 0 /\ c = 0)) as [[-> ->]|Hne].
    { assert (x0 = x1 /\ y0 = y1) as [-> ->] by lia. rewrite !Z.eqb_refl. by exists b1. }
    assert (((x0 =? x1) && (y0 =? y1))%bool = false) as ->.
    { apply andb_false_iff. rewrite !Z.eqb_neq. destruct Hsx, Hsy; subst sx sy; lia. }
    destruct (line_step dx dy a c e Hinv Hne) as [Hinv' Hdec]. rewrite (s32_small (e * 2)) by lia.
    rewrite (s32_small (e - dy)) by lia.
    assert (s32 (x0 + sx) = x0 + sx /\ s32 (y0 + sy) = y0 + sy) as [-> ->]
      by (destruct Hsx, Hsy; subst sx sy; split; apply s32_small; lia).
    destruct (Z.ltb_spec (- dy) (e * 2)), (Z.ltb_spec (e * 2) dx); rewrite ?s32_small by lia; cbn zeta in Hinv'; try lia;
      apply (IH _ _ _ _ _ _ L1 Hinv'); try done; try lia; destruct Hsx, Hsy; subst sx sy; lia.
Qed.

(** ** Rectangles *)

(** [b'] is [b] with the cells of a set replaced by [c]. *)
Definition painted (b b' : list Z) (P : Z -> bool) (c : Z) : Prop :=
  Z.of_nat (length b') = CELLS /\
  forall i, 0 <= i < CELLS -> b' !! Z.to_nat i = if P i then Some c else b !! Z.to_nat i.

Lemma painted_refl b c : Z.of_nat (length b) = CELLS -> painted b b (fun _ => false) c.
Proof. intros Hl. by split. Qed.
Lemma painted_trans b b1 b2 P Q R c : painted b b1 P c -> painted b1 b2 Q c ->
  (forall i, 0 <= i < CELLS -> R i = P i || Q i) -> painted b b2 R c.
Proof.
  intros [_ H1] [L2 H2] HR. split; [done|]. intros i Hi. rewrite H2, H1, HR by done. by destruct (P i), (Q i).
Qed.

(** The cell with index [i] lies in the rectangle. *)
Definition in_rect (x y w h i : Z) : bool :=
  (x <=? i mod 80) && (i mod 80 <? x + w) && (y <=? i / 80) && (i / 80 <? y + h).

Ltac rect_bools :=
  apply Bool.eq_iff_eq_true;
  rewrite ?orb_true_iff, ?andb_true_iff, ?Z.leb_le, ?Z.ltb_lt, ?Z.eqb_eq, ?bool_decide_eq_true;
  rewrite ?orb_true_iff, ?andb_true_iff, ?Z.leb_le, ?Z.ltb_lt, ?Z.eqb_eq;
  (lia || (split; [intros; lia|done])).

Lemma filled_painted b b' x y w c : Z.of_nat (length b) = CELLS -> 0 <= x -> 0 <= w -> x + w <= 80 -> 
  filled b b' (y * 80 + x) w c -> painted b b' (in_rect x y w 1) c.
Proof.
  intros Hl Hx Hw Hxw [L H]. split; [lia|]. intros i Hi. rewrite H by lia.
  pose proof (Z.div_mod i 80). pose proof (Z.mod_pos_bound i 80).
  assert (in_rect x y w 1 i = bool_decide (y * 80 + x <= i < y * 80 + x + w)) as ->.
  { unfold in_rect. rect_bools. }
  case_bool_decide; [by rewrite decide_True|by rewrite decide_False].
Qed.

Lemma fill_row b x y w c : Z.of_nat (length b) = CELLS -> 0 <= c < 65536 -> 0 <= x -> 0 <= w -> x + w <= 80 ->
  0 <= y < 25 -> exists b', fill_cells b (y * 80 + x) w c = Ret b' /\ painted b b' (in_rect x y w 1) c.
Proof.
  intros Hl Hc Hx Hw Hxw Hy. destruct (fill_cells_filled b (y * 80 + x) w c Hc) as (b' & Hr & Hf);
    [lia|done|unfold CELLS, VGA_DRAW_COLS, VGA_DRAW_ROWS in *; lia|]. exists b'. split; [done|by apply filled_painted].
Qed.
Lemma fill_row_u32 b x y w c : Z.of_nat (length b) = CELLS -> 0 <= c < 65536 -> 0 <= x -> 0 <= w -> x + w <= 80 ->
  0 <= y < 25 -> exists b', fill_cells b (u32 y * VGA_DRAW_COLS + u32 x) w c = Ret b' /\ painted b b' (in_rect x y w 1) c.
Proof. intros. unfold VGA_DRAW_COLS. rewrite !u32_small by lia. by apply fill_row. Qed.
Lemma put_cell b x y c : Z.of_nat (length b) = CELLS -> 0 <= x < 80 -> 0 <= y < 25 ->
  exists b', put b (y * 80 + x) c = Ret b' /\ painted b b' (in_rect x y 1 1) c.
Proof.
  intros Hl Hx Hy. destruct (put_filled b (y * 80 + x) c) as (b' & Hr & Hf);
    [unfold CELLS, VGA_DRAW_COLS, VGA_DRAW_ROWS in *; lia|]. exists b'. split; [done|]. by apply filled_painted; [done|lia..|].
Qed.

Lemma clip_rect_spec x y w h r :
  -2147483648 <= x -> -2147483648 <= y -> w < 2147483648 -> h < 2147483648 -> x + w < 2147483648 -> y + h < 2147483648 ->
  clip_rect x y w h = Some r ->
  let '(x', y', w', h') := r in
  0 <= x' /\ 0 < w' /\ x' + w' <= 80 /\ 0 <= y' /\ 0 < h' /\ y' + h' <= 25 /\
  forall i, 0 <= i < CELLS -> in_rect x' y' w' h' i = in_rect x y w h i.
Proof.
  intros Bx By Bw Bh Bxw Byh Hr. unfold clip_rect, VGA_DRAW_COLS, VGA_DRAW_ROWS in Hr.
  destruct (Z.leb_spec w 0), (Z.leb_spec h 0), (Z.leb_spec 80 x), (Z.leb_spec 25 y); try done. cbn [orb] in Hr.
  destruct (Z.ltb_spec x 0), (Z.ltb_spec y 0); rewrite ?(s32_small (w + x)), ?(s32_small (h + y)) in Hr by lia;
    (case_test_in Hr; [done|]); apply orb_false_iff in Htest as [?%Z.leb_gt ?%Z.leb_gt];
    rewrite !s32_small in Hr by lia; injection Hr as <-;
    repeat match goal with |- context [80 <? ?a] => destruct (Z.ltb_spec 80 a) | |- context [25 <? ?a] => destruct (Z.ltb_spec 25 a) end;
    (split_and!; [lia..|]; intros i Hi; unfold CELLS, VGA_DRAW_COLS, VGA_DRAW_ROWS in Hi;
     pose proof (Z.mod_pos_bound i 80); assert (0 <= i / 80 < 25) by mlia; unfold in_rect; rect_bools).
Qed.

Lemma fill_rows b x y w h c : Z.of_nat (length b) = CELLS -> 0 <= c < 65536 -> 0 <= x -> 0 < w -> x + w <= 80 ->
  0 <= y -> 0 < h -> y + h <= 25 ->
  exists b', for_range_m h (fun row b => fill_cells b (u32 (y + row) * VGA_DRAW_COLS + u32 x) w c) b = Ret b' /\
    painted b b' (in_rect x y w h) c.
Proof.
  intros Hl Hc Hx Hw Hxw Hy Hh Hyh. unfold VGA_DRAW_COLS.
  apply (for_range_m_inv (fun n b' => painted b b' (in_rect x y w n) c)); [lia| |].
  - split; [done|]. intros i Hi. assert (in_rect x y w 0 i = false) as ->; [unfold in_rect; rect_bools|done].
  - intros n b1 Hn H1. rewrite !u32_small by lia.
    destruct (fill_row b1 x (y + n) w c) as (b2 & -> & H2); [apply H1|done|lia..|]. exists b2. split; [done|].
    eapply painted_trans; [exact H1|exact H2|]. intros i Hi. unfold in_rect. rect_bools.
Qed.

(** The border of a rectangle. *)
Definition border (x y w h i : Z) : bool :=
  in_rect x y w h i &&
    ((i mod 80 =? x) || (i mod 80 =? x + w - 1) || (i / 80 =? y) || (i / 80 =? y + h - 1)).

Lemma side_cells b x w y c : Z.of_nat (length b) = CELLS -> 0 <= x -> 0 < w -> x + w <= 80 -> 0 <= y < 25 ->
  exists b', (b ← put b (u32 y * VGA_DRAW_COLS + u32 x) c;
    if 1 <? w then put b (u32 y * VGA_DRAW_COLS + u32 x + (w - 1)) c else Ret b) = Ret b' /\
    painted b b' (fun i => in_rect x y 1 1 i || in_rect (x + w - 1) y 1 1 i) c.
Proof.
  intros Hl Hx Hw Hxw Hy. unfold VGA_DRAW_COLS. rewrite !u32_small by lia.
  destruct (put_cell b x y c) as (b1 & -> & H1); [done|lia|done|]. cbn [mbind outcome_bind].
  destruct (Z.ltb_spec 1 w).
  - destruct (put_cell b1 (x + w - 1) y c) as (b2 & Hr & H2); [apply H1|lia|done|].
    replace (y * 80 + x + (w - 1)) with (y * 80 + (x + w - 1)) by lia. exists b2. split; [done|].
    by eapply painted_trans.
  - exists b1. split; [done|]. eapply painted_trans; [exact H1|exact (painted_refl b1 c (proj1 H1))|].
    intros i Hi. replace (x + w - 1) with x by lia. by rewrite orb_diag, orb_false_r.
Qed.

Lemma outline_rows b x y w h c : Z.of_nat (length b) = CELLS -> 0 <= c < 65536 -> 0 <= x -> 0 < w -> x + w <= 80 ->
  0 <= y -> 0 < h -> y + h <= 25 ->
  exists b', (b ← fill_cells b (u32 y * VGA_DRAW_COLS + u32 x) w c;
    if h <=? 1 then Ret b else
    b ← fill_cells b (u32 (y + h - 1) * VGA_DRAW_COLS + u32 x) w c;
    for_range_m (h - 2) (fun i b =>
      b ← put b (u32 (y + 1 + i) * VGA_DRAW_COLS + u32 x) c;
      if 1 <? w then put b (u32 (y + 1 + i) * VGA_DRAW_COLS + u32 x + (w - 1)) c else Ret b) b) = Ret b' /\
    painted b b' (border x y w h) c.
Proof.
  intros Hl Hc Hx Hw Hxw Hy Hh Hyh.
  destruct (fill_row_u32 b x y w c) as (b1 & -> & H1); [done|done|lia..|]. cbn [mbind outcome_bind].
  destruct (Z.leb_spec h 1) as [Hh1|Hh1].
  { assert (h = 1) as -> by lia. exists b1. split; [done|]. eapply painted_trans; [exact H1|exact (painted_refl b1 c (proj1 H1))|].
    intros i Hi. unfold border. destruct (in_rect x y w 1 i) eqn:E; [|done]. unfold in_rect in E.
    repeat apply andb_true_iff in E as [E ?]. prop_bools. rewrite (proj2 (Z.eqb_eq (i / 80) y)) by lia. by rewrite !orb_true_r. }
  destruct (fill_row_u32 b1 x (y + h - 1) w c) as (b2 & -> & H2); [apply H1|done|lia..|]. cbn [mbind outcome_bind].
  assert (painted b b2 (fun i => in_rect x y w 1 i || in_rect x (y + h - 1) w 1 i) c) as H12 by (by eapply painted_trans).
  destruct (for_range_m_inv (fun n b' => painted b b' (fun i => in_rect x y w 1 i || in_rect x (y + h - 1) w 1 i ||
      in_rect x (y + 1) 1 n i || in_rect (x + w - 1) (y + 1) 1 n i) c) (h - 2)
    (fun i b => b ← put b (u32 (y + 1 + i) * VGA_DRAW_COLS + u32 x) c;
      if 1 <? w then put b (u32 (y + 1 + i) * VGA_DRAW_COLS + u32 x + (w - 1)) c else Ret b) b2) as (b3 & Hr & H3); [lia| | |].
  - eapply painted_trans; [exact H12|exact (painted_refl b2 c (proj1 H12))|]. intros i Hi.
    assert (in_rect x (y + 1) 1 0 i = false /\ in_rect (x + w - 1) (y + 1) 1 0 i = false) as [-> ->]
      by (unfold in_rect; split; rect_bools). by rewrite !orb_false_r.
  - intros n b3 Hn H3. destruct (side_cells b3 x w (y + 1 + n) c) as (b4 & -> & H4); [apply H3|lia..|].
    exists b4. split; [done|]. eapply painted_trans; [exact H3|exact H4|]. intros i Hi. cbn beta.
    assert (forall a, in_rect a (y + 1) 1 (n + 1) i = in_rect a (y + 1) 1 n i || in_rect a (y + 1 + n) 1 1 i) as E
      by (intros a; unfold in_rect; rect_bools). rewrite !E.
    destruct (in_rect x y w 1 i), (in_rect x (y + h - 1) w 1 i), (in_rect x (y + 1) 1 n i), (in_rect (x + w - 1) (y + 1) 1 n i),
      (in_rect x (y + 1 + n) 1 1 i); done.
  - exists b3. split; [done|]. eapply painted_trans; [exact H3|exact (painted_refl b3 c (proj1 H3))|]. intros i Hi.
    cbn beta. rewrite orb_false_r. unfold border, in_rect. pose proof (Z.mod_pos_bound i 80). rect_bools.
Qed.

Lemma vga_draw_rect_spec v x y w h ch attr fill :
  vga_ok v -> active v = true -> 0 <= attr < 256 ->
  -2147483648 <= x -> -2147483648 <= y -> w < 2147483648 -> h < 2147483648 -> x + w < 2147483648 -> y + h < 2147483648 ->
  exists b', vga_draw_rect v x y w h ch attr fill = Ret (set_back v b') /\ Z.of_nat (length b') = CELLS /\
    match clip_rect x y w h with
    | None => b' = back_buffer v
    | Some (x', y', w', h') =>
        painted (back_buffer v) b' (if fill then in_rect x y w h else border x' y' w' h') (pack_cell ch attr)
    end.
Proof.
  intros [Hl _] Ha Hat Bx By Bw Bh Bxw Byh. unfold vga_draw_rect. rewrite Ha. cbn [negb].
  destruct (clip_rect x y w h) as [[[[x' y'] w'] h']|] eqn:Hc; [|exists (back_buffer v); split_and!; try done; by destruct v].
  apply clip_rect_spec in Hc as (Hx & Hw & Hxw & Hy & Hh & Hyh & Hin); try done.
  pose proof (pack_cell_range ch attr Hat) as Hp. set (c := pack_cell ch attr) in *. destruct fill.
  - destruct (fill_rows (back_buffer v) x' y' w' h' c) as (b' & -> & Hb); try done. cbn [mbind outcome_bind].
    exists b'. split_and!; [done|apply Hb|]. eapply painted_trans; [exact Hb|exact (painted_refl b' c (proj1 Hb))|].
    intros i Hi. by rewrite Hin, orb_false_r.
  - destruct (outline_rows (back_buffer v) x' y' w' h' c) as (b' & -> & Hb); try done. cbn [mbind outcome_bind].
    exists b'. split_and!; [done|apply Hb|done].
Qed.

(** ** Theorems *)

(** The reference for [fill_cells]: one cell after the other. *)
Definition fill_plain (b : list Z) (dst count cell : Z) : outcome (list Z) :=
  for_range_m count (fun i b => put b (dst + i) cell) b.

Lemma fill_plain_filled b dst count c : 0 <= dst -> 0 <= count -> dst + count <= Z.of_nat (length b) ->
  exists b', fill_plain b dst count c = Ret b' /\ filled b b' dst count c.
Proof.
  intros Hd Hn Hl. apply (for_range_m_inv (fun n b' => filled b b' dst n c)); [done|apply filled_0|].
  intros i b1 Hi H1. pose proof (proj1 H1). destruct (put_filled b1 (dst + i) c) as (b2 & -> & H2); [lia|].
  exists b2. split; [done|]. by apply (filled_step b b1); [lia..| |].
Qed.
Lemma filled_unique b b1 b2 dst count c : filled b b1 dst count c -> filled b b2 dst count c -> b1 = b2.
Proof.
  intros [L1 H1] [L2 H2]. apply list_eq. intros i. destruct (decide (i < length b)%nat).
  - pose proof (H1 (Z.of_nat i)) as E1. pose proof (H2 (Z.of_nat i)) as E2. rewrite Nat2Z.id in E1, E2.
    rewrite E1, E2 by lia. done.
  - by rewrite !lookup_ge_None_2 by lia.
Qed.

(** filling four cells per 64-bit store and the rest one by one gives the
    same buffer as storing the cell count times, for every start, count and
    cell, and never stores outside the range. *)
Theorem fill_cells_plain b dst count cell :
  0 <= cell < 65536 -> 0 <= dst -> 0 <= count -> dst + count <= Z.of_nat (length b) ->
  fill_cells b dst count cell = fill_plain b dst count cell /\
  exists b', fill_cells b dst count cell = Ret b' /\ filled b b' dst count cell.
Proof.
  intros Hc Hd Hn Hl. destruct (fill_cells_filled b dst count cell) as (b1 & -> & H1); [done..|].
  destruct (fill_plain_filled b dst count cell) as (b2 & -> & H2); [done..|].
  split; [by rewrite (filled_unique _ _ _ _ _ _ H1 H2)|by exists b1].
Qed.
Lemma fill_cells_plain_witness :
  fill_cells (replicate 10 0) 1 7 0x0741 = fill_plain (replicate 10 0) 1 7 0x0741 /\
  fill_cells (replicate 10 0) 1 7 0x0741 =
    Ret [0; 0x0741; 0x0741; 0x0741; 0x0741; 0x0741; 0x0741; 0x0741; 0; 0].
Proof.
  split; [|vm_compute; reflexivity].
  refine (proj1 (fill_cells_plain (replicate 10 0) 1 7 0x0741 _ _ _ _)); cbn; lia.
Defined.

(** the line loop, which only leaves when it meets the end point, leaves
    within dx + dy rounds for all coordinates up to 2^27 (no term of the error
    computation overflows there), stores only inside the back buffer and draws
    the end point when it is on the screen. *)
Theorem vga_draw_line_reaches v x0 y0 x1 y1 ch attr :
  vga_ok v -> active v = true ->
  Z.abs x0 <= 134217728 -> Z.abs y0 <= 134217728 -> Z.abs x1 <= 134217728 -> Z.abs y1 <= 134217728 ->
  exists b', vga_draw_line v x0 y0 x1 y1 ch attr = Ret (set_back v b') /\ Z.of_nat (length b') = CELLS /\
    (visible x1 y1 = true -> b' !! Z.to_nat (y1 * VGA_DRAW_COLS + x1) = Some (pack_cell ch attr)).
Proof.
  intros [Hl _] Ha Bx0 By0 Bx1 By1. unfold vga_draw_line. rewrite Ha. cbn [negb].
  set (dx := Z.abs (x1 - x0)). set (dy := Z.abs (y1 - y0)).
  assert ((if x0 <? x1 then s32 (x1 - x0) else s32 (x0 - x1)) = dx) as ->
    by (destruct (Z.ltb_spec x0 x1); rewrite s32_small by lia; lia).
  assert ((if y0 <? y1 then s32 (y1 - y0) else s32 (y0 - y1)) = dy) as ->
    by (destruct (Z.ltb_spec y0 y1); rewrite s32_small by lia; lia).
  rewrite (s32_small (dx - dy)) by lia.
  destruct (line_loop_spec (Z.to_nat (dx + dy)) (back_buffer v) x0 y0 x1 y1 dx dy (if x0 <? x1 then 1 else -1)
    (if y0 <? y1 then 1 else -1) (dx - dy) (pack_cell ch attr) dx dy) as (b' & -> & Hlb & Hb);
    unfold line_inv, LINE_LIMIT; try done; try lia;
    [by destruct (x0 <? x1); [left|right]|by destruct (y0 <? y1); [left|right]
    |destruct (Z.ltb_spec x0 x1); lia|destruct (Z.ltb_spec y0 y1); lia|].
  by exists b'.
Qed.
Lemma vga_draw_line_reaches_witness :
  exists b', vga_draw_line (set_active vga_zero true) (-3) 4 70 (30) 42 7 = Ret (set_back (set_active vga_zero true) b') /\
    Z.of_nat (length b') = CELLS.
Proof.
  destruct (vga_draw_line_reaches (set_active vga_zero true) (-3) 4 70 30 42 7) as (b' & H1 & H2 & _);
    [split; reflexivity|reflexivity|vm_compute; discriminate..|].
  exists b'. exact (conj H1 H2).
Defined.

(** a rectangle whose far corner does not overflow an int is drawn as its
    part on the screen: filled, exactly the cells of the rectangle change, as an
    outline exactly the border of the visible part; nothing is stored outside
    the back buffer. *)
Theorem vga_draw_rect_clipped v x y w h ch attr fill :
  vga_ok v -> active v = true -> 0 <= attr < 256 ->
  -2147483648 <= x -> -2147483648 <= y -> w < 2147483648 -> h < 2147483648 -> x + w < 2147483648 -> y + h < 2147483648 ->
  exists b', vga_draw_rect v x y w h ch attr fill = Ret (set_back v b') /\ Z.of_nat (length b') = CELLS /\
    match clip_rect x y w h with
    | None => b' = back_buffer v /\ (0 < w -> 0 < h -> forall i, 0 <= i < CELLS -> in_rect x y w h i = false)
    | Some (x', y', w', h') =>
        painted (back_buffer v) b' (if fill then in_rect x y w h else border x' y' w' h') (pack_cell ch attr)
    end.
Proof.
  intros Hv Ha Hat Bx By Bw Bh Bxw Byh.
  destruct (vga_draw_rect_spec v x y w h ch attr fill) as (b' & Hr & Hl & Hb); [done..|].
  exists b'. split_and!; [done|done|]. destruct (clip_rect x y w h) as [[[[x' y'] w'] h']|] eqn:Hc; [done|].
  split; [done|]. intros Hw Hh i Hi. unfold clip_rect, VGA_DRAW_COLS, VGA_DRAW_ROWS in Hc.
  unfold CELLS, VGA_DRAW_COLS, VGA_DRAW_ROWS in Hi. pose proof (Z.mod_pos_bound i 80). assert (0 <= i / 80 < 25) by mlia.
  rewrite (proj2 (Z.leb_gt w 0)), (proj2 (Z.leb_gt h 0)) in Hc by lia. cbn [orb] in Hc.
  unfold in_rect. destruct (Z.leb_spec 80 x), (Z.leb_spec 25 y); try (rect_bools). cbn [orb] in Hc.
  destruct (Z.ltb_spec x 0), (Z.ltb_spec y 0); rewrite ?(s32_small (w + x)), ?(s32_small (h + y)) in Hc by lia;
    (case_test_in Hc; [|done]); apply orb_true_iff in Htest as [?%Z.leb_le|?%Z.leb_le]; rect_bools.
Qed.
Lemma vga_draw_rect_clipped_witness :
  exists b', vga_draw_rect (set_active vga_zero true) (-2) 3 10 4 35 7 true = Ret (set_back (set_active vga_zero true) b') /\
    painted (back_buffer vga_zero) b' (in_rect (-2) 3 10 4) (pack_cell 35 7).
Proof.
  destruct (vga_draw_rect_clipped (set_active vga_zero true) (-2) 3 10 4 35 7 true) as (b' & H1 & _ & H2);
    [split; reflexivity|reflexivity|lia..|].
  exists b'. exact (conj H1 H2).
Defined.

(** A loop whose first rounds fault faults. *)
Lemma for_loop_m_fault {A} k n lo (f : Z -> A -> outcome A) a :
  (k <= n)%nat -> for_loop_m k lo f a = Fault -> for_loop_m n lo f a = Fault.
Proof.
  revert n lo a. induction k as [|k IH]; intros [|n] lo a Hn Hf; try done; [lia|]. cbn [for_loop_m] in *.
  destruct (f lo a); try done. cbn [mbind outcome_bind] in *. by apply IH; [lia|].
Qed.

(** A width whose sum with the abscissa overflows passes the clipping test as it
    is: the first row is stored far beyond the end of the back buffer. *)
Theorem vga_draw_rect_overflow :
  clip_rect 1 24 2147483647 1 = Some (1, 24, 2147483647, 1) /\
  vga_draw_rect (set_active vga_zero true) 1 24 2147483647 1 35 7 false = Fault.
Proof.
  split; [reflexivity|]. unfold vga_draw_rect. change (clip_rect 1 24 2147483647 1) with (Some (1, 24, 2147483647, 1)).
  cbn [negb active set_active]. set (dst := u32 24 * VGA_DRAW_COLS + u32 1).
  assert (forall c, fill_cells (back_buffer (set_active vga_zero true)) dst 2147483647 c = Fault) as E; [|by rewrite E].
  intros c. unfold fill_cells. change (2147483647 =? 0) with false. cbn iota. cbv zeta.
  unfold for_range_m. rewrite (for_loop_m_fault 20); [done| |].
  - change (2147483647 / 4) with 536870911. lia.
  - reflexivity.
Qed.
