(* ===== verification/Bootmode.v ===== *)
(** * kernel/bootmode.c: boot options

    Which of logs, progress bar and colour theme the command line asks for.
    A C string is the list of its characters without the terminator. *)

From Stdlib Require Import ZArith Lia.
From stdpp Require Import base numbers gmap strings fin_maps option list.
From S2P Require Import Prelude MemUtils.

Local Open Scope Z_scope.

Definition BOOT_THEME_DARK : Z := 0.
Definition BOOT_THEME_WHITE : Z := 1.

(** The static variables. *)
Record bootmode := Bootmode { logs_visible : bool; progress_visible : bool; theme : Z }.

Definition bootmode_init : bootmode := Bootmode true true BOOT_THEME_DARK.

(** [token_eq(p, t)]: [p] starts with [t], which the end of the string, a blank
    or a tab follows. *)
Fixpoint token_eq (p t : list Z) : bool :=
  match t, p with
  | [], [] => true
  | [], c :: _ => (c =? 32) || (c =? 9)
  | b :: t, a :: p => (a =? b) && token_eq p t
  | _ :: _, [] => false
  end.

(** The body of the loop over the command line, at the position [p]. *)
Definition parse_at (p : list Z) (b : bootmode) : bootmode :=
  let tok t := token_eq p (str t) in
  let b := if tok "nologs" || tok "no-logs" then Bootmode false (progress_visible b) (theme b) else b in
  let b := if tok "bootprogress" || tok "progress" || tok "splashprogress"
           then Bootmode (logs_visible b) true (theme b) else b in
  let b := if tok "white" || tok "theme=white"
           then Bootmode (logs_visible b) (progress_visible b) BOOT_THEME_WHITE else b in
  if tok "dark" || tok "theme=dark" then Bootmode (logs_visible b) (progress_visible b) BOOT_THEME_DARK else b.
Fixpoint parse_loop (p : list Z) (b : bootmode) : bootmode :=
  match p with
  | [] => b
  | _ :: q => parse_loop q (parse_at p b)
  end.
Definition bootmode_parse_cmdline (b : bootmode) (cmd : option (list Z)) : bootmode :=
  match cmd with None => b | Some p => parse_loop p b end.

Definition bootmode_logs_visible (b : bootmode) : bool := logs_visible b.
Definition bootmode_set_logs_visible (b : bootmode) (visible : bool) : bootmode :=
  Bootmode visible (progress_visible b) (theme b).
Definition bootmode_progress_visible (b : bootmode) : bool := progress_visible b.
Definition bootmode_set_progress_visible (b : bootmode) (visible : bool) : bootmode :=
  Bootmode (logs_visible b) visible (theme b).
Definition bootmode_theme (b : bootmode) : Z := theme b.
Definition bootmode_set_theme (b : bootmode) (t : Z) : bootmode :=
  Bootmode (logs_visible b) (progress_visible b) (if t =? BOOT_THEME_WHITE then BOOT_THEME_WHITE else BOOT_THEME_DARK).
(** The colours 0 (black) and 15 (white). *)
Definition bootmode_fg (b : bootmode) : Z := if theme b =? BOOT_THEME_WHITE then 0 else 15.
Definition bootmode_bg (b : bootmode) : Z := if theme b =? BOOT_THEME_WHITE then 15 else 0.

(** ** Theorems *)

Lemma token_eq_prefix p t : token_eq p t = true <->
  exists r, p = t ++ r /\ (r = [] \/ head r = Some 32 \/ head r = Some 9).
Proof.
  revert p. induction t as [|b t IH]; intros [|a p]; cbn.
  - split; [intros _; exists []; naive_solver|done].
  - rewrite orb_true_iff, !Z.eqb_eq. split; [intros [->| ->]; eexists; naive_solver|naive_solver].
  - split; [done|]. naive_solver.
  - rewrite andb_true_iff, Z.eqb_eq, IH. naive_solver.
Qed.

(** The theme is always one of the two, so the colours always contrast. *)
Definition boot_ok (b : bootmode) : Prop := theme b = BOOT_THEME_DARK \/ theme b = BOOT_THEME_WHITE.

Lemma parse_at_ok p b : boot_ok b -> boot_ok (parse_at p b).
Proof. unfold boot_ok, parse_at. repeat case_match; cbn; naive_solver. Qed.
Lemma parse_cmdline_ok b cmd : boot_ok b -> boot_ok (bootmode_parse_cmdline b cmd).
Proof.
  destruct cmd as [p|]; [|done]. cbn. revert b. induction p as [|c p IH]; intros b Hb; [done|].
  apply IH. by apply parse_at_ok.
Qed.
Lemma colours_differ b : bootmode_fg b <> bootmode_bg b.
Proof. unfold bootmode_fg, bootmode_bg. by destruct (theme b =? BOOT_THEME_WHITE). Qed.

(** Where the token [nologs] or [no-logs] ends a word, wherever it starts. *)
Definition asks_quiet (cmd : list Z) : Prop :=
  exists a p, cmd = a ++ p /\ (token_eq p (str "nologs") = true \/ token_eq p (str "no-logs") = true).

Lemma parse_at_logs p b :
  logs_visible (parse_at p b) = logs_visible b && negb (token_eq p (str "nologs") || token_eq p (str "no-logs")).
Proof. unfold parse_at. destruct (_ || _) at 1; repeat case_match; cbn; by rewrite ?andb_true_r, ?andb_false_r. Qed.

(** The logs are shown after parsing exactly when they were before and no
    position of the command line asks for silence. *)
Lemma parse_cmdline_logs b cmd :
  logs_visible (bootmode_parse_cmdline b (Some cmd)) = true <-> logs_visible b = true /\ ~ asks_quiet cmd.
Proof.
  unfold asks_quiet, bootmode_parse_cmdline. revert b. induction cmd as [|c q IH]; intros b; cbn [parse_loop].
  - split; [intros Hb; split; [done|]; intros (a & p & E & Hq); symmetry in E; apply app_nil in E as [-> ->]; naive_solver|naive_solver].
  - rewrite IH, parse_at_logs, andb_true_iff, negb_true_iff, orb_false_iff. split.
    + intros [[Hb [H1 H2]] Hq]. split; [done|]. intros (a & p & E & Ht). destruct a as [|x a].
      * cbn in E. subst p. destruct Ht; congruence.
      * injection E as <- ->. apply Hq. by exists a, p.
    + intros [Hb Hq]. split; [|intros (a & p & -> & Ht); apply Hq; by exists (c :: a), p].
      split; [done|]. split; apply not_true_iff_false; intros Ht; apply Hq; exists [], (c :: q); auto.
Qed.
