(* ===== verification/Digits.v ===== *)
(** * Printing numbers

    [console_udec], [serial_udec] and the three hexadecimal printers share one
    scheme: a local array is filled from its end with the digits of the number,
    least significant first, and printed from the first digit on.  A store
    outside the array is a fault of the model.  Cells not written yet are zero
    here; none of them is read. *)

From Stdlib Require Import ZArith Lia.
From stdpp Require Import base numbers gmap strings fin_maps option list.
From S2P Require Import Prelude MemUtils.

Local Open Scope Z_scope.

Definition store_char (buf : list Z) (i c : Z) : outcome (list Z) :=
  if (0 <=? i) && (i <? Z.of_nat (length buf)) then Ret (<[Z.to_nat i := c]> buf) else Fault.

(** The string that starts at index [i]. *)
Fixpoint until_nul (l : list Z) : list Z :=
  match l with [] => [] | c :: l => if c =? 0 then [] else c :: until_nul l end.
Definition string_at (buf : list Z) (i : Z) : list Z := until_nul (drop (Z.to_nat i) buf).

Definition HEX : list Z := str "0123456789ABCDEF".

(** The loop, for a base and its digits. *)
Fixpoint digit_loop (fuel : nat) (base : Z) (chars : list Z) (buf : list Z) (i v : Z) : outcome (list Z * Z) :=
  if v =? 0 then Ret (buf, i) else
  match fuel with
  | O => Timeout
  | S fuel =>
      buf ← store_char buf i (chars !!! Z.to_nat (v mod base));
      digit_loop fuel base chars buf (i - 1) (v / base)
  end.
Definition digit_text (fuel : nat) (base : Z) (chars : list Z) (size : nat) (i v : Z) : outcome (list Z) :=
  let buf := replicate size 0 in
  '(buf, i) ← (if v =? 0 then buf ← store_char buf i 48; Ret (buf, i - 1) else Ret (buf, i));
  '(buf, i) ← digit_loop fuel base chars buf i v;
  Ret (string_at buf (i + 1)).

(** [char buf[12]; int i = 10;] and [char buf[17]; int i = 15;]. *)
Definition udec_text (v : Z) : outcome (list Z) := digit_text 32 10 HEX 12 10 v.
Definition uhex_text (v : Z) : outcome (list Z) := digit_text 64 16 HEX 17 15 v.

(** ** Reading numbers back *)

(** The value of a digit character. *)
Definition digit_value (c : Z) : Z := if c <=? 57 then c - 48 else c - 55.
Definition read_number (base : Z) (s : list Z) : Z := foldl (fun a c => a * base + digit_value c) 0 s.

Lemma read_number_snoc base s c : read_number base (s ++ [c]) = read_number base s * base + digit_value c.
Proof. unfold read_number. by rewrite foldl_app. Qed.

(** [s] is the numeral of [v]: its digits read as [v], without a leading zero. *)
Definition numeral (base v : Z) (s : list Z) : Prop :=
  read_number base s = v /\ Forall (fun c => 0 <= digit_value c < base /\ c ∈ HEX) s /\ (0 < v -> head s <> Some 48) /\ s <> [].

Lemma hex_digit d : 0 <= d < 16 ->
  digit_value (HEX !!! Z.to_nat d) = d /\ HEX !!! Z.to_nat d ∈ HEX /\ (HEX !!! Z.to_nat d = 48 -> d = 0).
Proof.
  intros Hd. rewrite <- (Z2Nat.id d) by lia. rewrite Nat2Z.id. assert (Z.to_nat d < 16)%nat as Hn by lia.
  revert Hn. generalize (Z.to_nat d). clear. intros n Hn. split_and!.
  - do 16 (destruct n as [|n]; [reflexivity|]). lia.
  - by apply list_elem_of_lookup_total_2.
  - do 16 (destruct n as [|n]; [by vm_compute|]). lia.
Qed.
Lemma hex_not_nul c : c ∈ HEX -> c <> 0.
Proof. intros Hc ->. revert Hc. apply (bool_decide_unpack _). by vm_compute. Qed.

Lemma insert_at_length (l k : list Z) x y n : n = length l -> <[n := x]> (l ++ y :: k) = l ++ x :: k.
Proof. intros ->. rewrite <- (Nat.add_0_r (length l)). by rewrite insert_app_r. Qed.

Definition digit_ok (base c : Z) : Prop := 0 <= digit_value c < base /\ c ∈ HEX.

(** The array holds [pre] cells not yet used, the digits [s] and the
    terminator; the loop puts the digits of [v] in front of [s]. *)
Lemma digit_loop_spec fuel base pre s v i :
  1 < base <= 16 -> 0 <= v < base ^ (i + 1) -> -1 <= i -> Z.of_nat (length pre) = i + 1 -> (Z.to_nat (i + 1) <= fuel)%nat ->
  exists pre' s', digit_loop fuel base HEX (pre ++ s ++ [0]) i v = Ret (pre' ++ s' ++ s ++ [0], i - Z.of_nat (length s')) /\
    Z.of_nat (length pre') = i + 1 - Z.of_nat (length s') /\ read_number base s' = v /\ Forall (digit_ok base) s' /\
    (v = 0 -> s' = []) /\ (0 < v -> head s' <> Some 48 /\ s' <> []).
Proof.
  intros Hb. revert pre s v i. induction fuel as [|fuel IH]; intros pre s v i Hv Hi Hl Hf; cbn [digit_loop].
  - assert (i = -1) as -> by lia. assert (v = 0) as -> by (cbn in Hv; lia).
    exists pre, []. cbn [length app]. split_and!; try done; try lia.
  - destruct (Z.eqb_spec v 0) as [->|Hv0].
    { exists pre, []. cbn [length app]. split_and!; try done; try lia. do 2 f_equal. lia. }
    assert (0 <= i) as Hi0 by (destruct (decide (i = -1)) as [->|]; [cbn in Hv|]; lia).
    destruct pre as [|x pre _] using rev_ind; [cbn in Hl; lia|]. rewrite length_app in Hl. cbn in Hl.
    pose proof (Z.mod_pos_bound v base ltac:(lia)) as Hm. set (c := HEX !!! Z.to_nat (v mod base)).
    destruct (hex_digit (v mod base) ltac:(lia)) as (Hd & Hin & Hz). fold c in Hd, Hin, Hz.
    assert (store_char ((pre ++ [x]) ++ s ++ [0]) i c = Ret (pre ++ (c :: s) ++ [0])) as ->.
    { unfold store_char. rewrite !length_app. cbn [length]. rewrite (proj2 (Z.leb_le 0 i)), (proj2 (Z.ltb_lt i _)) by lia.
      cbn [andb]. f_equal. rewrite <- app_assoc. apply insert_at_length. lia. }
    cbn [mbind outcome_bind].
    assert (0 <= v / base < base ^ (i - 1 + 1)) as Hv'.
    { split; [apply Z.div_pos; lia|]. apply Z.div_lt_upper_bound; [lia|]. rewrite Z.sub_add.
      replace (base * base ^ i) with (base ^ (i + 1)); [lia|]. rewrite Z.pow_add_r by lia. lia. }
    destruct (IH pre (c :: s) (v / base) (i - 1)) as (pre' & s' & Hr & Hl' & Hn & Hok & H0 & Hh); [done|lia|lia|lia|].
    exists pre', (s' ++ [c]). rewrite length_app. cbn [length]. split_and!.
    + rewrite Hr, <- app_assoc. do 2 f_equal. lia.
    + lia.
    + rewrite read_number_snoc, Hn, Hd. pose proof (Z.div_mod v base). lia.
    + apply Forall_app. split; [done|]. constructor; [split; [lia|done]|constructor].
    + done.
    + intros _. split; [|by destruct s']. destruct (decide (v / base = 0)) as [E|E].
      * rewrite (H0 E). cbn. intros [= Hc]. apply Hz in Hc. pose proof (Z.div_mod v base). lia.
      * destruct Hh as [Hh Hne]; [lia|]. by destruct s'.
Qed.

Lemma until_nul_app s : Forall (fun c => c <> 0) s -> until_nul (s ++ [0]) = s.
Proof. induction 1 as [|c s Hc _ IH]; [done|]. cbn. rewrite (proj2 (Z.eqb_neq c 0) Hc). by f_equal. Qed.

Lemma digit_text_spec fuel base i v :
  1 < base <= 16 -> 0 <= i -> 0 <= v < base ^ (i + 1) -> (Z.to_nat (i + 1) <= fuel)%nat ->
  exists s, digit_text fuel base HEX (Z.to_nat (i + 2)) i v = Ret s /\ numeral base v s /\ Z.of_nat (length s) <= i + 1.
Proof.
  intros Hb Hi Hv Hf. unfold digit_text. replace (Z.to_nat (i + 2)) with (Z.to_nat i + 1 + 1)%nat by lia.
  rewrite !replicate_add. cbn [replicate]. destruct (Z.eqb_spec v 0) as [->|Hv0].
  - unfold store_char. rewrite !length_app, length_replicate. cbn [length].
    rewrite (proj2 (Z.leb_le 0 i)), (proj2 (Z.ltb_lt i _)) by lia. cbn [andb mbind outcome_bind].
    replace (digit_loop _ _ _ _ _ 0) with (Ret (<[Z.to_nat i:=48]> ((replicate (Z.to_nat i) 0 ++ [0]) ++ [0]), i - 1)) by (by destruct fuel).
    cbn [mbind outcome_bind]. exists [48]. split; [|split; [|cbn; lia]].
    + f_equal. unfold string_at. rewrite <- app_assoc. rewrite Z.sub_add. cbn [app].
      rewrite insert_at_length, drop_app_length' by (by rewrite length_replicate). done.
    + split_and!; try done. constructor; [|done]. split; [cbn; lia|]. apply (bool_decide_unpack _). by vm_compute.
  - cbn [mbind outcome_bind].
    destruct (digit_loop_spec fuel base (replicate (Z.to_nat i) 0 ++ [0]) [] v i) as (pre' & s' & Hr & Hl & Hn & Hok & _ & Hh);
      [done|done|lia|rewrite length_app, length_replicate; cbn; lia|done|].
    cbn [app] in Hr. rewrite Hr. cbn [mbind outcome_bind]. destruct Hh as [Hh Hne]; [lia|].
    exists s'. split; [|split; [done|lia]]. f_equal. unfold string_at.
    rewrite drop_app_length' by lia. apply until_nul_app. eapply Forall_impl; [exact Hok|]. intros c [_ Hc]. by apply hex_not_nul.
Qed.

Lemma udec_text_spec v : 0 <= v < 4294967296 -> exists s, udec_text v = Ret s /\ numeral 10 v s.
Proof.
  intros Hv. destruct (digit_text_spec 32 10 10 v) as (s & Hr & Hn & _); [lia|lia| |cbn; lia|by exists s].
  change (10 ^ (10 + 1)) with 100000000000. lia.
Qed.
Lemma uhex_text_spec v : 0 <= v < 18446744073709551616 -> exists s, uhex_text v = Ret s /\ numeral 16 v s.
Proof.
  intros Hv. by destruct (digit_text_spec 64 16 15 v) as (s & Hr & Hn & _); [lia|lia|done|cbn; lia|exists s].
Qed.
