(* ===== verification/Machine.v ===== *)
(** * The state the device drivers share

    The drivers reach the hardware through [inb], [outb] and [rdtsc]; what a
    device answers is a parameter of the development, the class [Hardware].
    [Uart] states what the code relies on of the serial port. *)

From Stdlib Require Import ZArith Lia.
From stdpp Require Import base numbers gmap strings fin_maps option list.
From S2P Require Import Prelude MemUtils Vram Framebuffer VgaDraw Bootmode.

Local Open Scope Z_scope.

(** ** Hardware *)

Class Hardware (Hw : Type) := {
  hw_in : Hw -> Z -> Hw * Z;      (** [inb]: the device may change when it is read *)
  hw_out : Hw -> Z -> Z -> Hw;    (** [outb] *)
  hw_rdtsc : Hw -> Hw * Z;        (** [rdtsc] *)
  hw_polls : nat                  (** rounds a polling loop of the model may take *)
}.

Definition UART_DATA : Z := 0x3F8.
Definition UART_STATUS : Z := 0x3F8 + 5.

(** A 16550 in the state [serial_init] leaves: the status register reports an
    empty transmitter after finitely many polls, and a byte written to the data
    register is sent.  [uart_sent] observes the bytes sent. *)
Class Uart (Hw : Type) `{Hardware Hw} := {
  uart_sent : Hw -> list Z;
  uart_busy : Hw -> nat;
  uart_busy_law h : (uart_busy h <= hw_polls)%nat;
  uart_poll_law h : Z.land (u8 (hw_in h UART_STATUS).2) 0x20 = 0 ->
    (uart_busy (hw_in h UART_STATUS).1 < uart_busy h)%nat;
  uart_in_law h port : uart_sent (hw_in h port).1 = uart_sent h;
  uart_send_law h v : uart_sent (hw_out h UART_DATA v) = uart_sent h ++ [v];
  uart_tsc_law h : uart_sent (hw_rdtsc h).1 = uart_sent h
}.

(** ** The static variables *)

(** kernel/debuglog.c; the buffer is an address. *)
Record debuglog := Debuglog { log_buf : Z; log_pos : Z; log_size : Z; log_start : Z }.

(** kernel/console.c: the ring of lines, the keyboard, the rest. *)
Definition BUF_LINES : Z := 512.
Definition MAX_COLS : Z := 160.

Record text := Text {
  buf : list (list Z); line_len : list Z;
  head : Z;       (** index of the oldest line *)
  count : Z;      (** number of lines stored *)
  cur_line : Z; cur_col : Z;
  view : Z        (** top line, as an offset from [head] *)
}.
Record keyboard := Keyboard {
  kbd_shift : bool; kbd_extended : bool;
  pending_input : list Z; pending_len : Z; pending_pos : Z
}.
Record console := Console {
  video : Z; attr : Z; vga_enabled : bool; display_hold : bool; txt : text; kbd : keyboard
}.
Definition console_zero : console :=
  Console 0xB8000 (VGA_ATTR VGA_WHITE VGA_BLACK) true false
    (Text (replicate 512 (replicate 160 0)) (replicate 512 0) 0 1 0 0 0)
    (Keyboard false false [0; 0; 0] 0 0).

Section Machine.
Context {Hw : Type}.

Record machine := Machine {
  hw : Hw; mram : gmap Z Z; dlog : debuglog; debug_mode : bool;
  boot : bootmode; screen : framebuffer_state_t; vid : vram; con : console
}.

Definition set_hw (m : machine) (h : Hw) : machine :=
  Machine h (mram m) (dlog m) (debug_mode m) (boot m) (screen m) (vid m) (con m).
Definition set_mram (m : machine) (r : gmap Z Z) : machine :=
  Machine (hw m) r (dlog m) (debug_mode m) (boot m) (screen m) (vid m) (con m).
Definition set_dlog (m : machine) (l : debuglog) : machine :=
  Machine (hw m) (mram m) l (debug_mode m) (boot m) (screen m) (vid m) (con m).
Definition set_boot (m : machine) (b : bootmode) : machine :=
  Machine (hw m) (mram m) (dlog m) (debug_mode m) b (screen m) (vid m) (con m).
Definition set_vid (m : machine) (v : vram) : machine :=
  Machine (hw m) (mram m) (dlog m) (debug_mode m) (boot m) (screen m) v (con m).
Definition set_con (m : machine) (c : console) : machine :=
  Machine (hw m) (mram m) (dlog m) (debug_mode m) (boot m) (screen m) (vid m) c.

Definition set_text (m : machine) (t : text) : machine :=
  let c := con m in set_con m (Console (video c) (attr c) (vga_enabled c) (display_hold c) t (kbd c)).
Definition set_kbd (m : machine) (k : keyboard) : machine :=
  let c := con m in set_con m (Console (video c) (attr c) (vga_enabled c) (display_hold c) (txt c) k).
Definition set_hold (m : machine) (b : bool) : machine :=
  let c := con m in set_con m (Console (video c) (attr c) (vga_enabled c) b (txt c) (kbd c)).
Definition set_attr (m : machine) (a : Z) : machine :=
  let c := con m in set_con m (Console (video c) a (vga_enabled c) (display_hold c) (txt c) (kbd c)).
Definition set_vga (m : machine) (b : bool) : machine :=
  let c := con m in set_con m (Console (video c) (attr c) b (display_hold c) (txt c) (kbd c)).
Definition set_video (m : machine) (a : Z) : machine :=
  let c := con m in set_con m (Console a (attr c) (vga_enabled c) (display_hold c) (txt c) (kbd c)).
End Machine.
Arguments machine Hw : clear implicits.

(** ** A concrete machine

    A serial port that is always ready, with bytes waiting to be read; scan
    codes waiting at the keyboard controller; a clock that ticks. *)
Record demo_hw := DemoHw { sent : list Z; waiting : list Z; keys : list Z; ticks : Z }.

#[export] Instance demo_hardware : Hardware demo_hw := {
  hw_in h port :=
    if port =? UART_STATUS then (h, Z.lor 0x20 (if waiting h is [] then 0 else 1))
    else if port =? UART_DATA then (DemoHw (sent h) (tail (waiting h)) (keys h) (ticks h), default 0 (List.hd_error (waiting h)))
    else if port =? 0x64 then (h, if keys h is [] then 0 else 1)
    else if port =? 0x60 then (DemoHw (sent h) (waiting h) (tail (keys h)) (ticks h), default 0 (List.hd_error (keys h)))
    else (h, 0);
  hw_out h port v := if port =? UART_DATA then DemoHw (sent h ++ [v]) (waiting h) (keys h) (ticks h) else h;
  hw_rdtsc h := (DemoHw (sent h) (waiting h) (keys h) (ticks h + 1000), ticks h);
  hw_polls := 10
}.
#[export, refine] Instance demo_uart : Uart demo_hw := { uart_sent := sent; uart_busy _ := 0%nat }.
Proof.
  - intros h. lia.
  - intros h. cbn [hw_in demo_hardware]. rewrite Z.eqb_refl. destruct (waiting h); intros E; vm_compute in E; discriminate.
  - intros h port. cbn [hw_in demo_hardware]. by repeat case_match.
  - intros h v. done.
  - done.
Defined.
