(* ===== verification/Serial.v ===== *)
(** * kernel/serial.c: the serial port, and the character log it feeds *)

From Stdlib Require Import ZArith Lia.
From stdpp Require Import base numbers gmap strings fin_maps option list.
From S2P Require Import Prelude MemUtils Bootmode Digits Machine.

Local Open Scope Z_scope.

Section Serial.
Context {Hw : Type} `{Hardware Hw}.
Implicit Types m : machine Hw.

Definition inb m (port : Z) : machine Hw * Z := let '(h, v) := hw_in (hw m) port in (set_hw m h, u8 v).
Definition outb m (port v : Z) : machine Hw := set_hw m (hw_out (hw m) port (u8 v)).

(** [debuglog_char] of kernel/debuglog.c. *)
Definition debuglog_char m (c : Z) : machine Hw :=
  let l := dlog m in
  if (log_buf l =? 0) || (log_size l <=? log_pos l) then m else
  set_dlog (set_mram m (wr (mram m) (log_buf l + log_pos l) c))
    (Debuglog (log_buf l) (log_pos l + 1) (log_size l) (log_start l)).

(** The log after one more character. *)
Definition log_next (l : debuglog) : debuglog :=
  if (log_buf l =? 0) || (log_size l <=? log_pos l) then l
  else Debuglog (log_buf l) (log_pos l + 1) (log_size l) (log_start l).
Lemma debuglog_char_log m c : dlog (debuglog_char m c) = log_next (dlog m).
Proof. unfold debuglog_char, log_next. by case_test. Qed.

(** [while (!(inb(0x3F8 + 5) & mask)) {}]. *)
Fixpoint poll (fuel : nat) m (port mask : Z) : outcome (machine Hw) :=
  let '(m, v) := inb m port in
  if negb (Z.land v mask =? 0) then Ret m else
  match fuel with O => Timeout | S fuel => poll fuel m port mask end.

Definition serial_raw_putc m (c : Z) : outcome (machine Hw) :=
  m ← poll hw_polls m UART_STATUS 0x20; Ret (outb m UART_DATA c).
Definition serial_putc m (c : Z) : outcome (machine Hw) :=
  m ← poll hw_polls m UART_STATUS 0x20; Ret (debuglog_char (outb m UART_DATA c) c).

(** Strings. *)
Fixpoint serial_write m (s : list Z) : outcome (machine Hw) :=
  match s with [] => Ret m | c :: s => m ← serial_putc m c; serial_write m s end.
Fixpoint serial_raw_write m (s : list Z) : outcome (machine Hw) :=
  match s with [] => Ret m | c :: s => m ← serial_raw_putc m c; serial_raw_write m s end.

Definition serial_udec m (v : Z) : outcome (machine Hw) := s ← udec_text v; serial_write m s.
Definition serial_uhex m (v : Z) : outcome (machine Hw) := s ← uhex_text v; serial_write m s.
Definition serial_raw_uhex m (v : Z) : outcome (machine Hw) := s ← uhex_text v; serial_raw_write m s.

Definition serial_read_ready m : machine Hw * bool :=
  let '(m, v) := inb m UART_STATUS in (m, negb (Z.land v 0x01 =? 0)).
Definition serial_getc m : outcome (machine Hw * Z) :=
  m ← poll hw_polls m UART_STATUS 0x01; Ret (inb m UART_DATA).
End Serial.

(** ** What is sent *)

Section Sent.
Context {Hw : Type} `{Uart Hw}.
Implicit Types m : machine Hw.

(** Everything but the hardware is as it was. *)
Definition only_hw m m' : Prop := exists h, m' = set_hw m h.
Lemma only_hw_refl m : only_hw m m.
Proof. exists (hw m). by destruct m. Qed.
Lemma only_hw_trans m1 m2 m3 : only_hw m1 m2 -> only_hw m2 m3 -> only_hw m1 m3.
Proof. intros [h ->] [h' ->]. by exists h'. Qed.

Lemma poll_ready fuel m : (uart_busy (hw m) <= fuel)%nat ->
  exists m', poll fuel m UART_STATUS 0x20 = Ret m' /\ only_hw m m' /\ uart_sent (hw m') = uart_sent (hw m).
Proof.
  revert m. induction fuel as [|fuel IH]; intros m Hf; cbn [poll]; unfold inb;
    pose proof (uart_poll_law (hw m)) as Hp; pose proof (uart_in_law (hw m) UART_STATUS) as Hs;
    destruct (hw_in (hw m) UART_STATUS) as [h v]; cbn in Hp, Hs;
    (destruct (Z.eqb_spec (Z.land (u8 v) 0x20) 0) as [E|E];
     [|exists (set_hw m h); split_and!; [done|by exists h|done]]); specialize (Hp E); [lia|]; cbn [negb].
  destruct (IH (set_hw m h)) as (m' & Hr & Ho & Hs'); [cbn; lia|]. exists m'. split_and!; [done| |cbn in Hs'; congruence].
  eapply only_hw_trans; [by exists h|done].
Qed.

Lemma serial_raw_putc_sends m c :
  exists m', serial_raw_putc m c = Ret m' /\ only_hw m m' /\ uart_sent (hw m') = uart_sent (hw m) ++ [u8 c].
Proof.
  destruct (poll_ready hw_polls m (uart_busy_law _)) as (m' & Hr & Ho & Hs). unfold serial_raw_putc.
  rewrite Hr. cbn [mbind outcome_bind]. eexists. split_and!; [done| |cbn; by rewrite uart_send_law, Hs].
  eapply only_hw_trans; [done|by eexists].
Qed.
Lemma serial_raw_write_sends m s :
  exists m', serial_raw_write m s = Ret m' /\ only_hw m m' /\ uart_sent (hw m') = uart_sent (hw m) ++ (u8 <$> s).
Proof.
  revert m. induction s as [|c s IH]; intros m; cbn [serial_raw_write].
  - exists m. split_and!; [done|apply only_hw_refl|by rewrite app_nil_r].
  - destruct (serial_raw_putc_sends m c) as (m1 & -> & Ho & Hs). cbn [mbind outcome_bind].
    destruct (IH m1) as (m2 & -> & Ho2 & Hs2). exists m2. split_and!; [done|by eapply only_hw_trans|].
    rewrite Hs2, Hs, <- app_assoc. done.
Qed.
End Sent.
