(* ===== verification/Console.v ===== *)
(** * kernel/console.c: the console

    A ring of 512 lines of 160 cells, shown on the framebuffer or in the VGA
    text memory, echoed to the serial port and to the character log; the
    keyboard with its escape sequences.  A character is a byte.  An access
    outside the ring is a fault of the model. *)

From Stdlib Require Import ZArith Lia.
From stdpp Require Import base numbers gmap strings fin_maps option list.
From S2P Require Import Prelude MemUtils Vram Framebuffer VgaDraw Bootmode Digits Machine Serial.

Local Open Scope Z_scope.

(** ** The ring of lines *)

Definition set_view (t : text) (v : Z) : text :=
  Text (buf t) (line_len t) (head t) (count t) (cur_line t) (cur_col t) v.
Definition set_cursor (t : text) (line col : Z) : text :=
  Text (buf t) (line_len t) (head t) (count t) line col (view t).
Definition set_ring (t : text) (h n v : Z) : text :=
  Text (buf t) (line_len t) h n (cur_line t) (cur_col t) v.

Definition pack (at_ c : Z) : Z := Z.lor (Z.shiftl at_ 8) (u8 c).
Definition idx (t : text) (off : Z) : Z := u32 (head t + off) mod BUF_LINES.

(** [buf[line][col] = v], [line_len[line] = n], and the reads. *)
Definition set_cell (t : text) (line col v : Z) : outcome text :=
  if (0 <=? line) && (line <? BUF_LINES) && (0 <=? col) && (col <? MAX_COLS)
  then Ret (Text (alter (fun l => <[Z.to_nat col := v]> l) (Z.to_nat line) (buf t)) (line_len t)
              (head t) (count t) (cur_line t) (cur_col t) (view t))
  else Fault.
Definition set_len (t : text) (line n : Z) : outcome text :=
  if (0 <=? line) && (line <? BUF_LINES)
  then Ret (Text (buf t) (<[Z.to_nat line := u8 n]> (line_len t)) (head t) (count t) (cur_line t) (cur_col t) (view t))
  else Fault.
Definition get_cell (t : text) (line col : Z) : outcome Z :=
  if (0 <=? line) && (line <? BUF_LINES) && (0 <=? col) && (col <? MAX_COLS)
  then Ret (default 0 ((buf t !!! Z.to_nat line) !! Z.to_nat col)) else Fault.
Definition get_len (t : text) (line : Z) : outcome Z :=
  if (0 <=? line) && (line <? BUF_LINES) then Ret (default 0 (line_len t !! Z.to_nat line)) else Fault.

(** [for (c = lo; c < hi; c++) buf[line][c] = v]. *)
Definition blank (t : text) (line lo hi v : Z) : outcome text :=
  for_loop_m (Z.to_nat (hi - lo)) lo (fun c t => set_cell t line c v) t.

Definition clear_line (at_ : Z) (t : text) (line : Z) : outcome text :=
  t ← blank t line 0 MAX_COLS (pack at_ 32);
  set_len t line 0.

Definition erase_prev_char (at_ : Z) (t : text) : outcome text :=
  if cur_col t =? 0 then Ret t else
  t ← set_cell t (cur_line t) (cur_col t - 1) (pack at_ 32);
  let t := set_cursor t (cur_line t) (cur_col t - 1) in
  n ← get_len t (cur_line t);
  if cur_col t <? n then set_len t (cur_line t) (cur_col t) else Ret t.

Definition newline (at_ cols : Z) (t : text) : outcome text :=
  let line := cur_line t in
  n ← get_len t line;
  let clear_from := if cols <? n then cols else n in
  t ← blank t line clear_from cols (pack at_ 32);
  t ← set_len t line clear_from;
  let t := set_cursor t ((cur_line t + 1) mod BUF_LINES) 0 in
  let t := if count t <? BUF_LINES then set_ring t (head t) (count t + 1) (view t)
           else set_ring t ((head t + 1) mod BUF_LINES) (count t) (if 0 <? view t then view t - 1 else view t) in
  clear_line at_ t (cur_line t).

(** A printable character at the cursor. *)
Definition put_char (at_ cols c : Z) (t : text) : outcome text :=
  t ← (if cols <=? cur_col t then newline at_ cols t else Ret t);
  t ← set_cell t (cur_line t) (cur_col t) (pack at_ c);
  let t := set_cursor t (cur_line t) (cur_col t + 1) in
  n ← get_len t (cur_line t);
  t ← (if n <? cur_col t then set_len t (cur_line t) (cur_col t) else Ret t);
  if cols <=? cur_col t then newline at_ cols t else Ret t.

(** What [console_emit_char] does to the ring. *)
Definition type_char (at_ cols c : Z) (t : text) : outcome text :=
  if c =? 10 then newline at_ cols t
  else if c =? 13 then Ret (set_cursor t (cur_line t) 0)
  else if c =? 8 then erase_prev_char at_ t
  else put_char at_ cols c t.

(** All lines cleared, the ring restarted. *)
Definition reset_ring (at_ : Z) (t : text) : outcome text :=
  t ← for_range_m BUF_LINES (fun l t => clear_line at_ t l) t;
  Ret (Text (buf t) (line_len t) 0 1 0 0 0).

Section Console.
Context {Hw : Type} `{Hardware Hw}.
Implicit Types m : machine Hw.

Definition console_display_enabled m : bool :=
  bootmode_logs_visible (boot m) && (vga_enabled (con m) || framebuffer_enabled (screen m)).

Definition visible_cols m : Z :=
  if framebuffer_enabled (screen m) then
    let cols := framebuffer_width (screen m) / 8 in
    let cols := if MAX_COLS <? cols then MAX_COLS else cols in
    if cols =? 0 then 1 else cols
  else 80.
Definition visible_rows m : Z :=
  if framebuffer_enabled (screen m) then
    let rows := framebuffer_text_rows (screen m) in
    let rows := if BUF_LINES <? rows then BUF_LINES else rows in
    if rows =? 0 then 1 else rows
  else 25.

Definition on_text m (f : text -> outcome text) : outcome (machine Hw) := t ← f (txt (con m)); Ret (set_text m t).

Definition follow_tail m : bool :=
  let t := txt (con m) in
  let rows := visible_rows m in
  (count t <=? rows) || (count t <=? u32 (view t + rows)).

(** One cell on the screen: [c] is the column, [r] the row. *)
Definition show_cell m (c r v : Z) : machine Hw :=
  if framebuffer_enabled (screen m) then set_mram m (framebuffer_draw_cell (screen m) c r v (mram m))
  else let a := video (con m) + (r * 80 + c) * 2 in
       set_mram m (wr (wr (mram m) a v) (a + 1) (Z.shiftr v 8)).

(** The first line shown, as an offset from the oldest one. *)
Definition first_line m : Z :=
  let t := txt (con m) in
  let rows := visible_rows m in
  if count t <=? rows then 0 else
  if count t <? u32 (view t + rows) then count t - rows else view t.

Definition draw_screen m : outcome (machine Hw) :=
  if display_hold (con m) then Ret m else
  if negb (console_display_enabled m) then Ret m else
  let start := first_line m in
  for_range_m (visible_rows m) (fun r m =>
    let t := txt (con m) in
    let off := u32 (start + r) in
    if count t <=? off then
      Ret (for_range (visible_cols m) (fun c m => show_cell m c r (pack (attr (con m)) 32)) m)
    else
      for_range_m (visible_cols m) (fun c m => v ← get_cell t (idx t off) c; Ret (show_cell m c r v)) m) m.

(** Where the view stands when it follows the output. *)
Definition tail_view m (t : text) : text :=
  set_view t (if visible_rows m <? count t then count t - visible_rows m else 0).

Definition console_emit_char m (c : Z) : outcome (machine Hw) :=
  let follow := follow_tail m in
  m ← serial_raw_putc m c;
  m ← on_text m (type_char (attr (con m)) (visible_cols m) c);
  let m := debuglog_char m c in
  let m := if follow && console_display_enabled m then set_text m (tail_view m (txt (con m))) else m in
  if follow then Ret m else draw_screen m.

Definition console_flush m : outcome (machine Hw) := draw_screen m.
Definition console_putc m (c : Z) : outcome (machine Hw) := m ← console_emit_char m c; console_flush m.

(** The characters of a buffer, in order. *)
Fixpoint emit_all m (s : list Z) : outcome (machine Hw) :=
  match s with [] => Ret m | c :: s => m ← console_emit_char m c; emit_all m s end.
Definition console_write m (s : option (list Z)) : outcome (machine Hw) :=
  match s with
  | None | Some [] => Ret m
  | Some s => m ← emit_all m s; console_flush m
  end.
Definition console_puts m (s : option (list Z)) : outcome (machine Hw) := console_write m s.

Definition console_udec m (v : Z) : outcome (machine Hw) := s ← udec_text v; console_puts m (Some s).
Definition console_uhex m (v : Z) : outcome (machine Hw) := s ← uhex_text v; console_puts m (Some s).

Definition console_set_attr m (fg bg : Z) : machine Hw := set_attr m (u8 (VGA_ATTR fg bg)).

Definition console_backspace m : outcome (machine Hw) :=
  m ← on_text m (erase_prev_char (attr (con m)));
  let m := if follow_tail m && console_display_enabled m then set_text m (tail_view m (txt (con m))) else m in
  draw_screen m.

Definition console_clear m : outcome (machine Hw) :=
  m ← on_text (set_hold m false) (reset_ring (attr (con m)));
  draw_screen m.

Definition console_scroll_up m : outcome (machine Hw) :=
  let t := txt (con m) in
  if console_display_enabled m && (0 <? view t) then draw_screen (set_text m (set_view t (view t - 1))) else Ret m.
Definition console_scroll_down m : outcome (machine Hw) :=
  let t := txt (con m) in
  if console_display_enabled m && (u32 (view t + visible_rows m) <? count t)
  then draw_screen (set_text m (set_view t (view t + 1))) else Ret m.

Definition console_set_vga_enabled m (enabled : bool) : machine Hw := set_vga m enabled.
Definition console_vga_enabled m : bool := vga_enabled (con m).
Definition console_set_logs_visible m (visible : bool) : outcome (machine Hw) :=
  let m := set_boot m (bootmode_set_logs_visible (boot m) visible) in
  if visible then draw_screen m else Ret m.
Definition console_logs_visible m : bool := bootmode_logs_visible (boot m).
Definition console_apply_boot_theme m : machine Hw :=
  set_attr m (u8 (VGA_ATTR (bootmode_fg (boot m)) (bootmode_bg (boot m)))).
Definition console_hold_display_until_input m : machine Hw := set_hold m true.
Definition console_release_display_hold m : outcome (machine Hw) :=
  if negb (display_hold (con m)) then Ret m else draw_screen (set_hold m false).

(** ** The keyboard *)

Definition ps2_try_read_scancode m : machine Hw * option Z :=
  let '(m, status) := inb m 0x64 in
  if Z.land status 1 =? 0 then (m, None) else
  if negb (Z.land status 0x20 =? 0) then ((inb m 0x60).1, None) else
  let '(m, value) := inb m 0x60 in (m, Some value).

Definition queue_escape_sequence m (final : Z) : machine Hw * Z :=
  let k := kbd (con m) in
  (set_kbd m (Keyboard (kbd_shift k) (kbd_extended k) [27; 91; final] 3 1), 27).

Definition set_shift (k : keyboard) (b : bool) : keyboard :=
  Keyboard b (kbd_extended k) (pending_input k) (pending_len k) (pending_pos k).
Definition set_extended (k : keyboard) (b : bool) : keyboard :=
  Keyboard (kbd_shift k) b (pending_input k) (pending_len k) (pending_pos k).

(** The characters of a key: plain and with shift. *)
Definition keymap (sc : Z) : option (Z * Z) :=
  let row (first : Z) (plain shifted : string) : option (Z * Z) :=
    let i := Z.to_nat (sc - first) in
    if sc <? first then None else
    match str plain !! i, str shifted !! i with Some a, Some b => Some (a, b) | _, _ => None end in
  if sc =? 0x01 then Some (27, 27)
  else if sc =? 0x0E then Some (8, 8)
  else if sc =? 0x0F then Some (9, 9)
  else if sc =? 0x1C then Some (10, 10)
  else if sc =? 0x28 then Some (39, 34)
  else if sc =? 0x39 then Some (32, 32)
  else if sc <=? 0x0D then row 0x02 "1234567890-=" "!@#$%^&*()_+"
  else if sc <=? 0x1B then row 0x10 "qwertyuiop[]" "QWERTYUIOP{}"
  else if sc <=? 0x27 then row 0x1E "asdfghjkl;" "ASDFGHJKL:"
  else if sc =? 0x29 then Some (96, 126)
  else if sc <=? 0x35 then row 0x2B "\zxcvbnm,./" "|ZXCVBNM<>?"
  else None.

Definition scancode_to_ascii m (sc : Z) : machine Hw * Z :=
  if sc =? 0xE0 then (set_kbd m (set_extended (kbd (con m)) true), 0) else
  let extended := kbd_extended (kbd (con m)) in
  let m := set_kbd m (set_extended (kbd (con m)) false) in
  if negb (Z.land sc 0x80 =? 0) then
    let released := Z.land sc 0x7F in
    (if (released =? 0x2A) || (released =? 0x36) then set_kbd m (set_shift (kbd (con m)) false) else m, 0)
  else if (sc =? 0x2A) || (sc =? 0x36) then (set_kbd m (set_shift (kbd (con m)) true), 0)
  else
    let arrow final := if extended then queue_escape_sequence m final else (m, 0) in
    if sc =? 0x48 then arrow 65 else if sc =? 0x50 then arrow 66
    else if sc =? 0x4B then arrow 68 else if sc =? 0x4D then arrow 67
    else match keymap sc with
         | Some (normal, shifted) => (m, if kbd_shift (kbd (con m)) then shifted else normal)
         | None => (m, 0)
         end.

(** The serial port delivers a byte when it has one: [serial_getc] gives a value
    of [inb], never a negative one. *)
Fixpoint getc_loop (fuel : nat) m : outcome (machine Hw * Z) :=
  let k := kbd (con m) in
  if pending_pos k <? pending_len k then
    m ← console_release_display_hold m;
    Ret (set_kbd m (Keyboard (kbd_shift k) (kbd_extended k) (pending_input k) (pending_len k) (pending_pos k + 1)),
         default 0 (pending_input k !! Z.to_nat (pending_pos k)))
  else
  let m := set_kbd m (Keyboard (kbd_shift k) (kbd_extended k) (pending_input k) 0 0) in
  let '(m, ready) := serial_read_ready m in
  if ready then
    '(m, ch) ← serial_getc m;
    m ← console_release_display_hold m;
    Ret (m, if ch =? 13 then 10 else ch)
  else
  let '(m, sc) := ps2_try_read_scancode m in
  let '(m, translated) := match sc with Some sc => scancode_to_ascii m sc | None => (m, 0) end in
  if negb (translated =? 0) then m ← console_release_display_hold m; Ret (m, translated)
  else match fuel with O => Timeout | S fuel => getc_loop fuel m end.
Definition console_getc m : outcome (machine Hw * Z) := getc_loop hw_polls m.
End Console.
