(* ===== verification/ConsoleRing.v ===== *)
(** * The line ring refines a scrollback

    The ring of console.c, with its indices modulo 512, is a list of past lines
    and a current line.  A line is its cells with the length it was written to. *)

From Stdlib Require Import ZArith Lia.
From stdpp Require Import base numbers gmap strings fin_maps option list.
From S2P Require Import Prelude MemUtils VgaDraw Machine Console.

Local Open Scope Z_scope.

(** ** The abstract terminal *)

Definition line : Type := list Z * Z.
Record term := Term { past : list line; current : line; col : Z }.

(** [cells] with the columns from [lo] below [hi] set to [v]. *)
Definition fill (lo hi v : Z) (cells : list Z) : list Z :=
  imap (fun i x => if (lo <=? Z.of_nat i) && (Z.of_nat i <? hi) then v else x) cells.

Definition blank_line (at_ : Z) : line := (replicate 160 (pack at_ 32), 0).

(** The current line ends, its rest blanked; the oldest line goes when there
    are 512. *)
Definition end_line (at_ cols : Z) (l : line) : line :=
  let n := if cols <? l.2 then cols else l.2 in (fill n cols (pack at_ 32) l.1, n).
Definition term_newline (at_ cols : Z) (t : term) : term :=
  let p := past t ++ [end_line at_ cols (current t)] in
  Term (if (length p <? 512)%nat then p else tail p) (blank_line at_) 0.

Definition write_at (c v : Z) (l : line) : line :=
  (<[Z.to_nat c := v]> l.1, if l.2 <? c + 1 then c + 1 else l.2).
Definition erase_at (c v : Z) (l : line) : line :=
  (<[Z.to_nat c := v]> l.1, if c <? l.2 then c else l.2).

Definition term_type (at_ cols : Z) (t : term) (c : Z) : term :=
  if c =? 10 then term_newline at_ cols t
  else if c =? 13 then Term (past t) (current t) 0
  else if c =? 8 then
    if col t =? 0 then t else Term (past t) (erase_at (col t - 1) (pack at_ 32) (current t)) (col t - 1)
  else
    let t := if cols <=? col t then term_newline at_ cols t else t in
    let t := Term (past t) (write_at (col t) (pack at_ c) (current t)) (col t + 1) in
    if cols <=? col t then term_newline at_ cols t else t.

(** ** The ring *)

Definition row (t : text) (l : Z) : line := (buf t !!! Z.to_nat l, line_len t !!! Z.to_nat l).

Definition line_ok (l : line) : Prop := length l.1 = 160%nat /\ 0 <= l.2 <= 160.

Record text_ok (t : text) : Prop := TextOk {
  t_buf : length (buf t) = 512%nat;
  t_len : length (line_len t) = 512%nat;
  t_rows : forall l, 0 <= l < 512 -> line_ok (row t l);
  t_head : 0 <= head t < 512;
  t_count : 1 <= count t <= 512;
  t_line : cur_line t = (head t + count t - 1) mod 512;
  t_col : 0 <= cur_col t <= 160;
  t_view : 0 <= view t < count t
}.

(** The lines of the ring, oldest first. *)
Definition nth_line (t : text) (off : Z) : line := row t ((head t + off) mod 512).
Definition abs (t : text) : term :=
  Term (nth_line t <$> seqZ 0 (count t - 1)) (row t (cur_line t)) (cur_col t).

(** Line [l] replaced. *)
Definition upd (t : text) (l : Z) (r : line) : text :=
  Text (<[Z.to_nat l := r.1]> (buf t)) (<[Z.to_nat l := r.2]> (line_len t))
    (head t) (count t) (cur_line t) (cur_col t) (view t).

Lemma row_upd t l r l' : length (buf t) = 512%nat -> length (line_len t) = 512%nat -> 0 <= l < 512 -> 0 <= l' ->
  row (upd t l r) l' = if decide (l' = l) then r else row t l'.
Proof.
  intros Hb Hl Hr Hl'. unfold row, upd. cbn. destruct (decide (l' = l)) as [->|].
  - rewrite !list_lookup_total_insert_eq by lia. by destruct r.
  - rewrite !list_lookup_total_insert_ne by lia. done.
Qed.
Lemma upd_upd t l r r' : upd (upd t l r) l r' = upd t l r'.
Proof. unfold upd. cbn. by rewrite !list_insert_insert_eq. Qed.
Lemma upd_row t l : length (buf t) = 512%nat -> length (line_len t) = 512%nat -> 0 <= l < 512 -> upd t l (row t l) = t.
Proof.
  intros Hb Hl Hr. unfold upd, row. cbn. rewrite !list_insert_id; [by destruct t|..]; apply list_lookup_lookup_total_lt; lia.
Qed.

(** ** The accesses *)

Lemma in_ring l : 0 <= l < 512 -> (0 <=? l) && (l <? BUF_LINES) = true.
Proof. intros Hl. unfold BUF_LINES. by rewrite (proj2 (Z.leb_le 0 l)), (proj2 (Z.ltb_lt l 512)) by lia. Qed.
Lemma in_row c : 0 <= c < 160 -> (0 <=? c) && (c <? MAX_COLS) = true.
Proof. intros Hc. unfold MAX_COLS. by rewrite (proj2 (Z.leb_le 0 c)), (proj2 (Z.ltb_lt c 160)) by lia. Qed.

Section Access.
Context (t : text) (Hb : length (buf t) = 512%nat) (Hl : length (line_len t) = 512%nat).

Lemma set_cell_upd l c v : 0 <= l < 512 -> 0 <= c < 160 ->
  set_cell t l c v = Ret (upd t l (<[Z.to_nat c := v]> (row t l).1, (row t l).2)).
Proof.
  intros Hr Hc. unfold set_cell. rewrite <- andb_assoc, in_ring, in_row by done. cbn [andb]. f_equal. unfold upd. cbn. f_equal.
  - apply list_alter_is_insert. apply list_lookup_lookup_total_lt. lia.
  - symmetry. apply list_insert_id, list_lookup_lookup_total_lt. lia.
Qed.
Lemma set_len_upd l n : 0 <= l < 512 -> 0 <= n < 256 -> set_len t l n = Ret (upd t l ((row t l).1, n)).
Proof.
  intros Hr Hn. unfold set_len. rewrite in_ring, u8_small by done. f_equal. unfold upd. cbn. f_equal.
  symmetry. apply list_insert_id, list_lookup_lookup_total_lt. lia.
Qed.
Lemma get_len_row l : 0 <= l < 512 -> get_len t l = Ret (row t l).2.
Proof.
  intros Hr. unfold get_len. rewrite in_ring by done. f_equal. cbn.
  by rewrite (list_lookup_lookup_total_lt (line_len t)) by lia.
Qed.
Lemma get_cell_row l c : 0 <= l < 512 -> 0 <= c < 160 -> get_cell t l c = Ret (default 0 ((row t l).1 !! Z.to_nat c)).
Proof. intros Hr Hc. unfold get_cell. by rewrite <- andb_assoc, in_ring, in_row by done. Qed.
End Access.

Lemma lookup_fill lo hi v cells i : fill lo hi v cells !! i =
  (fun x => if (lo <=? Z.of_nat i) && (Z.of_nat i <? hi) then v else x) <$> cells !! i.
Proof. unfold fill. by rewrite list_lookup_imap. Qed.
Lemma length_fill lo hi v cells : length (fill lo hi v cells) = length cells.
Proof. apply length_imap. Qed.
Lemma fill_empty lo hi v cells : hi <= lo -> fill lo hi v cells = cells.
Proof.
  intros Hle. apply list_eq. intros i. rewrite lookup_fill. destruct (cells !! i); [|done]. cbn. f_equal.
  destruct (Z.leb_spec lo (Z.of_nat i)), (Z.ltb_spec (Z.of_nat i) hi); try done. lia.
Qed.
Lemma fill_step lo hi v cells : 0 <= lo < hi -> lo < Z.of_nat (length cells) ->
  fill (lo + 1) hi v (<[Z.to_nat lo := v]> cells) = fill lo hi v cells.
Proof.
  intros Hlo Hl. apply list_eq. intros i. rewrite !lookup_fill. destruct (decide (i = Z.to_nat lo)) as [->|Hne].
  - rewrite list_lookup_insert_eq by lia. destruct (lookup_lt_is_Some_2 cells (Z.to_nat lo)) as [x ->]; [lia|]. cbn. f_equal.
    rewrite (proj2 (Z.leb_gt (lo + 1) _)), (proj2 (Z.leb_le lo _)), (proj2 (Z.ltb_lt _ hi)) by lia. done.
  - rewrite list_lookup_insert_ne by done. destruct (cells !! i); [|done]. cbn. f_equal.
    destruct (Z.leb_spec (lo + 1) (Z.of_nat i)), (Z.leb_spec lo (Z.of_nat i)); try done; lia.
Qed.
Lemma fill_all v cells : length cells = 160%nat -> fill 0 160 v cells = replicate 160 v.
Proof.
  intros Hl. apply list_eq. intros i. rewrite lookup_fill. destruct (decide (i < 160)%nat).
  - rewrite lookup_replicate_2 by done. destruct (lookup_lt_is_Some_2 cells i) as [x ->]; [lia|]. cbn. f_equal.
    rewrite (proj2 (Z.leb_le 0 _)), (proj2 (Z.ltb_lt _ 160)) by lia. done.
  - rewrite !lookup_ge_None_2; [done|rewrite length_replicate; lia|lia].
Qed.

Lemma length_upd t l r : length (buf (upd t l r)) = length (buf t) /\ length (line_len (upd t l r)) = length (line_len t).
Proof. unfold upd. cbn. by rewrite !length_insert. Qed.

Lemma blank_upd t l lo hi v : length (buf t) = 512%nat -> length (line_len t) = 512%nat -> 0 <= l < 512 ->
  length (row t l).1 = 160%nat -> 0 <= lo -> hi <= 160 ->
  blank t l lo hi v = Ret (upd t l (fill lo hi v (row t l).1, (row t l).2)).
Proof.
  unfold blank. remember (Z.to_nat (hi - lo)) as k eqn:Hk. revert t lo Hk.
  induction k as [|k IH]; intros t lo Hk Hb Hl Hr Hrow Hlo Hhi; cbn [for_loop_m].
  - rewrite fill_empty, <- surjective_pairing, upd_row by (done || lia). done.
  - rewrite set_cell_upd by (done || lia). cbn [mbind outcome_bind]. set (r1 := (<[_ := v]> _, _)).
    destruct (length_upd t l r1) as [Eb El].
    rewrite IH; [|lia|congruence|congruence|done| |lia|done]; rewrite row_upd, decide_True by (done || lia); unfold r1; cbn [fst snd].
    + rewrite upd_upd, fill_step by lia. done.
    + by rewrite length_insert.
Qed.

Lemma clear_line_upd at_ t l : length (buf t) = 512%nat -> length (line_len t) = 512%nat -> 0 <= l < 512 ->
  length (row t l).1 = 160%nat -> clear_line at_ t l = Ret (upd t l (blank_line at_)).
Proof.
  intros Hb Hl Hr Hrow. unfold clear_line, MAX_COLS. rewrite blank_upd by (done || lia). cbn [mbind outcome_bind].
  set (r := (fill _ _ _ _, _)). destruct (length_upd t l r) as [Eb El].
  rewrite set_len_upd, upd_upd, row_upd, decide_True by (congruence || lia). unfold r. cbn [fst]. by rewrite fill_all.
Qed.

(** ** Refinement *)

Lemma ring_index h n off : 0 <= h < 512 -> 1 <= n <= 512 -> 0 <= off < n - 1 -> (h + off) mod 512 <> (h + n - 1) mod 512.
Proof. intros. mlia. Qed.

(** The current line replaced, the cursor moved. *)
Lemma current_ok t r c : text_ok t -> line_ok r -> 0 <= c <= 160 ->
  text_ok (set_cursor (upd t (cur_line t) r) (cur_line t) c) /\
  abs (set_cursor (upd t (cur_line t) r) (cur_line t) c) = Term (past (abs t)) r c.
Proof.
  intros Hok Hr Hc. pose proof Hok as [Hb Hl Hrows Hh Hn Hcl Hcol Hv]. destruct (length_upd t (cur_line t) r) as [Eb El].
  assert (0 <= cur_line t < 512) as Hcur by (rewrite Hcl; mlia).
  split.
  - split; cbn [buf line_len head count cur_line cur_col view set_cursor upd]; rewrite ?length_insert; try done. intros l Hl'.
    change (line_ok (row (upd t (cur_line t) r) l)). rewrite row_upd by (done || lia). case_decide; [done|by apply Hrows].
  - unfold abs. cbn [count head cur_line cur_col set_cursor upd]. f_equal.
    + apply list_fmap_ext. intros i off Hoff. apply lookup_seqZ in Hoff as [-> Hoff]. unfold nth_line. cbn [head set_cursor upd].
      change (row (upd t (cur_line t) r) ((head t + (0 + Z.of_nat i)) mod 512) = row t ((head t + (0 + Z.of_nat i)) mod 512)).
      pose proof (ring_index (head t) (count t) (Z.of_nat i)). rewrite row_upd; [|done|done|done|apply Z.mod_pos_bound; lia].
      rewrite decide_False; [done|]. rewrite Hcl. apply ring_index; lia.
    + change (row (upd t (cur_line t) r) (cur_line t) = r). by rewrite row_upd, decide_True by (done || lia).
Qed.

(** A new current line [r], the old one [e] kept, the oldest one dropped when
    the ring is full. *)
Definition advance (t : text) (e r : line) : text :=
  let nl := (cur_line t + 1) mod 512 in
  let u := upd (upd t (cur_line t) e) nl r in
  if count t <? 512 then Text (buf u) (line_len u) (head t) (count t + 1) nl 0 (view t)
  else Text (buf u) (line_len u) ((head t + 1) mod 512) (count t) nl 0 (if 0 <? view t then view t - 1 else view t).

Lemma row_advance t e r l : text_ok t -> 0 <= l < 512 ->
  row (advance t e r) l = if decide (l = (cur_line t + 1) mod 512) then r else if decide (l = cur_line t) then e else row t l.
Proof.
  intros [Hb Hl _ Hh Hn Hcl _ _] Hr. destruct (length_upd t (cur_line t) e) as [Eb El].
  assert (0 <= cur_line t < 512) as Hc by (rewrite Hcl; mlia).
  transitivity (row (upd (upd t (cur_line t) e) ((cur_line t + 1) mod 512) r) l).
  { unfold advance. by destruct (count t <? 512). }
  rewrite row_upd; [|congruence|congruence|mlia|lia]. case_decide; [done|]. by rewrite row_upd by (done || lia).
Qed.

Lemma advance_abs t e r : text_ok t ->
  abs (advance t e r) = Term (let p := past (abs t) ++ [e] in if (length p <? 512)%nat then p else tail p) r 0.
Proof.
  intros Hok. pose proof Hok as [_ _ _ Hh Hn Hcl _ _]. unfold abs at 1. f_equal; cbn zeta.
  - assert (length (past (abs t)) = Z.to_nat (count t - 1)) as Hp by (cbn; by rewrite length_fmap, length_seqZ).
    apply list_eq. intros i. rewrite list_lookup_fmap. rewrite length_app, Hp. cbn [length].
    destruct (Nat.ltb_spec (Z.to_nat (count t - 1) + 1) 512) as [Hlt|Hge].
    + assert (count (advance t e r) = count t + 1 /\ head (advance t e r) = head t) as [Ec Eh]
        by (unfold advance; by rewrite (proj2 (Z.ltb_lt _ 512)) by lia).
      rewrite Ec. destruct (decide (i < Z.to_nat (count t))%nat) as [Hi|Hi].
      * rewrite lookup_seqZ_lt by lia. cbn [fmap option_fmap option_map]. unfold nth_line.
        rewrite Eh, row_advance by (done || mlia). rewrite decide_False by (rewrite Hcl; mlia).
        destruct (decide (i = Z.to_nat (count t - 1))) as [->|Hne].
        -- rewrite decide_True by (rewrite Hcl; mlia). rewrite lookup_app_r by lia. by rewrite Hp, Nat.sub_diag.
        -- rewrite decide_False by (rewrite Hcl; mlia). rewrite lookup_app_l by lia. cbn.
           rewrite list_lookup_fmap, lookup_seqZ_lt by lia. done.
      * rewrite lookup_seqZ_ge, lookup_ge_None_2; [done|rewrite length_app, Hp; cbn; lia|lia].
    + assert (count (advance t e r) = 512 /\ head (advance t e r) = (head t + 1) mod 512) as [Ec Eh]
        by (unfold advance; rewrite (proj2 (Z.ltb_ge _ 512)) by lia; split; [cbn; lia|done]).
      rewrite Ec, lookup_tail. destruct (decide (i < 511)%nat) as [Hi|Hi].
      * rewrite lookup_seqZ_lt by lia. cbn [fmap option_fmap option_map]. unfold nth_line.
        rewrite Eh, row_advance by (done || mlia). rewrite decide_False by (rewrite Hcl; mlia).
        destruct (decide (i = 510)%nat) as [->|Hne].
        -- rewrite decide_True by (rewrite Hcl; mlia). rewrite lookup_app_r by lia. rewrite Hp. by replace (511 - Z.to_nat (count t - 1))%nat with 0%nat by lia.
        -- rewrite decide_False by (rewrite Hcl; mlia). rewrite lookup_app_l by lia. cbn.
           rewrite list_lookup_fmap, lookup_seqZ_lt by lia. cbn. unfold nth_line. do 2 f_equal. mlia.
      * rewrite lookup_seqZ_ge, lookup_ge_None_2; [done|rewrite length_app, Hp; cbn; lia|lia].
  - assert (cur_line (advance t e r) = (cur_line t + 1) mod 512) as -> by (unfold advance; by destruct (count t <? 512)).
    rewrite row_advance, decide_True by (done || mlia). done.
  - unfold advance. by destruct (count t <? 512).
Qed.

Lemma advance_ok t e r : text_ok t -> line_ok e -> line_ok r -> text_ok (advance t e r).
Proof.
  intros Hok He Hr. pose proof Hok as [Hb Hl Hrows Hh Hn Hcl Hcol Hv].
  assert (forall l, 0 <= l < 512 -> line_ok (row (advance t e r) l)) as Hrow.
  { intros l Hl'. rewrite row_advance by done. repeat case_decide; auto. }
  revert Hrow. unfold advance. destruct (Z.ltb_spec (count t) 512); intros Hrow; split; cbn in *; rewrite ?length_insert; try done; try lia;
    try (rewrite Hcl; mlia); try mlia; destruct (Z.ltb_spec 0 (view t)); lia.
Qed.

Lemma end_line_ok at_ cols l : line_ok l -> 0 <= cols <= 160 -> line_ok (end_line at_ cols l).
Proof.
  intros [Hl Hn] Hc. unfold end_line, line_ok. cbn. rewrite length_fill. split; [done|]. destruct (Z.ltb_spec cols l.2); lia.
Qed.
Lemma blank_line_ok at_ : line_ok (blank_line at_).
Proof. split; [cbn; done|cbn; lia]. Qed.

Lemma newline_ok at_ cols t : text_ok t -> 0 <= cols <= 160 ->
  exists t', newline at_ cols t = Ret t' /\ text_ok t' /\ abs t' = term_newline at_ cols (abs t) /\ cur_col t' = 0.
Proof.
  intros Hok Hc. pose proof Hok as [Hb Hl Hrows Hh Hn Hcl Hcol Hv].
  assert (0 <= cur_line t < 512) as Hcur by (rewrite Hcl; mlia). destruct (Hrows _ Hcur) as [Hlen Hn2].
  exists (advance t (end_line at_ cols (row t (cur_line t))) (blank_line at_)). split_and!.
  - unfold newline. rewrite get_len_row by done. cbn [mbind outcome_bind].
    set (n := if cols <? _ then cols else _). assert (0 <= n <= 160) as Hn0 by (unfold n; destruct (Z.ltb_spec cols (row t (cur_line t)).2); lia).
    rewrite blank_upd by (done || lia). cbn [mbind outcome_bind]. set (r1 := (fill _ _ _ _, _)).
    destruct (length_upd t (cur_line t) r1) as [Eb El].
    rewrite set_len_upd, row_upd, decide_True, upd_upd by (congruence || lia). cbn [mbind outcome_bind]. unfold r1. cbn [fst].
    fold (end_line at_ cols (row t (cur_line t))) in *.
    change (fill n cols (pack at_ 32) (row t (cur_line t)).1, n) with (end_line at_ cols (row t (cur_line t))).
    set (e := end_line _ _ _). destruct (length_upd t (cur_line t) e) as [Eb2 El2].
    unfold BUF_LINES. cbn [count cur_line head view upd set_cursor].
    assert (forall h c v, clear_line at_ (set_ring (set_cursor (upd t (cur_line t) e) ((cur_line t + 1) mod 512) 0) h c v) ((cur_line t + 1) mod 512) =
      Ret (upd (set_ring (set_cursor (upd t (cur_line t) e) ((cur_line t + 1) mod 512) 0) h c v) ((cur_line t + 1) mod 512) (blank_line at_))) as Hcl'.
    { intros h c v. apply clear_line_upd; [cbn in *; congruence|cbn in *; congruence|mlia|].
      change (length (row (upd t (cur_line t) e) ((cur_line t + 1) mod 512)).1 = 160%nat).
      rewrite row_upd, decide_False by (done || mlia). apply Hrows. mlia. }
    unfold advance. destruct (count t <? 512); cbn [cur_line set_ring set_cursor]; rewrite Hcl'; done.
  - apply advance_ok; [done|by apply end_line_ok|apply blank_line_ok].
  - rewrite advance_abs by done. done.
  - unfold advance. by destruct (count t <? 512).
Qed.

Lemma cur_line_range t : text_ok t -> 0 <= cur_line t < 512.
Proof. intros [_ _ _ Hh Hn Hcl _ _]. rewrite Hcl. mlia. Qed.

(** Writing the cell left of the cursor position [c] and recording a length. *)
Lemma write_cell t c v : text_ok t -> 0 <= c < 160 ->
  set_cell t (cur_line t) c v = Ret (upd t (cur_line t) (<[Z.to_nat c := v]> (row t (cur_line t)).1, (row t (cur_line t)).2)).
Proof. intros Hok Hc. pose proof (cur_line_range t Hok). by apply set_cell_upd; try apply Hok. Qed.

Lemma record_len t r (P : bool) n : text_ok t -> 0 <= n < 256 ->
  let u := set_cursor (upd t (cur_line t) r) (cur_line t) n in
  (if P then set_len u (cur_line t) n else Ret u) = Ret (set_cursor (upd t (cur_line t) (r.1, if P then n else r.2)) (cur_line t) n).
Proof.
  intros Hok Hn u. pose proof (cur_line_range t Hok). destruct (length_upd t (cur_line t) r) as [Eb El].
  destruct P; [|by destruct r]. rewrite set_len_upd by (done || (cbn; rewrite length_insert; apply Hok)).
  change (row u (cur_line t)) with (row (upd t (cur_line t) r) (cur_line t)).
  rewrite row_upd, decide_True by (apply Hok || done || lia). f_equal.
  pose proof (upd_upd t (cur_line t) r (r.1, n)) as E. unfold upd, u in *. cbn in *. injection E as E1 E2. by rewrite E1, E2.
Qed.
Lemma read_len t r n : text_ok t -> get_len (set_cursor (upd t (cur_line t) r) (cur_line t) n) (cur_line t) = Ret r.2.
Proof.
  intros Hok. pose proof (cur_line_range t Hok). rewrite get_len_row by (done || (cbn; rewrite length_insert; apply Hok)).
  change (Ret (row (upd t (cur_line t) r) (cur_line t)).2 = Ret r.2). by rewrite row_upd, decide_True by (apply Hok || done || lia).
Qed.

Lemma erase_ok at_ t : text_ok t -> exists t', erase_prev_char at_ t = Ret t' /\ text_ok t' /\
  abs t' = if cur_col t =? 0 then abs t else Term (past (abs t)) (erase_at (cur_col t - 1) (pack at_ 32) (current (abs t))) (cur_col t - 1).
Proof.
  intros Hok. unfold erase_prev_char. destruct (Z.eqb_spec (cur_col t) 0); [by exists t|]. pose proof (t_col t Hok).
  pose proof (t_rows t Hok _ (cur_line_range t Hok)) as [Hl Hn].
  rewrite write_cell by (done || lia). cbn [mbind outcome_bind cur_line cur_col upd set_cursor].
  rewrite read_len by done. cbn [mbind outcome_bind snd]. rewrite record_len by (done || lia). cbn [fst snd].
  eexists. split; [done|]. apply current_ok; [done| |lia].
  unfold line_ok, erase_at, write_at. cbn [fst snd current abs]. split; [by rewrite length_insert|]. destruct (Z.ltb_spec (cur_col t - 1) (row t (cur_line t)).2); lia.
Qed.

Lemma put_char_ok at_ cols c t : text_ok t -> 1 <= cols <= 160 -> cur_col t < cols -> exists t',
  (t ← set_cell t (cur_line t) (cur_col t) (pack at_ c);
   let t := set_cursor t (cur_line t) (cur_col t + 1) in
   n ← get_len t (cur_line t);
   if n <? cur_col t then set_len t (cur_line t) (cur_col t) else Ret t) = Ret t' /\ text_ok t' /\
  abs t' = Term (past (abs t)) (write_at (cur_col t) (pack at_ c) (current (abs t))) (cur_col t + 1).
Proof.
  intros Hok Hc Hlt. pose proof (t_col t Hok). pose proof (t_rows t Hok _ (cur_line_range t Hok)) as [Hl Hn].
  rewrite write_cell by (done || lia). cbn [mbind outcome_bind cur_line cur_col upd set_cursor].
  rewrite read_len by done. cbn [mbind outcome_bind snd]. rewrite record_len by (done || lia). cbn [fst snd].
  eexists. split; [done|]. apply current_ok; [done| |lia].
  unfold line_ok, erase_at, write_at. cbn [fst snd current abs]. split; [by rewrite length_insert|]. destruct (Z.ltb_spec (row t (cur_line t)).2 (cur_col t + 1)); lia.
Qed.

Lemma type_char_ok at_ cols c t : text_ok t -> 1 <= cols <= 160 ->
  exists t', type_char at_ cols c t = Ret t' /\ text_ok t' /\ abs t' = term_type at_ cols (abs t) c.
Proof.
  intros Hok Hc. pose proof (t_col t Hok). unfold type_char, term_type. case_test.
  { destruct (newline_ok at_ cols t) as (t' & ? & ? & ? & _); [done|lia|by exists t']. }
  case_test.
  { eexists. split; [done|]. pose proof (current_ok t (row t (cur_line t)) 0 Hok) as Hcur.
    rewrite upd_row in Hcur by (apply Hok || apply (cur_line_range t Hok)).
    apply Hcur; [apply (t_rows t Hok), (cur_line_range t Hok)|lia]. }
  case_test; [by apply erase_ok|].
  unfold put_char. change (col (abs t)) with (cur_col t).
  assert (exists t1, (if cols <=? cur_col t then newline at_ cols t else Ret t) = Ret t1 /\ text_ok t1 /\ cur_col t1 < cols /\
    abs t1 = if cols <=? cur_col t then term_newline at_ cols (abs t) else abs t) as (t1 & -> & Hok1 & Hlt & Ha1).
  { destruct (Z.leb_spec cols (cur_col t)); [|by exists t].
    destruct (newline_ok at_ cols t) as (t' & ? & ? & ? & ?); [done|lia|]. exists t'. split_and!; try done. lia. }
  cbn [mbind outcome_bind]. rewrite <- Ha1.
  destruct (put_char_ok at_ cols c t1) as (t2 & Hr & Hok2 & Ha2); [done..|].
  unfold mbind, outcome_bind in *. destruct (set_cell _ _ _ _) as [t1'| | |]; try done. cbn zeta in *.
  destruct (get_len _ _) as [n| | |]; try done. rewrite Hr.
  change (col (abs t1)) with (cur_col t1). rewrite <- Ha2. change (col (abs t2)) with (cur_col t2).
  destruct (cols <=? cur_col t2); [|by exists t2].
  destruct (newline_ok at_ cols t2) as (t' & ? & ? & ? & _); [done|lia|by exists t'].
Qed.
