(* ===== verification/ConsoleProofs.v ===== *)
(** * What the console shows and sends *)

From Stdlib Require Import ZArith Lia.
From stdpp Require Import base numbers gmap strings fin_maps option list.
From S2P Require Import Prelude MemUtils Vram Framebuffer VgaDraw Bootmode Digits Machine Serial Console ConsoleRing.

Local Open Scope Z_scope.

Section Console.
Context {Hw : Type} `{Hardware Hw}.
Implicit Types m : machine Hw.

Record con_ok m : Prop := ConOk {
  c_text : text_ok (txt (con m));
  c_width : 0 <= framebuffer_width (screen m);
  c_rows : 0 <= framebuffer_text_rows (screen m)
}.

Lemma visible_cols_range m : con_ok m -> 1 <= visible_cols m <= 160.
Proof.
  intros [_ Hwd _]. unfold visible_cols, MAX_COLS. case_test; [|lia]. assert (0 <= framebuffer_width (screen m) / 8) by mlia.
  destruct (Z.ltb_spec 160 (framebuffer_width (screen m) / 8)); [cbn; lia|].
  destruct (Z.eqb_spec (framebuffer_width (screen m) / 8) 0); lia.
Qed.
Lemma visible_rows_range m : con_ok m -> 1 <= visible_rows m <= 512.
Proof.
  intros [_ _ Hr]. unfold visible_rows, BUF_LINES. case_test; [|lia].
  destruct (Z.ltb_spec 512 (framebuffer_text_rows (screen m))); [cbn; lia|].
  destruct (Z.eqb_spec (framebuffer_text_rows (screen m)) 0); lia.
Qed.

(** ** Drawing *)

(** Only memory differs. *)
Definition only_ram m m' : Prop := exists r, m' = set_mram m r.
Lemma only_ram_refl m : only_ram m m.
Proof. exists (mram m). by destruct m. Qed.
Lemma show_cell_ram m c r v : only_ram m (show_cell m c r v).
Proof. unfold show_cell. case_test; by eexists. Qed.
Lemma only_ram_trans m1 m2 m3 : only_ram m1 m2 -> only_ram m2 m3 -> only_ram m1 m3.
Proof. intros [r ->] [r' ->]. by exists r'. Qed.
Lemma only_ram_ok m m' : only_ram m m' -> con_ok m -> con_ok m'.
Proof. by intros [r ->] []. Qed.

Lemma first_line_spec m : con_ok m ->
  0 <= first_line m < count (txt (con m)) /\ (first_line m + visible_rows m <= count (txt (con m)) \/ first_line m = 0).
Proof.
  intros Hok. pose proof (visible_rows_range m Hok). destruct (c_text m Hok) as [_ _ _ _ Hn _ _ Hv]. unfold first_line.
  rewrite u32_small by lia. destruct (Z.leb_spec (count (txt (con m))) (visible_rows m)); [lia|].
  destruct (Z.ltb_spec (count (txt (con m))) (view (txt (con m)) + visible_rows m)); lia.
Qed.

(** The cell in row [r] and column [c] of the screen. *)
Definition shown m (r c : Z) : Z :=
  let t := txt (con m) in
  if count t <=? first_line m + r then pack (attr (con m)) 32
  else default 0 ((nth_line t (first_line m + r)).1 !! Z.to_nat c).

(** Each row and column is drawn once, in order. *)
Lemma draw_screen_loop m (P : Z -> machine Hw -> Prop) :
  con_ok m -> display_hold (con m) = false -> console_display_enabled m = true ->
  P 0 m ->
  (forall r c m', 0 <= r < visible_rows m -> 0 <= c < visible_cols m -> only_ram m m' -> P (r * visible_cols m + c) m' ->
     P (r * visible_cols m + c + 1) (show_cell m' c r (shown m r c))) ->
  exists m', draw_screen m = Ret m' /\ only_ram m m' /\ P (visible_rows m * visible_cols m) m'.
Proof.
  intros Hok Hh He H0 Hstep. unfold draw_screen. rewrite Hh, He. cbn [negb].
  pose proof (visible_rows_range m Hok) as Hrows. pose proof (visible_cols_range m Hok) as Hcols.
  pose proof (first_line_spec m Hok) as [Hf _]. pose proof (t_head _ (c_text m Hok)) as Hhd.
  pose proof (t_count _ (c_text m Hok)) as Hcnt.
  apply (for_range_m_inv (fun r m' => only_ram m m' /\ P (r * visible_cols m) m')); [lia|split; [apply only_ram_refl|done]|].
  intros r m1 Hr [Ho HP].
  assert (forall m', only_ram m m' -> txt (con m') = txt (con m) /\ attr (con m') = attr (con m) /\ visible_cols m' = visible_cols m) as Hsame
    by (by intros m' [x ->]).
  destruct (Hsame m1 Ho) as (Et & Ea & Ec). rewrite Et, Ec, u32_small by lia. unfold shown in Hstep.
  set (Q := fun c m' => only_ram m m' /\ P (r * visible_cols m + c) m').
  assert (exists m2, (if count (txt (con m)) <=? first_line m + r
     then Ret (for_range (visible_cols m) (fun c m' => show_cell m' c r (pack (attr (con m')) 32)) m1)
     else for_range_m (visible_cols m) (fun c m' => v ← get_cell (txt (con m)) (idx (txt (con m)) (first_line m + r)) c;
            Ret (show_cell m' c r v)) m1) = Ret m2 /\ Q (visible_cols m) m2) as (m2 & -> & Ho2 & HP2).
  { specialize (Hstep r). destruct (Z.leb_spec (count (txt (con m))) (first_line m + r)) as [Hb|Hb].
    - eexists. split; [done|]. apply (for_range_inv Q); [lia|split; [done|by rewrite Z.add_0_r]|].
      intros c m' Hc [Hom HPm]. split; [by eapply only_ram_trans, show_cell_ram|].
      destruct (Hsame m' Hom) as (_ & -> & _). rewrite Z.add_assoc. by apply Hstep.
    - apply (for_range_m_inv Q); [lia|split; [done|by rewrite Z.add_0_r]|].
      intros c m' Hc [Hom HPm]. unfold idx. rewrite u32_small by lia.
      rewrite get_cell_row by (try lia; unfold BUF_LINES; mlia). cbn [mbind outcome_bind].
      eexists. split; [done|]. split; [by eapply only_ram_trans, show_cell_ram|]. rewrite Z.add_assoc. by apply Hstep. }
  exists m2. split; [done|]. split; [done|]. by replace ((r + 1) * visible_cols m) with (r * visible_cols m + visible_cols m) by lia.
Qed.

Lemma draw_screen_ok m : con_ok m -> exists m', draw_screen m = Ret m' /\ only_ram m m'.
Proof.
  intros Hok. destruct (display_hold (con m)) eqn:Hh; [exists m; unfold draw_screen; rewrite Hh; split; [done|apply only_ram_refl]|].
  destruct (console_display_enabled m) eqn:He.
  - destruct (draw_screen_loop m (fun _ _ => True)) as (m' & ? & ? & _); try done. by exists m'.
  - exists m. unfold draw_screen. rewrite Hh, He. split; [done|apply only_ram_refl].
Qed.

(** ** Emitting *)

(** The settings that decide how characters are shown. *)
Definition same_setup m m' : Prop :=
  attr (con m') = attr (con m) /\ screen m' = screen m /\ boot m' = boot m /\ video (con m') = video (con m) /\
  vga_enabled (con m') = vga_enabled (con m) /\ display_hold (con m') = display_hold (con m) /\ kbd (con m') = kbd (con m).
Lemma same_setup_trans m1 m2 m3 : same_setup m1 m2 -> same_setup m2 m3 -> same_setup m1 m3.
Proof. unfold same_setup. naive_solver congruence. Qed.
Lemma same_setup_cols m m' : same_setup m m' -> visible_cols m' = visible_cols m /\ visible_rows m' = visible_rows m.
Proof. unfold visible_cols, visible_rows. by intros (_ & -> & _). Qed.

Lemma tail_view_ok m t : con_ok m -> text_ok t -> text_ok (tail_view m t) /\ abs (tail_view m t) = abs t.
Proof.
  intros Hok [Hb Hl Hr Hh Hn Hc Hcol Hv]. pose proof (visible_rows_range m Hok). split; [|done].
  split; try done. cbn. destruct (Z.ltb_spec (visible_rows m) (count t)); lia.
Qed.
Lemma debuglog_char_frame m c : con (debuglog_char m c) = con m /\ screen (debuglog_char m c) = screen m /\
  boot (debuglog_char m c) = boot m /\ hw (debuglog_char m c) = hw m.
Proof. unfold debuglog_char. by case_test. Qed.
End Console.

Section Sent.
Context {Hw : Type} `{Uart Hw}.
Implicit Types m : machine Hw.

Lemma console_emit_ok m c : con_ok m ->
  exists m', console_emit_char m c = Ret m' /\ con_ok m' /\ same_setup m m' /\
    abs (txt (con m')) = term_type (attr (con m)) (visible_cols m) (abs (txt (con m))) c /\
    uart_sent (hw m') = uart_sent (hw m) ++ [u8 c] /\ dlog m' = log_next (dlog m).
Proof.
  intros Hok. unfold console_emit_char. destruct (serial_raw_putc_sends m c) as (m1 & -> & [h ->] & Hs). cbn [mbind outcome_bind].
  unfold on_text. change (con (set_hw m h)) with (con m). change (visible_cols (set_hw m h)) with (visible_cols m).
  destruct (type_char_ok (attr (con m)) (visible_cols m) c (txt (con m))) as (t' & -> & Hok' & Ha);
    [apply Hok|by apply visible_cols_range|]. cbn [mbind outcome_bind].
  set (m2 := debuglog_char _ c). destruct (debuglog_char_frame (set_text (set_hw m h) t') c) as (Ec & Es & Eb & Eh). fold m2 in Ec, Es, Eb, Eh.
  cbn in Ec, Es, Eb, Eh. assert (dlog m2 = log_next (dlog m)) as El by (unfold m2; by rewrite debuglog_char_log).
  assert (con_ok m2) as Hok2 by (destruct Hok; split; rewrite ?Ec, ?Es; done).
  set (m3 := if follow_tail m && console_display_enabled m2 then _ else m2).
  assert (con_ok m3 /\ same_setup m m3 /\ abs (txt (con m3)) = abs t' /\ hw m3 = h /\ dlog m3 = log_next (dlog m)) as (Hok3 & Hs3 & Ha3 & Hh3 & Hl3).
  { unfold m3. destruct (_ && _).
    - destruct (tail_view_ok m2 (txt (con m2)) Hok2 (c_text _ Hok2)) as [Hv Hva]. split_and!; try done.
      + destruct Hok2; by split.
      + unfold same_setup. cbn. rewrite Ec. cbn. done.
      + cbn. rewrite Ec in Hva. by rewrite Ec, Hva.
    - split_and!; try done; [|by rewrite Ec]. unfold same_setup. rewrite Ec. cbn. done. }
  clearbody m3. destruct (follow_tail m).
  - exists m3. do 3 (split; [done|]). by rewrite Ha3, Hh3, Hl3.
  - destruct (draw_screen_ok m3 Hok3) as (m4 & -> & Ho). exists m4. pose proof (only_ram_ok _ _ Ho Hok3). destruct Ho as [x ->].
    do 3 (split; [done|]). cbn. by rewrite Ha3, Hh3, Hl3.
Qed.

Lemma emit_all_ok m s : con_ok m ->
  exists m', emit_all m s = Ret m' /\ con_ok m' /\ same_setup m m' /\
    abs (txt (con m')) = foldl (term_type (attr (con m)) (visible_cols m)) (abs (txt (con m))) s /\
    uart_sent (hw m') = uart_sent (hw m) ++ (u8 <$> s).
Proof.
  revert m. induction s as [|c s IH]; intros m Hok; cbn [emit_all].
  - exists m. split_and!; try done. by rewrite app_nil_r.
  - destruct (console_emit_ok m c Hok) as (m1 & -> & Hok1 & Hs1 & Ha1 & Hu1 & _). cbn [mbind outcome_bind].
    destruct (IH m1 Hok1) as (m2 & -> & Hok2 & Hs2 & Ha2 & Hu2). exists m2.
    do 2 (split; [done|]). split; [by eapply same_setup_trans|]. split; [|by rewrite Hu2, Hu1, <- app_assoc].
    destruct (same_setup_cols _ _ Hs1) as [Ec _]. destruct Hs1 as (Ea & _). by rewrite Ha2, Ha1, Ec, Ea.
Qed.

Lemma console_write_ok m s : con_ok m ->
  exists m', console_write m (Some s) = Ret m' /\ con_ok m' /\ same_setup m m' /\
    abs (txt (con m')) = foldl (term_type (attr (con m)) (visible_cols m)) (abs (txt (con m))) s /\
    uart_sent (hw m') = uart_sent (hw m) ++ (u8 <$> s).
Proof.
  intros Hok. unfold console_write. destruct s as [|c s].
  { exists m. split_and!; try done. by rewrite app_nil_r. }
  destruct (emit_all_ok m (c :: s) Hok) as (m1 & -> & Hok1 & Hs1 & Ha1 & Hu1). cbn [mbind outcome_bind]. unfold console_flush.
  destruct (draw_screen_ok m1 Hok1) as (m2 & -> & Ho). exists m2. pose proof (only_ram_ok _ _ Ho Hok1). by destruct Ho as [x ->].
Qed.
End Sent.

(** ** The screen *)

Section Screen.
Context {Hw : Type} `{Hardware Hw}.
Implicit Types m : machine Hw.

(** The byte of the text memory at offset [k]: character and attribute of the
    cells, row after row. *)
Definition vga_byte m (k : Z) : Z :=
  let v := shown m (k / 160) (k mod 160 / 2) in if k mod 2 =? 0 then u8 v else u8 (Z.shiftr v 8).

(** The first [n] cells are on the screen, all else is as in [m]. *)
Definition cells_shown m (n : Z) m' : Prop := forall a,
  rd (mram m') a = if decide (video (con m) <= a < video (con m) + 2 * n) then vga_byte m (a - video (con m)) else rd (mram m) a.

Lemma show_cell_shown m r c m' : framebuffer_enabled (screen m) = false -> only_ram m m' -> 0 <= r -> 0 <= c < 80 ->
  cells_shown m (r * 80 + c) m' -> cells_shown m (r * 80 + c + 1) (show_cell m' c r (shown m r c)).
Proof.
  intros Hf [x ->] Hr Hc Hm a. unfold show_cell. change (screen (set_mram m x)) with (screen m). rewrite Hf.
  change (video (con (set_mram m x))) with (video (con m)). cbn [mram set_mram]. specialize (Hm a). cbn in Hm.
  set (n := r * 80 + c) in *. set (b := video (con m)) in *.
  assert (vga_byte m (n * 2) = u8 (shown m r c) /\ vga_byte m (n * 2 + 1) = u8 (Z.shiftr (shown m r c) 8)) as [E0 E1].
  { unfold vga_byte, n. rewrite (proj2 (Z.eqb_eq (_ mod 2) 0)), (proj2 (Z.eqb_neq (_ mod 2) 0)) by mlia.
    split; do 3 f_equal; mlia. }
  destruct (decide (a = b + n * 2 + 1)) as [->|H1]; [|destruct (decide (a = b + n * 2)) as [->|H0]].
  - rewrite rd_wr_eq, decide_True by lia. rewrite <- E1. f_equal. lia.
  - rewrite rd_wr_ne, rd_wr_eq, decide_True by lia. rewrite <- E0. f_equal. lia.
  - rewrite !rd_wr_ne, Hm by lia. destruct (decide (b <= a < b + 2 * n)), (decide (b <= a < b + 2 * (n + 1))); try done; lia.
Qed.

(** C35: in VGA text mode drawing shows a window of 25 lines of the scrollback:
    row r, column c of the screen is cell c of the line r below the first line
    shown, or a blank below the last line; the window lies inside the scrollback
    unless that is shorter than the screen; no other memory is written. *)
Theorem draw_screen_shows m :
  con_ok m -> framebuffer_enabled (screen m) = false -> display_hold (con m) = false -> console_display_enabled m = true ->
  exists m', draw_screen m = Ret m' /\ cells_shown m (25 * 80) m' /\
    (first_line m + 25 <= count (txt (con m)) \/ first_line m = 0).
Proof.
  intros Hok Hf Hh He.
  assert (visible_rows m = 25 /\ visible_cols m = 80) as [Er Ec] by (unfold visible_rows, visible_cols; by rewrite Hf).
  destruct (draw_screen_loop m (cells_shown m)) as (m' & Hr & _ & Hc); try done.
  - intros a. by rewrite decide_False by lia.
  - rewrite Er, Ec. intros r c m' Hr Hc Ho. apply show_cell_shown; try done; lia.
  - exists m'. rewrite Er, Ec in Hc. split_and!; [done|done|]. rewrite <- Er. by apply first_line_spec.
Qed.
End Screen.

(** ** What is written *)

Section Written.
Context {Hw : Type} `{Uart Hw}.
Implicit Types m : machine Hw.

(** C34: writing a string to the console returns, sends exactly its bytes over
    the serial port, and changes the scrollback as typing the characters one
    after the other into a list of lines does (newline, carriage return,
    backspace, line wrap and the loss of the oldest of 512 lines included): the
    ring indices modulo 512 refine that list, and no access leaves the ring. *)
Theorem console_write_refines m s : con_ok m ->
  exists m', console_write m (Some s) = Ret m' /\ con_ok m' /\
    abs (txt (con m')) = foldl (term_type (attr (con m)) (visible_cols m)) (abs (txt (con m))) s /\
    uart_sent (hw m') = uart_sent (hw m) ++ (u8 <$> s).
Proof. intros Hok. destruct (console_write_ok m s Hok) as (m' & ? & ? & _ & ? & ?). by exists m'. Qed.

(** the number printers write the numeral of their argument: its digits
    read back as the number and there is no leading zero; every digit fits the
    local array, for all 32-bit decimal and all 64-bit hexadecimal arguments. *)
Theorem console_numbers_print m v : con_ok m ->
  (0 <= v < 4294967296 -> exists s m', numeral 10 v s /\ console_udec m v = Ret m' /\
     uart_sent (hw m') = uart_sent (hw m) ++ (u8 <$> s)) /\
  (0 <= v < 18446744073709551616 -> exists s m', numeral 16 v s /\ console_uhex m v = Ret m' /\
     uart_sent (hw m') = uart_sent (hw m) ++ (u8 <$> s)).
Proof.
  intros Hok. split; intros Hv.
  - destruct (udec_text_spec v Hv) as (s & Hs & Hn). destruct (console_write_ok m s Hok) as (m' & Hr & _ & _ & _ & Hu).
    exists s, m'. split; [done|]. split; [|done]. unfold console_udec. by rewrite Hs.
  - destruct (uhex_text_spec v Hv) as (s & Hs & Hn). destruct (console_write_ok m s Hok) as (m' & Hr & _ & _ & _ & Hu).
    exists s, m'. split; [done|]. split; [|done]. unfold console_uhex. by rewrite Hs.
Qed.
End Written.

(** ** A concrete console *)

Definition demo_machine : machine demo_hw :=
  Machine (DemoHw [] [] [] 0) ∅ (Debuglog 0 0 0 0) false bootmode_init fb_zero mem_vram_init console_zero.

Lemma console_zero_ok : text_ok (txt console_zero).
Proof.
  split; try done; try (cbn; lia). intros l Hl. unfold row. cbn [txt console_zero buf line_len].
  rewrite !lookup_total_replicate_2 by lia. split; [done|cbn; lia].
Qed.
Lemma demo_machine_ok : con_ok demo_machine.
Proof. split; [exact console_zero_ok|done|done]. Qed.

Lemma draw_screen_shows_witness :
  exists m', draw_screen demo_machine = Ret m' /\ cells_shown demo_machine (25 * 80) m'.
Proof.
  destruct (draw_screen_shows demo_machine demo_machine_ok) as (m' & H1 & H2 & _); [reflexivity..|].
  exists m'. exact (conj H1 H2).
Defined.
Lemma console_write_refines_witness :
  exists m', console_write demo_machine (Some [104; 105; 10]) = Ret m' /\ uart_sent (hw m') = [104; 105; 10].
Proof.
  destruct (console_write_refines demo_machine [104; 105; 10] demo_machine_ok) as (m' & H1 & _ & _ & H2).
  exists m'. exact (conj H1 H2).
Defined.
Lemma console_numbers_print_witness :
  exists s m', numeral 10 4294967295 s /\ console_udec demo_machine 4294967295 = Ret m' /\ uart_sent (hw m') = uart_sent (hw demo_machine) ++ (u8 <$> s).
Proof.
  apply (proj1 (console_numbers_print demo_machine 4294967295 demo_machine_ok)). lia.
Defined.
