(* ===== verification/DebugLog.v ===== *)
(** * kernel/debuglog.c: dumps and time stamps; device initialisation

    The character log itself is in Serial.v.  The routines that print, and the
    initialisation of console and serial port, which print a time stamp. *)

From Stdlib Require Import ZArith Lia.
From stdpp Require Import base numbers gmap strings fin_maps option list.
From S2P Require Import Prelude MemUtils Vram Framebuffer VgaDraw Bootmode Digits Machine Serial Console ConsoleRing ConsoleProofs.

Local Open Scope Z_scope.

Section DebugLog.
Context {Hw : Type} `{Hardware Hw}.
Implicit Types m : machine Hw.

Definition debuglog_buffer m : Z := log_buf (dlog m).
Definition debuglog_length m : Z := log_pos (dlog m).

(** A character to both outputs; the raw writer does not log it again. *)
Definition both m (c : Z) : outcome (machine Hw) := m ← console_putc m c; serial_raw_putc m c.
Definition both_str m (s : string) : outcome (machine Hw) :=
  m ← console_puts m (Some (str s)); serial_raw_write m (str s).
Definition both_hex m (v : Z) : outcome (machine Hw) := m ← console_uhex m v; serial_raw_uhex m v.

(** The log is read while the characters printed are appended to it: the bound
    of the loop grows with every character, until the buffer is full. *)
Fixpoint dump_loop (fuel : nat) m (i : Z) : outcome (machine Hw) :=
  if log_pos (dlog m) <=? i then Ret m else
  match fuel with
  | O => Timeout
  | S fuel =>
      let a := log_buf (dlog m) + i in
      m ← console_putc m (rd (mram m) a);
      m ← serial_raw_putc m (rd (mram m) a);
      dump_loop fuel m (i + 1)
  end.
Definition debuglog_dump_console m : outcome (machine Hw) :=
  if (log_buf (dlog m) =? 0) || negb (debug_mode m) then Ret m
  else dump_loop (Z.to_nat (Z.max (log_size (dlog m)) (log_pos (dlog m)))) m 0.

Definition hex_digit_of (v : Z) : Z := HEX !!! Z.to_nat v.
Definition debuglog_hexdump m (data len : Z) : outcome (machine Hw) :=
  if negb (debug_mode m) then Ret m else
  m ← for_range_m len (fun i m =>
    let b := rd (mram m) (data + i) in
    m ← both m (hex_digit_of (Z.shiftr b 4));
    m ← both m (hex_digit_of (Z.land b 0xF));
    m ← both m 32;
    if Z.land i 15 =? 15 then both m 10 else Ret m) m;
  if negb (Z.land len 15 =? 0) then both m 10 else Ret m.

Definition debuglog_memdump m (addr len : Z) : outcome (machine Hw) :=
  if negb (debug_mode m) then Ret m else
  for_range_m ((len + 15) / 16) (fun k m =>
    let i := 16 * k in
    let pos := u64 (addr + i) in
    m ← both_hex m pos;
    m ← both_str m ": ";
    debuglog_hexdump m (addr + i) (if len - i <? 16 then len - i else 16)) m.

Definition debuglog_print_timestamp m : outcome (machine Hw) :=
  if negb (debug_mode m) then Ret m else
  let '(h, now) := hw_rdtsc (hw m) in
  let m := set_hw m h in
  let delta := u64 (now - log_start (dlog m)) in
  m ← both_str m "[";
  m ← both_str m "ts=0x";
  m ← both_hex m delta;
  both_str m "] ".

(** ** Initialisation *)

Definition serial_init m : outcome (machine Hw) :=
  let m := outb m (0x3F8 + 1) 0 in
  let m := outb m (0x3F8 + 3) 0x80 in
  let m := outb m (0x3F8 + 0) 0x01 in
  let m := outb m (0x3F8 + 1) 0 in
  let m := outb m (0x3F8 + 3) 0x03 in
  let m := outb m (0x3F8 + 2) 0xC7 in
  let m := outb m (0x3F8 + 4) 0x0B in
  m ← debuglog_print_timestamp m;
  serial_write m (str "serial_init complete" ++ [10]).

Definition console_init m : outcome (machine Hw) :=
  let m := console_apply_boot_theme m in
  m ← (if negb (framebuffer_enabled (screen m)) then
         '(v, _) ← mem_vram_lock (vid m) (Some (str "console"));
         Ret (set_video (set_vid m v) (vram_base v))
       else Ret m);
  m ← on_text m (reset_ring (attr (con m)));
  m ← draw_screen m;
  m ← debuglog_print_timestamp m;
  console_puts m (Some (str "console_init complete" ++ [10])).
End DebugLog.

(** ** Dumping the log appends to the log *)

Section Dump.
Context {Hw : Type} `{Uart Hw}.
Implicit Types m : machine Hw.

Lemma console_putc_log m c : con_ok m ->
  exists m', console_putc m c = Ret m' /\ con_ok m' /\ dlog m' = log_next (dlog m).
Proof.
  intros Hok. unfold console_putc. destruct (console_emit_ok m c Hok) as (m1 & -> & Hok1 & _ & _ & _ & Hl). cbn [mbind outcome_bind].
  unfold console_flush. destruct (draw_screen_ok m1 Hok1) as (m2 & -> & Ho). exists m2. pose proof (only_ram_ok _ _ Ho Hok1).
  by destruct Ho as [x ->].
Qed.

Lemma dump_loop_spec fuel m i : con_ok m -> log_buf (dlog m) <> 0 -> 0 <= i < log_pos (dlog m) -> log_pos (dlog m) <= log_size (dlog m) ->
  log_size (dlog m) - i <= Z.of_nat fuel ->
  exists m', dump_loop fuel m i = Ret m' /\ con_ok m' /\ log_pos (dlog m') = log_size (dlog m).
Proof.
  revert m i. induction fuel as [|fuel IH]; intros m i Hok Hb Hi Hs Hf; [lia|]. cbn [dump_loop].
  rewrite (proj2 (Z.leb_gt _ i)) by lia. set (c := rd _ _).
  destruct (console_putc_log m c Hok) as (m1 & -> & Hok1 & Hl1). cbn [mbind outcome_bind].
  destruct (serial_raw_putc_sends m1 (rd (mram m1) (log_buf (dlog m) + i))) as (m2 & -> & [h ->] & _). cbn [mbind outcome_bind].
  assert (con_ok (set_hw m1 h)) as Hok2 by (by destruct Hok1).
  assert (dlog (set_hw m1 h) = log_next (dlog m)) as Hl2 by done.
  unfold log_next in Hl2. rewrite (proj2 (Z.eqb_neq _ _) Hb) in Hl2. cbn [orb] in Hl2.
  destruct (Z.leb_spec (log_size (dlog m)) (log_pos (dlog m))) as [Hfull|Hroom].
  - destruct (decide (i + 1 = log_pos (dlog m))) as [Hlast|Hmore].
    + exists (set_hw m1 h). split_and!; [|done|rewrite Hl2; lia].
      assert (log_pos (dlog (set_hw m1 h)) = i + 1) as E by (rewrite Hl2; lia).
      destruct fuel; cbn [dump_loop]; rewrite E, Z.leb_refl; done.
    + destruct (IH (set_hw m1 h) (i + 1)) as (m3 & Hr & Hok3 & Hp); rewrite ?Hl2; try done; try lia.
      exists m3. split_and!; [done|done|]. by rewrite Hp, Hl2.
  - destruct (IH (set_hw m1 h) (i + 1)) as (m3 & Hr & Hok3 & Hp); rewrite ?Hl2; cbn; try done; try lia.
    exists m3. split_and!; [done|done|]. by rewrite Hp, Hl2.
Qed.

(** [debuglog_dump_console] ends, but printing a character of the log
    appends it to the log, so that the loop chases its own end: a log that is
    not empty is full, up to its last byte, when the dump returns. *)
Theorem debuglog_dump_fills m :
  con_ok m -> log_buf (dlog m) <> 0 -> debug_mode m = true -> 0 < log_pos (dlog m) <= log_size (dlog m) ->
  exists m', debuglog_dump_console m = Ret m' /\ con_ok m' /\ log_pos (dlog m') = log_size (dlog m).
Proof.
  intros Hok Hb Hd Hp. unfold debuglog_dump_console. rewrite (proj2 (Z.eqb_neq _ _) Hb), Hd. cbn [negb orb].
  apply dump_loop_spec; try done; lia.
Qed.
End Dump.

Definition demo_log : machine demo_hw :=
  Machine (DemoHw [] [] [] 0) ∅ (Debuglog 0x300000 1 4 0) true bootmode_init fb_zero mem_vram_init console_zero.
Lemma debuglog_dump_fills_witness :
  exists m', debuglog_dump_console demo_log = Ret m' /\ log_pos (dlog m') = 4.
Proof.
  destruct (debuglog_dump_fills demo_log) as (m' & H1 & _ & H2);
    [split; [exact console_zero_ok|done|done]|done|reflexivity|cbn; lia|].
  exists m'. exact (conj H1 H2).
Defined.
