(* ===== verification/Script.v ===== *)
(** * kernel/script.c: the stack machine for boot scripts

    Words separated by blanks, a stack of 32 integers in an array.  An access
    outside the array, and a division that overflows, are faults. *)

From Stdlib Require Import ZArith Lia.
From stdpp Require Import base numbers gmap strings fin_maps option list.
From S2P Require Import Prelude MemUtils Digits Framebuffer Bootmode Machine Serial Console ConsoleRing ConsoleProofs.

Local Open Scope Z_scope.

Definition str_equal (a : list Z) (b : string) : bool := bool_decide (until_nul a = str b).

Fixpoint digits_value (s : list Z) (v : Z) : Z :=
  match s with
  | c :: s => if (48 <=? c) && (c <=? 57) then digits_value s (s32 (v * 10 + (c - 48))) else v
  | [] => v
  end.
Definition to_int (s : list Z) : Z :=
  match s with
  | 45 :: s => s32 (- digits_value s 0)
  | s => digits_value s 0
  end.

(** Character [i] of a token, which a NUL follows. *)
Definition char_at (tok : list Z) (i : nat) : Z := default 0 (tok !! i).
Definition is_digit (c : Z) : bool := (48 <=? c) && (c <=? 57).
Definition is_number (tok : list Z) : bool :=
  is_digit (char_at tok 0) || ((char_at tok 0 =? 45) && negb (char_at tok 1 =? 0) && is_digit (char_at tok 1)).
Definition is_space (c : Z) : bool := (c =? 32) || (c =? 10) || (c =? 9).

(** [int stack[32]]. *)
Definition peek (st : list Z) (i : Z) : outcome Z :=
  if (0 <=? i) && (i <? 32) then Ret (default 0 (st !! Z.to_nat i)) else Fault.
Definition poke (st : list Z) (i v : Z) : outcome (list Z) :=
  if (0 <=? i) && (i <? 32) then Ret (<[Z.to_nat i := v]> st) else Fault.

(** [idiv]: truncated, trapping when the quotient does not fit. *)
Definition divide (a b : Z) : outcome Z := if (a =? -2147483648) && (b =? -1) then Fault else Ret (Z.quot a b).

Section Script.
Context {Hw : Type} `{Hardware Hw}.

(** A token either returns from [run_script] or goes on with a stack. *)
Inductive flow := Return (m : machine Hw) | Continue (m : machine Hw) (st : list Z) (sp : Z).

(** [stack[sp-2] op= stack[sp-1]; sp--]. *)
Definition binary (m : machine Hw) (st : list Z) (sp : Z) (f : Z -> Z -> outcome Z) : outcome flow :=
  if 2 <=? sp then
    a ← peek st (sp - 2); b ← peek st (sp - 1); r ← f a b;
    st ← poke st (sp - 2) r; Ret (Continue m st (sp - 1))
  else Ret (Continue m st sp).

Definition exec_token (m : machine Hw) (st : list Z) (sp : Z) (tok : list Z) : outcome flow :=
  if is_number tok then
    if sp <? 32 then st ← poke st sp (to_int tok); Ret (Continue m st (sp + 1)) else Ret (Continue m st sp)
  else if str_equal tok "+" then binary m st sp (fun a b => Ret (s32 (a + b)))
  else if str_equal tok "-" then binary m st sp (fun a b => Ret (s32 (a - b)))
  else if str_equal tok "*" then binary m st sp (fun a b => Ret (s32 (a * b)))
  else if str_equal tok "/" then
    (if 2 <=? sp then
       b ← peek st (sp - 1);
       if negb (b =? 0) then binary m st sp divide else Ret (Continue m st sp)
     else Ret (Continue m st sp))
  else if str_equal tok "print" then
    if 0 <? sp then
      v ← peek st (sp - 1);
      m ← console_udec m (u32 v); m ← console_putc m 10; Ret (Continue m st (sp - 1))
    else Ret (Continue m st sp)
  else if str_equal tok "char" then
    if 0 <? sp then v ← peek st (sp - 1); m ← console_putc m (u8 v); Ret (Continue m st (sp - 1))
    else Ret (Continue m st sp)
  else if str_equal tok "dup" then
    if (0 <? sp) && (sp <? 32) then v ← peek st (sp - 1); st ← poke st sp v; Ret (Continue m st (sp + 1))
    else Ret (Continue m st sp)
  else if str_equal tok "drop" then Ret (Continue m st (if 0 <? sp then sp - 1 else sp))
  else if str_equal tok "swap" then
    if 2 <=? sp then
      t ← peek st (sp - 1); u ← peek st (sp - 2);
      st ← poke st (sp - 1) u; st ← poke st (sp - 2) t; Ret (Continue m st sp)
    else Ret (Continue m st sp)
  else if str_equal tok "exit" then Ret (Return m)
  else Ret (Continue m st sp).

(** The loop, [tok] being the token so far; past the end of the script a blank
    ends the last token. *)
Fixpoint script_loop (m : machine Hw) (code : list Z) (st : list Z) (sp : Z) (tok : list Z) : outcome (machine Hw) :=
  match code with
  | [] =>
      match tok with
      | [] => Ret m
      | tok => r ← exec_token m st sp tok; match r with Return m | Continue m _ _ => Ret m end
      end
  | c :: code =>
      if is_space c then
        match tok with
        | [] => script_loop m code st sp []
        | tok => r ← exec_token m st sp tok;
                 match r with Return m => Ret m | Continue m st sp => script_loop m code st sp [] end
        end
      else script_loop m code st sp (if (length tok <? 31)%nat then tok ++ [c] else tok)
  end.
Definition run_script (m : machine Hw) (code : list Z) : outcome (machine Hw) :=
  script_loop m code (replicate 32 0) 0 [].

(** ** The language

    A script is a list of words; the stack is a list, top first. *)

Fixpoint words_from (w : list Z) (code : list Z) : list (list Z) :=
  let word := take 31 w in
  match code with
  | [] => match w with [] => [] | _ => [word] end
  | c :: code =>
      if is_space c then match w with [] => words_from [] code | _ => word :: words_from [] code end
      else words_from (w ++ [c]) code
  end.
Definition words (code : list Z) : list (list Z) := words_from [] code.

Inductive step_result := Stop (m : machine Hw) | Next (m : machine Hw) (s : list Z).

Definition arith (m : machine Hw) (s : list Z) (f : Z -> Z -> outcome Z) : outcome step_result :=
  match s with b :: a :: s => r ← f a b; Ret (Next m (r :: s)) | _ => Ret (Next m s) end.

Definition exec_word (m : machine Hw) (s : list Z) (w : list Z) : outcome step_result :=
  if is_number w then Ret (Next m (if (length s <? 32)%nat then to_int w :: s else s))
  else if str_equal w "+" then arith m s (fun a b => Ret (s32 (a + b)))
  else if str_equal w "-" then arith m s (fun a b => Ret (s32 (a - b)))
  else if str_equal w "*" then arith m s (fun a b => Ret (s32 (a * b)))
  else if str_equal w "/" then match s with 0 :: _ :: _ => Ret (Next m s) | _ => arith m s divide end
  else if str_equal w "print" then
    match s with v :: s => m ← console_udec m (u32 v); m ← console_putc m 10; Ret (Next m s) | [] => Ret (Next m s) end
  else if str_equal w "char" then
    match s with v :: s => m ← console_putc m (u8 v); Ret (Next m s) | [] => Ret (Next m s) end
  else if str_equal w "dup" then
    match s with v :: _ => Ret (Next m (if (length s <? 32)%nat then v :: s else s)) | [] => Ret (Next m s) end
  else if str_equal w "drop" then Ret (Next m (tail s))
  else if str_equal w "swap" then match s with b :: a :: s => Ret (Next m (a :: b :: s)) | _ => Ret (Next m s) end
  else if str_equal w "exit" then Ret (Stop m)
  else Ret (Next m s).

Fixpoint run_words (m : machine Hw) (s : list Z) (ws : list (list Z)) : outcome (machine Hw) :=
  match ws with
  | [] => Ret m
  | w :: ws => r ← exec_word m s w; match r with Stop m => Ret m | Next m s => run_words m s ws end
  end.

(** ** The interpreter implements the language *)

(** The array and the pointer represent the stack [s]. *)
Definition stack_of (st : list Z) (sp : Z) (s : list Z) : Prop :=
  length st = 32%nat /\ 0 <= sp <= 32 /\ s = reverse (take (Z.to_nat sp) st).

Lemma stack_length st sp s : stack_of st sp s -> Z.of_nat (length s) = sp.
Proof. intros (Hl & Hsp & ->). rewrite length_reverse, length_take. lia. Qed.

Lemma stack_peek st sp s i : stack_of st sp s -> 0 <= i < sp -> peek st i = Ret (default 0 (s !! Z.to_nat (sp - 1 - i))).
Proof.
  intros (Hl & Hsp & ->) Hi. unfold peek. rewrite (proj2 (Z.leb_le 0 i)), (proj2 (Z.ltb_lt i 32)) by lia. cbn [andb]. do 2 f_equal.
  rewrite reverse_lookup by (rewrite length_take; lia). rewrite length_take.
  rewrite lookup_take_lt by lia. f_equal. lia.
Qed.
Lemma stack_poke st sp s i v : stack_of st sp s -> 0 <= i < 32 ->
  exists st', poke st i v = Ret st' /\ length st' = 32%nat /\ st' = <[Z.to_nat i := v]> st.
Proof.
  intros (Hl & Hsp & ->) Hi. unfold poke. rewrite (proj2 (Z.leb_le 0 i)), (proj2 (Z.ltb_lt i 32)) by lia.
  eexists. split_and!; [done| |done]. by rewrite length_insert.
Qed.
Lemma stack_push st sp s v : stack_of st sp s -> sp < 32 -> stack_of (<[Z.to_nat sp := v]> st) (sp + 1) (v :: s).
Proof.
  intros (Hl & Hsp & ->) Hlt. split_and!; [by rewrite length_insert|lia|lia|].
  replace (Z.to_nat (sp + 1)) with (S (Z.to_nat sp)) by lia.
  rewrite (take_S_r _ _ v) by (apply list_lookup_insert_eq; lia). rewrite take_insert_ge by lia. by rewrite reverse_snoc.
Qed.
Lemma stack_pop st sp s v : stack_of st sp (v :: s) -> stack_of st (sp - 1) s.
Proof.
  intros Hs. pose proof (stack_length _ _ _ Hs) as Hn. destruct Hs as (Hl & Hsp & E). cbn in Hn. split_and!; [done|lia|lia|].
  replace (Z.to_nat sp) with (S (Z.to_nat (sp - 1))) in E by lia.
  destruct (lookup_lt_is_Some_2 st (Z.to_nat (sp - 1))) as [x Hx]; [lia|].
  rewrite (take_S_r _ _ x Hx), reverse_snoc in E. by injection E.
Qed.
Lemma stack_set_top st sp s v w : stack_of st sp (v :: s) -> stack_of (<[Z.to_nat (sp - 1) := w]> st) sp (w :: s).
Proof.
  intros Hs. pose proof (stack_length _ _ _ Hs) as Hn. cbn in Hn. apply stack_pop in Hs as Hp. destruct Hs as (Hl & Hsp & _).
  pose proof (stack_push st (sp - 1) s w Hp ltac:(lia)) as Hq. by replace (sp - 1 + 1) with sp in Hq by lia.
Qed.

(** Related outcomes: the same failure, or the same result on related stacks. *)
Inductive flow_rel : outcome flow -> outcome step_result -> Prop :=
| rel_stop m : flow_rel (Ret (Return m)) (Ret (Stop m))
| rel_next m st sp s : stack_of st sp s -> flow_rel (Ret (Continue m st sp)) (Ret (Next m s))
| rel_panic msg : flow_rel (Panic msg) (Panic msg)
| rel_fault : flow_rel Fault Fault
| rel_timeout : flow_rel Timeout Timeout.

Lemma rel_bind {A} (c : outcome A) f g : (forall a, flow_rel (f a) (g a)) -> flow_rel (c ≫= f) (c ≫= g).
Proof. intros Hf. destruct c; cbn; [apply Hf|constructor..]. Qed.

Lemma binary_sim m st sp s f : stack_of st sp s -> flow_rel (binary m st sp f) (arith m s f).
Proof.
  intros Hs. pose proof (stack_length _ _ _ Hs) as Hn. unfold binary. destruct (Z.leb_spec 2 sp) as [H2|H2].
  - destruct s as [|b [|a s]]; cbn in Hn; [lia|lia|].
    rewrite !(stack_peek _ _ _ _ Hs) by lia. replace (Z.to_nat (sp - 1 - (sp - 2))) with 1%nat by lia.
    replace (Z.to_nat (sp - 1 - (sp - 1))) with 0%nat by lia. cbn [mbind outcome_bind lookup list_lookup default arith]. unfold arith.
    apply rel_bind. intros r. pose proof (stack_pop _ _ _ _ Hs) as Hp. pose proof (stack_set_top _ _ _ _ r Hp) as Ht.
    destruct (stack_poke _ _ _ (sp - 2) r Hs) as (st' & -> & _ & ->); [destruct Hs; lia|]. cbn [mbind outcome_bind]. constructor.
    by replace (sp - 2) with (sp - 1 - 1) by lia.
  - destruct s as [|b [|a s]]; cbn in Hn; [by constructor|by constructor|lia].
Qed.

Lemma exec_sim m st sp s w : stack_of st sp s -> flow_rel (exec_token m st sp w) (exec_word m s w).
Proof.
  intros Hs. pose proof (stack_length _ _ _ Hs) as Hn. pose proof Hs as (Hl & Hsp & _). unfold exec_token, exec_word.
  assert (forall v r, s = v :: r -> peek st (sp - 1) = Ret v) as Hpeek.
  { intros v r ->. rewrite (stack_peek _ _ _ _ Hs) by (cbn in Hn; lia). by replace (Z.to_nat (sp - 1 - (sp - 1))) with 0%nat by lia. }
  case_test.
  { destruct (Z.ltb_spec sp 32) as [Hlt|Hge].
    - destruct (stack_poke _ _ _ sp (to_int w) Hs) as (st' & -> & _ & ->); [lia|]. cbn [mbind outcome_bind].
      rewrite (proj2 (Nat.ltb_lt (length s) 32)) by lia. constructor. by apply stack_push.
    - rewrite (proj2 (Nat.ltb_ge (length s) 32)) by lia. by constructor. }
  do 3 (case_test; [by apply binary_sim|]). case_test.
  { destruct s as [|b [|a s]]; cbn in Hn;
      [rewrite (proj2 (Z.leb_gt 2 sp)) by lia; by apply rel_next|rewrite (proj2 (Z.leb_gt 2 sp)) by lia; destruct b; by apply rel_next|].
    rewrite (proj2 (Z.leb_le 2 sp)), (Hpeek b (a :: s) eq_refl) by lia. cbn [mbind outcome_bind].
    destruct (Z.eqb_spec b 0) as [->|Hb]; [by constructor|]. cbn [negb].
    destruct b as [|b|b]; [done|by apply binary_sim..]. }
  case_test.
  { destruct s as [|v s]; cbn in Hn; [rewrite (proj2 (Z.ltb_ge 0 sp)) by lia; by constructor|].
    rewrite (proj2 (Z.ltb_lt 0 sp)), (Hpeek v s eq_refl) by lia. cbn [mbind outcome_bind].
    apply rel_bind. intros m1. apply rel_bind. intros m2. constructor. by apply (stack_pop _ _ _ v). }
  case_test.
  { destruct s as [|v s]; cbn in Hn; [rewrite (proj2 (Z.ltb_ge 0 sp)) by lia; by constructor|].
    rewrite (proj2 (Z.ltb_lt 0 sp)), (Hpeek v s eq_refl) by lia. cbn [mbind outcome_bind].
    apply rel_bind. intros m1. constructor. by apply (stack_pop _ _ _ v). }
  case_test.
  { destruct s as [|v s]; cbn in Hn; [rewrite (proj2 (Z.ltb_ge 0 sp)) by lia; by constructor|].
    rewrite (proj2 (Z.ltb_lt 0 sp)) by lia. cbn [andb]. destruct (Z.ltb_spec sp 32) as [Hlt|Hge].
    - rewrite (Hpeek v s eq_refl). cbn [mbind outcome_bind].
      destruct (stack_poke _ _ _ sp v Hs) as (st' & -> & _ & ->); [lia|]. cbn [mbind outcome_bind].
      rewrite (proj2 (Nat.ltb_lt _ 32)) by (cbn; lia). constructor. by apply stack_push.
    - rewrite (proj2 (Nat.ltb_ge _ 32)) by (cbn; lia). by constructor. }
  case_test.
  { constructor. destruct s as [|v s]; cbn in Hn; [by rewrite (proj2 (Z.ltb_ge 0 sp)) by lia|].
    rewrite (proj2 (Z.ltb_lt 0 sp)) by lia. by apply (stack_pop _ _ _ v). }
  case_test.
  { destruct s as [|b [|a s]]; cbn in Hn; [rewrite (proj2 (Z.leb_gt 2 sp)) by lia; by constructor..|].
    rewrite (proj2 (Z.leb_le 2 sp)), (Hpeek b (a :: s) eq_refl) by lia. cbn [mbind outcome_bind].
    rewrite (stack_peek _ _ _ _ Hs) by lia. replace (Z.to_nat (sp - 1 - (sp - 2))) with 1%nat by lia.
    change (default 0 ((b :: a :: s) !! 1%nat)) with a. cbn [mbind outcome_bind].
    pose proof (stack_set_top _ _ _ _ a Hs) as H1. destruct (stack_poke _ _ _ (sp - 1) a Hs) as (st' & -> & Hl' & ->); [lia|].
    cbn [mbind outcome_bind]. pose proof (stack_set_top _ _ _ _ b (stack_pop _ _ _ _ H1)) as H2.
    destruct (stack_poke _ _ _ (sp - 2) b H1) as (st'' & -> & _ & ->); [lia|]. cbn [mbind outcome_bind]. constructor.
    replace (sp - 1 - 1) with (sp - 2) in H2 by lia.
    pose proof (stack_push _ _ _ a H2 ltac:(lia)) as H3. rewrite list_insert_id in H3; [by replace (sp - 1 + 1) with sp in H3 by lia|].
    rewrite list_lookup_insert_ne by lia. apply list_lookup_insert_eq. lia. }
  case_test; constructor. done.
Qed.

Lemma script_loop_sim m code st sp s w : stack_of st sp s ->
  script_loop m code st sp (take 31 w) = run_words m s (words_from w code).
Proof.
  revert m st sp s w. induction code as [|c code IH]; intros m st sp s w Hs; cbn [script_loop words_from].
  - destruct w as [|x w]; [done|]. cbn [take run_words]. pose proof (exec_sim m st sp s (take 31 (x :: w)) Hs) as Hr. cbn [take] in Hr.
    by inversion Hr.
  - destruct (is_space c).
    + destruct w as [|x w]; [by apply (IH m st sp s [])|]. cbn [take run_words].
      pose proof (exec_sim m st sp s (take 31 (x :: w)) Hs) as Hr. cbn [take] in Hr.
      inversion Hr as [m1 E1 E2|m1 st1 sp1 s1 Hs1 E1 E2| | |]; cbn; try done. by apply (IH m1 st1 sp1 s1 []).
    + rewrite <- (IH m st sp s (w ++ [c]) Hs). f_equal. rewrite length_take. destruct (Nat.ltb_spec (31 `min` length w) 31).
      * rewrite !take_ge; [done|rewrite length_app; cbn; lia|lia].
      * by rewrite take_app_le by lia.
Qed.

(** C36: [run_script] executes the words of the script one after the other on a
    stack, as the language defines it: on every input and for every behaviour of
    the devices the array interpreter and the list interpreter have the same
    outcome.  In particular the array is never accessed outside its 32 cells,
    and the only trap is a division whose quotient overflows. *)
Theorem run_script_refines m code : run_script m code = run_words m [] (words code).
Proof. apply (script_loop_sim m code (replicate 32 0) 0 [] []). split_and!; [done|lia|lia|done]. Qed.
End Script.

(** The quotient of the least integer by -1 does not fit: the division traps. *)
Theorem script_division_traps : run_script demo_machine (str "-2147483648 -1 /") = Fault.
Proof. vm_compute. reflexivity. Qed.
(** A script that prints. *)
Example script_prints :
  exists m, run_script (set_hold demo_machine true) (str "6 7 * dup print 1 - print exit 5 print") = Ret m /\
    sent (hw m) = str "42" ++ [10] ++ str "41" ++ [10].
Proof. eexists. split; vm_compute; reflexivity. Qed.
