(* ===== verification/ErrorText.v ===== *)
(** * Error codes as text: the string buffers of kernel/idt.c

    A buffer is an array of characters that holds a terminated string; a store
    outside it is a fault of the model. *)

From Stdlib Require Import ZArith Lia.
From stdpp Require Import base numbers gmap strings fin_maps option list.
From S2P Require Import Prelude MemUtils Digits.

Local Open Scope Z_scope.

(** [set_code_literal(dst, sizeof(dst), text)]: the text, cut to the buffer. *)
Fixpoint literal_loop (dst text : list Z) (i : Z) : outcome (list Z) :=
  match text with
  | c :: text =>
      if i + 1 <? Z.of_nat (length dst) then dst ← store_char dst i c; literal_loop dst text (i + 1)
      else store_char dst i 0
  | [] => store_char dst i 0
  end.
Definition set_code_literal (dst : list Z) (text : string) : outcome (list Z) :=
  if (length dst =? 0)%nat then Ret dst else literal_loop dst (str text) 0.

(** [strlen] of the string a buffer holds. *)
Definition text_len (dst : list Z) : Z := Z.of_nat (length (until_nul dst)).

(** One round of the digit loop: the nibble at [shift]. *)
Definition hex_round (value shift : Z) (s : list Z * Z * bool) : outcome (list Z * Z * bool) :=
  let '(dst, len, started) := s in
  if len + 1 <? Z.of_nat (length dst) then
    let digit := HEX !!! Z.to_nat (Z.land (Z.shiftr value shift) 0xF) in
    if negb started && (digit =? 48) && (0 <? shift) then Ret s
    else dst ← store_char dst len digit; Ret (dst, len + 1, true)
  else Ret s.
Definition append_hex (dst : list Z) (value : Z) : outcome (list Z) :=
  let len := text_len dst in
  if Z.of_nat (length dst) <=? len + 3 then Ret dst else
  dst ← store_char dst len 48;
  dst ← store_char dst (len + 1) 120;
  '(dst, len, started) ← for_range_m 16 (fun k => hex_round value (60 - 4 * k)) (dst, len + 2, false);
  '(dst, len) ← (if negb started && (len + 1 <? Z.of_nat (length dst))
                 then dst ← store_char dst len 48; Ret (dst, len + 1) else Ret (dst, len));
  store_char dst len 0.

(** ** What they write *)

Definition no_nul (s : list Z) : Prop := Forall (fun c => c <> 0) s.

(** [dst] starts with [s]; the string [s] is stored in [dst]. *)
Definition starts (dst s : list Z) (size : nat) : Prop := exists junk, dst = s ++ junk /\ length dst = size.
Definition holds (dst s : list Z) (size : nat) : Prop := starts dst (s ++ [0]) size /\ no_nul s.

Lemma until_nul_junk s junk : no_nul s -> until_nul (s ++ 0 :: junk) = s.
Proof. induction 1 as [|c s Hc _ IH]; [done|]. cbn. rewrite (proj2 (Z.eqb_neq c 0) Hc). by f_equal. Qed.
Lemma holds_text dst s size : holds dst s size -> until_nul dst = s /\ text_len dst = Z.of_nat (length s).
Proof.
  intros [(junk & -> & _) Hn]. rewrite <- app_assoc. unfold text_len. cbn [app]. by rewrite until_nul_junk.
Qed.

Lemma store_next dst s size c : starts dst s size -> (length s < size)%nat ->
  exists dst', store_char dst (Z.of_nat (length s)) c = Ret dst' /\ starts dst' (s ++ [c]) size.
Proof.
  intros (junk & -> & Hl) Hlt. rewrite length_app in Hl. destruct junk as [|x junk]; [cbn in Hl; lia|].
  unfold store_char. rewrite length_app, (proj2 (Z.leb_le 0 _)), (proj2 (Z.ltb_lt _ _)) by (cbn; lia). cbn [andb].
  eexists. split; [done|]. exists junk. rewrite insert_at_length by lia. rewrite <- app_assoc. split; [done|].
  rewrite length_app. cbn in *. lia.
Qed.

Lemma literal_loop_spec text dst s size : starts dst s size -> (length s + length text < size)%nat ->
  exists dst', literal_loop dst text (Z.of_nat (length s)) = Ret dst' /\ starts dst' (s ++ text ++ [0]) size.
Proof.
  revert dst s. induction text as [|c text IH]; intros dst s Hs Hl; cbn [literal_loop length] in *.
  - by apply store_next; [|lia].
  - assert (length dst = size) as Hd by (by destruct Hs as (? & _ & ?)).
    rewrite (proj2 (Z.ltb_lt _ (Z.of_nat (length dst)))) by lia.
    destruct (store_next dst s size c Hs) as (dst1 & -> & H1); [lia|]. cbn [mbind outcome_bind].
    destruct (IH dst1 (s ++ [c]) H1) as (dst2 & Hr & H2); [rewrite length_app; cbn; lia|].
    exists dst2. rewrite <- app_assoc in H2. split; [|done]. rewrite <- Hr. f_equal. rewrite length_app. cbn. lia.
Qed.
(** A text that may not fit is cut before the last byte, which ends the string. *)
Lemma literal_loop_cut text dst s size : starts dst s size -> (length s < size)%nat ->
  exists dst', literal_loop dst text (Z.of_nat (length s)) = Ret dst' /\ starts dst' (s ++ take (size - 1 - length s) text ++ [0]) size.
Proof.
  revert dst s. induction text as [|c text IH]; intros dst s Hs Hl; cbn [literal_loop].
  - rewrite take_nil. by apply store_next.
  - assert (length dst = size) as Hd by (by destruct Hs as (? & _ & ?)). rewrite Hd. destruct (Z.ltb_spec (Z.of_nat (length s) + 1) (Z.of_nat size)) as [Hr|Hr].
    + destruct (store_next dst s size c Hs) as (dst1 & -> & H1); [lia|]. cbn [mbind outcome_bind].
      destruct (IH dst1 (s ++ [c]) H1) as (dst2 & Hr2 & H2); [rewrite length_app; cbn; lia|].
      exists dst2. split; [rewrite <- Hr2; f_equal; rewrite length_app; cbn; lia|].
      rewrite length_app in H2. cbn [length] in H2. rewrite <- app_assoc in H2. replace (size - 1 - length s)%nat with (S (size - 1 - (length s + 1))) by lia.
      exact H2.
    + replace (size - 1 - length s)%nat with O by lia. by apply store_next.
Qed.
Lemma set_code_literal_spec dst text size : length dst = size -> no_nul (str text) -> (length (str text) < size)%nat ->
  exists dst', set_code_literal dst text = Ret dst' /\ holds dst' (str text) size.
Proof.
  intros Hl Hn Hlt. unfold set_code_literal. rewrite Hl, (proj2 (Nat.eqb_neq size 0)) by lia.
  destruct (literal_loop_spec (str text) dst [] size) as (dst' & Hr & Hs); [by exists dst|done|]. exists dst'. by split.
Qed.

(** The digits of [v], without leading zeros: none for zero. *)
Definition digits (v : Z) (ds : list Z) : Prop :=
  read_number 16 ds = v /\ Forall (digit_ok 16) ds /\ (v = 0 -> ds = []) /\ (0 < v -> head ds <> Some 48).

Lemma nibble value k : 0 <= value < 18446744073709551616 -> 0 <= k < 16 ->
  Z.shiftr value (60 - 4 * k) = Z.shiftr value (64 - 4 * k) * 16 + Z.land (Z.shiftr value (60 - 4 * k)) 0xF /\
  0 <= Z.land (Z.shiftr value (60 - 4 * k)) 0xF < 16 /\ 0 <= Z.shiftr value (64 - 4 * k).
Proof.
  intros Hv Hk. change 0xF with (Z.ones 4). rewrite !Z.land_ones by lia. change (2 ^ 4) with 16.
  replace (64 - 4 * k) with (60 - 4 * k + 4) by lia. rewrite <- Z.shiftr_shiftr by lia. rewrite (Z.shiftr_div_pow2 _ 4) by lia.
  change (2 ^ 4) with 16. assert (0 <= Z.shiftr value (60 - 4 * k)) by (apply Z.shiftr_nonneg; lia).
  pose proof (Z.div_mod (Z.shiftr value (60 - 4 * k)) 16). pose proof (Z.mod_pos_bound (Z.shiftr value (60 - 4 * k)) 16).
  split_and!; try lia. all: try (apply Z.div_pos; lia).
Qed.

(** After [k] rounds the digits of the top [k] nibbles follow [pre]. *)
Lemma hex_rounds value pre dst size :
  0 <= value < 18446744073709551616 -> starts dst pre size -> (length pre + 17 <= size)%nat ->
  exists dst' ds, for_range_m 16 (fun k => hex_round value (60 - 4 * k)) (dst, Z.of_nat (length pre), false) =
    Ret (dst', Z.of_nat (length pre) + Z.of_nat (length ds), true) /\
    starts dst' (pre ++ ds) size /\ numeral 16 value ds /\ (length ds <= 16)%nat.
Proof.
  intros Hv Hs Hsz.
  set (I := fun k (s : list Z * Z * bool) => exists dst' ds,
    s = (dst', Z.of_nat (length pre) + Z.of_nat (length ds), bool_decide (ds <> [])) /\
    starts dst' (pre ++ ds) size /\ Z.of_nat (length ds) <= k /\
    (k < 16 -> digits (Z.shiftr value (64 - 4 * k)) ds) /\ (k = 16 -> numeral 16 value ds)).
  destruct (for_range_m_inv I 16 (fun k => hex_round value (60 - 4 * k)) (dst, Z.of_nat (length pre), false)) as (s & Hr & HI); [lia| | |].
  - exists dst, []. rewrite app_nil_r. cbn [length]. split_and!; [by rewrite Z.add_0_r|done|lia| |lia].
    intros _. change (64 - 4 * 0) with 64. rewrite Z.shiftr_div_pow2, Z.div_small by (cbn; lia). by split_and!.
  - intros k s Hk (d1 & ds & -> & Hs1 & Hlen & Hd & _). destruct (Hd ltac:(lia)) as (Hread & Hok & Hz & Hh).
    destruct (nibble value k Hv Hk) as (En & Hnib & Htop). set (d := Z.land _ 0xF) in *. set (q := Z.shiftr value (64 - 4 * k)) in *.
    destruct (hex_digit d Hnib) as (Hdv & Hin & H48). unfold hex_round.
    assert (length d1 = size) as Hd1 by (by destruct Hs1 as (? & _ & ?)).
    rewrite (proj2 (Z.ltb_lt _ (Z.of_nat (length d1)))) by lia. fold d.
    destruct (negb _ && _ && _) eqn:Hskip.
    + eexists. split; [done|]. apply andb_true_iff in Hskip as [[Hst%negb_true_iff H0%Z.eqb_eq]%andb_true_iff Hsh%Z.ltb_lt].
      apply bool_decide_eq_false, dec_stable in Hst. subst ds. apply H48 in H0.
      exists d1, []. split_and!; [done|done|cbn; lia| |lia]. intros _. replace (64 - 4 * (k + 1)) with (60 - 4 * k) by lia.
      rewrite En, H0. cbn in Hread. rewrite <- Hread. by split_and!.
    + destruct (store_next d1 (pre ++ ds) size (HEX !!! Z.to_nat d) Hs1) as (d2 & Hst & Hs2); [rewrite length_app; lia|].
      rewrite length_app, Nat2Z.inj_add in Hst. rewrite Hst. cbn [mbind outcome_bind]. eexists. split; [done|].
      assert (read_number 16 (ds ++ [HEX !!! Z.to_nat d]) = Z.shiftr value (60 - 4 * k)) as Er
        by (rewrite read_number_snoc, Hread, Hdv; lia).
      assert (Forall (digit_ok 16) (ds ++ [HEX !!! Z.to_nat d])) as Hok'
        by (apply Forall_app; split; [done|]; constructor; [split; [lia|done]|constructor]).
      assert (0 < Z.shiftr value (60 - 4 * k) -> head (ds ++ [HEX !!! Z.to_nat d]) <> Some 48) as Hh'.
      { intros Hpos. destruct ds as [|x ds]; [|apply Hh; destruct (decide (q = 0)) as [E|E]; [by apply Hz in E|lia]].
        cbn in *. intros [= Hc]. apply H48 in Hc. lia. }
      exists d2, (ds ++ [HEX !!! Z.to_nat d]). rewrite bool_decide_true by (by destruct ds). rewrite length_app. cbn [length].
      split_and!; [f_equal; [f_equal; lia]|by rewrite app_assoc|lia| |].
      * intros Hk16. replace (64 - 4 * (k + 1)) with (60 - 4 * k) by lia. split_and!; try done. intros E. exfalso.
        rewrite (proj2 (Z.ltb_lt 0 _)), andb_true_r in Hskip by lia. apply andb_false_iff in Hskip as [Hst'|Hst'].
        -- apply negb_false_iff, bool_decide_eq_true in Hst'. apply Hst', Hz. lia.
        -- apply Z.eqb_neq in Hst'. apply Hst'. replace d with 0 by lia. done.
      * intros E16. assert (k = 15) as -> by lia. replace (60 - 4 * 15) with 0 in * by lia. rewrite Z.shiftr_0_r in *. split_and!; [done|done|done|by destruct ds].
  - destruct HI as (d1 & ds & -> & Hs1 & Hlen & _ & Hnum). specialize (Hnum eq_refl). exists d1, ds.
    rewrite bool_decide_true in Hr by apply Hnum. split_and!; try done; try apply Hnum. lia.
Qed.

Lemma append_hex_spec dst s size value : 0 <= value < 18446744073709551616 -> holds dst s size -> (length s + 19 <= size)%nat ->
  exists dst' ds, append_hex dst value = Ret dst' /\ holds dst' (s ++ [48; 120] ++ ds) size /\ numeral 16 value ds.
Proof.
  intros Hv Hh Hsz. destruct (holds_text _ _ _ Hh) as [_ Hlen]. destruct Hh as [Hs Hn]. unfold append_hex. rewrite Hlen.
  assert (length dst = size) as Hd by (by destruct Hs as (? & _ & ?)). rewrite (proj2 (Z.leb_gt _ _)) by lia.
  assert (starts dst s size) as Hs0 by (destruct Hs as (junk & -> & ?); exists (0 :: junk); split; [by rewrite <- app_assoc|done]).
  destruct (store_next dst s size 48 Hs0) as (d1 & -> & H1); [lia|]. cbn [mbind outcome_bind].
  destruct (store_next d1 (s ++ [48]) size 120 H1) as (d2 & Hr2 & H2); [rewrite length_app; cbn; lia|].
  rewrite length_app, Nat2Z.inj_add in Hr2. cbn [length] in Hr2. change (Z.of_nat 1) with 1 in Hr2. rewrite Hr2. cbn [mbind outcome_bind].
  rewrite <- app_assoc in H2. cbn in H2.
  destruct (hex_rounds value (s ++ [48; 120]) d2 size Hv H2) as (d3 & ds & Hr3 & H3 & Hnum & Hle); [rewrite length_app; cbn; lia|].
  rewrite length_app, Nat2Z.inj_add in Hr3. cbn [length] in Hr3. change (Z.of_nat 2) with 2 in Hr3. rewrite Hr3. cbn [mbind outcome_bind negb andb].
  destruct (store_next d3 ((s ++ [48; 120]) ++ ds) size 0 H3) as (d4 & Hr4 & H4); [rewrite !length_app; cbn; lia|].
  rewrite !length_app, !Nat2Z.inj_add in Hr4. cbn [length] in Hr4. change (Z.of_nat 2) with 2 in Hr4.
  exists d4, ds. split; [done|]. split; [|done]. split; [by rewrite (app_assoc s)|].
  apply Forall_app. split; [done|]. apply Forall_app. split; [repeat constructor; lia|].
  eapply Forall_impl; [apply Hnum|]. intros c [_ Hc]. by apply hex_not_nul.
Qed.

(** ** Substrings: [strstr(h, needle) != 0] *)

Fixpoint has_prefix (h needle : list Z) {struct needle} : bool :=
  match needle, h with
  | [], _ => true
  | b :: needle, a :: h => (a =? b) && has_prefix h needle
  | _ :: _, [] => false
  end.
Fixpoint contains (h needle : list Z) : bool :=
  has_prefix h needle || match h with [] => false | _ :: h => contains h needle end.

Lemma has_prefix_spec h n : has_prefix h n = true <-> exists t, h = n ++ t.
Proof.
  revert h. induction n as [|b n IH]; intros h; cbn [has_prefix]; [by split; [exists h|]|].
  destruct h as [|a h]; [split; [done|by intros [t ?]]|]. rewrite andb_true_iff, Z.eqb_eq, IH. split.
  - intros (-> & t & ->). by exists t.
  - intros (t & [= -> ->]). split; [done|]. by exists t.
Qed.
Lemma contains_spec h n : contains h n = true <-> exists s t, h = s ++ n ++ t.
Proof.
  induction h as [|a h IH]; cbn [contains]; rewrite orb_true_iff, has_prefix_spec.
  - split; [|intros (s & t & E); left; exists t; by destruct s]. intros [[t E]|?]; [by exists [], t|done].
  - rewrite IH. split; [intros [[t ->]|(s & t & ->)]; [by exists [], t|by exists (a :: s), t]|].
    intros ([|b s] & t & E); [left; by exists t|right]. injection E as -> ->. by exists s, t.
Qed.
