(* ===== verification/Idt.v ===== *)
(** * kernel/idt.c: interrupt gates and dispatch

    The gate descriptors, the table of handlers, the reports of exceptions
    nobody handles.  A handler is a code address; what it does is the parameter
    [call].  Interrupts act on a kernel state that contains the machine. *)

From Stdlib Require Import ZArith Lia.
From stdpp Require Import base numbers gmap strings fin_maps option list.
From S2P Require Import Prelude MemUtils Bootmode Digits Framebuffer Vram Machine Serial Console ConsoleRing ConsoleProofs ErrorText.

Local Open Scope Z_scope.

Record idt_entry_t := IdtEntry {
  offset_low : Z; selector : Z; ist : Z; type_attr : Z; offset_mid : Z; offset_high : Z; zero : Z
}.
Record idt_ptr_t := IdtPtr { limit : Z; base : Z }.

(** The static variables, the register [lidt] loads, and the state of
    runstate.h the reports mention. *)
Record idt_state := IdtState {
  idt : list idt_entry_t; handlers : list Z; idtr : option idt_ptr_t;
  current_user_app : bool; current_program : list Z
}.
Definition zero_gate : idt_entry_t := IdtEntry 0 0 0 0 0 0 0.
Definition set_idt (s : idt_state) (l : list idt_entry_t) : idt_state :=
  IdtState l (handlers s) (idtr s) (current_user_app s) (current_program s).
Definition set_handlers (s : idt_state) (l : list Z) : idt_state :=
  IdtState (idt s) l (idtr s) (current_user_app s) (current_program s).

(** The table has one gate for every value of a [uint8_t]. *)
Definition idt_set_gate (s : idt_state) (num base sel flags ist_ : Z) : idt_state :=
  set_idt s (<[Z.to_nat num := IdtEntry (Z.land base 0xFFFF) sel ist_ flags
    (Z.land (Z.shiftr base 16) 0xFFFF) (Z.land (Z.shiftr base 32) 0xFFFFFFFF) 0]> (idt s)).
Definition idt_set_user_gate (s : idt_state) (num base : Z) : idt_state := idt_set_gate s num base 0x08 0xEE 0.
Definition register_irq_handler (s : idt_state) (num handler : Z) : idt_state :=
  set_handlers s (<[Z.to_nat num := handler]> (handlers s)).

(** [stubs] are the entry points of the assembly stubs, [idt_addr] the address
    of the table. *)
Definition idt_init (stubs : list Z) (idt_addr : Z) (s : idt_state) : idt_state :=
  let s := for_range 256 (fun i s =>
    let ist_ := if i =? 8 then 1 else 0 in
    let s := idt_set_gate s i (default 0 (stubs !! Z.to_nat i)) 0x08 0x8E ist_ in
    register_irq_handler s i 0) s in
  IdtState (idt s) (handlers s) (Some (IdtPtr (256 * 16 - 1) idt_addr)) (current_user_app s) (current_program s).
Definition idt_size : Z := 256 * 16.

(** ** Reports *)

Definition exc_msgs : list string := [
  "Divide by zero"; "Debug"; "Non-maskable interrupt"; "Breakpoint"; "Overflow"; "Bound range exceeded";
  "Invalid opcode"; "Device not available"; "Double fault"; "Coprocessor segment overrun"; "Invalid TSS";
  "Segment not present"; "Stack segment fault"; "General protection fault"; "Page fault"; "Reserved";
  "Floating point error"; "Alignment check"; "Machine check"; "SIMD floating point"; "Virtualization";
  "Reserved"; "Reserved"; "Reserved"; "Reserved"; "Reserved"; "Reserved"; "Reserved"; "Reserved"; "Reserved";
  "Reserved"; "Reserved"]%string.

(** The string [set_exception_error_code] hands to the panic screen; [cr2] is
    the faulting address register. *)
Definition set_exception_error_code (cr2 num err rip : Z) : outcome (list Z) :=
  let buffer := replicate 64 0 in
  let with_hex text v := b ← set_code_literal buffer text; append_hex b v in
  b ← (if num =? 14 then with_hex "PAGE_FAULT@" cr2
       else if num =? 13 then with_hex "GPROT_FAULT@" err
       else if num =? 8 then set_code_literal buffer "DOUBLE_FAULT"
       else if num =? 12 then set_code_literal buffer "STACK_FAULT"
       else if num =? 6 then set_code_literal buffer "INVALID_OPCODE"
       else if num =? 0 then set_code_literal buffer "DIVIDE_BY_ZERO"
       else with_hex "CPU_EXCEPTION@" rip);
  Ret (until_nul b).

Section Dispatch.
Context {Hw : Type} `{Hardware Hw} {K : Type}.
Context (mach : K -> machine Hw) (put_mach : K -> machine Hw -> K) (ints : K -> idt_state) (cr2 : K -> Z).
Context (call : Z -> Z -> Z -> Z -> K -> outcome K).

Definition report_console (m : machine Hw) (msg : string) (rip err : Z) : outcome (machine Hw) :=
  m ← console_puts m (Some (str "EXCEPTION: "));
  m ← console_puts m (Some (str msg));
  m ← console_puts m (Some (str " at 0x"));
  m ← console_uhex m rip;
  m ← console_puts m (Some (str " err=0x"));
  m ← console_uhex m err;
  console_puts m (Some [10]).
Definition report_serial (m : machine Hw) (msg : string) (rip err : Z) : outcome (machine Hw) :=
  m ← serial_write m (str "EXCEPTION: ");
  m ← serial_write m (str msg);
  m ← serial_write m (str " at 0x");
  m ← serial_uhex m rip;
  m ← serial_write m (str " err=0x");
  m ← serial_uhex m err;
  serial_write m [10].

Definition idt_handle_interrupt (k : K) (num err rsp : Z) : outcome K :=
  let rip := rd_le 8 (mram (mach k)) (rsp + 17 * 8) in
  match handlers (ints k) !! Z.to_nat num with
  | None => Fault
  | Some h =>
      if negb (h =? 0) then call h num err rsp k else
      if num <? 32 then
        let msg := default "" (exc_msgs !! Z.to_nat num) in
        m ← report_console (mach k) msg rip err;
        m ← report_serial m msg rip err;
        if (num =? 3) || (num =? 1) then Ret (put_mach k m) else
        let type := if current_user_app (ints k) then "User app" else "Kernel process" in
        m ← console_puts m (Some (str type));
        m ← console_puts m (Some (str " crashed: "));
        m ← console_puts m (Some (current_program (ints k)));
        m ← console_putc m 10;
        m ← serial_write m (str type);
        m ← serial_write m (str " crashed: ");
        m ← serial_write m (current_program (ints k));
        _ ← serial_write m [10];
        _ ← set_exception_error_code (cr2 k) num err rip;
        Panic "Fatal exception"
      else
        m ← console_puts (mach k) (Some (str "Unhandled IRQ "));
        m ← console_udec m num;
        m ← console_puts m (Some [10]);
        m ← serial_write m (str "Unhandled IRQ ");
        m ← serial_udec m num;
        _ ← serial_write m [10];
        b ← set_code_literal (replicate 32 0) "IRQ@";
        _ ← append_hex b num;
        Panic "Unhandled IRQ"
  end.
End Dispatch.

(** ** Gates *)

(** The address the processor puts together from a gate. *)
Definition gate_target (g : idt_entry_t) : Z :=
  offset_low g + offset_mid g * 65536 + offset_high g * 4294967296.

Lemma split_address base : 0 <= base < 18446744073709551616 ->
  Z.land base 0xFFFF + Z.land (Z.shiftr base 16) 0xFFFF * 65536 + Z.land (Z.shiftr base 32) 0xFFFFFFFF * 4294967296 = base.
Proof.
  intros Hb. change 0xFFFF with (Z.ones 16). change 0xFFFFFFFF with (Z.ones 32). rewrite !Z.land_ones by lia.
  rewrite !Z.shiftr_div_pow2 by lia. change (2 ^ 16) with 65536. change (2 ^ 32) with 4294967296. mlia.
Qed.

(** The privilege level from which software may use a gate. *)
Definition gate_dpl (g : idt_entry_t) : Z := Z.land (Z.shiftr (type_attr g) 5) 3.

Definition gate (base flags ist_ : Z) : idt_entry_t :=
  IdtEntry (Z.land base 0xFFFF) 0x08 ist_ flags (Z.land (Z.shiftr base 16) 0xFFFF) (Z.land (Z.shiftr base 32) 0xFFFFFFFF) 0.

Definition tables_ok (s : idt_state) : Prop := length (idt s) = 256%nat /\ length (handlers s) = 256%nat.

Lemma idt_init_spec stubs a s : tables_ok s ->
  tables_ok (idt_init stubs a s) /\
  forall i, (i < 256)%nat -> handlers (idt_init stubs a s) !! i = Some 0 /\
    idt (idt_init stubs a s) !! i = Some (gate (default 0 (stubs !! i)) 0x8E (if Z.of_nat i =? 8 then 1 else 0)).
Proof.
  intros Hs. unfold idt_init. set (f := fun i s => register_irq_handler _ i 0).
  set (I := fun k (s : idt_state) => tables_ok s /\ forall i, Z.of_nat i < k -> handlers s !! i = Some 0 /\
    idt s !! i = Some (gate (default 0 (stubs !! i)) 0x8E (if Z.of_nat i =? 8 then 1 else 0))).
  assert (I 256 (for_range 256 f s)) as [H1 H2].
  { apply for_range_inv; [lia|split; [done|lia]|]. intros k t Hk [[Hi Hh] Ht]. unfold f. split.
    - by split; cbn; rewrite length_insert.
    - intros i Hik. cbn. destruct (decide (i = Z.to_nat k)) as [->|Hne].
      + rewrite !list_lookup_insert_eq by lia. by replace (Z.of_nat (Z.to_nat k)) with k by lia.
      + rewrite !list_lookup_insert_ne by done. apply Ht. lia. }
  revert H1 H2. generalize (for_range 256 f s). intros t H1 H2. split; [done|]. intros i Hi. apply H2. lia.
Qed.

(** after [idt_init] and one [idt_set_user_gate], every gate of the table
    leads to its stub (the three parts of the offset put together give the full
    64-bit address), in the kernel's code segment; software in user mode may use
    exactly the gate installed for it; only the double fault has a stack of its
    own, and no handler is registered. *)
Theorem idt_gates stubs a s n base i : tables_ok s -> (i < 256)%nat -> 0 <= n < 256 ->
  Forall (fun x => 0 <= x < 18446744073709551616) stubs -> 0 <= base < 18446744073709551616 ->
  let s' := idt_set_user_gate (idt_init stubs a s) n base in
  exists g, idt s' !! i = Some g /\ gate_target g = (if decide (Z.of_nat i = n) then base else default 0 (stubs !! i)) /\
    selector g = 8 /\ (gate_dpl g = 3 <-> Z.of_nat i = n) /\ (ist g = 1 <-> i = 8%nat /\ n <> 8) /\ handlers s' !! i = Some 0.
Proof.
  intros Hs Hi Hn Hst Hb s'. destruct (idt_init_spec stubs a s Hs) as [[H1 H2] Hg]. destruct (Hg i Hi) as [Hh Hgi].
  assert (0 <= default 0 (stubs !! i) < 18446744073709551616) as Hx.
  { destruct (stubs !! i) as [x|] eqn:E; [|cbn; lia]. by apply (Forall_lookup_1 _ _ _ _ Hst E). }
  unfold s', idt_set_user_gate. clear s' Hg. revert H1 H2 Hh Hgi. generalize (idt_init stubs a s). intros t H1 H2 Hh Hgi.
  destruct (decide (Z.of_nat i = n)) as [E|E].
  - exists (gate base 0xEE 0). split_and!.
    + cbn. replace (Z.to_nat n) with i by lia. by rewrite list_lookup_insert_eq by lia.
    + by apply split_address.
    + done.
    + done.
    + cbn [gate ist]. lia.
    + done.
  - exists (gate (default 0 (stubs !! i)) 0x8E (if Z.of_nat i =? 8 then 1 else 0)). split_and!; try done.
    + cbn. by rewrite list_lookup_insert_ne by lia.
    + by apply split_address.
    + cbn [gate ist]. destruct (Z.eqb_spec (Z.of_nat i) 8); split; intros; lia.
Qed.
Lemma idt_gates_witness :
  exists g, idt (idt_set_user_gate (idt_init (replicate 256 0xFFFFFFFF80001000) 0 (IdtState (replicate 256 zero_gate) (replicate 256 7) None false []))
      0x80 0xFFFFFFFF80002000) !! 128%nat = Some g /\ gate_target g = 0xFFFFFFFF80002000.
Proof.
  destruct (idt_gates (replicate 256 0xFFFFFFFF80001000) 0 (IdtState (replicate 256 zero_gate) (replicate 256 7) None false [])
    0x80 0xFFFFFFFF80002000 128) as (g & H1 & H2 & _); [by split|lia|lia|by apply Forall_replicate|lia|].
  exists g. exact (conj H1 H2).
Defined.

(** ** Reports of exceptions *)

Lemma exception_code_hex text v : 0 <= v < 18446744073709551616 -> no_nul (str text) -> (length (str text) <= 45)%nat ->
  exists ds, (b ← (b ← set_code_literal (replicate 64 0) text; append_hex b v); Ret (until_nul b)) = Ret (str text ++ [48; 120] ++ ds) /\ numeral 16 v ds.
Proof.
  intros Hv Hn Hl. destruct (set_code_literal_spec (replicate 64 0) text 64) as (b & -> & Hb); [done|done|lia|]. cbn [mbind outcome_bind].
  destruct (append_hex_spec b _ 64 v Hv Hb) as (b' & ds & -> & Hb' & Hds); [lia|]. cbn [mbind outcome_bind].
  exists ds. by rewrite (proj1 (holds_text _ _ _ Hb')).
Qed.

Lemma exception_code_plain text : no_nul (str text) -> (length (str text) < 64)%nat ->
  (b ← set_code_literal (replicate 64 0) text; Ret (until_nul b)) = Ret (str text).
Proof.
  intros Hn Hl. destruct (set_code_literal_spec (replicate 64 0) text 64) as (b & -> & Hb); [done|done|done|]. cbn [mbind outcome_bind].
  by rewrite (proj1 (holds_text _ _ _ Hb)).
Qed.

Lemma exception_code_returns cr2 num err rip :
  0 <= cr2 < 18446744073709551616 -> 0 <= err < 18446744073709551616 -> 0 <= rip < 18446744073709551616 ->
  exists s, set_exception_error_code cr2 num err rip = Ret s.
Proof.
  intros Hc He Hr. unfold set_exception_error_code.
  repeat case_test;
    try (eexists; apply exception_code_plain; [by repeat constructor|cbn; lia]);
    match goal with |- context [append_hex _ ?v] => match goal with |- context [set_code_literal _ ?t] =>
      destruct (exception_code_hex t v) as (ds & Hd & Hn); [lia|by repeat constructor|cbn; lia|] end end;
    (eexists; exact Hd).
Qed.

(** the code of a fatal exception fits its 64-byte buffer and names the
    exception; where it carries a number (the faulting address of a page fault,
    the error code of a protection fault, the instruction pointer of the
    exceptions without a name of their own) the complete hexadecimal numeral of
    that number follows. *)
Theorem exception_code_text cr2 num err rip :
  0 <= cr2 < 18446744073709551616 -> 0 <= err < 4294967296 -> 0 <= rip < 18446744073709551616 ->
  exists s, set_exception_error_code cr2 num err rip = Ret s /\
    if num =? 14 then exists ds, s = str "PAGE_FAULT@" ++ [48; 120] ++ ds /\ numeral 16 cr2 ds
    else if num =? 13 then exists ds, s = str "GPROT_FAULT@" ++ [48; 120] ++ ds /\ numeral 16 err ds
    else if num =? 8 then s = str "DOUBLE_FAULT"
    else if num =? 12 then s = str "STACK_FAULT"
    else if num =? 6 then s = str "INVALID_OPCODE"
    else if num =? 0 then s = str "DIVIDE_BY_ZERO"
    else exists ds, s = str "CPU_EXCEPTION@" ++ [48; 120] ++ ds /\ numeral 16 rip ds.
Proof.
  intros Hc He Hr. unfold set_exception_error_code.
  repeat case_test;
    try (eexists; split; [apply exception_code_plain; [by repeat constructor|cbn; lia]|done]);
    match goal with |- context [append_hex _ ?v] => match goal with |- context [set_code_literal _ ?t] =>
      destruct (exception_code_hex t v) as (ds & Hd & Hn); [lia|by repeat constructor|cbn; lia|] end end;
    (eexists; split; [exact Hd|]; by exists ds).
Qed.
Lemma exception_code_text_witness :
  exists s, set_exception_error_code 0xDEADBEEF 14 2 0x1000 = Ret s /\ exists ds, s = str "PAGE_FAULT@" ++ [48; 120] ++ ds /\ numeral 16 0xDEADBEEF ds.
Proof. apply (exception_code_text 0xDEADBEEF 14 2 0x1000); lia. Defined.

(** ** Dispatch *)

Section Outputs.
Context {Hw : Type} `{Uart Hw}.
Implicit Types m : machine Hw.

Definition returns (f : machine Hw -> outcome (machine Hw)) : Prop :=
  forall m, con_ok m -> exists m', f m = Ret m' /\ con_ok m'.

Lemma puts_returns s : returns (fun m => console_puts m (Some s)).
Proof. intros m Hok. destruct (console_write_ok m s Hok) as (m' & ? & ? & _). by exists m'. Qed.
Lemma putc_returns c : returns (fun m => console_putc m c).
Proof.
  intros m Hok. unfold console_putc. destruct (console_emit_ok m c Hok) as (m1 & -> & Hok1 & _). cbn [mbind outcome_bind].
  destruct (draw_screen_ok m1 Hok1) as (m2 & Hr & Ho). exists m2. split; [done|by eapply only_ram_ok].
Qed.
Lemma serial_write_returns s : returns (fun m => serial_write m s).
Proof.
  induction s as [|c s IH]; intros m Hok; cbn [serial_write]; [by exists m|]. unfold serial_putc.
  destruct (poll_ready hw_polls m (uart_busy_law _)) as (m1 & -> & [h ->] & _). cbn [mbind outcome_bind].
  apply IH. destruct (debuglog_char_frame (outb (set_hw m h) UART_DATA c) c) as (Ec & Es & _).
  destruct Hok. split; rewrite ?Ec, ?Es; done.
Qed.
Lemma text_returns (f : machine Hw -> list Z -> outcome (machine Hw)) t : (exists s, t = Ret s) ->
  (forall s, returns (fun m => f m s)) -> returns (fun m => s ← t; f m s).
Proof. intros [s ->] Hf m Hok. by apply Hf. Qed.
Lemma bind_returns f g : returns f -> returns g -> returns (fun m => m ← f m; g m).
Proof. intros Hf Hg m Hok. destruct (Hf m Hok) as (m1 & -> & Hok1). by apply Hg. Qed.
Lemma uhex_returns v : 0 <= v < 18446744073709551616 -> returns (fun m => console_uhex m v).
Proof.
  intros Hv. apply text_returns; [destruct (uhex_text_spec v Hv) as (s & ? & _); by exists s|apply puts_returns].
Qed.
Lemma serial_uhex_returns v : 0 <= v < 18446744073709551616 -> returns (fun m => serial_uhex m v).
Proof.
  intros Hv. apply text_returns; [destruct (uhex_text_spec v Hv) as (s & ? & _); by exists s|apply serial_write_returns].
Qed.
Lemma udec_returns v : 0 <= v < 4294967296 -> returns (fun m => console_udec m v).
Proof.
  intros Hv. apply text_returns; [destruct (udec_text_spec v Hv) as (s & ? & _); by exists s|apply puts_returns].
Qed.
Lemma serial_udec_returns v : 0 <= v < 4294967296 -> returns (fun m => serial_udec m v).
Proof.
  intros Hv. apply text_returns; [destruct (udec_text_spec v Hv) as (s & ? & _); by exists s|apply serial_write_returns].
Qed.

Lemma report_returns msg rip err : 0 <= rip < 18446744073709551616 -> 0 <= err < 18446744073709551616 ->
  returns (fun m => report_console m msg rip err) /\ returns (fun m => report_serial m msg rip err).
Proof.
  intros Hr He. unfold report_console, report_serial.
  split; repeat first [apply puts_returns | apply serial_write_returns
    | by apply uhex_returns | by apply serial_uhex_returns | apply bind_returns].
Qed.
End Outputs.

(** Run the next output of a sequence. *)
Ltac output lem :=
  let m := fresh "m" in let E := fresh "E" in let Hk := fresh "Hok" in
  edestruct lem as (m & E & Hk); [eassumption|]; cbn beta in E; rewrite E; clear E; cbn [mbind outcome_bind].

Section DispatchOk.
Context {Hw : Type} `{Uart Hw} {K : Type}.
Context (mach : K -> machine Hw) (put_mach : K -> machine Hw -> K) (ints : K -> idt_state) (cr2 : K -> Z).
Context (call : Z -> Z -> Z -> Z -> K -> outcome K).

Lemma handle_ok k num err rsp :
  con_ok (mach k) -> tables_ok (ints k) -> 0 <= num < 256 -> 0 <= err < 4294967296 -> 0 <= cr2 k < 18446744073709551616 ->
  exists h, handlers (ints k) !! Z.to_nat num = Some h /\
  let run := idt_handle_interrupt mach put_mach ints cr2 call k num err rsp in
  if negb (h =? 0) then run = call h num err rsp k
  else if num =? 3 then exists m, run = Ret (put_mach k m) /\ con_ok m
  else if num =? 1 then exists m, run = Ret (put_mach k m) /\ con_ok m
  else if num <? 32 then run = Panic "Fatal exception"
  else run = Panic "Unhandled IRQ".
Proof.
  intros Hok [_ Hh] Hn He Hc. destruct (lookup_lt_is_Some_2 (handlers (ints k)) (Z.to_nat num)) as [h Eh]; [lia|].
  exists h. split; [done|]. cbn zeta. unfold idt_handle_interrupt. rewrite Eh. destruct (Z.eqb_spec h 0) as [->|]; [|done]. cbn [negb].
  set (rip := rd_le _ _ _). pose proof (rd_le_range 8 (mram (mach k)) (rsp + 17 * 8)) as Hrip. fold rip in Hrip.
  change (256 ^ Z.of_nat 8) with 18446744073709551616 in Hrip. set (msg := default _ _).
  destruct (report_returns msg rip err Hrip ltac:(lia)) as [Hrc Hrs].
  destruct (Z.ltb_spec num 32) as [H32|H32].
  - output Hrc. output Hrs.
    destruct (Z.eqb_spec num 3); [cbn [orb]; eauto|]. destruct (Z.eqb_spec num 1); [cbn [orb]; eauto|]. cbn [orb].
    do 3 output puts_returns. output putc_returns. do 4 output serial_write_returns.
    destruct (exception_code_returns (cr2 k) num err rip) as [c ->]; [lia..|]. done.
  - rewrite (proj2 (Z.eqb_neq num 3)), (proj2 (Z.eqb_neq num 1)) by lia.
    output puts_returns. output (udec_returns num ltac:(lia)). output puts_returns. output serial_write_returns.
    output (serial_udec_returns num ltac:(lia)). output serial_write_returns.
    destruct (set_code_literal_spec (replicate 32 0) "IRQ@" 32) as (b & -> & Hb); [done|by repeat constructor|cbn; lia|].
    cbn [mbind outcome_bind]. destruct (append_hex_spec b _ 32 num ltac:(lia) Hb) as (b' & ds & -> & _); [cbn; lia|]. done.
Qed.
End DispatchOk.

(** C37: dispatch of an interrupt, with a serial port that works: a registered
    handler is called with the vector, the error code and the stack; without one
    a breakpoint or debug exception is reported and execution goes on, every
    other exception and every interrupt stops the kernel with a panic.  The
    report itself, with any program name and any register contents, always
    completes. *)
Theorem idt_dispatch {Hw} `{Uart Hw} {K} (mach : K -> machine Hw) put_mach ints cr2 call k num err rsp :
  con_ok (mach k) -> tables_ok (ints k) -> 0 <= num < 256 -> 0 <= err < 4294967296 -> 0 <= cr2 k < 18446744073709551616 ->
  exists h, handlers (ints k) !! Z.to_nat num = Some h /\
  let run := idt_handle_interrupt mach put_mach ints cr2 call k num err rsp in
  if negb (h =? 0) then run = call h num err rsp k
  else if num =? 3 then exists m, run = Ret (put_mach k m) /\ con_ok m
  else if num =? 1 then exists m, run = Ret (put_mach k m) /\ con_ok m
  else if num <? 32 then run = Panic "Fatal exception"
  else run = Panic "Unhandled IRQ".
Proof. apply handle_ok. Qed.
Definition demo_ints : idt_state := IdtState (replicate 256 zero_gate) (replicate 256 0) None false [107].
Lemma idt_dispatch_witness :
  exists m, idt_handle_interrupt id (fun _ m => m) (fun _ => demo_ints) (fun _ => 0)
    (fun _ _ _ _ k => Ret k) demo_machine 3 0 0x7000 = Ret m /\ con_ok m.
Proof.
  destruct (idt_dispatch (K := machine demo_hw) id (fun _ m => m) (fun _ => demo_ints) (fun _ => 0)
    (fun _ _ _ _ k => Ret k) demo_machine 3 0 0x7000 demo_machine_ok) as (h & Eh & Hr); [by split|lia..|].
  injection Eh as <-. cbn beta iota zeta delta [negb Z.eqb Pos.eqb] in Hr. exact Hr.
Defined.
