(* ===== verification/Kernel.v ===== *)
(** * The kernel as a whole

    The process table with its file system and memory contexts, the allocator
    underneath, and beside the allocator's state the devices, the FAT volume and
    the interrupt tables.  There is one memory, the allocator's; the memory
    fields of the machine and of the volume are loaded from it when one of their
    routines runs and stored back when it returns. *)

From Stdlib Require Import ZArith Lia.
From stdpp Require Import base numbers gmap strings fin_maps option list.
From S2P Require Import Prelude MemUtils Heap HeapTheorems Allocator Vram MemCtx Vfs ProcTable Elf Proc Fat32 Framebuffer Bootmode Machine Serial Console DebugLog ErrorText Idt.

Local Open Scope Z_scope.

(** ** An allocator beside other state *)

#[export] Instance alloc_beside {St W} `{Allocator St} : Allocator (St * W) := {|
  al_alloc s n := '(m, p) ← al_alloc s.1 n; Ret ((m, s.2), p);
  al_free s p n := m ← al_free s.1 p n; Ret (m, s.2);
  al_ram s := al_ram s.1;
  al_set_ram s r := (al_set_ram s.1 r, s.2);
  al_emit s o := (al_emit s.1 o, s.2);
  al_ok s := al_ok s.1;
  al_owns s := al_owns s.1;
  al_managed s := al_managed s.1 |}.

#[export] Instance alloc_beside_laws {St W} `{AllocatorLaws St} : AllocatorLaws (St * W).
Proof.
  split.
  - intros [s w] n Hok Hn. destruct (al_alloc_law s n Hok Hn) as (s' & p & Hr & Hok' & Hrest).
    exists (s', w), p. cbn. rewrite Hr. by split.
  - intros [s w] p n u Hok Hp Hn. destruct (al_free_law s p n u Hok Hp Hn) as (s' & Hr & Hrest).
    exists (s', w). cbn. rewrite Hr. by split.
  - intros [s w] p u q v. exact (al_disjoint_law s p u q v).
  - intros [s w] p u. exact (al_range_law s p u).
  - intros [s w] m Hok Hc. apply (al_set_ram_law s m Hok Hc).
  - intros [s w] o Hok. apply (al_emit_law s o Hok).
Qed.

(** ** The state *)

Section Kernel.
Context {L : Layout} {Hw : Type} `{Hardware Hw}.

Record world := World { w_mach : machine Hw; w_fs : Fat32.fs; w_ints : idt_state }.
Definition kernel : Type := proc_state (kmem * world).
Implicit Types k : kernel.

Definition heap_of k : kmem := (Vfs.mem (files k)).1.
Definition world_of k : world := (Vfs.mem (files k)).2.
Definition put_world k (w : world) : kernel := put_files k (Vfs.set_mem (files k) (heap_of k, w)).
Definition put_mem k (s : kmem * world) : kernel := put_files k (Vfs.set_mem (files k) s).

(** The devices, the volume, the interrupt tables. *)
Definition mach k : machine Hw := set_mram (w_mach (world_of k)) (ProcTable.ram k).
Definition put_mach k (m : machine Hw) : kernel :=
  let w := world_of k in put_world (ProcTable.set_ram k (mram m)) (World m (w_fs w) (w_ints w)).
Definition vol k : Fat32.fs := Fat32.set_ram (w_fs (world_of k)) (ProcTable.ram k).
Definition put_vol k (f : Fat32.fs) : kernel :=
  let w := world_of k in put_world (ProcTable.set_ram k (Fat32.ram f)) (World (w_mach w) f (w_ints w)).
Definition ints k : idt_state := w_ints (world_of k).
Definition put_ints k (i : idt_state) : kernel :=
  let w := world_of k in put_world k (World (w_mach w) (w_fs w) i).

(** Bytes stored through a pointer. *)
Definition store k (a : Z) (bs : list Z) : kernel := ProcTable.set_ram k (store_bytes (ProcTable.ram k) a bs).

(** A routine of the devices. *)
Definition on_mach k (f : machine Hw -> outcome (machine Hw)) : outcome kernel := m ← f (mach k); Ret (put_mach k m).

(** [mem_alloc] and [mem_free]. *)
Definition kalloc k (n : Z) : outcome (kernel * Z) := '(s, p) ← al_alloc (Vfs.mem (files k)) n; Ret (put_mem k s, p).
Definition kfree k (p n : Z) : outcome kernel := s ← al_free (Vfs.mem (files k)) p n; Ret (put_mem k s).

(** ** Strings in memory *)

(** The string at [a]: memory holds finitely many bytes other than zero, so that
    a terminator is found. *)
Fixpoint read_str (fuel : nat) (m : gmap Z Z) (a : Z) : list Z :=
  match fuel with
  | O => []
  | S fuel => if rd m a =? 0 then [] else rd m a :: read_str fuel m (a + 1)
  end.
Definition cstring k (a : Z) : list Z := read_str (S (base.size (ProcTable.ram k))) (ProcTable.ram k) a.
(** A [char *] argument. *)
Definition path_at k (a : Z) : option (list Z) := if a =? 0 then None else Some (cstring k a).

(** ** The debug log on the volume *)

Definition debuglog_init k : outcome kernel :=
  '(k, p) ← kalloc k (64 * 1024);
  let size := if p =? 0 then 0 else 64 * 1024 in
  let k := put_vol k (fs_mount (vol k) p size) in
  let '(h, now) := hw_rdtsc (hw (mach k)) in
  Ret (put_mach k (set_dlog (set_hw (mach k) h) (Debuglog p 0 size now))).
Definition debuglog_flush k : kernel :=
  let l := dlog (mach k) in
  if log_buf l =? 0 then k else put_vol k (fs_write (vol k) 0 (log_buf l) (log_pos l)).1.
(** The branch of the kernel build. *)
Definition debuglog_save_file k : kernel := debuglog_flush k.
End Kernel.
Arguments world Hw : clear implicits.
Arguments kernel Hw : clear implicits.

(** The string read is the one in memory. *)
Lemma read_str_cstr fuel (m : gmap Z Z) a n : (n < fuel)%nat -> rd m (a + Z.of_nat n) = 0 -> cstr m a (read_str fuel m a).
Proof.
  revert a n. induction fuel as [|fuel IH]; intros a n Hn Hz; [lia|]. cbn. destruct (Z.eqb_spec (rd m a) 0) as [E|E]; [done|].
  destruct n as [|n]; [by rewrite Z.add_0_r in Hz|]. split_and!; [done|done|].
  apply (IH _ n); [lia|]. by replace (a + 1 + Z.of_nat n) with (a + Z.of_nat (S n)) by lia.
Qed.
Lemma nul_found (m : gmap Z Z) a : exists n, (n <= base.size m)%nat /\ rd m (a + Z.of_nat n) = 0.
Proof.
  destruct (decide (Exists (fun x => rd m x = 0) (seqZ a (Z.of_nat (S (base.size m)))))) as [He|Hn].
  - apply Exists_exists in He as (x & Hx & Hz). apply elem_of_seqZ in Hx. exists (Z.to_nat (x - a)).
    split; [lia|]. by replace (a + Z.of_nat (Z.to_nat (x - a))) with x by lia.
  - exfalso. apply not_Exists_Forall in Hn; [|intros x; apply _]. rewrite Forall_forall in Hn.
    assert (list_to_set (seqZ a (Z.of_nat (S (base.size m)))) ⊆ dom m) as Hsub.
    { intros x Hx. apply elem_of_list_to_set in Hx. apply elem_of_dom. destruct (m !! x) as [v|] eqn:E; [done|].
      exfalso. apply (Hn x Hx). unfold rd. by rewrite E. }
    apply subseteq_size in Hsub. rewrite size_list_to_set, length_seqZ, size_dom in Hsub by apply NoDup_seqZ. lia.
Qed.
