(* ===== verification/Syscall.v ===== *)
(** * kernel/syscall.c: system calls

    Arguments and results are 64-bit register values.  User programs and the
    MicroPython runtime are code the kernel only calls: the parameters [run] and
    [mp_exec].  A path argument is read from memory when the call is made. *)

From Stdlib Require Import ZArith Lia.
From stdpp Require Import base numbers gmap strings fin_maps option list.
From S2P Require Import Prelude MemUtils Heap HeapTheorems Allocator Vram MemCtx Vfs ProcTable Elf Proc Fat32 Framebuffer Bootmode Machine Serial Console DebugLog ErrorText Idt Kernel.

Local Open Scope Z_scope.

Definition SYS_WRITE : Z := 0.
Definition SYS_EXIT : Z := 1.
Definition SYS_MEM_ALLOC : Z := 2.
Definition SYS_MEM_FREE : Z := 3.
Definition SYS_FS_READ : Z := 4.
Definition SYS_FS_WRITE : Z := 5.
Definition SYS_PROC_SPAWN : Z := 6.
Definition SYS_FS_OPEN : Z := 7.
Definition SYS_FS_READ_FD : Z := 8.
Definition SYS_FS_WRITE_FD : Z := 9.
Definition SYS_FS_LSEEK_FD : Z := 10.
Definition SYS_FS_CLOSE : Z := 11.
Definition SYS_FS_FILE_SIZE : Z := 12.
Definition SYS_READ : Z := 13.
Definition SYS_GETPID : Z := 14.
Definition SYS_GETPPID : Z := 15.
Definition SYS_PROC_INFO : Z := 16.
Definition SYS_PROC_LIST : Z := 17.
Definition SYS_PROC_WAIT : Z := 18.
Definition SYS_PROC_KILL : Z := 19.
Definition SYS_WRITE_FD : Z := 20.
Definition SYS_DUP : Z := 21.
Definition SYS_DUP2 : Z := 22.
Definition SYS_UPTIME_MS : Z := 23.
Definition SYS_SLEEP_MS : Z := 24.
Definition SYS_PIPE : Z := 25.
Definition SYS_EXECVE : Z := 26.
Definition SYS_PROC_SPAWN_EX : Z := 27.
Definition SYS_DMESG_READ : Z := 28.
Definition SYS_MEM_INFO : Z := 29.
Definition SYS_SYNC : Z := 30.
Definition SYS_IOCTL : Z := 31.
Definition SYS_VFS_OPEN : Z := 32.
Definition SYS_VFS_READ : Z := 33.
Definition SYS_VFS_WRITE : Z := 34.
Definition SYS_VFS_LSEEK : Z := 35.
Definition SYS_VFS_CLOSE : Z := 36.
Definition SYS_VFS_MKDIR : Z := 37.
Definition SYS_VFS_UNLINK : Z := 38.
Definition SYS_VFS_RENAME : Z := 39.
Definition SYS_VFS_CHDIR : Z := 40.
Definition SYS_VFS_GETCWD : Z := 41.
Definition SYS_VFS_STAT : Z := 42.
Definition SYS_VFS_FSTAT : Z := 43.
Definition SYS_VFS_GETDENTS : Z := 44.
Definition SYS_VFS_RMDIR : Z := 45.
Definition SYS_VFS_ACCESS : Z := 46.
Definition SYS_MOUNT_INFO : Z := 47.
Definition SYS_DISK_LIST : Z := 48.
Definition SYS_DISK_INFO : Z := 49.
Definition SYS_REBOOT : Z := 50.
Definition SYS_POWEROFF : Z := 51.
Definition SYS_MPY_EXEC_FILE : Z := 52.
Definition SYS_FB_INFO : Z := 53.
Definition SYS_DISPLAY_MODE : Z := 54.
Definition SYS_FB_CLEAR : Z := 55.
Definition SYS_FB_DRAW_PIXEL : Z := 56.
Definition SYS_DISPLAY_ENABLE_LOGS : Z := 1.
Definition SYS_DISPLAY_DISABLE_LOGS : Z := 2.
Definition SYS_DISPLAY_DARK_MODE : Z := 3.
Definition SYS_DISPLAY_WHITE_MODE : Z := 4.

(** ** Records in user memory *)

Definition SIZEOF_PROC_INFO : Z := 360.
Definition SIZEOF_VFS_STAT : Z := 24.
Definition SIZEOF_VFS_DIRENT : Z := 48.
Definition SIZEOF_MEM_INFO : Z := 48.
Definition SIZEOF_FB_INFO : Z := 24.

(** [proc_info_t], copied as a whole: four bytes of padding before the first
    pointer. *)
Definition proc_info_bytes (p : proc_info_t) : list Z :=
  le_bytes 4 (pid p) ++ le_bytes 4 (parent_pid p) ++ le_bytes 4 (state p) ++ le_bytes 4 (exit_status p) ++
  le_bytes 4 (memctx p) ++ pname p ++ cwd p ++ exe_path p ++ replicate 4 0 ++
  le_bytes 8 (entry_point p) ++ le_bytes 8 (image_base p) ++ le_bytes 8 (image_size p) ++
  le_bytes 8 (requested_base p) ++ le_bytes 8 (requested_end p) ++ le_bytes 8 (stack_pointer p).
Definition mem_info_bytes (i : mem_info_t) : list Z :=
  le_bytes 8 (mi_heap_used i) ++ le_bytes 8 (mi_heap_free i) ++ le_bytes 8 (mi_heap_committed i) ++
  le_bytes 8 (mi_heap_max i) ++ le_bytes 8 (mi_grow_count i) ++ le_bytes 8 (mi_alloc_fail_count i).

Section Syscall.
Context {L : Layout} {Hw : Type} `{Hardware Hw}.
Context (run : Z -> Z -> kernel Hw -> outcome (kernel Hw)).
Context (mp_exec : Z -> Z -> list Z -> kernel Hw -> outcome (kernel Hw)).
Implicit Types k : kernel Hw.

(** [fill_stat] writes the fields one by one; the padding is left alone. *)
Definition store_stat k (a : Z) (st : vfs_stat_t) : kernel Hw :=
  let k := store k a (le_bytes 4 (st_type st)) in
  let k := store k (a + 8) (le_bytes 8 (st_size st)) in
  store k (a + 16) (le_bytes 4 (st_inode st) ++ le_bytes 4 (st_children st)).
Fixpoint store_dents k (a : Z) (es : list vfs_dirent_t) : kernel Hw :=
  match es with
  | [] => k
  | e :: es =>
      store_dents (store k a (le_bytes 4 (d_type e) ++ le_bytes 4 (d_inode e) ++ le_bytes 8 (d_size e) ++ d_name e ++ [0]))
        (a + SIZEOF_VFS_DIRENT) es
  end.
Fixpoint store_infos k (a : Z) (l : list proc_info_t) : kernel Hw :=
  match l with [] => k | p :: l => store_infos (store k a (proc_info_bytes p)) (a + SIZEOF_PROC_INFO) l end.

(** [k_end] is the linker symbol [end]. *)
Definition user_ptr_valid k (p len : Z) : bool :=
  let k_end := kernel_end in
  let e := u64 (p + len) in
  if e <? p then false else
  if k_end <=? p then true else
  match proc_info k (proc_current_pid k) with
  | None => false
  | Some i =>
      if (4096 <=? stack_pointer i) && (stack_pointer i - 4096 <=? p) && (e <=? stack_pointer i) then true
      else negb (image_base i =? 0) && (image_base i <=? p) && (e <=? u64 (image_base i + image_size i))
  end.

Definition ret k (r : Z) : outcome (kernel Hw * Z) := Ret (k, u64 r).
Definition fail k : outcome (kernel Hw * Z) := ret k (-1).
Definition checked k (p len : Z) (body : outcome (kernel Hw * Z)) : outcome (kernel Hw * Z) :=
  if user_ptr_valid k p len then body else fail k.

(** A routine of the file system, the process layer, the volume. *)
Definition on_files k (r : outcome (vfs (kmem * world Hw) * Z)) : outcome (kernel Hw * Z) :=
  '(v, r) ← r; ret (put_files k v) r.
Definition on_proc (r : outcome (kernel Hw * Z)) : outcome (kernel Hw * Z) := '(k, r) ← r; ret k r.
Definition on_vol k (r : outcome (Fat32.fs * Z)) : outcome (kernel Hw * Z) := '(f, r) ← r; ret (put_vol k f) r.

(** [console_write] of [n] bytes of memory. *)
Definition write_console k (a n : Z) : outcome (kernel Hw * Z) :=
  k' ← on_mach k (fun m => console_write m (if a =? 0 then None else Some (bytes_at (mram m) a (Z.to_nat n))));
  ret k' n.
Definition read_console k (a n : Z) : outcome (kernel Hw * Z) :=
  k ← for_range_m n (fun i k =>
    '(m, c) ← console_getc (mach k);
    Ret (store (put_mach k m) (a + i) [c])) k;
  ret k n.

Definition rdtsc k : kernel Hw * Z :=
  let '(h, now) := hw_rdtsc (hw (mach k)) in (put_mach k (set_hw (mach k) h), now).
(** [while (io_rdtsc() < end) {}]. *)
Fixpoint sleep_loop (fuel : nat) k (until : Z) : outcome (kernel Hw) :=
  let '(k, now) := rdtsc k in
  if now <? until then match fuel with O => Timeout | S fuel => sleep_loop fuel k until end else Ret k.

Definition spawn k (a : Z) : outcome (kernel Hw * Z) :=
  on_proc (proc_spawn_exec run k (proc_current_pid k) (path_at k a)).

Definition display_mode k (a1 : Z) : outcome (kernel Hw * Z) :=
  let theme t := k' ← on_mach k (fun m =>
      let m := set_boot m (bootmode_set_theme (boot m) t) in console_clear (console_apply_boot_theme m)); ret k' 0 in
  if a1 =? SYS_DISPLAY_ENABLE_LOGS then k' ← on_mach k (fun m => console_set_logs_visible m true); ret k' 0
  else if a1 =? SYS_DISPLAY_DISABLE_LOGS then k' ← on_mach k (fun m => console_set_logs_visible m false); ret k' 0
  else if a1 =? SYS_DISPLAY_DARK_MODE then theme BOOT_THEME_DARK
  else if a1 =? SYS_DISPLAY_WHITE_MODE then theme BOOT_THEME_WHITE
  else fail k.

Definition fb_info k (a : Z) : kernel Hw :=
  let fb := screen (mach k) in
  let b := boot (mach k) in
  store k a (le_bytes 4 (framebuffer_width fb) ++ le_bytes 4 (framebuffer_height fb) ++ le_bytes 4 (framebuffer_pitch fb) ++
    le_bytes 4 (framebuffer_bpp fb) ++ le_bytes 4 (bootmode_theme b) ++ le_bytes 4 (if bootmode_logs_visible b then 1 else 0)).

Definition dmesg_read k (a1 a2 a3 : Z) : outcome (kernel Hw * Z) :=
  let len := debuglog_length (mach k) in
  if len <=? a3 then ret k 0 else
  let n := if a2 <? len - a3 then a2 else len - a3 in
  ret (ProcTable.set_ram k (memcpy (ProcTable.ram k) a1 (debuglog_buffer (mach k) + a3) n)) n.

(** A script in the file system, run by the MicroPython runtime. *)
Definition mpy_exec_file k (a1 : Z) : outcome (kernel Hw * Z) :=
  let path := path_at k a1 in
  st ← vfs_stat (files k) path;
  match st with
  | None => fail k
  | Some st =>
      if negb (st_type st =? VFS_TYPE_FILE) || (st_size st =? 0) then fail k else
      let total := u64 (st_size st + 1) in
      '(k, b) ← kalloc k total;
      if b =? 0 then fail k else
      '(v, fd) ← vfs_open (files k) path VFS_O_RDONLY;
      let k := put_files k v in
      if fd <? 0 then k ← kfree k b total; fail k else
      '(v, got) ← vfs_read (files k) fd b (st_size st);
      let k := put_files k (vfs_close v fd).1 in
      if negb (got =? s64 (st_size st)) then k ← kfree k b total; fail k else
      let k := store k (b + st_size st) [0] in
      k ← mp_exec b (st_size st) (default [] path) k;
      k ← kfree k b total;
      ret k 0
  end.

(** Calls that need no current process. *)
Definition anonymous (num : Z) : bool :=
  (num =? SYS_GETPID) || (num =? SYS_PROC_INFO) || (num =? SYS_PROC_LIST) || (num =? SYS_UPTIME_MS) || (num =? SYS_MEM_INFO) ||
  (num =? SYS_SYNC) || (num =? SYS_FB_INFO) || (num =? SYS_DISPLAY_MODE) || (num =? SYS_FB_CLEAR) || (num =? SYS_FB_DRAW_PIXEL).

(** The first half of the switch: console, memory, processes, system. *)
Definition syscall_system k (num a1 a2 a3 : Z) : option (outcome (kernel Hw * Z)) :=
  let cur := proc_current_pid k in
  if num =? SYS_WRITE then Some (checked k a1 a2 (write_console k a1 a2))
  else if num =? SYS_WRITE_FD then Some (checked k a2 a3 (
    let fd := s32 a1 in
    if (fd =? 1) || (fd =? 2) then write_console k a2 a3
    else if 3 <=? fd then on_proc (proc_write k cur fd a2 a3) else fail k))
  else if num =? SYS_READ then Some (checked k a2 a3 (
    if s32 a1 =? 0 then read_console k a2 a3 else on_proc (proc_read k cur (s32 a1) a2 a3)))
  else if num =? SYS_EXIT then Some ('(k, _) ← proc_exit k cur (s32 a1); ret k 0)
  else if num =? SYS_MEM_ALLOC then Some ('(k, p) ← kalloc k a1; ret k p)
  else if num =? SYS_MEM_FREE then Some (checked k a1 a2 (k ← kfree k a1 a2; ret k 0))
  else if num =? SYS_PROC_SPAWN then Some (checked k a1 1 (spawn k a1))
  else if num =? SYS_GETPID then Some (if proc_current_valid k then ret k cur else fail k)
  else if num =? SYS_GETPPID then Some (
    match proc_info k cur with
    | Some i => if proc_current_valid k then ret k (parent_pid i) else fail k
    | None => fail k
    end)
  else if num =? SYS_PROC_INFO then Some (checked k a2 SIZEOF_PROC_INFO (
    match proc_info k (s32 a1) with
    | Some i => if a2 =? 0 then fail k else ret (store k a2 (proc_info_bytes i)) 0
    | None => fail k
    end))
  else if num =? SYS_PROC_LIST then Some (checked k a1 (u64 (a2 * SIZEOF_PROC_INFO)) (
    if (a1 =? 0) && negb (a2 =? 0) then fail k else
    let '(l, n) := proc_list k a2 in ret (store_infos k a1 l) n))
  else if num =? SYS_PROC_WAIT then Some (
    if negb (a2 =? 0) && negb (user_ptr_valid k a2 4) then fail k else on_proc (proc_wait k cur (s32 a1) a2))
  else if num =? SYS_PROC_KILL then Some (on_proc (proc_kill k (s32 a1) (s32 a2)))
  else if num =? SYS_DUP then Some (on_proc (Ret (proc_dup k cur (s32 a1))))
  else if num =? SYS_DUP2 then Some (on_proc (Ret (proc_dup2 k cur (s32 a1) (s32 a2))))
  else if num =? SYS_UPTIME_MS then Some (let '(k, now) := rdtsc k in ret k (now / 1000000))
  else if num =? SYS_SLEEP_MS then Some (
    let '(k, now) := rdtsc k in k ← sleep_loop hw_polls k (u64 (now + u64 (a1 * 1000000))); ret k 0)
  else if num =? SYS_PIPE then Some (fail k)
  else if (num =? SYS_EXECVE) || (num =? SYS_PROC_SPAWN_EX) then Some (checked k a1 1 (spawn k a1))
  else if num =? SYS_DMESG_READ then Some (checked k a1 a2 (dmesg_read k a1 a2 a3))
  else if num =? SYS_MEM_INFO then Some (checked k a1 SIZEOF_MEM_INFO (
    if a1 =? 0 then ret k 0 else i ← mem_get_info (heap_of k); ret (store k a1 (mem_info_bytes i)) 0))
  else if num =? SYS_SYNC then Some (ret (debuglog_flush k) 0)
  else if num =? SYS_IOCTL then Some (if a1 =? 1 then k ← on_mach k console_clear; ret k 0 else ret k 0)
  else None.

(** The volume and the file system. *)
Definition syscall_files k (num a1 a2 a3 : Z) : option (outcome (kernel Hw * Z)) :=
  let str a := path_at k a in
  if num =? SYS_FS_READ then Some (checked k a2 a3 (on_vol k (Ret (fs_read (vol k) a1 a2 a3))))
  else if num =? SYS_FS_WRITE then Some (checked k a2 a3 (on_vol k (Ret (fs_write (vol k) a1 a2 a3))))
  else if num =? SYS_FS_OPEN then Some (checked k a1 1 (on_vol k (fs_open (vol k) (str a1) (s32 a2))))
  else if num =? SYS_FS_READ_FD then Some (checked k a2 a3 (on_vol k (fs_read_fd (vol k) (s32 a1) a2 a3)))
  else if num =? SYS_FS_WRITE_FD then Some (checked k a2 a3 (on_vol k (fs_write_fd (vol k) (s32 a1) a2 a3)))
  else if num =? SYS_FS_LSEEK_FD then Some (on_vol k (Ret (fs_lseek_fd (vol k) (s32 a1) (s64 a2) (s32 a3))))
  else if num =? SYS_FS_CLOSE then Some (on_vol k (Ret (fs_close (vol k) (s32 a1))))
  else if num =? SYS_FS_FILE_SIZE then Some (ret k (fs_file_size (vol k) (s32 a1)))
  else if num =? SYS_VFS_OPEN then Some (checked k a1 1 (on_files k (vfs_open (files k) (str a1) (s32 a2))))
  else if num =? SYS_VFS_READ then Some (checked k a2 a3 (on_files k (vfs_read (files k) (s32 a1) a2 a3)))
  else if num =? SYS_VFS_WRITE then Some (checked k a2 a3 (on_files k (vfs_write (files k) (s32 a1) a2 a3)))
  else if num =? SYS_VFS_LSEEK then Some (on_files k (vfs_lseek (files k) (s32 a1) (s64 a2) (s32 a3)))
  else if num =? SYS_VFS_CLOSE then Some (on_files k (Ret (vfs_close (files k) (s32 a1))))
  else if num =? SYS_VFS_MKDIR then Some (checked k a1 1 (on_files k (vfs_mkdir (files k) (str a1))))
  else if num =? SYS_VFS_UNLINK then Some (checked k a1 1 (on_files k (vfs_unlink (files k) (str a1))))
  else if num =? SYS_VFS_RMDIR then Some (checked k a1 1 (on_files k (vfs_rmdir (files k) (str a1))))
  else if num =? SYS_VFS_ACCESS then Some (checked k a1 1 (r ← vfs_access (files k) (str a1); ret k r))
  else if num =? SYS_VFS_RENAME then Some (checked k a1 1 (checked k a2 1 (on_files k (vfs_rename (files k) (str a1) (str a2)))))
  else if num =? SYS_VFS_CHDIR then Some (checked k a1 1 (on_files k (vfs_chdir (files k) (str a1))))
  else if num =? SYS_VFS_GETCWD then Some (checked k a1 a2 (
    if a1 =? 0 then fail k else
    r ← vfs_getcwd (files k) a2;
    match r with Some p => ret (store k a1 (p ++ [0])) 0 | None => fail k end))
  else if num =? SYS_VFS_STAT then Some (checked k a1 1 (checked k a2 SIZEOF_VFS_STAT (
    st ← vfs_stat (files k) (str a1);
    match st with Some st => if a2 =? 0 then fail k else ret (store_stat k a2 st) 0 | None => fail k end)))
  else if num =? SYS_VFS_FSTAT then Some (checked k a2 SIZEOF_VFS_STAT (
    match vfs_fstat (files k) (s32 a1) with
    | Some st => if a2 =? 0 then fail k else ret (store_stat k a2 st) 0
    | None => fail k
    end))
  else if num =? SYS_VFS_GETDENTS then Some (checked k a2 (u64 (a3 * SIZEOF_VFS_DIRENT)) (
    if a2 =? 0 then fail k else
    '(v, r, es) ← vfs_getdents (files k) (s32 a1) a3; ret (store_dents (put_files k v) a2 es) r))
  else None.

(** Display, scripts and the calls without effect. *)
Definition syscall_display k (num a1 a2 a3 : Z) : outcome (kernel Hw * Z) :=
  if (num =? SYS_MOUNT_INFO) || (num =? SYS_DISK_LIST) || (num =? SYS_DISK_INFO) then ret k 0
  else if num =? SYS_FB_INFO then checked k a1 SIZEOF_FB_INFO (ret (fb_info k a1) 0)
  else if num =? SYS_DISPLAY_MODE then display_mode k a1
  else if num =? SYS_FB_CLEAR then k ← on_mach k console_clear; ret k 0
  else if num =? SYS_FB_DRAW_PIXEL then
    let m := mach k in
    let '(r, ok) := framebuffer_draw_pixel_rgb (screen m) (u32 a1) (u32 a2) (u8 (Z.shiftr a3 16)) (u8 (Z.shiftr a3 8)) (u8 a3) (mram m) in
    if negb (ok =? 0) then ret (put_mach k (set_mram m r)) 0 else fail (put_mach k (set_mram m r))
  else if num =? SYS_MPY_EXEC_FILE then checked k a1 1 (mpy_exec_file k a1)
  else if (num =? SYS_REBOOT) || (num =? SYS_POWEROFF) then ret k 0
  else fail k.

Definition syscall_dispatch k (num a1 a2 a3 : Z) : outcome (kernel Hw * Z) :=
  if negb (anonymous num) && negb (proc_current_valid k) then fail k else
  match syscall_system k num a1 a2 a3 with
  | Some r => r
  | None => match syscall_files k num a1 a2 a3 with Some r => r | None => syscall_display k num a1 a2 a3 end
  end.

(** The register block the stub saves: rax first; rdi, rsi and rdx hold the
    arguments. *)
Definition reg k (rsp i : Z) : Z := rd_le 8 (ProcTable.ram k) (rsp + 8 * i).
Definition syscall_irq_handler k (rsp : Z) : outcome (kernel Hw) :=
  '(k', r) ← syscall_dispatch k (reg k rsp 0) (reg k rsp 6) (reg k rsp 5) (reg k rsp 3);
  Ret (store k' rsp (le_bytes 8 r)).

(** [stub] is the stub of vector 0x80, [handler] the address of
    [syscall_irq_handler]. *)
Definition syscall_init k (stub handler : Z) : kernel Hw :=
  put_ints k (register_irq_handler (idt_set_user_gate (ints k) 0x80 stub) 0x80 handler).
End Syscall.
