(* ===== verification/SyscallTheorems.v ===== *)
(** * Theorems on system calls *)

From Stdlib Require Import ZArith Lia.
From stdpp Require Import base numbers gmap strings fin_maps option list relations.
From S2P Require Import Prelude MemUtils Heap HeapTheorems Allocator Vram MemApps MemCtx Vfs ProcTable Elf Proc ProcTheorems Fat32 Framebuffer Bootmode Machine Serial Console ConsoleProofs DebugLog ErrorText Idt Kernel Syscall ElfLoad.

Local Open Scope Z_scope.

Section Safe.
Context {L : Layout} {Hw : Type} `{Hardware Hw}.
Context (run : Z -> Z -> kernel Hw -> outcome (kernel Hw)).
Context (mp_exec : Z -> Z -> list Z -> kernel Hw -> outcome (kernel Hw)).
Implicit Types k : kernel Hw.

(** ** The process table under system calls *)

Lemma other k k' : same_table k k' -> rtc proc_call k k'.
Proof. intros Hs. by apply rtc_once, call_other. Qed.

(** Whenever [c] returns, the process layer was only changed by its calls, and
    the answer fits a register. *)
Definition calls k (c : outcome (kernel Hw * Z)) : Prop :=
  forall k' r, c = Ret (k', r) -> rtc proc_call k k' /\ 0 <= r < 2 ^ 64.

Lemma calls_to k k1 r : rtc proc_call k k1 -> calls k (ret k1 r).
Proof. intros Hs k' r' E. injection E as <- <-. split; [done|apply u64_range]. Qed.
Lemma calls_ret k k1 r : same_table k k1 -> calls k (ret k1 r).
Proof. intros Hs. by apply calls_to, other. Qed.
Lemma calls_fail k : calls k (fail k).
Proof. by apply calls_ret. Qed.
Lemma calls_checked k p n c : calls k c -> calls k (checked k p n c).
Proof. intros Hc. unfold checked. case_test; [done|apply calls_fail]. Qed.
Lemma calls_if k (b : bool) c d : calls k c -> calls k d -> calls k (if b then c else d).
Proof. by destruct b. Qed.
Lemma calls_bind {A} k (c : outcome A) f : (forall a, calls k (f a)) -> calls k (c ≫= f).
Proof. intros Hf k' r E. inv_bind E. exact (Hf r0 k' r E). Qed.
(** The same with what the first part returned. *)
Lemma calls_run {A} k (c : outcome A) f : (forall a, c = Ret a -> calls k (f a)) -> calls k (c ≫= f).
Proof. intros Hf k' r E. inv_bind E. exact (Hf r0 E0 k' r E). Qed.
Lemma calls_files k c : calls k (on_files k c).
Proof. apply calls_bind. intros [v r]. by apply calls_ret. Qed.
Lemma calls_vol k c : calls k (on_vol k c).
Proof. apply calls_bind. intros [f r]. by apply calls_ret. Qed.
Lemma calls_proc k c : (forall k' r, c = Ret (k', r) -> rtc proc_call k k') -> calls k (on_proc c).
Proof. intros Hc. apply calls_run. intros [k1 r1] E. by eapply calls_to, Hc. Qed.
Lemma calls_from k k1 c : same_table k k1 -> calls k1 c -> calls k c.
Proof. intros Hs Hc k' r E. destruct (Hc k' r E) as [H1 H2]. split; [|done]. eapply rtc_l; [by apply call_other|done]. Qed.

Lemma put_mach_table k m : same_table k (put_mach k m).
Proof. done. Qed.
Lemma on_mach_table k f k' : on_mach k f = Ret k' -> same_table k k'.
Proof. intros E. unfold on_mach in E. inv_bind E. by injection E as <-. Qed.
Lemma kalloc_table k n k' p : kalloc k n = Ret (k', p) -> same_table k k'.
Proof. intros E. unfold kalloc in E. inv_bind E. destruct r as [s q]. by injection E as <- _. Qed.
Lemma kfree_table k p n k' : kfree k p n = Ret k' -> same_table k k'.
Proof. intros E. unfold kfree in E. inv_bind E. by injection E as <-. Qed.
Lemma rdtsc_table k k' t : rdtsc k = (k', t) -> same_table k k'.
Proof. unfold rdtsc. destruct (hw_rdtsc _) as [h now]. by intros [= <- _]. Qed.
Lemma same_table_refl k : same_table k k.
Proof. done. Qed.
Lemma store_table k a bs : same_table k (store k a bs).
Proof. done. Qed.
Lemma store_stat_table k a st : same_table k (store_stat k a st).
Proof. done. Qed.
Lemma store_infos_table l k a : same_table k (store_infos k a l).
Proof. revert k a. induction l as [|p l IH]; intros k a; [done|]. cbn. eapply same_table_trans; [|apply IH]. done. Qed.
Lemma store_dents_table es k a : same_table k (store_dents k a es).
Proof. revert k a. induction es as [|e es IH]; intros k a; [done|]. cbn. eapply same_table_trans; [|apply IH]. done. Qed.
Lemma sleep_table fuel k u k' : sleep_loop fuel k u = Ret k' -> same_table k k'.
Proof.
  revert k. induction fuel as [|fuel IH]; intros k; cbn [sleep_loop]; destruct (rdtsc k) as [k1 now] eqn:E; apply rdtsc_table in E;
    (case_test; [|by intros [= <-]]); [done|]. intros Hr. eapply same_table_trans; [done|by apply IH].
Qed.

Lemma calls_on_mach k f r : calls k (k' ← on_mach k f; ret k' r).
Proof. apply calls_run. intros k' E%on_mach_table. by apply calls_ret. Qed.
Lemma calls_write_console k a n : calls k (write_console k a n).
Proof. apply calls_on_mach. Qed.
Lemma calls_read_console k a n : calls k (read_console k a n).
Proof.
  apply calls_run. intros k' E. apply calls_ret. revert E. apply (for_loop_m_keeps (same_table k)); [|done]. intros i k1 k2 Hs E0. inv_bind E0. destruct r as [m c].
  injection E0 as <-. eapply same_table_trans; [exact Hs|]. done.
Qed.

Context (run_calls : forall entry sp t t', table_ok t -> run entry sp t = Ret t' -> rtc proc_call t t').
Context (mp_calls : forall b n path t t', table_ok t -> mp_exec b n path t = Ret t' -> rtc proc_call t t').

Lemma calls_spawn k a : table_ok k -> next_pid k < 2147483647 -> calls k (spawn run k a).
Proof. intros Hok Hn. apply calls_proc. intros k' r E. by eapply spawn_calls. Qed.

Lemma calls_mpy k a : table_ok k -> calls k (mpy_exec_file mp_exec k a).
Proof.
  intros Hok.
  unfold mpy_exec_file. apply calls_bind. intros [st|]; [|apply calls_fail]. apply calls_if; [apply calls_fail|].
  apply calls_run. intros [k1 b] E0%kalloc_table. apply (calls_from k k1); [done|].
  apply calls_if; [apply calls_fail|]. apply calls_bind. intros [v fd].
  assert (forall k2 (b n : Z), same_table k1 k2 -> calls k1 (k ← kfree k2 b n; fail k)) as Hdrop.
  { intros k2 b' n' Hs. apply calls_run. intros k3 E%kfree_table. apply calls_ret. by eapply same_table_trans. }
  apply calls_if; [by apply Hdrop|]. apply calls_bind. intros [v2 got]. apply calls_if; [by apply Hdrop|].
  apply calls_run. intros k2 E1%mp_calls; [|by eapply (table_ok_same_table k)]. apply calls_run. intros k3 E2%kfree_table.
  apply calls_to. etrans; [|by apply (other k2 k3)]. eapply rtc_l; [|exact E1]. by apply call_other.
Qed.

(** Solve a call that leaves the table alone. *)
Ltac quiet :=
  repeat lazymatch goal with
  | |- calls _ (checked _ _ _ _) => apply calls_checked
  | |- calls _ (fail _) => apply calls_fail
  | |- calls _ (on_files _ _) => apply calls_files
  | |- calls _ (on_vol _ _) => apply calls_vol
  | |- calls _ (write_console _ _ _) => apply calls_write_console
  | |- calls _ (read_console _ _ _) => apply calls_read_console
  | |- calls _ (on_mach _ _ ≫= _) => apply calls_on_mach
  | |- calls _ (if _ then _ else _) => apply calls_if
  | |- calls _ (ret _ _) => apply calls_ret
  | |- same_table ?k ?k => apply same_table_refl
  | |- same_table _ (store_infos _ _ _) => apply store_infos_table
  | |- same_table _ (store _ _ _) => apply store_table
  end.

(** A group of calls: each of its answers. *)
Definition all_calls k (o : option (outcome (kernel Hw * Z))) : Prop :=
  match o with Some c => calls k c | None => True end.
Lemma all_calls_if k (b : bool) c o : calls k c -> all_calls k o -> all_calls k (if b then Some c else o).
Proof. by destruct b. Qed.

Lemma calls_let {A} k (f : kernel Hw * A) g : (forall k1 a, f = (k1, a) -> calls k (g k1 a)) -> calls k (let '(k1, a) := f in g k1 a).
Proof. destruct f as [k1 a]. intros Hg. by apply Hg. Qed.
Lemma calls_match {A} k (o : option A) f : (forall a, calls k (f a)) -> calls k (match o with Some a => f a | None => fail k end).
Proof. intros Hf. destruct o; [done|apply calls_fail]. Qed.

(** The calls that reach the process layer. *)
Lemma calls_exit k p st : calls k ('(k, _) ← proc_exit k p st; ret k 0).
Proof. apply calls_run. intros [k1 r1] E. by eapply calls_to, rtc_once, call_exit. Qed.
Lemma calls_memory k n : calls k ('(k, p) ← kalloc k n; ret k p).
Proof. apply calls_run. intros [k1 p] E%kalloc_table. by apply calls_ret. Qed.
Lemma calls_release k p n : calls k (k ← kfree k p n; ret k 0).
Proof. apply calls_run. intros k1 E%kfree_table. by apply calls_ret. Qed.
Lemma calls_io k p fd a n : calls k (on_proc (proc_read k p fd a n)) /\ calls k (on_proc (proc_write k p fd a n)).
Proof.
  split; apply calls_proc; intros k' r E; unfold proc_read, proc_write in E; inv_bind E; destruct r0 as [v r1];
    injection E as <- _; by apply other.
Qed.
Lemma calls_wait k p c st : calls k (on_proc (proc_wait k p c st)).
Proof. apply calls_proc. intros k' r E. by eapply rtc_once, call_wait. Qed.
Lemma calls_kill k p st : calls k (on_proc (proc_kill k p st)).
Proof. apply calls_proc. intros k' r E. by eapply rtc_once, call_kill. Qed.
Lemma calls_dup k p fd : calls k (on_proc (Ret (proc_dup k p fd))).
Proof. apply calls_proc. intros k' r E. injection E as E. pose proof (call_dup k p fd) as Hc. rewrite E in Hc. by apply rtc_once. Qed.
Lemma calls_dup2 k p fd g : calls k (on_proc (Ret (proc_dup2 k p fd g))).
Proof. apply calls_proc. intros k' r E. injection E as E. pose proof (call_dup2 k p fd g) as Hc. rewrite E in Hc. by apply rtc_once. Qed.
Lemma calls_uptime k : calls k (let '(k, now) := rdtsc k in ret k (now / 1000000)).
Proof. apply calls_let. intros k1 now E%rdtsc_table. by apply calls_ret. Qed.
Lemma calls_sleep k (until : Z -> Z) : calls k (let '(k, now) := rdtsc k in k ← sleep_loop hw_polls k (until now); ret k 0).
Proof.
  apply calls_let. intros k1 now E%rdtsc_table. apply calls_run. intros k2 E2%sleep_table.
  apply calls_ret. by eapply same_table_trans.
Qed.
Lemma calls_dmesg k a n o : calls k (dmesg_read k a n o).
Proof. unfold dmesg_read. apply calls_if; by apply calls_ret. Qed.
Lemma debuglog_flush_table k : same_table k (debuglog_flush k).
Proof. unfold debuglog_flush. by case_test. Qed.

Lemma system_calls k num a1 a2 a3 : table_ok k -> next_pid k < 2147483647 -> all_calls k (syscall_system run k num a1 a2 a3).
Proof.
  intros Hok Hn. unfold syscall_system. repeat (apply all_calls_if; [quiet|]); [..|done].
  - apply calls_io.
  - apply calls_io.
  - apply calls_exit.
  - apply calls_memory.
  - apply calls_release.
  - by apply calls_spawn.
  - apply calls_match. intros i. quiet.
  - apply calls_match. intros i. quiet.
  - destruct (proc_list k a2) as [l n]. quiet.
  - apply calls_wait.
  - apply calls_kill.
  - apply calls_dup.
  - apply calls_dup2.
  - apply calls_uptime.
  - apply (calls_sleep k (fun now => u64 (now + u64 (a1 * 1000000)))).
  - by apply calls_spawn.
  - apply calls_dmesg.
  - apply calls_bind. intros i. quiet.
  - apply debuglog_flush_table.
Qed.
Lemma files_calls k num a1 a2 a3 : all_calls k (syscall_files k num a1 a2 a3).
Proof.
  unfold syscall_files. repeat (apply all_calls_if; [quiet|]); [..|done].
  - apply calls_bind. intros r. quiet.
  - apply calls_bind. intros r. apply calls_match. intros p. quiet.
  - apply calls_bind. intros st. apply calls_match. intros s. quiet. apply store_stat_table.
  - apply calls_match. intros st. quiet. apply store_stat_table.
  - apply calls_bind. intros [[v r] es]. apply calls_ret. eapply same_table_trans; [|apply store_dents_table]. done.
Qed.
Lemma calls_mode k a : calls k (display_mode k a).
Proof. unfold display_mode. quiet. Qed.
Lemma display_calls k num a1 a2 a3 : table_ok k -> calls k (syscall_display mp_exec k num a1 a2 a3).
Proof.
  intros Hok. unfold syscall_display. quiet.
  - done.
  - apply calls_mode.
  - destruct (framebuffer_draw_pixel_rgb _ _ _ _ _ _ _) as [r ok]. apply calls_if; apply calls_ret, put_mach_table.
  - by apply calls_mpy.
Qed.
Lemma dispatch_calls k num a1 a2 a3 : table_ok k -> next_pid k < 2147483647 -> calls k (syscall_dispatch run mp_exec k num a1 a2 a3).
Proof.
  intros Hok Hn. unfold syscall_dispatch. apply calls_if; [apply calls_fail|].
  pose proof (system_calls k num a1 a2 a3 Hok Hn) as Hs. destruct (syscall_system _ _ _ _ _ _); [exact Hs|].
  pose proof (files_calls k num a1 a2 a3) as Hf. destruct (syscall_files _ _ _ _ _); [exact Hf|].
  by apply display_calls.
Qed.
Lemma handler_calls k rsp k' : table_ok k -> next_pid k < 2147483647 ->
  syscall_irq_handler run mp_exec k rsp = Ret k' -> rtc proc_call k k'.
Proof.
  intros Hok Hn E. unfold syscall_irq_handler in E. inv_bind E. destruct r as [k1 r]. injection E as <-.
  apply dispatch_calls in E0 as [E0 _]; [|done|done]. eapply rtc_r; [exact E0|]. by apply call_other.
Qed.
End Safe.

(** ** User programs *)

Section User.
Context {L : Layout} {Hw : Type} `{Hardware Hw}.
Context (run : Z -> Z -> kernel Hw -> outcome (kernel Hw)).
Context (mp_exec : Z -> Z -> list Z -> kernel Hw -> outcome (kernel Hw)).
Implicit Types k : kernel Hw.

(** The bytes of the current process above the kernel image: its stack page and
    its executable. *)
Definition own_byte k (x : Z) : Prop :=
  kernel_end <= x /\
  exists i, proc_info k (proc_current_pid k) = Some i /\
    (4096 <= stack_pointer i /\ stack_pointer i - 4096 <= x < stack_pointer i \/
     image_base i <> 0 /\ image_base i <= x < image_base i + image_size i).

(** What a program does: it stores in its own memory, or traps into the kernel,
    its registers saved above the kernel image, while process identifiers last. *)
Inductive user_step k : kernel Hw -> Prop :=
| user_store a bs : (forall x, a <= x < a + Z.of_nat (length bs) -> own_byte k x) -> user_step k (store k a bs)
| user_call sp k' : kernel_end <= sp -> next_pid k < 2147483647 -> syscall_irq_handler run mp_exec k sp = Ret k' -> user_step k k'.


(** ** Pointer arguments *)

(** A range of addresses a program may pass: above the kernel image, in the
    stack page of the current process or in its image. *)
Definition user_range k (p n : Z) : Prop :=
  p + n < 2 ^ 64 /\
  (kernel_end <= p \/
   exists i, proc_info k (proc_current_pid k) = Some i /\
     (4096 <= stack_pointer i /\ stack_pointer i - 4096 <= p /\ p + n <= stack_pointer i \/
      image_base i <> 0 /\ image_base i <= p /\ p + n <= u64 (image_base i + image_size i))).

Lemma user_ptr_valid_spec k p n : 0 <= p < 2 ^ 64 -> 0 <= n < 2 ^ 64 -> user_ptr_valid k p n = true <-> user_range k p n.
Proof.
  intros Hp Hn. unfold user_ptr_valid, user_range. destruct (decide (p + n < 2 ^ 64)) as [Hs|Hs].
  - rewrite (u64_small (p + n)), (proj2 (Z.ltb_ge (p + n) p)) by lia.
    destruct (Z.leb_spec kernel_end p) as [Hk|Hk]; [by split; [intros _; split; [done|by left]|]|].
    destruct (proc_info k _) as [i|].
    + case_test; prop_bools.
      * split; [intros _|done]. split; [done|]. right. exists i. split; [done|]. left. lia.
      * rewrite !andb_true_iff, negb_true_iff, Z.eqb_neq, !Z.leb_le. split.
        -- intros [[Hb H1] H2]. split; [done|]. right. exists i. split; [done|]. by right.
        -- intros [_ [Hx|(j & [= <-] & [Hx|Hx])]]; [lia| |naive_solver]. exfalso.
           rewrite !andb_false_iff, !Z.leb_gt in Htest. lia.
    + split; [done|]. intros [_ [Hx|(j & [=] & _)]]. lia.
  - replace (u64 (p + n)) with (p + n - 2 ^ 64) by mlia. rewrite (proj2 (Z.ltb_lt _ p)) by lia.
    split; [done|]. by intros [].
Qed.

(** The ranges a call is to read or write through its arguments, one for every
    check of the dispatch.  The sizes of the two arrays of records are those the
    code computes, modulo 2^64 ([syscall_proc_list_wraps]). *)
Definition ranges (num a1 a2 a3 : Z) : list (Z * Z) :=
  if (num =? SYS_WRITE) || (num =? SYS_MEM_FREE) || (num =? SYS_DMESG_READ) || (num =? SYS_VFS_GETCWD) then [(a1, a2)]
  else if (num =? SYS_WRITE_FD) || (num =? SYS_READ) || (num =? SYS_FS_READ) || (num =? SYS_FS_WRITE) || (num =? SYS_FS_READ_FD) ||
          (num =? SYS_FS_WRITE_FD) || (num =? SYS_VFS_READ) || (num =? SYS_VFS_WRITE) then [(a2, a3)]
  else if (num =? SYS_PROC_SPAWN) || (num =? SYS_EXECVE) || (num =? SYS_PROC_SPAWN_EX) || (num =? SYS_FS_OPEN) ||
          (num =? SYS_VFS_OPEN) || (num =? SYS_VFS_MKDIR) || (num =? SYS_VFS_UNLINK) || (num =? SYS_VFS_RMDIR) ||
          (num =? SYS_VFS_ACCESS) || (num =? SYS_VFS_CHDIR) || (num =? SYS_MPY_EXEC_FILE) then [(a1, 1)]
  else if num =? SYS_VFS_RENAME then [(a1, 1); (a2, 1)]
  else if num =? SYS_VFS_STAT then [(a1, 1); (a2, SIZEOF_VFS_STAT)]
  else if num =? SYS_VFS_FSTAT then [(a2, SIZEOF_VFS_STAT)]
  else if num =? SYS_PROC_INFO then [(a2, SIZEOF_PROC_INFO)]
  else if num =? SYS_MEM_INFO then [(a1, SIZEOF_MEM_INFO)]
  else if num =? SYS_FB_INFO then [(a1, SIZEOF_FB_INFO)]
  else if num =? SYS_PROC_LIST then [(a1, u64 (a2 * SIZEOF_PROC_INFO))]
  else if num =? SYS_VFS_GETDENTS then [(a2, u64 (a3 * SIZEOF_VFS_DIRENT))]
  else if (num =? SYS_PROC_WAIT) && negb (a2 =? 0) then [(a2, 4)]
  else [].

Lemma checked_refused k p n c : user_ptr_valid k p n = false -> checked k p n c = fail k.
Proof. unfold checked. by intros ->. Qed.
(** Only the second pointer of a call is refused. *)
Lemma checked_inner k p n q u c : user_ptr_valid k q u = false -> checked k p n (checked k q u c) = fail k.
Proof. intros Hq. rewrite (checked_refused k q u) by done. unfold checked. by case_test. Qed.

Lemma ranges_registers num a1 a2 a3 p n : 0 <= a1 < 2 ^ 64 -> 0 <= a2 < 2 ^ 64 -> 0 <= a3 < 2 ^ 64 ->
  (p, n) ∈ ranges num a1 a2 a3 -> 0 <= p < 2 ^ 64 /\ 0 <= n < 2 ^ 64.
Proof.
  intros H1 H2 H3. unfold ranges. repeat (case_test; [|clear Htest]);
    rewrite ?elem_of_cons, elem_of_nil; intros Hin; destruct_or?; simplify_eq; try done; split; try done; apply u64_range.
Qed.
Lemma dispatch_refuses k num a1 a2 a3 p n : (p, n) ∈ ranges num a1 a2 a3 -> user_ptr_valid k p n = false ->
  syscall_dispatch run mp_exec k num a1 a2 a3 = fail k.
Proof.
  intros Hin Hv. unfold syscall_dispatch. case_test; [done|]. clear Htest. unfold ranges in Hin.
  repeat match type of Hin with
  | _ ∈ (if ?b then _ else _) => destruct b eqn:Hb in Hin; [|clear Hb]
  end; [..|by apply not_elem_of_nil in Hin].
  all: rewrite ?orb_true_iff, ?andb_true_iff, !Z.eqb_eq in Hb.
  all: repeat match goal with H : _ \/ _ |- _ => destruct H as [H|H] end; try match goal with H : _ /\ _ |- _ => destruct H as [Hb Hz] end; subst num.
  all: cbv beta iota zeta delta [syscall_system syscall_files syscall_display Z.eqb Pos.eqb orb
    SYS_WRITE SYS_EXIT SYS_MEM_ALLOC SYS_MEM_FREE SYS_FS_READ SYS_FS_WRITE SYS_PROC_SPAWN SYS_FS_OPEN SYS_FS_READ_FD SYS_FS_WRITE_FD
    SYS_FS_LSEEK_FD SYS_FS_CLOSE SYS_FS_FILE_SIZE SYS_READ SYS_GETPID SYS_GETPPID SYS_PROC_INFO SYS_PROC_LIST SYS_PROC_WAIT SYS_PROC_KILL
    SYS_WRITE_FD SYS_DUP SYS_DUP2 SYS_UPTIME_MS SYS_SLEEP_MS SYS_PIPE SYS_EXECVE SYS_PROC_SPAWN_EX SYS_DMESG_READ SYS_MEM_INFO SYS_SYNC
    SYS_IOCTL SYS_VFS_OPEN SYS_VFS_READ SYS_VFS_WRITE SYS_VFS_LSEEK SYS_VFS_CLOSE SYS_VFS_MKDIR SYS_VFS_UNLINK SYS_VFS_RENAME SYS_VFS_CHDIR
    SYS_VFS_GETCWD SYS_VFS_STAT SYS_VFS_FSTAT SYS_VFS_GETDENTS SYS_VFS_RMDIR SYS_VFS_ACCESS SYS_MOUNT_INFO SYS_DISK_LIST SYS_DISK_INFO
    SYS_REBOOT SYS_POWEROFF SYS_MPY_EXEC_FILE SYS_FB_INFO SYS_DISPLAY_MODE SYS_FB_CLEAR SYS_FB_DRAW_PIXEL].
  all: rewrite ?elem_of_cons, elem_of_nil in Hin.
  all: destruct Hin as [Hin|Hin]; [|try destruct Hin as [Hin|Hin]; try done]; injection Hin as -> ->.
  all: try first [by apply checked_refused | by apply checked_inner].
  rewrite Hv. by destruct a2.
Qed.

(** C7: System calls are refused with -1 and without any effect when no process
    is current (but for the calls that need none), when a pointer argument does
    not describe a range the program may pass (every call that takes
    pointers; the size of an array of records counts modulo 2^64, as the code
    computes it), and when the number is unknown. *)
Theorem syscall_refusals k num a1 a2 a3 :
  0 <= a1 < 2 ^ 64 -> 0 <= a2 < 2 ^ 64 -> 0 <= a3 < 2 ^ 64 ->
  (anonymous num = false /\ proc_current_valid k = false) \/
  (exists p n, (p, n) ∈ ranges num a1 a2 a3 /\ ~ user_range k p n) \/
  (SYS_FB_DRAW_PIXEL < num) ->
  syscall_dispatch run mp_exec k num a1 a2 a3 = Ret (k, 2 ^ 64 - 1).
Proof.
  intros H1 H2 H3 [[Ha Hc]|[(p & n & Hin & Hr)|Hn]].
  - unfold syscall_dispatch. by rewrite Ha, Hc.
  - apply (dispatch_refuses _ _ _ _ _ p n Hin). apply not_true_is_false. intros Hv. apply Hr.
    apply ranges_registers in Hin as [Hp Hu]; [|done..]. by apply user_ptr_valid_spec in Hv.
  - unfold syscall_dispatch. case_test; [done|]. clear Htest.
    unfold syscall_system, syscall_files, syscall_display. unfold SYS_FB_DRAW_PIXEL in Hn.
    repeat match goal with |- context [num =? ?c] => rewrite (proj2 (Z.eqb_neq num c)) by (unfold c; lia) end. done.
Qed.

End User.

(** ** Witnesses *)

(** A run whose result passes a test, by evaluation of the test only. *)
Lemma returns_with {A} (f : A -> bool) (c : outcome A) :
  match c with Ret a => f a | _ => false end = true -> exists a, c = Ret a /\ f a = true.
Proof. destruct c; [eauto|done..]. Qed.

#[local] Existing Instance demo_layout.
Definition demo_world : world demo_hw :=
  World demo_machine (Fat32.Fs ∅ 0 0 FS_MODE_NONE zero_fat (replicate FS_MAX_OPEN zero_open) []) demo_ints.
Definition no_program (entry sp : Z) (k : kernel demo_hw) : outcome (kernel demo_hw) := Ret k.
Definition no_script (b n : Z) (path : list Z) (k : kernel demo_hw) : outcome (kernel demo_hw) := Ret k.
(** The kernel with one process, which is current, and its saved registers at
    0x900000: getpid. *)
Definition demo_boot : kernel demo_hw :=
  let s := ProcState (vfs_init ((demo_elf_mem, demo_world) : kmem * world demo_hw)).1 [] [] 0 [] 0 0 in
  (proc_create (proc_init s) (Some [105]) 0).1.
Definition demo_kernel : kernel demo_hw := store (proc_set_current demo_boot 1).1 0x900000 (le_bytes 8 SYS_GETPID).
Lemma demo_kernel_ok : table_ok demo_kernel.
Proof.
  eapply table_ok_same_table; [apply store_table|]. apply proc_set_current_ok.
  eapply proc_calls_ok; [apply proc_init_ok|]. apply rtc_once, call_create. cbn. lia.
Qed.

Lemma syscall_refusals_witness :
  syscall_dispatch no_program no_script demo_kernel SYS_WRITE (2 ^ 64 - 8) 100 0 = Ret (demo_kernel, 2 ^ 64 - 1).
Proof.
  apply (syscall_refusals no_program no_script demo_kernel); [lia..|]. right. left. exists (2 ^ 64 - 8), 100.
  split; [by apply list_elem_of_singleton|]. intros [Hs _]. lia.
Defined.
(** ** What the checks let through *)

(** Any address above the kernel image passes, the kernel heap and the memory of
    other processes included: here SYS_PROC_INFO overwrites the byte at the start
    of the heap, where the allocator keeps its first header. *)
Theorem syscall_overwrites_heap :
  exists k', syscall_dispatch no_program no_script demo_kernel SYS_PROC_INFO 1 0x200000 0 = Ret (k', 0) /\
    rd (ProcTable.ram k') 0x200000 <> rd (ProcTable.ram demo_kernel) 0x200000.
Proof.
  destruct (returns_with (fun kr => (kr.2 =? 0) && negb (rd (ProcTable.ram kr.1) 0x200000 =? rd (ProcTable.ram demo_kernel) 0x200000))
    (syscall_dispatch no_program no_script demo_kernel SYS_PROC_INFO 1 0x200000 0)) as ([k' r] & Hr & Ht); [by vm_compute|].
  cbn [fst snd] in Ht. prop_bools. subst r. by exists k'.
Qed.
(** The size of the array of SYS_PROC_LIST is computed modulo 2^64: room for one
    record is checked where the call is told it may store more. *)
Theorem syscall_proc_list_wraps : (2 ^ 61) * SIZEOF_PROC_INFO >= 2 ^ 64 /\
  user_ptr_valid demo_kernel (2 ^ 63) (u64 (2 ^ 61 * SIZEOF_PROC_INFO)) = true.
Proof. split; by vm_compute. Qed.
