(* ===== verification/Trap.v ===== *)
(** * arch/x86/idt.S: what a system call is to a program

    The stub of vector 0x80 and the common part all stubs share, with the stack
    they build in memory: the registers the handler finds are the ones the
    program set, and the program goes on with the same registers but for the
    answer.  The stack below the saved registers, which the compiled C code uses,
    is left out. *)

From Stdlib Require Import ZArith Lia.
From stdpp Require Import base numbers gmap strings fin_maps option list relations.
From S2P Require Import Prelude MemUtils HeapTheorems Allocator ProcTable Proc Machine Idt Kernel Syscall SyscallTheorems.

Local Open Scope Z_scope.

(** ** The processor *)

Record regs := Regs {
  rax : Z; rbx : Z; rcx : Z; rdx : Z; rbp : Z; rsi : Z; rdi : Z; r8 : Z;
  r9 : Z; r10 : Z; r11 : Z; r12 : Z; r13 : Z; r14 : Z; r15 : Z
}.
Record cpu := Cpu { gpr : regs; rip : Z; cs : Z; rflags : Z; rsp : Z; ss : Z }.
Definition set_rax (c : cpu) (v : Z) : cpu :=
  let r := gpr c in
  Cpu (Regs v (rbx r) (rcx r) (rdx r) (rbp r) (rsi r) (rdi r) (r8 r) (r9 r) (r10 r) (r11 r) (r12 r) (r13 r) (r14 r) (r15 r))
    (rip c) (cs c) (rflags c) (rsp c) (ss c).

Section Trap.
Context {L : Layout} {Hw : Type} `{Hardware Hw}.
Context (cr2 : kernel Hw -> Z) (call : Z -> Z -> Z -> Z -> kernel Hw -> outcome (kernel Hw)).
Implicit Types k : kernel Hw.

Definition push (s : kernel Hw * Z) (v : Z) : kernel Hw * Z :=
  let sp := u64 (s.2 - 8) in (store s.1 sp (le_bytes 8 v), sp).
Definition pushes (s : kernel Hw * Z) (vs : list Z) : kernel Hw * Z := foldl push s vs.
Definition word k (sp : Z) : Z := rd_le 8 (ProcTable.ram k) sp.
Definition pop k (sp : Z) : Z * Z := (word k sp, u64 (sp + 8)).

(** From [push r15] to [push rax]. *)
Definition push_registers (r : regs) (s : kernel Hw * Z) : kernel Hw * Z :=
  pushes s [r15 r; r14 r; r13 r; r12 r; r11 r; r10 r; r9 r; r8 r; rdi r; rsi r; rbp r; rdx r; rcx r; rbx r; rax r].
(** From [pop rax] to [pop r15]. *)
Definition pop_registers k (sp : Z) : regs * Z :=
  let '(rax, sp) := pop k sp in let '(rbx, sp) := pop k sp in let '(rcx, sp) := pop k sp in let '(rdx, sp) := pop k sp in
  let '(rbp, sp) := pop k sp in let '(rsi, sp) := pop k sp in let '(rdi, sp) := pop k sp in let '(r8, sp) := pop k sp in
  let '(r9, sp) := pop k sp in let '(r10, sp) := pop k sp in let '(r11, sp) := pop k sp in let '(r12, sp) := pop k sp in
  let '(r13, sp) := pop k sp in let '(r14, sp) := pop k sp in let '(r15, sp) := pop k sp in
  (Regs rax rbx rcx rdx rbp rsi rdi r8 r9 r10 r11 r12 r13 r14 r15, sp).
Definition iretq (r : regs) k (sp : Z) : cpu :=
  let '(rip, sp) := pop k sp in let '(cs, sp) := pop k sp in let '(rflags, sp) := pop k sp in
  let '(rsp, sp) := pop k sp in let '(ss, _) := pop k sp in
  Cpu r rip cs rflags rsp ss.
Definition isr_common (r : regs) (s : kernel Hw * Z) : outcome (cpu * kernel Hw) :=
  let '(k, sp) := push_registers r s in
  k ← idt_handle_interrupt mach put_mach ints cr2 call k (u32 (word k (u64 (sp + 120)))) (u32 (word k (u64 (sp + 128)))) sp;
  let '(r, sp) := pop_registers k sp in
  let sp := u64 (sp + 16) in
  Ret (iretq r k sp, k).
(** The processor saves what [iretq] restores on the aligned stack; the stub of a
    vector without an error code pushes zero and the vector. *)
Definition trap_entry (c : cpu) k : kernel Hw * Z := pushes (k, Z.land (rsp c) (Z.lnot 15)) [ss c; rsp c; rflags c; cs c; rip c].
Definition isr_noerr (vector : Z) (c : cpu) k : outcome (cpu * kernel Hw) := isr_common (gpr c) (pushes (trap_entry c k) [0; vector]).

(** ** The saved words *)

Definition saved (vector : Z) (c : cpu) : list Z :=
  let r := gpr c in
  [rax r; rbx r; rcx r; rdx r; rbp r; rsi r; rdi r; r8 r; r9 r; r10 r; r11 r; r12 r; r13 r; r14 r; r15 r;
   vector; 0; rip c; cs c; rflags c; rsp c; ss c].
Definition words_are k (sp : Z) (ws : list Z) : Prop := forall i w, ws !! i = Some w -> word k (sp + 8 * Z.of_nat i) = w.

Lemma push_words k sp ws v : words_are k sp ws -> 8 <= sp < 2 ^ 64 -> 0 <= v < 2 ^ 64 ->
  (push (k, sp) v).2 = sp - 8 /\ words_are (push (k, sp) v).1 (sp - 8) (v :: ws).
Proof.
  intros Hws Hs Hv. unfold push. cbn [fst snd]. rewrite u64_small by lia. split; [done|]. intros [|i] w Hi; cbn in Hi.
  - injection Hi as <-. rewrite Z.mul_0_r, Z.add_0_r. unfold word. cbn [ProcTable.ram]. etrans; [apply rd_le_store|]. by apply Z.mod_small.
  - rewrite <- (Hws i w Hi). replace (sp - 8 + 8 * Z.of_nat (S i)) with (sp + 8 * Z.of_nat i) by lia. apply rd_le_ext.
    intros x Hx. apply rd_store_bytes_out. rewrite length_le_bytes. lia.
Qed.
Lemma pushes_words vs k sp ws : words_are k sp ws -> 8 * Z.of_nat (length vs) <= sp < 2 ^ 64 -> Forall (fun v => 0 <= v < 2 ^ 64) vs ->
  (pushes (k, sp) vs).2 = sp - 8 * Z.of_nat (length vs) /\
  words_are (pushes (k, sp) vs).1 (sp - 8 * Z.of_nat (length vs)) (rev vs ++ ws).
Proof.
  revert k sp ws. induction vs as [|v vs IH]; intros k sp ws Hws Hs Hvs.
  - cbn. by rewrite Z.sub_0_r.
  - apply Forall_cons in Hvs as [Hv Hvs]. cbn [length] in Hs. destruct (push_words k sp ws v Hws) as [E Hp]; [lia|done|].
    unfold pushes. cbn [foldl]. fold (pushes (push (k, sp) v) vs). destruct (push (k, sp) v) as [k1 sp1]. cbn [fst snd] in E, Hp. subst sp1.
    destruct (IH k1 (sp - 8) (v :: ws) Hp) as [E2 H2]; [lia|done|]. cbn [length rev].
    replace (sp - 8 * Z.of_nat (S (length vs))) with (sp - 8 - 8 * Z.of_nat (length vs)) by lia. rewrite <- app_assoc. by split.
Qed.
Lemma pushes_app s vs ws : pushes (pushes s vs) ws = pushes s (vs ++ ws).
Proof. symmetry. apply foldl_app. Qed.
Lemma pushes_ints vs s : ints (pushes s vs).1 = ints s.1.
Proof. revert s. induction vs as [|v vs IH]; intros s; [done|]. unfold pushes. cbn [foldl]. fold (pushes (push s v) vs). by rewrite IH. Qed.

(** The registers of a processor have 64 bits, and there is room on its stack. *)
Record cpu_ok (c : cpu) : Prop := CpuOk {
  cpu_words vector : 0 <= vector < 256 -> Forall (fun v => 0 <= v < 2 ^ 64) (saved vector c);
  cpu_stack : 192 <= rsp c
}.

(** The kernel that the C code finds, and where the registers are saved. *)
Definition trapped (vector : Z) (c : cpu) k : kernel Hw * Z := push_registers (gpr c) (pushes (trap_entry c k) [0; vector]).
Lemma isr_trapped vector c k : isr_noerr vector c k =
  (let '(k, sp) := trapped vector c k in
   k ← idt_handle_interrupt mach put_mach ints cr2 call k (u32 (word k (u64 (sp + 120)))) (u32 (word k (u64 (sp + 128)))) sp;
   Ret (let '(r, sp) := pop_registers k sp in let sp := u64 (sp + 16) in (iretq r k sp, k))).
Proof.
  unfold isr_noerr, isr_common, trapped. destruct (push_registers _ _) as [k0 sp]. destruct (idt_handle_interrupt _ _ _ _ _ _ _ _ _) as [k1| | |]; [|done..].
  cbn [mbind outcome_bind]. by destruct (pop_registers k1 sp).
Qed.
Lemma trapped_words vector c k : cpu_ok c -> 0 <= vector < 256 ->
  let '(k0, sp) := trapped vector c k in 0 <= sp /\ sp + 176 < 2 ^ 64 /\ words_are k0 sp (saved vector c) /\ ints k0 = ints k.
Proof.
  intros [Hws Hs] Hv. specialize (Hws vector Hv). unfold trapped, trap_entry, push_registers. rewrite !pushes_app. cbn [app].
  set (sp := Z.land _ _). set (vs := [ss c; _; _; _; _; _; _; _; _; _; _; _; _; _; _; _; _; _; _; _; _; _]).
  assert (rev vs = saved vector c) as Er by done.
  assert (rsp c - 15 <= sp <= rsp c) as Hsp.
  { unfold sp. change (Z.lnot 15) with (Z.lnot (Z.ones 4)). rewrite <- Z.ldiff_land, Z.ldiff_ones_r, Z.shiftr_div_pow2, Z.shiftl_mul_pow2 by lia.
    change (2 ^ 4) with 16. mlia. }
  assert (0 <= rsp c < 2 ^ 64) as Hr by exact (Forall_lookup_1 _ _ 20%nat _ Hws eq_refl).
  destruct (pushes_words vs k sp []) as [E1 E2].
  - by intros [|i] w Hi.
  - cbn. lia.
  - rewrite <- (rev_involutive vs), Er. by apply Forall_rev.
  - rewrite app_nil_r, Er in E2. pose proof (pushes_ints vs (k, sp)) as Hi. destruct (pushes (k, sp) vs) as [k0 b].
    cbn [fst snd] in *. subst b. change (8 * Z.of_nat (length vs)) with 176 in *. split_and!; [lia|lia|exact E2|exact Hi].
Qed.
(** What leaving restores from the saved words. *)
Lemma leave_restores vector c k sp : 0 <= sp -> sp + 176 < 2 ^ 64 -> words_are k sp (saved vector c) ->
  (let '(r, sp) := pop_registers k sp in let sp := u64 (sp + 16) in iretq r k sp) = c.
Proof.
  intros H0 H1 Hws. cbv beta iota zeta delta [pop_registers iretq pop].
  assert (forall i, (i < 22)%nat -> word k (sp + 8 * Z.of_nat i) = saved vector c !!! i) as Hi.
  { intros i Hi. apply Hws, list_lookup_lookup_total_lt. exact Hi. }
  repeat match goal with |- context [u64 (?a + ?n)] => lazymatch a with context [u64 _] => fail | _ => assert (0 <= a + n < 18446744073709551616) as Hsm by lia; rewrite (u64_small (a + n) Hsm); clear Hsm end end.
  rewrite <- !Z.add_assoc. pose proof (Hi 0%nat ltac:(lia)) as E0. rewrite Z.add_0_r in E0. rewrite E0.
  repeat match goal with |- context [word k (sp + ?n)] =>
    let i := eval vm_compute in (Z.to_nat (n / 8)) in
    let E := fresh in pose proof (Hi i ltac:(lia)) as E; change (8 * Z.of_nat i) with n in E; rewrite E; clear E end.
  destruct c as [r ? ? ? ? ?]. by destruct r.
Qed.

(** The handler stores its answer in the place of rax. *)
Lemma store_rax vector c k sp v : words_are k sp (saved vector c) ->
  words_are (store k sp (le_bytes 8 v)) sp (saved vector (set_rax c (u64 v))).
Proof.
  intros Hws [|i] w Hi.
  - cbn in Hi. injection Hi as <-. rewrite Z.mul_0_r, Z.add_0_r. apply (rd_le_store 8).
  - assert (saved vector c !! S i = Some w) as Hi' by (destruct c as [r ? ? ? ? ?]; by destruct r).
    rewrite <- (Hws _ _ Hi'). apply rd_le_ext. intros x Hx. apply rd_store_bytes_out. rewrite length_le_bytes. lia.
Qed.

(** ** A system call *)

Section SystemCall.
Context (run : Z -> Z -> kernel Hw -> outcome (kernel Hw)).
Context (mp_exec : Z -> Z -> list Z -> kernel Hw -> outcome (kernel Hw)).
Abbreviation dispatch := (syscall_dispatch run mp_exec).

(** C38: [int 0x80] of a program: to it, a system call is a function of four of its
    registers.  The call gets the number from rax and the arguments from rdi, rsi
    and rdx; whatever stops it stops the program; when it answers, and was not
    made to write over the saved registers, the program goes on behind the
    instruction with its stack and every register as they were, but for rax,
    which holds the answer, and the memory as the call left it. *)
Theorem int80_calls c k handler :
  cpu_ok c -> handlers (ints k) !! 0x80%nat = Some handler -> handler <> 0 ->
  (forall num err sp k, call handler num err sp k = syscall_irq_handler run mp_exec k sp) ->
  let '(k0, sp) := trapped 0x80 c k in
  let int80 := isr_noerr 0x80 c k in
  match dispatch k0 (rax (gpr c)) (rdi (gpr c)) (rsi (gpr c)) (rdx (gpr c)) with
  | Ret (k1, r) =>
      words_are k1 sp (saved 0x80 c) -> int80 = Ret (set_rax c (u64 r), store k1 sp (le_bytes 8 r))
  | Panic msg => int80 = Panic msg
  | Fault => int80 = Fault
  | Timeout => int80 = Timeout
  end.
Proof.
  intros Hc Hh Hne Hcall. rewrite isr_trapped.
  pose proof (trapped_words 0x80 c k Hc ltac:(lia)) as Ht. destruct (trapped 0x80 c k) as [k0 sp]. destruct Ht as (H0 & H1 & Hws & Hi).
  assert (forall i, (i < 22)%nat -> word k0 (sp + 8 * Z.of_nat i) = saved 0x80 c !!! i) as Hword.
  { intros i Hl. apply Hws, list_lookup_lookup_total_lt. exact Hl. }
  rewrite !(u64_small (sp + _)) by lia. rewrite (Hword 15%nat ltac:(lia) : word k0 (sp + 120) = 0x80). unfold idt_handle_interrupt. rewrite Hi.
  change (Z.to_nat (u32 0x80)) with 0x80%nat. rewrite Hh, (proj2 (Z.eqb_neq _ _) Hne). cbn [negb]. rewrite Hcall.
  unfold syscall_irq_handler.
  assert (reg k0 sp 0 = rax (gpr c) /\ reg k0 sp 6 = rdi (gpr c) /\ reg k0 sp 5 = rsi (gpr c) /\ reg k0 sp 3 = rdx (gpr c)) as (-> & -> & -> & ->).
  { split_and!; [exact (Hword 0%nat ltac:(lia))|exact (Hword 6%nat ltac:(lia))|exact (Hword 5%nat ltac:(lia))|exact (Hword 3%nat ltac:(lia))]. }
  destruct (dispatch k0 _ _ _ _) as [[k1 r]| | |]; try done. intros H2. cbn [mbind outcome_bind].
  assert (words_are (store k1 sp (le_bytes 8 r)) sp (saved 0x80 (set_rax c (u64 r)))) as H3 by by apply store_rax.
  pose proof (leave_restores 0x80 (set_rax c (u64 r)) _ sp H0 H1 H3) as Hl.
  destruct (pop_registers _ sp) as [rs sp2]. cbv zeta in Hl |- *. by rewrite Hl.
Qed.
End SystemCall.
End Trap.

(** ** A program asks who it is *)

#[local] Existing Instance demo_layout.
Definition demo_cpu : cpu := Cpu (Regs SYS_GETPID 11 12 13 14 15 16 17 18 19 20 21 22 23 24) 0x400000 8 0x202 0x903FF8 0x10.
Definition demo_trap_kernel : kernel demo_hw := syscall_init demo_kernel 0x100200 0x100300.
Definition demo_call (h num err sp : Z) (k : kernel demo_hw) : outcome (kernel demo_hw) := syscall_irq_handler no_program no_script k sp.
Lemma demo_cpu_ok : cpu_ok demo_cpu.
Proof. split; [|cbn; lia]. intros vector Hv. unfold saved. unfold demo_cpu, SYS_GETPID. cbn. repeat (apply Forall_cons_2; [lia|]). by apply Forall_nil. Qed.
Lemma demo_handler : handlers (ints demo_trap_kernel) !! 0x80%nat = Some 0x100300.
Proof. by vm_compute. Qed.
Lemma int80_calls_witness : exists k', isr_noerr (fun _ => 0) demo_call 0x80 demo_cpu demo_trap_kernel = Ret (set_rax demo_cpu 1, k').
Proof.
  pose proof (int80_calls (fun _ => 0) demo_call no_program no_script demo_cpu demo_trap_kernel 0x100300 demo_cpu_ok demo_handler ltac:(lia) (fun _ _ _ _ => eq_refl)) as Hc.
  pose proof (trapped_words (fun _ => 0) demo_call 0x80 demo_cpu demo_trap_kernel demo_cpu_ok ltac:(lia)) as Ht.
  destruct (trapped 0x80 demo_cpu demo_trap_kernel) as [k0 sp] eqn:E. destruct Ht as (_ & _ & Hws & _).
  assert (proc_current_valid k0 = true /\ proc_current_pid k0 = 1) as [Hv Hp] by (vm_compute in E; injection E as <- _; split; reflexivity).
  assert (syscall_dispatch no_program no_script k0 SYS_GETPID 16 15 13 = Ret (k0, 1)) as Hd.
  { unfold syscall_dispatch. rewrite andb_false_l. change (syscall_system no_program k0 SYS_GETPID 16 15 13) with
      (Some (if proc_current_valid k0 then Syscall.ret k0 (proc_current_pid k0) else Syscall.fail k0)). by rewrite Hv, Hp. }
  change (syscall_dispatch _ _ k0 _ _ _ _) with (syscall_dispatch no_program no_script k0 SYS_GETPID 16 15 13) in Hc. rewrite Hd in Hc.
  eexists. exact (Hc Hws).
Defined.
