(* ===== verification/Launchd.v ===== *)
(** * kernel/launchd.c: from the boot modules to the first process

    The userland comes from a FAT32 image among the multiboot modules, or from
    the files linked into the kernel: generated data whose addresses and lengths
    are parameters, like the address of the copy buffer on the stack. *)

From Stdlib Require Import ZArith Lia.
From stdpp Require Import base numbers gmap strings fin_maps option list relations.
From S2P Require Import Prelude MemUtils Heap Allocator Vfs ProcTable Elf Proc Fat32 Machine Serial Console DebugLog ErrorText Idt Kernel.

Local Open Scope Z_scope.

Definition LAUNCHD_IMAGE_NAME : list Z := str "userland.img".
Definition LAUNCHD_BINARY_PATH : list Z := str "/launchd.elf".
Definition LAUNCHD_CONFIG_PATH : list Z := str "/launchd.cfg".
Definition SHELLD_BINARY_PATH : list Z := str "/shelld.elf".
Definition LAUNCHD_MAX_FILE : Z := 1024 * 1024.

(** ** Module names *)

(** The part behind the last slash or space. *)
Fixpoint last_part (p last : list Z) : list Z :=
  match p with
  | [] => last
  | c :: p => last_part p (if (c =? 47) || (c =? 32) then p else last)
  end.
Definition module_name_matches (module needle : option (list Z)) : bool :=
  match module, needle with
  | Some m, Some n => bool_decide (last_part m m = n) || contains m n
  | _, _ => false
  end.

(** A file linked into the kernel. *)
Record embedded := Embedded { emb_data : Z; emb_len : Z }.

Section Launchd.
Context {L : Layout} {Hw : Type} `{Hardware Hw}.
Context (run : Z -> Z -> kernel Hw -> outcome (kernel Hw)).
Context (embedded_launchd_elf embedded_launchd_cfg embedded_shelld_elf : embedded) (copy_buf : Z).
Implicit Types k : kernel Hw.

Definition launchd_log k (s : string) : outcome (kernel Hw) := on_mach k (fun m => console_puts m (Some (str s))).

(** ** Copying files *)

Definition CREATE_FLAGS : Z := Z.lor (Z.lor VFS_O_CREAT VFS_O_RDWR) VFS_O_TRUNC.
Definition close_vfs k (fd : Z) : kernel Hw := put_files k (vfs_close (files k) fd).1.
Definition close_vol k (fd : Z) : kernel Hw := put_vol k (fs_close (vol k) fd).1.

(** The loop over chunks of 512 bytes. *)
Fixpoint copy_loop (fuel : nat) k (src dst remaining : Z) : outcome (kernel Hw * Z) :=
  if negb (0 <? remaining) then Ret (k, 0) else
  match fuel with
  | O => Timeout
  | S fuel =>
      let chunk := if 512 <? remaining then 512 else remaining in
      '(f, got) ← fs_read_fd (vol k) src copy_buf chunk;
      let k := put_vol k f in
      if negb (got =? chunk) then Ret (k, -1) else
      '(v, n) ← vfs_write (files k) dst copy_buf chunk;
      let k := put_files k v in
      if negb (n =? chunk) then Ret (k, -1) else copy_loop fuel k src dst (remaining - got)
  end.
Definition copy_fat_file_to_vfs k (path : list Z) : outcome (kernel Hw * Z) :=
  '(f, src) ← fs_open (vol k) (Some path) 1;
  let k := put_vol k f in
  if src <? 0 then Ret (k, -1) else
  let file_size := fs_file_size (vol k) src in
  if (file_size <=? 0) || (LAUNCHD_MAX_FILE <? file_size) then Ret (close_vol k src, -1) else
  '(v, dst) ← vfs_open (files k) (Some path) CREATE_FLAGS;
  let k := put_files k v in
  if dst <? 0 then Ret (close_vol k src, -1) else
  '(k, r) ← copy_loop (Z.to_nat file_size) k src dst file_size;
  Ret (close_vol (close_vfs k dst) src, r).

(** The loop over short writes: each stores at least one byte. *)
Fixpoint install_loop (fuel : nat) k (fd p size written : Z) : outcome (kernel Hw * bool) :=
  if size <=? written then Ret (k, true) else
  match fuel with
  | O => Timeout
  | S fuel =>
      '(v, n) ← vfs_write (files k) fd (p + written) (size - written);
      let k := put_files k v in
      if n <=? 0 then Ret (k, false) else install_loop fuel k fd p size (u64 (written + n))
  end.
Definition install_initramfs_file k (path : option (list Z)) (data size : Z) : outcome (kernel Hw * Z) :=
  if negb (bool_decide (is_Some path)) || (data =? 0) || (size =? 0) then Ret (k, -1) else
  '(v, fd) ← vfs_open (files k) path CREATE_FLAGS;
  let k := put_files k v in
  if fd <? 0 then Ret (k, -1) else
  '(k, done) ← install_loop (Z.to_nat size) k fd data size 0;
  if done : bool then Ret (close_vfs k fd, if (vfs_close (files k) fd).2 =? 0 then 0 else -1)
  else Ret (close_vfs k fd, -1).

(** [!vfs_is_ready() && vfs_init() != 0]: whether it fails. *)
Definition ready_vfs k : kernel Hw * bool :=
  if vfs_is_ready (files k) then (k, true) else
  let '(v, r) := vfs_init (Vfs.mem (files k)) in (put_files k v, r =? 0).

Definition install_embedded_initramfs k : outcome (kernel Hw * Z) :=
  let '(k, ok) := ready_vfs k in
  if negb ok then Ret (k, -1) else
  k ← launchd_log k "kernel: copying initramfs file 1/3: /launchd.elf
";
  '(k, r) ← install_initramfs_file k (Some LAUNCHD_BINARY_PATH) (emb_data embedded_launchd_elf) (emb_len embedded_launchd_elf);
  if negb (r =? 0) then Ret (k, -1) else
  k ← launchd_log k "kernel: copying initramfs file 2/3: /launchd.cfg
";
  '(k, r) ← install_initramfs_file k (Some LAUNCHD_CONFIG_PATH) (emb_data embedded_launchd_cfg) (emb_len embedded_launchd_cfg);
  if negb (r =? 0) then Ret (k, -1) else
  k ← launchd_log k "kernel: copying initramfs file 3/3: /shelld.elf
";
  '(k, r) ← install_initramfs_file k (Some SHELLD_BINARY_PATH) (emb_data embedded_shelld_elf) (emb_len embedded_shelld_elf);
  if negb (r =? 0) then Ret (k, -1) else
  k ← launchd_log k "kernel: essential files installed to vfs!
";
  Ret (k, 0).

(** A file read into fresh memory of the process: its address and size. *)
Definition read_vfs_file_to_process k (p : Z) (path : list Z) : outcome (kernel Hw * option (Z * Z)) :=
  st ← vfs_stat (files k) (Some path);
  match st with
  | None => Ret (k, None)
  | Some st =>
      if negb (st_type st =? VFS_TYPE_FILE) || (st_size st =? 0) then Ret (k, None) else
      '(k, data) ← proc_alloc k p (st_size st);
      if data =? 0 then Ret (k, None) else
      '(v, fd) ← vfs_open (files k) (Some path) VFS_O_RDONLY;
      let k := put_files k v in
      if fd <? 0 then '(k, _) ← proc_free k p data; Ret (k, None) else
      '(v, got) ← vfs_read (files k) fd data (st_size st);
      let k := close_vfs (put_files k v) fd in
      if negb (got =? s64 (st_size st)) then '(k, _) ← proc_free k p data; Ret (k, None) else
      Ret (k, Some (data, st_size st))
  end.

(** ** Boot *)

(** The first module whose name matches: [multiboot_module_t] is four 32-bit
    words, start, end, name and a reserved one. *)
Fixpoint find_module (n : nat) k (mods i : Z) : option (Z * Z) :=
  match n with
  | O => None
  | S n =>
      let word j := rd_le 4 (ProcTable.ram k) (mods + 16 * i + 4 * j) in
      if module_name_matches (path_at k (word 2)) (Some LAUNCHD_IMAGE_NAME)
      then Some (word 0, u32 (word 1 - word 0))
      else find_module n k mods (i + 1)
  end.
Definition userland_image k (mbi : Z) : Z * Z :=
  let word off := rd_le 4 (ProcTable.ram k) (mbi + off) in
  if negb (mbi =? 0) && negb (Z.land (word 0) 8 =? 0) && (0 <? word 20)
  then default (0, 0) (find_module (Z.to_nat (word 20)) k (word 24) 0)
  else (0, 0).

(** The three files, from the image. *)
Definition mirror_userland k : outcome (kernel Hw * Z) :=
  '(k, r) ← copy_fat_file_to_vfs k LAUNCHD_BINARY_PATH;
  if negb (r =? 0) then Ret (k, -1) else
  '(k, r) ← copy_fat_file_to_vfs k LAUNCHD_CONFIG_PATH;
  if negb (r =? 0) then Ret (k, -1) else copy_fat_file_to_vfs k SHELLD_BINARY_PATH.
Definition use_initramfs k (warning : string) : outcome (kernel Hw * Z) :=
  k ← launchd_log k warning;
  '(k, r) ← install_embedded_initramfs k;
  if r =? 0 then Ret (k, 0) else
  k ← launchd_log k "kernel: error: failed to install initramfs into vfs
";
  k ← launchd_log k "kernel: panic: no usable userland
";
  Ret (k, -1).
Definition populate k (mbi : Z) : outcome (kernel Hw * Z) :=
  let '(image, image_size) := userland_image k mbi in
  if negb (image =? 0) && (0 <? image_size) then
    k ← launchd_log k "kernel: mounting fat32 now
";
    let k := put_vol k (fs_mount (vol k) image image_size) in
    if fs_is_fat32 (vol k) then
      k ← launchd_log k "kernel: mounted fat32 successfully!
";
      let '(k, ok) := ready_vfs k in
      if negb ok then Ret (k, -1) else
      '(k, r) ← mirror_userland k;
      if r =? 0 then Ret (k, 0) else
      k ← launchd_log k "launchd: failed to mirror FAT32 userland into VFS
";
      Ret (k, -1)
    else use_initramfs k "kernel: warn: userland FAT32 image unavailable, using initramfs instead
"
  else use_initramfs k "kernel: warn: couldn't find userland FAT32 image, using initramfs instead
".

Definition no_init k : outcome (kernel Hw * Z) :=
  k ← launchd_log k "kernel: error: launchd.elf is missing or invalid
";
  k ← launchd_log k "kernel: panic: no usable init system
";
  Ret (k, -1).

(** Process 1: created, given its image, started.  [loaded] is a local
    variable; what it holds before [elf_load_process_image] fills it is not
    used. *)
Definition start_init k : outcome (kernel Hw * Z) :=
  let '(k, p) := proc_create k (Some (str "launchd")) 0 in
  let '(k, r) := if p =? 1 then proc_set_current k p else (k, -1) in
  if negb (r =? 0) then k ← launchd_log k "launchd: failed to create pid 1
"; Ret (k, -1) else
  k ← launchd_log k "kernel: finding elf executable
";
  '(k, file) ← read_vfs_file_to_process k p LAUNCHD_BINARY_PATH;
  match file with
  | None => no_init k
  | Some (file, size) =>
      if negb (elf_validate (ProcTable.ram k) file size =? 0) then no_init k else
      k ← launchd_log k "kernel: found elf magic header!
";
      '(k, loaded, r) ← elf_load_process_image k p file size (Some zero_image);
      '(k, r) ← (if r =? 0 then proc_attach_image k p (Some LAUNCHD_BINARY_PATH) loaded else Ret (k, -1));
      if negb (r =? 0) then k ← launchd_log k "launchd: failed to load executable image
"; Ret (k, -1) else
      k ← launchd_log k "kernel: handing over to launchd as PID 1
";
      proc_start_flat run k p
  end.

Definition launchd_boot k (mbi : Z) : outcome (kernel Hw * Z) :=
  '(k, r) ← populate k mbi;
  if negb (r =? 0) then Ret (k, -1) else start_init k.
End Launchd.
