(* ===== verification/LaunchdTheorems.v ===== *)
(** * Theorems on the boot of the first process *)

From Stdlib Require Import ZArith Lia.
From stdpp Require Import base numbers gmap strings fin_maps option list relations.
From S2P Require Import Prelude MemUtils Heap HeapTheorems Allocator MemCtx Vfs VfsPaths VfsProofs VfsTheorems ProcTable Elf Proc ProcTheorems ProcInit Fat32 Machine Serial Console ConsoleProofs DebugLog ErrorText Idt Kernel ElfLoad Syscall SyscallTheorems Launchd.

Local Open Scope Z_scope.

(** ** Module names *)

Lemma last_part_in p : forall w l, (exists s, w = s ++ p) -> (exists s, w = s ++ l) -> exists s, w = s ++ last_part p l.
Proof.
  induction p as [|c p IH]; intros w l [s ->] Hl; [done|]. cbn [last_part]. apply IH; [exists (s ++ [c]); by rewrite <- app_assoc|].
  case_test; [exists (s ++ [c]); by rewrite <- app_assoc|done].
Qed.
(** The comparison with the last part of the name adds nothing to the search. *)
Lemma module_name_matches_spec m n : module_name_matches (Some m) (Some n) = true <-> exists s t, m = s ++ n ++ t.
Proof.
  cbn [module_name_matches]. rewrite orb_true_iff, bool_decide_eq_true, contains_spec. split; [|by right].
  intros [E|Hc]; [|done]. destruct (last_part_in m m m) as [s Hs]; [by exists []|by exists []|].
  exists s, []. by rewrite app_nil_r, <- E.
Qed.

(** ** Installing a file *)

Section Install.
Context {L : Layout} {Hw : Type} `{Hardware Hw}.
Implicit Types k : kernel Hw.

Lemma written_fresh c' bs : written [] c' bs 0 -> c' = bs.
Proof.
  intros (Hl & Ht & _). cbn in Hl. rewrite drop_0 in Ht. rewrite <- Ht. symmetry. apply take_ge. lia.
Qed.

(** The write of a whole file into an empty one. *)
Lemma install_loop_spec k fd i n data size :
  vfs_ok (files k) -> Vfs.open_at (files k) fd = Some (Open true (Z.of_nat i) 0 CREATE_FLAGS) -> nodes (files k) !! i = Some n ->
  Vfs.size n = 0 \/ type n <> VFS_TYPE_FILE ->
  data <> 0 -> 0 < size <= FILE_LIMIT -> caller_buffer (files k) data size ->
  exists k' ok, install_loop (Z.to_nat size) k fd data size 0 = Ret (k', ok) /\ vfs_ok (files k') /\ same_table k k' /\
    (ok = true -> is_Some (Vfs.open_at (files k') fd) /\ content (files k') i = Some (bytes_at (ProcTable.ram k) data (Z.to_nat size))).
Proof.
  intros Hok Hf Hn Hsz Hd Hs Hb. destruct (Z.to_nat size) as [|fuel] eqn:Efuel; [lia|]. cbn [install_loop].
  rewrite (proj2 (Z.leb_gt size 0)), Z.add_0_r, Z.sub_0_r by lia.
  destruct (decide (type n = VFS_TYPE_FILE)) as [Ht|Ht].
  2: { exists (put_files k (files k)), false. unfold vfs_write. rewrite Hf, (proj2 (Z.eqb_neq data 0)) by done. cbn [fnode].
       rewrite (node_at_nat _ _ _ Hn). cbn [mbind outcome_bind]. rewrite (proj2 (Z.eqb_neq (type n) _)) by done. by split_and!. }
  destruct Hsz as [Hsz|]; [|done].
  assert (content (files k) i = Some []) as Hc by (unfold content; rewrite Hn; cbn; by rewrite Hsz).
  destruct (vfs_write_spec (files k) fd _ i n [] data size Hok Hf eq_refl Hn Ht Hc Hd) as (v & r & Hw' & Hok' & _ & Hcase);
    [lia|change (write_offset _ n) with 0; lia|done|]. rewrite Hw'. cbn [mbind outcome_bind].
  destruct Hcase as [[-> _]|(-> & Hf' & _ & c' & Hc' & Hwr)]; [by exists (put_files k v), false; split_and!|].
  rewrite (proj2 (Z.leb_gt size 0)), Z.add_0_l, u64_small by (unfold FILE_LIMIT in *; lia).
  exists (put_files k v), true. split; [destruct fuel; cbn [install_loop]; by rewrite Z.leb_refl|].
  split_and!; try done. intros _. split; [cbn [files put_files]; by rewrite Hf'|].
  change (write_offset _ n) with 0 in Hwr. apply written_fresh in Hwr as ->. cbn [files put_files]. rewrite Hc'.
  by rewrite <- Efuel.
Qed.

(** C8: [install_initramfs_file] returns: either it fails with -1, or a regular
    file, the one of that name or a new one, holds exactly the bytes installed;
    the file system stays well formed and the processes are not touched. *)
Theorem install_file_stores k path data size :
  vfs_ok (files k) -> data <> 0 -> 0 < size <= FILE_LIMIT -> caller_buffer (files k) data size ->
  exists k' r, install_initramfs_file k (Some path) data size = Ret (k', r) /\ vfs_ok (files k') /\ same_table k k' /\
    (r = -1 \/ r = 0 /\ exists i, content (files k') i = Some (bytes_at (ProcTable.ram k) data (Z.to_nat size)) /\
       (resolve_path (files k) (Some path) = Ret (Z.of_nat i) \/
        resolve_path (files k) (Some path) = Ret (-1) /\ exists m, nodes (files k) !! i = Some m /\ Vfs.used m = false)).
Proof.
  intros Hok Hd Hs Hb. unfold install_initramfs_file. rewrite bool_decide_eq_true_2 by done.
  rewrite (proj2 (Z.eqb_neq data 0)), (proj2 (Z.eqb_neq size 0)) by lia. cbn [negb orb].
  destruct (vfs_open_spec (files k) (Some path) CREATE_FLAGS Hok) as (v & fd & -> & Hok1 & Hkeep & Hcase). cbn [mbind outcome_bind].
  destruct Hcase as [->|(Hfd & i & n & Hf & Hn & Hsz & Hnew)]; [by exists (put_files k v), (-1); split_and!; [done..|left]|].
  rewrite (proj2 (Z.ltb_ge fd 0)) by lia. destruct (keeps_caller _ _ data size Hkeep Hb) as [Hb1 Hbytes].
  destruct (install_loop_spec (put_files k v) fd i n data size Hok1 Hf Hn) as (k' & ok & -> & Hok2 & Htab & Hdone); try done.
  { destruct (decide (type n = VFS_TYPE_FILE)); [left; by apply Hsz|by right]. }
  cbn [mbind outcome_bind]. exists (close_vfs k' fd). assert (vfs_ok (files (close_vfs k' fd))) as Hok3 by (by apply vfs_close_ok).
  assert (same_table k (close_vfs k' fd)) as Htab' by (eapply same_table_trans; [|exact Htab]; done).
  destruct ok; [|by exists (-1); split_and!; [done..|left]].
  destruct (Hdone eq_refl) as ([f Hf'] & Hc). eexists. split; [done|]. split; [done|]. split; [done|]. right.
  unfold close_vfs, vfs_close. rewrite Hf'. cbn [fst snd files put_files]. split; [done|]. exists i. split.
  - etrans; [exact Hc|]. f_equal. exact Hbytes.
  - destruct Hnew as [?|(? & _ & ?)]; [by left|by right].
Qed.
End Install.

(** ** The process table during boot *)

Section Boot.
Context {L : Layout} {Hw : Type} `{Hardware Hw}.
Context (run : Z -> Z -> kernel Hw -> outcome (kernel Hw)).
Context (e1 e2 e3 : embedded) (copy_buf : Z).
Implicit Types k : kernel Hw.

(** A routine that leaves the table alone, and one that changes it through the
    calls of the process layer only. *)
Definition quiet {A} k (c : outcome (kernel Hw * A)) : Prop := forall k' a, c = Ret (k', a) -> same_table k k'.
Definition steps {A} k (c : outcome (kernel Hw * A)) : Prop := forall k' a, c = Ret (k', a) -> rtc proc_call k k'.

Lemma quiet_ret {A} k k1 (a : A) : same_table k k1 -> quiet k (Ret (k1, a)).
Proof. intros Hs k' a' E. by injection E as <- _. Qed.
Lemma quiet_bind {A B} k (c : outcome (kernel Hw * A)) (f : kernel Hw -> A -> outcome (kernel Hw * B)) :
  quiet k c -> (forall k1 a, quiet k1 (f k1 a)) -> quiet k ('(k1, a) ← c; f k1 a).
Proof.
  intros Hc Hf k' b E. inv_bind E. destruct r as [k1 a]. eapply same_table_trans; [by eapply Hc|]. exact (Hf k1 a k' b E).
Qed.
(** A value that does not touch the state. *)
Lemma quiet_value {A B} k (c : outcome A) (f : A -> outcome (kernel Hw * B)) : (forall a, quiet k (f a)) -> quiet k (c ≫= f).
Proof. intros Hf k' b E. inv_bind E. exact (Hf r k' b E). Qed.
Lemma quiet_from {A} k k1 (c : outcome (kernel Hw * A)) : same_table k k1 -> quiet k1 c -> quiet k c.
Proof. intros Hs Hc k' a E. eapply same_table_trans; [exact Hs|by eapply Hc]. Qed.
Lemma quiet_if {A} k (b : bool) (c d : outcome (kernel Hw * A)) : quiet k c -> quiet k d -> quiet k (if b then c else d).
Proof. by destruct b. Qed.
Lemma log_table k s k' : launchd_log k s = Ret k' -> same_table k k'.
Proof. apply on_mach_table. Qed.
Lemma quiet_log {A} k s (f : kernel Hw -> outcome (kernel Hw * A)) : (forall k1, quiet k1 (f k1)) -> quiet k (k ← launchd_log k s; f k).
Proof. intros Hf k' a E. inv_bind E. apply log_table in E0. eapply same_table_trans; [exact E0|]. exact (Hf r k' a E). Qed.
Lemma quiet_free {A} k p d (a : A) : quiet k ('(k, _) ← proc_free k p d; Ret (k, a)).
Proof. apply quiet_bind; [intros k' r E; by eapply proc_free_table|]. intros k1 _. by apply quiet_ret. Qed.

Lemma quiet_copy_loop fuel k src dst n : quiet k (copy_loop copy_buf fuel k src dst n).
Proof.
  revert k n. induction fuel as [|fuel IH]; intros k n; cbn [copy_loop]; (apply quiet_if; [by apply quiet_ret|]); [done|].
  apply quiet_value. intros [f got]. apply quiet_if; [by apply quiet_ret|]. apply quiet_value. intros [v w].
  apply quiet_if; [by apply quiet_ret|]. eapply quiet_from; [|apply IH]. done.
Qed.
Lemma quiet_copy k path : quiet k (copy_fat_file_to_vfs copy_buf k path).
Proof.
  unfold copy_fat_file_to_vfs. apply quiet_value. intros [f src]. apply quiet_if; [by apply quiet_ret|].
  apply quiet_if; [by apply quiet_ret|]. apply quiet_value. intros [v dst]. apply quiet_if; [by apply quiet_ret|].
  apply quiet_bind; [eapply quiet_from; [|apply quiet_copy_loop]; done|]. intros k1 r. by apply quiet_ret.
Qed.
Lemma quiet_install_loop fuel k fd p n w : quiet k (install_loop fuel k fd p n w).
Proof.
  revert k w. induction fuel as [|fuel IH]; intros k w; cbn [install_loop]; (apply quiet_if; [by apply quiet_ret|]); [done|].
  apply quiet_value. intros [v r]. apply quiet_if; [by apply quiet_ret|]. eapply quiet_from; [|apply IH]. done.
Qed.
Lemma quiet_install k path d n : quiet k (install_initramfs_file k path d n).
Proof.
  unfold install_initramfs_file. apply quiet_if; [by apply quiet_ret|]. apply quiet_value. intros [v fd].
  apply quiet_if; [by apply quiet_ret|].
  apply quiet_bind; [eapply quiet_from; [|apply quiet_install_loop]; done|]. intros k1 ok. destruct ok; by apply quiet_ret.
Qed.
Lemma ready_vfs_table k : same_table k (ready_vfs k).1.
Proof. unfold ready_vfs. case_test; [done|]. by destruct (vfs_init _). Qed.
Lemma quiet_ready {A} k (f : kernel Hw -> bool -> outcome (kernel Hw * A)) :
  (forall k1 ok, quiet k1 (f k1 ok)) -> quiet k (let '(k1, ok) := ready_vfs k in f k1 ok).
Proof. intros Hf. pose proof (ready_vfs_table k) as Ht. destruct (ready_vfs k) as [k1 ok]. by eapply quiet_from. Qed.

(** Chains of logged steps. *)
Ltac quietly := repeat first
  [ apply quiet_log; intros ? | apply quiet_if | by apply quiet_ret
  | apply quiet_bind; [first [apply quiet_install | apply quiet_copy]|intros ? ?] | apply quiet_ready; intros ? ? ].

Lemma quiet_embedded k : quiet k (install_embedded_initramfs e1 e2 e3 k).
Proof. unfold install_embedded_initramfs. quietly. Qed.
Lemma quiet_use k s : quiet k (use_initramfs e1 e2 e3 k s).
Proof. unfold use_initramfs. apply quiet_log. intros k1. apply quiet_bind; [apply quiet_embedded|]. intros k2 r. quietly. Qed.
Lemma quiet_populate k mbi : quiet k (populate e1 e2 e3 copy_buf k mbi).
Proof.
  unfold populate. destruct (userland_image k mbi) as [image n]. apply quiet_if; [|apply quiet_use].
  apply quiet_log. intros k1. apply (quiet_from k1 (put_vol k1 (fs_mount (vol k1) image n))); [done|].
  apply quiet_if; [|apply quiet_use]. apply quiet_log. intros k2. apply quiet_ready. intros k3 ok.
  apply quiet_if; [by apply quiet_ret|]. apply quiet_bind; [|intros k4 r; quietly].
  unfold mirror_userland. quietly. apply quiet_copy.
Qed.
Lemma quiet_read_file k p path : quiet k (read_vfs_file_to_process k p path).
Proof.
  unfold read_vfs_file_to_process. apply quiet_value. intros [st|]; [|by apply quiet_ret]. apply quiet_if; [by apply quiet_ret|].
  apply quiet_bind; [intros k' a E; by eapply proc_alloc_table|]. intros k1 data. apply quiet_if; [by apply quiet_ret|].
  apply quiet_value. intros [v fd]. apply quiet_if; [eapply quiet_from; [|apply quiet_free]; done|].
  apply quiet_value. intros [v2 got]. apply quiet_if; [eapply quiet_from; [|apply quiet_free]; done|]. by apply quiet_ret.
Qed.
Lemma quiet_no_init k : quiet k (no_init k).
Proof. unfold no_init. quietly. Qed.

Lemma steps_quiet {A} k (c : outcome (kernel Hw * A)) : quiet k c -> steps k c.
Proof. intros Hc k' a E. by eapply other, Hc. Qed.
Lemma steps_bind {A B} k (c : outcome (kernel Hw * A)) (f : kernel Hw -> A -> outcome (kernel Hw * B)) :
  table_ok k -> steps k c -> (forall k1 a, table_ok k1 -> steps k1 (f k1 a)) -> steps k ('(k1, a) ← c; f k1 a).
Proof.
  intros Hok Hc Hf k' b E. inv_bind E. destruct r as [k1 a]. apply Hc in E0. etrans; [exact E0|].
  by apply (Hf k1 a (proc_calls_ok _ _ Hok E0) k' b).
Qed.
Lemma steps_log {A} k s (f : kernel Hw -> outcome (kernel Hw * A)) :
  table_ok k -> (forall k1, table_ok k1 -> steps k1 (f k1)) -> steps k (k ← launchd_log k s; f k).
Proof.
  intros Hok Hf k' a E. inv_bind E. apply log_table in E0. etrans; [by apply (other k r)|].
  eapply Hf, E. by eapply table_ok_same_table.
Qed.
Lemma steps_from {A} k k1 (c : outcome (kernel Hw * A)) : rtc proc_call k k1 -> steps k1 c -> steps k c.
Proof. intros Hs Hc k' a E. etrans; [exact Hs|by eapply Hc]. Qed.

Hypothesis run_calls : forall entry sp t t', table_ok t -> run entry sp t = Ret t' -> rtc proc_call t t'.

Lemma steps_start k p : table_ok k -> steps k (proc_start_flat run k p).
Proof. intros Hok k' r E. by eapply start_flat_calls. Qed.
Lemma steps_load k p file n : table_ok k ->
  steps k ('(k, loaded, r) ← elf_load_process_image k p file n (Some zero_image);
           '(k, r) ← (if r =? 0 then proc_attach_image k p (Some LAUNCHD_BINARY_PATH) loaded else Ret (k, -1));
           if negb (r =? 0) then k ← launchd_log k "launchd: failed to load executable image
"; Ret (k, -1) else
           k ← launchd_log k "kernel: handing over to launchd as PID 1
";
           proc_start_flat run k p).
Proof.
  intros Hok k' a E. inv_bind E. destruct r as [[k1 loaded] r]. apply elf_load_table in E0.
  assert (table_ok k1) as Hok1 by (by eapply table_ok_same_table). etrans; [by apply (other k k1)|]. revert k' a E.
  apply steps_bind; [done| |].
  - destruct (r =? 0); [|by apply steps_quiet, quiet_ret]. intros k2 r2 E. by eapply rtc_once, call_attach.
  - intros k2 r2 Hok2. destruct (negb (r2 =? 0)).
    + apply steps_quiet. quietly.
    + apply steps_log; [done|]. intros k3 Hok3. by apply steps_start.
Qed.
Lemma steps_init k : table_ok k -> next_pid k < 2147483647 -> steps k (start_init run k).
Proof.
  intros Hok Hn. unfold start_init. pose proof (call_create k (Some (str "launchd")) 0 Hn) as Hc.
  destruct (proc_create k _ 0) as [k1 p]. cbn [fst] in Hc. apply rtc_once in Hc. pose proof (proc_calls_ok _ _ Hok Hc) as Hok1.
  apply (steps_from k k1); [done|].
  assert (rtc proc_call k1 (if p =? 1 then proc_set_current k1 p else (k1, -1)).1) as Hc2
    by (case_test; [apply rtc_once, call_current|apply rtc_refl]).
  destruct (if p =? 1 then _ else _) as [k2 r]. cbn [fst] in Hc2. pose proof (proc_calls_ok _ _ Hok1 Hc2) as Hok2.
  apply (steps_from k1 k2); [done|]. destruct (negb (r =? 0)); [apply steps_quiet; quietly|].
  apply steps_log; [done|]. intros k3 Hok3. apply steps_bind; [done|apply steps_quiet, quiet_read_file|].
  intros k4 [[file n]|] Hok4; [|apply steps_quiet, quiet_no_init].
  destruct (negb _); [apply steps_quiet, quiet_no_init|]. apply steps_log; [done|]. intros k5 Hok5. by apply steps_load.
Qed.
Lemma steps_boot k mbi : table_ok k -> next_pid k < 2147483647 -> steps k (launchd_boot run e1 e2 e3 copy_buf k mbi).
Proof.
  intros Hok Hn k' a E. unfold launchd_boot in E. inv_bind E. destruct r as [k1 r]. apply quiet_populate in E0.
  etrans; [by apply (other k k1)|]. destruct (negb (r =? 0)); [injection E as <- _; apply rtc_refl|].
  eapply steps_init, E; [by eapply table_ok_same_table|]. by destruct E0 as (_ & -> & _).
Qed.

(** Once init is in the table, what comes back is a failure. *)
Definition fails (c : outcome (kernel Hw * Z)) : Prop := forall k' r, c = Ret (k', r) -> r = -1.
Definition with_init k : Prop := table_ok k /\ present k 1.

Lemma with_init_calls k k1 : with_init k -> rtc proc_call k k1 -> with_init k1.
Proof. intros [Hok Hp] Hc. split; [by eapply proc_calls_ok|by eapply present_calls]. Qed.
Lemma fails_bind {A} k (c : outcome (kernel Hw * A)) (f : kernel Hw -> A -> outcome (kernel Hw * Z)) :
  with_init k -> steps k c -> (forall k1 a, with_init k1 -> fails (f k1 a)) -> fails ('(k1, a) ← c; f k1 a).
Proof. intros Hi Hc Hf k' r E. inv_bind E. destruct r0 as [k1 a]. eapply Hf, E. by eapply with_init_calls, Hc. Qed.
Lemma fails_log k s (f : kernel Hw -> outcome (kernel Hw * Z)) :
  with_init k -> (forall k1, with_init k1 -> fails (f k1)) -> fails (k ← launchd_log k s; f k).
Proof. intros Hi Hf k' r E. inv_bind E. apply log_table in E0. eapply Hf, E. by eapply with_init_calls, other. Qed.
Lemma fails_ret k : fails (Ret (k, -1)).
Proof. by intros k' r [= _ <-]. Qed.
Lemma fails_no_init k : with_init k -> fails (no_init k).
Proof. intros Hi. unfold no_init. apply fails_log; [done|]. intros k1 H1. apply fails_log; [done|]. intros k2 _. apply fails_ret. Qed.
Lemma fails_load k file n : with_init k ->
  fails ('(k, loaded, r) ← elf_load_process_image k 1 file n (Some zero_image);
         '(k, r) ← (if r =? 0 then proc_attach_image k 1 (Some LAUNCHD_BINARY_PATH) loaded else Ret (k, -1));
         if negb (r =? 0) then k ← launchd_log k "launchd: failed to load executable image
"; Ret (k, -1) else
         k ← launchd_log k "kernel: handing over to launchd as PID 1
";
         proc_start_flat run k 1).
Proof.
  intros Hi k' a E. inv_bind E. destruct r as [[k1 loaded] r]. apply elf_load_table in E0.
  assert (with_init k1) as Hi1 by (by eapply with_init_calls, other). revert k' a E. apply (fails_bind k1); [done| |].
  - destruct (r =? 0); [|by apply steps_quiet, quiet_ret]. intros k2 r2 E. by eapply rtc_once, call_attach.
  - intros k2 r2 Hi2. destruct (negb (r2 =? 0)); (apply fails_log; [done|]; intros k3 Hi3); [apply fails_ret|].
    intros k' r' E. destruct Hi3 as [Hok Hp]. exact (start_init_refused run k3 k' r' run_calls Hok Hp E).
Qed.
Lemma created_present k nm parent : (proc_create k nm parent).2 = 1 -> present (proc_create k nm parent).1 1.
Proof.
  unfold proc_create. case_test; [done|]. case_test; [done|]. destruct (find_index _ (procs k) 0) as [i|] eqn:Hf; [|done].
  destruct (memctx_create _ _ _) as [c ctx]. case_test; [done|]. cbn [fst snd]. intros E. apply present_spec.
  apply find_index_Some in Hf as (e & _ & He & _). rewrite Nat.sub_0_r in He. eexists i, _. cbn [procs put_procs].
  rewrite list_lookup_insert_eq by (by eapply lookup_lt_Some). done.
Qed.
Lemma fails_boot k mbi : table_ok k -> next_pid k < 2147483647 -> fails (launchd_boot run e1 e2 e3 copy_buf k mbi).
Proof.
  intros Hok Hn k' a E. unfold launchd_boot in E. inv_bind E. destruct r as [k1 r]. apply quiet_populate in E0.
  destruct (negb (r =? 0)); [by injection E as _ <-|]. pose proof (table_ok_same_table _ _ E0 Hok) as Hok1.
  assert (next_pid k1 < 2147483647) as Hn1 by (by destruct E0 as (_ & -> & _)). clear E0. revert k' a E. unfold start_init.
  pose proof (created_present k1 (Some (str "launchd")) 0) as Hp. pose proof (proc_create_ok k1 (Some (str "launchd")) 0 Hok1 Hn1) as [Hok2 _].
  destruct (proc_create k1 _ 0) as [k2 p]. cbn [fst snd] in Hp, Hok2. destruct (Z.eqb_spec p 1) as [->|].
  2: { cbn [negb Z.eqb]. intros k' a E. inv_bind E. by injection E as _ <-. }
  assert (with_init (proc_set_current k2 1).1) as Hi
    by (eapply with_init_calls; [split; [done|by apply Hp]|apply rtc_once, call_current]).
  destruct (proc_set_current k2 1) as [k3 r3]. cbn [fst] in Hi. destruct (negb (r3 =? 0)); (apply fails_log; [done|]; intros k4 Hi4); [apply fails_ret|].
  apply (fails_bind k4); [done|apply steps_quiet, quiet_read_file|]. intros k5 [[file n]|] Hi5; [|by apply fails_no_init].
  destruct (negb _); [by apply fails_no_init|]. apply fails_log; [done|]. intros k6 Hi6. by apply fails_load.
Qed.
End Boot.

(** C15: Whatever the boot modules and the embedded files hold, booting the first
    process changes the process table through the calls of the process layer
    only: it is sound when [launchd_boot] returns, on its error paths too.  And
    it returns with a failure only: the kernel does not come back from init. *)
Theorem launchd_boot_safe {L : Layout} {Hw : Type} `{Hardware Hw} run e1 e2 e3 copy_buf (k0 k : kernel Hw) mbi k' r :
  (forall entry sp t t', table_ok t -> run entry sp t = Ret t' -> rtc proc_call t t') ->
  k = proc_init k0 -> launchd_boot run e1 e2 e3 copy_buf k mbi = Ret (k', r) -> rtc proc_call k k' /\ table_ok k' /\ r = -1.
Proof.
  intros Hrun -> E. pose proof (proc_init_ok k0) as Hok.
  assert (rtc proc_call (proc_init k0) k') as Hc by (eapply (steps_boot run e1 e2 e3 copy_buf Hrun (proc_init k0)), E; [done|cbn; lia]).
  split_and!; [done|by eapply proc_calls_ok|]. by eapply (fails_boot run e1 e2 e3 copy_buf Hrun (proc_init k0)), E.
Qed.

(** ** Witnesses *)

#[local] Existing Instance demo_layout.
(** The machine before any process, with the executable of ElfLoad at 0x1000. *)
Definition demo_start : kernel demo_hw :=
  ProcState (vfs_init ((demo_elf_mem, demo_world) : kmem * world demo_hw)).1 [] [] 0 [] 0 0.
Lemma demo_start_ok : vfs_ok (files demo_start).
Proof. apply vfs_init_ok. eexists _, _; apply heap_init_kinv, demo_layout_ok. Qed.

Lemma install_file_stores_witness : exists k' r,
  install_initramfs_file demo_start (Some LAUNCHD_BINARY_PATH) 0x1000 124 = Ret (k', r) /\ vfs_ok (files k').
Proof.
  destruct (install_file_stores demo_start LAUNCHD_BINARY_PATH 0x1000 124 demo_start_ok) as (k' & r & H1 & H2 & _);
    [lia|unfold FILE_LIMIT; lia| |exists k', r; exact (conj H1 H2)].
  intros x Hx. left. cbn. unfold kmem_managed, ptr_in_region.
  change (heap_start _) with 0x200000. change swap_space with 0x110000.
  rewrite (proj2 (Z.leb_gt 0x200000 x)), (proj2 (Z.leb_gt 0x110000 x)) by lia. done.
Defined.

(** An embedded program of four bytes is refused after it was installed; the
    init process exists, and is current. *)
Lemma launchd_boot_safe_witness : exists k',
  launchd_boot no_program (Embedded 0x1000 4) (Embedded 0x1000 4) (Embedded 0x1000 124) 0x9000 (proc_init demo_start) 0 = Ret (k', -1) /\
  current_pid k' = 1 /\ table_ok k'.
Proof.
  destruct (returns_with (fun kr => (kr.2 =? -1) && (current_pid kr.1 =? 1)) (launchd_boot no_program (Embedded 0x1000 4)
    (Embedded 0x1000 4) (Embedded 0x1000 124) 0x9000 (proc_init demo_start) 0)) as ([k' r] & Hr & Ht); [by vm_compute|].
  cbn [fst snd] in Ht. prop_bools. subst r. exists k'. split; [exact Hr|]. split; [done|].
  refine (proj1 (proj2 (launchd_boot_safe no_program (Embedded 0x1000 4) (Embedded 0x1000 4) (Embedded 0x1000 124) 0x9000 demo_start _ 0 k' (-1)
    _ eq_refl Hr))). intros entry sp t t' _ [= <-]. apply rtc_refl.
Defined.

(** An init program that returns stops the kernel: [launchd_boot] then does not
    return. *)
Example launchd_returning_panics :
  launchd_boot no_program (Embedded 0x1000 124) (Embedded 0x1000 4) (Embedded 0x1000 124) 0x9000 (proc_init demo_start) 0 =
  Panic "init process exited".
Proof. by vm_compute. Qed.
