(* ===== verification/Panic.v ===== *)
(** * kernel/panic.c: the error code and the details of a panic

    The texts a panic report shows.  [current_program] is an argument: the string
    it points to, [None] for NULL. *)

From Stdlib Require Import ZArith Lia.
From stdpp Require Import base numbers gmap strings fin_maps option list.
From S2P Require Import Prelude MemUtils Digits ErrorText.

Local Open Scope Z_scope.

(** [panic_micropython_info_t]. *)
Record panic_micropython_info_t := MpInfo {
  has_data : bool; mp_type : list Z; message : list Z; file : list Z; function_name : list Z; line : Z
}.
(** The static variables. *)
Record panic_state := PanicState { mp_info : panic_micropython_info_t; panic_error_code : list Z }.
Definition panic_start : panic_state :=
  PanicState (MpInfo false (replicate 64 0) (replicate 192 0) (replicate 128 0) (replicate 96 0) 0) (replicate 96 0).

(** ** Texts *)

(** [clamp_strlen(dst, sizeof(dst))]. *)
Definition clamp_strlen (dst : list Z) : Z := text_len dst.
Definition copy_trimmed (dst : list Z) (src : option (list Z)) : outcome (list Z) :=
  if (length dst =? 0)%nat then Ret dst else
  match src with None => store_char dst 0 0 | Some src => literal_loop dst src 0 end.
Definition append_trimmed (dst : list Z) (src : option (list Z)) : outcome (list Z) :=
  let offset := clamp_strlen dst in
  if Z.of_nat (length dst) <=? offset then Ret dst else
  match src with None => Ret dst | Some src => literal_loop dst src offset end.

(** A local buffer of 96 characters initialised with a literal. *)
Definition buffer96 (s : string) : list Z := str s ++ replicate (96 - length (str s)) 0.

Definition panic_set_error_code (p : panic_state) (code : option (list Z)) : outcome panic_state :=
  c ← copy_trimmed (panic_error_code p) code; Ret (PanicState (mp_info p) c).
(** The first character of an array that holds a string. *)
Definition nonempty (dst : list Z) : bool := negb (dst !!! 0%nat =? 0).

Definition set_default_kernel_code (p : panic_state) (current_program : option (list Z)) (rip : Z) : outcome panic_state :=
  let buffer := buffer96 "KERN_PANIC@" in
  buffer ← match current_program with
           | Some (c :: s) => append_trimmed buffer (Some (c :: s))
           | _ => append_hex buffer rip
           end;
  panic_set_error_code p (Some (until_nul buffer)).

(** The code of a fault of the interpreter: MPYFAULT@ and the file. *)
Definition set_mpy_code (p : panic_state) : outcome panic_state :=
  let file := if nonempty (file (mp_info p)) then until_nul (file (mp_info p)) else str "<mpy>" in
  buffer ← append_trimmed (buffer96 "MPYFAULT@") (Some file);
  panic_set_error_code p (Some (until_nul buffer)).

(** The messages with a code of their own, in the order they are looked for. *)
Definition message_codes : list (string * string) :=
  [("Fatal exception", "CPU_EXCEPTION"); ("Unhandled IRQ", "IRQ_FAILURE"); ("Invalid multiboot magic", "BOOT_HEADER");
   ("No modules found", "MISSING_MODULES"); ("no user stack", "EXHAUSTED_RESOURCES"); ("init not found", "KERN_PANIC@init")]%string.
Fixpoint find_code (msg : list Z) (l : list (string * string)) : option string :=
  match l with
  | [] => None
  | (text, code) :: l => if contains msg (str text) then Some code else find_code msg l
  end.
Definition ensure_error_code (p : panic_state) (current_program msg : option (list Z)) (rip : Z) : outcome panic_state :=
  if nonempty (panic_error_code p) then Ret p else
  if has_data (mp_info p) then set_mpy_code p else
  match (msg ← msg; find_code msg message_codes) with
  | Some code => panic_set_error_code p (Some (str code))
  | None => set_default_kernel_code p current_program rip
  end.

Definition panic_set_micropython_details (p : panic_state) (ty msg fl : option (list Z)) (ln : Z) (fn : option (list Z))
    : outcome panic_state :=
  let i := mp_info p in
  t ← copy_trimmed (mp_type i) ty;
  m ← copy_trimmed (message i) msg;
  f ← copy_trimmed (file i) fl;
  g ← copy_trimmed (function_name i) fn;
  set_mpy_code (PanicState (MpInfo true t m f g ln) (panic_error_code p)).

(** ** What the arrays hold *)

(** Every array holds a terminated string. *)
Definition panic_ok (p : panic_state) : Prop :=
  (exists s, holds (mp_type (mp_info p)) s 64) /\ (exists s, holds (message (mp_info p)) s 192) /\
  (exists s, holds (file (mp_info p)) s 128) /\ (exists s, holds (function_name (mp_info p)) s 96) /\
  exists s, holds (panic_error_code p) s 96.

Lemma holds_starts dst s size : holds dst s size -> starts dst s size /\ (length s < size)%nat.
Proof.
  intros [(junk & -> & Hl) _]. rewrite !length_app in Hl. cbn in Hl. split; [|lia].
  exists (0 :: junk). rewrite <- app_assoc. split; [done|]. rewrite length_app. cbn. lia.
Qed.
Lemma holds_take text n : no_nul text -> no_nul (take n text).
Proof. apply Forall_take. Qed.
Lemma nonempty_holds dst s size : holds dst s size -> nonempty dst = bool_decide (s <> []).
Proof.
  intros [(junk & -> & _) Hn]. unfold nonempty. destruct s as [|c s]; [done|]. cbn.
  apply Forall_cons in Hn as [Hc _]. by rewrite (proj2 (Z.eqb_neq c 0) Hc).
Qed.

Lemma copy_trimmed_spec dst size src : length dst = size -> (0 < size)%nat -> (forall s, src = Some s -> no_nul s) ->
  exists dst', copy_trimmed dst src = Ret dst' /\ holds dst' (take (size - 1) (default [] src)) size.
Proof.
  intros Hl Hs Hn. unfold copy_trimmed. rewrite Hl, (proj2 (Nat.eqb_neq size 0)) by lia.
  assert (starts dst [] size) as H0 by (by exists dst). destruct src as [s|]; cbn [default].
  - destruct (literal_loop_cut s dst [] size H0) as (dst' & Hr & Hst); [cbn; lia|]. exists dst'. split; [done|].
    cbn [length app] in Hst. rewrite Nat.sub_0_r in Hst. split; [done|]. by apply holds_take, Hn.
  - destruct (store_next dst [] size 0 H0) as (dst' & Hr & Hst); [cbn; lia|]. exists dst'. split; [done|]. rewrite take_nil. split; [exact Hst|constructor].
Qed.
Lemma append_trimmed_spec dst pre size src : holds dst pre size -> no_nul src ->
  exists dst', append_trimmed dst (Some src) = Ret dst' /\ holds dst' (pre ++ take (size - 1 - length pre) src) size.
Proof.
  intros Hh Hn. destruct (holds_starts _ _ _ Hh) as [Hst Hlt]. unfold append_trimmed, clamp_strlen.
  destruct (holds_text _ _ _ Hh) as [_ ->]. assert (length dst = size) as Hl by (by destruct Hst as (? & _ & ?)).
  rewrite Hl, (proj2 (Z.leb_gt _ _)) by lia. destruct (literal_loop_cut src dst pre size Hst Hlt) as (dst' & Hr & Hs').
  exists dst'. split; [done|]. split; [by rewrite <- app_assoc|]. apply Forall_app. split; [apply Hh|by apply holds_take].
Qed.
Lemma buffer96_holds s : no_nul (str s) -> (length (str s) < 96)%nat -> holds (buffer96 s) (str s) 96.
Proof.
  intros Hn Hl. split; [|done]. exists (replicate (95 - length (str s)) 0). unfold buffer96. split.
  - rewrite <- app_assoc. f_equal. by replace (96 - length (str s))%nat with (S (95 - length (str s))) by lia.
  - rewrite length_app, length_replicate. lia.
Qed.

(** Setting the code from a text that fits. *)
Lemma set_code_spec p s : panic_ok p -> no_nul s -> (length s < 96)%nat ->
  exists p', panic_set_error_code p (Some s) = Ret p' /\ mp_info p' = mp_info p /\ holds (panic_error_code p') s 96.
Proof.
  intros (_ & _ & _ & _ & c & Hc) Hn Hl. unfold panic_set_error_code.
  assert (length (panic_error_code p) = 96%nat) as Hc96 by (destruct Hc as [(? & _ & ?) _]; done).
  destruct (copy_trimmed_spec (panic_error_code p) 96 (Some s) Hc96) as (c' & -> & Hc'); [lia|by intros ? [= <-]|].
  eexists. split; [done|]. split; [done|]. cbn in *. by rewrite take_ge in Hc' by lia.
Qed.
Lemma set_buffer_spec p b s : panic_ok p -> holds b s 96 ->
  exists p', panic_set_error_code p (Some (until_nul b)) = Ret p' /\ mp_info p' = mp_info p /\ holds (panic_error_code p') s 96.
Proof.
  intros Hok Hb. destruct (holds_text _ _ _ Hb) as [-> _]. destruct (holds_starts _ _ _ Hb) as [_ Hl].
  apply set_code_spec; [done|apply Hb|done].
Qed.
Lemma panic_ok_code p p' s : panic_ok p -> mp_info p' = mp_info p -> holds (panic_error_code p') s 96 -> panic_ok p'.
Proof. intros (H1 & H2 & H3 & H4 & _) E Hs. unfold panic_ok. rewrite E. split_and!; try done. by exists s. Qed.

(** What the interpreter's fault is named after. *)
Definition mpy_file (p : panic_state) : list Z :=
  let s := until_nul (file (mp_info p)) in if decide (s = []) then str "<mpy>" else s.
Lemma set_mpy_code_spec p : panic_ok p ->
  exists p', set_mpy_code p = Ret p' /\ panic_ok p' /\ mp_info p' = mp_info p /\
    holds (panic_error_code p') (str "MPYFAULT@" ++ take 86 (mpy_file p)) 96.
Proof.
  intros Hok. pose proof Hok as (_ & _ & [f Hf] & _). unfold set_mpy_code. rewrite (nonempty_holds _ _ _ Hf).
  destruct (holds_text _ _ _ Hf) as [Ef _].
  assert ((if bool_decide (f <> []) then until_nul (file (mp_info p)) else str "<mpy>") = mpy_file p) as ->.
  { unfold mpy_file. rewrite Ef. destruct (decide (f = [])); [by rewrite bool_decide_false by tauto|by rewrite bool_decide_true]. }
  assert (no_nul (mpy_file p)) as Hn.
  { unfold mpy_file. rewrite Ef. destruct (decide (f = [])); [by repeat constructor|apply Hf]. }
  assert (holds (buffer96 "MPYFAULT@") (str "MPYFAULT@") 96) as Hb by (apply buffer96_holds; [by repeat constructor|cbn; lia]).
  destruct (append_trimmed_spec _ _ 96 (mpy_file p) Hb Hn) as (b & -> & Hb'). cbn [mbind outcome_bind].
  destruct (set_buffer_spec p b _ Hok Hb') as (p' & -> & Ei & Hc).
  exists p'. split_and!; try done. by eapply panic_ok_code.
Qed.

(** ** The code of a panic *)

(** The code [ensure_error_code] settles on. *)
Definition code_of (p : panic_state) (prog msg : option (list Z)) (rip : Z) (s : list Z) : Prop :=
  if decide (until_nul (panic_error_code p) <> []) then s = until_nul (panic_error_code p)
  else if has_data (mp_info p) then s = str "MPYFAULT@" ++ take 86 (mpy_file p)
  else match msg ≫= (fun m => find_code m message_codes) with
       | Some code => s = str code
       | None => match prog with
                 | Some (c :: q) => s = str "KERN_PANIC@" ++ take 84 (c :: q)
                 | _ => exists ds, s = str "KERN_PANIC@" ++ [48; 120] ++ ds /\ numeral 16 rip ds
                 end
       end.

Lemma find_code_fits m code : find_code m message_codes = Some code -> no_nul (str code) /\ (0 < length (str code) < 96)%nat.
Proof.
  cbn [find_code message_codes]. repeat case_match; intros [= <-]; (split; [by repeat constructor|cbn; lia]).
Qed.
Lemma set_default_spec p prog rip : panic_ok p -> (forall s, prog = Some s -> no_nul s) -> 0 <= rip < 2 ^ 64 ->
  exists p' s, set_default_kernel_code p prog rip = Ret p' /\ mp_info p' = mp_info p /\ holds (panic_error_code p') s 96 /\
    match prog with
    | Some (c :: q) => s = str "KERN_PANIC@" ++ take 84 (c :: q)
    | _ => exists ds, s = str "KERN_PANIC@" ++ [48; 120] ++ ds /\ numeral 16 rip ds
    end.
Proof.
  intros Hok Hp Hrip. unfold set_default_kernel_code.
  assert (holds (buffer96 "KERN_PANIC@") (str "KERN_PANIC@") 96) as Hb by (apply buffer96_holds; [by repeat constructor|cbn; lia]).
  assert (exists b ds, append_hex (buffer96 "KERN_PANIC@") rip = Ret b /\ holds b (str "KERN_PANIC@" ++ [48; 120] ++ ds) 96 /\ numeral 16 rip ds)
    as (bh & ds & Ebh & Hbh & Hds).
  { destruct (append_hex_spec _ _ 96 rip Hrip Hb) as (b & ds & ? & ? & ?); [cbn; lia|]. by exists b, ds. }
  assert (exists p', (buffer ← Ret bh; panic_set_error_code p (Some (until_nul buffer))) = Ret p' /\ mp_info p' = mp_info p /\
    holds (panic_error_code p') (str "KERN_PANIC@" ++ [48; 120] ++ ds) 96) as (ph & Eph & Hph) by (by apply set_buffer_spec).
  destruct prog as [[|c q]|]; [rewrite Ebh; exists ph; eexists; split_and!; try apply Hph; [done|by exists ds]| |
    rewrite Ebh; exists ph; eexists; split_and!; try apply Hph; [done|by exists ds]].
  destruct (append_trimmed_spec _ _ 96 (c :: q) Hb (Hp _ eq_refl)) as (b & -> & Hb'). cbn [mbind outcome_bind].
  destruct (set_buffer_spec p b _ Hok Hb') as (p' & -> & Ei & Hc). by exists p', (str "KERN_PANIC@" ++ take 84 (c :: q)).
Qed.

(** A panic always has an error code: [ensure_error_code] never stores outside
    its buffers, keeps a code already set, and otherwise derives it from the
    interpreter's fault, from the message, or from the current program or the
    instruction pointer, cut to the array and terminated; the arrays of the
    report stay terminated strings. *)
Theorem panic_code_settled p prog msg rip :
  panic_ok p -> (forall s, prog = Some s -> no_nul s) -> 0 <= rip < 2 ^ 64 ->
  exists p' s, ensure_error_code p prog msg rip = Ret p' /\ panic_ok p' /\ mp_info p' = mp_info p /\
    holds (panic_error_code p') s 96 /\ s <> [] /\ code_of p prog msg rip s.
Proof.
  intros Hok Hp Hrip. pose proof Hok as (_ & _ & _ & _ & c & Hc). unfold ensure_error_code, code_of.
  rewrite (nonempty_holds _ _ _ Hc). destruct (holds_text _ _ _ Hc) as [-> _]. destruct (decide (c <> [])) as [Hne|He].
  { rewrite bool_decide_true by done. by exists p, c. }
  rewrite bool_decide_false by done. destruct (has_data (mp_info p)).
  { destruct (set_mpy_code_spec p Hok) as (p' & -> & Hok' & Ei & Hs). by exists p', (str "MPYFAULT@" ++ take 86 (mpy_file p)). }
  destruct (msg ≫= (fun m => find_code m message_codes)) as [code|] eqn:Ef.
  - apply bind_Some in Ef as (m & _ & Ef). destruct (find_code_fits m code Ef) as [Hn Hl].
    destruct (set_code_spec p (str code) Hok Hn) as (p' & -> & Ei & Hs); [lia|].
    exists p', (str code). split_and!; try done; [by eapply panic_ok_code|]. intros E. rewrite E in Hl. cbn in Hl. lia.
  - destruct (set_default_spec p prog rip Hok Hp Hrip) as (p' & s & -> & Ei & Hs & Hcase).
    exists p', s. split_and!; try done; [by eapply panic_ok_code|]. destruct prog as [[|d q]|]; [destruct Hcase as (? & -> & _)| |destruct Hcase as (? & -> & _)]; naive_solver.
Qed.

Lemma panic_start_ok : panic_ok panic_start.
Proof.
  assert (forall n, holds (replicate (S n) 0) [] (S n)) as Hz.
  { intros n. split; [|constructor]. exists (replicate n 0). split; [done|]. cbn. by rewrite length_replicate. }
  unfold panic_ok. split_and!; exists []; apply Hz.
Qed.
(** The details of an exception keep the arrays terminated. *)
Lemma panic_details_ok p ty msg fl ln fn :
  panic_ok p -> (forall s, ty = Some s \/ msg = Some s \/ fl = Some s \/ fn = Some s -> no_nul s) ->
  exists p', panic_set_micropython_details p ty msg fl ln fn = Ret p' /\ panic_ok p' /\
    holds (panic_error_code p') (str "MPYFAULT@" ++ take 86 (let f := take 127 (default [] fl) in if decide (f = []) then str "<mpy>" else f)) 96 /\
    exists t m f g, mp_info p' = MpInfo true t m f g ln /\ holds t (take 63 (default [] ty)) 64 /\ holds m (take 191 (default [] msg)) 192 /\
      holds f (take 127 (default [] fl)) 128 /\ holds g (take 95 (default [] fn)) 96.
Proof.
  intros ((t & Ht) & (m & Hm) & (f & Hf) & (g & Hg) & Hc) Hn. unfold panic_set_micropython_details.
  assert (forall d s n, holds d s n -> length d = n) as Hlen by (intros d s n [(? & _ & ?) _]; done).
  destruct (copy_trimmed_spec (mp_type (mp_info p)) 64 ty) as (t' & -> & Ht'); [by eapply Hlen|lia|naive_solver|]. cbn [mbind outcome_bind].
  destruct (copy_trimmed_spec (message (mp_info p)) 192 msg) as (m' & -> & Hm'); [by eapply Hlen|lia|naive_solver|]. cbn [mbind outcome_bind].
  destruct (copy_trimmed_spec (file (mp_info p)) 128 fl) as (f' & -> & Hf'); [by eapply Hlen|lia|naive_solver|]. cbn [mbind outcome_bind].
  destruct (copy_trimmed_spec (function_name (mp_info p)) 96 fn) as (g' & -> & Hg'); [by eapply Hlen|lia|naive_solver|]. cbn [mbind outcome_bind].
  set (p1 := PanicState _ _). assert (panic_ok p1) as Hok1 by (unfold panic_ok; split_and!; [by eexists..|exact Hc]).
  destruct (set_mpy_code_spec p1 Hok1) as (p' & -> & Hok' & Ei & Hs). exists p'. split_and!; [done|done| |rewrite Ei; by eexists t', m', f', g'].
  unfold mpy_file in Hs. cbn [mp_info p1 file] in Hs. destruct (holds_text _ _ _ Hf') as [E _]. rewrite E in Hs. exact Hs.
Qed.

Lemma panic_code_settled_witness : exists p', ensure_error_code panic_start (Some (str "shell")) (Some (str "Fatal exception 13")) 0x100000 = Ret p' /\
  holds (panic_error_code p') (str "CPU_EXCEPTION") 96.
Proof.
  destruct (panic_code_settled panic_start (Some (str "shell")) (Some (str "Fatal exception 13")) 0x100000 panic_start_ok)
    as (p' & s & Hr & _ & _ & Hs & _ & Hc); [by intros ? [= <-]; repeat constructor|lia|].
  exists p'. split; [exact Hr|]. vm_compute in Hc. by subst s.
Defined.
