(* ===== verification/Bootlogo.v ===== *)
(** * kernel/exoimg.c and kernel/bootlogo.c: the boot picture

    The picture is a file linked into the kernel, installed in the file system,
    read back, checked and drawn; below it the progress bar. *)

From Stdlib Require Import ZArith Lia.
From stdpp Require Import base numbers gmap strings fin_maps option list.
From S2P Require Import Prelude MemUtils Heap HeapTheorems Allocator MemCtx Vfs ProcTable Proc Fat32 Framebuffer Machine Serial Console DebugLog Idt Kernel Launchd.

Local Open Scope Z_scope.

Definition EXOIMG_MAX_DIM : Z := 4096.
Definition EXOIMG_MAX_BYTES : Z := 32 * 1024 * 1024.
Definition EXOIMG_FORMAT_RGBA8888 : Z := 1.

(** [exoimg_header_t]: eight bytes of magic and four 32-bit fields. *)
Record exoimg_header_t := Exoimg { width : Z; height : Z; format : Z; data_size : Z }.
Definition SIZEOF_EXOIMG_HEADER : Z := 24.
Definition MAGIC : list Z := str "EXOIMG1" ++ [0].

(** [exoimg_validate(data, size, &h)]: the header it accepts. *)
Definition exoimg_validate (m : gmap Z Z) (data size : Z) : option exoimg_header_t :=
  if (data =? 0) || (size <? SIZEOF_EXOIMG_HEADER) then None else
  if negb (bool_decide (bytes_at m data 8 = MAGIC)) then None else
  let h := Exoimg (rd_le 4 m (data + 8)) (rd_le 4 m (data + 12)) (rd_le 4 m (data + 16)) (rd_le 4 m (data + 20)) in
  if (width h =? 0) || (height h =? 0) || (EXOIMG_MAX_DIM <? width h) || (EXOIMG_MAX_DIM <? height h) then None else
  if negb (format h =? EXOIMG_FORMAT_RGBA8888) then None else
  let expected := u64 (u64 (width h * height h) * 4) in
  if (EXOIMG_MAX_BYTES <? expected) || negb (data_size h =? u32 expected) then None else
  if size <? u64 (SIZEOF_EXOIMG_HEADER + data_size h) then None else Some h.

(** ** The logo *)

Definition LOGO_PATH : list Z := str "/boot/logo.exoimg".
Definition BAR_WIDTH : Z := 360.
Definition BAR_HEIGHT : Z := 8.
Definition BAR_GAP : Z := 54.

(** The static variables. *)
Record logo_state := Logo {
  logo_x : Z; logo_y : Z; logo_w : Z; logo_h : Z; last_progress_percent : Z; logo_position_valid : bool
}.

Definition rounded (x y w h radius px0 py0 : Z) : bool :=
  let rx := if px0 <? u32 (x + radius) then u32 (x + radius - px0)
            else if u32 (x + w - radius) <=? px0 then u32 (px0 - (x + w - radius - 1)) else 0 in
  let ry := if py0 <? u32 (y + radius) then u32 (y + radius - py0)
            else if u32 (y + h - radius) <=? py0 then u32 (py0 - (y + h - radius - 1)) else 0 in
  u32 (rx * rx + ry * ry) <=? u32 (radius * radius).

Section Bootlogo.
Context {L : Layout} {Hw : Type} `{Hardware Hw}.
Context (embedded_logo_exoimg : embedded).
Implicit Types k : kernel Hw.

Definition bootlogo_install_to_vfs k : outcome (kernel Hw * Z) :=
  if emb_len embedded_logo_exoimg =? 0 then Ret (k, -1) else
  let '(k, ok) := ready_vfs k in
  if negb ok then Ret (k, -1) else
  '(v, _) ← vfs_mkdir (files k) (Some (str "/boot"));
  '(v, fd) ← vfs_open v (Some LOGO_PATH) CREATE_FLAGS;
  if fd <? 0 then Ret (put_files k v, -1) else
  '(v, n) ← vfs_write v fd (emb_data embedded_logo_exoimg) (emb_len embedded_logo_exoimg);
  Ret (put_files k (vfs_close v fd).1, if n =? s64 (emb_len embedded_logo_exoimg) then 0 else -1).

(** [px] and [rect]. *)
Definition px k (x y r g b : Z) : kernel Hw :=
  let m := mach k in put_mach k (set_mram m (framebuffer_draw_pixel_rgb (screen m) x y r g b (mram m)).1).
Definition rect k (x y w h r g b : Z) : kernel Hw :=
  for_range h (fun yy => for_range w (fun xx k => px k (u32 (x + xx)) (u32 (y + yy)) r g b)) k.

(** Where the picture goes: centred together with the bar. *)
Definition centre (space n : Z) : Z := if n <? space then (space - n) / 2 else 0.
Definition place_logo (l : logo_state) (fb : framebuffer_state_t) (h : exoimg_header_t) : logo_state :=
  let total_h := u32 (height h + BAR_GAP + BAR_HEIGHT) in
  Logo (centre (framebuffer_width fb) (width h)) (centre (framebuffer_height fb) total_h) (width h) (height h) 0 true.

(** The buffer is released on every path. *)
Definition drop k (b n : Z) (l : logo_state) (r : Z) : outcome (kernel Hw * logo_state * Z) := k ← kfree k b n; Ret (k, l, r).
Definition bootlogo_draw_from_vfs k (l : logo_state) : outcome (kernel Hw * logo_state * Z) :=
  if negb (framebuffer_enabled (screen (mach k))) then Ret (k, l, -1) else
  st ← vfs_stat (files k) (Some LOGO_PATH);
  match st with
  | None => Ret (k, l, -1)
  | Some st =>
      let n := st_size st in
      if negb (st_type st =? VFS_TYPE_FILE) || (n =? 0) then Ret (k, l, -1) else
      '(k, buf) ← kalloc k n;
      if buf =? 0 then Ret (k, l, -1) else
      '(v, fd) ← vfs_open (files k) (Some LOGO_PATH) VFS_O_RDONLY;
      let k := put_files k v in
      if fd <? 0 then drop k buf n l (-1) else
      '(v, got) ← vfs_read (files k) fd buf n;
      let k := put_files k (vfs_close v fd).1 in
      if negb (got =? s64 n) then drop k buf n l (-1) else
      match exoimg_validate (ProcTable.ram k) buf n with
      | None => drop k buf n l (-1)
      | Some h =>
          let m := mach k in
          let l := place_logo l (screen m) h in
          let '(r, ok) := framebuffer_blit_rgba8888 (screen m) (logo_x l) (logo_y l) (width h) (height h)
                            (buf + SIZEOF_EXOIMG_HEADER) (u32 (width h * 4)) (mram m) in
          drop (put_mach k (set_mram m r)) buf n l (if negb (ok =? 0) then 0 else -1)
      end
  end.

(** ** The progress bar *)

Record bar := Bar { bar_x : Z; bar_y : Z; bar_w : Z }.
Definition bar_layout (fb : framebuffer_state_t) (l : logo_state) : bar :=
  let fw := framebuffer_width fb in
  let fh := framebuffer_height fb in
  let maxw := if 40 <? fw then fw - 40 else fw in
  let w := if maxw <? BAR_WIDTH then maxw else BAR_WIDTH in
  Bar (centre fw w)
    (if logo_position_valid l then u32 (logo_y l + logo_h l + BAR_GAP)
     else if BAR_HEIGHT + 72 <? fh then fh - BAR_HEIGHT - 72 else if BAR_HEIGHT <? fh then fh - BAR_HEIGHT else 0)
    w.
Definition bar_shade (b : bar) (fill xx yy : Z) : Z :=
  if xx <? fill then u8 (218 + yy * 24 / BAR_HEIGHT) else u8 (28 + yy * 20 / BAR_HEIGHT).
Definition bootlogo_paint_progress k (l : logo_state) (percent : Z) : kernel Hw :=
  let b := bar_layout (screen (mach k)) l in
  let fill := u32 (bar_w b * percent) / 100 in
  let k := for_range BAR_HEIGHT (fun yy => for_range (bar_w b) (fun xx k =>
    let sx := u32 (bar_x b + xx) in
    let sy := u32 (bar_y b + yy) in
    if rounded (bar_x b) (bar_y b) (bar_w b) BAR_HEIGHT (BAR_HEIGHT / 2) sx sy
    then px k sx sy (bar_shade b fill xx yy) (bar_shade b fill xx yy) (bar_shade b fill xx yy) else k)) k in
  rect k (u32 (bar_x b + 1)) (u32 (bar_y b + 1)) (if 2 <? bar_w b then bar_w b - 2 else 0) 1 90 90 90.

(** One picture of the bar for each percentage since the last call. *)
Definition bootlogo_draw_progress k (l : logo_state) (percent : Z) : kernel Hw * logo_state :=
  if negb (framebuffer_enabled (screen (mach k))) then (k, l) else
  let percent := if 100 <? percent then 100 else percent in
  let first := if percent <? last_progress_percent l then percent else last_progress_percent l in
  (for_loop (Z.to_nat (percent - first + 1)) first (fun p k => bootlogo_paint_progress k l p) k,
   Logo (logo_x l) (logo_y l) (logo_w l) (logo_h l) percent (logo_position_valid l)).
End Bootlogo.
