(* ===== verification/BootlogoTheorems.v ===== *)
(** * Theorems on the boot picture *)

From Stdlib Require Import ZArith Lia.
From stdpp Require Import base numbers gmap strings fin_maps option list relations.
From S2P Require Import Prelude MemUtils Heap HeapTheorems Allocator Vfs ProcTable Proc ProcTheorems Fat32 Framebuffer FramebufferProofs Machine Serial Console ConsoleProofs DebugLog Idt Kernel Syscall SyscallTheorems Launchd Bootlogo.

Local Open Scope Z_scope.

(** ** The header *)

(** A picture of [w] by [h] pixels at [data], in a file of [size] bytes. *)
Definition picture (m : gmap Z Z) (data size : Z) (h : exoimg_header_t) : Prop :=
  data <> 0 /\ bytes_at m data 8 = MAGIC /\
  h = Exoimg (rd_le 4 m (data + 8)) (rd_le 4 m (data + 12)) EXOIMG_FORMAT_RGBA8888 (4 * (Bootlogo.width h * Bootlogo.height h)) /\
  rd_le 4 m (data + 16) = EXOIMG_FORMAT_RGBA8888 /\ rd_le 4 m (data + 20) = 4 * (Bootlogo.width h * Bootlogo.height h) /\
  1 <= Bootlogo.width h <= EXOIMG_MAX_DIM /\ 1 <= Bootlogo.height h <= EXOIMG_MAX_DIM /\
  4 * (Bootlogo.width h * Bootlogo.height h) <= EXOIMG_MAX_BYTES /\
  SIZEOF_EXOIMG_HEADER + 4 * (Bootlogo.width h * Bootlogo.height h) <= size.

Lemma exoimg_size w h : 0 <= w <= 4096 -> 0 <= h <= 4096 -> u64 (u64 (w * h) * 4) = 4 * (w * h) /\ 0 <= 4 * (w * h) <= 67108864.
Proof. intros Hw Hh. assert (0 <= w * h <= 16777216) by nia. rewrite (u64_small (w * h)), u64_small by lia. lia. Qed.

Lemma exoimg_validate_spec m data size h : exoimg_validate m data size = Some h <-> picture m data size h.
Proof.
  unfold exoimg_validate, picture.
  pose proof (rd_le_range 4 m (data + 8)) as H8. pose proof (rd_le_range 4 m (data + 12)) as H12.
  set (w := rd_le 4 m (data + 8)) in *. set (g := rd_le 4 m (data + 12)) in *. set (f := rd_le 4 m (data + 16)). set (d := rd_le 4 m (data + 20)).
  cbn [Bootlogo.width Bootlogo.height Bootlogo.format Bootlogo.data_size]. unfold EXOIMG_MAX_DIM, EXOIMG_MAX_BYTES, SIZEOF_EXOIMG_HEADER, EXOIMG_FORMAT_RGBA8888.
  split.
  - do 4 (case_test; [done|]). case_test; [done|]. case_test; [done|]. intros [= <-]. prop_bools.
    cbn [Bootlogo.width Bootlogo.height]. destruct (exoimg_size w g) as [E Eb]; [lia..|]. rewrite E in *. rewrite u32_small in * by lia.
    rewrite u64_small in * by lia. apply bool_decide_eq_true in Htest0. subst. split_and!; try done; try lia. all: congruence || lia.
  - destruct h as [w' g' f' d']. cbn [Bootlogo.width Bootlogo.height]. intros (Hd & Hm & [= -> -> -> ->] & Hf & Hds & Hw & Hg & Hmax & Hsz).
    destruct (exoimg_size w g) as [E Eb]; [lia..|]. rewrite E, Hf, Hds, (bool_decide_eq_true_2 _ Hm), u32_small, (u64_small (24 + _)) by lia.
    rewrite (proj2 (Z.eqb_neq data 0)), (proj2 (Z.eqb_neq w 0)), (proj2 (Z.eqb_neq g 0)), (proj2 (Z.ltb_ge 4096 w)), (proj2 (Z.ltb_ge 4096 g)) by lia.
    rewrite (proj2 (Z.ltb_ge size 24)), (proj2 (Z.ltb_ge _ (4 * _))), (proj2 (Z.ltb_ge size _)) by lia. by rewrite !Z.eqb_refl.
Qed.

(** ** Drawing reads the picture only *)

Section Blit.
Context (fb : framebuffer_state_t) (Hfb : fb_ok fb) (data size : Z).

(** Two memories that agree on the screen and on the file. *)
Definition agree (m1 m2 : gmap Z Z) : Prop :=
  forall a, FramebufferProofs.screen fb a \/ data <= a < data + size -> rd m1 a = rd m2 a.

Lemma store_bytes_agree m1 m2 a bs x : rd m1 x = rd m2 x -> rd (store_bytes m1 a bs) x = rd (store_bytes m2 a bs) x.
Proof. intros E. rewrite !rd_store_bytes. by case_decide. Qed.
Lemma write_pixel_agree x y c m1 m2 : agree m1 m2 -> agree (write_pixel fb x y c m1) (write_pixel fb x y c m2).
Proof. intros Ha a Hin. unfold write_pixel. destruct (locate fb x y) as [[px py]|]; [|by apply Ha]. by apply store_bytes_agree, Ha. Qed.
Lemma read_pixel_agree x y m1 m2 : 0 <= x < 4294967296 -> 0 <= y -> agree m1 m2 -> read_pixel fb x y m1 = read_pixel fb x y m2.
Proof.
  intros Hx Hy Ha. unfold read_pixel. destruct (locate fb x y) as [[px py]|] eqn:E; [|done].
  apply locate_spec in E as (Hpx & Hpy & _); [|done..]. destruct (pixel_address_spec fb px py Hfb Hpx Hpy) as (_ & Hlo & Hhi & Hsz).
  apply rd_le_ext. intros a Hin. apply Ha. left. unfold FramebufferProofs.screen. lia.
Qed.
Lemma blend_pixel_agree x y p m1 m2 : data <= p -> p + 4 <= data + size -> agree m1 m2 ->
  agree (blend_pixel fb (u32 x) (u32 y) p m1) (blend_pixel fb (u32 x) (u32 y) p m2).
Proof.
  intros H1 H2 Ha. unfold blend_pixel.
  rewrite (Ha p), (Ha (p + 1)), (Ha (p + 2)), (Ha (p + 3)) by (right; lia).
  rewrite (read_pixel_agree (u32 x) (u32 y) m1 m2) by (auto with machine).
  case_test; [done|]. case_test; by apply write_pixel_agree.
Qed.
Lemma for_range_agree n f m1 m2 : (forall i m1 m2, 0 <= i < n -> agree m1 m2 -> agree (f i m1) (f i m2)) -> agree m1 m2 ->
  agree (for_range n f m1) (for_range n f m2).
Proof.
  intros Hf. unfold for_range. assert (forall k lo m1 m2, 0 <= lo -> lo + Z.of_nat k <= Z.max 0 n -> agree m1 m2 ->
    agree (for_loop k lo f m1) (for_loop k lo f m2)) as Hl; [|apply Hl; lia].
  intros k. induction k as [|k IH]; intros lo a1 a2 Hlo Hk Ha; cbn [for_loop]; [done|]. apply IH; [lia|lia|]. apply Hf; [lia|done].
Qed.
End Blit.

(** C39: [exoimg_validate] accepts exactly the files that hold a picture: the magic,
    both sides from 1 to 4096, the RGBA format, at most 32 MiB of pixels and all
    of them inside the file.  What is drawn of an accepted picture depends on
    the bytes of the file and the screen only, wherever it is placed and however
    it is clipped. *)
Theorem exoimg_picture_confined m data size h :
  (exoimg_validate m data size = Some h <-> picture m data size h) /\
  forall fb x y m1 m2, fb_ok fb -> exoimg_validate m data size = Some h -> agree fb data size m1 m2 ->
    agree fb data size
      (framebuffer_blit_rgba8888 fb x y (Bootlogo.width h) (Bootlogo.height h) (data + SIZEOF_EXOIMG_HEADER) (u32 (Bootlogo.width h * 4)) m1).1
      (framebuffer_blit_rgba8888 fb x y (Bootlogo.width h) (Bootlogo.height h) (data + SIZEOF_EXOIMG_HEADER) (u32 (Bootlogo.width h * 4)) m2).1.
Proof.
  split; [apply exoimg_validate_spec|]. intros fb x y m1 m2 Hfb Hv Ha.
  apply exoimg_validate_spec in Hv as (_ & _ & _ & _ & _ & Hw & Hh & _ & Hsz).
  unfold EXOIMG_MAX_DIM, SIZEOF_EXOIMG_HEADER in *. set (w := Bootlogo.width h) in *. set (g := Bootlogo.height h) in *.
  unfold framebuffer_blit_rgba8888. do 2 (case_test; [done|]). rewrite (u32_small (w * 4)) by lia.
  rewrite (proj2 (Z.eqb_neq (w * 4) 0)), (proj2 (Z.ltb_ge _ (w * 4))) by lia. cbn [fst].
  assert (forall n v lim, clip n v lim <= n) as Hclip by (intros n v lim; unfold clip; destruct (Z.ltb_spec (lim - v) n); lia).
  pose proof (Hclip w x (logical_width fb)) as Hcw. pose proof (Hclip g y (logical_height fb)) as Hch.
  apply for_range_agree; [|done]. intros row a1 a2 Hrow Ha1. apply for_range_agree; [|done]. intros col b1 b2 Hcol Ha2.
  assert (row * (w * 4) + w * 4 <= g * (w * 4)) by nia. assert (g * (w * 4) <= 67108864) by nia. assert (0 <= row * (w * 4)) by nia.
  rewrite (u32_small (row * (w * 4))), (u32_small (col * 4)) by lia. apply blend_pixel_agree; [done|lia|lia|done].
Qed.

(** ** The progress bar *)

(** The bar lies inside the width of the screen, and is filled up to its end
    exactly at 100 percent. *)
Lemma bar_inside fb l : 0 < logical_width fb < 4294967296 ->
  let b := bar_layout fb l in
  0 <= bar_x b /\ 0 < bar_w b /\ bar_x b + bar_w b <= logical_width fb /\ u32 (bar_w b * 100) / 100 = bar_w b.
Proof.
  intros Hw. unfold bar_layout, centre, BAR_WIDTH. cbn. unfold framebuffer_width.
  set (maxw := if 40 <? logical_width fb then _ else _).
  assert (0 < maxw <= logical_width fb) as Hm by (unfold maxw; destruct (Z.ltb_spec 40 (logical_width fb)); lia).
  set (w := if maxw <? 360 then maxw else 360). assert (0 < w <= maxw /\ w <= 360) as [H1 H2] by (unfold w; destruct (Z.ltb_spec maxw 360); lia).
  rewrite u32_small by lia. rewrite Z.div_mul by lia. destruct (Z.ltb_spec w (logical_width fb)) as [Hlt|Hge]; [|lia].
  pose proof (Z.div_mod (logical_width fb - w) 2). pose proof (Z.mod_pos_bound (logical_width fb - w) 2). lia.
Qed.

Definition demo_picture : gmap Z Z := store_bytes ∅ 0x3000 (MAGIC ++ le_bytes 4 1 ++ le_bytes 4 1 ++ le_bytes 4 1 ++ le_bytes 4 4 ++ [1; 2; 3; 255]).
Lemma exoimg_picture_confined_witness :
  picture demo_picture 0x3000 28 (Exoimg 1 1 1 4).
Proof. apply (proj1 (exoimg_picture_confined demo_picture 0x3000 28 (Exoimg 1 1 1 4))). by vm_compute. Defined.
