(* ===== verification/Modules.v ===== *)
(** * kernel/modexec.c, kernel/mpy_loader.c, kernel/fatfs.c: modules and sectors

    Boot modules run as machine code, Python modules handed to the interpreter as
    a generated program, and the sector reader above the disk driver.  What the
    code of a module does, the interpreter and the driver are parameters. *)

From Stdlib Require Import ZArith Lia.
From stdpp Require Import base numbers gmap strings fin_maps option list.
From S2P Require Import Prelude MemUtils Heap HeapTheorems Allocator MemCtx Vfs ProcTable Proc Fat32 Framebuffer Machine Serial Console Digits DebugLog ErrorText Idt Kernel.

Local Open Scope Z_scope.

(** ** modexec.c *)

Definition MODULE_BASE_ADDR : Z := 0x00200000.

Section Modules.
Context {L : Layout} {Hw : Type} `{Hardware Hw}.
Context (entry : kernel Hw -> outcome (kernel Hw)).
Context (mp_runtime_exec : Z -> Z -> list Z -> kernel Hw -> outcome (kernel Hw)).
Implicit Types k : kernel Hw.

Definition puts k (s : list Z) : outcome (kernel Hw) := on_mach k (fun m => console_puts m (Some s)).

(** The module of that name: its start and length. *)
Fixpoint named_module (n : nat) k (mods i : Z) (name : list Z) : option (Z * Z) :=
  match n with
  | O => None
  | S n =>
      let word j := rd_le 4 (ProcTable.ram k) (mods + 16 * i + 4 * j) in
      if bool_decide (path_at k (word 2) = Some name) then Some (word 0, u32 (word 1 - word 0))
      else named_module n k mods (i + 1) name
  end.
(** [g_mbi] is the multiboot block given to [modexec_set_mbi]. *)
Definition modexec_run k (g_mbi : Z) (name : list Z) : outcome (kernel Hw * Z) :=
  if g_mbi =? 0 then Ret (k, -1) else
  let word off := rd_le 4 (ProcTable.ram k) (g_mbi + off) in
  match named_module (Z.to_nat (word 20)) k (word 24) 0 name with
  | Some (src, size) =>
      let k := ProcTable.set_ram k (memcpy (ProcTable.ram k) MODULE_BASE_ADDR src size) in
      k ← puts k (str "exec.o ");
      k ← puts k name;
      k ← on_mach k (fun m => console_putc m 10);
      k ← entry k;
      Ret (k, 0)
  | None => k ← puts k (str "exec.o failed: not found
"); Ret (k, -1)
  end.

(** ** mpy_loader.c *)

Record mpymod_entry_t := Mpymod { name : list Z; source : list Z }.

(** Characters that take two bytes in the literal. *)
Definition special (c : Z) : bool := (c =? 92) || (c =? 34) || (c =? 10) || (c =? 13).
Definition esc_len (s : list Z) : Z := Z.of_nat (length (filter (fun c => special c = true) s)).
Definition escape_char (c : Z) : list Z :=
  if c =? 10 then [92; 110] else if c =? 13 then [92; 114]
  else if (c =? 92) || (c =? 34) then [92; c] else [c].
Definition escape (s : list Z) : list Z := s ≫= escape_char.

(** The program, and the size of the buffer it is built in. *)
Definition loader_text (m : mpymod_entry_t) : list Z :=
  str "import env
" ++ str "env._mpymod_exec('" ++ name m ++ [39; 44; 32; 34] ++ escape (source m) ++ [34; 41; 10].
Definition loader_total (m : mpymod_entry_t) : Z :=
  u64 (Z.of_nat (length (name m)) * 2 + Z.of_nat (length (source m)) + esc_len (source m) + 160).

Definition load_module k (m : mpymod_entry_t) : outcome (kernel Hw) :=
  let total := loader_total m in
  '(k, buf) ← kalloc k total;
  if buf =? 0 then Ret k else
  let text := loader_text m in
  let k := store k buf (text ++ [0]) in
  k ← on_mach k (fun h => h ← serial_write h (str "mpy:
"); h ← serial_write h (until_nul text); serial_write h [10]);
  k ← mp_runtime_exec buf (Z.of_nat (length text)) (name m) k;
  kfree k buf total.
Fixpoint mpymod_load_all k (table : list mpymod_entry_t) : outcome (kernel Hw) :=
  match table with [] => Ret k | m :: table => k ← load_module k m; mpymod_load_all k table end.
End Modules.

(** ** fatfs.c *)

Section Fatfs.
Context {D : Type}.
(** The driver: reading and writing [count] sectors, 0 for success. *)
Context (ata_pio_read : D -> Z -> nat -> D * option (list Z)) (ata_pio_write : D -> Z -> list Z -> D * Z).

(** "FAT" at one of the positions 54 to 61. *)
Definition names_fat (sector : list Z) : bool :=
  existsb (fun i => (sector !!! i =? 70) && (sector !!! S i =? 65) && (sector !!! S (S i) =? 84)) (seq 54 8).
Definition fat_mount (d : D) (lba_start : Z) : D * Z * Z :=
  match ata_pio_read d lba_start 1 with
  | (d, None) => (d, lba_start, -1)
  | (d, Some sector) =>
      if negb (sector !!! 510%nat =? 0x55) || negb (sector !!! 511%nat =? 0xAA) then (d, lba_start, -1)
      else (d, lba_start, if names_fat sector then 0 else -1)
  end.
Definition fat_read (d : D) (fat_start_lba lba : Z) (count : nat) : D * option (list Z) := ata_pio_read d (u32 (fat_start_lba + lba)) count.
Definition fat_write (d : D) (fat_start_lba lba : Z) (bs : list Z) : D * Z := ata_pio_write d (u32 (fat_start_lba + lba)) bs.
Fixpoint scan_loop (n : nat) (d : D) (fat_start_lba i bad : Z) : D * Z :=
  match n with
  | O => (d, bad)
  | S n => let '(d, r) := ata_pio_read d (u32 (fat_start_lba + i)) 1 in
           scan_loop n d fat_start_lba (i + 1) (match r with Some _ => bad | None => bad + 1 end)
  end.
Definition fat_scan_bad_sectors (d : D) (fat_start_lba : Z) : D * Z := scan_loop 16 d fat_start_lba 0 0.
End Fatfs.

(** ** The generated program *)

(** The characters of a Python string literal in double quotes, up to its end,
    and what follows it; a bare line end is an error. *)
Fixpoint read_literal (s : list Z) : option (list Z * list Z) :=
  match s with
  | [] => None
  | c :: s =>
      if c =? 34 then Some ([], s)
      else if (c =? 10) || (c =? 13) then None
      else if c =? 92 then
        match s with
        | e :: s => '(t, r) ← read_literal s;
                    d ← (if e =? 110 then Some 10 else if e =? 114 then Some 13 else if (e =? 92) || (e =? 34) then Some e else None);
                    Some (d :: t, r)
        | [] => None
        end
      else '(t, r) ← read_literal s; Some (c :: t, r)
  end.

Lemma read_escape s rest : read_literal (escape s ++ 34 :: rest) = Some (s, rest).
Proof.
  induction s as [|c s IH]; [done|]. unfold escape. cbn [mbind list_bind]. fold (s ≫= escape_char). fold (escape s).
  rewrite <- app_assoc. unfold escape_char. destruct (Z.eqb_spec c 10) as [->|H10]; [cbn; by rewrite IH|].
  destruct (Z.eqb_spec c 13) as [->|H13]; [cbn; by rewrite IH|].
  destruct (Z.eqb_spec c 92) as [->|H92]; [cbn; by rewrite IH|].
  destruct (Z.eqb_spec c 34) as [->|H34]; [cbn; by rewrite IH|].
  cbn [orb app]. cbn [read_literal]. rewrite (proj2 (Z.eqb_neq c 34)), (proj2 (Z.eqb_neq c 10)), (proj2 (Z.eqb_neq c 13)), (proj2 (Z.eqb_neq c 92)) by done.
  cbn [orb]. by rewrite IH.
Qed.
Lemma length_escape_char c : length (escape_char c) = if special c then 2%nat else 1%nat.
Proof.
  unfold escape_char, special. destruct (c =? 10); [by rewrite !orb_true_r|]. destruct (c =? 13); [by rewrite !orb_true_r|].
  destruct (c =? 92); [done|]. by destruct (c =? 34).
Qed.
Lemma length_escape s : Z.of_nat (length (escape s)) = Z.of_nat (length s) + esc_len s.
Proof.
  induction s as [|c s IH]; [done|]. unfold escape, esc_len in *. cbn [mbind list_bind]. rewrite filter_cons, length_app.
  fold (s ≫= escape_char). rewrite length_escape_char. destruct (special c); [rewrite decide_True by done|rewrite decide_False by done]; cbn [length]; lia.
Qed.

(** C40: The generated program fits the buffer allocated for it, terminator
    included, for every module, and the literal it passes to the interpreter
    reads back as exactly the source of the module. *)
Theorem loader_text_exact m :
  Z.of_nat (length (name m)) * 2 + 2 * Z.of_nat (length (source m)) + 160 < 2 ^ 64 ->
  Z.of_nat (length (loader_text m)) + 1 <= loader_total m /\
  exists head, loader_text m = head ++ [34] ++ escape (source m) ++ [34; 41; 10] /\
    head = str "import env
env._mpymod_exec('" ++ name m ++ [39; 44; 32] /\
    read_literal (escape (source m) ++ [34; 41; 10]) = Some (source m, [41; 10]).
Proof.
  intros Hsz. assert (0 <= esc_len (source m) <= Z.of_nat (length (source m))) as He
    by (unfold esc_len; pose proof (length_filter (fun c => special c = true) (source m)); lia).
  split.
  - unfold loader_total. rewrite u64_small by lia. unfold loader_text. rewrite !length_app.
    pose proof (length_escape (source m)). change (length (str "import env
")) with 11%nat. change (length (str "env._mpymod_exec('")) with 18%nat. cbn [length]. lia.
  - eexists. split_and!; [|done|apply read_escape]. unfold loader_text. by rewrite <- !app_assoc.
Qed.
Lemma loader_text_exact_witness : exists m, length (source m) = 4%nat /\ Z.of_nat (length (loader_text m)) + 1 <= loader_total m.
Proof.
  exists (Mpymod (str "m") [97; 34; 10; 92]). split; [done|].
  apply (loader_text_exact (Mpymod (str "m") [97; 34; 10; 92])). cbn. lia.
Defined.
