(* ===== verification/Keyboard.v ===== *)
(** * The keyboard of kernel/console.c: what typing delivers

    Scan codes arrive at the controller at their own pace; [console_getc] polls
    it and the serial port, translates, and queues the escape sequences of the
    arrow keys.  The theorems read the whole as a transducer from the sequence
    of keys to a sequence of characters, and as a liveness property: a reader
    is served as soon as a key that types something was pressed. *)

From Stdlib Require Import ZArith Lia.
From stdpp Require Import base numbers gmap strings fin_maps option list.
From S2P Require Import Prelude MemUtils Vram Framebuffer VgaDraw Bootmode Digits Machine Serial Console ConsoleRing ConsoleProofs Heap HeapTheorems Allocator MemCtx Vfs ProcTable Proc Fat32 DebugLog ErrorText Idt Kernel Syscall SyscallTheorems.

Local Open Scope Z_scope.

(** ** The controller

    The scan codes to come, each with the number of polls of the status port
    that find nothing before it.  [ps2_quiet]: nothing arrives on the serial
    line. *)
Class Ps2 (Hw : Type) `{Hardware Hw} := {
  ps2_due : Hw -> list (nat * Z);
  ps2_quiet : Hw -> Prop;
  ps2_wait_law h n sc r : ps2_due h = (S n, sc) :: r ->
    Z.land (u8 (hw_in h 0x64).2) 1 = 0 /\ ps2_due (hw_in h 0x64).1 = (n, sc) :: r;
  ps2_ready_law h sc r : ps2_due h = (O, sc) :: r ->
    Z.land (u8 (hw_in h 0x64).2) 1 <> 0 /\ Z.land (u8 (hw_in h 0x64).2) 0x20 = 0 /\
    ps2_due (hw_in h 0x64).1 = ps2_due h;
  ps2_data_law h sc r : ps2_due h = (O, sc) :: r ->
    u8 (hw_in h 0x60).2 = sc /\ ps2_due (hw_in h 0x60).1 = r;
  ps2_quiet_law h port : ps2_quiet h -> ps2_quiet (hw_in h port).1;
  ps2_serial_law h : ps2_quiet h ->
    Z.land (u8 (hw_in h UART_STATUS).2) 1 = 0 /\ ps2_due (hw_in h UART_STATUS).1 = ps2_due h
}.

(** The polls until the last key has been read. *)
Definition due_time (l : list (nat * Z)) : nat := sum_list_with (fun d => S d.1) l.

Lemma due_time_cons n sc l : due_time ((n, sc) :: l) = (S n + due_time l)%nat.
Proof. done. Qed.

(** ** The transducer *)

(** The letter that ends the escape sequence of an arrow key. *)
Definition arrow (sc : Z) : option Z :=
  if sc =? 0x48 then Some 65 else if sc =? 0x50 then Some 66
  else if sc =? 0x4B then Some 68 else if sc =? 0x4D then Some 67 else None.

(** What one scan code types when shift is held and the code follows the prefix
    0xE0 or not, and both facts for the next code. *)
Definition type_key (shift extended : bool) (sc : Z) : bool * bool * list Z :=
  if sc =? 0xE0 then (shift, true, [])
  else if negb (Z.land sc 0x80 =? 0) then
    (if (Z.land sc 0x7F =? 0x2A) || (Z.land sc 0x7F =? 0x36) then false else shift, false, [])
  else if (sc =? 0x2A) || (sc =? 0x36) then (true, false, [])
  else match arrow sc with
       | Some final => (shift, false, if extended then [27; 91; final] else [])
       | None => match keymap sc with
                 | Some (normal, shifted) => (shift, false, [if shift then shifted else normal])
                 | None => (shift, false, [])
                 end
       end.
Fixpoint typed (shift extended : bool) (keys : list Z) : list Z :=
  match keys with
  | [] => []
  | sc :: keys => let '(s, e, out) := type_key shift extended sc in out ++ typed s e keys
  end.

Section Keymap.
(** ** The key map *)

Lemma keymap_out sc : ~ 0 <= sc < 58 -> keymap sc = None.
Proof.
  intros Ho. unfold keymap. cbv beta zeta.
  repeat (match goal with |- context [?x =? ?y] => destruct (Z.eqb_spec x y); [lia|] end).
  destruct (Z.leb_spec sc 0x0D); [by destruct (Z.ltb_spec sc 2); [|lia]|].
  repeat (match goal with |- context [?x <=? ?y] => destruct (Z.leb_spec x y); [lia|] end). done.
Qed.
Lemma keymap_types sc a b : keymap sc = Some (a, b) -> 0 < a < 256 /\ 0 < b < 256.
Proof.
  intros E. destruct (decide (0 <= sc < 58)) as [Hi|Ho]; [|by rewrite keymap_out in E].
  assert (forallb (fun sc => match keymap sc with Some (a, b) => (0 <? a) && (a <? 256) && ((0 <? b) && (b <? 256)) | None => true end) (seqZ 0 58) = true)
    as Hall by (vm_compute; reflexivity).
  rewrite forallb_forall in Hall. specialize (Hall sc). rewrite E, <- list_elem_of_In, elem_of_seqZ in Hall.
  specialize (Hall ltac:(lia)). prop_bools. lia.
Qed.
Lemma arrow_final sc f : arrow sc = Some f -> 0 < f < 256.
Proof. unfold arrow. repeat case_match; intros [= <-]; lia. Qed.
Lemma type_key_chars s e sc : Forall (fun c => 0 < c < 256) (type_key s e sc).2.
Proof.
  unfold type_key. repeat (case_test; [by constructor|]). destruct (arrow sc) as [f|] eqn:Ef; [|destruct (keymap sc) as [[a b]|] eqn:Ek].
  - apply arrow_final in Ef. destruct e; repeat constructor; lia.
  - apply keymap_types in Ek. destruct s; repeat constructor; lia.
  - constructor.
Qed.
Lemma typed_chars s e keys : Forall (fun c => 0 < c < 256) (typed s e keys).
Proof.
  revert s e. induction keys as [|sc keys IH]; intros s e; cbn [typed]; [constructor|].
  pose proof (type_key_chars s e sc) as Hk. destruct (type_key s e sc) as [[s' e'] out]. by apply Forall_app.
Qed.
End Keymap.

Section Keyboard.
Context {Hw : Type} `{Ps2 Hw}.
Implicit Types m : machine Hw.

(** What is queued of an escape sequence. *)
Definition pending (k : keyboard) : list Z := drop (Z.to_nat (pending_pos k)) (take (Z.to_nat (pending_len k)) (pending_input k)).

(** The characters a reader will get. *)
Definition remaining m : list Z :=
  pending (kbd (con m)) ++ typed (kbd_shift (kbd (con m))) (kbd_extended (kbd (con m))) (snd <$> ps2_due (hw m)).

Record kbd_ok m : Prop := KbdOk {
  k_con : con_ok m;
  k_quiet : ps2_quiet (hw m);
  k_pos : 0 <= pending_pos (kbd (con m));
  k_len : 0 <= pending_len (kbd (con m)) <= Z.of_nat (length (pending_input (kbd (con m))))
}.

(** ** One key *)

(** The state of the keyboard after a scan code that was read with an empty
    queue, and the character it delivers at once, 0 for none. *)
Lemma scancode_types m sc : pending (kbd (con m)) = [] -> 0 <= pending_pos (kbd (con m)) ->
  0 <= pending_len (kbd (con m)) <= Z.of_nat (length (pending_input (kbd (con m)))) ->
  let '(s, e, out) := type_key (kbd_shift (kbd (con m))) (kbd_extended (kbd (con m))) sc in
  exists k, scancode_to_ascii m sc = (set_kbd m k, List.hd 0 out) /\
    kbd_shift k = s /\ kbd_extended k = e /\ pending k = tail out /\
    0 <= pending_pos k /\ 0 <= pending_len k <= Z.of_nat (length (pending_input k)).
Proof.
  intros Hp Hpos Hlen. unfold type_key, scancode_to_ascii, queue_escape_sequence, arrow. set (k := kbd (con m)) in *.
  destruct (sc =? 0xE0); [by exists (set_extended k true)|].
  destruct (negb (Z.land sc 0x80 =? 0)).
  { exists (if (Z.land sc 0x7F =? 0x2A) || (Z.land sc 0x7F =? 0x36) then set_shift (set_extended k false) false else set_extended k false).
    by case_test. }
  destruct (_ || _); [by exists (set_shift (set_extended k false) true)|].
  assert (forall f, exists k', (if kbd_extended k then (set_kbd (set_kbd m (set_extended k false)) (Keyboard (kbd_shift k) false [27; 91; f] 3 1), 27)
      else (set_kbd m (set_extended k false), 0)) = (set_kbd m k', List.hd 0 (if kbd_extended k then [27; 91; f] else [])) /\
    kbd_shift k' = kbd_shift k /\ kbd_extended k' = false /\ pending k' = tail (if kbd_extended k then [27; 91; f] else []) /\
    0 <= pending_pos k' /\ 0 <= pending_len k' <= Z.of_nat (length (pending_input k'))) as Harrow.
  { intros f. destruct (kbd_extended k).
    - exists (Keyboard (kbd_shift k) false [27; 91; f] 3 1). split_and!; cbn; done || lia.
    - exists (set_extended k false). split_and!; cbn; done || lia. }
  do 4 (case_test; [apply Harrow|]).
  destruct (keymap sc) as [[a b]|]; exists (set_extended k false).
  - change (kbd_shift (kbd (con (set_kbd m (set_extended k false))))) with (kbd_shift k). split_and!; try done; apply Hlen.
  - split_and!; try done; apply Hlen.
Qed.

(** ** Reading a character *)

(** The display hold is released before a character is handed out. *)
Lemma release_ok m : con_ok m ->
  exists m', console_release_display_hold m = Ret m' /\ con_ok m' /\ hw m' = hw m /\ kbd (con m') = kbd (con m) /\
    display_hold (con m') = false /\ (display_hold (con m) = false -> m' = m).
Proof.
  intros Hok. unfold console_release_display_hold. destruct (display_hold (con m)) eqn:Eh; cbn [negb]; [|by exists m].
  assert (con_ok (set_hold m false)) as Hok1 by (by destruct Hok).
  destruct (draw_screen_ok _ Hok1) as (m' & -> & Ho). exists m'. pose proof (only_ram_ok _ _ Ho Hok1). destruct Ho as [r ->]. by split_and!.
Qed.

Lemma set_kbd_ok m k : con_ok m -> con_ok (set_kbd m k).
Proof. by intros []. Qed.
Lemma set_hw_ok m h : con_ok m -> con_ok (set_hw m h).
Proof. by intros []. Qed.

(** The serial port is asked first, and has nothing. *)
Lemma serial_idle m : ps2_quiet (hw m) ->
  exists h, serial_read_ready m = (set_hw m h, false) /\ ps2_quiet h /\ ps2_due h = ps2_due (hw m).
Proof.
  intros Hq. unfold serial_read_ready, inb. destruct (ps2_serial_law _ Hq) as [Hz Hd]. pose proof (ps2_quiet_law _ UART_STATUS Hq).
  destruct (hw_in (hw m) UART_STATUS) as [h v]. cbn in *. exists h. by rewrite Hz.
Qed.
(** The controller, when it has a code and when it does not yet. *)
Lemma ps2_poll m n sc r : ps2_quiet (hw m) -> ps2_due (hw m) = (n, sc) :: r ->
  exists h, ps2_try_read_scancode m = (set_hw m h, if n is O then Some sc else None) /\ ps2_quiet h /\
    ps2_due h = (if n is S n then (n, sc) :: r else r).
Proof.
  intros Hq Hd. unfold ps2_try_read_scancode, inb. pose proof (ps2_quiet_law _ 0x64 Hq) as Hq1. destruct n as [|n].
  - destruct (ps2_ready_law _ _ _ Hd) as (H1 & H2 & H3). destruct (hw_in (hw m) 0x64) as [h v]. cbn in *.
    rewrite (proj2 (Z.eqb_neq _ _) H1), H2. cbn. pose proof (ps2_quiet_law _ 0x60 Hq1).
    rewrite <- H3 in Hd. destruct (ps2_data_law _ _ _ Hd) as [Hv Hr]. destruct (hw_in h 0x60) as [h2 v2]. cbn in *.
    exists h2. by rewrite Hv.
  - destruct (ps2_wait_law _ _ _ _ Hd) as (H1 & H2). destruct (hw_in (hw m) 0x64) as [h v]. cbn in *.
    rewrite H1. by exists h.
Qed.

Lemma pending_cons k : 0 <= pending_pos k -> 0 <= pending_len k <= Z.of_nat (length (pending_input k)) ->
  if pending_pos k <? pending_len k
  then pending k = default 0 (pending_input k !! Z.to_nat (pending_pos k)) ::
         pending (Keyboard (kbd_shift k) (kbd_extended k) (pending_input k) (pending_len k) (pending_pos k + 1))
  else pending k = [].
Proof.
  intros Hp Hl. unfold pending. cbn. destruct (Z.ltb_spec (pending_pos k) (pending_len k)) as [Hlt|Hge].
  - destruct (pending_input k !! Z.to_nat (pending_pos k)) as [x|] eqn:E; [|apply lookup_ge_None in E; lia].
    rewrite (drop_S _ x) by (by rewrite lookup_take_lt by lia). cbn. do 2 f_equal. lia.
  - apply drop_ge. rewrite length_take. lia.
Qed.

(** What a read leaves: the rest of the text, and the screen released. *)
Definition read_to m m' (rest : list Z) : Prop :=
  kbd_ok m' /\ remaining m' = rest /\ (due_time (ps2_due (hw m')) <= due_time (ps2_due (hw m)))%nat /\
  display_hold (con m') = false /\ (display_hold (con m) = false -> mram m' = mram m).

(** The end of a read: the character is handed out in the state [k] of the keyboard. *)
Lemma deliver m m1 k rest : kbd_ok m -> only_hw m (set_kbd m1 (kbd (con m))) -> con_ok m1 -> ps2_quiet (hw m1) ->
  (due_time (ps2_due (hw m1)) <= due_time (ps2_due (hw m)))%nat ->
  0 <= pending_pos k -> 0 <= pending_len k <= Z.of_nat (length (pending_input k)) ->
  pending k ++ typed (kbd_shift k) (kbd_extended k) (snd <$> ps2_due (hw m1)) = rest ->
  exists m', console_release_display_hold m1 = Ret m' /\ read_to m (set_kbd m' k) rest.
Proof.
  intros Hok [h Eh] Hc Hq Hd Hp Hl Hr. destruct (release_ok m1 Hc) as (m' & -> & Hc' & Eh' & Ek & Hhold & Hsame).
  exists m'. split; [done|]. pose proof (f_equal mram Eh) as Em. pose proof (f_equal (fun m => display_hold (con m)) Eh) as Ehold. cbn in Em, Ehold.
  split_and!; [split|..]; cbn; rewrite ?Eh'; try done.
  - by apply set_kbd_ok.
  - by unfold remaining; cbn; rewrite Eh'.
  - intros Hf. rewrite Hsame by congruence. done.
Qed.
(** The machine with another keyboard and another device state. *)
Definition polled m (k : keyboard) (h : Hw) : machine Hw := set_hw (set_kbd m k) h.
Lemma polled_ok m k h : con_ok m -> con_ok (polled m k h).
Proof. by intros []. Qed.
Lemma set_kbd_same m : set_kbd m (kbd (con m)) = m.
Proof. by destruct m as [? ? ? ? ? ? ? []]. Qed.
Lemma polled_only m k h : only_hw m (set_kbd (polled m k h) (kbd (con m))).
Proof. exists h. by destruct m as [? ? ? ? ? ? ? []]. Qed.
Lemma read_to_polled m k h m' rest : (due_time (ps2_due h) <= due_time (ps2_due (hw m)))%nat ->
  read_to (polled m k h) m' rest -> read_to m m' rest.
Proof. intros Hd (H1 & H2 & H3 & H4 & H5). cbn in H3, H5. split_and!; try done. lia. Qed.

(** One round of the loop delivers the next character or polls on with less
    to wait for. *)
Lemma getc_round fuel m c rest : kbd_ok m -> remaining m = c :: rest ->
  (exists m', getc_loop fuel m = Ret (m', c) /\ read_to m m' rest) \/
  (exists k h, kbd_ok (polled m k h) /\ remaining (polled m k h) = c :: rest /\
     (due_time (ps2_due h) < due_time (ps2_due (hw m)))%nat /\
     getc_loop fuel m = match fuel with O => Timeout | S fuel => getc_loop fuel (polled m k h) end).
Proof.
  intros Hok Hr. pose proof Hok as [Hc Hq Hp Hl]. pose proof (pending_cons _ Hp Hl) as Hpc. unfold remaining in Hr.
  assert (getc_loop fuel m = match fuel with O => getc_loop 0 m | S f => getc_loop (S f) m end) as E by by destruct fuel.
  set (k := kbd (con m)) in *. destruct (pending_pos k <? pending_len k) eqn:Elt.
  - left. rewrite Hpc in Hr. injection Hr as <- Hr. set (k' := Keyboard _ _ _ _ _) in *.
    destruct (deliver m m k' rest) as (m' & Er & Hto); try done; [rewrite set_kbd_same; apply only_hw_refl|cbn; lia|].
    exists (set_kbd m' k'). split; [|done]. destruct fuel; cbn [getc_loop]; fold k; rewrite Elt, Er; done.
  - rewrite Hpc in Hr. cbn in Hr. set (k0 := Keyboard (kbd_shift k) (kbd_extended k) (pending_input k) 0 0).
    destruct (serial_idle (set_kbd m k0) Hq) as (h1 & Es & Hq1 & Hd1). cbn in Hd1.
    destruct (ps2_due (hw m)) as [|[n sc] r] eqn:Ed; [done|].
    destruct (ps2_poll (set_hw (set_kbd m k0) h1) n sc r Hq1 Hd1) as (h2 & Ep & Hq2 & Hd2).
    assert (getc_loop fuel m = let '(m1, t) := (match (if n is O then Some sc else None) with
        Some sc => scancode_to_ascii (polled m k0 h2) sc | None => (polled m k0 h2, 0) end) in
        if negb (t =? 0) then m2 ← console_release_display_hold m1; Ret (m2, t)
        else match fuel with O => Timeout | S fuel => getc_loop fuel m1 end) as ->.
    { destruct fuel; cbn [getc_loop]; fold k k0; rewrite Elt, Es, Ep; done. }
    clear E. destruct n as [|n].
    + pose proof (scancode_types (polled m k0 h2) sc eq_refl ltac:(done) ltac:(cbn; lia)) as Ht.
      cbn [fmap list_fmap snd typed] in Hr. change (kbd (con (polled m k0 h2))) with k0 in Ht. cbn [kbd_shift kbd_extended k0] in Ht.
      pose proof (type_key_chars (kbd_shift k) (kbd_extended k) sc) as Hch.
      destruct (type_key (kbd_shift k) (kbd_extended k) sc) as [[s e] out]. destruct Ht as (k1 & -> & <- & <- & Hpk & Hp1 & Hl1).
      change (set_kbd (polled m k0 h2) k1) with (polled m k1 h2). destruct out as [|d out].
      * right. exists k1, h2. cbn [List.hd]. split; [split; [by apply polled_ok|done..]|].
        split; [unfold remaining; cbn; by rewrite Hpk, Hd2|]. split; [rewrite Hd2, !due_time_cons; lia|done].
      * left. cbn [List.hd]. apply Forall_cons in Hch as [Hd _]. rewrite (proj2 (Z.eqb_neq d 0)) by lia. cbn [negb]. injection Hr as -> Hr.
        destruct (deliver m (polled m k1 h2) k1 rest) as (m' & Er & Hto); try done; [apply polled_only|by apply polled_ok|cbn; rewrite Hd2, Ed, due_time_cons; lia|by rewrite Hpk; cbn; rewrite Hd2|].
        destruct (release_ok (polled m k1 h2)) as (m2 & Er2 & _ & _ & Ek & _); [by apply polled_ok|].
        rewrite Er in Er2. injection Er2 as <-. rewrite Er. cbn [mbind outcome_bind]. exists m'. split; [done|].
        change k1 with (kbd (con (polled m k1 h2))) in Hto. rewrite <- Ek, set_kbd_same in Hto. exact Hto.
    + right. exists k0, h2. split; [split; [by apply polled_ok|cbn; done || lia..]|].
      split; [unfold remaining; cbn; by rewrite Hd2|]. split; [rewrite Hd2, !due_time_cons; lia|done].
Qed.

Lemma getc_loop_reads fuel m c rest : kbd_ok m -> (due_time (ps2_due (hw m)) <= fuel)%nat -> remaining m = c :: rest ->
  exists m', getc_loop fuel m = Ret (m', c) /\ read_to m m' rest.
Proof.
  revert m. induction fuel as [|fuel IH]; intros m Hok Hf Hr;
    (lazymatch goal with |- context [getc_loop ?f m] => destruct (getc_round f m c rest Hok Hr) as [Hd|(k & h & Hok' & Hr' & Hlt & ->)] end;
     [exact Hd|]); [lia|].
  destruct (IH (polled m k h) Hok') as (m' & Er & Hto); [cbn; lia|done|]. exists m'. split; [done|].
  eapply read_to_polled; [|exact Hto]. lia.
Qed.

(** A reader of the console is served: when what is queued and the scan codes to
    come type at least one character, within the polls the loop takes,
    [console_getc] returns the first one, whatever the gaps between the codes,
    and leaves exactly the rest of the text to be read. *)
Theorem keyboard_delivers m c rest :
  kbd_ok m -> (due_time (ps2_due (hw m)) <= hw_polls)%nat -> remaining m = c :: rest ->
  exists m', console_getc m = Ret (m', c) /\ read_to m m' rest.
Proof. apply getc_loop_reads. Qed.
End Keyboard.

(** ** Reading through the system call *)

Section Read.
Context {L : Layout} {Hw : Type} `{Ps2 Hw}.
Context (run : Z -> Z -> kernel Hw -> outcome (kernel Hw)).
Context (mp_exec : Z -> Z -> list Z -> kernel Hw -> outcome (kernel Hw)).
Implicit Types k : kernel Hw.

Lemma set_mram_same (m : machine Hw) : set_mram m (mram m) = m.
Proof. by destruct m. Qed.
Lemma mach_put k (m : machine Hw) : mach (put_mach k m) = m.
Proof. apply set_mram_same. Qed.
Lemma mach_store k a bs : mach (store k a bs) = set_mram (mach k) (store_bytes (mram (mach k)) a bs).
Proof. done. Qed.
Lemma ram_mach k : ProcTable.ram k = mram (mach k).
Proof. done. Qed.
Lemma kbd_ok_mram (m : machine Hw) r : kbd_ok m -> kbd_ok (set_mram m r).
Proof. by intros [[] ? ? ?]. Qed.

(** Before round [i]: the first [i] characters are stored. *)
Definition read_inv (d : nat) (a : Z) (s rest : list Z) (i : Z) k : Prop :=
  kbd_ok (mach k) /\ (due_time (ps2_due (hw (mach k))) <= d)%nat /\ (0 < i -> display_hold (con (mach k)) = false) /\
  remaining (mach k) = drop (Z.to_nat i) s ++ rest /\ bytes_at (mram (mach k)) a (Z.to_nat i) = take (Z.to_nat i) s.

Lemma read_console_reads k a s rest :
  kbd_ok (mach k) -> (due_time (ps2_due (hw (mach k))) <= hw_polls)%nat -> remaining (mach k) = s ++ rest ->
  Forall (fun c => 0 <= c < 256) s -> Z.of_nat (length s) < 2 ^ 64 ->
  exists k', read_console k a (Z.of_nat (length s)) = Ret (k', Z.of_nat (length s)) /\
    read_inv hw_polls a s rest (Z.of_nat (length s)) k'.
Proof.
  intros Hok Hd Hr Hs Hn. unfold read_console.
  destruct (for_range_m_inv (read_inv hw_polls a s rest) (Z.of_nat (length s)) (fun i k =>
    '(m, c) ← console_getc (mach k); Ret (store (put_mach k m) (a + i) [c])) k) as (k' & -> & Hinv).
  - lia.
  - split_and!; try done.
  - intros i k1 Hi (Hok1 & Hd1 & Hh1 & Hr1 & Hb1). destruct (drop (Z.to_nat i) s) as [|c s'] eqn:Es; [apply (f_equal length) in Es; rewrite length_drop in Es; cbn in Es; lia|].
    destruct (keyboard_delivers _ c (s' ++ rest) Hok1 Hd1 Hr1) as (m & -> & Hok2 & Hr2 & Hd2 & Hh2 & Hm2). cbn [mbind outcome_bind].
    eexists. split; [done|]. unfold read_inv. rewrite mach_store, mach_put.
    replace (Z.to_nat (i + 1)) with (S (Z.to_nat i)) by lia.
    assert (s !! Z.to_nat i = Some c) as Hc by (by rewrite <- (Nat.add_0_r (Z.to_nat i)), <- lookup_drop, Es).
    pose proof (drop_S _ _ _ Hc) as Ed. rewrite Es in Ed. injection Ed as Ed.
    split_and!; [by apply kbd_ok_mram|cbn; lia|done|by rewrite <- Ed|]. cbn [mram set_mram store_bytes].
    rewrite (take_S_r _ _ _ Hc). replace (S (Z.to_nat i)) with (Z.to_nat i + 1)%nat by lia. rewrite bytes_at_app. f_equal.
    + rewrite <- Hb1. destruct (decide (i = 0)) as [->|Hi0]; [done|]. rewrite <- Hm2 by (apply Hh1; lia).
      apply bytes_at_ext. intros b Hb. apply rd_wr_ne. lia.
    + pose proof (Forall_lookup_1 _ _ _ _ Hs Hc) as Hcr. cbn beta in Hcr. by rewrite Z2Nat.id, bytes_at_S, rd_wr_eq, u8_small by lia.
  - exists k'. cbn [mbind outcome_bind]. unfold ret. by rewrite u64_small by lia.
Qed.

(** C18: typing reaches programs: a [SYS_READ] of [n] bytes from the console ends
    once scan codes that type [n] characters have arrived, the program finds
    exactly these characters in its buffer, in order, and what was typed beyond
    them is left for the next read; the gaps between the scan codes do not
    matter. *)
Theorem sys_read_typed k a s rest :
  kbd_ok (mach k) -> (due_time (ps2_due (hw (mach k))) <= hw_polls)%nat -> remaining (mach k) = s ++ rest ->
  Forall (fun c => 0 <= c < 256) s -> Z.of_nat (length s) < 2 ^ 64 ->
  proc_current_valid k = true -> user_ptr_valid k a (Z.of_nat (length s)) = true ->
  exists k', syscall_dispatch run mp_exec k SYS_READ 0 a (Z.of_nat (length s)) = Ret (k', Z.of_nat (length s)) /\
    bytes_at (ProcTable.ram k') a (length s) = s /\ remaining (mach k') = rest.
Proof.
  intros Hok Hd Hr Hs Hn Hv Hp. destruct (read_console_reads k a s rest Hok Hd Hr Hs Hn) as (k' & Er & _ & _ & _ & Hr' & Hb).
  exists k'. unfold syscall_dispatch. rewrite Hv. cbn [negb]. rewrite andb_false_r.
  change (syscall_system run k SYS_READ 0 a (Z.of_nat (length s))) with (Some (checked k a (Z.of_nat (length s)) (read_console k a (Z.of_nat (length s))))).
  unfold checked. rewrite Hp, Er, ram_mach. rewrite Nat2Z.id in Hr', Hb. rewrite Hb, Hr', drop_all, take_ge by done. done.
Qed.
End Read.

(** ** Scan codes that are all waiting *)

#[export, refine] Instance demo_ps2 : Ps2 demo_hw := { ps2_due h := (fun c => (O, u8 c)) <$> keys h; ps2_quiet h := waiting h = [] }.
Proof.
  - intros h n sc r. by destruct (keys h).
  - intros h sc r E. change (hw_in h 0x64) with (h, if keys h is [] then 0 else 1). cbn [fst snd]. split_and!; [| |done];
      destruct (keys h); done.
  - intros h sc r E. change (hw_in h 0x60) with (DemoHw (sent h) (waiting h) (tail (keys h)) (ticks h), default 0 (List.hd_error (keys h))).
    cbn. destruct (keys h) as [|c l]; [done|]. by injection E as <- <-.
  - intros h port E. cbn [hw_in demo_hardware]. repeat (destruct (port =? _); [cbn; by rewrite ?E|]). exact E.
  - intros h E. cbn. by rewrite E.
Defined.

#[local] Existing Instance demo_layout.
(** Shift and h, i, an arrow key, return. *)
Lemma con_ok_mram {Hw} `{Hardware Hw} (m : machine Hw) r : con_ok m -> con_ok (set_mram m r).
Proof. by intros []. Qed.
Definition demo_typing : kernel demo_hw :=
  put_mach demo_kernel (set_hw (mach demo_kernel) (DemoHw [] [] [0x2A; 0x23; 0xAA; 0x17; 0xE0; 0x48; 0x1C] 0)).
Lemma demo_typing_ok : kbd_ok (mach demo_typing).
Proof. unfold demo_typing. rewrite mach_put. split; [|done..]. apply set_hw_ok, (con_ok_mram demo_machine (ProcTable.ram demo_kernel) demo_machine_ok). Qed.
Lemma sys_read_typed_witness :
  exists k', syscall_dispatch no_program no_script demo_typing SYS_READ 0 0x900100 3 = Ret (k', 3) /\
    bytes_at (ProcTable.ram k') 0x900100 3 = [72; 105; 27] /\ remaining (mach k') = [91; 65; 10].
Proof.
  apply (sys_read_typed no_program no_script demo_typing 0x900100 [72; 105; 27] [91; 65; 10] demo_typing_ok);
    [cbn; lia|reflexivity|repeat constructor; lia|cbn; lia|reflexivity|reflexivity].
Defined.
