(* ===== verification/Linkdep.v ===== *)
(** * linkdep: the library linked into modules

    Port access (io.c), the PS/2 keyboard (ps2kbd.c), reading characters
    (console_getc.c), the ATA disk driver (ata_pio.c) and the example library
    (example_lib.c). *)

From Stdlib Require Import ZArith Lia.
From stdpp Require Import base numbers gmap strings fin_maps option list.
From S2P Require Import Prelude MemUtils Vram Framebuffer VgaDraw Bootmode Digits Machine Serial Console ConsoleProofs Keyboard.

Local Open Scope Z_scope.

(** ** io.c *)

(** The instructions beside [inb], [outb] and [rdtsc]. *)
Class WordPorts (Hw : Type) `{Hardware Hw} := {
  hw_inw : Hw -> Z -> Hw * Z;
  hw_outw : Hw -> Z -> Z -> Hw;
  hw_inl : Hw -> Z -> Hw * Z;
  hw_outl : Hw -> Z -> Z -> Hw;
  hw_cpuid : Hw -> Z -> Z * Z * Z * Z
}.

Section Io.
Context {Hw : Type} `{WordPorts Hw}.
Implicit Types m : machine Hw.

Definition io_outb m (port val : Z) : machine Hw := set_hw m (hw_out (hw m) port (u8 val)).
Definition io_inb m (port : Z) : machine Hw * Z := let '(h, v) := hw_in (hw m) port in (set_hw m h, u8 v).
Definition io_outw m (port val : Z) : machine Hw := set_hw m (hw_outw (hw m) port (u16 val)).
Definition io_inw m (port : Z) : machine Hw * Z := let '(h, v) := hw_inw (hw m) port in (set_hw m h, u16 v).
Definition io_outl m (port val : Z) : machine Hw := set_hw m (hw_outl (hw m) port (u32 val)).
Definition io_inl m (port : Z) : machine Hw * Z := let '(h, v) := hw_inl (hw m) port in (set_hw m h, u32 v).
Definition io_wait m : machine Hw := set_hw m (hw_out (hw m) 0x80 0).
Definition io_rdtsc m : machine Hw * Z := let '(h, t) := hw_rdtsc (hw m) in (set_hw m h, u64 t).
Definition io_cpuid m (leaf : Z) : Z * Z * Z * Z :=
  let '(a, b, c, d) := hw_cpuid (hw m) (u32 leaf) in (u32 a, u32 b, u32 c, u32 d).

(** ** ps2kbd.c *)

Definition KBD_DATA : Z := 0x60.
Definition KBD_STATUS : Z := 0x64.

Definition kbd_has_data m : machine Hw * bool :=
  let '(m, v) := io_inb m KBD_STATUS in (m, negb (Z.land v 1 =? 0)).
Definition ps2kbd_try_read_scancode m : machine Hw * option Z :=
  let '(m, ready) := kbd_has_data m in
  if negb ready then (m, None) else
  let '(m, value) := io_inb m KBD_DATA in (m, Some value).
Fixpoint read_scancode_loop (fuel : nat) m : outcome (machine Hw * Z) :=
  match ps2kbd_try_read_scancode m with
  | (m, Some sc) => Ret (m, sc)
  | (m, None) => match fuel with O => Timeout | S fuel => read_scancode_loop fuel m end
  end.
Definition ps2kbd_read_scancode m : outcome (machine Hw * Z) := read_scancode_loop hw_polls m.

(** ** console_getc.c *)

(** The static variables: the prefix seen, what is queued of an escape
    sequence.  Module code has its own copy of them. *)
Record mod_kbd := ModKbd { kbd_extended : bool; pending_input : list Z; pending_len : Z; pending_pos : Z }.
Definition mod_kbd_zero : mod_kbd := ModKbd false [0; 0; 0] 0 0.

Definition queue_escape_sequence (k : mod_kbd) (final : Z) : mod_kbd * Z :=
  (ModKbd (kbd_extended k) [27; 91; final] 3 1, 27).

(** The keys that type a character. *)
Definition plain_key (sc : Z) : option Z :=
  let row (first : Z) (chars : string) := if sc <? first then None else str chars !! Z.to_nat (sc - first) in
  if sc =? 0x0E then Some 8
  else if sc =? 0x1C then Some 10
  else if sc =? 0x39 then Some 32
  else if sc <=? 0x0B then row 0x02 "1234567890"
  else if sc <=? 0x19 then row 0x10 "qwertyuiop"
  else if sc <=? 0x26 then row 0x1E "asdfghjkl"
  else if sc <=? 0x32 then row 0x2C "zxcvbnm"
  else None.

Definition scancode_to_ascii (k : mod_kbd) (sc : Z) : mod_kbd * Z :=
  if sc =? 0xE0 then (ModKbd true (pending_input k) (pending_len k) (pending_pos k), 0) else
  let extended := kbd_extended k in
  let k := ModKbd false (pending_input k) (pending_len k) (pending_pos k) in
  if negb (Z.land sc 0x80 =? 0) then (k, 0) else
  match plain_key sc with
  | Some c => (k, c)
  | None =>
      let arrow_key final := if extended then queue_escape_sequence k final else (k, 0) in
      if sc =? 0x48 then arrow_key 65
      else if sc =? 0x50 then arrow_key 66
      else if sc =? 0x4B then arrow_key 68
      else if sc =? 0x4D then arrow_key 67
      else (k, 0)
  end.

(** The keyboard is asked first, then the serial port. *)
Fixpoint mod_getc_loop (fuel : nat) m (k : mod_kbd) : outcome (machine Hw * mod_kbd * Z) :=
  if pending_pos k <? pending_len k then
    Ret (m, ModKbd (kbd_extended k) (pending_input k) (pending_len k) (pending_pos k + 1),
         default 0 (pending_input k !! Z.to_nat (pending_pos k)))
  else
  let k := ModKbd (kbd_extended k) (pending_input k) 0 0 in
  let '(m, sc) := ps2kbd_try_read_scancode m in
  let '(k, translated) := match sc with Some sc => scancode_to_ascii k sc | None => (k, 0) end in
  if negb (translated =? 0) then Ret (m, k, translated) else
  let '(m, ready) := serial_read_ready m in
  if ready then '(m, ch) ← serial_getc m; Ret (m, k, if ch =? 13 then 10 else ch)
  else match fuel with O => Timeout | S fuel => mod_getc_loop fuel m k end.
Definition mod_console_getc m (k : mod_kbd) : outcome (machine Hw * mod_kbd * Z) := mod_getc_loop hw_polls m k.

(** ** example_lib.c *)

Definition example_compute m (x y : Z) : outcome (machine Hw * Z) :=
  m ← console_puts m (Some (str "[lib] Computing sum..." ++ [10]));
  let result := u32 (x + y) in
  m ← console_puts m (Some (str "[lib] Result: "));
  m ← console_udec m result;
  m ← console_puts m (Some [10]);
  Ret (m, result).
End Io.

(** ** ata_pio.c *)

Definition ATA_IO_BASE : Z := 0x1F0.
Definition ATA_CTRL_BASE : Z := 0x3F6.
Definition ATA_STATUS : Z := ATA_IO_BASE + 7.

Section Ata.
Context {Hw : Type} `{WordPorts Hw}.
Implicit Types m : machine Hw.

(** [while (io_inb(ATA_IO_BASE + 7) & 0x80) {}]. *)
Fixpoint wait_bsy_loop (fuel : nat) m : outcome (machine Hw) :=
  let '(m, v) := io_inb m ATA_STATUS in
  if Z.land v 0x80 =? 0 then Ret m else match fuel with O => Timeout | S fuel => wait_bsy_loop fuel m end.
Fixpoint wait_drq_loop (fuel : nat) m : outcome (machine Hw) :=
  let '(m, v) := io_inb m ATA_STATUS in
  if negb (Z.land v 0x08 =? 0) then Ret m else match fuel with O => Timeout | S fuel => wait_drq_loop fuel m end.
Definition ata_wait_bsy m : outcome (machine Hw) := wait_bsy_loop hw_polls m.
Definition ata_wait_drq m : outcome (machine Hw) := wait_drq_loop hw_polls m.

Definition ata_pio_init m : machine Hw := io_outb m ATA_CTRL_BASE 0x02.

(** The address and the command of a transfer of one sector. *)
Definition ata_command m (lba cmd : Z) : outcome (machine Hw) :=
  m ← ata_wait_bsy m;
  let m := io_outb m (ATA_IO_BASE + 6) (Z.lor 0xE0 (Z.land (Z.shiftr lba 24) 0x0F)) in
  let m := io_outb m (ATA_IO_BASE + 2) 1 in
  let m := io_outb m (ATA_IO_BASE + 3) (u8 lba) in
  let m := io_outb m (ATA_IO_BASE + 4) (u8 (Z.shiftr lba 8)) in
  let m := io_outb m (ATA_IO_BASE + 5) (u8 (Z.shiftr lba 16)) in
  let m := io_outb m (ATA_IO_BASE + 7) cmd in
  m ← ata_wait_bsy m;
  ata_wait_drq m.

Definition read_word (buffer : Z) (w : Z) m : machine Hw :=
  let '(m, v) := io_inw m ATA_IO_BASE in set_mram m (store_bytes (mram m) (buffer + 2 * w) (le_bytes 2 v)).
Definition write_word (buffer : Z) (w : Z) m : machine Hw := io_outw m ATA_IO_BASE (rd_le 2 (mram m) (buffer + 2 * w)).

Definition ata_pio_read m (lba buf count : Z) : outcome (machine Hw * Z) :=
  m ← for_range_m count (fun i m =>
    m ← ata_command m (u32 (lba + i)) 0x20;
    Ret (for_range 256 (read_word (buf + 512 * i)) m)) m;
  Ret (m, 0).
Definition ata_pio_write m (lba buf count : Z) : outcome (machine Hw * Z) :=
  m ← for_range_m count (fun i m =>
    m ← ata_command m (u32 (lba + i)) 0x30;
    Ret (for_range 256 (write_word (buf + 512 * i)) m)) m;
  Ret (m, 0).
End Ata.
