(* ===== verification/AtaProofs.v ===== *)
(** * The ATA disk driver of linkdep: transfers against the documented device

    The device is a parameter: [AtaDisk] relates it to the automaton of the ATA
    PIO protocol, registers, data phases and sectors of 256 words.  It obeys only
    while it is not busy, and transfers words only when it asks for them. *)

From Stdlib Require Import ZArith Lia.
From stdpp Require Import base numbers gmap strings fin_maps option list.
From S2P Require Import Prelude MemUtils Vram Framebuffer VgaDraw Bootmode Digits Machine Serial Console ConsoleProofs Keyboard Linkdep.

Local Open Scope Z_scope.

(** ** The device *)

Inductive ata_phase :=
| Ready
| DataIn (ws : list Z)                (** words still to be read *)
| DataOut (sector : Z) (ws : list Z). (** words received so far *)
Record ata := AtaState {
  sectors : Z -> list Z;
  reg_count : Z; reg_low : Z; reg_mid : Z; reg_high : Z; reg_drive : Z;
  phase : ata_phase
}.

(** The sector the registers address: 28 bits. *)
Definition addressed (a : ata) : Z := Z.land (reg_drive a) 0x0F * 2 ^ 24 + reg_high a * 2 ^ 16 + reg_mid a * 2 ^ 8 + reg_low a.

(** A byte written to one of the registers; only single-sector transfers. *)
Definition ata_out (a : ata) (port v : Z) : ata :=
  if port =? 0x1F2 then AtaState (sectors a) v (reg_low a) (reg_mid a) (reg_high a) (reg_drive a) (phase a)
  else if port =? 0x1F3 then AtaState (sectors a) (reg_count a) v (reg_mid a) (reg_high a) (reg_drive a) (phase a)
  else if port =? 0x1F4 then AtaState (sectors a) (reg_count a) (reg_low a) v (reg_high a) (reg_drive a) (phase a)
  else if port =? 0x1F5 then AtaState (sectors a) (reg_count a) (reg_low a) (reg_mid a) v (reg_drive a) (phase a)
  else if port =? 0x1F6 then AtaState (sectors a) (reg_count a) (reg_low a) (reg_mid a) (reg_high a) v (phase a)
  else if port =? 0x1F7 then
    AtaState (sectors a) (reg_count a) (reg_low a) (reg_mid a) (reg_high a) (reg_drive a)
      (if negb (reg_count a =? 1) then Ready
       else if v =? 0x20 then DataIn (sectors a (addressed a))
       else if v =? 0x30 then DataOut (addressed a) [] else Ready)
  else a.
(** A word taken from the device, and one given to it. *)
Definition set_phase (a : ata) (p : ata_phase) : ata :=
  AtaState (sectors a) (reg_count a) (reg_low a) (reg_mid a) (reg_high a) (reg_drive a) p.
Definition ata_taken (a : ata) : ata :=
  match phase a with
  | DataIn (_ :: w :: ws) => set_phase a (DataIn (w :: ws))
  | _ => set_phase a Ready
  end.
Definition ata_given (a : ata) (v : Z) : ata :=
  match phase a with
  | DataOut s ws =>
      if (length ws =? 255)%nat
      then AtaState (fun x => if x =? s then ws ++ [v] else sectors a x) (reg_count a) (reg_low a) (reg_mid a) (reg_high a) (reg_drive a) Ready
      else set_phase a (DataOut s (ws ++ [v]))
  | _ => a
  end.

(** What the driver relies on.  BSY and DRQ are the device's own; the status
    register shows them.  While BSY is set nothing is promised of a register that
    is written or a word that is moved.  A device that is not busy stays so until
    it is given a command, takes register writes when no transfer is under way,
    and in a data phase asks for words (DRQ) after finitely many reads of the
    status; it moves a word when it asks for one, and asks for the next of the
    same sector at once.  It is busy for finitely many reads.  (The 400 ns a
    device may take to set BSY are taken to pass with the write.) *)
Class AtaDisk (Hw : Type) `{WordPorts Hw} := {
  ata_view : Hw -> ata;
  ata_bsy : Hw -> bool;
  ata_drq : Hw -> bool;
  ata_delay : Hw -> nat;
  ata_delay_law h : (ata_delay h <= hw_polls)%nat;
  ata_status_law h : let '(h', v) := hw_in h ATA_STATUS in
    ata_view h' = ata_view h /\ ata_bsy h' = negb (Z.land (u8 v) 0x80 =? 0) /\
    (ata_bsy h' = false -> ata_drq h' = negb (Z.land (u8 v) 0x08 =? 0));
  ata_ready_law h : ata_bsy h = false -> ata_bsy (hw_in h ATA_STATUS).1 = false;
  ata_bsy_law h : ata_bsy (hw_in h ATA_STATUS).1 = true -> (ata_delay (hw_in h ATA_STATUS).1 < ata_delay h)%nat;
  ata_drq_law h : ata_bsy h = false -> phase (ata_view h) <> Ready -> ata_drq (hw_in h ATA_STATUS).1 = false ->
    (ata_delay (hw_in h ATA_STATUS).1 < ata_delay h)%nat;
  ata_out_law h port v : 0x1F2 <= port <= 0x1F7 -> ata_bsy h = false -> phase (ata_view h) = Ready ->
    ata_view (hw_out h port v) = ata_out (ata_view h) port v /\ (port <> ATA_STATUS -> ata_bsy (hw_out h port v) = false);
  ata_take_law h w ws : ata_bsy h = false -> ata_drq h = true -> phase (ata_view h) = DataIn (w :: ws) ->
    let '(h', v) := hw_inw h ATA_IO_BASE in
    u16 v = u16 w /\ ata_view h' = ata_taken (ata_view h) /\ (ws <> [] -> ata_bsy h' = false /\ ata_drq h' = true);
  ata_give_law h s ws v : ata_bsy h = false -> ata_drq h = true -> phase (ata_view h) = DataOut s ws ->
    let h' := hw_outw h ATA_IO_BASE v in
    ata_view h' = ata_given (ata_view h) v /\ (length ws <> 255%nat -> ata_bsy h' = false /\ ata_drq h' = true)
}.

Section Ata.
Context {Hw : Type} `{AtaDisk Hw}.
Implicit Types m : machine Hw.

(** The disk is well formed: sectors of 256 words, no transfer under way.  It may
    be busy. *)
Record disk_ok m : Prop := DiskOk {
  d_rest : phase (ata_view (hw m)) = Ready;
  d_size s : length (sectors (ata_view (hw m)) s) = 256%nat;
  d_words s : Forall (fun w => 0 <= w < 65536) (sectors (ata_view (hw m)) s)
}.

(** ** Polling *)

Lemma set_hw_twice m h h' : set_hw (set_hw m h) h' = set_hw m h'.
Proof. done. Qed.
Lemma wait_bsy_ok fuel m : (ata_delay (hw m) <= fuel)%nat ->
  exists h, wait_bsy_loop fuel m = Ret (set_hw m h) /\ ata_view h = ata_view (hw m) /\ ata_bsy h = false.
Proof.
  revert m. induction fuel as [|fuel IH]; intros m Hf; cbn [wait_bsy_loop]; unfold io_inb;
    pose proof (ata_bsy_law (hw m)) as Hb; pose proof (ata_status_law (hw m)) as Hs;
    destruct (hw_in (hw m) ATA_STATUS) as [h v]; cbn [fst] in Hb; destruct Hs as (Hv & Hs & _);
    (destruct (Z.eqb_spec (Z.land (u8 v) 0x80) 0) as [E|E]; [by exists h|]); specialize (Hb Hs); [lia|].
  destruct (IH (set_hw m h)) as (h' & Hr & Hv' & Hb'); [cbn; lia|]. exists h'. split; [exact Hr|]. by rewrite Hv', <- Hv.
Qed.
(** A device that asks for a word. *)
Definition asks (h : Hw) : Prop := ata_bsy h = false /\ ata_drq h = true.
Lemma wait_drq_ok fuel m : ata_bsy (hw m) = false -> phase (ata_view (hw m)) <> Ready -> (ata_delay (hw m) <= fuel)%nat ->
  exists h, wait_drq_loop fuel m = Ret (set_hw m h) /\ ata_view h = ata_view (hw m) /\ asks h.
Proof.
  revert m. induction fuel as [|fuel IH]; intros m Hn Hp Hf; cbn [wait_drq_loop]; unfold io_inb;
    pose proof (ata_drq_law (hw m) Hn Hp) as Hb; pose proof (ata_status_law (hw m)) as Hs; pose proof (ata_ready_law (hw m) Hn) as Hr;
    destruct (hw_in (hw m) ATA_STATUS) as [h v]; cbn [fst] in Hb, Hr; destruct Hs as (Hv & _ & Hs); specialize (Hs Hr);
    (destruct (Z.eqb_spec (Z.land (u8 v) 0x08) 0) as [E|E]; [|by exists h]); specialize (Hb Hs); [lia|].
  destruct (IH (set_hw m h)) as (h' & Hl & Hv' & Ha); [done|cbn; by rewrite Hv|cbn; lia|]. exists h'. split; [exact Hl|]. by rewrite Hv', <- Hv.
Qed.

(** ** A command *)

(** The four registers hold the 28 bits of the address. *)
Lemma address_bytes lba : 0 <= lba < 2 ^ 28 ->
  Z.land (u8 (Z.lor 0xE0 (Z.land (Z.shiftr lba 24) 0x0F))) 0x0F * 2 ^ 24 + u8 (u8 (Z.shiftr lba 16)) * 2 ^ 16 +
  u8 (u8 (Z.shiftr lba 8)) * 2 ^ 8 + u8 (u8 lba) = lba.
Proof.
  intros Hl. assert (Z.land (u8 (Z.lor 0xE0 (Z.land (Z.shiftr lba 24) 0x0F))) 0x0F = lba / 2 ^ 24) as ->.
  { rewrite Z.shiftr_div_pow2 by lia. set (x := lba / 2 ^ 24). assert (0 <= x < 16) by (unfold x; mlia).
    assert (forallb (fun x => Z.land (u8 (Z.lor 0xE0 (Z.land x 0x0F))) 0x0F =? x) (seqZ 0 16) = true) as Hall by (vm_compute; reflexivity).
    rewrite forallb_forall in Hall. apply Z.eqb_eq, Hall, list_elem_of_In, elem_of_seqZ. lia. }
  rewrite !Z.shiftr_div_pow2 by lia. change (2 ^ 24) with 16777216. change (2 ^ 16) with 65536. change (2 ^ 8) with 256. mlia.
Qed.

(** Registers written while the device is idle. *)
Definition idle (h : Hw) (a : ata) : Prop := ata_bsy h = false /\ ata_view h = a /\ phase a = Ready.
Lemma idle_out h a port v : idle h a -> 0x1F2 <= port < 0x1F7 -> idle (hw_out h port v) (ata_out a port v).
Proof.
  intros (Hb & <- & Hp) Hr. destruct (ata_out_law h port v) as [Hv Hb']; [lia|done..|]. split; [apply Hb'; unfold ATA_STATUS, ATA_IO_BASE; lia|].
  split; [done|]. unfold ata_out. rewrite (proj2 (Z.eqb_neq port 0x1F7)) by lia. by repeat case_test.
Qed.
Lemma command_view a d lo mi hi cmd :
  ata_out (ata_out (ata_out (ata_out (ata_out (ata_out a (0x1F0 + 6) d) (0x1F0 + 2) 1) (0x1F0 + 3) lo) (0x1F0 + 4) mi) (0x1F0 + 5) hi) (0x1F0 + 7) cmd =
  AtaState (sectors a) 1 lo mi hi d
    (if cmd =? 0x20 then DataIn (sectors a (Z.land d 0x0F * 2 ^ 24 + hi * 2 ^ 16 + mi * 2 ^ 8 + lo))
     else if cmd =? 0x30 then DataOut (Z.land d 0x0F * 2 ^ 24 + hi * 2 ^ 16 + mi * 2 ^ 8 + lo) [] else Ready).
Proof. reflexivity. Qed.
Lemma ata_command_ok m lba cmd : phase (ata_view (hw m)) = Ready -> 0 <= lba < 2 ^ 28 -> cmd = 0x20 \/ cmd = 0x30 ->
  exists h, ata_command m lba cmd = Ret (set_hw m h) /\ asks h /\
    sectors (ata_view h) = sectors (ata_view (hw m)) /\
    phase (ata_view h) = (if cmd =? 0x20 then DataIn (sectors (ata_view (hw m)) lba) else DataOut lba []).
Proof.
  intros Hp0 Hl Hc. unfold ata_command, ata_wait_bsy, ata_wait_drq.
  destruct (wait_bsy_ok hw_polls m (ata_delay_law _)) as (h1 & -> & V1 & B1). cbn [mbind outcome_bind]. unfold io_outb. cbn [hw set_hw].
  rewrite !set_hw_twice. set (h2 := hw_out _ (ATA_IO_BASE + 7) _).
  assert (ata_view h2 = AtaState (sectors (ata_view (hw m))) 1 (u8 (u8 lba)) (u8 (u8 (Z.shiftr lba 8))) (u8 (u8 (Z.shiftr lba 16)))
    (u8 (Z.lor 0xE0 (Z.land (Z.shiftr lba 24) 0x0F)))
    (if cmd =? 0x20 then DataIn (sectors (ata_view (hw m)) lba) else DataOut lba [])) as V2.
  { unfold h2, ATA_IO_BASE. match goal with |- ata_view (hw_out ?x _ _) = _ => eassert (idle x _) as (Hb & Hv & Hr) end.
    { repeat (apply idle_out; [|lia]). split; [exact B1|]. split; [exact V1|done]. }
    edestruct ata_out_law as [-> _]; [|exact Hb|by rewrite Hv|]; [lia|]. rewrite Hv.
    change (u8 1) with 1. rewrite command_view, address_bytes by done. by destruct Hc as [-> | ->]. }
  assert (phase (ata_view h2) <> Ready) as Hp by (rewrite V2; cbn [phase]; by case_test).
  clearbody h2. destruct (wait_bsy_ok hw_polls (set_hw m h2) (ata_delay_law _)) as (h3 & -> & V3 & B3). cbn [mbind outcome_bind]. rewrite set_hw_twice.
  destruct (wait_drq_ok hw_polls (set_hw m h3)) as (h4 & -> & V4 & A4); [done|cbn; by rewrite V3|apply ata_delay_law|].
  exists h4. split; [by rewrite set_hw_twice|]. split; [done|]. rewrite V4. cbn. rewrite V3. cbn. by rewrite V2.
Qed.

(** ** One sector *)

(** The words of the 512 bytes at [a]. *)
Definition words_at (mem : gmap Z Z) (a : Z) : list Z := (fun w => rd_le 2 mem (a + 2 * w)) <$> seqZ 0 256.
(** The memory after [ws] were stored as bytes at [a]. *)
Definition store_words (mem : gmap Z Z) (a : Z) (ws : list Z) : gmap Z Z := store_bytes mem a (ws ≫= le_bytes 2).

Lemma store_words_snoc mem a ws w : store_words mem a (ws ++ [w]) =
  store_bytes (store_words mem a ws) (a + 2 * Z.of_nat (length ws)) (le_bytes 2 w).
Proof.
  unfold store_words. rewrite bind_app. change ([w] ≫= le_bytes 2) with (le_bytes 2 w ++ []). rewrite app_nil_r, store_bytes_app.
  do 2 f_equal. induction ws as [|x ws IH]; [done|]. cbn [mbind list_bind]. fold (ws ≫= le_bytes 2).
  rewrite length_app, length_le_bytes. cbn [length]. lia.
Qed.

(** Word [i] of a sector, taken and stored. *)
Lemma read_words m a ws : asks (hw m) -> phase (ata_view (hw m)) = DataIn ws -> length ws = 256%nat -> Forall (fun w => 0 <= w < 65536) ws ->
  exists h, for_range 256 (read_word a) m = set_mram (set_hw m h) (store_words (mram m) a ws) /\
    sectors (ata_view h) = sectors (ata_view (hw m)) /\ phase (ata_view h) = Ready.
Proof.
  intros Ha Hp Hl Hws.
  destruct (for_range_inv (fun i m' => exists h, m' = set_mram (set_hw m h) (store_words (mram m) a (take (Z.to_nat i) ws)) /\
    sectors (ata_view h) = sectors (ata_view (hw m)) /\
    if i <? 256 then asks h /\ phase (ata_view h) = DataIn (drop (Z.to_nat i) ws) else phase (ata_view h) = Ready) 256 (read_word a) m) as (h & -> & Hs & Hph).
  - lia.
  - exists (hw m). split; [by destruct m|]. by split_and!.
  - intros i m' Hi (h & -> & Hs & Hph). rewrite (proj2 (Z.ltb_lt _ _)) in Hph by lia. destruct Hph as [[Hb Hd] Hph].
    destruct (lookup_lt_is_Some_2 ws (Z.to_nat i)) as [w Hwi]; [lia|]. pose proof (Forall_lookup_1 _ _ _ _ Hws Hwi) as Hwr. cbn beta in Hwr.
    rewrite (drop_S _ _ _ Hwi) in Hph. pose proof (ata_take_law h w _ Hb Hd Hph) as Ht.
    unfold read_word, io_inw. cbn [hw set_mram set_hw]. destruct (hw_inw h ATA_IO_BASE) as [h' v]. destruct Ht as (Hv & Ht & Hn).
    assert (Z.to_nat (i + 1) = S (Z.to_nat i)) as Ei by lia. exists h'. split; [|split].
    + rewrite Ei, (take_S_r _ _ _ Hwi), store_words_snoc, length_take.
      rewrite Hv. unfold u16. rewrite Z.mod_small by lia. cbn. do 3 f_equal. lia.
    + rewrite Ht, <- Hs. unfold ata_taken. rewrite Hph. by destruct (drop _ ws).
    + rewrite Ht. unfold ata_taken. rewrite Hph, Ei. destruct (Z.ltb_spec (i + 1) 256) as [Hlt|Hge].
      * destruct (drop (S (Z.to_nat i)) ws) eqn:Ed; [apply (f_equal length) in Ed; rewrite length_drop in Ed; cbn in Ed; lia|].
        split; [by apply Hn|done].
      * by rewrite drop_ge by lia.
  - exists h. rewrite take_ge by lia. by split_and!.
Qed.
Lemma write_words m a s : asks (hw m) -> phase (ata_view (hw m)) = DataOut s [] ->
  exists h, for_range 256 (write_word a) m = set_hw m h /\ phase (ata_view h) = Ready /\
    forall x, sectors (ata_view h) x = if x =? s then words_at (mram m) a else sectors (ata_view (hw m)) x.
Proof.
  intros Ha Hp. set (ws := words_at (mram m) a). assert (length ws = 256%nat) as Hl by done.
  destruct (for_range_inv (fun i m' => exists h, m' = set_hw m h /\
    if i <? 256 then asks h /\ phase (ata_view h) = DataOut s (take (Z.to_nat i) ws) /\ sectors (ata_view h) = sectors (ata_view (hw m))
    else phase (ata_view h) = Ready /\ forall x, sectors (ata_view h) x = if x =? s then ws else sectors (ata_view (hw m)) x)
    256 (write_word a) m) as (h & -> & Hph & Hs).
  - lia.
  - exists (hw m). by destruct m.
  - intros i m' Hi (h & -> & Hph). rewrite (proj2 (Z.ltb_lt _ _)) in Hph by lia. destruct Hph as ([Hb Hd] & Hph & Hs).
    unfold write_word, io_outw. cbn [hw set_hw mram]. set (v := u16 _).
    assert (ws !! Z.to_nat i = Some v) as Hv.
    { unfold ws, words_at. rewrite list_lookup_fmap, lookup_seqZ_lt, Z.add_0_l, Z2Nat.id by lia. unfold v.
      cbn [fmap option_fmap option_map]. f_equal. symmetry. apply Z.mod_small. exact (rd_le_range 2 (mram m) (a + 2 * i)). }
    exists (hw_outw h ATA_IO_BASE v). split; [done|]. destruct (ata_give_law h s _ v Hb Hd Hph) as [Hg Hn].
    unfold ata_given in Hg. rewrite Hph in Hg. rewrite length_take, Hl in Hg, Hn.
    replace (Z.to_nat (i + 1)) with (S (Z.to_nat i)) by lia. rewrite (take_S_r _ _ _ Hv), Hg.
    destruct (Nat.eqb_spec (Z.to_nat i `min` 256) 255) as [E|E].
    + rewrite (proj2 (Z.ltb_ge _ _)) by lia. cbn. split; [done|]. intros x. rewrite Hs. case_test; [|done]. rewrite <- (take_S_r _ _ _ Hv). apply take_ge. lia.
    + rewrite (proj2 (Z.ltb_lt _ _)) by lia. cbn. split; [by apply Hn|done].
  - by exists h.
Qed.

(** ** Bytes of a sector *)

(** Byte [j] of a sector: words are little-endian. *)
Definition sector_byte (ws : list Z) (j : Z) : Z := u8 (Z.shiftr (ws !!! Z.to_nat (j / 2)) (8 * (j mod 2))).

Lemma words_at_byte mem a j : 0 <= j < 512 -> sector_byte (words_at mem a) j = rd mem (a + j).
Proof.
  intros Hj. unfold sector_byte, words_at. assert (0 <= j / 2 < 256) as Hwi by mlia.
  rewrite (list_lookup_total_correct _ _ (rd_le 2 mem (a + 2 * (j / 2)))).
  2: { rewrite list_lookup_fmap, lookup_seqZ_lt, Z.add_0_l, Z2Nat.id by lia. done. }
  cbn [rd_le]. pose proof (rd_range mem (a + 2 * (j / 2))) as H0r. pose proof (rd_range mem (a + 2 * (j / 2) + 1)) as H1r.
  rewrite Z.shiftr_div_pow2 by mlia. assert (j mod 2 = 0 \/ j mod 2 = 1) as [E|E] by mlia; rewrite E.
  - replace (a + j) with (a + 2 * (j / 2)) by mlia. change (2 ^ (8 * 0)) with 1. mlia.
  - replace (a + j) with (a + 2 * (j / 2) + 1) by mlia. change (2 ^ (8 * 1)) with 256. mlia.
Qed.
Lemma store_words_out mem a ws x : x < a \/ a + 2 * Z.of_nat (length ws) <= x -> rd (store_words mem a ws) x = rd mem x.
Proof.
  induction ws as [|w ws IH] using rev_ind; intros Hx; [done|]. rewrite length_app in Hx. cbn in Hx.
  rewrite store_words_snoc, rd_store_bytes_out by (rewrite length_le_bytes; lia). apply IH. lia.
Qed.
Lemma store_words_in mem a ws j : 0 <= j < 2 * Z.of_nat (length ws) -> rd (store_words mem a ws) (a + j) = sector_byte ws j.
Proof.
  induction ws as [|w ws IH] using rev_ind; intros Hj; [cbn in Hj; lia|]. rewrite length_app in Hj. cbn in Hj.
  rewrite store_words_snoc. unfold sector_byte. destruct (decide (j < 2 * Z.of_nat (length ws))) as [Hlt|Hge].
  - rewrite rd_store_bytes_out by lia. rewrite IH by lia. rewrite lookup_total_app_l by mlia. done.
  - rewrite lookup_total_app_r by mlia. assert (Z.to_nat (j / 2) - length ws = 0)%nat as -> by mlia. cbn [lookup_total list_lookup_total].
    change (le_bytes 2 w) with [u8 (Z.shiftr w (8 * 0)); u8 (Z.shiftr w (8 * 1))]. cbn [store_bytes].
    assert (j mod 2 = 0 \/ j mod 2 = 1) as [E|E] by mlia; rewrite E.
    + replace (a + j) with (a + 2 * Z.of_nat (length ws)) by mlia. rewrite rd_wr_ne, rd_wr_eq by lia. by rewrite u8_small by apply u8_range.
    + replace (a + j) with (a + 2 * Z.of_nat (length ws) + 1) by mlia. rewrite rd_wr_eq. by rewrite u8_small by apply u8_range.
Qed.

(** ** Transfers *)

Lemma words_at_ok mem a : length (words_at mem a) = 256%nat /\ Forall (fun w => 0 <= w < 65536) (words_at mem a).
Proof. split; [done|]. unfold words_at. rewrite Forall_fmap. apply Forall_true. intros w. exact (rd_le_range 2 mem (a + 2 * w)). Qed.

Lemma ata_write_ok m lba buf n : disk_ok m -> 0 <= lba -> 0 <= n -> lba + n <= 2 ^ 28 ->
  exists h, ata_pio_write m lba buf n = Ret (set_hw m h, 0) /\ phase (ata_view h) = Ready /\
    forall x, sectors (ata_view h) x =
      if (lba <=? x) && (x <? lba + n) then words_at (mram m) (buf + 512 * (x - lba)) else sectors (ata_view (hw m)) x.
Proof.
  intros [Hr _ _] Hl Hn Hb. unfold ata_pio_write.
  destruct (for_range_m_inv (fun i m' => exists h, m' = set_hw m h /\ phase (ata_view h) = Ready /\
    forall x, sectors (ata_view h) x =
      if (lba <=? x) && (x <? lba + i) then words_at (mram m) (buf + 512 * (x - lba)) else sectors (ata_view (hw m)) x) n
    (fun i m => m ← ata_command m (u32 (lba + i)) 0x30; Ret (for_range 256 (write_word (buf + 512 * i)) m)) m)
    as (m' & -> & h & -> & Hrest).
  - done.
  - exists (hw m). split; [by destruct m|]. split; [done|]. intros x. by rewrite (proj2 (andb_false_iff _ _)) by lia.
  - intros i m' Hi (h & -> & Hp & Hs). rewrite u32_small by lia.
    destruct (ata_command_ok (set_hw m h) (lba + i) 0x30) as (h1 & -> & Ha1 & Hs1 & Hp1); [done|lia|by right|].
    cbn [mbind outcome_bind]. rewrite set_hw_twice. eexists. split; [done|].
    destruct (write_words (set_hw m h1) (buf + 512 * i) (lba + i) Ha1 Hp1) as (h2 & -> & Hp2 & Hs2). exists h2. split; [done|]. split; [done|].
    intros x. rewrite Hs2. cbn [mram set_hw hw] in *. rewrite Hs1, Hs.
    destruct (Z.eqb_spec x (lba + i)) as [->|Hx].
    + rewrite (proj2 (andb_true_iff _ _)) by lia. do 2 f_equal. lia.
    + destruct (Z.leb_spec lba x), (Z.ltb_spec x (lba + i)), (Z.ltb_spec x (lba + (i + 1))); try done; lia.
  - by exists h.
Qed.
Lemma ata_read_ok m lba buf n : disk_ok m -> 0 <= lba -> 0 <= n -> lba + n <= 2 ^ 28 ->
  exists m', ata_pio_read m lba buf n = Ret (m', 0) /\ phase (ata_view (hw m')) = Ready /\
    sectors (ata_view (hw m')) = sectors (ata_view (hw m)) /\
    forall x, rd (mram m') x =
      if (buf <=? x) && (x <? buf + 512 * n)
      then sector_byte (sectors (ata_view (hw m)) (lba + (x - buf) / 512)) ((x - buf) mod 512) else rd (mram m) x.
Proof.
  intros [Hr Hsz Hws] Hl Hn Hb. unfold ata_pio_read.
  destruct (for_range_m_inv (fun i m' => phase (ata_view (hw m')) = Ready /\
    sectors (ata_view (hw m')) = sectors (ata_view (hw m)) /\
    forall x, rd (mram m') x =
      if (buf <=? x) && (x <? buf + 512 * i)
      then sector_byte (sectors (ata_view (hw m)) (lba + (x - buf) / 512)) ((x - buf) mod 512) else rd (mram m) x) n
    (fun i m => m ← ata_command m (u32 (lba + i)) 0x20; Ret (for_range 256 (read_word (buf + 512 * i)) m)) m)
    as (m' & -> & Hrest).
  - done.
  - split_and!; [done..|]. intros x. by rewrite (proj2 (andb_false_iff _ _)) by lia.
  - intros i m' Hi (Hp & Hs & Hm). rewrite u32_small by lia.
    destruct (ata_command_ok m' (lba + i) 0x20) as (h1 & -> & Ha1 & Hs1 & Hp1); [done|lia|by left|].
    cbn [mbind outcome_bind]. eexists. split; [done|]. rewrite Hs in Hp1.
    destruct (read_words (set_hw m' h1) (buf + 512 * i) _ Ha1 Hp1) as (h2 & -> & Hs2 & Hp2); [done|done|].
    cbn [hw set_hw set_mram mram] in *. split; [done|]. split; [congruence|]. intros x.
    destruct (decide (buf + 512 * i <= x < buf + 512 * (i + 1))) as [Hin|Hout].
    + rewrite (proj2 (andb_true_iff _ _)) by lia. replace x with (buf + 512 * i + (x - buf) mod 512) at 1 by mlia.
      rewrite store_words_in by (rewrite Hsz; mlia). do 3 f_equal. mlia.
    + rewrite store_words_out by (rewrite Hsz; lia). rewrite Hm.
      destruct (Z.leb_spec buf x), (Z.ltb_spec x (buf + 512 * i)), (Z.ltb_spec x (buf + 512 * (i + 1))); try done; lia.
  - by exists m'.
Qed.

(** C22: what is written to the disk is read back: for any device that follows the
    protocol, writing sectors returns, changes exactly the sectors addressed
    (28-bit addresses), and reading them afterwards, into any buffer, stores the
    bytes that were written, and touches no other memory and no other sector. *)
Theorem ata_roundtrip m lba src dst n :
  disk_ok m -> 0 <= lba -> 0 <= n -> lba + n <= 2 ^ 28 ->
  exists m1 m2, ata_pio_write m lba src n = Ret (m1, 0) /\ ata_pio_read m1 lba dst n = Ret (m2, 0) /\
    bytes_at (mram m2) dst (Z.to_nat (512 * n)) = bytes_at (mram m) src (Z.to_nat (512 * n)) /\
    (forall x, ~ dst <= x < dst + 512 * n -> rd (mram m2) x = rd (mram m) x) /\
    (forall s, ~ lba <= s < lba + n -> sectors (ata_view (hw m2)) s = sectors (ata_view (hw m)) s) /\ disk_ok m2.
Proof.
  intros Hok Hl Hn Hb. destruct (ata_write_ok m lba src n Hok Hl Hn Hb) as (h & -> & Hp & Hs).
  assert (disk_ok (set_hw m h)) as Hok1.
  { destruct Hok as [_ Hsz Hws]. split; cbn; [done| |]; intros s; rewrite Hs; case_test; try done; apply words_at_ok. }
  destruct (ata_read_ok (set_hw m h) lba dst n Hok1 Hl Hn Hb) as (m2 & Hr & Hp2 & Hs2 & Hm2).
  exists (set_hw m h), m2. split; [done|]. split; [exact Hr|]. cbn [hw set_hw mram] in *. split_and!.
  - apply list_eq_same_length with (Z.to_nat (512 * n)); [by rewrite length_bytes_at..|].
    intros i x y Hi Hx Hy. rewrite lookup_bytes_at in Hx, Hy by done. injection Hx as <-. injection Hy as <-.
    rewrite Hm2, (proj2 (andb_true_iff _ _)) by lia. rewrite Hs, (proj2 (andb_true_iff _ _)) by mlia.
    rewrite words_at_byte by mlia. f_equal. mlia.
  - intros x Hx. rewrite Hm2. destruct (Z.leb_spec dst x), (Z.ltb_spec x (dst + 512 * n)); try done; lia.
  - intros s Hx. rewrite Hs2, Hs. destruct (Z.leb_spec lba s), (Z.ltb_spec s (lba + n)); try done; lia.
  - destruct Hok1 as [_ Hsz Hws]. by split; rewrite ?Hs2.
Qed.
End Ata.

(** ** A concrete disk

    It is busy for two reads of its status after a command and after a sector
    was written, asks for words one read later, and ignores what comes too
    early. *)

Record slow_disk := Slow { disk : ata; busy_reads : nat; seek_reads : nat }.
Definition moving (d : slow_disk) : bool := match phase (disk d) with Ready => false | _ => true end.
Definition asking (d : slow_disk) : bool := (busy_reads d =? 0)%nat && (seek_reads d =? 0)%nat && moving d.
Definition status_read (d : slow_disk) : slow_disk :=
  match busy_reads d `min` 2 with O => Slow (disk d) O (pred (seek_reads d `min` 2)) | S n => Slow (disk d) n (seek_reads d) end%nat.
Definition status_value (d : slow_disk) : Z := if (busy_reads d =? 0)%nat then (if asking d then 0x48 else 0x40) else 0x80.
#[export] Instance demo_disk_hw : Hardware slow_disk := {
  hw_in d port := if port =? ATA_STATUS then (status_read d, status_value (status_read d)) else (d, 0);
  hw_out d port v :=
    if negb (busy_reads d =? 0)%nat then d
    else if port =? ATA_STATUS then Slow (ata_out (disk d) port v) 2 1 else Slow (ata_out (disk d) port v) 0 (seek_reads d);
  hw_rdtsc d := (d, 0);
  hw_polls := 4
}.
#[export] Instance demo_disk_ports : WordPorts slow_disk := {
  hw_inw d port := if asking d then (Slow (ata_taken (disk d)) 0 0, match phase (disk d) with DataIn (w :: _) => w | _ => 0 end) else (d, 0xFFFF);
  hw_outw d port v :=
    if asking d && (port =? ATA_IO_BASE) then
      let a := ata_given (disk d) v in Slow a (match phase a with Ready => 2 | _ => 0 end) 0
    else d;
  hw_inl d port := (d, 0);
  hw_outl d port v := d;
  hw_cpuid d leaf := (0, 0, 0, 0)
}.
#[export, refine] Instance demo_disk : AtaDisk slow_disk := {
  ata_view := disk; ata_bsy d := negb (busy_reads d =? 0)%nat; ata_drq := asking;
  ata_delay d := (busy_reads d `min` 2 + seek_reads d `min` 2)%nat
}.
Proof.
  all: intros [a n q].
  - cbn. lia.
  - change (hw_in (Slow a n q) ATA_STATUS) with (status_read (Slow a n q), status_value (status_read (Slow a n q))).
    destruct n as [|[|n]]; cbn; repeat split; try done; unfold status_value; cbn; try done; by destruct (asking _).
  - change (hw_in (Slow a n q) ATA_STATUS).1 with (status_read (Slow a n q)). by destruct n.
  - change (hw_in (Slow a n q) ATA_STATUS).1 with (status_read (Slow a n q)). destruct n as [|[|n]]; cbn; [done..|lia].
  - change (hw_in (Slow a n q) ATA_STATUS).1 with (status_read (Slow a n q)). intros Hn Hp. destruct n; [|done].
    destruct q as [|[|q]]; unfold asking, moving; cbn in *; [by destruct (phase a)..|lia].
  - intros port v _ Hn _. destruct n; [|done]. change (hw_out (Slow a 0 q) port v) with
      (if port =? ATA_STATUS then Slow (ata_out a port v) 2 1 else Slow (ata_out a port v) 0 q). by destruct (Z.eqb_spec port ATA_STATUS).
  - intros w ws _ Hq Hp. change (hw_inw (Slow a n q) ATA_IO_BASE) with (if asking (Slow a n q) then
      (Slow (ata_taken a) 0 0, match phase a with DataIn (w :: _) => w | _ => 0 end) else (Slow a n q, 0xFFFF)).
    rewrite Hq. cbn [disk] in Hp. rewrite Hp. split; [done|]. split; [done|]. intros Hws. split; [done|].
    unfold asking, moving, ata_taken. cbn. rewrite Hp. by destruct ws.
  - intros s ws v _ Hq Hp. cbn [disk] in Hp. change (hw_outw (Slow a n q) ATA_IO_BASE v) with (if asking (Slow a n q) && true then
      Slow (ata_given a v) (match phase (ata_given a v) with Ready => 2 | _ => 0 end) 0 else Slow a n q).
    rewrite Hq. cbn [andb]. split; [done|]. intros Hl%Nat.eqb_neq. unfold asking, moving, ata_given. rewrite Hp. cbn. by rewrite Hl.
Defined.

Definition demo_disk_machine : machine slow_disk :=
  Machine (Slow (AtaState (fun _ => replicate 256 0) 0 0 0 0 0 Ready) 2 0) (store_bytes ∅ 0x1000 [1; 2; 3; 4]) (Debuglog 0 0 0 0) false
    bootmode_init fb_zero mem_vram_init console_zero.
Lemma demo_disk_ok : disk_ok demo_disk_machine.
Proof. split; [done|done|]. intros s. apply (Forall_replicate (fun w => 0 <= w < 65536) 256 0). lia. Qed.
Lemma ata_roundtrip_witness : exists m1 m2, ata_pio_write demo_disk_machine 5 0x1000 2 = Ret (m1, 0) /\
  ata_pio_read m1 5 0x8000 2 = Ret (m2, 0) /\ bytes_at (mram m2) 0x8000 1024 = bytes_at (mram demo_disk_machine) 0x1000 1024.
Proof.
  destruct (ata_roundtrip demo_disk_machine 5 0x1000 0x8000 2 demo_disk_ok) as (m1 & m2 & H1 & H2 & H3 & _); [lia..|].
  exists m1, m2. exact (conj H1 (conj H2 H3)).
Defined.
