(* ===== verification/MpObj.v ===== *)
(** * src/micropython/py: the objects native modules exchange with Python

    What the native modules use of the interpreter: argument objects, the
    conversions of obj.c and objstr.c, keyword arguments (argcheck.c), and
    exceptions.  Strings and byte objects are an address and a length in memory.
    Objects of user-defined classes, floats and containers as arguments are one
    constructor, [MpOther], of which only the truth value is known: no other
    conversion accepts them. *)

From Stdlib Require Import ZArith Lia.
From stdpp Require Import base numbers gmap strings fin_maps option list.
From S2P Require Import Prelude.

Local Open Scope Z_scope.

Inductive mp_obj :=
| MP_OBJ_NULL
| MpNone
| MpBool (b : bool)
| MpInt (v : Z)
| MpStr (data len : Z)
| MpBytes (data len : Z)
| MpOther (truth : bool).

(** What a native function hands back; the interpreter copies the bytes. *)
#[warnings="-register-all"]
Inductive mp_value :=
| RNone
| RBool (b : bool)
| RInt (v : Z)
| RStr (s : list Z)
| RBytes (s : list Z)
| RTuple (l : list mp_value)
| RDict (l : list (string * mp_value)).

Inductive mp_exc := TypeError | ValueError (msg : string) | OverflowError | MemoryError.

(** ** Raising

    A native function changes the state and returns or raises; what it changed
    before it raised stays. *)
Definition native (S A : Type) : Type := S -> outcome (S * (mp_exc + A)).
#[export] Instance native_ret {S} : MRet (native S) := fun A a s => Ret (s, inr a).
#[export] Instance native_bind {S} : MBind (native S) := fun A B f c s =>
  match c s with
  | Ret (s, inr a) => f a s
  | Ret (s, inl e) => Ret (s, inl e)
  | Panic msg => Panic msg
  | Fault => Fault
  | Timeout => Timeout
  end.
Definition raise {S A} (e : mp_exc) : native S A := fun s => Ret (s, inl e).
(** A routine of the kernel, without and with a result. *)
Definition call {S} (f : S -> outcome S) : native S unit := fun s => s ← f s; Ret (s, inr tt).
Definition call_with {S A} (f : S -> outcome (S * A)) : native S A := fun s => '(s, a) ← f s; Ret (s, inr a).
Definition update {S} (f : S -> S) : native S unit := fun s => Ret (f s, inr tt).
Definition get {S A} (f : S -> A) : native S A := fun s => Ret (s, inr (f s)).

(** ** Conversions *)

Definition fits_int (v : Z) : bool := (- 2 ^ 63 <=? v) && (v <? 2 ^ 63).

Definition mp_obj_get_int {S} (o : mp_obj) : native S Z :=
  match o with
  | MpBool b => mret (if b then 1 else 0)
  | MpInt v => if fits_int v then mret v else raise OverflowError
  | _ => raise TypeError
  end.
Definition mp_obj_get_int_truncated {S} (o : mp_obj) : native S Z :=
  match o with MpInt v => mret (s64 v) | _ => mp_obj_get_int o end.
Definition mp_obj_is_true (o : mp_obj) : bool :=
  match o with
  | MpNone => false
  | MpBool b => b
  | MpInt v => negb (v =? 0)
  | MpStr _ n | MpBytes _ n => negb (n =? 0)
  | MpOther b => b
  | MP_OBJ_NULL => true
  end.
(** Address and length of the characters. *)
Definition mp_obj_str_get_data {S} (o : mp_obj) : native S (Z * Z) :=
  match o with MpStr a n | MpBytes a n => mret (a, n) | _ => raise TypeError end.
Definition mp_get_buffer_raise {S} (o : mp_obj) : native S (Z * Z) :=
  match o with MpStr a n | MpBytes a n => mret (a, n) | _ => raise TypeError end.

(** ** argcheck.c: keyword arguments *)

Inductive mp_arg_kind := MP_ARG_BOOL | MP_ARG_INT | MP_ARG_OBJ.
Inductive mp_arg_val := UBool (b : bool) | UInt (v : Z) | UObj (o : mp_obj).
Record mp_arg_t := MpArg { qst : string; kind : mp_arg_kind; required : bool; kw_only : bool; defval : mp_arg_val }.

Definition mp_map_lookup (kws : list (string * mp_obj)) (q : string) : option mp_obj :=
  snd <$> List.find (fun kv => bool_decide (kv.1 = q)) kws.
Definition convert_arg {S} (a : mp_arg_t) (o : mp_obj) : native S mp_arg_val :=
  match kind a with
  | MP_ARG_BOOL => mret (UBool (mp_obj_is_true o))
  | MP_ARG_INT => v ← mp_obj_get_int o; mret (UInt v)
  | MP_ARG_OBJ => mret (UObj o)
  end.

(** The loop over the allowed arguments: the positional ones that are left, the
    values so far, the numbers found. *)
Fixpoint parse_args {S} (allowed : list mp_arg_t) (pos : list mp_obj) (kws : list (string * mp_obj))
    (kws_found : nat) : native S (list mp_arg_val) :=
  match allowed with
  | [] =>
      match pos with
      | _ :: _ => raise TypeError
      | [] => if (kws_found <? length kws)%nat then raise TypeError else mret []
      end
  | a :: allowed =>
      match pos with
      | o :: pos =>
          if kw_only a then raise TypeError else
          v ← convert_arg a o;
          vs ← parse_args allowed pos kws kws_found;
          mret (v :: vs)
      | [] =>
          match mp_map_lookup kws (qst a) with
          | None =>
              if required a then raise TypeError else
              vs ← parse_args allowed [] kws kws_found;
              mret (defval a :: vs)
          | Some o =>
              v ← convert_arg a o;
              vs ← parse_args allowed [] kws (kws_found + 1);
              mret (v :: vs)
          end
      end
  end.
Definition mp_arg_parse_all {S} (pos : list mp_obj) (kws : list (string * mp_obj)) (allowed : list mp_arg_t) : native S (list mp_arg_val) :=
  parse_args allowed pos kws 0.

(** The values by position. *)
Definition u_int (vs : list mp_arg_val) (i : nat) : Z := match vs !! i with Some (UInt v) => v | _ => 0 end.
Definition u_bool (vs : list mp_arg_val) (i : nat) : bool := match vs !! i with Some (UBool b) => b | _ => false end.
Definition u_obj (vs : list mp_arg_val) (i : nat) : mp_obj := match vs !! i with Some (UObj o) => o | _ => MP_OBJ_NULL end.

(** ** What parsing guarantees *)

(** Conversions neither change nor look at the state, whatever they raise. *)
Definition pure_native {S A} (c : native S A) : Prop := exists r, forall s, c s = Ret (s, r).

Lemma pure_ret {S A} (a : A) : pure_native (S := S) (mret a).
Proof. by exists (inr a). Qed.
Lemma pure_raise {S A} e : pure_native (S := S) (A := A) (raise e).
Proof. by exists (inl e). Qed.
Lemma pure_bind {S A B} (c : native S A) (f : A -> native S B) :
  pure_native c -> (forall a, pure_native (f a)) -> pure_native (c ≫= f).
Proof.
  intros [[e|a] E] Hf; [exists (inl e); intros s; unfold mbind, native_bind; by rewrite E|].
  destruct (Hf a) as [r Er]. exists r. intros s. unfold mbind, native_bind. by rewrite E, Er.
Qed.
Create HintDb native_pure.
#[export] Hint Resolve pure_ret pure_raise pure_bind : native_pure.
Lemma pure_get_int {S} o : pure_native (S := S) (mp_obj_get_int o).
Proof. destruct o; cbn [mp_obj_get_int]; repeat case_match; auto with native_pure. Qed.
Lemma pure_convert {S} a o : pure_native (S := S) (convert_arg a o).
Proof. unfold convert_arg. case_match; auto using pure_get_int with native_pure. Qed.
#[export] Hint Resolve pure_get_int pure_convert : native_pure.
Lemma pure_str_data {S} o : pure_native (S := S) (mp_obj_str_get_data o).
Proof. destruct o; cbn [mp_obj_str_get_data]; auto with native_pure. Qed.
Lemma pure_buffer {S} o : pure_native (S := S) (mp_get_buffer_raise o).
Proof. destruct o; cbn [mp_get_buffer_raise]; auto with native_pure. Qed.
#[export] Hint Resolve pure_str_data pure_buffer : native_pure.
Lemma pure_parse {S} pos kws allowed : pure_native (S := S) (mp_arg_parse_all pos kws allowed).
Proof.
  unfold mp_arg_parse_all. generalize 0%nat. revert pos. induction allowed as [|a allowed IH]; intros pos n; cbn [parse_args].
  - repeat case_match; auto with native_pure.
  - repeat case_match; auto 6 with native_pure.
Qed.

(** A value of each declared kind stands at each position. *)
Definition has_kind (a : mp_arg_t) (v : mp_arg_val) : Prop :=
  match kind a, v with
  | MP_ARG_BOOL, UBool _ | MP_ARG_OBJ, UObj _ => True
  | MP_ARG_INT, UInt v => - 2 ^ 63 <= v < 2 ^ 63
  | _, _ => False
  end.
Lemma native_bind_inv {S A B} (c : native S A) (f : A -> native S B) s s' b :
  (c ≫= f) s = Ret (s', inr b) -> exists s1 a, c s = Ret (s1, inr a) /\ f a s1 = Ret (s', inr b).
Proof. unfold mbind, native_bind. destruct (c s) as [[s1 [e|a]]|msg| |]; intros E; try discriminate. by exists s1, a. Qed.
Ltac inv_native H :=
  let s := fresh "st" in let a := fresh "r" in let E := fresh "E" in
  apply native_bind_inv in H; destruct H as (s & a & E & H).

Lemma get_int_range {S} o (s s' : S) v : mp_obj_get_int o s = Ret (s', inr v) -> - 2 ^ 63 <= v < 2 ^ 63.
Proof.
  destruct o; cbn [mp_obj_get_int]; try discriminate; [intros [= _ <-]; by case_match|].
  unfold fits_int. case_test; [|discriminate]. intros [= _ <-]. prop_bools. lia.
Qed.
Lemma convert_kind {S} a o (s s' : S) v : convert_arg a o s = Ret (s', inr v) -> has_kind a v.
Proof.
  unfold convert_arg, has_kind. destruct (kind a); try (by intros [= _ <-]). intros E. inv_native E. injection E as _ <-. by eapply get_int_range.
Qed.
Lemma parse_kinds {S} pos kws allowed (s s' : S) vs :
  Forall (fun a => has_kind a (defval a)) allowed -> mp_arg_parse_all pos kws allowed s = Ret (s', inr vs) ->
  Forall2 has_kind allowed vs.
Proof.
  unfold mp_arg_parse_all. intros Hd. generalize 0%nat. revert pos s vs.
  induction allowed as [|a allowed IH]; intros pos s vs n; cbn [parse_args].
  - repeat case_match; try discriminate. intros [= _ <-]. constructor.
  - apply Forall_cons in Hd as [Hda Hd]. repeat case_match; try discriminate; intros E; inv_native E.
    + inv_native E. injection E as -> <-. constructor; [by eapply convert_kind|by eapply IH].
    + injection E as -> <-. constructor; [done|by eapply IH].
    + inv_native E. injection E as -> <-. constructor; [by eapply convert_kind|by eapply IH].
Qed.
