(* ===== verification/Natives.v ===== *)
(** * mpymod: the native modules Python programs call

    Each module wraps routines of the kernel: arguments are converted or the
    call raises, the routine runs, its result becomes an object.  The state of a
    section is what its routines work on. *)

From Stdlib Require Import ZArith Lia.
From stdpp Require Import base numbers gmap strings fin_maps option list.
From S2P Require Import Prelude MemUtils Heap HeapTheorems Allocator MemApps Vram MemCtx Vfs ProcTable Proc Fat32 Framebuffer VgaDraw Bootmode Digits Machine Serial Console DebugLog Script ErrorText Idt Kernel Modules Linkdep MpObj.

Local Open Scope Z_scope.

(** ** vga_draw *)

Section VgaDrawModule.
Context {Hw : Type} `{Hardware Hw}.

(** The drawing buffers, the machine they are shown on, [mp_vga_output]. *)
Record vga_state := VgaState { vd : vga; vmach : machine Hw; mp_vga_output : Z }.
Implicit Types s : vga_state.
Definition set_vd (v : vga) (s : vga_state) : vga_state := VgaState v (vmach s) (mp_vga_output s).
Definition set_output (n : Z) (s : vga_state) : vga_state := VgaState (vd s) (vmach s) n.
Definition draws (f : vga -> outcome vga) : native vga_state unit := call (fun s => v ← f (vd s); Ret (set_vd v s)).

Definition clamp_color (value : Z) : Z := if value <? 0 then 0 else if 15 <? value then 15 else value.
Definition char_from_obj (obj : mp_obj) (default_char : Z) : native vga_state Z :=
  match obj with
  | MP_OBJ_NULL | MpNone => mret default_char
  | _ => '(data, len) ← mp_obj_str_get_data obj;
         if len =? 0 then mret default_char else get (fun s => rd (mram (vmach s)) data)
  end.

Definition int_arg (q : string) (req kw : bool) (d : Z) : mp_arg_t := MpArg q MP_ARG_INT req kw (UInt d).
Definition char_arg (kw : bool) : mp_arg_t := MpArg "char" MP_ARG_OBJ false kw (UObj MP_OBJ_NULL).

Definition start_args : list mp_arg_t :=
  [int_arg "fg" false true VGA_WHITE; int_arg "bg" false true VGA_BLACK; char_arg true; MpArg "clear" MP_ARG_BOOL false true (UBool true)].
Definition begin_session : native vga_state unit :=
  call (fun s => '(v, vr) ← vga_draw_begin (vd s) (screen (vmach s)) (vid (vmach s));
                 Ret (VgaState v (set_vid (vmach s) vr) (mp_vga_output s))).
Definition mp_vga_draw_start (pos : list mp_obj) (kws : list (string * mp_obj)) : native vga_state mp_value :=
  args ← mp_arg_parse_all pos kws start_args;
  running ← get (fun s => vga_draw_is_active (vd s));
  if (running : bool) then raise (ValueError "drawing session already active") else
  begin_session;;
  let fg := clamp_color (u_int args 0) in
  let bg := clamp_color (u_int args 1) in
  fill ← char_from_obj (u_obj args 2) 32;
  (if u_bool args 3 then draws (fun v => vga_draw_clear v fill (u8 (VGA_ATTR fg bg))) else mret tt);;
  update (set_output 0);;
  mret RNone.

Definition ensure_active : native vga_state unit :=
  running ← get (fun s => vga_draw_is_active (vd s));
  if (running : bool) then mret tt else raise (ValueError "no active drawing session").

Definition clear_args : list mp_arg_t := [char_arg true; int_arg "fg" false true VGA_WHITE; int_arg "bg" false true VGA_BLACK].
Definition mp_vga_draw_clear (pos : list mp_obj) (kws : list (string * mp_obj)) : native vga_state mp_value :=
  args ← mp_arg_parse_all pos kws clear_args;
  ensure_active;;
  fill ← char_from_obj (u_obj args 0) 32;
  let fg := clamp_color (u_int args 1) in
  let bg := clamp_color (u_int args 2) in
  draws (fun v => vga_draw_clear v fill (u8 (VGA_ATTR fg bg)));;
  mret RNone.

Definition color_args : list mp_arg_t := [char_arg false; int_arg "fg" false false VGA_WHITE; int_arg "bg" false false VGA_BLACK].
Definition coord (q : string) : mp_arg_t := int_arg q true false 0.
Definition pixel_args : list mp_arg_t := [coord "x"; coord "y"] ++ color_args.
Definition mp_vga_draw_pixel (pos : list mp_obj) (kws : list (string * mp_obj)) : native vga_state mp_value :=
  args ← mp_arg_parse_all pos kws pixel_args;
  ensure_active;;
  let x := s32 (u_int args 0) in
  let y := s32 (u_int args 1) in
  ch ← char_from_obj (u_obj args 2) 0xDB;
  let fg := clamp_color (u_int args 3) in
  let bg := clamp_color (u_int args 4) in
  draws (fun v => vga_draw_set_cell v x y ch (u8 (VGA_ATTR fg bg)));;
  mret RNone.

Definition line_args : list mp_arg_t := [coord "x0"; coord "y0"; coord "x1"; coord "y1"] ++ color_args.
Definition mp_vga_draw_line (pos : list mp_obj) (kws : list (string * mp_obj)) : native vga_state mp_value :=
  args ← mp_arg_parse_all pos kws line_args;
  ensure_active;;
  let x0 := s32 (u_int args 0) in
  let y0 := s32 (u_int args 1) in
  let x1 := s32 (u_int args 2) in
  let y1 := s32 (u_int args 3) in
  ch ← char_from_obj (u_obj args 4) 0xDB;
  let fg := clamp_color (u_int args 5) in
  let bg := clamp_color (u_int args 6) in
  draws (fun v => vga_draw_line v x0 y0 x1 y1 ch (u8 (VGA_ATTR fg bg)));;
  mret RNone.

Definition rect_args : list mp_arg_t :=
  [coord "x"; coord "y"; coord "w"; coord "h"] ++ color_args ++ [MpArg "fill" MP_ARG_BOOL false false (UBool false)].
Definition mp_vga_draw_rect (pos : list mp_obj) (kws : list (string * mp_obj)) : native vga_state mp_value :=
  args ← mp_arg_parse_all pos kws rect_args;
  ensure_active;;
  let x := s32 (u_int args 0) in
  let y := s32 (u_int args 1) in
  let w := s32 (u_int args 2) in
  let h := s32 (u_int args 3) in
  ch ← char_from_obj (u_obj args 4) 0xDB;
  let fg := clamp_color (u_int args 5) in
  let bg := clamp_color (u_int args 6) in
  draws (fun v => vga_draw_rect v x y w h ch (u8 (VGA_ATTR fg bg)) (u_bool args 7));;
  mret RNone.

Definition present : native vga_state unit :=
  update (fun s => let '(v, m) := vga_draw_present (vd s) (screen (vmach s)) (mram (vmach s)) in
                   VgaState v (set_mram (vmach s) m) (mp_vga_output s)).
Definition unhide : native vga_state unit :=
  update (fun s => set_vd (vga_draw_end (vd s)) (set_output 1 s)).
(** At most one argument, checked by the interpreter. *)
Definition mp_vga_draw_present (args : list mp_obj) : native vga_state mp_value :=
  let show := match args with [] => true | o :: _ => mp_obj_is_true o end in
  ensure_active;;
  present;;
  (if show then unhide else mret tt);;
  mret RNone.
Definition mp_vga_draw_show : native vga_state mp_value :=
  ensure_active;;
  present;;
  unhide;;
  mret RNone.
Definition mp_vga_draw_is_hidden : native vga_state mp_value := get (fun s => RBool (mp_vga_output s =? 0)).
End VgaDrawModule.

(** ** consolectl, serialctl, keyinput, debugview, hwinfo, tscript *)

Section DeviceModules.
Context {Hw : Type} `{WordPorts Hw}.
Implicit Types m : machine Hw.

(** A routine for each character of a string. *)
Definition each_char (data len : Z) (f : machine Hw -> Z -> outcome (machine Hw)) : native (machine Hw) unit :=
  call (fun m => for_range_m len (fun i m => f m (rd (mram m) (data + i))) m).

Definition consolectl_write (text_obj : mp_obj) : native (machine Hw) mp_value :=
  '(data, len) ← mp_obj_str_get_data text_obj;
  each_char data len console_putc;;
  mret (RInt len).
Definition consolectl_clear : native (machine Hw) mp_value := call console_clear;; mret RNone.
Definition consolectl_set_attr (fg_obj bg_obj : mp_obj) : native (machine Hw) mp_value :=
  fg ← mp_obj_get_int fg_obj;
  bg ← mp_obj_get_int bg_obj;
  update (fun m => console_set_attr m (u8 fg) (u8 bg));;
  mret RNone.
(** [-lines] wraps for the smallest [int]. *)
Definition consolectl_scroll (lines_obj : mp_obj) : native (machine Hw) mp_value :=
  lines ← mp_obj_get_int lines_obj;
  let lines := s32 lines in
  (if 0 <? lines then call (for_range_m lines (fun _ => console_scroll_down))
   else if lines <? 0 then call (for_range_m (s32 (- lines)) (fun _ => console_scroll_up))
   else mret tt);;
  mret RNone.
Definition consolectl_backspace (count_obj : mp_obj) : native (machine Hw) mp_value :=
  count ← mp_obj_get_int count_obj;
  let count := if s32 count <? 0 then 0 else s32 count in
  call (for_range_m count (fun _ => console_backspace));;
  mret RNone.

(** Argument [i], or 0 when fewer were given. *)
Definition opt_arg (args : list mp_obj) (i : nat) : native (machine Hw) Z :=
  match args !! i with Some o => v ← mp_obj_get_int o; mret (u32 v) | None => mret 0 end.

Definition consolectl_blit_pixels (args : list mp_obj) : native (machine Hw) mp_value :=
  if (length args <? 3)%nat || (6 <? length args)%nat then raise TypeError else
  '(buf, len) ← mp_get_buffer_raise (default MP_OBJ_NULL (args !! 0%nat));
  width ← opt_arg args 1;
  height ← opt_arg args 2;
  x ← opt_arg args 3;
  y ← opt_arg args 4;
  stride ← opt_arg args 5;
  let stride := if stride =? 0 then u32 (width * 3) else stride in
  let required := u64 (stride * height) in
  if len <? required then raise (ValueError "pixel buffer too small") else
  ok ← call_with (fun m => let '(r, ok) := framebuffer_blit_rgb24 (screen m) x y width height buf stride (mram m) in
                          Ret (set_mram m r, ok));
  mret (RBool (negb (ok =? 0))).
Definition consolectl_blit_pixels_scaled (args : list mp_obj) : native (machine Hw) mp_value :=
  if (length args <? 5)%nat || (8 <? length args)%nat then raise TypeError else
  '(buf, len) ← mp_get_buffer_raise (default MP_OBJ_NULL (args !! 0%nat));
  src_width ← opt_arg args 1;
  src_height ← opt_arg args 2;
  dst_width ← opt_arg args 3;
  dst_height ← opt_arg args 4;
  x ← opt_arg args 5;
  y ← opt_arg args 6;
  stride ← opt_arg args 7;
  let stride := if stride =? 0 then u32 (src_width * 3) else stride in
  let required := u64 (stride * src_height) in
  if len <? required then raise (ValueError "pixel buffer too small") else
  ok ← call_with (fun m =>
    let '(r, ok) := framebuffer_blit_rgb24_scaled (screen m) x y dst_width dst_height buf src_width src_height stride (mram m) in
    Ret (set_mram m r, ok));
  mret (RBool (negb (ok =? 0))).

Definition consolectl_framebuffer_info : native (machine Hw) mp_value :=
  get (fun m => RDict [("width", RInt (framebuffer_width (screen m))); ("height", RInt (framebuffer_height (screen m)));
                       ("enabled", RBool (framebuffer_enabled (screen m)))]).
Definition color_table : list (string * Z) :=
  [("black", 0); ("blue", 1); ("green", 2); ("cyan", 3); ("red", 4); ("magenta", 5); ("brown", 6); ("light_grey", 7);
   ("dark_grey", 8); ("light_blue", 9); ("light_green", 10); ("light_cyan", 11); ("light_red", 12); ("light_magenta", 13);
   ("yellow", 14); ("white", 15)].
Definition consolectl_colors : native (machine Hw) mp_value := mret (RDict (List.map (fun c => (c.1, RInt c.2)) color_table)).

Definition serialctl_write (text_obj : mp_obj) : native (machine Hw) mp_value :=
  '(data, len) ← mp_obj_str_get_data text_obj;
  each_char data len serial_putc;;
  mret (RInt len).
Definition serialctl_write_hex (value_obj : mp_obj) : native (machine Hw) mp_value :=
  value ← mp_obj_get_int_truncated value_obj;
  call (fun m => serial_uhex m (u64 value));;
  mret RNone.
Definition serialctl_write_dec (value_obj : mp_obj) : native (machine Hw) mp_value :=
  value ← mp_obj_get_int value_obj;
  call (fun m => serial_udec m (u32 value));;
  mret RNone.
Definition serialctl_raw_write (data_obj : mp_obj) : native (machine Hw) mp_value :=
  '(data, len) ← mp_obj_str_get_data data_obj;
  each_char data len serial_raw_putc;;
  mret (RInt len).

Definition keyinput_read_code : native (machine Hw) mp_value :=
  value ← call_with console_getc;
  mret (RInt (u8 value)).
Definition keyinput_read_char : native (machine Hw) mp_value :=
  c ← call_with console_getc;
  let value := u8 c in
  if (32 <=? value) || (value =? 10) || (value =? 13) || (value =? 9) then mret (RStr [value])
  else if value =? 8 then mret (RStr [8])
  else mret RNone.

Definition debugview_dump_console : native (machine Hw) mp_value := call debuglog_dump_console;; mret RNone.
Definition debugview_buffer : native (machine Hw) mp_value :=
  get (fun m =>
    let buf := debuglog_buffer m in
    let len := debuglog_length m in
    if (buf =? 0) || (len =? 0) then RBytes [] else RBytes (bytes_at (mram m) buf (Z.to_nat len))).
Definition debugview_is_available : native (machine Hw) mp_value := get (fun m => RBool (negb (debuglog_buffer m =? 0))).

Definition hwinfo_rdtsc : native (machine Hw) mp_value :=
  t ← call_with (fun m => Ret (io_rdtsc m)); mret (RInt t).
Definition hwinfo_cpuid (leaf_obj : mp_obj) : native (machine Hw) mp_value :=
  leaf ← mp_obj_get_int leaf_obj;
  get (fun m => let '(a, b, c, d) := io_cpuid m (u32 leaf) in RTuple [RInt a; RInt b; RInt c; RInt d]).
Definition hwinfo_inb (port_obj : mp_obj) : native (machine Hw) mp_value :=
  port ← mp_obj_get_int port_obj;
  v ← call_with (fun m => Ret (io_inb m (u16 port)));
  mret (RInt v).
Definition hwinfo_outb (port_obj value_obj : mp_obj) : native (machine Hw) mp_value :=
  port ← mp_obj_get_int port_obj;
  value ← mp_obj_get_int value_obj;
  update (fun m => io_outb m (u16 port) (u8 value));;
  mret RNone.

Definition tscript_run (code_obj : mp_obj) : native (machine Hw) mp_value :=
  '(code, len) ← mp_obj_str_get_data code_obj;
  call (fun m => run_script m (bytes_at (mram m) code (Z.to_nat len)));;
  mret RNone.
End DeviceModules.

(** ** debugview and modrunner, on the whole kernel *)

Section KernelModules.
Context {L : Layout} {Hw : Type} `{Hardware Hw}.
Context (entry : kernel Hw -> outcome (kernel Hw)).
Implicit Types k : kernel Hw.

Definition debugview_flush : native (kernel Hw) mp_value := update debuglog_flush;; mret RNone.
Definition debugview_save_file : native (kernel Hw) mp_value := update debuglog_save_file;; mret RNone.
(** Strings of the interpreter are terminated. *)
Definition modrunner_run (g_mbi : Z) (name_obj : mp_obj) : native (kernel Hw) mp_value :=
  '(name, len) ← mp_obj_str_get_data name_obj;
  rc ← call_with (fun k => modexec_run entry k g_mbi (cstring k name));
  mret (RInt rc).
End KernelModules.

(** ** fsbridge *)

Section FsBridge.
(** [vstr_init_len] takes a buffer of the interpreter's heap, or raises. *)
Context (vstr_init_len : Z -> option Z).

Definition fsbridge_read (offset_obj length_obj : mp_obj) : native Fat32.fs mp_value :=
  offset ← mp_obj_get_int offset_obj;
  length ← mp_obj_get_int length_obj;
  let length := u64 length in
  if length =? 0 then mret (RBytes []) else
  match vstr_init_len length with
  | None => raise MemoryError
  | Some buf =>
      n ← call_with (fun s => Ret (fs_read s (u64 offset) buf length));
      let len := if n <? length then n else length in
      get (fun s => RBytes (bytes_at (Fat32.ram s) buf (Z.to_nat len)))
  end.
Definition fsbridge_write (offset_obj data_obj : mp_obj) : native Fat32.fs mp_value :=
  offset ← mp_obj_get_int offset_obj;
  '(data, len) ← mp_obj_str_get_data data_obj;
  written ← call_with (fun s => Ret (fs_write s (u64 offset) data len));
  mret (RInt written).
Definition fsbridge_capacity : native Fat32.fs mp_value := get (fun s => RInt (fs_capacity s)).
Definition fsbridge_is_mounted : native Fat32.fs mp_value := get (fun s => RBool (fs_is_mounted s)).
End FsBridge.

(** ** memstats *)

Section MemStats.
Context {St : Type} `{Allocator St}.
Definition memstats_register_app (priority_obj : mp_obj) : native (app_state St) mp_value :=
  priority ← mp_obj_get_int priority_obj;
  id ← call_with (fun s => Ret (mem_register_app s (u8 priority)));
  mret (RInt id).
Definition memstats_app_used (app_id_obj : mp_obj) : native (app_state St) mp_value :=
  app_id ← mp_obj_get_int app_id_obj;
  get (fun s => RInt (mem_app_used s (s32 app_id))).
Definition memstats_save_block (app_id_obj data_obj : mp_obj) : native (app_state St) mp_value :=
  app_id ← mp_obj_get_int app_id_obj;
  '(data, len) ← mp_obj_str_get_data data_obj;
  handle ← call_with (fun s => mem_save_app s (s32 app_id) data len);
  mret (RInt handle).
Definition memstats_load_block (app_id_obj handle_obj : mp_obj) : native (app_state St) mp_value :=
  app_id ← mp_obj_get_int app_id_obj;
  handle ← mp_obj_get_int handle_obj;
  '(ptr, size) ← call_with (fun s => let '(s, p, n) := mem_retrieve_app s (s32 app_id) (s32 handle) in Ret (s, (p, default 0 n)));
  if (ptr =? 0) || (size =? 0) then mret RNone
  else get (fun s => RBytes (bytes_at (al_ram (MemApps.mem s)) ptr (Z.to_nat size))).
End MemStats.
Definition memstats_heap_free {L : Layout} : native (app_state kmem) mp_value :=
  n ← call_with (fun s => n ← mem_heap_free (MemApps.mem s); Ret (s, n)); mret (RInt n).

(** ** runstatectl and vga *)

(** The variables of main.c and the buffer of the module.  [current_program] is
    a string of the kernel or the module's buffer. *)
Inductive program_name := KernelName (s : list Z) | ModuleBuffer | NoName.
Record runstate := RunState {
  current_program : program_name; current_user_app : Z; debug_mode : Z; vga_output : Z;
  current_program_buf : list Z     (** 64 bytes *)
}.
Definition set_user_app (v : Z) (r : runstate) : runstate :=
  RunState (current_program r) v (debug_mode r) (vga_output r) (current_program_buf r).
Definition set_debug (v : Z) (r : runstate) : runstate :=
  RunState (current_program r) (current_user_app r) v (vga_output r) (current_program_buf r).
Definition set_vga_output (v : Z) (r : runstate) : runstate :=
  RunState (current_program r) (current_user_app r) (debug_mode r) v (current_program_buf r).
Definition b2z (b : bool) : Z := if b then 1 else 0.

Definition program_text (r : runstate) : list Z :=
  match current_program r with
  | KernelName s => s
  | ModuleBuffer => until_nul (current_program_buf r)
  | NoName => []
  end.
Definition runstatectl_current_program : native runstate mp_value := get (fun r => RStr (program_text r)).
(** [text] reads the characters of the argument. *)
Definition runstatectl_set_current_program (text : Z -> Z -> list Z) (name_obj : mp_obj) : native runstate mp_value :=
  '(src, len) ← mp_obj_str_get_data name_obj;
  let len := if 64 <=? len then 63 else len in
  update (fun r => RunState ModuleBuffer (current_user_app r) (debug_mode r) (vga_output r)
    (text src len ++ 0 :: drop (Z.to_nat len + 1) (current_program_buf r)));;
  mret RNone.
Definition runstatectl_current_user_app : native runstate mp_value := get (fun r => RInt (current_user_app r)).
Definition runstatectl_set_current_user_app (value_obj : mp_obj) : native runstate mp_value :=
  v ← mp_obj_get_int value_obj; update (set_user_app (s32 v));; mret RNone.
Definition runstatectl_is_debug_mode : native runstate mp_value := get (fun r => RBool (negb (debug_mode r =? 0))).
Definition runstatectl_set_debug_mode (flag_obj : mp_obj) : native runstate mp_value :=
  update (set_debug (b2z (mp_obj_is_true flag_obj)));; mret RNone.
Definition runstatectl_is_vga_output : native runstate mp_value := get (fun r => RBool (negb (vga_output r =? 0))).
Definition runstatectl_set_vga_output (flag_obj : mp_obj) : native runstate mp_value :=
  update (set_vga_output (b2z (mp_obj_is_true flag_obj)));; mret RNone.
Definition vga_enable (flag : mp_obj) : native runstate mp_value :=
  update (set_vga_output (b2z (mp_obj_is_true flag)));; mret RNone.
