(* ===== verification/Mouse.v ===== *)
(** * mpymod/mouse: the PS/2 mouse

    Bytes of the mouse arrive at the keyboard controller; [mouse_poll] gathers
    them in packets of three.  The theorems read the polls as a function of the
    byte stream. *)

From Stdlib Require Import ZArith Lia.
From stdpp Require Import base numbers gmap strings fin_maps option list.
From S2P Require Import Prelude MemUtils Vram Framebuffer VgaDraw Bootmode Machine Serial Console DebugLog Linkdep MpObj.

Local Open Scope Z_scope.

(** The static variables. *)
Record mouse := Mouse { mouse_ready : bool; has_phase : bool; packet : list Z; packet_index : Z }.
Definition mouse_zero : mouse := Mouse false false [0; 0; 0] 0.

Section Mouse.
Context {Hw : Type} `{Hardware Hw}.
Implicit Types m : machine Hw.

(** At most 100000 polls. *)
Fixpoint wait_loop (n : nat) m : machine Hw :=
  match n with
  | O => m
  | S n => let '(m, v) := io_inb m 0x64 in if Z.land v 0x02 =? 0 then m else wait_loop n m
  end.
Definition mouse_wait_write m : machine Hw := wait_loop (Z.to_nat 100000) m.
Definition mouse_data_available m : machine Hw * bool :=
  let '(m, v) := io_inb m 0x64 in (m, negb (Z.land v 0x01 =? 0)).
Definition mouse_read_data m : machine Hw * Z := io_inb m 0x60.
Definition mouse_write_command m (value : Z) : machine Hw :=
  let m := mouse_wait_write m in
  let m := io_outb m 0x64 0xD4 in
  let m := mouse_wait_write m in
  io_outb m 0x60 value.
(** A byte that is waiting is dropped. *)
Definition drain m : machine Hw :=
  let '(m, ready) := mouse_data_available m in if ready then (mouse_read_data m).1 else m.

Definition mouse_init : native (machine Hw * mouse) mp_value := fun '(m, s) =>
  let m := mouse_wait_write m in
  let m := io_outb m 0x64 0xA8 in
  let m := mouse_wait_write m in
  let m := io_outb m 0x64 0x20 in
  let '(m, status) := mouse_read_data m in
  let m := mouse_wait_write m in
  let m := io_outb m 0x64 0x60 in
  let m := mouse_wait_write m in
  let m := io_outb m 0x60 (Z.lor status 0x02) in
  let m := drain (mouse_write_command m 0xF6) in
  let m := drain (mouse_write_command m 0xF4) in
  Ret ((m, Mouse true false (packet s) 0), inr (RBool true)).

Definition s8 (z : Z) : Z := (z + 128) mod 256 - 128.
Definition packet_tuple (p : list Z) : mp_value :=
  let b i := p !!! (i : nat) in
  RTuple [RInt (s8 (b 1%nat)); RInt (- s8 (b 2%nat));
          RBool (negb (Z.land (b 0%nat) 0x1 =? 0)); RBool (negb (Z.land (b 0%nat) 0x2 =? 0)); RBool (negb (Z.land (b 0%nat) 0x4 =? 0))].

(** What one byte does to the gathered packet; a store outside the array is a
    fault of the model. *)
Definition take_byte (s : mouse) (value : Z) : outcome (mouse * option mp_value) :=
  if negb (has_phase s) && (Z.land value 0x08 =? 0) then Ret (s, None) else
  let index := if has_phase s then packet_index s else 0 in
  if (0 <=? index) && (index <? 3) then
    let p := <[Z.to_nat index := value]> (packet s) in
    if index + 1 <? 3 then Ret (Mouse (mouse_ready s) true p (index + 1), None)
    else Ret (Mouse (mouse_ready s) true p 0, Some (packet_tuple p))
  else Fault.
Fixpoint poll_loop (fuel : nat) m (s : mouse) : outcome (machine Hw * mouse * option mp_value) :=
  let '(m, ready) := mouse_data_available m in
  if negb ready then Ret ((m, s), None) else
  let '(m, value) := mouse_read_data m in
  '(s, r) ← take_byte s value;
  match r with
  | Some t => Ret ((m, s), Some t)
  | None => match fuel with O => Timeout | S fuel => poll_loop fuel m s end
  end.
Definition mouse_poll : native (machine Hw * mouse) mp_value := fun '(m, s) =>
  if negb (mouse_ready s) then Ret ((m, s), inr RNone) else
  '(st, r) ← poll_loop hw_polls m s;
  Ret (st, inr (default RNone r)).
End Mouse.

(** ** The byte stream *)

(** The bytes waiting at the controller. *)
Class Aux (Hw : Type) `{Hardware Hw} := {
  aux_bytes : Hw -> list Z;
  aux_empty_law h : aux_bytes h = [] ->
    Z.land (u8 (hw_in h 0x64).2) 1 = 0 /\ aux_bytes (hw_in h 0x64).1 = [];
  aux_ready_law h b r : aux_bytes h = b :: r ->
    Z.land (u8 (hw_in h 0x64).2) 1 <> 0 /\ aux_bytes (hw_in h 0x64).1 = b :: r;
  aux_data_law h b r : aux_bytes h = b :: r ->
    u8 (hw_in h 0x60).2 = b /\ aux_bytes (hw_in h 0x60).1 = r
}.

(** The packets of a stream: bytes before the first one with bit 3 set are
    noise, the others are taken by threes. *)
Fixpoint skip_noise (bs : list Z) : list Z :=
  match bs with [] => [] | b :: bs => if Z.land b 0x08 =? 0 then skip_noise bs else b :: bs end.
Fixpoint packets (bs : list Z) : list mp_value :=
  match bs with b0 :: b1 :: b2 :: bs => packet_tuple [b0; b1; b2] :: packets bs | _ => [] end.

(** The packets still to be returned: those of what was gathered and of the
    bytes to come. *)
Definition gathered (s : mouse) : list Z := if has_phase s then take (Z.to_nat (packet_index s)) (packet s) else [].
Definition stream (s : mouse) (bs : list Z) : list Z := if has_phase s then gathered s ++ bs else skip_noise bs.
Record mouse_ok (s : mouse) : Prop := MouseOk {
  m_ready : mouse_ready s = true;
  m_packet : length (packet s) = 3%nat;
  m_index : 0 <= packet_index s < 3
}.

(** A byte joins the bytes gathered before it, or completes a packet. *)
Lemma take_byte_ok s b : mouse_ok s ->
  exists s' r, take_byte s b = Ret (s', r) /\ mouse_ok s' /\
    forall bs, if r is Some t then exists b0 b1 b2, t = packet_tuple [b0; b1; b2] /\ stream s (b :: bs) = b0 :: b1 :: b2 :: stream s' bs
               else stream s (b :: bs) = stream s' bs.
Proof.
  intros [Hr Hp Hi]. unfold take_byte, stream, gathered. destruct (packet s) as [|a0 [|a1 [|a2 [|? ?]]]] eqn:Ep; try done.
  assert (packet_index s = 0 \/ packet_index s = 1 \/ packet_index s = 2) as Hc by lia.
  destruct (has_phase s) eqn:Eh; cbn [negb andb].
  - destruct Hc as [E|[E|E]]; rewrite E; cbn; eexists _, _; (split; [done|]); (split; [by split; cbn|]); intros bs; cbn; eauto.
  - cbn [skip_noise]. destruct (Z.land b 8 =? 0) eqn:E8; cbn.
    + exists s, None. split; [done|]. split; [by split; rewrite ?Ep|]. intros bs. by rewrite Eh.
    + eexists _, _. split; [done|]. split; [by split; cbn|]. done.
Qed.
(** What was gathered is less than a packet. *)
Lemma stream_pending s : mouse_ok s -> (length (stream s []) < 3)%nat.
Proof.
  intros [_ Hp Hi]. unfold stream, gathered. destruct (has_phase s); [|cbn; lia].
  rewrite app_nil_r, length_take. lia.
Qed.

Section Stream.
Context {Hw : Type} `{Aux Hw}.
Implicit Types m : machine Hw.

Lemma available m : exists h, mouse_data_available m = (set_hw m h, bool_decide (aux_bytes (hw m) <> [])) /\ aux_bytes h = aux_bytes (hw m).
Proof.
  unfold mouse_data_available, io_inb. destruct (aux_bytes (hw m)) as [|b r] eqn:E.
  - destruct (aux_empty_law _ E) as [H1 H2]. destruct (hw_in (hw m) 0x64) as [h v]. cbn in *. exists h. by rewrite H1.
  - destruct (aux_ready_law _ _ _ E) as [H1 H2]. destruct (hw_in (hw m) 0x64) as [h v]. cbn in *. exists h.
    by rewrite (proj2 (Z.eqb_neq _ _) H1).
Qed.
Lemma read_byte m b r : aux_bytes (hw m) = b :: r -> exists h, mouse_read_data m = (set_hw m h, b) /\ aux_bytes h = r.
Proof.
  intros E. unfold mouse_read_data, io_inb. destruct (aux_data_law _ _ _ E) as [H1 H2]. destruct (hw_in (hw m) 0x60) as [h v].
  cbn in *. exists h. by rewrite H1.
Qed.

Lemma poll_loop_packets fuel m s : mouse_ok s -> (length (aux_bytes (hw m)) <= fuel)%nat ->
  exists h s' r, poll_loop fuel m s = Ret ((set_hw m h, s'), r) /\ mouse_ok s' /\
    match r with
    | Some t => exists b0 b1 b2, t = packet_tuple [b0; b1; b2] /\ stream s (aux_bytes (hw m)) = b0 :: b1 :: b2 :: stream s' (aux_bytes h)
    | None => aux_bytes h = [] /\ stream s (aux_bytes (hw m)) = stream s' []
    end.
Proof.
  revert m s. induction fuel as [|fuel IH]; intros m s Hok Hf; cbn [poll_loop]; destruct (available m) as (h & -> & Hh);
    destruct (aux_bytes (hw m)) as [|b bs] eqn:E; cbn [bool_decide negb].
  1, 3: exists h, s, None; rewrite Hh; by split_and!.
  1: cbn in Hf; lia.
  rewrite bool_decide_true by done. cbn [negb].
  destruct (read_byte (set_hw m h) b bs Hh) as (h2 & -> & Hh2).
  destruct (take_byte_ok s b Hok) as (s1 & r & -> & Hok1 & Hp). cbn [mbind outcome_bind]. destruct r as [t|].
  - exists h2, s1, (Some t). rewrite Hh2. split_and!; [done|done|apply Hp].
  - destruct (IH (set_hw (set_hw m h) h2) s1 Hok1) as (h3 & s2 & r & -> & Hok2 & Hp2); [cbn; rewrite Hh2; cbn in Hf; lia|].
    exists h3, s2, r. split_and!; [done|done|]. rewrite Hp. cbn [hw set_hw] in Hp2. by rewrite Hh2 in Hp2.
Qed.

(** C23: polling the mouse decodes the byte stream, the bytes gathered by earlier
    polls followed by those waiting: a poll takes the next three bytes off it
    and returns them as a packet, sign-extended and with the vertical axis
    flipped; when there are fewer it returns None, has taken every byte that
    arrived, and keeps them all (noise in front of the first packet apart) for
    the packet whose end is still to come.  The packet array is never overrun. *)
Theorem mouse_poll_decodes m s :
  mouse_ok s -> (length (aux_bytes (hw m)) <= hw_polls)%nat ->
  exists h s' v, mouse_poll (m, s) = Ret ((set_hw m h, s'), inr v) /\ mouse_ok s' /\
    match stream s (aux_bytes (hw m)) with
    | b0 :: b1 :: b2 :: later => v = packet_tuple [b0; b1; b2] /\ stream s' (aux_bytes h) = later
    | pending => v = RNone /\ aux_bytes h = [] /\ stream s' [] = pending
    end.
Proof.
  intros Hok Hf. unfold mouse_poll. rewrite (m_ready _ Hok). cbn [negb].
  destruct (poll_loop_packets hw_polls m s Hok Hf) as (h & s' & r & -> & Hok' & Hp). cbn [mbind outcome_bind].
  exists h, s', (default RNone r). split; [done|]. split; [done|]. destruct r as [t|].
  - by destruct Hp as (b0 & b1 & b2 & -> & ->).
  - destruct Hp as [Ha ->]. pose proof (stream_pending s' Hok') as Hl. by destruct (stream s' []) as [|b0 [|b1 [|b2 later]]]; [..|cbn in Hl; lia].
Qed.
End Stream.

#[export, refine] Instance demo_aux : Aux demo_hw := { aux_bytes h := u8 <$> keys h }.
Proof.
  - intros h E. change (hw_in h 0x64) with (h, if keys h is [] then 0 else 1). cbn [fst snd]. by destruct (keys h).
  - intros h b r E. change (hw_in h 0x64) with (h, if keys h is [] then 0 else 1). cbn [fst snd]. split; [|done]. by destruct (keys h).
  - intros h b r E. change (hw_in h 0x60) with (DemoHw (sent h) (waiting h) (tail (keys h)) (ticks h), default 0 (List.hd_error (keys h))).
    cbn. destruct (keys h) as [|c l]; [done|]. by injection E as <- <-.
Defined.

Definition demo_mouse_machine (bs : list Z) : machine demo_hw :=
  Machine (DemoHw [] [] bs 0) ∅ (Debuglog 0 0 0 0) false bootmode_init fb_zero mem_vram_init console_zero.
(** Noise, a packet with the left button, and the start of the next one, which a
    second poll keeps. *)
Lemma mouse_poll_decodes_witness : exists h s' h2 s2,
  mouse_poll (demo_mouse_machine [0x01; 0x09; 5; 0xFE; 0x08], Mouse true false [0; 0; 0] 0) =
    Ret ((set_hw (demo_mouse_machine [0x01; 0x09; 5; 0xFE; 0x08]) h, s'), inr (RTuple [RInt 5; RInt 2; RBool true; RBool false; RBool false])) /\
  mouse_poll (demo_mouse_machine [8; 7], s') = Ret ((set_hw (demo_mouse_machine [8; 7]) h2, s2), inr RNone) /\ stream s2 [] = [0x08; 7].
Proof.
  destruct (mouse_poll_decodes (demo_mouse_machine [0x01; 0x09; 5; 0xFE; 0x08]) (Mouse true false [0; 0; 0] 0)) as (h & s' & v & Hr & Hok & Hv);
    [by split|cbn; lia|]. vm_compute in Hv. destruct Hv as [-> _]. exists h, s'.
  assert (s' = Mouse true true [9; 5; 0xFE] 0) as ->.
  { vm_compute in Hr. injection Hr as _ <-. reflexivity. }
  destruct (mouse_poll_decodes (demo_mouse_machine [8; 7]) (Mouse true true [9; 5; 0xFE] 0)) as (h2 & s2 & w & Hr2 & _ & Hw); [done|cbn; lia|].
  vm_compute in Hw. destruct Hw as (-> & _ & Hw). exists h2, s2. exact (conj Hr (conj Hr2 Hw)).
Defined.

(** Synchronisation happens once: when a byte of a packet is lost, the packets
    that follow are read across their boundaries for good.  Here the second
    packet lost its last byte; the third, a click without motion, is misread. *)
Lemma lost_byte_never_resyncs :
  packets (stream (Mouse true true [0; 0; 0] 0) [0x08; 1; 1;  0x08; 1;  0x09; 0; 0;  0x08; 0; 0]) =
  [packet_tuple [0x08; 1; 1]; packet_tuple [0x08; 1; 0x09]; packet_tuple [0; 0; 0x08]].
Proof. reflexivity. Qed.
