(* ===== verification/NativesProofs.v ===== *)
(** * Theorems on the native modules *)

From Stdlib Require Import ZArith Lia.
From stdpp Require Import base numbers gmap strings fin_maps option list.
From S2P Require Import Prelude MemUtils Vram Framebuffer FramebufferProofs VgaDraw VgaDrawProofs Bootmode Machine Serial Console Linkdep Bootlogo BootlogoTheorems MpObj Natives.

Local Open Scope Z_scope.

(** ** Images given by Python programs *)

Section Blit.
Context (fb : framebuffer_state_t) (Hlw : 3 * logical_width fb < 4294967296) (data size : Z).
Local Abbreviation agree := (agree fb data size).

Lemma copy_pixel_agree x y p m1 m2 : data <= p -> p + 3 <= data + size -> agree m1 m2 ->
  agree (copy_pixel fb x y p m1) (copy_pixel fb x y p m2).
Proof.
  intros H1 H2 Ha. unfold copy_pixel. rewrite (Ha p), (Ha (p + 1)), (Ha (p + 2)) by (right; lia). by apply write_pixel_agree.
Qed.
Lemma clip_le n v lim : clip n v lim <= n /\ clip n v lim <= lim - v.
Proof. unfold clip. destruct (Z.ltb_spec (lim - v) n); lia. Qed.
Lemma u32_le z : 0 <= z -> 0 <= u32 z <= z.
Proof. intros Hz. split; [apply u32_nonneg|]. by apply Z.mod_le. Qed.


(** The offset of a pixel of the source: its row and column are inside the
    rectangle described by stride and height. *)
Lemma source_inside row col stride h w : 0 <= row < h -> 0 <= col < w -> 3 * w <= stride -> stride * h <= size ->
  0 <= u32 (row * stride) + u32 (col * 3) /\ u32 (row * stride) + u32 (col * 3) + 3 <= size.
Proof.
  intros Hr Hc Hw Hs. destruct (u32_le (row * stride)) as [? ?]; [nia|]. destruct (u32_le (col * 3)) as [? ?]; [lia|].
  split; [lia|]. assert (row * stride + stride <= stride * h) by nia. lia.
Qed.

Lemma blit_rgb24_agree x y w h stride m1 m2 :
  0 <= w -> 0 <= h -> 0 <= x -> 0 <= y -> stride * h <= size -> (stride = 0 -> w = 0) -> agree m1 m2 ->
  agree (framebuffer_blit_rgb24 fb x y w h data stride m1).1 (framebuffer_blit_rgb24 fb x y w h data stride m2).1 /\
  (framebuffer_blit_rgb24 fb x y w h data stride m1).2 = (framebuffer_blit_rgb24 fb x y w h data stride m2).2.
Proof.
  intros Hw Hh Hx Hy Hsz H0 Ha. unfold framebuffer_blit_rgb24.
  do 2 (case_test; [done|]). apply orb_false_iff in Htest as [Htest _]. prop_bools. rewrite (proj2 (Z.eqb_neq stride 0)) by tauto.
  case_test; [done|]. split; [|done]. cbn [fst]. prop_bools.
  destruct (clip_le w x (logical_width fb)) as [Hcw Hcw']. destruct (clip_le h y (logical_height fb)) as [Hch _].
  set (w' := clip w x _) in *. set (h' := clip h y _) in *.
  apply for_range_agree; [|done]. intros row a1 a2 Hrow Ha1. apply for_range_agree; [|done]. intros col b1 b2 Hcol Ha2.
  rewrite u32_small in * by lia. destruct (source_inside row col stride h w'); [lia..|]. apply copy_pixel_agree; [lia|lia|done].
Qed.
Lemma scaled_source i n d : 0 <= i < d -> 0 < n -> 0 <= u32 (i * n) / d < n.
Proof.
  intros Hi Hn. destruct (u32_le (i * n)); [nia|]. split; [apply Z.div_pos; lia|]. apply Z.div_lt_upper_bound; nia.
Qed.
Lemma blit_scaled_agree x y w h sw sh stride m1 m2 :
  0 <= w -> 0 <= h -> 0 <= x -> 0 <= y -> 0 <= sw -> 0 <= sh -> 3 * sw < 4294967296 -> stride * sh <= size -> (stride = 0 -> sw = 0) -> agree m1 m2 ->
  agree (framebuffer_blit_rgb24_scaled fb x y w h data sw sh stride m1).1 (framebuffer_blit_rgb24_scaled fb x y w h data sw sh stride m2).1 /\
  (framebuffer_blit_rgb24_scaled fb x y w h data sw sh stride m1).2 = (framebuffer_blit_rgb24_scaled fb x y w h data sw sh stride m2).2.
Proof.
  intros Hw Hh Hx Hy Hsw Hsh Hs3 Hsz H0 Ha. unfold framebuffer_blit_rgb24_scaled.
  do 2 (case_test; [done|]). do 2 (apply orb_false_iff in Htest as [Htest ?]). prop_bools. rewrite (proj2 (Z.eqb_neq stride 0)) by tauto.
  case_test; [done|]. split; [|done]. cbn [fst]. prop_bools. rewrite u32_small in * by lia.
  destruct (clip_le w x (logical_width fb)) as [Hcw Hcw']. destruct (clip_le h y (logical_height fb)) as [Hch _].
  set (w' := clip w x _) in *. set (h' := clip h y _) in *.
  apply for_range_agree; [|done]. intros row a1 a2 Hrow Ha1. apply for_range_agree; [|done]. intros col b1 b2 Hcol Ha2.
  pose proof (scaled_source row sh h' ltac:(lia) ltac:(lia)) as Hr. pose proof (scaled_source col sw w' ltac:(lia) ltac:(lia)) as Hc.
  destruct (source_inside (u32 (row * sh) / h') (u32 (col * sw) / w') stride sh sw); [lia..|]. apply copy_pixel_agree; [lia|lia|done].
Qed.
End Blit.

Section BlitModule.
Context {Hw : Type} `{WordPorts Hw}.
Implicit Types m : machine Hw.

(** Two runs that end alike: the same result or exception, and memories that
    agree on the screen and the [len] bytes at [buf]. *)
Definition same_drawing (fb : framebuffer_state_t) (buf len : Z) (o1 o2 : outcome (machine Hw * (mp_exc + mp_value))) : Prop :=
  exists m r1 r2 r, o1 = Ret (set_mram m r1, r) /\ o2 = Ret (set_mram m r2, r) /\ agree fb buf len r1 r2.

(** The pixels of an image argument. *)
Definition image_arg (args : list mp_obj) (buf len : Z) : Prop :=
  args !! 0%nat = Some (MpBytes buf len) \/ args !! 0%nat = Some (MpStr buf len).

Lemma same_const fb buf len m r1 r2 r : agree fb buf len r1 r2 ->
  same_drawing fb buf len (Ret (set_mram m r1, r)) (Ret (set_mram m r2, r)).
Proof. intros Ha. by exists m, r1, r2, r. Qed.
(** A conversion comes first. *)
Lemma same_bind {A} fb buf len m r1 r2 (c : native (machine Hw) A) f :
  pure_native c -> agree fb buf len r1 r2 ->
  (forall a, (forall m', c m' = Ret (m', inr a)) -> same_drawing fb buf len (f a (set_mram m r1)) (f a (set_mram m r2))) ->
  same_drawing fb buf len ((c ≫= f) (set_mram m r1)) ((c ≫= f) (set_mram m r2)).
Proof.
  intros [[e|a] E] Ha Hf; unfold mbind, native_bind; rewrite !E; [by apply same_const|by apply Hf].
Qed.

Lemma pure_opt_arg args i : pure_native (opt_arg (Hw := Hw) args i).
Proof. unfold opt_arg. case_match; auto with native_pure. Qed.
Lemma opt_arg_range args i v m : opt_arg (Hw := Hw) args i m = Ret (m, inr v) -> 0 <= v < 4294967296.
Proof.
  unfold opt_arg. case_match; [|intros [= <-]; lia]. intros E. inv_native E. injection E as _ <-. apply u32_range.
Qed.
Lemma pure_image args buf len : image_arg args buf len ->
  mp_get_buffer_raise (S := machine Hw) (default MP_OBJ_NULL (args !! 0%nat)) = mret (buf, len).
Proof. by intros [-> | ->]. Qed.

(** A picture drawn by the kernel. *)
Lemma same_call fb buf len m r1 r2 (draw : framebuffer_state_t -> gmap Z Z -> gmap Z Z * Z) :
  screen m = fb -> (agree fb buf len (draw fb r1).1 (draw fb r2).1 /\ (draw fb r1).2 = (draw fb r2).2) ->
  same_drawing fb buf len
    ((ok ← call_with (fun m => let '(r, ok) := draw (screen m) (mram m) in Ret (set_mram m r, ok)); mret (RBool (negb (ok =? 0)))) (set_mram m r1))
    ((ok ← call_with (fun m => let '(r, ok) := draw (screen m) (mram m) in Ret (set_mram m r, ok)); mret (RBool (negb (ok =? 0)))) (set_mram m r2)).
Proof.
  intros Hs [H1 H2]. unfold mbind, native_bind, call_with. cbn [mram screen set_mram]. rewrite Hs.
  destruct (draw fb r1) as [a1 ok1], (draw fb r2) as [a2 ok2]. cbn [fst snd] in H1, H2. subst ok2. cbn.
  by exists m, a1, a2, (inr (RBool (negb (ok1 =? 0)))).
Qed.

(** The stride the module uses, and what its check of the buffer says. *)
Lemma blit_stride len w h stride : 0 <= stride < 4294967296 -> 0 <= h < 4294967296 -> 0 <= w < 4294967296 ->
  let stride' := if stride =? 0 then u32 (w * 3) else stride in
  (len <? u64 (stride' * h)) = false -> stride' * h <= len /\ (stride' = 0 -> w = 0).
Proof.
  intros Hs Hh Hwd stride' Hlen. assert (0 <= stride' < 4294967296) by (unfold stride'; destruct (stride =? 0); [apply u32_range|lia]).
  rewrite u64_small in Hlen by nia. prop_bools. split; [lia|]. unfold stride'. intros E. case_test_in E.
  - mlia.
  - prop_bools. lia.
Qed.

(** C26: images given by Python programs: whatever the arguments, [blit_pixels]
    ends and depends on no memory but the bytes of the buffer it was given and
    the screen, though the stride is computed in 32 bits; the scaled variant
    does so too as long as three bytes per pixel of a source row fit in 32
    bits. *)
Theorem consolectl_images_confined m args buf len r1 r2 :
  3 * logical_width (screen m) < 4294967296 -> image_arg args buf len -> agree (screen m) buf len r1 r2 ->
  same_drawing (screen m) buf len (consolectl_blit_pixels args (set_mram m r1)) (consolectl_blit_pixels args (set_mram m r2)) /\
  ((forall w, opt_arg args 1 m = Ret (m, inr w) -> 3 * w < 4294967296) ->
   same_drawing (screen m) buf len (consolectl_blit_pixels_scaled args (set_mram m r1)) (consolectl_blit_pixels_scaled args (set_mram m r2))).
Proof.
  intros Hlw Himg Ha. split.
  - unfold consolectl_blit_pixels. case_test; [by apply same_const|]. rewrite (pure_image _ _ _ Himg).
    apply same_bind; [apply pure_ret|done|]. intros [b n] E. injection (E m) as <- <-. clear E.
    do 5 (apply same_bind; [apply pure_opt_arg|done|]; intros ? ?%(fun E => opt_arg_range _ _ _ m (E m))).
    destruct (len <? u64 _) eqn:Hfits; [by apply same_const|]. apply (same_call _ _ _ _ _ _ (fun fb => framebuffer_blit_rgb24 fb _ _ _ _ _ _)); [done|].
    eapply blit_stride in Hfits as [? ?]; [|lia..]. apply blit_rgb24_agree; (lia || done).
  - intros Hw3. unfold consolectl_blit_pixels_scaled. case_test; [by apply same_const|]. rewrite (pure_image _ _ _ Himg).
    apply same_bind; [apply pure_ret|done|]. intros [b n] E. injection (E m) as <- <-. clear E.
    apply same_bind; [apply pure_opt_arg|done|]. intros sw Hsw. specialize (Hw3 sw (Hsw m)). apply (fun E => opt_arg_range _ _ _ m (E m)) in Hsw.
    do 6 (apply same_bind; [apply pure_opt_arg|done|]; intros ? ?%(fun E => opt_arg_range _ _ _ m (E m))).
    destruct (len <? u64 _) eqn:Hfits; [by apply same_const|]. apply (same_call _ _ _ _ _ _ (fun fb => framebuffer_blit_rgb24_scaled fb _ _ _ _ _ _ _ _)); [done|].
    eapply blit_stride in Hfits as [? ?]; [|lia..]. apply blit_scaled_agree; (lia || done).
Qed.
End BlitModule.

(** ** The drawing session of vga_draw *)

Section Session.
Context {Hw : Type} `{Hardware Hw}.
Implicit Types s : vga_state (Hw := Hw).

(** The operations of a session. *)
Inductive draw_call :=
| DrawClear (pos : list mp_obj) (kws : list (string * mp_obj)) | DrawPixel (pos : list mp_obj) (kws : list (string * mp_obj))
| DrawLine (pos : list mp_obj) (kws : list (string * mp_obj)) | DrawRect (pos : list mp_obj) (kws : list (string * mp_obj))
| DrawPresent (args : list mp_obj) | DrawShow.
Definition run_draw (c : draw_call) : native (vga_state (Hw := Hw)) mp_value :=
  match c with
  | DrawClear pos kws => mp_vga_draw_clear pos kws
  | DrawPixel pos kws => mp_vga_draw_pixel pos kws
  | DrawLine pos kws => mp_vga_draw_line pos kws
  | DrawRect pos kws => mp_vga_draw_rect pos kws
  | DrawPresent args => mp_vga_draw_present args
  | DrawShow => mp_vga_draw_show
  end.

Lemma inactive_raises {A} (f : native _ A) s : vga_draw_is_active (vd s) = false ->
  (ensure_active;; f) s = Ret (s, inl (ValueError "no active drawing session")).
Proof. intros E. unfold ensure_active, mbind, native_bind, get, call_with. cbn. unfold vga_draw_is_active in *. by rewrite E. Qed.
Lemma inactive_parsed pos kws allowed (f : list mp_arg_val -> native _ mp_value) s : vga_draw_is_active (vd s) = false ->
  exists e, (args ← mp_arg_parse_all pos kws allowed; ensure_active;; f args) s = Ret (s, inl e).
Proof.
  intros E. destruct (pure_parse (S := vga_state (Hw := Hw)) pos kws allowed) as [[e|args] Er]; unfold mbind at 1, native_bind at 1; rewrite Er; [by exists e|].
  eexists. by apply inactive_raises.
Qed.

Lemma native_bind_ret {S A B} (c : native S A) (f : A -> native S B) (x y : S) a : c x = Ret (y, inr a) -> (c ≫= f) x = f a y.
Proof. intros E. unfold mbind, native_bind. by rewrite E. Qed.

(** Outside a session every operation raises and changes nothing. *)
Lemma no_session_no_drawing c s : vga_draw_is_active (vd s) = false -> exists e, run_draw c s = Ret (s, inl e).
Proof. intros E. destruct c; cbn [run_draw]; (by apply inactive_parsed) || (eexists; by apply inactive_raises). Qed.
(** A session is not started twice. *)
Lemma start_while_active pos kws s : vga_draw_is_active (vd s) = true -> exists e, mp_vga_draw_start pos kws s = Ret (s, inl e).
Proof.
  intros E. unfold mp_vga_draw_start. destruct (pure_parse (S := vga_state (Hw := Hw)) pos kws start_args) as [[e|args] Er];
    unfold mbind at 1, native_bind at 1; rewrite Er; [by exists e|].
  unfold mbind at 1, native_bind at 1, get, call_with. cbn. unfold vga_draw_is_active in *. rewrite E. by eexists.
Qed.
(** The fill character is looked at after the session was opened: a start that
    raises because of it leaves the session active, so the next start raises as
    well. *)
Lemma failed_start_stays_active s v vr :
  vga_draw_is_active (vd s) = false -> vga_draw_begin (vd s) (screen (vmach s)) (vid (vmach s)) = Ret (v, vr) ->
  exists s', mp_vga_draw_start [] [("char", MpInt 42)] s = Ret (s', inl TypeError) /\ vga_draw_is_active (vd s') = true.
Proof.
  intros E Eb. exists (VgaState v (set_vid (vmach s) vr) (mp_vga_output s)). split.
  - unfold mp_vga_draw_start. rewrite (native_bind_ret _ _ s s [UInt VGA_WHITE; UInt VGA_BLACK; UObj (MpInt 42); UBool true]) by done.
    rewrite (native_bind_ret _ _ s s false) by (unfold get; by rewrite E). cbn iota.
    rewrite (native_bind_ret _ _ s (VgaState v (set_vid (vmach s) vr) (mp_vga_output s)) tt); [done|].
    unfold begin_session, call. cbn. by rewrite Eb.
  - unfold vga_draw_begin in Eb. destruct (if initialised (vd s) then _ else _) as [[v1 vr1]|?| |]; try discriminate. by injection Eb as <- _.
Qed.
End Session.

(** ** Concrete inputs *)

#[local] Instance demo_words : WordPorts demo_hw :=
  { hw_inw h _ := (h, 0); hw_outw h _ _ := h; hw_inl h _ := (h, 0); hw_outl h _ _ := h; hw_cpuid _ _ := (0, 0, 0, 0) }.
Definition demo_image_machine : machine demo_hw :=
  Machine (DemoHw [] [] [] 0) ∅ (Debuglog 0 0 0 0) false bootmode_init demo_fb mem_vram_init console_zero.
(** A buffer of six bytes, and memories that differ behind it. *)
Definition demo_image (beyond : Z) : gmap Z Z := store_bytes (store_bytes ∅ 0x1000 [1; 2; 3; 4; 5; 6]) 0x80001001 [beyond; 7; 7].
Lemma demo_images_agree len : 0 <= len <= 6 -> agree (screen demo_image_machine) 0x1000 len (demo_image 8) (demo_image 9).
Proof.
  intros Hl a Ha. unfold demo_image. rewrite !(rd_store_bytes _ 0x80001001). change (length [8; 7; 7]) with 3%nat. change (length [9; 7; 7]) with 3%nat.
  case_decide as E; [|done]. exfalso.
  destruct Ha as [Ha|Ha]; [|lia]. unfold FramebufferProofs.screen in Ha.
  change (base (screen demo_image_machine)) with 0xFD000000 in Ha. lia.
Qed.

(** Two pixels in a row, as they are and in twice the size. *)
Lemma consolectl_images_confined_witness :
  same_drawing demo_fb 0x1000 6 (consolectl_blit_pixels [MpBytes 0x1000 6; MpInt 2; MpInt 1] (set_mram demo_image_machine (demo_image 8)))
                                (consolectl_blit_pixels [MpBytes 0x1000 6; MpInt 2; MpInt 1] (set_mram demo_image_machine (demo_image 9))) /\
  same_drawing demo_fb 0x1000 6
    (consolectl_blit_pixels_scaled [MpBytes 0x1000 6; MpInt 2; MpInt 1; MpInt 4; MpInt 2] (set_mram demo_image_machine (demo_image 8)))
    (consolectl_blit_pixels_scaled [MpBytes 0x1000 6; MpInt 2; MpInt 1; MpInt 4; MpInt 2] (set_mram demo_image_machine (demo_image 9))).
Proof.
  pose proof (demo_images_agree 6 ltac:(lia)) as Ha. split.
  - by apply (consolectl_images_confined demo_image_machine [MpBytes 0x1000 6; MpInt 2; MpInt 1] 0x1000 6 _ _ eq_refl (or_introl eq_refl) Ha).
  - apply (consolectl_images_confined demo_image_machine [MpBytes 0x1000 6; MpInt 2; MpInt 1; MpInt 4; MpInt 2] 0x1000 6 _ _ eq_refl (or_introl eq_refl) Ha).
    intros w E. vm_compute in E. by injection E as <-.
Defined.

(** The bound on the scaled variant is needed: a source 0x55555556 pixels wide
    has a stride of 2 in 32 bits, so a buffer of two bytes passes the check,
    and the second pixel shown is read two gigabytes behind it. *)
Lemma scaled_blit_reads_beyond :
  let args := [MpBytes 0x1000 2; MpInt 0x55555556; MpInt 1; MpInt 2; MpInt 1] in
  let shown r := match consolectl_blit_pixels_scaled args (set_mram demo_image_machine r) with
                 | Ret (m, inr v) => Some (read_pixel demo_fb 1 0 (mram m), v)
                 | _ => None
                 end in
  agree demo_fb 0x1000 2 (demo_image 8) (demo_image 9) /\
  shown (demo_image 8) = Some (0x080707, RBool true) /\ shown (demo_image 9) = Some (0x090707, RBool true).
Proof. split; [apply demo_images_agree; lia|]. split; vm_compute; reflexivity. Qed.
