(* ===== verification/Userland.v ===== *)
(** * run/userland: the programs' view of the system

    The two user programs, launchd.c and shelld.c, reach the kernel only through
    [int 0x80].  Here: the interface they are written against, the calls they
    make, and launchd.  A program's variables are values of the model; what
    crosses the interface (texts, paths, buffers to fill) lies in memory, at the
    addresses of the class [Areas]. *)

From Stdlib Require Import ZArith Lia.
From stdpp Require Import base numbers gmap strings option list.
From S2P Require Import Prelude MemUtils Digits Vfs Syscall.

Local Open Scope Z_scope.

(** ** The interface *)

(** A system with user programs: the trap, and the memory they share. *)
Class Os (St : Type) := {
  int80 : St -> Z -> Z -> Z -> Z -> outcome (St * Z);   (** rax, rdi, rsi, rdx; rax on return *)
  user_bytes : St -> Z -> nat -> list Z;
  user_store : St -> Z -> list Z -> St
}.
(** Where a program has the texts and paths it passes, and the buffers and
    records the system fills. *)
Class Areas := { str1 : Z; str2 : Z; local : Z }.

Definition prog (St A : Type) : Type := St -> outcome (St * A).
#[export] Instance prog_ret {St} : MRet (prog St) := fun A a s => Ret (s, a).
#[export] Instance prog_bind {St} : MBind (prog St) := fun A B f c s => '(s, a) ← c s; f a s.

Definition endless {St A} : prog St A := fun _ => Timeout.
Definition nothing {St} : prog St unit := fun s => Ret (s, tt).

(** A loop whose end depends on the system. *)
Fixpoint repeat_until {St A B} (fuel : nat) (body : A -> prog St (A + B)) (a : A) : prog St B :=
  r ← body a;
  match r with
  | inr b => fun s => Ret (s, b)
  | inl a => match fuel with O => endless | S fuel => repeat_until fuel body a end
  end.
Fixpoint each {St A} (f : A -> prog St unit) (l : list A) : prog St unit :=
  match l with [] => nothing | a :: l => f a;; each f l end.

(** ** Calls *)

Section Calls.
Context {St : Type} `{Os St} `{Areas}.

Definition put (a : Z) (bs : list Z) : prog St unit := fun s => Ret (user_store s a bs, tt).
Definition fetch (a : Z) (n : nat) : prog St (list Z) := fun s => Ret (s, user_bytes s a n).
(** The result is a [long]. *)
Definition syscall3 (n a b c : Z) : prog St Z := fun s => '(s, r) ← int80 s n a b c; Ret (s, s64 r).

(** [n] bytes to the console. *)
Definition outn (bs : list Z) : prog St unit :=
  put str1 bs;; syscall3 SYS_WRITE str1 (Z.of_nat (length bs)) 0;; nothing.
(** A call with a path, with two paths. *)
Definition on_path (n : Z) (p : list Z) (b c : Z) : prog St Z := put str1 (p ++ [0]);; syscall3 n str1 b c.
Definition on_paths (n : Z) (p q : list Z) : prog St Z := put str1 (p ++ [0]);; put str2 (q ++ [0]);; syscall3 n str1 str2 0.
(** A call that fills the buffer at [local], whose address is the argument [b];
    what it left there. *)
Definition filling (n a c : Z) : prog St (Z * list Z) :=
  got ← syscall3 n a local c;
  bs ← fetch local (Z.to_nat got);
  mret (got, bs).
End Calls.

(** The little-endian word of [n] bytes at [off] of a record. *)
Definition word_at (bs : list Z) (off n : nat) : Z := foldr (fun b v => b + 256 * v) 0 (take n (drop off bs)).

(** ** launchd.c *)

Section Launchd.
Context {St : Type} `{Os St} `{Areas}.

Definition write_text (text : string) : prog St unit := outn (str text).

(** What follows the last slash. *)
Definition base_name (path : list Z) : list Z :=
  foldl (fun base c => if c =? 47 then [] else base ++ [c]) [] path.
Fixpoint same_chars (a b : list Z) : bool :=
  match a, b with
  | [], [] => true
  | x :: a, y :: b => (x =? y) && same_chars a b
  | _, _ => false
  end.
Definition same_suffix (path name : list Z) : bool := same_chars (base_name path) name.

Fixpoint until_dot (l : list Z) : list Z :=
  match l with [] => [] | c :: l => if c =? 46 then [] else c :: until_dot l end.
Definition log_daemon_name (path : list Z) : prog St unit :=
  outn (str "launchd: " ++ [34]);;
  each (fun c => outn [c]) (until_dot (base_name path));;
  outn ([34] ++ str " found" ++ [10]).

Definition start_daemon (path : list Z) : prog St unit :=
  (if same_suffix path (str "shelld.elf") then
     outn (str "launchd: " ++ [34] ++ str "shelld" ++ [34] ++ str " found" ++ [10]);;
     outn (str "launchd: starting shelld executable as PID 2" ++ [10])
   else
     log_daemon_name path;;
     outn (str "launchd: starting configured daemon executable" ++ [10]));;
  pid ← on_path SYS_PROC_SPAWN path 0 0;
  if 0 <? pid then put local (le_bytes 4 0);; syscall3 SYS_PROC_WAIT pid local 0;; nothing else nothing.

Definition blank (c : Z) : bool := (c =? 32) || (c =? 9) || (c =? 13) || (c =? 10).
Definition CFG : nat := 512.
Definition PATH : nat := 128.

(** The scanner: [cursor] is the text from the cursor to its terminator. *)
Fixpoint skip_blanks (cursor : list Z) : list Z :=
  match cursor with c :: r => if blank c then skip_blanks r else cursor | [] => [] end.
(** Characters are copied while there is room for one and the terminator. *)
Fixpoint copy_word (cursor path : list Z) : list Z * list Z :=
  match cursor with
  | c :: r => if negb (blank c) && (length path + 1 <? PATH)%nat then copy_word r (path ++ [c]) else (cursor, path)
  | [] => (cursor, path)
  end.
Fixpoint skip_line (cursor : list Z) : list Z :=
  match cursor with c :: r => if c =? 10 then cursor else skip_line r | [] => [] end.
(** One round of the loop: the entry found, if any, and where the cursor is. *)
Definition next_entry (cursor : list Z) : option (list Z * list Z) :=
  match skip_blanks cursor with
  | [] => None
  | c :: r =>
      let '(cursor, path) := copy_word (c :: r) (if negb (c =? 47) then [47] else []) in
      Some (path, skip_line cursor)
  end.
Fixpoint start_entries (fuel : nat) (cursor : list Z) : prog St unit :=
  match next_entry cursor with
  | None => nothing
  | Some (path, cursor) =>
      (match path with [] => nothing | _ => start_daemon path end);;
      match fuel with O => endless | S fuel => start_entries fuel cursor end
  end.

(** Up to the idle loop; the result tells whether it is reached.  The loop
    calls [SYS_SLEEP_MS] for ever. *)
Definition _start : prog St bool :=
  outn (str "[launchd] real launchd ELF started as PID 1" ++ [10]);;
  outn (str "launchd: hello from launchd!" ++ [10]);;
  outn (str "launchd: finding LaunchDaemons" ++ [10]);;
  fd ← on_path SYS_VFS_OPEN (str "/launchd.cfg") VFS_O_RDONLY 0;
  let fd := s32 fd in
  if fd <? 0 then outn (str "launchd: missing /launchd.cfg" ++ [10]);; mret false else
  '(got, cfg) ← filling SYS_VFS_READ fd (Z.of_nat CFG - 1);
  syscall3 SYS_VFS_CLOSE fd 0 0;;
  if got <=? 0 then outn (str "launchd: empty /launchd.cfg" ++ [10]);; mret false else
  start_entries (length cfg) (until_nul cfg);;
  mret true.
Definition idle : prog St unit := syscall3 SYS_SLEEP_MS 1000 0 0;; nothing.
End Launchd.
