(* ===== verification/Shelld.v ===== *)
(** * run/userland/shelld.c: the shell

    Words, numbers and texts; the history ring; the commands; the line editor
    and the main loop.  [fuel] bounds the loops whose end the system decides
    (reading to the end of a file, a directory, the log, and the keys of a
    line); a loop that runs out of it is [Timeout]. *)

From Stdlib Require Import ZArith Lia.
From stdpp Require Import base numbers gmap strings option list.
From S2P Require Import Prelude MemUtils Digits Vfs ProcTable Syscall Userland.

Local Open Scope Z_scope.

Definition MAX_ARGC : nat := 16.
Definition HIST_MAX : nat := 32.
Definition LINE_MAX : nat := 192.

(** ** Texts *)

(** Strings are their characters, without the terminator. *)
Fixpoint seq (a b : list Z) : bool :=
  match a, b with
  | [], [] => true
  | x :: a, y :: b => (x =? y) && seq a b
  | _, _ => false
  end.
(** The pattern [n] is found at the start of [s]. *)
Fixpoint found_here (s n : list Z) : bool :=
  match n, s with
  | [], _ => true
  | y :: n, x :: s => (x =? y) && found_here s n
  | _ :: _, [] => false
  end.
Fixpoint found_from (s n : list Z) : bool :=
  match s with [] => false | _ :: r => found_here s n || found_from r n end.
Definition contains (s n : list Z) : bool := match n with [] => true | _ => found_from s n end.

(** [char b[24]; int i = 23;], filled from the end. *)
Definition udec_chars (v : Z) : outcome (list Z) := digit_text 32 10 HEX 24 22 v.
(** The value of a numeral, and whether it is one; [long] arithmetic wraps
    here, where C leaves it undefined. *)
Fixpoint num_loop (s : list Z) (v : Z) (any : bool) : Z * bool :=
  match s with
  | c :: r => if (48 <=? c) && (c <=? 57) then num_loop r (s64 (v * 10 + c - 48)) true else (v, false)
  | [] => (v, any)
  end.
Definition num (s : list Z) : Z * bool := num_loop s 0 false.

Definition hex_digit_of (v : Z) : Z := HEX !!! Z.to_nat (Z.land v 15).
Definition hex2_chars (v : Z) : list Z := [hex_digit_of (Z.shiftr v 4); hex_digit_of v].

(** [cpy] into a buffer of [n] bytes, and [catp] behind the string in it. *)
Definition cpy (s : list Z) (n : nat) : list Z := take (n - 1) s.
Definition catp (d s : list Z) (n : nat) : list Z := d ++ take (n - 1 - length d) s.

(** ** Words of a line

    [parse] works in the buffer of the line: it puts a terminator behind each
    word and gives the positions of the words. *)
Definition at_ (l : list Z) (p : nat) : Z := l !!! p.
(** How many characters from [p] on satisfy [f], up to the terminator. *)
Fixpoint run_len (f : Z -> bool) (s : list Z) : nat :=
  match s with c :: s => if negb (c =? 0) && f c then S (run_len f s) else O | [] => O end.
Definition skip (f : Z -> bool) (l : list Z) (p : nat) : nat := (p + run_len f (drop p l))%nat.
Definition space (c : Z) : bool := (c =? 32) || (c =? 9).

Fixpoint parse_loop (fuel : nat) (max : nat) (l : list Z) (p : nat) (av : list nat) : list Z * list nat :=
  match fuel with
  | O => (l, av)
  | S fuel =>
      if (at_ l p =? 0) || (max <=? length av)%nat then (l, av) else
      let p := skip space l p in
      if at_ l p =? 0 then (l, av) else
      let '(start, stop) :=
        if at_ l p =? 34 then (S p, skip (fun c => negb (c =? 34)) l (S p))
        else (p, skip (fun c => negb (space c)) l p) in
      let av := av ++ [start] in
      if at_ l stop =? 0 then parse_loop fuel max l stop av
      else parse_loop fuel max (<[stop := 0]> l) (S stop) av
  end.
Definition parse (l : list Z) (max : nat) : list Z * list nat := parse_loop (length l) max l 0 [].
(** The strings the positions point to. *)
Definition args_of (r : list Z * list nat) : list (list Z) := (fun p => until_nul (drop p r.1)) <$> r.2.

(** ** History *)

(** [hist], [hist_count], [hist_next]. *)
Record history := Hist { hist : list (list Z); hist_count : Z; hist_next : Z }.
Definition hist_zero : history := Hist (replicate HIST_MAX []) 0 0.
Definition addhist (h : history) (l : list Z) : history :=
  match l with
  | [] => h
  | _ => Hist (<[Z.to_nat (hist_next h) := cpy l LINE_MAX]> (hist h))
           (if hist_count h <? Z.of_nat HIST_MAX then hist_count h + 1 else hist_count h)
           (Z.rem (hist_next h + 1) (Z.of_nat HIST_MAX))
  end.
Definition hist_index_from_cursor (h : history) (cursor : Z) : Z :=
  Z.rem (hist_next h - hist_count h + cursor + Z.of_nat HIST_MAX) (Z.of_nat HIST_MAX).
Definition recalled (h : history) (cursor : Z) : list Z := hist h !!! Z.to_nat (hist_index_from_cursor h cursor).

(** ** Commands *)

Section Shell.
Context {St : Type} `{Os St} `{Areas}.
Context (fuel : nat).
(** The version string the build defines. *)
Context (EXOCORE_VERSION : list Z).
Abbreviation prog := (prog St).

Definition nl_char : list Z := [10].
Definition out (s : list Z) : prog unit := outn s.
Definition say (s : string) : prog unit := out (str s).
Definition say_line (s : string) : prog unit := out (str s ++ nl_char).
Definition nl : prog unit := out nl_char.
Definition udec (v : Z) : prog unit := fun s => match udec_chars v with Ret cs => out cs s | Panic m => Panic m | Fault => Fault | Timeout => Timeout end.
(** An [int] passed as an [unsigned long]. *)
Definition udec_int (v : Z) : prog unit := udec (u64 (s32 v)).
Definition hex2 (v : Z) : prog unit := outn (hex2_chars v).
Definition hex8 (v : Z) : prog unit := each (fun i => outn [hex_digit_of (Z.shiftr v i)]) [28; 24; 20; 16; 12; 8; 4; 0].

Definition openr (p : list Z) : prog Z := r ← on_path SYS_VFS_OPEN p VFS_O_RDONLY 0; mret (s32 r).
Definition openw (p : list Z) (f : Z) : prog Z := r ← on_path SYS_VFS_OPEN p f 0; mret (s32 r).
Definition rdfd (fd n : Z) : prog (Z * list Z) := filling SYS_VFS_READ fd n.
Definition wrfd (fd : Z) (bs : list Z) : prog Z := put str1 bs;; syscall3 SYS_VFS_WRITE fd str1 (Z.of_nat (length bs)).
Definition closefd (fd : Z) : prog unit := syscall3 SYS_VFS_CLOSE fd 0 0;; nothing.
Definition need (c u : list Z) : prog unit := out c;; say ": usage: ";; out u;; nl.

(** The loops that read to an end: [f] for each piece. *)
Definition read_loop (fd n : Z) (f : list Z -> prog unit) : prog Z :=
  repeat_until fuel (fun _ : unit => '(got, bs) ← rdfd fd n; if 0 <? got then f bs;; mret (inl tt) else mret (inr got)) tt.

Record dirent := Dirent { e_type : Z; e_size : Z; e_name : list Z }.
Definition dirent_at (bs : list Z) (i : Z) : dirent :=
  let e := drop (Z.to_nat (48 * i)) bs in Dirent (word_at e 0 4) (word_at e 8 8) (until_nul (take 32 (drop 16 e))).
Definition dir_loop (fd : Z) (f : dirent -> prog unit) : prog unit :=
  repeat_until fuel (fun _ : unit =>
    n ← syscall3 SYS_VFS_GETDENTS fd local 8;
    if 0 <? n then
      bs ← fetch local (Z.to_nat (48 * n));
      each f (dirent_at bs <$> seqZ 0 n);;
      mret (inl tt)
    else mret (inr tt)) tt.

Definition ls (p : list Z) (long : bool) : prog unit :=
  fd ← openr (match p with [] => str "." | _ => p end);
  if fd <? 0 then say_line "ls: cannot open path" else
  dir_loop fd (fun e =>
    (if long then out (if e_type e =? VFS_TYPE_DIR then str "d " else str "f ");; udec (e_size e);; say " " else nothing);;
    out (e_name e);;
    nl);;
  closefd fd.

Definition catcmd (p : list Z) : prog unit :=
  match p with
  | [] => need (str "cat") (str "cat <file>")
  | _ =>
      fd ← openr p;
      if fd <? 0 then say_line "cat: cannot open file" else
      n ← read_loop fd 256 outn;
      (if n <? 0 then say_line "cat: read failed" else nothing);;
      closefd fd
  end.

Definition stat_bytes (p : list Z) : prog (Z * list Z) :=
  r ← on_path SYS_VFS_STAT p local 0;
  bs ← fetch local 24;
  mret (r, bs).
Definition statcmd (p : list Z) : prog unit :=
  match p with
  | [] => need (str "stat") (str "stat <path>")
  | _ =>
      '(r, st) ← stat_bytes p;
      if negb (r =? 0) then say_line "stat: path not found" else
      say (if word_at st 0 4 =? VFS_TYPE_DIR then "directory " else "file ");;
      say "size=";;
      udec (word_at st 8 8);;
      say " inode=";;
      udec (word_at st 16 4);;
      say " children=";;
      udec (word_at st 20 4);;
      nl
  end.

(** The words of a [write], one space between two. *)
Fixpoint write_words (fd : Z) (first : bool) (ws : list (list Z)) : prog unit :=
  match ws with
  | [] => nothing
  | w :: ws => (if first then nothing else wrfd fd [32];; nothing);; wrfd fd w;; write_words fd false ws
  end.
Definition writecmd (av : list (list Z)) (app : bool) : prog unit :=
  match av with
  | cmd :: file :: w :: ws =>
      fd ← openw file (Z.lor (Z.lor VFS_O_CREAT VFS_O_RDWR) (if app then VFS_O_APPEND else VFS_O_TRUNC));
      if fd <? 0 then out cmd;; say_line ": cannot open file" else
      write_words fd true (w :: ws);;
      wrfd fd [10];;
      closefd fd
  | _ => need (av !!! 0%nat) (str (if app then "append <file> <text>" else "write <file> <text>"))
  end.

Definition cp_loop (s d : Z) : prog bool :=
  repeat_until fuel (fun _ : unit =>
    '(n, bs) ← rdfd s 512;
    if 0 <? n then w ← wrfd d bs; mret (if negb (w =? n) then inr true else inl tt)
    else mret (inr (n <? 0))) tt.
Definition cpcmd (av : list (list Z)) : prog unit :=
  match av with
  | [_; src; dst] =>
      s ← openr src;
      if s <? 0 then say_line "cp: cannot open source" else
      d ← openw dst (Z.lor (Z.lor VFS_O_CREAT VFS_O_RDWR) VFS_O_TRUNC);
      if d <? 0 then say_line "cp: cannot open destination";; closefd s else
      bad ← cp_loop s d;
      closefd s;;
      closefd d;;
      if (bad : bool) then say_line "cp: copy failed" else nothing
  | _ => need (str "cp") (str "cp <src> <dst>")
  end.

(** The optional number behind the file name. *)
Definition count_arg (av : list (list Z)) (d : Z) : option Z :=
  match av with
  | _ :: _ :: n :: _ => let '(v, ok) := num n in if ok && (0 <=? s32 v) then Some (s32 v) else None
  | _ => Some d
  end.
Definition read_char (fd : Z) : prog (option Z) :=
  '(n, bs) ← rdfd fd 1; mret (if n =? 1 then Some (bs !!! 0%nat) else None).

Definition headcmd (av : list (list Z)) : prog unit :=
  match av with
  | _ :: file :: _ =>
      match count_arg av 10 with
      | None => say_line "head: invalid line count"
      | Some limit =>
          fd ← openr file;
          if fd <? 0 then say_line "head: cannot open file" else
          repeat_until fuel (fun lines =>
            if limit <=? lines then mret (inr tt) else
            c ← read_char fd;
            match c with
            | None => mret (inr tt)
            | Some c => outn [c];; mret (inl (if c =? 10 then lines + 1 else lines))
            end) 0;;
          closefd fd
      end
  | _ => need (str "head") (str "head <file> [n]")
  end.

(** The position from which [tail] prints. *)
Fixpoint tail_pos (b : list Z) (limit : Z) (pos : nat) (lines : Z) : nat :=
  if limit <=? lines then pos else
  match pos with
  | O => O
  | S p => tail_pos b limit p (if (b !!! p =? 10) && (S p <? length b)%nat then lines + 1 else lines)
  end.
Definition tailcmd (av : list (list Z)) : prog unit :=
  match av with
  | _ :: file :: _ =>
      match count_arg av 10 with
      | None => say_line "tail: invalid line count"
      | Some limit =>
          fd ← openr file;
          if fd <? 0 then say_line "tail: cannot open file" else
          b ← repeat_until fuel (fun b : list Z =>
            '(n, bs) ← rdfd fd (4096 - Z.of_nat (length b));
            if 0 <? n then
              let b := b ++ bs in
              if (length b =? 4096)%nat then
                '(n, _) ← rdfd fd 1; mret (if 0 <? n then inr None else inl b)
              else mret (inl b)
            else mret (inr (Some b))) [];
          match b with
          | None => say_line "tail: file too large for shell buffer";; closefd fd
          | Some b => closefd fd;; outn (drop (tail_pos b limit (length b) 0) b)
          end
      end
  | _ => need (str "tail") (str "tail <file> [n]")
  end.

(** The buffer, the terminator behind it included, line by line; [line] is what
    stands between the last separator and here. *)
Fixpoint grep_lines (pattern : list Z) (line b : list Z) : prog unit :=
  match b with
  | [] => nothing
  | c :: b =>
      if (c =? 10) || (c =? 0) then
        (if contains line pattern then out line;; nl else nothing);; grep_lines pattern [] b
      else grep_lines pattern (line ++ [c]) b
  end.
Definition grepcmd (av : list (list Z)) : prog unit :=
  match av with
  | [_; pattern; file] =>
      fd ← openr file;
      if fd <? 0 then say_line "grep: cannot open file" else
      '(n, b) ← rdfd fd 4095;
      closefd fd;;
      if n <? 0 then say_line "grep: read failed" else
      (if n =? 4095 then say_line "grep: warning: file truncated to shell buffer" else nothing);;
      grep_lines pattern [] (b ++ [0])
  | _ => need (str "grep") (str "grep <pattern> <file>")
  end.

Definition flush_run (r : list Z) : prog unit := if (4 <=? length r)%nat then out r;; nl else nothing.
Definition stringscmd (av : list (list Z)) : prog unit :=
  match av with
  | [_; file] =>
      fd ← openr file;
      if fd <? 0 then say_line "strings: cannot open file" else
      r ← repeat_until fuel (fun r : list Z =>
        c ← read_char fd;
        match c with
        | None => mret (inr r)
        | Some c =>
            if (32 <=? c) && (c <=? 126) then mret (inl (if (length r <? 127)%nat then r ++ [c] else r))
            else flush_run r;; mret (inl [])
        end) [];
      flush_run r;;
      closefd fd
  | _ => need (str "strings") (str "strings <file>")
  end.

Definition hexdump_row (off : Z) (b : list Z) : prog unit :=
  hex8 off;;
  say "  ";;
  each (fun i => (match b !! i with Some v => hex2 v | None => say "  " end);; say " ") (List.seq 0 16);;
  say " ";;
  each (fun v => outn [if (32 <=? v) && (v <=? 126) then v else 46]) b;;
  nl.
Definition hexdumpcmd (av : list (list Z)) : prog unit :=
  match av with
  | _ :: file :: _ =>
      match count_arg av 256 with
      | None => say_line "hexdump: invalid max_bytes"
      | Some max =>
          fd ← openr file;
          if fd <? 0 then say_line "hexdump: cannot open file" else
          repeat_until fuel (fun off =>
            if max <=? off then mret (inr tt) else
            '(n, b) ← rdfd fd (if 16 <? max - off then 16 else max - off);
            if 0 <? n then hexdump_row off b;; mret (inl (off + n)) else mret (inr tt)) 0;;
          closefd fd
      end
  | _ => need (str "hexdump") (str "hexdump <file> [max_bytes]")
  end.

(** [dir/name], in a buffer of [VFS_MAX_PATH] bytes. *)
Definition child_path (p name : list Z) : list Z :=
  let child := cpy p 128 in
  let child := if negb (seq child (str "/")) then catp child (str "/") 128 else child in
  catp child name 128.
Definition dots (name : list Z) : bool := seq name (str ".") || seq name (str "..").
Fixpoint treewalk (levels : nat) (p : list Z) (depth : Z) : prog unit :=
  if 8 <? depth then say_line "..." else
  match levels with
  | O => endless
  | S levels =>
      fd ← openr p;
      if fd <? 0 then say "tree: cannot open ";; out p;; nl else
      dir_loop fd (fun e =>
        if dots (e_name e) then nothing else
        each (fun _ => say "  ") (seqZ 0 depth);;
        out (e_name e);;
        nl;;
        if e_type e =? VFS_TYPE_DIR then treewalk levels (child_path p (e_name e)) (depth + 1) else nothing);;
      closefd fd
  end.
Fixpoint findwalk (levels : nat) (p term : list Z) (depth : Z) : prog unit :=
  if 8 <? depth then nothing else
  match levels with
  | O => endless
  | S levels =>
      fd ← openr p;
      if fd <? 0 then nothing else
      dir_loop fd (fun e =>
        if dots (e_name e) then nothing else
        let child := child_path p (e_name e) in
        (if contains (e_name e) term then out child;; nl else nothing);;
        if e_type e =? VFS_TYPE_DIR then findwalk levels child term (depth + 1) else nothing);;
      closefd fd
  end.

Definition state (s : Z) : string :=
  if s =? PROC_STATE_READY then "READY" else if s =? PROC_STATE_RUNNING then "RUN" else if s =? PROC_STATE_EXITED then "EXIT"
  else if s =? PROC_STATE_ZOMBIE then "ZOMBIE" else if s =? PROC_STATE_DEAD then "DEAD" else "UNUSED".
(** The fields of a [proc_info_t]. *)
Definition pi_text (pi : list Z) (off len : nat) : list Z := until_nul (take len (drop off pi)).
Definition pinfo (pid : Z) : prog unit :=
  r ← syscall3 SYS_PROC_INFO pid local 0;
  if negb (r =? 0) then say_line "pinfo: process not found" else
  pi ← fetch local 360;
  say "pid=";;
  udec_int (word_at pi 0 4);;
  say " ppid=";;
  udec_int (word_at pi 4 4);;
  say " state=";;
  say (state (s32 (word_at pi 8 4)));;
  say " exit=";;
  udec_int (word_at pi 12 4);;
  say " name=";;
  out (pi_text pi 20 32);;
  say " exe=";;
  out (pi_text pi 180 128);;
  say " cwd=";;
  out (pi_text pi 52 128);;
  nl.

Definition help : prog unit :=
  out (str "Builtins:" ++ nl_char ++ str "  help clear echo version about exit history mpy" ++ nl_char ++
       str "Files:" ++ nl_char ++
       str "  pwd cd ls ll tree stat find cat touch write append truncate rm mkdir rmdir mv cp size head tail hexdump strings wc grep access" ++ nl_char ++
       str "Processes:" ++ nl_char ++ str "  pid ppid ps pinfo run spawn wait kill" ++ nl_char ++
       str "System:" ++ nl_char ++ str "  mem dmesg uptime sleep sync banner printtest alloctest" ++ nl_char).
Definition banner : prog unit := say_line "=== ExoCore shelld ===".
Definition clear_screen : prog unit :=
  out ([27] ++ str "[2J" ++ [27] ++ str "[H");; syscall3 SYS_IOCTL 1 0 0;; nothing.
Definition dmesg_read_at (size off : Z) : prog (Z * list Z) :=
  n ← syscall3 SYS_DMESG_READ local size off;
  b ← fetch local (Z.to_nat n);
  mret (n, b).
(** The length of the log. *)
Definition log_length : prog Z :=
  repeat_until fuel (fun len =>
    '(n, _) ← dmesg_read_at 512 len; mret (if 0 <? n then inl (len + n) else inr len)) 0.
Definition show_log_step (dir : Z) : prog unit :=
  len ← log_length;
  let len := if len <? 0 then 0 else len in
  let start := if 480 <? len then len - 480 else 0 in
  let start := if (dir <? 0) && (960 <? len) then len - 960 else start in
  '(n, b) ← dmesg_read_at 511 start;
  if 0 <? n then
    out (nl_char ++ str "--- recent logs ---" ++ nl_char);;
    out (until_nul b);;
    if negb (default 0 (last b) =? 10) then nl else nothing
  else nothing.

(** ** Running a line *)

(** A path given to one call: what is said when it fails. *)
Definition path_command (n : Z) (av : list (list Z)) (usage failed : string) : prog unit :=
  match av with
  | [cmd; p] => r ← on_path n p 0 0; if negb (r =? 0) then say_line failed else nothing
  | _ => need (av !!! 0%nat) (str usage)
  end.
Definition open_command (flags : Z) (av : list (list Z)) (usage failed : string) : prog unit :=
  match av with
  | [cmd; p] => fd ← openw p flags; if fd <? 0 then say_line failed else closefd fd
  | _ => need (av !!! 0%nat) (str usage)
  end.
(** A number given to a command. *)
Definition number_command (av : list (list Z)) (usage invalid : string) (f : Z -> prog unit) : prog unit :=
  match av with
  | [cmd; n] => let '(v, ok) := num n in if ok then f v else say_line invalid
  | _ => need (av !!! 0%nat) (str usage)
  end.
Definition arg1 (av : list (list Z)) (d : list Z) : list Z := match av with _ :: a :: _ => a | _ => d end.

Definition show_history (h : history) : prog unit :=
  let start := Z.rem (hist_next h - hist_count h + Z.of_nat HIST_MAX) (Z.of_nat HIST_MAX) in
  each (fun i => udec_int (i + 1);; say " ";; out (hist h !!! Z.to_nat (Z.rem (start + i) (Z.of_nat HIST_MAX)));; nl)
    (seqZ 0 (hist_count h)).
Fixpoint echo_words (first : bool) (ws : list (list Z)) : prog unit :=
  match ws with [] => nothing | w :: ws => (if first then nothing else say " ");; out w;; echo_words false ws end.
Definition pwd : prog unit :=
  r ← syscall3 SYS_VFS_GETCWD local 128 0;
  b ← fetch local 128;
  (if r =? 0 then out (until_nul b) else say "pwd: failed");;
  nl.
Definition ps : prog unit :=
  n ← syscall3 SYS_PROC_LIST local 16 0;
  p ← fetch local (Z.to_nat (360 * n));
  say_line "PID PPID STATE NAME EXE";;
  each (fun i =>
    let pi := drop (Z.to_nat (360 * i)) p in
    udec_int (word_at pi 0 4);;
    say " ";;
    udec_int (word_at pi 4 4);;
    say " ";;
    say (state (s32 (word_at pi 8 4)));;
    say " ";;
    out (pi_text pi 20 32);;
    say " ";;
    out (pi_text pi 180 128);;
    nl) (seqZ 0 n).
Definition wait_for (pid : Z) : prog unit :=
  put local (le_bytes 4 0);;
  r ← syscall3 SYS_PROC_WAIT (s32 pid) local 0;
  st ← fetch local 4;
  if r <? 0 then say_line "wait: failed" else
  say "exit status ";;
  udec_int (word_at st 0 4);;
  nl.
Definition kill (pid : Z) : prog unit :=
  kr ← syscall3 SYS_PROC_KILL (s32 pid) (-1) 0;
  if kr =? 0 then say_line "killed"
  else if kr =? PROC_ERR_PROTECTED then say_line "kill: cannot kill PID 1"
  else if kr =? PROC_ERR_NOT_FOUND then say_line "kill: process not found"
  else if kr =? PROC_ERR_INVALID_STATE then say_line "kill: no running process with that PID"
  else say_line "kill: failed".
Definition mpy (av : list (list Z)) : prog unit :=
  match av with
  | [_; p] =>
      r ← on_path SYS_MPY_EXEC_FILE p 0 0;
      if r =? PROC_ERR_NOMEM then say_line "mpy: out of memory"
      else if r <? 0 then say_line "mpy: failed; check that the raw .py file exists" else nothing
  | _ => need (str "mpy") (str "mpy <file.py>")
  end.
Definition runcmd (av : list (list Z)) : prog unit :=
  match av with
  | cmd :: p :: more =>
      (match more with [] => nothing | _ => say_line "run: arguments are ignored by current kernel spawn ABI" end);;
      r ← on_path SYS_PROC_SPAWN_EX p 0 0;
      if r =? PROC_ERR_NOMEM then say_line (if seq cmd (str "spawn") then "spawn: out of memory" else "run: out of memory")
      else if r <? 0 then
        say_line (if seq cmd (str "spawn") then "spawn: failed; check path and executable format"
                  else "run: spawn failed; check path and executable format")
      else say "spawned pid ";; udec (u64 r);; nl
  | _ => need (av !!! 0%nat) (str "run <path> [args...]")
  end.
Definition mem : prog unit :=
  r ← syscall3 SYS_MEM_INFO local 0 0;
  if r =? 0 then
    mi ← fetch local 48;
    say "heap_used=";;
    udec (word_at mi 0 8);;
    say " heap_free=";;
    udec (word_at mi 8 8);;
    say " heap_committed=";;
    udec (word_at mi 16 8);;
    say " heap_max=";;
    udec (word_at mi 24 8);;
    say " grow_count=";;
    udec (word_at mi 32 8);;
    say " alloc_fail_count=";;
    udec (word_at mi 40 8);;
    nl
  else say_line "mem: failed".
Definition dmesg : prog unit :=
  repeat_until fuel (fun off =>
    '(n, b) ← dmesg_read_at 256 off;
    if 0 <? n then outn b;; mret (inl (off + n)) else mret (inr tt)) 0;;
  nl.
Definition uptime : prog unit :=
  ms ← syscall3 SYS_UPTIME_MS 0 0 0;
  udec (u64 ms);;
  say " ms (";;
  udec (u64 ms / 1000);;
  say_line " s)".

(** The commands by name; [None]: none has this name. *)
Definition text_command (h : history) (named : string -> bool) (av : list (list Z)) : option (prog unit) :=
  if named "help" then Some help
  else if named "clear" then Some clear_screen
  else if named "echo" then Some (echo_words true (tail av);; nl)
  else if named "version" then Some (out EXOCORE_VERSION;; nl)
  else if named "about" then Some (say_line "ExoCore Kernel shell daemon")
  else if named "history" then Some (show_history h)
  else None.
Definition file_command (named : string -> bool) (av : list (list Z)) : option (prog unit) :=
  let rdwr := Z.lor VFS_O_CREAT VFS_O_RDWR in
  if named "pwd" then Some pwd
  else if named "cd" then Some (
    if (2 <? length av)%nat then need (str "cd") (str "cd [dir]") else
    r ← on_path SYS_VFS_CHDIR (arg1 av (str "/")) 0 0;
    if negb (r =? 0) then say_line "cd: not a directory or missing" else nothing)
  else if named "ls" then Some (ls (arg1 av (str ".")) false)
  else if named "ll" then Some (ls (arg1 av (str ".")) true)
  else if named "tree" then Some (out (arg1 av (str "."));; nl;; treewalk 10 (arg1 av (str ".")) 1)
  else if named "find" then Some (
    match av with
    | _ :: term :: more => findwalk 10 (match more with p :: _ => p | [] => str "." end) term 0
    | _ => need (str "find") (str "find <name> [start_path]")
    end)
  else if named "cat" then Some (catcmd (arg1 av []))
  else if named "touch" then Some (open_command rdwr av "touch <file>" "touch: failed")
  else if named "write" then Some (writecmd av false)
  else if named "append" then Some (writecmd av true)
  else if named "truncate" then Some (open_command (Z.lor rdwr VFS_O_TRUNC) av "truncate <file>" "truncate: failed")
  else if named "rm" then Some (path_command SYS_VFS_UNLINK av "rm <file>" "rm: failed; missing file or directory")
  else if named "mkdir" then Some (path_command SYS_VFS_MKDIR av "mkdir <dir>" "mkdir: failed")
  else if named "rmdir" then Some (path_command SYS_VFS_RMDIR av "rmdir <dir>"
    "rmdir: failed; directory may be missing, non-empty, or not a directory")
  else if named "mv" then Some (
    match av with
    | [_; p; q] => r ← on_paths SYS_VFS_RENAME p q; if negb (r =? 0) then say_line "mv: failed" else nothing
    | _ => need (str "mv") (str "mv <old> <new>")
    end)
  else if named "cp" then Some (cpcmd av)
  else if named "stat" || named "size" then Some (statcmd (arg1 av []))
  else if named "head" then Some (headcmd av)
  else if named "tail" then Some (tailcmd av)
  else if named "hexdump" then Some (hexdumpcmd av)
  else if named "strings" then Some (stringscmd av)
  else if named "wc" then Some (
    match av with
    | [_; p] => '(r, st) ← stat_bytes p; if negb (r =? 0) then say_line "wc: missing file" else udec (word_at st 8 8);; nl
    | _ => need (str "wc") (str "wc <file>")
    end)
  else if named "grep" then Some (grepcmd av)
  else if named "access" then Some (
    match av with
    | [_; p] => r ← on_path SYS_VFS_ACCESS p 0 0; say_line (if r =? 0 then "exists" else "missing")
    | _ => need (str "access") (str "access <path>")
    end)
  else None.
Definition process_command (named : string -> bool) (av : list (list Z)) : option (prog unit) :=
  if named "pid" then Some (r ← syscall3 SYS_GETPID 0 0 0; (if r <=? 0 then say "pid: no current process" else udec (u64 r));; nl)
  else if named "ppid" then Some (r ← syscall3 SYS_GETPPID 0 0 0; (if r <? 0 then say "ppid: no current process" else udec (u64 r));; nl)
  else if named "ps" then Some ps
  else if named "pinfo" then Some (number_command av "pinfo <pid>" "pinfo: invalid pid" (fun v => pinfo (s32 v)))
  else if named "wait" then Some (number_command av "wait <pid>" "wait: invalid pid" wait_for)
  else if named "kill" then Some (number_command av "kill <pid>" "kill: invalid pid" kill)
  else if named "mpy" then Some (mpy av)
  else if named "run" || named "spawn" then Some (runcmd av)
  else None.
Definition system_command (named : string -> bool) (av : list (list Z)) : option (prog unit) :=
  if named "mem" then Some mem
  else if named "dmesg" then Some dmesg
  else if named "uptime" then Some uptime
  else if named "sleep" then Some (number_command av "sleep <ms>" "sleep: invalid ms" (fun ms => syscall3 SYS_SLEEP_MS ms 0 0;; nothing))
  else if named "sync" then Some (r ← syscall3 SYS_SYNC 0 0 0; say_line (if r =? 0 then "sync ok" else "sync failed"))
  else if named "alloctest" then Some (p ← syscall3 SYS_MEM_ALLOC 64 0 0; say_line (if negb (p =? 0) then "alloctest ok" else "alloctest failed"))
  else if named "printtest" then Some (say_line "printtest ok")
  else if named "banner" then Some banner
  else None.
Definition run_words (h : history) (av : list (list Z)) : prog unit :=
  match av with
  | [] => nothing
  | cmd :: _ =>
      let named (n : string) := seq cmd (str n) in
      default (say_line "unknown command")
        (union (text_command h named av) (union (file_command named av) (union (process_command named av) (system_command named av))))
  end.
Definition runline (h : history) (line : list Z) : prog unit := run_words h (args_of (parse (line ++ [0]) MAX_ARGC)).

(** ** The line editor *)

(** The characters of the line before the cursor, which is always at its end,
    and the entry of the history that is shown. *)
Record editor := Editor { e_line : list Z; e_recall : Z }.

Definition read_key : prog Z :=
  put local [0];;
  syscall3 SYS_READ 0 local 1;;
  c ← fetch local 1;
  mret (c !!! 0%nat).
Definition read_escape : prog Z :=
  a ← read_key;
  if negb (a =? 91) then mret 0 else read_key.

Definition rubout : list Z := [8; 32; 8].
Definition redraw_input (line : list Z) (pos : nat) : prog unit :=
  each (fun _ => out rubout) (List.seq 0 pos);; out line.
(** To an older entry or a newer one; behind the newest the line is empty. *)
Definition recall_step (h : history) (older newer : bool) (e : editor) : prog editor :=
  if hist_count h =? 0 then mret e else
  let r := if older && (0 <? e_recall e) then e_recall e - 1
           else if newer && (e_recall e <? hist_count h) then e_recall e + 1 else e_recall e in
  let line := if r <? hist_count h then cpy (recalled h r) LINE_MAX else [] in
  redraw_input line (length (e_line e));;
  mret (Editor line r).
Definition edit_step (h : history) (e : editor) : prog (editor + list Z) :=
  if (LINE_MAX - 1 <=? length (e_line e))%nat then mret (inr (e_line e)) else
  c ← read_key;
  if c =? 0 then mret (inl e) else
  let c := if c =? 13 then 10 else c in
  if c =? 27 then
    x ← read_escape;
    if (x =? 68) || (x =? 67) then e ← recall_step h (x =? 68) (x =? 67) e; mret (inl e)
    else if (x =? 65) || (x =? 66) then
      show_log_step (if x =? 65 then -1 else 1);; say "exo> ";; outn (e_line e);; mret (inl e)
    else mret (inl e)
  else if (c =? 0x80) || (c =? 0x81) then e ← recall_step h (c =? 0x80) (c =? 0x81) e; mret (inl e)
  else if c =? 10 then nl;; mret (inr (e_line e))
  else if (c =? 8) || (c =? 127) then
    match e_line e with
    | [] => mret (inl e)
    | _ => out rubout;; mret (inl (Editor (take (length (e_line e) - 1) (e_line e)) (e_recall e)))
    end
  else outn [c];; mret (inl (Editor (e_line e ++ [c]) (e_recall e))).
Definition read_line (h : history) : prog (list Z) := repeat_until fuel (edit_step h) (Editor [] (hist_count h)).

(** ** The main loop *)

Definition valid_context : prog bool :=
  pid ← syscall3 SYS_GETPID 0 0 0;
  if pid <=? 0 then say_line "shelld: invalid process context; refusing to run commands";; mret false else mret true.
Definition display_logs_visible : prog bool :=
  r ← syscall3 SYS_FB_INFO local 0 0;
  info ← fetch local 24;
  mret (if negb (r =? 0) then true else negb (word_at info 20 4 =? 0)).
(** One command; [inr]: the shell ends. *)
Definition shell_round (h : history) : prog (history + unit) :=
  ok ← valid_context;
  if negb ok then mret (inr tt) else
  visible ← display_logs_visible;
  (if (visible : bool) then syscall3 SYS_DISPLAY_MODE SYS_DISPLAY_ENABLE_LOGS 0 0;; nothing else nothing);;
  say "exo> ";;
  line ← read_line h;
  if seq line (str "exit") then mret (inr tt) else
  let h := addhist h line in
  runline h line;;
  ok ← valid_context;
  mret (if negb ok then inr tt else inl h).
Definition _start : prog unit :=
  visible ← display_logs_visible;
  clear_screen;;
  (if (visible : bool) then banner;; say_line "type help for commands" else nothing);;
  repeat_until fuel shell_round hist_zero;;
  syscall3 SYS_EXIT 0 0 0;;
  nothing.
End Shell.
