(* ===== verification/UserProofs.v ===== *)
(** * The user programs: what they read and what they make of it

    launchd's configuration, and the shell's words, numbers, searches and
    history.  The theorems hold on any system with the interface [Os]. *)

From Stdlib Require Import ZArith Lia.
From stdpp Require Import base numbers gmap strings option list.
From S2P Require Import Prelude MemUtils Digits ErrorText Vfs Syscall Userland Shelld.

Local Open Scope Z_scope.

(** ** The configuration of launchd *)

(** The lines of a text, and the first word of a line. *)
Fixpoint lines (s : list Z) : list (list Z) :=
  match s with
  | [] => [[]]
  | c :: s => if c =? 10 then [] :: lines s else match lines s with l :: ls => (c :: l) :: ls | [] => [[c]] end
  end.
Fixpoint word (l : list Z) : list Z := match l with c :: l => if blank c then [] else c :: word l | [] => [] end.
(** What a line asks for: an absolute path, cut to the 127 characters the
    buffer holds. *)
Definition entry_of (line : list Z) : option (list Z) :=
  match word (skip_blanks line) with
  | [] => None
  | c :: w => Some (take 127 (if c =? 47 then c :: w else 47 :: c :: w))
  end.
Definition config_entries (text : list Z) : list (list Z) := omap entry_of (lines text).

Fixpoint first_line (s : list Z) : list Z := match s with c :: s => if c =? 10 then [] else c :: first_line s | [] => [] end.
Lemma lines_first s : lines s = first_line s :: match skip_line s with [] => [] | _ :: r => lines r end.
Proof. induction s as [|c s IH]; [done|]. cbn. destruct (Z.eqb_spec c 10) as [->|]; [done|]. by rewrite IH. Qed.
Lemma config_first s : config_entries s =
  match entry_of (first_line s) with Some p => [p] | None => [] end ++ match skip_line s with [] => [] | _ :: r => config_entries r end.
Proof. unfold config_entries. rewrite lines_first. cbn. destruct (entry_of _), (skip_line s); by rewrite ?app_nil_r. Qed.
Lemma config_blank c s : blank c = true -> config_entries (c :: s) = config_entries s.
Proof.
  intros Hb. rewrite config_first. cbn. destruct (Z.eqb_spec c 10) as [->|Hc]; [done|].
  unfold entry_of. cbn. rewrite Hb. by rewrite (config_first s).
Qed.
Lemma config_skip s : config_entries (skip_blanks s) = config_entries s.
Proof. induction s as [|c s IH]; [done|]. cbn [skip_blanks]. destruct (blank c) eqn:Hb; [by rewrite config_blank, IH|done]. Qed.
Lemma skip_blanks_head s : match skip_blanks s with [] => True | c :: _ => blank c = false end.
Proof. induction s as [|c s IH]; [done|]. cbn. by destruct (blank c) eqn:E. Qed.

(** The word is copied as far as there is room; the cursor stays in its line. *)
Lemma copy_word_spec s path : (length path <= 127)%nat ->
  exists s', copy_word s path = (s', take 127 (path ++ word s)) /\ skip_line s' = skip_line s.
Proof.
  revert path. induction s as [|c s IH]; intros path Hl; cbn [copy_word word].
  - exists []. by rewrite app_nil_r, take_ge.
  - destruct (blank c) eqn:Hb; cbn [negb andb]; [exists (c :: s); by rewrite app_nil_r, take_ge|].
    destruct (Nat.ltb_spec (length path + 1) PATH) as [Hlt|Hge]; unfold PATH in *.
    + destruct (IH (path ++ [c])) as (s' & -> & E); [rewrite length_app; cbn; lia|]. exists s'. rewrite <- app_assoc. split; [done|].
      rewrite E. cbn. destruct (Z.eqb_spec c 10) as [->|]; [discriminate|done].
    + exists (c :: s). by rewrite take_app_length' by lia.
Qed.
Lemma word_first_line s : word (first_line s) = word s.
Proof.
  induction s as [|c s IH]; [done|]. cbn. destruct (Z.eqb_spec c 10) as [->|]; [done|]. cbn. by rewrite IH.
Qed.
Lemma next_entry_spec s : next_entry s =
  match skip_blanks s with [] => None | c :: r => Some (default [] (entry_of (first_line (c :: r))), skip_line (c :: r)) end /\
  match skip_blanks s with [] => True | c :: r => exists p, entry_of (first_line (c :: r)) = Some p /\ p <> [] end.
Proof.
  pose proof (skip_blanks_head s) as Hh. unfold next_entry. destruct (skip_blanks s) as [|c r]; [done|].
  assert (c <> 10) as Hc by (by intros ->).
  assert (entry_of (first_line (c :: r)) = Some (take 127 ((if negb (c =? 47) then [47] else []) ++ word (c :: r)))) as E.
  { unfold entry_of. rewrite <- (word_first_line (c :: r)). cbn [first_line]. rewrite (proj2 (Z.eqb_neq c 10) Hc).
    cbn [skip_blanks]. rewrite Hh. cbn [word]. rewrite Hh. by destruct (c =? 47). }
  destruct (copy_word_spec (c :: r) (if negb (c =? 47) then [47] else [])) as (s' & -> & Es); [by destruct (c =? 47); cbn; lia|].
  rewrite E, Es. split; [done|]. eexists. split; [done|]. cbn [word]. rewrite Hh. by destruct (c =? 47).
Qed.
Lemma skip_line_shrinks s : (length (skip_line s) <= length s)%nat.
Proof. induction s as [|c s IH]; [done|]. cbn. destruct (c =? 10); cbn; lia. Qed.
Lemma skip_blanks_shrinks s : (length (skip_blanks s) <= length s)%nat.
Proof. induction s as [|c s IH]; [done|]. cbn. destruct (blank c); cbn; lia. Qed.

Section LaunchdProofs.
Context {St : Type} `{Os St} `{Areas}.

(** C24: launchd starts what its configuration lists: scanning the text it runs
    [start_daemon] for the first word of each line that has one, in order and
    once each, made absolute and cut to the size of the path buffer, and the
    scan ends. *)
Theorem launchd_starts_entries text (s : St) :
  start_entries (length text) text s = each start_daemon (config_entries text) s.
Proof.
  assert (forall n text s, (length text <= n)%nat -> start_entries n text s = each start_daemon (config_entries text) s) as Hn; [|by apply Hn].
  clear text s. induction n as [|n IH]; intros text s Hl.
  - destruct text; [|cbn in Hl; lia]. done.
  - cbn [start_entries]. destruct (next_entry_spec text) as [-> Hp]. rewrite <- (config_skip text). pose proof (skip_blanks_shrinks text) as Hs.
    destruct (skip_blanks text) as [|c r] eqn:Es; [done|]. destruct Hp as (p & Ep & Hne). rewrite (config_first (c :: r)), Ep.
    destruct p as [|x p]; [done|]. cbn [app each from_option id]. unfold mbind, prog_bind.
    destruct (start_daemon (x :: p) s) as [[s1 []]|m| |]; [|reflexivity..]. cbn [mbind outcome_bind].
    pose proof (skip_line_shrinks r) as Hr. assert ((c =? 10) = false) as Hc.
    { pose proof (skip_blanks_head text) as Hh. rewrite Es in Hh. by destruct (Z.eqb_spec c 10) as [->|]. }
    cbn [skip_line]. rewrite Hc, IH by (cbn in *; lia). destruct (skip_line r) as [|y l] eqn:El; [done|].
    assert (y = 10) as ->; [|by rewrite config_blank]. clear -El. induction r as [|z r IHr]; [done|]. cbn in El. destruct (Z.eqb_spec z 10); [congruence|auto].
Qed.
End LaunchdProofs.

(** ** The words of a command *)

(** A scanner with three states. *)
Inductive scan := Between | InWord (w : list Z) | InQuotes (w : list Z).
Fixpoint tokens (st : scan) (s : list Z) : list (list Z) :=
  match s with
  | [] => match st with Between => [] | InWord w | InQuotes w => [w] end
  | c :: s =>
      match st with
      | Between => if space c then tokens Between s else if c =? 34 then tokens (InQuotes []) s else tokens (InWord [c]) s
      | InWord w => if space c then w :: tokens Between s else tokens (InWord (w ++ [c])) s
      | InQuotes w => if c =? 34 then w :: tokens Between s else tokens (InQuotes (w ++ [c])) s
      end
  end.

(** Runs: the longest prefix of characters that satisfy a test. *)
Lemma run_len_split f r : no_nul r -> exists a b, r = a ++ b /\ run_len f (r ++ [0]) = length a /\
  Forall (fun c => f c = true) a /\ match b with [] => True | c :: _ => f c = false end.
Proof.
  induction 1 as [|c r Hc Hr (a & b & -> & E & Ha & Hb)]; [by exists [], []|].
  cbn [app run_len]. rewrite (proj2 (Z.eqb_neq c 0) Hc). cbn [negb andb]. destruct (f c) eqn:Hf.
  - exists (c :: a), b. rewrite E. split_and!; try done. by constructor.
  - by exists [], (c :: a ++ b).
Qed.
Lemma skip_at f pre r : no_nul r -> exists a b, r = a ++ b /\ skip f (pre ++ r ++ [0]) (length pre) = length (pre ++ a) /\
  Forall (fun c => f c = true) a /\ match b with [] => True | c :: _ => f c = false end.
Proof.
  intros Hr. destruct (run_len_split f r Hr) as (a & b & E & Hl & Ha & Hb). exists a, b.
  unfold skip. rewrite drop_app_length, Hl, length_app. done.
Qed.
Lemma at_here pre r : at_ (pre ++ r ++ [0]) (length pre) = match r with [] => 0 | c :: _ => c end.
Proof. unfold at_. rewrite list_lookup_total_alt, lookup_app_r, Nat.sub_diag by done. by destruct r. Qed.
Lemma tokens_skip a r : Forall (fun c => space c = true) a -> tokens Between (a ++ r) = tokens Between r.
Proof. induction 1 as [|c a Hc _ IH]; [done|]. cbn. by rewrite Hc. Qed.
Lemma tokens_word w a r : Forall (fun c => negb (space c) = true) a -> match r with [] => True | c :: _ => space c = true end ->
  tokens (InWord w) (a ++ r) = (w ++ a) :: tokens Between (tail r).
Proof.
  intros Ha Hr. revert w. induction Ha as [|c a Hc _ IH]; intros w; cbn [app tokens].
  - rewrite app_nil_r. destruct r as [|c r]; [done|]. cbn [tokens tail]. by rewrite Hr.
  - apply negb_true_iff in Hc. by rewrite Hc, IH, <- app_assoc.
Qed.
Lemma tokens_quotes w a r : Forall (fun c => negb (c =? 34) = true) a -> match r with [] => True | c :: _ => c = 34 end ->
  tokens (InQuotes w) (a ++ r) = (w ++ a) :: tokens Between (tail r).
Proof.
  intros Ha Hr. revert w. induction Ha as [|c a Hc _ IH]; intros w; cbn [app tokens].
  - rewrite app_nil_r. destruct r as [|c r]; [done|]. cbn [tokens tail]. by rewrite Hr.
  - apply negb_true_iff in Hc. by rewrite Hc, IH, <- app_assoc.
Qed.

(** The rest [r] of the line, behind [pre]: what is in front stays as it is,
    and the positions found are those of the tokens of the rest. *)
Definition found (pre : list Z) (toks : list (list Z)) (res : list Z * list nat) (av : list nat) : Prop :=
  exists mid pos, res = (pre ++ mid, av ++ pos) /\ args_of (pre ++ mid, pos) = toks /\ Forall (fun o => (length pre <= o)%nat) pos.

(** One word: it stands behind [pre]; the terminator put behind it, if any, and
    the rest come later. *)
Lemma found_word fuel max l pre w r av start stop :
  no_nul w -> no_nul r -> l = pre ++ w ++ r ++ [0] -> start = length pre -> stop = length (pre ++ w) -> (length av < max)%nat ->
  (forall pre' av', (length av' = length av + 1)%nat -> found pre' (take (max - length av') (tokens Between (tail r)))
     (parse_loop fuel max (pre' ++ tail r ++ [0]) (length pre') av') av') ->
  found pre (take (max - length av) (w :: tokens Between (tail r)))
    (if at_ l stop =? 0 then parse_loop fuel max l stop (av ++ [start]) else parse_loop fuel max (<[stop := 0]> l) (S stop) (av ++ [start])) av.
Proof.
  intros Hw Hr -> -> -> Hav Hrest. rewrite (app_assoc pre w), at_here.
  assert (length (av ++ [length pre]) = length av + 1)%nat as Hla by (rewrite length_app; done).
  replace (max - length av)%nat with (S (max - (length av + 1))) by lia. cbn [take].
  destruct r as [|c r].
  - cbn [tail]. rewrite Z.eqb_refl. exists (w ++ [0]), [length pre]. replace (parse_loop _ _ _ _ _) with ((pre ++ w) ++ [] ++ [0], av ++ [length pre]).
    + cbn [app]. rewrite <- app_assoc. split; [done|]. split; [|by constructor]. unfold args_of. cbn. rewrite drop_app_length, until_nul_junk by done. by rewrite take_nil.
    + destruct fuel; [done|]. cbn [parse_loop]. by rewrite at_here, Z.eqb_refl.
  - apply Forall_cons in Hr as [Hc Hr]. rewrite (proj2 (Z.eqb_neq c 0) Hc). cbn [tail app] in *.
    rewrite insert_at_length by done. destruct (Hrest ((pre ++ w) ++ [0]) (av ++ [length pre]) Hla) as (mid & pos & E & Ea & Hp).
    rewrite <- !app_assoc in E. cbn [app] in E. rewrite <- !app_assoc. rewrite !length_app in *. cbn [length] in *.
    replace (S (length pre + length w)) with (length pre + (length w + 1))%nat by lia. rewrite E. exists (w ++ 0 :: mid), (length pre :: pos).
    split; [done|]. split.
    + unfold args_of in *. cbn [fst snd fmap list_fmap] in *. rewrite <- !app_assoc in Ea. cbn [app] in Ea. rewrite Ea.
      by rewrite drop_app_length, until_nul_junk.
    + constructor; [done|]. eapply Forall_impl; [exact Hp|]. cbn. lia.
Qed.

Lemma no_nul_tail r : no_nul r -> no_nul (tail r).
Proof. destruct 1; [by constructor|done]. Qed.

Lemma parse_found max fuel pre r av : no_nul r -> (length r < fuel)%nat ->
  found pre (take (max - length av) (tokens Between r)) (parse_loop fuel max (pre ++ r ++ [0]) (length pre) av) av.
Proof.
  revert pre r av. induction fuel as [|fuel IH]; intros pre r av Hr Hf; [lia|]. cbn [parse_loop].
  assert (forall l, l = pre ++ r ++ [0] -> take (max - length av) (tokens Between r) = [] -> found pre (take (max - length av) (tokens Between r)) (l, av) av) as Hstop.
  { intros l -> ->. exists (r ++ [0]), []. by rewrite app_nil_r. }
  rewrite at_here. destruct (_ || _) eqn:E0.
  { apply Hstop; [done|]. destruct r as [|c r]; [apply take_nil|]. apply Forall_cons in Hr as [Hc _]. rewrite (proj2 (Z.eqb_neq c 0) Hc) in E0.
    cbn in E0. apply Nat.leb_le in E0. by replace (max - length av)%nat with O by lia. }
  apply orb_false_iff in E0 as [_ Hmax%Nat.leb_gt].
  destruct (skip_at space pre r Hr) as (b & r1 & -> & Eb & Hb & Hh). rewrite Eb. rewrite tokens_skip in Hstop |- * by done.
  apply Forall_app in Hr as [_ Hr]. rewrite length_app in Hf. rewrite <- app_assoc, (app_assoc pre) in *. rewrite at_here.
  assert (forall toks res, found (pre ++ b) toks res av -> found pre toks res av) as Hmono.
  { intros toks res (mid & pos & -> & Ea & Hp). exists (b ++ mid), pos. rewrite (app_assoc pre). split_and!; [done|done|].
    eapply Forall_impl; [exact Hp|]. cbn. rewrite length_app. lia. }
  destruct r1 as [|c r1]; [apply Hstop; [by rewrite <- app_assoc|apply take_nil]|]. apply Hmono. clear Hmono Hstop Eb.
  pose proof Hr as Hr'. apply Forall_cons in Hr' as [Hc Hr']. rewrite (proj2 (Z.eqb_neq c 0) Hc). cbn [tokens]. rewrite Hh.
  assert (length r1 < fuel)%nat as Hf' by (cbn in Hf; lia). clear Hf. generalize dependent (pre ++ b). clear pre b Hb. intros pre. destruct (Z.eqb_spec c 34) as [->|Hq].
  - destruct (skip_at (fun c => negb (c =? 34)) (pre ++ [34]) r1 Hr') as (w & r2 & -> & Es & Hw & Hh2).
    rewrite length_app in Es. cbn [length] in Es. rewrite Nat.add_1_r, <- app_assoc in Es. cbn [app] in Es |- *. rewrite Es.
    rewrite tokens_quotes; [|done|destruct r2 as [|d r2]; [done|]; by apply negb_false_iff, Z.eqb_eq in Hh2]. cbn [app].
    apply Forall_app in Hr' as [Hnw Hnr]. rewrite <- app_assoc.
    assert (forall toks res, found (pre ++ [34]) toks res av -> found pre toks res av) as Hmono.
    { intros toks res (mid & pos & -> & Ea & Hp). exists (34 :: mid), pos. rewrite <- app_assoc in Ea |- *. split_and!; [done|done|].
      eapply Forall_impl; [exact Hp|]. cbn. rewrite length_app. lia. }
    apply Hmono, found_word; [done|done|by rewrite <- app_assoc|by rewrite length_app, Nat.add_1_r|by rewrite <- app_assoc|done|].
    intros pre' av' Hl. apply IH; [by apply no_nul_tail|]. rewrite length_app in Hf'. destruct r2; cbn in *; lia.
  - destruct (skip_at (fun c => negb (space c)) pre (c :: r1) Hr) as (w & r2 & E & Es & Hw & Hh2). rewrite Es.
    destruct w as [|x w]; [cbn in E; subst r2; by rewrite Hh in Hh2|]. injection E as <- ->. apply Forall_cons in Hw as [_ Hw].
    rewrite tokens_word; [|done|destruct r2 as [|d r2]; [done|]; by apply negb_false_iff in Hh2].
    apply Forall_app in Hr' as [Hnw Hnr]. apply found_word; [by constructor|done|cbn [app]; by rewrite <- !app_assoc|done..|].
    intros pre' av' Hl. apply IH; [by apply no_nul_tail|]. rewrite length_app in Hf'. destruct r2; cbn in *; lia.
Qed.

(** the words of a command line: scanning the buffer in place, with
    terminators put over the characters behind the words, gives pointers to
    exactly the words of the line as typed (blanks separate words, a quote opens
    a word up to the next quote, a missing one runs to the end), at most [max] of
    them; the later ones do not overwrite the earlier ones. *)
Theorem parse_words s max : no_nul s -> args_of (parse (s ++ [0]) max) = take max (tokens Between s).
Proof.
  intros Hs. unfold parse. destruct (parse_found max (length (s ++ [0])) [] s [] Hs) as (mid & pos & E & Ea & _); [rewrite length_app; cbn; lia|].
  cbn [app length] in E. rewrite E. cbn [app length] in Ea. by rewrite Nat.sub_0_r in Ea.
Qed.

(** A command with its arguments, each in quotes. *)
Fixpoint quoted (args : list (list Z)) : list Z := match args with [] => [] | a :: args => 34 :: a ++ 34 :: 32 :: quoted args end.
Lemma tokens_quoted args : Forall (Forall (fun c => c <> 34)) args -> tokens Between (quoted args) = args.
Proof.
  induction 1 as [|a args Ha _ IH]; [done|]. cbn. rewrite tokens_quotes; [|eapply Forall_impl; [exact Ha|]; cbn; intros c Hc; by apply negb_true_iff, Z.eqb_neq|done].
  cbn. by f_equal.
Qed.

(** any arguments can be given to a command: up to sixteen strings without
    quotes and terminators, empty ones and ones with blanks included, typed in
    quotes, are the strings the command finds. *)
Theorem quoted_arguments_arrive args :
  (length args <= 16)%nat -> Forall (Forall (fun c => c <> 34 /\ c <> 0)) args -> args_of (parse (quoted args ++ [0]) MAX_ARGC) = args.
Proof.
  intros Hl Ha. rewrite parse_words, tokens_quoted, take_ge; [done|done|eapply Forall_impl; [exact Ha|]; intros a Hc; eapply Forall_impl; [exact Hc|]; by intros c []|].
  induction Ha as [|a args Hc _ IH]; [by constructor|]. constructor; [done|]. apply Forall_app. split.
  - eapply Forall_impl; [exact Hc|]. by intros c [].
  - do 2 (constructor; [done|]). apply IH. cbn in Hl. lia.
Qed.
(** A word, an empty argument and one with a blank. *)
Lemma quoted_arguments_arrive_witness :
  args_of (parse (quoted [[99; 112]; []; [97; 32; 98]] ++ [0]) MAX_ARGC) = [[99; 112]; []; [97; 32; 98]].
Proof. apply (quoted_arguments_arrive [[99; 112]; []; [97; 32; 98]]); [cbn; lia|by repeat constructor]. Defined.

(** ** Numbers *)

Lemma decimal_value c : 48 <= c <= 57 -> digit_value c = c - 48.
Proof. intros Hc. unfold digit_value. destruct (Z.leb_spec c 57); lia. Qed.
Lemma num_loop_reads s v : Forall (fun c => 48 <= c <= 57) s -> 0 <= v ->
  let n := foldl (fun a c => a * 10 + digit_value c) v s in n < 2 ^ 63 -> s <> [] -> num_loop s v true = (n, true) /\ num_loop s v false = (n, true).
Proof.
  intros Hs. cbn zeta. revert v. induction Hs as [|c s Hc Hs IH]; intros v Hv Hn Hne; [done|].
  cbn [num_loop foldl] in *. rewrite (proj2 (Z.leb_le 48 c)), (proj2 (Z.leb_le c 57)) by lia. cbn [andb].
  rewrite (decimal_value c Hc) in *.
  assert (forall w, 0 <= w -> w <= foldl (fun a c => a * 10 + digit_value c) w s) as Hmono.
  { clear -Hs. induction Hs as [|d s Hd _ IH]; intros w Hw; cbn [foldl]; [lia|]. rewrite (decimal_value d Hd).
    specialize (IH (w * 10 + (d - 48))). lia. }
  specialize (Hmono (v * 10 + (c - 48)) ltac:(lia)). replace (s64 (v * 10 + c - 48)) with (v * 10 + (c - 48)) by (unfold s64; rewrite Z.mod_small by lia; lia).
  destruct s as [|d s]; [done|]. destruct (IH (v * 10 + (c - 48))) as [-> _]; try done. lia.
Qed.
(** What [udec] prints, [num] reads. *)
Lemma udec_num v : 0 <= v < 2 ^ 63 -> exists s, udec_chars v = Ret s /\ num s = (v, true).
Proof.
  intros Hv. destruct (digit_text_spec 32 10 22 v) as (s & Hr & (Hn & Hd & _ & Hne) & _); [lia..| |cbn; lia|].
  { change (10 ^ (22 + 1)) with 100000000000000000000000. lia. }
  exists s. split; [done|]. unfold read_number in Hn. destruct (num_loop_reads s 0) as [_ E]; [|lia|rewrite Hn; lia|done|rewrite Hn in E; exact E].
  eapply Forall_impl; [exact Hd|]. intros c [Hc Hin]. unfold digit_value in Hc.
  assert (forallb (fun c => (48 <=? c) && ((c <=? 57) || (65 <=? c))) HEX = true) as Hhex by (by vm_compute).
  rewrite forallb_forall in Hhex. specialize (Hhex c). rewrite <- list_elem_of_In in Hhex. specialize (Hhex Hin).
  apply andb_true_iff in Hhex as [H48%Z.leb_le Hhex]. apply orb_true_iff in Hhex. rewrite !Z.leb_le in Hhex. destruct (Z.leb_spec c 57); lia.
Qed.

(** ** Searching *)

Lemma found_here_spec s n : found_here s n = true <-> exists b, s = n ++ b.
Proof.
  revert s. induction n as [|y n IH]; intros [|x s]; cbn; try (by split; eauto); [by split; [|intros []]|].
  rewrite andb_true_iff, Z.eqb_eq, IH. split; [intros [-> [b ->]]; by exists b|intros [b [= -> ->]]; eauto].
Qed.
Lemma shell_contains_spec s n : contains s n = true <-> exists a b, s = a ++ n ++ b.
Proof.
  destruct n as [|y n]; [split; [by exists [], s|done]|]. cbn [contains]. induction s as [|x s IH]; cbn [found_from].
  - split; [done|]. intros (a & b & E). by destruct a.
  - rewrite orb_true_iff, found_here_spec, IH. split.
    + intros [[b ->]|(a & b & ->)]; [by exists [], b|by exists (x :: a), b].
    + intros (a & b & E). destruct a as [|x' a]; [left; by exists b|]. injection E as -> ->. right. by exists a, b.
Qed.

Section Grep.
Context {St : Type} `{Os St} `{Areas}.
Implicit Types s : St.

Lemma each_app {A} (f : A -> prog St unit) l k s : each f (l ++ k) s = (each f l;; each f k) s.
Proof.
  revert s. induction l as [|a l IH]; intros s; [done|]. cbn [app each]. unfold mbind, prog_bind.
  destruct (f a s) as [[s1 u]|m| |]; [|done..]. cbn [mbind outcome_bind]. by rewrite IH.
Qed.
(** The lines of the buffer, those it was split at included. *)
Lemma grep_lines_spec pattern line b s : no_nul b ->
  grep_lines pattern line (b ++ [0]) s =
    each (fun l => out l;; nl) (filter (fun l => contains l pattern = true)
      (match lines b with l :: ls => (line ++ l) :: ls | [] => [] end)) s.
Proof.
  intros Hb. revert line s. induction Hb as [|c b Hc _ IH]; intros line s.
  - cbn. rewrite app_nil_r. unfold filter. cbn. destruct (contains line pattern) eqn:E; [rewrite decide_True|rewrite decide_False]; done.
  - cbn [app grep_lines lines]. rewrite (proj2 (Z.eqb_neq c 0) Hc), orb_false_r. destruct (c =? 10).
    + rewrite app_nil_r. rewrite filter_cons. destruct (contains line pattern) eqn:E; [rewrite decide_True by done|rewrite decide_False by done].
      * cbn [each]. unfold mbind, prog_bind. destruct ((out line ≫= (fun _ => nl)) s) as [[s1 u]|m| |] eqn:E1; unfold mbind, prog_bind in E1; rewrite E1; [|done..].
        cbn [mbind outcome_bind]. rewrite IH. by destruct (lines b).
      * unfold mbind, prog_bind. cbn. rewrite IH. by destruct (lines b).
    + rewrite IH. rewrite (lines_first b). by rewrite <- app_assoc.
Qed.
(** [grep] prints the lines the pattern occurs in, in order, once each, when
    the file fits the buffer and has no zero bytes. *)
Lemma grep_prints pattern b s : no_nul b ->
  exists ls, grep_lines pattern [] (b ++ [0]) s = each (fun l => out l;; nl) ls s /\
    ls = filter (fun l => contains l pattern = true) (lines b) /\
    (forall l, l ∈ ls <-> l ∈ lines b /\ exists x y, l = x ++ pattern ++ y).
Proof.
  intros Hb. eexists. split; [by apply grep_lines_spec|]. split; [rewrite (lines_first b); done|].
  intros l. rewrite (lines_first b). cbn [app]. rewrite list_elem_of_filter, shell_contains_spec. tauto.
Qed.
End Grep.

(** Where [tail] starts: when it stopped for the number of lines it stands on a
    line end, which is printed first. *)
Lemma tail_pos_le b limit pos n : (tail_pos b limit pos n <= pos)%nat.
Proof.
  revert n. induction pos as [|p IH]; intros n; cbn [tail_pos]; [by destruct (limit <=? n)|]. destruct (limit <=? n); [done|].
  etrans; [apply IH|lia].
Qed.
Lemma tail_starts_with_newline b limit pos lines :
  (tail_pos b limit pos lines < pos)%nat -> (0 < tail_pos b limit pos lines)%nat -> b !!! tail_pos b limit pos lines = 10.
Proof.
  revert lines. induction pos as [|p IH]; intros lines Hlt Hpos; cbn [tail_pos] in *; [destruct (limit <=? lines); lia|].
  destruct (limit <=? lines) eqn:E; [lia|].
  set (lines' := if _ && _ then lines + 1 else lines) in *.
  destruct (decide (tail_pos b limit p lines' < p)%nat); [by apply IH|].
  pose proof (tail_pos_le b limit p lines'). assert (tail_pos b limit p lines' = p) as Ep by lia. rewrite Ep in *.
  destruct p as [|p]; [lia|]. cbn [tail_pos] in Ep. destruct (limit <=? lines') eqn:E'.
  - unfold lines' in E'. destruct (b !!! S p =? 10) eqn:Eb; [by apply Z.eqb_eq|]. cbn [andb] in E'. congruence.
  - pose proof (tail_pos_le b limit p (if (b !!! p =? 10) && (S p <? length b)%nat then lines' + 1 else lines')). lia.
Qed.

(** ** History *)

Definition entered (ls : list (list Z)) : list (list Z) := filter (fun l => l <> []) ls.
(** The last 32 entries are in their slots. *)
Definition hist_ok (h : history) (ls : list (list Z)) : Prop :=
  length (hist h) = HIST_MAX /\ hist_count h = Z.of_nat (Nat.min 32 (length ls)) /\ hist_next h = Z.of_nat (length ls) mod 32 /\
  forall k, (length ls <= k + 32)%nat -> (k < length ls)%nat -> hist h !!! Z.to_nat (Z.of_nat k mod 32) = cpy (ls !!! k) LINE_MAX.

Lemma hist_zero_ok : hist_ok hist_zero [].
Proof. split_and!; try done. intros k _ Hk. cbn in Hk. lia. Qed.
Lemma addhist_ok h ls l : l <> [] -> hist_ok h ls -> hist_ok (addhist h l) (ls ++ [l]).
Proof.
  intros Hne (Hl & Hc & Hn & Hs). unfold addhist. destruct l as [|c l]; [done|]. unfold HIST_MAX in *. unfold hist_ok. cbn [hist hist_count hist_next].
  rewrite length_app. cbn [length]. change (Z.of_nat 32) with 32.
  split_and!.
  - by rewrite length_insert.
  - rewrite Hc. destruct (Z.ltb_spec (Z.of_nat (Nat.min 32 (length ls))) 32); lia.
  - rewrite Z.rem_mod_nonneg by mlia. rewrite Hn. mlia.
  - intros k H1 H2. rewrite Hn. destruct (decide (k = length ls)) as [->|Hk].
    + rewrite list_lookup_total_insert_eq by (rewrite Hl; mlia). by rewrite list_lookup_total_middle.
    + rewrite list_lookup_total_insert_ne by mlia. rewrite lookup_total_app_l by lia. apply Hs; lia.
Qed.

(** the history: after any sequence of command lines the shell holds the
    last 32 that were not empty, and the position [cursor] of the recall keys
    shows the one that many entries after the oldest held, cut to the 191
    characters of a slot; the ring's indices stay in range. *)
Theorem history_recalls ls : let h := foldl addhist hist_zero ls in
  hist_count h = Z.of_nat (Nat.min 32 (length (entered ls))) /\
  forall i, 0 <= i < hist_count h ->
    0 <= hist_index_from_cursor h i < 32 /\
    recalled h i = take 191 (drop (length (entered ls) - 32) (entered ls) !!! Z.to_nat i).
Proof.
  cbn zeta. assert (hist_ok (foldl addhist hist_zero ls) (entered ls)) as (Hl & Hc & Hn & Hs).
  { unfold entered. induction ls as [|l ls IH] using rev_ind; [apply hist_zero_ok|]. rewrite foldl_snoc, filter_app, filter_cons.
    case_decide as Hne; [by apply addhist_ok|]. rewrite filter_nil, app_nil_r. by destruct l. }
  set (h := foldl addhist hist_zero ls) in *. set (es := entered ls) in *. split; [done|]. intros i Hi.
  assert (hist_index_from_cursor h i = (Z.of_nat (length es) - hist_count h + i) mod 32) as Ei.
  { unfold hist_index_from_cursor. change (Z.of_nat HIST_MAX) with 32. rewrite Z.rem_mod_nonneg by (rewrite ?Hn; mlia). rewrite Hn. mlia. }
  split; [rewrite Ei; mlia|]. unfold recalled. rewrite Ei. rewrite lookup_total_drop.
  replace (Z.of_nat (length es) - hist_count h + i) with (Z.of_nat (length es - 32 + Z.to_nat i)) by lia.
  rewrite Hs by lia. done.
Qed.
