(* ===== verification/Terminal.v ===== *)
(** * The terminal a program sees

    Two halves of the console meet here: what a program writes is sent over the
    serial line and typed into the scrollback, what is typed on the keyboard is
    what it reads, and neither disturbs the other.  [Tty] is the interface, the kernel's instance follows
    from the theorems on the console, the keyboard and the system calls. *)

From Stdlib Require Import ZArith Lia.
From stdpp Require Import base numbers gmap strings fin_maps option list.
From S2P Require Import Prelude MemUtils Vram Framebuffer VgaDraw Bootmode Digits Machine Serial Console ConsoleRing ConsoleProofs Heap HeapTheorems Allocator MemCtx Vfs ProcTable Proc Fat32 DebugLog ErrorText Idt Kernel Syscall SyscallTheorems Keyboard Userland Shelld.

Local Open Scope Z_scope.

(** ** What the console does to its devices *)

Section Devices.
Context {Hw : Type} `{Hardware Hw} (P : Hw -> Prop).
Implicit Types m : machine Hw.

Lemma for_range_keeps {A} (Q : A -> Prop) n f a : Q a -> (forall i a, Q a -> Q (f i a)) -> Q (for_range n f a).
Proof.
  intros Ha Hf. destruct (Z.le_gt_cases 0 n); [apply (for_range_inv (fun _ => Q)); auto|].
  unfold for_range. by replace (Z.to_nat n) with O by lia.
Qed.
Lemma draw_screen_ram m m' : draw_screen m = Ret m' -> only_ram m m'.
Proof.
  unfold draw_screen. repeat (case_test; [intros [= <-]; apply only_ram_refl|]). unfold for_range_m. intros E.
  eapply (for_loop_m_keeps (only_ram m)) in E; [done| |apply only_ram_refl]. clear m' E. intros r m1 m2 H1 E. cbn beta zeta in E.
  assert (forall m' c r v, only_ram m m' -> only_ram m (show_cell m' c r v)) as Hshow by (intros; by eapply only_ram_trans, show_cell_ram).
  case_test_in E.
  - injection E as <-. apply (for_range_keeps (only_ram m)); [done|]. intros c m2 H2. by apply Hshow.
  - unfold for_range_m in E. eapply (for_loop_m_keeps (only_ram m)) in E; [done| |done]. intros c m3 m4 H3 E4.
    inv_bind E4. injection E4 as <-. by apply Hshow.
Qed.
Lemma draw_screen_hw m m' : draw_screen m = Ret m' -> hw m' = hw m.
Proof. by intros [r ->]%draw_screen_ram. Qed.

(** Writing asks the status register of the serial port and sends. *)
Section Writing.
Context (Pin : forall h, P h -> P (hw_in h UART_STATUS).1) (Pout : forall h v, P h -> P (hw_out h UART_DATA v)).
Lemma poll_hw fuel m mask m' : poll fuel m UART_STATUS mask = Ret m' -> P (hw m) -> P (hw m').
Proof.
  revert m. induction fuel as [|fuel IH]; intros m; cbn [poll]; unfold inb; pose proof (Pin (hw m)) as Hp;
    destruct (hw_in (hw m) UART_STATUS) as [h v]; cbn in Hp; case_test; try discriminate; [by intros [= <-]; apply Hp..|].
  intros E Hm. apply (IH _ E), Hp, Hm.
Qed.
Lemma emit_hw m c m' : console_emit_char m c = Ret m' -> P (hw m) -> P (hw m').
Proof.
  unfold console_emit_char, serial_raw_putc, on_text. intros E Hm. inv_bind E. inv_bind E0. injection E0 as <-. apply poll_hw in E1; [|done].
  inv_bind E. inv_bind E0. injection E0 as <-.
  assert (forall m c, hw (debuglog_char m c) = hw m) as Hl by (intros ? ?; apply debuglog_char_frame).
  case_test_in E; [injection E as <-|apply draw_screen_hw in E as ->]; case_test; cbn; rewrite ?Hl; by apply Pout.
Qed.
Lemma console_write_hw m s m' : console_write m (Some s) = Ret m' -> P (hw m) -> P (hw m').
Proof.
  unfold console_write. destruct s as [|c s]; [by intros [= <-]|]. intros E Hm. inv_bind E. apply draw_screen_hw in E as ->.
  revert m Hm E0. generalize (c :: s). clear c s. intros s. induction s as [|c s IH]; intros m Hm E; cbn [emit_all] in E; [by injection E as <-|].
  inv_bind E. eapply IH; [|done]. by eapply emit_hw.
Qed.
End Writing.

(** Reading a character only reads ports, and changes the keyboard's state and
    the screen. *)
Section Reading.
Context (Q : machine Hw -> Prop).
Context (Qin : forall m port, Q m -> Q (set_hw m (hw_in (hw m) port).1)) (Qkbd : forall m k, Q m -> Q (set_kbd m k)).
Context (Qram : forall m r, Q m -> Q (set_mram m r)) (Qhold : forall m b, Q m -> Q (set_hold m b)).
Lemma inb_keeps m port m' v : inb m port = (m', v) -> Q m -> Q m'.
Proof. unfold inb. pose proof (Qin m port) as Hp. destruct (hw_in (hw m) port) as [h w]. intros [= <- _]. apply Hp. Qed.
Lemma poll_keeps fuel m port mask m' : poll fuel m port mask = Ret m' -> Q m -> Q m'.
Proof.
  revert m. induction fuel as [|fuel IH]; intros m; cbn [poll]; destruct (inb m port) as [m1 v] eqn:E1; case_test; try discriminate;
    [intros [= <-]; by eapply inb_keeps..|]. intros E Hm. apply (IH _ E). by eapply inb_keeps.
Qed.
Lemma release_keeps m m' : console_release_display_hold m = Ret m' -> Q m -> Q m'.
Proof.
  unfold console_release_display_hold. case_test; [by intros [= <-]|]. intros [r ->]%draw_screen_ram Hm. by apply Qram, Qhold.
Qed.
Lemma ps2_try_keeps m m' sc : ps2_try_read_scancode m = (m', sc) -> Q m -> Q m'.
Proof.
  unfold ps2_try_read_scancode. destruct (inb m 0x64) as [m1 st] eqn:E1. intros E Hm. apply inb_keeps in E1; [|done].
  destruct (inb m1 0x60) as [m2 v] eqn:E2. apply inb_keeps in E2; [|done]. repeat case_test_in E; by injection E as <- _.
Qed.
Lemma scancode_keeps m sc : Q m -> Q (scancode_to_ascii m sc).1.
Proof. intros Hm. unfold scancode_to_ascii, queue_escape_sequence. repeat case_match; cbn [fst]; auto. Qed.
Lemma getc_keeps m c m' : console_getc m = Ret (m', c) -> Q m -> Q m'.
Proof.
  unfold console_getc. generalize hw_polls. intros fuel. revert m. induction fuel as [|fuel IH]; intros m E Hm; cbn [getc_loop] in E.
  all: destruct (pending_pos _ <? _); [inv_bind E; apply release_keeps in E0; [|done]; injection E as <- _; by apply Qkbd|].
  all: set (m0 := set_kbd m _) in E; assert (Q m0) as Hm0 by (by apply Qkbd); clearbody m0.
  all: unfold serial_read_ready in E; destruct (inb m0 UART_STATUS) as [m1 v] eqn:E1; apply inb_keeps in E1; [|done].
  all: case_test_in E; [inv_bind E; destruct r as [m2 ch]; inv_bind E; unfold serial_getc in E0; inv_bind E0; injection E0 as E0;
    apply inb_keeps in E0; [|by eapply poll_keeps]; apply release_keeps in E2; [|done]; by injection E as <- _|].
  all: destruct (ps2_try_read_scancode m1) as [m2 sc] eqn:E2; apply ps2_try_keeps in E2; [|done].
  all: set (t := match sc with Some _ => _ | None => _ end) in E; assert (Q t.1) as Ht by (unfold t; destruct sc; [by apply scancode_keeps|done]);
    destruct t as [m3 tr]; cbn in Ht.
  all: case_test_in E; [inv_bind E; apply release_keeps in E0; [|done]; by injection E as <- _|].
  - discriminate.
  - by eapply IH.
Qed.
End Reading.
Lemma getc_hw (Pin : forall h port, P h -> P (hw_in h port).1) m c m' : console_getc m = Ret (m', c) -> P (hw m) -> P (hw m').
Proof. apply (getc_keeps (fun m => P (hw m))); auto. intros m1 port. apply Pin. Qed.
Lemma getc_mode m c m' : console_getc m = Ret (m', c) -> Machine.debug_mode m' = Machine.debug_mode m.
Proof. intros E. by apply (getc_keeps (fun m0 => Machine.debug_mode m0 = Machine.debug_mode m)) in E. Qed.
End Devices.

(** ** The interface *)

(** The attribute and the width of the console, and its scrollback. *)
Record display := Display { d_attr : Z; d_cols : Z; d_term : term }.
Definition display_type (d : display) (bs : list Z) : display :=
  Display (d_attr d) (d_cols d) (foldl (term_type (d_attr d) (d_cols d)) (d_term d) bs).
Lemma display_type_app d bs1 bs2 : display_type d (bs1 ++ bs2) = display_type (display_type d bs1) bs2.
Proof. unfold display_type. by rewrite foldl_app. Qed.
Lemma display_type_nil d : display_type d [] = d.
Proof. by destruct d. Qed.

(** A system whose console works: the state it must be in, the bytes sent so
    far, the scrollback, and the characters that programs will read. *)
Class Tty (St : Type) `{Os St} `{Areas} := {
  tty_ok : St -> Prop;
  tty_shown : St -> list Z;
  tty_display : St -> display;
  tty_typed : St -> list Z;
  tty_width s : d_cols (tty_display s) <= 160;
  tty_write s bs : tty_ok s -> Forall (fun c => 0 <= c < 256) bs -> (length bs <= 4096)%nat ->
    exists s', outn bs s = Ret (s', tt) /\ tty_ok s' /\ tty_shown s' = tty_shown s ++ bs /\
      tty_display s' = display_type (tty_display s) bs /\ tty_typed s' = tty_typed s;
  tty_read s c r : tty_ok s -> 0 <= c < 256 -> tty_typed s = c :: r ->
    exists s', read_key s = Ret (s', c) /\ tty_ok s' /\ tty_shown s' = tty_shown s /\
      tty_display s' = tty_display s /\ tty_typed s' = r
}.

(** ** The kernel *)

(** Sending does not disturb the keyboard. *)
Class Duplex (Hw : Type) `{!Hardware Hw, !Uart Hw, !Ps2 Hw} := {
  duplex_due h v : ps2_due (hw_out h UART_DATA v) = ps2_due h;
  duplex_quiet h v : ps2_quiet h -> ps2_quiet (hw_out h UART_DATA v)
}.
(** The program's areas lie above the kernel. *)
Class AreasOk `{Layout} `{Areas} := {
  kernel_end_pos : 0 < kernel_end;
  str1_ok : kernel_end <= str1 /\ str1 + 4096 < 2 ^ 64;
  local_ok : kernel_end <= local /\ local + 4096 < 2 ^ 64
}.

Section KernelTty.
Context {L : Layout} {Hw : Type} `{!Hardware Hw, !Uart Hw, !Ps2 Hw, !Duplex Hw} `{!Areas} `{!AreasOk}.
Context (run : Z -> Z -> kernel Hw -> outcome (kernel Hw)).
Context (mp_exec : Z -> Z -> list Z -> kernel Hw -> outcome (kernel Hw)).
Implicit Types k : kernel Hw.

Definition kernel_os : Os (kernel Hw) := {|
  int80 k n a b c := syscall_dispatch run mp_exec k (u64 n) (u64 a) (u64 b) (u64 c);
  user_bytes k := bytes_at (ProcTable.ram k);
  user_store := store
|}.
#[local] Existing Instance kernel_os.

Definition kernel_tty_ok k : Prop :=
  kbd_ok (mach k) /\ (due_time (ps2_due (hw (mach k))) <= hw_polls)%nat /\ proc_current_valid k = true.

Definition machine_display (m : machine Hw) : display := Display (attr (con m)) (visible_cols m) (abs (txt (con m))).
Definition kernel_display k : display := machine_display (mach k).
Lemma display_width k : d_cols (kernel_display k) <= 160.
Proof. cbn. unfold visible_cols, MAX_COLS. repeat case_test; lia. Qed.

Lemma user_area k p n : kernel_end <= p -> 0 <= p -> 0 <= n -> p + n < 2 ^ 64 -> user_ptr_valid k p n = true.
Proof.
  intros Hp Hz Hn Hs. unfold user_ptr_valid. rewrite (u64_small (p + n)) by lia.
  by rewrite (proj2 (Z.ltb_ge (p + n) p)), (proj2 (Z.leb_le _ _) Hp) by lia.
Qed.
Lemma dispatch_console k num a1 a2 a3 r : proc_current_valid k = true ->
  syscall_system run k num a1 a2 a3 = Some r -> syscall_dispatch run mp_exec k num a1 a2 a3 = r.
Proof. intros Hv E. unfold syscall_dispatch. by rewrite Hv, andb_false_r, E. Qed.

Lemma kernel_write k bs : kernel_tty_ok k -> Forall (fun c => 0 <= c < 256) bs -> (length bs <= 4096)%nat ->
  exists k', outn bs k = Ret (k', tt) /\ kernel_tty_ok k' /\
    uart_sent (hw (mach k')) = uart_sent (hw (mach k)) ++ bs /\ kernel_display k' = display_type (kernel_display k) bs /\
    remaining (mach k') = remaining (mach k).
Proof.
  intros ([Hc Hq Hp Hl] & Hd & Hv) Hbs Hlen. destruct str1_ok as [Hs1 Hs2]. pose proof kernel_end_pos.
  unfold outn, put, syscall3, mbind, prog_bind. cbn [mbind outcome_bind int80 user_store kernel_os].
  rewrite !u64_small by (unfold SYS_WRITE; lia). set (k1 := store k str1 bs).
  assert (con_ok (mach k1)) as Hc1 by (unfold k1; rewrite mach_store; by apply con_ok_mram).
  destruct (console_write_ok (mach k1) bs Hc1) as (m' & Ew & Hc' & Hsame & Hterm & Hu).
  rewrite (dispatch_console k1 SYS_WRITE str1 (Z.of_nat (length bs)) 0 _ Hv eq_refl). unfold checked.
  pose proof (same_setup_cols _ _ Hsame) as [Hcols _]. destruct Hsame as (Hattr & _ & _ & _ & _ & _ & Ek).
  rewrite user_area by lia. unfold write_console, on_mach. rewrite (proj2 (Z.eqb_neq str1 0)), Nat2Z.id by lia.
  assert (bytes_at (mram (mach k1)) str1 (length bs) = bs) as -> by exact (bytes_at_store_bytes _ _ _ Hbs).
  rewrite Ew. cbn [mbind outcome_bind]. unfold ret. eexists. split; [done|].
  destruct (console_write_hw (fun h => ps2_quiet h /\ ps2_due h = ps2_due (hw (mach k))) (fun h Hh => conj (ps2_quiet_law _ _ (proj1 Hh)) (eq_trans (proj2 (ps2_serial_law _ (proj1 Hh))) (proj2 Hh)))
    (fun h v Hh => conj (duplex_quiet _ _ (proj1 Hh)) (eq_trans (duplex_due _ _) (proj2 Hh))) _ _ _ Ew (conj Hq eq_refl)) as [Hq' Hd'].
  unfold kernel_tty_ok. rewrite mach_put. change (kbd (con (mach k1))) with (kbd (con (mach k))) in Ek. split_and!.
  - split; [done|done|by rewrite Ek..].
  - by rewrite Hd'.
  - exact Hv.
  - rewrite Hu. f_equal. clear -Hbs. induction Hbs as [|c bs Hc _ IH]; [done|]. cbn. by rewrite u8_small, IH.
  - unfold kernel_display, machine_display, display_type. rewrite mach_put, Hattr, Hcols, Hterm. unfold k1. by rewrite mach_store.
  - unfold remaining. by rewrite Ek, Hd'.
Qed.

Lemma read_console_sent k a k' r : read_console k a 1 = Ret (k', r) ->
  uart_sent (hw (mach k')) = uart_sent (hw (mach k)) /\ kernel_display k' = kernel_display k /\
  proc_current_valid k' = proc_current_valid k.
Proof.
  unfold read_console, for_range_m. cbn [Z.to_nat Pos.to_nat Pos.iter_op for_loop_m Nat.add]. intros E. inv_bind E.
  inv_bind E0. inv_bind E1. destruct r2 as [m c]. injection E1 as <-. injection E0 as <-. injection E as <- _. unfold kernel_display. rewrite mach_store, mach_put. split_and!; [| |done].
  - cbn. apply (getc_hw (fun h => uart_sent h = uart_sent (hw (mach k)))) in E2; [done| |done]. intros h port <-. apply uart_in_law.
  - change (machine_display m = machine_display (mach k)).
    by apply (getc_keeps (fun m0 => machine_display m0 = machine_display (mach k))) in E2.
Qed.
Lemma kernel_read k c rest : kernel_tty_ok k -> 0 <= c < 256 -> remaining (mach k) = c :: rest ->
  exists k', read_key k = Ret (k', c) /\ kernel_tty_ok k' /\ uart_sent (hw (mach k')) = uart_sent (hw (mach k)) /\
    kernel_display k' = kernel_display k /\ remaining (mach k') = rest.
Proof.
  intros (Hok & Hd & Hv) Hc Hr. destruct local_ok as [Hl1 Hl2]. pose proof kernel_end_pos.
  unfold read_key, put, syscall3, fetch, mbind, prog_bind. cbn [mbind outcome_bind int80 user_store kernel_os user_bytes].
  rewrite !u64_small by (unfold SYS_READ; lia). set (k1 := store k local [0]).
  assert (kbd_ok (mach k1)) as Hok1 by (unfold k1; rewrite mach_store; by apply kbd_ok_mram).
  destruct (read_console_reads k1 local [c] rest Hok1 Hd Hr) as (k' & Er & Hok' & Hd' & _ & Hr' & Hb); [by constructor|done|].
  change (Z.of_nat (length [c])) with 1 in *. destruct (read_console_sent _ _ _ _ Er) as (Hu & Hs & Hv').
  rewrite (dispatch_console k1 SYS_READ 0 local 1 _ Hv eq_refl). unfold checked. rewrite user_area by lia.
  change (s32 0 =? 0) with true. cbn match. rewrite Er. cbn [mbind outcome_bind]. change (Z.to_nat 1) with 1%nat in *. rewrite ram_mach, Hb.
  eexists. split; [done|]. split_and!; [split_and!; [done|done|by rewrite Hv']|done..].
Qed.
#[refine] Instance kernel_tty : Tty (kernel Hw) := {
  tty_ok := kernel_tty_ok; tty_shown k := uart_sent (hw (mach k)); tty_display := kernel_display; tty_typed k := remaining (mach k)
}.
Proof. 1: exact display_width. 1: exact kernel_write. 1: exact kernel_read. Defined.
End KernelTty.
