(* ===== verification/ShellProofs.v ===== *)
(** * The shell's line editor

    What is typed becomes the line that is run, the bytes sent are known, and as
    long as prompt and line fit the width of the console the current line of its
    scrollback shows them: on any terminal ([Tty]), and so on the kernel's. *)

From Stdlib Require Import ZArith Lia.
From stdpp Require Import base numbers gmap strings option list.
From S2P Require Import Prelude MemUtils Digits ErrorText Vfs Syscall Userland Shelld UserProofs VgaDraw Machine Console ConsoleRing ConsoleProofs HeapTheorems Kernel SyscallTheorems Keyboard Terminal.

Local Open Scope Z_scope.

(** ** Keys *)

Inductive key := Char (c : Z) | Rub | Older | Newer.
Definition codes (k : key) : list Z :=
  match k with Char c => [c] | Rub => [8] | Older => [27; 91; 68] | Newer => [27; 91; 67] end.
(** Characters that are entered as they are. *)
Definition plain (c : Z) : Prop := 0 < c < 127 /\ c <> 8 /\ c <> 10 /\ c <> 13 /\ c <> 27.
Definition key_ok (k : key) : Prop := match k with Char c => plain c | _ => True end.

(** The line after a key, for the history [es], oldest entry first; [recall] is
    the entry shown. *)
Definition press (es : list (list Z)) (e : editor) (k : key) : editor :=
  let show r := Editor (default [] (es !! Z.to_nat r)) r in
  match k with
  | Char c => Editor (e_line e ++ [c]) (e_recall e)
  | Rub => Editor (removelast (e_line e)) (e_recall e)
  | Older => if es is [] then e else show (Z.max 0 (e_recall e - 1))
  | Newer => if es is [] then e else show (Z.min (Z.of_nat (length es)) (e_recall e + 1))
  end.
(** The keys one after the other, as long as the line stays shorter than [room]. *)
Fixpoint edit (room : nat) (es : list (list Z)) (e : editor) (ks : list key) : option editor :=
  if (room <=? length (e_line e))%nat then None else
  match ks with [] => Some e | k :: ks => edit room es (press es e k) ks end.

(** The bytes sent for a key: a character is sent back, a character is taken
    away by backspace, space and backspace; a recalled line takes the place of
    the line there was. *)
Definition echo (es : list (list Z)) (e : editor) (k : key) : list Z :=
  match k with
  | Char c => [c]
  | Rub => if e_line e is [] then [] else rubout
  | Older | Newer => if es is [] then [] else concat (replicate (length (e_line e)) rubout) ++ e_line (press es e k)
  end.
Fixpoint echoes (es : list (list Z)) (e : editor) (ks : list key) : list Z :=
  match ks with [] => [] | k :: ks => echo es e k ++ echoes es (press es e k) ks end.

(** ** The screen *)

(** The current line of the scrollback holds [text], the rest of its cells is
    blank, and the cursor is behind the text. *)
Definition row_shows (d : display) (text : list Z) : Prop :=
  exists blanks, current (d_term d) = ((pack (d_attr d) <$> text) ++ blanks, Z.of_nat (length text)) /\
    Forall (fun v => v = pack (d_attr d) 32) blanks /\ (length text + length blanks = 160)%nat /\ col (d_term d) = Z.of_nat (length text).
(** Typing [bs] turns the row from [text] into [text'] and keeps the lines above. *)
Definition types (d : display) (text bs text' : list Z) : Prop :=
  row_shows d text -> row_shows (display_type d bs) text' /\ past (d_term (display_type d bs)) = past (d_term d).

Lemma types_nil d text : types d text [] text.
Proof. unfold types. by rewrite display_type_nil. Qed.
Lemma types_app d text1 bs1 text2 bs2 text3 :
  types d text1 bs1 text2 -> types (display_type d bs1) text2 bs2 text3 -> types d text1 (bs1 ++ bs2) text3.
Proof. intros H1 H2 Hr. rewrite display_type_app. destruct (H1 Hr) as [Hr1 <-]. by apply H2. Qed.

Lemma types_char d text c : plain c \/ c = 32 -> d_cols d <= 160 -> Z.of_nat (length text) + 1 < d_cols d -> types d text [c] (text ++ [c]).
Proof.
  intros Hc Hw Hl (blanks & Hcur & Hb & Hn & Hcol). unfold display_type. cbn [foldl]. unfold term_type, plain in *.
  rewrite !(proj2 (Z.eqb_neq c _)) by lia. cbn zeta. rewrite (proj2 (Z.leb_gt (d_cols d) (col (d_term d)))) by lia. cbn [col].
  rewrite (proj2 (Z.leb_gt (d_cols d) (col (d_term d) + 1))) by lia. split; [|done]. destruct blanks as [|x blanks]; [cbn in Hn; lia|].
  exists blanks. cbn [d_term current col]. rewrite Hcur, Hcol. cbn [fst snd write_at]. unfold write_at. cbn [fst snd].
  rewrite Nat2Z.id, length_app. cbn [length] in *. split_and!; [|by inversion Hb|cbn in Hn; lia|lia].
  rewrite (proj2 (Z.ltb_lt _ _)) by lia. f_equal; [|lia].
  rewrite insert_app_r_alt by (rewrite length_fmap; lia). rewrite length_fmap, Nat.sub_diag, fmap_app, <- app_assoc. done.
Qed.
Lemma types_plain d text bs : Forall plain bs -> d_cols d <= 160 -> Z.of_nat (length text + length bs) < d_cols d -> types d text bs (text ++ bs).
Proof.
  intros Hb. revert d text. induction Hb as [|c bs Hc _ IH]; intros d text Hw Hl; [rewrite app_nil_r; apply types_nil|].
  cbn [length] in Hl. rewrite cons_middle, app_assoc. apply (types_app d text [c] (text ++ [c])); [apply types_char; [by left|lia..]|].
  apply IH; [done|]. rewrite length_app. cbn. lia.
Qed.
Lemma types_back d text c : types d (text ++ [c]) [8] text.
Proof.
  intros (blanks & Hcur & Hb & Hn & Hcol). rewrite length_app in *. cbn in Hn, Hcol. unfold display_type. cbn [foldl]. unfold term_type.
  change (8 =? 10) with false. change (8 =? 13) with false. change (8 =? 8) with true. cbn match.
  rewrite (proj2 (Z.eqb_neq (col (d_term d)) 0)) by lia. split; [|done]. exists (pack (d_attr d) 32 :: blanks).
  cbn [d_term d_attr current col]. rewrite Hcur, Hcol. unfold erase_at. cbn [fst snd length].
  replace (Z.of_nat (length text + 1) - 1) with (Z.of_nat (length text)) by lia. rewrite (proj2 (Z.ltb_lt _ _)) by lia.
  split_and!; [|by constructor|lia|done]. f_equal. rewrite Nat2Z.id, fmap_app, <- app_assoc.
  rewrite insert_app_r_alt by (rewrite length_fmap; lia). by rewrite length_fmap, Nat.sub_diag.
Qed.
Lemma types_rubout d text : text <> [] -> d_cols d <= 160 -> Z.of_nat (length text) < d_cols d -> types d text rubout (removelast text).
Proof.
  intros Hne Hw Hl. destruct (exists_last Hne) as (l & x & ->). rewrite removelast_last. rewrite length_app in Hl. cbn in Hl.
  apply (types_app d _ [8] l); [apply types_back|]. apply (types_app _ _ [32] (l ++ [32])); [|apply types_back].
  apply types_char; [by right|cbn; lia..].
Qed.
Lemma types_rubouts d prompt line : d_cols d <= 160 -> Z.of_nat (length prompt + length line) < d_cols d ->
  types d (prompt ++ line) (concat (replicate (length line) rubout)) prompt.
Proof.
  remember (length line) as n eqn:En. revert d line En. induction n as [|n IH]; intros d line En Hw Hl.
  { destruct line; [|done]. rewrite app_nil_r. apply types_nil. }
  assert (line <> []) as Hne by (by destruct line). cbn [replicate concat].
  apply (types_app d _ rubout (prompt ++ removelast line)).
  - rewrite <- removelast_app by done. apply types_rubout; [by destruct prompt, line|done|]. rewrite length_app. lia.
  - apply IH; [rewrite removelast_firstn_len, length_take; lia|done|cbn; lia].
Qed.

(** ** One key *)

(** The history as a list, oldest entry first. *)
Definition hist_shows (h : history) (es : list (list Z)) : Prop :=
  hist_count h = Z.of_nat (length es) /\ (forall i l, es !! i = Some l -> cpy (recalled h (Z.of_nat i)) LINE_MAX = l) /\
  Forall (fun l => Forall plain l /\ (length l <= 191)%nat) es.

Section Editor.
Context {St : Type} `{Tty St}.
Context (fuel : nat).
Implicit Types s : St.

(** From [s] to [s']: [keys] were read, and [bs] was sent and typed. *)
Definition typing (s s' : St) (keys bs : list Z) : Prop :=
  tty_ok s' /\ tty_typed s = keys ++ tty_typed s' /\ tty_shown s' = tty_shown s ++ bs /\ tty_display s' = display_type (tty_display s) bs.

Lemma typing_none s : tty_ok s -> typing s s [] [].
Proof. intros Hok. split; [done|]. by rewrite app_nil_r, display_type_nil. Qed.
Lemma typing_trans s1 s2 s3 k1 k2 b1 b2 : typing s1 s2 k1 b1 -> typing s2 s3 k2 b2 -> typing s1 s3 (k1 ++ k2) (b1 ++ b2).
Proof.
  intros (_ & T1 & S1 & D1) (O2 & T2 & S2 & D2). split; [done|]. rewrite T1, T2, S2, S1, D2, D1, display_type_app. by rewrite !app_assoc.
Qed.
Lemma key_read s c r : tty_ok s -> 0 <= c < 256 -> tty_typed s = c :: r ->
  exists s', read_key s = Ret (s', c) /\ typing s s' [c] [] /\ tty_typed s' = r.
Proof.
  intros Hok Hc Ht. destruct (tty_read s c r Hok Hc Ht) as (s' & -> & Hok' & Hs & Hd & Ht'). exists s'. split; [done|]. split; [|done].
  split; [done|]. by rewrite Ht, Ht', Hs, Hd, app_nil_r, display_type_nil.
Qed.
Lemma plain_bytes l : Forall plain l -> Forall (fun c => 0 <= c < 256) l.
Proof. intros Hl. eapply Forall_impl; [exact Hl|]. unfold plain. lia. Qed.
Lemma bytes_out s t : tty_ok s -> Forall (fun c => 0 <= c < 256) t -> (length t <= 4096)%nat ->
  exists s', out t s = Ret (s', tt) /\ typing s s' [] t /\ tty_typed s' = tty_typed s.
Proof.
  intros Hok Hp Hl. destruct (tty_write s t Hok Hp Hl) as (s' & E & Hok' & Hs & Hd & Ht). exists s'. split; [done|]. unfold typing. by rewrite Ht.
Qed.
Lemma rub_out s : tty_ok s -> exists s', out rubout s = Ret (s', tt) /\ typing s s' [] rubout /\ tty_typed s' = tty_typed s.
Proof. intros Hok. apply bytes_out; [done|repeat constructor; lia|cbn; lia]. Qed.
Lemma rub_all s n k : tty_ok s ->
  exists s', each (fun _ => out rubout) (List.seq k n) s = Ret (s', tt) /\ typing s s' [] (concat (replicate n rubout)) /\ tty_typed s' = tty_typed s.
Proof.
  revert s k. induction n as [|n IH]; intros s k Hok.
  - exists s. split; [done|]. split; [by apply typing_none|done].
  - destruct (rub_out s Hok) as (s1 & E1 & T1 & E1'). destruct (IH s1 (S k) (proj1 T1)) as (s2 & E2 & T2 & E2').
    exists s2. cbn [each List.seq]. unfold mbind, prog_bind. rewrite E1. cbn [mbind outcome_bind]. rewrite E2. split; [done|]. split; [|congruence].
    exact (typing_trans _ _ _ [] [] _ _ T1 T2).
Qed.

Definition editor_ok (es : list (list Z)) (e : editor) : Prop :=
  Forall plain (e_line e) /\ (length (e_line e) <= 191)%nat /\ 0 <= e_recall e <= Z.of_nat (length es).

(** The recall keys. *)
Lemma recall_shows h es e s (older : bool) : hist_shows h es -> editor_ok es e -> tty_ok s ->
  let e' := press es e (if older then Older else Newer) in
  exists s', recall_step h older (negb older) e s = Ret (s', e') /\ typing s s' [] (echo es e (if older then Older else Newer)) /\ tty_typed s' = tty_typed s /\ editor_ok es e'.
Proof.
  intros (Hc & Hrec & Hes) Hok Hs. cbn zeta. unfold recall_step. rewrite Hc. destruct (Z.eqb_spec (Z.of_nat (length es)) 0) as [E0|Hne].
  { destruct es; [|cbn in E0; lia]. exists s. pose proof (typing_none s Hs). by destruct older. }
  set (r := if older && _ then _ else _).
  assert (r = if older then Z.max 0 (e_recall e - 1) else Z.min (Z.of_nat (length es)) (e_recall e + 1)) as Er.
  { destruct Hok as (_ & _ & Hr). unfold r. destruct older; cbn [andb negb].
    - destruct (Z.ltb_spec 0 (e_recall e)); lia.
    - destruct (Z.ltb_spec (e_recall e) (Z.of_nat (length es))); lia. }
  assert (0 <= r <= Z.of_nat (length es)) as Hr by (destruct Hok as (_ & _ & Hr); destruct older; lia).
  set (line := if r <? _ then _ else []).
  assert (line = default [] (es !! Z.to_nat r)) as El.
  { unfold line. destruct (Z.ltb_spec r (Z.of_nat (length es))) as [Hlt|Hge].
    - destruct (lookup_lt_is_Some_2 es (Z.to_nat r)) as [l E]; [lia|]. rewrite E. specialize (Hrec _ _ E). rewrite Z2Nat.id in Hrec by lia. done.
    - by rewrite lookup_ge_None_2 by lia. }
  assert (Forall plain line /\ (length line <= 191)%nat) as [Hpl Hll].
  { rewrite El. destruct (es !! Z.to_nat r) as [l|] eqn:E; [|split; [constructor|cbn; lia]]. by apply (Forall_lookup_1 _ _ _ _ Hes E). }
  assert (press es e (if older then Older else Newer) = Editor line r) as Ep by (rewrite El, Er; destruct older, es; done).
  assert (echo es e (if older then Older else Newer) = concat (replicate (length (e_line e)) rubout) ++ line) as ->.
  { clear Er. destruct older; unfold echo; rewrite Ep; by destruct es. }
  rewrite Ep.
  clearbody r line. unfold redraw_input, mbind, prog_bind.
  destruct (rub_all s (length (e_line e)) 0 Hs) as (s1 & -> & T1 & E1). cbn [mbind outcome_bind].
  destruct (bytes_out s1 line) as (s2 & -> & T2 & E2); [by destruct T1|by apply plain_bytes|lia|]. cbn [mbind outcome_bind]. exists s2. split; [done|].
  split; [exact (typing_trans _ _ _ [] [] _ _ T1 T2)|]. split; [congruence|]. by split.
Qed.

Lemma bind_step {A B} (c : prog St A) (f : A -> prog St B) s s1 a : c s = Ret (s1, a) -> (c ≫= f) s = f a s1.
Proof. intros E. unfold mbind, prog_bind. by rewrite E. Qed.
(** An arrow key arrives as three characters. *)
Lemma escape_read h e s f r : tty_ok s -> (length (e_line e) < 191)%nat -> tty_typed s = 27 :: 91 :: f :: r -> f = 68 \/ f = 67 ->
  exists s', edit_step fuel h e s = (e' ← recall_step h (f =? 68) (f =? 67) e; mret (inl e')) s' /\
    typing s s' [27; 91; f] [] /\ tty_typed s' = r.
Proof.
  intros Hs Hl Ht Hf. destruct (key_read s 27 _ Hs ltac:(lia) Ht) as (s1 & E1 & T1 & Ht1).
  destruct (key_read s1 91 _ (proj1 T1) ltac:(lia) Ht1) as (s2 & E2 & T2 & Ht2).
  destruct (key_read s2 f _ (proj1 T2) ltac:(lia) Ht2) as (s3 & E3 & T3 & Ht3). exists s3.
  split; [|split; [exact (typing_trans _ _ _ [27] [91; f] [] [] T1 (typing_trans _ _ _ [91] [f] [] [] T2 T3))|done]].
  unfold edit_step. rewrite (proj2 (Nat.leb_gt _ _)) by (unfold LINE_MAX; lia). rewrite (bind_step _ _ _ _ _ E1). cbn [Z.eqb Pos.eqb].
  unfold read_escape. rewrite (bind_step _ _ s1 s3 f); [by destruct Hf as [-> | ->]|].
  rewrite (bind_step _ _ _ _ _ E2). exact E3.
Qed.
Lemma edit_key h es e s k r : hist_shows h es -> editor_ok es e -> (length (e_line e) < 191)%nat -> key_ok k ->
  tty_ok s -> tty_typed s = codes k ++ r ->
  exists s', edit_step fuel h e s = Ret (s', inl (press es e k)) /\
    typing s s' (codes k) (echo es e k) /\ tty_typed s' = r /\ editor_ok es (press es e k).
Proof.
  intros Hh Hok Hl Hk Hs Ht. destruct k as [c| | |]; cbn [codes app] in Ht |- *.
  3,4: destruct (escape_read h e s _ r Hs Hl Ht) as (s1 & -> & T1 & Ht1); [by auto|].
  3: destruct (recall_shows h es e s1 true Hh Hok (proj1 T1)) as (s2 & E2 & T2 & Ht2 & Hok2).
  4: destruct (recall_shows h es e s1 false Hh Hok (proj1 T1)) as (s2 & E2 & T2 & Ht2 & Hok2).
  3,4: exists s2; cbn [Z.eqb Pos.eqb]; cbn [negb] in E2; rewrite (bind_step _ _ _ _ _ E2); split; [done|];
    split; [exact (typing_trans _ _ _ _ [] [] _ T1 T2)|]; split; [congruence|done].
  - destruct Hk as (Hc & H8 & H10 & H13 & H27). destruct (key_read s c r Hs ltac:(lia) Ht) as (s1 & E1 & T1 & Ht1).
    destruct (bytes_out s1 [c] (proj1 T1)) as (s2 & E2 & T2 & Ht2); [repeat constructor; lia|cbn; lia|]. exists s2.
    split; [|split; [exact (typing_trans _ _ _ [c] [] [] _ T1 T2)|split; [congruence|]]].
    + unfold edit_step. rewrite (proj2 (Nat.leb_gt _ _)) by (unfold LINE_MAX; lia). rewrite (bind_step _ _ _ _ _ E1).
      rewrite !(proj2 (Z.eqb_neq c _)) by lia. unfold out in E2. cbn [orb]. by rewrite (bind_step _ _ _ _ _ E2).
    + destruct Hok as (Hp & _ & Hr). split_and!; cbn; [apply Forall_app; by split; [|constructor]|rewrite length_app; cbn; lia|lia..].
  - destruct (key_read s 8 r Hs ltac:(lia) Ht) as (s1 & E1 & T1 & Ht1).
    assert (editor_ok es (press es e Rub)) as Hok'.
    { destruct Hok as (Hp & _ & Hr). split_and!; cbn [press e_line e_recall]; [|rewrite removelast_firstn_len, length_take; lia|lia..].
      rewrite removelast_firstn_len. by apply Forall_take. }
    unfold edit_step. rewrite (proj2 (Nat.leb_gt _ _)) by (unfold LINE_MAX; lia). rewrite (bind_step _ _ _ _ _ E1). cbn [Z.eqb Pos.eqb orb].
    destruct (e_line e) as [|x l] eqn:El.
    + exists s1. cbn [press e_line echo]. rewrite El. split; [by destruct e; cbn in El; subst|]. split; [done|]. split; [done|]. cbn [press] in Hok'. by rewrite El in Hok'.
    + destruct (rub_out s1 (proj1 T1)) as (s2 & E2 & T2 & Ht2). exists s2. rewrite (bind_step _ _ _ _ _ E2).
      cbn [press e_line echo]. rewrite El. split; [by rewrite removelast_firstn_len, <- Nat.sub_1_r|]. split; [exact (typing_trans _ _ _ [8] [] [] _ T1 T2)|].
      split; [congruence|]. cbn [press] in Hok'. by rewrite El in Hok'.
Qed.

(** ** A line *)

Lemma enter_key h e s r : tty_ok s -> (length (e_line e) < 191)%nat -> tty_typed s = 10 :: r ->
  exists s', edit_step fuel h e s = Ret (s', inr (e_line e)) /\ typing s s' [10] [10] /\ tty_typed s' = r.
Proof.
  intros Hs Hl Ht. destruct (key_read s 10 r Hs ltac:(lia) Ht) as (s1 & E1 & T1 & Ht1).
  destruct (bytes_out s1 nl_char (proj1 T1)) as (s2 & E2 & T2 & Ht2); [repeat constructor; lia|cbn; lia|]. exists s2.
  split; [|split; [exact (typing_trans _ _ _ [10] [] [] _ T1 T2)|congruence]].
  unfold edit_step. rewrite (proj2 (Nat.leb_gt _ _)) by (unfold LINE_MAX; lia). rewrite (bind_step _ _ _ _ _ E1). cbn [Z.eqb Pos.eqb orb].
  unfold out in E2. by rewrite (bind_step _ _ _ _ _ E2).
Qed.
Lemma typed_line h es ks : hist_shows h es -> Forall key_ok ks -> forall n e e' s rest,
  editor_ok es e -> edit 191 es e ks = Some e' -> tty_ok s -> tty_typed s = (ks ≫= codes) ++ 10 :: rest -> (length ks <= n)%nat ->
  exists s', repeat_until n (edit_step fuel h) e s = Ret (s', e_line e') /\
    typing s s' ((ks ≫= codes) ++ [10]) (echoes es e ks ++ [10]) /\ tty_typed s' = rest.
Proof.
  intros Hh. induction 1 as [|k ks Hk _ IH]; intros n e e' s rest Hok Hed Hs Ht Hn; cbn [edit] in Hed;
    (destruct (Nat.leb_spec 191 (length (e_line e))) as [|Hl]; [done|]).
  - injection Hed as <-. destruct (enter_key h e s rest Hs Hl Ht) as (s' & E & Hs'). exists s'.
    split; [destruct n; cbn [repeat_until]; by rewrite (bind_step _ _ _ _ _ E)|done].
  - cbn [mbind list_bind] in Ht |- *. rewrite <- app_assoc in Ht. destruct (edit_key h es e s k _ Hh Hok Hl Hk Hs Ht) as (s1 & E1 & T1 & Ht1 & Hok1).
    destruct n as [|n]; [cbn in Hn; lia|]. destruct (IH n _ _ s1 rest Hok1 Hed (proj1 T1) Ht1 ltac:(cbn in Hn; lia)) as (s2 & E2 & T2 & Hrest).
    exists s2. cbn [repeat_until echoes]. rewrite (bind_step _ _ _ _ _ E1), <- !app_assoc. split; [done|]. split; [by eapply typing_trans|done].
Qed.
End Editor.

(** What the keys of a line make of the screen, as long as prompt and line fit
    the width. *)
Lemma echo_types d es e k prompt w : key_ok k -> Forall (Forall plain) es -> d_cols d <= 160 -> Z.of_nat (length prompt + w) <= d_cols d ->
  (length (e_line e) < w)%nat -> (length (e_line (press es e k)) < w)%nat ->
  types d (prompt ++ e_line e) (echo es e k) (prompt ++ e_line (press es e k)).
Proof.
  intros Hk Hes Hc Hw Hl Hl'.
  assert (forall r, es <> [] -> press es e k = Editor (default [] (es !! r)) (e_recall (press es e k)) ->
    types d (prompt ++ e_line e) (concat (replicate (length (e_line e)) rubout) ++ e_line (press es e k)) (prompt ++ e_line (press es e k))) as Hrecall.
  { intros r _ Ep. eapply types_app; [apply types_rubouts; lia|]. apply types_plain; [|cbn; lia..]. rewrite Ep. cbn.
    destruct (es !! r) eqn:E; [by eapply (Forall_lookup_1 _ _ _ _ Hes E)|constructor]. }
  destruct k as [c| | |]; cbn [echo].
  - cbn [press e_line] in *. rewrite app_assoc. apply types_char; [by left|lia|]. rewrite length_app in *. cbn in Hl'. lia.
  - cbn [press e_line]. destruct (e_line e) as [|x l] eqn:E; [apply types_nil|]. rewrite <- E, <- removelast_app by (by rewrite E).
    apply types_rubout; [rewrite E; by destruct prompt|lia|rewrite length_app, E; lia].
  - destruct es; [apply types_nil|]. by eapply Hrecall.
  - destruct es; [apply types_nil|]. by eapply Hrecall.
Qed.
Lemma echoes_type es prompt w ks : Forall key_ok ks -> Forall (Forall plain) es -> forall d e e',
  d_cols d <= 160 -> Z.of_nat (length prompt + w) <= d_cols d -> edit w es e ks = Some e' ->
  types d (prompt ++ e_line e) (echoes es e ks) (prompt ++ e_line e').
Proof.
  intros Hks Hes. induction Hks as [|k ks Hk _ IH]; intros d e e' Hc Hw E; cbn [edit] in E;
    (destruct (Nat.leb_spec w (length (e_line e))) as [|Hl]; [done|]).
  - injection E as <-. apply types_nil.
  - cbn [echoes]. eapply types_app; [|by apply IH]. eapply echo_types; try done.
    destruct ks; cbn [edit] in E; by destruct (Nat.leb_spec w (length (e_line (press es e k)))).
Qed.

(** The entries the history keeps of the lines [ls]. *)
Definition kept (ls : list (list Z)) : list (list Z) := drop (length (entered ls) - 32) (entered ls).
Definition enterable (l : list Z) : Prop := Forall plain l /\ (length l <= 191)%nat.
Lemma kept_shown ls : Forall enterable ls -> hist_shows (foldl addhist hist_zero ls) (kept ls).
Proof.
  intros Hls. assert (Forall enterable (kept ls)) as Hk.
  { apply Forall_drop, list.Forall_forall. intros l [_ Hl]%list_elem_of_filter. by eapply list.Forall_forall in Hls. }
  pose proof (history_recalls ls) as [Hc Hr]. assert (length (kept ls) = Nat.min 32 (length (entered ls))) as Hl by (unfold kept; rewrite length_drop; lia).
  split; [by rewrite Hc, Hl|]. split; [|done]. intros i l E. pose proof (lookup_lt_Some _ _ _ E).
  destruct (Hr (Z.of_nat i)) as [_ ->]; [rewrite Hc; lia|]. rewrite Nat2Z.id, list_lookup_total_alt.
  fold (kept ls). rewrite E. cbn. unfold cpy. pose proof (Forall_lookup_1 _ _ _ _ Hk E) as [_ Hll]. rewrite !take_ge; [done|unfold LINE_MAX; lia|rewrite take_ge by lia; unfold LINE_MAX; lia].
Qed.

(** C19: the line that is run is the line that was edited: on a working terminal,
    after any earlier lines [ls], a sequence of characters, rubouts and recall
    keys ended by return makes the shell read the text these keys leave (the
    recall keys walk through the last 32 lines that were not empty), and what was
    typed after the return key is left to be read.  The bytes sent are the echo of
    these keys; if the current line of the console's scrollback showed a prompt,
    and prompt and line were at all times shorter than the width of the console,
    then it shows the prompt and exactly the text that is run, and the lines above
    it are as they were, until the return key ends it. *)
Theorem shell_reads_line {St} `{Tty St} fuel ls (s : St) ks e rest :
  let es := kept ls in let start := Editor [] (Z.of_nat (length es)) in
  Forall enterable ls -> Forall key_ok ks -> (length ks <= fuel)%nat -> edit 191 es start ks = Some e ->
  tty_ok s -> tty_typed s = (ks ≫= codes) ++ 10 :: rest ->
  exists s', read_line fuel (foldl addhist hist_zero ls) s = Ret (s', e_line e) /\ tty_ok s' /\ tty_typed s' = rest /\
    tty_shown s' = tty_shown s ++ echoes es start ks ++ [10] /\
    forall prompt, row_shows (tty_display s) prompt ->
      edit (Z.to_nat (d_cols (tty_display s)) - length prompt) es start ks = Some e ->
      exists d, row_shows d (prompt ++ e_line e) /\ past (d_term d) = past (d_term (tty_display s)) /\ tty_display s' = display_type d [10].
Proof.
  intros es start Hls Hks Hf Hed Hs Ht. pose proof (kept_shown ls Hls) as Hh. unfold read_line. rewrite (proj1 Hh).
  destruct (typed_line fuel _ _ ks Hh Hks fuel start e s rest) as (s' & E & (Hs' & _ & S' & D') & T'); try done.
  { split; [constructor|]. unfold start. cbn [e_line e_recall length]. subst es. lia. }
  exists s'. do 4 (split; [done|]). intros prompt Hrow Hw. exists (display_type (tty_display s) (echoes es start ks)).
  pose proof (tty_width s) as Hc. assert (0 < d_cols (tty_display s) - Z.of_nat (length prompt)) as Hroom.
  { destruct ks; cbn [edit] in Hw; (destruct (Nat.leb_spec (Z.to_nat (d_cols (tty_display s)) - length prompt) (length (e_line start))); [done|]); change (length (e_line start)) with 0%nat in *; lia. }
  destruct Hh as (_ & _ & Hes).
  destruct (echoes_type es prompt (Z.to_nat (d_cols (tty_display s)) - length prompt) ks Hks (list.Forall_impl _ _ _ Hes (fun l Hl => proj1 Hl)) (tty_display s) start e Hc ltac:(lia) Hw) as [H1' H2'].
  { cbn. by rewrite app_nil_r. }
  split; [done|]. split; [done|]. by rewrite D', display_type_app.
Qed.

(** A line of 191 characters is run as it is typed, without the return key, and
    what follows it becomes the next line. *)
Lemma full_line_runs {St} `{Tty St} fuel n h e (s : St) : length (e_line e) = 191%nat ->
  repeat_until n (edit_step fuel h) e s = Ret (s, e_line e).
Proof.
  intros Hl. assert (edit_step fuel h e s = Ret (s, inr (e_line e))) as E by (unfold edit_step; by rewrite Hl).
  destruct n; cbn [repeat_until]; by rewrite (bind_step _ _ _ _ _ E).
Qed.

(** ** The kernel's terminal *)

#[export, refine] Instance demo_duplex : Duplex demo_hw := {}.
Proof. all: done. Defined.
#[export] Instance demo_areas : Areas := { str1 := 0x900000; str2 := 0x902000; local := 0x904000 }.
#[local] Existing Instance demo_layout.
#[export, refine] Instance demo_areas_ok : AreasOk := {}.
Proof. all: cbn; lia. Defined.

(** p, x, rubout, the left arrow, i, d, return, l. *)
Definition demo_shell : kernel demo_hw :=
  put_mach demo_kernel (set_hw (mach demo_kernel) (DemoHw [] [] [0x19; 0x2D; 0x0E; 0xE0; 0x4B; 0x17; 0x20; 0x1C; 0x26] 0)).
Lemma demo_shell_ok : kernel_tty_ok demo_shell.
Proof.
  split; [|split; [vm_compute; lia|by vm_compute]]. unfold demo_shell. rewrite mach_put. split; [|done..].
  apply set_hw_ok, (con_ok_mram demo_machine (ProcTable.ram demo_kernel) demo_machine_ok).
Qed.
(** The shell shows its prompt on a fresh line. *)
Definition demo_prompt : list Z := [10; 101; 120; 111; 62; 32].
Lemma demo_row : row_shows (display_type (kernel_display demo_shell) demo_prompt) (str "exo> ").
Proof. exists (replicate 155 3872). split_and!; [vm_compute; reflexivity| |reflexivity|vm_compute; reflexivity]. apply Forall_replicate. vm_compute. reflexivity. Qed.
Lemma shell_reads_line_witness : exists k k' d,
  read_line (St := kernel demo_hw) (H := kernel_os no_program no_script) 6 (foldl addhist hist_zero [[97]; []]) k = Ret (k', [97; 105; 100]) /\
  uart_sent (hw (mach k')) = demo_prompt ++ [112; 120; 8; 32; 8; 8; 32; 8; 97; 105; 100; 10] /\ remaining (mach k') = [108] /\
  row_shows d (str "exo> aid") /\ kernel_display k' = display_type d [10].
Proof.
  destruct (kernel_write no_program no_script demo_shell demo_prompt demo_shell_ok) as (k & _ & Hk & Hu & Hd & Hr);
    [repeat constructor; lia|cbn; lia|].
  destruct (shell_reads_line (H1 := kernel_tty no_program no_script) 6 [[97]; []] k
    [Char 112; Char 120; Rub; Older; Char 105; Char 100] (Editor [97; 105; 100] 0) [108])
    as (k' & E & _ & T & S & D).
  - repeat constructor; cbn; lia.
  - repeat constructor; lia.
  - cbn. lia.
  - reflexivity.
  - exact Hk.
  - change (remaining (mach k) = [112; 120; 8; 27; 91; 68; 105; 100; 10; 108]). rewrite Hr. vm_compute. reflexivity.
  - change (forall prompt, row_shows (kernel_display k) prompt -> edit (Z.to_nat (d_cols (kernel_display k)) - length prompt) [[97]] (Editor [] 1)
      [Char 112; Char 120; Rub; Older; Char 105; Char 100] = Some (Editor [97; 105; 100] 0) ->
      exists d, row_shows d (prompt ++ [97; 105; 100]) /\ past (d_term d) = past (d_term (kernel_display k)) /\ kernel_display k' = display_type d [10]) in D.
    rewrite Hd in D. destruct (D (str "exo> ")) as (d & Hd1 & _ & Hd'); [exact demo_row|vm_compute; reflexivity|].
    change (uart_sent (hw (mach k')) = uart_sent (hw (mach k)) ++ [112; 120; 8; 32; 8; 8; 32; 8; 97; 105; 100; 10]) in S. rewrite Hu in S.
    exists k, k', d. split; [exact E|]. split; [exact S|]. split; [exact T|]. split; [exact Hd1|exact Hd'].
Defined.
