(* ===== verification/PanicReport.v ===== *)
(** * kernel/panic.c: the report of a panic

    [panic_with_context] from its first instruction to the halt: the result is
    the state in which the processor stops.  The registers it reads are an
    argument.  Every text goes to the console and to the serial port. *)

From Stdlib Require Import ZArith Lia.
From stdpp Require Import base numbers gmap strings fin_maps option list.
From S2P Require Import Prelude MemUtils Heap HeapTheorems Allocator Vram MemCtx Vfs ProcTable Proc Fat32 Framebuffer VgaDraw Bootmode Digits Machine Serial Console ConsoleRing ConsoleProofs DebugLog ErrorText Idt Kernel Panic Keyboard Terminal.

Local Open Scope Z_scope.

Definition VGA_RED : Z := 4.
Record registers := Regs { rax : Z; rbx : Z; rcx : Z; rdx : Z; rsi : Z; rdi : Z; rbp : Z; rsp : Z; rflags : Z }.

Section Report.
Context {Hw : Type} `{Hardware Hw}.
Implicit Types m : machine Hw.

(** A report is a sequence of outputs. *)
Definition output : Type := machine Hw -> outcome (machine Hw).
Fixpoint run_all (fs : list output) m : outcome (machine Hw) := match fs with [] => Ret m | f :: fs => m ← f m; run_all fs m end.

Definition print_both (s : list Z) : output := fun m => m ← console_puts m (Some s); serial_write m s.
Definition print_hex_both (v : Z) : output := fun m => m ← console_uhex m v; serial_uhex m v.
(** The decimal printers take 32 bits. *)
Definition print_dec_both (v : Z) : output := fun m => m ← console_udec m (u32 v); serial_udec m (u32 v).
Definition say (t : string) : output := print_both (str t).
Definition say_line (t : string) : output := print_both (str t ++ [10]).
Definition newline_both : output := print_both [10].

(** One row of a dump: 16 bytes. *)
Definition hex_pair (v : Z) : list Z := [HEX !!! Z.to_nat (Z.shiftr v 4); HEX !!! Z.to_nat (Z.land v 0xF)].
Definition dump_stack_bytes (rsp : Z) : output :=
  for_range_m 4 (fun k m =>
    let pos := u64 (rsp + 16 * k) in
    m ← print_hex_both pos m;
    m ← say ": " m;
    m ← for_range_m 16 (fun j m => print_both (hex_pair (rd (mram m) (rsp + 16 * k + j)) ++ [32]) m) m;
    newline_both m).
Definition print_register_line (name : string) (value : Z) : output :=
  fun m => run_all [say "  "; say name; say ": 0x"; print_hex_both value; newline_both] m.

(** The bytes around the instruction pointer; the row that holds it is marked. *)
Definition both_raw (c : Z) : output := fun m => m ← console_putc m c; serial_raw_putc m c.
Definition memdump_direct (addr len rip : Z) : output :=
  for_range_m ((len + 15) / 16) (fun k m =>
    let i := 16 * k in
    let pos := u64 (addr + i) in
    m ← console_uhex m pos;
    m ← console_puts m (Some (str ": "));
    m ← serial_uhex m pos;
    m ← serial_write m (str ": ");
    let line_len := if len - i <? 16 then len - i else 16 in
    m ← for_range_m line_len (fun j m =>
      let c := rd (mram m) (addr + i + j) in
      run_all [both_raw (HEX !!! Z.to_nat (Z.shiftr c 4)); both_raw (HEX !!! Z.to_nat (Z.land c 0xF)); both_raw 32] m) m;
    if (pos <=? rip) && (rip <? u64 (pos + line_len)) then print_both (str "<- RIP" ++ [10]) m else both_raw 10 m).

Definition code_text (p : panic_state) : list Z :=
  if nonempty (panic_error_code p) then until_nul (panic_error_code p) else str "KERN_PANIC".
Definition render_rsof_banner (p : panic_state) (msg : option (list Z)) : output := fun m =>
  let m := console_set_attr m VGA_WHITE VGA_RED in
  m ← console_clear m;
  run_all ([say_line "RSOF - Red Screen of Failure"; say "Error: "; print_both (code_text p); newline_both] ++
    (match msg with Some (c :: s) => [say "Reason: "; print_both (c :: s); newline_both] | _ => [] end) ++
    [print_both (str "System halted to protect the kernel. Press 'D' for details." ++ [10; 10])]) m.

(** A field of the interpreter's details, or what stands for an empty one. *)
Definition field (dst : list Z) : list Z := until_nul dst.
Definition or_unknown (dst : list Z) : list Z := if nonempty dst then until_nul dst else str "<unknown>".

(** [msg] is not NULL where it is printed. *)
Definition describe (p : panic_state) (msg : list Z) : list output :=
  let i := mp_info p in
  if has_data i then
    [say_line "MicroPython Exception:"; say "  "; print_both (field (mp_type i)); say ": "; print_both (field (message i)); newline_both;
     print_both (str "  File " ++ [34]); print_both (or_unknown (file i)); print_both ([34] ++ str ", line "); print_dec_both (line i); newline_both]
  else [say "Message: "; print_both msg; newline_both].
Definition registers_report (rip : Z) (r : registers) : list output :=
  [print_register_line "RIP" rip; print_register_line "RSP" (rsp r); print_register_line "RBP" (rbp r);
   print_register_line "RAX" (rax r); print_register_line "RBX" (rbx r); print_register_line "RCX" (rcx r);
   print_register_line "RDX" (rdx r); print_register_line "RSI" (rsi r); print_register_line "RDI" (rdi r)].
Definition registers_detailed (rip : Z) (r : registers) : list output :=
  [print_register_line "RIP " rip; print_register_line "RSP " (rsp r); print_register_line "RBP " (rbp r);
   print_register_line "RAX " (rax r); print_register_line "RBX " (rbx r); print_register_line "RCX " (rcx r);
   print_register_line "RDX " (rdx r); print_register_line "RSI " (rsi r); print_register_line "RDI " (rdi r);
   print_register_line "RFLAGS" (rflags r)].

(** Up to the number of free bytes. *)
Definition report_cause (p : panic_state) (msg : list Z) : list output := say_line "--- KERNEL PANIC ---" :: describe p msg.
Definition report_state (rip : Z) (r : registers) : list output :=
  [say_line "Registers:"] ++ registers_report rip r ++
  [print_both ([10] ++ str "Stack (64 bytes):" ++ [10]); dump_stack_bytes (rsp r);
   print_both ([10] ++ str "Call Trace:" ++ [10]); say_line "  mp_exec_file()"; say_line "  mp_init()"; say_line "  kernel_main()";
   print_both ([10] ++ str "Memory:" ++ [10] ++ str "  Heap free: ")].
Definition report_memory (free : Z) (program : list Z) : list output :=
  [print_dec_both free; print_both (str " bytes" ++ [10] ++ str "  Current program: "); print_both program;
   print_both ([10; 10] ++ str "Press 'D' for detailed report or any other key to halt." ++ [10])].
(** After the key D. *)
Definition details (p : panic_state) (rip : Z) (r : registers) (user : bool) (program : list Z) : list output :=
  let i := mp_info p in
  [print_both ([10] ++ str "=== DETAILED CRASH REPORT ===" ++ [10; 10])] ++
  (if has_data i then
     [say_line "MicroPython Exception Details:"; say "  Type: "; print_both (field (mp_type i)); newline_both;
      say "  Message: "; print_both (field (message i)); newline_both; say "  File: "; print_both (or_unknown (file i)); newline_both;
      say "  Line: "; print_dec_both (line i); newline_both; say "  Last MicroPython function: ";
      print_both (or_unknown (function_name i)); print_both [10; 10]]
   else []) ++
  [say_line "Registers:"] ++ registers_detailed rip r ++
  [print_both ([10] ++ str "Stack Dump (64 bytes @ RSP):" ++ [10]); dump_stack_bytes (rsp r);
   print_both ([10] ++ str "Call Trace:" ++ [10]); say_line "  0: mp_task_exec()"; say_line "  1: mp_init()"; say_line "  2: py_exec_file()";
   print_both (str "  3: kernel_main()" ++ [10; 10]);
   say_line "System Status:"; say "  Source: "; print_both (str (if user then "user" else "kernel")); newline_both;
   say "  Current program: "; print_both program; newline_both; say "  Heap: "].
Definition details_end (free : Z) : list output :=
  [print_dec_both free; print_both (str " bytes free" ++ [10]); print_both ([10] ++ str "=== END OF DETAILED REPORT ===" ++ [10])].
End Report.

Section Panic.
Context {L : Layout} {Hw : Type} `{Hardware Hw}.
Implicit Types k : kernel Hw.

(** Before the first question: the code is settled, the report printed. *)
Definition panic_head (p : panic_state) (program msg : list Z) (rip : Z) (r : registers) k : outcome (kernel Hw * panic_state) :=
  m ← debuglog_print_timestamp (mach k);
  p ← ensure_error_code p (Some program) (Some msg) rip;
  m ← render_rsof_banner p (Some (if has_data (mp_info p) then field (message (mp_info p)) else msg)) m;
  m ← run_all (report_cause p msg ++ report_state rip r) m;
  let k := put_mach k m in
  free ← mem_heap_free (heap_of k);
  m ← run_all (report_memory free program) (mach k);
  Ret (put_mach k m, p).
(** The key, the details it asks for, and what follows. *)
Definition panic_tail (p : panic_state) (program : list Z) (rip : Z) (user : bool) (r : registers) k : outcome (kernel Hw) :=
  '(m, choice) ← console_getc (mach k);
  m ← serial_putc m choice;
  m ← serial_write m [10];
  let k := put_mach k m in
  k ← (if (choice =? 100) || (choice =? 68) then
         m ← run_all (details p rip r user program) (mach k);
         let k := put_mach k m in
         free ← mem_heap_free (heap_of k);
         on_mach k (run_all (details_end free))
       else Ret k);
  let k := debuglog_save_file k in
  k ← on_mach k (fun m =>
    m ← console_puts m (Some (str "Code around RIP:" ++ [10]));
    m ← serial_write m (str "Code around RIP:" ++ [10]);
    memdump_direct (Z.ldiff rip 0xF) 64 rip m);
  on_mach (debuglog_flush k) debuglog_dump_console.
(** After [serial_init]. *)
Definition panic_report (p : panic_state) (program msg : list Z) (rip : Z) (user : bool) (r : registers) k : outcome (kernel Hw) :=
  '(k, p) ← panic_head p program msg rip r k;
  panic_tail p program rip user r k.
(** The result is the state in which the processor halts. *)
Definition panic_with_context (p : panic_state) (program msg : list Z) (rip : Z) (user : bool) (r : registers) k : outcome (kernel Hw) :=
  k ← on_mach k serial_init;
  panic_report p program msg rip user r k.
(** [ret] is the return address. *)
Definition panic (p : panic_state) (program msg : list Z) (ret : Z) (r : registers) k : outcome (kernel Hw) :=
  panic_with_context p program msg ret false r k.
End Panic.
