(* ===== verification/PanicTheorems.v ===== *)
(** * A panic is reported and ends in the halt *)

From Stdlib Require Import ZArith Lia.
From stdpp Require Import base numbers gmap strings fin_maps option list.
From S2P Require Import Prelude MemUtils Heap HeapSpec HeapTheorems Allocator Vram MemCtx Vfs ProcTable Proc Fat32 Framebuffer VgaDraw Bootmode Digits Machine Serial Console ConsoleRing ConsoleProofs DebugLog ErrorText Idt Kernel Syscall SyscallTheorems Panic Keyboard Terminal ShellProofs PanicReport.

Local Open Scope Z_scope.

Section Outputs.
Context {Hw : Type} `{Uart Hw}.
Implicit Types m : machine Hw.

(** What output leaves alone: the keyboard's state, the mode, the bounds of the
    log, and whatever of the devices reading the status of the serial port and
    sending over it do not change. *)
Definition log_ok (l : debuglog) : Prop := 0 <= log_pos l <= log_size l.
Record after m m' : Prop := After {
  a_kbd : kbd (con m') = kbd (con m);
  a_mode : debug_mode m' = debug_mode m;
  a_log : log_ok (dlog m) -> log_ok (dlog m');
  a_hw : forall P : Hw -> Prop, (forall h, P h -> P (hw_in h UART_STATUS).1) -> (forall h v, P h -> P (hw_out h UART_DATA v)) -> P (hw m) -> P (hw m')
}.
Lemma after_refl m : after m m.
Proof. by split. Qed.
Lemma after_trans m1 m2 m3 : after m1 m2 -> after m2 m3 -> after m1 m3.
Proof. intros [K1 D1 L1 P1] [K2 D2 L2 P2]. split; [congruence|congruence|auto|intros P Pin Pout Hm; by apply P2, P1]. Qed.
Lemma after_ram m m' : only_ram m m' -> after m m'.
Proof. by intros [r ->]. Qed.
Lemma log_next_ok l : log_ok l -> log_ok (log_next l).
Proof. unfold log_ok, log_next. destruct (log_buf l =? 0); [done|]. cbn [orb]. destruct (Z.leb_spec (log_size l) (log_pos l)); [done|]. cbn. lia. Qed.
Lemma debuglog_after m c : after m (debuglog_char m c).
Proof.
  split; [by destruct (debuglog_char_frame m c) as (-> & _)| | |by destruct (debuglog_char_frame m c) as (_ & _ & _ & ->)].
  - unfold debuglog_char. by case_test.
  - rewrite debuglog_char_log. apply log_next_ok.
Qed.
Lemma raw_after m c m' : serial_raw_putc m c = Ret m' -> after m m'.
Proof.
  unfold serial_raw_putc. intros E. inv_bind E. injection E as <-. destruct (poll_ready hw_polls m (uart_busy_law _)) as (m1 & E1 & [h ->] & _).
  rewrite E1 in E0. injection E0 as <-. split; try done. intros P Pin Pout Hm. apply Pout. by eapply (poll_hw P) in E1.
Qed.
Lemma putc_after m c m' : serial_putc m c = Ret m' -> after m m'.
Proof.
  unfold serial_putc. intros E. inv_bind E. injection E as <-. eapply after_trans; [|apply debuglog_after].
  apply (raw_after m c). unfold serial_raw_putc. by rewrite E0.
Qed.
Lemma emit_after m c m' : console_emit_char m c = Ret m' -> after m m'.
Proof.
  unfold console_emit_char, on_text. intros E. inv_bind E. inv_bind E. inv_bind E1. injection E1 as <-. apply raw_after in E0.
  eapply after_trans; [exact E0|]. set (m1 := debuglog_char _ _) in E.
  assert (after r m1) as H1 by (eapply after_trans; [|apply debuglog_after]; by split).
  set (m2 := if _ && _ then _ else _) in E. assert (after m1 m2) as H2 by (unfold m2; case_test; [by split|apply after_refl]).
  eapply after_trans; [by eapply after_trans|]. case_test_in E; [injection E as <-; apply after_refl|by apply after_ram, draw_screen_ram].
Qed.

(** [f] returns, and sends [t]. *)
Definition sends (f : machine Hw -> outcome (machine Hw)) (t : list Z) : Prop :=
  forall m, con_ok m -> exists m', f m = Ret m' /\ con_ok m' /\ after m m' /\ uart_sent (hw m') = uart_sent (hw m) ++ t.
Definition sends_some (f : machine Hw -> outcome (machine Hw)) : Prop :=
  forall m, con_ok m -> exists m' t, f m = Ret m' /\ con_ok m' /\ after m m' /\ uart_sent (hw m') = uart_sent (hw m) ++ t.

Lemma sends_nothing : sends (fun m => Ret m) [].
Proof. intros m Hok. exists m. split_and!; [done|done|apply after_refl|by rewrite app_nil_r]. Qed.
Lemma sends_bind f g s t : sends f s -> sends g t -> sends (fun m => m ← f m; g m) (s ++ t).
Proof.
  intros Hf Hg m Hok. destruct (Hf m Hok) as (m1 & -> & Hok1 & A1 & S1). destruct (Hg m1 Hok1) as (m2 & E2 & Hok2 & A2 & S2).
  exists m2. cbn. split_and!; [done|done|by eapply after_trans|by rewrite S2, S1, app_assoc].
Qed.
Lemma sends_forget f t : sends f t -> sends_some f.
Proof. intros Hf m Hok. destruct (Hf m Hok) as (m' & ?). by exists m', t. Qed.
Lemma some_bind f g : sends_some f -> sends_some g -> sends_some (fun m => m ← f m; g m).
Proof.
  intros Hf Hg m Hok. destruct (Hf m Hok) as (m1 & t1 & -> & Hok1 & A1 & S1). destruct (Hg m1 Hok1) as (m2 & t2 & E2 & Hok2 & A2 & S2).
  exists m2, (t1 ++ t2). cbn. split_and!; [done|done|by eapply after_trans|by rewrite S2, S1, app_assoc].
Qed.
Lemma some_loop n (f : Z -> machine Hw -> outcome (machine Hw)) : 0 <= n -> (forall i, sends_some (f i)) -> sends_some (for_range_m n f).
Proof.
  intros Hn Hf m Hok. destruct (for_range_m_inv (fun _ m' => con_ok m' /\ after m m' /\ exists t, uart_sent (hw m') = uart_sent (hw m) ++ t) n f m Hn)
    as (m' & E & Hok' & A & t & S); [split_and!; [done|apply after_refl|exists []; by rewrite app_nil_r]| |by exists m', t].
  intros i m1 _ (Hok1 & A1 & t1 & S1). destruct (Hf i m1 Hok1) as (m2 & t2 & E2 & Hok2 & A2 & S2). exists m2.
  split_and!; [done|done|by eapply after_trans|]. exists (t1 ++ t2). by rewrite S2, S1, app_assoc.
Qed.

(** ** The printers *)

Lemma raw_sends c : sends (fun m => serial_raw_putc m c) [u8 c].
Proof.
  intros m Hok. destruct (serial_raw_putc_sends m c) as (m' & E & Ho & S). exists m'. split_and!; [done| |by eapply raw_after|done].
  destruct Ho as [h ->]. by destruct Hok.
Qed.
Lemma serial_write_sends s : sends (fun m => serial_write m s) (u8 <$> s).
Proof.
  induction s as [|c s IH]; [apply sends_nothing|]. cbn [fmap list_fmap]. change (sends (fun m => m ← serial_putc m c; serial_write m s) ([u8 c] ++ (u8 <$> s))).
  apply (sends_bind (fun m => serial_putc m c) (fun m => serial_write m s)); [|done]. intros m Hok.
  destruct (raw_sends c m Hok) as (m1 & E & Hok1 & A & S). unfold serial_raw_putc in E. exists (debuglog_char m1 c). unfold serial_putc.
  inv_bind E. injection E as <-. rewrite E0. destruct (debuglog_char_frame (outb r UART_DATA c) c) as (Ec & Es & _ & Eh).
  split_and!; [done|destruct Hok1; split; rewrite ?Ec, ?Es; done|by eapply after_trans, debuglog_after|by rewrite Eh].
Qed.
Lemma emit_all_after m s m' : emit_all m s = Ret m' -> after m m'.
Proof.
  revert m. induction s as [|c s IH]; intros m E; cbn [emit_all] in E; [injection E as <-; apply after_refl|].
  inv_bind E. eapply after_trans; [by eapply emit_after|by apply IH].
Qed.
Lemma puts_sends s : sends (fun m => console_puts m (Some s)) (u8 <$> s).
Proof.
  intros m Hok. destruct (console_write_ok m s Hok) as (m' & E & Hok' & _ & _ & S). exists m'. split_and!; try done.
  unfold console_write in E. destruct s as [|c s]; [injection E as <-; apply after_refl|]. inv_bind E. apply draw_screen_ram, after_ram in E.
  eapply after_trans; [by eapply emit_all_after|exact E].
Qed.
Lemma putc_sends c : sends (fun m => console_putc m c) [u8 c].
Proof.
  intros m Hok. destruct (puts_sends [c] m Hok) as (m' & E & Hrest). exists m'. split; [|done].
  rewrite <- E. unfold console_putc, console_puts, console_write. cbn. by destruct (console_emit_char m c).
Qed.

(** Everything is sent twice: the console sends what it shows. *)
Definition twice (s : list Z) : list Z := (u8 <$> s) ++ (u8 <$> s).
Lemma print_both_sends s : sends (print_both s) (twice s).
Proof. apply (sends_bind _ _ _ _ (puts_sends s) (serial_write_sends s)). Qed.

Lemma hex_both v : 0 <= v < 18446744073709551616 -> exists s, numeral 16 v s /\ sends (print_hex_both v) (twice s).
Proof.
  intros Hv. destruct (uhex_text_spec v Hv) as (s & E & Hn). exists s. split; [done|].
  assert (sends (fun m => console_uhex m v) (u8 <$> s)) as Hc by (unfold console_uhex; rewrite E; apply puts_sends).
  assert (sends (fun m => serial_uhex m v) (u8 <$> s)) as Hs by (unfold serial_uhex; rewrite E; apply serial_write_sends).
  apply (sends_bind _ _ _ _ Hc Hs).
Qed.
Lemma dec_both v : exists s, numeral 10 (u32 v) s /\ sends (print_dec_both v) (twice s).
Proof.
  destruct (udec_text_spec (u32 v) (u32_range v)) as (s & E & Hn). exists s. split; [done|].
  assert (sends (fun m => console_udec m (u32 v)) (u8 <$> s)) as Hc by (unfold console_udec; rewrite E; apply puts_sends).
  assert (sends (fun m => serial_udec m (u32 v)) (u8 <$> s)) as Hs by (unfold serial_udec; rewrite E; apply serial_write_sends).
  apply (sends_bind _ _ _ _ Hc Hs).
Qed.

(** ** Sequences *)

Lemma run_all_sends fs ts : Forall2 sends fs ts -> sends (run_all fs) (concat ts).
Proof. induction 1 as [|f t fs ts Hf _ IH]; [apply sends_nothing|]. by apply (sends_bind f (run_all fs)). Qed.
Lemma run_all_some fs : Forall sends_some fs -> sends_some (run_all fs).
Proof. induction 1 as [|f fs Hf _ IH]; [eapply sends_forget, sends_nothing|]. by apply (some_bind f (run_all fs)). Qed.
Lemma run_all_app fs gs (m : machine Hw) : run_all (fs ++ gs) m = (m ← run_all fs m; run_all gs m).
Proof.
  revert m. induction fs as [|f fs IH]; intros m; [done|]. cbn [app run_all]. destruct (f m) as [m1|e| |]; cbn [mbind outcome_bind]; [apply IH|done..].
Qed.
Lemma both_some s : sends_some (print_both s).
Proof. eapply sends_forget, print_both_sends. Qed.
Lemma dec_some v : sends_some (print_dec_both v).
Proof. destruct (dec_both v) as (s & _ & Hs). by eapply sends_forget. Qed.
Lemma hex_some v : 0 <= v < 18446744073709551616 -> sends_some (print_hex_both v).
Proof. intros Hv. destruct (hex_both v Hv) as (s & _ & Hs). by eapply sends_forget. Qed.
Lemma register_some name v : 0 <= v < 18446744073709551616 -> sends_some (print_register_line name v).
Proof. intros Hv. apply run_all_some. repeat constructor; try apply both_some. by apply hex_some. Qed.
Lemma raw_both_some c : sends_some (both_raw c).
Proof. apply (some_bind (fun m => console_putc m c) (fun m => serial_raw_putc m c)); eapply sends_forget; [apply putc_sends|apply raw_sends]. Qed.
Lemma depends_some (f : machine Hw -> machine Hw -> outcome (machine Hw)) : (forall m0, sends_some (f m0)) -> sends_some (fun m => f m m).
Proof. intros Hf m Hok. by apply Hf. Qed.
Lemma dump_some a : sends_some (dump_stack_bytes a).
Proof.
  apply some_loop; [lia|]. intros k. apply some_bind; [by apply hex_some, u64_range|]. apply some_bind; [apply both_some|].
  apply some_bind; [|apply both_some]. apply some_loop; [lia|]. intros j.
  apply (depends_some (fun m0 m => print_both (hex_pair (rd (mram m0) (a + 16 * k + j)) ++ [32]) m)). intros m0. apply both_some.
Qed.
Lemma memdump_some a len rip : 0 <= len -> sends_some (memdump_direct a len rip).
Proof.
  intros Hl. assert (forall i, 0 <= u64 i < 18446744073709551616) as Hu by (intros; apply u64_range). apply some_loop; [mlia|]. intros k.
  destruct (uhex_text_spec (u64 (a + 16 * k)) (Hu _)) as (s & E & _).
  apply some_bind; [unfold console_uhex; rewrite E; eapply sends_forget, puts_sends|].
  apply some_bind; [eapply sends_forget, puts_sends|].
  apply some_bind; [unfold serial_uhex; rewrite E; eapply sends_forget, serial_write_sends|].
  apply some_bind; [eapply sends_forget, serial_write_sends|].
  apply some_bind; [|destruct ((_ <=? rip) && _); [apply both_some|apply raw_both_some]].
  destruct (Z.le_gt_cases 0 (if len - 16 * k <? 16 then len - 16 * k else 16)) as [Hn|Hn].
  - apply some_loop; [done|]. intros j.
    apply (depends_some (fun m0 m => let c := rd (mram m0) (a + 16 * k + j) in
      run_all [both_raw (HEX !!! Z.to_nat (Z.shiftr c 4)); both_raw (HEX !!! Z.to_nat (Z.land c 0xF)); both_raw 32] m)). intros m0. apply run_all_some. repeat constructor; apply raw_both_some.
  - unfold for_range_m. replace (Z.to_nat _) with O by lia. eapply sends_forget, sends_nothing.
Qed.
End Outputs.

(** ** The cleared screen *)

Lemma reset_ring_ok at_ t : text_ok t -> exists t', reset_ring at_ t = Ret t' /\ text_ok t' /\ count t' = 1.
Proof.
  intros [Hb Hl Hr _ _ _ _ _]. unfold reset_ring.
  destruct (for_range_m_inv (fun _ t => length (buf t) = 512%nat /\ length (line_len t) = 512%nat /\ forall l, 0 <= l < 512 -> line_ok (row t l))
    BUF_LINES (fun l t => clear_line at_ t l) t) as (t' & -> & Hb' & Hl' & Hr'); [done|done| |].
  - intros i t1 Hi (Hb1 & Hl1 & Hr1). rewrite clear_line_upd; [|done..|apply Hr1; done]. eexists. split; [done|].
    destruct (length_upd t1 i (blank_line at_)) as [E1 E2]. split; [congruence|]. split; [congruence|]. intros l Hl2.
    rewrite row_upd by (done || lia). case_decide; [|by apply Hr1]. split; [apply length_replicate|cbn; lia].
  - cbn [mbind outcome_bind]. eexists. split; [done|]. split; [|done]. split; cbn; try done; lia.
Qed.

Section Banner.
Context {Hw : Type} `{Uart Hw}.
Implicit Types m : machine Hw.

Lemma clear_sends : sends (fun m => console_clear m) [].
Proof.
  intros m Hok. unfold console_clear, on_text. destruct (reset_ring_ok (attr (con m)) (txt (con m)) (c_text m Hok)) as (t & Et & Ht & _).
  change (txt (con (set_hold m false))) with (txt (con m)). rewrite Et. cbn [mbind outcome_bind].
  assert (con_ok (set_text (set_hold m false) t)) as Hok1 by (split; [exact Ht|apply (c_width _ Hok)|apply (c_rows _ Hok)]).
  destruct (draw_screen_ok _ Hok1) as (m' & -> & Ho). exists m'. split; [done|]. split; [by eapply only_ram_ok|]. split.
  - eapply after_trans; [|by apply after_ram]. by split.
  - destruct Ho as [x ->]. cbn. by rewrite app_nil_r.
Qed.

(** What the report starts with. *)
Definition reason_text (reason : list Z) : list Z :=
  match reason with [] => [] | _ => twice (str "Reason: ") ++ twice reason ++ twice [10] end.
Definition banner_text (code reason : list Z) : list Z :=
  twice (str "RSOF - Red Screen of Failure" ++ [10]) ++ twice (str "Error: ") ++ twice code ++ twice [10] ++ reason_text reason ++
  twice (str "System halted to protect the kernel. Press 'D' for details." ++ [10; 10]).
Lemma banner_sends p reason : sends (render_rsof_banner p (Some reason)) (banner_text (code_text p) reason).
Proof.
  assert (sends (fun m => console_clear (console_set_attr m VGA_WHITE VGA_RED)) []) as Hc.
  { intros m Hok. destruct (clear_sends (console_set_attr m VGA_WHITE VGA_RED)) as (m' & E & Hok' & A & S); [by destruct Hok|].
    exists m'. split_and!; [done|done| |done]. eapply after_trans; [|exact A]. by split. }
  set (ts := [twice (str "RSOF - Red Screen of Failure" ++ [10]); twice (str "Error: "); twice (code_text p); twice [10]] ++
    (match reason with [] => [] | _ => [twice (str "Reason: "); twice reason; twice [10]] end) ++ [twice (str "System halted to protect the kernel. Press 'D' for details." ++ [10; 10])]).
  assert (banner_text (code_text p) reason = [] ++ concat ts) as ->.
  { unfold banner_text, ts, reason_text. destruct reason; cbn [app concat]; rewrite ?app_nil_r, <- ?app_assoc; reflexivity. }
  apply (sends_bind _ _ _ _ Hc). apply run_all_sends. unfold ts. destruct reason; repeat constructor; apply print_both_sends.
Qed.

Lemma cause_some p msg : Forall sends_some (describe (Hw := Hw) p msg).
Proof. unfold describe. destruct (has_data _); repeat constructor; (apply both_some || apply dec_some). Qed.
Definition regs_ok (r : registers) : Prop :=
  Forall (fun v => 0 <= v < 18446744073709551616) [rax r; rbx r; rcx r; rdx r; rsi r; rdi r; rbp r; rsp r; rflags r].
Lemma state_some rip r : 0 <= rip < 18446744073709551616 -> regs_ok r -> Forall sends_some (report_state (Hw := Hw) rip r).
Proof.
  intros Hrip Hr. unfold regs_ok in Hr. rewrite !Forall_cons in Hr. destruct Hr as (? & ? & ? & ? & ? & ? & ? & ? & ? & _).
  unfold report_state, registers_report. cbn [app]. repeat constructor; first [apply both_some | apply dump_some | by apply register_some].
Qed.
Lemma details_some p rip user r program : 0 <= rip < 18446744073709551616 -> regs_ok r -> Forall sends_some (details (Hw := Hw) p rip r user program).
Proof.
  intros Hrip Hr. unfold regs_ok in Hr. rewrite !Forall_cons in Hr. destruct Hr as (? & ? & ? & ? & ? & ? & ? & ? & ? & _).
  unfold details, registers_detailed. destruct (has_data _); cbn [app]; repeat constructor; first [apply both_some | apply dec_some | apply dump_some | by apply register_some].
Qed.
End Banner.

(** ** The whole report *)

Section PanicReports.
Context {L : Layout} {Hw : Type} `{!Hardware Hw, !Uart Hw}.
Implicit Types k : kernel Hw.

(** The free bytes are counted in the headers, which no output touches. *)
Lemma heap_free_put k (m : machine Hw) : mem_heap_free (heap_of (put_mach k m)) = mem_heap_free (heap_of k).
Proof. reflexivity. Qed.
Lemma flushed k : con_ok (mach k) -> con_ok (mach (debuglog_flush k)) /\ debug_mode (mach (debuglog_flush k)) = debug_mode (mach k).
Proof.
  intros Hok. unfold debuglog_flush. case_test; [done|]. split; [|done]. apply (con_ok_mram (mach k) _ Hok).
Qed.
Lemma dump_idle (m : machine Hw) : debug_mode m = false -> debuglog_dump_console m = Ret m.
Proof. intros Hd. unfold debuglog_dump_console. by rewrite Hd, orb_true_r. Qed.

(** The first half, up to the count of free bytes. *)
Lemma head_reports p program msg rip r (m : machine Hw) :
  con_ok m -> panic_ok p -> no_nul program -> 0 <= rip < 2 ^ 64 -> regs_ok r ->
  exists p' code m1 m' rest, ensure_error_code p (Some program) (Some msg) rip = Ret p' /\ mp_info p' = mp_info p /\
    until_nul (panic_error_code p') = code /\ code <> [] /\ code_of p (Some program) (Some msg) rip code /\
    let reason := if has_data (mp_info p) then field (message (mp_info p)) else msg in
    render_rsof_banner p' (Some reason) m = Ret m1 /\ run_all (report_cause p' msg ++ report_state rip r) m1 = Ret m' /\
    con_ok m' /\ after m m' /\
    uart_sent (hw m') = uart_sent (hw m) ++ banner_text code reason ++ twice (str "--- KERNEL PANIC ---" ++ [10]) ++ rest.
Proof.
  intros Hok Hp Hprog Hrip Hr.
  destruct (panic_code_settled p (Some program) (Some msg) rip Hp) as (p' & code & E & _ & Ei & Hc & Hne & Hcode); [by intros ? [= <-]|done|].
  destruct (holds_text _ _ _ Hc) as [Ec _].
  assert (code_text p' = code) as Et by (unfold code_text; rewrite (nonempty_holds _ _ _ Hc), bool_decide_true by done; exact Ec).
  generalize (if has_data (mp_info p) then field (message (mp_info p)) else msg). intros reason.
  destruct (banner_sends p' reason m Hok) as (m1 & E1 & Hok1 & A1 & S1). rewrite Et in S1.
  assert (sends_some (run_all (describe (Hw := Hw) p' msg ++ report_state rip r))) as Hrest
    by (apply run_all_some, Forall_app; split; [apply cause_some|by apply state_some]).
  destruct (print_both_sends (str "--- KERNEL PANIC ---" ++ [10]) m1 Hok1) as (m2 & E2 & Hok2 & A2 & S2).
  destruct (Hrest m2 Hok2) as (m3 & t3 & E3 & Hok3 & A3 & S3).
  exists p', code, m1, m3, t3. do 5 (split; [done|]). cbn zeta. split; [done|]. split; [|split; [done|split]].
  - unfold report_cause. cbn [app run_all]. unfold say_line. rewrite E2. exact E3.
  - by eapply after_trans, after_trans.
  - by rewrite S3, S2, S1, <- !app_assoc.
Qed.
Lemma free_counted (s : kmem) : heap_ok s -> exists n, mem_heap_free s = Ret n.
Proof. intros (F & B & Hk). eexists. by eapply mem_heap_free_correct. Qed.
Lemma memory_some free program : sends_some (run_all (report_memory (Hw := Hw) free program)).
Proof. apply run_all_some. repeat constructor; (apply both_some || apply dec_some). Qed.
Lemma panic_head_reports p program msg rip r k :
  con_ok (mach k) -> debug_mode (mach k) = false -> heap_ok (heap_of k) -> panic_ok p -> no_nul program -> 0 <= rip < 2 ^ 64 -> regs_ok r ->
  exists k' p' code rest, panic_head p program msg rip r k = Ret (k', p') /\
    con_ok (mach k') /\ after (mach k) (mach k') /\ mem_heap_free (heap_of k') = mem_heap_free (heap_of k) /\
    until_nul (panic_error_code p') = code /\ code <> [] /\ code_of p (Some program) (Some msg) rip code /\
    uart_sent (hw (mach k')) = uart_sent (hw (mach k)) ++
      banner_text code (if has_data (mp_info p) then field (message (mp_info p)) else msg) ++ twice (str "--- KERNEL PANIC ---" ++ [10]) ++ rest.
Proof.
  intros Hok Hd Hh Hp Hprog Hrip Hr. destruct (free_counted _ Hh) as [free Hf]. clear Hh.
  destruct (head_reports p program msg rip r (mach k) Hok Hp Hprog Hrip Hr) as (p' & code & m1 & m & rest & E & Ei & Ec & Hne & Hcode & E1 & Em & Hok' & A & S).
  destruct (memory_some free program m Hok') as (m2 & t2 & E2 & Hok2 & A2 & S2).
  exists (put_mach (put_mach k m) m2), p', code, (rest ++ t2). rewrite mach_put. split.
  - unfold panic_head, debuglog_print_timestamp. rewrite Hd. cbn [negb].
    by rewrite bind_Ret, E, bind_Ret, Ei, E1, bind_Ret, Em, bind_Ret, heap_free_put, Hf, bind_Ret, mach_put, E2, bind_Ret.
  - do 2 (split; [first [exact Hok2|by eapply after_trans]|]). split; [by rewrite !heap_free_put|]. do 3 (split; [done|]).
    by rewrite S2, S, <- !app_assoc.
Qed.

(** The second half, once a key is there to be read. *)
Lemma details_return p program rip user r k free : con_ok (mach k) -> mem_heap_free (heap_of k) = Ret free -> 0 <= rip < 2 ^ 64 -> regs_ok r ->
  exists k', (m ← run_all (details p rip r user program) (mach k);
    let k := put_mach k m in
    free ← mem_heap_free (heap_of k);
    on_mach k (run_all (details_end free))) = Ret k' /\ con_ok (mach k') /\ debug_mode (mach k') = debug_mode (mach k).
Proof.
  intros Hok Hf Hrip Hr.
  destruct (run_all_some _ (details_some p rip user r program Hrip Hr) (mach k) Hok) as (m1 & t1 & -> & Hok1 & A1 & _). rewrite bind_Ret. cbn zeta.
  rewrite heap_free_put, Hf, bind_Ret. unfold on_mach. rewrite mach_put.
  assert (Forall sends_some (details_end (Hw := Hw) free)) as He by (repeat constructor; (apply both_some || apply dec_some)).
  destruct (run_all_some _ He m1 Hok1) as (m2 & t2 & -> & Hok2 & A2 & _). rewrite bind_Ret.
  eexists. split; [done|]. rewrite mach_put. split; [done|]. by rewrite (a_mode _ _ A2), (a_mode _ _ A1).
Qed.
Lemma panic_tail_halts `{!Ps2 Hw} p program rip user r k c rest free :
  kbd_ok (mach k) -> (due_time (ps2_due (hw (mach k))) <= hw_polls)%nat -> remaining (mach k) = c :: rest ->
  debug_mode (mach k) = false -> mem_heap_free (heap_of k) = Ret free -> 0 <= rip < 2 ^ 64 -> regs_ok r ->
  exists k', panic_tail p program rip user r k = Ret k'.
Proof.
  intros Hk Hd Hrem Hm Hf Hrip Hr. unfold panic_tail.
  destruct (keyboard_delivers _ c rest Hk Hd Hrem) as (m1 & E1 & [Hok1 _ _ _] & _). pose proof (getc_mode _ _ _ E1) as Hm1. rewrite E1, bind_Ret.
  destruct (serial_write_sends [c] m1 Hok1) as (m2 & E2 & Hok2 & A2 & _). cbn [serial_write] in E2.
  destruct (serial_putc m1 c) as [m2'|e| |]; try discriminate. injection E2 as ->. rewrite bind_Ret.
  destruct (serial_write_sends [10] m2 Hok2) as (m3 & -> & Hok3 & A3 & _). rewrite bind_Ret. cbn zeta.
  set (k1 := put_mach k m3). assert (con_ok (mach k1) /\ debug_mode (mach k1) = false) as [Hok4 Hm4].
  { unfold k1. rewrite mach_put. split; [done|]. by rewrite (a_mode _ _ A3), (a_mode _ _ A2), Hm1. }
  assert (mem_heap_free (heap_of k1) = Ret free) as Hf1 by (unfold k1; by rewrite heap_free_put). clearbody k1.
  assert (exists k2, (if (c =? 100) || (c =? 68) then
         m ← run_all (details p rip r user program) (mach k1);
         free ← mem_heap_free (heap_of (put_mach k1 m));
         on_mach (put_mach k1 m) (run_all (details_end free))
       else Ret k1) = Ret k2 /\ con_ok (mach k2) /\ debug_mode (mach k2) = debug_mode (mach k1)) as (k2 & -> & Hok5 & Hm5)
    by (destruct (_ || _); [by eapply details_return|by exists k1]).
  rewrite bind_Ret. unfold debuglog_save_file. destruct (flushed k2 Hok5) as [Hok6 Hm6]. unfold on_mach.
  assert (sends_some (fun m : machine Hw => m ← console_puts m (Some (str "Code around RIP:" ++ [10])); m ← serial_write m (str "Code around RIP:" ++ [10]);
    memdump_direct (Z.ldiff rip 15) 64 rip m)) as Hdump.
  { apply some_bind; [eapply sends_forget, puts_sends|]. apply some_bind; [eapply sends_forget, serial_write_sends|by apply memdump_some]. }
  destruct (Hdump _ Hok6) as (m7 & t7 & -> & Hok7 & A7 & _). rewrite !bind_Ret.
  destruct (flushed (put_mach (debuglog_flush k2) m7)) as [Hok8 Hm8]; [by rewrite mach_put|].
  rewrite dump_idle; [by eexists|]. by rewrite Hm8, mach_put, (a_mode _ _ A7), Hm6, Hm5, Hm4.
Qed.
End PanicReports.

(** C17: a panic tells why: in the normal mode, whatever state the interpreter's
    details, the message and the registers are in, the report settles on an
    error code and sends the red banner with it, the reason and the start of the
    report over the serial port, every piece twice since the console sends what
    it shows; and once a key has been typed, it runs to the halt. *)
Theorem panic_reports {L : Layout} {Hw} `{!Hardware Hw, !Uart Hw, !Ps2 Hw, !Duplex Hw} (k : kernel Hw) p program msg rip user r :
  con_ok (mach k) -> debug_mode (mach k) = false -> heap_ok (heap_of k) -> panic_ok p -> no_nul program -> 0 <= rip < 2 ^ 64 -> regs_ok r ->
  (exists k1 p' code more, panic_head p program msg rip r k = Ret (k1, p') /\ code <> [] /\ code_of p (Some program) (Some msg) rip code /\
     uart_sent (hw (mach k1)) = uart_sent (hw (mach k)) ++
       banner_text code (if has_data (mp_info p) then field (message (mp_info p)) else msg) ++ twice (str "--- KERNEL PANIC ---" ++ [10]) ++ more) /\
  (kbd_ok (mach k) -> (due_time (ps2_due (hw (mach k))) <= hw_polls)%nat -> remaining (mach k) <> [] ->
   exists k', panic_report p program msg rip user r k = Ret k').
Proof.
  intros Hok Hd Hh Hp Hprog Hrip Hr. destruct (free_counted _ Hh) as [free Hf].
  destruct (panic_head_reports p program msg rip r k Hok Hd Hh Hp Hprog Hrip Hr) as (k1 & p' & code & more & E & Hok1 & A & Hf1 & _ & Hne & Hcode & S).
  split; [by exists k1, p', code, more|]. intros [_ Hq Hpos Hlen] Hdue Hrem.
  destruct (a_hw _ _ A (fun h => ps2_quiet h /\ ps2_due h = ps2_due (hw (mach k)))) as [Hq1 Hd1].
  - intros h [H1 H2]. split; [by apply ps2_quiet_law|]. by rewrite (proj2 (ps2_serial_law _ H1)).
  - intros h v [H1 H2]. split; [by apply duplex_quiet|]. by rewrite duplex_due.
  - done.
  - destruct (remaining (mach k)) as [|c rest] eqn:Er; [done|]. unfold panic_report. rewrite E, bind_Ret.
    eapply (panic_tail_halts p' program rip user r k1 c rest free).
    + split; [done|done|by rewrite (a_kbd _ _ A)..].
    + by rewrite Hd1.
    + unfold remaining in *. by rewrite (a_kbd _ _ A), Hd1.
    + by rewrite (a_mode _ _ A).
    + by rewrite Hf1.
    + done.
    + done.
Qed.

(** ** The key D is waiting *)

#[local] Existing Instance demo_layout.
Definition demo_panic : kernel demo_hw :=
  let m := set_hw demo_machine (DemoHw [] [] [0x20] 0) in
  ProcState (vfs_init ((demo0, World m (w_fs demo_world) demo_ints) : kmem * world demo_hw)).1 [] [] 0 [] 0 0.
Definition demo_regs : registers := Regs 0 0 0 0 0 0 0 0x8000 0x202.
Lemma demo_panic_ok : con_ok (mach demo_panic).
Proof. apply (con_ok_mram (set_hw demo_machine (DemoHw [] [] [0x20] 0))), set_hw_ok, demo_machine_ok. Qed.
Lemma panic_reports_witness :
  (exists k1 p' more, panic_head panic_start (str "init") (str "No modules found") 0x100000 demo_regs demo_panic = Ret (k1, p') /\
     uart_sent (hw (mach k1)) = banner_text (str "MISSING_MODULES") (str "No modules found") ++ twice (str "--- KERNEL PANIC ---" ++ [10]) ++ more) /\
  exists k', panic_report panic_start (str "init") (str "No modules found") 0x100000 false demo_regs demo_panic = Ret k'.
Proof.
  destruct (panic_reports demo_panic panic_start (str "init") (str "No modules found") 0x100000 false demo_regs demo_panic_ok) as [H1 H2].
  - reflexivity.
  - exact demo0_ok.
  - exact panic_start_ok.
  - repeat constructor; done.
  - lia.
  - repeat constructor; cbn; lia.
  - split.
    + destruct H1 as (k1 & p' & code & more & E & _ & Hc & S). exists k1, p', more. split; [exact E|].
      assert (code = str "MISSING_MODULES") as -> by exact Hc. exact S.
    + apply H2; [split; [exact demo_panic_ok|done|done|cbn; lia]|cbn; lia|done].
Defined.
