(* ===== verification/SelfTest.v ===== *)
(** * kernel/backend_test.c: the tests the kernel runs when it boots

    Each test is a sequence of calls into the components; [expect] reports a
    condition on the console, and the first one that fails ends its test.  The
    arrays of the test functions lie in memory: [image] is static, the others
    are on the stack of the test that runs. *)

From Stdlib Require Import ZArith Lia.
From stdpp Require Import base numbers gmap strings fin_maps option list.
From S2P Require Import Prelude MemUtils Heap Allocator Vram MemCtx Vfs ProcTable Elf Proc Fat32 Framebuffer Bootmode Machine Serial Console DebugLog ErrorText Idt Kernel Launchd Bootlogo.

Local Open Scope Z_scope.

(** Where the arrays are: the volume's image, a file image, a buffer, the bytes
    of a payload. *)
Class TestFrame := { image : Z; img : Z; buf : Z; payload : Z }.

(** ** Steps: [None] is the early [return -1] *)

Section Steps.
Context {L : Layout} {Hw : Type} `{Hardware Hw}.
Implicit Types k : kernel Hw.

Definition step (A : Type) : Type := kernel Hw -> outcome (kernel Hw * option A).
#[export] Instance step_ret : MRet step := fun A a k => Ret (k, Some a).
#[export] Instance step_bind : MBind step := fun A B f c k =>
  '(k, a) ← c k; match a with Some a => f a k | None => Ret (k, None) end.

Definition observe {A} (f : kernel Hw -> A) : step A := fun k => Ret (k, Some (f k)).
Definition observe_m {A} (f : kernel Hw -> outcome A) : step A := fun k => a ← f k; Ret (k, Some a).
Definition modify (f : kernel Hw -> kernel Hw) : step unit := fun k => Ret (f k, Some tt).
Definition call {A} (f : kernel Hw -> outcome (kernel Hw * A)) : step A := fun k => '(k, a) ← f k; Ret (k, Some a).
Definition pure_call {A} (f : kernel Hw -> kernel Hw * A) : step A := call (fun k => Ret (f k)).

(** Calls into the file system, the volume, the boot options, memory. *)
Definition on_vfs {A} (f : vfs (kmem * world Hw) -> outcome (vfs (kmem * world Hw) * A)) : step A :=
  call (fun k => '(v, a) ← f (files k); Ret (put_files k v, a)).
Definition on_fs {A} (f : Fat32.fs -> outcome (Fat32.fs * A)) : step A :=
  call (fun k => '(v, a) ← f (vol k); Ret (put_vol k v, a)).
Definition on_ctx {A} (f : ctx_state (kmem * world Hw) -> outcome (ctx_state (kmem * world Hw) * A)) : step A :=
  call (fun k => '(c, a) ← f (ctx_view k); Ret (put_ctx k c, a)).
Definition on_boot (f : bootmode -> bootmode) : step unit :=
  modify (fun k => put_mach k (set_boot (mach k) (f (boot (mach k))))).
Definition put_bytes (a : Z) (bs : list Z) : step unit := modify (fun k => store k a bs).
Definition bytes (a : Z) (n : nat) : step (list Z) := observe (fun k => bytes_at (ProcTable.ram k) a n).
Definition boot_now : step bootmode := observe (fun k => boot (mach k)).
Definition ram_now : step (gmap Z Z) := observe ProcTable.ram.

(** ** Reporting *)

Definition test_log k (msg : string) : outcome (kernel Hw) := on_mach k (fun m => console_puts m (Some (str msg))).
Definition expect (condition : bool) (name : string) : step unit := fun k =>
  k ← test_log k (if condition then "[backend-test] PASS " else "[backend-test] FAIL ");
  k ← test_log k name;
  k ← test_log k "
";
  Ret (k, if condition then Some tt else None).
End Steps.

(** ** Images *)

Definition put16 (p v : Z) (m : gmap Z Z) : gmap Z Z := store_bytes m p (le_bytes 2 v).
Definition put32 (p v : Z) (m : gmap Z Z) : gmap Z Z := store_bytes m p (le_bytes 4 v).
Definition put64 (p v : Z) (m : gmap Z Z) : gmap Z Z := store_bytes m p (le_bytes 8 v).

Definition make_test_fat32 (img bytes : Z) (m : gmap Z Z) : gmap Z Z :=
  let m := memset m img 0 bytes in
  let m := store_bytes m img ([0xEB; 0x58; 0x90] ++ str "EXOFAT32") in
  let m := put16 (img + 11) 512 m in
  let m := wr m (img + 13) 1 in
  let m := put16 (img + 14) 1 m in
  let m := wr m (img + 16) 1 in
  let m := wr m (img + 21) 0xF8 in
  let m := put32 (img + 32) (u32 (bytes / 512)) m in
  let m := put32 (img + 36) 1 m in
  let m := put32 (img + 44) 2 m in
  let m := store_bytes m (img + 82) (str "FAT32") in
  let m := wr m (img + 510) 0x55 in
  let m := wr m (img + 511) 0xAA in
  let fat := img + 512 in
  let m := put32 (fat + 0) 0x0FFFFFF8 m in
  let m := put32 (fat + 4) 0x0FFFFFFF m in
  put32 (fat + 8) 0x0FFFFFFF m.

Definition make_test_elf (img bytes machine ph_type memsz : Z) (m : gmap Z Z) : gmap Z Z :=
  let m := memset m img 0 bytes in
  let ph := img + SIZEOF_ELF_HEADER in
  let m := put32 img ELF_MAGIC m in
  let m := wr m (img + 4) ELF_CLASS_64 in
  let m := wr m (img + 5) ELF_DATA_LSB in
  let m := wr m (img + 6) ELF_VERSION_CURRENT in
  let m := put16 (img + 16) ELF_TYPE_EXEC m in
  let m := put16 (img + 18) machine m in
  let m := put32 (img + 20) ELF_VERSION_CURRENT m in
  let m := put64 (img + 24) 0x400100 m in
  let m := put64 (img + 32) SIZEOF_ELF_HEADER m in
  let m := put16 (img + 52) SIZEOF_ELF_HEADER m in
  let m := put16 (img + 54) SIZEOF_ELF_PHDR m in
  let m := put16 (img + 56) 1 m in
  let m := put32 ph ph_type m in
  let m := put32 (ph + 4) (Z.lor ELF_PF_R ELF_PF_X) m in
  let m := put64 (ph + 8) 0x100 m in
  let m := put64 (ph + 16) 0x400100 m in
  let m := put64 (ph + 32) 4 m in
  let m := put64 (ph + 40) memsz m in
  let m := put64 (ph + 48) 0x1000 m in
  store_bytes m (img + 0x100) [0xC3; 0x90; 0x90; 0x90].

Section Tests.
Context {L : Layout} {Hw : Type} `{Hardware Hw} {T : TestFrame}.
Context (embedded_launchd_elf embedded_launchd_cfg embedded_shelld_elf : embedded).
Implicit Types k : kernel Hw.

Definition on_ram (f : gmap Z Z -> gmap Z Z) : step (Hw := Hw) unit := modify (fun k => ProcTable.set_ram k (f (ProcTable.ram k))).
Definition text (s : string) : list Z := str s ++ [0].

(** ** Boot options and images *)

Definition test_boot_modes_and_exoimg : step (Hw := Hw) unit :=
  on_boot (fun _ => bootmode_init);;
  on_boot (fun b => bootmode_parse_cmdline b (Some (str "white nologs bootprogress")));;
  b ← boot_now;
  expect ((bootmode_theme b =? BOOT_THEME_WHITE) && negb (bootmode_logs_visible b)) "boot_flags_white_nologs";;
  expect (bootmode_progress_visible b) "boot_progress_flag";;
  on_boot (fun b => bootmode_set_logs_visible b true);;
  on_boot (fun b => bootmode_set_progress_visible b false);;
  on_boot (fun b => bootmode_set_theme b BOOT_THEME_DARK);;
  b ← boot_now;
  expect ((bootmode_theme b =? BOOT_THEME_DARK) && bootmode_logs_visible b && negb (bootmode_progress_visible b)) "display_state_transition";;
  on_ram (fun m => memset m img 0 (SIZEOF_EXOIMG_HEADER + 16));;
  put_bytes img (str "EXOIMG1" ++ [0]);;
  on_ram (put32 (img + 8) 2);; on_ram (put32 (img + 12) 2);; on_ram (put32 (img + 16) EXOIMG_FORMAT_RGBA8888);; on_ram (put32 (img + 20) 16);;
  m ← ram_now;
  expect (match exoimg_validate m img (SIZEOF_EXOIMG_HEADER + 16) with
          | Some h => (Bootlogo.width h =? 2) && (Bootlogo.height h =? 2)
          | None => false
          end) "exoimg_valid_header";;
  on_ram (fun m => wr m img 66);;
  m ← ram_now;
  expect (bool_decide (exoimg_validate m img (SIZEOF_EXOIMG_HEADER + 16) = None)) "exoimg_reject_bad_magic";;
  on_ram (fun m => wr m img 69);; on_ram (put32 (img + 20) 12);;
  m ← ram_now;
  expect (bool_decide (exoimg_validate m img (SIZEOF_EXOIMG_HEADER + 16) = None)) "exoimg_reject_bad_size".

(** ** The volume *)

Definition test_fat32_fs : step (Hw := Hw) unit :=
  let bytes_ := 16 * 512 in
  put_bytes payload (text "fat32-ok");;
  on_ram (make_test_fat32 image bytes_);;
  on_fs (fun f => Ret (fs_mount f image bytes_, tt));;
  fat ← observe (fun k => fs_is_fat32 (vol k));
  expect fat "fat32_mount";;
  fd ← on_fs (fun f => fs_open f (Some (str "/BOOT.TXT")) (Z.lor (Z.lor 0x10 0x03) 0x20));
  expect (0 <=? fd) "fat32_open_create";;
  r ← on_fs (fun f => fs_write_fd f fd payload 9);
  expect (r =? 9) "fat32_write";;
  r ← on_fs (fun f => Ret (fs_lseek_fd f fd 0 0));
  expect (r =? 0) "fat32_lseek";;
  on_ram (fun m => memset m buf 0 24);;
  r ← on_fs (fun f => fs_read_fd f fd buf 9);
  expect (r =? 9) "fat32_read";;
  m ← ram_now;
  expect (memcmp m buf payload 9 =? 0) "fat32_read_data";;
  n ← observe (fun k => fs_file_size (vol k) fd);
  expect (n =? 9) "fat32_file_size";;
  r ← on_fs (fun f => Ret (fs_close f fd));
  expect (r =? 0) "fat32_close".

(** ** The file system *)

Definition is_file (st : option vfs_stat_t) (size : Z -> bool) : bool :=
  match st with Some st => (st_type st =? VFS_TYPE_FILE) && size (st_size st) | None => false end.
Definition any_size (n : Z) : bool := true.

Definition test_vfs_file : step (Hw := Hw) unit :=
  put_bytes payload (text "backend-ok");;
  r ← call (fun k => let '(v, r) := vfs_init (Vfs.mem (files k)) in Ret (put_files k v, r));
  expect (r =? 0) "vfs_init";;
  r ← on_vfs (fun v => vfs_mkdir v (Some (str "/sys")));
  expect (r =? 0) "vfs_mkdir";;
  fd ← on_vfs (fun v => vfs_open v (Some (str "/sys/backend.txt")) CREATE_FLAGS);
  expect (0 <=? fd) "vfs_open_create";;
  r ← on_vfs (fun v => vfs_write v fd payload 11);
  expect (r =? 11) "vfs_write";;
  r ← on_vfs (fun v => vfs_lseek v fd 0 VFS_SEEK_SET);
  expect (r =? 0) "vfs_lseek";;
  on_ram (fun m => memset m buf 0 32);;
  r ← on_vfs (fun v => vfs_read v fd buf 11);
  expect (r =? 11) "vfs_read";;
  m ← ram_now;
  expect (memcmp m buf payload 11 =? 0) "vfs_read_data";;
  st ← observe (fun k => vfs_fstat (files k) fd);
  expect (is_file st (Z.eqb 11)) "vfs_fstat";;
  r ← on_vfs (fun v => Ret (vfs_close v fd));
  expect (r =? 0) "vfs_close".
Definition test_vfs_names : step (Hw := Hw) unit :=
  r ← on_vfs (fun v => vfs_rename v (Some (str "/sys/backend.txt")) (Some (str "/sys/renamed.txt")));
  expect (r =? 0) "vfs_rename";;
  st ← observe_m (fun k => vfs_stat (files k) (Some (str "/sys/renamed.txt")));
  expect (is_file st any_size) "vfs_stat";;
  dirfd ← on_vfs (fun v => vfs_open v (Some (str "/sys")) VFS_O_RDONLY);
  expect (0 <=? dirfd) "vfs_open_dir";;
  '(dent_count, ents) ← on_vfs (fun v => '(v, n, es) ← vfs_getdents v dirfd 4; Ret (v, (n, es)));
  expect ((dent_count =? 1) && bool_decide ((d_name <$> List.hd_error ents) = Some (str "renamed.txt"))) "vfs_getdents";;
  on_vfs (fun v => Ret (vfs_close v dirfd));;
  r ← on_vfs (fun v => vfs_chdir v (Some (str "/sys")));
  expect (r =? 0) "vfs_chdir";;
  cwd ← observe_m (fun k => vfs_getcwd (files k) 32);
  expect (bool_decide (cwd = Some (str "/sys"))) "vfs_getcwd";;
  r ← on_vfs (fun v => vfs_chdir v (Some (str "/")));
  expect (r =? 0) "vfs_chdir_root";;
  r ← on_vfs (fun v => vfs_unlink v (Some (str "/sys/renamed.txt")));
  expect (r =? 0) "vfs_unlink".
Definition test_vfs : step (Hw := Hw) unit := test_vfs_file;; test_vfs_names.

(** ** The heap and the memory contexts *)

Definition heap_info : step (Hw := Hw) mem_info_t := observe_m (fun k => mem_get_info (heap_of k)).
Definition test_heap_growth : step (Hw := Hw) unit :=
  before ← heap_info;
  let n := u64 (mi_heap_committed before + 4096) in
  big ← call (fun k => kalloc k n);
  after_grow ← heap_info;
  expect (negb (big =? 0) && (mi_grow_count before <? mi_grow_count after_grow) &&
          (mi_heap_committed before <? mi_heap_committed after_grow)) "heap_grows_past_committed";;
  call (fun k => k ← kfree k big n; Ret (k, tt));;
  too_big ← call (fun k => kalloc k (u64 (mi_heap_max after_grow + 4096)));
  after_fail ← heap_info;
  expect ((too_big =? 0) && (mi_alloc_fail_count after_grow <? mi_alloc_fail_count after_fail)) "heap_max_returns_null".

Definition ctx_is (st : option memctx_stats_t) (f : memctx_stats_t -> bool) : bool := match st with Some st => f st | None => false end.
Definition stats_of (ctx : Z) : step (Hw := Hw) (option memctx_stats_t) := observe (fun k => memctx_stats (ctx_view k) ctx).
Definition test_memctx : step (Hw := Hw) unit :=
  ctx ← on_ctx (fun c => Ret (memctx_create c 100 256));
  expect (0 <? ctx) "memctx_create";;
  a ← on_ctx (fun c => memctx_alloc c ctx 64);
  b ← on_ctx (fun c => memctx_alloc c ctx 128);
  expect (negb (a =? 0) && negb (b =? 0)) "memctx_alloc";;
  st ← stats_of ctx;
  expect (ctx_is st (fun st => (MemCtx.used st =? 192) && (peak st =? 192) && (allocations st =? 2))) "memctx_stats";;
  c ← on_ctx (fun c => memctx_alloc c ctx 128);
  expect (c =? 0) "memctx_quota";;
  r ← on_ctx (fun c => memctx_free c ctx a);
  expect (r =? 0) "memctx_free";;
  st ← stats_of ctx;
  expect (ctx_is st (fun st => (MemCtx.used st =? 128) && (allocations st =? 1))) "memctx_stats_after_free";;
  r ← on_ctx (fun c => memctx_destroy c ctx);
  expect (r =? 0) "memctx_destroy".

(** ** The embedded files *)

Definition installed (path : list Z) (name : string) : step (Hw := Hw) unit :=
  st ← observe_m (fun k => vfs_stat (files k) (Some path));
  expect (is_file st (Z.ltb 0)) name.
Definition test_embedded_initramfs_install : step (Hw := Hw) unit :=
  r ← call (fun k => let '(v, r) := vfs_init (Vfs.mem (files k)) in Ret (put_files k v, r));
  expect (r =? 0) "initramfs_vfs_ready";;
  put_bytes payload (text "x");;
  r ← call (fun k => install_initramfs_file k None payload 2);
  expect (negb (r =? 0)) "initramfs_reject_bad_write";;
  r ← call (install_embedded_initramfs embedded_launchd_elf embedded_launchd_cfg embedded_shelld_elf);
  expect (r =? 0) "initramfs_install_all_files";;
  installed (str "/launchd.elf") "initramfs_launchd_exists";;
  installed (str "/launchd.cfg") "initramfs_launchd_cfg_exists";;
  installed (str "/shelld.elf") "initramfs_shelld_exists";;
  fd ← on_vfs (fun v => vfs_open v (Some (str "/launchd.elf")) VFS_O_RDONLY);
  on_ram (fun m => memset m buf 0 4);;
  got ← (if 0 <=? fd then on_vfs (fun v => vfs_read v fd buf 4) else mret (-1));
  (if 0 <=? fd then on_vfs (fun v => Ret (vfs_close v fd)) else mret 0);;
  magic ← bytes buf 4;
  expect ((got =? 4) && bool_decide (magic = 0x7f :: str "ELF")) "initramfs_launchd_keeps_elf_magic".

(** ** Processes *)

Definition info_is (i : option proc_info_t) (f : proc_info_t -> bool) : bool := match i with Some i => f i | None => false end.
Definition info_of (p : Z) : step (Hw := Hw) (option proc_info_t) := observe (fun k => proc_info k p).
Definition create (name : string) (parent : Z) : step (Hw := Hw) Z := pure_call (fun k => proc_create k (Some (str name)) parent).
Definition forget_processes : step (Hw := Hw) unit := modify proc_init.

Definition test_elf_loader : step (Hw := Hw) unit :=
  forget_processes;;
  pid ← create "elf-test" 0;
  expect (pid =? 1) "launchd_pid_is_1";;
  on_ram (make_test_elf img 512 ELF_MACHINE_X86_64 ELF_PT_LOAD 16);;
  m ← ram_now;
  expect (elf_validate m img 512 =? 0) "elf_load_valid_launchd";;
  '(loaded, r) ← call (fun k => '(k, loaded, r) ← elf_load_process_image k pid img 512 (Some zero_image); Ret (k, (loaded, r)));
  expect (r =? 0) "launchd_entry_comes_from_elf";;
  m ← ram_now;
  let im := default zero_image loaded in
  expect ((rd m (load_base im + 4) =? 0) && (rd m (load_base im + 15) =? 0)) "elf_zeroes_bss";;
  r ← call (fun k => proc_attach_image k pid (Some (str "/launchd.elf")) loaded);
  i ← info_of pid;
  expect ((r =? 0) && info_is i (fun i => entry_point i =? entry im)) "launchd_is_not_kernel_fake_path";;
  on_ram (fun m => wr m img 0);;
  m ← ram_now;
  expect (negb (elf_validate m img 512 =? 0)) "elf_reject_bad_magic";;
  on_ram (make_test_elf img 512 3 ELF_PT_LOAD 16);;
  m ← ram_now;
  expect (negb (elf_validate m img 512 =? 0)) "elf_reject_bad_machine";;
  on_ram (make_test_elf img 512 ELF_MACHINE_X86_64 ELF_PT_LOAD 2);;
  m ← ram_now;
  expect (negb (elf_validate m img 512 =? 0)) "elf_reject_bad_program_header".

(** [c && f() ...]: the call is made only when [c] holds. *)
Definition only_if (c : bool) (f : step (Hw := Hw) bool) : step (Hw := Hw) bool := if c then f else mret false.

Definition test_process_model_cleanup : step (Hw := Hw) unit :=
  forget_processes;;
  launchd ← create "launchd" 0;
  shelld ← create "shelld" launchd;
  helper ← create "helper" launchd;
  expect ((launchd =? 1) && (shelld =? 2) && (helper =? 3)) "launchd_spawns_all_configured_daemons";;
  i ← info_of shelld;
  expect (info_is i (fun i => parent_pid i =? launchd)) "shelld_parent_is_launchd";;
  r ← pure_call (fun k => proc_set_current k shelld);
  cur ← observe proc_current_pid; valid ← observe proc_current_valid;
  expect ((r =? 0) && (cur =? 2) && valid) "shelld_runs_as_pid2_current";;
  i ← info_of cur;
  expect (info_is i (fun i => parent_pid i =? 1)) "shelld_current_parent_is_pid1";;
  r ← call (fun k => proc_kill k 1 (-1));
  i ← info_of 1;
  expect ((r =? PROC_ERR_PROTECTED) && info_is i (fun i => negb (state i =? PROC_STATE_EXITED))) "kill_pid1_protected";;
  r ← call (fun k => proc_kill k helper (-1));
  i ← info_of helper;
  expect ((r =? 0) && info_is i (fun i => state i =? PROC_STATE_EXITED)) "kill_normal_child";;
  r ← call (fun k => proc_kill k helper (-1));
  expect (r =? PROC_ERR_INVALID_STATE) "kill_rejects_already_exited";;
  grandchild ← create "orphan-me" shelld;
  killed ← only_if (grandchild =? 4) (r ← call (fun k => proc_kill k shelld (-1)); mret (r =? 0));
  cur ← observe proc_current_pid; valid ← observe proc_current_valid;
  expect (killed && (cur =? 0) && negb valid) "kill_current_shelld_clears_context";;
  i ← info_of grandchild;
  expect (info_is i (fun i => parent_pid i =? 1)) "orphan_reparent_to_pid1";;
  put_bytes buf (le_bytes 4 (-1));;
  r ← call (fun k => proc_wait k launchd shelld buf);
  status ← observe (fun k => s32 (rd_le 4 (ProcTable.ram k) buf));
  expect ((r =? shelld) && (status =? -1)) "pid1_reaps_zombie".

Definition test_proc : step (Hw := Hw) unit :=
  parent ← create "tester-parent" 0;
  expect (0 <? parent) "proc_create_parent";;
  r ← pure_call (fun k => proc_set_current k parent);
  cur ← observe proc_current_pid;
  expect ((r =? 0) && (cur =? parent)) "proc_set_current";;
  child ← create "tester-child" parent;
  expect (0 <? child) "proc_create_child";;
  block ← call (fun k => proc_alloc k child 96);
  freed ← only_if (negb (block =? 0)) (r ← call (fun k => proc_free k child block); mret (r =? 0));
  expect freed "proc_memory";;
  fd ← call (fun k => proc_open k child (Some (str "/procfile.txt")) CREATE_FLAGS);
  expect (0 <=? fd) "proc_open";;
  put_bytes payload (text "proc-ok");;
  r ← call (fun k => proc_write k child fd payload 8);
  expect (r =? 8) "proc_write";;
  call (fun k => proc_lseek k child fd 0 VFS_SEEK_SET);;
  on_ram (fun m => memset m buf 0 16);;
  r ← call (fun k => proc_read k child fd buf 8);
  m ← ram_now;
  expect ((r =? 8) && (memcmp m buf payload 8 =? 0)) "proc_read";;
  r ← pure_call (fun k => proc_close k child fd);
  expect (r =? 0) "proc_close";;
  i ← info_of child;
  expect (info_is i (fun i => parent_pid i =? parent)) "proc_info";;
  r ← call (fun k => proc_exit k child 7);
  expect (r =? 0) "proc_exit";;
  put_bytes buf (le_bytes 4 0);;
  r ← call (fun k => proc_wait k parent child buf);
  status ← observe (fun k => s32 (rd_le 4 (ProcTable.ram k) buf));
  expect ((r =? child) && (status =? 7)) "proc_wait".

(** ** All of them *)

(** [failures += test() == 0 ? 0 : 1]. *)
Definition run_test (t : step (Hw := Hw) unit) (st : kernel Hw * Z) : outcome (kernel Hw * Z) :=
  '(k, r) ← t st.1;
  Ret (k, if r is Some _ then st.2 else st.2 + 1).
Definition between (f : kernel Hw -> kernel Hw) (st : kernel Hw * Z) : outcome (kernel Hw * Z) := Ret (f st.1, st.2).
Definition restore_boot (saved : bootmode) k : kernel Hw :=
  put_mach k (set_boot (mach k) (bootmode_set_theme (bootmode_set_progress_visible
    (bootmode_set_logs_visible (boot (mach k)) (bootmode_logs_visible saved)) (bootmode_progress_visible saved)) (bootmode_theme saved))).
Definition backend_selftest_run k : outcome (kernel Hw * Z) :=
  k ← test_log k "[backend-test] starting backend driver tests
";
  let saved := boot (mach k) in
  st ← run_test test_boot_modes_and_exoimg (k, 0);
  st ← between (restore_boot saved) st;
  st ← run_test test_fat32_fs st;
  st ← run_test test_vfs st;
  st ← run_test test_embedded_initramfs_install st;
  st ← between proc_init st;
  st ← run_test test_elf_loader st;
  st ← run_test test_process_model_cleanup st;
  st ← between proc_init st;
  st ← run_test test_memctx st;
  st ← run_test test_heap_growth st;
  '(k, failures) ← run_test test_proc st;
  if failures =? 0 then
    k ← test_log k "[backend-test] ALL BACKEND TESTS PASSED
";
    Ret (k, 0)
  else
    k ← test_log k "[backend-test] BACKEND TESTS FAILED
";
    Ret (k, -1).
End Tests.
