(* ===== verification/SelfTestTheorems.v ===== *)
(** * The self test passes

    The kernel's own test of its components, run on the model: a machine whose
    display is held, as it is behind the boot picture, with the executable of
    ElfLoad as the embedded files. *)

From Stdlib Require Import ZArith Lia.
From stdpp Require Import base numbers gmap strings fin_maps option list.
From S2P Require Import Prelude MemUtils Heap HeapTheorems Allocator Vram MemCtx Vfs ProcTable Elf ElfLoad Proc Fat32 Framebuffer Bootmode Machine Serial Console ConsoleProofs DebugLog ErrorText Idt Kernel SyscallTheorems Launchd LaunchdTheorems Bootlogo SelfTest.

Local Open Scope Z_scope.
#[local] Existing Instance demo_layout.

#[export] Instance demo_frame : TestFrame := {| image := 0x10000; img := 0x9000; buf := 0x9400; payload := 0x9500 |}.
Definition demo_file : embedded := Embedded 0x1000 124.
(** The machine before the tests, with some boot options. *)
Definition demo_held (b : bootmode) : kernel demo_hw :=
  let m := mach demo_start in put_mach demo_start (set_boot (set_hold m true) b).

Definition same_bool (x y : bool) : bool := negb (xorb x y).
Definition same_boot (a b : bootmode) : bool :=
  same_bool (logs_visible a) (logs_visible b) && same_bool (progress_visible a) (progress_visible b) && (theme a =? theme b).
Lemma same_boot_spec a b : same_boot a b = true -> a = b.
Proof. destruct a as [[] [] t], b as [[] [] u]; unfold same_boot; cbn; try done; by intros ->%Z.eqb_eq. Qed.

(** A file that is no executable. *)
Definition demo_text : embedded := Embedded 0x9000 4.

(** The tests the kernel runs at boot all pass on the definitions of this
    development (the volume, the file system, the embedded files, the loader,
    processes, memory contexts, the heap): the run returns 0, with the boot
    options it found; a program that is no executable makes it return -1. *)
Theorem selftest_passes (b : bootmode) : boot_ok b ->
  (exists k', backend_selftest_run demo_file demo_file demo_file (demo_held b) = Ret (k', 0) /\ boot (mach k') = b) /\
  (exists k', backend_selftest_run demo_text demo_file demo_file (demo_held b) = Ret (k', -1) /\ boot (mach k') = b).
Proof.
  intros Hb.
  assert (forall e r, match backend_selftest_run e demo_file demo_file (demo_held b) with
                      | Ret kr => (kr.2 =? r) && same_boot (boot (mach kr.1)) b | _ => false end = true ->
    exists k', backend_selftest_run e demo_file demo_file (demo_held b) = Ret (k', r) /\ boot (mach k') = b) as Hrun.
  { intros e r Ht. apply (returns_with (fun kr => (kr.2 =? r) && same_boot (boot (mach kr.1)) b)) in Ht as ([k' r'] & E & Ht).
    cbn [fst snd] in Ht. apply andb_true_iff in Ht as [->%Z.eqb_eq Ht%same_boot_spec]. by exists k'. }
  destruct b as [[] [] t]; destruct Hb as [E|E]; cbn [theme] in E; subst t; split; apply Hrun; by vm_compute.
Qed.
Lemma selftest_passes_witness : boot_ok bootmode_init /\
  exists k', backend_selftest_run demo_file demo_file demo_file (demo_held bootmode_init) = Ret (k', 0).
Proof.
  split; [by left|]. destruct (selftest_passes bootmode_init (or_introl eq_refl)) as [(k' & E & _) _]. by exists k'.
Defined.
