(* ===== verification/Runtime.v ===== *)
(** * kernel/micropython.c: the interpreter's life, and its way into a panic

    The embedded interpreter is a parameter, the class [Interpreter]: what
    [mp_runtime_init] sets up in it, a run of a program, and what the exception
    that ended the run looks like.  An exception nobody catches stops the
    machine. *)

From Stdlib Require Import ZArith Lia.
From stdpp Require Import base numbers gmap strings fin_maps option list.
From S2P Require Import Prelude MemUtils Heap Allocator Vfs ProcTable Proc Digits Machine Serial Console ErrorText Idt Kernel Panic Modules MpObj.

Local Open Scope Z_scope.

Definition EXOCORE_MICROPY_HEAP_SIZE : Z := 192 * 1024.

(** What [mp_runtime_init] stores in the modules it makes. *)
Inductive mp_binding := EnvDict | CExeco | CGetmod.
(** An exception: the text [mp_obj_print_exception] prints, the name of its
    type, its value when that is a string, the last entry of its traceback (file,
    line, function) when there is one. *)
Record mp_exception := MpException {
  exc_text : list Z; exc_type : list Z; exc_value : option (list Z); exc_trace : option (list Z * Z * list Z)
}.
(** [I] is the interpreter's state. *)
Class Interpreter (Hw I : Type) := {
  mp_stack_ctrl_init : I -> I;
  mp_embed_init : Z -> I -> I;
  mp_stack_set_limit : Z -> I -> I;
  mp_new_module : string -> list (string * mp_binding) -> I -> I;
  mp_embed_exec_str : list Z -> I -> kernel Hw -> outcome (I * kernel Hw);
  mp_embed_deinit : I -> I;
  (** lexer, parser, compiler and the call of the module's function; source name
      and program *)
  mp_execute : list Z -> list Z -> I -> kernel Hw -> outcome (I * kernel Hw * option mp_exception);
  mp_embed_exec_mpy : list Z -> I -> kernel Hw -> outcome (I * kernel Hw)
}.

(** The program every interpreter starts with. *)
Definition startup_text : list Z := str "import sys, env, c, builtins
if not hasattr(env, 'env'):
    env.env = {}
def _ensure_env_dict():
    try:
        data = env.env
    except AttributeError:
        data = {}
        try:
            env.env = data
        except AttributeError:
            pass
    if not isinstance(data, dict):
        try:
            data = dict(data)
        except Exception:
            data = {}
        try:
            env.env = data
        except AttributeError:
            pass
    return data
_ensure_env_dict()
_sys_modules = getattr(sys, 'modules', None)
if _sys_modules is None:
    _sys_modules = {}
    try:
        sys.modules = _sys_modules
    except AttributeError:
        pass
    else:
        _sys_modules = sys.modules
env._sys_modules = _sys_modules
_mpymod_cache = {}
def _mpymod_exec(name, src, args=None):
    env_dict = _ensure_env_dict()
    ns = {'env': env_dict, 'mpyrun': mpyrun, 'c': c, '__name__': name}
    if args:
        ns['__args__'] = args
    exec(src, ns)
    mod = type('obj', (), ns)
    _sys_modules[name] = mod
    return mod
def _mpymod_load(name, args=None):
    src = _mpymod_cache.get(name)
    if src is None:
        src = c.getmod(name)
        if src is None:
            return None
        _mpymod_cache[name] = src
    return _mpymod_exec(name, src, args)
def mpyrun(name, *args):
    mod = _mpymod_load(name, args)
    if mod is None:
        print('module not found', name)
    return mod
_default_import = getattr(builtins, '__import__', None)
if _default_import is not None:
    try:
        def __exo_import__(name, globals=None, locals=None, fromlist=(), level=0):
            if level:
                return _default_import(name, globals, locals, fromlist, level)
            try:
                return _default_import(name, globals, locals, fromlist, level)
            except ImportError:
                mod = _mpymod_load(name)
                if mod is None:
                    raise
                if fromlist:
                    return mod
                return mod
        builtins.__import__ = __exo_import__
    except AttributeError:
        pass
env.mpyrun = mpyrun
env.c = c
env._mpymod_cache = _mpymod_cache
env._mpymod_data = _mpymod_cache
env._mpymod_exec = _mpymod_exec
".

Section Runtime.
Context {L : Layout} {Hw I : Type} `{Hardware Hw} `{Interpreter Hw I}.
Implicit Types k : kernel Hw.

(** [mp_active], the interpreter, the static variables of panic.c. *)
Record runtime := Rt { mp_active : bool; interp : I; panics : panic_state }.
Implicit Types r : runtime.
Definition set_interp r (i : I) : runtime := Rt (mp_active r) i (panics r).
Definition set_active r (b : bool) : runtime := Rt b (interp r) (panics r).

(** ** The module c *)

(** The string of an object, for a function that expects one. *)
Definition mp_obj_str_get_str (o : mp_obj) : native (kernel Hw) (list Z) :=
  '(a, n) ← mp_obj_str_get_data o;
  get (fun k => cstring k a).
Definition mp_c_execo (entry : kernel Hw -> outcome (kernel Hw)) (g_mbi : Z) (path_obj : mp_obj) : native (kernel Hw) mp_value :=
  path ← mp_obj_str_get_str path_obj;
  call_with (fun k => modexec_run entry k g_mbi path);;
  mret RNone.
Fixpoint find_source (table : list mpymod_entry_t) (nm : list Z) : option (list Z) :=
  match table with
  | [] => None
  | e :: table => if bool_decide (name e = nm) then Some (source e) else find_source table nm
  end.
Definition mp_c_getmod (table : list mpymod_entry_t) (name_obj : mp_obj) : native (kernel Hw) mp_value :=
  nm ← mp_obj_str_get_str name_obj;
  mret (match find_source table nm with Some s => RStr s | None => RNone end).

(** ** Start and end *)

Definition mp_runtime_init r k : outcome (runtime * kernel Hw) :=
  if mp_active r then Ret (r, k) else
  let i := mp_stack_ctrl_init (interp r) in
  let i := mp_embed_init EXOCORE_MICROPY_HEAP_SIZE i in
  let i := mp_stack_set_limit (16 * 1024) i in
  let i := mp_new_module "env" [("env"%string, EnvDict)] i in
  let i := mp_new_module "c" [("execo"%string, CExeco); ("getmod"%string, CGetmod)] i in
  '(i, k) ← mp_embed_exec_str startup_text i k;
  Ret (set_active (set_interp r i) true, k).
Definition mp_runtime_deinit r : runtime :=
  if mp_active r then set_active (set_interp r (mp_embed_deinit (interp r))) false else r.

(** ** Exceptions *)

Fixpoint mp_exo_print_strn (s : list Z) (m : machine Hw) : outcome (machine Hw) :=
  match s with
  | [] => Ret m
  | c :: s => m ← console_putc m c; m ← serial_putc m c; mp_exo_print_strn s m
  end.
(** What the panic report shows of the exception. *)
Definition exception_details (e : mp_exception) (fallback_name : list Z) (p : panic_state) : outcome panic_state :=
  let '(filename, line, function_name) := default (fallback_name, 0, str "<unknown>") (exc_trace e) in
  panic_set_micropython_details p (Some (exc_type e)) (Some (default (str "<no message>") (exc_value e))) (Some filename) line
    (Some function_name).
(** Up to the call of [panic]. *)
Definition mp_report_exception (e : mp_exception) (fallback_name : list Z) r k : outcome (runtime * kernel Hw) :=
  k ← on_mach k (mp_exo_print_strn (exc_text e));
  p ← exception_details e fallback_name (panics r);
  Ret (Rt (mp_active r) (interp r) p, k).

(** ** Running programs *)

(** The result, or the message of the panic the run ends in. *)
Definition mp_runtime_exec r k (code : Z) (size : Z) (filename : option (list Z)) : outcome (runtime * kernel Hw * option string) :=
  '(r, k) ← mp_runtime_init r k;
  let source_name := default (str "<stdin>") filename in
  '(i, k, e) ← mp_execute source_name (bytes_at (ProcTable.ram k) code (Z.to_nat size)) (interp r) k;
  let r := set_interp r i in
  match e with
  | None => Ret (r, k, None)
  | Some e => '(r, k) ← mp_report_exception e source_name r k; Ret (r, k, Some "MicroPython exception"%string)
  end.
Definition mp_runtime_exec_mpy r k (buf size : Z) : outcome (runtime * kernel Hw) :=
  '(r, k) ← mp_runtime_init r k;
  '(i, k) ← mp_embed_exec_mpy (bytes_at (ProcTable.ram k) buf (Z.to_nat size)) (interp r) k;
  Ret (set_interp r i, k).
Definition run_micropython r k (code size : Z) (filename : option (list Z)) : outcome (runtime * kernel Hw * option string) :=
  '(r, k) ← mp_runtime_init r k;
  '(r, k, stop) ← mp_runtime_exec r k code size filename;
  Ret (if stop is Some _ then r else mp_runtime_deinit r, k, stop).
Definition run_micropython_mpy r k (buf size : Z) : outcome (runtime * kernel Hw) :=
  '(r, k) ← mp_runtime_init r k;
  '(r, k) ← mp_runtime_exec_mpy r k buf size;
  Ret (mp_runtime_deinit r, k).
End Runtime.
Arguments runtime I : clear implicits.
