(* ===== verification/RuntimeTheorems.v ===== *)
(** * Theorems on the interpreter's life *)

From Stdlib Require Import ZArith Lia.
From stdpp Require Import base numbers gmap strings fin_maps option list.
From S2P Require Import Prelude MemUtils Heap HeapTheorems Allocator Vfs ProcTable Proc Digits Machine Serial Console ConsoleProofs ErrorText Idt Kernel Syscall SyscallTheorems LaunchdTheorems Keyboard Panic Terminal PanicTheorems Modules MpObj Runtime.

Local Open Scope Z_scope.

(** ** Modules of the table *)

(** The first entry of that name. *)
Lemma find_source_spec table nm :
  match find_source table nm with
  | Some s => exists l e r, table = l ++ e :: r /\ name e = nm /\ source e = s /\ Forall (fun e => name e <> nm) l
  | None => Forall (fun e => name e <> nm) table
  end.
Proof.
  induction table as [|e table IH]; cbn [find_source]; [constructor|]. case_bool_decide as Hn.
  - by exists [], e, table.
  - destruct (find_source table nm) as [s|]; [|by constructor]. destruct IH as (l & e' & r & -> & ? & ? & Hl).
    exists (e :: l), e', r. split_and!; try done. by constructor.
Qed.

Section Runtime.
Context {L : Layout} {Hw I : Type} `{Uart Hw} `{!Interpreter Hw I}.
Implicit Types (r : runtime I) (k : kernel Hw).

(** ** The interpreter is set up once *)

Lemma init_twice r k r1 k1 : mp_runtime_init r k = Ret (r1, k1) -> mp_runtime_init r1 k1 = Ret (r1, k1).
Proof.
  unfold mp_runtime_init. destruct (mp_active r) eqn:Ha; [intros [= <- <-]; by rewrite Ha|].
  intros E. inv_bind E. destruct r0 as [i k2]. by injection E as <- <-.
Qed.
(** A program run by [run_micropython] while another is running ends the
    interpreter of both. *)
Lemma nested_run_deinit r k code n nm r' k' : mp_active r = true -> run_micropython r k code n nm = Ret (r', k', None) -> mp_active r' = false.
Proof.
  intros Ha. unfold run_micropython. intros E. inv_bind E. destruct r0 as [r1 k1]. inv_bind E. destruct r0 as [[r2 k2] [msg|]]; [by injection E|].
  injection E as <- _. unfold mp_runtime_deinit. by case_test.
Qed.

(** ** Exceptions *)

(** Every character twice, as it is printed. *)
Definition echoed (s : list Z) : list Z := s ≫= (fun c => [u8 c; u8 c]).
Lemma print_sends s : sends (mp_exo_print_strn s) (echoed s).
Proof.
  induction s as [|c s IH]; cbn [mp_exo_print_strn]; [apply sends_nothing|].
  change (echoed (c :: s)) with ([u8 c] ++ ([u8 c] ++ echoed s)). apply sends_bind; [apply putc_sends|]. apply sends_bind; [|done].
  pose proof (serial_write_sends [c]) as Hs. intros m Hok. destruct (Hs m Hok) as (m' & E & Hrest). exists m'. split; [|done].
  rewrite <- E. cbn. by destruct (serial_putc m c).
Qed.

(** What a panic report will show of [e]. *)
Definition shown (e : mp_exception) (nm : list Z) (p : panic_state) : Prop :=
  let '(filename, line, function_name) := default (nm, 0, str "<unknown>") (exc_trace e) in
  exists t m f g, mp_info p = MpInfo true t m f g line /\
    holds t (take 63 (exc_type e)) 64 /\ holds m (take 191 (default (str "<no message>") (exc_value e))) 192 /\
    holds f (take 127 filename) 128 /\ holds g (take 95 function_name) 96.
Definition exc_ok (e : mp_exception) (nm : list Z) : Prop :=
  let '(filename, _, function_name) := default (nm, 0, str "<unknown>") (exc_trace e) in
  no_nul (exc_type e) /\ no_nul (default (str "<no message>") (exc_value e)) /\ no_nul filename /\ no_nul function_name.

Lemma report_told r k e nm : con_ok (mach k) -> panic_ok (panics r) -> exc_ok e nm ->
  exists r' k', mp_report_exception e nm r k = Ret (r', k') /\
    uart_sent (hw (mach k')) = uart_sent (hw (mach k)) ++ echoed (exc_text e) /\
    panic_ok (panics r') /\ shown e nm (panics r') /\
    exists code, holds (panic_error_code (panics r')) (str "MPYFAULT@" ++ code) 96.
Proof.
  intros Hc Hp He. unfold mp_report_exception, on_mach. destruct (print_sends (exc_text e) (mach k) Hc) as (m & -> & _ & _ & Hs).
  rewrite !bind_Ret. unfold exception_details, exc_ok, shown in *.
  destruct (default _ _) as [[filename line] function_name]. destruct He as (H1' & H2' & H3' & H4').
  destruct (panic_details_ok (panics r) (Some (exc_type e)) (Some (default (str "<no message>") (exc_value e))) (Some filename) line
    (Some function_name) Hp) as (p' & -> & Hok' & Hcode & Hinfo); [naive_solver|].
  rewrite !bind_Ret. eexists _, _. split; [done|]. rewrite mach_put. split_and!; [done|done|done|by eexists].
Qed.
Lemma init_active r k r1 k1 : mp_runtime_init r k = Ret (r1, k1) -> mp_active r1 = true.
Proof.
  unfold mp_runtime_init. destruct (mp_active r) eqn:Ha; [by intros [= <- _]|]. intros E. inv_bind E. destruct r0. by injection E as <- _.
Qed.

(** C21: An exception no program catches stops the machine with its story kept:
    its text was printed on the console and the serial port, the run ends in the
    panic for exceptions, and the panic's arrays hold its type, its message, the
    file, line and function of its last traceback entry, each cut to its array,
    with the code of interpreter faults. *)
Theorem uncaught_exception_told r k code n nm i k1 e :
  mp_active r = true -> mp_execute nm (bytes_at (ProcTable.ram k) code (Z.to_nat n)) (interp r) k = Ret (i, k1, Some e) ->
  con_ok (mach k1) -> panic_ok (panics r) -> exc_ok e nm ->
  exists r' k', mp_runtime_exec r k code n (Some nm) = Ret (r', k', Some "MicroPython exception"%string) /\
    uart_sent (hw (mach k')) = uart_sent (hw (mach k1)) ++ echoed (exc_text e) /\
    panic_ok (panics r') /\ shown e nm (panics r') /\
    exists code, holds (panic_error_code (panics r')) (str "MPYFAULT@" ++ code) 96.
Proof.
  intros Ha Hx Hc Hp He. unfold mp_runtime_exec, mp_runtime_init. rewrite Ha, bind_Ret. cbn [from_option id]. rewrite Hx, bind_Ret.
  destruct (report_told (set_interp r i) k1 e nm Hc Hp He) as (r' & k' & -> & Hrest). by exists r', k'.
Qed.
End Runtime.

(** ** A program that raises *)

#[local] Existing Instance demo_layout.
Definition demo_error : mp_exception := MpException (str "boom") (str "ValueError") None (Some (str "init.py", 3, str "main")).
#[local] Instance demo_raiser : Interpreter demo_hw unit := {|
  mp_stack_ctrl_init i := i; mp_embed_init _ i := i; mp_stack_set_limit _ i := i; mp_new_module _ _ i := i;
  mp_embed_exec_str _ i k := Ret (i, k); mp_embed_deinit i := i;
  mp_execute _ _ i k := Ret (i, k, Some demo_error); mp_embed_exec_mpy _ i k := Ret (i, k) |}.
Lemma uncaught_exception_told_witness : exists r' k',
  mp_runtime_exec (Rt true tt panic_start) demo_start 0x9000 3 (Some (str "init.py")) = Ret (r', k', Some "MicroPython exception"%string) /\
  holds (file (mp_info (panics r'))) (str "init.py") 128 /\ line (mp_info (panics r')) = 3.
Proof.
  destruct (uncaught_exception_told (Hw := demo_hw) (Rt true tt panic_start) demo_start 0x9000 3 (str "init.py") tt demo_start demo_error)
    as (r' & k' & E & _ & _ & Hs & _).
  - reflexivity.
  - reflexivity.
  - exact (con_ok_mram demo_machine (ProcTable.ram demo_start) demo_machine_ok).
  - exact panic_start_ok.
  - by repeat constructor.
  - exists r', k'. split; [exact E|]. destruct Hs as (t & m & f & g & -> & _ & _ & Hf & _). split; [exact Hf|done].
Defined.
