(* ===== verification/Main.v ===== *)
(** * kernel/main.c: from the boot loader to the first process

    [kernel_main] as the build has it ([FEATURE_RUN_DIR] is 0: the modules are
    searched for an init program).  A call of [panic] ends it: the result is the
    state at that call and the message, from which PanicReport goes on.  What
    assembly code does (page tables, the entry into user mode), the addresses
    the linker chooses and the interpreter are parameters. *)

From Stdlib Require Import ZArith Lia.
From stdpp Require Import base numbers gmap strings fin_maps option list.
From S2P Require Import Prelude MemUtils Heap Allocator Vram Vfs ProcTable Elf Proc Framebuffer VgaDraw Bootmode Digits Machine Serial Console DebugLog ErrorText Idt Kernel Syscall Launchd Bootlogo Modules Panic Linkdep PanicReport SelfTest Runtime.

Local Open Scope Z_scope.

Definition MULTIBOOT_BOOTLOADER_MAGIC : Z := 0x2BADB002.
Definition MULTIBOOT_INFO_FRAMEBUFFER : Z := 4096.
Definition EXOCORE_VERSION : string := "0T0025F".
Definition BUILD_MODEL : string := "UNKNOWN".

(** ** The state *)

Section State.
Context {L : Layout} {Hw I : Type}.

(** The kernel, the drawing buffers, the picture, the interpreter, the static
    variables of main.c and modexec.c. *)
Record boot_state := BootState {
  kern : kernel Hw; drawing : vga; logo : logo_state; rt : runtime I;
  userland_mode : bool; mp_vga_output : bool; vga_console_enabled : bool;
  current_program : list Z; current_user_app : bool; g_mbi : Z
}.
Implicit Types s : boot_state.

Definition set_kern (k : kernel Hw) s : boot_state :=
  BootState k (drawing s) (logo s) (rt s) (userland_mode s) (mp_vga_output s) (vga_console_enabled s) (current_program s) (current_user_app s) (g_mbi s).
Definition set_drawing (v : vga) s : boot_state :=
  BootState (kern s) v (logo s) (rt s) (userland_mode s) (mp_vga_output s) (vga_console_enabled s) (current_program s) (current_user_app s) (g_mbi s).
Definition set_logo (l : logo_state) s : boot_state :=
  BootState (kern s) (drawing s) l (rt s) (userland_mode s) (mp_vga_output s) (vga_console_enabled s) (current_program s) (current_user_app s) (g_mbi s).
Definition set_rt (r : runtime I) s : boot_state :=
  BootState (kern s) (drawing s) (logo s) r (userland_mode s) (mp_vga_output s) (vga_console_enabled s) (current_program s) (current_user_app s) (g_mbi s).
Definition set_flags (u v g : bool) s : boot_state :=
  BootState (kern s) (drawing s) (logo s) (rt s) u v g (current_program s) (current_user_app s) (g_mbi s).
Definition set_program (p : list Z) (user : bool) s : boot_state :=
  BootState (kern s) (drawing s) (logo s) (rt s) (userland_mode s) (mp_vga_output s) (vga_console_enabled s) p user (g_mbi s).
Definition set_mbi (a : Z) s : boot_state :=
  BootState (kern s) (drawing s) (logo s) (rt s) (userland_mode s) (mp_vga_output s) (vga_console_enabled s) (current_program s) (current_user_app s) a.

(** A stage of the boot: it returns or panics. *)
Definition stage (A : Type) : Type := boot_state -> outcome (boot_state * (string + A)).
#[export] Instance stage_ret : MRet stage := fun A a s => Ret (s, inr a).
#[export] Instance stage_bind : MBind stage := fun A B f c s =>
  '(s, r) ← c s; match r with inl msg => Ret (s, inl msg) | inr a => f a s end.
Definition kernel_panic {A} (msg : string) : stage A := fun s => Ret (s, inl msg).
Definition look {A} (f : boot_state -> A) : stage A := fun s => Ret (s, inr (f s)).
Definition change (f : boot_state -> boot_state) : stage unit := fun s => Ret (f s, inr tt).
Definition when (c : bool) (t : stage unit) : stage unit := if c then t else mret tt.
Definition in_kernel (f : kernel Hw -> outcome (kernel Hw)) : stage unit := fun s => k ← f (kern s); Ret (set_kern k s, inr tt).
Definition in_kernel_with {A} (f : kernel Hw -> outcome (kernel Hw * A)) : stage A := fun s => '(k, a) ← f (kern s); Ret (set_kern k s, inr a).
Definition device (f : machine Hw -> outcome (machine Hw)) : stage unit := in_kernel (fun k => on_mach k f).
Definition on_machine (f : machine Hw -> machine Hw) : stage unit := device (fun m => Ret (f m)).
End State.
Arguments boot_state Hw I : clear implicits.

(** ** The command line *)

Section Flags.
Context {L : Layout} {Hw I : Type}.

(** [strncmp(p, word, n)] is 0 for a word of that length: [has_prefix]. *)
Record flags := Flags { f_debug : bool; f_userland : bool; f_vga_output : bool; f_vga_console : bool }.
Definition flags_at (p : list Z) (f : flags) : flags :=
  let f := if negb (f_debug f) && has_prefix p (str "debug") then Flags true (f_userland f) (f_vga_output f) (f_vga_console f) else f in
  let f := if negb (f_userland f) && has_prefix p (str "userland") then Flags (f_debug f) true (f_vga_output f) (f_vga_console f) else f in
  let f := if f_vga_output f && has_prefix p (str "nompvga") then Flags (f_debug f) (f_userland f) false (f_vga_console f) else f in
  if f_vga_console f && has_prefix p (str "novgacon") then Flags (f_debug f) (f_userland f) (f_vga_output f) false else f.
Fixpoint flags_loop (p : list Z) (f : flags) : flags :=
  match p with [] => f | _ :: q => flags_loop q (flags_at p f) end.

Definition set_debug (m : machine Hw) (d : bool) : machine Hw :=
  Machine (hw m) (mram m) (dlog m) d (boot m) (screen m) (vid m) (con m).
Definition set_screen (m : machine Hw) (fb : framebuffer_state_t) : machine Hw :=
  Machine (hw m) (mram m) (dlog m) (Machine.debug_mode m) (boot m) fb (vid m) (con m).
Definition parse_cmdline (cmd : option (list Z)) : stage (Hw := Hw) (I := I) unit :=
  match cmd with
  | None => mret tt
  | Some p => change (fun s =>
      let m := mach (kern s) in
      let m := set_boot m (bootmode_parse_cmdline (boot m) (Some p)) in
      let f := flags_loop p (Flags (Machine.debug_mode m) (userland_mode s) (mp_vga_output s) (vga_console_enabled s)) in
      set_kern (put_mach (kern s) (set_debug m (f_debug f))) (set_flags (f_userland f) (f_vga_output f) (f_vga_console f) s))
  end.
End Flags.

(** ** Loading an executable as init

    The file is copied to [MODULE_BASE_ADDR], and its headers are read there
    while the segments are placed over them; 32-bit variables hold the first
    address, the offsets and the size.  [e_phnum] has 16 bits: the loops end. *)

Definition phdr_at (m : gmap Z Z) (ph p : Z) : elf_phdr_t := read_phdr m ph p.
Definition phnum (m : gmap Z Z) : Z := e_phnum (read_header m MODULE_BASE_ADDR).
Fixpoint first_load (n : nat) (m : gmap Z Z) (ph p : Z) : Z :=
  match n with
  | O => 0
  | S n => if p_type (phdr_at m ph p) =? ELF_PT_LOAD then u32 (p_vaddr (phdr_at m ph p)) else first_load n m ph (p + 1)
  end.
Definition place_segment (init_src first_vaddr : Z) (h : elf_phdr_t) (m : gmap Z Z) (max_size : Z) : gmap Z Z * Z :=
  if negb (p_type h =? ELF_PT_LOAD) then (m, max_size) else
  let off := u32 (p_vaddr h - first_vaddr) in
  let m := memcpy m (MODULE_BASE_ADDR + off) (u64 (init_src + p_offset h)) (p_filesz h) in
  let m := if p_filesz h <? p_memsz h
           then memset m (u64 (MODULE_BASE_ADDR + off + p_filesz h)) 0 (p_memsz h - p_filesz h) else m in
  (m, if max_size <? u64 (off + p_memsz h) then u32 (off + p_memsz h) else max_size).
Fixpoint place_loop (fuel : nat) (init_src first_vaddr ph p : Z) (m : gmap Z Z) (max_size : Z) : gmap Z Z * Z :=
  match fuel with
  | O => (m, max_size)
  | S fuel =>
      if phnum m <=? p then (m, max_size) else
      let '(m, max_size) := place_segment init_src first_vaddr (phdr_at m ph p) m max_size in
      place_loop fuel init_src first_vaddr ph (p + 1) m max_size
  end.
(** Memory and the entry point. *)
Definition load_init (m : gmap Z Z) (init_src init_size : Z) : gmap Z Z * Z :=
  let m := memcpy m MODULE_BASE_ADDR init_src init_size in
  let ph := u64 (MODULE_BASE_ADDR + e_phoff (read_header m MODULE_BASE_ADDR)) in
  let first_vaddr := first_load (Z.to_nat (phnum m)) m ph 0 in
  let '(m, max_size) := place_loop (Z.to_nat 65536) init_src first_vaddr ph 0 m 0 in
  let m := if init_size <? max_size then memset m (MODULE_BASE_ADDR + init_size) 0 (max_size - init_size) else m in
  (m, u64 (MODULE_BASE_ADDR + u64 (e_entry (read_header m MODULE_BASE_ADDR) - first_vaddr))).

(** ** The boot *)

Section Boot.
Context {L : Layout} {Hw I : Type} `{WordPorts Hw} `{Interpreter Hw I} {T : TestFrame}.
(** The stack pointer, [&end], the addresses of [idt_init] and of the interrupt
    table, of the stubs and of [syscall_irq_handler]. *)
Context (rsp end_ idt_init_ idt_addr : Z) (stubs : list Z) (stub80 handler : Z).
(** boot.S and user.S: page tables, entering user mode. *)
Context (boot_map_identity_span : Z -> Z -> kernel Hw -> kernel Hw).
Context (enter_user_mode run : Z -> Z -> kernel Hw -> outcome (kernel Hw)).
(** The files linked into the kernel, and launchd's copy buffer. *)
Context (embedded_launchd_elf embedded_launchd_cfg embedded_shelld_elf embedded_logo_exoimg : embedded) (copy_buf : Z).
Abbreviation stage := (stage (Hw := Hw) (I := I)).

Definition line (s : string) : list Z := str s ++ [10].
Definition serial (t : list Z) : stage unit := device (fun m => serial_write m t).
Definition serial_number (v : Z) : stage unit := device (fun m => serial_udec m v).
Definition show (t : list Z) : stage unit := device (fun m => console_puts m (Some t)).
Definition debugging : stage bool := look (fun s => Machine.debug_mode (mach (kern s))).
Definition timestamp : stage unit := device debuglog_print_timestamp.
Definition dbg (f : machine Hw -> outcome (machine Hw)) : stage unit := d ← debugging; when d (device f).
Definition dbg_puts (t : list Z) : stage unit := dbg (fun m => console_puts m (Some t)).
Definition dbg_putc (c : Z) : stage unit := dbg (fun m => console_putc m c).
Definition dbg_udec (v : Z) : stage unit := dbg (fun m => console_udec m v).
Definition dbg_uhex (v : Z) : stage unit := dbg (fun m => console_uhex m v).
(** A field of [*mbi]: offset and bytes. *)
Definition mbi_field (mbi off : Z) (n : nat) : stage Z := look (fun s => rd_le n (ProcTable.ram (kern s)) (mbi + off)).
Definition mbi_flags (mbi : Z) : stage Z := mbi_field mbi 0 4.
Definition mods_count (mbi : Z) : stage Z := mbi_field mbi 20 4.

(** *** The screen *)

Definition framebuffer_line (width height pitch bpp type : Z) (ready : bool) : stage unit :=
  serial (str "[debug] framebuffer config width=");; serial_number width;;
  serial (str " height=");; serial_number height;;
  serial (str " pitch=");; serial_number pitch;;
  serial (str " bpp=");; serial_number bpp;;
  serial (str " type=");; serial_number type;;
  serial (str " enabled=");; serial_number (if ready then 1 else 0).
Definition configure_framebuffer (mbi : Z) : stage bool :=
  let f := mbi_field mbi in
  pitch ← f 96 4%nat; height ← f 104 4%nat; width ← f 100 4%nat; addr ← f 88 8%nat; bpp ← f 108 1%nat; type ← f 109 1%nat;
  rp ← f 112 1%nat; rs ← f 113 1%nat; gp ← f 114 1%nat; gs ← f 115 1%nat; bp ← f 116 1%nat; bs ← f 117 1%nat;
  xp ← f 118 1%nat; xs ← f 119 1%nat;
  let fb_span := u64 (pitch * height) in
  when (negb (fb_span =? 0)) (change (fun s => set_kern (boot_map_identity_span addr fb_span (kern s)) s));;
  on_machine (fun m => set_screen m (framebuffer_configure (screen m) addr pitch width height bpp type rp rs gp gs bp bs xp xs));;
  on_machine (fun m => set_screen m (framebuffer_enable (screen m) true));;
  ready ← look (fun s => framebuffer_enabled (screen (mach (kern s))));
  d ← debugging;
  when d (framebuffer_line width height pitch bpp type ready);;
  serial (line (if ready : bool then "framebuffer enabled" else "framebuffer unavailable (unsupported mode); using VGA console"));;
  mret ready.
Definition setup_framebuffer (mbi : Z) : stage bool :=
  fl ← mbi_flags mbi;
  if negb (mbi =? 0) && negb (Z.land fl MULTIBOOT_INFO_FRAMEBUFFER =? 0) then configure_framebuffer mbi else
  d ← debugging;
  when d (serial (line "[debug] framebuffer info missing or unavailable enabled=0"));;
  mret false.
Definition init_drawing : stage unit := fun s =>
  '(v, vr) ← vga_draw_init (drawing s) (screen (mach (kern s))) (vid (mach (kern s)));
  Ret (set_drawing v (set_kern (put_mach (kern s) (set_vid (mach (kern s)) vr)) s), inr tt).
Definition setup_console (framebuffer_ready : bool) : stage unit :=
  v ← look vga_console_enabled;
  when (negb framebuffer_ready && negb v)
    (serial (line "novgacon requested but framebuffer is inactive; enabling VGA fallback");;
     change (fun s => set_flags (userland_mode s) (mp_vga_output s) true s));;
  v ← look vga_console_enabled;
  on_machine (fun m => console_set_vga_enabled m v);;
  on_machine console_apply_boot_theme;;
  when framebuffer_ready (on_machine (fun m =>
    let c := if bootmode_theme (boot m) =? BOOT_THEME_WHITE then 255 else 0 in
    set_mram m (framebuffer_clear_rgb (screen m) c c c (mram m))));;
  device console_init;;
  timestamp;;
  dbg_puts (line "console_init done");;
  init_drawing.

(** *** Memory, interrupts, the log *)

(** [mem_init]: the allocator and the locks; the registry of applications is
    [MemApps.apps_init]. *)
Definition mem_init : stage unit :=
  change (fun s =>
    let k := kern s in
    let h := heap_init (ProcTable.ram k) (Machine.debug_mode (mach k)) (Heap.out (heap_of k)) end_ EXOCORE_KERNEL_HEAP_SIZE in
    let k := put_mem k (h, world_of k) in
    set_kern (put_mach k (set_vid (mach k) mem_vram_init)) s).
Definition init_interrupts : stage unit :=
  change (fun s =>
    let k := kern s in
    let k := put_ints k (idt_init stubs idt_addr (ints k)) in
    set_kern (syscall_init k stub80 handler) s).
Definition cpu_lines : stage unit :=
  '(_, ebx, ecx, edx) ← look (fun s => io_cpuid (mach (kern s)) 0);
  dbg_puts (str "cpu_vendor=");; dbg_puts (until_nul (le_bytes 4 ebx ++ le_bytes 4 edx ++ le_bytes 4 ecx));; dbg_putc 10;;
  '(_, _, ecx, edx) ← look (fun s => io_cpuid (mach (kern s)) 1);
  dbg_puts (str "cpuid_feat edx=0x");; dbg_uhex edx;; dbg_puts (str " ecx=0x");; dbg_uhex ecx;; dbg_putc 10.
Definition setup_core_debug (mbi : Z) : stage unit :=
  timestamp;;
  dbg_puts (str "stack_ptr=0x");; dbg_uhex rsp;; dbg_putc 10;;
  dbg_puts (str "mem_lower=");; lower ← mbi_field mbi 4 4; dbg_udec lower;;
  dbg_puts (str " mem_upper=");; upper ← mbi_field mbi 8 4; dbg_udec upper;; dbg_putc 10;;
  cpu_lines;;
  dbg_puts (str "Initializing memory manager at 0x");; dbg_uhex end_;; dbg_puts [10];;
  timestamp;;
  mem_init;;
  device (fun m => debuglog_memdump m end_ 64);;
  dbg_puts (str "heap_end=0x");; dbg_uhex (u64 (end_ + EXOCORE_KERNEL_HEAP_MAX_SIZE));; dbg_putc 10;;
  init_interrupts;;
  timestamp;;
  dbg_puts (line "IDT initialized");;
  device (fun m => debuglog_memdump m idt_init_ 64);;
  in_kernel debuglog_init;;
  timestamp;;
  dbg_puts (line "Debug log ready");;
  device (fun m => debuglog_memdump m (debuglog_buffer m) 64).
Definition setup_core (mbi : Z) : stage unit :=
  change (set_mbi mbi);;
  timestamp;;
  dbg_puts (line "GRUB handed control to kernel");;
  d ← debugging;
  if d : bool then setup_core_debug mbi else mem_init;; init_interrupts;; in_kernel debuglog_init.

(** *** The picture and the banner *)

Definition progress (percent : Z) : stage unit := fun s =>
  if bootmode_progress_visible (boot (mach (kern s))) then
    let '(k, l) := bootlogo_draw_progress (kern s) (logo s) percent in Ret (set_logo l (set_kern k s), inr tt)
  else Ret (s, inr tt).
Definition install_logo : stage bool :=
  r ← in_kernel_with (fun k => let '(v, r) := vfs_init (Vfs.mem (files k)) in Ret (put_files k v, r));
  if negb (r =? 0) then mret false else
  r ← in_kernel_with (bootlogo_install_to_vfs embedded_logo_exoimg);
  if r =? 0 then
    serial (line "bootlogo: installed embedded assets/logo.exoimg to /boot/logo.exoimg");; mret true
  else serial (line "bootlogo: install failed; continuing without logo");; mret false.
Definition banner : stage unit :=
  show (line "ExoCore booted");;
  show (str "Version: " ++ line EXOCORE_VERSION);;
  d ← debugging;
  when d (show (line "Debug mode enabled");; show (str "Build: " ++ line BUILD_MODEL)).
Definition show_logo : stage Z := fun s =>
  '(k, l, r) ← bootlogo_draw_from_vfs (kern s) (logo s); Ret (set_logo l (set_kern k s), inr r).
Definition draw_logo : stage unit :=
  r ← show_logo;
  if r =? 0 then
    progress 12;;
    on_machine console_hold_display_until_input;;
    serial (line "bootlogo: displayed /boot/logo.exoimg via VFS; holding display until input")
  else serial (line "bootlogo: draw failed; continuing without visible logo").

(** *** The init program *)

(** The first module whose name contains one of the three paths: its start,
    length, whether it is an executable, its name. *)
Definition init_kind (name : list Z) : option bool :=
  if contains name (str "init/kernel/init.py") then Some false
  else if contains name (str "init/kernel/init.mpy") then Some false
  else if contains name (str "init/kernel/init.elf") then Some true
  else None.
Fixpoint find_init (n : nat) (k : kernel Hw) (mods i : Z) : option (Z * Z * bool * list Z) :=
  match n with
  | O => None
  | S n =>
      let word j := rd_le 4 (ProcTable.ram k) (mods + 16 * i + 4 * j) in
      match (name ← path_at k (word 2); e ← init_kind name; Some (name, e)) with
      | Some (name, elf) => Some (word 0, u32 (word 1 - word 0), elf, name)
      | None => find_init n k mods (i + 1)
      end
  end.
Definition run_elf (init_src init_size : Z) : stage unit :=
  entry ← in_kernel_with (fun k => let '(m, e) := load_init (ProcTable.ram k) init_src init_size in Ret (ProcTable.set_ram k m, e));
  ustack ← in_kernel_with (fun k => kalloc k 4096);
  if ustack =? 0 then kernel_panic "no user stack" else
  d ← debugging;
  when d (show (line "run init as elf"));;
  change (fun s => set_program (current_program s) true s);;
  in_kernel (enter_user_mode entry (ustack + 4096));;
  change (fun s => set_program (current_program s) false s).
(** The interpreter: what stops it stops the boot. *)
Definition interpret (f : runtime I -> kernel Hw -> outcome (runtime I * kernel Hw * option string)) : stage unit := fun s =>
  '(r, k, stop) ← f (rt s) (kern s);
  Ret (set_rt r (set_kern k s), match stop with Some msg => inl msg | None => inr tt end).
Definition run_py (init_src init_size : Z) (init_label : list Z) : stage unit :=
  interpret (fun r k => '(r, k) ← mp_runtime_init r k; Ret (r, k, None));;
  d ← debugging;
  when d (show (line "run init as init"));;
  change (set_program init_label true);;
  interpret (fun r k => mp_runtime_exec r k init_src init_size (Some init_label));;
  change (set_program (str "kernel") false);;
  interpret (fun r k => Ret (mp_runtime_deinit r, k, None)).
Definition no_init_found : stage unit := show (line "init not found!");; kernel_panic "init not found".
Definition run_found (found : option (Z * Z * bool * list Z)) : stage unit :=
  match found with
  | Some (init_src, init_size, elf, name) =>
      if init_src =? 0 then no_init_found
      else if elf then run_elf init_src init_size else run_py init_src init_size name
  | None => no_init_found
  end.
Definition run_init (mbi : Z) : stage unit :=
  n ← mods_count mbi;
  mods ← mbi_field mbi 24 4;
  found ← look (fun s => find_init (Z.to_nat n) (kern s) mods 0);
  run_found found.

(** *** All of it *)

Definition enter (magic mbi : Z) : stage unit :=
  on_machine (fun m => set_boot m bootmode_init);;
  timestamp;;
  dbg_puts (line "kernel_main start");;
  device serial_init;;
  timestamp;;
  dbg_puts (line "serial_init done");;
  if negb (magic =? MULTIBOOT_BOOTLOADER_MAGIC) then kernel_panic "Invalid multiboot magic" else
  if mbi =? 0 then kernel_panic "Missing multiboot info" else mret tt.
Definition read_options (mbi : Z) : stage unit :=
  fl ← mbi_flags mbi;
  if Z.land fl 4 =? 0 then mret tt else
  cmdline ← mbi_field mbi 16 4;
  cmd ← look (fun s => path_at (kern s) cmdline);
  parse_cmdline cmd.
Definition self_test : stage unit :=
  r ← in_kernel_with (backend_selftest_run embedded_launchd_elf embedded_launchd_cfg embedded_shelld_elf);
  if negb (r =? 0) then kernel_panic "Backend self-test failed" else mret tt.
Definition first_process (mbi : Z) : stage unit :=
  in_kernel (fun k => Ret (proc_init k));;
  progress 64;;
  progress 100;;
  r ← in_kernel_with (fun k => launchd_boot run embedded_launchd_elf embedded_launchd_cfg embedded_shelld_elf copy_buf k mbi);
  when (r =? 0) (show (line "launchd: boot sequence complete")).
Definition count_modules (mbi : Z) : stage unit :=
  n ← mods_count mbi;
  d ← debugging;
  when d (show (str "mods_count=");; device (fun m => console_udec m n);; device (fun m => console_putc m 10));;
  if n =? 0 then kernel_panic "No modules found" else mret tt.
Definition finish : stage unit :=
  show (line "All done, halting");;
  show (str "final_heap_free=");;
  in_kernel (fun k => free ← mem_heap_free (heap_of k); on_mach k (fun m => m ← console_udec m (u32 free); console_putc m 10));;
  d ← debugging;
  when d (serial (line "All done, halting"));;
  in_kernel (fun k => Ret (debuglog_flush (debuglog_save_file k))).
(** Up to the halt, or to a panic. *)
Definition kernel_main (magic mbi : Z) : stage unit :=
  enter magic mbi;;
  read_options mbi;;
  ready ← setup_framebuffer mbi;
  setup_console ready;;
  setup_core mbi;;
  d ← debugging;
  u ← look userland_mode;
  when (d && u) (serial (line "Userland mode enabled"));;
  bootlogo_ready ← install_logo;
  banner;;
  when bootlogo_ready draw_logo;;
  progress 38;;
  self_test;;
  first_process mbi;;
  count_modules mbi;;
  progress 100;;
  run_init mbi;;
  finish.
End Boot.

(** ** From the first instruction to the halt

    The result is the state the processor stops in; [ret] and [regs] are the
    return address and the registers a panic reports. *)
Section Halt.
Context {L : Layout} {Hw I : Type} `{Hardware Hw}.
Definition halt_of (ret : Z) (regs : registers) (c : outcome (boot_state Hw I * (string + unit))) : outcome (boot_state Hw I) :=
  '(s, r) ← c;
  match r with
  | inr tt => Ret s
  | inl msg => k ← panic (panics (rt s)) (current_program s) (str msg) ret regs (kern s); Ret (set_kern k s)
  end.
End Halt.
