(* ===== verification/MainTheorems.v ===== *)
(** * Theorems on the boot of the kernel *)

From Stdlib Require Import ZArith Lia.
From stdpp Require Import base numbers gmap strings fin_maps option list relations.
From S2P Require Import Prelude MemUtils Heap HeapTheorems Allocator Vram Vfs ProcTable Elf ElfLoad Proc ProcTheorems Framebuffer VgaDraw Bootmode Digits Machine Serial Console ConsoleProofs DebugLog ErrorText Idt Kernel Syscall SyscallTheorems Launchd LaunchdTheorems Bootlogo Modules Keyboard Terminal Panic Linkdep PanicReport PanicTheorems SelfTest SelfTestTheorems MpObj Runtime RuntimeTheorems Main.

Local Open Scope Z_scope.

(** ** The command line *)

Lemma contains_cons c p w : w <> [] -> contains (c :: p) w = has_prefix (c :: p) w || contains p w.
Proof. done. Qed.
Lemma contains_nil w : w <> [] -> contains [] w = false.
Proof. by destruct w. Qed.

(** The flags main.c keeps are set by a text anywhere in the command line:
    [debug] and [userland] turn theirs on, [nompvga] and [novgacon] turn theirs
    off, inside longer words too. *)
Theorem flags_are_substrings p f :
  flags_loop p f =
  Flags (f_debug f || contains p (str "debug")) (f_userland f || contains p (str "userland"))
    (f_vga_output f && negb (contains p (str "nompvga"))) (f_vga_console f && negb (contains p (str "novgacon"))).
Proof.
  revert f. induction p as [|c p IH]; intros f; cbn [flags_loop].
  { rewrite !contains_nil, !orb_false_r, !andb_true_r by done. by destruct f. }
  rewrite IH, !contains_cons by done. destruct f as [d u o v]. unfold flags_at. cbn [f_debug f_userland f_vga_output f_vga_console].
  destruct (has_prefix (c :: p) (str "debug")), (has_prefix (c :: p) (str "userland")), (has_prefix (c :: p) (str "nompvga")),
    (has_prefix (c :: p) (str "novgacon")); destruct d, u, o, v; cbn [negb andb orb f_debug f_userland f_vga_output f_vga_console]; try done;
    by rewrite ?orb_true_r, ?andb_false_r.
Qed.
(** Unlike the boot options of bootmode.c, which must end where a word ends. *)
Lemma nodebug_is_debug : f_debug (flags_loop (str "quiet nodebug") (Flags false false true true)) = true.
Proof. by vm_compute. Qed.

(** ** The init executable *)

(** What [load_init] leaves behind the end of the file: zeros, whatever the
    segments put there. *)
Lemma load_init_zeroes m init_src init_size x :
  let m1 := memcpy m MODULE_BASE_ADDR init_src init_size in
  let ph := u64 (MODULE_BASE_ADDR + e_phoff (read_header m1 MODULE_BASE_ADDR)) in
  let max_size := (place_loop (Z.to_nat 65536) init_src (first_load (Z.to_nat (phnum m1)) m1 ph 0) ph 0 m1 0).2 in
  MODULE_BASE_ADDR + init_size <= x < MODULE_BASE_ADDR + max_size -> rd (load_init m init_src init_size).1 x = 0.
Proof.
  intros m1 ph max_size Hx. unfold load_init. fold m1. fold ph. unfold max_size in Hx.
  destruct (place_loop _ _ _ _ _ _ _) as [m2 mx]. cbn [snd] in Hx. cbn [fst]. rewrite (proj2 (Z.ltb_lt init_size mx)) by lia.
  by rewrite rd_memset, decide_True by lia.
Qed.

(** A segment placed over the header: 32 bytes of code replace the entry point
    that is read afterwards. *)
Definition covering_elf : list Z :=
  take 24 demo_elf ++ le_bytes 8 0x400000 ++ skipn 32 (take 96 demo_elf) ++ le_bytes 8 32 ++ le_bytes 8 32 ++ le_bytes 8 8 ++ replicate 32 0x90.
Lemma init_entry_lost :
  (load_init (store_bytes ∅ 0x9000 covering_elf) 0x9000 (Z.of_nat (length covering_elf))).2 =
  u64 (MODULE_BASE_ADDR + (0x9090909090909090 - 0x400000)).
Proof. by vm_compute. Qed.

(** ** Stages *)

Section Stages.
Context {L : Layout} {Hw I : Type}.
Implicit Types s : boot_state Hw I.

(** What the message of a panic tells. *)
Definition ends {A} (P : string -> Prop) (t : stage (Hw := Hw) (I := I) A) : Prop := forall s s' msg, t s = Ret (s', inl msg) -> P msg.

Lemma bind_inr {A B} (t : stage A) (f : A -> stage B) s s' b :
  (t ≫= f) s = Ret (s', inr b) -> exists s1 a, t s = Ret (s1, inr a) /\ f a s1 = Ret (s', inr b).
Proof. unfold mbind at 1, stage_bind. intros E. inv_bind E. destruct r as [s1 [m|a]]; [done|]. by exists s1, a. Qed.
Lemma ends_bind {A B} P (t : stage A) (f : A -> stage B) : ends P t -> (forall a, ends P (f a)) -> ends P (t ≫= f).
Proof.
  intros Ht Hf s s' msg. unfold mbind at 1, stage_bind. intros E. inv_bind E. destruct r as [s1 [m|a]]; [|by eapply Hf].
  injection E as <- <-. by eapply Ht.
Qed.
Lemma ends_ret {A} P (a : A) : ends P (mret a).
Proof. done. Qed.
Lemma ends_panic {A} (P : string -> Prop) msg : P msg -> ends P (kernel_panic (A := A) msg).
Proof. by intros Hp s s' m [= _ <-]. Qed.
Lemma ends_look {A} P (f : boot_state Hw I -> A) : ends P (look f).
Proof. done. Qed.
Lemma ends_change P f : ends P (change f).
Proof. done. Qed.
Lemma ends_when P c t : ends P t -> ends P (when c t).
Proof. by destruct c. Qed.
Lemma ends_if {A} P (c : bool) (t u : stage A) : ends P t -> ends P u -> ends P (if c then t else u).
Proof. by destruct c. Qed.
Lemma ends_in_kernel P f : ends P (in_kernel f).
Proof. intros s s' msg E. unfold in_kernel in E. by inv_bind E. Qed.
Lemma ends_in_kernel_with {A} P (f : kernel Hw -> outcome (kernel Hw * A)) : ends P (in_kernel_with f).
Proof. intros s s' msg E. unfold in_kernel_with in E. inv_bind E. by destruct r. Qed.
(** What a call returned, what a look saw. *)
Lemma ends_bind_kernel {A B} P (f : kernel Hw -> outcome (kernel Hw * A)) (g : A -> stage B) :
  (forall k k' a, f k = Ret (k', a) -> ends P (g a)) -> ends P (in_kernel_with f ≫= g).
Proof.
  intros Hg s s' msg. unfold mbind at 1, stage_bind, in_kernel_with. intros E. inv_bind E. inv_bind E0. destruct r0 as [k a].
  injection E0 as <-. by eapply Hg.
Qed.
Lemma ends_bind_look {A B} P (f : boot_state Hw I -> A) (g : A -> stage B) :
  (forall s, ends P (g (f s))) -> ends P (look f ≫= g).
Proof. intros Hg s s' msg. apply Hg. Qed.
Lemma ends_device P f : ends P (device f).
Proof. apply ends_in_kernel. Qed.
Lemma ends_on_machine P f : ends P (on_machine f).
Proof. apply ends_in_kernel. Qed.
End Stages.

Create HintDb boot discriminated.
#[export] Hint Constants Opaque : boot.
#[export] Hint Resolve ends_ret ends_look ends_change ends_in_kernel ends_in_kernel_with ends_device ends_on_machine : boot.
(** A stage without a panic of its own. *)
Ltac plain_stage :=
  repeat match goal with
  | |- ends _ (mbind _ _) => simple apply ends_bind; [|intros ?]
  | |- ends _ (when _ _) => simple apply ends_when
  | |- ends _ (match ?x with _ => _ end) => destruct x eqn:?
  | |- ends _ _ => solve [auto with boot]
  end.

Section Boot.
Context {L : Layout} {Hw I : Type} `{WordPorts Hw} `{Interpreter Hw I} {T : TestFrame}.
Context (rsp end_ idt_init_ idt_addr : Z) (stubs : list Z) (stub80 handler : Z).
Context (boot_map_identity_span : Z -> Z -> kernel Hw -> kernel Hw).
Context (enter_user_mode run : Z -> Z -> kernel Hw -> outcome (kernel Hw)).
Context (embedded_launchd_elf embedded_launchd_cfg embedded_shelld_elf embedded_logo_exoimg : embedded) (copy_buf : Z).
Implicit Types s : boot_state Hw I.

Lemma ends_dbg P f : ends P (dbg (Hw := Hw) (I := I) f).
Proof. unfold dbg, debugging. plain_stage. Qed.
#[local] Hint Resolve ends_dbg : boot.
Lemma ends_timestamp P : ends P (timestamp (Hw := Hw) (I := I)).
Proof. apply ends_device. Qed.
Lemma ends_serial P t : ends P (serial (Hw := Hw) (I := I) t).
Proof. apply ends_device. Qed.
Lemma ends_number P v : ends P (serial_number (Hw := Hw) (I := I) v).
Proof. apply ends_device. Qed.
Lemma ends_show P t : ends P (show (Hw := Hw) (I := I) t).
Proof. apply ends_device. Qed.
Lemma ends_debugging P : ends P (debugging (Hw := Hw) (I := I)).
Proof. done. Qed.
Lemma ends_puts P t : ends P (dbg_puts (Hw := Hw) (I := I) t).
Proof. apply ends_dbg. Qed.
Lemma ends_putc P c : ends P (dbg_putc (Hw := Hw) (I := I) c).
Proof. apply ends_dbg. Qed.
Lemma ends_udec P c : ends P (dbg_udec (Hw := Hw) (I := I) c).
Proof. apply ends_dbg. Qed.
Lemma ends_uhex P c : ends P (dbg_uhex (Hw := Hw) (I := I) c).
Proof. apply ends_dbg. Qed.
Lemma ends_field P mbi off n : ends P (mbi_field (Hw := Hw) (I := I) mbi off n).
Proof. done. Qed.
Lemma ends_progress P n : ends P (progress (Hw := Hw) (I := I) n).
Proof. intros s s' msg. unfold progress. case_match; [|done]. by destruct (bootlogo_draw_progress _ _ _). Qed.
Lemma ends_drawing P : ends P (init_drawing (Hw := Hw) (I := I)).
Proof. intros s s' msg E. unfold init_drawing in E. inv_bind E. by destruct r. Qed.
Lemma ends_show_logo P : ends P (show_logo (Hw := Hw) (I := I)).
Proof. intros s s' msg E. unfold show_logo in E. inv_bind E. by destruct r as [[k l] r]. Qed.
#[local] Hint Resolve ends_timestamp ends_serial ends_number ends_show ends_debugging ends_puts ends_putc ends_udec ends_uhex
  ends_field ends_progress ends_drawing ends_show_logo : boot.

Lemma ends_parse P cmd : ends P (parse_cmdline (Hw := Hw) (I := I) cmd).
Proof. unfold parse_cmdline. plain_stage. Qed.
#[local] Hint Resolve ends_parse : boot.
Lemma ends_options P mbi : ends P (read_options (Hw := Hw) (I := I) mbi).
Proof. unfold read_options, mbi_flags. plain_stage. Qed.
Lemma ends_framebuffer P mbi : ends P (setup_framebuffer (Hw := Hw) (I := I) boot_map_identity_span mbi).
Proof. unfold setup_framebuffer, mbi_flags, configure_framebuffer, framebuffer_line. plain_stage. Qed.
Lemma ends_console P b : ends P (setup_console (Hw := Hw) (I := I) b).
Proof. unfold setup_console. plain_stage. Qed.
Lemma ends_cpu P : ends P (cpu_lines (Hw := Hw) (I := I)).
Proof. unfold cpu_lines. plain_stage. Qed.
#[local] Hint Resolve ends_cpu : boot.
Lemma ends_mem P : ends P (mem_init (Hw := Hw) (I := I) end_).
Proof. apply ends_change. Qed.
Lemma ends_interrupts P : ends P (init_interrupts (Hw := Hw) (I := I) idt_addr stubs stub80 handler).
Proof. apply ends_change. Qed.
#[local] Hint Resolve ends_mem ends_interrupts : boot.
Lemma ends_core_debug P mbi : ends P (setup_core_debug (Hw := Hw) (I := I) rsp end_ idt_init_ idt_addr stubs stub80 handler mbi).
Proof. unfold setup_core_debug. plain_stage. Qed.
#[local] Hint Resolve ends_core_debug : boot.
Lemma ends_core P mbi : ends P (setup_core (Hw := Hw) (I := I) rsp end_ idt_init_ idt_addr stubs stub80 handler mbi).
Proof. unfold setup_core. plain_stage. Qed.

(** ** The panics kernel_main calls for itself *)

Definition own_panic (msg : string) : Prop :=
  msg ∈ ["Invalid multiboot magic"; "Missing multiboot info"; "Backend self-test failed"; "No modules found"; "init not found";
         "no user stack"; "MicroPython exception"]%string.
Ltac own := apply ends_panic; unfold own_panic; set_solver.

Lemma exec_stops r (k : kernel Hw) code n nm r' k' msg : mp_runtime_exec (I := I) r k code n nm = Ret (r', k', Some msg) -> own_panic msg.
Proof.
  unfold mp_runtime_exec. intros E. inv_bind E. destruct r0 as [r1 k1]. inv_bind E. destruct r0 as [[i k2] [e|]]; [|done].
  inv_bind E. destruct r0 as [r2 k3]. injection E as _ _ <-. unfold own_panic. set_solver.
Qed.
Lemma ends_interpret P (f : runtime I -> kernel Hw -> outcome (runtime I * kernel Hw * option string)) :
  (forall r k r' k' msg, f r k = Ret (r', k', Some msg) -> P msg) -> ends P (interpret f).
Proof.
  intros Hf s s' msg E. unfold interpret in E. inv_bind E. destruct r as [[r k] [m|]]; [|done]. injection E as _ <-. by eapply Hf.
Qed.
Lemma ends_run_init mbi : ends own_panic (run_init (Hw := Hw) (I := I) enter_user_mode mbi).
Proof.
  unfold run_init, mods_count, run_found, no_init_found, run_elf, run_py. plain_stage; try own; apply ends_interpret; intros r k r' k' msg E.
  - inv_bind E. by destruct r0.
  - by eapply exec_stops.
  - done.
Qed.

Abbreviation main := (kernel_main (Hw := Hw) (I := I) rsp end_ idt_init_ idt_addr stubs stub80 handler boot_map_identity_span
  enter_user_mode run embedded_launchd_elf embedded_launchd_cfg embedded_shelld_elf embedded_logo_exoimg copy_buf).

(** Apart from the panics inside the routines it calls, a boot stops with one of
    these messages or reaches the halt. *)
Lemma main_panics magic mbi : ends own_panic (main magic mbi).
Proof.
  unfold kernel_main. repeat (simple apply ends_bind; [|intros ?]); try solve [auto with boot].
  - unfold enter. plain_stage; own.
  - apply ends_options.
  - apply ends_framebuffer.
  - apply ends_console.
  - apply ends_core.
  - plain_stage.
  - unfold install_logo. plain_stage.
  - unfold banner. plain_stage.
  - apply ends_when. unfold draw_logo. plain_stage.
  - unfold self_test. plain_stage. own.
  - unfold first_process. plain_stage.
  - unfold count_modules, mods_count. plain_stage; solve [by apply ends_device|own].
  - apply ends_run_init.
  - unfold finish. plain_stage.
Qed.
End Boot.

(** ** The init module *)

(** A boot module as the boot loader lists it. *)
Record boot_module := BootModule { m_start : Z; m_end : Z; m_name : option (list Z) }.
Definition m_size (m : boot_module) : Z := u32 (m_end m - m_start m).
Definition named (m : boot_module) (w : string) : Prop := exists a b, m_name m = Some (a ++ str w ++ b).
Definition script (m : boot_module) : Prop := named m "init/kernel/init.py" \/ named m "init/kernel/init.mpy".
Definition executable (m : boot_module) : Prop := named m "init/kernel/init.elf" /\ ~ script m.
Definition is_init (m : boot_module) : Prop := script m \/ named m "init/kernel/init.elf".

Section Init.
Context {L : Layout} {Hw I : Type} `{Uart Hw} `{!Interpreter Hw I}.
Implicit Types (s : boot_state Hw I) (k : kernel Hw).

(** The multiboot block at [mbi] lists the modules [l]. *)
Definition lists_modules k (mbi : Z) (l : list boot_module) : Prop :=
  rd_le 4 (ProcTable.ram k) (mbi + 20) = Z.of_nat (length l) /\
  forall i m, l !! i = Some m ->
    let a := rd_le 4 (ProcTable.ram k) (mbi + 24) + 16 * Z.of_nat i in
    rd_le 4 (ProcTable.ram k) a = m_start m /\ rd_le 4 (ProcTable.ram k) (a + 4) = m_end m /\
    path_at k (rd_le 4 (ProcTable.ram k) (a + 8)) = m_name m.

Lemma named_contains m n w : m_name m = Some n -> named m w <-> contains n (str w) = true.
Proof.
  intros En. rewrite contains_spec. unfold named. rewrite En. split; intros (a & b & E); exists a, b; [by injection E|by rewrite E].
Qed.
Lemma kind_of m n : m_name m = Some n -> 
  (script m -> init_kind n = Some false) /\ (executable m -> init_kind n = Some true) /\ (~ is_init m -> init_kind n = None).
Proof.
  intros En. unfold is_init, executable, script. rewrite !(named_contains m n) by done. unfold init_kind.
  destruct (contains n (str "init/kernel/init.py")), (contains n (str "init/kernel/init.mpy")), (contains n (str "init/kernel/init.elf")); naive_solver.
Qed.
Lemma init_kinds m nm : m_name m = Some nm -> is_init m -> script m \/ executable m.
Proof.
  intros En. unfold is_init, executable, script. rewrite !(named_contains m nm) by done.
  destruct (contains nm (str "init/kernel/init.py")), (contains nm (str "init/kernel/init.mpy")); naive_solver.
Qed.
Lemma find_skips k mbi l pre rest : lists_modules k mbi l -> l = pre ++ rest -> Forall (fun m => ~ is_init m) pre ->
  forall n, find_init (length pre + n) k (rd_le 4 (ProcTable.ram k) (mbi + 24)) 0 =
    find_init n k (rd_le 4 (ProcTable.ram k) (mbi + 24)) (Z.of_nat (length pre)).
Proof.
  intros [_ Hl] -> Hpre n. set (mods := rd_le 4 _ _) in *.
  assert (forall j, (j <= length pre)%nat -> find_init (length pre - j + n) k mods (Z.of_nat j) = find_init n k mods (Z.of_nat (length pre))) as Hj.
  { intros j Hj. remember (length pre - j)%nat as d eqn:Ed. revert j Hj Ed. induction d as [|d IH]; intros j Hj Ed.
    { by replace j with (length pre) by lia. }
    destruct (lookup_lt_is_Some_2 pre j) as [m Em]; [lia|]. cbn [Nat.add find_init].
    destruct (Hl j m (lookup_app_l_Some _ _ _ _ Em)) as (_ & _ & Hn). change (4 * 2) with 8. rewrite Hn.
    replace (Z.of_nat j + 1) with (Z.of_nat (S j)) by lia. destruct (m_name m) as [nm|] eqn:En; cbn [mbind option_bind]; [|apply IH; lia].
    rewrite (proj2 (proj2 (kind_of m nm En)) (Forall_lookup_1 _ _ _ _ Hpre Em)). cbn. apply IH; lia. }
  specialize (Hj 0%nat ltac:(lia)). by rewrite Nat.sub_0_r in Hj.
Qed.
Lemma find_first k mbi l pre m post nm (e : bool) : lists_modules k mbi l -> l = pre ++ m :: post -> Forall (fun m => ~ is_init m) pre ->
  m_name m = Some nm -> (if e then executable m else script m) ->
  find_init (Z.to_nat (rd_le 4 (ProcTable.ram k) (mbi + 20))) k (rd_le 4 (ProcTable.ram k) (mbi + 24)) 0 = Some (m_start m, m_size m, e, nm).
Proof.
  intros Hl E Hpre En He. pose proof (find_skips k mbi l pre (m :: post) Hl E Hpre (S (length post))) as Hs. destruct Hl as [Hc Hl].
  rewrite Hc, Nat2Z.id. replace (length l) with (length pre + S (length post))%nat by (subst l; rewrite length_app; cbn; lia). rewrite Hs.
  set (mods := rd_le 4 _ (mbi + 24)) in *. destruct (Hl (length pre) m) as (H1' & H2' & H3'); [rewrite E; by apply list_lookup_middle|].
  cbn [find_init]. change (4 * 2) with 8. change (4 * 1) with 4. change (4 * 0) with 0. rewrite Z.add_0_r.
  rewrite H3', H1', H2', En. cbn [mbind option_bind]. destruct (kind_of m nm En) as (Hk1 & Hk2 & _). destruct e; [by rewrite (Hk2 He)|by rewrite (Hk1 He)].
Qed.
Lemma find_none k mbi l : lists_modules k mbi l -> Forall (fun m => ~ is_init m) l ->
  find_init (Z.to_nat (rd_le 4 (ProcTable.ram k) (mbi + 20))) k (rd_le 4 (ProcTable.ram k) (mbi + 24)) 0 = None.
Proof.
  intros Hl Hno. pose proof (find_skips k mbi l l [] Hl ltac:(by rewrite app_nil_r) Hno 0) as Hs. destruct Hl as [Hc _].
  rewrite Hc, Nat2Z.id. by rewrite Nat.add_0_r in Hs.
Qed.

(** The boot stops: there is no init. *)
Definition init_missing enter_user_mode (mbi : Z) s : Prop :=
  exists s', run_init (I := I) enter_user_mode mbi s = Ret (s', inl "init not found"%string) /\
    uart_sent (hw (mach (kern s'))) = uart_sent (hw (mach (kern s))) ++ str "init not found!" ++ [10].
Lemma missing_shown s : con_ok (mach (kern s)) -> exists s', no_init_found (I := I) s = Ret (s', inl "init not found"%string) /\
  uart_sent (hw (mach (kern s'))) = uart_sent (hw (mach (kern s))) ++ str "init not found!" ++ [10].
Proof.
  intros Hc. unfold no_init_found, mbind, stage_bind, show, device, in_kernel, on_mach, kernel_panic.
  destruct (puts_sends (line "init not found!") (mach (kern s)) Hc) as (m & -> & _ & _ & Hs). rewrite !bind_Ret. eexists. split; [done|].
  cbn [kern set_kern]. by rewrite mach_put, Hs.
Qed.
(** With the debug option the kernel says what it runs. *)
Definition announce (t : string) k : outcome (kernel Hw) :=
  if Machine.debug_mode (mach k) then on_mach k (fun m => console_puts m (Some (line t))) else Ret k.

Lemma run_init_found enter_user_mode mbi s x :
  find_init (Z.to_nat (rd_le 4 (ProcTable.ram (kern s)) (mbi + 20))) (kern s) (rd_le 4 (ProcTable.ram (kern s)) (mbi + 24)) 0 = x ->
  run_init (I := I) enter_user_mode mbi s = run_found (I := I) enter_user_mode x s.
Proof. by intros <-. Qed.
Section Script.
Context (enter_user_mode : Z -> Z -> kernel Hw -> outcome (kernel Hw)).

Lemma run_py_runs s a n nm r k1 k2 i k3 e :
  mp_runtime_init (rt s) (kern s) = Ret (r, k1) -> announce "run init as init" k1 = Ret k2 ->
  mp_execute nm (bytes_at (ProcTable.ram k2) a (Z.to_nat n)) (interp r) k2 = Ret (i, k3, e) ->
  run_py (I := I) a n nm s =
    match e with
    | None => Ret (set_program (str "kernel") false (set_rt (Rt false (mp_embed_deinit i) (panics r)) (set_kern k3 s)), inr tt)
    | Some x => '(r, k) ← mp_report_exception x nm (set_interp r i) k3;
        Ret (set_rt r (set_kern k (set_program nm true s)), inl "MicroPython exception"%string)
    end.
Proof.
  intros Hi Ha Hx. pose proof (init_active _ _ _ _ Hi) as Hact. unfold run_py, mbind, stage_bind, interpret. rewrite Hi, !bind_Ret.
  unfold debugging, look, when. rewrite bind_Ret. cbn [kern set_rt set_kern rt]. unfold announce in Ha.
  assert ((if Machine.debug_mode (mach k1) then show (Hw := Hw) (I := I) (line "run init as init") else mret tt) (set_rt r (set_kern k1 s)) =
    Ret (set_rt r (set_kern k2 s), inr tt)) as ->.
  { case_match; [|by injection Ha as ->]. unfold show, device, in_kernel. cbn [kern set_rt set_kern]. by rewrite Ha. }
  rewrite bind_Ret. unfold change. rewrite bind_Ret. cbn [rt kern set_program set_rt set_kern].
  unfold mp_runtime_exec, mp_runtime_init. rewrite Hact, !bind_Ret. cbn [from_option default id]. rewrite Hx, bind_Ret.
  destruct e as [x|].
  - destruct (mp_report_exception x nm (set_interp r i) k3) as [[r' k']| | |]; [|done..]. rewrite !bind_Ret. done.
  - rewrite !bind_Ret. cbn [rt kern set_program set_rt set_kern]. unfold mp_runtime_deinit. cbn [mp_active set_interp]. by rewrite Hact.
Qed.

(** C16: Which of the modules handed over by the boot loader becomes init, and
    how.  It is the first whose name contains one of three paths; without one, or
    if it starts at address 0, the boot says so and stops.  A script runs under
    the interpreter, which is started for it and is given exactly the bytes of
    the module and its name; when the program is done the interpreter is shut
    down, and the boot goes on with the kernel the program left; an exception it
    does not catch is printed and stops the boot with the story of the exception
    and the name of the program kept for the panic.  An executable is handed to
    the loader. *)
Theorem init_module_runs mbi l s : lists_modules (kern s) mbi l -> con_ok (mach (kern s)) ->
  (Forall (fun m => ~ is_init m) l -> init_missing enter_user_mode mbi s) /\
  forall pre m post nm, l = pre ++ m :: post -> Forall (fun m => ~ is_init m) pre -> is_init m -> m_name m = Some nm ->
    (m_start m = 0 -> init_missing enter_user_mode mbi s) /\
    (m_start m <> 0 -> executable m ->
       run_init (I := I) enter_user_mode mbi s = run_elf (I := I) enter_user_mode (m_start m) (m_size m) s) /\
    (m_start m <> 0 -> script m -> forall r k1 k2 i k3 e,
       mp_runtime_init (rt s) (kern s) = Ret (r, k1) -> announce "run init as init" k1 = Ret k2 ->
       mp_execute nm (bytes_at (ProcTable.ram k2) (m_start m) (Z.to_nat (m_size m))) (interp r) k2 = Ret (i, k3, e) ->
       match e with
       | None => exists s', run_init (I := I) enter_user_mode mbi s = Ret (s', inr tt) /\ kern s' = k3 /\
           rt s' = Rt false (mp_embed_deinit i) (panics r) /\ current_program s' = str "kernel" /\ current_user_app s' = false
       | Some x => con_ok (mach k3) -> panic_ok (panics r) -> exc_ok x nm ->
           exists s', run_init (I := I) enter_user_mode mbi s = Ret (s', inl "MicroPython exception"%string) /\
           uart_sent (hw (mach (kern s'))) = uart_sent (hw (mach k3)) ++ echoed (exc_text x) /\
           shown x nm (panics (rt s')) /\ current_program s' = nm /\ current_user_app s' = true
       end).
Proof.
  intros Hl Hc. split.
  { intros Hno. unfold init_missing. rewrite (run_init_found _ _ _ _ (find_none _ _ _ Hl Hno)). by apply missing_shown. }
  intros pre m post nm E Hpre Hm En.
  assert (forall e : bool, (if e then executable m else script m) ->
    run_init (I := I) enter_user_mode mbi s = run_found (I := I) enter_user_mode (Some (m_start m, m_size m, e, nm)) s) as Hrun.
  { intros e He. apply run_init_found. by eapply find_first. }
  split_and!.
  - intros H0'. assert (exists e : bool, if e then executable m else script m) as [e He].
    { destruct (init_kinds m nm En Hm); [by exists false|by exists true]. }
    unfold init_missing. rewrite (Hrun e He), H0'. by apply missing_shown.
  - intros Hs He. rewrite (Hrun true He). cbn [run_found]. by rewrite (proj2 (Z.eqb_neq _ _) Hs).
  - intros Hs He r k1 k2 i k3 e Hi Ha Hx. rewrite (Hrun false He). cbn [run_found]. rewrite (proj2 (Z.eqb_neq _ _) Hs).
    rewrite (run_py_runs s _ _ nm r k1 k2 i k3 e Hi Ha Hx). destruct e as [x|]; [|by eexists].
    intros Hc3 Hp Hex. destruct (report_told (set_interp r i) k3 x nm Hc3 Hp Hex) as (r' & k' & -> & Hu & _ & Hsh & _). by eexists.
Qed.
End Script.
End Init.

(** ** A boot *)

#[local] Existing Instance demo_layout.
#[local] Instance demo_words : WordPorts demo_hw := {|
  hw_inw h _ := (h, 0); hw_outw h _ _ := h; hw_inl h _ := (h, 0); hw_outl h _ _ := h; hw_cpuid _ _ := (0, 0, 0, 0) |}.
(** An interpreter that notes what it was asked to run. *)
#[local] Instance demo_interpreter : Interpreter demo_hw (list (list Z * list Z)) := {|
  mp_stack_ctrl_init i := i; mp_embed_init _ i := i; mp_stack_set_limit _ i := i; mp_new_module _ _ i := i;
  mp_embed_exec_str _ i k := Ret (i, k); mp_embed_deinit i := i;
  mp_execute nm code i k := Ret (i ++ [(nm, code)], k, None); mp_embed_exec_mpy _ i k := Ret (i, k) |}.
(** The multiboot block at 0x8000: a command line, a small screen, one module. *)
Definition demo_mbi (k : kernel demo_hw) : kernel demo_hw :=
  let k := store k 0x8000 (le_bytes 4 4) in
  let k := store k 0x8010 (le_bytes 4 0x8100 ++ le_bytes 4 1 ++ le_bytes 4 0x8200) in
  let k := store k 0x8100 (str "nologs novgacon" ++ [0]) in
  let k := store k 0x8200 (le_bytes 4 0x8300 ++ le_bytes 4 0x8303 ++ le_bytes 4 0x8400 ++ le_bytes 4 0) in
  let k := store k 0x8300 (str "1+2") in
  store k 0x8400 (str "/boot/init/kernel/init.py" ++ [0]).
Definition demo_bs : boot_state demo_hw (list (list Z * list Z)) :=
  BootState (demo_mbi demo_start) vga_zero (Logo 0 0 0 0 0 false) (Rt false [] panic_start) false true true (str "kernel") false 0.
(** The executable cut after its magic number: launchd is refused. *)
Abbreviation demo_boot_main := (kernel_main 0x8ff0 0x200000 0x100000 0x5000 (replicate 32 0x100100) 0x100200 0x100300 (fun _ _ k => k)
  no_program no_program (Embedded 0x1000 4) demo_file demo_file (Embedded 0x1000 10) 0x9800 MULTIBOOT_BOOTLOADER_MAGIC 0x8000 demo_bs).
Definition ran_init (s : boot_state demo_hw (list (list Z * list Z))) : bool :=
  bool_decide (interp (rt s) = [(str "/boot/init/kernel/init.py", str "1+2")]) && negb (mp_active (rt s)) && vga_console_enabled s.
(** This boot reaches the halt: the tests pass, the module was run as a program
    of the interpreter, which was shut down. *)
Lemma demo_boot_runs : exists s', demo_boot_main = Ret (s', inr tt) /\ ran_init s' = true.
Proof.
  destruct (returns_with (fun sr : _ * (string + unit) => match sr.2 with inr _ => ran_init sr.1 | inl _ => false end)
    demo_boot_main) as (sr & E & Ht); [by vm_compute|].
  destruct sr as [s' [msg|[]]]; [discriminate Ht|]. exists s'. split; [exact E|exact Ht].
Qed.

(** Two modules: the second is init. *)
Definition demo_modules : list boot_module :=
  [BootModule 0x8300 0x8303 (Some (str "/bin/calc")); BootModule 0x8310 0x8313 (Some (str "/boot/init/kernel/init.py"))].
Definition demo_listed : boot_state demo_hw (list (list Z * list Z)) :=
  let k := demo_mbi demo_start in
  let k := store k 0x8014 (le_bytes 4 2) in
  let k := store k 0x8200 (le_bytes 4 0x8300 ++ le_bytes 4 0x8303 ++ le_bytes 4 0x8420 ++ le_bytes 4 0 ++
                           le_bytes 4 0x8310 ++ le_bytes 4 0x8313 ++ le_bytes 4 0x8400 ++ le_bytes 4 0) in
  let k := store k 0x8310 (str "3+4") in
  let k := store k 0x8420 (str "/bin/calc" ++ [0]) in
  set_kern k demo_bs.
Lemma demo_lists : lists_modules (kern demo_listed) 0x8000 demo_modules.
Proof.
  split; [by vm_compute|]. intros [|[|i]] m E; [| |done]; injection E as <-; split_and!; by vm_compute.
Qed.
Lemma calc_no_init : Forall (fun m => ~ is_init m) [BootModule 0x8300 0x8303 (Some (str "/bin/calc"))].
Proof.
  constructor; [|constructor]. unfold is_init, script. rewrite !(named_contains (BootModule 0x8300 0x8303 (Some (str "/bin/calc"))) (str "/bin/calc") _ eq_refl). intros [[E|E]|E]; vm_compute in E; done.
Qed.
Lemma init_is_script : script (BootModule 0x8310 0x8313 (Some (str "/boot/init/kernel/init.py"))).
Proof. left. by exists (str "/boot/"), []. Qed.
Lemma demo_listed_ok : con_ok (mach (kern demo_listed)).
Proof. exact (con_ok_mram demo_machine _ demo_machine_ok). Qed.
(** The second module is run, its bytes and its name reach the interpreter. *)
Lemma demo_starts k : mp_runtime_init (rt demo_listed) k = Ret (Rt true [] panic_start, k).
Proof. reflexivity. Qed.
Lemma demo_quiet : announce "run init as init" (kern demo_listed) = Ret (kern demo_listed).
Proof. unfold announce. assert (Machine.debug_mode (mach (kern demo_listed)) = false) as -> by (vm_compute; reflexivity). done. Qed.
Lemma init_module_runs_witness : exists s', run_init no_program 0x8000 demo_listed = Ret (s', inr tt) /\
  interp (rt s') = [(str "/boot/init/kernel/init.py", str "3+4")].
Proof.
  destruct (init_module_runs no_program 0x8000 demo_modules demo_listed demo_lists demo_listed_ok) as [_ Hfirst].
  destruct (Hfirst [BootModule 0x8300 0x8303 (Some (str "/bin/calc"))] _ [] (str "/boot/init/kernel/init.py") eq_refl
    calc_no_init (or_introl init_is_script) eq_refl) as (_ & _ & Hscript).
  assert (mp_execute (str "/boot/init/kernel/init.py") (bytes_at (ProcTable.ram (kern demo_listed)) 0x8310 3) [] (kern demo_listed) =
    Ret ([(str "/boot/init/kernel/init.py", str "3+4")], kern demo_listed, None)) as Hx by (vm_compute; reflexivity).
  destruct (Hscript ltac:(done) init_is_script (Rt true [] panic_start) (kern demo_listed) (kern demo_listed) _ _ None (demo_starts _) demo_quiet Hx)
    as (s' & E & _ & Hr & _).
  exists s'. split; [exact E|]. rewrite Hr. reflexivity.
Defined.
