(* ===== verification/RunDir.v ===== *)
(** * kernel/main.c: the directory of modules

    The branch of [kernel_main] for [FEATURE_RUN_DIR]: every module the boot
    loader passed is run, as a script, a Python program or module, bytecode or
    machine code.  [MODULE_MODE] chooses among them at compile time and is a
    parameter here; the entry of a module's machine code is one, too. *)

From Stdlib Require Import ZArith Lia.
From stdpp Require Import base numbers gmap strings fin_maps option list.
From S2P Require Import Prelude MemUtils Heap HeapTheorems Allocator Vfs ProcTable Elf Proc Machine Serial Console ConsoleProofs DebugLog ErrorText Kernel LaunchdTheorems Modules Linkdep PanicReport Runtime Script Main MainTheorems.

Local Open Scope Z_scope.

Definition MODULE_MODE_MICROPYTHON : Z := 0.
Definition MODULE_MODE_ELF : Z := 1.

(** ** Names *)

Definition lower (c : Z) : Z := if (65 <=? c) && (c <=? 90) then c + 32 else c.
Definition has_ext (path ext : list Z) : bool :=
  (length ext <=? length path)%nat && bool_decide (lower <$> drop (length path - length ext) path = ext).
(** What follows the last [sep] of the text. *)
Fixpoint after_last (sep : Z) (p found : list Z) : list Z :=
  match p with [] => found | c :: q => after_last sep q (if c =? sep then q else found) end.
Definition module_path (mstr : option (list Z)) : list Z :=
  match mstr with
  | None | Some [] => str "<module>"
  | Some p => after_last 32 p p
  end.
Fixpoint until_dot (p : list Z) : list Z := match p with [] => [] | c :: q => if c =? 46 then [] else c :: until_dot q end.
Definition module_name (path : list Z) : list Z := until_dot (after_last 47 path path).

(** The length of the first line, with its end, behind the mark of a script. *)
Fixpoint line_len (l : list Z) : nat :=
  match l with c :: l' => if negb (c =? 10) && negb (c =? 13) then S (line_len l') else O | [] => O end.
Definition shebang : list Z := str "#mpyexo".
Definition shebang_len (code : list Z) : nat :=
  let p := (7 + line_len (drop 7 code))%nat in
  let p := if bool_decide (code !! p = Some 13) then S p else p in
  if bool_decide (code !! p = Some 10) then S p else p.

Section RunDir.
Context {L : Layout} {Hw I : Type} `{WordPorts Hw} `{Interpreter Hw I}.
Context (MODULE_MODE : Z) (call_module : Z -> kernel Hw -> outcome (kernel Hw)).
Abbreviation stage := (stage (Hw := Hw) (I := I)).

(** ** Python modules *)

Definition store_total (name src : list Z) : Z :=
  u64 (Z.of_nat (length name) * 2 + Z.of_nat (length src) + esc_len src + 96).
Definition bytes_of (src size : Z) : stage (list Z) := look (fun s => bytes_at (ProcTable.ram (kern s)) src (Z.to_nat size)).
Definition mp_store_module (name : list Z) (src size : Z) : stage unit :=
  code ← bytes_of src size;
  let total := store_total name code in
  buf ← in_kernel_with (fun k => kalloc k total);
  if buf =? 0 then mret tt else
  code ← bytes_of src size;
  let text := loader_text (Mpymod name code) in
  change (fun s => set_kern (store (kern s) buf (text ++ [0])) s);;
  interpret (fun r k => mp_runtime_exec r k buf (Z.of_nat (length text)) (Some name));;
  in_kernel (fun k => kfree k buf total).

(** A message on the console and the serial port when debugging. *)
Definition both (t : string) : stage unit :=
  dbg_puts (line t);; d ← debugging; when d (serial (line t)).
Definition run_shebang (src size : Z) (path : list Z) (is_user : bool) : stage unit :=
  code ← bytes_of src size;
  let p := Z.of_nat (shebang_len code) in
  change (set_program path is_user);;
  interpret (fun r k => mp_runtime_exec r k (src + p) (size - p) (Some path));;
  change (set_program (str "kernel") false).
Definition is_shebang (code : list Z) : bool := bool_decide (take 7 code = shebang).
Definition run_python (src size : Z) (path : list Z) (is_user : bool) : stage unit :=
  if MODULE_MODE =? MODULE_MODE_ELF then both "  MicroPython script skipped (ELF-only mode)" else
  code ← bytes_of src size;
  if is_shebang code then both "  MicroPython script";; run_shebang src size path is_user
  else
    both "  MicroPython module";;
    let name := module_name path in
    let n := u64 (Z.of_nat (length name) + 1) in
    modname ← in_kernel_with (fun k => kalloc k n);
    if modname =? 0 then mret tt else
    change (fun s => set_kern (store (kern s) modname (name ++ [0])) s);;
    mp_store_module name src size;;
    in_kernel (fun k => kfree k modname n).
Definition run_bytecode (src size : Z) : stage unit :=
  if MODULE_MODE =? MODULE_MODE_ELF then both "  MicroPython bytecode skipped (ELF-only mode)" else
  both "  MicroPython bytecode";;
  interpret (fun r k => '(r, k) ← mp_runtime_exec_mpy r k src size; Ret (r, k, None)).
Definition run_tinyscript (src size : Z) : stage unit :=
  if MODULE_MODE =? MODULE_MODE_MICROPYTHON then both "  TinyScript skipped (micropython-only mode)" else
  both "  TinyScript module";;
  code ← bytes_of src size;
  device (fun m => run_script m code).

(** ** Machine code *)

Definition segment_lines (h : elf_phdr_t) : stage unit :=
  dbg_puts (str "   segment off=0x");; dbg_uhex (p_offset h);;
  dbg_puts (str " filesz=");; dbg_udec (u32 (p_filesz h));;
  dbg_puts (str " memsz=");; dbg_udec (u32 (p_memsz h));; dbg_putc 10.
Fixpoint segments_loop (fuel : nat) (src first_vaddr ph p max_size : Z) : stage Z :=
  match fuel with
  | O => mret max_size
  | S fuel =>
      n ← look (fun s => phnum (ProcTable.ram (kern s)));
      if n <=? p then mret max_size else
      h ← look (fun s => phdr_at (ProcTable.ram (kern s)) ph p);
      if negb (p_type h =? ELF_PT_LOAD) then segments_loop fuel src first_vaddr ph (p + 1) max_size else
      segment_lines h;;
      max_size ← in_kernel_with (fun k =>
        let '(m, max_size) := place_segment src first_vaddr (phdr_at (ProcTable.ram k) ph p) (ProcTable.ram k) max_size in
        Ret (ProcTable.set_ram k m, max_size));
      segments_loop fuel src first_vaddr ph (p + 1) max_size
  end.
Definition load_module_elf (src size : Z) : stage Z :=
  let ram_of (s : boot_state Hw I) := ProcTable.ram (kern s) in
  ph ← look (fun s => u64 (MODULE_BASE_ADDR + e_phoff (read_header (ram_of s) MODULE_BASE_ADDR)));
  first_vaddr ← look (fun s => first_load (Z.to_nat (phnum (ram_of s))) (ram_of s) ph 0);
  max_size ← segments_loop (Z.to_nat 65536) src first_vaddr ph 0 0;
  when (size <? max_size) (change (fun s =>
    set_kern (ProcTable.set_ram (kern s) (memset (ram_of s) (MODULE_BASE_ADDR + size) 0 (max_size - size))) s));;
  look (fun s => u64 (MODULE_BASE_ADDR + u64 (e_entry (read_header (ram_of s) MODULE_BASE_ADDR) - first_vaddr))).
Definition jump_lines (entry : Z) : stage unit :=
  dbg_puts (str "  Jumping to entry 0x");; dbg_uhex entry;; dbg_putc 10;;
  d ← debugging;
  when d (serial (str "  Jumping to entry 0x");; device (fun m => serial_uhex m entry);; serial [10]).
Definition returned_lines : stage unit :=
  dbg_puts (line "  ELF-module returned");; dbg_puts (str " heap_free=");;
  free ← in_kernel_with (fun k => free ← mem_heap_free (heap_of k); Ret (k, free));
  dbg_udec (u32 free);; dbg_putc 10;;
  d ← debugging; when d (serial (line "  ELF-module returned")).
Definition run_elf_module (src size : Z) (mstr : option (list Z)) (is_user : bool) : stage unit :=
  both "  ELF-module";;
  if MODULE_MODE =? MODULE_MODE_MICROPYTHON then both "  ELF loading disabled in micropython-only mode" else
  entry ← load_module_elf src size;
  jump_lines entry;;
  change (set_program (default (str "module") mstr) is_user);;
  in_kernel (call_module entry);;
  change (set_program (str "kernel") false);;
  returned_lines.

(** ** A module *)

Definition module_lines (i src size : Z) : stage unit :=
  dbg_puts (str "Module ");; d ← debugging; when d (serial (str "Module "));;
  dbg_udec i;; d ← debugging; when d (serial_number i);;
  dbg_putc 10;; d ← debugging; when d (serial [10]);;
  dbg_puts (str "  src=0x");; dbg_uhex src;;
  dbg_puts (str " size=");; dbg_udec size;; dbg_putc 10;;
  device (fun m => debuglog_hexdump m src (if 64 <? size then 64 else size));;
  device (fun m => debuglog_memdump m MODULE_BASE_ADDR (if 128 <? size then 128 else size)).
(** A module whose name tells nothing: a program by its magic number, a script
    by its mark. *)
Definition run_other (i src size : Z) (path : list Z) (mstr : option (list Z)) (is_user : bool) : stage unit :=
  module_lines i src size;;
  magic ← look (fun s => rd_le 4 (ProcTable.ram (kern s)) MODULE_BASE_ADDR);
  code ← bytes_of src size;
  if magic =? ELF_MAGIC then run_elf_module src size mstr is_user else
  if negb (MODULE_MODE =? MODULE_MODE_ELF) && is_shebang code then
    show (line "  MicroPython script");; d ← debugging; when d (serial (line "  MicroPython script"));;
    run_shebang src size path is_user
  else both "  Non-ELF module skipped".
Definition run_module (mods i : Z) : stage unit :=
  timestamp;;
  let word (j : Z) := look (fun s => rd_le 4 (ProcTable.ram (kern s)) (mods + 16 * i + 4 * j)) in
  name ← word 2;
  mstr ← look (fun s => path_at (kern s) name);
  let is_user := match mstr with Some p => has_prefix p (str "userland") | None => false end in
  u ← look userland_mode;
  if negb u && is_user then mret tt else
  src ← word 0; end_ ← word 1;
  let size := u32 (end_ - src) in
  in_kernel (fun k => Ret (ProcTable.set_ram k (memcpy (ProcTable.ram k) MODULE_BASE_ADDR src size)));;
  let path := module_path mstr in
  if has_ext path (str ".ts") then run_tinyscript src size
  else if has_ext path (str ".py") then run_python src size path is_user
  else if has_ext path (str ".mpy") then run_bytecode src size
  else run_other i src size path mstr is_user.

Definition endless_run : stage unit := fun _ => Timeout.
(** The count is read in every round: a module may change it, so that the rounds
    are bounded by [fuel]. *)
Fixpoint modules_loop (fuel : nat) (mbi mods i : Z) : stage unit :=
  n ← mods_count mbi;
  if n <=? i then mret tt else
  match fuel with
  | O => endless_run
  | S fuel => run_module mods i;; modules_loop fuel mbi mods (i + 1)
  end.
Definition run_dir (fuel : nat) (mbi : Z) : stage unit :=
  interpret (fun r k => '(r, k) ← mp_runtime_init r k; Ret (r, k, None));;
  mods ← mbi_field mbi 24 4;
  modules_loop fuel mbi mods 0;;
  interpret (fun r k => Ret (mp_runtime_deinit r, k, None)).
End RunDir.

(** ** Theorems *)

(** The program that stores a module fits the buffer allocated for it. *)
Lemma store_module_fits name src : Z.of_nat (length name) * 2 + 2 * Z.of_nat (length src) + 96 < 2 ^ 64 ->
  Z.of_nat (length (loader_text (Mpymod name src))) + 1 <= store_total name src.
Proof.
  intros Hsz. assert (0 <= esc_len src <= Z.of_nat (length src)) as He
    by (unfold esc_len; pose proof (length_filter (fun c => special c = true) src); lia).
  unfold store_total, loader_text. cbn [Modules.name source]. rewrite u64_small, !length_app by lia. pose proof (length_escape src).
  change (length (str "import env
")) with 11%nat. change (length (str "env._mpymod_exec('")) with 18%nat. cbn [length]. lia.
Qed.

Section Ends.
Context {L : Layout} {Hw I : Type} `{WordPorts Hw} `{Interpreter Hw I}.
Context (MODULE_MODE : Z) (call_module : Z -> kernel Hw -> outcome (kernel Hw)).

(** An exception nobody caught. *)
Inductive uncaught_in_module : string -> Prop :=
| module_raised nm code (i i' : I) (k k' : kernel Hw) e : mp_execute nm code i k = Ret (i', k', Some e) -> uncaught_in_module "MicroPython exception".
Abbreviation P := uncaught_in_module.

Lemma exec_uncaught code n nm : ends P (interpret (Hw := Hw) (I := I) (fun r k => mp_runtime_exec r k code n nm)).
Proof.
  apply ends_interpret. unfold mp_runtime_exec. intros r k r' k' msg E. inv_bind E. destruct r0 as [r1 k1]. inv_bind E.
  destruct r0 as [[i k2] [e|]]; [|done]. inv_bind E. destruct r0 as [r2 k3]. injection E as _ _ <-. by eapply module_raised.
Qed.
Lemma interpret_quiet (f : runtime I -> kernel Hw -> outcome (runtime I * kernel Hw)) :
  ends P (interpret (Hw := Hw) (I := I) (fun r k => '(r, k) ← f r k; Ret (r, k, None))).
Proof. apply ends_interpret. intros r k r' k' msg E. inv_bind E. by destruct r0. Qed.
#[local] Hint Resolve exec_uncaught interpret_quiet ends_dbg ends_timestamp ends_serial ends_number ends_show ends_debugging ends_puts ends_putc
  ends_udec ends_uhex ends_field : boot.
Lemma ends_both t : ends P (both (Hw := Hw) (I := I) t).
Proof. unfold both. plain_stage. Qed.
Lemma ends_bytes a n : ends P (bytes_of (Hw := Hw) (I := I) a n).
Proof. done. Qed.
#[local] Hint Resolve ends_both ends_bytes : boot.
Lemma ends_shebang src size path u : ends P (run_shebang (Hw := Hw) (I := I) src size path u).
Proof. unfold run_shebang. plain_stage. Qed.
Lemma ends_store nm src size : ends P (mp_store_module (Hw := Hw) (I := I) nm src size).
Proof. unfold mp_store_module. plain_stage. Qed.
#[local] Hint Resolve ends_shebang ends_store : boot.
Lemma ends_segments fuel src v ph p m : ends P (segments_loop (Hw := Hw) (I := I) fuel src v ph p m).
Proof.
  revert p m. induction fuel as [|fuel IH]; intros p m; cbn [segments_loop]; [apply ends_ret|]. unfold segment_lines. plain_stage; apply IH.
Qed.
#[local] Hint Resolve ends_segments : boot.
Lemma ends_elf_module src size mstr u : ends P (run_elf_module (Hw := Hw) (I := I) MODULE_MODE call_module src size mstr u).
Proof. unfold run_elf_module, load_module_elf, jump_lines, returned_lines. plain_stage. Qed.
Lemma ends_module mods i : ends P (run_module (Hw := Hw) (I := I) MODULE_MODE call_module mods i).
Proof.
  unfold run_module, run_tinyscript, run_python, run_bytecode, run_other, module_lines. plain_stage; apply ends_elf_module.
Qed.

(** Running the modules panics for one reason only: an exception of one of
    their Python programs. *)
Lemma run_dir_ends fuel mbi s s' msg :
  run_dir (Hw := Hw) (I := I) MODULE_MODE call_module fuel mbi s = Ret (s', inl msg) -> uncaught_in_module msg.
Proof.
  assert (forall mods i, ends P (modules_loop (Hw := Hw) (I := I) MODULE_MODE call_module fuel mbi mods i)) as Hl.
  { induction fuel as [|fuel IH]; intros mods i; cbn [modules_loop]; unfold mods_count; plain_stage; [by intros ? ? ?|apply ends_module]. }
  revert s s' msg. change (ends P (run_dir (Hw := Hw) (I := I) MODULE_MODE call_module fuel mbi)). unfold run_dir.
  plain_stage. by apply ends_interpret.
Qed.
End Ends.

(** In the mode of the build no machine code of a module is entered. *)
Lemma micropython_mode_enters_nothing {L : Layout} {Hw I : Type} `{WordPorts Hw} `{Interpreter Hw I} call1 call2 fuel mbi (s : boot_state Hw I) :
  run_dir MODULE_MODE_MICROPYTHON call1 fuel mbi s = run_dir MODULE_MODE_MICROPYTHON call2 fuel mbi s.
Proof. reflexivity. Qed.

(** ** A directory of four modules *)

#[local] Existing Instance demo_layout.
#[local] Existing Instance demo_words.
#[local] Existing Instance demo_interpreter.
Definition demo_module (k : kernel demo_hw) (i : Z) (path code : list Z) : kernel demo_hw :=
  let at_ := 0x8300 + 256 * i in
  let k := store k (0x8200 + 16 * i) (le_bytes 4 at_ ++ le_bytes 4 (at_ + Z.of_nat (length code)) ++ le_bytes 4 (at_ + 128) ++ le_bytes 4 0) in
  store (store k at_ code) (at_ + 128) (path ++ [0]).
Definition demo_directory : kernel demo_hw :=
  let k := store demo_start 0x8014 (le_bytes 4 4 ++ le_bytes 4 0x8200) in
  let k := demo_module k 0 (str "/boot/a.ts") (str "1 print") in
  let k := demo_module k 1 (str "userland /boot/u.py") (str "1") in
  let k := demo_module k 2 (str "x /lib/Tool.PY") (str "1+2") in
  demo_module k 3 (str "/boot/s") (str "#mpyexo x" ++ [10] ++ str "3").
(** Outside userland mode: the script is skipped in the mode of the build, the
    user module always; the Python module is stored under its name, the script
    with a mark is run without its first line. *)
Example directory_runs :
  match run_dir MODULE_MODE_MICROPYTHON (fun _ k => Ret k) 10 0x8000 (set_kern demo_directory demo_bs) with
  | Ret (s, inr _) => interp (rt s)
  | _ => []
  end = [(str "Tool", loader_text (Mpymod (str "Tool") (str "1+2"))); (str "/boot/s", str "3")].
Proof. vm_compute. reflexivity. Qed.
