(* ===== verification/Hosted.v ===== *)
(** * kernel/debuglog.c and kernel/panic.c: the files of a hosted build

    Compiled for a host, saving the log writes it as JSON, an event per line,
    and a panic leaves a second file.  Here: the texts of these files, and what
    a JSON reader makes of the events. *)

From Stdlib Require Import ZArith Lia.
From stdpp Require Import base numbers gmap strings option list.
From S2P Require Import Prelude MemUtils Digits Machine Serial Console.

Local Open Scope Z_scope.

(** ** The log *)

Definition escape_byte (c : Z) : list Z :=
  if c =? 10 then [92; 110] else if c =? 34 then [92; 34] else if c =? 92 then [92; 92] else [c].
Definition json_escape (s : list Z) : list Z := s ≫= escape_byte.

(** The text up to the first [c], and what follows that. *)
Fixpoint split_at (c : Z) (s : list Z) : option (list Z * list Z) :=
  match s with
  | [] => None
  | d :: s => if d =? c then Some ([], s) else '(a, b) ← split_at c s; Some (d :: a, b)
  end.
(** The time stamp in front of a line, without its mark, and the message. *)
Definition event_parts (line : list Z) : option (list Z) * list Z :=
  if (6 <? length line)%nat && bool_decide (take 6 line = str "[ts=0x") then
    match split_at 93 (drop 6 line) with
    | Some (ts, rest) => (Some ts, match rest with c :: msg => if c =? 32 then msg else rest | [] => [] end)
    | None => (None, line)
    end
  else (None, line).
Definition quote : Z := 34.
Definition stamp_field (ts : option (list Z)) : list Z :=
  match ts with
  | Some ts => quote :: str "timestamp" ++ quote :: str ": " ++ quote :: str "0x" ++ json_escape ts ++ quote :: str ", "
  | None => []
  end.
Definition message_field (msg : list Z) : list Z :=
  quote :: str "message" ++ quote :: str ": " ++ quote :: json_escape msg ++ quote :: str " }".
Definition event_text (first : bool) (line : list Z) : list Z :=
  (if first then str "    { " else str "," ++ [10] ++ str "    { ") ++
  let '(ts, msg) := event_parts line in stamp_field ts ++ message_field msg.
(** The loop of [debuglog_save_file]: [line] holds the bytes from [start] to
    [i], reversed. *)
Fixpoint events_loop (log line : list Z) (first : bool) : list Z :=
  let event := match line with [] => [] | _ => event_text first (rev line) end in
  let first' := match line with [] => first | _ => false end in
  match log with
  | [] => event
  | c :: log => if c =? 10 then event ++ events_loop log [] first' else events_loop log (c :: line) first
  end.
Definition log_file (log : list Z) : list Z :=
  str "{" ++ [10] ++ str "  " ++ quote :: str "events" ++ quote :: str ": [" ++ [10] ++
  events_loop log [] true ++ [10] ++ str "  ]" ++ [10] ++ str "}" ++ [10].
Definition debuglog_save_file_hosted {Hw} (m : machine Hw) : list Z :=
  log_file (bytes_at (mram m) (log_buf (dlog m)) (Z.to_nat (log_pos (dlog m)))).

(** ** The panic *)

Definition hexdump_file (data : list Z) : list Z := data ≫= fun b => [HEX !!! Z.to_nat (Z.shiftr b 4); HEX !!! Z.to_nat (Z.land b 0xF)].
(** [%llx]. *)
Definition hex_lower (d : Z) : Z := if d <? 10 then 48 + d else 87 + d.
Fixpoint llx_loop (n : nat) (v : Z) (acc : list Z) : list Z :=
  match n with
  | O => acc
  | S n => let acc := hex_lower (v mod 16) :: acc in if v / 16 =? 0 then acc else llx_loop n (v / 16) acc
  end.
Definition llx (v : Z) : list Z := llx_loop 16 v [].
Definition field (name : string) (v : list Z) : list Z :=
  str "  " ++ quote :: str name ++ quote :: str ": " ++ quote :: v ++ [quote].
Definition crash_file (msg program : list Z) (rip : Z) (user : bool) (idt memory : list Z) : list Z :=
  str "{" ++ [10] ++
  field "message" msg ++ str "," ++ [10] ++
  field "rip" (str "0x" ++ llx rip) ++ str "," ++ [10] ++
  field "source" (if user then str "user" else str "kernel") ++ str "," ++ [10] ++
  field "program" program ++ str "," ++ [10] ++
  field "idt_dump" (hexdump_file idt) ++ str "," ++ [10] ++
  field "mem_dump" (hexdump_file memory) ++ [10] ++ str "}" ++ [10].

(** ** Reading the events back *)

Definition expect (p s : list Z) : option (list Z) := if bool_decide (take (length p) s = p) then Some (drop (length p) s) else None.
(** A JSON string behind its opening quote; control characters are errors. *)
Fixpoint read_string (s : list Z) : option (list Z * list Z) :=
  match s with
  | [] => None
  | c :: s =>
      if c =? 34 then Some ([], s)
      else if c <? 32 then None
      else if c =? 92 then
        match s with
        | e :: s =>
            d ← (if e =? 110 then Some 10 else if (e =? 34) || (e =? 92) then Some e else None);
            '(t, r) ← read_string s; Some (d :: t, r)
        | [] => None
        end
      else '(t, r) ← read_string s; Some (c :: t, r)
  end.
Definition stamp_mark : list Z := quote :: str "timestamp" ++ quote :: str ": " ++ quote :: str "0x".
Definition message_mark : list Z := quote :: str "message" ++ quote :: str ": " ++ [quote].
Definition read_event (s : list Z) : option (option (list Z) * list Z * list Z) :=
  s ← expect (str "    { ") s;
  '(ts, s) ← match expect stamp_mark s with
             | Some s => '(t, s) ← read_string s; s ← expect (str ", ") s; Some (Some t, s)
             | None => Some (None, s)
             end;
  s ← expect message_mark s;
  '(msg, s) ← read_string s;
  s ← expect (str " }") s;
  Some (ts, msg, s).
Definition log_head : list Z := str "{" ++ [10] ++ str "  " ++ quote :: str "events" ++ quote :: str ": [" ++ [10].
Definition log_tail : list Z := [10] ++ str "  ]" ++ [10] ++ str "}" ++ [10].
Fixpoint read_events (fuel : nat) (first : bool) (s : list Z) : option (list (option (list Z) * list Z)) :=
  if bool_decide (s = log_tail) then Some [] else
  match fuel with
  | O => None
  | S fuel =>
      s ← (if first then Some s else expect (str "," ++ [10]) s);
      '(ts, msg, s) ← read_event s;
      l ← read_events fuel false s;
      Some ((ts, msg) :: l)
  end.
(** The events of a file of at most [fuel] events. *)
Definition read_log (fuel : nat) (s : list Z) : option (list (option (list Z) * list Z)) := s ← expect log_head s; read_events fuel true s.

(** The lines that are not empty. *)
Fixpoint rows (log line : list Z) : list (list Z) :=
  let row := match line with [] => [] | _ => [rev line] end in
  match log with
  | [] => row
  | c :: log => if c =? 10 then row ++ rows log [] else rows log (c :: line)
  end.

Definition printable (s : list Z) : Prop := Forall (fun c => 32 <= c) s.

Lemma expect_app p s : expect p (p ++ s) = Some s.
Proof. unfold expect. by rewrite take_app_length, bool_decide_true, drop_app_length. Qed.
Lemma read_escaped s rest : printable s -> read_string (json_escape s ++ quote :: rest) = Some (s, rest).
Proof.
  induction 1 as [|c s Hc _ IH]; [done|]. unfold json_escape. cbn [mbind list_bind]. fold (json_escape s). unfold escape_byte.
  rewrite <- app_assoc. rewrite (proj2 (Z.eqb_neq c 10)) by lia. destruct (Z.eqb_spec c 34) as [->|H34]; [cbn; by rewrite IH|].
  destruct (Z.eqb_spec c 92) as [->|H92]; [cbn; by rewrite IH|]. cbn [app read_string].
  rewrite (proj2 (Z.eqb_neq c 34)), (proj2 (Z.ltb_ge c 32)), (proj2 (Z.eqb_neq c 92)), IH by (done || lia). done.
Qed.
Lemma split_at_parts c s a b : split_at c s = Some (a, b) -> s = a ++ c :: b.
Proof.
  revert a. induction s as [|d s IH]; intros a E; [done|]. cbn [split_at] in E. destruct (Z.eqb_spec d c) as [->|]; [by injection E as <- ->|].
  destruct (split_at c s) as [[a' b']|]; [|done]. injection E as <- ->. cbn. by rewrite (IH a').
Qed.
Lemma parts_printable line : printable line -> printable (event_parts line).2 /\ from_option printable True (event_parts line).1.
Proof.
  intros Hl. unfold event_parts. destruct (_ && _); [|done]. destruct (split_at 93 (drop 6 line)) as [[ts rest]|] eqn:E; [|done].
  apply split_at_parts in E. pose proof (Forall_drop _ 6 _ Hl) as Hd. rewrite E in Hd. apply Forall_app in Hd as [Ht Hr].
  apply Forall_cons in Hr as [_ Hr]. split; [|done]. cbn. destruct rest as [|c msg]; [done|]. case_test; [by apply Forall_cons in Hr as [_ ?]|done].
Qed.

Lemma read_event_text line rest : printable line ->
  read_event (event_text true line ++ rest) = Some ((event_parts line).1, (event_parts line).2, rest).
Proof.
  intros [Hm Ht]%parts_printable. unfold read_event, event_text. destruct (event_parts line) as [ts msg]. cbn [fst snd] in *.
  rewrite <- app_assoc, expect_app. cbn [mbind option_bind].
  assert (forall t : option (list Z), (s ← expect message_mark (message_field msg ++ rest); '(m, s) ← read_string s; s ← expect (str " }") s;
    Some (t, m, s)) = Some (t, msg, rest)) as Hmsg.
  { intros t. unfold message_field. change (quote :: str "message" ++ quote :: str ": " ++ quote :: json_escape msg ++ quote :: str " }")
      with (message_mark ++ json_escape msg ++ quote :: str " }"). rewrite <- !app_assoc, expect_app. cbn [mbind option_bind app].
    rewrite read_escaped by done. cbn [mbind option_bind]. by rewrite expect_app. }
  destruct ts as [ts|]; cbn [stamp_field from_option] in *.
  - change (quote :: str "timestamp" ++ quote :: str ": " ++ quote :: str "0x" ++ json_escape ts ++ quote :: str ", ")
      with (stamp_mark ++ json_escape ts ++ quote :: str ", "). rewrite <- !app_assoc, expect_app. cbn [mbind option_bind app].
    rewrite read_escaped by done. cbn [mbind option_bind]. rewrite expect_app. cbn [mbind option_bind]. apply Hmsg.
  - cbn [app]. assert (expect stamp_mark (message_field msg ++ rest) = None) as -> by done. cbn [mbind option_bind]. apply Hmsg.
Qed.
Lemma event_text_more line : event_text false line = (str "," ++ [10]) ++ event_text true line.
Proof. unfold event_text. by rewrite <- !app_assoc. Qed.

(** What a line says: its time stamp, which holds no closing bracket, and the
    message behind it; a line that does not begin with a stamp is a message. *)
Definition says (line : list Z) (event : option (list Z) * list Z) : Prop :=
  match event with
  | (Some ts, msg) => (93 ∉ ts) /\ exists gap, line = str "[ts=0x" ++ ts ++ 93 :: gap ++ msg /\ (gap = [32] \/ gap = [] /\ msg !! O <> Some 32)
  | (None, msg) => msg = line /\ forall ts rest, line <> str "[ts=0x" ++ ts ++ 93 :: rest
  end.
Lemma split_at_first c s a b : split_at c s = Some (a, b) -> (c ∉ a).
Proof.
  revert a. induction s as [|d s IH]; intros a E; [done|]. cbn [split_at] in E. destruct (Z.eqb_spec d c) as [->|Hn].
  - injection E as <- <-. apply not_elem_of_nil.
  - destruct (split_at c s) as [[a' b']|] eqn:Es; [|done]. cbn in E. injection E as <- ->. apply not_elem_of_cons. split; [done|by apply IH].
Qed.
Lemma split_at_finds c a b : is_Some (split_at c (a ++ c :: b)).
Proof.
  induction a as [|d a IH]; cbn [app split_at]; [rewrite Z.eqb_refl; by eexists|]. destruct (d =? c); [by eexists|].
  destruct IH as [[x y] ->]. by eexists.
Qed.
Lemma event_parts_says line : says line (event_parts line).
Proof.
  unfold event_parts. destruct (Nat.ltb_spec 6 (length line)) as [Hl|Hl].
  2: { split; [done|]. intros ts rest ->. rewrite !length_app in Hl. cbn in Hl. lia. }
  cbn [andb]. case_bool_decide as Hm.
  2: { split; [done|]. by intros ts rest ->. }
  destruct (split_at 93 (drop 6 line)) as [[ts rest]|] eqn:Es.
  - split; [by eapply split_at_first|]. assert (line = str "[ts=0x" ++ ts ++ 93 :: rest) as Hline
      by (rewrite <- (take_drop 6 line), Hm, (split_at_parts _ _ _ _ Es); done).
    destruct rest as [|c rest]; [exists []; by auto|]. destruct (Z.eqb_spec c 32) as [->|Hn]; [exists [32]; by auto|].
    exists []. split; [done|]. right. split; [done|]. cbn. congruence.
  - split; [done|]. intros ts rest ->. destruct (split_at_finds 93 ts rest) as [x Hx].
    change (drop 6 (str "[ts=0x" ++ ts ++ 93 :: rest)) with (ts ++ 93 :: rest) in Es. congruence.
Qed.
Lemma log_file_read log :
  Forall (fun c => 32 <= c \/ c = 10) log -> read_log (length log) (log_file log) = Some (event_parts <$> rows log []).
Proof.
  intros Hl. assert (forall l line first fuel, Forall (fun c => 32 <= c \/ c = 10) l -> printable line -> (length (rows l line) <= fuel)%nat ->
    read_events fuel first (events_loop l line first ++ log_tail) = Some (event_parts <$> rows l line)) as Hloop.
  { clear. assert (forall line first fuel s more, printable line -> line <> [] -> (length more < fuel)%nat ->
      (forall fuel, (length more <= fuel)%nat -> read_events fuel false s = Some (event_parts <$> more)) ->
      read_events fuel first (event_text first (rev line) ++ s) = Some (event_parts <$> rev line :: more)) as Hone.
    { intros line first fuel s more Hp Hne Hf Hs. destruct fuel as [|fuel]; [cbn in Hf; lia|]. cbn [read_events].
      rewrite bool_decide_false by (by destruct first).
      assert ((if first then Some (event_text first (rev line) ++ s) else expect (str "," ++ [10]) (event_text first (rev line) ++ s)) =
        Some (event_text true (rev line) ++ s)) as ->.
      { destruct first; [done|]. by rewrite event_text_more, <- app_assoc, expect_app. }
      cbn [mbind option_bind]. rewrite read_event_text by by apply Forall_rev. cbn [mbind option_bind].
      rewrite Hs by (cbn in Hf; lia). cbn [mbind option_bind fmap list_fmap]. by destruct (event_parts (rev line)). }
    induction l as [|c l IH]; intros line first fuel Hl Hp Hf; cbn [events_loop rows] in *.
    - destruct line as [|d line]; [by destruct fuel|]. apply Hone; [done..|cbn in *; lia|]. intros f _. by destruct f.
    - apply Forall_cons in Hl as [Hc Hl]. destruct (Z.eqb_spec c 10) as [->|Hn].
      + destruct line as [|d line]; [apply (IH [] first fuel); [done|constructor|done]|]. rewrite <- app_assoc. cbn [app] in *.
        apply Hone; [done..|cbn in *; lia|]. intros f Hfl. apply (IH [] false f); [done|constructor|done].
      + apply IH; [done| |done]. constructor; [lia|done]. }
  unfold read_log, log_file.
  change (str "{" ++ [10] ++ str "  " ++ quote :: str "events" ++ quote :: str ": [" ++ [10] ++ events_loop log [] true ++ [10] ++ str "  ]" ++ [10] ++ str "}" ++ [10])
    with (log_head ++ events_loop log [] true ++ log_tail). rewrite expect_app. cbn [mbind option_bind]. apply Hloop; [done|constructor|].
  assert (forall l line, (length (rows l line) <= length l + (if line is [] then 0 else 1))%nat) as Hlen.
  { clear. induction l as [|c l IH]; intros line; cbn [rows length]; [by destruct line|]. destruct (c =? 10).
    - rewrite length_app. specialize (IH []). cbn in IH. destruct line; cbn [length]; lia.
    - specialize (IH (c :: line)). cbn in IH. lia. }
  specialize (Hlen log []). cbn in Hlen. lia.
Qed.

(** C25: the log file of a hosted build reads back as the log: as JSON it has one
    event per line that is not empty, in order, with the time stamp cut off the
    line and the rest as its message, quotes and backslashes included; logs
    with control characters other than the line end excepted. *)
Theorem log_file_reads_back log :
  Forall (fun c => 32 <= c \/ c = 10) log ->
  exists events, read_log (length log) (log_file log) = Some events /\ Forall2 says (rows log []) events.
Proof.
  intros Hl. eexists. split; [by apply log_file_read|]. apply Forall2_fmap_r, Forall_Forall2_diag, Forall_forall. intros line _. apply event_parts_says.
Qed.
Definition demo_log : list Z := str "[ts=0x1F] a" ++ [34; 92] ++ [10; 10] ++ str "b".
Lemma log_file_reads_back_witness :
  exists events, read_log (length demo_log) (log_file demo_log) = Some events /\ Forall2 says (rows demo_log []) events.
Proof. apply (log_file_reads_back demo_log). repeat constructor; cbn; lia. Defined.
Example demo_log_events : read_log (length demo_log) (log_file demo_log) = Some [(Some (str "1F"), str "a" ++ [34; 92]); (None, str "b")].
Proof. reflexivity. Qed.
(** The panic's file escapes nothing: a message with a quote ends its string. *)
Lemma crash_message_not_escaped : exists head, crash_file (str "a" ++ [34] ++ str "b") (str "p") 0 false [] [] =
  head ++ str "a" ++ [34] ++ str "b" ++ [34; 44; 10] ++ drop (length head + 6) (crash_file (str "a" ++ [34] ++ str "b") (str "p") 0 false [] []).
Proof. exists (str "{" ++ [10] ++ str "  " ++ [34] ++ str "message" ++ [34] ++ str ": " ++ [34]). by vm_compute. Qed.
