(* ===== verification/HostTests.v ===== *)
(** * tests/memory_test.c and tests/fs_test.c: the tests of the build host

    The allocator and the volume compiled for the host, the console being a stub:
    each test returns the exit status of its program.  The heap that fs_test.c
    sets up is not used by the volume and left out. *)

From Stdlib Require Import ZArith Lia.
From stdpp Require Import base numbers gmap strings option list.
From S2P Require Import Prelude MemUtils Heap HeapTheorems Allocator MemApps Fat32.

Local Open Scope Z_scope.

Section Memory.
Context {L : Layout}.

(** The heap and the literal [hi] are static data. *)
Definition memory_test (m : gmap Z Z) (heap hi : Z) : outcome Z :=
  let s := apps_init (heap_init m false [] heap 0x10000) 1 in
  let '(s, id) := mem_register_app s 5 in
  if id <? 0 then Ret 1 else
  '(s, a) ← mem_alloc_app s id 1024;
  '(s, b) ← mem_alloc_app s id 2048;
  if (a =? 0) || (b =? 0) then Ret 1 else
  if negb (mem_app_used s id =? 3072) then Ret 1 else
  '(s, idx) ← mem_save_app s id hi 3;
  if idx <? 0 then Ret 1 else
  let '(s, p, sz) := mem_retrieve_app s id idx in
  if (p =? 0) || negb (bool_decide (sz = Some 3)) then Ret 1 else
  if negb (rd (al_ram (MemApps.mem s)) p =? 104) || negb (rd (al_ram (MemApps.mem s)) (p + 1) =? 105) then Ret 1 else
  '(k, large_a) ← mem_alloc (MemApps.mem s) 20000;
  '(k, large_b) ← mem_alloc k 20000;
  if (large_a =? 0) || (large_b =? 0) then Ret 1 else
  k ← mem_free k large_a 20000;
  k ← mem_free k large_b 20000;
  '(k, large_merged) ← mem_alloc k 38000;
  if large_merged =? 0 then Ret 1 else Ret 0.
End Memory.

(** ** The volume *)

Definition host_put (p : Z) (n : nat) (v : Z) (m : gmap Z Z) : gmap Z Z := store_bytes m p (le_bytes n v).
Definition make_fat32 (img : Z) (m : gmap Z Z) : gmap Z Z :=
  let total_sectors := 70000 in
  let reserved := 32 in
  let sectors_per_fat := 600 in
  let m := store_bytes m img ([0xEB; 0x58; 0x90] ++ str "EXOFAT32") in
  let m := host_put (img + 11) 2 512 m in
  let m := wr m (img + 13) 1 in
  let m := host_put (img + 14) 2 reserved m in
  let m := wr m (img + 16) 1 in
  let m := host_put (img + 17) 2 0 m in
  let m := host_put (img + 19) 2 0 m in
  let m := wr m (img + 21) 0xF8 in
  let m := host_put (img + 22) 2 0 m in
  let m := host_put (img + 32) 4 total_sectors m in
  let m := host_put (img + 36) 4 sectors_per_fat m in
  let m := host_put (img + 44) 4 2 m in
  let m := store_bytes m (img + 82) (str "FAT32") in
  let m := wr m (img + 510) 0x55 in
  let m := wr m (img + 511) 0xAA in
  let fat := img + reserved * 512 in
  let m := host_put (fat + 0) 4 0x0FFFFFF8 m in
  let m := host_put (fat + 4) 4 0x0FFFFFFF m in
  host_put (fat + 8) 4 0x0FFFFFFF m.

Definition on_memory (s : fs) (f : gmap Z Z -> gmap Z Z) : fs := Fat32.set_ram s (f (Fat32.ram s)).
Definition payload_bytes : list Z := (fun i => 65 + Z.of_nat i mod 26) <$> seq 0 700.
Definition same_payload (s : fs) (payload out : Z) : bool := memcmp (Fat32.ram s) payload out 700 =? 0.

(** The local arrays and the literal [msg]; [image] is the address of the zeroed
    memory that [calloc] returns, or 0. *)
Record test_arrays := TestArrays { raw : Z; msg : Z; tmp : Z; payload : Z; out : Z; image : Z }.
Definition test_raw (x : test_arrays) (s : fs) : fs * bool :=
  let s := fs_mount s (raw x) 128 in
  let s := on_memory s (fun m => store_bytes m (msg x) (str "hello" ++ [0])) in
  let '(s, n) := fs_write s 0 (msg x) 6 in
  if negb (n =? 6) then (s, false) else
  let '(s, n) := fs_read s 0 (tmp x) 6 in
  if negb (n =? 6) then (s, false) else
  (s, memcmp (Fat32.ram s) (msg x) (tmp x) 6 =? 0).
Definition test_write (x : test_arrays) (s : fs) : outcome (fs * bool) :=
  '(s, fd) ← fs_open s (Some (str "/KERNEL.TXT")) (Z.lor (Z.lor FS_O_CREAT FS_O_RDWR) FS_O_TRUNC);
  if fd <? 0 then Ret (s, false) else
  let s := on_memory s (fun m => store_bytes m (payload x) payload_bytes) in
  '(s, n) ← fs_write_fd s fd (payload x) 700;
  if negb (n =? 700) then Ret (s, false) else
  if negb (fs_file_size s fd =? 700) then Ret (s, false) else
  let '(s, r) := fs_lseek_fd s fd 0 FS_SEEK_SET in
  if negb (r =? 0) then Ret (s, false) else
  '(s, n) ← fs_read_fd s fd (out x) 700;
  if negb (n =? 700) then Ret (s, false) else
  if negb (same_payload s (payload x) (out x)) then Ret (s, false) else
  let '(s, r) := fs_close s fd in Ret (s, r =? 0).
Definition test_reopen (x : test_arrays) (s : fs) : outcome (fs * bool) :=
  '(s, fd) ← fs_open s (Some (str "KERNEL.TXT")) FS_O_RDONLY;
  if fd <? 0 then Ret (s, false) else
  '(s, n) ← fs_read_fd s fd (out x) 700;
  if negb (n =? 700) then Ret (s, false) else
  if negb (same_payload s (payload x) (out x)) then Ret (s, false) else
  let '(s, r) := fs_close s fd in Ret (s, r =? 0).
Definition fs_test (x : test_arrays) (s : fs) : outcome Z :=
  let '(s, ok) := test_raw x s in
  if negb ok then Ret 1 else
  if image x =? 0 then Ret 1 else
  let s := on_memory s (make_fat32 (image x)) in
  let s := fs_mount s (image x) (70000 * 512) in
  if negb (fs_is_fat32 s) then Ret 1 else
  '(s, ok) ← test_write x s;
  if negb (ok : bool) then Ret 1 else
  '(s, ok) ← test_reopen x s;
  Ret (if ok : bool then 0 else 1).

(** Both programs exit with success on the model. *)
#[local] Existing Instance demo_layout.
Lemma host_tests_pass :
  memory_test (store_bytes ∅ 0x9000 (str "hi" ++ [0])) 0x200000 0x9000 = Ret 0 /\
  fs_test (TestArrays 0x1000 0x1100 0x1200 0x2000 0x3000 0x100000) (Fs ∅ 0 0 0 zero_fat [] []) = Ret 0.
Proof. split; by vm_compute. Qed.
